(* ===== verification/_CoqProject ===== *)
-Q . S2P
Prelude.v
Calendar.v
CStr.v
CronField.v
CronParse.v
CronNext.v
CronNextCorrect.v
CronMeaning.v
World.v
Slots.v
Json.v
CronRpc.v
CronRpcCorrect.v
CronJobs.v
CronJobsInv.v
CronJobsApi.v
CronTimer.v
CronDemo.v
TmHost.v
OnceJob.v
TmStore.v
TmAlarm.v
TmAlarmTime.v
TmAlarmCorrect.v
TmReminder.v
TmReminderCorrect.v
TmFeatureDemo.v
TmStopwatch.v
TmCountdown.v
TmCountdownCorrect.v
TmPomodoro.v
TmPomodoroCorrect.v
TmService.v
TmCron.v
TmDemo.v
AudioDsp.v
AudioDspCorrect.v
AudioPlayer.v
AudioMix.v
AudioSafe.v
AudioApi.v
Playlist.v
PlaylistCorrect.v
AudioDemo.v
ModeHost.v
ModeHold.v
ModeOneshot.v
ModeWakeup.v
ModeFree.v
ToyConfig.v
ModeMgr.v
ModeChat.v
ModeMgrCorrect.v
ModeDevices.v
ModePicture.v
ModeDetect.v
ModeSystem.v
McpCore.v
McpTools.v
McpExtras.v
McpServer.v
McpRules.v
McpTyped.v
McpListing.v
McpAnswers.v
McpService.v
McpCalls.v
McpTm.v
McpTmTools.v
McpTmTime.v
McpTimers.v
McpTimersHost.v
McpDemo.v
Keys.v
KeyGestures.v
KeyDriver.v
KeyThread.v
Leds.v
GfwLink.v
GfwQueue.v
