(* ===== verification/Prelude.v ===== *)
(** * The conversation core of the wukong AI device, verified

    The program is a voice-assistant device written in C. This development
    covers the part that decides what the device does and when: the cron
    service that runs JSON-RPC requests at set times, the time-management
    features built on it, and the interaction modes that turn key presses,
    wake words, voice activity and cloud events into recording, upload and
    playback; the audio player; the server through which the cloud's agent
    operates the device; the drivers of keys and indicator; and the link to the
    audio processor. Paths below are relative to src/apps/src/.

    ** Parts, and how they interact

    - Cron expressions (wukong/cron/wukong_cron_expr.c): six fields, each a
      64-bit mask, parsed from text, matched against local time, and searched
      for the next firing time.
    - JSON-RPC registry (wukong/cron/wukong_cron_rpc.c): 16 slots of method
      name and handler, and the execution of one request.
    - Cron service (wukong/cron/wukong_cron.c): 16 job slots and one software
      timer armed for the earliest firing. The timer callback hands the requests
      of the due jobs to the work queue; the worker executes them with the
      registry.
    - Time management (wukong/tm/): stopwatch, countdown, pomodoro, reminders and
      alarms, started and stopped together. All but the stopwatch schedule
      themselves by adding cron jobs whose request calls back a method they
      registered; reminders and alarms keep their tables in the key-value store;
      all tell the rest of the program what happened by events with a TLV payload.
    - Interaction modes (mode/): four conversation modes (hold, oneshot, wakeup,
      free) and five device modes, each a table of callbacks, behind a manager
      that keeps a two-level mode and dispatches to the active table. The modes
      handle, among others, the countdown's events; the detection mode's key
      switches the device mode through the manager that called it.
    - Audio player (miscs/audio_player/src/): a thread with a queue of two commands
      and two players, foreground and background, that moves audio from a source
      through a decoder, volume, resampling and mixing to the speaker; and
      playlists, which start the next item from the callback of a stop.
    - MCP server (wukong/mcp/): JSON-RPC requests of the cloud's agent, routed to
      tools, resources, prompts and logging. A tool call is checked against the
      tool's schema, waits in the work queue and is answered by a worker. The
      time-management tools (tools/mcp_tool_tm.c) let the agent operate alarms,
      reminders and timers, and reply with JSON texts.
    - Stored mode (tuya_ai_toy.c): the configuration byte that makes the mode
      survive a reboot.
    - Keys (drivers/app_tuya_key/, tuya_ai_toy_key.c): a thread, woken by the pin
      interrupt and put to sleep by a timer, that samples every key and reports
      its gestures; their events are what the modes' key callbacks receive.
    - Indicator (drivers/app_tuya_led/, tuya_ai_toy_led.c): LEDs that are steady or
      flash, driven by one timer of 100 ms; the modes switch it.
    - Link to the audio processor (miscs/uart_codec/src/gfw_core/): frames, the
      receiver that finds them in the bytes that arrive, the table of commands,
      and the queue that sends commands, repeats them and waits for answers.

    ** Files

    - [Prelude]: error codes, machine integers, tactics, bounded iteration.
    - [CStr]: the functions of <string.h>, <stdlib.h> and <stdio.h> in use.
    - [World]: the monad of C functions over explicit state, in which [None] is
      undefined behaviour, total correctness [wp], and the operating system as
      an environment that decides clock readings, allocations and the results of
      calls, and records effects; and the event codes shared by all.
    - [Slots]: a slot table represents a finite map (shared by the registry and
      the job table). [Json]: cJSON values and member lookup, and printf's %g.
    - [Calendar]: broken-down time, its normalisation, day-number arithmetic, and
      the time-service interface with one implementation.
    - [CronField], [CronParse], [CronNext]: masks, parser, matcher and search of
      wukong_cron_expr.c, function by function; [CronNextCorrect] and
      [CronMeaning] verify them.
    - [CronRpc] (wukong_cron_rpc.c), verified in [CronRpcCorrect].
    - [CronJobs] (wukong_cron.c); [CronJobsInv] its invariant, [CronJobsApi] the
      job API, [CronTimer] the timer, the worker and every other entry point,
      [CronDemo] concrete runs.
    - [TmHost]: what the time-management features need from the rest of the
      program, as a class [TmHost] with laws [TmHostLaws]; the TLV encoding and
      one-shot jobs of wukong_tm_internal.h; and, for theorems that count the
      jobs a feature leaves in the cron service, the class [TmJobs] with laws
      [TmJobsLaws]. [OnceJob]: when those jobs fire.
    - [TmStore]: what reminders and alarms share: the key-value store as a class
      [KvStore] with laws [KvStoreLaws], list events, escaping, slots found by
      name. [TmReminder] (wukong_tm_reminder.c) verified in [TmReminderCorrect];
      [TmAlarm] (wukong_tm_alarm.c) verified in [TmAlarmTime] (when an alarm
      rings) and [TmAlarmCorrect] (the table and the ringing). [TmFeatureDemo] has a
      device and a store, and runs both on them.
    - [TmStopwatch], [TmCountdown], [TmPomodoro] (wukong_tm_stopwatch.c,
      wukong_tm_countdown.c, wukong_tm_pomodoro.c); [TmCountdownCorrect] and
      [TmPomodoroCorrect] refine the last two to abstract state machines.
    - [TmService] (wukong_tm.c): start and stop of the five features, with
      the theorems about them.
    - [TmCron]: the cron service discharges [TmHost] and [TmHostLaws], [TmJobs]
      and [TmJobsLaws]; [TmDemo]
      runs the features on it, and starts and stops them.
    - [AudioDsp]: sample processing on the bytes of a buffer (mixer/mixer_fixed.c,
      resample/resample_fixed.c, resample/ai_player_resample.c) with its
      floating-point count, verified in [AudioDspCorrect]. [AudioPlayer]
      (svc_ai_player.c) over the classes [AudioDev] (sources, decoders, speaker)
      and [PlaylistHook]; [AudioMix] verifies the mixing of two streams,
      [AudioSafe] the rounds of the thread and [AudioApi] the calls, against
      [AudioDevLaws] and [PlaylistLaws]. [Playlist] (svc_ai_playlist.c) is the
      instance of the hook, and [PlaylistCorrect] discharges its laws; [AudioDemo]
      runs both on a small device.
    - [ModeHost]: what the mode files share (wukong_ai_mode.h and the helpers
      repeated in each file), device calls recorded in order; [ModeHold],
      [ModeOneshot], [ModeWakeup], [ModeFree]: the four mode files.
    - [ToyConfig]: the mode part of tuya_ai_toy.c.
    - [ModeMgr] (wukong_ai_mode.c) over the class [ModeTable] of the modes'
      callback tables; [ModeChat] verifies the conversation modes,
      [ModeMgrCorrect] the manager against the class [ModeLaws].
    - [ModeDevices]: translate, P2P and record mode; [ModePicture]: picture mode
      and its queue (wukong_picture_input.c); [ModeDetect]: detection mode, with
      the sampling of frames and its machine of four phases. [ModeSystem]
      discharges [ModeLaws] for all modes together and lets the detection mode's
      key reach the manager.

    - [McpCore] (mcp_server.c, mcp_content.c): the server's
      data, transport and content; [McpTools] (mcp_server_tools.c), [McpExtras]
      (mcp_server_resources.c, mcp_server_prompts.c, mcp_server_logging.c),
      [McpServer] (routing and life cycle of mcp_server.c), over the class
      [McpHost] of the agent's connection, the work queue and the handlers.
      [McpRules] has the laws [McpHostLaws] and the rules of evaluation with
      memory to spare, [McpTyped] what is checked of arguments, [McpListing] the pages of
      the tool list, [McpAnswers] the handlers of the routes, [McpService] the worker, whole
      requests and the invariant, [McpCalls] what a client sees.
    - [McpTm], [McpTmTools] (mcp_tool_tm.c, wukong_ai_mcp.c): the time-management
      tools and their registration; [McpTmTime] verifies the local times,
      [McpTimers] the schedule tool's buffer and the stopwatch tool;
      [McpTimersHost] is the instance of [McpHost] in which the timers' tools run
      on the features, and discharges its laws. [McpDemo] has a printer, hosts and
      runs.

    - [Keys] (tuya_key.c, tuya_ai_toy_key.c): the scanner of a key, the driver, and
      its thread, interrupt and timer as steps. [KeyGestures] is the scanner as a
      pure machine on samples, [KeyDriver] lifts it to the driver's rounds,
      [KeyThread] verifies start, registration and the interleavings. [Leds]
      (tuya_led.c, tuya_ai_toy_led.c) with its theorems.
    - [GfwLink] (gfw_core_frame.c, gfw_core_dispatcher.c, gfw_core_cmd.c), its
      receiver verified against a scan of the whole stream; [GfwQueue]
      (gfw_core_cmd_queue.c) with its refinement to a plain list.

    C functions keep their names; a static context becomes a record of the same
    name with the same fields, a NULL-able pointer an option, a C string the
    text before its NUL, an enumeration used as an array index an integer.
    Handlers registered by pointer are values of an inductive type with one
    constructor per handler ([TM_METHOD], [CALLBACK]).

    ** What the theorems show

    - Expressions: printing then parsing a legal expression gives masks whose
      matching is cron's day rule over the denoted sets
      ([expr_parse_meaning]); whatever is accepted has non-empty masks of legal
      values ([expr_parse_sound]); the parser's only undefined behaviour
      ([item_parse_undefined]); the search returns exactly the first later
      second that matches, or says that there is none ([next_fire_correct]).
    - Registry: registering and unregistering refine a bounded finite map
      ([register_refines], [unregister_refines]); every request gets exactly one
      answer, by rules that leave JSON-RPC 2.0 in three places
      ([execute_json_answers]).
    - Cron service: add, update and remove refine a map of at most 16 jobs
      ([job_add_refines], [job_update_refines], [job_remove_refines],
      [auto_id_collides]); the timer callback runs exactly the due jobs
      ([timer_cb_correct]); the table is scheduled when time becomes known
      ([time_ready_notify_correct]); every call of the service, those that run
      requests included, keeps the invariant of jobs and registry
      ([cron_call_invariant]).
    - Time management: the stopwatch measures running time
      ([stopwatch_measures_running_time]); countdown and pomodoro refine their
      abstract machines ([countdown_refines], [pomodoro_refines]), the countdown
      with the jobs that the cron service holds for it, and with the
      cadence of ticks, the rotation of phases and the layout of events
      ([tick_cadence], [pomodoro_rotation], [countdown_event_layout]); a one-shot
      job fires at its instant ([once_job_timing]). Reminders and alarms refine
      finite maps of at most eight entries, a success having a cron job
      ([reminders_refine], [alarms_refine]); a once alarm that is over stays,
      switched off; reminders survive a reboot
      ([reminders_survive_reboot]) and queries list all that match
      ([reminder_query_complete]); an alarm's job fires exactly at its local times
      ([alarm_rings_when_due], [once_alarm_rolls_over],
      [semantic_match_same_times]); ringing, snoozing and acknowledging are an
      automaton per alarm ([alarm_ring_step], [unanswered_alarm_finishes]). Starting
      and stopping the five together always ends in a known state
      ([time_manage_lifecycle]).
    - Modes: the device shows the state its mode is in ([chat_mode_shows_state],
      [hold_push_to_talk]), where a turn ends ([conversation_turn]), which events
      sound the alert ([countdown_finish_alerts]); exactly the mode that the
      two-level state names is awake, across switching, cycling, dispatching and
      booting ([mode_mgr_correct], [mode_boot]); the mode survives a reboot
      ([mode_survives_reboot]).
    - Device modes: the detection mode refines a machine of four phases
      ([detection_refines]), asks for a photo only after it has watched long
      enough ([photo_needs_watching]), gives up waiting ([think_timeout]), and its
      key cancels or leaves ([detection_key]); sampling a frame stays inside both
      buffers ([extract_spec]). What becomes of queued pictures follows from
      the answers of album and agent ([pictures_sent], [picture_add_wp], [picture_del_wp]); packets of the encoder all reach the
      recording ([encoded_wp]).

    - Audio: every state of the player service that clients can bring about keeps
      the bounds of all buffers and the bookkeeping of the active player, and
      every allowed call is defined there ([player_service_safe]); stopping ends
      ([player_stop_stops]); mixing is the sample-wise saturating sum whatever the
      chunk boundaries ([mixing_exact]); in-place resampling equals resampling
      apart for input not slower than the output ([resample_in_place]); where each
      playlist command lands ([playlist_commands_land]).

    - MCP server: every request with a text as its identifier is answered exactly
      once, a notification not at all, anything else refused at once
      ([request_answered]); what waits for the worker has its required arguments,
      its numbers within bounds, in every state that can be reached
      ([tool_arguments_typed]; declared types are not checked); what tools/call refuses and how it says so
      ([tool_call_checked]); reading the list of tools page by page is complete
      ([tools_listed], and [oversize_repeats] for a tool that fits no page). The
      tools find the right instant of a local date ([schedule_time_exact]); the
      stopwatch tool replies with the session's elapsed time
      ([stopwatch_tool_replies]); the schedule tool's buffer is large enough for
      short identifiers only ([schedule_reply_bounds]); requests leave the timers
      well formed ([timers_served]).

    - Keys: what a gesture reports ([key_gestures]); isolated samples are ignored
      ([key_debounced]) and every press ends ([key_released]); an interrupt leads
      to a scan unless the timer of the polling expires before it, and when that
      loses the interrupt ([key_wakes_up], [interrupts_lost]); starting and
      registering, failures included ([key_init_outcome], [key_registered],
      [toy_key_installed]); low power is off exactly while keys are polled
      ([key_lp_balanced]).
    - Indicator: the rhythm and the end of flashing ([led_flashes]), creation
      ([led_created]).
    - Link: what is packed arrives, however it is cut into pieces
      ([frames_delivered]), in a buffer that never fills; a command goes to the
      first entry that takes it ([dispatch_first]). The ring of commands is a list
      with an urgent command in front ([cmd_queue_refines]), and without answers it
      empties itself in order ([queue_drains]).

    A theorem about an operation is one of total correctness: the operation is
    defined and returns, whatever the environment answers, and on error returns
    the state is the one stated.

    ** Bounds and fuel

    - The mask loops run at most 64 rounds of a 6-bit value; the list loop of the
      parser has one round per character of the text and one more.
    - The next-fire search has 2^28 rounds, written in binary; each round moves
      the candidate forward by at least a second inside a window of five years
      (less than 2^28 seconds), so it always ends by itself.
    - Slot loops run over the 16 slots; the mode manager's over the four
      sub-modes and the device modes it has entries for.
    - A caller that waits for the player thread lets it run: two rounds for a stop,
      since the queue holds two commands, and for a start as many as fit in the
      ten seconds, which the environment decides.
    - The receiver's loop has one round per byte of its buffer and one more; each
      round drops a byte at least. The theorem on delivery runs two rounds of the
      dispatcher per byte of the stream, enough whatever each read returns.
    - The queue's timer makes as many rounds as [item_rounds] says for each command.
    - Theorems about the scanning of keys assume the rounds few enough for the
      times of a key to stay in 32 bits ([room]); overflow is undefined.
    - Counters and times are 32-bit and wrap where the code lets them; theorems
      that need a time away from the ends of the range say so ([clock_ok]).

    ** Parameters and what is assumed of them

    - What the cron service promises the features about its jobs ([TmJobsLaws]):
      adding gives the new job's id, or an error, after which one more job may be
      there all the same; removing takes one job of that id. [TmCron] proves it.
    - The time service ([TimeService]): local time from a time stamp and back.
      Theorems about firing times assume a constant offset from UTC in quarter
      hours ([FixedZone]); [Calendar] has such a service.
    - cJSON parsing and printing ([JsonText]); [TmCron] assumes that the texts the
      features print are read back as printed ([OnceJson]).
    - The key-value store ([KvStore], [KvStoreLaws]): a successful read returns what
      the last successful write stored, and keys are independent. The addresses of
      the tables, which the list events carry ([TmLayout]). The event service and
      the clock's checks ([TimeSync]). The texts that a device reads back are
      assumed to be those of the document printed, where a theorem needs it.
    - The MCP server's connection, work queue and handlers ([McpHost],
      [McpHostLaws]): none but the connection sends anything. Theorems that assume
      memory to spare say so ([roomy], [th_ample]); [arguments_lost] shows what a
      failed allocation does. Its capabilities are switches ([McpConfig]).
    - Handlers of the registry: arbitrary ([RpcInvoke]), or those of the features;
      [cron_call_invariant] assumes that they keep its invariant, and that cron
      texts keep clear of the parser's undefined step ([call_defined]).
    - The player's sources, decoders and speaker ([AudioDev], [AudioDevLaws]): a read
      returns no more than was asked for, and a decoder describes output inside the
      buffer at 16 kHz or more ([sound_output]); slower input is a defect that
      [upsampling_overflows] shows, so [player_service_safe] holds for media of
      that rate or more. [AudioDemo] is such a device.
    - The levels of the pins, the bytes that a read of the link gets, and the results
      of the calls of drivers and operating system ([KeyWorld], [LedWorld],
      [GfwWorld], [GqWorld]): arbitrary functions. [frames_delivered] assumes that
      every read gets something while there is something, and that less than two
      seconds pass between two looks at an unfinished frame ([steady]), after which
      the receiver gives it up; theorems on the queue that semaphores can be
      created ([sems]), and on its timer that it can be started ([awake]).
    - The build options of the modes ([ModeConfig]).
    - Camera, motion detection, album, codec and the audio channel of P2P: recorded
      calls whose results are arbitrary ([DEV_ANSWERS]); the HTTP call and the
      session of the translation's languages: parameters. Theorems on the detection
      mode assume a camera of three pixels a side at least.
    - Player, agent, indicator, audio input and display: calls of [DEV_CALL]
      recorded in order, not run. What they bring about later (playback has
      ended, the cloud has answered) arrives as a later callback.

    ** Not modelled

    - Mutexes and threads: a function that holds its lock for its whole body is
      one step. The work queue is the list of accepted requests. The player thread
      runs in whole rounds; the mutex of a playlist, which a client holds while it
      waits for that thread, is modelled. Two clients calling at once are not.
    - Log output, and memory that is only allocated and freed.
    - The MCP tools that operate other services (control, playback, camera, motion,
      immersive, social): they are the other toolkits of [wukong_ai_mcp_init]. The
      worker runs between requests, not during one.
    - The volume, network and low-power handling of tuya_ai_toy.c; the album's
      browser and the pictures that the cloud sends; the sources and decoders of the player, its
      reduced build and its client: each needs a model of the cloud session, the
      file system or a codec, of which the source has only calls.
    - The clients of the link (gfw_core.c, tdd_comm_audio.c, tdl_comm_audio.c,
      gfw_mcu_ota.c), which move audio and firmware between devices; in the link
      itself, resuming a paused receiver, and a command handler that replaces the
      table.
    - Third-party decoders, cloud SDK, graphics and board support: not the
      program's own logic, or device I/O. *)
From Stdlib Require Export ZArith Lia Ascii String.
From stdpp Require Export base tactics numbers list strings.
#[global] Open Scope Z_scope.

(** ** Error codes (include/base/include/tuya_error_code.h) *)

Abbreviation OPERATE_RET := Z (only parsing).
Definition OPRT_OK : OPERATE_RET := 0.
Definition OPRT_COM_ERROR : OPERATE_RET := -1.
Definition OPRT_INVALID_PARM : OPERATE_RET := -2.
Definition OPRT_MALLOC_FAILED : OPERATE_RET := -3.
Definition OPRT_NOT_SUPPORTED : OPERATE_RET := -4.
Definition OPRT_NOT_FOUND : OPERATE_RET := -6.
Definition OPRT_TIMEOUT : OPERATE_RET := -20.
Definition OPRT_INDEX_OUT_OF_BOUND : OPERATE_RET := -22.
Definition OPRT_RESOURCE_NOT_READY : OPERATE_RET := -23.
Definition OPRT_EXCEED_UPPER_LIMIT : OPERATE_RET := -24.
Definition OPRT_BUFFER_NOT_ENOUGH : OPERATE_RET := -31.

(** ** Machine integers: UINT_T and TIME_T are unsigned 32-bit, INT_T is a
    signed 32-bit integer, on the 32-bit target. *)

Abbreviation TIME_T := Z (only parsing).
Definition u32 (z : Z) : Z := z mod 2 ^ 32.
Definition u8 (z : Z) : Z := z mod 2 ^ 8.
Definition u16 (z : Z) : Z := z mod 2 ^ 16.
Definition INT_MAX : Z := 2 ^ 31 - 1.
Definition INT_MIN : Z := - 2 ^ 31.
Definition i32 (z : Z) : Z := (z + 2 ^ 31) mod 2 ^ 32 - 2 ^ 31.

Definition is_u32 (z : Z) : Prop := 0 <= z < 2 ^ 32.

Lemma u32_id z : is_u32 z -> u32 z = z.
Proof. apply Z.mod_small. Qed.

Lemma u32_range z : is_u32 (u32 z).
Proof. apply Z.mod_pos_bound. lia. Qed.

Lemma u32_idem z : u32 (u32 z) = u32 z.
Proof. apply u32_id, u32_range. Qed.

Lemma u32_add a b : u32 (u32 a + u32 b) = u32 (a + b).
Proof. symmetry. apply Zplus_mod. Qed.

Lemma u32_sub a b : u32 (u32 a - u32 b) = u32 (a - b).
Proof. symmetry. apply Zminus_mod. Qed.

Lemma u32_sub_l a b : u32 (u32 a - b) = u32 (a - b).
Proof. apply Zminus_mod_idemp_l. Qed.

Lemma i32_id z : INT_MIN <= z <= INT_MAX -> i32 z = z.
Proof. unfold i32, INT_MIN, INT_MAX. intros ?. rewrite Z.mod_small; lia. Qed.

Create HintDb cint.
Create Rewrite HintDb cint.
#[export] Hint Resolve u32_range : cint.
#[export] Hint Rewrite u32_idem : cint.

(** ** Tactics *)

(** Resolve the first conditional of the goal to one branch, [tac] proving
    that its test is false (true). *)
Tactic Notation "if_false" tactic3(tac) :=
  match goal with |- context [if ?b then _ else _] =>
    replace b with false by (symmetry; tac) end.
Tactic Notation "if_true" tactic3(tac) :=
  match goal with |- context [if ?b then _ else _] =>
    replace b with true by (symmetry; tac) end.

(** ** Bounded iteration of a loop body

    [iter_pos p f a] runs [f] at most [p] times: [inl] is the state to go on
    from, [inr] the value the loop ends with. The bound is binary, so a large
    one costs nothing to write down and nothing to the runs that end early. *)
Section Iteration.
Context {A B : Type} (f : A -> A + B).

Fixpoint iter_pos (p : positive) (a : A) : A + B :=
  match p with
  | xH => f a
  | xO p => match iter_pos p a with inl a' => iter_pos p a' | r => r end
  | xI p => match f a with
            | inl a' => match iter_pos p a' with inl a'' => iter_pos p a'' | r => r end
            | r => r
            end
  end.

(** A loop invariant with a measure: either the loop has ended in [Q], or it
    still satisfies [I] and the measure has dropped by the number of rounds. *)
Lemma iter_pos_measure (I : A -> Prop) (Q : B -> Prop) (mu : A -> Z) :
  (forall a, I a -> match f a with inl a' => I a' /\ mu a' < mu a | inr b => Q b end) ->
  forall p a, I a ->
    match iter_pos p a with inl a' => I a' /\ mu a' <= mu a - Zpos p | inr b => Q b end.
Proof.
  intros Hf p. induction p as [p IH|p IH|]; intros a Ha; cbn [iter_pos].
  - specialize (Hf a Ha). destruct (f a) as [a'|b]; [|done]. destruct Hf as [Ha' ?].
    pose proof (IH a' Ha') as H1. destruct (iter_pos p a') as [a''|b]; [|done]. destruct H1 as [Ha'' ?].
    pose proof (IH a'' Ha'') as H2. destruct (iter_pos p a'') as [a3|b]; [|done].
    destruct H2. split; [done | lia].
  - pose proof (IH a Ha) as H1. destruct (iter_pos p a) as [a''|b]; [|done]. destruct H1 as [Ha'' ?].
    pose proof (IH a'' Ha'') as H2. destruct (iter_pos p a'') as [a3|b]; [|done].
    destruct H2. split; [done | lia].
  - specialize (Hf a Ha). destruct (f a) as [a'|b]; [|done]. destruct Hf. split; [done | lia].
Qed.

(** With a measure bounded below and enough rounds, the loop ends. *)
Lemma iter_pos_terminates (I : A -> Prop) (Q : B -> Prop) (mu : A -> Z) p a :
  (forall a, I a -> 0 <= mu a) ->
  (forall a, I a -> match f a with inl a' => I a' /\ mu a' < mu a | inr b => Q b end) ->
  I a -> mu a < Zpos p -> exists b, iter_pos p a = inr b /\ Q b.
Proof.
  intros Hmu Hf Ha Hp. pose proof (iter_pos_measure I Q mu Hf p a Ha) as H.
  destruct (iter_pos p a) as [a'|b]; [|by eauto]. destruct H as [Ha' ?].
  specialize (Hmu a' Ha'). lia.
Qed.
End Iteration.

(** ** Lists *)

Lemma nth_error_is_lookup {A} (l : list A) i : nth_error l i = l !! i.
Proof. revert i. induction l as [|x l IH]; intros [|i]; try done. apply IH. Qed.

(** Of the contributions of a list, those of the one element with a given key. *)
Lemma flat_map_key {A B} (key : A -> Z) (f : A -> list B) l x : NoDup (key <$> l) -> x ∈ l ->
  flat_map (fun y => if key y =? key x then f y else []) l = f x.
Proof.
  intros Hnd Hx. induction l as [|y l IH]; [by apply not_elem_of_nil in Hx|].
  rewrite fmap_cons in Hnd. apply NoDup_cons in Hnd as [Hy Hnd]. cbn [flat_map].
  apply elem_of_cons in Hx as [<-|Hx].
  - rewrite Z.eqb_refl. assert (flat_map (fun y => if key y =? key x then f y else []) l = []) as ->; [|by rewrite app_nil_r].
    clear IH Hnd. induction l as [|z l IH]; [done|].
    rewrite fmap_cons, not_elem_of_cons in Hy. destruct Hy as [Hz Hy]. cbn [flat_map].
    destruct (Z.eqb_spec (key z) (key x)); [congruence|]. by apply IH.
  - rewrite IH by done. destruct (Z.eqb_spec (key y) (key x)) as [Heq|]; [|done].
    exfalso. apply Hy. rewrite Heq. by apply list_elem_of_fmap_2.
Qed.
