(* ===== verification/Calendar.v ===== *)
(** Calendar arithmetic: broken-down time, its normalisation, day numbers, the time
    service of the device as an interface, and a service with a fixed offset. *)
From S2P Require Import Prelude.



(** POSIX_TM_S of tal_time_service.h. *)
Record POSIX_TM_S := mk_tm {
  tm_sec : Z; tm_min : Z; tm_hour : Z; tm_mday : Z; tm_mon : Z; tm_year : Z; tm_wday : Z }.

Definition tm_zero : POSIX_TM_S := mk_tm 0 0 0 0 0 0 0.

(** ** Operations of the source *)

Definition __is_leap_year (tm_year : Z) : bool :=
  let year := tm_year + 1900 in
  if negb (year mod 4 =? 0) then false
  else if negb (year mod 100 =? 0) then true
  else year mod 400 =? 0.

Definition days_per_month : list Z := [31; 28; 31; 30; 31; 30; 31; 31; 30; 31; 30; 31].

Definition __days_in_month (tm_year tm_mon : Z) : Z :=
  if (tm_mon =? 1) && __is_leap_year tm_year then 29
  else default 0 (days_per_month !! Z.to_nat tm_mon).

(** [while (tm_mon >= 12) { tm_year += 1; tm_mon -= 12; }] *)
Fixpoint carry_year (fuel : nat) (year mon : Z) : Z * Z :=
  match fuel with
  | O => (year, mon)
  | S fuel => if 12 <=? mon then carry_year fuel (year + 1) (mon - 12) else (year, mon)
  end.

(** The day loop of [__normalize_local_tm]; each round removes at least 28 days. *)
Fixpoint carry_month (fuel : nat) (year mon mday : Z) : Z * Z * Z :=
  match fuel with
  | O => (year, mon, mday)
  | S fuel =>
      if __days_in_month year mon <? mday then
        let mday := mday - __days_in_month year mon in
        let '(year, mon) := carry_year (Z.to_nat (mon + 1)) year (mon + 1) in
        carry_month fuel year mon mday
      else (year, mon, mday)
  end.

Definition __normalize_local_tm (tm : POSIX_TM_S) : OPERATE_RET * POSIX_TM_S :=
  if (tm_sec tm <? 0) || (tm_min tm <? 0) || (tm_hour tm <? 0) ||
     (tm_mday tm <=? 0) || (tm_mon tm <? 0)
  then (OPRT_INVALID_PARM, tm)
  else
    let min := tm_min tm + tm_sec tm / 60 in
    let sec := tm_sec tm mod 60 in
    let hour := tm_hour tm + min / 60 in
    let min := min mod 60 in
    let days := hour / 24 in
    let hour := hour mod 24 in
    let mday := tm_mday tm + days in
    let '(year, mon) := carry_year (Z.to_nat (tm_mon tm)) (tm_year tm) (tm_mon tm) in
    let '(year, mon, mday) := carry_month (Z.to_nat mday) year mon mday in
    (OPRT_OK, mk_tm sec min hour mday mon year (tm_wday tm)).

Definition __tm_equals (lhs rhs : POSIX_TM_S) : bool :=
  (tm_year lhs =? tm_year rhs) && (tm_mon lhs =? tm_mon rhs) &&
  (tm_mday lhs =? tm_mday rhs) && (tm_hour lhs =? tm_hour rhs) &&
  (tm_min lhs =? tm_min rhs) && (tm_sec lhs =? tm_sec rhs).

(** ** The reference calendar: proleptic Gregorian day numbers *)

Definition cum_days : list Z := [0; 31; 59; 90; 120; 151; 181; 212; 243; 273; 304; 334; 365].

(** Days of the year before month [mon] (0..12). *)
Definition days_before_month (year mon : Z) : Z :=
  default 0 (cum_days !! Z.to_nat mon) +
  (if (2 <=? mon) && __is_leap_year year then 1 else 0).

(** Days from 1900-01-01 to January 1st of [year] (counted from 1900). *)
Definition days_before_year (year : Z) : Z :=
  365 * year + (year + 1899) / 4 - (year + 1899) / 100 + (year + 1899) / 400 - 460.

(** Days since 1970-01-01. *)
Definition day_number (year mon mday : Z) : Z :=
  days_before_year year + days_before_month year mon + mday - 1 - 25567.

Definition tm_days (tm : POSIX_TM_S) : Z := day_number (tm_year tm) (tm_mon tm) (tm_mday tm).

Definition tm_secs (tm : POSIX_TM_S) : Z :=
  86400 * tm_days tm + 3600 * tm_hour tm + 60 * tm_min tm + tm_sec tm.

Definition wf_date (year mon mday : Z) : Prop :=
  0 <= mon < 12 /\ 1 <= mday <= __days_in_month year mon.

Record wf_tm (tm : POSIX_TM_S) : Prop := {
  wf_sec : 0 <= tm_sec tm < 60;
  wf_min : 0 <= tm_min tm < 60;
  wf_hour : 0 <= tm_hour tm < 24;
  wf_md : wf_date (tm_year tm) (tm_mon tm) (tm_mday tm) }.

(** ** Interface of the time service *)

(** The two library calls of tal_time_service.h that convert between
    timestamps and broken-down time. *)
Class TimeService := {
  tal_time_get_local_time_custom : TIME_T -> OPERATE_RET * POSIX_TM_S;
  tal_time_mktime : POSIX_TM_S -> TIME_T }.

(** A device whose local time is UTC plus a constant whole number of quarter
    hours; [tal_time_mktime] reads its argument as UTC ([mkoff = 0]) or as
    local time ([mkoff = off]), the two platforms the source caters for. *)
Class FixedZone `{TimeService} (off mkoff : Z) : Prop := {
  fz_quarter : exists q, -56 <= q <= 56 /\ off = 900 * q;
  fz_mkoff : mkoff = 0 \/ mkoff = off;
  fz_local : forall ts, 86400 <= ts < 2 ^ 32 - 86400 ->
    exists tm, tal_time_get_local_time_custom ts = (OPRT_OK, tm) /\ wf_tm tm /\
      tm_secs tm = ts + off /\ tm_wday tm = (tm_days tm + 4) mod 7;
  fz_mktime : forall tm, wf_tm tm -> tal_time_mktime tm = u32 (tm_secs tm - mkoff) }.

(** ** Calendar lemmas *)

Ltac month_cases m :=
  let H := fresh in
  assert (H : m = 0 \/ m = 1 \/ m = 2 \/ m = 3 \/ m = 4 \/ m = 5 \/ m = 6 \/ m = 7 \/
              m = 8 \/ m = 9 \/ m = 10 \/ m = 11) by lia;
  repeat (destruct H as [H|H]; [subst m|]); [.. | subst m].

Lemma days_in_month_range y m : 0 <= m < 12 -> 28 <= __days_in_month y m <= 31.
Proof.
  intros ?. unfold __days_in_month. generalize (__is_leap_year y).
  intros []; month_cases m; split; apply Z.leb_le; reflexivity.
Qed.

Lemma days_before_month_succ y m :
  0 <= m < 12 -> days_before_month y (m + 1) = days_before_month y m + __days_in_month y m.
Proof.
  intros ?. unfold days_before_month, __days_in_month. generalize (__is_leap_year y).
  intros []; month_cases m; reflexivity.
Qed.

Lemma days_before_month_0 y : days_before_month y 0 = 0.
Proof. reflexivity. Qed.

Lemma days_before_year_succ y :
  days_before_year (y + 1) = days_before_year y + days_before_month y 12.
Proof.
  unfold days_before_year, days_before_month, __is_leap_year.
  change (default 0 (cum_days !! Z.to_nat 12)) with 365. change (2 <=? 12) with true. cbn [andb].
  destruct (Z.eqb_spec ((y + 1900) mod 4) 0); cbn;
  destruct (Z.eqb_spec ((y + 1900) mod 100) 0); cbn;
  destruct (Z.eqb_spec ((y + 1900) mod 400) 0); cbn; Z.div_mod_to_equations; lia.
Qed.

Lemma days_before_month_mono y m m' :
  0 <= m <= m' -> m' <= 12 -> days_before_month y m <= days_before_month y m'.
Proof.
  intros Hm Hm'. replace m' with (m + Z.of_nat (Z.to_nat (m' - m))) in * by lia.
  induction (Z.to_nat (m' - m)) as [|n IH]; [rewrite Z.add_0_r; lia|].
  rewrite Nat2Z.inj_succ in *. unfold Z.succ in *. rewrite Z.add_assoc.
  rewrite days_before_month_succ by lia.
  pose proof (days_in_month_range y (m + Z.of_nat n)). lia.
Qed.

Lemma days_before_year_mono y y' : y <= y' -> days_before_year y <= days_before_year y'.
Proof.
  intros Hy. replace y' with (y + Z.of_nat (Z.to_nat (y' - y))) by lia.
  induction (Z.to_nat (y' - y)) as [|n IH]; [rewrite Z.add_0_r; lia|].
  rewrite Nat2Z.inj_succ. unfold Z.succ. rewrite Z.add_assoc, days_before_year_succ.
  pose proof (days_before_month_mono (y + Z.of_nat n) 0 12). rewrite days_before_month_0 in *. lia.
Qed.

(** Lexicographic order on dates agrees with day numbers. *)
Definition date_lt (y m d y' m' d' : Z) : Prop :=
  y < y' \/ (y = y' /\ (m < m' \/ (m = m' /\ d < d'))).

Lemma day_number_lt y m d y' m' d' :
  wf_date y m d -> wf_date y' m' d' -> date_lt y m d y' m' d' ->
  day_number y m d < day_number y' m' d'.
Proof.
  intros [Hm Hd] [Hm' Hd'] Hlt. unfold day_number.
  pose proof (days_before_month_succ y m Hm).
  pose proof (days_before_month_mono y (m + 1) 12 ltac:(lia) ltac:(lia)).
  pose proof (days_before_month_mono y' 0 m' ltac:(lia) ltac:(lia)).
  rewrite days_before_month_0 in *.
  destruct Hlt as [Hy | [-> [Hmm | [-> Hdd]]]].
  - pose proof (days_before_year_succ y).
    pose proof (days_before_year_mono (y + 1) y' ltac:(lia)). lia.
  - pose proof (days_before_month_mono y' (m + 1) m' ltac:(lia) ltac:(lia)). lia.
  - lia.
Qed.

Lemma date_trichotomy y m d y' m' d' :
  date_lt y m d y' m' d' \/ (y = y' /\ m = m' /\ d = d') \/ date_lt y' m' d' y m d.
Proof. unfold date_lt. lia. Qed.

Lemma day_number_inj y m d y' m' d' :
  wf_date y m d -> wf_date y' m' d' -> day_number y m d = day_number y' m' d' ->
  y = y' /\ m = m' /\ d = d'.
Proof.
  intros H H' Heq. destruct (date_trichotomy y m d y' m' d') as [Hlt | [? | Hlt]]; [| done |];
    apply day_number_lt in Hlt; auto; lia.
Qed.

Lemma day_number_le_inv y m d y' m' d' :
  wf_date y m d -> wf_date y' m' d' -> day_number y m d <= day_number y' m' d' ->
  ~ date_lt y' m' d' y m d.
Proof. intros H H' Hle Hlt. apply day_number_lt in Hlt; auto. lia. Qed.

Lemma day_number_lt_inv y m d y' m' d' :
  wf_date y m d -> wf_date y' m' d' -> day_number y m d < day_number y' m' d' ->
  date_lt y m d y' m' d'.
Proof.
  intros H H' Hle. destruct (date_trichotomy y m d y' m' d') as [Hlt | [(->&->&->) | Hlt]];
    [done | lia | apply day_number_lt in Hlt; auto; lia].
Qed.

(** The time-of-day fields of a well-formed time are digits of its second count. *)
Lemma wf_tm_digits tm :
  wf_tm tm ->
  tm_days tm = tm_secs tm / 86400 /\ tm_hour tm = tm_secs tm / 3600 mod 24 /\
  tm_min tm = tm_secs tm / 60 mod 60 /\ tm_sec tm = tm_secs tm mod 60.
Proof.
  intros [Hs Hm Hh _]. unfold tm_secs. repeat split; Z.div_mod_to_equations; lia.
Qed.

Lemma tm_equals_spec a b :
  __tm_equals a b = true <->
  tm_year a = tm_year b /\ tm_mon a = tm_mon b /\ tm_mday a = tm_mday b /\
  tm_hour a = tm_hour b /\ tm_min a = tm_min b /\ tm_sec a = tm_sec b.
Proof. unfold __tm_equals. rewrite !andb_true_iff, !Z.eqb_eq. tauto. Qed.

(** Two well-formed times are equal to the second exactly when they are the
    same instant. *)
Lemma tm_equals_secs a b :
  wf_tm a -> wf_tm b -> __tm_equals a b = true <-> tm_secs a = tm_secs b.
Proof.
  intros Ha Hb. rewrite tm_equals_spec. split.
  - intros (E1 & E2 & E3 & E4 & E5 & E6). unfold tm_secs, tm_days. congruence.
  - intros Heq. destruct (wf_tm_digits a Ha) as (Da & Ha' & Ma & Sa).
    destruct (wf_tm_digits b Hb) as (Db & Hb' & Mb & Sb).
    destruct (day_number_inj (tm_year a) (tm_mon a) (tm_mday a) (tm_year b) (tm_mon b) (tm_mday b))
      as (-> & -> & ->); [apply Ha | apply Hb | unfold tm_days in *; congruence |].
    repeat split; congruence.
Qed.

(** ** Normalisation *)

Lemma carry_year_spec fuel year mon :
  0 <= mon <= Z.of_nat fuel -> carry_year fuel year mon = (year + mon / 12, mon mod 12).
Proof.
  revert year mon. induction fuel as [|fuel IH]; intros year mon Hm; cbn.
  - replace mon with 0 by lia. rewrite Z.add_0_r. reflexivity.
  - destruct (Z.leb_spec 12 mon).
    + rewrite IH by lia. f_equal; Z.div_mod_to_equations; lia.
    + f_equal; Z.div_mod_to_equations; lia.
Qed.

Lemma day_number_carry y m d :
  0 <= m < 12 ->
  day_number y m d =
  let '(y', m') := carry_year (Z.to_nat (m + 1)) y (m + 1) in
  day_number y' m' (d - __days_in_month y m).
Proof.
  intros Hm. rewrite carry_year_spec by lia. unfold day_number.
  pose proof (days_before_month_succ y m Hm).
  destruct (decide (m = 11)) as [->|].
  - change ((11 + 1) / 12) with 1. change ((11 + 1) mod 12) with 0.
    change (11 + 1) with 12 in *. rewrite days_before_year_succ, days_before_month_0. lia.
  - rewrite (Z.div_small (m + 1)), (Z.mod_small (m + 1)), Z.add_0_r by lia. lia.
Qed.

Lemma carry_month_spec fuel y m d :
  0 <= m < 12 -> 0 < d <= Z.of_nat fuel ->
  let '(y', m', d') := carry_month fuel y m d in
  wf_date y' m' d' /\ day_number y' m' d' = day_number y m d.
Proof.
  revert y m d. induction fuel as [|fuel IH]; intros y m d Hm Hd; cbn; [lia|].
  destruct (Z.ltb_spec (__days_in_month y m) d) as [Hlt|Hge].
  - pose proof (days_in_month_range y m Hm).
    pose proof (day_number_carry y m d Hm) as Hc. rewrite carry_year_spec in * by lia.
    assert (0 <= (m + 1) mod 12 < 12) by (apply Z.mod_pos_bound; lia).
    specialize (IH (y + (m + 1) / 12) ((m + 1) mod 12) (d - __days_in_month y m) ltac:(lia) ltac:(lia)).
    destruct (carry_month _ _ _ _) as [[y' m'] d']. rewrite Hc. exact IH.
  - repeat split; lia.
Qed.

(** A time whose month is in range and whose other fields are non-negative is
    normalised to the well-formed time of the same instant. *)
Lemma normalize_spec tm :
  0 <= tm_sec tm -> 0 <= tm_min tm -> 0 <= tm_hour tm -> 0 < tm_mday tm -> 0 <= tm_mon tm < 12 ->
  exists tm', __normalize_local_tm tm = (OPRT_OK, tm') /\ wf_tm tm' /\ tm_secs tm' = tm_secs tm.
Proof.
  intros Hs Hm Hh Hd Hmon. unfold __normalize_local_tm.
  if_false (rewrite !orb_false_iff, !Z.ltb_ge, Z.leb_gt; lia).
  rewrite carry_year_spec, (Z.div_small (tm_mon tm)), (Z.mod_small (tm_mon tm)), Z.add_0_r by lia.
  set (days := (tm_hour tm + (tm_min tm + tm_sec tm / 60) / 60) / 24).
  assert (Hdays : 0 <= days) by (subst days; Z.div_mod_to_equations; lia).
  pose proof (carry_month_spec (Z.to_nat (tm_mday tm + days)) (tm_year tm) (tm_mon tm)
                (tm_mday tm + days) Hmon ltac:(lia)) as Hc.
  destruct (carry_month _ _ _ _) as [[y' m'] d']. destruct Hc as [Hwf Hdn].
  eexists. split; [reflexivity|]. split.
  - split; cbn; [apply Z.mod_pos_bound; lia .. | exact Hwf].
  - unfold tm_secs, tm_days. cbn. rewrite Hdn. unfold day_number in *. subst days.
    Z.div_mod_to_equations. lia.
Qed.

(** Negative fields, which no well-formed time has, are rejected. *)
Lemma normalize_rejects tm :
  tm_mon tm < 0 \/ tm_mday tm <= 0 -> fst (__normalize_local_tm tm) = OPRT_INVALID_PARM.
Proof.
  intros H. unfold __normalize_local_tm.
  if_true (rewrite !orb_true_iff, !Z.ltb_lt, Z.leb_le; lia). done.
Qed.

(** Broken-down UTC time of [ts], by normalising a day count of a nearby year. *)
Definition gmtime (ts : Z) : POSIX_TM_S :=
  let days := ts / 86400 in
  let year := 70 + days / 366 in
  let mday := days - (days_before_year year - 25567) + 1 in
  let tm := snd (__normalize_local_tm (mk_tm (ts mod 86400) 0 0 mday 0 year 0)) in
  mk_tm (tm_sec tm) (tm_min tm) (tm_hour tm) (tm_mday tm) (tm_mon tm) (tm_year tm) ((days + 4) mod 7).

Definition zone8_off : Z := 8 * 3600.

#[export] Instance zone8 : TimeService := {
  tal_time_get_local_time_custom ts := (OPRT_OK, gmtime (ts + zone8_off));
  tal_time_mktime tm := u32 (tm_secs tm) }.

Lemma days_before_year_366 n : 0 <= n -> days_before_year (70 + n) - 25567 <= 366 * n.
Proof. intros Hn. unfold days_before_year. Z.div_mod_to_equations. lia. Qed.

Lemma gmtime_spec ts : 0 <= ts ->
  wf_tm (gmtime ts) /\ tm_secs (gmtime ts) = ts /\ tm_wday (gmtime ts) = (tm_days (gmtime ts) + 4) mod 7.
Proof.
  intros Hts. set (days := ts / 86400). set (year := 70 + days / 366).
  set (mday := days - (days_before_year year - 25567) + 1).
  assert (Hdays : 0 <= days) by (apply Z.div_pos; lia).
  assert (Hmday : 0 < mday).
  { subst mday year. pose proof (days_before_year_366 (days / 366)).
    assert (0 <= days / 366) by (apply Z.div_pos; lia). Z.div_mod_to_equations; lia. }
  destruct (normalize_spec (mk_tm (ts mod 86400) 0 0 mday 0 year 0)) as (tm & Hn & Hwf & Hsecs);
    cbn; try lia. { apply Z.mod_pos_bound. lia. }
  assert (Hg : gmtime ts = mk_tm (tm_sec tm) (tm_min tm) (tm_hour tm) (tm_mday tm) (tm_mon tm)
                             (tm_year tm) ((days + 4) mod 7))
    by (unfold gmtime; fold days; fold year; fold mday; by rewrite Hn).
  assert (Hts' : tm_secs tm = ts).
  { rewrite Hsecs. unfold tm_secs, tm_days, day_number. cbn. rewrite days_before_month_0.
    subst mday days. Z.div_mod_to_equations. lia. }
  rewrite Hg. split; [|split].
  - destruct Hwf. by split.
  - exact Hts'.
  - cbn. f_equal. f_equal. unfold tm_days. cbn. fold (tm_days tm).
    destruct (wf_tm_digits tm Hwf) as (-> & _). by rewrite Hts'.
Qed.

#[export] Instance zone8_fixed : FixedZone zone8_off 0.
Proof.
  split.
  - exists 32. split; [lia | reflexivity].
  - by left.
  - intros ts Hts. exists (gmtime (ts + zone8_off)). split; [done|].
    apply gmtime_spec. unfold zone8_off. lia.
  - intros tm _. cbn. by rewrite Z.sub_0_r.
Qed.
