(* ===== verification/CStr.v ===== *)
(** C strings: the functions of <string.h>, <stdlib.h> and <stdio.h> the sources
    call, on NUL-free [string]s (a C string is the text before its NUL). *)
From S2P Require Import Prelude.

#[local] Open Scope string_scope.
#[local] Open Scope Z_scope.

(** ** Definitions *)

(** [strchr] used as a splitter: the text before the first [c] and the text after it. *)
Fixpoint split_at (c : ascii) (s : string) : string * option string :=
  match s with
  | EmptyString => (EmptyString, None)
  | String a s' =>
      if Ascii.eqb a c then (EmptyString, Some s')
      else let '(l, r) := split_at c s' in (String a l, r)
  end.

Fixpoint skip_char (c : ascii) (s : string) : string :=
  match s with
  | String a s' => if Ascii.eqb a c then skip_char c s' else s
  | EmptyString => EmptyString
  end.

(** [strtok_r] with a one-character delimiter set: the next token and the saved
    rest, [None] when only delimiters are left. *)
Definition strtok_r (c : ascii) (s : string) : option (string * string) :=
  match skip_char c s with
  | EmptyString => None
  | s' => let '(tok, rest) := split_at c s' in Some (tok, default EmptyString rest)
  end.

Definition isspace (a : ascii) : bool :=
  let n := nat_of_ascii a in ((n =? 32) || ((9 <=? n) && (n <=? 13)))%nat.

Definition isdigit (a : ascii) : bool :=
  let n := nat_of_ascii a in ((48 <=? n) && (n <=? 57))%nat.

Definition digit_value (a : ascii) : Z := Z.of_nat (nat_of_ascii a) - 48.

Fixpoint skip_space (s : string) : string :=
  match s with
  | String a s' => if isspace a then skip_space s' else s
  | EmptyString => EmptyString
  end.

(** The value of the longest decimal prefix, accumulated onto [acc]. *)
Fixpoint read_digits (acc : Z) (s : string) : Z :=
  match s with
  | String a s' => if isdigit a then read_digits (10 * acc + digit_value a) s' else acc
  | EmptyString => acc
  end.

(** [strtol(s, NULL, 10)] with a 32-bit long: leading white space, an optional
    sign, the decimal prefix (no digits: 0), saturating at the limits. *)
Definition strtol (s : string) : Z :=
  match skip_space s with
  | String a s' =>
      if Ascii.eqb a "-" then Z.max INT_MIN (- read_digits 0 s')
      else if Ascii.eqb a "+" then Z.min INT_MAX (read_digits 0 s')
      else Z.min INT_MAX (read_digits 0 (String a s'))
  | EmptyString => 0
  end.

(** [strncpy(dst, s, n)] into a zeroed buffer of more than [n] bytes, and
    [snprintf] truncation: the first [n] characters. *)
Definition strtrunc (n : nat) (s : string) : string := substring 0 n s.

Definition strlen (s : string) : nat := String.length s.

(** [strstr(s, t) != NULL] *)
Definition strstr (s t : string) : bool := match index 0 t s with Some _ => true | None => false end.

Definition digit_char (d : Z) : ascii := ascii_of_nat (Z.to_nat (48 + d)).

Fixpoint fmt_digits (fuel : nat) (n : Z) (acc : string) : string :=
  match fuel with
  | O => acc
  | S fuel =>
      let acc := String (digit_char (n mod 10)) acc in
      if n / 10 =? 0 then acc else fmt_digits fuel (n / 10) acc
  end.

(** "%u": a 32-bit unsigned integer has at most 10 decimal digits. *)
Definition fmt_u (n : Z) : string := fmt_digits 10 n "".

(** "%d" *)
Definition fmt_d (n : Z) : string := if n <? 0 then "-" ++ fmt_u (- n) else fmt_u n.

(** [%0wd]: padded with zeros to [w] characters. *)
Definition pad_zeros (w : nat) (s : string) : string :=
  String.concat "" (repeat "0" (w - strlen s)) ++ s.
Definition fmt_0d (w : nat) (n : Z) : string :=
  if n <? 0 then "-" ++ pad_zeros (w - 1) (fmt_u (- n)) else pad_zeros w (fmt_u n).

(** Every character of [s] satisfies [p]. *)
Fixpoint str_all (p : ascii -> bool) (s : string) : bool :=
  match s with
  | EmptyString => true
  | String a s' => p a && str_all p s'
  end.

Definition no_char (c : ascii) (s : string) : bool := str_all (fun a => negb (Ascii.eqb a c)) s.

(** ** Splitting and tokenising *)

Lemma app_String a s t : String a s ++ t = String a (s ++ t).
Proof. reflexivity. Qed.

Lemma app_Empty t : "" ++ t = t.
Proof. reflexivity. Qed.

Lemma str_all_app p s t : str_all p (s ++ t) = str_all p s && str_all p t.
Proof.
  induction s as [|a s IH]; [done|]. rewrite app_String. cbn. rewrite IH. apply andb_assoc.
Qed.

(** Splitting keeps a property of all characters. *)
Lemma str_all_split p c s : str_all p s = true ->
  str_all p (fst (split_at c s)) = true /\ str_all p (default "" (snd (split_at c s))) = true.
Proof.
  induction s as [|a s IH]; intros Hs; [done|]. cbn in Hs. apply andb_true_iff in Hs as [Ha Hs].
  cbn [split_at]. destruct (Ascii.eqb a c); [done|]. specialize (IH Hs). destruct (split_at c s) as [l r].
  cbn [fst snd] in *. cbn. by rewrite Ha.
Qed.

Lemma str_all_skip p c s : str_all p s = true -> str_all p (skip_char c s) = true.
Proof.
  induction s as [|a s IH]; intros Hs; [done|]. cbn [skip_char]. destruct (Ascii.eqb a c); [|done].
  apply IH. cbn in Hs. by apply andb_true_iff in Hs as [_ ?].
Qed.

Lemma str_all_strtok p c s tok rest : str_all p s = true -> strtok_r c s = Some (tok, rest) ->
  str_all p tok = true /\ str_all p rest = true.
Proof.
  intros Hs. apply (str_all_skip p c) in Hs. unfold strtok_r.
  destruct (skip_char c s) as [|a t]; [done|]. pose proof (str_all_split p c (String a t) Hs) as Hsp.
  destruct (split_at c (String a t)) as [l r]. by intros [= <- <-].
Qed.

Lemma str_all_impl (p q : ascii -> bool) s :
  (forall a, p a = true -> q a = true) -> str_all p s = true -> str_all q s = true.
Proof.
  intros Hpq. induction s as [|a s IH]; cbn; [done|].
  rewrite !andb_true_iff. intros [? ?]; auto.
Qed.

Lemma split_at_app c s t :
  no_char c s = true -> split_at c (s ++ String c t) = (s, Some t).
Proof.
  induction s as [|a s IH]; [rewrite app_Empty|rewrite app_String]; cbn.
  - by rewrite Ascii.eqb_refl.
  - rewrite andb_true_iff, negb_true_iff. intros [-> Hs]. by rewrite IH.
Qed.

Lemma split_at_none c s : no_char c s = true -> split_at c s = (s, None).
Proof.
  induction s as [|a s IH]; cbn; [done|].
  rewrite andb_true_iff, negb_true_iff. intros [-> Hs]. by rewrite IH.
Qed.

Lemma skip_char_id c s : no_char c s = true -> skip_char c s = s.
Proof.
  destruct s as [|a s]; cbn; [done|]. rewrite andb_true_iff, negb_true_iff. by intros [-> _].
Qed.

Lemma skip_char_app c s t :
  s <> "" -> no_char c s = true -> skip_char c (s ++ t) = s ++ t.
Proof.
  destruct s as [|a s]; [done|]. intros _. rewrite app_String. cbn.
  rewrite andb_true_iff, negb_true_iff. by intros [-> _].
Qed.

Lemma strtok_r_app c s t :
  s <> "" -> no_char c s = true -> strtok_r c (s ++ String c t) = Some (s, t).
Proof.
  intros Hne Hs. unfold strtok_r. rewrite skip_char_app by done.
  destruct s as [|a s]; [done|]. rewrite app_String. cbv iota. rewrite <- app_String.
  by rewrite split_at_app.
Qed.

Lemma strtok_r_sep c s t :
  s <> "" -> no_char c s = true -> strtok_r c (s ++ String c "" ++ t) = Some (s, t).
Proof. apply strtok_r_app. Qed.

Lemma strtok_r_last c s :
  s <> "" -> no_char c s = true -> strtok_r c s = Some (s, "").
Proof.
  intros Hne Hs. unfold strtok_r. rewrite skip_char_id by done.
  destruct s as [|a s]; [done|]. by rewrite split_at_none.
Qed.

Lemma split_at_length c s :
  let '(l, r) := split_at c s in (String.length (default "" r) <= String.length s)%nat /\
    (r <> None -> String.length (default "" r) < String.length s)%nat.
Proof.
  induction s as [|a s IH]; cbn; [split; [lia | done]|].
  destruct (Ascii.eqb a c); cbn; [split; lia|].
  destruct (split_at c s) as [l r]. destruct IH as [IH1 IH2]. split; [lia|].
  intros Hr. specialize (IH2 Hr). lia.
Qed.

Lemma skip_char_length c s : (String.length (skip_char c s) <= String.length s)%nat.
Proof. induction s as [|a s IH]; cbn; [done|]. destruct (Ascii.eqb a c); cbn; lia. Qed.

(** Each token shortens the rest: tokenising terminates. *)
Lemma strtok_r_length c s tok rest :
  strtok_r c s = Some (tok, rest) -> (String.length rest < String.length s)%nat.
Proof.
  unfold strtok_r. pose proof (skip_char_length c s).
  destruct (skip_char c s) as [|a s'] eqn:E; [done|].
  pose proof (split_at_length c (String a s')) as Hl.
  destruct (split_at c (String a s')) as [l r] eqn:Es. destruct Hl as [Hl1 Hl2].
  intros [= <- <-]. destruct r as [r|]; cbn in *.
  - specialize (Hl2 ltac:(done)). lia.
  - lia.
Qed.

(** ** Decimal output and input *)

Lemma digit_char_value d : 0 <= d < 10 ->
  isdigit (digit_char d) = true /\ digit_value (digit_char d) = d.
Proof.
  intros Hd.
  assert (d = 0 \/ d = 1 \/ d = 2 \/ d = 3 \/ d = 4 \/ d = 5 \/ d = 6 \/ d = 7 \/ d = 8 \/ d = 9)
    as Hc by lia.
  repeat (destruct Hc as [->|Hc]; [split; reflexivity|]). subst d. split; reflexivity.
Qed.

Lemma fmt_digits_digits fuel n acc :
  str_all isdigit (fmt_digits fuel n acc) = str_all isdigit acc.
Proof.
  revert n acc. induction fuel as [|fuel IH]; intros n acc; cbn; [done|].
  assert (isdigit (digit_char (n mod 10)) = true) as Hd
    by (apply digit_char_value, Z.mod_pos_bound; lia).
  destruct (n / 10 =? 0); [|rewrite IH]; cbn; by rewrite Hd.
Qed.

Lemma read_fmt_digits fuel n acc v :
  0 <= n < 10 ^ Z.of_nat fuel ->
  exists k, 0 <= k /\ read_digits v (fmt_digits fuel n acc) = read_digits (v * 10 ^ k + n) acc.
Proof.
  revert n acc. induction fuel as [|fuel IH]; intros n acc Hn.
  - change (10 ^ Z.of_nat 0) with 1 in Hn. exists 0. split; [lia|]. cbn. f_equal. lia.
  - rewrite Nat2Z.inj_succ, Z.pow_succ_r in Hn by lia. cbn [fmt_digits].
    destruct (digit_char_value (n mod 10)) as [Hd Hv]; [apply Z.mod_pos_bound; lia|].
    destruct (Z.eqb_spec (n / 10) 0) as [Hz|Hz].
    + exists 1. split; [lia|]. cbn [read_digits]. rewrite Hd, Hv. f_equal.
      Z.div_mod_to_equations; lia.
    + destruct (IH (n / 10) (String (digit_char (n mod 10)) acc)) as (k & Hk & ->).
      { split; [apply Z.div_pos; lia | apply Z.div_lt_upper_bound; lia]. }
      exists (k + 1). split; [lia|]. cbn [read_digits]. rewrite Hd, Hv. f_equal.
      rewrite Z.pow_add_r by lia. Z.div_mod_to_equations; nia.
Qed.

Lemma fmt_digits_cons fuel n acc :
  fuel <> O -> exists a s, fmt_digits fuel n acc = String a s /\ isdigit a = true.
Proof.
  revert n acc. induction fuel as [|fuel IH]; intros n acc Hf; [done|]. cbn [fmt_digits].
  destruct (digit_char_value (n mod 10)) as [Hd _]; [apply Z.mod_pos_bound; lia|].
  destruct (n / 10 =? 0); [by eauto|]. destruct fuel as [|fuel]; [by eauto|]. by apply IH.
Qed.

Lemma isdigit_cases (P : ascii -> Prop) a :
  isdigit a = true -> P "0"%char -> P "1"%char -> P "2"%char -> P "3"%char -> P "4"%char ->
  P "5"%char -> P "6"%char -> P "7"%char -> P "8"%char -> P "9"%char -> P a.
Proof.
  intros Ha. destruct a as [[] [] [] [] [] [] [] []]; vm_compute in Ha; try discriminate; auto.
Qed.

(** A decimal digit is none of the characters with a meaning in the grammars. *)
Lemma isdigit_not a c : isdigit a = true -> isdigit c = false -> Ascii.eqb a c = false.
Proof. intros Ha Hc. destruct (Ascii.eqb_spec a c) as [->|]; congruence. Qed.

Lemma fmt_u_no_char c n : isdigit c = false -> no_char c (fmt_u n) = true.
Proof.
  intros Hc. unfold no_char.
  apply (str_all_impl isdigit); [|unfold fmt_u; by rewrite fmt_digits_digits].
  intros a Ha. by rewrite isdigit_not.
Qed.

Lemma fmt_u_nonempty n : fmt_u n <> "".
Proof. destruct (fmt_digits_cons 10 n "" ltac:(done)) as (a & s & H & _). unfold fmt_u. by rewrite H. Qed.

(** [strtol] reads back what "%u" printed. *)
Lemma strtol_fmt_u n : 0 <= n <= INT_MAX -> strtol (fmt_u n) = n.
Proof.
  intros Hn. unfold INT_MAX in Hn.
  destruct (read_fmt_digits 10 n "" 0) as (k & _ & Hr); [cbn; lia|].
  change (read_digits (0 * 10 ^ k + n) "") with n in Hr.
  destruct (fmt_digits_cons 10 n "" ltac:(done)) as (a & s & Hs & Ha).
  fold (fmt_u n) in Hr, Hs. unfold strtol. rewrite Hs in *.
  cbn [skip_space]. replace (isspace a) with false.
  2:{ symmetry. by apply (isdigit_cases (fun a => isspace a = false)). }
  rewrite (isdigit_not a "-"%char), (isdigit_not a "+"%char), Hr by done.
  unfold INT_MAX. lia.
Qed.

Lemma fmt_d_nonneg n : 0 <= n -> fmt_d n = fmt_u n.
Proof. intros Hn. unfold fmt_d. destruct (Z.ltb_spec n 0); [lia | done]. Qed.

Lemma app_assoc_str (s t u : string) : s ++ (t ++ u) = (s ++ t) ++ u.
Proof. induction s as [|a s IH]; [done|]. rewrite !app_String. by rewrite IH. Qed.

Lemma app_nil_r_str (s : string) : s ++ "" = s.
Proof. induction s as [|a s IH]; [done|]. rewrite app_String. by rewrite IH. Qed.

Lemma no_char_app c s t : no_char c (s ++ t) = no_char c s && no_char c t.
Proof. apply str_all_app. Qed.

Lemma no_char_1 c a : Ascii.eqb c a = false -> no_char c (String a "") = true.
Proof. intros H. unfold no_char. cbn [str_all]. by rewrite Ascii.eqb_sym, H. Qed.

(** Text that starts with a number is not the text of a non-digit. *)
Lemma fmt_u_app_neq n s a t : isdigit a = false -> String.eqb (fmt_u n ++ s) (String a t) = false.
Proof.
  intros Ha. destruct (fmt_digits_cons 10 n "" ltac:(done)) as (b & u & Hu & Hb). fold (fmt_u n) in Hu.
  rewrite Hu, app_String. cbn. by rewrite isdigit_not.
Qed.

Lemma eqb_fmt_u_nil n : String.eqb (fmt_u n) "" = false.
Proof. apply String.eqb_neq, fmt_u_nonempty. Qed.

Lemma fmt_u_neq n a t : isdigit a = false -> String.eqb (fmt_u n) (String a t) = false.
Proof. intros Ha. rewrite <- (app_nil_r_str (fmt_u n)). by apply fmt_u_app_neq. Qed.

Lemma strlen_app s t : strlen (s ++ t) = (strlen s + strlen t)%nat.
Proof. induction s as [|a s IH]; [done|]. rewrite app_String. unfold strlen in *. cbn. by rewrite IH. Qed.

Create Rewrite HintDb cstr.
#[export] Hint Rewrite no_char_app eqb_fmt_u_nil app_assoc_str : cstr.

(** ** Truncation and plain text *)

(** Characters that JSON text carries unescaped. *)
Definition plain_char (a : ascii) : bool :=
  let n := nat_of_ascii a in ((32 <=? n) && (n <? 127) && negb (n =? 34) && negb (n =? 92))%nat.
Definition plain (s : string) : bool := str_all plain_char s.

Lemma str_all_trunc p n s : str_all p s = true -> str_all p (strtrunc n s) = true.
Proof.
  unfold strtrunc. revert n. induction s as [|a s IH]; intros [|n] Hs; try done. cbn in *.
  apply andb_true_iff in Hs as [-> Hs]. by apply IH.
Qed.

Lemma strtrunc_length n s : (strlen (strtrunc n s) <= n)%nat.
Proof.
  unfold strtrunc, strlen. revert n. induction s as [|a s IH]; intros [|n]; cbn; try lia. specialize (IH n). lia.
Qed.

Lemma strtrunc_id n s : (strlen s <= n)%nat -> strtrunc n s = s.
Proof.
  unfold strtrunc, strlen. revert n. induction s as [|a s IH]; intros n Hn; [by destruct n|].
  destruct n as [|n]; cbn in *; [lia|]. rewrite IH; [done|lia].
Qed.

(** What comes after the end is lost. *)
Lemma strtrunc_full n s t : (n <= strlen s)%nat -> strtrunc n (s ++ t) = strtrunc n s.
Proof.
  unfold strtrunc, strlen. revert n. induction s as [|a s IH]; intros [|n] Hn; cbn in *; try lia; [by destruct t|done|].
  change (String a (substring 0 n (s ++ t)) = String a (substring 0 n s)). f_equal. apply IH. lia.
Qed.

Lemma strtrunc_nonempty n s : (0 < n)%nat -> s <> "" -> strtrunc n s <> "".
Proof. destruct n; [lia|]. by destruct s. Qed.

Lemma fmt_digits_length fuel n acc : (strlen (fmt_digits fuel n acc) <= fuel + strlen acc)%nat.
Proof.
  revert n acc. induction fuel as [|fuel IH]; intros n acc; cbn [fmt_digits]; [lia|].
  destruct (_ =? 0); [unfold strlen; cbn; lia|]. etrans; [apply IH|]. unfold strlen. cbn. lia.
Qed.

Lemma fmt_u_length v : (strlen (fmt_u v) <= 10)%nat.
Proof. unfold fmt_u. etrans; [apply fmt_digits_length|]. cbn. lia. Qed.

(** Lengths of closed texts. *)
Ltac strlen_closed :=
  repeat match goal with |- context [strlen (String ?a ?s)] =>
    let v := eval vm_compute in (strlen (String a s)) in change (strlen (String a s)) with v end.
