(* ===== verification/CronField.v ===== *)
(** Cron field bitmaps: the mask helpers of src/wukong/cron/wukong_cron_expr.c
    and their meaning as sets of field values. *)
From S2P Require Import Prelude.

(** WUKONG_CRON_EXPR_T: one 64-bit mask per field. *)
Record WUKONG_CRON_EXPR_T := mk_expr {
  second_mask : Z; minute_mask : Z; hour_mask : Z; day_mask : Z; month_mask : Z; weekday_mask : Z }.

Definition expr_zero : WUKONG_CRON_EXPR_T := mk_expr 0 0 0 0 0 0.

(** [1ULL << value] for the values 0..63 the masks use. *)
Definition bit64 (value : Z) : Z := Z.shiftl 1 value mod 2 ^ 64.

(** ** Operations of the source *)

Fixpoint full_mask_loop (fuel : nat) (value max mask : Z) : Z :=
  match fuel with
  | O => mask
  | S fuel => if value <=? max then full_mask_loop fuel (value + 1) max (Z.lor mask (bit64 value))
              else mask
  end.

Definition __field_full_mask (min max : Z) : Z :=
  full_mask_loop (Z.to_nat (max - min + 1)) min max 0.

Definition __field_has_value (mask value : Z) : bool := negb (Z.land mask (bit64 value) =? 0).

(** The scan both lookups run: the first enabled value of [value..max], or -1. *)
Fixpoint field_scan (fuel : nat) (mask max value : Z) : Z :=
  match fuel with
  | O => -1
  | S fuel => if value <=? max then
                if __field_has_value mask value then value else field_scan fuel mask max (value + 1)
              else -1
  end.

Definition __field_first_value (mask min max : Z) : Z :=
  field_scan (Z.to_nat (max - min + 1)) mask max min.

Definition __field_next_value (mask min max current : Z) : Z :=
  field_scan (Z.to_nat (max - current + 1)) mask max current.

(** [for (value = start; value <= end; value += step) *mask |= (1ULL << value);]
    [None]: [value += step] overflows INT_T, which C leaves undefined. *)
Fixpoint add_range_loop (fuel : nat) (mask value stop step : Z) : option Z :=
  match fuel with
  | O => Some mask
  | S fuel =>
      if value <=? stop then
        if INT_MAX <? value + step then None
        else add_range_loop fuel (Z.lor mask (bit64 value)) (value + step) stop step
      else Some mask
  end.

Definition __field_add_range (mask min max start stop step : Z) : option (OPERATE_RET * Z) :=
  if (step <=? 0) || (start <? min) || (max <? stop) || (stop <? start)
  then Some (OPRT_INVALID_PARM, mask)
  else match add_range_loop (Z.to_nat (stop - start + 1)) mask start stop step with
       | Some mask => Some (OPRT_OK, mask)
       | None => None
       end.

(** ** Masks as sets *)

Lemma bit64_pow value : 0 <= value < 64 -> bit64 value = 2 ^ value.
Proof.
  intros Hv. unfold bit64. rewrite Z.shiftl_1_l. apply Z.mod_small. split; [lia|].
  apply Z.pow_lt_mono_r; lia.
Qed.

Lemma bit64_testbit value i : 0 <= value < 64 -> Z.testbit (bit64 value) i = (value =? i).
Proof. intros Hv. rewrite bit64_pow by done. apply Z.pow2_bits_eqb. lia. Qed.

Lemma field_has_value_testbit mask value :
  0 <= value < 64 -> __field_has_value mask value = Z.testbit mask value.
Proof.
  intros Hv. unfold __field_has_value. destruct (Z.testbit mask value) eqn:Hb.
  - apply negb_true_iff, Z.eqb_neq. intros H0. apply (f_equal (fun z => Z.testbit z value)) in H0.
    rewrite Z.land_spec, Hb, bit64_testbit, Z.eqb_refl, Z.bits_0 in H0 by done. done.
  - apply negb_false_iff, Z.eqb_eq. apply Z.bits_inj'. intros i Hi.
    rewrite Z.land_spec, bit64_testbit, Z.bits_0 by done.
    destruct (Z.eqb_spec value i) as [->|]; [by rewrite Hb | apply andb_false_r].
Qed.

Lemma lor_bit64_testbit mask value i :
  0 <= value < 64 -> Z.testbit (Z.lor mask (bit64 value)) i = Z.testbit mask i || (value =? i).
Proof. intros Hv. by rewrite Z.lor_spec, bit64_testbit. Qed.

Lemma full_mask_loop_testbit fuel value max mask i :
  0 <= value -> max < 64 -> Z.of_nat fuel = Z.max 0 (max - value + 1) ->
  Z.testbit (full_mask_loop fuel value max mask) i =
  Z.testbit mask i || ((value <=? i) && (i <=? max)).
Proof.
  revert value mask. induction fuel as [|fuel IH]; intros value mask Hv Hm Hf; cbn [full_mask_loop].
  - replace ((value <=? i) && (i <=? max)) with false by lia. by rewrite orb_false_r.
  - destruct (Z.leb_spec value max) as [Hle|]; [|lia].
    rewrite IH, lor_bit64_testbit by lia. rewrite <- orb_assoc. f_equal. lia.
Qed.

(** The wildcard mask holds exactly the legal values of its field. *)
Lemma field_full_mask_testbit min max i :
  0 <= min -> min <= max < 64 ->
  Z.testbit (__field_full_mask min max) i = (min <=? i) && (i <=? max).
Proof.
  intros Hmin Hmax. unfold __field_full_mask. rewrite full_mask_loop_testbit by lia.
  by rewrite Z.bits_0.
Qed.

(** The scan returns the least enabled value of its range, -1 when there is none. *)
Lemma field_scan_spec fuel mask max value :
  0 <= value -> max < 64 -> Z.of_nat fuel = Z.max 0 (max - value + 1) ->
  let r := field_scan fuel mask max value in
  (r = -1 /\ forall i, value <= i <= max -> Z.testbit mask i = false) \/
  (value <= r <= max /\ Z.testbit mask r = true /\
   forall i, value <= i < r -> Z.testbit mask i = false).
Proof.
  revert value. induction fuel as [|fuel IH]; intros value Hv Hm Hf; cbn [field_scan].
  - left. split; [done | lia].
  - destruct (Z.leb_spec value max) as [Hle|]; [|left; split; [done | lia]].
    rewrite field_has_value_testbit by lia. destruct (Z.testbit mask value) eqn:Hb.
    + right. split; [lia|]. split; [done | lia].
    + specialize (IH (value + 1) ltac:(lia) Hm ltac:(lia)). cbn in IH.
      destruct IH as [[-> Hn] | (Hr & Hb' & Hn)]; [left | right].
      * split; [done|]. intros i Hi. destruct (decide (i = value)) as [->|]; [done | apply Hn; lia].
      * split; [lia|]. split; [done|]. intros i Hi.
        destruct (decide (i = value)) as [->|]; [done | apply Hn; lia].
Qed.

Lemma field_next_value_spec mask min max current :
  0 <= current -> max < 64 ->
  let r := __field_next_value mask min max current in
  (r = -1 /\ forall i, current <= i <= max -> Z.testbit mask i = false) \/
  (current <= r <= max /\ Z.testbit mask r = true /\
   forall i, current <= i < r -> Z.testbit mask i = false).
Proof. intros. apply field_scan_spec; lia. Qed.

Lemma field_first_value_spec mask min max :
  0 <= min -> max < 64 ->
  let r := __field_first_value mask min max in
  (r = -1 /\ forall i, min <= i <= max -> Z.testbit mask i = false) \/
  (min <= r <= max /\ Z.testbit mask r = true /\
   forall i, min <= i < r -> Z.testbit mask i = false).
Proof. intros. apply field_scan_spec; lia. Qed.

(** ** Ranges *)

(** The values of the range [start..stop] reached in steps of [step]. *)
Definition in_range (start stop step i : Z) : bool :=
  (start <=? i) && (i <=? stop) && ((i - start) mod step =? 0).

Lemma in_range_empty start stop step i : stop < start -> in_range start stop step i = false.
Proof. intros H. unfold in_range. replace ((start <=? i) && (i <=? stop)) with false by lia. done. Qed.

Lemma in_range_unfold start stop step i :
  0 < step -> start <= stop ->
  in_range start stop step i = (start =? i) || in_range (start + step) stop step i.
Proof.
  intros Hs Hle. unfold in_range.
  replace (i - (start + step)) with (i - start + (-1) * step) by lia. rewrite Z.mod_add by lia.
  destruct (Z.eqb_spec start i) as [->|Hne].
  - rewrite Z.sub_diag, Z.mod_0_l by lia. change (0 =? 0) with true. rewrite andb_true_r. lia.
  - destruct (Z.leb_spec start i) as [Hsi|]; cbn; [|lia].
    destruct (Z.leb_spec i stop) as [His|]; cbn; [|lia].
    destruct (Z.eqb_spec ((i - start) mod step) 0) as [Hm|]; [|lia].
    destruct (Z.leb_spec (start + step) i); [done|].
    rewrite Z.mod_small in Hm by lia. lia.
Qed.

Lemma add_range_loop_spec fuel mask value stop step mask' i :
  0 < step -> 0 <= value -> stop < 64 -> Z.max 0 (stop - value + 1) <= Z.of_nat fuel ->
  add_range_loop fuel mask value stop step = Some mask' ->
  Z.testbit mask' i = Z.testbit mask i || in_range value stop step i.
Proof.
  intros Hs. revert mask value. induction fuel as [|fuel IH]; intros mask value Hv Hst Hf;
    cbn [add_range_loop].
  - intros [= <-]. rewrite in_range_empty by lia. by rewrite orb_false_r.
  - destruct (Z.leb_spec value stop) as [Hle|].
    + destruct (Z.ltb_spec INT_MAX (value + step)); [done|].
      intros Hl. apply IH in Hl; [|lia..]. rewrite Hl, lor_bit64_testbit by lia.
      rewrite (in_range_unfold value) by lia. by rewrite orb_assoc.
    + intros [= <-]. rewrite in_range_empty by lia. by rewrite orb_false_r.
Qed.

(** No step of at most [INT_MAX - 63] overflows. *)
Lemma add_range_loop_defined fuel mask value stop step :
  0 < step <= INT_MAX - 63 -> stop < 64 -> is_Some (add_range_loop fuel mask value stop step).
Proof.
  intros Hs Hst. revert mask value. induction fuel as [|fuel IH]; intros mask value; cbn [add_range_loop].
  - by eexists.
  - destruct (Z.leb_spec value stop); [|by eexists].
    destruct (Z.ltb_spec INT_MAX (value + step)); [lia|]. apply IH.
Qed.

Lemma field_add_range_ok mask min max start stop step mask' :
  0 <= min -> max < 64 ->
  __field_add_range mask min max start stop step = Some (OPRT_OK, mask') ->
  (0 < step /\ min <= start <= stop /\ stop <= max) /\
  (forall i, Z.testbit mask' i = Z.testbit mask i || in_range start stop step i).
Proof.
  intros Hmin Hmax. unfold __field_add_range.
  destruct ((step <=? 0) || _ || _ || _) eqn:Hg; [intros [= ?]; done|].
  rewrite !orb_false_iff, !Z.ltb_ge, Z.leb_gt in Hg. destruct Hg as [[[Hs H1] H2] H3].
  destruct (add_range_loop _ _ _ _ _) as [m|] eqn:Hl; [|done]. intros [= <-].
  split; [lia|]. intros i. eapply add_range_loop_spec; [..| exact Hl]; lia.
Qed.

Lemma field_add_range_accepts mask min max start stop step :
  0 < step <= INT_MAX - 63 -> min <= start <= stop -> stop <= max -> max < 64 ->
  exists mask', __field_add_range mask min max start stop step = Some (OPRT_OK, mask').
Proof.
  intros Hs H1 H2 H3. unfold __field_add_range.
  if_false (rewrite !orb_false_iff, !Z.ltb_ge, Z.leb_gt; lia).
  destruct (add_range_loop_defined (Z.to_nat (stop - start + 1)) mask start stop step) as [m ->];
    [lia.. | by eexists].
Qed.

Lemma field_add_range_cases mask min max start stop step :
  __field_add_range mask min max start stop step = None \/
  __field_add_range mask min max start stop step = Some (OPRT_INVALID_PARM, mask) \/
  exists mask', __field_add_range mask min max start stop step = Some (OPRT_OK, mask').
Proof.
  unfold __field_add_range. destruct (_ || _); [by right; left|].
  destruct (add_range_loop _ _ _ _ _); eauto.
Qed.
