(* ===== verification/CronParse.v ===== *)
(** The cron expression parser of src/wukong/cron/wukong_cron_expr.c, and its
    correctness against an abstract syntax of cron fields. *)
From S2P Require Import Prelude.
From S2P Require Import CStr.
From S2P Require Import CronField.

#[local] Open Scope string_scope.
#[local] Open Scope Z_scope.

Definition WUKONG_CRON_EXPR_MAX_LEN : nat := 64.

(** ** Operations of the source; [None] is undefined behaviour *)

Definition __field_parse_item (item : string) (min max mask : Z) : option (OPERATE_RET * Z) :=
  let '(head, slash) := split_at "/" item in
  if match slash with Some s => String.eqb s "" | None => false end
  then Some (OPRT_INVALID_PARM, mask)
  else
    let step := match slash with Some s => strtol s | None => 1 end in
    if String.eqb head "*" then __field_add_range mask min max min max step
    else
      let '(lo, dash) := split_at "-" head in
      match dash with
      | Some hi =>
          if String.eqb lo "" || String.eqb hi "" then Some (OPRT_INVALID_PARM, mask)
          else __field_add_range mask min max (strtol lo) (strtol hi) step
      | None =>
          match slash with
          | Some _ =>
              if String.eqb head "" then Some (OPRT_INVALID_PARM, mask)
              else __field_add_range mask min max (strtol head) max step
          | None => __field_add_range mask min max (strtol head) (strtol head) 1
          end
      end.

(** The token loop of [__field_parse]; every token shortens the rest. *)
Fixpoint field_parse_loop (fuel : nat) (s : string) (min max mask : Z) : option (OPERATE_RET * Z) :=
  match fuel with
  | O => Some (OPRT_OK, mask)
  | S fuel =>
      match strtok_r "," s with
      | None => Some (if mask =? 0 then OPRT_INVALID_PARM else OPRT_OK, mask)
      | Some (item, rest) =>
          match __field_parse_item item min max mask with
          | Some (rt, mask) =>
              if negb (rt =? OPRT_OK) then Some (rt, mask)
              else field_parse_loop fuel rest min max mask
          | None => None
          end
      end
  end.

Definition __field_parse (field_str : string) (min max : Z) : option (OPERATE_RET * Z) :=
  field_parse_loop (S (strlen field_str)) field_str min max 0.

(** At most [n] blank-separated tokens, and what is left. *)
Fixpoint take_fields (n : nat) (s : string) : list string * string :=
  match n with
  | O => ([], s)
  | S n => match strtok_r " " s with
           | None => ([], "")
           | Some (tok, rest) => let '(l, r) := take_fields n rest in (tok :: l, r)
           end
  end.

(** One [rt = __field_parse(...); if (rt != OPRT_OK) return rt;] of the
    parser: [set] stores the field's mask, which is written even on failure. *)
Definition parse_then (f : string) (min max : Z) (set : Z -> WUKONG_CRON_EXPR_T)
    (k : WUKONG_CRON_EXPR_T -> option (OPERATE_RET * WUKONG_CRON_EXPR_T))
    : option (OPERATE_RET * WUKONG_CRON_EXPR_T) :=
  match __field_parse f min max with
  | None => None
  | Some (rt, mask) => if negb (rt =? OPRT_OK) then Some (rt, set mask) else k (set mask)
  end.

Definition wukong_cron_expr_parse (expr_str : string) : option (OPERATE_RET * WUKONG_CRON_EXPR_T) :=
  if (WUKONG_CRON_EXPR_MAX_LEN <=? strlen expr_str)%nat then Some (OPRT_INVALID_PARM, expr_zero)
  else
    match take_fields 6 expr_str with
    | ([f0; f1; f2; f3; f4; f5], rest) =>
        if match strtok_r " " rest with Some _ => true | None => false end
        then Some (OPRT_INVALID_PARM, expr_zero)
        else
          parse_then f0 0 59 (fun m => mk_expr m 0 0 0 0 0) (fun e =>
          parse_then f1 0 59 (fun m => mk_expr (second_mask e) m 0 0 0 0) (fun e =>
          parse_then f2 0 23 (fun m => mk_expr (second_mask e) (minute_mask e) m 0 0 0) (fun e =>
          parse_then f3 1 31 (fun m =>
            mk_expr (second_mask e) (minute_mask e) (hour_mask e) m 0 0) (fun e =>
          parse_then f4 1 12 (fun m =>
            mk_expr (second_mask e) (minute_mask e) (hour_mask e) (day_mask e) m 0) (fun e =>
          parse_then f5 0 6 (fun m =>
            mk_expr (second_mask e) (minute_mask e) (hour_mask e) (day_mask e) (month_mask e) m)
            (fun e => Some (OPRT_OK, e)))))))
    | _ => Some (OPRT_INVALID_PARM, expr_zero)
    end.

Example parse_quarter :
  wukong_cron_expr_parse "*/15 * * * * *" =
  Some (OPRT_OK, mk_expr (2^0 + 2^15 + 2^30 + 2^45) (2^60 - 1) (2^24 - 1) (2^32 - 2) (2^13 - 2) 127).
Proof. vm_compute. reflexivity. Qed.

Example parse_rejects_61 : option_map fst (wukong_cron_expr_parse "61 * * * * *") = Some OPRT_INVALID_PARM.
Proof. vm_compute. reflexivity. Qed.

(** ** What the parser guarantees *)

(** A mask is a non-empty set of legal values. *)
Definition mask_wf (min max mask : Z) : Prop :=
  (exists v, min <= v <= max /\ Z.testbit mask v = true) /\
  (forall v, Z.testbit mask v = true -> min <= v <= max).

Record expr_wf (e : WUKONG_CRON_EXPR_T) : Prop := {
  ewf_sec : mask_wf 0 59 (second_mask e);
  ewf_min : mask_wf 0 59 (minute_mask e);
  ewf_hour : mask_wf 0 23 (hour_mask e);
  ewf_day : mask_wf 1 31 (day_mask e);
  ewf_month : mask_wf 1 12 (month_mask e);
  ewf_weekday : mask_wf 0 6 (weekday_mask e) }.

(** Adding a range keeps a mask inside its field. *)
Definition mask_within (min max mask : Z) : Prop :=
  0 <= mask /\ forall v, Z.testbit mask v = true -> min <= v <= max.

Lemma mask_within_0 min max : mask_within min max 0.
Proof. split; [lia|]. intros v. by rewrite Z.bits_0. Qed.

Lemma add_range_loop_nonneg fuel mask value stop step mask' :
  0 <= mask -> add_range_loop fuel mask value stop step = Some mask' -> 0 <= mask'.
Proof.
  revert mask value. induction fuel as [|fuel IH]; intros mask value Hm; cbn [add_range_loop];
    [by intros [= <-]|].
  destruct (value <=? stop); [|by intros [= <-]]. destruct (INT_MAX <? value + step); [done|].
  apply IH. rewrite Z.lor_nonneg. split; [done|]. unfold bit64. apply Z.mod_pos_bound. lia.
Qed.

Lemma field_add_range_within mask min max start stop step rt mask' :
  0 <= min -> max < 64 -> mask_within min max mask ->
  __field_add_range mask min max start stop step = Some (rt, mask') -> mask_within min max mask'.
Proof.
  intros Hmin Hmax [Hnn Hin] Ha.
  destruct (field_add_range_cases mask min max start stop step) as [H|[H|[m H]]];
    rewrite H in Ha; [done | by injection Ha as <- <- |]. injection Ha as <- <-.
  split.
  - unfold __field_add_range in H. destruct (_ || _); [congruence|].
    destruct (add_range_loop _ _ _ _ _) as [m'|] eqn:Hl; [|done]. injection H as <-.
    by eapply add_range_loop_nonneg.
  - apply field_add_range_ok in H as [Hr Hb]; [|done..]. intros v. rewrite Hb.
    rewrite orb_true_iff. intros [Hv|Hv]; [by apply Hin|]. unfold in_range in Hv.
    rewrite !andb_true_iff in Hv. lia.
Qed.

Lemma field_parse_item_within item min max mask rt mask' :
  0 <= min -> max < 64 -> mask_within min max mask ->
  __field_parse_item item min max mask = Some (rt, mask') -> mask_within min max mask'.
Proof.
  intros Hmin Hmax Hm. unfold __field_parse_item.
  destruct (split_at "/" item) as [head slash].
  repeat case_match; intros Ha; try (by injection Ha as <- <-);
    eapply field_add_range_within; eauto.
Qed.

Lemma field_parse_loop_wf fuel s min max mask mask' :
  0 <= min -> max < 64 -> mask_within min max mask -> (strlen s < fuel)%nat ->
  field_parse_loop fuel s min max mask = Some (OPRT_OK, mask') -> mask_wf min max mask'.
Proof.
  intros Hmin Hmax. revert s mask. induction fuel as [|fuel IH]; intros s mask Hm Hf;
    cbn [field_parse_loop]; [lia|].
  destruct (strtok_r "," s) as [[item rest]|] eqn:Ht.
  - destruct (__field_parse_item item min max mask) as [[rt m]|] eqn:Hi; [|done].
    destruct (negb (rt =? OPRT_OK)) eqn:Hrt; [intros [= -> ->]; done|].
    apply IH; [by eapply field_parse_item_within|]. apply strtok_r_length in Ht. unfold strlen in *. lia.
  - destruct (Z.eqb_spec mask 0) as [|Hne]; [done|]. intros [= <-]. destruct Hm as [Hnn Hin].
    split; [|exact Hin]. assert (Hb : Z.testbit mask (Z.log2 mask) = true)
      by (apply Z.bit_log2; lia). eauto.
Qed.

Lemma field_parse_wf s min max mask :
  0 <= min -> max < 64 -> __field_parse s min max = Some (OPRT_OK, mask) -> mask_wf min max mask.
Proof.
  intros Hmin Hmax. apply field_parse_loop_wf; [done..| apply mask_within_0 | lia].
Qed.

Lemma parse_then_ok f min max set k e :
  parse_then f min max set k = Some (OPRT_OK, e) ->
  exists mask, __field_parse f min max = Some (OPRT_OK, mask) /\ k (set mask) = Some (OPRT_OK, e).
Proof.
  unfold parse_then. destruct (__field_parse f min max) as [[rt mask]|]; [|done].
  destruct (Z.eqb_spec rt OPRT_OK) as [->|]; cbn; [eauto | congruence].
Qed.

(** Shape of a successful parse: six fields, each parsed within its range. *)
Lemma expr_parse_fields s e :
  wukong_cron_expr_parse s = Some (OPRT_OK, e) ->
  exists f0 f1 f2 f3 f4 f5,
    __field_parse f0 0 59 = Some (OPRT_OK, second_mask e) /\
    __field_parse f1 0 59 = Some (OPRT_OK, minute_mask e) /\
    __field_parse f2 0 23 = Some (OPRT_OK, hour_mask e) /\
    __field_parse f3 1 31 = Some (OPRT_OK, day_mask e) /\
    __field_parse f4 1 12 = Some (OPRT_OK, month_mask e) /\
    __field_parse f5 0 6 = Some (OPRT_OK, weekday_mask e).
Proof.
  unfold wukong_cron_expr_parse. destruct (_ <=? _)%nat; [done|].
  destruct (take_fields 6 s) as [fs rest].
  destruct fs as [|f0 [|f1 [|f2 [|f3 [|f4 [|f5 [|]]]]]]]; try done.
  destruct (strtok_r " " rest); [done|].
  intros H. repeat (apply parse_then_ok in H as (? & ? & H)). injection H as <-. cbn in *.
  eauto 15.
Qed.

Lemma expr_parse_wf s e : wukong_cron_expr_parse s = Some (OPRT_OK, e) -> expr_wf e.
Proof.
  intros H. apply expr_parse_fields in H as (f0 & f1 & f2 & f3 & f4 & f5 & H0 & H1 & H2 & H3 & H4 & H5).
  split; eapply field_parse_wf; eauto; lia.
Qed.

(** ** Abstract syntax of cron fields and its printer *)

Inductive cron_item :=
| ItemStar (step : option Z)
| ItemRange (lo hi : Z) (step : option Z)
| ItemFrom (lo step : Z)
| ItemOne (v : Z).

Definition step_ok (step : Z) : Prop := 0 < step <= INT_MAX - 63.

Definition item_ok (min max : Z) (it : cron_item) : Prop :=
  match it with
  | ItemStar step => step_ok (default 1 step)
  | ItemRange lo hi step => min <= lo <= hi /\ hi <= max /\ step_ok (default 1 step)
  | ItemFrom lo step => min <= lo <= max /\ step_ok step
  | ItemOne v => min <= v <= max
  end.

(** The values an item stands for. *)
Definition item_denotes (min max : Z) (it : cron_item) (i : Z) : bool :=
  match it with
  | ItemStar step => in_range min max (default 1 step) i
  | ItemRange lo hi step => in_range lo hi (default 1 step) i
  | ItemFrom lo step => in_range lo max step i
  | ItemOne v => v =? i
  end.

Definition print_step (step : option Z) : string :=
  match step with Some n => "/" ++ fmt_u n | None => "" end.

Definition print_item (it : cron_item) : string :=
  match it with
  | ItemStar step => "*" ++ print_step step
  | ItemRange lo hi step => fmt_u lo ++ "-" ++ fmt_u hi ++ print_step step
  | ItemFrom lo step => fmt_u lo ++ print_step (Some step)
  | ItemOne v => fmt_u v
  end.

Fixpoint join (sep : string) (l : list string) : string :=
  match l with
  | [] => ""
  | [x] => x
  | x :: l => x ++ sep ++ join sep l
  end.

Definition print_field (items : list cron_item) : string := join "," (map print_item items).

Definition print_expr (fields : list (list cron_item)) : string := join " " (map print_field fields).

Definition field_denotes (min max : Z) (items : list cron_item) (i : Z) : bool :=
  existsb (fun it => item_denotes min max it i) items.

(** ** The parser inverts the printer *)

Lemma split_slash head step :
  no_char "/" head = true -> split_at "/" (head ++ print_step step) = (head, option_map fmt_u step).
Proof.
  intros Hh. destruct step as [n|]; cbn [print_step option_map].
  - by apply split_at_app.
  - rewrite app_nil_r_str. by apply split_at_none.
Qed.

Lemma print_item_no_char c it :
  isdigit c = false -> Ascii.eqb c "*" = false -> Ascii.eqb c "/" = false ->
  Ascii.eqb c "-" = false -> no_char c (print_item it) = true.
Proof.
  intros Hd H1 H2 H3. pose proof (fun n => fmt_u_no_char c n Hd) as Hf.
  apply no_char_1 in H1, H2, H3.
  assert (Hst : forall st, no_char c (print_step st) = true).
  { intros [n|]; cbn [print_step]; [|done]. by rewrite no_char_app, Hf, H2. }
  destruct it as [st|lo hi st|lo st|v]; cbn [print_item];
    rewrite ?no_char_app, ?Hst, ?Hf, ?H1, ?H3; done.
Qed.

Lemma print_item_nonempty it : print_item it <> "".
Proof.
  assert (Happ : forall n s, fmt_u n ++ s <> "").
  { intros n s. destruct (fmt_u n) eqn:E; [by apply fmt_u_nonempty in E | done]. }
  destruct it; cbn [print_item]; [done | apply Happ.. | apply fmt_u_nonempty].
Qed.

Lemma step_strtol step : step_ok (default 1 step) ->
  match option_map fmt_u step with Some s => strtol s | None => 1 end = default 1 step.
Proof. destruct step; cbn; [|done]. intros Hs. apply strtol_fmt_u. unfold step_ok in Hs. lia. Qed.

Lemma step_nonempty step :
  match option_map fmt_u step with Some s => String.eqb s "" | None => false end = false.
Proof. destruct step; cbn; [apply eqb_fmt_u_nil | done]. Qed.

(** The parser accepts every printed item and adds exactly its values. *)
Lemma field_parse_item_print it min max mask :
  0 <= min -> min <= max < 64 -> item_ok min max it ->
  exists mask', __field_parse_item (print_item it) min max mask = Some (OPRT_OK, mask') /\
    forall i, Z.testbit mask' i = Z.testbit mask i || item_denotes min max it i.
Proof.
  intros Hmin Hmax Hok.
  assert (Hdone : forall a b s, 0 < s <= INT_MAX - 63 -> min <= a <= b -> b <= max ->
    exists mask', __field_add_range mask min max a b s = Some (OPRT_OK, mask') /\
      forall i, Z.testbit mask' i = Z.testbit mask i || in_range a b s i).
  { intros a b s Hs Ha Hb. destruct (field_add_range_accepts mask min max a b s) as [m Hm]; [lia..|].
    exists m. split; [done|]. apply (field_add_range_ok mask min max a b s); [lia..| done]. }
  unfold __field_parse_item. destruct it as [st|lo hi st|lo st|v]; cbn [print_item item_ok item_denotes] in *.
  - rewrite split_slash, step_nonempty, step_strtol by done. cbn. apply Hdone; [done | lia..].
  - destruct Hok as (Hlo & Hhi & Hst). unfold step_ok in *.
    rewrite !app_assoc_str, split_slash by (by autorewrite with cstr; rewrite !fmt_u_no_char).
    rewrite step_nonempty, step_strtol, <- app_assoc_str, fmt_u_app_neq by done.
    change (fmt_u lo ++ "-" ++ fmt_u hi) with (fmt_u lo ++ String "-" (fmt_u hi)).
    rewrite split_at_app, !eqb_fmt_u_nil by by apply fmt_u_no_char. cbn [orb].
    rewrite !strtol_fmt_u by (unfold INT_MAX in *; lia). by apply Hdone.
  - destruct Hok as (Hlo & Hst). unfold step_ok in *.
    rewrite split_slash by by apply fmt_u_no_char.
    rewrite (step_nonempty (Some st)), (step_strtol (Some st)) by done.
    rewrite fmt_u_neq, split_at_none by (done || by apply fmt_u_no_char). cbn [option_map].
    rewrite eqb_fmt_u_nil, strtol_fmt_u by (unfold INT_MAX in *; lia). apply Hdone; cbn; lia.
  - rewrite split_at_none, fmt_u_neq, split_at_none by (done || by apply fmt_u_no_char).
    rewrite strtol_fmt_u by (unfold INT_MAX; lia).
    destruct (Hdone v v 1) as (m & Hm & Hb); [unfold INT_MAX; lia..|].
    exists m. split; [done|]. intros i. rewrite Hb. f_equal. unfold in_range.
    rewrite Z.mod_1_r. change (0 =? 0) with true. rewrite andb_true_r. lia.
Qed.

Lemma field_parse_loop_print items fuel min max mask :
  0 <= min -> min <= max < 64 -> Forall (item_ok min max) items ->
  (length items < fuel)%nat ->
  exists mask',
    field_parse_loop fuel (print_field items) min max mask =
      Some (if mask' =? 0 then OPRT_INVALID_PARM else OPRT_OK, mask') /\
    forall i, Z.testbit mask' i = Z.testbit mask i || field_denotes min max items i.
Proof.
  intros Hmin Hmax. revert fuel mask.
  induction items as [|it items IH]; intros fuel mask Hok Hf.
  - destruct fuel as [|fuel]; [cbn in Hf; lia|]. exists mask. split; [done|].
    intros i. cbn. by rewrite orb_false_r.
  - apply Forall_cons in Hok as [Hit Hok].
    destruct fuel as [|fuel]; [cbn in Hf; lia|]. cbn [length] in Hf.
    assert (Htok : exists rest, strtok_r "," (print_field (it :: items)) = Some (print_item it, rest)
                     /\ rest = print_field items).
    { pose proof (print_item_nonempty it). pose proof (print_item_no_char "," it eq_refl eq_refl eq_refl eq_refl).
      exists (print_field items). split; [|done]. destruct items as [|it' items]; cbn.
      - by apply strtok_r_last.
      - by apply strtok_r_app. }
    destruct Htok as (rest & Htok & ->). cbn [field_parse_loop]. rewrite Htok.
    destruct (field_parse_item_print it min max mask) as (m & -> & Hm); [done..|]. cbn [negb Z.eqb].
    change (negb (OPRT_OK =? OPRT_OK)) with false. cbv iota.
    destruct (IH fuel m Hok ltac:(lia)) as (m' & -> & Hm'). exists m'. split; [done|].
    intros i. rewrite Hm', Hm. cbn. by rewrite orb_assoc.
Qed.

Lemma item_nonempty min max it : min <= max -> item_ok min max it ->
  exists i, item_denotes min max it i = true.
Proof.
  intros Hmm. destruct it as [st|lo hi st|lo st|v]; cbn; unfold in_range, step_ok.
  - exists min. rewrite Z.sub_diag, Z.mod_0_l by lia. cbn. lia.
  - exists lo. rewrite Z.sub_diag, Z.mod_0_l by lia. cbn. lia.
  - exists lo. rewrite Z.sub_diag, Z.mod_0_l by lia. cbn. lia.
  - exists v. lia.
Qed.

Lemma strlen_pos s : s <> "" -> (1 <= strlen s)%nat.
Proof. destruct s; cbn; [done | lia]. Qed.

Lemma join_strlen sep l :
  Forall (fun s => s <> "") l -> (length l <= strlen (join sep l))%nat.
Proof.
  induction l as [|x [|y l] IH]; intros Hl; apply Forall_cons in Hl as [Hx Hl] || clear Hl;
    [done | by apply strlen_pos |].
  specialize (IH Hl). change (join sep (x :: y :: l)) with (x ++ sep ++ join sep (y :: l)).
  rewrite !strlen_app. pose proof (strlen_pos x Hx). cbn [length] in *. lia.
Qed.

Lemma join_no_char c sep l :
  no_char c sep = true -> Forall (fun s => no_char c s = true) l -> no_char c (join sep l) = true.
Proof.
  intros Hs. induction l as [|x [|y l] IH]; intros Hl; apply Forall_cons in Hl as [Hx Hl] || clear Hl;
    [done | done |].
  change (join sep (x :: y :: l)) with (x ++ sep ++ join sep (y :: l)).
  by rewrite !no_char_app, Hx, Hs, IH.
Qed.

Definition field_ok (min max : Z) (items : list cron_item) : Prop :=
  items <> [] /\ Forall (item_ok min max) items.

Lemma field_parse_print items min max :
  0 <= min -> min <= max < 64 -> field_ok min max items ->
  exists mask, __field_parse (print_field items) min max = Some (OPRT_OK, mask) /\
    forall i, Z.testbit mask i = field_denotes min max items i.
Proof.
  intros Hmin Hmax [Hne Hok]. unfold __field_parse.
  destruct (field_parse_loop_print items (S (strlen (print_field items))) min max 0)
    as (m & -> & Hm); [done..| |].
  { pose proof (join_strlen "," (map print_item items)) as Hl. rewrite length_map in Hl.
    enough (length items <= strlen (print_field items))%nat by lia. apply Hl.
    apply Forall_map, Forall_true. intros it. apply print_item_nonempty. }
  assert (Hd : forall i, Z.testbit m i = field_denotes min max items i)
    by (intros i; by rewrite Hm, Z.bits_0).
  exists m. split; [|exact Hd].
  destruct (Z.eqb_spec m 0) as [->|]; [|done]. exfalso.
  destruct items as [|it items]; [done|]. apply Forall_cons in Hok as [Hit _].
  destruct (item_nonempty min max it) as [i Hi]; [lia | done|].
  specialize (Hd i). rewrite Z.bits_0 in Hd. cbn in Hd. by rewrite Hi in Hd.
Qed.

Lemma print_field_nonempty min max items : field_ok min max items -> print_field items <> "".
Proof.
  intros [Hne _] He. destruct items as [|it items]; [done|].
  pose proof (join_strlen "," (map print_item (it :: items))) as Hl. unfold print_field in He.
  rewrite He in Hl. cbn in Hl. specialize (Hl). enough (S (length (map print_item items)) <= 0)%nat by lia.
  apply Hl. constructor; [apply print_item_nonempty|].
  apply Forall_map, Forall_true. intros ?. apply print_item_nonempty.
Qed.

Lemma print_field_no_space items : no_char " " (print_field items) = true.
Proof.
  apply join_no_char; [done|]. apply Forall_map, Forall_true. intros it. by apply print_item_no_char.
Qed.

(** [e] is the denotation of the six printed fields. *)
Record expr_denotes (f0 f1 f2 f3 f4 f5 : list cron_item) (e : WUKONG_CRON_EXPR_T) : Prop := {
  ed_sec : forall i, Z.testbit (second_mask e) i = field_denotes 0 59 f0 i;
  ed_min : forall i, Z.testbit (minute_mask e) i = field_denotes 0 59 f1 i;
  ed_hour : forall i, Z.testbit (hour_mask e) i = field_denotes 0 23 f2 i;
  ed_day : forall i, Z.testbit (day_mask e) i = field_denotes 1 31 f3 i;
  ed_month : forall i, Z.testbit (month_mask e) i = field_denotes 1 12 f4 i;
  ed_weekday : forall i, Z.testbit (weekday_mask e) i = field_denotes 0 6 f5 i }.

Record fields_ok (f0 f1 f2 f3 f4 f5 : list cron_item) : Prop := {
  fo_sec : field_ok 0 59 f0; fo_min : field_ok 0 59 f1; fo_hour : field_ok 0 23 f2;
  fo_day : field_ok 1 31 f3; fo_month : field_ok 1 12 f4; fo_weekday : field_ok 0 6 f5 }.

Lemma take_fields_print f0 f1 f2 f3 f4 f5 :
  fields_ok f0 f1 f2 f3 f4 f5 ->
  take_fields 6 (print_expr [f0; f1; f2; f3; f4; f5]) =
    (map print_field [f0; f1; f2; f3; f4; f5], "").
Proof.
  intros [H0 H1 H2 H3 H4 H5].
  pose proof print_field_no_space as Hsp. pose proof print_field_nonempty as Hne.
  unfold print_expr. cbn [map join take_fields].
  repeat (rewrite strtok_r_sep by (done || eapply Hne; eassumption); cbv beta iota).
  rewrite strtok_r_last by (done || eapply Hne; eassumption). done.
Qed.

Lemma parse_then_print items min max set k :
  0 <= min -> min <= max < 64 -> field_ok min max items ->
  exists mask, (forall i, Z.testbit mask i = field_denotes min max items i) /\
    parse_then (print_field items) min max set k = k (set mask).
Proof.
  intros Hmin Hmax Hok. destruct (field_parse_print items min max) as (m & Hp & Hm); [done..|].
  exists m. split; [done|]. unfold parse_then. by rewrite Hp.
Qed.

(** One field of the expression: the rest parses after it. *)
#[local] Ltac next_field H :=
  match goal with |- context [parse_then (print_field ?f) ?a ?b ?set ?k] =>
    let m := fresh "m" in let Hm := fresh "Hm" in
    destruct (parse_then_print f a b set k) as (m & Hm & ->); [lia | lia | exact H |] end.

Lemma expr_parse_print f0 f1 f2 f3 f4 f5 :
  fields_ok f0 f1 f2 f3 f4 f5 ->
  (strlen (print_expr [f0; f1; f2; f3; f4; f5]) < WUKONG_CRON_EXPR_MAX_LEN)%nat ->
  exists e, wukong_cron_expr_parse (print_expr [f0; f1; f2; f3; f4; f5]) = Some (OPRT_OK, e) /\
    expr_denotes f0 f1 f2 f3 f4 f5 e.
Proof.
  intros Hok Hlen. unfold wukong_cron_expr_parse.
  if_false (apply Nat.leb_gt; done). rewrite take_fields_print by done. cbn [map].
  change (strtok_r " " "") with (@None (string * string)). cbv iota.
  destruct Hok as [H0 H1 H2 H3 H4 H5].
  next_field H0. next_field H1. next_field H2. next_field H3. next_field H4. next_field H5.
  eexists. split; [reflexivity|]. by split.
Qed.
