(* ===== verification/CronNext.v ===== *)
(** Matching a cron expression against local time and the search for its next
    firing time (src/wukong/cron/wukong_cron_expr.c), verified against the
    definition of "the first later second that matches". *)
From S2P Require Import Prelude.
From S2P Require Import Calendar.
From S2P Require Import CronField.
From S2P Require Import CronParse.

(** ** Operations of the source *)

Definition __day_matches (expr : WUKONG_CRON_EXPR_T) (tm_info : POSIX_TM_S) : bool :=
  let day_all := day_mask expr =? __field_full_mask 1 31 in
  let weekday_all := weekday_mask expr =? __field_full_mask 0 6 in
  let weekday := if tm_wday tm_info =? 7 then 0 else tm_wday tm_info in
  let day_match := __field_has_value (day_mask expr) (tm_mday tm_info) in
  let weekday_match := __field_has_value (weekday_mask expr) weekday in
  if day_all && weekday_all then true
  else if day_all then weekday_match
  else if weekday_all then day_match
  else day_match || weekday_match.

Definition wukong_cron_expr_match (expr : WUKONG_CRON_EXPR_T) (tm_info : POSIX_TM_S) : bool :=
  if negb (__field_has_value (second_mask expr) (tm_sec tm_info)) ||
     negb (__field_has_value (minute_mask expr) (tm_min tm_info)) ||
     negb (__field_has_value (hour_mask expr) (tm_hour tm_info)) ||
     negb (__field_has_value (month_mask expr) (tm_mon tm_info + 1))
  then false else __day_matches expr tm_info.

Section NextFire.
Context `{TS : TimeService}.

Definition __get_tm (ts : TIME_T) : OPERATE_RET * POSIX_TM_S := tal_time_get_local_time_custom ts.

(** The offset search of [__local_tm_to_ts]: [n] quarter-hour offsets from
    [offset_quarter] on. *)
Fixpoint offset_search (n : nat) (offset_quarter : Z) (direct_ts : TIME_T) (tm_copy : POSIX_TM_S)
    : OPERATE_RET * TIME_T :=
  match n with
  | O => (OPRT_INVALID_PARM, 0)
  | S n =>
      let candidate_ts := u32 (direct_ts - u32 (offset_quarter * 15 * 60)) in
      let '(rt, verify_tm) := __get_tm candidate_ts in
      if negb (rt =? OPRT_OK) then offset_search n (offset_quarter + 1) direct_ts tm_copy
      else if __tm_equals tm_copy verify_tm then (OPRT_OK, candidate_ts)
      else offset_search n (offset_quarter + 1) direct_ts tm_copy
  end.

Definition __local_tm_to_ts (tm_info : POSIX_TM_S) : OPERATE_RET * TIME_T :=
  let '(rt, tm_copy) := __normalize_local_tm tm_info in
  if negb (rt =? OPRT_OK) then (OPRT_INVALID_PARM, 0)
  else
    let direct_ts := tal_time_mktime tm_copy in
    let '(rt, verify_tm) := __get_tm direct_ts in
    if (rt =? OPRT_OK) && __tm_equals tm_copy verify_tm then (OPRT_OK, direct_ts)
    else offset_search 113 (- (14 * 4)) direct_ts tm_copy.

(** [__local_tm_to_ts(&tm_info, &candidate)] followed by [continue] or the
    error return. *)
Definition retarget (tm_info : POSIX_TM_S) : TIME_T + (OPERATE_RET * TIME_T) :=
  let '(rt, ts) := __local_tm_to_ts tm_info in
  if negb (rt =? OPRT_OK) then inr (OPRT_INVALID_PARM, 0) else inl ts.

(** One round of the search loop. *)
Definition next_fire_round (expr : WUKONG_CRON_EXPR_T) (candidate : TIME_T)
    : TIME_T + (OPERATE_RET * TIME_T) :=
  let '(rt, tm) := __get_tm candidate in
  if negb (rt =? OPRT_OK) then inr (OPRT_INVALID_PARM, 0)
  else if negb (__field_has_value (month_mask expr) (tm_mon tm + 1)) then
    let next_value := __field_next_value (month_mask expr) 1 12 (tm_mon tm + 2) in
    let '(year, next_value) :=
      if next_value <? 0 then (tm_year tm + 1, __field_first_value (month_mask expr) 1 12)
      else (tm_year tm, next_value) in
    retarget (mk_tm 0 0 0 1 (next_value - 1) year (tm_wday tm))
  else if negb (__day_matches expr tm) then
    retarget (mk_tm 0 0 0 (tm_mday tm + 1) (tm_mon tm) (tm_year tm) (tm_wday tm))
  else if negb (__field_has_value (hour_mask expr) (tm_hour tm)) then
    let next_value := __field_next_value (hour_mask expr) 0 23 (tm_hour tm + 1) in
    let '(mday, hour) :=
      if next_value <? 0 then (tm_mday tm + 1, 0) else (tm_mday tm, next_value) in
    retarget (mk_tm 0 0 hour mday (tm_mon tm) (tm_year tm) (tm_wday tm))
  else if negb (__field_has_value (minute_mask expr) (tm_min tm)) then
    let next_value := __field_next_value (minute_mask expr) 0 59 (tm_min tm + 1) in
    let '(hour, min) :=
      if next_value <? 0 then (tm_hour tm + 1, 0) else (tm_hour tm, next_value) in
    retarget (mk_tm 0 min hour (tm_mday tm) (tm_mon tm) (tm_year tm) (tm_wday tm))
  else if negb (__field_has_value (second_mask expr) (tm_sec tm)) then
    let next_value := __field_next_value (second_mask expr) 0 59 (tm_sec tm + 1) in
    let '(min, sec) :=
      if next_value <? 0 then (tm_min tm + 1, 0) else (tm_min tm, next_value) in
    retarget (mk_tm sec min (tm_hour tm) (tm_mday tm) (tm_mon tm) (tm_year tm) (tm_wday tm))
  else inr (OPRT_OK, candidate).

(** The search window: five years of 366 days, in seconds. *)
Definition search_span : Z := 366 * 24 * 3600 * 5.

Definition next_fire_loop (expr : WUKONG_CRON_EXPR_T) (limit_ts candidate : TIME_T)
    : TIME_T + (OPERATE_RET * TIME_T) :=
  if candidate <=? limit_ts then next_fire_round expr candidate else inr (OPRT_INVALID_PARM, 0).

(** [None]: still searching after 2^28 rounds. The window holds fewer seconds
    than that, and [next_fire_total] shows that every round advances. *)
Definition wukong_cron_expr_next_fire (expr : WUKONG_CRON_EXPR_T) (from_ts : TIME_T)
    : option (OPERATE_RET * TIME_T) :=
  let candidate := u32 (from_ts + 1) in
  let limit_ts := u32 (from_ts + search_span) in
  match iter_pos (next_fire_loop expr limit_ts) (2 ^ 28)%positive candidate with
  | inr r => Some r
  | inl _ => None
  end.

(** ** Specification *)

Definition local_tm (ts : TIME_T) : POSIX_TM_S := snd (tal_time_get_local_time_custom ts).

(** The expression fires in the second [ts]. *)
Definition fires_at (expr : WUKONG_CRON_EXPR_T) (ts : TIME_T) : bool :=
  wukong_cron_expr_match expr (local_tm ts).

(** What the search promises: the first later second that fires, or an error
    when no second of the window does. *)
Definition next_fire_spec (expr : WUKONG_CRON_EXPR_T) (from_ts : TIME_T) (r : OPERATE_RET * TIME_T) : Prop :=
  (fst r = OPRT_OK /\ from_ts < snd r <= from_ts + search_span /\ fires_at expr (snd r) = true /\
   forall u, from_ts < u < snd r -> fires_at expr u = false) \/
  (r = (OPRT_INVALID_PARM, 0) /\
   forall u, from_ts < u <= from_ts + search_span -> fires_at expr u = false).

End NextFire.
