(* ===== verification/CronNextCorrect.v ===== *)
(** Correctness of the next-fire search of [CronNext]: on a device with a fixed
    UTC offset it returns exactly the first later second that matches. *)
From S2P Require Import Prelude.
From S2P Require Import Calendar.
From S2P Require Import CronField.
From S2P Require Import CronParse.
From S2P Require Import CronNext.

Section Correct.
Context `{FZ : FixedZone off mkoff}.

(** Timestamps far enough from both ends of TIME_T for every probe of the
    offset search to be a plain timestamp too. *)
Definition ts_safe (ts : Z) : Prop := 200000 <= ts < 2 ^ 32 - 200000.

Lemma off_bounds : -50400 <= off <= 50400.
Proof. destruct fz_quarter as (q & Hq & ->). lia. Qed.

(** ** Local time of a safe timestamp *)

Lemma local_tm_spec ts : 86400 <= ts < 2 ^ 32 - 86400 ->
  tal_time_get_local_time_custom ts = (OPRT_OK, local_tm ts) /\ wf_tm (local_tm ts) /\
  tm_secs (local_tm ts) = ts + off /\ tm_wday (local_tm ts) = (tm_days (local_tm ts) + 4) mod 7.
Proof.
  intros Hts. destruct (fz_local (off := off) (mkoff := mkoff) ts Hts) as (tm & Hg & Hwf & Hs & Hw).
  unfold local_tm. rewrite Hg. auto.
Qed.

(** Day number and time-of-day fields of a safe timestamp, linearly. *)
Lemma local_tm_linear ts : 86400 <= ts < 2 ^ 32 - 86400 ->
  ts + off = 86400 * tm_days (local_tm ts) + 3600 * tm_hour (local_tm ts) +
             60 * tm_min (local_tm ts) + tm_sec (local_tm ts) /\
  0 <= tm_hour (local_tm ts) < 24 /\ 0 <= tm_min (local_tm ts) < 60 /\ 0 <= tm_sec (local_tm ts) < 60.
Proof.
  intros Hts. destruct (local_tm_spec ts Hts) as (_ & [] & Hs & _). unfold tm_secs in Hs.
  repeat split; lia.
Qed.

(** The same day is the same date and weekday. *)
Lemma local_tm_same_day a b :
  86400 <= a < 2 ^ 32 - 86400 -> 86400 <= b < 2 ^ 32 - 86400 ->
  tm_days (local_tm a) = tm_days (local_tm b) ->
  tm_year (local_tm a) = tm_year (local_tm b) /\ tm_mon (local_tm a) = tm_mon (local_tm b) /\
  tm_mday (local_tm a) = tm_mday (local_tm b) /\ tm_wday (local_tm a) = tm_wday (local_tm b).
Proof.
  intros Ha Hb Hd. destruct (local_tm_spec a Ha) as (_ & Hwa & _ & Hda).
  destruct (local_tm_spec b Hb) as (_ & Hwb & _ & Hdb).
  destruct (day_number_inj (tm_year (local_tm a)) (tm_mon (local_tm a)) (tm_mday (local_tm a))
              (tm_year (local_tm b)) (tm_mon (local_tm b)) (tm_mday (local_tm b)))
    as (-> & -> & ->); [apply Hwa | apply Hwb | exact Hd |].
  rewrite Hda, Hdb, Hd. auto.
Qed.

(** ** Converting local time back to a timestamp *)

Lemma offset_search_spec n q Q T tm :
  wf_tm tm -> tm_secs tm = T -> off = 900 * Q -> q <= Q < q + Z.of_nat n -> -56 <= q ->
  q + Z.of_nat n <= 57 -> ts_safe (T - off) ->
  offset_search n q T tm = (OPRT_OK, T - off).
Proof.
  intros Hwf HT Hoff. revert q. induction n as [|n IH]; intros q Hq Hlo Hhi Hsafe; [lia|].
  unfold ts_safe in *. pose proof off_bounds.
  assert (Hc : u32 (T - u32 (q * 15 * 60)) = T - 900 * q).
  { unfold u32. rewrite Zminus_mod_idemp_r. replace (q * 15 * 60) with (900 * q) by lia.
    rewrite Z.mod_small; lia. }
  cbn [offset_search]. unfold __get_tm. rewrite Hc.
  destruct (local_tm_spec (T - 900 * q)) as (-> & Hwf' & Hs' & _); [lia|].
  change (negb (OPRT_OK =? OPRT_OK)) with false. cbv iota.
  pose proof (tm_equals_secs tm (local_tm (T - 900 * q)) Hwf Hwf') as He.
  destruct (__tm_equals _ _).
  - destruct He as [He _]. rewrite HT, Hs' in He. specialize (He eq_refl).
    f_equal. lia.
  - apply IH; [|lia..]. enough (q <> Q) by lia. intros ->.
    destruct He as [_ He]. discriminate He. lia.
Qed.

Lemma local_tm_to_ts_spec tm :
  0 <= tm_sec tm -> 0 <= tm_min tm -> 0 <= tm_hour tm -> 0 < tm_mday tm -> 0 <= tm_mon tm < 12 ->
  ts_safe (tm_secs tm - off) ->
  __local_tm_to_ts tm = (OPRT_OK, tm_secs tm - off).
Proof.
  intros H1 H2 H3 H4 H5 Hsafe. unfold __local_tm_to_ts.
  destruct (normalize_spec tm H1 H2 H3 H4 H5) as (tm' & -> & Hwf & Hs).
  change (negb (OPRT_OK =? OPRT_OK)) with false. cbv beta iota.
  rewrite (fz_mktime (off := off) (mkoff := mkoff)) by done. rewrite Hs.
  pose proof off_bounds. unfold ts_safe in Hsafe.
  destruct (fz_quarter (off := off) (mkoff := mkoff)) as (Q & HQ & Hoff).
  pose proof (fz_mkoff (off := off) (mkoff := mkoff)) as Hmk.
  set (T := tm_secs tm) in *.
  assert (Hd : u32 (T - mkoff) = T - mkoff).
  { apply u32_id. unfold is_u32. lia. }
  rewrite Hd. unfold __get_tm.
  destruct (local_tm_spec (T - mkoff)) as (-> & Hwf' & Hs' & _).
  { lia. }
  change (OPRT_OK =? OPRT_OK) with true. cbn [andb].
  pose proof (tm_equals_secs tm' (local_tm (T - mkoff)) Hwf Hwf') as He.
  destruct (__tm_equals _ _).
  - destruct He as [He _]. rewrite Hs, Hs' in He. specialize (He eq_refl). f_equal. lia.
  - destruct Hmk as [Hmk | Hmk].
    + replace (T - mkoff) with T by lia. by apply (offset_search_spec 113 _ Q); unfold ts_safe; lia || done.
    + destruct He as [_ He]. discriminate He. lia.
Qed.

Lemma retarget_spec tm c' :
  0 <= tm_sec tm -> 0 <= tm_min tm -> 0 <= tm_hour tm -> 0 < tm_mday tm -> 0 <= tm_mon tm < 12 ->
  tm_secs tm = c' + off -> ts_safe c' -> retarget tm = inl c'.
Proof.
  intros H1 H2 H3 H4 H5 Hs Hsafe. unfold retarget.
  rewrite local_tm_to_ts_spec by (done || by replace (tm_secs tm - off) with c' by lia).
  change (negb (OPRT_OK =? OPRT_OK)) with false. cbv iota. f_equal. lia.
Qed.

(** ** One round of the search *)

Definition max_jump : Z := 732 * 86400.

(** Timestamps from which every jump stays safe. *)
Definition ts_room (ts : Z) : Prop := 200000 <= ts < 2 ^ 32 - 200000 - max_jump.

Lemma fires_at_testbits e u : 86400 <= u < 2 ^ 32 - 86400 ->
  fires_at e u = Z.testbit (second_mask e) (tm_sec (local_tm u)) &&
                 Z.testbit (minute_mask e) (tm_min (local_tm u)) &&
                 Z.testbit (hour_mask e) (tm_hour (local_tm u)) &&
                 Z.testbit (month_mask e) (tm_mon (local_tm u) + 1) &&
                 __day_matches e (local_tm u).
Proof.
  intros Hu. destruct (local_tm_spec u Hu) as (_ & [Hs Hm Hh [Hmon _]] & _).
  unfold fires_at, wukong_cron_expr_match. rewrite !field_has_value_testbit by lia.
  destruct (Z.testbit (second_mask e) _), (Z.testbit (minute_mask e) _),
    (Z.testbit (hour_mask e) _), (Z.testbit (month_mask e) _); done.
Qed.

(** What a jump from [c] to [c'] must satisfy. *)
Definition good_jump (e : WUKONG_CRON_EXPR_T) (c c' : Z) : Prop :=
  c < c' <= c + max_jump /\ forall u, c <= u < c' -> fires_at e u = false.

Lemma year_days y : 365 <= days_before_year (y + 1) - days_before_year y <= 366.
Proof.
  rewrite days_before_year_succ. unfold days_before_month.
  change (default 0 (cum_days !! Z.to_nat 12)) with 365. destruct (_ && _); lia.
Qed.

Lemma month_start_bounds y m : 0 <= m < 12 ->
  days_before_year y <= days_before_year y + days_before_month y m <= days_before_year (y + 1).
Proof.
  intros Hm. rewrite days_before_year_succ.
  pose proof (days_before_month_mono y 0 m ltac:(lia) ltac:(lia)) as H0.
  pose proof (days_before_month_mono y m 12 ltac:(lia) ltac:(lia)). rewrite days_before_month_0 in H0. lia.
Qed.

(** Jumping to the first day of a later month skips only months in between. *)
Lemma month_jump e c y' v :
  ts_room c ->
  let tm := local_tm c in
  ((tm_year tm = y' /\ tm_mon tm + 2 <= v <= 12 /\
   (forall i, tm_mon tm + 1 <= i < v -> Z.testbit (month_mask e) i = false)) \/
  (tm_year tm + 1 = y' /\ 1 <= v <= 12 /\
   (forall i, tm_mon tm + 1 <= i <= 12 -> Z.testbit (month_mask e) i = false) /\
   (forall i, 1 <= i < v -> Z.testbit (month_mask e) i = false))) ->
  good_jump e c (86400 * day_number y' (v - 1) 1 - off).
Proof.
  intros Hc tm Hv. unfold ts_room, max_jump in Hc. pose proof off_bounds.
  destruct (local_tm_spec c) as (_ & Hwf & _); [lia|]. fold tm in Hwf.
  destruct (local_tm_linear c) as (Hlin & Hh & Hm & Hs); [lia|]. fold tm in Hlin, Hh, Hm, Hs.
  pose proof (wf_md _ Hwf) as Hdate.
  assert (Hmon : 0 <= tm_mon tm < 12) by apply Hdate.
  assert (Hd' : wf_date y' (v - 1) 1).
  { split; [lia|]. pose proof (days_in_month_range y' (v - 1)). lia. }
  assert (Hlt : tm_days tm < day_number y' (v - 1) 1).
  { apply day_number_lt; [done..|]. unfold date_lt. lia. }
  assert (Hle : day_number y' (v - 1) 1 <= tm_days tm + 732).
  { unfold tm_days, day_number. pose proof (month_start_bounds y' (v - 1) ltac:(lia)).
    pose proof (month_start_bounds (tm_year tm) (tm_mon tm) Hmon).
    pose proof (year_days (tm_year tm)). pose proof (year_days (tm_year tm + 1)).
    destruct Hdate as [_ Hdd]. destruct Hv as [[Hy _]|[Hy _]]; subst y'; lia. }
  split; [unfold max_jump; lia|]. intros u Hu.
  destruct (local_tm_spec u) as (_ & Hwfu & _); [lia|].
  destruct (local_tm_linear u) as (Hlinu & Hhu & Hmu & Hsu); [lia|].
  pose proof (wf_md _ Hwfu) as Hdu.
  assert (H1 : ~ date_lt (tm_year (local_tm u)) (tm_mon (local_tm u)) (tm_mday (local_tm u))
                 (tm_year tm) (tm_mon tm) (tm_mday tm)).
  { apply day_number_le_inv; [done..|]. fold (tm_days tm) (tm_days (local_tm u)). lia. }
  assert (H2 : date_lt (tm_year (local_tm u)) (tm_mon (local_tm u)) (tm_mday (local_tm u)) y' (v - 1) 1).
  { apply day_number_lt_inv; [done..|]. fold (tm_days (local_tm u)). lia. }
  rewrite fires_at_testbits by lia.
  replace (Z.testbit (month_mask e) (tm_mon (local_tm u) + 1)) with false;
    [by rewrite !andb_false_r|].
  symmetry. destruct Hdu as [Hmu' Hdu']. unfold date_lt in H1, H2.
  destruct Hv as [(Hy & Hvr & Hg) | (Hy & Hvr & Hg1 & Hg2)].
  - apply Hg. lia.
  - destruct (decide (tm_year (local_tm u) = tm_year tm)); [apply Hg1 | apply Hg2]; lia.
Qed.

(** Jumping to the next midnight from a day that does not match. *)
Lemma day_jump e c :
  ts_room c -> __day_matches e (local_tm c) = false ->
  good_jump e c (86400 * (tm_days (local_tm c) + 1) - off).
Proof.
  unfold ts_room, max_jump. intros Hc Hd.
  destruct (local_tm_linear c) as (Hlin & Hh & Hm & Hs); [lia|].
  split; [unfold max_jump; lia|]. intros u Hu. pose proof off_bounds.
  destruct (local_tm_linear u) as (Hlinu & Hhu & Hmu & Hsu); [lia|].
  destruct (local_tm_same_day u c) as (_ & _ & Hmd & Hwd); [lia..|].
  rewrite fires_at_testbits by lia. unfold __day_matches in *. rewrite Hmd, Hwd, Hd.
  apply andb_false_r.
Qed.

(** Jumps within a day: to a later hour, minute or second whose predecessors
    are not enabled. *)
Lemma hour_jump e c h :
  ts_room c -> tm_hour (local_tm c) < h <= 24 ->
  (forall i, tm_hour (local_tm c) <= i < h -> Z.testbit (hour_mask e) i = false) ->
  good_jump e c (86400 * tm_days (local_tm c) + 3600 * h - off).
Proof.
  unfold ts_room, max_jump. intros Hc Hh Hg.
  destruct (local_tm_linear c) as (Hlin & Hh' & Hm & Hs); [lia|].
  split; [unfold max_jump; lia|]. intros u Hu. pose proof off_bounds.
  destruct (local_tm_linear u) as (Hlinu & Hhu & Hmu & Hsu); [lia|].
  rewrite fires_at_testbits, (Hg (tm_hour (local_tm u))) by lia. by rewrite !andb_false_r.
Qed.

Lemma minute_jump e c m :
  ts_room c -> tm_min (local_tm c) < m <= 60 ->
  (forall i, tm_min (local_tm c) <= i < m -> Z.testbit (minute_mask e) i = false) ->
  good_jump e c (86400 * tm_days (local_tm c) + 3600 * tm_hour (local_tm c) + 60 * m - off).
Proof.
  unfold ts_room, max_jump. intros Hc Hh Hg.
  destruct (local_tm_linear c) as (Hlin & Hh' & Hm & Hs); [lia|].
  split; [unfold max_jump; lia|]. intros u Hu. pose proof off_bounds.
  destruct (local_tm_linear u) as (Hlinu & Hhu & Hmu & Hsu); [lia|].
  rewrite fires_at_testbits, (Hg (tm_min (local_tm u))) by lia. by rewrite !andb_false_r.
Qed.

Lemma second_jump e c s :
  ts_room c -> tm_sec (local_tm c) < s <= 60 ->
  (forall i, tm_sec (local_tm c) <= i < s -> Z.testbit (second_mask e) i = false) ->
  good_jump e c (86400 * tm_days (local_tm c) + 3600 * tm_hour (local_tm c) +
                 60 * tm_min (local_tm c) + s - off).
Proof.
  unfold ts_room, max_jump. intros Hc Hh Hg.
  destruct (local_tm_linear c) as (Hlin & Hh' & Hm & Hs); [lia|].
  split; [unfold max_jump; lia|]. intros u Hu. pose proof off_bounds.
  destruct (local_tm_linear u) as (Hlinu & Hhu & Hmu & Hsu); [lia|].
  rewrite fires_at_testbits, (Hg (tm_sec (local_tm u))) by lia. done.
Qed.

(** A round that re-targets the search performs a good jump. *)
Lemma retarget_jump e c c' tm :
  ts_room c -> good_jump e c c' ->
  0 <= tm_sec tm -> 0 <= tm_min tm -> 0 <= tm_hour tm -> 0 < tm_mday tm -> 0 <= tm_mon tm < 12 ->
  tm_secs tm = c' + off ->
  match retarget tm with inl c2 => good_jump e c c2 | inr _ => False end.
Proof.
  intros Hc Hj H1 H2 H3 H4 H5 Hs. rewrite (retarget_spec tm c'); [done..|].
  destruct Hj as [Hj _]. unfold ts_room, ts_safe, max_jump in *. lia.
Qed.

(** The branch taken by "next value, else roll over" on a field of range
    [lo..hi] whose current value is not enabled. *)
Lemma next_value_cases mask lo hi cur :
  0 <= lo -> hi < 64 -> lo <= cur <= hi -> Z.testbit mask cur = false ->
  let r := __field_next_value mask lo hi (cur + 1) in
  ((r <? 0) = true /\ forall i, cur <= i < hi + 1 -> Z.testbit mask i = false) \/
  ((r <? 0) = false /\ cur < r <= hi /\ forall i, cur <= i < r -> Z.testbit mask i = false).
Proof.
  intros Hlo Hhi Hcur Hb r.
  destruct (field_next_value_spec mask lo hi (cur + 1)) as [[Hr Hn] | (Hr & _ & Hn)]; [lia..| |];
    fold r in Hr, Hn.
  - left. rewrite Hr. split; [done|]. intros i Hi. destruct (decide (i = cur)) as [->|]; [done | apply Hn; lia].
  - right. split; [lia|]. split; [lia|].
    intros i Hi. destruct (decide (i = cur)) as [->|]; [done | apply Hn; lia].
Qed.

Ltac by_retarget :=
  eapply retarget_jump; [eassumption | eassumption | cbn; try lia ..];
  unfold tm_secs, tm_days, day_number; cbn; lia.

(** Close a round that moves on within the day: [jump] is the field's jump
    lemma, [cur] its current value. *)
Ltac within_day mask lo hi cur jump :=
  let Hn := fresh "Hn" in let Hr := fresh "Hr" in let Hj := fresh "Hj" in
  destruct (next_value_cases mask lo hi cur) as [(-> & Hn) | (-> & Hr & Hn)]; [lia..| done | |];
  [assert (Hj := jump (hi + 1)) | assert (Hj := jump (__field_next_value mask lo hi (cur + 1)))];
  specialize (Hj ltac:(lia) Hn); by_retarget.

Lemma month_round e c :
  expr_wf e -> ts_room c -> let tm := local_tm c in
  Z.testbit (month_mask e) (tm_mon tm + 1) = false ->
  let next_value := __field_next_value (month_mask e) 1 12 (tm_mon tm + 2) in
  let '(year, next_value) :=
    if next_value <? 0 then (tm_year tm + 1, __field_first_value (month_mask e) 1 12)
    else (tm_year tm, next_value) in
  match retarget (mk_tm 0 0 0 1 (next_value - 1) year (tm_wday tm)) with
  | inl c' => good_jump e c c' | inr _ => False end.
Proof.
  intros Hwf Hc tm Hb. cbv zeta.
  destruct (local_tm_spec c) as (_ & [_ _ _ [Hmon _]] & _); [unfold ts_room, max_jump in Hc; lia|].
  fold tm in Hmon. destruct (ewf_month _ Hwf) as [(v & Hv & Bv) _].
  replace (tm_mon tm + 2) with (tm_mon tm + 1 + 1) by lia.
  destruct (next_value_cases (month_mask e) 1 12 (tm_mon tm + 1)) as [(-> & Hn) | (-> & Hr & Hn)];
    [lia..| done | |].
  - destruct (field_first_value_spec (month_mask e) 1 12) as [[_ Hf] | (Hr & _ & Hf)];
      [lia..| by rewrite Hf in Bv |].
    assert (Hj := month_jump e c (tm_year tm + 1) (__field_first_value (month_mask e) 1 12) Hc).
    cbv zeta in Hj. fold tm in Hj. lapply Hj; [intros Hj'; by_retarget|].
    right. split; [done|]. split; [lia|]. split; [|done]. intros i Hi. apply Hn. lia.
  - assert (Hj := month_jump e c (tm_year tm) (__field_next_value (month_mask e) 1 12 (tm_mon tm + 1 + 1)) Hc).
    cbv zeta in Hj. fold tm in Hj. lapply Hj; [intros Hj'; by_retarget|].
    left. split; [done|]. split; [lia | done].
Qed.

Lemma round_spec e c :
  expr_wf e -> ts_room c ->
  match next_fire_round e c with
  | inl c' => good_jump e c c'
  | inr r => r = (OPRT_OK, c) /\ fires_at e c = true
  end.
Proof.
  intros Hwf Hc. assert (Hrange : 86400 <= c < 2 ^ 32 - 86400) by (unfold ts_room, max_jump in Hc; lia).
  assert (Hweak : forall r : TIME_T + (OPERATE_RET * TIME_T),
    match r with inl c' => good_jump e c c' | inr _ => False end ->
    match r with inl c' => good_jump e c c' | inr r => r = (OPRT_OK, c) /\ fires_at e c = true end)
    by by intros [|].
  unfold next_fire_round, __get_tm.
  destruct (local_tm_spec c Hrange) as (-> & [Hs Hm Hh [Hmon Hmd]] & _).
  change (negb (OPRT_OK =? OPRT_OK)) with false. cbv beta iota.
  pose proof (local_tm_linear c Hrange) as (Hlin & _).
  pose proof (fires_at_testbits e c Hrange) as Hfire.
  pose proof (fun h => hour_jump e c h Hc) as Hhour. pose proof (fun m => minute_jump e c m Hc) as Hminute.
  pose proof (fun s => second_jump e c s Hc) as Hsecond. pose proof (month_round e c Hwf Hc) as Hmonth.
  pose proof (day_jump e c Hc) as Hday. cbv zeta in Hmonth.
  set (tm := local_tm c) in *. rewrite !field_has_value_testbit by lia.
  destruct (Z.testbit (month_mask e) (tm_mon tm + 1)); cbn [negb].
  2:{ specialize (Hmonth eq_refl). destruct (_ <? 0); by apply Hweak. }
  destruct (__day_matches e tm); cbn [negb].
  2:{ apply Hweak. specialize (Hday eq_refl). by_retarget. }
  destruct (Z.testbit (hour_mask e) (tm_hour tm)) eqn:Bh; cbn [negb].
  2:{ apply Hweak. within_day (hour_mask e) 0 23 (tm_hour tm) Hhour. }
  destruct (Z.testbit (minute_mask e) (tm_min tm)) eqn:Bm; cbn [negb].
  2:{ apply Hweak. within_day (minute_mask e) 0 59 (tm_min tm) Hminute. }
  destruct (Z.testbit (second_mask e) (tm_sec tm)) eqn:Bs; cbn [negb].
  2:{ apply Hweak. within_day (second_mask e) 0 59 (tm_sec tm) Hsecond. }
  rewrite Hfire. split; reflexivity.
Qed.

(** ** The search *)

(** Base timestamps whose whole search window is safe: 1970-01-03 to 2099. *)
Definition search_room (from_ts : Z) : Prop :=
  200000 <= from_ts < 2 ^ 32 - 200000 - max_jump - search_span.

(** The search on well-formed masks. *)
Lemma next_fire_search e from_ts :
  expr_wf e -> search_room from_ts ->
  exists r, wukong_cron_expr_next_fire e from_ts = Some r /\ next_fire_spec e from_ts r.
Proof.
  intros Hwf Hroom. unfold search_room, max_jump in Hroom. unfold wukong_cron_expr_next_fire.
  assert (Hspan : search_span = 158112000) by reflexivity.
  rewrite !u32_id by (unfold is_u32; lia).
  set (limit := from_ts + search_span) in *.
  destruct (iter_pos_terminates (next_fire_loop e limit)
    (fun c => from_ts < c <= limit + max_jump /\ forall u, from_ts < u < c -> fires_at e u = false)
    (next_fire_spec e from_ts) (fun c => limit + max_jump - c) (2 ^ 28) (from_ts + 1))
    as (r & -> & Hr); [| | | | by eauto].
  - intros c [Hc _]. lia.
  - intros c [Hc Hno]. unfold next_fire_loop. destruct (Z.leb_spec c limit) as [Hle|Hgt].
    + assert (Hcr : ts_room c) by (unfold ts_room, max_jump; lia).
      pose proof (round_spec e c Hwf Hcr) as Hrd.
      destruct (next_fire_round e c) as [c'|r].
      * destruct Hrd as [Hj Hskip]. unfold max_jump in *. split; [|lia]. split; [lia|].
        intros u Hu. destruct (decide (u < c)); [apply Hno | apply Hskip]; lia.
      * destruct Hrd as [-> Hfire]. left. cbn. fold limit. split; [done|]. split; [lia|]. by split.
    + right. split; [done|]. intros u Hu. apply Hno. fold limit in Hu. lia.
  - split; [unfold max_jump; lia|]. intros u Hu. lia.
  - unfold max_jump. subst limit. lia.
Qed.

(** C1. For every expression text the parser accepts, the next-fire search
    terminates within its bound and returns exactly the first second after
    [from_ts] whose local time matches the expression; it fails only when no
    second of the five-year window matches. No firing time is ever skipped or
    invented, whichever way [tal_time_mktime] reads its argument. *)
Theorem next_fire_correct s e from_ts :
  wukong_cron_expr_parse s = Some (OPRT_OK, e) -> search_room from_ts ->
  exists r, wukong_cron_expr_next_fire e from_ts = Some r /\ next_fire_spec e from_ts r.
Proof. intros Hp. apply next_fire_search. by eapply expr_parse_wf. Qed.

End Correct.

(** The expression "*/15 * * * * *" searched from 2026-03-06 10:00:01 (UTC+8). *)
Lemma next_fire_correct_witness :
  exists r, wukong_cron_expr_next_fire
              (mk_expr (2^0 + 2^15 + 2^30 + 2^45) (2^60 - 1) (2^24 - 1) (2^32 - 2) (2^13 - 2) 127)
              1772762401 = Some r /\
    next_fire_spec (mk_expr (2^0 + 2^15 + 2^30 + 2^45) (2^60 - 1) (2^24 - 1) (2^32 - 2) (2^13 - 2) 127)
      1772762401 r.
Proof.
  apply (next_fire_correct (off := zone8_off) (mkoff := 0) "*/15 * * * * *").
  - exact parse_quarter.
  - unfold search_room. vm_compute. split; congruence.
Defined.
