(* ===== verification/CronMeaning.v ===== *)
(** What an accepted cron expression means: the parser inverts the printer of
    the abstract syntax, and matching is the day-of-month/weekday rule of cron
    over the denoted sets. *)
From S2P Require Import Prelude.
From S2P Require Import Calendar.
From S2P Require Import CStr.
From S2P Require Import CronField.
From S2P Require Import CronParse.
From S2P Require Import CronNext.

#[local] Open Scope string_scope.
#[local] Open Scope Z_scope.

(** ** Full fields *)

Definition field_full (min max : Z) (items : list cron_item) : bool :=
  forallb (fun i => field_denotes min max items (min + Z.of_nat i)) (seq 0 (Z.to_nat (max - min + 1))).

Lemma field_full_spec min max items : min <= max ->
  field_full min max items = true <-> forall i, min <= i <= max -> field_denotes min max items i = true.
Proof.
  intros Hm. unfold field_full. rewrite forallb_forall. split.
  - intros H i Hi. specialize (H (Z.to_nat (i - min))).
    replace (min + Z.of_nat (Z.to_nat (i - min))) with i in H by lia. apply H, in_seq. lia.
  - intros H n Hn. apply in_seq in Hn. apply H. lia.
Qed.

Lemma item_denotes_range min max it i :
  item_ok min max it -> item_denotes min max it i = true -> min <= i <= max.
Proof.
  destruct it as [st|lo hi st|lo st|v]; cbn; unfold in_range; intros Hok Hd;
    rewrite ?andb_true_iff in Hd; lia.
Qed.

Lemma field_denotes_range min max items i :
  field_ok min max items -> field_denotes min max items i = true -> min <= i <= max.
Proof.
  intros [_ Hok] Hd. apply existsb_exists in Hd as (it & Hin & Hd).
  eapply item_denotes_range; [|exact Hd]. rewrite List.Forall_forall in Hok. by apply Hok.
Qed.

(** A parsed mask equals the wildcard mask exactly when its field is full. *)
Lemma mask_full_iff mask min max items :
  0 <= min -> min <= max < 64 -> field_ok min max items ->
  (forall i, Z.testbit mask i = field_denotes min max items i) ->
  (mask =? __field_full_mask min max) = field_full min max items.
Proof.
  intros Hmin Hmax Hok Hb. apply eq_true_iff_eq. rewrite Z.eqb_eq, field_full_spec by lia. split.
  - intros -> i Hi. rewrite <- Hb, field_full_mask_testbit by lia. lia.
  - intros Hall. apply Z.bits_inj'. intros i _. rewrite Hb, field_full_mask_testbit by lia.
    destruct (field_denotes min max items i) eqn:Hd.
    + apply field_denotes_range in Hd; [|done]. lia.
    + destruct (Z.leb_spec min i); [|done]. destruct (Z.leb_spec i max); [|done].
      rewrite Hall in Hd by lia. done.
Qed.

(** ** The meaning of six fields at a local time *)

(** Day of month and weekday: a full field does not restrict; two restricted
    fields combine with "or". *)
Definition day_rule (f3 f5 : list cron_item) (mday wday : Z) : bool :=
  if field_full 1 31 f3 then field_full 0 6 f5 || field_denotes 0 6 f5 wday
  else if field_full 0 6 f5 then field_denotes 1 31 f3 mday
  else field_denotes 1 31 f3 mday || field_denotes 0 6 f5 wday.

Definition cron_meaning (f0 f1 f2 f3 f4 f5 : list cron_item) (tm : POSIX_TM_S) : bool :=
  field_denotes 0 59 f0 (tm_sec tm) && field_denotes 0 59 f1 (tm_min tm) &&
  field_denotes 0 23 f2 (tm_hour tm) && field_denotes 1 12 f4 (tm_mon tm + 1) &&
  day_rule f3 f5 (tm_mday tm) (tm_wday tm).

Lemma days_in_month_le y m : 0 <= m < 12 -> __days_in_month y m <= 31.
Proof. intros H. pose proof (days_in_month_range y m H). lia. Qed.

Lemma match_meaning f0 f1 f2 f3 f4 f5 e tm :
  fields_ok f0 f1 f2 f3 f4 f5 -> expr_denotes f0 f1 f2 f3 f4 f5 e ->
  wf_tm tm -> 0 <= tm_wday tm < 7 ->
  wukong_cron_expr_match e tm = cron_meaning f0 f1 f2 f3 f4 f5 tm.
Proof.
  intros [_ _ _ O3 _ O5] [D0 D1 D2 D3 D4 D5] [Hs Hm Hh [Hmon Hmd]] Hw.
  pose proof (days_in_month_le (tm_year tm) (tm_mon tm) Hmon).
  unfold wukong_cron_expr_match, cron_meaning, __day_matches, day_rule.
  rewrite (mask_full_iff (day_mask e) 1 31 f3), (mask_full_iff (weekday_mask e) 0 6 f5) by (lia || done).
  replace (tm_wday tm =? 7) with false by lia. rewrite !field_has_value_testbit by lia.
  rewrite D0, D1, D2, D3, D4, D5.
  destruct (field_denotes 0 59 f0 _), (field_denotes 0 59 f1 _), (field_denotes 0 23 f2 _),
    (field_denotes 1 12 f4 _), (field_full 1 31 f3), (field_full 0 6 f5); done.
Qed.

(** C2. The parser accepts every printed six-field expression of legal items
    (wildcards, values, lists, ranges and steps) that fits the buffer, and the
    masks it builds match a local time exactly when the fields mean it: each
    of second, minute, hour and month is enabled, and the day-of-month and
    weekday fields combine by the cron "or" rule. *)
Theorem expr_parse_meaning f0 f1 f2 f3 f4 f5 :
  fields_ok f0 f1 f2 f3 f4 f5 ->
  (strlen (print_expr [f0; f1; f2; f3; f4; f5]) < WUKONG_CRON_EXPR_MAX_LEN)%nat ->
  exists e, wukong_cron_expr_parse (print_expr [f0; f1; f2; f3; f4; f5]) = Some (OPRT_OK, e) /\
    forall tm, wf_tm tm -> 0 <= tm_wday tm < 7 ->
      wukong_cron_expr_match e tm = cron_meaning f0 f1 f2 f3 f4 f5 tm.
Proof.
  intros Hok Hlen. destruct (expr_parse_print f0 f1 f2 f3 f4 f5 Hok Hlen) as (e & Hp & Hd).
  exists e. split; [done|]. intros tm. by apply match_meaning.
Qed.

(** "0 30 9-18/3 1,15 * 1-5" *)
Lemma expr_parse_meaning_witness :
  exists e, wukong_cron_expr_parse "0 30 9-18/3 1,15 * 1-5" = Some (OPRT_OK, e) /\
    forall tm, wf_tm tm -> 0 <= tm_wday tm < 7 ->
      wukong_cron_expr_match e tm =
      cron_meaning [ItemOne 0] [ItemOne 30] [ItemRange 9 18 (Some 3)] [ItemOne 1; ItemOne 15]
        [ItemStar None] [ItemRange 1 5 None] tm.
Proof.
  apply (expr_parse_meaning [ItemOne 0] [ItemOne 30] [ItemRange 9 18 (Some 3)] [ItemOne 1; ItemOne 15]
           [ItemStar None] [ItemRange 1 5 None]).
  - split; (split; [done|]); repeat constructor; cbn; unfold step_ok, INT_MAX; cbn; lia.
  - apply Nat.ltb_lt. vm_compute. reflexivity.
Defined.

(** Whatever text the parser accepts, each mask it stores is a non-empty
    set of values legal for its field. *)
Theorem expr_parse_sound s e :
  wukong_cron_expr_parse s = Some (OPRT_OK, e) -> expr_wf e.
Proof. apply expr_parse_wf. Qed.

Lemma expr_parse_sound_witness :
  expr_wf (mk_expr (2^0 + 2^15 + 2^30 + 2^45) (2^60 - 1) (2^24 - 1) (2^32 - 2) (2^13 - 2) 127).
Proof. apply (expr_parse_sound "*/15 * * * * *"). vm_compute. reflexivity. Defined.

(** ** Undefined behaviour *)

(** The text after the first slash of an item, as a number. *)
Definition item_step (item : string) : option Z := option_map strtol (snd (split_at "/" item)).

Lemma field_add_range_undefined mask min max start stop step :
  max < 64 -> __field_add_range mask min max start stop step = None -> INT_MAX - 63 < step.
Proof.
  intros Hmax H. apply Z.nle_gt. intros Hs. unfold __field_add_range in H.
  destruct ((step <=? 0) || _ || _ || _) eqn:Hg; [done|].
  rewrite !orb_false_iff, !Z.ltb_ge, Z.leb_gt in Hg. destruct Hg as [[[Hs0 _] H2] _].
  destruct (add_range_loop_defined (Z.to_nat (stop - start + 1)) mask start stop step) as [m Hm]; [lia..|].
  by rewrite Hm in H.
Qed.

(** Text without a slash never runs into it. *)
Lemma no_slash_item item min max mask : max < 64 -> no_char "/" item = true ->
  __field_parse_item item min max mask <> None.
Proof.
  intros Hmax Hns. unfold __field_parse_item. rewrite split_at_none by done.
  assert (H1 : ~ INT_MAX - 63 < 1) by (unfold INT_MAX; lia).
  repeat case_match; try done; intros Hnone; by apply field_add_range_undefined in Hnone.
Qed.

Lemma no_slash_field s min max : max < 64 -> no_char "/" s = true -> __field_parse s min max <> None.
Proof.
  intros Hmax. unfold __field_parse. generalize (S (strlen s)) as fuel. intros fuel. generalize 0 as mask.
  revert s. induction fuel as [|fuel IH]; intros s mask Hs; [done|]. cbn [field_parse_loop].
  destruct (strtok_r "," s) as [[item rest]|] eqn:Htok; [|done].
  apply (str_all_strtok _ _ _ _ _ Hs) in Htok as [Hitem Hrest].
  destruct (__field_parse_item item min max mask) as [[rt m]|] eqn:Hp; [|by apply no_slash_item in Hp].
  destruct (negb _); [done|]. by apply IH.
Qed.

Lemma no_slash_take n s : no_char "/" s = true -> Forall (fun f => no_char "/" f = true) (fst (take_fields n s)).
Proof.
  revert s. induction n as [|n IH]; intros s Hs; cbn [take_fields]; [constructor|].
  destruct (strtok_r " " s) as [[tok rest]|] eqn:Htok; [|constructor].
  apply (str_all_strtok _ _ _ _ _ Hs) in Htok as [Ht Hr]. specialize (IH rest Hr).
  destruct (take_fields n rest) as [l r]. by constructor.
Qed.

Lemma no_slash_parse s : no_char "/" s = true -> wukong_cron_expr_parse s <> None.
Proof.
  intros Hs. unfold wukong_cron_expr_parse. destruct (_ <=? _)%nat; [done|].
  pose proof (no_slash_take 6 s Hs) as Hall. destruct (take_fields 6 s) as [l rest]. cbn [fst] in Hall.
  do 6 (destruct l as [|? l]; [done|]). destruct l as [|? l]; [|done]. destruct (strtok_r " " rest); [done|].
  repeat match goal with H : Forall _ (_ :: _) |- _ => apply Forall_cons in H as [? H] end.
  assert (Hthen : forall f min max set k, max < 64 -> no_char "/" f = true -> (forall e, k e <> None) ->
    parse_then f min max set k <> None).
  { intros f min max set k Hmax Hf Hk. unfold parse_then.
    destruct (__field_parse f min max) as [[rt m]|] eqn:Hp; [|by apply no_slash_field in Hp].
    by destruct (negb _). }
  repeat (apply Hthen; [lia | done | intros ?]). done.
Qed.

(** Parsing one list item is defined unless its step is within 63 of
    INT_MAX; the step "1/2147483647" does overflow the loop counter. *)
Theorem item_parse_undefined item min max mask :
  max < 64 -> __field_parse_item item min max mask = None ->
  exists step, item_step item = Some step /\ INT_MAX - 63 < step.
Proof.
  intros Hmax. unfold __field_parse_item, item_step.
  destruct (split_at "/" item) as [head slash]. cbn [snd].
  assert (H1 : ~ INT_MAX - 63 < 1) by (unfold INT_MAX; lia).
  repeat case_match; subst; cbn; intros Hnone; try done;
    apply field_add_range_undefined in Hnone; eauto; done.
Qed.

Lemma item_parse_undefined_witness :
  exists step, item_step "1/2147483647" = Some step /\ INT_MAX - 63 < step.
Proof. apply (item_parse_undefined "1/2147483647" 1 31 0); [lia | vm_compute; reflexivity]. Defined.
