(* ===== verification/World.v ===== *)
(** The event codes shared by all parts; the device around the services: the C
    state monad with undefined behaviour, and the operating-system calls (clock,
    allocator, software timer, work queue, event notification) whose outcomes the
    environment decides. *)
From S2P Require Import Prelude.



Inductive WUKONG_AI_EVENT_TYPE_E :=
| WUKONG_AI_EVENT_IDLE
| WUKONG_AI_EVENT_ASR_EMPTY
| WUKONG_AI_EVENT_ASR_OK
| WUKONG_AI_EVENT_ASR_ERROR
| WUKONG_AI_EVENT_TTS_PRE
| WUKONG_AI_EVENT_TTS_START
| WUKONG_AI_EVENT_TTS_DATA
| WUKONG_AI_EVENT_TTS_STOP
| WUKONG_AI_EVENT_TTS_ABORT
| WUKONG_AI_EVENT_TTS_ERROR
| WUKONG_AI_EVENT_VAD_TIMEOUT
| WUKONG_AI_EVENT_TEXT_STREAM_START
| WUKONG_AI_EVENT_TEXT_STREAM_DATA
| WUKONG_AI_EVENT_TEXT_STREAM_STOP
| WUKONG_AI_EVENT_TEXT_STREAM_ABORT
| WUKONG_AI_EVENT_EMOTION
| WUKONG_AI_EVENT_LLM_EMOTION
| WUKONG_AI_EVENT_SKILL
| WUKONG_AI_EVENT_CHAT_BREAK
| WUKONG_AI_EVENT_SERVER_VAD
| WUKONG_AI_EVENT_END
| WUKONG_AI_EVENT_PLAY_CTL_PLAY
| WUKONG_AI_EVENT_PLAY_CTL_RESUME
| WUKONG_AI_EVENT_PLAY_CTL_PAUSE
| WUKONG_AI_EVENT_PLAY_CTL_REPLAY
| WUKONG_AI_EVENT_PLAY_CTL_PREV
| WUKONG_AI_EVENT_PLAY_CTL_NEXT
| WUKONG_AI_EVENT_PLAY_CTL_SEQUENTIAL
| WUKONG_AI_EVENT_PLAY_CTL_SEQUENTIAL_LOOP
| WUKONG_AI_EVENT_PLAY_CTL_SINGLE_LOOP
| WUKONG_AI_EVENT_PLAY_CTL_END
| WUKONG_AI_EVENT_PLAY_END
| WUKONG_AI_EVENT_PLAY_ALERT
| WUKONG_AI_EVENT_CLOCK_MCP_COUNTDOWN_TIMER
| WUKONG_AI_EVENT_CLOCK_MCP_STOPWATCH_TIMER
| WUKONG_AI_EVENT_CLOCK_MCP_POMODORO_TIMER
| WUKONG_AI_EVENT_CLOCK_MCP_SCHEDULE
| WUKONG_AI_EVENT_CLOCK_MCP_ALARM
| WUKONG_AI_EVENT_ACCEPT_PICTURE
| WUKONG_AI_EVENT_SEND_PICTURE_END
| WUKONG_AI_EVENT_EXIT.

#[export] Instance event_eq_dec : EqDecision WUKONG_AI_EVENT_TYPE_E.
Proof. solve_decision. Defined.

(** ** The monad

    A C function on a state [S] returns a value and the new state; [None] is
    undefined behaviour (or a loop that never ends). *)
Definition C (S A : Type) : Type := S -> option (A * S).

Definition cret {S A} (a : A) : C S A := fun s => Some (a, s).
Definition cbind {S A B} (m : C S A) (k : A -> C S B) : C S B :=
  fun s => match m s with Some (a, s') => k a s' | None => None end.
Definition cget {S A} (f : S -> A) : C S A := fun s => Some (f s, s).
Definition cmod {S} (f : S -> S) : C S unit := fun s => Some (tt, f s).
(** A pure computation that may be undefined. *)
Definition cpure {S A} (o : option A) : C S A := fun s => option_map (fun a => (a, s)) o.

Declare Scope c_scope.
Delimit Scope c_scope with c.
Notation "'let*' x ':=' m 'in' k" := (cbind m (fun x => k))
  (at level 10, x pattern, m at level 100, k at level 200) : c_scope.
#[global] Open Scope c_scope.

(** ** The environment *)

Inductive effect :=
| FxTimerStop                         (* tal_sw_timer_stop *)
| FxTimerStart (ms : Z)               (* tal_sw_timer_start(.., ms, TAL_TIMER_ONCE) *)
| FxTimerDelete                       (* tal_sw_timer_delete *)
| FxWorkq (request : string)          (* accepted by tal_workq_schedule *)
| FxNotify (event : WUKONG_AI_EVENT_TYPE_E) (msg : list Z) (* wukong_ai_event_notify *)
| FxInput (on : bool)                 (* wukong_ai_agent_input_start(TRUE), wukong_ai_agent_input_stop *)
| FxText (prompt : string)            (* wukong_ai_agent_send_text *)
| FxSubscribe (on : bool)             (* ty_subscribe_event, ty_unsubscribe_event *).

Record World := mk_world {
  w_clock : nat -> TIME_T;      (* value of the n-th tal_time_get_posix() *)
  w_reads : nat;                (* readings taken so far *)
  w_heap : nat -> bool;         (* does the n-th allocation succeed *)
  w_allocs : nat;               (* allocations so far *)
  w_os : nat -> OPERATE_RET;    (* result of the n-th OS call *)
  w_calls : nat;                (* OS calls so far *)
  w_trace : list effect         (* effects, newest first *) }.

Definition tal_time_get_posix (w : World) : TIME_T * World :=
  (w_clock w (w_reads w),
   mk_world (w_clock w) (S (w_reads w)) (w_heap w) (w_allocs w) (w_os w) (w_calls w) (w_trace w)).

Definition tal_alloc (w : World) : bool * World :=
  (w_heap w (w_allocs w),
   mk_world (w_clock w) (w_reads w) (w_heap w) (S (w_allocs w)) (w_os w) (w_calls w) (w_trace w)).

Definition os_call (w : World) : OPERATE_RET * World :=
  (w_os w (w_calls w),
   mk_world (w_clock w) (w_reads w) (w_heap w) (w_allocs w) (w_os w) (S (w_calls w)) (w_trace w)).

Definition emit (fx : effect) (w : World) : World :=
  mk_world (w_clock w) (w_reads w) (w_heap w) (w_allocs w) (w_os w) (w_calls w) (fx :: w_trace w).

(** An environment in which every call succeeds and the clock shows [t]. *)
Definition calm_world (t : TIME_T) : World :=
  mk_world (fun _ => t) 0 (fun _ => true) 0 (fun _ => OPRT_OK) 0 [].

(** ** Lemmas on the monad *)

Lemma cbind_Some {S A B} (m : C S A) (k : A -> C S B) s r :
  cbind m k s = Some r <-> exists a s', m s = Some (a, s') /\ k a s' = Some r.
Proof.
  unfold cbind. split.
  - destruct (m s) as [[a s']|]; [eauto | done].
  - intros (a & s' & -> & ?). done.
Qed.

Lemma cbind_eq {S A B} (m : C S A) (k : A -> C S B) s a s' :
  m s = Some (a, s') -> cbind m k s = k a s'.
Proof. intros H. unfold cbind. by rewrite H. Qed.

(** ** Total correctness

    [wp m Q s]: from [s], [m] is defined and ends in a result that satisfies
    [Q]. *)
Definition wp {S A} (m : C S A) (Q : A -> S -> Prop) (s : S) : Prop :=
  match m s with Some (a, s') => Q a s' | None => False end.

Section Wp.
Context {S : Type}.

Lemma wp_elim {A} (m : C S A) Q s : wp m Q s -> exists a s', m s = Some (a, s') /\ Q a s'.
Proof. unfold wp. destruct (m s) as [[a s']|]; [eauto | done]. Qed.

Lemma wp_intro {A} (m : C S A) (Q : A -> S -> Prop) s a s' : m s = Some (a, s') -> Q a s' -> wp m Q s.
Proof. unfold wp. by intros ->. Qed.

Lemma wp_bind {A B} (m : C S A) (k : A -> C S B) Q s :
  wp m (fun a s' => wp (k a) Q s') s -> wp (cbind m k) Q s.
Proof. unfold wp, cbind. destruct (m s) as [[a s']|]; [done | done]. Qed.

Lemma wp_ret {A} (a : A) (Q : A -> S -> Prop) s : Q a s -> wp (cret a) Q s.
Proof. done. Qed.

Lemma wp_get {A} (f : S -> A) (Q : A -> S -> Prop) s : Q (f s) s -> wp (cget f) Q s.
Proof. done. Qed.

Lemma wp_mod (f : S -> S) (Q : unit -> S -> Prop) s : Q tt (f s) -> wp (cmod f) Q s.
Proof. done. Qed.

Lemma wp_pure {A} (o : option A) a (Q : A -> S -> Prop) s : o = Some a -> Q a s -> wp (cpure o) Q s.
Proof. intros -> ?. done. Qed.

Lemma wp_mono {A} (m : C S A) (Q Q' : A -> S -> Prop) s :
  wp m Q s -> (forall a s', Q a s' -> Q' a s') -> wp m Q' s.
Proof. unfold wp. destruct (m s) as [[a s']|]; eauto. Qed.
Lemma wp_conj {A} (m : C S A) (Q Q' : A -> S -> Prop) s :
  wp m Q s -> wp m Q' s -> wp m (fun a s' => Q a s' /\ Q' a s') s.
Proof. unfold wp. by destruct (m s) as [[a s']|]. Qed.
End Wp.

(** Run the primitive steps at the head of the goal. *)
Ltac wp_step :=
  lazymatch goal with
  | |- wp (cbind _ _) _ _ => apply wp_bind
  | |- wp (cret _) _ _ => apply wp_ret
  | |- wp (cget _) _ _ => apply wp_get
  | |- wp (cmod _) _ _ => apply wp_mod
  end; cbv beta iota zeta.
Ltac wp_steps := repeat wp_step.
