(* ===== verification/Slots.v ===== *)
(** Fixed-size slot tables as finite maps: a table is a list of slots, some of
    which hold a name and a value; when the names are distinct it represents
    a finite map. Shared by the method registry and the job table. *)
From stdpp Require Import gmap strings fin_maps.
From S2P Require Import Prelude.

Section Slots.
Context {A B : Type} (kv : A -> option (string * B)).
Implicit Types l : list A.

(** The map a table represents. *)
Fixpoint slots_map l : gmap string B :=
  match l with
  | [] => ∅
  | a :: l => match kv a with Some (k, v) => <[k := v]> (slots_map l) | None => slots_map l end
  end.

Definition slots_distinct l : Prop :=
  forall i j a b k v v', l !! i = Some a -> l !! j = Some b ->
    kv a = Some (k, v) -> kv b = Some (k, v') -> i = j.

Lemma slots_distinct_tail a l : slots_distinct (a :: l) -> slots_distinct l.
Proof.
  intros Hd i j b c k v v' Hb Hc Hk Hk'. specialize (Hd (S i) (S j) b c k v v' Hb Hc Hk Hk'). lia.
Qed.

Lemma slots_map_lookup l k v : slots_distinct l ->
  slots_map l !! k = Some v <-> exists i a, l !! i = Some a /\ kv a = Some (k, v).
Proof.
  induction l as [|a l IH]; intros Hd.
  - cbn. rewrite lookup_empty. split; [done|]. by intros ([|i] & b & Hi & _).
  - specialize (IH (slots_distinct_tail _ _ Hd)). cbn [slots_map].
    destruct (kv a) as [[k0 v0]|] eqn:Ha.
    + destruct (decide (k0 = k)) as [->|Hne].
      * rewrite lookup_insert_eq. split; [intros [= ->]; by exists 0%nat, a|].
        intros ([|i] & b & Hi & Hb); [cbn in Hi; congruence|].
        by specialize (Hd 0%nat (S i) _ _ k _ _ eq_refl Hi Ha Hb).
      * rewrite lookup_insert_ne by done. rewrite IH. split; intros (i & b & Hi & Hb).
        -- by exists (S i), b.
        -- destruct i as [|i]; [cbn in Hi; congruence|]. by exists i, b.
    + rewrite IH. split; intros (i & b & Hi & Hb).
      * by exists (S i), b.
      * destruct i as [|i]; [cbn in Hi; congruence|]. by exists i, b.
Qed.

Lemma slots_map_None l k :
  (forall i a v, l !! i = Some a -> kv a <> Some (k, v)) -> slots_distinct l -> slots_map l !! k = None.
Proof.
  intros Hno Hd. destruct (slots_map l !! k) as [v|] eqn:Hl; [|done].
  apply slots_map_lookup in Hl as (i & a & Hi & Ha); [|done]. by destruct (Hno i a v Hi).
Qed.

(** Storing into slot [i], which holds no name or that same name. *)
Lemma slots_store l i a k v :
  slots_distinct l -> (i < length l)%nat -> kv a = Some (k, v) ->
  (forall j b v', j <> i -> l !! j = Some b -> kv b <> Some (k, v')) ->
  (forall b k' v', l !! i = Some b -> kv b = Some (k', v') -> k' = k) ->
  slots_distinct (<[i := a]> l) /\ slots_map (<[i := a]> l) = <[k := v]> (slots_map l).
Proof.
  intros Hd Hi Ha Hother Hslot.
  assert (Hd' : slots_distinct (<[i := a]> l)).
  { intros j j' b b' k' w w'. rewrite !list_lookup_insert_Some.
    intros [(<- & <- & _)|[Hj Hl]] [(<- & <- & _)|[Hj' Hl']] Hk Hk'; [done| | |by eapply Hd].
    - assert (k' = k) as -> by congruence. by destruct (Hother j' b' w').
    - assert (k' = k) as -> by congruence. by destruct (Hother j b w). }
  split; [done|]. apply map_eq. intros k'. apply option_eq. intros w.
  rewrite slots_map_lookup by done. rewrite lookup_insert_Some, slots_map_lookup by done.
  setoid_rewrite list_lookup_insert_Some. split.
  - intros (j & b & [(<- & <- & _)|[Hj Hl]] & Hb); [left; split; congruence|].
    right. split; [|by eauto]. intros <-. by destruct (Hother j b w).
  - intros [[<- <-]|[Hne (j & b & Hl & Hb)]]; [by exists i, a; split; [left|]|].
    exists j, b. split; [|done]. right. split; [|done]. intros <-. by destruct Hne; rewrite (Hslot b k' w).
Qed.

(** Emptying slot [i]. *)
Lemma slots_clear l i a b k v :
  slots_distinct l -> l !! i = Some b -> kv b = Some (k, v) -> kv a = None ->
  slots_distinct (<[i := a]> l) /\ slots_map (<[i := a]> l) = delete k (slots_map l).
Proof.
  intros Hd Hi Hb Ha.
  assert (Hd' : slots_distinct (<[i := a]> l)).
  { intros j j' c c' k' w w'. rewrite !list_lookup_insert_Some.
    intros [(<- & <- & _)|[Hj Hl]] [(<- & <- & _)|[Hj' Hl']] Hk Hk'; try congruence. by eapply Hd. }
  split; [done|]. apply map_eq. intros k'. apply option_eq. intros w.
  rewrite slots_map_lookup by done. rewrite lookup_delete_Some, slots_map_lookup by done.
  setoid_rewrite list_lookup_insert_Some. split.
  - intros (j & c & [(<- & <- & _)|[Hj Hl]] & Hc); [congruence|]. split; [|by eauto].
    intros <-. by destruct Hj; eapply Hd.
  - intros [Hne (j & c & Hl & Hc)]. exists j, c. split; [|done]. right. split; [|done].
    intros <-. congruence.
Qed.

(** Overwriting slot [i] by a slot with the same name and value, or with none
    in both. *)
Lemma slots_same l i a b :
  slots_distinct l -> l !! i = Some b -> kv a = kv b ->
  slots_distinct (<[i := a]> l) /\ slots_map (<[i := a]> l) = slots_map l.
Proof.
  intros Hd Hi Hab.
  assert (Hl : forall j c k v, <[i := a]> l !! j = Some c -> kv c = Some (k, v) ->
    exists c', l !! j = Some c' /\ kv c' = Some (k, v)).
  { intros j c k v. rewrite list_lookup_insert_Some. intros [(<- & <- & _)|[Hj Hc]]; [|by eauto].
    rewrite Hab. by eauto. }
  assert (Hd' : slots_distinct (<[i := a]> l)).
  { intros j j' c c' k w w' Hj Hj' Hk Hk'. apply (Hl _ _ k w) in Hj as (? & ? & ?); [|done].
    apply (Hl _ _ k w') in Hj' as (? & ? & ?); [|done]. by eapply Hd. }
  split; [done|]. apply map_eq. intros k. apply option_eq. intros w.
  rewrite !slots_map_lookup by done. split.
  - intros (j & c & Hj & Hc). destruct (Hl _ _ _ _ Hj Hc) as (c' & ? & ?). by eauto.
  - intros (j & c & Hj & Hc). destruct (decide (j = i)) as [->|Hne].
    + exists i, a. rewrite list_lookup_insert_eq by (by eapply lookup_lt_Some).
      split; [done|]. congruence.
    + exists j, c. by rewrite list_lookup_insert_ne.
Qed.

Lemma slots_map_size l :
  (forall i a, l !! i = Some a -> is_Some (kv a)) -> slots_distinct l -> size (slots_map l) = length l.
Proof.
  induction l as [|a l IH]; intros Hfull Hd; [apply map_size_empty|].
  destruct (Hfull 0%nat a eq_refl) as ([k v] & Ha). cbn [slots_map length]. rewrite Ha.
  rewrite map_size_insert_None.
  - f_equal. apply IH; [by intros i; apply (Hfull (S i)) | by eapply slots_distinct_tail].
  - apply slots_map_None; [|by eapply slots_distinct_tail].
    intros i b v' Hi Hb. by specialize (Hd 0%nat (S i) _ _ k _ _ eq_refl Hi Ha Hb).
Qed.

End Slots.

(** The first slot that satisfies a test, as an index. *)
Section FindIndex.
Context {A : Type} (P : A -> Prop) `{forall a, Decision (P a)}.

Lemma find_index_Some (l : list A) i :
  fst <$> list_find P l = Some i -> exists a, l !! i = Some a /\ P a.
Proof.
  destruct (list_find P l) as [[j a]|] eqn:Hf; [|done].
  intros [= <-]. apply list_find_Some in Hf as (Hl & Hm & _). eauto.
Qed.

Lemma find_index_None (l : list A) :
  fst <$> list_find P l = None -> forall i a, l !! i = Some a -> ~ P a.
Proof.
  destruct (list_find P l) as [[j a]|] eqn:Hf; [done|]. intros _ i a Hl.
  apply list_find_None in Hf. rewrite Forall_lookup in Hf. by eapply Hf.
Qed.
End FindIndex.
