(* ===== verification/Json.v ===== *)
(** JSON objects as the program builds and reads them through cJSON, and the
    formatting of numbers by the C library (printf conversions). *)
From Stdlib Require QArith_base.
From S2P Require Import Prelude.
From S2P Require Import CStr.

#[local] Open Scope string_scope.
#[local] Open Scope Z_scope.

Abbreviation Q := QArith_base.Q (only parsing).

(** A parsed JSON value: the item type of ty_cJSON and its payload. The
    [valuedouble] of a number is a finite double, so a rational. *)
Inductive cJSON :=
| JNull
| JBool (b : bool)
| JNumber (valuedouble : Q)
| JString (valuestring : string)
| JArray (items : list cJSON)
| JObject (fields : list (string * cJSON)).

(** Integers are passed where a double is expected. *)
Arguments JNumber valuedouble%_Z_scope.
Coercion QArith_base.inject_Z : Z >-> Q.

Definition ty_cJSON_IsObject (j : option cJSON) : bool :=
  match j with Some (JObject _) => true | _ => false end.
Definition ty_cJSON_IsString (j : option cJSON) : bool :=
  match j with Some (JString _) => true | _ => false end.
Definition ty_cJSON_IsNumber (j : option cJSON) : bool :=
  match j with Some (JNumber _) => true | _ => false end.
Definition ty_cJSON_IsNull (j : option cJSON) : bool :=
  match j with Some JNull => true | _ => false end.

Definition ty_cJSON_IsArray (j : option cJSON) : bool :=
  match j with Some (JArray _) => true | _ => false end.

(** A double without its fraction. *)
Definition truncated (d : Q) : Z := Z.quot (QArith_base.Qnum d) (Zpos (QArith_base.Qden d)).

(** The [valueint] field of a number: it saturates. *)
Definition valueint (valuedouble : Q) : Z := Z.max INT_MIN (Z.min (truncated valuedouble) INT_MAX).

Lemma truncated_int (n : Z) : truncated n = n.
Proof. apply Z.quot_1_r. Qed.

Lemma valueint_int (n : Z) : valueint n = Z.max INT_MIN (Z.min n INT_MAX).
Proof. unfold valueint. by rewrite truncated_int. Qed.

Lemma valueint_id (n : Z) : INT_MIN <= n <= INT_MAX -> valueint n = n.
Proof. intros ?. rewrite valueint_int. lia. Qed.

Definition tolower (a : ascii) : ascii :=
  let n := nat_of_ascii a in
  if ((65 <=? n) && (n <=? 90))%nat then ascii_of_nat (n + 32) else a.

Fixpoint case_insensitive_eq (s t : string) : bool :=
  match s, t with
  | EmptyString, EmptyString => true
  | String a s', String b t' => Ascii.eqb (tolower a) (tolower b) && case_insensitive_eq s' t'
  | _, _ => false
  end.

(** The first field whose key agrees up to letter case. *)
Fixpoint get_object_item (fields : list (string * cJSON)) (name : string) : option cJSON :=
  match fields with
  | [] => None
  | (k, v) :: fields => if case_insensitive_eq name k then Some v else get_object_item fields name
  end.

Definition ty_cJSON_GetObjectItem (j : cJSON) (name : string) : option cJSON :=
  match j with JObject fields => get_object_item fields name | _ => None end.

(** Appending a field to an object. *)
Definition ty_cJSON_AddItemToObject (j : cJSON) (name : string) (v : cJSON) : cJSON :=
  match j with JObject fields => JObject (fields ++ [(name, v)])%list | _ => j end.

Definition ty_cJSON_AddItemToArray (j v : cJSON) : cJSON :=
  match j with JArray items => JArray (items ++ [v])%list | _ => j end.

(** The text conversions of the library: parsing, printing (which allocates
    and may fail). *)
Class JsonText := {
  ty_cJSON_Parse : string -> option cJSON;
  ty_cJSON_PrintUnformatted : cJSON -> option string }.

Lemma case_insensitive_eq_refl s : case_insensitive_eq s s = true.
Proof. induction s as [|a s IH]; [done|]. cbn [case_insensitive_eq]. by rewrite Ascii.eqb_refl, IH. Qed.

(** The quotient rounded to the nearest integer, ties to even. *)
Definition round_div (n d : Z) : Z :=
  let q := n / d in
  match Z.compare (2 * (n mod d)) d with
  | Lt => q
  | Gt => q + 1
  | Eq => if Z.even q then q else q + 1
  end.

(** The largest k with 10^k <= n/d (the quotient positive, its decimal
    exponent within the range of a double). *)
Fixpoint exponent_up (fuel : nat) (n d k : Z) : Z :=
  match fuel with
  | O => k
  | S fuel => if n <? 10 * d then k else exponent_up fuel n (10 * d) (k + 1)
  end.
Fixpoint exponent_down (fuel : nat) (n d k : Z) : Z :=
  match fuel with
  | O => k
  | S fuel => if d <=? n then k else exponent_down fuel (10 * n) d (k - 1)
  end.
Definition exponent10 (n d : Z) : Z :=
  if n <? d then exponent_down 330 n d 0 else exponent_up 310 n d 0.

(** The six digits of n/d and the exponent of the first one, as "%.5e" has
    them. *)
Definition six_digits (n d : Z) : Z * Z :=
  let x := exponent10 n d in
  let m := if x <=? 5 then round_div (n * 10 ^ (5 - x)) d else round_div n (d * 10 ^ (x - 5)) in
  if m =? 10 ^ 6 then (10 ^ 5, x + 1) else (m, x).

Fixpoint strip_zeros (s : string) : string :=
  match s with
  | EmptyString => ""
  | String a s =>
      let t := strip_zeros s in
      if String.eqb t "" && Ascii.eqb a "0" then "" else String a t
  end.

Definition with_point (whole fraction : string) : string :=
  let fraction := strip_zeros fraction in
  if String.eqb fraction "" then whole else whole ++ "." ++ fraction.

Fixpoint zeros (n : nat) : string := match n with O => "" | S n => String "0" (zeros n) end.

(** An exponent has a sign and at least two digits. *)
Definition exponent_text (x : Z) : string :=
  (if x <? 0 then "-" else "+") ++ (if Z.abs x <? 10 then "0" else "") ++ fmt_u (Z.abs x).

Definition fmt_g (v : Q) : string :=
  let n := QArith_base.Qnum v in
  if n =? 0 then "0"
  else
    let '(m, x) := six_digits (Z.abs n) (Zpos (QArith_base.Qden v)) in
    let digits := fmt_u m in
    (if n <? 0 then "-" else "") ++
    (if (x <? -4) || (6 <=? x) then
       with_point (substring 0 1 digits) (substring 1 5 digits) ++ "e" ++ exponent_text x
     else if x <? 0 then with_point "0" (zeros (Z.to_nat (- x - 1)) ++ digits)
     else with_point (substring 0 (S (Z.to_nat x)) digits) (substring (S (Z.to_nat x)) 6 digits)).

Example fmt_g_examples :
  map fmt_g [QArith_base.Qmake 1 2; QArith_base.Qmake (-7) 4; 100000 : Q; 1000000 : Q; 2147483647 : Q; 0 : Q;
             QArith_base.Qmake 1 8192; QArith_base.Qmake 1 65536; QArith_base.Qmake 1999999 2; QArith_base.Qmake 241 2; 59 : Q] =
  ["0.5"; "-1.75"; "100000"; "1e+06"; "2.14748e+09"; "0"; "0.00012207"; "1.52588e-05"; "1e+06"; "120.5"; "59"].
Proof. by vm_compute. Qed.
