(* ===== verification/CronRpc.v ===== *)
(** The local JSON-RPC 2.0 executor of src/wukong/cron/wukong_cron_rpc.c: its
    fixed-size method registry, refined to a finite map, and the requests it
    answers. *)
From stdpp Require Import gmap strings fin_maps.
From S2P Require Import Prelude.
From S2P Require Import Slots.
From S2P Require Import World.
From S2P Require Import Json.

#[local] Open Scope string_scope.
#[local] Open Scope Z_scope.

Definition WUKONG_CRON_RPC_ERR_PARSE : Z := -32700.
Definition WUKONG_CRON_RPC_ERR_INVALID_REQUEST : Z := -32600.
Definition WUKONG_CRON_RPC_ERR_METHOD_NOT_FOUND : Z := -32601.
Definition WUKONG_CRON_RPC_ERR_INVALID_PARAMS : Z := -32602.
Definition WUKONG_CRON_RPC_ERR_INTERNAL : Z := -32603.

Definition WUKONG_CRON_RPC_MAX_METHODS : nat := 16.

(** One registry slot; [H] is the type of handler (function pointer) values. *)
Record WUKONG_CRON_RPC_ENTRY_T (H : Type) := mk_entry {
  e_method : option string; e_handler : option H }.
Arguments mk_entry {H}.
Arguments e_method {H}.
Arguments e_handler {H}.

Definition entry_zero {H} : WUKONG_CRON_RPC_ENTRY_T H := mk_entry None None.

(** A state that holds the registry and an allocator. *)
Class RpcStore (W H : Type) := {
  rpc_entries : W -> list (WUKONG_CRON_RPC_ENTRY_T H);
  rpc_set : list (WUKONG_CRON_RPC_ENTRY_T H) -> W -> W;
  rpc_alloc : W -> bool * W }.

(** A state in which registered handlers can be called. *)
Class RpcInvoke (W H : Type) := {
  rpc_invoke : H -> option cJSON -> C W (OPERATE_RET * option cJSON) }.

Section Rpc.
Context {W H : Type} `{RS : !RpcStore W H}.

Definition alloc_ok : C W bool := fun w => Some (rpc_alloc w).

(** ** Operations of the source *)

(** [None] is the -1 of the source. *)
Definition __find_method_index (entries : list (WUKONG_CRON_RPC_ENTRY_T H)) (method : string) : option nat :=
  fst <$> list_find (fun e => e_method e = Some method) entries.

Definition free_slot (entries : list (WUKONG_CRON_RPC_ENTRY_T H)) : option nat :=
  fst <$> list_find (fun e => e_method e = None) entries.

Definition wukong_cron_rpc_init : C W OPERATE_RET :=
  let* _ := cmod (rpc_set (replicate WUKONG_CRON_RPC_MAX_METHODS entry_zero)) in cret OPRT_OK.

Definition wukong_cron_rpc_deinit : C W unit :=
  let* entries := cget rpc_entries in
  cmod (rpc_set (map (fun _ => entry_zero) entries)).

Definition wukong_cron_rpc_method_register (method : option string) (handler : option H) : C W OPERATE_RET :=
  match method, handler with
  | Some method, Some handler =>
      let* entries := cget rpc_entries in
      match __find_method_index entries method with
      | Some index =>
          let* _ := cmod (rpc_set (<[index := mk_entry (Some method) (Some handler)]> entries)) in
          cret OPRT_OK
      | None =>
          match free_slot entries with
          | Some index =>
              let* ok := alloc_ok in
              if negb ok then cret OPRT_MALLOC_FAILED
              else
                let* _ := cmod (rpc_set (<[index := mk_entry (Some method) (Some handler)]> entries)) in
                cret OPRT_OK
          | None => cret OPRT_COM_ERROR
          end
      end
  | _, _ => cret OPRT_INVALID_PARM
  end.

Definition wukong_cron_rpc_method_unregister (method : option string) : C W OPERATE_RET :=
  match method with
  | Some method =>
      let* entries := cget rpc_entries in
      match __find_method_index entries method with
      | Some index =>
          let* _ := cmod (rpc_set (<[index := entry_zero]> entries)) in cret OPRT_OK
      | None => cret OPRT_NOT_FOUND
      end
  | None => cret OPRT_INVALID_PARM
  end.

(** One [ty_cJSON_Add...ToObject] call: a failed allocation leaves the object
    as it was, and no caller looks at the result. *)
Definition add_field (obj : cJSON) (name : string) (v : cJSON) : C W cJSON :=
  let* ok := alloc_ok in cret (if ok then ty_cJSON_AddItemToObject obj name v else obj).

(** The node added under "id": a copy of the request's, or null. *)
Definition __duplicate_id_or_null (id : option cJSON) : cJSON := default JNull id.

Definition __build_error_response (id : option cJSON) (code : Z) (msg : string)
    : C W (OPERATE_RET * option cJSON) :=
  let* ok1 := alloc_ok in
  let* ok2 := alloc_ok in
  if negb (ok1 && ok2) then cret (OPRT_MALLOC_FAILED, None)
  else
    let* root := add_field (JObject []) "jsonrpc" (JString "2.0") in
    let* root := add_field root "id" (__duplicate_id_or_null id) in
    let* error := add_field (JObject []) "code" (JNumber code) in
    let* error := add_field error "message" (JString msg) in
    let* root := add_field root "error" error in
    cret (OPRT_OK, Some root).

Definition __build_result_response (id : option cJSON) (result : option cJSON)
    : C W (OPERATE_RET * option cJSON) :=
  let* ok := alloc_ok in
  if negb ok then cret (OPRT_MALLOC_FAILED, None)
  else
    let* root := add_field (JObject []) "jsonrpc" (JString "2.0") in
    let* root := add_field root "id" (__duplicate_id_or_null id) in
    let* root := add_field root "result" (default (JObject []) result) in
    cret (OPRT_OK, Some root).

Context `{RI : !RpcInvoke W H} `{JT : JsonText}.

Definition jstring_is (j : option cJSON) (s : string) : bool :=
  match j with Some (JString t) => String.eqb t s | _ => false end.

(** Calling a NULL handler is undefined. *)
Definition wukong_cron_rpc_execute_json (request : option cJSON) : C W (OPERATE_RET * option cJSON) :=
  match request with
  | None => cret (OPRT_INVALID_PARM, None)
  | Some request =>
      if negb (ty_cJSON_IsObject (Some request)) then
        __build_error_response None WUKONG_CRON_RPC_ERR_INVALID_REQUEST "Invalid JSON-RPC request"
      else
        let jsonrpc := ty_cJSON_GetObjectItem request "jsonrpc" in
        if negb (ty_cJSON_IsString jsonrpc) || negb (jstring_is jsonrpc "2.0") then
          __build_error_response None WUKONG_CRON_RPC_ERR_INVALID_REQUEST "Invalid JSON-RPC version"
        else
          let id := ty_cJSON_GetObjectItem request "id" in
          if match id with
             | Some _ => negb (ty_cJSON_IsString id) && negb (ty_cJSON_IsNumber id) && negb (ty_cJSON_IsNull id)
             | None => false
             end
          then __build_error_response None WUKONG_CRON_RPC_ERR_INVALID_REQUEST "Invalid id"
          else
            match ty_cJSON_GetObjectItem request "method" with
            | Some (JString method) =>
                let params := ty_cJSON_GetObjectItem request "params" in
                if match params with Some _ => negb (ty_cJSON_IsObject params) | None => false end
                then __build_error_response id WUKONG_CRON_RPC_ERR_INVALID_PARAMS "Params must be an object"
                else
                  let* entries := cget rpc_entries in
                  match __find_method_index entries method with
                  | None => __build_error_response id WUKONG_CRON_RPC_ERR_METHOD_NOT_FOUND "Method not found"
                  | Some index =>
                      match (entries !! index) ≫= e_handler with
                      | None => fun _ => None
                      | Some handler =>
                          let* (rt, result) := rpc_invoke handler params in
                          if negb (rt =? OPRT_OK) then
                            __build_error_response id WUKONG_CRON_RPC_ERR_INTERNAL "Method execution failed"
                          else __build_result_response id result
                      end
                  end
            | _ => __build_error_response id WUKONG_CRON_RPC_ERR_INVALID_REQUEST "Missing method"
            end
  end.

Definition wukong_cron_rpc_execute_string (request_json : option string) : C W (OPERATE_RET * option string) :=
  match request_json with
  | None => cret (OPRT_INVALID_PARM, None)
  | Some text =>
      let* (rt, response) :=
        match ty_cJSON_Parse text with
        | None => __build_error_response None WUKONG_CRON_RPC_ERR_PARSE "Parse error"
        | Some request => wukong_cron_rpc_execute_json (Some request)
        end in
      if negb (rt =? OPRT_OK) then cret (rt, None)
      else
        match response ≫= ty_cJSON_PrintUnformatted with
        | None => cret (OPRT_MALLOC_FAILED, None)
        | Some s => cret (OPRT_OK, Some s)
        end
  end.

End Rpc.

(** ** The registry as a finite map *)

Section Registry.
Context {H : Type}.
Implicit Types es : list (WUKONG_CRON_RPC_ENTRY_T H).

(** A slot as a registered method: a name and a handler. *)
Definition entry_kv (e : WUKONG_CRON_RPC_ENTRY_T H) : option (string * H) :=
  match e_method e, e_handler e with Some m, Some h => Some (m, h) | _, _ => None end.

(** The abstract registry: method name to handler. *)
Definition registry_map es : gmap string H := slots_map entry_kv es.

(** A slot is free (both fields NULL) or holds a name and a handler. *)
Definition entry_wf (e : WUKONG_CRON_RPC_ENTRY_T H) : Prop :=
  e = entry_zero \/ exists m h, e = mk_entry (Some m) (Some h).

Record registry_wf es : Prop := {
  rw_length : length es = WUKONG_CRON_RPC_MAX_METHODS;
  rw_entry : forall i e, es !! i = Some e -> entry_wf e;
  rw_distinct : slots_distinct entry_kv es }.

Lemma entry_wf_kv e m : entry_wf e -> e_method e = Some m -> exists h, entry_kv e = Some (m, h).
Proof. intros [->|(m' & h & ->)]; [done|]. intros [= ->]. by exists h. Qed.

Lemma entry_kv_method e m h : entry_kv e = Some (m, h) -> e_method e = Some m.
Proof. unfold entry_kv. destruct (e_method e), (e_handler e); congruence. Qed.

Lemma registry_wf_insert es i e : registry_wf es -> entry_wf e ->
  slots_distinct entry_kv (<[i := e]> es) -> registry_wf (<[i := e]> es).
Proof.
  intros [Hlen Hwf _] He Hd. split; [by rewrite length_insert | | done].
  intros j e'. rewrite list_lookup_insert_Some. intros [(_ & <- & _)|[_ Hl]]; [done | by eapply Hwf].
Qed.

(** Looking a method up scans to the handler the map holds. *)
Lemma find_method_map es m : registry_wf es ->
  match __find_method_index es m with
  | Some i => exists h, es !! i = Some (mk_entry (Some m) (Some h)) /\ registry_map es !! m = Some h
  | None => registry_map es !! m = None
  end.
Proof.
  intros [Hlen Hwf Hd]. destruct (__find_method_index es m) as [i|] eqn:Hf.
  - apply find_index_Some in Hf as (e & Hl & Hm).
    destruct (Hwf i e Hl) as [->|(m' & h & ->)]; [done|]. cbn in Hm. injection Hm as ->.
    exists h. split; [done|]. apply slots_map_lookup; eauto.
  - apply slots_map_None; [|done]. intros i e h Hi He.
    by eapply (find_index_None _ _ Hf), entry_kv_method.
Qed.

(** Storing into slot [i], which is free or already holds the method. *)
Lemma registry_store es i m h :
  registry_wf es -> (i < length es)%nat ->
  (forall j e, j <> i -> es !! j = Some e -> e_method e <> Some m) ->
  (forall e, es !! i = Some e -> e_method e = Some m \/ e_method e = None) ->
  registry_wf (<[i := mk_entry (Some m) (Some h)]> es) /\
  registry_map (<[i := mk_entry (Some m) (Some h)]> es) = <[m := h]> (registry_map es).
Proof.
  intros Hes Hi Hother Hslot.
  destruct (slots_store entry_kv es i (mk_entry (Some m) (Some h)) m h) as [Hd' Hm]; [apply Hes|done|done| | |].
  - intros j e h' Hj Hl He. by eapply Hother, entry_kv_method.
  - intros e m' h' Hl He%entry_kv_method. apply Hslot in Hl as [?|?]; congruence.
  - split; [|done]. apply registry_wf_insert; [done| |done]. right. eauto.
Qed.

Lemma registry_clear es i m h :
  registry_wf es -> es !! i = Some (mk_entry (Some m) (Some h)) ->
  registry_wf (<[i := entry_zero]> es) /\
  registry_map (<[i := entry_zero]> es) = delete m (registry_map es).
Proof.
  intros Hes Hi. destruct (slots_clear entry_kv es i entry_zero _ m h (rw_distinct _ Hes) Hi) as [Hd' Hm]; [done..|].
  split; [|done]. apply registry_wf_insert; [done| |done]. by left.
Qed.

Lemma free_slot_None es : registry_wf es -> free_slot es = None ->
  size (registry_map es) = WUKONG_CRON_RPC_MAX_METHODS.
Proof.
  intros [Hlen Hwf Hd] Hf. rewrite <- Hlen. apply slots_map_size; [|done].
  intros i e He. destruct (Hwf i e He) as [->|(m & h & ->)]; [|by eexists].
  by destruct (find_index_None _ _ Hf i _ He).
Qed.

Lemma registry_wf_init : registry_wf (replicate WUKONG_CRON_RPC_MAX_METHODS entry_zero).
Proof.
  split.
  - apply length_replicate.
  - intros i e He. apply lookup_replicate in He as [-> _]. by left.
  - intros i j e e' m h h' He He'. apply lookup_replicate in He as [-> _]. done.
Qed.

End Registry.
