(* ===== verification/CronRpcCorrect.v ===== *)
(** The JSON-RPC executor of [CronRpc] against its contract: the registry is a
    bounded finite map, and every request gets exactly one JSON-RPC answer. *)
From stdpp Require Import gmap strings fin_maps.
From S2P Require Import Prelude.
From S2P Require Import Slots.
From S2P Require Import World.
From S2P Require Import Json.
From S2P Require Import CronRpc.

#[local] Open Scope string_scope.
#[local] Open Scope Z_scope.

(** Storing and allocating behave like a store and an allocator. *)
Class RpcStoreLaws (W H : Type) `{!RpcStore W H} : Prop := {
  rpc_get_set : forall es w, rpc_entries (rpc_set es w) = es;
  rpc_alloc_entries : forall w, rpc_entries (snd (rpc_alloc w)) = rpc_entries w }.

Section Correct.
Context {W H : Type} `{RL : RpcStoreLaws W H}.

Abbreviation the_map w := (registry_map (rpc_entries (H := H) w)).

(** Registering a method refines insertion into a finite map bounded by 16
    names: it stores the handler under the name and touches no other name, or
    reports that the table is full or the copy of the name could not be
    allocated and leaves the registry as it was. *)
Theorem register_refines (m : string) (h : H) (w : W) :
  registry_wf (rpc_entries w) ->
  exists rt w', wukong_cron_rpc_method_register (Some m) (Some h) w = Some (rt, w') /\
    registry_wf (rpc_entries w') /\
    ((rt = OPRT_OK /\ the_map w' = <[m := h]> (the_map w)) \/
     (the_map w !! m = None /\ the_map w' = the_map w /\
      (rt = OPRT_COM_ERROR /\ size (the_map w) = WUKONG_CRON_RPC_MAX_METHODS \/
       rt = OPRT_MALLOC_FAILED /\ fst (rpc_alloc w) = false))).
Proof.
  intros Hwf. pose proof (find_method_map _ m Hwf) as Hmap.
  unfold wukong_cron_rpc_method_register. unfold cbind, cget at 1. cbv beta iota.
  destruct (__find_method_index (rpc_entries w) m) as [i|] eqn:Hf.
  - destruct Hmap as (h0 & Hi & _). pose proof (rw_distinct _ Hwf) as Hd; pose proof (rw_entry _ Hwf) as Hwfe.
    destruct (registry_store (rpc_entries w) i m h Hwf) as [Hwf' Hmap'].
    { by apply lookup_lt_is_Some_1. }
    { intros j e Hj Hl Hm. apply Hj. destruct (entry_wf_kv e m (Hwfe j e Hl) Hm) as [h' He]. by eapply Hd. }
    { intros e He. left. rewrite Hi in He. by injection He as <-. }
    eexists _, _. split; [reflexivity|]. rewrite rpc_get_set. split; [done|]. by left.
  - destruct (free_slot (rpc_entries w)) as [i|] eqn:Hfree.
    + unfold alloc_ok. destruct (rpc_alloc w) as [ok w1] eqn:Ha. cbn [fst snd].
      assert (Hes : rpc_entries w1 = rpc_entries w) by (rewrite <- (rpc_alloc_entries w), Ha; done).
      destruct ok; cbn [negb].
      * apply find_index_Some in Hfree as (e & Hl & He).
        destruct (registry_store (rpc_entries w) i m h Hwf) as [Hwf' Hmap'].
        { by apply lookup_lt_is_Some_1. }
        { intros j e' _ Hl' Hm. by destruct (find_index_None _ _ Hf j e' Hl'). }
        { intros e' He'. right. congruence. }
        eexists _, _. split; [reflexivity|]. rewrite rpc_get_set. split; [done|]. by left.
      * eexists _, _. split; [reflexivity|]. rewrite Hes. split; [done|]. right. auto.
    + eexists _, _. split; [reflexivity|]. split; [done|]. right.
      split; [done|]. split; [done|]. left. split; [done|]. by apply free_slot_None.
Qed.

(** Unregistering refines deletion: it succeeds exactly on registered
    names, removes that name only, and otherwise changes nothing. *)
Theorem unregister_refines (m : string) (w : W) :
  registry_wf (rpc_entries w) ->
  exists rt w', wukong_cron_rpc_method_unregister (Some m) w = Some (rt, w') /\
    registry_wf (rpc_entries w') /\
    ((rt = OPRT_OK /\ is_Some (the_map w !! m) /\ the_map w' = delete m (the_map w)) \/
     (rt = OPRT_NOT_FOUND /\ the_map w !! m = None /\ w' = w)).
Proof.
  intros Hwf. pose proof (find_method_map _ m Hwf) as Hmap.
  unfold wukong_cron_rpc_method_unregister. unfold cbind, cget at 1. cbv beta iota.
  destruct (__find_method_index (rpc_entries w) m) as [i|] eqn:Hf.
  - destruct Hmap as (h0 & Hi & Hm). destruct (registry_clear (rpc_entries w) i m h0 Hwf Hi) as [Hwf' Hmap'].
    eexists _, _. split; [reflexivity|]. rewrite rpc_get_set. split; [done|]. left. rewrite Hm. eauto.
  - eexists _, _. split; [reflexivity|]. eauto 10.
Qed.

(** ** Answers *)

Context `{RI : !RpcInvoke W H}.

Definition allocs (n : nat) (w : W) : W := Nat.iter n (fun w => snd (rpc_alloc w)) w.

Definition error_response (id : option cJSON) (code : Z) (msg : string) : cJSON :=
  JObject [("jsonrpc", JString "2.0"); ("id", default JNull id);
           ("error", JObject [("code", JNumber code); ("message", JString msg)])].

Definition result_response (id : option cJSON) (result : cJSON) : cJSON :=
  JObject [("jsonrpc", JString "2.0"); ("id", default JNull id); ("result", result)].

Definition id_ok (id : option cJSON) : Prop :=
  match id with
  | None | Some (JString _) | Some (JNumber _) | Some JNull => True
  | _ => False
  end.

Definition params_ok (params : option cJSON) : Prop :=
  match params with None | Some (JObject _) => True | _ => False end.

(** The envelope of a request: protocol version and id. *)
Definition envelope_ok (req : cJSON) (id : option cJSON) : Prop :=
  ty_cJSON_GetObjectItem req "jsonrpc" = Some (JString "2.0") /\
  ty_cJSON_GetObjectItem req "id" = id /\ id_ok id.

Definition calls (req : cJSON) (m : string) (params : option cJSON) : Prop :=
  ty_cJSON_GetObjectItem req "method" = Some (JString m) /\ ty_cJSON_GetObjectItem req "params" = params.

(** The answer of the executor to a request, with the state it leaves: only a
    well-formed call to a registered method runs a handler. *)
Inductive answers (w : W) : cJSON -> cJSON -> W -> Prop :=
| ans_result req id m params h res w1 :
    envelope_ok req id -> calls req m params -> params_ok params -> the_map w !! m = Some h ->
    rpc_invoke h params w = Some ((OPRT_OK, res), w1) ->
    answers w req (result_response id (default (JObject []) res)) (allocs 4 w1)
| ans_internal req id m params h rt res w1 :
    envelope_ok req id -> calls req m params -> params_ok params -> the_map w !! m = Some h ->
    rpc_invoke h params w = Some ((rt, res), w1) -> rt <> OPRT_OK ->
    answers w req (error_response id WUKONG_CRON_RPC_ERR_INTERNAL "Method execution failed") (allocs 7 w1)
| ans_unknown req id m params :
    envelope_ok req id -> calls req m params -> params_ok params -> the_map w !! m = None ->
    answers w req (error_response id WUKONG_CRON_RPC_ERR_METHOD_NOT_FOUND "Method not found") (allocs 7 w)
| ans_params req id m params :
    envelope_ok req id -> calls req m params -> ~ params_ok params ->
    answers w req (error_response id WUKONG_CRON_RPC_ERR_INVALID_PARAMS "Params must be an object") (allocs 7 w)
| ans_method req id :
    envelope_ok req id -> (forall m params, ~ calls req m params) ->
    answers w req (error_response id WUKONG_CRON_RPC_ERR_INVALID_REQUEST "Missing method") (allocs 7 w)
| ans_envelope req msg :
    (forall id, ~ envelope_ok req id) ->
    answers w req (error_response None WUKONG_CRON_RPC_ERR_INVALID_REQUEST msg) (allocs 7 w).

(** States in which allocations succeed, an invariant of the allocator and of
    every handler. *)
Context (good : W -> Prop).
Hypothesis good_alloc : forall w, good w -> fst (rpc_alloc w) = true /\ good (snd (rpc_alloc w)).

Lemma alloc_ok_eq (w : W) : good w -> alloc_ok w = Some (true, allocs 1 w) /\ good (allocs 1 w).
Proof.
  intros Hw. destruct (good_alloc w Hw) as [Ht Hg]. split; [|done].
  unfold alloc_ok. by rewrite (surjective_pairing (rpc_alloc w)), Ht.
Qed.

Lemma add_field_eq obj name v (w : W) : good w ->
  add_field obj name v w = Some (ty_cJSON_AddItemToObject obj name v, allocs 1 w) /\ good (allocs 1 w).
Proof.
  intros Hw. destruct (alloc_ok_eq w Hw) as [He Hg]. split; [|done].
  unfold add_field, cbind. by rewrite He.
Qed.

(** Run the next allocation of the goal. *)
Ltac next_alloc :=
  match goal with
  | Hw : good ?w |- context [alloc_ok ?w] =>
      let He := fresh in let Hg := fresh "Hg" in
      destruct (alloc_ok_eq w Hw) as [He Hg]; rewrite He; cbv beta iota; cbn [negb andb]
  | Hw : good ?w |- context [add_field ?o ?n ?v ?w] =>
      let He := fresh in let Hg := fresh "Hg" in
      destruct (add_field_eq o n v w Hw) as [He Hg]; rewrite He; cbv beta iota
  end.

Lemma build_error_eq id code msg (w : W) : good w ->
  __build_error_response id code msg w = Some ((OPRT_OK, Some (error_response id code msg)), allocs 7 w).
Proof. intros Hw. unfold __build_error_response, cbind. repeat next_alloc. done. Qed.

Lemma build_result_eq id res (w : W) : good w ->
  __build_result_response id res w =
    Some ((OPRT_OK, Some (result_response id (default (JObject []) res))), allocs 4 w).
Proof. intros Hw. unfold __build_result_response, cbind. repeat next_alloc. done. Qed.

Lemma id_test id :
  match id with
  | Some _ => negb (ty_cJSON_IsString id) && negb (ty_cJSON_IsNumber id) && negb (ty_cJSON_IsNull id)
  | None => false
  end = false <-> id_ok id.
Proof. destruct id as [[]|]; cbn; intuition done. Qed.

Lemma params_test params :
  match params with Some _ => negb (ty_cJSON_IsObject params) | None => false end = false <-> params_ok params.
Proof. destruct params as [[]|]; cbn; intuition done. Qed.

Lemma jstring_is_spec j s : jstring_is j s = true <-> j = Some (JString s).
Proof.
  destruct j as [[| | |t| |]|]; cbn; try (split; congruence). rewrite String.eqb_eq. split; congruence.
Qed.

(** C25. As long as allocations succeed, executing any JSON value on a
    well-formed registry terminates normally with exactly one response, the one
    the rules of [answers] give: a call to a registered method runs its handler
    once and reports the handler's outcome; every malformed request gets its
    error code without running anything. The rules are JSON-RPC 2.0 for calls
    with named parameters, and leave it in three places, as the code does: a
    request without an id (a notification) is answered too, with a null id;
    parameters in an array are refused; and members are found whatever the case
    of their names. *)
Theorem execute_json_answers (req : cJSON) (w : W) :
  registry_wf (rpc_entries (H := H) w) -> good w ->
  (forall (h : H) params w, good w -> exists r w1, rpc_invoke h params w = Some (r, w1) /\ good w1) ->
  exists resp w', wukong_cron_rpc_execute_json (H := H) (Some req) w = Some ((OPRT_OK, Some resp), w') /\
    answers w req resp w'.
Proof.
  intros Hwf Hw Hdef. unfold wukong_cron_rpc_execute_json.
  destruct (ty_cJSON_IsObject (Some req)) eqn:Ho; cbn [negb].
  2:{ rewrite build_error_eq by done. eexists _, _. split; [done|]. apply ans_envelope.
      intros id [He _]. by destruct req. }
  destruct (jstring_is (ty_cJSON_GetObjectItem req "jsonrpc") "2.0") eqn:Hv.
  2:{ rewrite orb_true_r, build_error_eq by done. eexists _, _. split; [done|]. apply ans_envelope.
      intros id [He _]. apply jstring_is_spec in He. congruence. }
  apply jstring_is_spec in Hv. rewrite Hv. cbn [ty_cJSON_IsString negb orb].
  destruct (match ty_cJSON_GetObjectItem req "id" with Some _ => _ | None => _ end) eqn:Hid.
  { rewrite build_error_eq by done. eexists _, _. split; [done|]. apply ans_envelope.
    intros id (_ & <- & Hok). apply id_test in Hok. congruence. }
  apply id_test in Hid. set (id := ty_cJSON_GetObjectItem req "id") in *.
  assert (Henv : envelope_ok req id) by done.
  destruct (ty_cJSON_GetObjectItem req "method") as [[| | |m| |]|] eqn:Hm;
    try (rewrite build_error_eq by done; eexists _, _; split; [done|]; apply ans_method; [done|];
         intros m' p [Hc _]; congruence).
  set (params := ty_cJSON_GetObjectItem req "params") in *. assert (Hcalls : calls req m params) by done.
  destruct (match params with Some _ => _ | None => _ end) eqn:Hp.
  { rewrite build_error_eq by done. eexists _, _. split; [done|]. eapply ans_params; [done..|].
    intros Hok. apply params_test in Hok. congruence. }
  apply params_test in Hp. unfold cbind at 1, cget. cbv beta iota.
  pose proof (find_method_map _ m Hwf) as Hmap. destruct (__find_method_index _ m) as [i|].
  2:{ rewrite build_error_eq by done. eexists _, _. split; [done|]. by eapply ans_unknown. }
  destruct Hmap as (h & Hi & Hmh). rewrite Hi. cbn [e_handler option_bind mbind].
  destruct (Hdef h params w Hw) as ([rt res] & w1 & Hinv & Hw1). unfold cbind. rewrite Hinv.
  destruct (Z.eqb_spec rt OPRT_OK) as [->|Hrt]; cbn [negb].
  - rewrite build_result_eq by done. eexists _, _. split; [done|]. by eapply ans_result.
  - rewrite build_error_eq by done. eexists _, _. split; [done|]. by eapply ans_internal.
Qed.

End Correct.

(** ** A concrete registry: a bare table whose one kind of handler echoes its
    parameters *)

#[local] Instance table_store : RpcStore (list (WUKONG_CRON_RPC_ENTRY_T nat)) nat := {
  rpc_entries w := w; rpc_set es _ := es; rpc_alloc w := (true, w) }.
#[local] Instance table_laws : RpcStoreLaws (list (WUKONG_CRON_RPC_ENTRY_T nat)) nat.
Proof. by split. Qed.
#[local] Instance table_invoke : RpcInvoke (list (WUKONG_CRON_RPC_ENTRY_T nat)) nat := {
  rpc_invoke _ params w := Some ((OPRT_OK, params), w) }.

Definition empty_table : list (WUKONG_CRON_RPC_ENTRY_T nat) := replicate 16 entry_zero.
Definition echo_table : list (WUKONG_CRON_RPC_ENTRY_T nat) := <[0%nat := mk_entry (Some "echo") (Some 1%nat)]> empty_table.

Lemma echo_table_wf : registry_wf echo_table.
Proof.
  apply (registry_store empty_table 0 "echo" 1%nat registry_wf_init); [vm_compute; lia | |].
  - intros j e _ He. apply lookup_replicate in He as [-> _]. done.
  - intros e He. apply lookup_replicate in He as [-> _]. by right.
Qed.

(** Registering into the empty table, unregistering from the table of one. *)
Lemma register_refines_witness :
  exists rt w', wukong_cron_rpc_method_register (Some "echo") (Some 1%nat) empty_table = Some (rt, w') /\
    registry_wf (rpc_entries (H := nat) w') /\
    ((rt = OPRT_OK /\ registry_map (rpc_entries w') = <["echo" := 1%nat]> (registry_map (rpc_entries empty_table))) \/
     (registry_map (H := nat) (rpc_entries empty_table) !! "echo" = None /\
      registry_map (H := nat) (rpc_entries w') = registry_map (rpc_entries empty_table) /\
      (rt = OPRT_COM_ERROR /\ size (registry_map (H := nat) (rpc_entries empty_table)) = WUKONG_CRON_RPC_MAX_METHODS \/
       rt = OPRT_MALLOC_FAILED /\ fst (rpc_alloc (H := nat) empty_table) = false))).
Proof. apply register_refines. exact registry_wf_init. Defined.

Lemma unregister_refines_witness :
  exists rt w', wukong_cron_rpc_method_unregister (H := nat) (Some "echo") echo_table = Some (rt, w') /\
    registry_wf (rpc_entries (H := nat) w') /\
    ((rt = OPRT_OK /\ is_Some (registry_map (H := nat) (rpc_entries echo_table) !! "echo") /\
      registry_map (H := nat) (rpc_entries w') = delete "echo" (registry_map (rpc_entries echo_table))) \/
     (rt = OPRT_NOT_FOUND /\ registry_map (H := nat) (rpc_entries echo_table) !! "echo" = None /\ w' = echo_table)).
Proof. apply unregister_refines. exact echo_table_wf. Defined.

Definition echo_request : cJSON :=
  JObject [("jsonrpc", JString "2.0"); ("id", JNumber 7); ("method", JString "echo");
           ("params", JObject [("x", JNumber 1)])].

Lemma execute_json_answers_witness :
  exists resp w', wukong_cron_rpc_execute_json (Some echo_request) echo_table = Some ((OPRT_OK, Some resp), w') /\
    answers (H := nat) echo_table echo_request resp w'.
Proof.
  apply (execute_json_answers (fun _ => True)).
  - intros w _. by split.
  - exact echo_table_wf.
  - exact I.
  - intros h params w _. by eexists _, _.
Defined.
