(* ===== verification/CronJobs.v ===== *)
(** The cron service of src/wukong/cron/wukong_cron.c: the in-memory job table,
    the single nearest-deadline timer, and the job API. *)
From S2P Require Import Prelude.
From S2P Require Import Calendar.
From S2P Require Import CStr.
From S2P Require Import CronField.
From S2P Require Import CronParse.
From S2P Require Import CronNext.
From S2P Require Import World.
From S2P Require Import Json.
From S2P Require Import CronRpc.

#[local] Open Scope string_scope.
#[local] Open Scope Z_scope.

Definition WUKONG_CRON_JOB_ID_LEN : nat := 32.
Definition WUKONG_CRON_JOB_NAME_LEN : nat := 64.
Definition WUKONG_CRON_MAX_JOBS : nat := 16.

Record WUKONG_CRON_JOB_T := mk_job {
  j_used : bool; j_enabled : bool; j_once : bool;
  j_id : string; j_name : string; j_cron_expr : string;
  j_expr : WUKONG_CRON_EXPR_T;
  j_request : option cJSON;
  j_next_fire_ts : TIME_T; j_last_fire_ts : TIME_T }.

Definition job_zero : WUKONG_CRON_JOB_T :=
  mk_job false false false "" "" "" expr_zero None 0 0.

(** Field updates of a job. *)
Definition job_set_next (t : TIME_T) (j : WUKONG_CRON_JOB_T) : WUKONG_CRON_JOB_T :=
  mk_job (j_used j) (j_enabled j) (j_once j) (j_id j) (j_name j) (j_cron_expr j) (j_expr j)
    (j_request j) t (j_last_fire_ts j).
Definition job_set_last (t : TIME_T) (j : WUKONG_CRON_JOB_T) : WUKONG_CRON_JOB_T :=
  mk_job (j_used j) (j_enabled j) (j_once j) (j_id j) (j_name j) (j_cron_expr j) (j_expr j)
    (j_request j) (j_next_fire_ts j) t.
Definition job_set_id (id : string) (j : WUKONG_CRON_JOB_T) : WUKONG_CRON_JOB_T :=
  mk_job (j_used j) (j_enabled j) (j_once j) id (j_name j) (j_cron_expr j) (j_expr j)
    (j_request j) (j_next_fire_ts j) (j_last_fire_ts j).

(** The timer is [true] when created (non-NULL). *)
Record WUKONG_CRON_CTX_T := mk_cron_ctx {
  cx_initialized : bool; cx_time_ready : bool; cx_in_timer_cb : bool;
  cx_next_job_seq : Z; cx_timer : bool; cx_jobs : list WUKONG_CRON_JOB_T }.

Definition cron_ctx_zero : WUKONG_CRON_CTX_T :=
  mk_cron_ctx false false false 0 false (replicate WUKONG_CRON_MAX_JOBS job_zero).

(** Everything the cron service touches: the device, the method registry and
    [s_cron_ctx]. *)
Record CronState (H : Type) := mk_cron_state {
  cs_world : World; cs_rpc : list (WUKONG_CRON_RPC_ENTRY_T H); cs_ctx : WUKONG_CRON_CTX_T }.
Arguments mk_cron_state {H}.
Arguments cs_world {H}.
Arguments cs_rpc {H}.
Arguments cs_ctx {H}.

Definition cs_on_world {H A} (f : World -> A * World) : C (CronState H) A :=
  fun s => let '(a, w) := f (cs_world s) in Some (a, mk_cron_state w (cs_rpc s) (cs_ctx s)).
Definition cs_emit {H} (fx : effect) : C (CronState H) unit := cs_on_world (fun w => (tt, emit fx w)).
Definition cs_set_ctx {H} (cx : WUKONG_CRON_CTX_T) (s : CronState H) : CronState H :=
  mk_cron_state (cs_world s) (cs_rpc s) cx.
Definition ctx_set_jobs (jobs : list WUKONG_CRON_JOB_T) (cx : WUKONG_CRON_CTX_T) : WUKONG_CRON_CTX_T :=
  mk_cron_ctx (cx_initialized cx) (cx_time_ready cx) (cx_in_timer_cb cx) (cx_next_job_seq cx)
    (cx_timer cx) jobs.
Definition ctx_set_in_cb (b : bool) (cx : WUKONG_CRON_CTX_T) : WUKONG_CRON_CTX_T :=
  mk_cron_ctx (cx_initialized cx) (cx_time_ready cx) b (cx_next_job_seq cx) (cx_timer cx) (cx_jobs cx).
Definition cs_mod_jobs {H} (f : list WUKONG_CRON_JOB_T -> list WUKONG_CRON_JOB_T) : C (CronState H) unit :=
  cmod (fun s => cs_set_ctx (ctx_set_jobs (f (cx_jobs (cs_ctx s))) (cs_ctx s)) s).

#[export] Instance cron_rpc_store {H} : RpcStore (CronState H) H := {
  rpc_entries := cs_rpc;
  rpc_set es s := mk_cron_state (cs_world s) es (cs_ctx s);
  rpc_alloc s := let '(b, w) := tal_alloc (cs_world s) in (b, mk_cron_state w (cs_rpc s) (cs_ctx s)) }.

(** ** Job descriptions

    Over any state with an allocator, so that the operations that run
    handlers can use it too. *)

Section Parse.
Context {W H : Type} `{RS : !RpcStore W H} `{JT : JsonText}.

(** Integer fields of a job description that are read with a default. *)
Definition json_flag (root : cJSON) (name : string) (dflt : bool) : bool :=
  match ty_cJSON_GetObjectItem root name with
  | Some (JNumber n) => negb (valueint n =? 0)
  | _ => dflt
  end.

Definition json_text (root : cJSON) (name : string) : option string :=
  match ty_cJSON_GetObjectItem root name with Some (JString s) => Some s | _ => None end.

Definition __job_parse_json (job_json : string) (auto_id : bool) : C W (OPERATE_RET * WUKONG_CRON_JOB_T) :=
  let fail rt := cret (rt, job_zero) in
  match ty_cJSON_Parse job_json with
  | Some (JObject fields) =>
      let root := JObject fields in
      let id := json_text root "id" in
      if negb (match id with Some _ => true | None => auto_id end) then fail OPRT_INVALID_PARM
      else
        let id := strtrunc WUKONG_CRON_JOB_ID_LEN (default "" id) in
        let name := strtrunc WUKONG_CRON_JOB_NAME_LEN (default "" (json_text root "name")) in
        let enabled := json_flag root "enabled" true in
        let once := json_flag root "once" false in
        match json_text root "cron" with
        | None => fail OPRT_INVALID_PARM
        | Some cron =>
            let cron_expr := strtrunc (WUKONG_CRON_EXPR_MAX_LEN - 1) cron in
            let* (rt, expr) := cpure (wukong_cron_expr_parse cron_expr) in
            if negb (rt =? OPRT_OK) then fail rt
            else
              match ty_cJSON_GetObjectItem root "request" with
              | Some (JObject req) =>
                  let* ok := alloc_ok (H := H) in
                  if negb ok then fail OPRT_MALLOC_FAILED
                  else cret (OPRT_OK, mk_job true enabled once id name cron_expr expr
                                        (Some (JObject req)) 0 0)
              | _ => fail OPRT_INVALID_PARM
              end
        end
  | _ => fail OPRT_INVALID_PARM
  end.

Context `{RI : !RpcInvoke W H}.

(** Work queue callback: run a queued request and drop the response. [None] is
    a NULL pointer, of the payload or of its text. *)
Definition __cron_job_worker (data : option (option string)) : C W unit :=
  match data with
  | None => cret tt
  | Some request_json =>
      match request_json with
      | None => cret tt
      | Some text => let* _ := wukong_cron_rpc_execute_string (H := H) (Some text) in cret tt
      end
  end.

(** Result: return code and the response text ([out]: the output pointer is
    not NULL). *)
Definition wukong_cron_job_execute (job_json : option string) (out : bool) : C W (OPERATE_RET * option string) :=
  match job_json with
  | None => cret (OPRT_INVALID_PARM, None)
  | Some job_json =>
      if negb out then cret (OPRT_INVALID_PARM, None)
      else
        let* (rt, job) := __job_parse_json job_json true in
        if negb (rt =? OPRT_OK) then cret (rt, None)
        else
          let* (rt, response) := wukong_cron_rpc_execute_json (H := H) (j_request job) in
          if negb (rt =? OPRT_OK) then cret (rt, None)
          else
            match response ≫= ty_cJSON_PrintUnformatted with
            | None => cret (OPRT_MALLOC_FAILED, None)
            | Some text => cret (OPRT_OK, Some text)
            end
  end.

End Parse.

Section Jobs.
Context `{TS : TimeService} `{JT : JsonText} {H : Type}.
Abbreviation M := (C (CronState H)).

Definition posix : M TIME_T := cs_on_world tal_time_get_posix.
Definition malloc : M bool := cs_on_world tal_alloc.
Definition oscall : M OPERATE_RET := cs_on_world os_call.

(** ** Helpers of the source *)

Definition __store_load : OPERATE_RET := OPRT_OK.
Definition __store_sync : OPERATE_RET := OPRT_OK.

Definition __job_reset (index : nat) : M unit := cs_mod_jobs (fun jobs => <[index := job_zero]> jobs).

(** [None] is the -1 of the source. *)
Definition __job_find_index (jobs : list WUKONG_CRON_JOB_T) (job_id : string) : option nat :=
  fst <$> list_find (fun j => j_used j = true /\ j_id j = job_id) jobs.

Definition __job_alloc_index (jobs : list WUKONG_CRON_JOB_T) : option nat :=
  fst <$> list_find (fun j => j_used j = false) jobs.

(** Recompute [next_fire_ts] of the job in slot [index]. *)
Definition __job_compute_next_fire (index : nat) : M OPERATE_RET :=
  let* cx := cget cs_ctx in
  match cx_jobs cx !! index with
  | None => fun _ => None
  | Some job =>
      let* _ := cs_mod_jobs (fun jobs => <[index := job_set_next 0 job]> jobs) in
      if negb (cx_time_ready cx) || negb (j_used job) || negb (j_enabled job) then cret OPRT_OK
      else
        let* now := posix in
        let* (rt, ts) := cpure (wukong_cron_expr_next_fire (j_expr job) now) in
        let* _ := cs_mod_jobs (fun jobs => <[index := job_set_next ts job]> jobs) in
        cret rt
  end.

(** The earliest [next_fire_ts] of the enabled jobs, 0 when there is none. *)
Fixpoint nearest_fire (jobs : list WUKONG_CRON_JOB_T) (next_fire_ts : TIME_T) : TIME_T :=
  match jobs with
  | [] => next_fire_ts
  | j :: jobs =>
      if negb (j_used j) || negb (j_enabled j) || (j_next_fire_ts j <=? 0) then nearest_fire jobs next_fire_ts
      else if (next_fire_ts =? 0) || (j_next_fire_ts j <? next_fire_ts)
           then nearest_fire jobs (j_next_fire_ts j)
           else nearest_fire jobs next_fire_ts
  end.

(** The delay handed to the timer: unsigned 32-bit milliseconds, at least 1. *)
Definition timer_delay (next_fire_ts now : TIME_T) : Z :=
  let delay_ms := if next_fire_ts <=? now then 1 else u32 ((next_fire_ts - now) * 1000) in
  if delay_ms =? 0 then 1 else delay_ms.

Definition __cron_reschedule_locked : M OPERATE_RET :=
  let* now := posix in
  let* cx := cget cs_ctx in
  if negb (cx_timer cx) then cret OPRT_OK
  else
    let* _ := (if cx_in_timer_cb cx then cret tt else cs_emit FxTimerStop) in
    if negb (cx_time_ready cx) then cret OPRT_OK
    else
      let next_fire_ts := nearest_fire (cx_jobs cx) 0 in
      if next_fire_ts =? 0 then cret OPRT_OK
      else
        let* _ := cs_emit (FxTimerStart (timer_delay next_fire_ts now)) in
        oscall.

(** ** The timer callback *)

(** Hand one due job to the work queue: its request text, when it could be
    allocated, printed and queued. *)
Definition dispatch_job (job : WUKONG_CRON_JOB_T) : M unit :=
  let* ok := malloc in
  match ok, j_request job ≫= ty_cJSON_PrintUnformatted with
  | true, Some text =>
      let* rt := oscall in
      if rt =? OPRT_OK then cs_emit (FxWorkq text) else cret tt
  | _, _ => cret tt
  end.

Definition timer_cb_slot (now : TIME_T) (index : nat) : M unit :=
  let* cx := cget cs_ctx in
  match cx_jobs cx !! index with
  | None => fun _ => None
  | Some job =>
      if negb (j_used job) || negb (j_enabled job) || (j_next_fire_ts job <=? 0) || (now <? j_next_fire_ts job)
      then cret tt
      else
        let* _ := dispatch_job job in
        if j_once job then __job_reset index
        else
          let* _ := cs_mod_jobs (fun jobs => <[index := job_set_last now job]> jobs) in
          let* _ := __job_compute_next_fire index in
          cret tt
  end.

Fixpoint timer_cb_slots (now : TIME_T) (index n : nat) : M unit :=
  match n with
  | O => cret tt
  | S n => let* _ := timer_cb_slot now index in timer_cb_slots now (S index) n
  end.

Definition __cron_timer_cb : M unit :=
  let* now := posix in
  let* _ := cmod (fun s => cs_set_ctx (ctx_set_in_cb true (cs_ctx s)) s) in
  let* _ := timer_cb_slots now 0 WUKONG_CRON_MAX_JOBS in
  let* _ := __cron_reschedule_locked in
  cmod (fun s => cs_set_ctx (ctx_set_in_cb false (cs_ctx s)) s).

(** ** Public API *)

Definition wukong_cron_init : M OPERATE_RET :=
  let* cx := cget cs_ctx in
  if cx_initialized cx then cret OPRT_OK
  else
    let* _ := cmod (cs_set_ctx (mk_cron_ctx false false false 1 false (replicate WUKONG_CRON_MAX_JOBS job_zero))) in
    let* rt := wukong_cron_rpc_init (H := H) in
    if negb (rt =? OPRT_OK) then cret rt
    else
      let* rt := oscall in
      if negb (rt =? OPRT_OK) then let* _ := wukong_cron_rpc_deinit (H := H) in cret rt
      else
        let* _ := cmod (cs_set_ctx (mk_cron_ctx true false false 1 true (replicate WUKONG_CRON_MAX_JOBS job_zero))) in
        cret OPRT_OK.

Definition wukong_cron_deinit : M OPERATE_RET :=
  let* cx := cget cs_ctx in
  if negb (cx_initialized cx) then cret OPRT_OK
  else
    let* _ := cs_emit FxTimerStop in
    let* _ := cs_emit FxTimerDelete in
    let* _ := wukong_cron_rpc_deinit (H := H) in
    let* _ := cmod (cs_set_ctx cron_ctx_zero) in
    cret OPRT_OK.

Definition wukong_cron_method_register (method : option string) (handler : option H) : M OPERATE_RET :=
  wukong_cron_rpc_method_register method handler.

Definition wukong_cron_method_unregister (method : option string) : M OPERATE_RET :=
  wukong_cron_rpc_method_unregister (H := H) method.

(** Store a parsed job in slot [index] and schedule it; on failure the slot is
    cleared again. [k] is what follows. *)
Definition install_job {A} (index : nat) (job : WUKONG_CRON_JOB_T) (err : OPERATE_RET -> A) (k : M A) : M A :=
  let* _ := cs_mod_jobs (fun jobs => <[index := job]> jobs) in
  let* rt := __job_compute_next_fire index in
  if negb (rt =? OPRT_OK) then let* _ := __job_reset index in cret (err rt)
  else if negb (__store_sync =? OPRT_OK) then let* _ := __job_reset index in cret (err __store_sync)
  else k.

(** Result: return code and the id written to the caller's buffer ([job_id]:
    its length, [None] for a NULL pointer). *)
Definition wukong_cron_job_add (job_json : option string) (job_id : option nat) : M (OPERATE_RET * string) :=
  match job_json, job_id with
  | None, _ | _, None => cret (OPRT_INVALID_PARM, "")
  | Some job_json, Some job_id_len =>
      if (job_id_len =? 0)%nat then cret (OPRT_INVALID_PARM, "")
      else
        let* (rt, job) := __job_parse_json (H := H) job_json true in
        if negb (rt =? OPRT_OK) then cret (rt, "")
        else
          let* cx := cget cs_ctx in
          let auto := String.eqb (j_id job) "" in
          let job := if auto then
              job_set_id (strtrunc WUKONG_CRON_JOB_ID_LEN ("cron-" ++ fmt_u (cx_next_job_seq cx))) job
            else job in
          let* _ := (if auto then
              cmod (cs_set_ctx (mk_cron_ctx (cx_initialized cx) (cx_time_ready cx) (cx_in_timer_cb cx)
                                  (u32 (cx_next_job_seq cx + 1)) (cx_timer cx) (cx_jobs cx)))
            else cret tt) in
          if negb auto && match __job_find_index (cx_jobs cx) (j_id job) with Some _ => true | None => false end
          then cret (OPRT_COM_ERROR, "")
          else
            match __job_alloc_index (cx_jobs cx) with
            | None => cret (OPRT_COM_ERROR, "")
            | Some index =>
                install_job index job (fun rt => (rt, ""))
                  (let* rt := __cron_reschedule_locked in
                   cret (rt, strtrunc (job_id_len - 1) (j_id job)))
            end
  end.

Definition wukong_cron_job_update (job_json : option string) : M OPERATE_RET :=
  match job_json with
  | None => cret OPRT_INVALID_PARM
  | Some job_json =>
      let* (rt, job) := __job_parse_json (H := H) job_json false in
      if negb (rt =? OPRT_OK) then cret rt
      else
        let* cx := cget cs_ctx in
        match __job_find_index (cx_jobs cx) (j_id job) with
        | None => cret OPRT_NOT_FOUND
        | Some index => install_job index job id __cron_reschedule_locked
        end
  end.

Definition wukong_cron_job_remove (job_id : option string) : M OPERATE_RET :=
  match job_id with
  | None => cret OPRT_INVALID_PARM
  | Some job_id =>
      let* cx := cget cs_ctx in
      match __job_find_index (cx_jobs cx) job_id with
      | None => cret OPRT_NOT_FOUND
      | Some index =>
          let* _ := __job_reset index in
          if negb (__store_sync =? OPRT_OK) then cret __store_sync else __cron_reschedule_locked
      end
  end.

Definition bool_num (b : bool) : cJSON := JNumber (if b then 1 else 0).

(** The array of job objects of the listing. *)
Fixpoint job_list_items (jobs : list WUKONG_CRON_JOB_T) (acc : list cJSON) : M (list cJSON) :=
  match jobs with
  | [] => cret acc
  | j :: jobs =>
      if negb (j_used j) then job_list_items jobs acc
      else
        let* ok := malloc in
        if negb ok then job_list_items jobs acc
        else
          let* item := add_field (H := H) (JObject []) "id" (JString (j_id j)) in
          let* item := add_field (H := H) item "name" (JString (j_name j)) in
          let* item := add_field (H := H) item "enabled" (bool_num (j_enabled j)) in
          let* item := add_field (H := H) item "once" (bool_num (j_once j)) in
          let* item := add_field (H := H) item "cron" (JString (j_cron_expr j)) in
          let* item := add_field (H := H) item "next_fire_ts" (JNumber (i32 (j_next_fire_ts j))) in
          let* item := add_field (H := H) item "last_fire_ts" (JNumber (i32 (j_last_fire_ts j))) in
          job_list_items jobs (acc ++ [item])%list
  end.

Definition wukong_cron_job_list (job_list_json : bool) : M (OPERATE_RET * option string) :=
  if negb job_list_json then cret (OPRT_INVALID_PARM, None)
  else
  let* ok1 := malloc in
  let* ok2 := malloc in
  if negb (ok1 && ok2) then cret (OPRT_MALLOC_FAILED, None)
  else
    let* cx := cget cs_ctx in
    let* items := job_list_items (cx_jobs cx) [] in
    let* root := add_field (H := H) (JObject []) "jobs" (JArray items) in
    match ty_cJSON_PrintUnformatted root with
    | None => cret (OPRT_MALLOC_FAILED, None)
    | Some text => cret (OPRT_OK, Some text)
    end.

(** Recompute every used job from slot [index] on, stopping at the first error. *)
Fixpoint notify_slots (index n : nat) : M OPERATE_RET :=
  match n with
  | O => __cron_reschedule_locked
  | S n =>
      let* cx := cget cs_ctx in
      match cx_jobs cx !! index with
      | None => fun _ => None
      | Some job =>
          if negb (j_used job) then notify_slots (S index) n
          else
            let* rt := __job_compute_next_fire index in
            if negb (rt =? OPRT_OK) then cret rt else notify_slots (S index) n
      end
  end.

Definition wukong_cron_time_ready_notify : M OPERATE_RET :=
  let* cx := cget cs_ctx in
  let* _ := cmod (cs_set_ctx (mk_cron_ctx (cx_initialized cx) true (cx_in_timer_cb cx)
                                (cx_next_job_seq cx) (cx_timer cx) (cx_jobs cx))) in
  notify_slots 0 WUKONG_CRON_MAX_JOBS.

End Jobs.
