(* ===== verification/CronJobsInv.v ===== *)
(** The job table of [CronJobs]: its invariant, and what each helper of the
    service does to it. *)
From stdpp Require Import gmap strings fin_maps.
From S2P Require Import Prelude.
From S2P Require Import Calendar.
From S2P Require Import CStr.
From S2P Require Import CronField.
From S2P Require Import CronParse.
From S2P Require Import CronNext.
From S2P Require Import CronNextCorrect.
From S2P Require Import World.
From S2P Require Import Slots.
From S2P Require Import Json.
From S2P Require Import CronRpc.
From S2P Require Import CronJobs.

#[local] Open Scope string_scope.
#[local] Open Scope Z_scope.

(** ** The environment of a call *)

(** The oracles of the environment, unchanged by every operation. *)
Definition same_env (w w' : World) : Prop :=
  w_clock w' = w_clock w /\ w_heap w' = w_heap w /\ w_os w' = w_os w.

#[export] Instance same_env_preorder : PreOrder same_env.
Proof. split; [by intros w | intros a b c (?&?&?) (?&?&?); split_and!; congruence]. Qed.

Create HintDb cron.
#[export] Hint Extern 1 (same_env _ _) => reflexivity : cron.

(** Every clock reading leaves room for the next-fire search. *)
Definition clock_ok (w : World) : Prop := forall n, search_room (w_clock w n).

Lemma clock_ok_env w w' : same_env w w' -> clock_ok w -> clock_ok w'.
Proof. intros (Hc & _ & _) H n. rewrite Hc. apply H. Qed.

(** ** The table as a map from job id to job *)

Definition job_kv (j : WUKONG_CRON_JOB_T) : option (string * WUKONG_CRON_JOB_T) :=
  if j_used j then Some (j_id j, j) else None.
Definition jobs_map : list WUKONG_CRON_JOB_T -> gmap string WUKONG_CRON_JOB_T := slots_map job_kv.
Definition ids_distinct : list WUKONG_CRON_JOB_T -> Prop := slots_distinct job_kv.

Lemma job_kv_Some j k v : job_kv j = Some (k, v) <-> j_used j = true /\ k = j_id j /\ v = j.
Proof. unfold job_kv. destruct (j_used j); split; [intros [= <- <-]; done | intros (_ & -> & ->); done | done | by intros []]. Qed.

Section Inv.
Context `{TS : TimeService} `{JT : JsonText} {H : Type}.
Abbreviation M := (C (CronState H)).
Implicit Types (s : CronState H) (cx : WUKONG_CRON_CTX_T).

(** ** Invariant *)

(** A stored job: what its texts and masks are, and a pending firing time is
    one at which the job does fire. *)
Record job_wf (time_ready : bool) (j : WUKONG_CRON_JOB_T) : Prop := {
  jw_used : j_used j = true;
  jw_id : j_id j <> "";
  jw_expr : wukong_cron_expr_parse (j_cron_expr j) = Some (OPRT_OK, j_expr j);
  jw_request : exists fields, j_request j = Some (JObject fields);
  jw_next : j_next_fire_ts j <> 0 ->
    time_ready = true /\ j_enabled j = true /\ 0 < j_next_fire_ts j /\
    fires_at (j_expr j) (j_next_fire_ts j) = true }.

Definition slot_wf (time_ready : bool) (j : WUKONG_CRON_JOB_T) : Prop := j = job_zero \/ job_wf time_ready j.

Record ctx_wf cx : Prop := {
  cw_length : length (cx_jobs cx) = WUKONG_CRON_MAX_JOBS;
  cw_slot : Forall (slot_wf (cx_time_ready cx)) (cx_jobs cx);
  cw_timer : cx_timer cx = cx_initialized cx;
  cw_seq : is_u32 (cx_next_job_seq cx) }.

Lemma slot_wf_ready r j : slot_wf r j -> slot_wf true j.
Proof.
  intros [->|[]]; [by left | right]. split; try done. intros Hn. destruct (jw_next0 Hn) as (_ & ?). done.
Qed.

Lemma ctx_wf_set_jobs cx jobs :
  ctx_wf cx -> length jobs = WUKONG_CRON_MAX_JOBS -> Forall (slot_wf (cx_time_ready cx)) jobs ->
  ctx_wf (ctx_set_jobs jobs cx).
Proof. intros [] ? ?. by split. Qed.

Lemma ctx_wf_insert cx i j :
  ctx_wf cx -> slot_wf (cx_time_ready cx) j -> ctx_wf (ctx_set_jobs (<[i := j]> (cx_jobs cx)) cx).
Proof.
  intros Hcx Hj. apply ctx_wf_set_jobs; [done | | ].
  - rewrite length_insert. apply Hcx.
  - apply Forall_insert; [apply Hcx | done].
Qed.

Lemma ctx_wf_lookup cx i j : ctx_wf cx -> cx_jobs cx !! i = Some j -> slot_wf (cx_time_ready cx) j.
Proof. intros Hcx Hi. by eapply Forall_lookup_1; [apply Hcx|]. Qed.

Lemma ctx_wf_slot cx i : ctx_wf cx -> (i < WUKONG_CRON_MAX_JOBS)%nat -> is_Some (cx_jobs cx !! i).
Proof. intros Hcx Hi. apply lookup_lt_is_Some. by rewrite (cw_length _ Hcx). Qed.

Lemma slot_wf_used r j : slot_wf r j -> j_used j = true -> job_wf r j.
Proof. by intros [->|Hj]. Qed.

(** ** Helpers *)

(** The state with another world and job table. *)
Definition with_jobs (w : World) (jobs : list WUKONG_CRON_JOB_T) s : CronState H :=
  mk_cron_state w (cs_rpc s) (ctx_set_jobs jobs (cs_ctx s)).

(** What recomputing a job's firing time at clock reading [now] gives. *)
Definition refresh_spec (time_ready : bool) (job : WUKONG_CRON_JOB_T) (now : TIME_T) (rt : OPERATE_RET)
    (ts : TIME_T) : Prop :=
  if time_ready && j_used job && j_enabled job then next_fire_spec (j_expr job) now (rt, ts)
  else rt = OPRT_OK /\ ts = 0.

Definition with_world (w : World) s : CronState H := mk_cron_state w (cs_rpc s) (cs_ctx s).

(** A job that waits for a firing time. *)
Definition pending (j : WUKONG_CRON_JOB_T) : bool :=
  j_used j && j_enabled j && (0 <? j_next_fire_ts j).

(** The effects (newest first) and result of re-arming the timer at clock
    reading [now], [os] being what starting it would return: it is stopped
    unless its own callback runs, and started for the earliest pending job,
    never later than that job is due. *)
Inductive rearms cx (now : TIME_T) (os : OPERATE_RET) : list effect -> OPERATE_RET -> Prop :=
| rearms_none : cx_timer cx = false -> rearms cx now os [] OPRT_OK
| rearms_idle :
    cx_timer cx = true ->
    (cx_time_ready cx = true -> Forall (fun j => pending j = false) (cx_jobs cx)) ->
    rearms cx now os (if cx_in_timer_cb cx then [] else [FxTimerStop]) OPRT_OK
| rearms_start j d :
    cx_timer cx = true -> cx_time_ready cx = true ->
    j ∈ cx_jobs cx -> pending j = true ->
    Forall (fun j' => pending j' = true -> j_next_fire_ts j <= j_next_fire_ts j') (cx_jobs cx) ->
    1 <= d <= Z.max 1 (1000 * (j_next_fire_ts j - now)) ->
    (0 < 1000 * (j_next_fire_ts j - now) < 2 ^ 32 -> d = 1000 * (j_next_fire_ts j - now)) ->
    rearms cx now os (FxTimerStart d :: if cx_in_timer_cb cx then [] else [FxTimerStop]) os.

Lemma nearest_fire_spec jobs acc : 0 <= acc ->
  (nearest_fire jobs acc = 0 /\ acc = 0 /\ Forall (fun j => pending j = false) jobs) \/
  (0 < nearest_fire jobs acc /\
   (nearest_fire jobs acc = acc \/ exists j, j ∈ jobs /\ pending j = true /\ j_next_fire_ts j = nearest_fire jobs acc) /\
   (0 < acc -> nearest_fire jobs acc <= acc) /\
   Forall (fun j => pending j = true -> nearest_fire jobs acc <= j_next_fire_ts j) jobs).
Proof.
  revert acc. induction jobs as [|j jobs IH]; intros acc Hacc; cbn [nearest_fire].
  - destruct (Z.eq_dec acc 0); [left | right]; split_and!; try done; try lia.
  - assert (Hp : pending j = negb (negb (j_used j) || negb (j_enabled j) || (j_next_fire_ts j <=? 0))).
    { unfold pending. rewrite Z.leb_antisym. by destruct (j_used j), (j_enabled j), (0 <? _). }
    destruct (negb (j_used j) || _ || _) eqn:Hg.
    + assert (Hno : pending j = false) by (rewrite Hp; done).
      destruct (IH acc Hacc) as [(? & ? & ?)|(? & Hex & ? & ?)]; [left; by eauto|]. right.
      split_and!; [done | | done | constructor; [congruence|done]].
      destruct Hex as [?|(j' & ? & ?)]; [by left|]. right. exists j'. split; [by right | done].
    + assert (Hj : 0 < j_next_fire_ts j) by lia.
      destruct ((acc =? 0) || (j_next_fire_ts j <? acc)) eqn:Hlt.
      * destruct (IH (j_next_fire_ts j)) as [(? & ? & ?)|(? & Hex & ? & ?)]; [lia..|]. right.
        split_and!; [done | | lia | by constructor; [lia|]]. right.
        destruct Hex as [?|(j' & ? & ?)]; [exists j; by repeat constructor|].
        exists j'. split; [by right | done].
      * destruct (IH acc Hacc) as [(? & ? & ?)|(? & Hex & ? & ?)]; [lia|]. right.
        split_and!; [done | | done | constructor; [lia | done]].
        destruct Hex as [?|(j' & ? & ?)]; [by left|]. right. exists j'. split; [by right | done].
Qed.

Lemma timer_delay_bound next now :
  1 <= timer_delay next now <= Z.max 1 (1000 * (next - now)) /\
  (0 < 1000 * (next - now) < 2 ^ 32 -> timer_delay next now = 1000 * (next - now)).
Proof.
  unfold timer_delay. pose proof (u32_range ((next - now) * 1000)) as Hr. unfold is_u32 in Hr.
  destruct (Z.leb_spec next now); [cbn; lia|].
  assert (u32 ((next - now) * 1000) <= (next - now) * 1000) by (apply Z.mod_le; lia).
  destruct (Z.eqb_spec (u32 ((next - now) * 1000)) 0) as [Hz|Hz]; (split; [lia|]); intros Hs;
    rewrite u32_id in * by (unfold is_u32; lia); lia.
Qed.

Lemma reschedule_wp s :
  wp __cron_reschedule_locked (fun rt s' => exists w fx,
    s' = with_world w s /\ same_env (cs_world s) w /\ w_trace w = (fx ++ w_trace (cs_world s))%list /\
    w_reads w = S (w_reads (cs_world s)) /\
    rearms (cs_ctx s) (w_clock (cs_world s) (w_reads (cs_world s)))
      (w_os (cs_world s) (w_calls (cs_world s))) fx rt) s.
Proof.
  unfold __cron_reschedule_locked. set (now := w_clock _ _). wp_step.
  unfold wp at 1, posix, cs_on_world. cbn [tal_time_get_posix]. fold now. wp_steps. cbn [cs_ctx].
  destruct (cx_timer (cs_ctx s)) eqn:Ht; cbn [negb].
  2:{ wp_step. eexists _, []. split_and!; try done. by constructor. }
  set (stops := if cx_in_timer_cb (cs_ctx s) then [] else [FxTimerStop]).
  wp_step. eapply (wp_intro _ _ _ tt (with_world (mk_world (w_clock (cs_world s)) (S (w_reads (cs_world s)))
    (w_heap (cs_world s)) (w_allocs (cs_world s)) (w_os (cs_world s)) (w_calls (cs_world s))
    (stops ++ w_trace (cs_world s))%list) s)).
  { subst stops. by destruct (cx_in_timer_cb (cs_ctx s)). }
  destruct (cx_time_ready (cs_ctx s)) eqn:Hr; cbn [negb].
  2:{ wp_step. eexists _, stops. split_and!; try done. constructor; [done|]. congruence. }
  destruct (nearest_fire_spec (cx_jobs (cs_ctx s)) 0) as [(-> & _ & Hno)|(Hpos & Hex & _ & Hmin)]; [lia|..].
  { rewrite Z.eqb_refl. wp_step. eexists _, stops. split_and!; try done. by constructor. }
  destruct Hex as [?|(j & Hj & Hpend & Hn)]; [lia|].
  destruct (Z.eqb_spec (nearest_fire (cx_jobs (cs_ctx s)) 0) 0); [lia|]. wp_step.
  unfold wp at 1. cbn [cs_emit cs_on_world emit]. eapply wp_intro; [reflexivity|]. cbv beta.
  eexists _, (_ :: stops). split_and!; try done. cbn [cs_world with_world w_os w_calls].
  rewrite <- Hn in *. destruct (timer_delay_bound (j_next_fire_ts j) now).
  by apply (rearms_start _ _ _ j).
Qed.

Context `{FZ : !FixedZone off mkoff}.

Lemma refresh_wf r j now rt ts last :
  job_wf r j -> 0 <= now -> refresh_spec r j now rt ts -> job_wf r (job_set_next ts (job_set_last last j)).
Proof.
  intros [Hu Hid He Hq Hn] Hnow Hr. split; try done. cbn. intros Hts. unfold refresh_spec in Hr.
  rewrite Hu, andb_true_r in Hr. destruct r; cbn in Hr; [|tauto].
  destruct (j_enabled j); cbn in Hr; [|tauto].
  destruct Hr as [(_ & Hb & Hf & _)|[[= _ ?] _]]; [|done]. cbn in Hb. repeat split; try done. lia.
Qed.

Lemma job_set_last_id j : job_set_last (j_last_fire_ts j) j = j.
Proof. by destruct j. Qed.

Lemma refresh_slot r j now rt ts :
  slot_wf r j -> 0 <= now -> refresh_spec r j now rt ts -> slot_wf r (job_set_next ts j).
Proof.
  intros [->|Hj] Hnow Hr.
  - left. unfold refresh_spec in Hr. cbn in Hr. rewrite andb_false_r in Hr. destruct Hr as [_ ->]. done.
  - right. rewrite <- (job_set_last_id j). by eapply refresh_wf.
Qed.

Lemma compute_next_fire_wp s i job :
  clock_ok (cs_world s) -> cx_jobs (cs_ctx s) !! i = Some job ->
  (j_used job = true -> expr_wf (j_expr job)) ->
  wp (__job_compute_next_fire i) (fun rt s' => exists w ts,
    s' = with_jobs w (<[i := job_set_next ts job]> (cx_jobs (cs_ctx s))) s /\
    same_env (cs_world s) w /\ w_trace w = w_trace (cs_world s) /\ w_calls w = w_calls (cs_world s) /\
    w_allocs w = w_allocs (cs_world s) /\ (w_reads (cs_world s) <= w_reads w)%nat /\
    refresh_spec (cx_time_ready (cs_ctx s)) job (w_clock (cs_world s) (w_reads (cs_world s))) rt ts) s.
Proof.
  intros Hclk Hi Hwf. unfold __job_compute_next_fire. wp_steps. rewrite Hi. unfold cs_mod_jobs. wp_steps. cbn [cs_ctx cs_set_ctx].
  unfold refresh_spec.
  destruct (negb (cx_time_ready (cs_ctx s)) || negb (j_used job) || negb (j_enabled job)) eqn:Hg.
  - wp_steps. exists (cs_world s), 0. split_and!; try done.
    destruct (cx_time_ready (cs_ctx s)), (j_used job), (j_enabled job); done.
  - rewrite !orb_false_iff, !negb_false_iff in Hg. destruct Hg as ((-> & Hu) & He).
    rewrite Hu, He. cbn [andb]. wp_step. unfold wp at 1, posix, cs_on_world. cbn [cs_world cs_set_ctx tal_time_get_posix].
    wp_step. destruct (next_fire_search (j_expr job) (w_clock (cs_world s) (w_reads (cs_world s))))
      as ([rt ts] & Hf & Hs); [by apply Hwf | apply Hclk |].
    eapply wp_pure; [done|]. wp_steps.
    exists (snd (tal_time_get_posix (cs_world s))), ts. split; [|split_and!; first [exact Hs | done | cbn; lia]].
    unfold with_jobs. cbn. unfold ctx_set_jobs. cbn. by rewrite list_insert_insert_eq.
Qed.

(** ** Job descriptions *)

(** The job an object describes, not yet scheduled. *)
Record job_of (root : cJSON) (j : WUKONG_CRON_JOB_T) : Prop := {
  jo_used : j_used j = true;
  jo_enabled : j_enabled j = json_flag root "enabled" true;
  jo_once : j_once j = json_flag root "once" false;
  jo_id : j_id j = strtrunc WUKONG_CRON_JOB_ID_LEN (default "" (json_text root "id"));
  jo_name : j_name j = strtrunc WUKONG_CRON_JOB_NAME_LEN (default "" (json_text root "name"));
  jo_cron : Some (j_cron_expr j) = strtrunc (WUKONG_CRON_EXPR_MAX_LEN - 1) <$> json_text root "cron";
  jo_expr : wukong_cron_expr_parse (j_cron_expr j) = Some (OPRT_OK, j_expr j);
  jo_request : j_request j = ty_cJSON_GetObjectItem root "request" /\ ty_cJSON_IsObject (j_request j) = true;
  jo_next : j_next_fire_ts j = 0;
  jo_last : j_last_fire_ts j = 0 }.

Definition describes (job_json : string) (auto_id : bool) (j : WUKONG_CRON_JOB_T) : Prop :=
  exists root, ty_cJSON_Parse job_json = Some root /\ ty_cJSON_IsObject (Some root) = true /\ job_of root j /\
    (auto_id = false -> is_Some (json_text root "id")).

(** The cron text of a description does not run into undefined behaviour. *)
Definition parse_defined (job_json : string) : Prop :=
  forall root cron, ty_cJSON_Parse job_json = Some root -> json_text root "cron" = Some cron ->
    wukong_cron_expr_parse (strtrunc (WUKONG_CRON_EXPR_MAX_LEN - 1) cron) <> None.

Lemma parse_json_wp s job_json auto_id :
  parse_defined job_json ->
  wp (__job_parse_json job_json auto_id) (fun r s' => exists w, s' = with_world w s /\
    same_env (cs_world s) w /\ w_trace w = w_trace (cs_world s) /\
    w_calls w = w_calls (cs_world s) /\ w_reads w = w_reads (cs_world s) /\
    (fst r = OPRT_OK -> describes job_json auto_id (snd r))) s.
Proof.
  intros Hdef. unfold __job_parse_json.
  assert (Hfail : forall rt, rt <> OPRT_OK ->
    wp (cret (rt, job_zero)) (fun r s' => exists w, s' = with_world w s /\ same_env (cs_world s) w /\
      w_trace w = w_trace (cs_world s) /\
      w_calls w = w_calls (cs_world s) /\ w_reads w = w_reads (cs_world s) /\ (fst r = OPRT_OK -> describes job_json auto_id (snd r))) s).
  { intros rt Hrt. wp_step. exists (cs_world s). by destruct s. }
  destruct (ty_cJSON_Parse job_json) as [[| | | | |fields]|] eqn:Hroot; try by apply Hfail.
  cbv zeta. set (root := JObject fields) in *.
  assert (Hid : negb (match json_text root "id" with Some _ => true | None => auto_id end) = false ->
    auto_id = false -> is_Some (json_text root "id"))
    by (destruct (json_text root "id"), auto_id; eauto; done).
  destruct (negb (match json_text root "id" with Some _ => _ | None => _ end)); [by apply Hfail|].
  specialize (Hid eq_refl).
  destruct (json_text root "cron") as [cron|] eqn:Hcron; [|by apply Hfail].
  wp_step. destruct (wukong_cron_expr_parse _) as [[rt expr]|] eqn:Hp; [|by destruct (Hdef root cron)].
  eapply wp_pure; [done|]. cbv beta iota. destruct (Z.eqb_spec rt OPRT_OK) as [->|Hrt]; cbn [negb]; [|by apply Hfail].
  destruct (ty_cJSON_GetObjectItem root "request") as [[| | | | |req]|] eqn:Hreq; try by apply Hfail.
  wp_step. unfold wp at 1, alloc_ok. cbn [rpc_alloc cron_rpc_store tal_alloc].
  destruct (w_heap _ _); cbn [negb]; wp_step; (eexists; split; [reflexivity|]; do 4 (split; [done|]));
    cbn [fst snd]; [|done]. intros _. exists root. split; [done|]. split; [done|].
  split; [|done]. split; cbn; try done; by rewrite ?Hcron, ?Hreq.
Qed.

End Inv.
