(* ===== verification/CronJobsApi.v ===== *)
(** The job API of the cron service against its contract: a bounded map from
    job id to job, with the timer armed for the earliest pending firing. *)
From stdpp Require Import gmap strings fin_maps.
From S2P Require Import Prelude.
From S2P Require Import Calendar.
From S2P Require Import CStr.
From S2P Require Import CronField.
From S2P Require Import CronParse.
From S2P Require Import CronNext.
From S2P Require Import CronNextCorrect.
From S2P Require Import World.
From S2P Require Import Slots.
From S2P Require Import Json.
From S2P Require Import CronRpc.
From S2P Require Import CronJobs.
From S2P Require Import CronJobsInv.

#[local] Open Scope string_scope.
#[local] Open Scope Z_scope.

Section Api.
Context `{TS : TimeService} `{JT : JsonText} {H : Type} `{FZ : !FixedZone off mkoff}.
Implicit Types (s : CronState H) (cx : WUKONG_CRON_CTX_T).
Abbreviation jobs_of s := (cx_jobs (cs_ctx s)).
Abbreviation table s := (jobs_map (cx_jobs (cs_ctx s))).

(** The state between calls: a well-formed table and a usable clock. *)
Record cron_inv s : Prop := {
  ci_ctx : ctx_wf (cs_ctx s);
  ci_clock : clock_ok (cs_world s);
  ci_cb : cx_in_timer_cb (cs_ctx s) = false }.

Lemma describes_wf json auto_id j r id :
  describes json auto_id j -> id <> "" -> job_wf r (job_set_id id j).
Proof.
  intros (root & _ & _ & [? ? ? ? ? ? ? [_ Ho] Hn ?] & _) Hid. split; try done. cbn.
  destruct (j_request j) as [[| | | | |f]|]; [done..|by exists f|done].
Qed.

Lemma cron_inv_jobs s w i j : cron_inv s -> same_env (cs_world s) w ->
  slot_wf (cx_time_ready (cs_ctx s)) j -> cron_inv (with_jobs w (<[i := j]> (jobs_of s)) s).
Proof.
  intros [Hc Hk Hb] Hw Hj. split; [by apply ctx_wf_insert | by eapply clock_ok_env | done].
Qed.

Lemma cron_inv_world s w : cron_inv s -> same_env (cs_world s) w -> cron_inv (with_world w s).
Proof. intros [Hc Hk Hb] Hw. split; [done | by eapply clock_ok_env | done]. Qed.

(** Storing job [job] into slot [i] and scheduling it. *)
Lemma install_wp {A} s i job (err : OPERATE_RET -> A) (k : C (CronState H) A) (Q : A -> CronState H -> Prop) :
  cron_inv s -> (i < WUKONG_CRON_MAX_JOBS)%nat -> job_wf (cx_time_ready (cs_ctx s)) job ->
  (forall w, same_env (cs_world s) w -> w_trace w = w_trace (cs_world s) ->
     cx_time_ready (cs_ctx s) = true -> j_enabled job = true ->
     next_fire_spec (j_expr job) (w_clock (cs_world s) (w_reads (cs_world s))) (OPRT_INVALID_PARM, 0) ->
     Q (err OPRT_INVALID_PARM) (with_jobs w (<[i := job_zero]> (jobs_of s)) s)) ->
  (forall w ts, same_env (cs_world s) w -> w_trace w = w_trace (cs_world s) ->
     w_calls w = w_calls (cs_world s) ->
     refresh_spec (cx_time_ready (cs_ctx s)) job (w_clock (cs_world s) (w_reads (cs_world s))) OPRT_OK ts ->
     wp k Q (with_jobs w (<[i := job_set_next ts job]> (jobs_of s)) s)) ->
  wp (install_job i job err k) Q s.
Proof.
  intros Hinv Hi Hjob Herr Hok. unfold install_job, cs_mod_jobs. wp_steps.
  set (s1 := cs_set_ctx _ s). eapply wp_mono.
  { apply (compute_next_fire_wp s1 i job); [apply Hinv | | intros _; eapply expr_parse_wf, Hjob].
    apply list_lookup_insert_eq. by rewrite (cw_length _ (ci_ctx _ Hinv)). }
  cbn [cs_ctx cs_world s1 cs_set_ctx cx_jobs cx_time_ready ctx_set_jobs].
  intros rt s2 (w & ts & -> & Hw & Htr & Hcalls & _ & _ & Hr). rewrite list_insert_insert_eq.
  destruct (Z.eqb_spec rt OPRT_OK) as [->|Hrt]; cbn [negb].
  - by apply Hok.
  - wp_step. unfold __job_reset, cs_mod_jobs. wp_steps. unfold refresh_spec in Hr.
    rewrite (jw_used _ _ Hjob), andb_true_r in Hr.
    destruct (cx_time_ready (cs_ctx s)) eqn:Hready; cbn [andb] in Hr; [|tauto].
    destruct (j_enabled job) eqn:Hen; cbn [andb] in Hr; [|tauto].
    destruct Hr as [[? _]|[Hr Hno]]; [done|]. injection Hr as -> ->.
    unfold cs_set_ctx, with_jobs. cbn. unfold ctx_set_jobs. cbn. rewrite list_insert_insert_eq.
    apply Herr; try done. by right.
Qed.

Lemma find_job_Some s id i : __job_find_index (jobs_of s) id = Some i ->
  exists j, jobs_of s !! i = Some j /\ j_used j = true /\ j_id j = id.
Proof. intros Hf. apply find_index_Some in Hf as (j & ? & ? & ?). eauto. Qed.

Lemma find_job_None s id : ids_distinct (jobs_of s) ->
  __job_find_index (jobs_of s) id = None -> table s !! id = None.
Proof.
  intros Hd Hf. apply slots_map_None; [|done]. intros i j v Hi (Hu & -> & ->)%job_kv_Some.
  by apply (find_index_None _ _ Hf i j).
Qed.

Lemma find_job_map s id i : ids_distinct (jobs_of s) ->
  __job_find_index (jobs_of s) id = Some i -> is_Some (table s !! id).
Proof.
  intros Hd Hf. apply find_job_Some in Hf as (j & Hi & Hu & <-). exists j.
  apply slots_map_lookup; [done|]. exists i, j. split; [done|]. by apply job_kv_Some.
Qed.

(** Overwriting the slot of job [id], or a free slot when there is none. *)
Lemma store_job s i id job :
  ids_distinct (jobs_of s) -> (i < length (jobs_of s))%nat ->
  j_used job = true -> j_id job = id ->
  (__job_find_index (jobs_of s) id = Some i \/
   __job_alloc_index (jobs_of s) = Some i /\ table s !! id = None) ->
  ids_distinct (<[i := job]> (jobs_of s)) /\ jobs_map (<[i := job]> (jobs_of s)) = <[id := job]> (table s).
Proof.
  intros Hd Hi Hu Hid Hcase. apply (slots_store job_kv); [done|done|by apply job_kv_Some| |].
  - intros j b v Hj Hl (Hub & -> & ->)%job_kv_Some. destruct Hcase as [Hf|[_ Hn]].
    + apply find_job_Some in Hf as (j' & Hl' & Hu' & Hid').
      apply Hj, (Hd j i b j' (j_id b) b j'); [done|done| |]; apply job_kv_Some; split_and!; congruence.
    + assert (table s !! j_id b = Some b); [|congruence].
      apply slots_map_lookup; [done|]. exists j, b. split; [done|]. by apply job_kv_Some.
  - intros b k v Hl (Hub & -> & ->)%job_kv_Some. destruct Hcase as [Hf|[Hf _]].
    + apply find_job_Some in Hf as (j' & Hl' & Hu' & Hid'). congruence.
    + apply find_index_Some in Hf as (j' & Hl' & Hu'). congruence.
Qed.

Lemma clear_job s i id :
  ids_distinct (jobs_of s) -> __job_find_index (jobs_of s) id = Some i ->
  ids_distinct (<[i := job_zero]> (jobs_of s)) /\ jobs_map (<[i := job_zero]> (jobs_of s)) = delete id (table s).
Proof.
  intros Hd Hf. apply find_job_Some in Hf as (j & Hi & Hu & <-).
  eapply (slots_clear job_kv); [done | exact Hi | by apply job_kv_Some | done].
Qed.

Lemma clear_free s i :
  ctx_wf (cs_ctx s) -> ids_distinct (jobs_of s) -> __job_alloc_index (jobs_of s) = Some i ->
  ids_distinct (<[i := job_zero]> (jobs_of s)) /\ jobs_map (<[i := job_zero]> (jobs_of s)) = table s.
Proof.
  intros Hwf Hd Hf. apply find_index_Some in Hf as (j & Hi & Hu).
  eapply (slots_same job_kv); [done | exact Hi | unfold job_kv; by rewrite Hu].
Qed.

Lemma alloc_full s : ctx_wf (cs_ctx s) -> ids_distinct (jobs_of s) ->
  __job_alloc_index (jobs_of s) = None -> size (table s) = WUKONG_CRON_MAX_JOBS.
Proof.
  intros Hwf Hd Hf. rewrite <- (cw_length _ Hwf). apply slots_map_size; [|done].
  intros i j Hi. exists (j_id j, j). apply job_kv_Some. split_and!; [|done..].
  apply not_false_is_true. by apply (find_index_None _ _ Hf i j).
Qed.

Lemma alloc_lt s i : ctx_wf (cs_ctx s) -> __job_alloc_index (jobs_of s) = Some i -> (i < WUKONG_CRON_MAX_JOBS)%nat.
Proof.
  intros Hwf Hf. apply find_index_Some in Hf as (j & Hi & _). rewrite <- (cw_length _ Hwf).
  by eapply lookup_lt_Some.
Qed.

Lemma find_lt s id i : ctx_wf (cs_ctx s) -> __job_find_index (jobs_of s) id = Some i -> (i < WUKONG_CRON_MAX_JOBS)%nat.
Proof.
  intros Hwf Hf. apply find_job_Some in Hf as (j & Hi & _). rewrite <- (cw_length _ Hwf).
  by eapply lookup_lt_Some.
Qed.

(** ** Contracts *)

(** The clock reading the scheduling of a call uses: the next one. *)
Definition clock_now s : TIME_T := w_clock (cs_world s) (w_reads (cs_world s)).

(** The clock reading taken last. *)
Definition last_clock s : TIME_T := w_clock (cs_world s) (pred (w_reads (cs_world s))).

(** The last step of a successful call: the timer is re-armed for the table as
    it stands, and the call returns what starting the timer returned. *)
Definition rearmed s s' (rt : OPERATE_RET) : Prop :=
  exists fx, w_trace (cs_world s') = (fx ++ w_trace (cs_world s))%list /\
    rearms (cs_ctx s') (last_clock s') (w_os (cs_world s) (w_calls (cs_world s))) fx rt.

(** The job is enabled but does not fire in the search window. *)
Definition never_fires s (job : WUKONG_CRON_JOB_T) : Prop :=
  cx_time_ready (cs_ctx s) = true /\ j_enabled job = true /\
  next_fire_spec (j_expr job) (clock_now s) (OPRT_INVALID_PARM, 0).

(** The description is not one of a job, or could not be copied. *)
Definition not_a_job s json auto_id (rt : OPERATE_RET) : Prop :=
  exists j s1, __job_parse_json json auto_id s = Some ((rt, j), s1) /\ rt <> OPRT_OK.

Definition auto_job_id s : string := strtrunc WUKONG_CRON_JOB_ID_LEN ("cron-" ++ fmt_u (cx_next_job_seq (cs_ctx s))).

(** The id a new job gets: its own, or the next automatic one. *)
Definition assigned_id s (job : WUKONG_CRON_JOB_T) : string :=
  if String.eqb (j_id job) "" then auto_job_id s else j_id job.

(** Why adding a job is refused. *)
Inductive add_refused s json : OPERATE_RET -> Prop :=
| refused_json rt : not_a_job s json true rt -> add_refused s json rt
| refused_duplicate j : describes json true j -> is_Some (table s !! j_id j) -> add_refused s json OPRT_COM_ERROR
| refused_full : size (table s) = WUKONG_CRON_MAX_JOBS -> add_refused s json OPRT_COM_ERROR
| refused_never j : describes json true j -> never_fires s j -> add_refused s json OPRT_INVALID_PARM.

(** What adding a job may do, [n] being the size of the caller's buffer. *)
Inductive add_result s json (n : nat) s' : OPERATE_RET * string -> Prop :=
| add_error rt : add_refused s json rt -> table s' = table s -> w_trace (cs_world s') = w_trace (cs_world s) ->
    add_result s json n s' (rt, "")
| add_stored rt job id ts : describes json true job -> id = assigned_id s job -> table s !! id = None ->
    refresh_spec (cx_time_ready (cs_ctx s)) job (clock_now s) OPRT_OK ts ->
    table s' = <[id := job_set_next ts (job_set_id id job)]> (table s) -> rearmed s s' rt ->
    add_result s json n s' (rt, strtrunc (n - 1) id).

Lemma refresh_set_id r id job now rt ts :
  refresh_spec r (job_set_id id job) now rt ts <-> refresh_spec r job now rt ts.
Proof. done. Qed.

Lemma auto_job_id_nonempty s : auto_job_id s <> "".
Proof. unfold auto_job_id, WUKONG_CRON_JOB_ID_LEN. by rewrite app_String. Qed.

(** Re-arming ends a call in state [s1]. *)
Lemma rearm_wp s s1 (Q : OPERATE_RET -> CronState H -> Prop) :
  w_trace (cs_world s1) = w_trace (cs_world s) -> w_calls (cs_world s1) = w_calls (cs_world s) ->
  same_env (cs_world s) (cs_world s1) ->
  (forall rt w, same_env (cs_world s1) w -> rearmed s (with_world w s1) rt -> Q rt (with_world w s1)) ->
  wp __cron_reschedule_locked Q s1.
Proof.
  intros Htr Hcalls (_ & _ & Hos) HQ. eapply wp_mono; [apply reschedule_wp|].
  intros rt s' (w & fx & -> & Hw & Hfx & Hreads & Hr).
  apply HQ; [done|]. exists fx. rewrite <- Htr. split; [done|].
  unfold last_clock. cbn [cs_world with_world]. rewrite Hreads. destruct Hw as (-> & _).
  by rewrite Hos, Hcalls in Hr.
Qed.

(** The same at the level of slots, without assuming distinct ids. *)
Inductive add_slot s json (n : nat) s' : OPERATE_RET * string -> Prop :=
| slot_not_a_job rt : not_a_job s json true rt ->
    jobs_of s' = jobs_of s -> w_trace (cs_world s') = w_trace (cs_world s) -> add_slot s json n s' (rt, "")
| slot_duplicate j i : describes json true j -> __job_find_index (jobs_of s) (j_id j) = Some i ->
    jobs_of s' = jobs_of s -> w_trace (cs_world s') = w_trace (cs_world s) -> add_slot s json n s' (OPRT_COM_ERROR, "")
| slot_full : __job_alloc_index (jobs_of s) = None ->
    jobs_of s' = jobs_of s -> w_trace (cs_world s') = w_trace (cs_world s) -> add_slot s json n s' (OPRT_COM_ERROR, "")
| slot_never j i : describes json true j -> __job_alloc_index (jobs_of s) = Some i -> never_fires s j ->
    jobs_of s' = <[i := job_zero]> (jobs_of s) -> w_trace (cs_world s') = w_trace (cs_world s) ->
    add_slot s json n s' (OPRT_INVALID_PARM, "")
| slot_stored rt j i ts : describes json true j -> __job_alloc_index (jobs_of s) = Some i ->
    (j_id j <> "" -> __job_find_index (jobs_of s) (j_id j) = None) ->
    refresh_spec (cx_time_ready (cs_ctx s)) j (clock_now s) OPRT_OK ts ->
    jobs_of s' = <[i := job_set_next ts (job_set_id (assigned_id s j) j)]> (jobs_of s) -> rearmed s s' rt ->
    add_slot s json n s' (rt, strtrunc (n - 1) (assigned_id s j)).

(** The state once the id is settled: an automatic id uses up a number. *)
Definition numbered s (w : World) (auto : bool) : CronState H :=
  mk_cron_state w (cs_rpc s)
    (if auto then mk_cron_ctx (cx_initialized (cs_ctx s)) (cx_time_ready (cs_ctx s)) (cx_in_timer_cb (cs_ctx s))
                    (u32 (cx_next_job_seq (cs_ctx s) + 1)) (cx_timer (cs_ctx s)) (jobs_of s)
     else cs_ctx s).

Lemma numbered_inv s w auto : cron_inv s -> same_env (cs_world s) w ->
  cron_inv (numbered s w auto) /\ jobs_of (numbered s w auto) = jobs_of s /\
  cx_time_ready (cs_ctx (numbered s w auto)) = cx_time_ready (cs_ctx s).
Proof.
  intros [[] Hclk ?] Hw. pose proof (u32_range (cx_next_job_seq (cs_ctx s) + 1)).
  unfold numbered. destruct auto; (split; [split; [done|by eapply clock_ok_env|done]|done]).
Qed.

(** Installing the described job in the free slot [i], after [w] allocations. *)
Lemma add_install_wp s json n job i w auto :
  cron_inv s -> same_env (cs_world s) w -> w_trace w = w_trace (cs_world s) -> w_calls w = w_calls (cs_world s) ->
  w_reads w = w_reads (cs_world s) -> describes json true job ->
  (j_id job <> "" -> __job_find_index (jobs_of s) (j_id job) = None) ->
  __job_alloc_index (jobs_of s) = Some i ->
  wp (install_job i (job_set_id (assigned_id s job) job) (fun rt => (rt, ""))
        (let* rt := __cron_reschedule_locked in cret (rt, strtrunc (n - 1) (assigned_id s job))))
    (fun r s' => cron_inv s' /\ add_slot s json n s' r) (numbered s w auto).
Proof.
  intros Hinv Hw Htr Hcalls Hreads Hdesc Hnew Hfree.
  destruct (numbered_inv s w auto Hinv Hw) as (Hinv1 & Hjobs & Hready). set (s1 := numbered s w auto) in *.
  assert (Hclock : clock_now s1 = clock_now s) by (unfold clock_now; cbn; by rewrite (proj1 Hw), Hreads).
  assert (Hjob : forall r, job_wf r (job_set_id (assigned_id s job) job)).
  { intros r. eapply describes_wf; [done|]. unfold assigned_id.
    destruct (String.eqb_spec (j_id job) ""); [apply auto_job_id_nonempty | done]. }
  apply install_wp; [done | by eapply alloc_lt; [apply Hinv|] | done | |]; fold (clock_now s1); rewrite Hclock, Hjobs.
  - intros w2 Hw2 Htr2 Hr Hen Hnf.
    split; [rewrite <- Hjobs; by apply cron_inv_jobs; [..|left]|].
    apply (slot_never _ _ _ _ job i); [done|done| |done|by etrans].
    unfold never_fires. by rewrite <- Hready.
  - intros w2 ts Hw2 Htr2 Hcalls2 Href. rewrite Hready in Href. wp_step.
    apply (rearm_wp s); [by etrans..|]. intros rt w3 Hw3 Hre. wp_step.
    split; [|by apply (slot_stored _ _ _ _ _ job i ts)].
    apply cron_inv_world; [|done]. rewrite <- Hjobs. apply cron_inv_jobs; [done..|].
    eapply refresh_slot; [by right | | rewrite Hready; exact Href].
    pose proof (ci_clock _ Hinv (w_reads (cs_world s))) as Hroom. unfold search_room in Hroom. unfold clock_now. lia.
Qed.

Lemma job_add_wp s json n : cron_inv s -> parse_defined json ->
  wp (wukong_cron_job_add (Some json) (Some (S n))) (fun r s' => cron_inv s' /\ add_slot s json (S n) s' r) s.
Proof.
  intros Hinv Hdef. cbn [wukong_cron_job_add Nat.eqb]. wp_step.
  pose proof (parse_json_wp s json true Hdef) as Hparse. apply wp_elim in Hparse.
  destruct Hparse as ([rt job] & s1 & Hrun & w & -> & Hw & Htr & Hcalls & Hreads & Hdesc).
  apply (wp_intro _ _ _ _ _ Hrun). cbv beta iota. cbn [fst snd] in Hdesc.
  destruct (Z.eqb_spec rt OPRT_OK) as [->|Hrt]; cbn [negb].
  2:{ wp_step. split; [by apply cron_inv_world|]. apply slot_not_a_job; [by eexists _, _|done..]. }
  specialize (Hdesc eq_refl). wp_steps. cbn [cs_ctx with_world].
  fold (auto_job_id s). set (auto := String.eqb (j_id job) "").
  apply (wp_intro _ _ _ tt (numbered s w auto)); [by unfold numbered; destruct auto|].
  destruct (numbered_inv s w auto Hinv Hw) as (Hinv1 & Hjobs & Hready).
  replace (if auto then job_set_id (auto_job_id s) job else job) with (job_set_id (assigned_id s job) job)
    by (unfold assigned_id; fold auto; destruct auto; [done|by destruct job]).
  cbn [j_id job_set_id].
  destruct (negb auto && _) eqn:Hdup.
  - apply andb_true_iff in Hdup as [Ha Hf]. unfold assigned_id in Hf. fold auto in Hf. destruct auto; [done|].
    destruct (__job_find_index _ (j_id job)) as [i|] eqn:Hi; [|done].
    wp_step. split; [done|]. by apply (slot_duplicate _ _ _ _ job i).
  - destruct (__job_alloc_index (jobs_of s)) as [i|] eqn:Hfree; [|wp_step; split; [done|by apply slot_full]].
    apply add_install_wp; try done. intros Hid. unfold assigned_id in Hdup. fold auto in Hdup.
    destruct auto eqn:Ha; [by apply String.eqb_eq in Ha|]. by destruct (__job_find_index _ (j_id job)).
Qed.

(** C13. Adding a job refines insertion into a map of at most 16 jobs: the call
    either changes no job and says why, or stores exactly the described job
    under its own or the next automatic id, which was free, schedules it at
    its first firing time, and re-arms the timer; no other job changes. It
    never runs into undefined behaviour when parsing the cron text does not. *)
Theorem job_add_refines s json n :
  cron_inv s -> ids_distinct (jobs_of s) -> parse_defined json -> table s !! auto_job_id s = None ->
  exists r s', wukong_cron_job_add (Some json) (Some (S n)) s = Some (r, s') /\
    cron_inv s' /\ ids_distinct (jobs_of s') /\ add_result s json (S n) s' r.
Proof.
  intros Hinv Hd Hdef Hfresh. pose proof (job_add_wp s json n Hinv Hdef) as Hwp.
  apply wp_elim in Hwp as (r & s' & Hrun & Hinv' & Hslot). exists r, s'. split; [done|]. split; [done|].
  pose proof (ci_ctx _ Hinv) as Hwf.
  destruct Hslot as [rt Hnot Hj Htr|j i Hdesc Hf Hj Htr|Hfull Hj Htr|j i Hdesc Hfree Hnf Hj Htr
    |rt j i ts Hdesc Hfree Hnew Href Hj Hre]; rewrite Hj.
  - split; [done|]. apply add_error; [by apply refused_json|by rewrite Hj|done].
  - split; [done|]. apply add_error; [|by rewrite Hj|done]. eapply refused_duplicate; [done|by eapply find_job_map].
  - split; [done|]. apply add_error; [|by rewrite Hj|done]. by apply refused_full, alloc_full.
  - destruct (clear_free s i Hwf Hd Hfree) as [Hd' Hm']. split; [done|].
    apply add_error; [by eapply refused_never|by rewrite Hj|done].
  - assert (Hfree' : table s !! assigned_id s j = None).
    { unfold assigned_id. destruct (String.eqb_spec (j_id j) ""); [done|]. apply find_job_None; auto. }
    destruct (store_job s i (assigned_id s j) (job_set_next ts (job_set_id (assigned_id s j) j))) as [Hd' Hm'];
      [done | rewrite (cw_length _ Hwf); by eapply alloc_lt | by destruct Hdesc as (? & _ & _ & [] & _) | done | by right|].
    split; [done|]. eapply add_stored; [done|done|done|exact Href|by rewrite Hj|done].
Qed.

(** The automatic id is not checked against the table: when a job named
    like the next automatic id exists, a job added without an id shares that
    id with it, in another slot. *)
Theorem auto_id_collides s json n k old r s' :
  cron_inv s -> parse_defined json ->
  jobs_of s !! k = Some old -> j_used old = true -> j_id old = auto_job_id s ->
  (forall root, ty_cJSON_Parse json = Some root -> json_text root "id" = None) ->
  wukong_cron_job_add (Some json) (Some (S n)) s = Some (r, s') -> fst r = OPRT_OK ->
  exists i j, i <> k /\ jobs_of s' !! k = Some old /\ jobs_of s' !! i = Some j /\
    j_used j = true /\ j_id j = j_id old.
Proof.
  intros Hinv Hdef Hk Hu Hid Hnone Hrun Hok. pose proof (job_add_wp s json n Hinv Hdef) as Hwp.
  unfold wp in Hwp. rewrite Hrun in Hwp. destruct Hwp as [Hinv' Hslot].
  destruct Hslot as [rt Hnot Hj Htr|j i Hdesc Hf Hj Htr|Hfull Hj Htr|j i Hdesc Hfree Hnf Hj Htr
    |rt j i ts Hdesc Hfree Hnew Href Hj Hre]; try done.
  - destruct Hnot as (? & ? & _ & Hne). done.
  - apply find_index_Some in Hfree as (free & Hi & Hfu).
    assert (Hne : i <> k) by congruence. destruct Hdesc as (root & Hroot & _ & [? ? ? Hjid] & _).
    rewrite (Hnone root Hroot) in Hjid.
    exists i, (job_set_next ts (job_set_id (assigned_id s j) j)). rewrite Hj. split_and!; [done| | |done|].
    + by rewrite list_lookup_insert_ne.
    + by eapply list_lookup_insert_eq, lookup_lt_Some.
    + cbn. unfold assigned_id. by rewrite Hjid.
Qed.

(** What updating a job may do. A replacement that never fires also loses the
    job it was to replace. *)
Inductive update_result s json s' : OPERATE_RET -> Prop :=
| update_not_a_job rt : not_a_job s json false rt -> s' = with_world (cs_world s') s -> update_result s json s' rt
| update_unknown j : describes json false j -> table s !! j_id j = None -> s' = with_world (cs_world s') s ->
    update_result s json s' OPRT_NOT_FOUND
| update_lost j : describes json false j -> is_Some (table s !! j_id j) -> never_fires s j ->
    table s' = delete (j_id j) (table s) -> w_trace (cs_world s') = w_trace (cs_world s) ->
    update_result s json s' OPRT_INVALID_PARM
| update_stored rt j ts : describes json false j -> is_Some (table s !! j_id j) ->
    refresh_spec (cx_time_ready (cs_ctx s)) j (clock_now s) OPRT_OK ts ->
    table s' = <[j_id j := job_set_next ts j]> (table s) -> rearmed s s' rt ->
    update_result s json s' rt.

Lemma describes_id json j r : describes json false j -> j_id j <> "" -> job_wf r j.
Proof. intros Hd Hid. replace j with (job_set_id (j_id j) j) by by destruct j. by eapply describes_wf. Qed.

(** The same at the level of slots. *)
Inductive update_slot s json s' : OPERATE_RET -> Prop :=
| uslot_not_a_job rt : not_a_job s json false rt -> s' = with_world (cs_world s') s -> update_slot s json s' rt
| uslot_unknown j : describes json false j -> __job_find_index (jobs_of s) (j_id j) = None ->
    s' = with_world (cs_world s') s -> update_slot s json s' OPRT_NOT_FOUND
| uslot_lost j i : describes json false j -> __job_find_index (jobs_of s) (j_id j) = Some i -> never_fires s j ->
    jobs_of s' = <[i := job_zero]> (jobs_of s) -> w_trace (cs_world s') = w_trace (cs_world s) ->
    update_slot s json s' OPRT_INVALID_PARM
| uslot_stored rt j i ts : describes json false j -> __job_find_index (jobs_of s) (j_id j) = Some i ->
    refresh_spec (cx_time_ready (cs_ctx s)) j (clock_now s) OPRT_OK ts ->
    jobs_of s' = <[i := job_set_next ts j]> (jobs_of s) -> rearmed s s' rt -> update_slot s json s' rt.

Lemma job_update_wp s json : cron_inv s -> parse_defined json ->
  wp (wukong_cron_job_update (Some json)) (fun rt s' => cron_inv s' /\ update_slot s json s' rt) s.
Proof.
  intros Hinv Hdef. cbn [wukong_cron_job_update]. wp_step.
  pose proof (parse_json_wp s json false Hdef) as Hparse. apply wp_elim in Hparse.
  destruct Hparse as ([rt job] & s1 & Hrun & w & -> & Hw & Htr & Hcalls & Hreads & Hdesc).
  apply (wp_intro _ _ _ _ _ Hrun). cbv beta iota. cbn [fst snd] in Hdesc.
  set (s1 := with_world w s) in *. assert (Hinv1 : cron_inv s1) by by apply cron_inv_world.
  destruct (Z.eqb_spec rt OPRT_OK) as [->|Hrt]; cbn [negb].
  2:{ wp_step. split; [done|]. apply uslot_not_a_job; [by eexists _, _|done]. }
  specialize (Hdesc eq_refl). wp_steps. change (jobs_of s1) with (jobs_of s).
  destruct (__job_find_index (jobs_of s) (j_id job)) as [i|] eqn:Hf.
  2:{ wp_step. split; [done|]. by eapply uslot_unknown. }
  assert (Hjob : job_wf (cx_time_ready (cs_ctx s)) job).
  { apply (describes_id json); [done|]. apply find_job_Some in Hf as (old & Hi & Hu & <-).
    by eapply jw_id, slot_wf_used; [eapply ctx_wf_lookup; [apply Hinv|]|]. }
  assert (Hclock : w_clock w (w_reads w) = clock_now s) by (unfold clock_now; by rewrite (proj1 Hw), Hreads).
  apply install_wp; [done | by eapply find_lt; [apply Hinv|] | done | |]; cbn [cs_world s1 with_world]; rewrite Hclock.
  - intros w2 Hw2 Htr2 Hr Hen Hnf. split; [by apply cron_inv_jobs; [..|left]|].
    by apply (uslot_lost _ _ _ job i); [..|etrans].
  - intros w2 ts Hw2 Htr2 Hcalls2 Href. apply (rearm_wp s); [by etrans..|]. intros rt w3 Hw3 Hre.
    split; [|by apply (uslot_stored _ _ _ _ job i ts)].
    apply cron_inv_world; [|done]. apply cron_inv_jobs; [done|done|].
    eapply refresh_slot; [by right | | exact Href].
    pose proof (ci_clock _ Hinv (w_reads (cs_world s))) as Hroom. unfold search_room in Hroom. unfold clock_now. lia.
Qed.

Lemma job_remove_wp s id : cron_inv s ->
  wp (wukong_cron_job_remove (Some id)) (fun rt s' => cron_inv s' /\
    (rt = OPRT_NOT_FOUND /\ __job_find_index (jobs_of s) id = None /\ s' = s \/
     exists i, __job_find_index (jobs_of s) id = Some i /\ jobs_of s' = <[i := job_zero]> (jobs_of s) /\
       rearmed s s' rt)) s.
Proof.
  intros Hinv. cbn [wukong_cron_job_remove]. wp_steps.
  destruct (__job_find_index (jobs_of s) id) as [i|] eqn:Hf.
  - wp_step. unfold __job_reset, cs_mod_jobs. wp_step.
    change (negb (__store_sync =? OPRT_OK)) with false. cbv beta iota.
    apply (rearm_wp s); [done..|]. intros rt w Hw Hre. split; [|right; by exists i].
    apply cron_inv_world; [|done]. apply (cron_inv_jobs s (cs_world s)); [done|done|by left].
  - wp_step. split; [done|]. by left.
Qed.

(** Updating a job replaces exactly the job with the described id and
    re-arms the timer; an unknown id or an invalid description changes
    nothing; a description that never fires is an error that removes the old
    job as well. *)
Theorem job_update_refines s json :
  cron_inv s -> ids_distinct (jobs_of s) -> parse_defined json ->
  exists rt s', wukong_cron_job_update (Some json) s = Some (rt, s') /\
    cron_inv s' /\ ids_distinct (jobs_of s') /\ update_result s json s' rt.
Proof.
  intros Hinv Hd Hdef. pose proof (job_update_wp s json Hinv Hdef) as Hwp.
  apply wp_elim in Hwp as (rt & s' & Hrun & Hinv' & Hslot). exists rt, s'. split; [done|]. split; [done|].
  destruct Hslot as [rt Hnot Hs|j Hdesc Hf Hs|j i Hdesc Hf Hnf Hj Htr|rt j i ts Hdesc Hf Href Hj Hre].
  - split; [by rewrite Hs|]. by apply update_not_a_job.
  - split; [by rewrite Hs|]. by eapply update_unknown; [|apply find_job_None|].
  - destruct (clear_job s i (j_id j) Hd Hf) as [Hd' Hm']. rewrite Hj. split; [done|].
    eapply update_lost; [done|by eapply find_job_map|done|by rewrite Hj|done].
  - destruct (store_job s i (j_id j) (job_set_next ts j)) as [Hd' Hm'];
      [done | rewrite (cw_length _ (ci_ctx _ Hinv)); by eapply find_lt; [apply Hinv|]
      | by destruct Hdesc as (? & _ & _ & [] & _) | done | by left|].
    rewrite Hj. split; [done|].
    eapply update_stored; [done|by eapply find_job_map|done|by rewrite Hj|done].
Qed.

(** Removing a job deletes exactly that id from the table and re-arms the
    timer for what is left; an unknown id changes nothing at all. *)
Theorem job_remove_refines s id :
  cron_inv s -> ids_distinct (jobs_of s) ->
  exists rt s', wukong_cron_job_remove (Some id) s = Some (rt, s') /\
    cron_inv s' /\ ids_distinct (jobs_of s') /\
    (rt = OPRT_NOT_FOUND /\ table s !! id = None /\ s' = s \/
     is_Some (table s !! id) /\ table s' = delete id (table s) /\ rearmed s s' rt).
Proof.
  intros Hinv Hd. pose proof (job_remove_wp s id Hinv) as Hwp.
  apply wp_elim in Hwp as (rt & s' & Hrun & Hinv' & Hcase). exists rt, s'. split; [done|]. split; [done|].
  destruct Hcase as [(-> & Hf & ->)|(i & Hf & Hj & Hre)].
  - split; [done|]. left. split_and!; [done|by apply find_job_None|done].
  - destruct (clear_job s i id Hd Hf) as [Hd' Hm']. rewrite Hj. split; [done|]. right.
    split_and!; [by eapply find_job_map|by rewrite Hm'|done].
Qed.

End Api.
