(* ===== verification/CronTimer.v ===== *)
(** The scheduler side of the cron service: the timer callback dispatches
    exactly the due jobs, and time becoming available schedules the table. *)
From stdpp Require Import gmap strings fin_maps.
From S2P Require Import Prelude.
From S2P Require Import Calendar.
From S2P Require Import CStr.
From S2P Require Import CronField.
From S2P Require Import CronParse.
From S2P Require Import CronNext.
From S2P Require Import CronNextCorrect.
From S2P Require Import World.
From S2P Require Import Slots.
From S2P Require Import Json.
From S2P Require Import CronRpc.
From S2P Require Import CronRpcCorrect.
From S2P Require Import CronJobs.
From S2P Require Import CronJobsInv.
From S2P Require Import CronJobsApi.

#[local] Open Scope string_scope.
#[local] Open Scope Z_scope.

Section Timer.
Context `{TS : TimeService} `{JT : JsonText} {H : Type} `{FZ : !FixedZone off mkoff}.
Implicit Types (s : CronState H) (cx : WUKONG_CRON_CTX_T).
Abbreviation jobs_of s := (cx_jobs (cs_ctx s)).

(** ** Dispatch *)

(** Every allocation and system call succeeds. *)
Definition calls_ok (w : World) : Prop := (forall n, w_heap w n = true) /\ (forall n, w_os w n = OPRT_OK).

Lemma calls_ok_env w w' : same_env w w' -> calls_ok w -> calls_ok w'.
Proof. intros (_ & Hh & Ho) [? ?]. split; intros n; rewrite ?Hh, ?Ho; auto. Qed.

Definition due (now : TIME_T) (j : WUKONG_CRON_JOB_T) : bool := pending j && (j_next_fire_ts j <=? now).

Definition request_text (j : WUKONG_CRON_JOB_T) : option string := j_request j ≫= ty_cJSON_PrintUnformatted.

(** The requests of the due jobs, in slot order. *)
Definition due_work (now : TIME_T) (jobs : list WUKONG_CRON_JOB_T) : list effect :=
  omap (fun j => if due now j then FxWorkq <$> request_text j else None) jobs.

Lemma dispatch_wp s job :
  wp (dispatch_job job) (fun _ s' => exists w work, s' = with_world w s /\ same_env (cs_world s) w /\
    w_reads w = w_reads (cs_world s) /\ w_trace w = (rev work ++ w_trace (cs_world s))%list /\
    work `sublist_of` option_list (FxWorkq <$> request_text job) /\
    (calls_ok (cs_world s) -> work = option_list (FxWorkq <$> request_text job))) s.
Proof.
  unfold dispatch_job. fold (request_text job). wp_step. unfold wp at 1, malloc, cs_on_world. cbn [tal_alloc].
  destruct (w_heap (cs_world s) (w_allocs (cs_world s))) eqn:Hheap.
  2:{ wp_step. eexists _, []. split_and!; try done; [apply sublist_nil_l|].
      intros [Hh _]. by rewrite Hh in Hheap. }
  destruct (request_text job) as [text|].
  2:{ wp_step. eexists _, []. split_and!; try done. }
  wp_step. unfold wp at 1, oscall, cs_on_world. cbn [os_call cs_world]. cbn [w_os w_calls].
  destruct (Z.eqb_spec (w_os (cs_world s) (w_calls (cs_world s))) OPRT_OK) as [Hok|Hok].
  - unfold wp. cbn. eexists _, [FxWorkq text]. split_and!; try done.
  - wp_step. eexists _, []. split_and!; try done; [apply sublist_nil_l|].
    intros [_ Ho]. by rewrite Ho in Hok.
Qed.

(** ** One slot *)

(** What the callback at clock reading [now] makes of a slot: a due one-shot
    job leaves, a due recurring job gets the first firing time after a reading
    taken during the callback, everything else stays. *)
Inductive fired_slot (time_ready : bool) (w : World) (now : TIME_T) (j : WUKONG_CRON_JOB_T)
    : WUKONG_CRON_JOB_T -> Prop :=
| fired_not_due : due now j = false -> fired_slot time_ready w now j j
| fired_once : due now j = true -> j_once j = true -> fired_slot time_ready w now j job_zero
| fired_again n rt ts : due now j = true -> j_once j = false -> (w_reads w <= n)%nat ->
    refresh_spec time_ready j (w_clock w n) rt ts ->
    fired_slot time_ready w now j (job_set_next ts (job_set_last now j)).

Lemma fired_slot_wf r w now j j' : clock_ok w -> slot_wf r j -> fired_slot r w now j j' -> slot_wf r j'.
Proof.
  intros Hclk Hj Hf. inversion Hf; subst; [done|by left|]. right.
  destruct Hj as [->|Hj]; [done|]. eapply refresh_wf; [done| |done].
  specialize (Hclk n). unfold search_room in Hclk. lia.
Qed.

Lemma fired_slot_later r w w' now j j' : same_env w w' -> (w_reads w <= w_reads w')%nat ->
  fired_slot r w' now j j' -> fired_slot r w now j j'.
Proof.
  intros (Hc & _) Hr [?|? ?|n rt ts ? ? ? Hs]; [by apply fired_not_due|by apply fired_once|]. rewrite Hc in Hs.
  eapply fired_again; [done|done| |done]. lia.
Qed.

Lemma timer_cb_slot_wp s now i j :
  ctx_wf (cs_ctx s) -> clock_ok (cs_world s) -> jobs_of s !! i = Some j ->
  wp (timer_cb_slot now i) (fun _ s' => exists w j' work, s' = with_jobs w (<[i := j']> (jobs_of s)) s /\
    same_env (cs_world s) w /\ (w_reads (cs_world s) <= w_reads w)%nat /\
    fired_slot (cx_time_ready (cs_ctx s)) (cs_world s) now j j' /\
    w_trace w = (rev work ++ w_trace (cs_world s))%list /\
    work `sublist_of` due_work now [j] /\ (calls_ok (cs_world s) -> work = due_work now [j])) s.
Proof.
  intros Hwf Hclk Hi. unfold timer_cb_slot. wp_steps. rewrite Hi.
  assert (Hdue : (negb (j_used j) || negb (j_enabled j) || (j_next_fire_ts j <=? 0) || (now <? j_next_fire_ts j))
                 = negb (due now j)).
  { unfold due, pending. rewrite !Z.ltb_antisym.
    by destruct (j_used j), (j_enabled j), (j_next_fire_ts j <=? 0), (j_next_fire_ts j <=? now). }
  rewrite Hdue. unfold due_work. cbn [omap list_omap]. destruct (due now j) eqn:Hd; cbn [negb].
  2:{ wp_step. exists (cs_world s), j, []. split_and!; try done; [|by constructor].
      unfold with_jobs. rewrite list_insert_id by done. by destruct s as [? ? []]. }
  wp_step. eapply wp_mono; [apply dispatch_wp|]. intros _ s1 (w & work & -> & Hw & Hr & Htr & Hsub & Hok).
  replace (match (FxWorkq <$> request_text j) with Some y => y :: [] | None => [] end)
    with (option_list (FxWorkq <$> request_text j)) by by destruct (request_text j).
  destruct (j_once j) eqn:Honce.
  - unfold __job_reset, cs_mod_jobs. wp_step. exists w, job_zero, work. rewrite Hr.
    split_and!; try done; [by apply Hw..|by apply fired_once].
  - unfold cs_mod_jobs. wp_steps. cbn [with_world cs_ctx cs_world]. eapply wp_mono.
    { apply (compute_next_fire_wp _ i (job_set_last now j)).
      - by eapply clock_ok_env.
      - cbn. by eapply list_lookup_insert_eq, lookup_lt_Some.
      - cbn. intros Hu. destruct (ctx_wf_lookup _ _ _ Hwf Hi) as [->|Hj]; [done|].
        eapply expr_parse_wf, Hj. }
    intros rt s2 (w2 & ts & -> & Hw2 & Htr2 & _ & _ & Hr2 & Href). wp_step. cbn in Hw2, Htr2, Hr2, Href.
    exists w2, (job_set_next ts (job_set_last now j)), work.
    split_and!; try (by apply Hok).
    + unfold with_jobs. cbn. unfold ctx_set_jobs. cbn. by rewrite list_insert_insert_eq.
    + by etrans.
    + lia.
    + eapply fired_again; [done|done| |].  2:{ destruct Hw as (Hc & _). rewrite Hc in Href. exact Href. } lia.
    + by etrans.
    + done.
Qed.

(** ** The callback *)

Lemma ctx_wf_again cx jobs i j :
  ctx_wf (ctx_set_jobs jobs cx) -> slot_wf (cx_time_ready cx) j -> ctx_wf (ctx_set_jobs (<[i := j]> jobs) cx).
Proof. intros Hcx Hj. apply (ctx_wf_insert _ i j Hcx Hj). Qed.

Lemma timer_cb_slots_wp now rest : forall pre s,
  ctx_wf (cs_ctx s) -> clock_ok (cs_world s) -> jobs_of s = (pre ++ rest)%list ->
  wp (timer_cb_slots now (length pre) (length rest)) (fun _ s' => exists w rest' work,
    s' = with_jobs w (pre ++ rest') s /\ ctx_wf (cs_ctx s') /\ same_env (cs_world s) w /\
    Forall2 (fired_slot (cx_time_ready (cs_ctx s)) (cs_world s) now) rest rest' /\
    w_trace w = (rev work ++ w_trace (cs_world s))%list /\
    work `sublist_of` due_work now rest /\ (calls_ok (cs_world s) -> work = due_work now rest)) s.
Proof.
  induction rest as [|j rest IH]; intros pre s Hwf Hclk Hjobs; cbn [timer_cb_slots length].
  - wp_step. exists (cs_world s), [], []. rewrite <- Hjobs.
    split_and!; try done. by destruct s as [? ? []].
  - assert (Hi : jobs_of s !! length pre = Some j) by by rewrite Hjobs, list_lookup_middle.
    wp_step. eapply wp_mono; [by eapply timer_cb_slot_wp|].
    intros _ s1 (w & j' & work & -> & Hw & Hrd & Hf & Htr & Hsub & Hok).
    rewrite Hjobs, insert_app_r_alt, Nat.sub_diag by lia. cbn [list_insert insert].
    set (s1 := with_jobs w (pre ++ j' :: rest) s).
    assert (Hwf1 : ctx_wf (cs_ctx s1)).
    { assert (Hl := ctx_wf_insert (cs_ctx s) (length pre) j' Hwf).
      rewrite Hjobs, insert_app_r_alt, Nat.sub_diag in Hl by lia. apply Hl.
      by eapply fired_slot_wf; [|eapply ctx_wf_lookup|]. }
    specialize (IH (pre ++ [j'])%list s1 Hwf1). rewrite length_app, Nat.add_1_r in IH.
    eapply wp_mono; [apply IH; [by eapply clock_ok_env | cbn; by rewrite <- app_assoc]|].
    intros _ s2 (w2 & rest' & work2 & -> & Hwf2 & Hw2 & Hf2 & Htr2 & Hsub2 & Hok2).
    rewrite <- app_assoc in *. exists w2, (j' :: rest'), (work ++ work2)%list. cbn [cs_world with_jobs s1] in *.
    assert (Hdue : due_work now (j :: rest) = (due_work now [j] ++ due_work now rest)%list)
      by (unfold due_work; by rewrite <- omap_app).
    rewrite Hdue. split_and!.
    + done.
    + done.
    + by etrans.
    + constructor; [done|]. eapply Forall2_impl; [exact Hf2|]. intros a b. by apply fired_slot_later.
    + rewrite Htr2, Htr, rev_app_distr, app_assoc. done.
    + by apply sublist_app.
    + intros Hcalls. rewrite Hok, Hok2; [done|by eapply calls_ok_env|done].
Qed.

Definition timer_cb_post s s' : Prop := exists work fx,
  Forall2 (fired_slot (cx_time_ready (cs_ctx s)) (cs_world s) (clock_now s)) (jobs_of s) (jobs_of s') /\
  work `sublist_of` due_work (clock_now s) (jobs_of s) /\
  (calls_ok (cs_world s) -> work = due_work (clock_now s) (jobs_of s)) /\
  w_trace (cs_world s') = (fx ++ rev work ++ w_trace (cs_world s))%list /\
  exists os rt, rearms (ctx_set_in_cb true (cs_ctx s')) (last_clock s') os fx rt.

Lemma timer_cb_wp s : cron_inv s ->
  wp __cron_timer_cb (fun _ s' => cron_inv s' /\ timer_cb_post s s') s.
Proof.
  intros [Hwf Hclk Hcb].
  unfold __cron_timer_cb. wp_step. unfold wp at 1, posix, cs_on_world. cbn [tal_time_get_posix].
  fold (clock_now s). wp_steps. set (s1 := cs_set_ctx _ _).
  assert (Hwf1 : ctx_wf (cs_ctx s1)) by by destruct Hwf.
  pose proof (timer_cb_slots_wp (clock_now s) (jobs_of s) [] s1 Hwf1 Hclk eq_refl) as Hslots.
  rewrite (cw_length _ Hwf) in Hslots. eapply wp_mono; [exact Hslots|].
  intros _ s2 (w & jobs' & work & -> & Hwf2 & Hw & Hf & Htr & Hsub & Hok). wp_step.
  eapply wp_mono; [apply reschedule_wp|]. intros rt s3 (w3 & fx & -> & Hw3 & Htr3 & Hrd3 & Hre). wp_step.
  split; [split; [by destruct Hwf2 | | done]; eapply clock_ok_env; [|exact Hclk]; by etrans|].
  exists work, fx. split_and!.
  - eapply Forall2_impl; [exact Hf|]. intros a b. apply fired_slot_later; [done|]. cbn. lia.
  - done.
  - intros Hcalls. by apply Hok.
  - cbn. rewrite Htr3. cbn. by rewrite Htr.
  - exists (w_os w (w_calls w)), rt. unfold last_clock. cbn [cs_world cs_set_ctx with_world]. rewrite Hrd3.
    cbn [cs_world with_jobs] in Hre |- *. destruct Hw3 as (Hc & _). rewrite Hc. exact Hre.
Qed.

(** C3. The timer callback: every slot is treated by the firing rule, the
    requests of the due jobs, and only those, go to the work queue once each
    and in slot order (all of them when allocation and queueing succeed), and
    the timer is armed again for the earliest pending job of the new table. *)
Theorem timer_cb_correct s :
  cron_inv s ->
  exists s' work fx, __cron_timer_cb s = Some (tt, s') /\
    Forall2 (fired_slot (cx_time_ready (cs_ctx s)) (cs_world s) (clock_now s)) (jobs_of s) (jobs_of s') /\
    work `sublist_of` due_work (clock_now s) (jobs_of s) /\
    (calls_ok (cs_world s) -> work = due_work (clock_now s) (jobs_of s)) /\
    w_trace (cs_world s') = (fx ++ rev work ++ w_trace (cs_world s))%list /\
    exists os rt, rearms (ctx_set_in_cb true (cs_ctx s')) (last_clock s') os fx rt.
Proof.
  intros Hinv. pose proof (timer_cb_wp s Hinv) as Hwp.
  apply wp_elim in Hwp as ([] & s' & Hrun & _ & work & fx & HQ). by exists s', work, fx.
Qed.

(** ** Time becomes available *)

(** What recomputing the table from the clock of [w] makes of it, stopping at
    the first job that never fires. *)
Inductive notified (w : World) : list WUKONG_CRON_JOB_T -> list WUKONG_CRON_JOB_T -> OPERATE_RET -> Prop :=
| notified_end : notified w [] [] OPRT_OK
| notified_unused j l l' rt : j_used j = false -> notified w l l' rt -> notified w (j :: l) (j :: l') rt
| notified_job j l l' rt n ts : j_used j = true -> (w_reads w <= n)%nat -> refresh_spec true j (w_clock w n) OPRT_OK ts ->
    notified w l l' rt -> notified w (j :: l) (job_set_next ts j :: l') rt
| notified_stop j l n : j_used j = true -> (w_reads w <= n)%nat -> refresh_spec true j (w_clock w n) OPRT_INVALID_PARM 0 ->
    notified w (j :: l) (job_set_next 0 j :: l) OPRT_INVALID_PARM.

Lemma notified_env w w' l l' rt : same_env w w' -> (w_reads w <= w_reads w')%nat ->
  notified w' l l' rt -> notified w l l' rt.
Proof.
  intros (Hc & _) Hrd Hn. induction Hn as [|j l l' rt Hu Hn IH|j l l' rt n ts Hu Hle Hr Hn IH|j l n Hu Hle Hr];
    try rewrite Hc in Hr; [by constructor|by constructor| |].
  - eapply notified_job; [done| |exact Hr|done]. lia.
  - eapply notified_stop; [done| |exact Hr]. lia.
Qed.

Definition set_time_ready cx : WUKONG_CRON_CTX_T :=
  mk_cron_ctx (cx_initialized cx) true (cx_in_timer_cb cx) (cx_next_job_seq cx) (cx_timer cx) (cx_jobs cx).

Lemma notify_slots_wp rest : forall pre s,
  ctx_wf (cs_ctx s) -> clock_ok (cs_world s) -> cx_time_ready (cs_ctx s) = true -> jobs_of s = (pre ++ rest)%list ->
  wp (notify_slots (length pre) (length rest)) (fun rt s' => exists w rest' rt0,
    s' = with_jobs w (pre ++ rest') s /\ ctx_wf (cs_ctx s') /\ same_env (cs_world s) w /\
    notified (cs_world s) rest rest' rt0 /\
    (rt0 = OPRT_OK /\ rearmed s s' rt \/ rt0 <> OPRT_OK /\ rt = rt0 /\ w_trace w = w_trace (cs_world s))) s.
Proof.
  induction rest as [|j rest IH]; intros pre s Hwf Hclk Hready Hjobs; cbn [notify_slots length].
  - apply (rearm_wp s); [done..|]. intros rt w Hw Hre. exists w, [], OPRT_OK. rewrite <- Hjobs.
    assert (Heq : with_world w s = with_jobs w (jobs_of s) s) by by destruct s as [? ? []].
    split_and!; try done; [by constructor|]. by left.
  - assert (Hi : jobs_of s !! length pre = Some j) by by rewrite Hjobs, list_lookup_middle.
    wp_steps. rewrite Hi. destruct (j_used j) eqn:Hu; cbn [negb].
    2:{ specialize (IH (pre ++ [j])%list s Hwf Hclk Hready). rewrite length_app, Nat.add_1_r in IH.
        eapply wp_mono; [apply IH; by rewrite <- app_assoc|].
        intros rt s' (w & rest' & rt0 & -> & Hwf' & Hw & Hn & Hend). rewrite <- app_assoc in *.
        exists w, (j :: rest'), rt0. split_and!; try done. by constructor. }
    pose proof (ctx_wf_lookup _ _ _ Hwf Hi) as Hslot.
    pose proof (slot_wf_used _ _ Hslot Hu) as Hjob.
    wp_step. eapply wp_mono.
    { apply (compute_next_fire_wp s (length pre) j); [done|done|intros _; eapply expr_parse_wf, Hjob]. }
    intros rt s1 (w & ts & -> & Hw & Htr & Hcalls & _ & Hrd & Href).
    rewrite Hjobs, insert_app_r_alt, Nat.sub_diag by lia. cbn [list_insert insert].
    assert (Hwf1 : ctx_wf (ctx_set_jobs (pre ++ job_set_next ts j :: rest) (cs_ctx s))).
    { assert (Hl := ctx_wf_insert (cs_ctx s) (length pre) (job_set_next ts j) Hwf).
      rewrite Hjobs, insert_app_r_alt, Nat.sub_diag in Hl by lia. apply Hl.
      eapply refresh_slot; [done| |exact Href].
      pose proof (Hclk (w_reads (cs_world s))) as Hc. unfold search_room in Hc. lia. }
    rewrite Hready in Href.
    destruct (Z.eqb_spec rt OPRT_OK) as [->|Hrt]; cbn [negb].
    + set (s1 := with_jobs w _ s). specialize (IH (pre ++ [job_set_next ts j])%list s1 Hwf1).
      rewrite length_app, Nat.add_1_r in IH.
      eapply wp_mono; [apply IH; [by eapply clock_ok_env | done | cbn; by rewrite <- app_assoc]|].
      intros rt s2 (w2 & rest' & rt0 & -> & Hwf2 & Hw2 & Hn & Hend). rewrite <- app_assoc in *.
      exists w2, (job_set_next ts j :: rest'), rt0. split_and!; [done|done|by etrans| |].
      * eapply notified_job; [done| |exact Href|by eapply notified_env]; lia.
      * unfold rearmed in *. cbn [cs_world s1 with_jobs] in *.
        rewrite Htr, Hcalls, (proj2 (proj2 Hw)) in Hend. exact Hend.
    + wp_step. assert (rt = OPRT_INVALID_PARM /\ ts = 0) as [-> ->].
      { unfold refresh_spec in Href. destruct (true && j_used j && j_enabled j); [|tauto].
        destruct Href as [[? _]|[[= -> ->] _]]; done. }
      exists w, (job_set_next 0 j :: rest), OPRT_INVALID_PARM. split_and!; try done; [eapply notified_stop; [done| |exact Href]; lia|].
      by right.
Qed.

Lemma time_ready_wp s : cron_inv s ->
  wp wukong_cron_time_ready_notify (fun rt s' => cron_inv s' /\ cx_time_ready (cs_ctx s') = true /\
    exists rt0, notified (cs_world s) (jobs_of s) (jobs_of s') rt0 /\
    (rt0 = OPRT_OK /\ rearmed s s' rt \/
     rt0 <> OPRT_OK /\ rt = rt0 /\ w_trace (cs_world s') = w_trace (cs_world s))) s.
Proof.
  intros [Hwf Hclk Hcb]. set (s1 := cs_set_ctx (set_time_ready (cs_ctx s)) s).
  assert (Hwf1 : ctx_wf (cs_ctx s1)).
  { destruct Hwf as [? Hslots ? ?]. split; try done. eapply Forall_impl; [exact Hslots|].
    intros j. apply slot_wf_ready. }
  pose proof (notify_slots_wp (jobs_of s) [] s1 Hwf1 Hclk eq_refl eq_refl) as Hwp.
  rewrite (cw_length _ Hwf) in Hwp. eapply wp_mono; [exact Hwp|].
  intros rt s' (w & rest' & rt0 & -> & Hwf' & Hw & Hn & Hend).
  split; [split; [done|by eapply clock_ok_env|done]|]. split; [done|]. by exists rt0.
Qed.

(** When time becomes available, every used job is scheduled at its first
    firing time in slot order and the timer is armed for the earliest one;
    but the first job that never fires ends the pass with an error: the later
    jobs keep no firing time and the timer is not armed. *)
Theorem time_ready_notify_correct s :
  cron_inv s ->
  exists rt s' rt0, wukong_cron_time_ready_notify s = Some (rt, s') /\
    cx_time_ready (cs_ctx s') = true /\ notified (cs_world s) (jobs_of s) (jobs_of s') rt0 /\
    (rt0 = OPRT_OK /\ rearmed s s' rt \/
     rt0 <> OPRT_OK /\ rt = rt0 /\ w_trace (cs_world s') = w_trace (cs_world s)).
Proof.
  intros Hinv. pose proof (time_ready_wp s Hinv) as Hwp.
  apply wp_elim in Hwp as (rt & s' & Hrun & _ & Hready & rt0 & HQ). by exists rt, s', rt0.
Qed.

(** ** Every call *)

(** Computations that touch the world alone. *)
Definition world_only {A} (m : C (CronState H) A) : Prop :=
  forall s, wp m (fun _ s' => exists w, s' = with_world w s /\ same_env (cs_world s) w) s.

Lemma world_only_ret {A} (a : A) : world_only (cret a).
Proof. intros s. wp_step. exists (cs_world s). by destruct s. Qed.

Lemma world_only_bind {A B} (m : C (CronState H) A) (k : A -> C (CronState H) B) :
  world_only m -> (forall a, world_only (k a)) -> world_only (cbind m k).
Proof.
  intros Hm Hk s. wp_step. eapply wp_mono; [apply Hm|]. intros a s1 (w & -> & Hw).
  eapply wp_mono; [apply Hk|]. intros b s2 (w2 & -> & Hw2). exists w2. split; [done|]. by etrans.
Qed.

Lemma world_only_malloc : world_only (malloc (H := H)).
Proof. intros s. unfold wp. cbn. by eexists. Qed.

Lemma world_only_add_field obj name v : world_only (add_field (H := H) obj name v).
Proof.
  intros s. apply world_only_bind; [intros s'; unfold wp; cbn; by eexists | intros ok; apply world_only_ret].
Qed.

Lemma world_only_get {A} (f : CronState H -> A) : world_only (cget f).
Proof. intros s. wp_step. exists (cs_world s). by destruct s. Qed.

Ltac world_only_tac :=
  repeat first [ apply world_only_ret | apply world_only_malloc | apply world_only_add_field
               | apply world_only_get | apply world_only_bind; [|intros ?] | case_match ].

Lemma world_only_list_items jobs acc : world_only (job_list_items (H := H) jobs acc).
Proof. revert acc. induction jobs as [|j jobs IH]; intros acc; cbn [job_list_items]; world_only_tac; apply IH. Qed.

Lemma world_only_list out : world_only (wukong_cron_job_list (H := H) out).
Proof. unfold wukong_cron_job_list. world_only_tac. apply world_only_list_items. Qed.

(** *** What leaves the registry alone *)

Definition same_registry {A} (m : C (CronState H) A) : Prop :=
  forall s a s', m s = Some (a, s') -> cs_rpc s' = cs_rpc s.

Lemma same_registry_bind {A B} (m : C (CronState H) A) (k : A -> C (CronState H) B) :
  same_registry m -> (forall a, same_registry (k a)) -> same_registry (cbind m k).
Proof. intros Hm Hk s b s' (a & s1 & H1 & H2)%cbind_Some. rewrite (Hk a _ _ _ H2). by eapply Hm. Qed.
Lemma same_registry_ret {A} (a : A) : same_registry (cret a).
Proof. by intros s x s' [= _ <-]. Qed.
Lemma same_registry_get {A} (f : CronState H -> A) : same_registry (cget f).
Proof. by intros s x s' [= _ <-]. Qed.
Lemma same_registry_pure {A} (o : option A) : same_registry (cpure o).
Proof. intros s x s'. destruct o; [by intros [= _ <-]|done]. Qed.
Lemma same_registry_none {A} : same_registry (fun _ => @None (A * CronState H)).
Proof. by intros s x s'. Qed.
Lemma same_registry_ctx (f : CronState H -> CronState H) : (forall s, cs_rpc (f s) = cs_rpc s) -> same_registry (cmod f).
Proof. intros Hf s x s' [= _ <-]. apply Hf. Qed.
Lemma same_registry_world {A} (f : World -> A * World) : same_registry (cs_on_world f).
Proof. intros s x s'. unfold cs_on_world. destruct (f (cs_world s)). by intros [= _ <-]. Qed.
Lemma same_registry_alloc : same_registry (alloc_ok (H := H)).
Proof. intros s x s'. unfold alloc_ok. cbn. by intros [= _ <-]. Qed.
#[local] Hint Resolve same_registry_ret same_registry_get same_registry_pure same_registry_none same_registry_world
  same_registry_alloc : cron.

Ltac same_registry_tac :=
  repeat (cbv beta zeta; lazymatch goal with
  | |- same_registry (cbind _ _) => apply same_registry_bind; [|intros ?]
  | |- same_registry (cmod _) => apply same_registry_ctx; intros ?; reflexivity
  | |- same_registry (if ?b then _ else _) => destruct b
  | |- same_registry (match ?x with _ => _ end) => destruct x
  | |- same_registry _ => solve [eauto with cron]
  end).

Lemma same_registry_parse json auto : same_registry (__job_parse_json (H := H) json auto).
Proof. unfold __job_parse_json. same_registry_tac. Qed.
Lemma same_registry_jobs f : same_registry (cs_mod_jobs (H := H) f).
Proof. unfold cs_mod_jobs. same_registry_tac. Qed.
#[local] Hint Resolve same_registry_parse same_registry_jobs : cron.
Lemma same_registry_reset i : same_registry (__job_reset (H := H) i).
Proof. apply same_registry_jobs. Qed.
Lemma same_registry_emit fx : same_registry (cs_emit (H := H) fx).
Proof. apply same_registry_world. Qed.
Lemma same_registry_posix : same_registry (posix (H := H)).
Proof. apply same_registry_world. Qed.
Lemma same_registry_malloc : same_registry (malloc (H := H)).
Proof. apply same_registry_world. Qed.
Lemma same_registry_oscall : same_registry (oscall (H := H)).
Proof. apply same_registry_world. Qed.
#[local] Hint Resolve same_registry_reset same_registry_emit same_registry_posix same_registry_malloc same_registry_oscall : cron.
Lemma same_registry_compute i : same_registry (__job_compute_next_fire (H := H) i).
Proof. unfold __job_compute_next_fire. same_registry_tac. Qed.
Lemma same_registry_rearm : same_registry (__cron_reschedule_locked (H := H)).
Proof. unfold __cron_reschedule_locked. same_registry_tac. Qed.
Lemma same_registry_dispatch j : same_registry (dispatch_job (H := H) j).
Proof. unfold dispatch_job. same_registry_tac. Qed.
#[local] Hint Resolve same_registry_compute same_registry_rearm same_registry_dispatch : cron.
Lemma same_registry_slots now i n : same_registry (timer_cb_slots (H := H) now i n).
Proof.
  revert i. induction n as [|n IH]; intros i; cbn [timer_cb_slots]; [same_registry_tac|].
  apply same_registry_bind; [|by intros; apply IH]. unfold timer_cb_slot. same_registry_tac.
Qed.
Lemma same_registry_notify i n : same_registry (notify_slots (H := H) i n).
Proof.
  revert i. induction n as [|n IH]; intros i; cbn [notify_slots]; [same_registry_tac|].
  apply same_registry_bind; [same_registry_tac|]. intros cx. destruct (_ !! i) as [j|]; [|same_registry_tac].
  destruct (negb _); [apply IH|]. apply same_registry_bind; [same_registry_tac|]. intros rt.
  destruct (negb _); [same_registry_tac|apply IH].
Qed.
#[local] Hint Resolve same_registry_slots same_registry_notify : cron.

(** The calls the rest of the program makes, and the timer's. *)
Inductive cron_call :=
| CallInit | CallDeinit
| CallAdd (job_json : option string) (job_id : option nat)
| CallUpdate (job_json : option string)
| CallRemove (job_id : option string)
| CallList (out : bool)
| CallTimeReady
| CallTimer
| CallRegister (method : option string) (handler : option H)
| CallUnregister (method : option string)
| CallExecute (job_json : option string) (out : bool)
| CallWorker (data : option (option string)).

(** The handlers registered run in the same state. *)
Context {RI : RpcInvoke (CronState H) H}.

Definition run_call (c : cron_call) : C (CronState H) unit :=
  match c with
  | CallInit => let* _ := wukong_cron_init in cret tt
  | CallDeinit => let* _ := wukong_cron_deinit in cret tt
  | CallAdd json buf => let* _ := wukong_cron_job_add json buf in cret tt
  | CallUpdate json => let* _ := wukong_cron_job_update json in cret tt
  | CallRemove id => let* _ := wukong_cron_job_remove id in cret tt
  | CallList out => let* _ := wukong_cron_job_list out in cret tt
  | CallTimeReady => let* _ := wukong_cron_time_ready_notify in cret tt
  | CallTimer => __cron_timer_cb
  | CallRegister m h => let* _ := wukong_cron_method_register m h in cret tt
  | CallUnregister m => let* _ := wukong_cron_method_unregister m in cret tt
  | CallExecute json out => let* _ := wukong_cron_job_execute (H := H) json out in cret tt
  | CallWorker data => __cron_job_worker (H := H) data
  end.

(** The cron texts a call parses stay clear of undefined behaviour. *)
Definition call_defined (c : cron_call) : Prop :=
  match c with
  | CallAdd (Some json) _ | CallUpdate (Some json) | CallExecute (Some json) _ => parse_defined json
  | _ => True
  end.

Lemma init_ctx_wf b : ctx_wf (mk_cron_ctx b false false 1 b (replicate WUKONG_CRON_MAX_JOBS job_zero)).
Proof.
  split; [done| |done|by vm_compute]. apply Forall_replicate. by left.
Qed.

Lemma zero_ctx_wf : ctx_wf cron_ctx_zero.
Proof. split; [done| |done|by vm_compute]. apply Forall_replicate. by left. Qed.

Lemma cron_init_wp s : cron_inv s -> wp wukong_cron_init (fun _ s' => cron_inv s') s.
Proof.
  intros Hinv. unfold wukong_cron_init. wp_steps. destruct (cx_initialized (cs_ctx s)); [by wp_step|].
  wp_steps. unfold wukong_cron_rpc_init. wp_steps. cbn [rpc_set cron_rpc_store].
  change (negb (OPRT_OK =? OPRT_OK)) with false. cbv beta iota. wp_step. unfold wp at 1. cbn [oscall cs_on_world os_call].
  destruct (negb _).
  - wp_step. unfold wukong_cron_rpc_deinit. wp_steps. split; [apply (init_ctx_wf false)|apply Hinv|done].
  - wp_steps. split; [apply (init_ctx_wf true)|apply Hinv|done].
Qed.

Lemma cron_deinit_wp s : cron_inv s -> wp wukong_cron_deinit (fun _ s' => cron_inv s') s.
Proof.
  intros Hinv. unfold wukong_cron_deinit. wp_steps.
  destruct (cx_initialized (cs_ctx s)); cbn [negb]; [|by wp_step].
  unfold wp. cbn. split; [apply zero_ctx_wf|apply Hinv|done].
Qed.

Lemma registry_call_wp {A} (m : C (CronState H) A) s :
  cron_inv s -> (exists a es w, m s = Some (a, mk_cron_state w es (cs_ctx s)) /\ same_env (cs_world s) w) ->
  wp m (fun _ s' => cron_inv s') s.
Proof.
  intros [Hc Hk Hb] (a & es & w & Hm & Hw). eapply wp_intro; [exact Hm|].
  split; [done|by eapply clock_ok_env|done].
Qed.

Lemma register_call s m h : exists a es w,
  wukong_cron_method_register m h s = Some (a, mk_cron_state w es (cs_ctx s)) /\ same_env (cs_world s) w.
Proof.
  unfold wukong_cron_method_register, wukong_cron_rpc_method_register, cbind, cget, cmod, alloc_ok, cret.
  destruct s as [w es cx]. cbn. repeat case_match; simplify_eq/=; eexists _, _, _; (split; [reflexivity|done]).
Qed.

Lemma unregister_call s m : exists a es w,
  wukong_cron_method_unregister m s = Some (a, mk_cron_state w es (cs_ctx s)) /\ same_env (cs_world s) w.
Proof.
  unfold wukong_cron_method_unregister, wukong_cron_rpc_method_unregister, cbind, cget, cmod, cret.
  destruct s as [w es cx]. cbn. repeat case_match; simplify_eq/=; eexists _, _, _; (split; [reflexivity|done]).
Qed.

(** *** The invariant of a whole state *)

Definition cron_ok s : Prop := cron_inv s /\ registry_wf (cs_rpc s).

(** Code that keeps it. *)
Definition ok_kept {A} (m : C (CronState H) A) : Prop := forall s, cron_ok s -> wp m (fun _ s' => cron_ok s') s.

Lemma ok_kept_bind {A B} (m : C (CronState H) A) (k : A -> C (CronState H) B) :
  ok_kept m -> (forall a, ok_kept (k a)) -> ok_kept (cbind m k).
Proof. intros Hm Hk s Hs. apply wp_bind. eapply wp_mono; [by apply Hm|]. intros a s' Hs'. by apply Hk. Qed.
Lemma ok_kept_ret {A} (a : A) : ok_kept (cret a).
Proof. by intros s Hs. Qed.
Lemma ok_kept_alloc : ok_kept (alloc_ok (H := H)).
Proof. intros s [Hs Hr]. unfold wp, alloc_ok. cbn. split; [by apply cron_inv_world|done]. Qed.
#[local] Hint Resolve @ok_kept_ret ok_kept_alloc : cron.

Ltac ok_kept_tac :=
  repeat (cbv beta zeta; lazymatch goal with
  | |- ok_kept (cbind _ _) => apply ok_kept_bind; [|intros ?]
  | |- ok_kept (if ?b then _ else _) => destruct b
  | |- ok_kept (match ?x with _ => _ end) => destruct x
  | |- ok_kept _ => solve [eauto with cron]
  end).

(** A call that leaves the registry alone. *)
Lemma ok_kept_same {A} (m : C (CronState H) A) s :
  same_registry m -> cron_ok s -> wp m (fun _ s' => cron_inv s') s -> wp m (fun _ s' => cron_ok s') s.
Proof.
  intros Hm [_ Hr] Hw. apply wp_elim in Hw as (a & s' & Hrun & Hs'). eapply wp_intro; [exact Hrun|].
  split; [done|]. by rewrite (Hm _ _ _ Hrun).
Qed.

Lemma ok_kept_error id code msg : ok_kept (__build_error_response (H := H) id code msg).
Proof. unfold __build_error_response, add_field. ok_kept_tac. Qed.
Lemma ok_kept_result id r : ok_kept (__build_result_response (H := H) id r).
Proof. unfold __build_result_response, add_field. ok_kept_tac. Qed.
#[local] Hint Resolve ok_kept_error ok_kept_result : cron.

#[local] Instance cron_rpc_laws : RpcStoreLaws (CronState H) H.
Proof. by split. Qed.

Lemma registered_ok m h s : cron_ok s -> wp (wukong_cron_method_register m h) (fun _ s' => cron_ok s') s.
Proof.
  intros [Hs Hr]. assert (Hinv : wp (wukong_cron_method_register m h) (fun _ s' => cron_inv s') s)
    by (apply registry_call_wp; [done|apply register_call]).
  destruct m as [m|]; [|by split]. destruct h as [h|]; [|by split].
  change (registry_wf (rpc_entries (H := H) s)) in Hr.
  destruct (register_refines m h s Hr) as (rt & s' & Hrun & Hr' & _).
  unfold wp, wukong_cron_method_register in *. rewrite Hrun in *. by split.
Qed.

Lemma unregistered_ok m s : cron_ok s -> wp (wukong_cron_method_unregister m) (fun _ s' => cron_ok s') s.
Proof.
  intros [Hs Hr]. assert (Hinv : wp (wukong_cron_method_unregister m) (fun _ s' => cron_inv s') s)
    by (apply registry_call_wp; [done|apply unregister_call]).
  destruct m as [m|]; [|by split]. change (registry_wf (rpc_entries (H := H) s)) in Hr.
  destruct (unregister_refines m s Hr) as (rt & s' & Hrun & Hr' & _).
  unfold wp, wukong_cron_method_unregister in *. rewrite Hrun in *. by split.
Qed.

Lemma cleared_registry (es : list (WUKONG_CRON_RPC_ENTRY_T H)) : registry_wf (H := H) es -> registry_wf (H := H) (map (fun _ => entry_zero (H := H)) es).
Proof.
  intros [Hl _ _]. replace (map _ es) with (replicate WUKONG_CRON_RPC_MAX_METHODS (entry_zero (H := H))); [apply registry_wf_init|].
  rewrite <- Hl. clear Hl. induction es as [|e es IH]; [done|]. cbn. by rewrite <- IH.
Qed.

Lemma init_ok s : cron_ok s -> wp wukong_cron_init (fun _ s' => cron_ok s') s.
Proof.
  intros [Hs Hr]. pose proof (cron_init_wp s Hs) as Hinv. apply wp_elim in Hinv as (rt & s' & Hrun & Hs').
  eapply wp_intro; [exact Hrun|]. split; [done|]. revert Hrun. unfold wukong_cron_init, wukong_cron_rpc_init, cbind, cget, cmod, cret.
  destruct (cx_initialized (cs_ctx s)); [by intros [= _ <-]|]. cbn.
  change (negb (OPRT_OK =? OPRT_OK)) with false. cbv iota. unfold oscall, cs_on_world. cbn [os_call].
  destruct (negb _); intros [= _ <-]; [apply (cleared_registry (replicate WUKONG_CRON_RPC_MAX_METHODS entry_zero))|]; apply registry_wf_init.
Qed.

Lemma deinit_ok s : cron_ok s -> wp wukong_cron_deinit (fun _ s' => cron_ok s') s.
Proof.
  intros [Hs Hr]. pose proof (cron_deinit_wp s Hs) as Hinv. apply wp_elim in Hinv as (rt & s' & Hrun & Hs').
  eapply wp_intro; [exact Hrun|]. split; [done|]. revert Hrun. unfold wukong_cron_deinit, cbind, cget, cmod, cret.
  destruct (negb _); [by intros [= _ <-]|]. intros [= _ <-]. by apply cleared_registry.
Qed.

Lemma remove_ok id s : cron_ok s -> wp (wukong_cron_job_remove id) (fun _ s' => cron_ok s') s.
Proof.
  intros Hok. apply ok_kept_same; [|done|].
  - destruct id; unfold wukong_cron_job_remove; same_registry_tac.
  - destruct id as [id|]; [|apply Hok]. eapply wp_mono; [apply job_remove_wp, Hok|]. by intros r s' [? _].
Qed.

(** The handlers of the registry keep the invariant, whatever they are given. *)
Hypothesis handlers_ok : forall h params, ok_kept (rpc_invoke (W := CronState H) (H := H) h params).

(** Executing a request: any JSON value, allocations failing or not. *)
Lemma execute_json_ok req : ok_kept (wukong_cron_rpc_execute_json (H := H) req).
Proof.
  unfold wukong_cron_rpc_execute_json. destruct req as [req|]; [|ok_kept_tac].
  destruct (negb _); [ok_kept_tac|]. cbv zeta. destruct (_ || _); [ok_kept_tac|].
  match goal with |- ok_kept (if ?b then _ else _) => destruct b end; [ok_kept_tac|].
  destruct (ty_cJSON_GetObjectItem req "method") as [[| | |method| |]|]; try solve [ok_kept_tac].
  match goal with |- ok_kept (if ?b then _ else _) => destruct b end; [ok_kept_tac|].
  intros s Hs. apply wp_bind, wp_get. pose proof (find_method_map (cs_rpc s) method (proj2 Hs)) as Hmap.
  cbn [rpc_entries cron_rpc_store]. destruct (__find_method_index (cs_rpc s) method) as [i|]; [|by apply ok_kept_error].
  destruct Hmap as (h & Hi & _). rewrite Hi. cbn [e_handler option_bind mbind].
  revert s Hi Hs. intros s _. revert s. apply ok_kept_bind; [apply handlers_ok|]. intros [rt result]. ok_kept_tac.
Qed.
#[local] Hint Resolve execute_json_ok : cron.

Lemma worker_ok data : ok_kept (__cron_job_worker (H := H) data).
Proof. unfold __cron_job_worker, wukong_cron_rpc_execute_string. ok_kept_tac. Qed.

Lemma execute_ok json out s : match json with Some json => parse_defined json | None => True end -> cron_ok s ->
  wp (wukong_cron_job_execute (H := H) json out) (fun _ s' => cron_ok s') s.
Proof.
  intros Hdef Hs. unfold wukong_cron_job_execute. destruct json as [json|]; [|exact Hs]. destruct (negb out); [exact Hs|].
  wp_step. eapply wp_mono; [apply (ok_kept_same _ s); [apply same_registry_parse|done|]|].
  - eapply wp_mono; [by apply parse_json_wp|]. intros r s' (w & -> & Hw & _). by apply cron_inv_world; [apply Hs|].
  - intros [rt job] s1 Hs1. cbv beta iota. revert s1 Hs1.
    match goal with |- forall s1, _ -> wp ?m _ _ => change (ok_kept m) end. ok_kept_tac.
Qed.

(** C10. Every call of the service keeps its invariant: the API, the timer, the
    registration calls, running a job's request at once and the worker that
    runs a queued one, with any arguments, NULL pointers included, and with
    allocations that fail or not. From every state of the invariant the call
    runs to its end and leaves one: 16 slots, each empty or a job with an id,
    masks that are the parse of its cron text, a JSON object as request, and a
    pending time only if it is enabled, time is ready and it does fire then;
    and a registry of 16 entries, each free or a distinct name with a handler.
    Two things are assumed: that the handlers registered keep the invariant
    themselves, and that the cron text of a job added, updated or executed
    keeps clear of the undefined steps of the parser. *)
Theorem cron_call_invariant c s :
  cron_ok s -> call_defined c -> exists s', run_call c s = Some (tt, s') /\ cron_ok s'.
Proof.
  intros Hok Hdef. pose proof Hok as [Hinv _]. assert (Hwp : wp (run_call c) (fun _ s' => cron_ok s') s).
  2:{ apply wp_elim in Hwp as ([] & s' & ? & ?). by exists s'. }
  assert (Hret : forall A (m : C (CronState H) A), wp m (fun _ s' => cron_ok s') s ->
    wp (let* _ := m in cret tt) (fun _ s' => cron_ok s') s) by (intros A m Hm; by wp_step).
  destruct c as [| |json buf|json|id|out| | |m h|m|json out|data]; cbn [run_call]; try apply Hret;
    [by apply init_ok|by apply deinit_ok| | |by apply remove_ok| | | |by apply registered_ok|by apply unregistered_ok|by apply execute_ok; [destruct json|]
    |by apply worker_ok].
  all: apply ok_kept_same; [|done|].
  - destruct json, buf; unfold wukong_cron_job_add, install_job; same_registry_tac.
  - destruct json as [json|]; [|exact Hinv].
    destruct buf as [[|n]|]; [exact Hinv| |exact Hinv].
    eapply wp_mono; [by apply job_add_wp|]. by intros r s' [? _].
  - destruct json; unfold wukong_cron_job_update, install_job; same_registry_tac.
  - destruct json as [json|]; [|exact Hinv].
    eapply wp_mono; [by apply job_update_wp|]. by intros r s' [? _].
  - intros s0 a s1 Hrun. destruct (wp_elim _ _ _ (world_only_list out s0)) as (a' & s1' & Hrun' & w & -> & _). 
    rewrite Hrun in Hrun'. by injection Hrun' as _ ->.
  - eapply wp_mono; [apply world_only_list|]. intros r s' (w & -> & Hw). by apply cron_inv_world.
  - unfold wukong_cron_time_ready_notify. same_registry_tac.
  - eapply wp_mono; [by apply time_ready_wp|]. by intros r s' [? _].
  - unfold __cron_timer_cb. same_registry_tac.
  - eapply wp_mono; [by apply timer_cb_wp|]. by intros r s' [? _].
Qed.

End Timer.
