(* ===== verification/CronDemo.v ===== *)
(** The theorems on the job table at concrete inputs: a service with one job
    "cron-1" at 2026-03-06 10:00:01 (UTC+8), and a job description without an
    id. *)
From stdpp Require Import gmap strings fin_maps.
From S2P Require Import Prelude.
From S2P Require Import Calendar.
From S2P Require Import CStr.
From S2P Require Import CronField.
From S2P Require Import CronParse.
From S2P Require Import CronNext.
From S2P Require Import CronNextCorrect.
From S2P Require Import World.
From S2P Require Import Slots.
From S2P Require Import Json.
From S2P Require Import CronRpc.
From S2P Require Import CronJobs.
From S2P Require Import CronJobsInv.
From S2P Require Import CronJobsApi.
From S2P Require Import CronTimer.

#[local] Open Scope string_scope.
#[local] Open Scope Z_scope.

Definition demo_request : cJSON := JObject [("jsonrpc", JString "2.0"); ("method", JString "tick")].

Definition demo_root : cJSON :=
  JObject [("name", JString "demo"); ("cron", JString "*/15 * * * * *"); ("request", demo_request)].

Definition demo_root_id : cJSON :=
  JObject [("id", JString "cron-1"); ("cron", JString "*/15 * * * * *"); ("request", demo_request)].

#[local] Instance demo_text : JsonText := {
  ty_cJSON_Parse s :=
    if String.eqb s "anonymous" then Some demo_root
    else if String.eqb s "named" then Some demo_root_id else None;
  ty_cJSON_PrintUnformatted _ := Some "{}" }.

Definition demo_time : TIME_T := 1772762401.
Definition quarter_expr : WUKONG_CRON_EXPR_T :=
  mk_expr (2^0 + 2^15 + 2^30 + 2^45) (2^60 - 1) (2^24 - 1) (2^32 - 2) (2^13 - 2) 127.

(** A job due in [next] that fires every quarter minute. *)
Definition demo_job (once : bool) (next : TIME_T) : WUKONG_CRON_JOB_T :=
  mk_job true true once "cron-1" "" "*/15 * * * * *" quarter_expr (Some demo_request) next 0.

Definition demo_state {H} (t : TIME_T) (jobs : list WUKONG_CRON_JOB_T) : CronState H :=
  mk_cron_state (calm_world t) [] (mk_cron_ctx true true false 1 true jobs).

Definition demo_table (j : WUKONG_CRON_JOB_T) : list WUKONG_CRON_JOB_T :=
  j :: replicate 15 job_zero.

Lemma demo_table_wf {H} t j : search_room t -> slot_wf true j -> cron_inv (demo_state (H := H) t (demo_table j)).
Proof.
  intros Ht Hj. split; [|by intros n|done]. split; [done| |done|by vm_compute].
  constructor; [done|]. apply Forall_replicate. by left.
Qed.

Lemma demo_job_wf once : slot_wf true (demo_job once 1772762415).
Proof.
  right. split; [done|done|by vm_compute|by eexists|]. intros _. split_and!; [done..|]. by vm_compute.
Qed.

Lemma demo_room t : 1772762400 <= t <= 1772762500 -> search_room t.
Proof. unfold search_room, max_jump, search_span. lia. Qed.

Lemma demo_distinct j : ids_distinct (demo_table j).
Proof.
  intros [|i] [|i'] a b k v v' Ha Hb Hk Hk'; [done|exfalso..].
  - change (replicate 15 job_zero !! i' = Some b) in Hb. apply lookup_replicate in Hb as [-> _]. done.
  - change (replicate 15 job_zero !! i = Some a) in Ha. apply lookup_replicate in Ha as [-> _]. done.
  - change (replicate 15 job_zero !! i = Some a) in Ha. apply lookup_replicate in Ha as [-> _]. done.
Qed.

Lemma demo_parse_defined s : parse_defined s.
Proof.
  intros root cron Hp. cbn in Hp. repeat case_match; simplify_eq/=; intros [= <-]; by vm_compute.
Qed.

Definition s_empty : CronState nat := demo_state demo_time (demo_table job_zero).
Definition s_job : CronState nat := demo_state demo_time (demo_table (demo_job false 1772762415)).
Definition s_due : CronState nat := demo_state 1772762415 (demo_table (demo_job false 1772762415)).

Lemma s_empty_inv : cron_inv s_empty.
Proof. apply demo_table_wf; [by apply demo_room | by left]. Qed.
Lemma s_job_inv : cron_inv s_job.
Proof. apply demo_table_wf; [by apply demo_room | apply demo_job_wf]. Qed.
Lemma s_due_inv : cron_inv s_due.
Proof. apply demo_table_wf; [by apply demo_room | apply demo_job_wf]. Qed.

Lemma job_add_refines_witness : exists r s',
  wukong_cron_job_add (Some "named") (Some 33%nat) s_empty = Some (r, s') /\
  cron_inv s' /\ ids_distinct (cx_jobs (cs_ctx s')) /\ add_result s_empty "named" 33 s' r.
Proof.
  apply job_add_refines; [exact s_empty_inv | apply demo_distinct | apply demo_parse_defined | by vm_compute].
Defined.

Lemma job_update_refines_witness : exists rt s',
  wukong_cron_job_update (Some "named") s_job = Some (rt, s') /\
  cron_inv s' /\ ids_distinct (cx_jobs (cs_ctx s')) /\ update_result s_job "named" s' rt.
Proof.
  apply job_update_refines; [exact s_job_inv | apply demo_distinct | apply demo_parse_defined].
Defined.

Lemma job_remove_refines_witness : exists rt s',
  wukong_cron_job_remove (Some "cron-1") s_job = Some (rt, s') /\
  cron_inv s' /\ ids_distinct (cx_jobs (cs_ctx s')) /\
  (rt = OPRT_NOT_FOUND /\ jobs_map (cx_jobs (cs_ctx s_job)) !! "cron-1" = None /\ s' = s_job \/
   is_Some (jobs_map (cx_jobs (cs_ctx s_job)) !! "cron-1") /\
   jobs_map (cx_jobs (cs_ctx s')) = delete "cron-1" (jobs_map (cx_jobs (cs_ctx s_job))) /\ rearmed s_job s' rt).
Proof. apply job_remove_refines; [exact s_job_inv | apply demo_distinct]. Defined.

Lemma auto_id_collides_witness : exists s',
  wukong_cron_job_add (Some "anonymous") (Some 33%nat) s_job = Some ((OPRT_OK, "cron-1"), s') /\
  exists i j, i <> 0%nat /\ cx_jobs (cs_ctx s') !! 0%nat = Some (demo_job false 1772762415) /\
    cx_jobs (cs_ctx s') !! i = Some j /\ j_used j = true /\ j_id j = "cron-1".
Proof.
  eexists. split; [vm_compute; reflexivity|].
  eapply (auto_id_collides s_job "anonymous" 32 0 (demo_job false 1772762415) (OPRT_OK, "cron-1"));
    [exact s_job_inv | apply demo_parse_defined | done | done | by vm_compute | by intros root [= <-] |
     vm_compute; reflexivity | done].
Defined.

Lemma timer_cb_correct_witness : exists s' work fx,
  __cron_timer_cb s_due = Some (tt, s') /\
  Forall2 (fired_slot true (cs_world s_due) 1772762415) (cx_jobs (cs_ctx s_due)) (cx_jobs (cs_ctx s')) /\
  work `sublist_of` due_work 1772762415 (cx_jobs (cs_ctx s_due)) /\
  (calls_ok (cs_world s_due) -> work = due_work 1772762415 (cx_jobs (cs_ctx s_due))) /\
  w_trace (cs_world s') = (fx ++ rev work ++ w_trace (cs_world s_due))%list /\
  exists os rt, rearms (ctx_set_in_cb true (cs_ctx s')) (last_clock s') os fx rt.
Proof. exact (timer_cb_correct s_due s_due_inv). Defined.

Lemma time_ready_notify_correct_witness : exists rt s' rt0,
  wukong_cron_time_ready_notify s_job = Some (rt, s') /\
  cx_time_ready (cs_ctx s') = true /\
  notified (cs_world s_job) (cx_jobs (cs_ctx s_job)) (cx_jobs (cs_ctx s')) rt0 /\
  (rt0 = OPRT_OK /\ rearmed s_job s' rt \/
   rt0 <> OPRT_OK /\ rt = rt0 /\ w_trace (cs_world s') = w_trace (cs_world s_job)).
Proof. exact (time_ready_notify_correct s_job s_job_inv). Defined.

(** A handler that removes the job it belongs to, registered as "tick". *)
#[local] Instance removing_handler : RpcInvoke (CronState nat) nat := {
  rpc_invoke _ _ := let* rt := wukong_cron_job_remove (Some "cron-1") in cret (rt, None) }.

Definition s_served : CronState nat :=
  mk_cron_state (calm_world demo_time) (<[0%nat := mk_entry (Some "tick") (Some 7%nat)]> (replicate 16 entry_zero)) (cs_ctx s_job).

Lemma s_served_ok : cron_ok s_served.
Proof.
  split; [by destruct s_job_inv|].
  apply (registry_store (replicate 16 entry_zero) 0 "tick" 7%nat registry_wf_init); [vm_compute; lia | |].
  - intros j e _ He. apply lookup_replicate in He as [-> _]. done.
  - intros e He. apply lookup_replicate in He as [-> _]. by right.
Qed.

(** Executing the request of a description runs that handler: no job is left. *)
Lemma cron_call_invariant_witness :
  exists s', run_call (CallExecute (Some "anonymous") true) s_served = Some (tt, s') /\ cron_ok s'.
Proof.
  apply cron_call_invariant; [|exact s_served_ok|apply demo_parse_defined].
  intros h params s Hs. apply wp_bind. eapply wp_mono; [by apply remove_ok|]. intros rt s' Hs'. by apply wp_ret.
Defined.

Example handler_removed_job :
  match run_call (CallExecute (Some "anonymous") true) s_served with
  | Some (_, s') => List.existsb j_used (cx_jobs (cs_ctx s')) = false
  | None => False
  end.
Proof. by vm_compute. Qed.
