(* ===== verification/OnceJob.v ===== *)
(** One-shot cron jobs: the expression that the time-management features build
    for an instant fires at that instant and at no other for about a year. *)
From S2P Require Import Prelude.
From S2P Require Import Calendar.
From S2P Require Import CStr.
From S2P Require Import CronField.
From S2P Require Import CronParse.
From S2P Require Import CronNext.
From S2P Require Import CronNextCorrect.
From S2P Require Import CronMeaning.
From S2P Require Import World.
From S2P Require Import TmHost.

#[local] Open Scope string_scope.
#[local] Open Scope Z_scope.

(** ** Text *)

Lemma fmt_u_short v : 0 <= v < 60 -> (strlen (fmt_u v) <= 2)%nat.
Proof.
  intros Hv. assert (Hall : forallb (fun n => (strlen (fmt_u (Z.of_nat n)) <=? 2)%nat) (seq 0 60) = true)
    by by vm_compute.
  rewrite forallb_forall in Hall. specialize (Hall (Z.to_nat v)). rewrite Z2Nat.id in Hall by lia.
  apply Nat.leb_le, Hall, in_seq. lia.
Qed.

(** The six fields of an instant, as abstract syntax. *)
Definition once_fields (tm : POSIX_TM_S) : list (list cron_item) :=
  [[ItemOne (tm_sec tm)]; [ItemOne (tm_min tm)]; [ItemOne (tm_hour tm)]; [ItemOne (tm_mday tm)];
   [ItemOne (tm_mon tm + 1)]; [ItemStar None]].

Definition once_text (tm : POSIX_TM_S) : string :=
  fmt_d (tm_sec tm) ++ " " ++ fmt_d (tm_min tm) ++ " " ++ fmt_d (tm_hour tm) ++
  " " ++ fmt_d (tm_mday tm) ++ " " ++ fmt_d (tm_mon tm + 1) ++ " *".

Lemma wf_tm_mday tm : wf_tm tm -> 1 <= tm_mday tm <= 31 /\ 0 <= tm_mon tm < 12.
Proof. intros [_ _ _ [Hm Hd]]. pose proof (days_in_month_le (tm_year tm) (tm_mon tm) Hm). lia. Qed.

Lemma once_text_print tm : wf_tm tm -> once_text tm = print_expr (once_fields tm).
Proof.
  intros Hwf. pose proof (wf_tm_mday tm Hwf) as [Hd Hm]. destruct Hwf as [Hs Hmi Hh _].
  unfold once_text. rewrite !fmt_d_nonneg by lia. reflexivity.
Qed.

Lemma once_text_length tm : wf_tm tm -> (strlen (once_text tm) <= 16)%nat.
Proof.
  intros Hwf. pose proof (wf_tm_mday tm Hwf) as [Hd Hm]. destruct Hwf as [Hs Hmi Hh _].
  unfold once_text. rewrite !fmt_d_nonneg, !strlen_app by lia.
  pose proof (fmt_u_short (tm_sec tm)). pose proof (fmt_u_short (tm_min tm)). pose proof (fmt_u_short (tm_hour tm)).
  pose proof (fmt_u_short (tm_mday tm)). pose proof (fmt_u_short (tm_mon tm + 1)).
  change (strlen " ") with 1%nat. change (strlen " *") with 2%nat. lia.
Qed.

Lemma once_fields_ok tm : wf_tm tm ->
  fields_ok [ItemOne (tm_sec tm)] [ItemOne (tm_min tm)] [ItemOne (tm_hour tm)] [ItemOne (tm_mday tm)]
    [ItemOne (tm_mon tm + 1)] [ItemStar None].
Proof.
  intros Hwf. pose proof (wf_tm_mday tm Hwf) as [Hd Hm]. destruct Hwf as [Hs Hmi Hh _].
  split; (split; [done|]); repeat constructor; cbn; unfold step_ok, INT_MAX; cbn; lia.
Qed.

Lemma once_parse tm : wf_tm tm ->
  exists e, wukong_cron_expr_parse (once_text tm) = Some (OPRT_OK, e) /\
    expr_denotes [ItemOne (tm_sec tm)] [ItemOne (tm_min tm)] [ItemOne (tm_hour tm)] [ItemOne (tm_mday tm)]
      [ItemOne (tm_mon tm + 1)] [ItemStar None] e.
Proof.
  intros Hwf. rewrite once_text_print by done. apply expr_parse_print; [by apply once_fields_ok|].
  change (strlen (print_expr (once_fields tm)) < WUKONG_CRON_EXPR_MAX_LEN)%nat.
  rewrite <- (once_text_print tm) by done. pose proof (once_text_length tm Hwf).
  unfold WUKONG_CRON_EXPR_MAX_LEN. lia.
Qed.

(** ** Timing *)

Section Timing.
Context `{FZ : FixedZone off mkoff}.

(** What the expression of an instant matches: the same second of the year. *)
Definition same_moment (a b : POSIX_TM_S) : Prop :=
  tm_sec a = tm_sec b /\ tm_min a = tm_min b /\ tm_hour a = tm_hour b /\ tm_mday a = tm_mday b /\ tm_mon a = tm_mon b.

Lemma field_full_one min max v : min < max < 64 -> field_full min max [ItemOne v] = false.
Proof.
  intros Hm. apply not_true_iff_false. rewrite field_full_spec by lia. intros Hall.
  pose proof (Hall min ltac:(lia)) as H1. pose proof (Hall max ltac:(lia)) as H2. cbn in H1, H2. lia.
Qed.

Lemma field_full_star min max : 0 <= min <= max -> max < 64 -> field_full min max [ItemStar None] = true.
Proof.
  intros Hm Hx. apply field_full_spec; [lia|]. intros i Hi. cbn. unfold in_range. rewrite Z.mod_1_r. lia.
Qed.

Lemma once_match tm e u : wf_tm tm -> 
  expr_denotes [ItemOne (tm_sec tm)] [ItemOne (tm_min tm)] [ItemOne (tm_hour tm)] [ItemOne (tm_mday tm)]
    [ItemOne (tm_mon tm + 1)] [ItemStar None] e ->
  86400 <= u < 2 ^ 32 - 86400 -> fires_at e u = true <-> same_moment tm (local_tm u).
Proof.
  intros Hwf He Hu. destruct (local_tm_spec u Hu) as (_ & Hwu & _ & Hwd). unfold fires_at.
  pose proof (Z.mod_pos_bound (tm_days (local_tm u) + 4) 7) as Hw7.
  rewrite (match_meaning _ _ _ _ _ _ _ _ (once_fields_ok tm Hwf) He Hwu) by (rewrite Hwd; lia).
  unfold cron_meaning, day_rule. rewrite field_full_one, field_full_star by lia. unfold field_denotes. cbn [existsb item_denotes].
  rewrite !orb_false_r, !andb_true_iff, !Z.eqb_eq. unfold same_moment. intuition lia.
Qed.

(** Two different instants with the same second of the year are at least 364
    days apart. *)
Lemma year_gap y n : 365 * Z.of_nat n <= days_before_year (y + Z.of_nat n) - days_before_year y.
Proof.
  induction n as [|n IH]; [rewrite Z.add_0_r; lia|]. pose proof (year_days (y + Z.of_nat n)).
  rewrite Nat2Z.inj_succ. replace (y + Z.succ (Z.of_nat n)) with (y + Z.of_nat n + 1) by lia. lia.
Qed.

Lemma same_moment_gap a b : 86400 <= a -> a < b -> b < 2 ^ 32 - 86400 ->
  same_moment (local_tm a) (local_tm b) -> 364 * 86400 <= b - a.
Proof.
  intros Ha Hab Hb (Hs & Hmi & Hh & Hd & Hm).
  destruct (local_tm_linear a) as (Hla & _); [lia|]. destruct (local_tm_linear b) as (Hlb & _); [lia|].
  destruct (local_tm_spec a) as (_ & Hwa & _); [lia|]. destruct (local_tm_spec b) as (_ & Hwb & _); [lia|].
  assert (Hdays : tm_days (local_tm a) < tm_days (local_tm b)) by lia.
  enough (364 <= tm_days (local_tm b) - tm_days (local_tm a)) by lia.
  unfold tm_days, day_number in *. rewrite <- Hd, <- Hm in *.
  set (ya := tm_year (local_tm a)) in *. set (yb := tm_year (local_tm b)) in *. set (m := tm_mon (local_tm a)) in *.
  assert (Hleap : forall y y', days_before_month y m <= days_before_month y' m + 1).
  { intros y y'. unfold days_before_month. destruct (_ && __is_leap_year y), (_ && __is_leap_year y'); lia. }
  pose proof (Hleap ya yb). pose proof (Hleap yb ya).
  destruct (Z.lt_trichotomy ya yb) as [Hlt|[Heq|Hgt]].
  - pose proof (year_gap ya (Z.to_nat (yb - ya))) as Hg. rewrite Z2Nat.id in Hg by lia.
    replace (ya + (yb - ya)) with yb in Hg by lia. lia.
  - rewrite Heq in *. lia.
  - pose proof (year_gap yb (Z.to_nat (ya - yb))) as Hg. rewrite Z2Nat.id in Hg by lia.
    replace (yb + (ya - yb)) with ya in Hg by lia. lia.
Qed.

Lemma same_moment_refl tm : same_moment tm tm.
Proof. done. Qed.

Lemma build_cron_expr_eq ts : 86400 <= ts < 2 ^ 32 - 86400 ->
  build_cron_expr ts 32 = (OPRT_OK, once_text (local_tm ts)).
Proof.
  intros Hts. destruct (local_tm_spec ts Hts) as (Hg & Hwf & _). unfold build_cron_expr. cbn [Nat.eqb].
  rewrite Hg. cbn [negb]. change (negb (OPRT_OK =? OPRT_OK)) with false. cbv iota. fold (once_text (local_tm ts)).
  rewrite strtrunc_id; [done|]. pose proof (once_text_length _ Hwf). cbn. lia.
Qed.

(** The expression of an instant, and what the search makes of it from less than
    364 days earlier. *)
Lemma once_job_fires ts from : search_room from -> search_room ts ->
  exists expr e, build_cron_expr ts 32 = (OPRT_OK, expr) /\ wukong_cron_expr_parse expr = Some (OPRT_OK, e) /\
    (forall u, 86400 <= u < 2 ^ 32 - 86400 -> fires_at e u = true <-> same_moment (local_tm ts) (local_tm u)) /\
    (ts - 364 * 86400 < from < ts -> wukong_cron_expr_next_fire e from = Some (OPRT_OK, ts)).
Proof.
  unfold search_room, max_jump. intros Hfrom Hts. assert (Hspan : search_span = 158112000) by reflexivity.
  assert (Hr : 86400 <= ts < 2 ^ 32 - 86400) by lia.
  destruct (local_tm_spec ts Hr) as (_ & Hwf & _). destruct (once_parse _ Hwf) as (e & Hp & Hden).
  assert (Hfire : forall u, 86400 <= u < 2 ^ 32 - 86400 -> fires_at e u = true <-> same_moment (local_tm ts) (local_tm u))
    by (intros u Hu; by apply once_match).
  exists (once_text (local_tm ts)), e. split; [by apply build_cron_expr_eq|]. split; [done|]. split; [done|]. intros Hb.
  destruct (next_fire_search e from) as (r & Hr' & Hspec);
    [by eapply expr_parse_wf | unfold search_room, max_jump; lia|]. rewrite Hr'.
  assert (Hat : fires_at e ts = true) by by apply Hfire.
  destruct Hspec as [(Hok & Hrange & Hf & Hno)|[-> Hno]].
  2:{ rewrite Hno in Hat; [done|lia]. }
  destruct r as [rt t]. cbn in *. subst rt. do 2 f_equal.
  destruct (Z.lt_trichotomy t ts) as [Hlt|[->|Hgt]]; [|done|].
  - apply Hfire in Hf; [|lia]. assert (Hsym : same_moment (local_tm t) (local_tm ts))
      by (unfold same_moment in *; intuition).
    apply same_moment_gap in Hsym; lia.
  - rewrite Hno in Hat; [done|lia].
Qed.

(** The one-shot expression built for an instant is accepted by the cron
    parser; scheduled from any earlier second within 364 days it fires exactly
    at that instant; but scheduled from that second or later it does not fire
    again for at least 364 days after the instant: a clock tick between computing the
    instant and adding the job loses the job for a year. *)
Theorem once_job_timing ts from : search_room from -> search_room ts ->
  exists expr e, build_cron_expr ts 32 = (OPRT_OK, expr) /\ wukong_cron_expr_parse expr = Some (OPRT_OK, e) /\
    (ts - 364 * 86400 < from < ts -> wukong_cron_expr_next_fire e from = Some (OPRT_OK, ts)) /\
    (ts <= from -> forall t, wukong_cron_expr_next_fire e from = Some (OPRT_OK, t) -> ts + 364 * 86400 <= t).
Proof.
  intros Hfrom Hts. destruct (once_job_fires ts from Hfrom Hts) as (expr & e & Hb & Hp & Hfire & Hnext).
  exists expr, e. split; [done|]. split; [done|]. split; [done|]. intros Hle t Ht.
  destruct (next_fire_search e from) as (r & Hr' & Hspec); [by eapply expr_parse_wf|done|].
  rewrite Hr' in Ht. injection Ht as ->. unfold search_room, max_jump in *.
  assert (Hspan : search_span = 158112000) by reflexivity.
  destruct Hspec as [(_ & Hrange & Hf & _)|[[=] _]]. cbn in Hrange, Hf.
  apply Hfire in Hf; [|lia]. apply same_moment_gap in Hf; lia.
Qed.

End Timing.

(** An instant ten seconds from 2026-03-06 10:00:01 (UTC+8). *)
Lemma once_job_timing_witness :
  exists expr e, build_cron_expr 1772762411 32 = (OPRT_OK, expr) /\ wukong_cron_expr_parse expr = Some (OPRT_OK, e) /\
    (1772762411 - 364 * 86400 < 1772762401 < 1772762411 ->
       wukong_cron_expr_next_fire e 1772762401 = Some (OPRT_OK, 1772762411)) /\
    (1772762411 <= 1772762401 -> forall t, wukong_cron_expr_next_fire e 1772762401 = Some (OPRT_OK, t) ->
       1772762411 + 364 * 86400 <= t).
Proof.
  apply (once_job_timing (off := zone8_off) (mkoff := 0)); unfold search_room; vm_compute; split; congruence.
Defined.
