(* ===== verification/TmStore.v ===== *)
(** What reminders and alarms share: the key-value store they are kept in, the
    documents written there, the escaping of message texts, and the event that
    tells the user interface to read the table again. *)
From stdpp Require Import gmap strings fin_maps.
From S2P Require Import Prelude.
From S2P Require Import CStr.
From S2P Require Import World.
From S2P Require Import Slots.
From S2P Require Import Json.
From S2P Require Import TmHost.

#[local] Open Scope string_scope.
#[local] Open Scope Z_scope.

(** ** The key-value store (tuya_ws_db.h)

    What is written with success is what a later successful read returns. *)

Class KvStore (K : Type) := {
  wd_common_write : string -> string -> C K OPERATE_RET;
  wd_common_read : string -> C K (OPERATE_RET * string);
  kv_kept : K -> string -> option string }.

Class KvStoreLaws (K : Type) `{!KvStore K} : Prop := {
  kv_write_law : forall key text k, wp (wd_common_write key text) (fun rt k' => forall key',
    kv_kept k' key' = if (rt =? OPRT_OK) && String.eqb key' key then Some text else kv_kept k key') k;
  kv_read_law : forall key k, wp (wd_common_read key) (fun r k' =>
    (forall key', kv_kept k' key' = kv_kept k key') /\
    (fst r = OPRT_OK -> kv_kept k key = Some (snd r))) k }.

(** Reading one number of a stored item. *)
Definition number_or (item : cJSON) (name : string) (d : Q) : Q :=
  match ty_cJSON_GetObjectItem item name with Some (JNumber n) => n | _ => d end.

(** Converting a double to TIME_T: undefined outside its range. *)
Definition to_time (d : Q) : option TIME_T :=
  let n := truncated d in if (0 <=? n) && (n <? 2 ^ 32) then Some n else None.

Lemma to_time_int (n : Z) : is_u32 n -> to_time n = Some n.
Proof. intros Hn. unfold to_time, is_u32 in *. rewrite truncated_int. cbv zeta. if_true (lia). done. Qed.

Lemma to_time_u32 d t : to_time d = Some t -> is_u32 t.
Proof. unfold to_time, is_u32. cbv zeta. destruct (_ && _) eqn:Ht; [|done]. intros [= <-]. lia. Qed.

(** The addresses of the tables, which the list events carry. *)
Class TmLayout := { s_reminder_items : Z; s_alarm_alarms : Z }.

(** ** A feature that keeps its table: its context, the store, the device *)

Section Stored.
Context {X K W : Type} `{KS : KvStore K} `{TH : TmHost W}.
Abbreviation M := (C (X * (K * W))).

Definition on_store {A} (m : C K A) : M A :=
  on_host (fun '(k, w) => match m k with Some (a, k') => Some (a, (k', w)) | None => None end).
Definition on_dev {A} (m : C W A) : M A := on_host (on_host m).

(** Adding to a document: dropped when the member cannot be allocated. *)
Definition json_add (obj : cJSON) (name : string) (v : cJSON) : M cJSON :=
  let* ok := on_dev th_malloc in cret (if ok then ty_cJSON_AddItemToObject obj name v else obj).

(** *** Rules *)

Lemma wp_store {A} (m : C K A) (Q : A -> X * (K * W) -> Prop) x k w :
  wp m (fun a k' => Q a (x, (k', w))) k -> wp (on_store m) Q (x, (k, w)).
Proof. intros H. apply wp_host. revert H. unfold wp. destruct (m k) as [[a k']|]; done. Qed.

Lemma wp_dev {A} (m : C W A) P (Q : A -> X * (K * W) -> Prop) x k w :
  quiet m P -> th_ok w ->
  (forall a w', th_ok w' -> th_sent w' = th_sent w -> P a -> Q a (x, (k, w'))) -> wp (on_dev m) Q (x, (k, w)).
Proof. intros Hm Hw HQ. apply wp_host. by eapply wp_quiet. Qed.

Lemma wp_clock `{!TmHostLaws W} (Q : TIME_T -> X * (K * W) -> Prop) x k w :
  th_ok w ->
  (forall w', th_ok w' -> th_sent w' = th_sent w -> is_u32 (th_clock w) -> Q (th_clock w) (x, (k, w'))) ->
  wp (on_dev th_posix) Q (x, (k, w)).
Proof. intros Hw HQ. apply wp_host. by apply posix_wp. Qed.

Lemma wp_notify `{!TmHostLaws W} e m (Q : unit -> X * (K * W) -> Prop) x k w :
  th_ok w ->
  (forall w', th_ok w' -> th_sent w' = (e, m) :: th_sent w -> Q tt (x, (k, w'))) ->
  wp (on_dev (wukong_ai_event_notify e m)) Q (x, (k, w)).
Proof.
  intros Hw HQ. apply wp_host, wp_host. eapply wp_mono; [by apply th_notify_law|].
  intros [] w' [? ?]. by apply HQ.
Qed.

(** *** The list event: operation code, address and size of the table. *)

Definition list_msg (opr_tag item_tag count_tag : WUKONG_TM_TAG_TYPE_E) (items count : Z) : list Z :=
  let msg := __tm_tlv_pack [] (tag_code opr_tag) 1 (le_bytes 4 (opr_code WUKONG_TM_TIMER_OPR_SYNC_LIST)) in
  let msg := __tm_tlv_pack msg (tag_code item_tag) 4 (le_bytes 4 items) in
  __tm_tlv_pack msg (tag_code count_tag) 1 (le_bytes 1 count).

(** The body of __reminder_store_notify and __alarm_store_notify. *)
Definition store_notify (event : WUKONG_AI_EVENT_TYPE_E) (msg : list Z) : M OPERATE_RET :=
  let* ok := on_dev th_malloc in
  if negb ok then cret OPRT_MALLOC_FAILED
  else let* _ := on_dev (wukong_ai_event_notify event msg) in cret OPRT_OK.

Lemma store_notify_wp `{!TmHostLaws W} event msg (Q : OPERATE_RET -> X * (K * W) -> Prop) x k w :
  th_ok w ->
  (forall rt w', th_ok w' -> th_sent w' = th_sent w \/ th_sent w' = (event, msg) :: th_sent w -> Q rt (x, (k, w'))) ->
  wp (store_notify event msg) Q (x, (k, w)).
Proof.
  intros Hw HQ. unfold store_notify. wp_step. eapply wp_dev; [apply th_malloc_law|done|].
  intros [] w1 Hw1 Hs1 _; cbn [negb]; [|wp_step; auto].
  wp_step. apply wp_notify; [done|]. intros w2 Hw2 Hs2. wp_step. apply HQ; [done|]. right. congruence.
Qed.

(** *** Allocation never fails: then what is added to a document is there. *)

Definition heap_ok : Prop := quiet th_malloc (fun ok => ok = true).

Lemma json_add_wp `{!TmHostLaws W} obj name v (Q : cJSON -> X * (K * W) -> Prop) x k w :
  th_ok w ->
  (forall obj' w', th_ok w' -> th_sent w' = th_sent w ->
     obj' = obj \/ obj' = ty_cJSON_AddItemToObject obj name v -> Q obj' (x, (k, w'))) ->
  wp (json_add obj name v) Q (x, (k, w)).
Proof.
  intros Hw HQ. unfold json_add. wp_step. eapply wp_dev; [apply th_malloc_law|done|].
  intros ok w1 Hw1 Hs1 _. wp_step. apply HQ; [done..|]. destruct ok; auto.
Qed.

Lemma json_add_ok_wp obj name v (Q : cJSON -> X * (K * W) -> Prop) x k w :
  heap_ok -> th_ok w ->
  (forall w', th_ok w' -> th_sent w' = th_sent w -> Q (ty_cJSON_AddItemToObject obj name v) (x, (k, w'))) ->
  wp (json_add obj name v) Q (x, (k, w)).
Proof.
  intros Hh Hw HQ. unfold json_add. wp_step. eapply wp_dev; [exact Hh|done|].
  intros ok w1 Hw1 Hs1 ->. wp_step. by apply HQ.
Qed.

End Stored.

(** ** What an operation on a table leaves alone

    Only the value under [key] changes in the store, and every event sent
    satisfies [P]. *)
Section Frame.
Context {K W : Type} `{KS : KvStore K} `{TH : TmHost W}.
Context (key : string) (P : WUKONG_AI_EVENT_TYPE_E * list Z -> Prop).

Definition frame (k : K) (w : W) (k' : K) (w' : W) : Prop :=
  (forall key', key' <> key -> kv_kept k' key' = kv_kept k key') /\
  exists events, th_sent w' = (events ++ th_sent w)%list /\ Forall P events.

Lemma frame_quiet k w w' : th_sent w' = th_sent w -> frame k w k w'.
Proof. intros H. split; [done|]. exists []. by rewrite H. Qed.

Lemma frame_event k w e w' : P e -> th_sent w' = e :: th_sent w -> frame k w k w'.
Proof. intros He H. split; [done|]. exists [e]. rewrite H. split; [done|]. by constructor. Qed.

Lemma frame_write k w k' w' : (forall key', key' <> key -> kv_kept k' key' = kv_kept k key') ->
  th_sent w' = th_sent w -> frame k w k' w'.
Proof. intros Hk H. split; [done|]. exists []. by rewrite H. Qed.

Lemma frame_trans k1 w1 k2 w2 k3 w3 : frame k1 w1 k2 w2 -> frame k2 w2 k3 w3 -> frame k1 w1 k3 w3.
Proof.
  intros [Hk (es & Hs & HP)] [Hk' (es' & Hs' & HP')]. split.
  - intros key' Hne. by rewrite Hk', Hk.
  - exists (es' ++ es)%list. rewrite Hs', Hs, app_assoc. split; [done|]. by apply Forall_app.
Qed.
End Frame.

(** ** Escaping *)

(** The copying loop of __json_escape_text and __alarm_escape_message, [esc]
    being the character written after a backslash, [dst] the text so far. *)
Fixpoint escape_loop (esc : ascii -> option ascii) (src dst : string) (dst_len : nat) : OPERATE_RET * string :=
  match src with
  | EmptyString => (OPRT_OK, dst)
  | String ch src =>
      match esc ch with
      | Some e =>
          if (dst_len <=? strlen dst + 2)%nat then (OPRT_COM_ERROR, dst)
          else escape_loop esc src (dst ++ String "\" (String e "")) dst_len
      | None =>
          if (dst_len <=? strlen dst + 1)%nat then (OPRT_COM_ERROR, dst)
          else escape_loop esc src (dst ++ String ch "") dst_len
      end
  end.

(** The escaped text. *)
Fixpoint escaped (esc : ascii -> option ascii) (s : string) : string :=
  match s with
  | EmptyString => ""
  | String ch s =>
      match esc ch with
      | Some e => String "\" (String e (escaped esc s))
      | None => String ch (escaped esc s)
      end
  end.

(** What a JSON parser makes of the inside of a string literal ([None]: a bare
    quote, or an escape it does not know; \u is not used here). *)
Definition unescape_char (e : ascii) : option ascii :=
  let n := nat_of_ascii e in
  if (n =? 34)%nat || (n =? 92)%nat || (n =? 47)%nat then Some e
  else if (n =? 110)%nat then Some (ascii_of_nat 10)
  else if (n =? 114)%nat then Some (ascii_of_nat 13)
  else if (n =? 116)%nat then Some (ascii_of_nat 9)
  else if (n =? 98)%nat then Some (ascii_of_nat 8)
  else if (n =? 102)%nat then Some (ascii_of_nat 12)
  else None.

Fixpoint unescape (s : string) : option string :=
  match s with
  | EmptyString => Some ""
  | String a s =>
      if Ascii.eqb a (ascii_of_nat 34) then None
      else if Ascii.eqb a "\" then
        match s with
        | EmptyString => None
        | String e s =>
            match unescape_char e, unescape s with Some c, Some t => Some (String c t) | _, _ => None end
        end
      else match unescape s with Some t => Some (String a t) | None => None end
  end.

(** Quote and backslash are escaped, and escapes mean what they stand for. *)
Definition escapes_well (esc : ascii -> option ascii) : Prop :=
  forall a, match esc a with
            | Some e => unescape_char e = Some a
            | None => Ascii.eqb a (ascii_of_nat 34) = false /\ Ascii.eqb a "\" = false
            end.

Lemma unescape_escaped esc s : escapes_well esc -> unescape (escaped esc s) = Some s.
Proof.
  intros He. induction s as [|a s IH]; [done|]. cbn [escaped]. specialize (He a). destruct (esc a) as [e|].
  - cbn [unescape]. change (Ascii.eqb "\" (ascii_of_nat 34)) with false. change (Ascii.eqb "\" "\") with true.
    cbv iota. by rewrite He, IH.
  - destruct He as [Hq Hb]. cbn [unescape]. by rewrite Hq, Hb, IH.
Qed.

Lemma escaped_length esc s : (strlen (escaped esc s) <= 2 * strlen s)%nat.
Proof. unfold strlen. induction s as [|a s IH]; [done|]. cbn [escaped]. destruct (esc a); cbn; lia. Qed.

(** The loop computes the escaped text when there is room for it. *)
Lemma escape_loop_ok esc s dst n : (strlen dst + 2 * strlen s < n)%nat ->
  escape_loop esc s dst n = (OPRT_OK, dst ++ escaped esc s).
Proof.
  revert dst. induction s as [|a s IH]; intros dst Hn; cbn [escape_loop escaped]; [by rewrite app_nil_r_str|].
  change (strlen (String a s)) with (S (strlen s)) in Hn. destruct (esc a) as [e|].
  - if_false (apply Nat.leb_gt; lia). rewrite IH, <- app_assoc_str; [done|].
    rewrite strlen_app. change (strlen (String "\" (String e ""))) with 2%nat. lia.
  - if_false (apply Nat.leb_gt; lia). rewrite IH, <- app_assoc_str; [done|].
    rewrite strlen_app. change (strlen (String a "")) with 1%nat. lia.
Qed.

(** ** Tables of eight slots *)

Section Table.
Context {A : Type} (P : A -> bool).

(** The first index of the table whose slot satisfies a test. *)
Definition first_slot (l : list A) : option nat := fst <$> list_find (fun a => P a = true) l.

Lemma first_slot_Some l i : first_slot l = Some i ->
  exists a, l !! i = Some a /\ P a = true /\ forall j b, (j < i)%nat -> l !! j = Some b -> P b = false.
Proof.
  unfold first_slot. destruct (list_find _ l) as [[j a]|] eqn:Hf; [|done]. intros [= <-].
  apply list_find_Some in Hf as (Hl & Ha & Hb). exists a. split; [done|]. split; [done|].
  intros j' b Hj Hlb. apply not_true_is_false. by eapply Hb.
Qed.

Lemma first_slot_None l : first_slot l = None -> forall i a, l !! i = Some a -> P a = false.
Proof.
  unfold first_slot. destruct (list_find _ l) as [[j a]|] eqn:Hf; [done|]. intros _ i a Hl.
  apply list_find_None in Hf. rewrite Forall_lookup in Hf. apply not_true_is_false. by eapply Hf.
Qed.
End Table.

(** A table whose used slots carry a name and a value: the finite map it
    represents, and what the searches and stores mean there. *)
Section Keyed.
Context {A B : Type} (used : A -> bool) (name : A -> string) (val : A -> B).
Implicit Types (l : list A) (a : A).

Definition table_kv a : option (string * B) := if used a then Some (name a, val a) else None.
Definition is_named (id : string) a : bool := used a && String.eqb (name a) id.
Definition is_free a : bool := negb (used a).

Abbreviation distinct := (slots_distinct table_kv).
Abbreviation tmap := (slots_map table_kv).

Lemma table_kv_Some a k v : table_kv a = Some (k, v) <-> used a = true /\ name a = k /\ val a = v.
Proof. unfold table_kv. destruct (used a).
  - split; [by intros [= <- <-]|by intros (_ & <- & <-)].
  - by split; [|intros [? _]].
Qed.

Lemma find_named_Some l id i : distinct l -> first_slot (is_named id) l = Some i ->
  exists a, l !! i = Some a /\ used a = true /\ name a = id /\ tmap l !! id = Some (val a).
Proof.
  intros Hd (a & Hi & Ha & _)%first_slot_Some. unfold is_named in Ha.
  apply andb_true_iff in Ha as [Hu Hn]. apply String.eqb_eq in Hn. exists a. split_and!; [done..|].
  apply slots_map_lookup; [done|]. exists i, a. split; [done|]. by apply table_kv_Some.
Qed.

Lemma find_named_None l id : distinct l -> first_slot (is_named id) l = None -> tmap l !! id = None.
Proof.
  intros Hd Hf. apply slots_map_None; [|done]. intros i a v Hi (Hu & Hn & _)%table_kv_Some.
  pose proof (first_slot_None _ _ Hf i a Hi) as Ha. unfold is_named in Ha. by rewrite Hu, Hn, String.eqb_refl in Ha.
Qed.

Lemma tmap_size_le l : (size (tmap l) <= length l)%nat.
Proof.
  induction l as [|a l IH]; [done|]. cbn [slots_map length].
  destruct (table_kv a) as [[k v]|]; [|lia]. rewrite map_size_insert. case_match; unfold id; lia.
Qed.

Lemma find_free_Some l i : first_slot is_free l = Some i ->
  exists a, l !! i = Some a /\ used a = false /\ (size (tmap l) < length l)%nat.
Proof.
  intros (a & Hi & Ha & _)%first_slot_Some. apply negb_true_iff in Ha. exists a. split_and!; [done..|].
  revert i Hi. induction l as [|b l IH]; intros i Hi; [done|]. cbn [slots_map length]. destruct i as [|i].
  - injection Hi as ->. unfold table_kv at 1. rewrite Ha. pose proof (tmap_size_le l). lia.
  - specialize (IH i Hi). destruct (table_kv b) as [[k v]|]; [|lia]. rewrite map_size_insert. case_match; unfold id; lia.
Qed.

Lemma find_free_None l : distinct l -> first_slot is_free l = None -> size (tmap l) = length l.
Proof.
  intros Hd Hf. apply slots_map_size; [|done]. intros i a Hi. pose proof (first_slot_None _ _ Hf i a Hi) as Ha.
  apply negb_false_iff in Ha. exists (name a, val a). by apply table_kv_Some.
Qed.

Lemma table_overwrite l i a a' : distinct l -> l !! i = Some a -> used a = true -> used a' = true -> name a' = name a ->
  distinct (<[i := a']> l) /\ tmap (<[i := a']> l) = <[name a := val a']> (tmap l).
Proof.
  intros Hd Hi Hu Hu' Hn. apply slots_store; [done|by eapply lookup_lt_Some| | |].
  - by apply table_kv_Some.
  - intros j b v Hj Hb Hk. apply Hj. eapply Hd; [exact Hb|exact Hi|exact Hk|by apply table_kv_Some].
  - intros b k v Hb (_ & <- & _)%table_kv_Some. congruence.
Qed.

Lemma table_fill l i a a' : distinct l -> l !! i = Some a -> used a = false -> used a' = true ->
  tmap l !! name a' = None ->
  distinct (<[i := a']> l) /\ tmap (<[i := a']> l) = <[name a' := val a']> (tmap l).
Proof.
  intros Hd Hi Hu Hu' Hn. apply slots_store; [done|by eapply lookup_lt_Some| | |].
  - by apply table_kv_Some.
  - intros j b v Hj Hb Hk. assert (tmap l !! name a' = Some v); [|congruence].
    apply slots_map_lookup; [done|]. eauto.
  - intros b k v Hb (Hub & _)%table_kv_Some. congruence.
Qed.

Lemma table_erase l i a a' : distinct l -> l !! i = Some a -> used a = true -> used a' = false ->
  distinct (<[i := a']> l) /\ tmap (<[i := a']> l) = delete (name a) (tmap l).
Proof.
  intros Hd Hi Hu Hu'. apply (slots_clear table_kv l i a' a (name a) (val a)); [done|done|by apply table_kv_Some|].
  unfold table_kv. by rewrite Hu'.
Qed.

Lemma table_vacate l i a a' : distinct l -> l !! i = Some a -> used a = false -> used a' = false ->
  distinct (<[i := a']> l) /\ tmap (<[i := a']> l) = tmap l.
Proof. intros Hd Hi Hu Hu'. apply (slots_same table_kv l i a' a); [done..|]. unfold table_kv. by rewrite Hu, Hu'. Qed.

Lemma used_In l a : a ∈ List.filter used l <-> a ∈ l /\ used a = true.
Proof. rewrite !list_elem_of_In. apply List.filter_In. Qed.

Lemma used_names l : distinct l -> NoDup (map name (List.filter used l)).
Proof.
  induction l as [|a l IH]; intros Hd; [constructor|]. cbn [List.filter].
  specialize (IH (slots_distinct_tail _ _ _ Hd)). destruct (used a) eqn:Hu; [|done]. cbn [map]. apply NoDup_cons. split; [|done].
  intros (b & Hn & [Hb Hub]%used_In)%list_elem_of_fmap. apply list_elem_of_lookup_1 in Hb as [i Hi].
  assert (0%nat = S i); [|done]. eapply (Hd 0%nat (S i)); [done|exact Hi| |]; by apply table_kv_Some.
Qed.

(** An empty table. *)
Lemma table_empty n a : used a = false -> distinct (replicate n a) /\ tmap (replicate n a) = ∅.
Proof.
  intros Hu. split.
  - intros i j b c k v v' Hi _ Hk. apply lookup_replicate in Hi as [-> _]. apply table_kv_Some in Hk as [? _]. congruence.
  - induction n as [|n IH]; [done|]. cbn. unfold table_kv at 1. by rewrite Hu.
Qed.
End Keyed.
