(* ===== verification/TmAlarm.v ===== *)
(** The alarms of src/wukong/tm/wukong_tm_alarm.c. *)
From S2P Require Import Prelude.
From S2P Require Import Calendar.
From S2P Require Import CStr.
From S2P Require Import World.
From S2P Require Import Json.
From S2P Require Import TmHost.
From S2P Require Import TmStore.

#[local] Open Scope string_scope.
#[local] Open Scope Z_scope.

Definition WUKONG_TM_ALARM_ID_LEN : nat := 32.
Definition WUKONG_TM_ALARM_CRON_JOB_ID_LEN : nat := 32.
Definition WUKONG_TM_ALARM_MESSAGE_LEN : nat := 128.
Definition WUKONG_TM_ALARM_MAX_COUNT : nat := 8.
Definition WUKONG_TM_ALARM_FIRE_METHOD : string := "alarm.fire".
Definition WUKONG_TM_ALARM_SNOOZE_TIMEOUT_METHOD : string := "alarm.snooze.timeout".
Definition WUKONG_TM_ALARM_SNOOZE_FIRE_METHOD : string := "alarm.snooze.fire".
Definition WUKONG_TM_ALARM_ACK_TIMEOUT_SEC : Z := 30.
Definition WUKONG_TM_ALARM_SNOOZE_DELAY_SEC : Z := 300.
Definition WUKONG_TM_ALARM_SNOOZE_MAX_COUNT : Z := 3.
Definition WUKONG_TM_ALARM_KV_KEY : string := "wk_tm_alarms".
Definition WUKONG_TM_ALARM_ONCE_DAY_SEC : Z := 86400.
Definition ALARM_CRON_BUF_SIZE : nat := 768.

(** WUKONG_TM_ALARM_REPEAT_TYPE_E; stored alarms may carry any integer. *)
Definition WUKONG_TM_ALARM_REPEAT_ONCE : Z := 0.
Definition WUKONG_TM_ALARM_REPEAT_DAILY : Z := 1.
Definition WUKONG_TM_ALARM_REPEAT_WEEKLY : Z := 2.
Definition WUKONG_TM_ALARM_REPEAT_MONTHLY : Z := 3.

Record WUKONG_TM_ALARM_CFG_T := mk_acfg {
  ac_enabled : bool; ac_repeat_type : Z; ac_hour : Z; ac_minute : Z; ac_weekday_mask : Z; ac_month_day : Z;
  ac_start_time : TIME_T; ac_message : string; ac_cron_job_id : string }.

Record WUKONG_TM_ALARM_ITEM_T := mk_alarm {
  al_used : bool; al_alarm_id : string; al_cfg : WUKONG_TM_ALARM_CFG_T; al_is_ringing : bool; al_ring_seq : Z;
  al_ack_timeout_job_id : string; al_snooze_job_id : string }.

Record WUKONG_TM_ALARM_CTX_T := mk_actx {
  ax_initialized : bool; ax_next_alarm_seq : Z; ax_alarms : list WUKONG_TM_ALARM_ITEM_T }.

(** The static variables of the file. *)
Record ALARM_STATICS := mk_as {
  s_alarm_ctx : WUKONG_TM_ALARM_CTX_T;
  s_alarm_snooze_enabled : bool; s_alarm_ring_duration_sec : Z; s_alarm_snooze_delay_sec : Z;
  s_alarm_max_snooze_count : Z }.

Definition acfg_zero : WUKONG_TM_ALARM_CFG_T := mk_acfg false 0 0 0 0 0 0 "" "".
Definition alarm_zero : WUKONG_TM_ALARM_ITEM_T := mk_alarm false "" acfg_zero false 0 "" "".
Definition actx_zero : WUKONG_TM_ALARM_CTX_T := mk_actx false 0 (replicate WUKONG_TM_ALARM_MAX_COUNT alarm_zero).
Definition alarm_statics_boot : ALARM_STATICS :=
  mk_as actx_zero true WUKONG_TM_ALARM_ACK_TIMEOUT_SEC WUKONG_TM_ALARM_SNOOZE_DELAY_SEC WUKONG_TM_ALARM_SNOOZE_MAX_COUNT.

Definition ac_set_enabled (b : bool) (c : WUKONG_TM_ALARM_CFG_T) : WUKONG_TM_ALARM_CFG_T :=
  mk_acfg b (ac_repeat_type c) (ac_hour c) (ac_minute c) (ac_weekday_mask c) (ac_month_day c) (ac_start_time c)
    (ac_message c) (ac_cron_job_id c).
Definition ac_set_job (id : string) (c : WUKONG_TM_ALARM_CFG_T) : WUKONG_TM_ALARM_CFG_T :=
  mk_acfg (ac_enabled c) (ac_repeat_type c) (ac_hour c) (ac_minute c) (ac_weekday_mask c) (ac_month_day c)
    (ac_start_time c) (ac_message c) id.
Definition ac_set_start (hour minute : Z) (start_time : TIME_T) (c : WUKONG_TM_ALARM_CFG_T) : WUKONG_TM_ALARM_CFG_T :=
  mk_acfg (ac_enabled c) (ac_repeat_type c) hour minute (ac_weekday_mask c) (ac_month_day c) start_time
    (ac_message c) (ac_cron_job_id c).

Definition al_with_cfg (f : WUKONG_TM_ALARM_CFG_T -> WUKONG_TM_ALARM_CFG_T) (a : WUKONG_TM_ALARM_ITEM_T)
    : WUKONG_TM_ALARM_ITEM_T :=
  mk_alarm (al_used a) (al_alarm_id a) (f (al_cfg a)) (al_is_ringing a) (al_ring_seq a)
    (al_ack_timeout_job_id a) (al_snooze_job_id a).
Definition al_set_ring (ringing : bool) (seq : Z) (a : WUKONG_TM_ALARM_ITEM_T) : WUKONG_TM_ALARM_ITEM_T :=
  mk_alarm (al_used a) (al_alarm_id a) (al_cfg a) ringing seq (al_ack_timeout_job_id a) (al_snooze_job_id a).
Definition al_set_ack (id : string) (a : WUKONG_TM_ALARM_ITEM_T) : WUKONG_TM_ALARM_ITEM_T :=
  mk_alarm (al_used a) (al_alarm_id a) (al_cfg a) (al_is_ringing a) (al_ring_seq a) id (al_snooze_job_id a).
Definition al_set_snooze (id : string) (a : WUKONG_TM_ALARM_ITEM_T) : WUKONG_TM_ALARM_ITEM_T :=
  mk_alarm (al_used a) (al_alarm_id a) (al_cfg a) (al_is_ringing a) (al_ring_seq a) (al_ack_timeout_job_id a) id.

(** ** Configurations *)

Definition __alarm_is_all_weekdays (c : WUKONG_TM_ALARM_CFG_T) : bool :=
  (ac_repeat_type c =? WUKONG_TM_ALARM_REPEAT_WEEKLY) && (ac_weekday_mask c =? 127).

Definition __alarm_semantic_match (stored_cfg match_cfg : WUKONG_TM_ALARM_CFG_T) : bool :=
  if negb (ac_hour stored_cfg =? ac_hour match_cfg) || negb (ac_minute stored_cfg =? ac_minute match_cfg) then false
  else if ac_repeat_type stored_cfg =? ac_repeat_type match_cfg then
    if ac_repeat_type stored_cfg =? WUKONG_TM_ALARM_REPEAT_WEEKLY then ac_weekday_mask stored_cfg =? ac_weekday_mask match_cfg
    else if ac_repeat_type stored_cfg =? WUKONG_TM_ALARM_REPEAT_MONTHLY then ac_month_day stored_cfg =? ac_month_day match_cfg
    else true
  else
    (ac_repeat_type stored_cfg =? WUKONG_TM_ALARM_REPEAT_DAILY) && __alarm_is_all_weekdays match_cfg ||
    (ac_repeat_type match_cfg =? WUKONG_TM_ALARM_REPEAT_DAILY) && __alarm_is_all_weekdays stored_cfg.

Definition __alarm_validate_cfg (c : WUKONG_TM_ALARM_CFG_T) : OPERATE_RET :=
  if (23 <? ac_hour c) || (59 <? ac_minute c) then OPRT_INVALID_PARM
  else if (ac_repeat_type c <? WUKONG_TM_ALARM_REPEAT_ONCE) || (WUKONG_TM_ALARM_REPEAT_MONTHLY <? ac_repeat_type c)
  then OPRT_INVALID_PARM
  else if (ac_repeat_type c =? WUKONG_TM_ALARM_REPEAT_WEEKLY) && (ac_weekday_mask c =? 0) then OPRT_INVALID_PARM
  else if (ac_repeat_type c =? WUKONG_TM_ALARM_REPEAT_MONTHLY) && ((ac_month_day c =? 0) || (31 <? ac_month_day c))
  then OPRT_INVALID_PARM
  else OPRT_OK.

(** The text of the enabled weekdays from [weekday] on, [n] of them left. *)
Fixpoint weekday_loop (n : nat) (weekday mask : Z) (weekday_expr : string) : string :=
  match n with
  | O => weekday_expr
  | S n =>
      if Z.land mask (Z.shiftl 1 weekday) =? 0 then weekday_loop n (weekday + 1) mask weekday_expr
      else weekday_loop n (weekday + 1) mask
             (weekday_expr ++ (if String.eqb weekday_expr "" then "" else ",") ++ fmt_u weekday)
  end.

Section AlarmTime.
Context `{TS : TimeService}.

Definition __alarm_build_once_cron_expr (trigger_time : TIME_T) (expr_len : nat) : OPERATE_RET * string :=
  build_cron_expr trigger_time expr_len.

Definition __alarm_build_cron_expr (c : WUKONG_TM_ALARM_CFG_T) (expr_len : nat) : OPERATE_RET * string :=
  let daily := strtrunc (expr_len - 1) ("0 " ++ fmt_u (ac_minute c) ++ " " ++ fmt_u (ac_hour c) ++ " * * *") in
  if (expr_len =? 0)%nat then (OPRT_INVALID_PARM, "")
  else if ac_repeat_type c =? WUKONG_TM_ALARM_REPEAT_ONCE then
    if 0 <? ac_start_time c then __alarm_build_once_cron_expr (ac_start_time c) expr_len else (OPRT_OK, daily)
  else if ac_repeat_type c =? WUKONG_TM_ALARM_REPEAT_DAILY then (OPRT_OK, daily)
  else if ac_repeat_type c =? WUKONG_TM_ALARM_REPEAT_WEEKLY then
    let weekday_expr := strtrunc 31 (weekday_loop 7 0 (ac_weekday_mask c) "") in
    if String.eqb weekday_expr "" then (OPRT_INVALID_PARM, "")
    else (OPRT_OK, strtrunc (expr_len - 1)
                     ("0 " ++ fmt_u (ac_minute c) ++ " " ++ fmt_u (ac_hour c) ++ " * * " ++ weekday_expr))
  else if ac_repeat_type c =? WUKONG_TM_ALARM_REPEAT_MONTHLY then
    (OPRT_OK, strtrunc (expr_len - 1)
                ("0 " ++ fmt_u (ac_minute c) ++ " " ++ fmt_u (ac_hour c) ++ " " ++ fmt_u (ac_month_day c) ++ " * *"))
  else (OPRT_INVALID_PARM, "").

(** Today's local time at the alarm's hour and minute. *)
Definition trigger_today (local_now : POSIX_TM_S) (c : WUKONG_TM_ALARM_CFG_T) : POSIX_TM_S :=
  mk_tm 0 (i32 (ac_minute c)) (i32 (ac_hour c)) (tm_mday local_now) (tm_mon local_now) (tm_year local_now) (tm_wday local_now).

(** [now] is not 0, and 1 is true. *)
Definition __alarm_is_expired (c : WUKONG_TM_ALARM_CFG_T) (now : TIME_T) (local_now : POSIX_TM_S) : bool :=
  let passed := let trigger_ts := tal_time_mktime (trigger_today local_now c) in (0 <? trigger_ts) && (trigger_ts <=? now) in
  if now =? 0 then false
  else if ac_repeat_type c =? WUKONG_TM_ALARM_REPEAT_ONCE then (0 <? ac_start_time c) && (ac_start_time c <=? now)
  else if ac_repeat_type c =? WUKONG_TM_ALARM_REPEAT_DAILY then passed
  else if ac_repeat_type c =? WUKONG_TM_ALARM_REPEAT_WEEKLY then
    if Z.land (ac_weekday_mask c) (Z.shiftl 1 (tm_wday local_now)) =? 0 then false else passed
  else if ac_repeat_type c =? WUKONG_TM_ALARM_REPEAT_MONTHLY then
    if i32 (ac_month_day c) <? tm_mday local_now then true
    else if i32 (ac_month_day c) =? tm_mday local_now then passed
    else false
  else false.

(** The once-alarm part of __alarm_once_rollover_to_next_fire, at clock reading
    [now]. *)
Definition once_rollover (now : TIME_T) (c : WUKONG_TM_ALARM_CFG_T) : OPERATE_RET * WUKONG_TM_ALARM_CFG_T :=
  let '(rt, local_now) := tal_time_get_local_time_custom now in
  if (now =? 0) || negb (rt =? OPRT_OK) then (OPRT_COM_ERROR, c)
  else if now <? ac_start_time c then (OPRT_OK, c)
  else
    let tz_offset := u32 (tal_time_mktime local_now - now) in
    let trigger_ts := u32 (tal_time_mktime (trigger_today local_now c) - tz_offset) in
    if trigger_ts =? 0 then (OPRT_COM_ERROR, c)
    else if (trigger_ts <=? now) && (u32 (-1 - WUKONG_TM_ALARM_ONCE_DAY_SEC) <? trigger_ts) then (OPRT_COM_ERROR, c)
    else
      let trigger_ts := if trigger_ts <=? now then u32 (trigger_ts + WUKONG_TM_ALARM_ONCE_DAY_SEC) else trigger_ts in
      let '(rt, trigger_tm) := tal_time_get_local_time_custom trigger_ts in
      if rt =? OPRT_OK then (OPRT_OK, ac_set_start (u32 (tm_hour trigger_tm)) (u32 (tm_min trigger_tm)) trigger_ts c)
      else (OPRT_OK, ac_set_start (ac_hour c) (ac_minute c) trigger_ts c).

End AlarmTime.

(** ** Texts *)

Definition alarm_escape_char (ch : ascii) : option ascii :=
  let n := nat_of_ascii ch in
  if (n =? 34)%nat || (n =? 92)%nat then Some ch else None.

Definition __alarm_escape_message (src : string) (dst_len : nat) : OPERATE_RET * string :=
  if (dst_len =? 0)%nat then (OPRT_INVALID_PARM, "") else escape_loop alarm_escape_char src "" dst_len.

Definition alarm_runtime_json (id cron_expr method : string) (ring_seq : Z) : string :=
  strtrunc (ALARM_CRON_BUF_SIZE - 1)
    ("{" ++ quoted "name" ++ ":" ++ quoted ("alarm-runtime-" ++ id) ++ "," ++
     quoted "enabled" ++ ":1," ++ quoted "once" ++ ":1," ++ quoted "cron" ++ ":" ++ quoted cron_expr ++ "," ++
     quoted "request" ++ ":{" ++ quoted "jsonrpc" ++ ":" ++ quoted "2.0" ++ "," ++
     quoted "id" ++ ":" ++ quoted ("req-" ++ id ++ "-" ++ fmt_u ring_seq) ++ "," ++
     quoted "method" ++ ":" ++ quoted method ++ "," ++
     quoted "params" ++ ":{" ++ quoted "alarm_id" ++ ":" ++ quoted id ++ "," ++
     quoted "ring_seq" ++ ":" ++ fmt_u ring_seq ++ "}}}").

Definition alarm_job_json (id : string) (enabled once : bool) (cron_expr message : string) : string :=
  strtrunc (ALARM_CRON_BUF_SIZE - 1)
    ("{" ++ quoted "name" ++ ":" ++ quoted ("alarm-" ++ id) ++ "," ++
     quoted "enabled" ++ ":" ++ fmt_d (if enabled then 1 else 0) ++ "," ++
     quoted "once" ++ ":" ++ fmt_d (if once then 1 else 0) ++ "," ++ quoted "cron" ++ ":" ++ quoted cron_expr ++ "," ++
     quoted "request" ++ ":{" ++ quoted "jsonrpc" ++ ":" ++ quoted "2.0" ++ "," ++
     quoted "id" ++ ":" ++ quoted ("req-" ++ id) ++ "," ++
     quoted "method" ++ ":" ++ quoted WUKONG_TM_ALARM_FIRE_METHOD ++ "," ++
     quoted "params" ++ ":{" ++ quoted "alarm_id" ++ ":" ++ quoted id ++ "," ++
     quoted "message" ++ ":" ++ quoted message ++ "}}}").

(** The bytes of a C string, its NUL included. *)
Fixpoint string_bytes (s : string) : list Z :=
  match s with
  | EmptyString => [0]
  | String a s => Z.of_nat (nat_of_ascii a) :: string_bytes s
  end.

Definition alarm_msg (alarm_id : string) (ring_seq : Z) (opr : WUKONG_TM_TIMER_OPR_E) : list Z :=
  let id_len := Z.of_nat (strlen alarm_id) + 1 in
  let msg := __tm_tlv_pack [] (tag_code WUKONG_TM_TAG_ALARM_OPR) 1 (le_bytes 4 (opr_code opr)) in
  let msg := __tm_tlv_pack msg (tag_code WUKONG_TM_TAG_ALARM_ID) id_len (string_bytes alarm_id) in
  __tm_tlv_pack msg (tag_code WUKONG_TM_TAG_ALARM_RING_SEQ) 4 (le_bytes 4 ring_seq).

(** ** Operations *)

Section Alarm.
Context {K W : Type} `{KS : KvStore K} `{TH : TmHost W} `{TS : TimeService} `{JT : JsonText} `{TL : TmLayout}.
Abbreviation M := (C (ALARM_STATICS * (K * W))).

Definition alarms (s : ALARM_STATICS) : list WUKONG_TM_ALARM_ITEM_T := ax_alarms (s_alarm_ctx s).
Definition with_ctx (cx : WUKONG_TM_ALARM_CTX_T) (s : ALARM_STATICS) : ALARM_STATICS :=
  mk_as cx (s_alarm_snooze_enabled s) (s_alarm_ring_duration_sec s) (s_alarm_snooze_delay_sec s) (s_alarm_max_snooze_count s).
Definition set_alarm (i : nat) (a : WUKONG_TM_ALARM_ITEM_T) (s : ALARM_STATICS) : ALARM_STATICS :=
  with_ctx (mk_actx (ax_initialized (s_alarm_ctx s)) (ax_next_alarm_seq (s_alarm_ctx s)) (<[i := a]> (alarms s))) s.

(** The table; an index outside it is undefined. *)
Definition get_alarm (i : nat) : M WUKONG_TM_ALARM_ITEM_T := let* s := get_ctx in cpure (alarms s !! i).
Definition mod_alarm (i : nat) (f : WUKONG_TM_ALARM_ITEM_T -> WUKONG_TM_ALARM_ITEM_T) : M unit :=
  let* a := get_alarm i in mod_ctx (set_alarm i (f a)).

(** -1 is [None]. *)
Definition __alarm_find_index (alarm_id : string) (s : ALARM_STATICS) : option nat :=
  first_slot (is_named al_used al_alarm_id alarm_id) (alarms s).
Definition __alarm_alloc_index (s : ALARM_STATICS) : option nat := first_slot (is_free al_used) (alarms s).

(** The job id is a field of the alarm in slot [i]. *)
Definition __alarm_remove_job_if_needed (i : nat) (get : WUKONG_TM_ALARM_ITEM_T -> string)
    (set : string -> WUKONG_TM_ALARM_ITEM_T -> WUKONG_TM_ALARM_ITEM_T) : M OPERATE_RET :=
  let* a := get_alarm i in
  if String.eqb (get a) "" then cret OPRT_OK
  else
    let* rt := on_dev (th_job_remove (get a)) in
    if negb (rt =? OPRT_OK) && negb (rt =? OPRT_NOT_FOUND) then cret rt
    else let* _ := mod_alarm i (set "") in cret OPRT_OK.

Definition __alarm_clear_runtime_state (i : nat) (remove_jobs : bool) : M unit :=
  let* _ := (if remove_jobs then
      let* _ := __alarm_remove_job_if_needed i al_ack_timeout_job_id al_set_ack in
      let* _ := __alarm_remove_job_if_needed i al_snooze_job_id al_set_snooze in
      cret tt
    else mod_alarm i (fun a => al_set_ack "" (al_set_snooze "" a))) in
  mod_alarm i (fun a => al_set_ring false (al_ring_seq a) a).

Definition __alarm_once_rollover_to_next_fire (c : WUKONG_TM_ALARM_CFG_T) : M (OPERATE_RET * WUKONG_TM_ALARM_CFG_T) :=
  if negb (ac_repeat_type c =? WUKONG_TM_ALARM_REPEAT_ONCE) then cret (OPRT_OK, c)
  else let* now := on_dev th_posix in cret (once_rollover now c).

Definition __alarm_disable_expired_once_if_needed (i : nat) (now : TIME_T) (local_now : POSIX_TM_S) : M bool :=
  if now =? 0 then cret false
  else
    let* a := get_alarm i in
    if negb (al_used a) || negb (ac_repeat_type (al_cfg a) =? WUKONG_TM_ALARM_REPEAT_ONCE) || negb (ac_enabled (al_cfg a))
    then cret false
    else if negb (__alarm_is_expired (al_cfg a) now local_now) then cret false
    else
      let* _ := mod_alarm i (al_with_cfg (ac_set_enabled false)) in
      let* _ := __alarm_clear_runtime_state i true in
      let* _ := mod_alarm i (fun a => al_set_ring (al_is_ringing a) 0 a) in
      let* _ := __alarm_remove_job_if_needed i (fun a => ac_cron_job_id (al_cfg a)) (fun id => al_with_cfg (ac_set_job id)) in
      cret true.

(** The second result is what is written to the id buffer, when it is written. *)
Definition __alarm_schedule_runtime_job (i : nat) (method : string) (ring_seq : Z) (delay_sec : TIME_T) (job_id_len : nat)
    : M (OPERATE_RET * option string) :=
  if (job_id_len =? 0)%nat then cret (OPRT_INVALID_PARM, None)
  else
    let* now := on_dev th_posix in
    let trigger_time := u32 (now + delay_sec) in
    let '(rt, cron_expr) := __alarm_build_once_cron_expr trigger_time 32 in
    if negb (rt =? OPRT_OK) then cret (rt, None)
    else
      let* a := get_alarm i in
      let* (rt, job_id) := on_dev (th_job_add (alarm_runtime_json (al_alarm_id a) cron_expr method ring_seq) job_id_len) in
      cret (rt, Some job_id).

(** Detaching the bound job, if any. *)
Definition unbind_alarm (i : nat) : M OPERATE_RET :=
  __alarm_remove_job_if_needed i (fun a => ac_cron_job_id (al_cfg a)) (fun id => al_with_cfg (ac_set_job id)).

Definition __alarm_sync_cron_job (i : nat) : M OPERATE_RET :=
  let* rt := unbind_alarm i in
  if negb (rt =? OPRT_OK) then cret rt
  else
    let* a := get_alarm i in
    let '(rt, cron_expr) := __alarm_build_cron_expr (al_cfg a) 32 in
    if negb (rt =? OPRT_OK) then cret rt
    else
      let '(rt, escaped_message) := __alarm_escape_message (ac_message (al_cfg a)) (WUKONG_TM_ALARM_MESSAGE_LEN * 2 + 1) in
      if negb (rt =? OPRT_OK) then cret rt
      else
        let* (rt, cron_job_id) := on_dev (th_job_add
          (alarm_job_json (al_alarm_id a) (ac_enabled (al_cfg a))
             (ac_repeat_type (al_cfg a) =? WUKONG_TM_ALARM_REPEAT_ONCE) cron_expr escaped_message)
          (WUKONG_TM_ALARM_CRON_JOB_ID_LEN + 1)) in
        if negb (rt =? OPRT_OK) then cret rt
        else
          let* _ := mod_alarm i (al_with_cfg (ac_set_job (strtrunc WUKONG_TM_ALARM_CRON_JOB_ID_LEN cron_job_id))) in
          cret OPRT_OK.

(** *** Persistence *)

Definition alarm_list_msg : list Z :=
  list_msg WUKONG_TM_TAG_ALARM_OPR WUKONG_TM_TAG_ALARM_ITEM WUKONG_TM_TAG_ALARM_COUNT
    s_alarm_alarms (Z.of_nat WUKONG_TM_ALARM_MAX_COUNT).

Definition __alarm_store_notify : M OPERATE_RET := store_notify WUKONG_AI_EVENT_CLOCK_MCP_ALARM alarm_list_msg.

(** Adding several members one after the other. *)
Fixpoint json_add_all (obj : cJSON) (members : list (string * cJSON)) : M cJSON :=
  match members with
  | [] => cret obj
  | (name, v) :: members => let* obj := json_add obj name v in json_add_all obj members
  end.

Definition alarm_members (a : WUKONG_TM_ALARM_ITEM_T) : list (string * cJSON) :=
  let c := al_cfg a in
  [("id", JString (al_alarm_id a)); ("enabled", JNumber (if ac_enabled c then 1 else 0));
   ("repeat_type", JNumber (i32 (ac_repeat_type c))); ("hour", JNumber (i32 (ac_hour c)));
   ("minute", JNumber (i32 (ac_minute c))); ("weekday_mask", JNumber (i32 (ac_weekday_mask c)));
   ("month_day", JNumber (i32 (ac_month_day c))); ("start_time", JNumber (ac_start_time c));
   ("message", JString (ac_message c))].

Fixpoint save_alarms (items : list WUKONG_TM_ALARM_ITEM_T) (arr : cJSON) : M cJSON :=
  match items with
  | [] => cret arr
  | a :: items =>
      if negb (al_used a) then save_alarms items arr
      else
        let* ok := on_dev th_malloc in
        if negb ok then save_alarms items arr
        else
          let* item := json_add_all (JObject []) (alarm_members a) in
          save_alarms items (ty_cJSON_AddItemToArray arr item)
  end.

Definition __alarm_store_save : M OPERATE_RET :=
  let* root_ok := on_dev th_malloc in
  let* arr_ok := on_dev th_malloc in
  if negb root_ok || negb arr_ok then cret OPRT_MALLOC_FAILED
  else
    let* s := get_ctx in
    let* arr := save_alarms (alarms s) (JArray []) in
    let* root := json_add (JObject []) "alarms" arr in
    match ty_cJSON_PrintUnformatted root with
    | None => cret OPRT_MALLOC_FAILED
    | Some json_str =>
        let* rt := on_store (wd_common_write WUKONG_TM_ALARM_KV_KEY json_str) in
        let* _ := (if negb (rt =? OPRT_OK) then cret tt else let* _ := __alarm_store_notify in cret tt) in
        cret rt
    end.

(** The configuration in a stored item; [None] is undefined behaviour. *)
Definition load_alarm_cfg (item : cJSON) : option WUKONG_TM_ALARM_CFG_T :=
  let uint name := u32 (valueint (number_or item name 0)) in
  match to_time (number_or item "start_time" 0) with
  | None => None
  | Some start_time =>
      Some (mk_acfg (negb (valueint (number_or item "enabled" 1) =? 0))
              (valueint (number_or item "repeat_type" WUKONG_TM_ALARM_REPEAT_ONCE))
              (uint "hour") (uint "minute") (uint "weekday_mask") (uint "month_day") start_time
              (match ty_cJSON_GetObjectItem item "message" with
               | Some (JString s) => strtrunc WUKONG_TM_ALARM_MESSAGE_LEN s
               | _ => ""
               end) "")
  end.

(** The loading loop; the result is [need_save]. *)
Fixpoint load_alarms (now : TIME_T) (arr : list cJSON) (need_save : bool) : M bool :=
  match arr with
  | [] => cret need_save
  | item :: arr =>
      if negb (ty_cJSON_IsObject (Some item)) then load_alarms now arr need_save
      else
        match ty_cJSON_GetObjectItem item "id" with
        | Some (JString id) =>
            if String.eqb id "" then load_alarms now arr need_save
            else
              let* s := get_ctx in
              match __alarm_alloc_index s with
              | None => cret need_save
              | Some slot =>
                  let* cfg := cpure (load_alarm_cfg item) in
                  if negb (__alarm_validate_cfg cfg =? OPRT_OK) then
                    let* _ := mod_ctx (set_alarm slot alarm_zero) in
                    load_alarms now arr need_save
                  else
                    let* _ := mod_ctx (set_alarm slot (mk_alarm true (strtrunc WUKONG_TM_ALARM_ID_LEN id) cfg false 0 "" "")) in
                    if negb (ac_enabled cfg) then load_alarms now arr need_save
                    else if (0 <? now) && (ac_repeat_type cfg =? WUKONG_TM_ALARM_REPEAT_ONCE) &&
                            (0 <? ac_start_time cfg) && (ac_start_time cfg <? now) then
                      let* _ := mod_alarm slot (al_with_cfg (ac_set_enabled false)) in
                      load_alarms now arr true
                    else
                      let* _ := __alarm_sync_cron_job slot in
                      load_alarms now arr need_save
              end
        | _ => load_alarms now arr need_save
        end
  end.

Definition __alarm_store_load : M OPERATE_RET :=
  let* now := on_dev th_posix in
  let* (rt, data) := on_store (wd_common_read WUKONG_TM_ALARM_KV_KEY) in
  if negb (rt =? OPRT_OK) then cret OPRT_OK
  else
    match ty_cJSON_Parse data with
    | None => cret OPRT_OK
    | Some root =>
        match ty_cJSON_GetObjectItem root "alarms" with
        | Some (JArray arr) =>
            let* need_save := load_alarms now arr false in
            let* _ := (if need_save : bool then __alarm_store_save else __alarm_store_notify) in
            cret OPRT_OK
        | _ => cret OPRT_OK
        end
    end.

(** *** Ringing *)

Definition __alarm_emit_event (alarm_id : string) (ring_seq : Z) (opr : WUKONG_TM_TIMER_OPR_E) : M OPERATE_RET :=
  let* ok := on_dev th_malloc in
  if negb ok then cret OPRT_MALLOC_FAILED
  else
    let* _ := on_dev (wukong_ai_event_notify WUKONG_AI_EVENT_CLOCK_MCP_ALARM (alarm_msg alarm_id ring_seq opr)) in
    cret OPRT_OK.

Definition __alarm_start_ringing (i : nat) : M OPERATE_RET :=
  let* _ := __alarm_clear_runtime_state i true in
  let* _ := mod_alarm i (fun a => al_set_ring true (u32 (al_ring_seq a + 1)) a) in
  let* a := get_alarm i in
  let* s := get_ctx in
  let* (rt, job_id) := __alarm_schedule_runtime_job i WUKONG_TM_ALARM_SNOOZE_TIMEOUT_METHOD (al_ring_seq a)
                         (s_alarm_ring_duration_sec s) (WUKONG_TM_ALARM_CRON_JOB_ID_LEN + 1) in
  let* _ := mod_alarm i (fun a => al_set_ack (default (al_ack_timeout_job_id a) job_id) a) in
  if negb (rt =? OPRT_OK) then
    let* _ := mod_alarm i (fun a => al_set_ack "" (al_set_ring false (al_ring_seq a) a)) in
    cret rt
  else
    let* _ := __alarm_emit_event (al_alarm_id a) (al_ring_seq a) WUKONG_TM_TIMER_OPR_START in
    cret OPRT_OK.

(** The error, or the alarm id and ring sequence. *)
Definition __alarm_parse_runtime_params (params : option cJSON) : option (string * Z) :=
  match params with
  | None => None
  | Some params =>
      match ty_cJSON_GetObjectItem params "alarm_id", ty_cJSON_GetObjectItem params "ring_seq" with
      | Some (JString alarm_id), Some (JNumber n) => Some (alarm_id, u32 (valueint n))
      | _, _ => None
      end
  end.

(** The result object of the handlers. *)
Definition status_ok : M (OPERATE_RET * option cJSON) :=
  let* ok := on_dev th_malloc in
  if negb ok then cret (OPRT_MALLOC_FAILED, None)
  else let* result := json_add (JObject []) "status" (JString "ok") in cret (OPRT_OK, Some result).

Definition wukong_tm_alarm_fire (alarm_id : string) : M OPERATE_RET :=
  let* s := get_ctx in
  match __alarm_find_index alarm_id s with
  | None => cret OPRT_NOT_FOUND
  | Some index => __alarm_start_ringing index
  end.

Definition __alarm_fire_rpc_handler (params : option cJSON) : M (OPERATE_RET * option cJSON) :=
  match params with
  | None => cret (OPRT_INVALID_PARM, None)
  | Some params =>
      match ty_cJSON_GetObjectItem params "alarm_id" with
      | Some (JString alarm_id) =>
          let* rt := wukong_tm_alarm_fire alarm_id in
          if negb (rt =? OPRT_OK) then cret (rt, None) else status_ok
      | _ => cret (OPRT_INVALID_PARM, None)
      end
  end.

(** The unanswered window of round [ring_seq] of the alarm in slot [i] is over. *)
Definition ring_timeout (i : nat) (alarm_id : string) (ring_seq : Z) : M unit :=
  let* _ := mod_alarm i (fun a => al_set_ack "" (al_set_ring false (al_ring_seq a) a)) in
  let* s := get_ctx in
  if s_alarm_snooze_enabled s && ((s_alarm_max_snooze_count s =? 0) || (ring_seq <=? s_alarm_max_snooze_count s)) then
    let* (snooze_rt, job_id) := __alarm_schedule_runtime_job i WUKONG_TM_ALARM_SNOOZE_FIRE_METHOD ring_seq
                                  (s_alarm_snooze_delay_sec s) (WUKONG_TM_ALARM_CRON_JOB_ID_LEN + 1) in
    let* _ := mod_alarm i (fun a => al_set_snooze (default (al_snooze_job_id a) job_id) a) in
    if negb (snooze_rt =? OPRT_OK) then mod_alarm i (fun a => al_set_ring true (al_ring_seq a) a)
    else let* _ := __alarm_emit_event alarm_id ring_seq WUKONG_TM_TIMER_OPR_PAUSE in cret tt
  else
    let* _ := __alarm_emit_event alarm_id ring_seq WUKONG_TM_TIMER_OPR_FINISH in
    let* _ := mod_alarm i (fun a => al_set_ring (al_is_ringing a) 0 a) in
    let* a := get_alarm i in
    if ac_repeat_type (al_cfg a) =? WUKONG_TM_ALARM_REPEAT_ONCE then
      let* _ := mod_alarm i (al_with_cfg (ac_set_enabled false)) in
      let* _ := __alarm_store_save in
      cret tt
    else cret tt.

Definition __alarm_snooze_timeout_rpc_handler (params : option cJSON) : M (OPERATE_RET * option cJSON) :=
  match __alarm_parse_runtime_params params with
  | None => cret (OPRT_INVALID_PARM, None)
  | Some (alarm_id, ring_seq) =>
      let* s := get_ctx in
      let* _ := (match __alarm_find_index alarm_id s with
        | Some index =>
            let* a := get_alarm index in
            if al_used a && al_is_ringing a && (al_ring_seq a =? ring_seq) then ring_timeout index alarm_id ring_seq
            else cret tt
        | None => cret tt
        end) in
      status_ok
  end.

Definition __alarm_snooze_fire_rpc_handler (params : option cJSON) : M (OPERATE_RET * option cJSON) :=
  match __alarm_parse_runtime_params params with
  | None => cret (OPRT_INVALID_PARM, None)
  | Some (alarm_id, ring_seq) =>
      let* s := get_ctx in
      let* rt := (match __alarm_find_index alarm_id s with
        | Some index =>
            let* a := get_alarm index in
            if al_used a && (al_ring_seq a =? ring_seq) then
              let* _ := mod_alarm index (al_set_snooze "") in
              if negb (s_alarm_snooze_enabled s) then cret OPRT_OK else __alarm_start_ringing index
            else cret OPRT_OK
        | None => cret OPRT_OK
        end) in
      if negb (rt =? OPRT_OK) then cret (rt, None) else status_ok
  end.

Definition __alarm_ack_index (index : Z) : M OPERATE_RET :=
  if (index <? 0) || (Z.of_nat WUKONG_TM_ALARM_MAX_COUNT <=? index) then cret OPRT_INVALID_PARM
  else
    let i := Z.to_nat index in
    let* a := get_alarm i in
    if negb (al_used a) then cret OPRT_NOT_FOUND
    else
      let* _ := __alarm_emit_event (al_alarm_id a) (al_ring_seq a) WUKONG_TM_TIMER_OPR_STOP in
      let* _ := __alarm_clear_runtime_state i true in
      let* _ := mod_alarm i (fun a => al_set_ring (al_is_ringing a) 0 a) in
      if ac_repeat_type (al_cfg a) =? WUKONG_TM_ALARM_REPEAT_ONCE then
        let* _ := mod_alarm i (al_with_cfg (ac_set_enabled false)) in
        let* a := get_alarm i in
        let* _ := (if String.eqb (ac_cron_job_id (al_cfg a)) "" then cret tt
                   else
                     let* _ := on_dev (th_job_remove (ac_cron_job_id (al_cfg a))) in
                     mod_alarm i (al_with_cfg (ac_set_job ""))) in
        let* _ := __alarm_store_save in
        cret OPRT_OK
      else cret OPRT_OK.

Definition wukong_tm_alarm_ack (alarm_id : string) : M OPERATE_RET :=
  let* s := get_ctx in
  match __alarm_find_index alarm_id s with
  | None => cret OPRT_NOT_FOUND
  | Some index => __alarm_ack_index (Z.of_nat index)
  end.

(** The active slots from index [i] on, after [matched]: [inl] when there are
    two. *)
Fixpoint active_loop (items : list WUKONG_TM_ALARM_ITEM_T) (i : nat) (matched : option nat) : unit + option nat :=
  match items with
  | [] => inr matched
  | a :: items =>
      if negb (al_used a) then active_loop items (S i) matched
      else if negb (al_is_ringing a) && String.eqb (al_ack_timeout_job_id a) "" && String.eqb (al_snooze_job_id a) ""
      then active_loop items (S i) matched
      else match matched with Some _ => inl tt | None => active_loop items (S i) (Some i) end
  end.

Definition wukong_tm_alarm_ack_active : M OPERATE_RET :=
  let* s := get_ctx in
  match active_loop (alarms s) 0 None with
  | inl _ => cret OPRT_COM_ERROR
  | inr None => cret OPRT_NOT_FOUND
  | inr (Some index) => __alarm_ack_index (Z.of_nat index)
  end.

(** *** Start and stop *)

Definition put_alarm_ctx (cx : WUKONG_TM_ALARM_CTX_T) : M unit := mod_ctx (with_ctx cx).

Definition wukong_tm_alarm_init : M OPERATE_RET :=
  let* s := get_ctx in
  if ax_initialized (s_alarm_ctx s) then cret OPRT_OK
  else
    let* _ := put_alarm_ctx (mk_actx true 1 (ax_alarms actx_zero)) in
    let* rt := on_dev (th_register WUKONG_TM_ALARM_FIRE_METHOD ALARM_FIRE_HANDLER) in
    if negb (rt =? OPRT_OK) then let* _ := put_alarm_ctx actx_zero in cret rt
    else
      let* rt := on_dev (th_register WUKONG_TM_ALARM_SNOOZE_TIMEOUT_METHOD ALARM_SNOOZE_TIMEOUT_HANDLER) in
      if negb (rt =? OPRT_OK) then
        let* _ := on_dev (th_unregister WUKONG_TM_ALARM_FIRE_METHOD) in
        let* _ := put_alarm_ctx actx_zero in cret rt
      else
        let* rt := on_dev (th_register WUKONG_TM_ALARM_SNOOZE_FIRE_METHOD ALARM_SNOOZE_FIRE_HANDLER) in
        if negb (rt =? OPRT_OK) then
          let* _ := on_dev (th_unregister WUKONG_TM_ALARM_SNOOZE_TIMEOUT_METHOD) in
          let* _ := on_dev (th_unregister WUKONG_TM_ALARM_FIRE_METHOD) in
          let* _ := put_alarm_ctx actx_zero in cret rt
        else let* _ := __alarm_store_load in cret OPRT_OK.

(** [f] on the slots from [i] on, [n] of them. *)
Fixpoint for_slots (f : nat -> M unit) (n i : nat) : M unit :=
  match n with O => cret tt | S n => let* _ := f i in for_slots f n (S i) end.

Definition wukong_tm_alarm_deinit : M OPERATE_RET :=
  let* _ := for_slots (fun i =>
    let* a := get_alarm i in
    if negb (al_used a) then cret tt
    else
      let* _ := __alarm_clear_runtime_state i true in
      if String.eqb (ac_cron_job_id (al_cfg a)) "" then cret tt
      else let* _ := on_dev (th_job_remove (ac_cron_job_id (al_cfg a))) in cret tt) WUKONG_TM_ALARM_MAX_COUNT 0 in
  let* _ := on_dev (th_unregister WUKONG_TM_ALARM_FIRE_METHOD) in
  let* _ := on_dev (th_unregister WUKONG_TM_ALARM_SNOOZE_TIMEOUT_METHOD) in
  let* _ := on_dev (th_unregister WUKONG_TM_ALARM_SNOOZE_FIRE_METHOD) in
  let* _ := put_alarm_ctx actx_zero in
  cret OPRT_OK.

(** *** Settings *)

Definition wukong_tm_alarm_snooze_enable_set (enable : bool) : M OPERATE_RET :=
  let* s := get_ctx in
  if negb (ax_initialized (s_alarm_ctx s)) then cret OPRT_COM_ERROR
  else
    let* _ := mod_ctx (fun s => mk_as (s_alarm_ctx s) enable (s_alarm_ring_duration_sec s) (s_alarm_snooze_delay_sec s)
                                  (s_alarm_max_snooze_count s)) in
    let* _ := (if enable then cret tt
      else for_slots (fun i =>
        let* a := get_alarm i in
        if negb (al_used a) then cret tt
        else
          let* _ := __alarm_remove_job_if_needed i al_snooze_job_id al_set_snooze in
          cret tt) WUKONG_TM_ALARM_MAX_COUNT 0) in
    cret OPRT_OK.

Definition wukong_tm_alarm_ring_duration_set (seconds : Z) : M OPERATE_RET :=
  if seconds =? 0 then cret OPRT_INVALID_PARM
  else
    let* _ := mod_ctx (fun s => mk_as (s_alarm_ctx s) (s_alarm_snooze_enabled s) seconds (s_alarm_snooze_delay_sec s)
                                  (s_alarm_max_snooze_count s)) in
    cret OPRT_OK.
Definition wukong_tm_alarm_ring_duration_get : M Z := let* s := get_ctx in cret (s_alarm_ring_duration_sec s).

Definition wukong_tm_alarm_snooze_delay_set (seconds : Z) : M OPERATE_RET :=
  if seconds =? 0 then cret OPRT_INVALID_PARM
  else
    let* _ := mod_ctx (fun s => mk_as (s_alarm_ctx s) (s_alarm_snooze_enabled s) (s_alarm_ring_duration_sec s) seconds
                                  (s_alarm_max_snooze_count s)) in
    cret OPRT_OK.
Definition wukong_tm_alarm_snooze_delay_get : M Z := let* s := get_ctx in cret (s_alarm_snooze_delay_sec s).

Definition wukong_tm_alarm_snooze_max_count_set (count : Z) : M OPERATE_RET :=
  let* _ := mod_ctx (fun s => mk_as (s_alarm_ctx s) (s_alarm_snooze_enabled s) (s_alarm_ring_duration_sec s)
                                (s_alarm_snooze_delay_sec s) count) in
  cret OPRT_OK.
Definition wukong_tm_alarm_snooze_max_count_get : M Z := let* s := get_ctx in cret (s_alarm_max_snooze_count s).

(** *** Adding, changing, removing *)

(** Rolling the once alarm in slot [i] over, in place. *)
Definition rollover_slot (i : nat) : M OPERATE_RET :=
  let* a := get_alarm i in
  let* (rt, cfg) := __alarm_once_rollover_to_next_fire (al_cfg a) in
  let* _ := mod_alarm i (al_with_cfg (fun _ => cfg)) in
  cret rt.

Definition wukong_tm_alarm_enable_set (alarm_id : string) (enable : bool) : M OPERATE_RET :=
  let* s := get_ctx in
  if negb (ax_initialized (s_alarm_ctx s)) then cret OPRT_COM_ERROR
  else
    match __alarm_find_index alarm_id s with
    | None => cret OPRT_NOT_FOUND
    | Some i =>
        let* a := get_alarm i in
        if Bool.eqb (ac_enabled (al_cfg a)) enable then cret OPRT_OK
        else
          let* _ := mod_alarm i (al_with_cfg (ac_set_enabled enable)) in
          if negb enable then
            let* _ := __alarm_clear_runtime_state i true in
            let* _ := mod_alarm i (fun a => al_set_ring (al_is_ringing a) 0 a) in
            let* _ := (if String.eqb (ac_cron_job_id (al_cfg a)) "" then cret tt
                       else
                         let* _ := on_dev (th_job_remove (ac_cron_job_id (al_cfg a))) in
                         mod_alarm i (al_with_cfg (ac_set_job ""))) in
            let* _ := __alarm_store_save in
            cret OPRT_OK
          else
            let* rt := (if ac_repeat_type (al_cfg a) =? WUKONG_TM_ALARM_REPEAT_ONCE then rollover_slot i else cret OPRT_OK) in
            if negb (rt =? OPRT_OK) then
              let* _ := mod_alarm i (al_with_cfg (ac_set_enabled false)) in cret OPRT_COM_ERROR
            else
              let* rt := __alarm_sync_cron_job i in
              if negb (rt =? OPRT_OK) then
                let* _ := mod_alarm i (al_with_cfg (ac_set_enabled false)) in cret OPRT_COM_ERROR
              else let* _ := __alarm_store_save in cret OPRT_OK
    end.

Definition wukong_tm_alarm_add (alarm_cfg : WUKONG_TM_ALARM_CFG_T) (alarm_id : string) : M OPERATE_RET :=
  if String.eqb alarm_id "" then cret OPRT_INVALID_PARM
  else
    let* s := get_ctx in
    if negb (ax_initialized (s_alarm_ctx s)) then cret OPRT_COM_ERROR
    else if bool_decide (is_Some (__alarm_find_index alarm_id s)) then cret OPRT_COM_ERROR
    else if negb (__alarm_validate_cfg alarm_cfg =? OPRT_OK) then cret OPRT_INVALID_PARM
    else
      match __alarm_alloc_index s with
      | None => cret OPRT_COM_ERROR
      | Some i =>
          let* _ := mod_ctx (set_alarm i (mk_alarm true (strtrunc WUKONG_TM_ALARM_ID_LEN alarm_id)
                                            (ac_set_job "" alarm_cfg) false 0 "" "")) in
          let* rt := (if ac_enabled alarm_cfg && (ac_repeat_type alarm_cfg =? WUKONG_TM_ALARM_REPEAT_ONCE)
                      then rollover_slot i else cret OPRT_OK) in
          if negb (rt =? OPRT_OK) then let* _ := mod_ctx (set_alarm i alarm_zero) in cret OPRT_COM_ERROR
          else
            let* rt := __alarm_sync_cron_job i in
            if negb (rt =? OPRT_OK) then let* _ := mod_ctx (set_alarm i alarm_zero) in cret OPRT_COM_ERROR
            else let* _ := __alarm_store_save in cret OPRT_OK
      end.

(** The replacement failed: the configuration it replaced is put back. *)
Definition restore_alarm (i : nat) (backup_cfg : WUKONG_TM_ALARM_CFG_T) : M OPERATE_RET :=
  let* _ := mod_alarm i (al_with_cfg (fun _ => backup_cfg)) in
  let* _ := __alarm_sync_cron_job i in
  cret OPRT_COM_ERROR.

Definition wukong_tm_alarm_update (alarm_id : string) (alarm_cfg : WUKONG_TM_ALARM_CFG_T) : M OPERATE_RET :=
  if negb (__alarm_validate_cfg alarm_cfg =? OPRT_OK) then cret OPRT_INVALID_PARM
  else
    let* s := get_ctx in
    match __alarm_find_index alarm_id s with
    | None => cret OPRT_NOT_FOUND
    | Some i =>
        let* a := get_alarm i in
        let backup_cfg := al_cfg a in
        let* _ := __alarm_clear_runtime_state i true in
        let* _ := mod_alarm i (al_with_cfg (fun _ => ac_set_job (ac_cron_job_id backup_cfg) alarm_cfg)) in
        let* rt := (if ac_enabled alarm_cfg && (ac_repeat_type alarm_cfg =? WUKONG_TM_ALARM_REPEAT_ONCE)
                    then rollover_slot i else cret OPRT_OK) in
        if negb (rt =? OPRT_OK) then restore_alarm i backup_cfg
        else
          let* rt := __alarm_sync_cron_job i in
          if negb (rt =? OPRT_OK) then restore_alarm i backup_cfg
          else let* _ := __alarm_store_save in cret OPRT_OK
    end.

Definition wukong_tm_alarm_get (alarm_id : string) : M (OPERATE_RET * option WUKONG_TM_ALARM_CFG_T) :=
  let* s := get_ctx in
  if negb (ax_initialized (s_alarm_ctx s)) then cret (OPRT_COM_ERROR, None)
  else
    match __alarm_find_index alarm_id s with
    | None => cret (OPRT_NOT_FOUND, None)
    | Some i => let* a := get_alarm i in cret (OPRT_OK, Some (al_cfg a))
    end.

Definition wukong_tm_alarm_remove (alarm_id : string) : M OPERATE_RET :=
  let* s := get_ctx in
  match __alarm_find_index alarm_id s with
  | None => cret OPRT_NOT_FOUND
  | Some i =>
      let* _ := __alarm_clear_runtime_state i true in
      let* a := get_alarm i in
      let* _ := (if String.eqb (ac_cron_job_id (al_cfg a)) "" then cret tt
                 else let* _ := on_dev (th_job_remove (ac_cron_job_id (al_cfg a))) in cret tt) in
      let* _ := mod_ctx (set_alarm i alarm_zero) in
      let* _ := __alarm_store_save in
      cret OPRT_OK
  end.

(** The loop of wukong_tm_alarm_remove_by_time from slot [i] on, [n] left; the
    error that ends it early, or the number removed. *)
Fixpoint remove_matching (alarm_cfg : WUKONG_TM_ALARM_CFG_T) (n i : nat) (removed : Z) : M (OPERATE_RET + Z) :=
  match n with
  | O => cret (inr removed)
  | S n =>
      let* a := get_alarm i in
      if negb (al_used a) || negb (__alarm_semantic_match (al_cfg a) alarm_cfg)
      then remove_matching alarm_cfg n (S i) removed
      else
        let* rt := wukong_tm_alarm_remove (strtrunc WUKONG_TM_ALARM_ID_LEN (al_alarm_id a)) in
        if negb (rt =? OPRT_OK) then cret (inl rt)
        else remove_matching alarm_cfg n (S i) (removed + 1)
  end.

(** Result: return code and [removed_count]. *)
Definition wukong_tm_alarm_remove_by_time (alarm_cfg : WUKONG_TM_ALARM_CFG_T) : M (OPERATE_RET * option Z) :=
  let* s := get_ctx in
  if negb (ax_initialized (s_alarm_ctx s)) then cret (OPRT_COM_ERROR, None)
  else
    let* r := remove_matching alarm_cfg WUKONG_TM_ALARM_MAX_COUNT 0 0 in
    match r with
    | inl rt => cret (rt, None)
    | inr removed => cret (if 0 <? removed then OPRT_OK else OPRT_NOT_FOUND, Some removed)
    end.

(** *** Looking up *)

(** The test wukong_tm_alarm_find_by_time applies to a slot in use. *)
Definition time_matches (alarm_cfg c : WUKONG_TM_ALARM_CFG_T) : bool :=
  (ac_repeat_type c =? ac_repeat_type alarm_cfg) && (ac_hour c =? ac_hour alarm_cfg) &&
  (ac_minute c =? ac_minute alarm_cfg) && (ac_weekday_mask c =? ac_weekday_mask alarm_cfg) &&
  (ac_month_day c =? ac_month_day alarm_cfg) &&
  negb ((ac_repeat_type alarm_cfg =? WUKONG_TM_ALARM_REPEAT_ONCE) && (0 <? ac_start_time c) &&
        (0 <? ac_start_time alarm_cfg) && negb (ac_start_time c =? ac_start_time alarm_cfg)).

(** [inl]: a second match. *)
Fixpoint matching_loop (alarm_cfg : WUKONG_TM_ALARM_CFG_T) (items : list WUKONG_TM_ALARM_ITEM_T) (i : nat)
    (matched : option nat) : unit + option nat :=
  match items with
  | [] => inr matched
  | a :: items =>
      if negb (al_used a) || negb (time_matches alarm_cfg (al_cfg a)) then matching_loop alarm_cfg items (S i) matched
      else match matched with Some _ => inl tt | None => matching_loop alarm_cfg items (S i) (Some i) end
  end.

Definition wukong_tm_alarm_find_by_time (alarm_cfg : WUKONG_TM_ALARM_CFG_T) (alarm_id_len : nat) : M (OPERATE_RET * string) :=
  if (alarm_id_len =? 0)%nat then cret (OPRT_INVALID_PARM, "")
  else
    let* s := get_ctx in
    match matching_loop alarm_cfg (alarms s) 0 None with
    | inl _ => cret (OPRT_COM_ERROR, "")
    | inr None => cret (OPRT_NOT_FOUND, "")
    | inr (Some i) => let* a := get_alarm i in cret (OPRT_OK, strtrunc (alarm_id_len - 1) (al_alarm_id a))
    end.

(** *** Listing *)

Definition date_text (tm : POSIX_TM_S) : string :=
  fmt_0d 4 (tm_year tm + 1900) ++ "-" ++ fmt_0d 2 (tm_mon tm + 1) ++ "-" ++ fmt_0d 2 (tm_mday tm).

Definition device_time_str (local_now : POSIX_TM_S) : string :=
  strtrunc 31 (date_text local_now ++ " " ++ fmt_0d 2 (tm_hour local_now) ++ ":" ++ fmt_0d 2 (tm_min local_now) ++ ":" ++
               fmt_0d 2 (tm_sec local_now)).

Definition time_str (c : WUKONG_TM_ALARM_CFG_T) : string :=
  let hhmm := fmt_0d 2 (i32 (ac_hour c)) ++ ":" ++ fmt_0d 2 (i32 (ac_minute c)) in
  if (ac_repeat_type c =? WUKONG_TM_ALARM_REPEAT_ONCE) && (0 <? ac_start_time c) then
    let '(rt, alarm_local) := tal_time_get_local_time_custom (ac_start_time c) in
    if rt =? OPRT_OK then strtrunc 31 (date_text alarm_local ++ " " ++ hhmm) else strtrunc 31 hhmm
  else strtrunc 31 hhmm.

Definition list_members (a : WUKONG_TM_ALARM_ITEM_T) (expired : bool) : list (string * cJSON) :=
  let c := al_cfg a in
  ([("id", JString (al_alarm_id a)); ("enabled", JNumber (if ac_enabled c then 1 else 0));
    ("repeat_type", JNumber (i32 (ac_repeat_type c))); ("time", JString (time_str c));
    ("expired", JNumber (if expired then 1 else 0))] ++
   (if ac_weekday_mask c =? 0 then [] else [("weekday_mask", JNumber (i32 (ac_weekday_mask c)))]) ++
   (if ac_month_day c =? 0 then [] else [("month_day", JNumber (i32 (ac_month_day c)))]) ++
   [("message", JString (ac_message c))])%list.

Fixpoint list_items (now : TIME_T) (local_now : option POSIX_TM_S) (items : list WUKONG_TM_ALARM_ITEM_T) (arr : cJSON) : M cJSON :=
  match items with
  | [] => cret arr
  | a :: items =>
      if negb (al_used a) then list_items now local_now items arr
      else
        let* ok := on_dev th_malloc in
        if negb ok then list_items now local_now items arr
        else
          let expired := match local_now with Some tm => __alarm_is_expired (al_cfg a) now tm | None => false end in
          let* item := json_add_all (JObject []) (list_members a expired) in
          list_items now local_now items (ty_cJSON_AddItemToArray arr item)
  end.

(** Disabling the once alarms whose time has passed; whether there was one. *)
Fixpoint disable_expired (now : TIME_T) (local_now : POSIX_TM_S) (n i : nat) (need_save : bool) : M bool :=
  match n with
  | O => cret need_save
  | S n =>
      let* disabled := __alarm_disable_expired_once_if_needed i now local_now in
      disable_expired now local_now n (S i) (disabled || need_save)
  end.

Definition wukong_tm_alarm_list : M (OPERATE_RET * option string) :=
  let* now := on_dev th_posix in
  let local_now :=
    if 0 <? now then let '(rt, tm) := tal_time_get_local_time_custom now in if rt =? OPRT_OK then Some tm else None
    else None in
  let* _ := (match local_now with
    | Some tm =>
        let* need_save := disable_expired now tm WUKONG_TM_ALARM_MAX_COUNT 0 false in
        if need_save : bool then let* _ := __alarm_store_save in cret tt else cret tt
    | None => cret tt
    end) in
  let* root_ok := on_dev th_malloc in
  let* arr_ok := on_dev th_malloc in
  if negb root_ok || negb arr_ok then cret (OPRT_MALLOC_FAILED, None)
  else
    let* root := (match local_now with
      | Some tm => json_add (JObject []) "device_time" (JString (device_time_str tm))
      | None => cret (JObject [])
      end) in
    let* s := get_ctx in
    let* arr := list_items now local_now (alarms s) (JArray []) in
    let* root := json_add root "alarms" arr in
    match ty_cJSON_PrintUnformatted root with
    | None => cret (OPRT_MALLOC_FAILED, None)
    | Some text => cret (OPRT_OK, Some text)
    end.


End Alarm.
