(* ===== verification/TmAlarmTime.v ===== *)
(** When alarms ring: the cron expression of an alarm means exactly its
    configured times, and the arithmetic on today's occurrence. *)
From S2P Require Import Prelude.
From S2P Require Import Calendar.
From S2P Require Import CStr.
From S2P Require Import CronField.
From S2P Require Import CronParse.
From S2P Require Import CronNext.
From S2P Require Import CronNextCorrect.
From S2P Require Import CronMeaning.
From S2P Require Import World.
From S2P Require Import TmHost.
From S2P Require Import OnceJob.
From S2P Require Import TmStore.
From S2P Require Import TmAlarm.

#[local] Open Scope string_scope.
#[local] Open Scope Z_scope.

(** ** Configurations *)

(** A record of the C type: its numbers are unsigned. *)
Record acfg_u32 (c : WUKONG_TM_ALARM_CFG_T) : Prop := {
  acu_hour : is_u32 (ac_hour c); acu_minute : is_u32 (ac_minute c);
  acu_mask : is_u32 (ac_weekday_mask c); acu_day : is_u32 (ac_month_day c); acu_start : is_u32 (ac_start_time c) }.

(** What the validation accepts. *)
Record acfg_ok (c : WUKONG_TM_ALARM_CFG_T) : Prop := {
  aco_hour : 0 <= ac_hour c < 24;
  aco_minute : 0 <= ac_minute c < 60;
  aco_repeat : 0 <= ac_repeat_type c <= 3;
  aco_mask : ac_repeat_type c = 2 -> ac_weekday_mask c <> 0;
  aco_day : ac_repeat_type c = 3 -> 1 <= ac_month_day c <= 31 }.

Lemma validate_ok c : acfg_u32 c -> __alarm_validate_cfg c = OPRT_OK <-> acfg_ok c.
Proof.
  intros [Hh Hm Hk Hd _]. unfold __alarm_validate_cfg, is_u32 in *.
  unfold WUKONG_TM_ALARM_REPEAT_ONCE, WUKONG_TM_ALARM_REPEAT_WEEKLY, WUKONG_TM_ALARM_REPEAT_MONTHLY.
  repeat case_match; split; intros H'; try done; try (split; lia);
    exfalso; destruct H'; lia.
Qed.

(** An alarm without a date of its own. *)
Definition recurring (c : WUKONG_TM_ALARM_CFG_T) : Prop :=
  ac_repeat_type c = WUKONG_TM_ALARM_REPEAT_ONCE -> ac_start_time c = 0.

(** The local times at which such an alarm is to ring. *)
Definition alarm_due (c : WUKONG_TM_ALARM_CFG_T) (tm : POSIX_TM_S) : bool :=
  (tm_sec tm =? 0) && (tm_min tm =? ac_minute c) && (tm_hour tm =? ac_hour c) &&
  (if ac_repeat_type c =? WUKONG_TM_ALARM_REPEAT_WEEKLY then Z.testbit (ac_weekday_mask c) (tm_wday tm)
   else if ac_repeat_type c =? WUKONG_TM_ALARM_REPEAT_MONTHLY then tm_mday tm =? ac_month_day c
   else true).

(** The longest wait for the next due time, in days. *)
Definition alarm_period (c : WUKONG_TM_ALARM_CFG_T) : Z :=
  if ac_repeat_type c =? WUKONG_TM_ALARM_REPEAT_WEEKLY then 7
  else if ac_repeat_type c =? WUKONG_TM_ALARM_REPEAT_MONTHLY then 93 else 1.

(** ** The expression *)

Definition weekdays (mask : Z) : list Z := List.filter (Z.testbit mask) [0; 1; 2; 3; 4; 5; 6].

Lemma weekday_bit mask i : 0 <= i < 7 -> (Z.land mask (Z.shiftl 1 i) =? 0) = negb (Z.testbit mask i).
Proof.
  intros Hi. rewrite <- field_has_value_testbit by lia. unfold __field_has_value. rewrite negb_involutive.
  unfold bit64. rewrite Z.mod_small; [done|]. rewrite Z.shiftl_1_l. split; [lia|]. apply Z.pow_lt_mono_r; lia.
Qed.

(** All 128 masks. *)
Lemma weekday_loop_join mask : weekday_loop 7 0 mask "" = print_field (map ItemOne (weekdays mask)).
Proof.
  cbn [weekday_loop]. change (0 + 1) with 1. change (1 + 1) with 2. change (2 + 1) with 3. change (3 + 1) with 4.
  change (4 + 1) with 5. change (5 + 1) with 6. rewrite !weekday_bit by lia. unfold weekdays. cbn [List.filter].
  destruct (Z.testbit mask 0), (Z.testbit mask 1), (Z.testbit mask 2), (Z.testbit mask 3), (Z.testbit mask 4),
    (Z.testbit mask 5), (Z.testbit mask 6); vm_compute; reflexivity.
Qed.

Lemma weekdays_spec mask i : List.In i (weekdays mask) <-> 0 <= i < 7 /\ Z.testbit mask i = true.
Proof.
  unfold weekdays. rewrite List.filter_In. cbn [List.In]. split; intros [Hi Hb]; (split; [lia|done]).
Qed.

Lemma weekdays_none mask : weekdays mask = [] <-> Z.land mask 127 = 0.
Proof.
  split.
  - intros Hw. apply Z.bits_inj'. intros i Hi. rewrite Z.land_spec, Z.bits_0. change 127 with (Z.ones 7).
    destruct (Z.testbit mask i) eqn:Hb; [|done]. rewrite Z.testbit_ones_nonneg by lia.
    destruct (Z.ltb_spec i 7); [|done]. assert (Hin : List.In i (weekdays mask)) by by apply weekdays_spec.
    by rewrite Hw in Hin.
  - intros Hm. destruct (weekdays mask) as [|i l] eqn:Hw; [done|].
    assert (Hin : List.In i (weekdays mask)) by (rewrite Hw; by left). apply weekdays_spec in Hin as [Hi Hb].
    apply (f_equal (fun z => Z.testbit z i)) in Hm. rewrite Z.land_spec, Z.bits_0, Hb in Hm. change 127 with (Z.ones 7) in Hm.
    rewrite Z.testbit_ones_nonneg in Hm by lia. by destruct (Z.ltb_spec i 7); [|lia].
Qed.

(** The day fields of the expression. *)
Definition mday_field (c : WUKONG_TM_ALARM_CFG_T) : list cron_item :=
  if ac_repeat_type c =? WUKONG_TM_ALARM_REPEAT_MONTHLY then [ItemOne (ac_month_day c)] else [ItemStar None].
Definition wday_field (c : WUKONG_TM_ALARM_CFG_T) : list cron_item :=
  if ac_repeat_type c =? WUKONG_TM_ALARM_REPEAT_WEEKLY then map ItemOne (weekdays (ac_weekday_mask c)) else [ItemStar None].

Definition alarm_text (c : WUKONG_TM_ALARM_CFG_T) : string :=
  print_expr [[ItemOne 0]; [ItemOne (ac_minute c)]; [ItemOne (ac_hour c)]; mday_field c; [ItemStar None]; wday_field c].

(** A weekly alarm with no weekday. *)
Definition no_weekday (c : WUKONG_TM_ALARM_CFG_T) : bool :=
  (ac_repeat_type c =? WUKONG_TM_ALARM_REPEAT_WEEKLY) && (Z.land (ac_weekday_mask c) 127 =? 0).

Lemma item_one_ok min max v : min <= v <= max -> field_ok min max [ItemOne v].
Proof. intros Hv. split; [done|]. constructor; [done|constructor]. Qed.

Lemma item_star_ok min max : field_ok min max [ItemStar None].
Proof. split; [done|]. constructor; [|constructor]. cbn. unfold step_ok, INT_MAX. lia. Qed.

Lemma alarm_fields_ok c : acfg_ok c -> no_weekday c = false ->
  fields_ok [ItemOne 0] [ItemOne (ac_minute c)] [ItemOne (ac_hour c)] (mday_field c) [ItemStar None] (wday_field c).
Proof.
  intros [Hh Hm Hr Hk Hd] Hn. unfold no_weekday, mday_field, wday_field in *.
  unfold WUKONG_TM_ALARM_REPEAT_WEEKLY, WUKONG_TM_ALARM_REPEAT_MONTHLY in *.
  split; try (apply item_one_ok; lia); try apply item_star_ok.
  - destruct (Z.eqb_spec (ac_repeat_type c) 3); [apply item_one_ok; lia|apply item_star_ok].
  - destruct (Z.eqb_spec (ac_repeat_type c) 2); [|apply item_star_ok]. split.
    + intros He. apply map_eq_nil, weekdays_none in He. cbn [andb] in Hn. lia.
    + apply List.Forall_map, List.Forall_forall. intros i [Hi _]%weekdays_spec. cbn. lia.
Qed.

Lemma weekday_text_length mask : (strlen (print_field (map ItemOne (weekdays mask))) <= 13)%nat.
Proof.
  unfold weekdays. cbn [List.filter].
  destruct (Z.testbit mask 0), (Z.testbit mask 1), (Z.testbit mask 2), (Z.testbit mask 3), (Z.testbit mask 4),
    (Z.testbit mask 5), (Z.testbit mask 6); apply Nat.leb_le; vm_compute; reflexivity.
Qed.

Lemma alarm_text_eq c : alarm_text c =
  "0 " ++ fmt_u (ac_minute c) ++ " " ++ fmt_u (ac_hour c) ++ " " ++ print_field (mday_field c) ++ " * " ++
  print_field (wday_field c).
Proof. reflexivity. Qed.

Lemma alarm_text_length c : acfg_ok c -> (strlen (alarm_text c) <= 26)%nat.
Proof.
  intros [Hh Hm Hr Hk Hd]. rewrite alarm_text_eq, !strlen_app.
  assert (strlen (print_field (mday_field c)) <= 2)%nat.
  { unfold mday_field, WUKONG_TM_ALARM_REPEAT_MONTHLY. destruct (Z.eqb_spec (ac_repeat_type c) 3);
      [apply fmt_u_short; lia|by apply Nat.leb_le]. }
  assert (strlen (print_field (wday_field c)) <= 13)%nat.
  { unfold wday_field. destruct (_ =? _); [apply weekday_text_length|by apply Nat.leb_le]. }
  pose proof (fmt_u_short (ac_minute c)). pose proof (fmt_u_short (ac_hour c)).
  change (strlen "0 ") with 2%nat. change (strlen " ") with 1%nat. change (strlen " * ") with 3%nat. lia.
Qed.

(** ** Matching for removal *)

(** An alarm that repeats, on weekdays only if weekly. *)
Record repeats (c : WUKONG_TM_ALARM_CFG_T) : Prop := {
  rp_ok : acfg_ok c;
  rp_repeat : ac_repeat_type c <> WUKONG_TM_ALARM_REPEAT_ONCE;
  rp_mask : ac_repeat_type c = WUKONG_TM_ALARM_REPEAT_WEEKLY -> 0 < ac_weekday_mask c < 128 }.

(** A date in January, on any day of the week. *)
Definition january (c : WUKONG_TM_ALARM_CFG_T) (mday wday : Z) : POSIX_TM_S :=
  mk_tm 0 (ac_minute c) (ac_hour c) mday 0 126 wday.

Lemma january_wf c mday wday : acfg_ok c -> 1 <= mday <= 31 -> wf_tm (january c mday wday).
Proof. intros [? ? _ _ _] Hd. split; cbn; [lia..|]. split; [lia|exact Hd]. Qed.

Lemma mask_eq m m' : 0 <= m < 128 -> 0 <= m' < 128 -> (forall i, 0 <= i < 7 -> Z.testbit m i = Z.testbit m' i) -> m = m'.
Proof.
  intros Hm Hm' Hb. rewrite <- (Z.mod_small m 128), <- (Z.mod_small m' 128) by done. change 128 with (2 ^ 7).
  rewrite <- !Z.land_ones by lia. apply Z.bits_inj'. intros i Hi. rewrite !Z.land_spec, !Z.testbit_ones_nonneg by lia.
  destruct (Z.ltb_spec i 7); [by rewrite Hb|by rewrite !andb_false_r].
Qed.

(** The day test of a repeating alarm. *)
Definition day_test (c : WUKONG_TM_ALARM_CFG_T) (mday wday : Z) : bool :=
  if ac_repeat_type c =? WUKONG_TM_ALARM_REPEAT_WEEKLY then Z.testbit (ac_weekday_mask c) wday
  else if ac_repeat_type c =? WUKONG_TM_ALARM_REPEAT_MONTHLY then mday =? ac_month_day c
  else true.

Lemma full_mask i : 0 <= i < 7 -> Z.testbit 127 i = true.
Proof. intros Hi. change 127 with (Z.ones 7). rewrite Z.testbit_ones_nonneg by lia. lia. Qed.

(** Two repeating alarms have the same day test exactly when they match. *)
Lemma day_test_match c c' : repeats c -> repeats c' -> ac_hour c = ac_hour c' -> ac_minute c = ac_minute c' ->
  __alarm_semantic_match c c' = true <->
  forall mday wday, 1 <= mday <= 31 -> 0 <= wday < 7 -> day_test c mday wday = day_test c' mday wday.
Proof.
  intros [[_ _ Hr _ Hd] Ho Hm] [[_ _ Hr' _ Hd'] Ho' Hm'] Hh Hmi. unfold __alarm_semantic_match, __alarm_is_all_weekdays, day_test.
  rewrite Hh, Hmi, !Z.eqb_refl. cbn [negb orb].
  unfold WUKONG_TM_ALARM_REPEAT_ONCE, WUKONG_TM_ALARM_REPEAT_DAILY, WUKONG_TM_ALARM_REPEAT_WEEKLY, WUKONG_TM_ALARM_REPEAT_MONTHLY in *.
  assert (Ht : ac_repeat_type c = 1 \/ ac_repeat_type c = 2 \/ ac_repeat_type c = 3) by lia.
  assert (Ht' : ac_repeat_type c' = 1 \/ ac_repeat_type c' = 2 \/ ac_repeat_type c' = 3) by lia.
  assert (Hall : forall k, 0 < k < 128 -> (k =? 127) = true <-> forall i, 0 <= i < 7 -> Z.testbit k i = true).
  { intros k Hk. rewrite Z.eqb_eq. split; [intros ->; apply full_mask|]. intros Hb. apply mask_eq; [lia|lia|].
    intros i Hi. by rewrite Hb, full_mask. }
  destruct Ht as [Ht|[Ht|Ht]], Ht' as [Ht'|[Ht'|Ht']]; rewrite Ht, Ht' in *; cbn [Z.eqb Pos.eqb andb orb negb].
  - done.
  - rewrite orb_false_r, Hall by auto. split; [intros Hb mday wday _ Hw; by rewrite Hb|]. intros He i Hi.
    by rewrite <- (He 1 i).
  - split; [done|]. intros He. pose proof (He 1 0). pose proof (He 2 0). lia.
  - rewrite Hall by auto. split; [intros Hb mday wday _ Hw; by rewrite Hb|]. intros He i Hi. by rewrite (He 1 i).
  - rewrite Z.eqb_eq. split; [by intros ->|]. intros He. pose proof (Hm eq_refl). pose proof (Hm' eq_refl).
    apply mask_eq; [lia|lia|]. intros i Hi. by rewrite (He 1 i).
  - split; [done|]. intros He. pose proof (He 1 0). pose proof (He 2 0). destruct (Z.testbit (ac_weekday_mask c) 0) eqn:Hb; [lia|].
    pose proof (He (ac_month_day c') 0) as H3. rewrite Z.eqb_refl in H3. specialize (Hd' eq_refl). rewrite H3 in Hb by lia. done.
  - split; [done|]. intros He. pose proof (He 1 0). pose proof (He 2 0). lia.
  - split; [done|]. intros He. pose proof (He 1 0). pose proof (He 2 0). destruct (Z.testbit (ac_weekday_mask c') 0) eqn:Hb; [lia|].
    pose proof (He (ac_month_day c) 0) as H3. rewrite Z.eqb_refl in H3. specialize (Hd eq_refl). rewrite <- H3 in Hb by lia. done.
  - rewrite Z.eqb_eq. specialize (Hd eq_refl). specialize (Hd' eq_refl). split; [by intros ->|].
    intros He. specialize (He (ac_month_day c) 0). rewrite Z.eqb_refl in He. symmetry in He. apply Z.eqb_eq, He; lia.
Qed.

(** Removal by time treats two repeating alarms as the same exactly when they
    ring at the same local times: a daily alarm and a weekly one on all seven
    days are the same, and nothing else is conflated. *)
Theorem semantic_match_same_times c c' : repeats c -> repeats c' ->
  __alarm_semantic_match c c' = true <->
  forall tm, wf_tm tm -> 0 <= tm_wday tm < 7 -> alarm_due c tm = alarm_due c' tm.
Proof.
  intros Hc Hc'.
  assert (Hdue : forall x tm, alarm_due x tm = (tm_sec tm =? 0) && (tm_min tm =? ac_minute x) && (tm_hour tm =? ac_hour x) &&
    day_test x (tm_mday tm) (tm_wday tm)) by done.
  destruct (decide (ac_hour c = ac_hour c' /\ ac_minute c = ac_minute c')) as [[Hh Hm]|Hne].
  - rewrite day_test_match by done. split.
    + intros Hd tm Hwf Hw. pose proof (wf_tm_mday tm Hwf) as [Hmd _]. by rewrite !Hdue, Hh, Hm, Hd.
    + intros He mday wday Hmd Hw. pose proof (He (january c mday wday) (january_wf c mday wday (rp_ok _ Hc) Hmd) Hw) as Heq.
      rewrite !Hdue in Heq. cbn in Heq. by rewrite Hh, Hm, !Z.eqb_refl in Heq.
  - assert (Hno : __alarm_semantic_match c c' = false).
    { unfold __alarm_semantic_match. destruct (Z.eqb_spec (ac_hour c) (ac_hour c')), (Z.eqb_spec (ac_minute c) (ac_minute c'));
        cbn; try done. by destruct Hne. }
    rewrite Hno. split; [done|]. intros He. exfalso.
    assert (Hday : exists mday wday, 1 <= mday <= 31 /\ 0 <= wday < 7 /\ day_test c mday wday = true).
    { destruct Hc as [Hok Ho Hmask]. unfold day_test.
      destruct (Z.eqb_spec (ac_repeat_type c) WUKONG_TM_ALARM_REPEAT_WEEKLY) as [Hw|_].
      - destruct (weekdays (ac_weekday_mask c)) as [|w l] eqn:Hl.
        + apply weekdays_none in Hl. specialize (Hmask Hw). change 127 with (Z.ones 7) in Hl. rewrite Z.land_ones in Hl by lia.
          rewrite Z.mod_small in Hl by lia. lia.
        + assert (Hin : List.In w (weekdays (ac_weekday_mask c))) by (rewrite Hl; by left). apply weekdays_spec in Hin as [? ?].
          by exists 1, w.
      - destruct (Z.eqb_spec (ac_repeat_type c) WUKONG_TM_ALARM_REPEAT_MONTHLY) as [Hmo|_].
        + exists (ac_month_day c), 0. pose proof (aco_day _ Hok Hmo). split_and!; [lia|lia|lia|lia|apply Z.eqb_refl].
        + by exists 1, 0. }
    destruct Hday as (mday & wday & Hmd & Hw & Hd).
    pose proof (He (january c mday wday) (january_wf c mday wday (rp_ok _ Hc) Hmd) Hw) as Heq. rewrite !Hdue in Heq.
    cbn [january tm_sec tm_min tm_hour tm_mday tm_wday] in Heq. rewrite Hd, !Z.eqb_refl in Heq. cbn [andb] in Heq.
    symmetry in Heq. rewrite !andb_true_iff, !Z.eqb_eq in Heq. destruct Heq as [[? ?] _]. by apply Hne.
Qed.

Section AlarmTime.
Context `{FZ : FixedZone off mkoff}.

(** Building the expression of an alarm without a date. *)
Lemma build_alarm_expr c : acfg_ok c -> recurring c ->
  __alarm_build_cron_expr c 32 = if no_weekday c then (OPRT_INVALID_PARM, "") else (OPRT_OK, alarm_text c).
Proof.
  intros Hok Hrec. assert (Hlen : (strlen (alarm_text c) <= 32 - 1)%nat) by (pose proof (alarm_text_length c Hok); lia). destruct Hok as [Hh Hm Hr Hk Hd].
  unfold __alarm_build_cron_expr, no_weekday, recurring, alarm_text, mday_field, wday_field in *.
  unfold WUKONG_TM_ALARM_REPEAT_ONCE, WUKONG_TM_ALARM_REPEAT_DAILY, WUKONG_TM_ALARM_REPEAT_WEEKLY,
    WUKONG_TM_ALARM_REPEAT_MONTHLY in *. cbn [Nat.eqb].
  assert (Hr' : ac_repeat_type c = 0 \/ ac_repeat_type c = 1 \/ ac_repeat_type c = 2 \/ ac_repeat_type c = 3) by lia.
  destruct Hr' as [Ht|[Ht|[Ht|Ht]]]; rewrite Ht in *; cbn [Z.eqb Pos.eqb andb] in *.
  - rewrite Hrec by done. cbn [Z.ltb]. change (0 <? 0) with false. cbv iota. by rewrite strtrunc_id by exact Hlen.
  - by rewrite strtrunc_id by exact Hlen.
  - rewrite weekday_loop_join. pose proof (weekday_text_length (ac_weekday_mask c)).
    rewrite (strtrunc_id 31) by lia. destruct (Z.eqb_spec (Z.land (ac_weekday_mask c) 127) 0) as [Hz|Hz].
    + apply weekdays_none in Hz. by rewrite Hz.
    + destruct (weekdays (ac_weekday_mask c)) as [|i l] eqn:Hw; [by apply weekdays_none in Hw|].
      destruct (String.eqb_spec (print_field (map ItemOne (i :: l))) "") as [He|_].
      * exfalso. pose proof (join_strlen "," (map print_item (map ItemOne (i :: l)))) as Hj.
        unfold print_field in He. rewrite He in Hj. cbn in Hj. enough (S (length (map print_item (map ItemOne l))) <= 0)%nat by lia.
        apply Hj. constructor; [apply fmt_u_nonempty|]. apply List.Forall_map, List.Forall_map, List.Forall_forall.
        intros x _. apply fmt_u_nonempty.
      * by rewrite strtrunc_id by exact Hlen.
  - by rewrite strtrunc_id by exact Hlen.
Qed.

Lemma field_denotes_one min max v i : field_denotes min max [ItemOne v] i = (v =? i).
Proof. unfold field_denotes. cbn. by rewrite orb_false_r. Qed.

Lemma wday_denotes c i : 0 <= i < 7 ->
  field_full 0 6 (wday_field c) || field_denotes 0 6 (wday_field c) i =
  if ac_repeat_type c =? WUKONG_TM_ALARM_REPEAT_WEEKLY then Z.testbit (ac_weekday_mask c) i else true.
Proof.
  intros Hi. unfold wday_field. destruct (ac_repeat_type c =? WUKONG_TM_ALARM_REPEAT_WEEKLY); [|by rewrite field_full_star by lia].
  assert (Hd : forall j, 0 <= j < 7 -> field_denotes 0 6 (map ItemOne (weekdays (ac_weekday_mask c))) j = Z.testbit (ac_weekday_mask c) j).
  { intros j Hj. apply eq_true_iff_eq. unfold field_denotes. rewrite existsb_exists. split.
    - intros (it & (v & <- & Hv%weekdays_spec)%List.in_map_iff & Hit). cbn in Hit. apply Z.eqb_eq in Hit as ->. apply Hv.
    - intros Hb. exists (ItemOne j). split; [|apply Z.eqb_refl]. apply List.in_map, weekdays_spec. by split. }
  rewrite Hd by done. destruct (field_full _ _ _) eqn:Hf; [|done]. cbn [orb]. symmetry.
  rewrite field_full_spec in Hf by lia. rewrite <- Hd by done. apply Hf. lia.
Qed.

(** The expression matches exactly the due times. *)
Lemma alarm_match c e tm : acfg_ok c -> no_weekday c = false ->
  expr_denotes [ItemOne 0] [ItemOne (ac_minute c)] [ItemOne (ac_hour c)] (mday_field c) [ItemStar None] (wday_field c) e ->
  wf_tm tm -> 0 <= tm_wday tm < 7 -> wukong_cron_expr_match e tm = alarm_due c tm.
Proof.
  intros Hok Hn He Hwf Hw. rewrite (match_meaning _ _ _ _ _ _ _ _ (alarm_fields_ok c Hok Hn) He Hwf Hw).
  pose proof (wf_tm_mday tm Hwf) as [Hmd Hmon].
  unfold cron_meaning, day_rule, alarm_due. rewrite !field_denotes_one, !(Z.eqb_sym _ (tm_sec tm)), !(Z.eqb_sym _ (tm_min tm)),
    !(Z.eqb_sym _ (tm_hour tm)).
  assert (Hmo : field_denotes 1 12 [ItemStar None] (tm_mon tm + 1) = true).
  { eapply field_full_spec; [|by apply field_full_star|]; lia. }
  rewrite Hmo, andb_true_r. f_equal. rewrite wday_denotes by done.
  unfold mday_field, wday_field, WUKONG_TM_ALARM_REPEAT_MONTHLY, WUKONG_TM_ALARM_REPEAT_WEEKLY.
  destruct (Z.eqb_spec (ac_repeat_type c) 3) as [Ht|Ht].
  - rewrite Ht. change (3 =? 2) with false. cbv iota. rewrite field_full_one, field_full_star, field_denotes_one by lia. apply Z.eqb_sym.
  - by rewrite field_full_star by lia.
Qed.

(** ** A due time always comes *)

(** The instant of a local day and time. *)
Lemma instant_of D h m u : 0 <= h < 24 -> 0 <= m < 60 -> u + off = 86400 * D + 3600 * h + 60 * m ->
  86400 <= u < 2 ^ 32 - 86400 ->
  tm_days (local_tm u) = D /\ tm_hour (local_tm u) = h /\ tm_min (local_tm u) = m /\ tm_sec (local_tm u) = 0.
Proof. intros Hh Hm Hu Hr. destruct (local_tm_linear u Hr) as (Hl & ? & ? & ?). lia. Qed.

(** The month after a month, and one of two consecutive months has 31 days. *)
Lemma next_month y m : 0 <= m < 12 -> exists y' m', 0 <= m' < 12 /\
  day_number y' m' 1 = day_number y m 1 + __days_in_month y m /\
  (__days_in_month y m = 31 \/ __days_in_month y' m' = 31).
Proof.
  intros Hm. pose proof (day_number_carry y m (1 + __days_in_month y m) Hm) as Hc. rewrite carry_year_spec in Hc by lia.
  exists (y + (m + 1) / 12), ((m + 1) mod 12). split; [apply Z.mod_pos_bound; lia|]. split.
  - rewrite Z.add_simpl_r in Hc. rewrite <- Hc. unfold day_number. lia.
  - clear Hc. unfold __days_in_month. month_cases m; cbn; auto.
Qed.

(** The day part of being due. *)
Definition day_due (c : WUKONG_TM_ALARM_CFG_T) (tm : POSIX_TM_S) : Prop :=
  (ac_repeat_type c = WUKONG_TM_ALARM_REPEAT_WEEKLY -> Z.testbit (ac_weekday_mask c) (tm_wday tm) = true) /\
  (ac_repeat_type c = WUKONG_TM_ALARM_REPEAT_MONTHLY -> tm_mday tm = ac_month_day c).

Lemma due_on c D u : acfg_ok c -> u + off = 86400 * D + 3600 * ac_hour c + 60 * ac_minute c ->
  86400 <= u < 2 ^ 32 - 86400 -> day_due c (local_tm u) -> alarm_due c (local_tm u) = true.
Proof.
  intros [Hh Hm _ _ _] Hu Hr [Hw Hd]. destruct (instant_of D (ac_hour c) (ac_minute c) u) as (_ & H1 & H2 & H3); [done..|].
  unfold alarm_due. rewrite H1, H2, H3, !Z.eqb_refl. cbn [andb].
  destruct (Z.eqb_spec (ac_repeat_type c) WUKONG_TM_ALARM_REPEAT_WEEKLY); [by apply Hw|].
  destruct (Z.eqb_spec (ac_repeat_type c) WUKONG_TM_ALARM_REPEAT_MONTHLY); [|done]. apply Z.eqb_eq. by apply Hd.
Qed.

Lemma due_daily c from : acfg_ok c -> search_room from ->
  ac_repeat_type c <> WUKONG_TM_ALARM_REPEAT_WEEKLY -> ac_repeat_type c <> WUKONG_TM_ALARM_REPEAT_MONTHLY ->
  exists u, from < u <= from + 86400 /\ alarm_due c (local_tm u) = true.
Proof.
  unfold search_room, max_jump. intros Hok Hroom Hw Hm. assert (Hspan : search_span = 158112000) by reflexivity.
  destruct (local_tm_linear from) as (Hl & ? & ? & ?); [lia|]. pose proof (aco_hour _ Hok). pose proof (aco_minute _ Hok).
  set (D := tm_days (local_tm from)) in *. set (u0 := 86400 * D + 3600 * ac_hour c + 60 * ac_minute c - off).
  pose proof off_bounds.
  assert (Hdue : forall k, 86400 <= u0 + 86400 * k < 2 ^ 32 - 86400 -> alarm_due c (local_tm (u0 + 86400 * k)) = true).
  { intros k Hk. apply (due_on c (D + k)); [done|unfold u0; lia|done|]. by split; intros ?. }
  destruct (Z.ltb_spec from u0).
  - exists (u0 + 86400 * 0). split; [lia|]. apply Hdue. lia.
  - exists (u0 + 86400 * 1). split; [lia|]. apply Hdue. lia.
Qed.

Lemma due_weekly c from : acfg_ok c -> search_room from -> no_weekday c = false ->
  ac_repeat_type c = WUKONG_TM_ALARM_REPEAT_WEEKLY ->
  exists u, from < u <= from + 86400 * 7 /\ alarm_due c (local_tm u) = true.
Proof.
  unfold search_room, max_jump. intros Hok Hroom Hn Hw. assert (Hspan : search_span = 158112000) by reflexivity.
  destruct (local_tm_linear from) as (Hl & ? & ? & ?); [lia|]. pose proof (aco_hour _ Hok). pose proof (aco_minute _ Hok).
  set (D := tm_days (local_tm from)) in *. set (u0 := 86400 * D + 3600 * ac_hour c + 60 * ac_minute c - off).
  pose proof off_bounds.
  unfold no_weekday in Hn. rewrite Hw in Hn. change (WUKONG_TM_ALARM_REPEAT_WEEKLY =? _) with true in Hn. cbn [andb] in Hn.
  destruct (weekdays (ac_weekday_mask c)) as [|w l] eqn:Hl'; [apply weekdays_none in Hl'; lia|].
  assert (Hwd : List.In w (weekdays (ac_weekday_mask c))) by (rewrite Hl'; by left). apply weekdays_spec in Hwd as [Hwr Hb].
  set (j := (w - D - 4) mod 7). assert (Hj : 0 <= j < 7) by (apply Z.mod_pos_bound; lia).
  assert (Hdue : forall k, (D + k + 4) mod 7 = w -> 86400 <= u0 + 86400 * k < 2 ^ 32 - 86400 ->
    alarm_due c (local_tm (u0 + 86400 * k)) = true).
  { intros k Hk Hr. apply (due_on c (D + k)); [done|unfold u0; lia|done|]. split; [|intros Hm; rewrite Hw in Hm; discriminate Hm].
    intros _. destruct (local_tm_spec (u0 + 86400 * k) Hr) as (_ & _ & _ & ->).
    destruct (instant_of (D + k) (ac_hour c) (ac_minute c) (u0 + 86400 * k)) as (-> & _); [done|done|unfold u0; lia|done|].
    by rewrite Hk. }
  destruct (Z.ltb_spec from (u0 + 86400 * j)).
  - exists (u0 + 86400 * j). split; [lia|]. apply Hdue; [|lia]. subst j. Z.div_mod_to_equations. lia.
  - exists (u0 + 86400 * (j + 7)). split; [lia|]. apply Hdue; [|lia]. subst j. Z.div_mod_to_equations. lia.
Qed.

Lemma due_monthly c from : acfg_ok c -> search_room from -> ac_repeat_type c = WUKONG_TM_ALARM_REPEAT_MONTHLY ->
  exists u, from < u <= from + 86400 * 93 /\ alarm_due c (local_tm u) = true.
Proof.
  unfold search_room, max_jump. intros Hok Hroom Ht. assert (Hspan : search_span = 158112000) by reflexivity.
  destruct (local_tm_linear from) as (Hl & ? & ? & ?); [lia|]. destruct (local_tm_spec from) as (_ & Hwf & _); [lia|].
  pose proof (aco_hour _ Hok). pose proof (aco_minute _ Hok). pose proof (aco_day _ Hok Ht) as Hday. pose proof off_bounds.
  destruct Hwf as [_ _ _ [Hmon Hmd]]. unfold tm_days in Hl. set (y := tm_year (local_tm from)) in *. set (m := tm_mon (local_tm from)) in *.
  set (d := tm_mday (local_tm from)) in *. assert (Hd1 : day_number y m d = day_number y m 1 + d - 1) by (unfold day_number; lia).
  destruct (next_month y m Hmon) as (y1 & m1 & Hm1 & Hn1 & _).
  destruct (next_month y1 m1 Hm1) as (y2 & m2 & Hm2 & Hn2 & H31).
  pose proof (days_in_month_range y m Hmon). pose proof (days_in_month_range y1 m1 Hm1).
  pose proof (days_in_month_range y2 m2 Hm2).
  assert (Hpick : exists y' m', wf_date y' m' (ac_month_day c) /\
    day_number y m 1 + __days_in_month y m <= day_number y' m' 1 <= day_number y m 1 + 62).
  { destruct H31 as [H31|H31]; [exists y1, m1|exists y2, m2]; (split; [split; [done|lia]|lia]). }
  destruct Hpick as (y' & m' & Hwd & Hrange).
  assert (Hdn : day_number y' m' (ac_month_day c) = day_number y' m' 1 + ac_month_day c - 1) by (unfold day_number; lia).
  set (u := 86400 * day_number y' m' (ac_month_day c) + 3600 * ac_hour c + 60 * ac_minute c - off).
  exists u. assert (Hu : from < u <= from + 86400 * 93) by (unfold u; lia). split; [done|].
  assert (Hr : 86400 <= u < 2 ^ 32 - 86400) by lia.
  apply (due_on c (day_number y' m' (ac_month_day c))); [done|unfold u; lia|done|].
  split; [intros Hw; rewrite Ht in Hw; discriminate Hw|]. intros _.
  destruct (local_tm_spec u Hr) as (_ & Hwu & _). 
  destruct (instant_of (day_number y' m' (ac_month_day c)) (ac_hour c) (ac_minute c) u) as (HD & _); [done|done|unfold u; lia|done|].
  unfold tm_days in HD. by destruct (day_number_inj _ _ _ _ _ _ (wf_md _ Hwu) Hwd HD) as (_ & _ & ->).
Qed.

Lemma due_soon c from : acfg_ok c -> search_room from -> no_weekday c = false ->
  exists u, from < u <= from + 86400 * alarm_period c /\ alarm_due c (local_tm u) = true.
Proof.
  intros Hok Hroom Hn. unfold alarm_period.
  destruct (Z.eqb_spec (ac_repeat_type c) WUKONG_TM_ALARM_REPEAT_WEEKLY); [by apply due_weekly|].
  destruct (Z.eqb_spec (ac_repeat_type c) WUKONG_TM_ALARM_REPEAT_MONTHLY); [by apply due_monthly|]. by apply due_daily.
Qed.

(** C18. An alarm that recurs (or has no date) rings when it is configured to: the
    expression built for it is accepted by the cron parser, and the search finds
    the first second after [from] that is due - at the alarm's hour and minute,
    on one of its weekdays or on its day of the month - which comes within one
    day, one week, or 93 days for a monthly alarm. The one configuration that
    validation accepts and scheduling refuses is a weekly alarm whose mask has
    only bits beyond Saturday. *)
Theorem alarm_rings_when_due c from : acfg_u32 c -> __alarm_validate_cfg c = OPRT_OK -> recurring c -> search_room from ->
  if no_weekday c then fst (__alarm_build_cron_expr c 32) = OPRT_INVALID_PARM
  else exists expr e t, __alarm_build_cron_expr c 32 = (OPRT_OK, expr) /\
    wukong_cron_expr_parse expr = Some (OPRT_OK, e) /\ wukong_cron_expr_next_fire e from = Some (OPRT_OK, t) /\
    from < t <= from + 86400 * alarm_period c /\ alarm_due c (local_tm t) = true /\
    forall u, from < u < t -> alarm_due c (local_tm u) = false.
Proof.
  intros Hu Hok%validate_ok Hrec Hroom; [|done]. rewrite build_alarm_expr by done. destruct (no_weekday c) eqn:Hn; [done|].
  destruct (expr_parse_print _ _ _ _ _ _ (alarm_fields_ok c Hok Hn)) as (e & Hp & Hden).
  { pose proof (alarm_text_length c Hok). unfold alarm_text, WUKONG_CRON_EXPR_MAX_LEN in *. lia. }
  destruct (next_fire_search e from) as (r & Hr & Hspec); [by eapply expr_parse_wf|done|].
  unfold search_room, max_jump in Hroom. assert (Hspan : search_span = 158112000) by reflexivity.
  assert (Hfire : forall u, 86400 <= u < 2 ^ 32 - 86400 -> fires_at e u = alarm_due c (local_tm u)).
  { intros u Hu'. destruct (local_tm_spec u Hu') as (_ & Hwu & _ & Hwd). unfold fires_at. eapply alarm_match; [done|done|done|done|].
    rewrite Hwd. apply Z.mod_pos_bound. lia. }
  destruct (due_soon c from Hok) as (u & Hub & Hdue); [done|done|].
  assert (Hper : alarm_period c <= 93) by (unfold alarm_period; repeat case_match; lia).
  rewrite <- Hfire in Hdue by lia. destruct Hspec as [(Hrt & Hrange & Hf & Hno)|[_ Hno]].
  - destruct r as [rt t]. cbn [fst snd] in *. subst rt. exists (alarm_text c), e, t. rewrite Hfire in Hf by lia.
    split; [done|]. split; [done|]. split; [done|]. split; [|split; [done|intros v Hv; rewrite <- Hfire by lia; by apply Hno]].
    split; [lia|]. destruct (Z.leb_spec t (from + 86400 * alarm_period c)); [done|].
    rewrite Hno in Hdue by lia. done.
  - rewrite Hno in Hdue by lia. done.
Qed.

(** ** Today's occurrence *)

Lemma trigger_wf now c : acfg_ok c -> wf_tm (local_tm now) ->
  wf_tm (trigger_today (local_tm now) c) /\
  tm_secs (trigger_today (local_tm now) c) = 86400 * tm_days (local_tm now) + 3600 * ac_hour c + 60 * ac_minute c.
Proof.
  intros [Hh Hm _ _ _] [_ _ _ Hd]. unfold trigger_today. rewrite !i32_id by (unfold INT_MIN, INT_MAX; lia).
  split; [split; [cbn; lia..|exact Hd]|]. unfold tm_secs, tm_days. cbn [tm_year tm_mon tm_mday tm_hour tm_min tm_sec]. lia.
Qed.

(** The conversion of a well-formed time close to a safe one. *)
Lemma mktime_trigger now c : acfg_ok c -> 200000 <= now < 2 ^ 32 - 200000 ->
  tal_time_mktime (trigger_today (local_tm now) c) =
  u32 (86400 * tm_days (local_tm now) + 3600 * ac_hour c + 60 * ac_minute c - mkoff).
Proof.
  intros Hok Hnow. destruct (local_tm_spec now) as (_ & Hwf & _); [lia|]. destruct (trigger_wf now c Hok Hwf) as [Hwt Hsecs].
  by rewrite (fz_mktime _ Hwt), Hsecs.
Qed.

(** Switching on a once alarm whose time has passed moves it to the first
    instant after now at its hour and minute - today if that is still to come,
    otherwise tomorrow - and the cron job built for it fires exactly then; an
    alarm whose date lies ahead keeps it. This holds whichever way
    [tal_time_mktime] reads its argument. *)
Theorem once_alarm_rolls_over c now : acfg_u32 c -> __alarm_validate_cfg c = OPRT_OK ->
  ac_repeat_type c = WUKONG_TM_ALARM_REPEAT_ONCE -> search_room now -> search_room (now + 86400) ->
  if now <? ac_start_time c then once_rollover now c = (OPRT_OK, c)
  else exists t expr e, once_rollover now c = (OPRT_OK, ac_set_start (ac_hour c) (ac_minute c) t c) /\
    now < t <= now + 86400 /\ alarm_due c (local_tm t) = true /\
    (forall u, now < u < t -> alarm_due c (local_tm u) = false) /\
    __alarm_build_cron_expr (ac_set_start (ac_hour c) (ac_minute c) t c) 32 = (OPRT_OK, expr) /\
    wukong_cron_expr_parse expr = Some (OPRT_OK, e) /\ wukong_cron_expr_next_fire e now = Some (OPRT_OK, t).
Proof.
  intros Hu Hok%validate_ok Ht Hroom Hroom'; [|done]. assert (Hspan : search_span = 158112000) by reflexivity.
  pose proof off_bounds.
  assert (Hr : 200000 <= now < 2 ^ 32 - 200000 - 732 * 86400 - 158112000) by (unfold search_room, max_jump in Hroom; lia).
  destruct (local_tm_spec now) as (Hloc & Hwf & Hsecs & _); [lia|]. destruct (local_tm_linear now) as (Hl & ? & ? & ?); [lia|].
  pose proof (aco_hour _ Hok). pose proof (aco_minute _ Hok).
  unfold once_rollover. rewrite Hloc. if_false (apply orb_false_iff; split; [lia|done]).
  destruct (Z.ltb_spec now (ac_start_time c)) as [|Hst]; [done|]. cbv zeta.
  rewrite mktime_trigger by (done || lia). rewrite (fz_mktime _ Hwf), Hsecs. set (D := tm_days (local_tm now)) in *.
  set (t0 := 86400 * D + 3600 * ac_hour c + 60 * ac_minute c - off).
  assert (Ht0 : u32 (u32 (86400 * D + 3600 * ac_hour c + 60 * ac_minute c - mkoff) - u32 (u32 (now + off - mkoff) - now)) = t0).
  { rewrite (u32_sub_l (now + off - mkoff)), u32_sub, u32_id; unfold is_u32, t0; lia. }
  rewrite Ht0. if_false lia. assert (Hb : now - 86400 < t0 < now + 86400) by (unfold t0; lia).
  if_false (apply andb_false_iff; right; apply Z.ltb_ge; unfold u32, WUKONG_TM_ALARM_ONCE_DAY_SEC;
            change ((-1 - 86400) mod 2 ^ 32) with (2 ^ 32 - 86401); lia).
  set (t := if t0 <=? now then u32 (t0 + WUKONG_TM_ALARM_ONCE_DAY_SEC) else t0).
  assert (Ht' : t = t0 /\ now < t0 \/ t = t0 + 86400 /\ t0 <= now).
  { unfold t, WUKONG_TM_ALARM_ONCE_DAY_SEC. destruct (Z.leb_spec t0 now); [right|by left].
    split; [apply u32_id; unfold is_u32; lia|done]. }
  assert (Hday : exists D', t + off = 86400 * D' + 3600 * ac_hour c + 60 * ac_minute c).
  { destruct Ht' as [[-> _]|[-> _]]; [exists D|exists (D + 1)]; unfold t0; lia. }
  destruct Hday as [D' HD]. assert (Htr : now < t <= now + 86400) by lia. clearbody t. clear Ht' Hb Ht0.
  destruct (local_tm_spec t) as (Hlt & _); [lia|].
  destruct (instant_of D' (ac_hour c) (ac_minute c) t) as (_ & Hth & Htm & Hts); [done|done|done|lia|].
  rewrite Hlt. change (OPRT_OK =? OPRT_OK) with true. cbv iota. rewrite Hth, Htm, !u32_id by (unfold is_u32; lia).
  destruct (once_job_fires t now Hroom) as (expr & e & Hbe & Hp & _ & Hn).
  { unfold search_room, max_jump in *. lia. }
  exists t, expr, e. split; [done|]. split; [done|]. split.
  { apply (due_on c D'); [done|done|lia|]. by split; intros Hx; rewrite Ht in Hx. }
  split.
  { intros u Hub. apply not_true_iff_false. unfold alarm_due. rewrite !andb_true_iff, !Z.eqb_eq. intros [[[Hs Hm] Hh] _].
    destruct (local_tm_linear u) as (Hlu & _); [lia|]. lia. }
  split; [|split; [done|apply Hn; lia]].
  unfold __alarm_build_cron_expr. cbn [Nat.eqb ac_set_start ac_repeat_type ac_start_time]. rewrite Ht.
  change (_ =? WUKONG_TM_ALARM_REPEAT_ONCE) with true. cbv iota. by if_true lia.
Qed.

(** The "expired" flag of a daily alarm, of a weekly one on its weekdays and
    of a monthly one on its day does not say whether today's occurrence [t0] is
    over: it compares now with [t0 + off - mkoff]. It is right where
    [tal_time_mktime] reads local time ([mkoff = off]), and late by the UTC
    offset where it reads UTC, the case that the switching-on code compensates
    for. *)
Theorem expired_flag_skewed c now t0 : acfg_u32 c -> __alarm_validate_cfg c = OPRT_OK ->
  ac_repeat_type c <> WUKONG_TM_ALARM_REPEAT_ONCE -> search_room now -> search_room t0 ->
  tm_days (local_tm t0) = tm_days (local_tm now) -> alarm_due c (local_tm t0) = true ->
  __alarm_is_expired c now (local_tm now) = (t0 + (off - mkoff) <=? now).
Proof.
  intros Hu Hok%validate_ok Ht Hroom Hroom0 Hday Hdue; [|done]. assert (Hspan : search_span = 158112000) by reflexivity.
  pose proof off_bounds. unfold search_room, max_jump in *.
  destruct (local_tm_same_day t0 now) as (_ & _ & Hmd & Hwd); [lia|lia|done|].
  destruct (local_tm_linear t0) as (Hl0 & _); [lia|]. destruct (local_tm_linear now) as (Hl & ? & ? & ?); [lia|].
  destruct (local_tm_spec now) as (_ & Hwf & _ & Hwn); [lia|].
  unfold alarm_due in Hdue. rewrite !andb_true_iff, !Z.eqb_eq in Hdue. destruct Hdue as [[[Hs Hm] Hh] Hd].
  assert (Hmk : mkoff = 0 \/ mkoff = off) by apply fz_mkoff.
  assert (Hpassed : (0 <? tal_time_mktime (trigger_today (local_tm now) c)) && (tal_time_mktime (trigger_today (local_tm now) c) <=? now)
                    = (t0 + (off - mkoff) <=? now)).
  { rewrite mktime_trigger by (done || lia). rewrite u32_id by (unfold is_u32; lia). lia. }
  unfold __alarm_is_expired. rewrite Hpassed, <- Hmd, <- Hwd. if_false lia. pose proof (aco_repeat _ Hok).
  assert (0 <= tm_wday (local_tm t0) < 7) by (rewrite Hwd, Hwn; apply Z.mod_pos_bound; lia).
  unfold WUKONG_TM_ALARM_REPEAT_ONCE, WUKONG_TM_ALARM_REPEAT_DAILY, WUKONG_TM_ALARM_REPEAT_WEEKLY, WUKONG_TM_ALARM_REPEAT_MONTHLY in *.
  assert (Hr : ac_repeat_type c = 1 \/ ac_repeat_type c = 2 \/ ac_repeat_type c = 3) by lia.
  destruct Hr as [Hr|[Hr|Hr]]; rewrite Hr in *; cbn [Z.eqb Pos.eqb] in *; [done| |].
  - by rewrite weekday_bit, Hd by done.
  - apply Z.eqb_eq in Hd. pose proof (aco_day _ Hok Hr). rewrite i32_id by (unfold INT_MIN, INT_MAX; lia).
    rewrite Hd, Z.ltb_irrefl, Z.eqb_refl. done.
Qed.

End AlarmTime.
