(* ===== verification/TmAlarmCorrect.v ===== *)
(** The alarms refine a finite map of at most eight alarms, each with a small
    ringing automaton. *)
From stdpp Require Import gmap strings fin_maps.
From S2P Require Import Prelude.
From S2P Require Import Calendar.
From S2P Require Import CStr.
From S2P Require Import World.
From S2P Require Import Slots.
From S2P Require Import Json.
From S2P Require Import TmHost.
From S2P Require Import TmStore.
From S2P Require Import TmAlarm.
From S2P Require Import TmAlarmTime.

#[local] Open Scope string_scope.
#[local] Open Scope Z_scope.

(** ** The table as a map *)

(** What identifies an alarm's schedule: its configuration without the cron job. *)
Definition alarm_val (a : WUKONG_TM_ALARM_ITEM_T) : WUKONG_TM_ALARM_CFG_T := ac_set_job "" (al_cfg a).

Abbreviation al_kv := (table_kv al_used al_alarm_id alarm_val).

Definition al_map (s : ALARM_STATICS) : gmap string WUKONG_TM_ALARM_CFG_T := slots_map al_kv (alarms s).

Record aid_wf (id : string) : Prop := {
  aidw_nonempty : id <> "";
  aidw_length : (strlen id <= WUKONG_TM_ALARM_ID_LEN)%nat;
  aidw_plain : plain id = true }.

Record acfg_wf (c : WUKONG_TM_ALARM_CFG_T) : Prop := {
  acw_u32 : acfg_u32 c;
  acw_ok : acfg_ok c;
  acw_message : (strlen (ac_message c) <= WUKONG_TM_ALARM_MESSAGE_LEN)%nat }.

Definition alarm_wf (a : WUKONG_TM_ALARM_ITEM_T) : Prop :=
  al_used a = true -> aid_wf (al_alarm_id a) /\ acfg_wf (al_cfg a).

Record alarms_wf (s : ALARM_STATICS) : Prop := {
  axw_init : ax_initialized (s_alarm_ctx s) = true;
  axw_size : length (alarms s) = WUKONG_TM_ALARM_MAX_COUNT;
  axw_items : Forall alarm_wf (alarms s);
  axw_distinct : slots_distinct al_kv (alarms s) }.

(** The run-time part of an alarm, all at once. *)
Definition al_run (ringing : bool) (seq : Z) (ack snooze : string) (a : WUKONG_TM_ALARM_ITEM_T) : WUKONG_TM_ALARM_ITEM_T :=
  mk_alarm (al_used a) (al_alarm_id a) (al_cfg a) ringing seq ack snooze.

(** Two alarms that differ in job ids and ringing only. *)
Record same_alarm (a a' : WUKONG_TM_ALARM_ITEM_T) : Prop := {
  sa_used : al_used a' = al_used a;
  sa_id : al_alarm_id a' = al_alarm_id a;
  sa_val : alarm_val a' = alarm_val a }.

#[export] Instance same_alarm_refl : Reflexive same_alarm.
Proof. by intros a. Qed.
#[export] Instance same_alarm_trans : Transitive same_alarm.
Proof. intros a b c [? ? ?] [? ? ?]. split; congruence. Qed.

Lemma same_run r n j1 j2 a : same_alarm a (al_run r n j1 j2 a).
Proof. done. Qed.

Lemma same_job j a : same_alarm a (al_with_cfg (ac_set_job j) a).
Proof. done. Qed.

Lemma acfg_wf_job j c : acfg_wf c <-> acfg_wf (ac_set_job j c).
Proof. split; intros [[] [] ?]; (split; [by split|by split|done]). Qed.

Lemma same_wf a a' : same_alarm a a' -> alarm_wf a -> alarm_wf a'.
Proof.
  intros [Hu Hi Hv] Hwf Hu'. destruct Hwf as [Hid Hc]; [congruence|]. split; [congruence|].
  apply (acfg_wf_job ""). apply (acfg_wf_job "") in Hc. unfold alarm_val in Hv. by rewrite Hv.
Qed.

Lemma set_alarm_items i a s : alarms (set_alarm i a s) = <[i := a]> (alarms s).
Proof. done. Qed.

Lemma set_alarm_id i a s : alarms s !! i = Some a -> set_alarm i a s = s.
Proof.
  intros Hi. unfold set_alarm. rewrite list_insert_id by done. by destruct s as [[]].
Qed.

Lemma set_alarm_twice i a b s : set_alarm i a (set_alarm i b s) = set_alarm i a s.
Proof. unfold set_alarm, with_ctx, alarms. cbn. by rewrite list_insert_insert_eq. Qed.

Lemma set_alarm_lookup i a b s : alarms s !! i = Some a -> alarms (set_alarm i b s) !! i = Some b.
Proof. intros Hi. apply list_lookup_insert_eq. by eapply lookup_lt_Some. Qed.

Lemma alarm_wf_at s i a : alarms_wf s -> alarms s !! i = Some a -> alarm_wf a.
Proof. intros Hwf Hi. eapply Forall_lookup_1; [apply Hwf|exact Hi]. Qed.

Lemma alarms_wf_set s i a a' : alarms_wf s -> alarms s !! i = Some a -> alarm_wf a' ->
  slots_distinct al_kv (<[i := a']> (alarms s)) -> alarms_wf (set_alarm i a' s).
Proof.
  intros [Hin Hs Hit Hd] Hi Hw' Hd'. split; [done|by rewrite set_alarm_items, length_insert| |done].
  rewrite set_alarm_items. by apply Forall_insert.
Qed.

Lemma same_set s i a a' : alarms_wf s -> alarms s !! i = Some a -> same_alarm a a' ->
  alarms_wf (set_alarm i a' s) /\ al_map (set_alarm i a' s) = al_map s.
Proof.
  intros Hwf Hi Hsame. destruct (slots_same al_kv (alarms s) i a' a) as [Hd Hm]; [apply Hwf|done| |].
  { destruct Hsame as [Hu Hid Hv]. unfold table_kv. by rewrite Hu, Hid, Hv. }
  split; [|done]. eapply alarms_wf_set; [done|exact Hi| |done]. eapply same_wf; [done|by eapply alarm_wf_at].
Qed.

Lemma alarm_fill s i a a' : alarms_wf s -> alarms s !! i = Some a -> al_used a = false ->
  al_used a' = true -> alarm_wf a' -> al_map s !! al_alarm_id a' = None ->
  alarms_wf (set_alarm i a' s) /\ al_map (set_alarm i a' s) = <[al_alarm_id a' := alarm_val a']> (al_map s).
Proof.
  intros Hwf Hi Hu Hu' Hw' Hn. destruct (table_fill al_used al_alarm_id alarm_val (alarms s) i a a') as [Hd Hm];
    [apply Hwf|done..|]. split; [by eapply alarms_wf_set|exact Hm].
Qed.

Lemma alarm_overwrite s i a a' : alarms_wf s -> alarms s !! i = Some a -> al_used a = true ->
  al_used a' = true -> al_alarm_id a' = al_alarm_id a -> alarm_wf a' ->
  alarms_wf (set_alarm i a' s) /\ al_map (set_alarm i a' s) = <[al_alarm_id a := alarm_val a']> (al_map s).
Proof.
  intros Hwf Hi Hu Hu' Hn Hw'. destruct (table_overwrite al_used al_alarm_id alarm_val (alarms s) i a a') as [Hd Hm];
    [apply Hwf|done..|]. split; [by eapply alarms_wf_set|exact Hm].
Qed.

Lemma alarm_erase s i a : alarms_wf s -> alarms s !! i = Some a -> al_used a = true ->
  alarms_wf (set_alarm i alarm_zero s) /\ al_map (set_alarm i alarm_zero s) = delete (al_alarm_id a) (al_map s).
Proof.
  intros Hwf Hi Hu. destruct (table_erase al_used al_alarm_id alarm_val (alarms s) i a alarm_zero) as [Hd Hm];
    [apply Hwf|done..|]. split; [by eapply alarms_wf_set|exact Hm].
Qed.

Lemma alarm_vacate s i a : alarms_wf s -> alarms s !! i = Some a -> al_used a = false ->
  alarms_wf (set_alarm i alarm_zero s) /\ al_map (set_alarm i alarm_zero s) = al_map s.
Proof.
  intros Hwf Hi Hu. destruct (table_vacate al_used al_alarm_id alarm_val (alarms s) i a alarm_zero) as [Hd Hm];
    [apply Hwf|done..|]. split; [by eapply alarms_wf_set|exact Hm].
Qed.

Lemma alarm_find s id : alarms_wf s ->
  match __alarm_find_index id s with
  | Some i => exists a, alarms s !! i = Some a /\ al_used a = true /\ al_alarm_id a = id /\ al_map s !! id = Some (alarm_val a)
  | None => al_map s !! id = None
  end.
Proof.
  intros Hwf. unfold __alarm_find_index. destruct (first_slot _ _) as [i|] eqn:Hf.
  - by apply (find_named_Some _ _ alarm_val) in Hf; [|apply Hwf].
  - by apply (find_named_None _ _ alarm_val) in Hf; [|apply Hwf].
Qed.

Lemma alarm_free s : alarms_wf s ->
  match __alarm_alloc_index s with
  | Some i => exists a, alarms s !! i = Some a /\ al_used a = false /\ (size (al_map s) < WUKONG_TM_ALARM_MAX_COUNT)%nat
  | None => size (al_map s) = WUKONG_TM_ALARM_MAX_COUNT
  end.
Proof.
  intros Hwf. unfold __alarm_alloc_index. rewrite <- (axw_size _ Hwf). destruct (first_slot _ _) as [i|] eqn:Hf.
  - by apply (find_free_Some _ al_alarm_id alarm_val) in Hf.
  - by apply (find_free_None _ al_alarm_id alarm_val) in Hf; [|apply Hwf].
Qed.

(** ** Specification *)

Inductive al_op :=
| AlAdd (cfg : WUKONG_TM_ALARM_CFG_T) (id : string)
| AlUpdate (id : string) (cfg : WUKONG_TM_ALARM_CFG_T)
| AlEnable (id : string) (enable : bool)
| AlRemove (id : string)
| AlRemoveByTime (cfg : WUKONG_TM_ALARM_CFG_T)
| AlAck (id : string)
| AlFire (params : option cJSON)
| AlTimeout (params : option cJSON)
| AlReplay (params : option cJSON).

(** The caller's records fit their types; ids of new alarms are short, plain
    text. *)
Definition acfg_arg (cfg : WUKONG_TM_ALARM_CFG_T) : Prop :=
  acfg_u32 cfg /\ (strlen (ac_message cfg) <= WUKONG_TM_ALARM_MESSAGE_LEN)%nat.

Definition al_op_ok (op : al_op) : Prop :=
  match op with
  | AlAdd cfg id => acfg_arg cfg /\ (id <> "" -> aid_wf id)
  | AlUpdate id cfg => acfg_arg cfg
  | _ => True
  end.

Definition is_once (c : WUKONG_TM_ALARM_CFG_T) : bool := ac_repeat_type c =? WUKONG_TM_ALARM_REPEAT_ONCE.

Section Spec.
Context `{TS : TimeService}.

(** What becomes of a configuration when it is scheduled: an enabled once alarm
    is moved to its next occurrence, as seen from the current time. *)
Definition placed (c c' : WUKONG_TM_ALARM_CFG_T) : Prop :=
  if ac_enabled c && is_once c then exists now, is_u32 now /\ once_rollover now c = (OPRT_OK, c') else c' = c.

(** What a cycle's end leaves of a configuration: a once alarm is done. *)
Definition finished (c : WUKONG_TM_ALARM_CFG_T) : WUKONG_TM_ALARM_CFG_T := if is_once c then ac_set_enabled false c else c.

(** [m'] is [m] without some of the alarms that match [c]. *)
Definition thinned (c : WUKONG_TM_ALARM_CFG_T) (m m' : gmap string WUKONG_TM_ALARM_CFG_T) : Prop :=
  m' ⊆ m /\ forall id v, m !! id = Some v -> __alarm_semantic_match v c = false -> m' !! id = Some v.

(** [al_step op m rt m']: with the alarms [m], the operation returns [rt] and
    leaves [m']. *)
Inductive al_step : al_op -> gmap string WUKONG_TM_ALARM_CFG_T -> OPERATE_RET -> gmap string WUKONG_TM_ALARM_CFG_T -> Prop :=
| alarm_add_invalid cfg id m : id = "" \/ ~ acfg_ok cfg -> al_step (AlAdd cfg id) m OPRT_INVALID_PARM m
| alarm_add_refused cfg id m : is_Some (m !! id) \/ size m = WUKONG_TM_ALARM_MAX_COUNT -> al_step (AlAdd cfg id) m OPRT_COM_ERROR m
| alarm_add_unscheduled cfg id m : acfg_ok cfg -> m !! id = None -> al_step (AlAdd cfg id) m OPRT_COM_ERROR m
| alarm_add_ok cfg id m c : id <> "" -> acfg_ok cfg -> m !! id = None -> (size m < WUKONG_TM_ALARM_MAX_COUNT)%nat ->
    placed (ac_set_job "" cfg) c -> al_step (AlAdd cfg id) m OPRT_OK (<[id := c]> m)
| alarm_update_invalid id cfg m : ~ acfg_ok cfg -> al_step (AlUpdate id cfg) m OPRT_INVALID_PARM m
| alarm_update_missing id cfg m : acfg_ok cfg -> m !! id = None -> al_step (AlUpdate id cfg) m OPRT_NOT_FOUND m
| alarm_update_unscheduled id cfg m : acfg_ok cfg -> is_Some (m !! id) -> al_step (AlUpdate id cfg) m OPRT_COM_ERROR m
| alarm_update_ok id cfg m c : acfg_ok cfg -> is_Some (m !! id) -> placed (ac_set_job "" cfg) c ->
    al_step (AlUpdate id cfg) m OPRT_OK (<[id := c]> m)
| alarm_enable_missing id b m : m !! id = None -> al_step (AlEnable id b) m OPRT_NOT_FOUND m
| alarm_enable_same id b m v : m !! id = Some v -> ac_enabled v = b -> al_step (AlEnable id b) m OPRT_OK m
| alarm_disable id m v : m !! id = Some v -> ac_enabled v = true ->
    al_step (AlEnable id false) m OPRT_OK (<[id := ac_set_enabled false v]> m)
| alarm_enable_ok id m v c : m !! id = Some v -> ac_enabled v = false -> placed (ac_set_enabled true v) c ->
    al_step (AlEnable id true) m OPRT_OK (<[id := c]> m)
| alarm_enable_unscheduled id m v c : m !! id = Some v -> ac_enabled v = false -> c = v \/ placed (ac_set_enabled true v) c ->
    (* stays switched off, perhaps with a new time *)
    al_step (AlEnable id true) m OPRT_COM_ERROR (<[id := ac_set_enabled false c]> m)
| alarm_remove_missing id m : m !! id = None -> al_step (AlRemove id) m OPRT_NOT_FOUND m
| alarm_remove_ok id m : is_Some (m !! id) -> al_step (AlRemove id) m OPRT_OK (delete id m)
| alarm_by_time_none c m : (forall id v, m !! id = Some v -> __alarm_semantic_match v c = false) ->
    al_step (AlRemoveByTime c) m OPRT_NOT_FOUND m
| alarm_by_time_ok c m m' : m' <> m -> thinned c m m' -> (forall id v, m' !! id = Some v -> __alarm_semantic_match v c = false) ->
    al_step (AlRemoveByTime c) m OPRT_OK m'
| alarm_ack_missing id m : m !! id = None -> al_step (AlAck id) m OPRT_NOT_FOUND m
| alarm_ack_ok id m v : m !! id = Some v -> al_step (AlAck id) m OPRT_OK (<[id := finished v]> m)
| alarm_ring params m rt : al_step (AlFire params) m rt m
| alarm_timeout params m rt : al_step (AlTimeout params) m rt m
| alarm_timeout_finished params m rt id n v : __alarm_parse_runtime_params params = Some (id, n) -> m !! id = Some v ->
    al_step (AlTimeout params) m rt (<[id := finished v]> m)
| alarm_replay params m rt : al_step (AlReplay params) m rt m.
End Spec.

(** A cron job is bound to the alarm. *)
Definition alarm_has_job (s : ALARM_STATICS) (id : string) : Prop :=
  exists i a, alarms s !! i = Some a /\ al_used a = true /\ al_alarm_id a = id /\ ac_cron_job_id (al_cfg a) <> "".

(** What success promises besides; switching on does so when it has to act. *)
Definition alarm_scheduled (op : al_op) (s s' : ALARM_STATICS) : Prop :=
  match op with
  | AlAdd _ id | AlUpdate id _ => alarm_has_job s' id
  | AlEnable id true => (exists v, al_map s !! id = Some v /\ ac_enabled v = false) -> alarm_has_job s' id
  | _ => True
  end.

(** ** Rules for the helpers *)

Lemma quiet_if {W A} `{TmHost W} (m : C W A) P (R : Prop) P' : quiet m P -> (R -> quiet m P') ->
  quiet m (fun a => P a /\ (R -> P' a)).
Proof.
  intros Hm HR w Hw. specialize (Hm w Hw). unfold wp in *. destruct (m w) as [[a w']|] eqn:He; [|done].
  destruct Hm as (Hw' & Hs & HP). split_and!; [done..|]. intros r. specialize (HR r w Hw). unfold wp in HR.
  rewrite He in HR. apply HR.
Qed.

Section Correct.
Context {K W : Type} `{KL : KvStoreLaws K} `{HL : TmHostLaws W} `{TS : TimeService} `{JT : JsonText} `{TL : TmLayout}.
Abbreviation ST := ALARM_STATICS.

(** The cron service can take the alarms' jobs. *)
Hypothesis alarm_text : forall c expr id enabled once message,
  acfg_ok c -> __alarm_build_cron_expr c 32 = (OPRT_OK, expr) -> aid_wf id ->
  (strlen message <= WUKONG_TM_ALARM_MESSAGE_LEN)%nat ->
  th_job_text (alarm_job_json id enabled once expr (escaped alarm_escape_char message)).
Hypothesis runtime_text : forall ts expr id method n,
  __alarm_build_once_cron_expr ts 32 = (OPRT_OK, expr) -> aid_wf id -> is_u32 n ->
  method = WUKONG_TM_ALARM_SNOOZE_TIMEOUT_METHOD \/ method = WUKONG_TM_ALARM_SNOOZE_FIRE_METHOD ->
  th_job_text (alarm_runtime_json id expr method n).

(** Local times have an hour and a minute. *)
Hypothesis local_clock : forall ts tm, is_u32 ts -> tal_time_get_local_time_custom ts = (OPRT_OK, tm) ->
  0 <= tm_hour tm < 24 /\ 0 <= tm_min tm < 60.

(** A device with memory, clock and cron slots to spare. *)
Definition reliable : Prop :=
  heap_ok (W := W) /\ (forall json n, th_job_text json -> quiet (th_job_add json (S n)) (fun r => fst r = OPRT_OK)) /\
  (forall ts, is_u32 ts -> fst (tal_time_get_local_time_custom ts) = OPRT_OK).

Implicit Types (s : ST) (k : K) (w : W) (a : WUKONG_TM_ALARM_ITEM_T).

Lemma malloc_reliable : quiet th_malloc (fun ok => reliable -> ok = true).
Proof.
  intros w Hw. eapply wp_mono; [apply (quiet_if _ _ reliable (fun ok => ok = true) th_malloc_law); [by intros [? _]|done]|].
  by intros ok w' (? & ? & _ & ?).
Qed.

Lemma job_add_reliable json n : th_job_text json ->
  quiet (th_job_add json (S n)) (fun r => (fst r = OPRT_OK -> (1 <= n)%nat -> snd r <> "") /\ (reliable -> fst r = OPRT_OK)).
Proof. intros Hj. apply quiet_if; [by apply th_job_add_law|]. intros (_ & H & _). by apply H. Qed.

Definition is_alarm_event (e : WUKONG_AI_EVENT_TYPE_E * list Z) : Prop := fst e = WUKONG_AI_EVENT_CLOCK_MCP_ALARM.
Abbreviation fr := (frame WUKONG_TM_ALARM_KV_KEY is_alarm_event).

Lemma get_alarm_wp s k w i a (Q : _ -> ST * (K * W) -> Prop) :
  alarms s !! i = Some a -> Q a (s, (k, w)) -> wp (get_alarm i) Q (s, (k, w)).
Proof. intros Hi HQ. unfold get_alarm. tm_step. tm_step. by eapply wp_pure. Qed.

Lemma mod_alarm_wp s k w i f a (Q : _ -> ST * (K * W) -> Prop) :
  alarms s !! i = Some a -> Q tt (set_alarm i (f a) s, (k, w)) -> wp (mod_alarm i f) Q (s, (k, w)).
Proof. intros Hi HQ. unfold mod_alarm. wp_step. eapply get_alarm_wp; [done|]. by tm_step. Qed.

(** The same on an alarm already modified. *)
Lemma mod_set_wp s k w i f a b (Q : _ -> ST * (K * W) -> Prop) :
  alarms s !! i = Some a -> Q tt (set_alarm i (f b) s, (k, w)) -> wp (mod_alarm i f) Q (set_alarm i b s, (k, w)).
Proof.
  intros Hi HQ. eapply mod_alarm_wp; [by eapply set_alarm_lookup|]. by rewrite set_alarm_twice.
Qed.

Lemma get_set_wp s k w i a b (Q : _ -> ST * (K * W) -> Prop) :
  alarms s !! i = Some a -> Q b (set_alarm i b s, (k, w)) -> wp (get_alarm i) Q (set_alarm i b s, (k, w)).
Proof. intros Hi HQ. eapply get_alarm_wp; [by eapply set_alarm_lookup|done]. Qed.

(** Removing one of the alarm's jobs. *)
Lemma remove_job_wp s k w i a b get set (Q : _ -> ST * (K * W) -> Prop) :
  th_ok w -> alarms s !! i = Some a -> set (get b) b = b ->
  (forall rt j w', th_ok w' -> th_sent w' = th_sent w -> (rt = OPRT_OK -> j = "") -> Q rt (set_alarm i (set j b) s, (k, w'))) ->
  wp (__alarm_remove_job_if_needed i get set) Q (set_alarm i b s, (k, w)).
Proof.
  intros Hw Hi Hlens HQ. unfold __alarm_remove_job_if_needed. wp_step. eapply get_set_wp; [exact Hi|].
  destruct (String.eqb_spec (get b) "") as [He|He].
  - wp_step. rewrite <- Hlens. apply HQ; [done|done|]. by rewrite He.
  - wp_step. eapply wp_dev; [apply th_job_remove_law|done|]. intros rt w1 Hw1 Hs1 _.
    destruct (Z.eqb_spec rt OPRT_OK) as [->|Hrt]; cbn [negb andb].
    + wp_step. eapply mod_set_wp; [exact Hi|]. wp_step. by apply HQ.
    + destruct (rt =? OPRT_NOT_FOUND); cbn [negb].
      * wp_step. eapply mod_set_wp; [exact Hi|]. wp_step. by apply HQ.
      * wp_step. rewrite <- Hlens. by apply HQ.
Qed.

(** Ending an alarm's ringing or snoozing. *)
Lemma clear_runtime_wp s k w i a b (Q : _ -> ST * (K * W) -> Prop) :
  th_ok w -> alarms s !! i = Some a ->
  (forall j1 j2 w', th_ok w' -> th_sent w' = th_sent w -> Q tt (set_alarm i (al_run false (al_ring_seq b) j1 j2 b) s, (k, w'))) ->
  wp (__alarm_clear_runtime_state i true) Q (set_alarm i b s, (k, w)).
Proof.
  intros Hw Hi HQ. unfold __alarm_clear_runtime_state. do 2 wp_step. eapply remove_job_wp; [done|exact Hi|by destruct b|].
  intros _ j1 w1 Hw1 Hs1 _. wp_step. eapply remove_job_wp; [done|exact Hi|by destruct b|].
  intros _ j2 w2 Hw2 Hs2 _. wp_step. eapply mod_set_wp; [exact Hi|].
  change (al_set_ring _ _ _) with (al_run false (al_ring_seq b) j1 j2 b). apply HQ; [done|congruence].
Qed.

Lemma build_once_some ts : exists rt expr, __alarm_build_once_cron_expr ts 32 = (rt, expr) /\
  (reliable -> is_u32 ts -> rt = OPRT_OK).
Proof.
  unfold __alarm_build_once_cron_expr, build_cron_expr. cbn [Nat.eqb].
  destruct (tal_time_get_local_time_custom ts) as [rt tm] eqn:Ht. destruct (Z.eqb_spec rt OPRT_OK) as [->|Hrt]; cbn [negb].
  - eexists _, _. split; [reflexivity|done].
  - eexists _, _. split; [reflexivity|]. intros (_ & _ & Hl) Hts. specialize (Hl ts Hts). by rewrite Ht in Hl.
Qed.

(** Scheduling a runtime job. *)
Lemma schedule_wp s k w i a method n delay (Q : _ -> ST * (K * W) -> Prop) :
  th_ok w -> alarms s !! i = Some a -> aid_wf (al_alarm_id a) -> is_u32 n ->
  method = WUKONG_TM_ALARM_SNOOZE_TIMEOUT_METHOD \/ method = WUKONG_TM_ALARM_SNOOZE_FIRE_METHOD ->
  (forall rt j w', th_ok w' -> th_sent w' = th_sent w ->
     (rt = OPRT_OK -> exists id, j = Some id /\ id <> "") -> (reliable -> rt = OPRT_OK) -> Q (rt, j) (s, (k, w'))) ->
  wp (__alarm_schedule_runtime_job i method n delay (WUKONG_TM_ALARM_CRON_JOB_ID_LEN + 1)) Q (s, (k, w)).
Proof.
  intros Hw Hi Hid Hn Hm HQ. unfold __alarm_schedule_runtime_job. change ((_ + 1 =? 0)%nat) with false. cbv iota.
  wp_step. apply wp_clock; [done|]. intros w1 Hw1 Hs1 Hclk.
  destruct (build_once_some (u32 (th_clock w + delay))) as (rt & expr & Hb & Hrel). rewrite Hb.
  destruct (Z.eqb_spec rt OPRT_OK) as [->|Hrt]; cbn [negb].
  2:{ wp_step. apply HQ; [done|done|done|]. intros Hr. by apply Hrel, u32_range. }
  wp_step. eapply get_alarm_wp; [exact Hi|]. wp_step. eapply wp_dev; [apply job_add_reliable|done|].
  { by eapply runtime_text. }
  intros [rt id'] w2 Hw2 Hs2 [Hid' Hr]. wp_step. cbn [fst snd] in *. apply HQ; [done|congruence| |done].
  intros Hok. exists id'. split; [done|]. apply Hid'; [done|]. unfold WUKONG_TM_ALARM_CRON_JOB_ID_LEN. lia.
Qed.

Definition alarm_event (id : string) (n : Z) (opr : WUKONG_TM_TIMER_OPR_E) : WUKONG_AI_EVENT_TYPE_E * list Z :=
  (WUKONG_AI_EVENT_CLOCK_MCP_ALARM, alarm_msg id n opr).

(** An event is sent, unless there is no memory for it. *)
Definition emitted w w' e : Prop := (th_sent w' = th_sent w /\ ~ reliable) \/ th_sent w' = e :: th_sent w.

Lemma emitted_reliable w w' e : reliable -> emitted w w' e -> th_sent w' = e :: th_sent w.
Proof. intros Hr [[_ Hn]|He]; [by destruct Hn|done]. Qed.

Lemma emitted_frame k w w' e : is_alarm_event e -> emitted w w' e -> fr k w k w'.
Proof. intros He [[Hs _]|Hs]; [by apply frame_quiet|by eapply frame_event]. Qed.

Lemma emit_wp s k w id n opr (Q : _ -> ST * (K * W) -> Prop) :
  th_ok w -> (forall rt w', th_ok w' -> emitted w w' (alarm_event id n opr) -> Q rt (s, (k, w'))) ->
  wp (__alarm_emit_event id n opr) Q (s, (k, w)).
Proof.
  intros Hw HQ. unfold __alarm_emit_event. wp_step. eapply wp_dev; [apply malloc_reliable|done|].
  intros ok w1 Hw1 Hs1 Hr. destruct ok; cbn [negb].
  - wp_step. apply wp_notify; [done|]. intros w2 Hw2 Hs2. wp_step. apply HQ; [done|]. right. by rewrite Hs2, Hs1.
  - wp_step. apply HQ; [done|]. left. split; [done|]. intros r. by specialize (Hr r).
Qed.

(** Starting to ring: a new round, whose timeout is scheduled. *)
Inductive rang a (w : W) : OPERATE_RET -> WUKONG_TM_ALARM_ITEM_T -> W -> Prop :=
| rang_ok j1 j2 w' : j1 <> "" ->
    emitted w w' (alarm_event (al_alarm_id a) (u32 (al_ring_seq a + 1)) WUKONG_TM_TIMER_OPR_START) ->
    rang a w OPRT_OK (al_run true (u32 (al_ring_seq a + 1)) j1 j2 a) w'
| rang_failed rt j2 w' : rt <> OPRT_OK -> ~ reliable -> th_sent w' = th_sent w ->
    rang a w rt (al_run false (u32 (al_ring_seq a + 1)) "" j2 a) w'.

Lemma start_ringing_wp s k w i a b (Q : _ -> ST * (K * W) -> Prop) :
  th_ok w -> alarms s !! i = Some a -> aid_wf (al_alarm_id b) ->
  (forall rt b' w', th_ok w' -> rang b w rt b' w' -> Q rt (set_alarm i b' s, (k, w'))) ->
  wp (__alarm_start_ringing i) Q (set_alarm i b s, (k, w)).
Proof.
  intros Hw Hi Hid HQ. unfold __alarm_start_ringing. wp_step. eapply clear_runtime_wp; [done|exact Hi|].
  intros j1 j2 w1 Hw1 Hs1. wp_step. eapply mod_set_wp; [exact Hi|]. cbn [al_set_ring al_run al_ring_seq].
  wp_step. eapply get_set_wp; [exact Hi|]. do 2 tm_step. wp_step.
  eapply schedule_wp; [done|by eapply set_alarm_lookup|done|apply u32_range|by left|].
  intros rt j w2 Hw2 Hs2 Hj Hr. cbv beta iota. cbn [al_ring_seq al_alarm_id]. wp_step. eapply mod_set_wp; [exact Hi|].
  destruct (Z.eqb_spec rt OPRT_OK) as [->|Hrt]; cbn [negb].
  - destruct (Hj eq_refl) as (id & -> & Hne). wp_step. apply emit_wp; [done|]. intros rt' w3 Hw3 He. wp_step.
    apply HQ; [done|]. apply (rang_ok b w id j2); [done|]. unfold emitted in *. rewrite <- Hs1, <- Hs2. exact He.
  - wp_step. eapply mod_set_wp; [exact Hi|]. wp_step. apply HQ; [done|].
    apply (rang_failed b w rt j2); [done| |congruence]. intros r. by apply Hrt, Hr.
Qed.

Lemma rang_same a w rt a' w' : rang a w rt a' w' -> same_alarm a a'.
Proof. by intros []. Qed.

Lemma rang_frame a k w rt a' w' : rang a w rt a' w' -> fr k w k w'.
Proof. intros [? ? ? _ He|? ? ? _ _ Hs]; [by eapply emitted_frame; [|exact He]|by apply frame_quiet]. Qed.

(** The result object of a handler. *)
Lemma status_ok_wp s k w (Q : _ -> ST * (K * W) -> Prop) :
  th_ok w -> (forall rt r w', th_ok w' -> th_sent w' = th_sent w -> (reliable -> rt = OPRT_OK) -> Q (rt, r) (s, (k, w'))) ->
  wp status_ok Q (s, (k, w)).
Proof.
  intros Hw HQ. unfold status_ok. wp_step. eapply wp_dev; [apply malloc_reliable|done|].
  intros ok w1 Hw1 Hs1 Hr. destruct ok; cbn [negb].
  - wp_step. apply json_add_wp; [done|]. intros o w2 Hw2 Hs2 _. wp_step. apply HQ; [done|congruence|done].
  - wp_step. apply HQ; [done|done|]. intros r. by specialize (Hr r).
Qed.

(** *** Saving leaves the table alone *)

Lemma json_add_all_wp s k w obj members (Q : _ -> ST * (K * W) -> Prop) :
  th_ok w -> (forall obj' w', th_ok w' -> th_sent w' = th_sent w -> Q obj' (s, (k, w'))) ->
  wp (json_add_all obj members) Q (s, (k, w)).
Proof.
  revert obj w. induction members as [|[name v] members IH]; intros obj w Hw HQ; cbn [json_add_all]; [wp_step; by apply HQ|].
  wp_step. apply json_add_wp; [done|]. intros o w1 Hw1 Hs1 _. apply IH; [done|]. intros o2 w2 Hw2 Hs2. apply HQ; [done|congruence].
Qed.

Lemma save_alarms_wp s k w items arr (Q : _ -> ST * (K * W) -> Prop) :
  th_ok w -> (forall arr' w', th_ok w' -> th_sent w' = th_sent w -> Q arr' (s, (k, w'))) ->
  wp (save_alarms items arr) Q (s, (k, w)).
Proof.
  revert arr w. induction items as [|a items IH]; intros arr w Hw HQ; cbn [save_alarms]; [wp_step; by apply HQ|].
  destruct (negb (al_used a)); [by apply IH|]. wp_step. eapply wp_dev; [apply th_malloc_law|done|].
  intros ok w1 Hw1 Hs1 _. destruct ok; cbn [negb]; [|apply IH; [done|intros; apply HQ; [done|congruence]]].
  wp_step. apply json_add_all_wp; [done|]. intros o w2 Hw2 Hs2.
  apply IH; [done|]. intros arr' w3 Hw3 Hs3. apply HQ; [done|congruence].
Qed.

(** A save sends nothing, or the one list event. *)
Definition saved k w k' w' : Prop :=
  (forall key, key <> WUKONG_TM_ALARM_KV_KEY -> kv_kept k' key = kv_kept k key) /\
  (th_sent w' = th_sent w \/ th_sent w' = (WUKONG_AI_EVENT_CLOCK_MCP_ALARM, alarm_list_msg) :: th_sent w).

Lemma saved_frame k w k' w' : saved k w k' w' -> fr k w k' w'.
Proof.
  intros [Hk Hs]. split; [exact Hk|]. destruct Hs as [->| ->]; [by exists []|]. eexists [_]. split; [reflexivity|].
  by constructor.
Qed.

Lemma save_store_wp s k w (Q : _ -> ST * (K * W) -> Prop) :
  th_ok w -> (forall rt k' w', th_ok w' -> saved k w k' w' -> Q rt (s, (k', w'))) ->
  wp __alarm_store_save Q (s, (k, w)).
Proof.
  intros Hw HQ. unfold __alarm_store_save. wp_step. eapply wp_dev; [apply th_malloc_law|done|].
  intros ok1 w1 Hw1 Hs1 _. wp_step. eapply wp_dev; [apply th_malloc_law|done|]. intros ok2 w2 Hw2 Hs2 _.
  destruct (negb ok1 || negb ok2); [wp_step; apply HQ; [done|split; [done|left; congruence]]|].
  tm_step. tm_step. wp_step. apply save_alarms_wp; [done|].
  intros arr w3 Hw3 Hs3. wp_step. apply json_add_wp; [done|]. intros root w4 Hw4 Hs4 _.
  assert (Hs : th_sent w4 = th_sent w) by congruence.
  destruct (ty_cJSON_PrintUnformatted root) as [text|]; [|wp_step; apply HQ; [done|split; [done|by left]]].
  wp_step. apply wp_store. eapply wp_mono; [apply kv_write_law|]. intros rt k1 Hk1.
  assert (Hkeys : forall key, key <> WUKONG_TM_ALARM_KV_KEY -> kv_kept k1 key = kv_kept k key).
  { intros key Hne. rewrite Hk1. destruct (String.eqb_spec key WUKONG_TM_ALARM_KV_KEY); [done|]. by rewrite andb_false_r. }
  wp_step. destruct (negb (rt =? OPRT_OK)); [do 2 wp_step; apply HQ; [done|split; [done|by left]]|].
  wp_step. apply store_notify_wp; [done|]. intros rt' w5 Hw5 Hs5. do 2 wp_step. apply HQ; [done|]. split; [done|].
  rewrite <- Hs. destruct Hs5 as [->| ->]; [by left|by right].
Qed.

(** *** Scheduling *)

Lemma rollover_job now c j : once_rollover now (ac_set_job j c) =
  (fst (once_rollover now c), ac_set_job j (snd (once_rollover now c))).
Proof.
  unfold once_rollover. destruct (tal_time_get_local_time_custom now) as [rt tm].
  change (trigger_today tm (ac_set_job j c)) with (trigger_today tm c). cbn [ac_start_time ac_set_job].
  destruct ((now =? 0) || _); [done|]. destruct (now <? _); [done|]. cbv zeta.
  destruct (_ =? 0); [done|]. destruct ((_ <=? now) && _); [done|].
  destruct (tal_time_get_local_time_custom _) as [rt' tm']. by destruct (rt' =? OPRT_OK).
Qed.

Lemma rollover_failed now c : fst (once_rollover now c) <> OPRT_OK -> snd (once_rollover now c) = c.
Proof. unfold once_rollover. repeat case_match; cbn; done. Qed.

Lemma rollover_wf now c c' : is_u32 now -> acfg_wf c -> once_rollover now c = (OPRT_OK, c') ->
  acfg_wf c' /\ ac_enabled c' = ac_enabled c /\ ac_repeat_type c' = ac_repeat_type c /\ ac_cron_job_id c' = ac_cron_job_id c.
Proof.
  intros Hnow [[Hh Hm Hk Hd Hst] [Hh' Hm' Hr Hmk Hda] Hl]. unfold once_rollover.
  assert (Hset : forall h m t, 0 <= h < 24 -> 0 <= m < 60 -> is_u32 t -> acfg_wf (ac_set_start h m t c)).
  { intros h m t Hh2 Hm2 Ht. unfold is_u32 in *. split; [split; cbn; unfold is_u32; lia| |done]. split; cbn; [lia..|done|done]. }
  destruct (tal_time_get_local_time_custom now) as [rt tm]. destruct ((now =? 0) || _); [done|].
  destruct (now <? _); [by intros [= <-]|]. cbv zeta. set (t0 := u32 (tal_time_mktime _ - _)).
  destruct (t0 =? 0); [done|]. destruct ((t0 <=? now) && _); [done|].
  set (t := if t0 <=? now then u32 (t0 + WUKONG_TM_ALARM_ONCE_DAY_SEC) else t0).
  assert (Ht : is_u32 t) by (unfold t, t0; destruct (_ <=? now); apply u32_range).
  destruct (tal_time_get_local_time_custom t) as [rt' tm'] eqn:Hloc. destruct (Z.eqb_spec rt' OPRT_OK) as [->|Hne]; intros [= <-].
  - destruct (local_clock t tm' Ht Hloc). rewrite !u32_id by (unfold is_u32; lia). split; [by apply Hset|done].
  - split; [by apply Hset|done].
Qed.

Lemma rollover_slot_wp s k w i a b (Q : _ -> ST * (K * W) -> Prop) :
  th_ok w -> alarms s !! i = Some a -> is_once (al_cfg b) = true ->
  (forall now w', th_ok w' -> th_sent w' = th_sent w -> is_u32 now ->
     Q (fst (once_rollover now (al_cfg b))) (set_alarm i (al_with_cfg (fun _ => snd (once_rollover now (al_cfg b))) b) s, (k, w'))) ->
  wp (rollover_slot i) Q (set_alarm i b s, (k, w)).
Proof.
  intros Hw Hi Hon HQ. unfold rollover_slot. wp_step. eapply get_set_wp; [exact Hi|].
  unfold __alarm_once_rollover_to_next_fire. unfold is_once in Hon. rewrite Hon. cbn [negb].
  do 2 wp_step. apply wp_clock; [done|]. intros w1 Hw1 Hs1 Hclk. wp_step.
  destruct (once_rollover (th_clock w) (al_cfg b)) as [rt c] eqn:Hr. wp_step. eapply mod_set_wp; [exact Hi|].
  specialize (HQ (th_clock w) w1 Hw1 Hs1 Hclk). rewrite Hr in HQ. by wp_step.
Qed.

Lemma alarm_escape_fits message : (strlen message <= WUKONG_TM_ALARM_MESSAGE_LEN)%nat ->
  __alarm_escape_message message (WUKONG_TM_ALARM_MESSAGE_LEN * 2 + 1) = (OPRT_OK, escaped alarm_escape_char message).
Proof.
  intros Hl. unfold __alarm_escape_message. if_false done. rewrite escape_loop_ok; [done|].
  change (strlen "") with 0%nat. lia.
Qed.

(** Binding a new cron job: the alarm has one when this succeeds. *)
Lemma sync_alarm_wp s k w i a b (Q : _ -> ST * (K * W) -> Prop) :
  th_ok w -> alarms s !! i = Some a -> aid_wf (al_alarm_id b) -> acfg_wf (al_cfg b) ->
  (forall rt j w', th_ok w' -> th_sent w' = th_sent w -> (rt = OPRT_OK -> j <> "") ->
     Q rt (set_alarm i (al_with_cfg (ac_set_job j) b) s, (k, w'))) ->
  wp (__alarm_sync_cron_job i) Q (set_alarm i b s, (k, w)).
Proof.
  intros Hw Hi Hid Hc HQ. unfold __alarm_sync_cron_job. wp_step.
  unfold unbind_alarm. eapply remove_job_wp; [done|exact Hi|by destruct b as [? ? []]|].
  intros rt j w1 Hw1 Hs1 Hj. destruct (Z.eqb_spec rt OPRT_OK) as [->|Hrt]; cbn [negb]; [|wp_step; by apply HQ].
  wp_step. eapply get_set_wp; [exact Hi|].
  change (__alarm_build_cron_expr (al_cfg _) 32) with (__alarm_build_cron_expr (al_cfg b) 32).
  destruct (__alarm_build_cron_expr (al_cfg b) 32) as [rt expr] eqn:Hb.
  destruct (Z.eqb_spec rt OPRT_OK) as [->|Hrt]; cbn [negb]; [|wp_step; by apply HQ].
  cbn [al_with_cfg al_cfg ac_set_job ac_message]. rewrite alarm_escape_fits by apply Hc.
  change (negb (OPRT_OK =? OPRT_OK)) with false. cbv iota.
  wp_step. eapply wp_dev; [apply th_job_add_law|done|].
  { eapply alarm_text; [apply Hc|exact Hb|done|apply Hc]. }
  intros [rt id'] w2 Hw2 Hs2 Hid'. cbn [fst snd] in Hid'. cbv beta iota.
  destruct (Z.eqb_spec rt OPRT_OK) as [->|Hrt]; cbn [negb]; [|wp_step; apply HQ; [done|congruence|done]].
  wp_step. eapply mod_set_wp; [exact Hi|]. wp_step.
  apply (HQ OPRT_OK (strtrunc WUKONG_TM_ALARM_CRON_JOB_ID_LEN id')); [done|congruence|].
  intros _. apply strtrunc_nonempty; [unfold WUKONG_TM_ALARM_CRON_JOB_ID_LEN; lia|].
  apply Hid'; [done|]. unfold WUKONG_TM_ALARM_CRON_JOB_ID_LEN. lia.
Qed.

(** Placing and binding the alarm [b] in slot [i]: on success its configuration is
    the placed one, with a job; otherwise it keeps what was reached. *)
Inductive slot_scheduled b : OPERATE_RET -> WUKONG_TM_ALARM_ITEM_T -> Prop :=
| slot_placed c j : placed (alarm_val b) (ac_set_job "" c) -> acfg_wf c -> j <> "" ->
    slot_scheduled b OPRT_OK (al_with_cfg (fun _ => ac_set_job j c) b)
| slot_refused rt c : rt <> OPRT_OK -> ac_set_job "" c = alarm_val b \/ placed (alarm_val b) (ac_set_job "" c) -> acfg_wf c ->
    slot_scheduled b rt (al_with_cfg (fun _ => c) b).

Lemma schedule_slot_wp s k w i a b place F G (Q : OPERATE_RET -> ST * (K * W) -> Prop) :
  th_ok w -> alarms s !! i = Some a -> aid_wf (al_alarm_id b) -> acfg_wf (al_cfg b) ->
  place = ac_enabled (al_cfg b) && is_once (al_cfg b) ->
  (forall rt b' w', th_ok w' -> th_sent w' = th_sent w -> slot_scheduled b rt b' ->
     wp (if rt =? OPRT_OK then G else F) Q (set_alarm i b' s, (k, w'))) ->
  wp (let* rt := (if place : bool then rollover_slot i else cret OPRT_OK) in
      if negb (rt =? OPRT_OK) then F
      else let* rt := __alarm_sync_cron_job i in if negb (rt =? OPRT_OK) then F else G) Q (set_alarm i b s, (k, w)).
Proof.
  intros Hw Hi Hid Hc -> HQ. wp_step.
  assert (Hsync : forall c w1, th_ok w1 -> th_sent w1 = th_sent w -> placed (alarm_val b) (ac_set_job "" c) -> acfg_wf c ->
    wp (let* rt := __alarm_sync_cron_job i in if negb (rt =? OPRT_OK) then F else G) Q
      (set_alarm i (al_with_cfg (fun _ => c) b) s, (k, w1))).
  { intros c w1 Hw1 Hs1 Hpl Hcw. wp_step. eapply sync_alarm_wp; [done|exact Hi|done|exact Hcw|].
    intros rt j w2 Hw2 Hs2 Hj. specialize (HQ rt (al_with_cfg (fun _ => ac_set_job j c) b) w2 Hw2 ltac:(congruence)).
    destruct (Z.eqb_spec rt OPRT_OK) as [->|Hrt]; cbn [negb]; apply HQ.
    - apply slot_placed; [done|done|by apply Hj].
    - apply slot_refused; [done|by right|]. by apply acfg_wf_job. }
  destruct (ac_enabled (al_cfg b) && is_once (al_cfg b)) eqn:Hpl.
  - apply andb_true_iff in Hpl as [Hen Hon]. eapply rollover_slot_wp; [done|exact Hi|done|].
    intros now w1 Hw1 Hs1 Hnow. destruct (once_rollover now (al_cfg b)) as [rt c] eqn:Hr. cbn [fst snd].
    destruct (Z.eqb_spec rt OPRT_OK) as [->|Hrt]; cbn [negb].
    + destruct (rollover_wf now _ _ Hnow Hc Hr) as (Hcw & _). apply Hsync; [done|done| |done].
      unfold placed, alarm_val. cbn [ac_enabled ac_set_job]. rewrite Hen. change (is_once (ac_set_job "" (al_cfg b))) with (is_once (al_cfg b)).
      rewrite Hon. exists now. split; [done|]. by rewrite rollover_job, Hr.
    + assert (c = al_cfg b) as ->. { pose proof (rollover_failed now (al_cfg b)) as Hf. rewrite Hr in Hf. by apply Hf. }
      specialize (HQ rt (al_with_cfg (fun _ => al_cfg b) b) w1 Hw1 Hs1). destruct (Z.eqb_spec rt OPRT_OK); [done|].
      apply HQ. apply slot_refused; [done|by left|done].
  - wp_step. cbn [negb]. change (negb (OPRT_OK =? OPRT_OK)) with false. cbv iota.
    specialize (Hsync (al_cfg b) w Hw eq_refl). replace (al_with_cfg (fun _ => al_cfg b) b) with b in Hsync by by destruct b.
    apply Hsync; [|done]. unfold placed, alarm_val. cbn [ac_enabled ac_set_job].
    change (is_once (ac_set_job "" (al_cfg b))) with (is_once (al_cfg b)). by rewrite Hpl.
Qed.

(** ** The operations *)

Definition run_al (op : al_op) : C (ST * (K * W)) OPERATE_RET :=
  match op with
  | AlAdd cfg id => wukong_tm_alarm_add cfg id
  | AlUpdate id cfg => wukong_tm_alarm_update id cfg
  | AlEnable id b => wukong_tm_alarm_enable_set id b
  | AlRemove id => wukong_tm_alarm_remove id
  | AlRemoveByTime cfg => let* r := wukong_tm_alarm_remove_by_time cfg in cret (fst r)
  | AlAck id => wukong_tm_alarm_ack id
  | AlFire params => let* r := __alarm_fire_rpc_handler params in cret (fst r)
  | AlTimeout params => let* r := __alarm_snooze_timeout_rpc_handler params in cret (fst r)
  | AlReplay params => let* r := __alarm_snooze_fire_rpc_handler params in cret (fst r)
  end.

(** One step of the map; what success promises; nothing else written or sent. *)
Definition al_outcome (op : al_op) s k w (rt : OPERATE_RET) (s' : ST * (K * W)) : Prop :=
  let '(st', (k', w')) := s' in
  th_ok w' /\ alarms_wf st' /\ al_step op (al_map s) rt (al_map st') /\ (rt = OPRT_OK -> alarm_scheduled op s st') /\
  fr k w k' w'.

Lemma al_unchanged op s k w w' rt : th_ok w' -> th_sent w' = th_sent w -> alarms_wf s -> al_step op (al_map s) rt (al_map s) ->
  (rt = OPRT_OK -> alarm_scheduled op s s) -> al_outcome op s k w rt (s, (k, w')).
Proof. intros Hw Hs Hwf Hst Hsch. split_and!; [done..|]. by apply frame_quiet. Qed.

Lemma al_refused op s k w rt : th_ok w -> alarms_wf s -> al_step op (al_map s) rt (al_map s) -> rt <> OPRT_OK ->
  al_outcome op s k w rt (s, (k, w)).
Proof. intros Hw Hwf Hst Hrt. by apply al_unchanged. Qed.

(** Ending with a save. *)
Lemma al_saved op s s' k w w' : th_ok w' -> th_sent w' = th_sent w -> alarms_wf s' -> al_step op (al_map s) OPRT_OK (al_map s') ->
  alarm_scheduled op s s' ->
  wp (let* _ := __alarm_store_save in cret OPRT_OK) (al_outcome op s k w) (s', (k, w')).
Proof.
  intros Hw' Hs Hwf Hst Hsch. wp_step. apply save_store_wp; [done|]. intros rt k2 w2 Hw2 Hf. wp_step.
  split_and!; [done..|]. eapply frame_trans; [by apply frame_quiet|by apply saved_frame].
Qed.

Lemma validate_spec c : acfg_u32 c -> reflect (acfg_ok c) (__alarm_validate_cfg c =? OPRT_OK).
Proof. intros Hu. apply iff_reflect. rewrite Z.eqb_eq. symmetry. by apply validate_ok. Qed.

Lemma scheduled_job s i a b' b id : alarms s !! i = Some a -> slot_scheduled b OPRT_OK b' -> al_used b = true ->
  al_alarm_id b = id -> alarm_has_job (set_alarm i b' s) id.
Proof.
  intros Hi Hsl Hu <-. inversion Hsl; subst; [|done]. eexists i, _. split; [by eapply set_alarm_lookup|done].
Qed.

Lemma alarm_add_wp cfg id s k w : al_op_ok (AlAdd cfg id) -> th_ok w -> alarms_wf s ->
  wp (run_al (AlAdd cfg id)) (al_outcome (AlAdd cfg id) s k w) (s, (k, w)).
Proof.
  intros [[Hu Hlen] Hid] Hw Hwf. cbn [run_al]. unfold wukong_tm_alarm_add.
  destruct (String.eqb_spec id "") as [He|Hne].
  { wp_step. apply al_refused; [done..| |done]. apply alarm_add_invalid. by left. }
  specialize (Hid Hne). do 2 tm_step. rewrite (axw_init _ Hwf). cbn [negb].
  pose proof (alarm_find s id Hwf) as Hf. destruct (__alarm_find_index id s) as [i|].
  { rewrite bool_decide_eq_true_2 by eauto. wp_step. destruct Hf as (a & _ & _ & _ & Hm).
    apply al_refused; [done..| |done]. apply alarm_add_refused. left. eauto. }
  rewrite bool_decide_eq_false_2 by (by intros [? ?]). 
  destruct (validate_spec cfg Hu) as [Hok|Hok]; cbn [negb]; [|wp_step; apply al_refused; [done..| |done]; apply alarm_add_invalid; by right].
  pose proof (alarm_free s Hwf) as Hfree.
  destruct (__alarm_alloc_index s) as [i|]; [|wp_step; apply al_refused; [done..| |done]; apply alarm_add_refused; by right].
  destruct Hfree as (a & Hi & Hau & Hsize). do 2 tm_step. rewrite strtrunc_id by apply Hid.
  set (b := mk_alarm true id (ac_set_job "" cfg) false 0 "" "").
  assert (Hbc : acfg_wf (al_cfg b)) by (apply (proj1 (acfg_wf_job "" cfg)); by split).
  eapply schedule_slot_wp; [done|exact Hi|done|done|done|]. intros rt b' w1 Hw1 Hs1 Hsl.
  destruct (Z.eqb_spec rt OPRT_OK) as [->|Hrt].
  - assert (Hb' : al_used b' = true /\ al_alarm_id b' = id /\ alarm_wf b' /\ placed (ac_set_job "" cfg) (alarm_val b')).
    { inversion Hsl; subst; [|done]. split_and!; [done|done| |done]. intros _. split; [done|]. by apply (proj1 (acfg_wf_job _ _)). }
    destruct Hb' as (Hbu & Hbi & Hbw & Hbp). destruct (alarm_fill s i a b') as [Hwf' Hm']; [done|done|done|done|done|by rewrite Hbi|].
    apply al_saved; [done|done|done| |by eapply (scheduled_job s i a b' b)]. rewrite Hm', Hbi. by apply alarm_add_ok.
  - do 2 tm_step. rewrite set_alarm_twice. wp_step. destruct (alarm_vacate s i a Hwf Hi Hau) as [Hwf' Hm'].
    split_and!; [done|done| |done|by apply frame_quiet]. rewrite Hm'. by apply alarm_add_unscheduled.
Qed.

Lemma alarm_update_wp id cfg s k w : al_op_ok (AlUpdate id cfg) -> th_ok w -> alarms_wf s ->
  wp (run_al (AlUpdate id cfg)) (al_outcome (AlUpdate id cfg) s k w) (s, (k, w)).
Proof.
  intros [Hu Hlen] Hw Hwf. cbn [run_al]. unfold wukong_tm_alarm_update. 
  destruct (validate_spec cfg Hu) as [Hok|Hok]; cbn [negb]; [|wp_step; apply al_refused; [done..| |done]; by apply alarm_update_invalid].
  do 2 tm_step. pose proof (alarm_find s id Hwf) as Hf. destruct (__alarm_find_index id s) as [i|];
    [|wp_step; apply al_refused; [done..| |done]; by apply alarm_update_missing].
  destruct Hf as (a & Hi & Hau & Hid & Hm). destruct (alarm_wf_at s i a Hwf Hi Hau) as [Hidw Hcw].
  wp_step. eapply get_alarm_wp; [exact Hi|]. wp_step. rewrite <- (set_alarm_id i a s Hi) at 1.
  eapply clear_runtime_wp; [done|exact Hi|]. intros j1 j2 w1 Hw1 Hs1. wp_step. eapply mod_set_wp; [exact Hi|].
  set (b := al_with_cfg _ _). assert (Hbc : acfg_wf (al_cfg b)) by (apply (proj1 (acfg_wf_job _ cfg)); by split).
  eapply schedule_slot_wp; [done|exact Hi|exact Hidw|done|done|]. intros rt b' w2 Hw2 Hs2 Hsl.
  destruct (Z.eqb_spec rt OPRT_OK) as [->|Hrt].
  - assert (Hb' : al_used b' = true /\ al_alarm_id b' = al_alarm_id a /\ alarm_wf b' /\ placed (ac_set_job "" cfg) (alarm_val b')).
    { inversion Hsl; subst; [|done]. split_and!; [done|done| |done]. intros _. split; [done|]. by apply (proj1 (acfg_wf_job _ _)). }
    destruct Hb' as (Hbu & Hbi & Hbw & Hbp). destruct (alarm_overwrite s i a b') as [Hwf' Hm']; [done..|].
    apply al_saved; [done|congruence|done| |eapply (scheduled_job s i a b' b); [done|done|done|exact Hid]].
    rewrite Hm', Hid. apply alarm_update_ok; [done|eauto|done].
  - unfold restore_alarm. wp_step. eapply mod_set_wp; [exact Hi|]. set (r := al_with_cfg _ b').
    assert (Hr : same_alarm a r). { by inversion Hsl; subst. }
    wp_step. eapply sync_alarm_wp; [done|exact Hi|by rewrite (sa_id _ _ Hr)|exact Hcw|]. intros rt' j w3 Hw3 Hs3 _. wp_step.
    destruct (same_set s i a (al_with_cfg (ac_set_job j) r)) as [Hwf' Hm']; [done|done|by etrans; [|apply same_job]|].
    split_and!; [done|done| |done|apply frame_quiet; congruence]. rewrite Hm'. apply alarm_update_unscheduled; [done|eauto].
Qed.

Lemma acfg_wf_enabled e c : acfg_wf c -> acfg_wf (ac_set_enabled e c).
Proof. intros [[] [] ?]. split; [by split|by split|done]. Qed.

Lemma finished_wf c : acfg_wf c -> acfg_wf (finished c).
Proof. unfold finished. destruct (is_once c); [apply acfg_wf_enabled|done]. Qed.

(** Changing the configuration of the alarm in slot [i]. *)
Lemma alarm_change s i a a' c : alarms_wf s -> alarms s !! i = Some a -> al_used a = true ->
  al_used a' = true -> al_alarm_id a' = al_alarm_id a -> acfg_wf c -> alarm_val a' = ac_set_job "" c ->
  alarms_wf (set_alarm i a' s) /\ al_map (set_alarm i a' s) = <[al_alarm_id a := ac_set_job "" c]> (al_map s).
Proof.
  intros Hwf Hi Hu Hu' Hid Hc Hv. rewrite <- Hv. apply alarm_overwrite; [done..|]. intros _. rewrite Hid.
  split; [by apply (alarm_wf_at s i a)|]. apply (acfg_wf_job ""). unfold alarm_val in Hv. rewrite Hv. by apply acfg_wf_job.
Qed.

(** Dropping the cron job of an alarm, whatever the removal answers. *)
Lemma detach_wp s k w i a b j (Q : _ -> ST * (K * W) -> Prop) :
  th_ok w -> alarms s !! i = Some a -> ac_cron_job_id (al_cfg b) = j ->
  (forall w', th_ok w' -> th_sent w' = th_sent w -> Q tt (set_alarm i (al_with_cfg (ac_set_job "") b) s, (k, w'))) ->
  wp (if String.eqb j "" then cret tt
      else let* _ := on_dev (th_job_remove j) in mod_alarm i (al_with_cfg (ac_set_job ""))) Q (set_alarm i b s, (k, w)).
Proof.
  intros Hw Hi <- HQ. destruct (String.eqb_spec (ac_cron_job_id (al_cfg b)) "") as [He|He].
  - wp_step. replace b with (al_with_cfg (ac_set_job "") b) at 1; [by apply HQ|]. unfold al_with_cfg, ac_set_job. rewrite <- He.
    by destruct b as [? ? []].
  - wp_step. eapply wp_dev; [apply th_job_remove_law|done|]. intros rt w1 Hw1 Hs1 _. eapply mod_set_wp; [exact Hi|]. by apply HQ.
Qed.

Lemma alarm_enable_wp id e s k w : th_ok w -> alarms_wf s ->
  wp (run_al (AlEnable id e)) (al_outcome (AlEnable id e) s k w) (s, (k, w)).
Proof.
  intros Hw Hwf. cbn [run_al]. unfold wukong_tm_alarm_enable_set. do 2 tm_step. rewrite (axw_init _ Hwf). cbn [negb].
  pose proof (alarm_find s id Hwf) as Hf. destruct (__alarm_find_index id s) as [i|];
    [|wp_step; apply al_refused; [done..| |done]; by apply alarm_enable_missing].
  destruct Hf as (a & Hi & Hau & Hid & Hm). destruct (alarm_wf_at s i a Hwf Hi Hau) as [Hidw Hcw].
  wp_step. eapply get_alarm_wp; [exact Hi|]. destruct (Bool.eqb (ac_enabled (al_cfg a)) e) eqn:Hsame.
  { apply eqb_prop in Hsame. wp_step. apply al_unchanged; [done..| |].
    - by eapply alarm_enable_same; [exact Hm|].
    - intros _. unfold alarm_scheduled. destruct e; [|done]. intros (v & Hv & He). rewrite Hm in Hv. injection Hv as <-.
      cbn in He. congruence. }
  apply eqb_false_iff in Hsame. wp_step. eapply mod_alarm_wp; [exact Hi|]. destruct e; cbn [negb].
  - assert (He : ac_enabled (al_cfg a) = false) by by apply not_true_iff_false.
    set (b := al_with_cfg (ac_set_enabled true) a).
    eapply schedule_slot_wp; [done|exact Hi|exact Hidw|by apply acfg_wf_enabled|done|]. intros rt b' w1 Hw1 Hs1 Hsl.
    destruct (Z.eqb_spec rt OPRT_OK) as [->|Hrt].
    + pose proof (scheduled_job s i a b' b id Hi Hsl Hau Hid) as Hjob. inversion Hsl; subst; [|done].
      destruct (alarm_change s i a (al_with_cfg (fun _ => ac_set_job j c) b) c) as [Hwf' Hm'];
        [done|done|done|exact Hau|reflexivity|done|reflexivity|].
      apply al_saved; [done|done|done| |intros _; exact Hjob]. rewrite Hm'.
      by apply (alarm_enable_ok (al_alarm_id a) _ (alarm_val a) (ac_set_job "" c)).
    + wp_step. eapply mod_set_wp; [exact Hi|]. wp_step. inversion Hsl; subst; [done|].
      destruct (alarm_change s i a (al_with_cfg (ac_set_enabled false) (al_with_cfg (fun _ => c) b)) (ac_set_enabled false c))
        as [Hwf' Hm']; [done|done|done|done|done|by apply acfg_wf_enabled|done|].
      split_and!; [done|done| |done|by apply frame_quiet]. rewrite Hm'.
      change (ac_set_job "" (ac_set_enabled false c)) with (ac_set_enabled false (ac_set_job "" c)).
      destruct H0 as [Hc|Hc].
      * rewrite Hc. change (ac_set_enabled false (alarm_val b)) with (ac_set_enabled false (alarm_val a)).
        apply (alarm_enable_unscheduled (al_alarm_id a) _ (alarm_val a)); [done|done|by left].
      * apply (alarm_enable_unscheduled (al_alarm_id a) _ (alarm_val a)); [done|done|by right].
  - assert (He : ac_enabled (al_cfg a) = true) by by apply not_false_iff_true.
    wp_step. eapply clear_runtime_wp; [done|exact Hi|]. intros j1 j2 w1 Hw1 Hs1.
    wp_step. eapply mod_set_wp; [exact Hi|]. wp_step. eapply detach_wp; [done|exact Hi|done|]. intros w2 Hw2 Hs2.
    set (a' := al_with_cfg _ _).
    destruct (alarm_change s i a a' (ac_set_enabled false (al_cfg a))) as [Hwf' Hm']; [done|done|done|done|done|by apply acfg_wf_enabled|done|].
    apply al_saved; [done|congruence|done| |done]. rewrite Hm', Hid.
    by apply (alarm_disable id _ (alarm_val a)).
Qed.

(** Removal clears the slot found. *)
Lemma remove_alarm_wp id s k w : th_ok w -> alarms_wf s ->
  wp (wukong_tm_alarm_remove id) (fun rt '(s', (k', w')) => th_ok w' /\ fr k w k' w' /\
    match __alarm_find_index id s with
    | None => rt = OPRT_NOT_FOUND /\ s' = s
    | Some i => rt = OPRT_OK /\ s' = set_alarm i alarm_zero s
    end) (s, (k, w)).
Proof.
  intros Hw Hwf. unfold wukong_tm_alarm_remove. do 2 tm_step. pose proof (alarm_find s id Hwf) as Hf.
  destruct (__alarm_find_index id s) as [i|]; [|wp_step; split_and!; [done|by apply frame_quiet|done..]].
  destruct Hf as (a & Hi & _). wp_step. rewrite <- (set_alarm_id i a s Hi) at 1. eapply clear_runtime_wp; [done|exact Hi|].
  intros j1 j2 w1 Hw1 Hs1. wp_step. eapply get_set_wp; [exact Hi|]. wp_step.
  set (Q := fun (_ : unit) (_ : ST * (K * W)) => _).
  assert (Hrest : forall w2, th_ok w2 -> th_sent w2 = th_sent w -> Q tt (set_alarm i (al_run false (al_ring_seq a) j1 j2 a) s, (k, w2))).
  { intros w2 Hw2 Hs2. unfold Q. do 2 tm_step. rewrite set_alarm_twice. wp_step. apply save_store_wp; [done|].
    intros rt k3 w3 Hw3 Hf3. wp_step. split_and!; [done|eapply frame_trans; [by apply frame_quiet|by apply saved_frame]|done..]. }
  destruct (String.eqb _ ""); [wp_step; by apply Hrest|]. wp_step. eapply wp_dev; [apply th_job_remove_law|done|].
  intros rt w2 Hw2 Hs2 _. wp_step. apply Hrest; [done|congruence].
Qed.

Lemma alarm_remove_wp id s k w : th_ok w -> alarms_wf s ->
  wp (run_al (AlRemove id)) (al_outcome (AlRemove id) s k w) (s, (k, w)).
Proof.
  intros Hw Hwf. eapply wp_mono; [by apply remove_alarm_wp|]. intros rt [s' [k' w']] (Hw' & Hf & Hcase).
  pose proof (alarm_find s id Hwf) as Hfind. destruct (__alarm_find_index id s) as [i|]; destruct Hcase as [-> ->].
  - destruct Hfind as (a & Hi & Hu & Hid & Hm). destruct (alarm_erase s i a Hwf Hi Hu) as [Hwf' Hm'].
    split_and!; [done|done| |done|done]. rewrite Hm', Hid. apply alarm_remove_ok. eauto.
  - split_and!; [done|done| |done|done]. by apply alarm_remove_missing.
Qed.

(** *** Removing by time *)

Lemma thinned_trans c m1 m2 m3 : thinned c m1 m2 -> thinned c m2 m3 -> thinned c m1 m3.
Proof. intros [H1 H2] [H3 H4]. split; [by etrans|]. intros id v Hv Hc. apply H4; [by apply H2|done]. Qed.

Lemma thinned_delete c m id v : m !! id = Some v -> __alarm_semantic_match v c = true -> thinned c m (delete id m).
Proof.
  intros Hv Hc. split; [apply delete_subseteq|]. intros id' v' Hv' Hne.
  rewrite lookup_delete_ne; [done|]. intros <-. congruence.
Qed.

Lemma alarm_same_slot s i j a b : alarms_wf s -> alarms s !! i = Some a -> alarms s !! j = Some b ->
  al_used a = true -> al_used b = true -> al_alarm_id a = al_alarm_id b -> i = j.
Proof.
  intros Hwf Hi Hj Hu Hu' Hid. eapply (axw_distinct _ Hwf i j a b); [done|done| |]; by apply table_kv_Some.
Qed.

(** The slots below [i] hold no alarm that matches [c]. *)
Definition unmatched (c : WUKONG_TM_ALARM_CFG_T) (i : nat) s : Prop :=
  forall j a, (j < i)%nat -> alarms s !! j = Some a -> al_used a = true -> __alarm_semantic_match (al_cfg a) c = false.

Lemma unmatched_all c s : alarms_wf s -> unmatched c WUKONG_TM_ALARM_MAX_COUNT s ->
  forall id v, al_map s !! id = Some v -> __alarm_semantic_match v c = false.
Proof.
  intros Hwf Hc id v Hv. apply slots_map_lookup in Hv as (j & a & Hj & (Hu & _ & <-)%table_kv_Some); [|apply Hwf].
  change (__alarm_semantic_match (alarm_val a) c) with (__alarm_semantic_match (al_cfg a) c).
  eapply Hc; [|exact Hj|done]. rewrite <- (axw_size _ Hwf). by eapply lookup_lt_Some.
Qed.

Lemma remove_matching_wp c n i removed s k w : th_ok w -> alarms_wf s -> (i + n = WUKONG_TM_ALARM_MAX_COUNT)%nat ->
  unmatched c i s ->
  wp (remove_matching c n i removed) (fun r '(s', (k', w')) => th_ok w' /\ alarms_wf s' /\ fr k w k' w' /\
    thinned c (al_map s) (al_map s') /\
    r = inr (removed + (Z.of_nat (size (al_map s)) - Z.of_nat (size (al_map s')))) /\
    forall id v, al_map s' !! id = Some v -> __alarm_semantic_match v c = false) (s, (k, w)).
Proof.
  revert i removed s k w. induction n as [|n IH]; intros i removed s k w Hw Hwf Hn Hc; cbn [remove_matching].
  { wp_step. split_and!; [done|done|by apply frame_quiet|by split|f_equal; lia|]. apply unmatched_all; [done|].
    by replace WUKONG_TM_ALARM_MAX_COUNT with i by lia. }
  assert (Hlt : (i < length (alarms s))%nat) by (rewrite (axw_size _ Hwf); lia).
  apply lookup_lt_is_Some in Hlt as [a Hi]. wp_step. eapply get_alarm_wp; [exact Hi|].
  destruct (negb (al_used a) || _) eqn:Htest.
  { apply IH; [done|done|lia|]. intros j b Hj Hl Hu. destruct (decide (j = i)) as [->|Hne].
    - rewrite Hi in Hl. injection Hl as <-. rewrite Hu in Htest. by apply negb_true_iff in Htest.
    - apply (Hc j b); [lia|done..]. }
  apply orb_false_iff in Htest as [Hu%negb_false_iff Ht%negb_false_iff].
  destruct (alarm_wf_at s i a Hwf Hi Hu) as [Hidw _]. rewrite strtrunc_id by apply Hidw.
  wp_step. eapply wp_mono; [by apply remove_alarm_wp|]. intros rt [s1 [k1 w1]] (Hw1 & Hf1 & Hcase).
  pose proof (alarm_find s (al_alarm_id a) Hwf) as Hfind.
  assert (Hm : al_map s !! al_alarm_id a = Some (alarm_val a)).
  { apply slots_map_lookup; [apply Hwf|]. exists i, a. split; [done|]. by apply table_kv_Some. }
  destruct (__alarm_find_index _ s) as [i'|]; [|congruence]. destruct Hfind as (b & Hi' & Hu' & Hid' & _).
  assert (i' = i) as -> by (by eapply alarm_same_slot). destruct Hcase as [-> ->].
  change (negb (OPRT_OK =? OPRT_OK)) with false. cbv iota.
  destruct (alarm_erase s i a Hwf Hi Hu) as [Hwf' Hm'].
  assert (Hsz : size (al_map s) = S (size (al_map (set_alarm i alarm_zero s)))).
  { rewrite Hm', map_size_delete_Some by eauto. destruct (size (al_map s)) eqn:He; [|done].
    apply map_size_empty_inv in He. by rewrite He, lookup_empty in Hm. }
  eapply wp_mono; [apply IH; [done|done|lia|]|].
  - intros j b' Hj Hl Hub. destruct (decide (j = i)) as [->|Hne].
    + erewrite set_alarm_lookup in Hl by done. injection Hl as <-. done.
    + rewrite set_alarm_items, list_lookup_insert_ne in Hl by done. apply (Hc j b'); [lia|done..].
  - intros r [s2 [k2 w2]] (Hw2 & Hwf2 & Hf2 & Htr2 & -> & Hnone). split_and!; [done|done|by eapply frame_trans| |f_equal; lia|done].
    eapply thinned_trans; [|exact Htr2]. rewrite Hm'. by eapply thinned_delete.
Qed.

Lemma alarm_by_time_wp c s k w : th_ok w -> alarms_wf s ->
  wp (run_al (AlRemoveByTime c)) (al_outcome (AlRemoveByTime c) s k w) (s, (k, w)).
Proof.
  intros Hw Hwf. cbn [run_al]. wp_step. unfold wukong_tm_alarm_remove_by_time. do 2 tm_step.
  rewrite (axw_init _ Hwf). cbn [negb]. wp_step.
  eapply wp_mono; [apply (remove_matching_wp c WUKONG_TM_ALARM_MAX_COUNT 0); [done|done|done|]|].
  { intros j a Hj. lia. }
  intros r [s' [k' w']] (Hw' & Hwf' & Hf & Htr & -> & Hnone). do 2 wp_step. cbn [fst]. rewrite Z.add_0_l.
  pose proof (map_subseteq_size _ _ (proj1 Htr)) as Hle.
  destruct (Z.ltb_spec 0 (Z.of_nat (size (al_map s)) - Z.of_nat (size (al_map s')))).
  - split_and!; [done|done| |done|done]. apply alarm_by_time_ok; [|done|done]. intros He. rewrite He in *. lia.
  - assert (al_map s' = al_map s) as He by (apply map_subseteq_size_eq; [apply Htr|lia]).
    split_and!; [done|done| |done|done]. rewrite He in Hnone |- *. by apply alarm_by_time_none.
Qed.

(** *** The ring *)

(** The calls that ring alarms, as far as the alarm in slot [i] goes. *)
Inductive ring_call := RingFire | RingTimeout (n : Z) | RingReplay (n : Z) | RingAck.

(** A round may be followed by another. *)
Definition may_snooze s (n : Z) : bool :=
  s_alarm_snooze_enabled s && ((s_alarm_max_snooze_count s =? 0) || (n <=? s_alarm_max_snooze_count s)).

(** An acknowledged once alarm is done, and its job is gone. *)
Definition acked (c : WUKONG_TM_ALARM_CFG_T) : WUKONG_TM_ALARM_CFG_T :=
  if is_once c then ac_set_job "" (ac_set_enabled false c) else c.

(** The calls that start a round. *)
Definition starts s (c : ring_call) a : Prop :=
  c = RingFire \/ c = RingReplay (al_ring_seq a) /\ s_alarm_snooze_enabled s = true.

(** What a call does to its alarm [a], and the event it sends; a failure to
    schedule needs an unreliable device. *)
Inductive ring_step s : ring_call -> WUKONG_TM_ALARM_ITEM_T -> list (WUKONG_AI_EVENT_TYPE_E * list Z) -> WUKONG_TM_ALARM_ITEM_T -> Prop :=
| step_ring c a j1 j2 : starts s c a -> j1 <> "" ->
    ring_step s c a [alarm_event (al_alarm_id a) (u32 (al_ring_seq a + 1)) WUKONG_TM_TIMER_OPR_START]
      (al_run true (u32 (al_ring_seq a + 1)) j1 j2 a)
| step_ring_failed c a j2 : starts s c a -> ~ reliable ->
    ring_step s c a [] (al_run false (u32 (al_ring_seq a + 1)) "" j2 a)
| step_snooze a j : al_is_ringing a = true -> may_snooze s (al_ring_seq a) = true -> j <> "" ->
    ring_step s (RingTimeout (al_ring_seq a)) a [alarm_event (al_alarm_id a) (al_ring_seq a) WUKONG_TM_TIMER_OPR_PAUSE]
      (al_run false (al_ring_seq a) "" j a)
| step_stuck a j : al_is_ringing a = true -> may_snooze s (al_ring_seq a) = true -> ~ reliable ->
    (* keeps ringing, with no timeout pending *)
    ring_step s (RingTimeout (al_ring_seq a)) a [] (al_run true (al_ring_seq a) "" j a)
| step_finish a : al_is_ringing a = true -> may_snooze s (al_ring_seq a) = false ->
    ring_step s (RingTimeout (al_ring_seq a)) a [alarm_event (al_alarm_id a) (al_ring_seq a) WUKONG_TM_TIMER_OPR_FINISH]
      (al_with_cfg finished (al_run false 0 "" (al_snooze_job_id a) a))
| step_stale_timeout a n : al_is_ringing a = false \/ n <> al_ring_seq a -> ring_step s (RingTimeout n) a [] a
| step_stale_replay a n : n <> al_ring_seq a -> ring_step s (RingReplay n) a [] a
| step_replay_off a : s_alarm_snooze_enabled s = false -> ring_step s (RingReplay (al_ring_seq a)) a [] (al_set_snooze "" a)
| step_ack a j1 j2 :
    ring_step s RingAck a [alarm_event (al_alarm_id a) (al_ring_seq a) WUKONG_TM_TIMER_OPR_STOP]
      (al_with_cfg acked (al_run false 0 j1 j2 a)).

(** The calls that end a cycle of a once alarm save the table, which announces it. *)
Definition syncs s (c : ring_call) a : bool :=
  is_once (al_cfg a) && match c with RingAck => true | RingTimeout n => negb (may_snooze s n) | _ => false end.

(** The events [ev] are sent (all, unless the device is unreliable), followed by
    at most one list event, if [sync]. *)
Definition sent_by (sync : bool) (ev : list (WUKONG_AI_EVENT_TYPE_E * list Z)) w w' : Prop :=
  exists tail, (tail = [] \/ sync = true /\ tail = [(WUKONG_AI_EVENT_CLOCK_MCP_ALARM, alarm_list_msg)]) /\
    (th_sent w' = (tail ++ ev ++ th_sent w)%list \/ ~ reliable /\ th_sent w' = (tail ++ th_sent w)%list).

(** The call's effect: its step on the alarm in slot [i], and nothing else. *)
Definition rung s i a (c : ring_call) k w (s' : ST * (K * W)) : Prop :=
  let '(st', (k', w')) := s' in
  th_ok w' /\ fr k w k' w' /\ exists ev a', ring_step s c a ev a' /\ st' = set_alarm i a' s /\ sent_by (syncs s c a) ev w w'.

Lemma sent_none y w w' : th_sent w' = th_sent w -> sent_by y [] w w'.
Proof. intros H. exists []. split; [by left|]. by left. Qed.

Lemma sent_emitted y w w1 w2 w3 e : th_sent w1 = th_sent w -> emitted w1 w2 e -> th_sent w3 = th_sent w2 -> sent_by y [e] w w3.
Proof. intros Hs H H3. exists []. split; [by left|]. rewrite H3. destruct H as [[H Hn]|H]; [right|left]; by rewrite H, Hs. Qed.

(** An event, then a save. *)
Lemma sent_saved w w1 w2 w3 k k' w4 e : th_sent w1 = th_sent w -> emitted w1 w2 e -> th_sent w3 = th_sent w2 ->
  saved k w3 k' w4 -> sent_by true [e] w w4.
Proof.
  intros H1 H2 H3 [_ [H4|H4]]; [eapply sent_emitted; [done|exact H2|by rewrite H4]|].
  eexists [_]. split; [right; split; reflexivity|]. rewrite H4, H3.
  destruct H2 as [[-> Hn]| ->]; rewrite H1; [by right|by left].
Qed.

Lemma timeout_rung params id n i a s k w : __alarm_parse_runtime_params params = Some (id, n) ->
  th_ok w -> alarms_wf s -> __alarm_find_index id s = Some i -> alarms s !! i = Some a -> al_used a = true -> al_alarm_id a = id ->
  wp (__alarm_snooze_timeout_rpc_handler params) (fun r st => rung s i a (RingTimeout n) k w st /\ (reliable -> fst r = OPRT_OK))
    (s, (k, w)).
Proof.
  intros Hp Hw Hwf Hf Hi Hu Hid. destruct (alarm_wf_at s i a Hwf Hi Hu) as [Hidw _].
  unfold __alarm_snooze_timeout_rpc_handler. rewrite Hp. do 2 tm_step. rewrite Hf. wp_step. wp_step. eapply get_alarm_wp; [exact Hi|].
  rewrite Hu. cbn [andb].
  set (Q := fun (_ : unit) (_ : ST * (K * W)) => _).
  assert (Hdone : forall st k' w', rung s i a (RingTimeout n) k w (st, (k', w')) -> Q tt (st, (k', w'))).
  { intros st k' w' (Hw' & Hfr & ev & a' & Hst & -> & Hs). unfold Q. apply status_ok_wp; [done|].
    intros rt r w2 Hw2 Hs2 Hr. split; [|done]. split; [done|]. split; [eapply frame_trans; [exact Hfr|by apply frame_quiet]|].
    exists ev, a'. split; [done|]. split; [done|]. destruct Hs as (tail & Ht & Hs). exists tail. split; [done|].
    by rewrite Hs2. }
  clearbody Q. destruct (al_is_ringing a) eqn:Hring; cbn [andb].
  2:{ wp_step. apply Hdone. split; [done|]. split; [by apply frame_quiet|]. exists [], a.
      split; [apply step_stale_timeout; by left|]. split; [by rewrite set_alarm_id|by apply sent_none]. }
  destruct (Z.eqb_spec (al_ring_seq a) n) as [<-|Hne].
  2:{ wp_step. apply Hdone. split; [done|]. split; [by apply frame_quiet|]. exists [], a.
      split; [apply step_stale_timeout; by right|]. split; [by rewrite set_alarm_id|by apply sent_none]. }
  assert (Hn : is_u32 (al_ring_seq a)).
  { revert Hp. unfold __alarm_parse_runtime_params. repeat case_match; try done. intros [= _ <-]. apply u32_range. }
  unfold ring_timeout. wp_step. eapply mod_alarm_wp; [exact Hi|]. do 2 tm_step.
  change (s_alarm_snooze_enabled (set_alarm _ _ s) && _) with (may_snooze s (al_ring_seq a)).
  destruct (may_snooze s (al_ring_seq a)) eqn:Hmay.
  - wp_step. eapply schedule_wp; [done|by eapply set_alarm_lookup|exact Hidw|done|by right|].
    intros rt j w1 Hw1 Hs1 Hj Hr. cbv beta iota. wp_step. eapply mod_set_wp; [exact Hi|].
    destruct (Z.eqb_spec rt OPRT_OK) as [->|Hrt]; cbn [negb].
    + destruct (Hj eq_refl) as (jid & -> & Hne). wp_step. apply emit_wp; [done|]. intros rt' w2 Hw2 He. wp_step.
      apply Hdone. split; [done|]. split.
      { eapply frame_trans; [by apply frame_quiet|]. eapply emitted_frame; [|exact He]. done. }
      eexists _, _. split; [by apply (step_snooze s a jid)|]. split; [done|]. rewrite Hid. by eapply sent_emitted.
    + eapply mod_set_wp; [exact Hi|]. apply Hdone. split; [done|]. split; [by apply frame_quiet|].
      eexists _, _. split; [apply (step_stuck s a (default (al_snooze_job_id a) j)); [done|done|intros r; by apply Hrt, Hr]|].
      split; [done|by apply sent_none].
  - wp_step. apply emit_wp; [done|]. intros rt w1 Hw1 He. wp_step. eapply mod_set_wp; [exact Hi|].
    wp_step. eapply get_set_wp; [exact Hi|]. rewrite <- Hid in He.
    assert (Hfr : fr k w k w1) by (eapply emitted_frame; [|exact He]; done).
    change (ac_repeat_type _ =? WUKONG_TM_ALARM_REPEAT_ONCE) with (is_once (al_cfg a)).
    pose proof (step_finish s a Hring Hmay) as Hstep. set (r := al_run false 0 "" (al_snooze_job_id a) a) in *.
    assert (Hfin : al_with_cfg finished r = if is_once (al_cfg a) then al_with_cfg (ac_set_enabled false) r else r)
      by (unfold al_with_cfg, finished; cbn [r al_run al_cfg]; by destruct (is_once (al_cfg a))).
    rewrite Hfin in Hstep. destruct (is_once (al_cfg a)) eqn:Hon.
    + wp_step. eapply mod_set_wp; [exact Hi|]. wp_step. apply save_store_wp; [done|]. intros rt' k2 w2 Hw2 Hsv. wp_step.
      apply Hdone. split; [done|]. split; [eapply frame_trans; [exact Hfr|by apply saved_frame]|].
      eexists _, _. split; [exact Hstep|]. split; [done|]. unfold syncs. rewrite Hon, Hmay. eapply sent_saved; [done|exact He|done|exact Hsv].
    + wp_step. apply Hdone. split; [done|]. split; [done|]. eexists _, _. split; [exact Hstep|].
      split; [done|]. by eapply sent_emitted.
Qed.

(** A round started on the alarm [b], which is [a] without its pending replay. *)
Lemma start_rung c i a b s k w (Q : OPERATE_RET -> ST * (K * W) -> Prop) : th_ok w -> alarms_wf s -> alarms s !! i = Some a ->
  al_used a = true -> b = a \/ b = al_set_snooze "" a -> starts s c a ->
  (forall rt st, rung s i a c k w st -> (reliable -> rt = OPRT_OK) -> Q rt st) ->
  wp (__alarm_start_ringing i) Q (set_alarm i b s, (k, w)).
Proof.
  intros Hw Hwf Hi Hu Hb Hc HQ. destruct (alarm_wf_at s i a Hwf Hi Hu) as [Hidw _].
  eapply start_ringing_wp; [done|exact Hi|by destruct Hb as [-> | ->]|]. intros rt b' w1 Hw1 Hr. apply HQ.
  - split; [done|]. split; [by eapply rang_frame|].
    assert (Hseq : al_ring_seq b = al_ring_seq a /\ al_alarm_id b = al_alarm_id a /\
      forall r n j1 j2, al_run r n j1 j2 b = al_run r n j1 j2 a) by by destruct Hb as [-> | ->].
    destruct Hseq as (Hseq & Hida & Hrun). inversion Hr; subst; rewrite ?Hseq, ?Hida, ?Hrun in *.
    + eexists _, _. split; [by apply (step_ring s c a j1 j2)|]. split; [done|]. by eapply sent_emitted.
    + eexists _, _. split; [by apply (step_ring_failed s c a j2)|]. split; [done|]. by apply sent_none.
  - intros r. inversion Hr; [done|]. by exfalso.
Qed.

Lemma fire_rung id i a s k w : th_ok w -> alarms_wf s -> __alarm_find_index id s = Some i -> alarms s !! i = Some a ->
  al_used a = true ->
  wp (wukong_tm_alarm_fire id) (fun rt st => rung s i a RingFire k w st /\ (reliable -> rt = OPRT_OK)) (s, (k, w)).
Proof.
  intros Hw Hwf Hf Hi Hu. unfold wukong_tm_alarm_fire. do 2 tm_step. rewrite Hf. rewrite <- (set_alarm_id i a s Hi) at 1.
  eapply start_rung; [done|done|exact Hi|done|by left|by left|]. auto.
Qed.

Lemma replay_rung params id n i a s k w : __alarm_parse_runtime_params params = Some (id, n) ->
  th_ok w -> alarms_wf s -> __alarm_find_index id s = Some i -> alarms s !! i = Some a -> al_used a = true ->
  wp (__alarm_snooze_fire_rpc_handler params) (fun r st => rung s i a (RingReplay n) k w st /\ (reliable -> fst r = OPRT_OK))
    (s, (k, w)).
Proof.
  intros Hp Hw Hwf Hf Hi Hu. unfold __alarm_snooze_fire_rpc_handler. rewrite Hp. do 2 tm_step. rewrite Hf. wp_step. wp_step.
  eapply get_alarm_wp; [exact Hi|]. rewrite Hu. cbn [andb].
  set (Q := fun (_ : OPERATE_RET) (_ : ST * (K * W)) => _).
  assert (Hdone : forall rt st, rung s i a (RingReplay n) k w st -> (reliable -> rt = OPRT_OK) -> Q rt st).
  { intros rt [st [k' w']] Hrung Hr. unfold Q. destruct (Z.eqb_spec rt OPRT_OK) as [->|Hrt]; cbn [negb]; [|by wp_step].
    destruct Hrung as (Hw' & Hfr & ev & a' & Hst & -> & tail & Ht & Hs). apply status_ok_wp; [done|].
    intros rt r w2 Hw2 Hs2 Hr2. split; [|done]. split; [done|]. split; [eapply frame_trans; [exact Hfr|by apply frame_quiet]|].
    exists ev, a'. split; [done|]. split; [done|]. exists tail. split; [done|]. by rewrite Hs2. }
  clearbody Q. destruct (Z.eqb_spec (al_ring_seq a) n) as [<-|Hne].
  2:{ wp_step. apply Hdone; [|done]. split; [done|]. split; [by apply frame_quiet|]. exists [], a.
      split; [by apply step_stale_replay|]. split; [by rewrite set_alarm_id|by apply sent_none]. }
  wp_step. eapply mod_alarm_wp; [exact Hi|]. destruct (s_alarm_snooze_enabled s) eqn:Hen; cbn [negb].
  - eapply start_rung; [done|done|exact Hi|done|by right|by right|done].
  - wp_step. apply Hdone; [|done]. split; [done|]. split; [by apply frame_quiet|]. eexists [], _.
    split; [by apply step_replay_off|]. split; [done|by apply sent_none].
Qed.

Lemma ack_rung id i a s k w : th_ok w -> alarms_wf s -> __alarm_find_index id s = Some i -> alarms s !! i = Some a ->
  al_used a = true ->
  wp (wukong_tm_alarm_ack id) (fun rt st => rung s i a RingAck k w st /\ rt = OPRT_OK) (s, (k, w)).
Proof.
  intros Hw Hwf Hf Hi Hu. unfold wukong_tm_alarm_ack. do 2 tm_step. rewrite Hf. unfold __alarm_ack_index.
  assert (Hlt : (i < WUKONG_TM_ALARM_MAX_COUNT)%nat) by (rewrite <- (axw_size _ Hwf); by eapply lookup_lt_Some).
  if_false (apply orb_false_iff; split; lia). rewrite Nat2Z.id. wp_step. eapply get_alarm_wp; [exact Hi|]. rewrite Hu. cbn [negb].
  wp_step. apply emit_wp; [done|]. intros rt w1 Hw1 He. wp_step. rewrite <- (set_alarm_id i a s Hi) at 1.
  eapply clear_runtime_wp; [done|exact Hi|]. intros j1 j2 w2 Hw2 Hs2. wp_step. eapply mod_set_wp; [exact Hi|].
  pose proof (step_ack s a j1 j2) as Hstep. set (r := al_run false 0 j1 j2 a) in *.
  assert (Hack : al_with_cfg acked r = if is_once (al_cfg a) then al_with_cfg (ac_set_job "") (al_with_cfg (ac_set_enabled false) r) else r)
    by (unfold al_with_cfg, acked; cbn [r al_run al_cfg]; by destruct (is_once (al_cfg a))).
  rewrite Hack in Hstep. assert (Hfr : fr k w k w2).
  { eapply frame_trans; [eapply emitted_frame; [|exact He]; done|by apply frame_quiet]. }
  change (ac_repeat_type (al_cfg a) =? WUKONG_TM_ALARM_REPEAT_ONCE) with (is_once (al_cfg a)).
  destruct (is_once (al_cfg a)) eqn:Hon.
  - wp_step. eapply mod_set_wp; [exact Hi|]. wp_step. eapply get_set_wp; [exact Hi|]. wp_step.
    eapply detach_wp; [done|exact Hi|done|]. intros w3 Hw3 Hs3. wp_step. apply save_store_wp; [done|].
    intros rt' k2 w4 Hw4 Hsv. wp_step. split; [|done]. split; [done|].
    split; [eapply frame_trans; [exact Hfr|]; eapply frame_trans; [by apply (frame_quiet _ _ k w2 w3)|by apply saved_frame]|].
    eexists _, _. split; [exact Hstep|]. split; [done|]. unfold syncs. rewrite Hon. eapply sent_saved; [done|exact He|by rewrite Hs3, Hs2|exact Hsv].
  - wp_step. split; [|done]. split; [done|]. split; [done|]. eexists _, _. split; [exact Hstep|]. split; [done|].
    eapply sent_emitted; [done|exact He|exact Hs2].
Qed.

(** What a call leaves of the map. *)
Lemma ring_step_val s c a ev a' : ring_step s c a ev a' ->
  al_used a' = al_used a /\ al_alarm_id a' = al_alarm_id a /\
  (same_alarm a a' /\ c <> RingAck \/ (c = RingAck \/ exists n, c = RingTimeout n) /\ alarm_val a' = finished (alarm_val a)).
Proof.
  assert (Hstart : starts s c a -> c <> RingAck) by (intros [-> |[-> _]]; done).
  destruct 1 as [c a j1 j2 Hst|c a j2 Hst|a j|a j|a Hr Hm|a n Hst|a n Hst|a Hst|a j1 j2]; (split; [done|]; split; [done|]).
  all: try (left; split; [done|by auto]).
  - right. split; [right; eauto|]. unfold alarm_val, finished. cbn [al_with_cfg al_run al_cfg].
    change (is_once (ac_set_job "" (al_cfg a))) with (is_once (al_cfg a)). by destruct (is_once (al_cfg a)).
  - right. split; [by left|]. unfold alarm_val, finished, acked. cbn [al_with_cfg al_run al_cfg].
    change (is_once (ac_set_job "" (al_cfg a))) with (is_once (al_cfg a)). by destruct (is_once (al_cfg a)).
Qed.

Lemma rung_map s i a c k w st k' w' : alarms_wf s -> alarms s !! i = Some a -> al_used a = true ->
  rung s i a c k w (st, (k', w')) ->
  th_ok w' /\ fr k w k' w' /\ alarms_wf st /\
  (al_map st = al_map s /\ c <> RingAck \/
   (c = RingAck \/ exists n, c = RingTimeout n) /\ al_map st = <[al_alarm_id a := finished (alarm_val a)]> (al_map s)).
Proof.
  intros Hwf Hi Hu (Hw' & Hfr & ev & a' & Hst & -> & _). split; [done|]. split; [done|].
  destruct (ring_step_val _ _ _ _ _ Hst) as (Hu' & Hid & [[Hsame Hc]|[Hc Hv]]).
  - destruct (same_set s i a a') as [? ?]; [done..|]. split; [done|]. by left.
  - destruct (alarm_wf_at s i a Hwf Hi Hu) as [_ Hcw].
    destruct (alarm_change s i a a' (finished (alarm_val a))) as [Hwf' Hm']; [done|done|done|congruence|done| | |].
    + by apply finished_wf, acfg_wf_job.
    + rewrite Hv. unfold finished, alarm_val. by destruct (is_once _).
    + split; [done|]. right. split; [done|]. rewrite Hm'. f_equal. unfold finished, alarm_val. by destruct (is_once _).
Qed.

Lemma alarm_ack_wp id s k w : th_ok w -> alarms_wf s ->
  wp (run_al (AlAck id)) (al_outcome (AlAck id) s k w) (s, (k, w)).
Proof.
  intros Hw Hwf. cbn [run_al]. pose proof (alarm_find s id Hwf) as Hfind. destruct (__alarm_find_index id s) as [i|] eqn:Hf.
  - destruct Hfind as (a & Hi & Hu & Hid & Hm). eapply wp_mono; [by apply (ack_rung id i a)|].
    intros rt [st [k' w']] [Hr ->]. destruct (rung_map _ _ _ _ _ _ _ _ _ Hwf Hi Hu Hr) as (Hw' & Hfr & Hwf' & [[_ Hc]|[_ Hm']]); [done|].
    split_and!; [done|done| |done|done]. rewrite Hm', Hid. by apply alarm_ack_ok.
  - unfold wukong_tm_alarm_ack. do 2 tm_step. rewrite Hf. wp_step. apply al_refused; [done..| |done]. by apply alarm_ack_missing.
Qed.

Lemma alarm_fire_wp params s k w : th_ok w -> alarms_wf s ->
  wp (run_al (AlFire params)) (al_outcome (AlFire params) s k w) (s, (k, w)).
Proof.
  intros Hw Hwf. cbn [run_al]. wp_step. unfold __alarm_fire_rpc_handler.
  assert (Hno : forall rt k' w', th_ok w' -> fr k w k' w' -> forall st, alarms_wf st -> al_map st = al_map s ->
    al_outcome (AlFire params) s k w rt (st, (k', w'))).
  { intros rt k' w' Hw' Hfr st Hst Hm. split_and!; [done|done| |done|done]. rewrite Hm. apply alarm_ring. }
  destruct params as [params|]; [|do 2 wp_step; by apply Hno; [|apply frame_quiet| |]].
  destruct (ty_cJSON_GetObjectItem params "alarm_id") as [[| | |id| |]|]; try (do 2 wp_step; by apply Hno; [|apply frame_quiet| |]).
  pose proof (alarm_find s id Hwf) as Hfind. destruct (__alarm_find_index id s) as [i|] eqn:Hf.
  - destruct Hfind as (a & Hi & Hu & Hid & Hm). wp_step. eapply wp_mono; [by apply (fire_rung id i a)|].
    intros rt [st [k' w']] [Hr _]. destruct (rung_map _ _ _ _ _ _ _ _ _ Hwf Hi Hu Hr) as (Hw' & Hfr & Hwf' & [[Hm' _]|[[?|[? ?]] _]]); [|done..].
    destruct (negb (rt =? OPRT_OK)); [do 2 wp_step; by apply Hno|]. apply status_ok_wp; [done|]. intros rt2 r w2 Hw2 Hs2 _.
    wp_step. apply Hno; [done|eapply frame_trans; [exact Hfr|by apply frame_quiet]|done|done].
  - wp_step. unfold wukong_tm_alarm_fire. do 2 tm_step. rewrite Hf. wp_step.
    change (negb (OPRT_NOT_FOUND =? OPRT_OK)) with true. cbv iota. do 2 wp_step. by apply Hno; [|apply frame_quiet| |].
Qed.

(** The runtime callbacks when their alarm is gone, or the parameters are wrong. *)
Lemma no_alarm_wp (m : option cJSON -> C (ST * (K * W)) (OPERATE_RET * option cJSON)) params s k w :
  m = __alarm_snooze_timeout_rpc_handler \/ m = __alarm_snooze_fire_rpc_handler -> th_ok w ->
  match __alarm_parse_runtime_params params with Some (id, _) => __alarm_find_index id s = None | None => True end ->
  wp (m params) (fun _ '(s', (k', w')) => s' = s /\ k' = k /\ th_ok w' /\ th_sent w' = th_sent w) (s, (k, w)).
Proof.
  intros [-> | ->] Hw Hf; unfold __alarm_snooze_timeout_rpc_handler, __alarm_snooze_fire_rpc_handler;
    (destruct (__alarm_parse_runtime_params params) as [[id n]|]; [|by wp_step]); do 2 tm_step; rewrite Hf; do 2 wp_step.
  - by apply status_ok_wp.
  - change (negb (OPRT_OK =? OPRT_OK)) with false. cbv iota. by apply status_ok_wp.
Qed.

(** A runtime callback, given what it does to an existing alarm. *)
Lemma callback_wp m op params s k w :
  m = __alarm_snooze_timeout_rpc_handler \/ m = __alarm_snooze_fire_rpc_handler ->
  (forall mp rt, al_step op mp rt mp) -> (forall s', alarm_scheduled op s s') -> th_ok w -> alarms_wf s ->
  (forall id n i a, __alarm_parse_runtime_params params = Some (id, n) -> __alarm_find_index id s = Some i ->
     alarms s !! i = Some a -> al_used a = true -> al_alarm_id a = id -> al_map s !! id = Some (alarm_val a) ->
     wp (m params) (fun r st => al_outcome op s k w (fst r) st) (s, (k, w))) ->
  wp (let* r := m params in cret (fst r)) (al_outcome op s k w) (s, (k, w)).
Proof.
  intros Hm Hstep Hsch Hw Hwf Hcase. wp_step. pose proof (no_alarm_wp m params s k w Hm Hw) as Hno.
  assert (Hgone : wp (m params) (fun _ '(s', (k', w')) => s' = s /\ k' = k /\ th_ok w' /\ th_sent w' = th_sent w) (s, (k, w)) ->
    wp (m params) (fun r st => wp (cret (fst r)) (al_outcome op s k w) st) (s, (k, w))).
  { intros H. eapply wp_mono; [exact H|]. intros r [st [k' w']] (-> & -> & Hw' & Hs'). wp_step. by apply al_unchanged. }
  destruct (__alarm_parse_runtime_params params) as [[id n]|] eqn:Hp; [|by apply Hgone, Hno].
  pose proof (alarm_find s id Hwf) as Hfind. destruct (__alarm_find_index id s) as [i|] eqn:Hf; [|by apply Hgone, Hno].
  destruct Hfind as (a & Hi & Hu & Hid & Hmap). by apply (Hcase id n i a).
Qed.

Lemma alarm_timeout_wp params s k w : th_ok w -> alarms_wf s ->
  wp (run_al (AlTimeout params)) (al_outcome (AlTimeout params) s k w) (s, (k, w)).
Proof.
  intros Hw Hwf. apply callback_wp; [by left|intros; apply alarm_timeout|done|done|done|].
  intros id n i a Hp Hf Hi Hu Hid Hm. eapply wp_mono; [by apply (timeout_rung params id n i a)|].
  intros r [st [k' w']] [Hr _].
  destruct (rung_map _ _ _ _ _ _ _ _ _ Hwf Hi Hu Hr) as (Hw' & Hfr & Hwf' & [[Hm' _]|[_ Hm']]); (split_and!; [done|done| |done|done]); rewrite Hm'.
  - apply alarm_timeout.
  - rewrite Hid. by eapply alarm_timeout_finished.
Qed.

Lemma alarm_replay_wp params s k w : th_ok w -> alarms_wf s ->
  wp (run_al (AlReplay params)) (al_outcome (AlReplay params) s k w) (s, (k, w)).
Proof.
  intros Hw Hwf. apply callback_wp; [by right|intros; apply alarm_replay|done|done|done|].
  intros id n i a Hp Hf Hi Hu Hid Hm. eapply wp_mono; [by apply (replay_rung params id n i a)|].
  intros r [st [k' w']] [Hr _].
  destruct (rung_map _ _ _ _ _ _ _ _ _ Hwf Hi Hu Hr) as (Hw' & Hfr & Hwf' & [[Hm' _]|[[?|[? ?]] _]]); [|done..].
  split_and!; [done|done| |done|done]. rewrite Hm'. apply alarm_replay.
Qed.


(** *** The calls on one alarm *)

Definition runtime_params (id : string) (n : Z) : option cJSON :=
  Some (JObject [("alarm_id", JString id); ("ring_seq", JNumber n)]).

(** A callback with the parameters that the alarm's own jobs carry. *)
Definition run_ring (id : string) (c : ring_call) : C (ST * (K * W)) OPERATE_RET :=
  match c with
  | RingFire => wukong_tm_alarm_fire id
  | RingTimeout n => let* r := __alarm_snooze_timeout_rpc_handler (runtime_params id n) in cret (fst r)
  | RingReplay n => let* r := __alarm_snooze_fire_rpc_handler (runtime_params id n) in cret (fst r)
  | RingAck => wukong_tm_alarm_ack id
  end.

(** Round numbers that a JSON integer carries exactly. *)
Definition ring_call_ok (c : ring_call) : Prop :=
  match c with RingTimeout n | RingReplay n => 0 <= n <= INT_MAX | _ => True end.

Lemma runtime_params_parse id n : 0 <= n <= INT_MAX -> __alarm_parse_runtime_params (runtime_params id n) = Some (id, n).
Proof.
  intros Hn. unfold runtime_params, __alarm_parse_runtime_params.
  change (ty_cJSON_GetObjectItem _ "alarm_id") with (Some (JString id)).
  change (ty_cJSON_GetObjectItem _ "ring_seq") with (Some (JNumber n)). cbv iota.
  rewrite valueint_id by (unfold INT_MAX, INT_MIN in *; lia). by rewrite u32_id by (unfold is_u32, INT_MAX in *; lia).
Qed.

Lemma find_unique s i a : alarms_wf s -> alarms s !! i = Some a -> al_used a = true ->
  __alarm_find_index (al_alarm_id a) s = Some i.
Proof.
  intros Hwf Hi Hu. pose proof (alarm_find s (al_alarm_id a) Hwf) as Hf.
  assert (Hm : al_map s !! al_alarm_id a = Some (alarm_val a)).
  { apply slots_map_lookup; [apply Hwf|]. exists i, a. split; [done|]. by apply table_kv_Some. }
  destruct (__alarm_find_index _ s) as [j|]; [|congruence]. destruct Hf as (b & Hj & Hub & Hid & _). f_equal.
  by eapply alarm_same_slot.
Qed.

Lemma run_ring_wp c i a s k w : ring_call_ok c -> th_ok w -> alarms_wf s ->
  alarms s !! i = Some a -> al_used a = true ->
  wp (run_ring (al_alarm_id a) c) (fun rt st => rung s i a c k w st /\ (reliable -> rt = OPRT_OK)) (s, (k, w)).
Proof.
  intros Hc Hw Hwf Hi Hu. pose proof (find_unique s i a Hwf Hi Hu) as Hf. set (id := al_alarm_id a) in *.
  destruct c as [|n|n|]; cbn [run_ring ring_call_ok] in *.
  - by apply fire_rung.
  - wp_step. eapply wp_mono; [apply (timeout_rung _ id n i a); [by apply runtime_params_parse|done..]|]. intros r st Hr. by wp_step.
  - wp_step. eapply wp_mono; [apply (replay_rung _ id n i a); [by apply runtime_params_parse|done..]|]. intros r st Hr. by wp_step.
  - eapply wp_mono; [by apply (ack_rung id i a)|]. intros rt st [Hr Hrt]. by split.
Qed.

(** C20. One call on an existing alarm - it fires, the unanswered window of a
    round is over, a snooze is over, or it is acknowledged - does exactly one
    step of the ringing automaton on that alarm and touches no other: a round
    starts with a new number, a START event and a pending timeout; a timeout
    of the current round either snoozes (PAUSE) while rounds are left or ends
    the cycle (FINISH); callbacks of any other round are ignored; an
    acknowledgement ends the cycle (STOP). The end of a cycle switches a once
    alarm off and keeps it, an acknowledged one too, which README_ALARM.md and
    README_CN.md say is removed. Only an unreliable device loses an event, or
    leaves the alarm ringing with no timeout pending. *)
Theorem alarm_ring_step c i a s k w : ring_call_ok c -> th_ok w -> alarms_wf s ->
  alarms s !! i = Some a -> al_used a = true ->
  exists rt st, run_ring (al_alarm_id a) c (s, (k, w)) = Some (rt, st) /\ rung s i a c k w st /\ (reliable -> rt = OPRT_OK).
Proof. intros Hc Hw Hwf Hi Hu. apply wp_elim. by apply run_ring_wp. Qed.

(** *** An alarm nobody answers *)

Fixpoint run_rings (id : string) (calls : list ring_call) : C (ST * (K * W)) unit :=
  match calls with
  | [] => cret tt
  | c :: calls => let* _ := run_ring id c in run_rings id calls
  end.

(** The callbacks of the cron service from round [n] on, [more] rounds to come. *)
Fixpoint rounds (more : nat) (n : Z) : list ring_call :=
  match more with
  | O => [RingTimeout n]
  | S more => RingTimeout n :: RingReplay n :: rounds more (n + 1)
  end.

(** The events of these rounds, oldest first. *)
Fixpoint round_events (id : string) (more : nat) (n : Z) : list (WUKONG_AI_EVENT_TYPE_E * list Z) :=
  match more with
  | O => [alarm_event id n WUKONG_TM_TIMER_OPR_FINISH]
  | S more => alarm_event id n WUKONG_TM_TIMER_OPR_PAUSE :: alarm_event id (n + 1) WUKONG_TM_TIMER_OPR_START ::
                round_events id more (n + 1)
  end.

(** On a reliable device a call sends its events. *)
Lemma ring_reliable_wp c i a s k w (Q : OPERATE_RET -> ST * (K * W) -> Prop) : reliable -> ring_call_ok c -> th_ok w ->
  alarms_wf s -> alarms s !! i = Some a -> al_used a = true ->
  (forall ev a' tail k' w', ring_step s c a ev a' -> th_ok w' -> alarms_wf (set_alarm i a' s) ->
     th_sent w' = (tail ++ ev ++ th_sent w)%list ->
     tail = [] \/ syncs s c a = true /\ tail = [(WUKONG_AI_EVENT_CLOCK_MCP_ALARM, alarm_list_msg)] ->
     Q OPRT_OK (set_alarm i a' s, (k', w'))) ->
  wp (run_ring (al_alarm_id a) c) Q (s, (k, w)).
Proof.
  intros Hr Hc Hw Hwf Hi Hu HQ. eapply wp_mono; [by apply (run_ring_wp c i a)|]. intros rt [st [k' w']] [Hrung Hrt].
  rewrite (Hrt Hr). destruct (rung_map _ _ _ _ _ _ _ _ _ Hwf Hi Hu Hrung) as (Hw' & _ & Hwf' & _).
  destruct Hrung as (_ & _ & ev & a' & Hst & -> & tail & Ht & [Hs|[Hn _]]); [|by destruct Hn]. by eapply HQ.
Qed.

(** The alarm at the end of a cycle that began with [a]: silent, its rounds
    counted from 0 again, and done if it rings once. *)
Definition cycle_over a a' : Prop := exists j, a' = al_with_cfg finished (al_run false 0 "" j a).

Lemma no_sync s c a (tail : list (WUKONG_AI_EVENT_TYPE_E * list Z)) x :
  tail = [] \/ syncs s c a = true /\ tail = x -> syncs s c a = false -> tail = [].
Proof. intros [?|[Ht _]] Hf; [done|]. by rewrite Hf in Ht. Qed.

(** The steps of a reliable device, by call. *)
Ltac step_cases :=
  match goal with H : ring_step _ _ _ _ _ |- _ => inversion H; subst; clear H end; unfold starts in *;
  repeat match goal with
         | H : _ \/ _ |- _ => destruct H
         | H : _ /\ _ |- _ => destruct H
         end; try done; try congruence.

Lemma timeout_inv s a ev a' : reliable -> ring_step s (RingTimeout (al_ring_seq a)) a ev a' -> al_is_ringing a = true ->
  if may_snooze s (al_ring_seq a)
  then exists j, ev = [alarm_event (al_alarm_id a) (al_ring_seq a) WUKONG_TM_TIMER_OPR_PAUSE] /\ a' = al_run false (al_ring_seq a) "" j a
  else ev = [alarm_event (al_alarm_id a) (al_ring_seq a) WUKONG_TM_TIMER_OPR_FINISH] /\
       a' = al_with_cfg finished (al_run false 0 "" (al_snooze_job_id a) a).
Proof. intros Hr Hst Hring. destruct (may_snooze s (al_ring_seq a)) eqn:Hmay; step_cases. by eexists. Qed.

Lemma start_inv s c a ev a' : reliable -> ring_step s c a ev a' ->
  c = RingFire \/ c = RingReplay (al_ring_seq a) /\ s_alarm_snooze_enabled s = true ->
  exists j1 j2, ev = [alarm_event (al_alarm_id a) (u32 (al_ring_seq a + 1)) WUKONG_TM_TIMER_OPR_START] /\
    a' = al_run true (u32 (al_ring_seq a + 1)) j1 j2 a.
Proof. intros Hr Hst Hc. step_cases; by eexists _, _. Qed.

Lemma rounds_wp more n i a s k w : reliable -> th_ok w -> alarms_wf s -> alarms s !! i = Some a -> al_used a = true ->
  al_is_ringing a = true -> al_ring_seq a = n -> 1 <= n -> n + Z.of_nat more <= INT_MAX ->
  s_alarm_snooze_enabled s = true -> s_alarm_max_snooze_count s = n - 1 + Z.of_nat more -> 0 < s_alarm_max_snooze_count s ->
  wp (run_rings (al_alarm_id a) (rounds more n)) (fun _ '(s', (k', w')) => th_ok w' /\ alarms_wf s' /\
    exists a' tail, s' = set_alarm i a' s /\ cycle_over a a' /\
      th_sent w' = (tail ++ rev (round_events (al_alarm_id a) more n) ++ th_sent w)%list /\
      (tail = [] \/ is_once (al_cfg a) = true /\ tail = [(WUKONG_AI_EVENT_CLOCK_MCP_ALARM, alarm_list_msg)])) (s, (k, w)).
Proof.
  intros Hr. revert n a s k w. induction more as [|more IH]; intros n a s k w Hw Hwf Hi Hu Hring <- Hn Hmax Hen Hcnt Hpos;
    cbn [rounds run_rings round_events].
  - assert (Hmay : may_snooze s (al_ring_seq a) = false) by (unfold may_snooze; rewrite Hen; cbn [andb]; lia).
    wp_step. apply (ring_reliable_wp _ i); [done|cbn; unfold INT_MAX in *; lia|done..|]. intros ev a' tail k' w' Hst Hw' Hwf' Hs Ht. wp_step.
    pose proof (timeout_inv _ _ _ _ Hr Hst Hring) as Hinv. rewrite Hmay in Hinv. destruct Hinv as [-> ->].
    split; [done|]. split; [done|]. eexists _, tail. split; [reflexivity|]. split; [by eexists|]. split; [done|].
    destruct Ht as [Ht|[Hsy Ht]]; [by left|right]. split; [|done]. unfold syncs in Hsy. by apply andb_true_iff in Hsy as [? _].
  - assert (Hmay : may_snooze s (al_ring_seq a) = true) by (unfold may_snooze; rewrite Hen; cbn [andb]; lia).
    wp_step. apply (ring_reliable_wp _ i); [done|cbn; unfold INT_MAX in *; lia|done..|]. intros ev a1 tail1 k1 w1 Hst1 Hw1 Hwf1 Hs1 Ht1.
    pose proof (timeout_inv _ _ _ _ Hr Hst1 Hring) as Hinv. rewrite Hmay in Hinv. destruct Hinv as (j & -> & ->).
    apply no_sync in Ht1 as ->; [|unfold syncs; rewrite Hmay; by destruct (is_once _)].
    set (a1 := al_run false (al_ring_seq a) "" j a) in *. change (al_alarm_id a) with (al_alarm_id a1). wp_step.
    apply (ring_reliable_wp _ i a1); [done|cbn; unfold INT_MAX in *; lia|done|done|by eapply set_alarm_lookup|done|].
    intros ev a2 tail2 k2 w2 Hst2 Hw2 Hwf2 Hs2 Ht2.
    destruct (start_inv _ _ _ _ _ Hr Hst2) as (j1 & j2 & -> & ->); [by right|].
    apply no_sync in Ht2 as ->; [|unfold syncs; by destruct (is_once _)].
    rewrite set_alarm_twice in *. change (al_ring_seq a1) with (al_ring_seq a) in *. rewrite u32_id in * by (unfold is_u32, INT_MAX in *; lia).
    set (a2 := al_run true (al_ring_seq a + 1) j1 j2 a1) in *. change (al_alarm_id a1) with (al_alarm_id a2).
    eapply wp_mono; [apply (IH _ a2); [done|done|by eapply set_alarm_lookup|done|done|done|lia|lia|done|cbn; lia|done]|].
    intros _ [s3 [k3 w3]] (Hw3 & Hwf3 & a3 & tail & -> & [j3 Ha3] & Hs3 & Ht3). split; [done|]. split; [done|].
    exists a3, tail. rewrite set_alarm_twice. split; [done|]. split; [by exists j3|]. split; [|exact Ht3].
    rewrite Hs3, Hs2, Hs1. cbn [rev app]. by rewrite <- !app_assoc.
Qed.

(** C9. An alarm that nobody answers rings its snooze limit plus one rounds and
    stops: on a reliable device, from the cron service's first call through the
    timeouts and replays its own jobs carry, every round announces START with
    its number, every round but the last is followed by PAUSE, the last by
    FINISH; afterwards the alarm is silent with its rounds counted from 0
    again, a once alarm is switched off, and no other alarm is touched. *)
Theorem unanswered_alarm_finishes more i a s k w : reliable -> th_ok w -> alarms_wf s -> alarms s !! i = Some a -> al_used a = true ->
  al_ring_seq a = 0 -> s_alarm_snooze_enabled s = true -> s_alarm_max_snooze_count s = Z.of_nat more ->
  0 < Z.of_nat more < INT_MAX ->
  exists k' w' a' tail, run_rings (al_alarm_id a) (RingFire :: rounds more 1) (s, (k, w)) = Some (tt, (set_alarm i a' s, (k', w'))) /\
    cycle_over a a' /\ alarms_wf (set_alarm i a' s) /\
    th_sent w' = (tail ++ rev (alarm_event (al_alarm_id a) 1 WUKONG_TM_TIMER_OPR_START :: round_events (al_alarm_id a) more 1) ++ th_sent w)%list /\
    (tail = [] \/ is_once (al_cfg a) = true /\ tail = [(WUKONG_AI_EVENT_CLOCK_MCP_ALARM, alarm_list_msg)]).
Proof.
  intros Hr Hw Hwf Hi Hu Hseq Hen Hmax Hmore.
  assert (Hwp : wp (run_rings (al_alarm_id a) (RingFire :: rounds more 1)) (fun _ '(s', (k', w')) => alarms_wf s' /\
    exists a' tail, s' = set_alarm i a' s /\ cycle_over a a' /\
      th_sent w' = (tail ++ rev (alarm_event (al_alarm_id a) 1 WUKONG_TM_TIMER_OPR_START :: round_events (al_alarm_id a) more 1) ++ th_sent w)%list /\
      (tail = [] \/ is_once (al_cfg a) = true /\ tail = [(WUKONG_AI_EVENT_CLOCK_MCP_ALARM, alarm_list_msg)])) (s, (k, w))).
  { cbn [run_rings]. wp_step. apply (ring_reliable_wp _ i); [done..|]. intros ev a1 tail1 k1 w1 Hst1 Hw1 Hwf1 Hs1 Ht1.
    destruct (start_inv _ _ _ _ _ Hr Hst1) as (j1 & j2 & -> & ->); [by left|].
    apply no_sync in Ht1 as ->; [|unfold syncs; by destruct (is_once _)].
    rewrite Hseq in *. change (u32 (0 + 1)) with 1 in *. set (a1 := al_run true 1 j1 j2 a) in *.
    change (al_alarm_id a) with (al_alarm_id a1).
    eapply wp_mono; [apply (rounds_wp more 1 i a1); [done|done|done|by eapply set_alarm_lookup|done|done|done|lia|lia|done|cbn; lia|cbn; lia]|].
    intros _ [s3 [k3 w3]] (Hw3 & Hwf3 & a3 & tail & -> & [j3 Ha3] & Hs3 & Ht3). split; [done|].
    exists a3, tail. rewrite set_alarm_twice. split; [done|]. split; [by exists j3|]. split; [|exact Ht3].
    rewrite Hs3, Hs1. cbn [rev app]. by rewrite <- !app_assoc. }
  apply wp_elim in Hwp as ([] & (s' & k' & w') & Hrun & Hwf' & a' & tail & -> & Hover & Hs & Ht).
  by exists k', w', a', tail.
Qed.

End Correct.
