(* ===== verification/TmReminder.v ===== *)
(** The reminders of src/wukong/tm/wukong_tm_reminder.c. *)
From S2P Require Import Prelude.
From S2P Require Import Calendar.
From S2P Require Import CStr.
From S2P Require Import World.
From S2P Require Import Json.
From S2P Require Import TmHost.
From S2P Require Import TmStore.

#[local] Open Scope string_scope.
#[local] Open Scope Z_scope.

Definition WUKONG_TM_REMINDER_ID_LEN : nat := 32.
Definition WUKONG_TM_REMINDER_MESSAGE_LEN : nat := 128.
Definition WUKONG_TM_REMINDER_CRON_JOB_ID_LEN : nat := 32.
Definition WUKONG_TM_REMINDER_FIRE_METHOD : string := "reminder.fire".
Definition WUKONG_TM_MAX_REMINDERS : nat := 8.
Definition WUKONG_TM_REMINDER_KV_KEY : string := "wk_tm_reminders".

Record WUKONG_TM_REMINDER_CFG_T := mk_rcfg {
  rc_enabled : bool; rc_start_time : TIME_T; rc_message : string; rc_cron_job_id : string }.

Record WUKONG_TM_REMINDER_ITEM_T := mk_ritem {
  ri_in_use : bool; ri_reminder_id : string; ri_cfg : WUKONG_TM_REMINDER_CFG_T }.

Record WUKONG_TM_REMINDER_CTX_T := mk_rctx { rx_initialized : bool; rx_items : list WUKONG_TM_REMINDER_ITEM_T }.

Definition rcfg_zero : WUKONG_TM_REMINDER_CFG_T := mk_rcfg false 0 "" "".
Definition ritem_zero : WUKONG_TM_REMINDER_ITEM_T := mk_ritem false "" rcfg_zero.
Definition rctx_zero : WUKONG_TM_REMINDER_CTX_T := mk_rctx false (replicate WUKONG_TM_MAX_REMINDERS ritem_zero).

Definition rc_set_job (id : string) (c : WUKONG_TM_REMINDER_CFG_T) : WUKONG_TM_REMINDER_CFG_T :=
  mk_rcfg (rc_enabled c) (rc_start_time c) (rc_message c) id.
Definition ri_with_cfg (f : WUKONG_TM_REMINDER_CFG_T -> WUKONG_TM_REMINDER_CFG_T) (it : WUKONG_TM_REMINDER_ITEM_T)
    : WUKONG_TM_REMINDER_ITEM_T :=
  mk_ritem (ri_in_use it) (ri_reminder_id it) (f (ri_cfg it)).

Definition __reminder_matches_query (item : WUKONG_TM_REMINDER_ITEM_T) (start_time end_time : TIME_T)
    (keyword : option string) : bool :=
  if (0 <? start_time) && (rc_start_time (ri_cfg item) <? start_time) then false
  else if (0 <? end_time) && (end_time <? rc_start_time (ri_cfg item)) then false
  else match keyword with
       | Some keyword => String.eqb keyword "" || strstr (rc_message (ri_cfg item)) keyword
       | None => true
       end.

(** The characters __json_escape_text escapes. *)
Definition escape_char (ch : ascii) : option ascii :=
  let n := nat_of_ascii ch in
  if (n =? 34)%nat then Some (ascii_of_nat 34)
  else if (n =? 92)%nat then Some (ascii_of_nat 92)
  else if (n =? 10)%nat then Some "n"%char
  else if (n =? 13)%nat then Some "r"%char
  else if (n =? 9)%nat then Some "t"%char
  else None.

Definition __json_escape_text (src : string) (dst_len : nat) : OPERATE_RET * string :=
  if (dst_len =? 0)%nat then (OPRT_INVALID_PARM, "") else escape_loop escape_char src "" dst_len.

Definition reminder_job_json (id : string) (enabled : bool) (cron_expr message : string) : string :=
  strtrunc 767
    ("{" ++ quoted "name" ++ ":" ++ quoted ("reminder-" ++ id) ++ "," ++
     quoted "enabled" ++ ":" ++ fmt_d (if enabled then 1 else 0) ++ "," ++ quoted "once" ++ ":1," ++
     quoted "cron" ++ ":" ++ quoted cron_expr ++ "," ++
     quoted "request" ++ ":{" ++ quoted "jsonrpc" ++ ":" ++ quoted "2.0" ++ "," ++
     quoted "id" ++ ":" ++ quoted ("req-" ++ id) ++ "," ++
     quoted "method" ++ ":" ++ quoted WUKONG_TM_REMINDER_FIRE_METHOD ++ "," ++
     quoted "params" ++ ":{" ++ quoted "reminder_id" ++ ":" ++ quoted id ++ "," ++
     quoted "message" ++ ":" ++ quoted message ++ "}}}").

Section Reminder.
Context {K W : Type} `{KS : KvStore K} `{TH : TmHost W} `{TS : TimeService} `{JT : JsonText} `{TL : TmLayout}.
Abbreviation M := (C (WUKONG_TM_REMINDER_CTX_T * (K * W))).

(** *** The table; an index outside it is undefined. *)

Definition get_item (i : nat) : M WUKONG_TM_REMINDER_ITEM_T :=
  let* cx := get_ctx in cpure (rx_items cx !! i).
Definition put_item (i : nat) (it : WUKONG_TM_REMINDER_ITEM_T) : M unit :=
  mod_ctx (fun cx => mk_rctx (rx_initialized cx) (<[i := it]> (rx_items cx))).
Definition mod_cfg (i : nat) (f : WUKONG_TM_REMINDER_CFG_T -> WUKONG_TM_REMINDER_CFG_T) : M unit :=
  let* it := get_item i in put_item i (ri_with_cfg f it).

Definition __reminder_reset (i : nat) : M unit := put_item i ritem_zero.

(** The slot pointer is its index, NULL is [None]. *)
Definition __reminder_find_by_id (reminder_id : string) (cx : WUKONG_TM_REMINDER_CTX_T) : option nat :=
  first_slot (is_named ri_in_use ri_reminder_id reminder_id) (rx_items cx).

Definition free_item (cx : WUKONG_TM_REMINDER_CTX_T) : option nat :=
  first_slot (is_free ri_in_use) (rx_items cx).

(** *** Cron jobs *)

Definition __reminder_build_cron_expr (cfg : WUKONG_TM_REMINDER_CFG_T) (expr_len : nat) : OPERATE_RET * string :=
  if (expr_len =? 0)%nat || (rc_start_time cfg <=? 0) then (OPRT_INVALID_PARM, "")
  else build_cron_expr (rc_start_time cfg) expr_len.

(** Removing the bound job: [OPRT_OK] when there is none left to remove. *)
Definition unbind_job (i : nat) : M OPERATE_RET :=
  let* item := get_item i in
  if String.eqb (rc_cron_job_id (ri_cfg item)) "" then cret OPRT_OK
  else
    let* rt := on_dev (th_job_remove (rc_cron_job_id (ri_cfg item))) in
    if negb (rt =? OPRT_OK) && negb (rt =? OPRT_NOT_FOUND) then cret rt
    else let* _ := mod_cfg i (rc_set_job "") in cret OPRT_OK.

Definition __reminder_sync_cron_job (i : nat) : M OPERATE_RET :=
  let* rt := unbind_job i in
  if negb (rt =? OPRT_OK) then cret rt
  else
    let* item := get_item i in
    let '(rt, cron_expr) := __reminder_build_cron_expr (ri_cfg item) 32 in
    if negb (rt =? OPRT_OK) then cret rt
    else
      let '(rt, escaped_message) :=
        __json_escape_text (rc_message (ri_cfg item)) (WUKONG_TM_REMINDER_MESSAGE_LEN * 2 + 1) in
      if negb (rt =? OPRT_OK) then cret rt
      else
        let* (rt, cron_job_id) := on_dev (th_job_add
          (reminder_job_json (ri_reminder_id item) (rc_enabled (ri_cfg item)) cron_expr escaped_message)
          (WUKONG_TM_REMINDER_CRON_JOB_ID_LEN + 1)) in
        if negb (rt =? OPRT_OK) then cret rt
        else
          let* _ := mod_cfg i (rc_set_job (strtrunc WUKONG_TM_REMINDER_CRON_JOB_ID_LEN cron_job_id)) in
          cret OPRT_OK.

(** *** Persistence *)

Definition reminder_list_msg : list Z :=
  list_msg WUKONG_TM_TAG_REMINDER_OPR WUKONG_TM_TAG_REMINDER_ITEM WUKONG_TM_TAG_REMINDER_COUNT
    s_reminder_items (Z.of_nat WUKONG_TM_MAX_REMINDERS).

Definition __reminder_store_notify : M OPERATE_RET :=
  store_notify WUKONG_AI_EVENT_CLOCK_MCP_SCHEDULE reminder_list_msg.

(** The array of the stored document. *)
Fixpoint save_items (items : list WUKONG_TM_REMINDER_ITEM_T) (arr : cJSON) : M cJSON :=
  match items with
  | [] => cret arr
  | rem :: items =>
      if negb (ri_in_use rem) then save_items items arr
      else
        let* ok := on_dev th_malloc in
        if negb ok then save_items items arr
        else
          let* item := json_add (JObject []) "id" (JString (ri_reminder_id rem)) in
          let* item := json_add item "enabled" (JNumber (if rc_enabled (ri_cfg rem) then 1 else 0)) in
          let* item := json_add item "start_time" (JNumber (rc_start_time (ri_cfg rem))) in
          let* item := json_add item "message" (JString (rc_message (ri_cfg rem))) in
          save_items items (ty_cJSON_AddItemToArray arr item)
  end.

Definition __reminder_store_save : M OPERATE_RET :=
  let* root_ok := on_dev th_malloc in
  let* arr_ok := on_dev th_malloc in
  if negb root_ok || negb arr_ok then cret OPRT_MALLOC_FAILED
  else
    let* cx := get_ctx in
    let* arr := save_items (rx_items cx) (JArray []) in
    let* root := json_add (JObject []) "reminders" arr in
    match ty_cJSON_PrintUnformatted root with
    | None => cret OPRT_MALLOC_FAILED
    | Some json_str =>
        let* rt := on_store (wd_common_write WUKONG_TM_REMINDER_KV_KEY json_str) in
        let* _ := (if negb (rt =? OPRT_OK) then cret tt else let* _ := __reminder_store_notify in cret tt) in
        cret rt
    end.

Definition load_cfg (item : cJSON) : option WUKONG_TM_REMINDER_CFG_T :=
  match to_time (number_or item "start_time" 0) with
  | None => None
  | Some start_time =>
      Some (mk_rcfg (negb (valueint (number_or item "enabled" 1) =? 0)) start_time
              (match ty_cJSON_GetObjectItem item "message" with
               | Some (JString s) => strtrunc WUKONG_TM_REMINDER_MESSAGE_LEN s
               | _ => ""
               end) "")
  end.

(** The loading loop: one array item after the other, until the table is full. *)
Fixpoint load_items (now : TIME_T) (arr : list cJSON) : M unit :=
  match arr with
  | [] => cret tt
  | item :: arr =>
      if negb (ty_cJSON_IsObject (Some item)) then load_items now arr
      else
        match ty_cJSON_GetObjectItem item "id" with
        | Some (JString id) =>
            if String.eqb id "" then load_items now arr
            else
              let* cx := get_ctx in
              match free_item cx with
              | None => cret tt
              | Some slot =>
                  let* cfg := cpure (load_cfg item) in
                  if (rc_start_time cfg <=? 0) || String.eqb (rc_message cfg) "" then
                    let* _ := put_item slot ritem_zero in
                    load_items now arr
                  else
                    let* _ := put_item slot (mk_ritem true (strtrunc WUKONG_TM_REMINDER_ID_LEN id) cfg) in
                    if (0 <? now) && (rc_start_time cfg <? now) then load_items now arr
                    else let* _ := __reminder_sync_cron_job slot in load_items now arr
              end
        | _ => load_items now arr
        end
  end.

Definition __reminder_store_load : M OPERATE_RET :=
  let* now := on_dev th_posix in
  let* (rt, data) := on_store (wd_common_read WUKONG_TM_REMINDER_KV_KEY) in
  if negb (rt =? OPRT_OK) then cret OPRT_OK
  else
    match ty_cJSON_Parse data with
    | None => cret OPRT_OK
    | Some root =>
        match ty_cJSON_GetObjectItem root "reminders" with
        | Some (JArray arr) =>
            let* _ := load_items now arr in
            let* _ := __reminder_store_notify in
            cret OPRT_OK
        | _ => cret OPRT_OK
        end
    end.

(** *** The public operations (pointer arguments are not NULL) *)

Definition wukong_tm_reminder_add (cfg : WUKONG_TM_REMINDER_CFG_T) (reminder_id : string) : M OPERATE_RET :=
  if String.eqb reminder_id "" || String.eqb (rc_message cfg) "" || (rc_start_time cfg <=? 0)
  then cret OPRT_INVALID_PARM
  else
    let* cx := get_ctx in
    if negb (rx_initialized cx) then cret OPRT_COM_ERROR
    else if bool_decide (is_Some (__reminder_find_by_id reminder_id cx)) then cret OPRT_COM_ERROR
    else
      match free_item cx with
      | None => cret OPRT_COM_ERROR
      | Some i =>
          let* _ := put_item i (mk_ritem true (strtrunc WUKONG_TM_REMINDER_ID_LEN reminder_id) (rc_set_job "" cfg)) in
          let* rt := __reminder_sync_cron_job i in
          if negb (rt =? OPRT_OK) then let* _ := __reminder_reset i in cret rt
          else let* _ := __reminder_store_save in cret OPRT_OK
      end.

Definition wukong_tm_reminder_update (reminder_id : string) (cfg : WUKONG_TM_REMINDER_CFG_T) : M OPERATE_RET :=
  if String.eqb (rc_message cfg) "" || (rc_start_time cfg <=? 0) then cret OPRT_INVALID_PARM
  else
    let* cx := get_ctx in
    match __reminder_find_by_id reminder_id cx with
    | None => cret OPRT_NOT_FOUND
    | Some i =>
        let* _ := mod_cfg i (fun c => mk_rcfg (rc_enabled cfg) (rc_start_time cfg)
                                        (strtrunc WUKONG_TM_REMINDER_MESSAGE_LEN (rc_message cfg)) (rc_cron_job_id c)) in
        let* rt := __reminder_sync_cron_job i in
        if negb (rt =? OPRT_OK) then cret rt
        else let* _ := __reminder_store_save in cret OPRT_OK
    end.

Definition wukong_tm_reminder_get (reminder_id : string) : M (OPERATE_RET * option WUKONG_TM_REMINDER_CFG_T) :=
  let* cx := get_ctx in
  match __reminder_find_by_id reminder_id cx with
  | None => cret (OPRT_NOT_FOUND, None)
  | Some i => let* item := get_item i in cret (OPRT_OK, Some (ri_cfg item))
  end.

Definition wukong_tm_reminder_remove (reminder_id : string) : M OPERATE_RET :=
  let* cx := get_ctx in
  match __reminder_find_by_id reminder_id cx with
  | None => cret OPRT_NOT_FOUND
  | Some i =>
      let* item := get_item i in
      let* rt := (if String.eqb (rc_cron_job_id (ri_cfg item)) "" then cret OPRT_OK
                  else
                    let* rt := on_dev (th_job_remove (rc_cron_job_id (ri_cfg item))) in
                    cret (if negb (rt =? OPRT_OK) && negb (rt =? OPRT_NOT_FOUND) then rt else OPRT_OK)) in
      if negb (rt =? OPRT_OK) then cret rt
      else
        let* _ := __reminder_reset i in
        let* _ := __reminder_store_save in
        cret OPRT_OK
  end.

(** The loop of wukong_tm_reminder_remove_by_time from slot [i] on, [n] slots
    left; the error that ends it early, or the number removed. *)
Fixpoint remove_by_time_loop (start_time : TIME_T) (n i : nat) (removed : Z) : M (OPERATE_RET + Z) :=
  match n with
  | O => cret (inr removed)
  | S n =>
      let* item := get_item i in
      if negb (ri_in_use item) || negb (rc_start_time (ri_cfg item) =? start_time)
      then remove_by_time_loop start_time n (S i) removed
      else
        let* rt := wukong_tm_reminder_remove (strtrunc WUKONG_TM_REMINDER_ID_LEN (ri_reminder_id item)) in
        if negb (rt =? OPRT_OK) then cret (inl rt)
        else remove_by_time_loop start_time n (S i) (removed + 1)
  end.

(** Result: return code and [removed_count]. *)
Definition wukong_tm_reminder_remove_by_time (start_time : TIME_T) : M (OPERATE_RET * option Z) :=
  if start_time <=? 0 then cret (OPRT_INVALID_PARM, None)
  else
    let* r := remove_by_time_loop start_time WUKONG_TM_MAX_REMINDERS 0 0 in
    match r with
    | inl rt => cret (rt, None)
    | inr removed => cret (if 0 <? removed then OPRT_OK else OPRT_NOT_FOUND, Some removed)
    end.

Definition wukong_tm_reminder_fire (reminder_id : string) : M OPERATE_RET :=
  let* cx := get_ctx in
  match __reminder_find_by_id reminder_id cx with
  | None => cret OPRT_NOT_FOUND
  | Some i =>
      let* item := get_item i in
      let* rt := on_dev (wukong_tm_reminder_action_notify (rc_message (ri_cfg item))) in
      if negb (rt =? OPRT_OK) then cret rt else wukong_tm_reminder_remove reminder_id
  end.

(** The loop of wukong_tm_reminder_find_by_time; [None]: two ids share the
    time. *)
Fixpoint find_by_time_loop (start_time : TIME_T) (items : list WUKONG_TM_REMINDER_ITEM_T) (matched : option string)
    : option (option string) :=
  match items with
  | [] => Some matched
  | it :: items =>
      if negb (ri_in_use it) || negb (rc_start_time (ri_cfg it) =? start_time)
      then find_by_time_loop start_time items matched
      else
        match matched with
        | Some id => if String.eqb id (ri_reminder_id it) then find_by_time_loop start_time items (Some (ri_reminder_id it))
                     else None
        | None => find_by_time_loop start_time items (Some (ri_reminder_id it))
        end
  end.

Definition wukong_tm_reminder_find_by_time (start_time : TIME_T) (reminder_id_len : nat) : M (OPERATE_RET * string) :=
  if (start_time <=? 0) || (reminder_id_len =? 0)%nat then cret (OPRT_INVALID_PARM, "")
  else
    let* cx := get_ctx in
    match find_by_time_loop start_time (rx_items cx) None with
    | None => cret (OPRT_COM_ERROR, "")
    | Some None => cret (OPRT_NOT_FOUND, "")
    | Some (Some id) => cret (OPRT_OK, strtrunc (reminder_id_len - 1) id)
    end.

Definition __reminder_fire_rpc_handler (params : option cJSON) : M (OPERATE_RET * option cJSON) :=
  match params with
  | None => cret (OPRT_INVALID_PARM, None)
  | Some params =>
      match ty_cJSON_GetObjectItem params "reminder_id" with
      | Some (JString reminder_id) =>
          let* rt := wukong_tm_reminder_fire reminder_id in
          if negb (rt =? OPRT_OK) then cret (rt, None)
          else
            let* ok := on_dev th_malloc in
            if negb ok then cret (OPRT_MALLOC_FAILED, None)
            else
              let* result := json_add (JObject []) "status" (JString "ok") in
              cret (OPRT_OK, Some result)
      | _ => cret (OPRT_INVALID_PARM, None)
      end
  end.

Definition wukong_tm_reminder_init : M OPERATE_RET :=
  let* cx := get_ctx in
  if rx_initialized cx then cret OPRT_OK
  else
    let* _ := put_ctx (mk_rctx true (rx_items rctx_zero)) in
    let* rt := on_dev (th_register WUKONG_TM_REMINDER_FIRE_METHOD REMINDER_FIRE_HANDLER) in
    if negb (rt =? OPRT_OK) then let* _ := put_ctx rctx_zero in cret rt
    else let* _ := __reminder_store_load in cret OPRT_OK.

(** Removing the jobs of the slots in use, results ignored. *)
Fixpoint remove_jobs (items : list WUKONG_TM_REMINDER_ITEM_T) : M unit :=
  match items with
  | [] => cret tt
  | it :: items =>
      let* _ := (if ri_in_use it && negb (String.eqb (rc_cron_job_id (ri_cfg it)) "")
                 then let* _ := on_dev (th_job_remove (rc_cron_job_id (ri_cfg it))) in cret tt
                 else cret tt) in
      remove_jobs items
  end.

Definition wukong_tm_reminder_deinit : M OPERATE_RET :=
  let* cx := get_ctx in
  if negb (rx_initialized cx) then cret OPRT_OK
  else
    let* _ := remove_jobs (rx_items cx) in
    let* _ := on_dev (th_unregister WUKONG_TM_REMINDER_FIRE_METHOD) in
    let* _ := put_ctx rctx_zero in
    cret OPRT_OK.

(** *** Querying *)

Definition query_item_text (it : WUKONG_TM_REMINDER_ITEM_T) (escaped_msg : string) : string :=
  "{" ++ quoted "id" ++ ":" ++ quoted (ri_reminder_id it) ++ "," ++
  quoted "start_timestamp" ++ ":" ++ fmt_d (rc_start_time (ri_cfg it)) ++ "," ++
  quoted "message" ++ ":" ++ quoted escaped_msg ++ "}".

(** Bytes asked for. *)
Fixpoint query_alloc_len (selected : WUKONG_TM_REMINDER_ITEM_T -> bool) (items : list WUKONG_TM_REMINDER_ITEM_T)
    (alloc_len : nat) : nat :=
  match items with
  | [] => alloc_len
  | it :: items =>
      query_alloc_len selected items
        (if selected it
         then alloc_len + (96 + strlen (ri_reminder_id it) + strlen (rc_message (ri_cfg it)) * 2)
         else alloc_len)%nat
  end.

(** [snprintf(content + offset, alloc_len - offset, ...)] where [offset] is the
    length of [content]. *)
Definition print_at (content : string) (alloc_len : nat) (text : string) : string :=
  content ++ strtrunc (alloc_len - strlen content - 1) text.

(** The writing loop; an entry that does not fit is dropped, and the loop ends. *)
Fixpoint query_loop (selected : WUKONG_TM_REMINDER_ITEM_T -> bool) (items : list WUKONG_TM_REMINDER_ITEM_T)
    (total : nat) (content : string) (alloc_len : nat) : string :=
  match items with
  | [] => content
  | it :: items =>
      if negb (selected it) then query_loop selected items total content alloc_len
      else if (alloc_len - 4 <=? strlen content)%nat then content
      else
        let content := if (0 <? total)%nat then print_at content alloc_len "," else content in
        let escaped_msg := snd (__json_escape_text (rc_message (ri_cfg it)) (WUKONG_TM_REMINDER_MESSAGE_LEN * 2 + 1)) in
        let text := query_item_text it escaped_msg in
        if (alloc_len - strlen content <=? strlen text)%nat then content
        else query_loop selected items (S total) (print_at content alloc_len text) alloc_len
  end.

Definition query_selected (start_time end_time : TIME_T) (keyword : option string) (it : WUKONG_TM_REMINDER_ITEM_T) : bool :=
  ri_in_use it && __reminder_matches_query it start_time end_time keyword.

(** [None] is NULL. *)
Definition wukong_tm_reminder_query_text (start_time end_time : TIME_T) (keyword : option string) : M (option string) :=
  let* cx := get_ctx in
  let selected := query_selected start_time end_time keyword in
  let alloc_len := query_alloc_len selected (rx_items cx) 32 in
  let* ok := on_dev th_malloc in
  if negb ok then cret None
  else
    let content := print_at "" alloc_len ("{" ++ quoted "reminders" ++ ":[") in
    let content := query_loop selected (rx_items cx) 0 content alloc_len in
    cret (Some (print_at content alloc_len "]}")).

End Reminder.
