(* ===== verification/TmReminderCorrect.v ===== *)
(** The reminders refine a finite map of at most eight reminders; they survive a
    reboot, and queries list all that match. *)
From stdpp Require Import gmap strings fin_maps.
From S2P Require Import Prelude.
From S2P Require Import Calendar.
From S2P Require Import CStr.
From S2P Require Import CronParse.
From S2P Require Import World.
From S2P Require Import Slots.
From S2P Require Import Json.
From S2P Require Import TmHost.
From S2P Require Import TmStore.
From S2P Require Import TmReminder.

#[local] Open Scope string_scope.
#[local] Open Scope Z_scope.

(** ** Specification *)

Record reminder := mk_reminder { rm_enabled : bool; rm_start : TIME_T; rm_message : string }.

Definition reminder_of (c : WUKONG_TM_REMINDER_CFG_T) : reminder :=
  mk_reminder (rc_enabled c) (rc_start_time c) (rc_message c).

Abbreviation rem_kv := (table_kv ri_in_use ri_reminder_id (fun it => reminder_of (ri_cfg it))).

(** The reminders in the table, by id. *)
Definition rem_map (cx : WUKONG_TM_REMINDER_CTX_T) : gmap string reminder := slots_map rem_kv (rx_items cx).

(** A configuration that fits its record; the text is never empty, nor the time zero. *)
Record rcfg_wf (c : WUKONG_TM_REMINDER_CFG_T) : Prop := {
  rw_start : 0 < rc_start_time c < 2 ^ 32;
  rw_message : rc_message c <> "";
  rw_length : (strlen (rc_message c) <= WUKONG_TM_REMINDER_MESSAGE_LEN)%nat }.

Record rid_wf (id : string) : Prop := {
  ridw_nonempty : id <> "";
  ridw_length : (strlen id <= WUKONG_TM_REMINDER_ID_LEN)%nat;
  ridw_plain : plain id = true }.

Definition ritem_wf (it : WUKONG_TM_REMINDER_ITEM_T) : Prop :=
  ri_in_use it = true -> rid_wf (ri_reminder_id it) /\ rcfg_wf (ri_cfg it).

Record rem_wf (cx : WUKONG_TM_REMINDER_CTX_T) : Prop := {
  rxw_init : rx_initialized cx = true;
  rxw_size : length (rx_items cx) = WUKONG_TM_MAX_REMINDERS;
  rxw_items : Forall ritem_wf (rx_items cx);
  rxw_distinct : slots_distinct rem_kv (rx_items cx) }.

Inductive rem_op :=
| RemAdd (cfg : WUKONG_TM_REMINDER_CFG_T) (id : string)
| RemUpdate (id : string) (cfg : WUKONG_TM_REMINDER_CFG_T)
| RemRemove (id : string)
| RemFire (id : string)
| RemRemoveByTime (start_time : TIME_T).

(** The caller's records fit their types; ids of new reminders are short, plain
    text. *)
Definition rem_op_ok (op : rem_op) : Prop :=
  match op with
  | RemAdd cfg id => (id <> "" -> rid_wf id) /\ 0 <= rc_start_time cfg < 2 ^ 32 /\
      (strlen (rc_message cfg) <= WUKONG_TM_REMINDER_MESSAGE_LEN)%nat
  | RemUpdate id cfg => 0 <= rc_start_time cfg < 2 ^ 32 /\
      (strlen (rc_message cfg) <= WUKONG_TM_REMINDER_MESSAGE_LEN)%nat
  | RemRemoveByTime t => 0 <= t
  | _ => True
  end.

Definition acceptable (cfg : WUKONG_TM_REMINDER_CFG_T) : Prop := rc_message cfg <> "" /\ rc_start_time cfg <> 0.

(** [m'] is [m] without some of the reminders due at [t]. *)
Definition trimmed (t : TIME_T) (m m' : gmap string reminder) : Prop :=
  m' ⊆ m /\ forall id r, m !! id = Some r -> rm_start r <> t -> m' !! id = Some r.

(** [rem_step op m rt m']: with the reminders [m], the operation returns [rt]
    and leaves [m']. *)
Inductive rem_step : rem_op -> gmap string reminder -> OPERATE_RET -> gmap string reminder -> Prop :=
| add_invalid cfg id m : id = "" \/ ~ acceptable cfg -> rem_step (RemAdd cfg id) m OPRT_INVALID_PARM m
| add_refused cfg id m : id <> "" -> acceptable cfg -> is_Some (m !! id) \/ size m = WUKONG_TM_MAX_REMINDERS ->
    rem_step (RemAdd cfg id) m OPRT_COM_ERROR m
| add_unscheduled cfg id m rt : acceptable cfg -> m !! id = None -> rt <> OPRT_OK -> rem_step (RemAdd cfg id) m rt m
| add_ok cfg id m : id <> "" -> acceptable cfg -> m !! id = None -> (size m < WUKONG_TM_MAX_REMINDERS)%nat ->
    rem_step (RemAdd cfg id) m OPRT_OK (<[id := reminder_of cfg]> m)
| update_invalid id cfg m : ~ acceptable cfg -> rem_step (RemUpdate id cfg) m OPRT_INVALID_PARM m
| update_missing id cfg m : acceptable cfg -> m !! id = None -> rem_step (RemUpdate id cfg) m OPRT_NOT_FOUND m
| update_found id cfg m rt : acceptable cfg -> is_Some (m !! id) ->
    (* the table keeps the new values even when [rt] says that scheduling failed *)
    rem_step (RemUpdate id cfg) m rt (<[id := reminder_of cfg]> m)
| remove_missing id m : m !! id = None -> rem_step (RemRemove id) m OPRT_NOT_FOUND m
| remove_failed id m rt : is_Some (m !! id) -> rt <> OPRT_OK -> rt <> OPRT_NOT_FOUND -> rem_step (RemRemove id) m rt m
| remove_ok id m : is_Some (m !! id) -> rem_step (RemRemove id) m OPRT_OK (delete id m)
| fire_missing id m : m !! id = None -> rem_step (RemFire id) m OPRT_NOT_FOUND m
| fire_failed id m rt : is_Some (m !! id) -> rt <> OPRT_OK -> rem_step (RemFire id) m rt m
| fire_ok id m : is_Some (m !! id) -> rem_step (RemFire id) m OPRT_OK (delete id m)
| by_time_invalid m : rem_step (RemRemoveByTime 0) m OPRT_INVALID_PARM m
| by_time_none t m : t <> 0 -> (forall id r, m !! id = Some r -> rm_start r <> t) ->
    rem_step (RemRemoveByTime t) m OPRT_NOT_FOUND m
| by_time_ok t m m' : t <> 0 -> m' <> m -> trimmed t m m' -> (forall id r, m' !! id = Some r -> rm_start r <> t) ->
    rem_step (RemRemoveByTime t) m OPRT_OK m'
| by_time_failed t m rt m' : t <> 0 -> rt <> OPRT_OK -> rt <> OPRT_NOT_FOUND -> trimmed t m m' ->
    rem_step (RemRemoveByTime t) m rt m'.

(** A cron job is bound to the reminder. *)
Definition has_job (cx : WUKONG_TM_REMINDER_CTX_T) (id : string) : Prop :=
  exists i it, rx_items cx !! i = Some it /\ ri_in_use it = true /\ ri_reminder_id it = id /\
    rc_cron_job_id (ri_cfg it) <> "".

Definition scheduled (op : rem_op) (cx : WUKONG_TM_REMINDER_CTX_T) : Prop :=
  match op with RemAdd _ id | RemUpdate id _ => has_job cx id | _ => True end.

(** ** Rules for the helpers *)

Section Correct.
Context {K W : Type} `{KL : KvStoreLaws K} `{HL : TmHostLaws W} `{TS : TimeService} `{JT : JsonText} `{TL : TmLayout}.
Abbreviation CX := WUKONG_TM_REMINDER_CTX_T.

(** The cron service can take the reminders' jobs. *)
Hypothesis reminder_text : forall ts expr id enabled message,
  build_cron_expr ts 32 = (OPRT_OK, expr) -> rid_wf id ->
  (strlen message <= WUKONG_TM_REMINDER_MESSAGE_LEN)%nat ->
  th_job_text (reminder_job_json id enabled expr (escaped escape_char message)).

Implicit Types (cx : CX) (k : K) (w : W) (it : WUKONG_TM_REMINDER_ITEM_T).

Definition is_list_event (e : WUKONG_AI_EVENT_TYPE_E * list Z) : Prop :=
  e = (WUKONG_AI_EVENT_CLOCK_MCP_SCHEDULE, reminder_list_msg).
Abbreviation fr := (frame WUKONG_TM_REMINDER_KV_KEY is_list_event).

Definition set_item (i : nat) it cx : CX := mk_rctx (rx_initialized cx) (<[i := it]> (rx_items cx)).

Lemma set_item_id i it cx : rx_items cx !! i = Some it -> set_item i it cx = cx.
Proof. intros Hi. unfold set_item. rewrite list_insert_id by done. by destruct cx. Qed.

Lemma set_item_twice i a b cx : set_item i a (set_item i b cx) = set_item i a cx.
Proof. unfold set_item. cbn. by rewrite list_insert_insert_eq. Qed.

Lemma set_item_lookup i a b cx : rx_items cx !! i = Some a -> rx_items (set_item i b cx) !! i = Some b.
Proof. intros Hi. apply list_lookup_insert_eq. by eapply lookup_lt_Some. Qed.

Lemma get_item_wp cx k w i it (Q : _ -> CX * (K * W) -> Prop) :
  rx_items cx !! i = Some it -> Q it (cx, (k, w)) -> wp (get_item i) Q (cx, (k, w)).
Proof. intros Hi HQ. unfold get_item. tm_step. tm_step. by eapply wp_pure. Qed.

Lemma put_item_wp cx k w i it (Q : _ -> CX * (K * W) -> Prop) :
  Q tt (set_item i it cx, (k, w)) -> wp (put_item i it) Q (cx, (k, w)).
Proof. done. Qed.

Lemma mod_cfg_wp cx k w i f it (Q : _ -> CX * (K * W) -> Prop) :
  rx_items cx !! i = Some it -> Q tt (set_item i (ri_with_cfg f it) cx, (k, w)) -> wp (mod_cfg i f) Q (cx, (k, w)).
Proof. intros Hi HQ. unfold mod_cfg. wp_step. eapply get_item_wp; [done|]. by apply put_item_wp. Qed.

(** Detaching the bound job, if any. *)
Lemma unbind_wp cx k w i it (Q : _ -> CX * (K * W) -> Prop) :
  th_ok w -> rx_items cx !! i = Some it ->
  (forall rt j w', th_ok w' -> th_sent w' = th_sent w -> (rt = OPRT_OK -> j = "") ->
     Q rt (set_item i (ri_with_cfg (rc_set_job j) it) cx, (k, w'))) ->
  wp (unbind_job i) Q (cx, (k, w)).
Proof.
  intros Hw Hi HQ. unfold unbind_job. wp_step. eapply get_item_wp; [exact Hi|].
  assert (Hsame : set_item i (ri_with_cfg (rc_set_job (rc_cron_job_id (ri_cfg it))) it) cx = cx).
  { apply set_item_id. rewrite Hi. f_equal. by destruct it as [? ? []]. }
  destruct (String.eqb_spec (rc_cron_job_id (ri_cfg it)) "") as [He|He].
  - wp_step. rewrite <- Hsame. by apply HQ.
  - wp_step. eapply wp_dev; [apply th_job_remove_law|done|]. intros rt w1 Hw1 Hs1 _.
    destruct (Z.eqb_spec rt OPRT_OK) as [->|Hrt]; cbn [negb andb].
    + wp_step. eapply mod_cfg_wp; [exact Hi|]. wp_step. by apply HQ.
    + destruct (rt =? OPRT_NOT_FOUND); cbn [negb].
      * wp_step. eapply mod_cfg_wp; [exact Hi|]. wp_step. by apply HQ.
      * wp_step. rewrite <- Hsame. by apply HQ.
Qed.

(** A message that fits is always escaped. *)
Lemma escape_fits message : (strlen message <= WUKONG_TM_REMINDER_MESSAGE_LEN)%nat ->
  __json_escape_text message (WUKONG_TM_REMINDER_MESSAGE_LEN * 2 + 1) = (OPRT_OK, escaped escape_char message).
Proof.
  intros Hl. unfold __json_escape_text. if_false done. rewrite escape_loop_ok; [done|].
  change (strlen "") with 0%nat. lia.
Qed.

(** Binding a new job: the reminder has one when this succeeds. *)
Lemma sync_wp cx k w i it (Q : _ -> CX * (K * W) -> Prop) :
  th_ok w -> rx_items cx !! i = Some it -> rid_wf (ri_reminder_id it) -> rcfg_wf (ri_cfg it) ->
  (forall rt j w', th_ok w' -> th_sent w' = th_sent w -> (rt = OPRT_OK -> j <> "") ->
     Q rt (set_item i (ri_with_cfg (rc_set_job j) it) cx, (k, w'))) ->
  wp (__reminder_sync_cron_job i) Q (cx, (k, w)).
Proof.
  intros Hw Hi Hid Hc HQ. unfold __reminder_sync_cron_job. wp_step. eapply unbind_wp; [exact Hw|exact Hi|].
  intros rt j w1 Hw1 Hs1 Hj. destruct (Z.eqb_spec rt OPRT_OK) as [->|Hrt]; cbn [negb]; [|wp_step; by apply HQ].
  wp_step. eapply get_item_wp; [by eapply set_item_lookup|]. cbn [ri_with_cfg ri_cfg rc_set_job rc_message rc_enabled ri_reminder_id].
  unfold __reminder_build_cron_expr. cbn [rc_start_time rc_set_job]. pose proof (rw_start _ Hc). if_false (cbn; lia).
  destruct (build_cron_expr _ _) as [rt expr] eqn:Hb.
  destruct (Z.eqb_spec rt OPRT_OK) as [->|Hrt]; cbn [negb]; [|wp_step; by apply HQ].
  rewrite escape_fits by apply Hc. cbn [negb]. change (negb (OPRT_OK =? OPRT_OK)) with false. cbv iota.
  wp_step. eapply wp_dev; [apply th_job_add_law|done|].
  { eapply reminder_text; [exact Hb|done|apply Hc]. }
  intros [rt id'] w2 Hw2 Hs2 Hid'. cbn [fst snd] in Hid'. cbv beta iota.
  destruct (Z.eqb_spec rt OPRT_OK) as [->|Hrt]; cbn [negb]; [|wp_step; apply HQ; [done|congruence|done]].
  wp_step. eapply mod_cfg_wp; [by eapply set_item_lookup|]. wp_step. rewrite set_item_twice.
  apply (HQ OPRT_OK (strtrunc WUKONG_TM_REMINDER_CRON_JOB_ID_LEN id')); [done|congruence|].
  intros _. apply strtrunc_nonempty; [unfold WUKONG_TM_REMINDER_CRON_JOB_ID_LEN; lia|].
  apply Hid'; [done|]. unfold WUKONG_TM_REMINDER_CRON_JOB_ID_LEN. lia.
Qed.

(** Saving leaves the table alone. *)
Lemma save_items_wp cx k w items arr (Q : _ -> CX * (K * W) -> Prop) :
  th_ok w -> (forall arr' w', th_ok w' -> th_sent w' = th_sent w -> Q arr' (cx, (k, w'))) ->
  wp (save_items items arr) Q (cx, (k, w)).
Proof.
  revert arr w. induction items as [|it items IH]; intros arr w Hw HQ; cbn [save_items]; [wp_step; by apply HQ|].
  destruct (negb (ri_in_use it)); [by apply IH|]. wp_step. eapply wp_dev; [apply th_malloc_law|done|].
  intros ok w1 Hw1 Hs1 _. destruct ok; cbn [negb]; [|apply IH; [done|intros; apply HQ; [done|congruence]]].
  wp_step. apply json_add_wp; [done|]. intros o1 w2 Hw2 Hs2 _.
  wp_step. apply json_add_wp; [done|]. intros o2 w3 Hw3 Hs3 _.
  wp_step. apply json_add_wp; [done|]. intros o3 w4 Hw4 Hs4 _.
  wp_step. apply json_add_wp; [done|]. intros o4 w5 Hw5 Hs5 _.
  apply IH; [done|]. intros arr' w6 Hw6 Hs6. apply HQ; [done|congruence].
Qed.

Lemma save_wp cx k w (Q : _ -> CX * (K * W) -> Prop) :
  th_ok w -> (forall rt k' w', th_ok w' -> fr k w k' w' -> Q rt (cx, (k', w'))) ->
  wp __reminder_store_save Q (cx, (k, w)).
Proof.
  intros Hw HQ. unfold __reminder_store_save. wp_step. eapply wp_dev; [apply th_malloc_law|done|].
  intros ok1 w1 Hw1 Hs1 _. wp_step. eapply wp_dev; [apply th_malloc_law|done|]. intros ok2 w2 Hw2 Hs2 _.
  assert (Hq : fr k w k w2) by (apply frame_quiet; congruence).
  destruct (negb ok1 || negb ok2); [wp_step; by apply HQ|]. tm_step. tm_step. wp_step. apply save_items_wp; [done|].
  intros arr w3 Hw3 Hs3. wp_step. apply json_add_wp; [done|]. intros root w4 Hw4 Hs4 _.
  destruct (ty_cJSON_PrintUnformatted root) as [text|]; [|wp_step; apply HQ; [done|apply frame_quiet; congruence]].
  wp_step. apply wp_store. eapply wp_mono; [apply kv_write_law|]. intros rt k1 Hk1.
  assert (Hf : fr k w k1 w4).
  { apply frame_write; [|congruence]. intros key Hne. rewrite Hk1. destruct (String.eqb_spec key WUKONG_TM_REMINDER_KV_KEY); [done|].
    by rewrite andb_false_r. }
  wp_step. destruct (negb (rt =? OPRT_OK)); [wp_step; wp_step; by apply HQ|].
  wp_step. apply store_notify_wp; [done|]. intros rt' w5 Hw5 Hs5. wp_step. wp_step. apply HQ; [done|].
  eapply frame_trans; [exact Hf|]. destruct Hs5; [by apply frame_quiet|by eapply frame_event].
Qed.

(** ** The table as a map *)

Lemma item_wf_at cx i it : rem_wf cx -> rx_items cx !! i = Some it -> ritem_wf it.
Proof. intros Hwf Hi. eapply Forall_lookup_1; [apply Hwf|exact Hi]. Qed.

Lemma wf_set cx i it it' : rem_wf cx -> rx_items cx !! i = Some it -> ritem_wf it' ->
  slots_distinct rem_kv (<[i := it']> (rx_items cx)) -> rem_wf (set_item i it' cx).
Proof.
  intros [Hin Hs Hit Hd] Hi Hw' Hd'. split; cbn; [done|by rewrite length_insert| |done].
  by apply Forall_insert.
Qed.

Lemma job_wf cx i it j : rem_wf cx -> rx_items cx !! i = Some it ->
  rem_wf (set_item i (ri_with_cfg (rc_set_job j) it) cx) /\
  rem_map (set_item i (ri_with_cfg (rc_set_job j) it) cx) = rem_map cx.
Proof.
  intros Hwf Hi. destruct (slots_same rem_kv (rx_items cx) i (ri_with_cfg (rc_set_job j) it) it) as [Hd Hm];
    [apply Hwf|done|done|]. split; [|done]. eapply wf_set; [done|exact Hi| |done].
  intros Hu. destruct (item_wf_at cx i it Hwf Hi Hu) as [? []]. split; [done|]. by split.
Qed.

(** Filling a free slot, overwriting or clearing a used one. *)
Lemma fill_wf cx i it it' : rem_wf cx -> rx_items cx !! i = Some it -> ri_in_use it = false ->
  ri_in_use it' = true -> ritem_wf it' -> rem_map cx !! ri_reminder_id it' = None ->
  rem_wf (set_item i it' cx) /\ rem_map (set_item i it' cx) = <[ri_reminder_id it' := reminder_of (ri_cfg it')]> (rem_map cx).
Proof.
  intros Hwf Hi Hu Hu' Hw' Hn.
  destruct (table_fill ri_in_use ri_reminder_id (fun x => reminder_of (ri_cfg x)) (rx_items cx) i it it')
    as [Hd Hm]; [apply Hwf|done..|]. split; [by eapply wf_set|exact Hm].
Qed.

Lemma overwrite_wf cx i it it' : rem_wf cx -> rx_items cx !! i = Some it -> ri_in_use it = true ->
  ri_in_use it' = true -> ri_reminder_id it' = ri_reminder_id it -> ritem_wf it' ->
  rem_wf (set_item i it' cx) /\ rem_map (set_item i it' cx) = <[ri_reminder_id it := reminder_of (ri_cfg it')]> (rem_map cx).
Proof.
  intros Hwf Hi Hu Hu' Hn Hw'.
  destruct (table_overwrite ri_in_use ri_reminder_id (fun x => reminder_of (ri_cfg x)) (rx_items cx) i it it')
    as [Hd Hm]; [apply Hwf|done..|]. split; [by eapply wf_set|exact Hm].
Qed.

Lemma erase_wf cx i it : rem_wf cx -> rx_items cx !! i = Some it -> ri_in_use it = true ->
  rem_wf (set_item i ritem_zero cx) /\ rem_map (set_item i ritem_zero cx) = delete (ri_reminder_id it) (rem_map cx).
Proof.
  intros Hwf Hi Hu.
  destruct (table_erase ri_in_use ri_reminder_id (fun x => reminder_of (ri_cfg x)) (rx_items cx) i it ritem_zero)
    as [Hd Hm]; [apply Hwf|done..|]. split; [by eapply wf_set|exact Hm].
Qed.

Lemma vacate_wf cx i it : rem_wf cx -> rx_items cx !! i = Some it -> ri_in_use it = false ->
  rem_wf (set_item i ritem_zero cx) /\ rem_map (set_item i ritem_zero cx) = rem_map cx.
Proof.
  intros Hwf Hi Hu.
  destruct (table_vacate ri_in_use ri_reminder_id (fun x => reminder_of (ri_cfg x)) (rx_items cx) i it ritem_zero)
    as [Hd Hm]; [apply Hwf|done..|]. split; [by eapply wf_set|exact Hm].
Qed.

Lemma find_wf cx id : rem_wf cx ->
  match __reminder_find_by_id id cx with
  | Some i => exists it, rx_items cx !! i = Some it /\ ri_in_use it = true /\ ri_reminder_id it = id /\
                rem_map cx !! id = Some (reminder_of (ri_cfg it))
  | None => rem_map cx !! id = None
  end.
Proof.
  intros Hwf. unfold __reminder_find_by_id. destruct (first_slot _ _) as [i|] eqn:Hf.
  - by apply (find_named_Some _ _ (fun it => reminder_of (ri_cfg it))) in Hf; [|apply Hwf].
  - by apply (find_named_None _ _ (fun it => reminder_of (ri_cfg it))) in Hf; [|apply Hwf].
Qed.

Lemma free_wf cx : rem_wf cx ->
  match free_item cx with
  | Some i => exists it, rx_items cx !! i = Some it /\ ri_in_use it = false /\ (size (rem_map cx) < WUKONG_TM_MAX_REMINDERS)%nat
  | None => size (rem_map cx) = WUKONG_TM_MAX_REMINDERS
  end.
Proof.
  intros Hwf. unfold free_item. rewrite <- (rxw_size _ Hwf). destruct (first_slot _ _) as [i|] eqn:Hf.
  - by apply (find_free_Some _ ri_reminder_id (fun it => reminder_of (ri_cfg it))) in Hf.
  - by apply (find_free_None _ ri_reminder_id (fun it => reminder_of (ri_cfg it))) in Hf; [|apply Hwf].
Qed.

(** ** The operations *)

Definition run_rem (op : rem_op) : C (CX * (K * W)) OPERATE_RET :=
  match op with
  | RemAdd cfg id => wukong_tm_reminder_add cfg id
  | RemUpdate id cfg => wukong_tm_reminder_update id cfg
  | RemRemove id => wukong_tm_reminder_remove id
  | RemFire id => wukong_tm_reminder_fire id
  | RemRemoveByTime t => let* r := wukong_tm_reminder_remove_by_time t in cret (fst r)
  end.

(** One step of the map; a reminder added or updated with success has a job;
    nothing else is written or sent. *)
Definition rem_outcome (op : rem_op) cx k w (rt : OPERATE_RET) (s' : CX * (K * W)) : Prop :=
  let '(cx', (k', w')) := s' in
  th_ok w' /\ rem_wf cx' /\ rem_step op (rem_map cx) rt (rem_map cx') /\ (rt = OPRT_OK -> scheduled op cx') /\
  fr k w k' w'.

Lemma unchanged_wp op cx k w rt : th_ok w -> rem_wf cx -> rt <> OPRT_OK -> rem_step op (rem_map cx) rt (rem_map cx) ->
  rem_outcome op cx k w rt (cx, (k, w)).
Proof. intros Hw Hwf Hrt Hst. split_and!; [done..|]. by apply frame_quiet. Qed.

Lemma acceptable_test cfg : 0 <= rc_start_time cfg ->
  (String.eqb (rc_message cfg) "" || (rc_start_time cfg <=? 0)) = negb (bool_decide (acceptable cfg)).
Proof.
  intros H. unfold acceptable. destruct (String.eqb_spec (rc_message cfg) ""), (Z.leb_spec (rc_start_time cfg) 0);
    cbn [orb]; symmetry; rewrite ?negb_true_iff, ?negb_false_iff, ?bool_decide_eq_true, ?bool_decide_eq_false;
    intuition lia.
Qed.

Lemma add_wp cfg id cx k w : rem_op_ok (RemAdd cfg id) -> th_ok w -> rem_wf cx ->
  wp (run_rem (RemAdd cfg id)) (rem_outcome (RemAdd cfg id) cx k w) (cx, (k, w)).
Proof.
  intros (Hid & Hstart & Hlen) Hw Hwf. cbn [run_rem]. unfold wukong_tm_reminder_add.
  rewrite <- orb_assoc, acceptable_test by lia.
  destruct (String.eqb_spec id "") as [He|Hne]; cbn [orb].
  { wp_step. apply unchanged_wp; [done..|]. apply add_invalid. by left. }
  case_bool_decide as Hacc; cbn [negb]; [|wp_step; apply unchanged_wp; [done..|]; apply add_invalid; by right].
  specialize (Hid Hne). tm_step. tm_step. rewrite (rxw_init _ Hwf). cbn [negb].
  pose proof (find_wf cx id Hwf) as Hf. destruct (__reminder_find_by_id id cx) as [i|]; cbn [is_Some].
  { rewrite bool_decide_eq_true_2 by eauto. wp_step. destruct Hf as (it & _ & _ & _ & Hm).
    apply unchanged_wp; [done..|]. apply add_refused; [done..|]. left. eauto. }
  rewrite bool_decide_eq_false_2 by (by intros [? ?]). pose proof (free_wf cx Hwf) as Hfree.
  destruct (free_item cx) as [i|]; [|wp_step; apply unchanged_wp; [done..|]; apply add_refused; [done..|by right]].
  destruct Hfree as (it & Hi & Hu & Hsize). wp_step. apply put_item_wp. rewrite strtrunc_id by apply Hid.
  set (new := mk_ritem true id (rc_set_job "" cfg)). assert (Hcfg : rcfg_wf (ri_cfg new)).
  { destruct Hacc. split; cbn; [lia|done|done]. }
  wp_step. eapply sync_wp; [done|by eapply set_item_lookup|done|done|]. intros rt j w1 Hw1 Hs1 Hj.
  rewrite set_item_twice. destruct (Z.eqb_spec rt OPRT_OK) as [->|Hrt]; cbn [negb].
  - set (it' := ri_with_cfg (rc_set_job j) new).
    destruct (fill_wf cx i it it') as [Hwf' Hm']; [done|done|done|done| |done|].
    { intros _. split; [done|]. by destruct Hcfg; split. }
    wp_step. apply save_wp; [done|]. intros rt' k2 w2 Hw2 Hf2. wp_step. split_and!; [done|done| | |].
    + rewrite Hm'. by apply (add_ok cfg id).
    + intros _. exists i, it'. split; [by eapply set_item_lookup|]. split; [done|]. split; [done|]. by apply Hj.
    + eapply frame_trans; [by apply frame_quiet|done].
  - wp_step. apply put_item_wp. rewrite set_item_twice. wp_step.
    destruct (vacate_wf cx i it Hwf Hi Hu) as [Hwf' Hm']. split_and!; [done|done| |done|by apply frame_quiet].
    rewrite Hm'. by apply add_unscheduled.
Qed.

Lemma update_wp cfg id cx k w : rem_op_ok (RemUpdate id cfg) -> th_ok w -> rem_wf cx ->
  wp (run_rem (RemUpdate id cfg)) (rem_outcome (RemUpdate id cfg) cx k w) (cx, (k, w)).
Proof.
  intros (Hstart & Hlen) Hw Hwf. cbn [run_rem]. unfold wukong_tm_reminder_update. rewrite acceptable_test by lia.
  case_bool_decide as Hacc; cbn [negb]; [|wp_step; apply unchanged_wp; [done..|]; by apply update_invalid].
  tm_step. tm_step. pose proof (find_wf cx id Hwf) as Hf. destruct (__reminder_find_by_id id cx) as [i|];
    [|wp_step; apply unchanged_wp; [done..|]; by apply update_missing].
  destruct Hf as (it & Hi & Hu & Hid & Hm). wp_step. eapply mod_cfg_wp; [exact Hi|].
  rewrite strtrunc_id by done. set (new := ri_with_cfg _ it).
  destruct (item_wf_at cx i it Hwf Hi Hu) as [Hidwf _].
  assert (Hcfg : rcfg_wf (ri_cfg new)). { destruct Hacc. split; cbn; [lia|done|done]. }
  wp_step. eapply sync_wp; [done|by eapply set_item_lookup|done|done|]. intros rt j w1 Hw1 Hs1 Hj.
  rewrite set_item_twice. set (it' := ri_with_cfg (rc_set_job j) new).
  destruct (overwrite_wf cx i it it') as [Hwf' Hm']; [done|done|done|done|done| |].
  { intros _. split; [done|]. by destruct Hcfg; split. }
  assert (Hstep : forall rt, rem_step (RemUpdate id cfg) (rem_map cx) rt (rem_map (set_item i it' cx))).
  { intros rt'. rewrite Hm', Hid. by apply (update_found id cfg); [|eexists]. }
  destruct (Z.eqb_spec rt OPRT_OK) as [->|Hrt]; cbn [negb].
  - wp_step. apply save_wp; [done|]. intros rt' k2 w2 Hw2 Hf2. wp_step. split_and!; [done..| |].
    + intros _. exists i, it'. split; [by eapply set_item_lookup|]. split; [done|]. split; [done|]. by apply Hj.
    + eapply frame_trans; [by apply frame_quiet|done].
  - wp_step. split_and!; [done..|by apply frame_quiet].
Qed.

(** Removal clears the slot found, or changes nothing. *)
Definition remove_outcome id cx k w (rt : OPERATE_RET) (s' : CX * (K * W)) : Prop :=
  let '(cx', (k', w')) := s' in
  th_ok w' /\ fr k w k' w' /\
  match __reminder_find_by_id id cx with
  | None => rt = OPRT_NOT_FOUND /\ cx' = cx
  | Some i => rt = OPRT_OK /\ cx' = set_item i ritem_zero cx \/ rt <> OPRT_OK /\ rt <> OPRT_NOT_FOUND /\ cx' = cx
  end.

Lemma remove_slot_wp id cx k w : th_ok w -> rem_wf cx ->
  wp (wukong_tm_reminder_remove id) (remove_outcome id cx k w) (cx, (k, w)).
Proof.
  intros Hw Hwf. unfold wukong_tm_reminder_remove, remove_outcome. tm_step. tm_step.
  pose proof (find_wf cx id Hwf) as Hf. destruct (__reminder_find_by_id id cx) as [i|];
    [|wp_step; split_and!; [done|by apply frame_quiet|done..]].
  destruct Hf as (it & Hi & _). wp_step. eapply get_item_wp; [exact Hi|]. wp_step.
  set (Q := fun (rt : OPERATE_RET) '(cx', (k', w')) => _).
  assert (Hrest : forall w1, th_ok w1 -> th_sent w1 = th_sent w ->
    wp (let* _ := __reminder_reset i in let* _ := __reminder_store_save in cret OPRT_OK) Q (cx, (k, w1))).
  { intros w1 Hw1 Hs1. wp_step. apply put_item_wp. wp_step. apply save_wp; [done|]. intros rt k2 w2 Hw2 Hf2.
    wp_step. split_and!; [done|eapply frame_trans; [by apply frame_quiet|done]|by left]. }
  destruct (String.eqb (rc_cron_job_id (ri_cfg it)) ""); [wp_step; by apply Hrest|].
  wp_step. eapply wp_dev; [apply th_job_remove_law|done|]. intros rt w1 Hw1 Hs1 _. wp_step.
  destruct (Z.eqb_spec rt OPRT_OK) as [->|Hrt]; cbn [negb andb]; [by apply Hrest|].
  destruct (Z.eqb_spec rt OPRT_NOT_FOUND) as [->|Hnf]; cbn [negb]; [by apply Hrest|].
  destruct (Z.eqb_spec rt OPRT_OK); [done|]. cbn [negb]. wp_step.
  split_and!; [done|by apply frame_quiet|by right].
Qed.

Lemma remove_wp id cx k w : th_ok w -> rem_wf cx ->
  wp (wukong_tm_reminder_remove id) (rem_outcome (RemRemove id) cx k w) (cx, (k, w)).
Proof.
  intros Hw Hwf. eapply wp_mono; [by apply remove_slot_wp|]. intros rt [cx' [k' w']] (Hw' & Hf & Hcase).
  pose proof (find_wf cx id Hwf) as Hfind. destruct (__reminder_find_by_id id cx) as [i|].
  - destruct Hfind as (it & Hi & Hu & Hid & Hm).
    destruct Hcase as [[-> ->]|(Hrt & Hnf & ->)].
    + destruct (erase_wf cx i it Hwf Hi Hu) as [Hwf' Hm']. split_and!; [done|done| |done|done].
      rewrite Hm', Hid. apply remove_ok. eauto.
    + split_and!; [done|done| |done|done]. apply remove_failed; [eauto|done|done].
  - destruct Hcase as [-> ->]. split_and!; [done|done| |done|done]. by apply remove_missing.
Qed.

Lemma fire_wp id cx k w : th_ok w -> rem_wf cx ->
  wp (wukong_tm_reminder_fire id) (rem_outcome (RemFire id) cx k w) (cx, (k, w)).
Proof.
  intros Hw Hwf. unfold wukong_tm_reminder_fire. tm_step. tm_step.
  pose proof (find_wf cx id Hwf) as Hf. destruct (__reminder_find_by_id id cx) as [i|];
    [|wp_step; apply unchanged_wp; [done..|]; by apply fire_missing].
  destruct Hf as (it & Hi & Hu & Hid & Hm). wp_step. eapply get_item_wp; [exact Hi|].
  wp_step. eapply wp_dev; [apply action_notify_quiet|done|]. intros rt w1 Hw1 Hs1 _.
  destruct (Z.eqb_spec rt OPRT_OK) as [->|Hrt]; cbn [negb].
  - eapply wp_mono; [by apply remove_wp|]. intros rt [cx' [k' w']] (Hw' & Hwf' & Hst & _ & Hfr).
    split_and!; [done|done| |done|eapply frame_trans; [by apply frame_quiet|done]].
    inversion Hst; subst; [congruence|by apply fire_failed|by apply fire_ok].
  - wp_step. split_and!; [done|done| |done|by apply frame_quiet]. apply fire_failed; [eauto|done].
Qed.

(** *** Removing by time *)

Lemma trimmed_refl t m : trimmed t m m.
Proof. by split. Qed.

Lemma trimmed_trans t m1 m2 m3 : trimmed t m1 m2 -> trimmed t m2 m3 -> trimmed t m1 m3.
Proof. intros [H1 H2] [H3 H4]. split; [by etrans|]. intros id r Hr Ht. apply H4; [by apply H2|done]. Qed.

Lemma trimmed_delete t m id r : m !! id = Some r -> rm_start r = t -> trimmed t m (delete id m).
Proof.
  intros Hr Ht. split; [apply delete_subseteq|]. intros id' r' Hr' Hne.
  rewrite lookup_delete_ne; [done|]. intros <-. congruence.
Qed.

Lemma same_slot cx i j it it' : rem_wf cx -> rx_items cx !! i = Some it -> rx_items cx !! j = Some it' ->
  ri_in_use it = true -> ri_in_use it' = true -> ri_reminder_id it = ri_reminder_id it' -> i = j.
Proof.
  intros Hwf Hi Hj Hu Hu' Hid. eapply (rxw_distinct _ Hwf i j it it'); [done|done| |]; by apply table_kv_Some.
Qed.

(** The slots below [i] hold no reminder due at [t]. *)
Definition cleared (t : TIME_T) (i : nat) cx : Prop :=
  forall j it, (j < i)%nat -> rx_items cx !! j = Some it -> ri_in_use it = true -> rc_start_time (ri_cfg it) <> t.

Lemma cleared_all t cx : rem_wf cx -> cleared t WUKONG_TM_MAX_REMINDERS cx ->
  forall id r, rem_map cx !! id = Some r -> rm_start r <> t.
Proof.
  intros Hwf Hc id r Hr. apply slots_map_lookup in Hr as (j & it & Hj & (Hu & _ & <-)%table_kv_Some); [|apply Hwf].
  eapply Hc; [|exact Hj|done]. rewrite <- (rxw_size _ Hwf). by eapply lookup_lt_Some.
Qed.

Definition by_time_outcome t cx k w removed (r : OPERATE_RET + Z) (s' : CX * (K * W)) : Prop :=
  let '(cx', (k', w')) := s' in
  th_ok w' /\ rem_wf cx' /\ fr k w k' w' /\ trimmed t (rem_map cx) (rem_map cx') /\
  match r with
  | inl rt => rt <> OPRT_OK /\ rt <> OPRT_NOT_FOUND
  | inr removed' => removed' = removed + (Z.of_nat (size (rem_map cx)) - Z.of_nat (size (rem_map cx'))) /\
      forall id r, rem_map cx' !! id = Some r -> rm_start r <> t
  end.

Lemma by_time_loop_wp t n i removed cx k w : th_ok w -> rem_wf cx -> (i + n = WUKONG_TM_MAX_REMINDERS)%nat ->
  cleared t i cx -> wp (remove_by_time_loop t n i removed) (by_time_outcome t cx k w removed) (cx, (k, w)).
Proof.
  revert i removed cx k w. induction n as [|n IH]; intros i removed cx k w Hw Hwf Hn Hc; cbn [remove_by_time_loop].
  { wp_step. split_and!; [done|done|by apply frame_quiet|apply trimmed_refl|lia|]. apply cleared_all; [done|].
    by replace WUKONG_TM_MAX_REMINDERS with i by lia. }
  assert (Hlt : (i < length (rx_items cx))%nat) by (rewrite (rxw_size _ Hwf); lia).
  apply lookup_lt_is_Some in Hlt as [it Hi]. wp_step. eapply get_item_wp; [exact Hi|].
  destruct (negb (ri_in_use it) || _) eqn:Htest.
  { apply IH; [done|done|lia|]. intros j it' Hj Hl Hu. destruct (decide (j = i)) as [->|Hne].
    - rewrite Hi in Hl. injection Hl as <-. rewrite Hu in Htest. cbn in Htest. apply negb_true_iff in Htest. lia.
    - apply (Hc j it'); [lia|done..]. }
  apply orb_false_iff in Htest as [Hu%negb_false_iff Ht%negb_false_iff]. apply Z.eqb_eq in Ht.
  destruct (item_wf_at cx i it Hwf Hi Hu) as [Hidwf _]. rewrite strtrunc_id by apply Hidwf.
  wp_step. eapply wp_mono; [by apply remove_slot_wp|]. intros rt [cx1 [k1 w1]] (Hw1 & Hf1 & Hcase).
  pose proof (find_wf cx (ri_reminder_id it) Hwf) as Hfind.
  assert (Hm : rem_map cx !! ri_reminder_id it = Some (reminder_of (ri_cfg it))).
  { apply slots_map_lookup; [apply Hwf|]. exists i, it. split; [done|]. by apply table_kv_Some. }
  destruct (__reminder_find_by_id _ cx) as [i'|]; [|congruence]. destruct Hfind as (it' & Hi' & Hu' & Hid' & _).
  assert (i' = i) as -> by (by eapply same_slot).
  destruct Hcase as [[-> ->]|(Hrt & Hnf & ->)].
  - cbn. destruct (erase_wf cx i it Hwf Hi Hu) as [Hwf' Hm'].
    assert (Htr : trimmed t (rem_map cx) (rem_map (set_item i ritem_zero cx))) by (rewrite Hm'; by eapply trimmed_delete).
    assert (Hsz : size (rem_map cx) = S (size (rem_map (set_item i ritem_zero cx)))).
    { rewrite Hm', map_size_delete_Some by eauto. pose proof (map_size_non_empty_iff (rem_map cx)) as Hne.
      destruct (size (rem_map cx)) eqn:He; [|done]. apply map_size_empty_inv in He. by rewrite He, lookup_empty in Hm. }
    eapply wp_mono; [apply IH; [done|done|lia|]|].
    + intros j it2 Hj Hl Hu2. destruct (decide (j = i)) as [->|Hne].
      * erewrite set_item_lookup in Hl by done. injection Hl as <-. done.
      * cbn in Hl. rewrite list_lookup_insert_ne in Hl by done. apply (Hc j it2); [lia|done..].
    + intros r [cx2 [k2 w2]] (Hw2 & Hwf2 & Hf2 & Htr2 & Hr). split_and!; [done|done|by eapply frame_trans|by eapply trimmed_trans|].
      destruct r as [rt|removed']; [done|]. destruct Hr as [-> Hr]. split; [lia|done].
  - destruct (Z.eqb_spec rt OPRT_OK); [done|]. cbn [negb]. wp_step. split_and!; [done|done|done|apply trimmed_refl|done..].
Qed.

Lemma by_time_wp t cx k w : 0 <= t -> th_ok w -> rem_wf cx ->
  wp (run_rem (RemRemoveByTime t)) (rem_outcome (RemRemoveByTime t) cx k w) (cx, (k, w)).
Proof.
  intros Ht Hw Hwf. cbn [run_rem]. wp_step. unfold wukong_tm_reminder_remove_by_time.
  destruct (Z.leb_spec t 0) as [Hle|Hpos].
  { wp_step. wp_step. apply unchanged_wp; [done..|]. replace t with 0 by lia. apply by_time_invalid. }
  wp_step. eapply wp_mono; [apply (by_time_loop_wp t WUKONG_TM_MAX_REMINDERS 0); [done|done|done|]|].
  { intros j it Hj. lia. }
  intros r [cx' [k' w']] (Hw' & Hwf' & Hf & Htr & Hr). destruct r as [rt|removed]; wp_step; wp_step; cbn [fst].
  { split_and!; [done|done| |done..]. apply by_time_failed; [lia|apply Hr|apply Hr|done]. }
  destruct Hr as [-> Hnone]. rewrite Z.add_0_l.
  pose proof (map_subseteq_size _ _ (proj1 Htr)) as Hle. destruct (Z.ltb_spec 0 (Z.of_nat (size (rem_map cx)) - Z.of_nat (size (rem_map cx')))).
  - split_and!; [done|done| |done|done]. apply by_time_ok; [lia| |done|done]. intros He. rewrite He in *. lia.
  - assert (rem_map cx' = rem_map cx) as He by (apply map_subseteq_size_eq; [apply Htr|lia]).
    split_and!; [done|done| |done|done]. rewrite He in Hnone |- *. apply by_time_none; [lia|done].
Qed.


(** ** Queries *)

Definition query_entry it : string := query_item_text it (escaped escape_char (rc_message (ri_cfg it))).

(** The document that lists every selected reminder, in slot order. *)
Definition query_answer (selected : WUKONG_TM_REMINDER_ITEM_T -> bool) cx : string :=
  "{" ++ quoted "reminders" ++ ":[" ++ join "," (map query_entry (List.filter selected (rx_items cx))) ++ "]}".

(** Bytes set aside for the selected items. *)
Fixpoint reserved (selected : WUKONG_TM_REMINDER_ITEM_T -> bool) (items : list WUKONG_TM_REMINDER_ITEM_T) : nat :=
  match items with
  | [] => 0
  | it :: items => (if selected it then 96 + strlen (ri_reminder_id it) + strlen (rc_message (ri_cfg it)) * 2 else 0) +
                   reserved selected items
  end%nat.

Lemma alloc_len_reserved selected items n : query_alloc_len selected items n = (n + reserved selected items)%nat.
Proof.
  revert n. induction items as [|it items IH]; intros n; cbn [query_alloc_len reserved]; [lia|].
  rewrite IH. destruct (selected it); lia.
Qed.

Lemma entry_length it : rcfg_wf (ri_cfg it) ->
  (strlen (query_entry it) <= 60 + strlen (ri_reminder_id it) + strlen (rc_message (ri_cfg it)) * 2)%nat.
Proof.
  intros [Hs _ _]. unfold query_entry, query_item_text, quoted, dq. rewrite fmt_d_nonneg by lia. rewrite !strlen_app.
  pose proof (escaped_length escape_char (rc_message (ri_cfg it))). pose proof (fmt_u_length (rc_start_time (ri_cfg it))).
  strlen_closed. lia.
Qed.

Lemma print_at_fits content n text : (strlen content + strlen text < n)%nat -> print_at content n text = content ++ text.
Proof. intros H. unfold print_at. rewrite strtrunc_id; [done|lia]. Qed.

(** The entries still to write, after [total] written ones. *)
Definition sep_join (total : nat) (l : list string) : string :=
  match l with [] => "" | _ => (if (0 <? total)%nat then "," else "") ++ join "," l end.

Lemma sep_join_cons total x l : sep_join total (x :: l) = (if (0 <? total)%nat then "," else "") ++ x ++ sep_join (S total) l.
Proof. unfold sep_join. f_equal. destruct l as [|y l]; cbn [join]; [by rewrite app_nil_r_str|done]. Qed.

Lemma query_loop_all selected items total content n :
  (forall it, selected it = true -> ri_in_use it = true) -> Forall ritem_wf items ->
  (strlen content + reserved selected items + 18 <= n)%nat ->
  query_loop selected items total content n = content ++ sep_join total (map query_entry (List.filter selected items)) /\
  (strlen (query_loop selected items total content n) + 18 <= n)%nat.
Proof.
  intros Hsel. revert total content. induction items as [|it items IH]; intros total content Hwf Hn;
    cbn [query_loop reserved List.filter map sep_join] in *; [rewrite app_nil_r_str; split; [done|lia]|].
  apply Forall_cons in Hwf as [Hit Hwf]. destruct (selected it) eqn:Hs; cbn [negb]; [|by apply IH].
  destruct (Hit (Hsel it Hs)) as [_ Hc]. pose proof (entry_length it Hc) as Hlen.
  if_false (apply Nat.leb_gt; lia). rewrite escape_fits by apply Hc. cbn [snd]. fold (query_entry it).
  cbn [map]. rewrite sep_join_cons. set (sep := if (0 <? total)%nat then "," else "").
  assert (Hsep : (if (0 <? total)%nat then print_at content n "," else content) = content ++ sep).
  { subst sep. destruct (0 <? total)%nat; [|by rewrite app_nil_r_str]. apply print_at_fits.
    change (strlen ",") with 1%nat. lia. }
  assert (Hsl : (strlen sep <= 1)%nat) by (subst sep; destruct (0 <? total)%nat; cbn; lia).
  rewrite Hsep. rewrite strlen_app. if_false (apply Nat.leb_gt; lia).
  rewrite print_at_fits by (rewrite strlen_app; lia).
  destruct (IH (S total) ((content ++ sep) ++ query_entry it)) as [-> Hl]; [done| |].
  - rewrite !strlen_app. lia.
  - split; [|done]. by rewrite <- !app_assoc_str.
Qed.

Lemma escape_char_well : escapes_well escape_char.
Proof.
  intros a. unfold escape_char.
  destruct (Nat.eqb_spec (nat_of_ascii a) 34) as [He|H34]; [by rewrite <- (ascii_nat_embedding a), He|].
  destruct (Nat.eqb_spec (nat_of_ascii a) 92) as [He|H92]; [by rewrite <- (ascii_nat_embedding a), He|].
  destruct (Nat.eqb_spec (nat_of_ascii a) 10) as [He|H10]; [by rewrite <- (ascii_nat_embedding a), He|].
  destruct (Nat.eqb_spec (nat_of_ascii a) 13) as [He|H13]; [by rewrite <- (ascii_nat_embedding a), He|].
  destruct (Nat.eqb_spec (nat_of_ascii a) 9) as [He|H9]; [by rewrite <- (ascii_nat_embedding a), He|].
  split; apply Ascii.eqb_neq; intros ->; [by apply H34|by apply H92].
Qed.

(** A query lists, in slot order, every reminder whose time lies in the asked
    window and whose message contains the keyword, and nothing else: the buffer
    always has room for all of them (NULL is returned only when it cannot be
    allocated), messages are escaped so that a JSON parser reads them back
    exactly, and the table is left alone. *)
Theorem reminder_query_complete from to keyword cx k w : th_ok w -> rem_wf cx ->
  exists r w', wukong_tm_reminder_query_text from to keyword (cx, (k, w)) = Some (r, (cx, (k, w'))) /\
    th_ok w' /\ th_sent w' = th_sent w /\
    (r = None \/ r = Some (query_answer (query_selected from to keyword) cx)) /\
    forall it, unescape (escaped escape_char (rc_message (ri_cfg it))) = Some (rc_message (ri_cfg it)).
Proof.
  intros Hw Hwf.
  assert (Hwp : wp (wukong_tm_reminder_query_text from to keyword) (fun r '(cx', (k', w')) =>
    cx' = cx /\ k' = k /\ th_ok w' /\ th_sent w' = th_sent w /\
    (r = None \/ r = Some (query_answer (query_selected from to keyword) cx))) (cx, (k, w))).
  { unfold wukong_tm_reminder_query_text. do 2 tm_step. wp_step. eapply wp_dev; [apply th_malloc_law|done|].
    intros [] w1 Hw1 Hs1 _; cbn [negb]; wp_step; [|by split_and!; auto]. split_and!; [done..|]. right. f_equal.
    set (sel := query_selected from to keyword). rewrite alloc_len_reserved. set (n := (32 + reserved sel (rx_items cx))%nat).
    set (open := "{" ++ quoted "reminders" ++ ":["). assert (Hopen : strlen open = 14%nat) by by vm_compute.
    rewrite (print_at_fits "" n open) by (rewrite Hopen; change (strlen "") with 0%nat; subst n; lia).
    change ("" ++ open) with open. destruct (query_loop_all sel (rx_items cx) 0 open n) as [Hq Hl].
    - intros it Hit. unfold sel, query_selected in Hit. by apply andb_true_iff in Hit as [? _].
    - apply Hwf.
    - rewrite Hopen. subst n. lia.
    - rewrite print_at_fits by (change (strlen "]}") with 2%nat; lia). rewrite Hq. unfold query_answer, sep_join. fold sel.
      destruct (map query_entry _); unfold open; rewrite <- ?app_assoc_str; done. }
  apply wp_elim in Hwp as (r & (cx' & k' & w') & Hrun & -> & -> & Hw' & Hs' & Hr).
  exists r, w'. split_and!; [done..|]. intros it. apply unescape_escaped, escape_char_well.
Qed.

(** ** Persistence *)

(** What the document of a full save holds. *)
Definition item_doc it : cJSON :=
  JObject [("id", JString (ri_reminder_id it)); ("enabled", JNumber (if rc_enabled (ri_cfg it) then 1 else 0));
           ("start_time", JNumber (rc_start_time (ri_cfg it))); ("message", JString (rc_message (ri_cfg it)))].
Definition used_items cx : list WUKONG_TM_REMINDER_ITEM_T := List.filter ri_in_use (rx_items cx).
Definition reminders_doc cx : cJSON := JObject [("reminders", JArray (map item_doc (used_items cx)))].

Lemma save_items_doc cx k w items arr (Q : _ -> CX * (K * W) -> Prop) :
  heap_ok (W := W) -> th_ok w ->
  (forall w', th_ok w' -> Q (JArray (arr ++ map item_doc (List.filter ri_in_use items))%list) (cx, (k, w'))) ->
  wp (save_items items (JArray arr)) Q (cx, (k, w)).
Proof.
  intros Hh. revert arr w. induction items as [|it items IH]; intros arr w Hw HQ; cbn [save_items List.filter map] in *.
  { wp_step. specialize (HQ w Hw). by rewrite app_nil_r in HQ. }
  destruct (ri_in_use it) eqn:Hu; cbn [negb map] in *; [|by apply IH].
  wp_step. eapply wp_dev; [exact Hh|done|]. intros ok w1 Hw1 Hs1 ->. cbn [negb].
  wp_step. apply json_add_ok_wp; [done|done|]. intros w2 Hw2 _. wp_step. apply json_add_ok_wp; [done|done|]. intros w3 Hw3 _.
  wp_step. apply json_add_ok_wp; [done|done|]. intros w4 Hw4 _. wp_step. apply json_add_ok_wp; [done|done|]. intros w5 Hw5 _.
  change (ty_cJSON_AddItemToArray (JArray arr) _) with (JArray (arr ++ [item_doc it])%list).
  apply IH; [done|]. intros w6 Hw6. rewrite <- app_assoc. by apply HQ.
Qed.

(** With memory to spare, a successful save stores the whole document. *)
Lemma save_doc_wp cx k w : heap_ok (W := W) -> th_ok w ->
  wp __reminder_store_save (fun rt '(cx', (k', w')) => cx' = cx /\ th_ok w' /\ (rt = OPRT_OK ->
    exists text, ty_cJSON_PrintUnformatted (reminders_doc cx) = Some text /\
      kv_kept k' WUKONG_TM_REMINDER_KV_KEY = Some text)) (cx, (k, w)).
Proof.
  intros Hh Hw. unfold __reminder_store_save. wp_step. eapply wp_dev; [exact Hh|done|]. intros ok w1 Hw1 _ ->.
  wp_step. eapply wp_dev; [exact Hh|done|]. intros ok w2 Hw2 _ ->. cbn [negb orb]. do 2 tm_step.
  wp_step. apply save_items_doc; [done|done|]. intros w3 Hw3. wp_step. apply json_add_ok_wp; [done|done|]. intros w4 Hw4 _.
  change (ty_cJSON_AddItemToObject (JObject []) "reminders" _) with (reminders_doc cx).
  destruct (ty_cJSON_PrintUnformatted (reminders_doc cx)) as [text|]; [|by wp_step].
  wp_step. apply wp_store. eapply wp_mono; [apply kv_write_law|]. intros rt k1 Hk1. specialize (Hk1 WUKONG_TM_REMINDER_KV_KEY).
  wp_step. destruct (Z.eqb_spec rt OPRT_OK) as [->|Hrt]; cbn [negb]; [|do 2 wp_step; by split_and!].
  wp_step. apply store_notify_wp; [done|]. intros rt' w5 Hw5 _. do 2 wp_step. split_and!; [done|done|]. intros _. by exists text.
Qed.

(** Loading one stored reminder reads back what was stored. *)
Lemma load_cfg_doc it : rcfg_wf (ri_cfg it) -> load_cfg (item_doc it) = Some (rc_set_job "" (ri_cfg it)).
Proof.
  intros [Hs Hm Hl]. unfold load_cfg.
  change (number_or (item_doc it) "start_time" 0) with (rc_start_time (ri_cfg it) : Q).
  change (number_or (item_doc it) "enabled" 1) with ((if rc_enabled (ri_cfg it) then 1 else 0) : Q).
  change (ty_cJSON_GetObjectItem (item_doc it) "message") with (Some (JString (rc_message (ri_cfg it)))).
  rewrite to_time_int by (unfold is_u32; lia). rewrite strtrunc_id by done. unfold rc_set_job. by destruct (rc_enabled (ri_cfg it)).
Qed.

(** The reminders of a list of items. *)
Definition listed (items : list WUKONG_TM_REMINDER_ITEM_T) (id : string) (r : reminder) : Prop :=
  exists it, it ∈ items /\ ri_reminder_id it = id /\ reminder_of (ri_cfg it) = r.

Lemma load_items_wp now items cx k w : th_ok w -> rem_wf cx ->
  Forall (fun it => rid_wf (ri_reminder_id it) /\ rcfg_wf (ri_cfg it) /\ rem_map cx !! ri_reminder_id it = None) items ->
  NoDup (map ri_reminder_id items) -> (size (rem_map cx) + length items <= WUKONG_TM_MAX_REMINDERS)%nat ->
  wp (load_items now (map item_doc items)) (fun _ '(cx', (k', w')) => k' = k /\ th_ok w' /\ rem_wf cx' /\
    forall id r, rem_map cx' !! id = Some r <-> rem_map cx !! id = Some r \/ listed items id r) (cx, (k, w)).
Proof.
  revert cx w. induction items as [|it items IH]; intros cx w Hw Hwf Hits Hnd Hsize; cbn [map load_items].
  { wp_step. split_and!; [done..|]. intros id r. split; [by left|]. intros [?|(it & Hin & _)]; [done|]. by apply not_elem_of_nil in Hin. }
  apply Forall_cons in Hits as [(Hid & Hc & Hfresh) Hits]. apply NoDup_cons in Hnd as [Hnotin Hnd].
  cbn [length] in Hsize. cbn [ty_cJSON_IsObject item_doc negb].
  change (ty_cJSON_GetObjectItem _ "id") with (Some (JString (ri_reminder_id it))). cbv iota.
  destruct (String.eqb_spec (ri_reminder_id it) "") as [He|_]; [by destruct (ridw_nonempty _ Hid)|].
  do 2 tm_step. pose proof (free_wf cx Hwf) as Hfree. destruct (free_item cx) as [slot|]; [|lia].
  destruct Hfree as (old & Hold & Hu & _). wp_step. eapply wp_pure; [by apply load_cfg_doc|].
  cbn [rc_start_time rc_message rc_set_job]. pose proof (rw_start _ Hc). pose proof (rw_message _ Hc).
  rewrite strtrunc_id by apply Hid. if_false (apply orb_false_iff; split; [lia|by apply String.eqb_neq]).
  set (new := mk_ritem true (ri_reminder_id it) (rc_set_job "" (ri_cfg it))).
  assert (Hcn : rcfg_wf (ri_cfg new)) by (by destruct Hc; split).
  wp_step. apply put_item_wp.
  assert (Hrest : forall j w', th_ok w' ->
    wp (load_items now (map item_doc items)) (fun _ '(cx', (k', w')) => k' = k /\ th_ok w' /\ rem_wf cx' /\
      forall id r, rem_map cx' !! id = Some r <-> rem_map cx !! id = Some r \/ listed (it :: items) id r)
      (set_item slot (ri_with_cfg (rc_set_job j) new) cx, (k, w'))).
  { intros j w' Hw'. destruct (fill_wf cx slot old (ri_with_cfg (rc_set_job j) new)) as [Hwf1 Hm1]; [done|done|done|done| |done|].
    { intros _. split; [done|]. by destruct Hcn; split. }
    change (ri_reminder_id _) with (ri_reminder_id it) in Hm1. change (reminder_of _) with (reminder_of (ri_cfg it)) in Hm1.
    eapply wp_mono; [apply IH; [done|done| |done|]|].
    - apply Forall_forall. intros x Hin. rewrite Forall_forall in Hits. destruct (Hits x Hin) as (Hxid & Hxc & Hxf).
      split; [done|]. split; [done|]. rewrite Hm1, lookup_insert_ne; [done|].
      intros Heq. apply Hnotin. rewrite Heq. apply list_elem_of_fmap. by exists x.
    - rewrite Hm1, map_size_insert_None by done. lia.
    - intros _ [cx' [k' w2]] (-> & Hw2 & Hwf2 & Hiff). split_and!; [done..|]. intros id r. rewrite Hiff, Hm1, lookup_insert_Some.
      split.
      + intros [[[<- <-]|[_ ?]]|(x & Hin & Hx)]; [right; exists it; split; [by left|done]|by left|].
        right. exists x. split; [by right|done].
      + intros [Hr|(x & [->|Hin]%elem_of_cons & <- & <-)]; [|by left; left|right; by exists x].
        left. right. split; [|done]. intros <-. congruence. }
  destruct (_ && _).
  { specialize (Hrest "" w Hw). by apply Hrest. }
  wp_step. eapply sync_wp; [done|by eapply set_item_lookup|done|done|]. intros rt j w1 Hw1 Hs1 _.
  rewrite set_item_twice. by apply Hrest.
Qed.

(** The items in use represent the table. *)
Lemma used_listed cx : rem_wf cx ->
  Forall (fun it => rid_wf (ri_reminder_id it) /\ rcfg_wf (ri_cfg it)) (used_items cx) /\
  NoDup (map ri_reminder_id (used_items cx)) /\ (length (used_items cx) <= WUKONG_TM_MAX_REMINDERS)%nat /\
  forall id r, rem_map cx !! id = Some r <-> listed (used_items cx) id r.
Proof.
  intros Hwf. unfold used_items.
  split_and!.
  - apply Forall_forall. intros it [Hit Hu]%used_In. pose proof (rxw_items _ Hwf) as Hall. rewrite Forall_forall in Hall.
    by apply Hall.
  - by eapply used_names, Hwf.
  - rewrite <- (rxw_size _ Hwf). apply List.filter_length_le.
  - intros id r. unfold rem_map. rewrite slots_map_lookup by apply Hwf. split.
    + intros (i & it & Hi & (Hu & Hid & Hr)%table_kv_Some). exists it. split; [|done].
      apply used_In. split; [by eapply list_elem_of_lookup_2|done].
    + intros (it & [Hit Hu]%used_In & Hid & Hr). apply list_elem_of_lookup_1 in Hit as [i Hi]. exists i, it.
      split; [done|]. by apply table_kv_Some.
Qed.

Lemma zero_wf : rem_wf (mk_rctx true (rx_items rctx_zero)) /\ rem_map (mk_rctx true (rx_items rctx_zero)) = ∅.
Proof.
  destruct (table_empty ri_in_use ri_reminder_id (fun it => reminder_of (ri_cfg it)) WUKONG_TM_MAX_REMINDERS ritem_zero)
    as [Hd Hm]; [done|]. split; [|exact Hm]. split; [done|done| |exact Hd].
  apply Forall_replicate. by intros ?.
Qed.

(** A device restarted with the document of [cx] in its store holds the
    reminders of [cx]. *)
Lemma reminder_init_wp cx k w text : th_ok w -> rem_wf cx ->
  wp (wd_common_read WUKONG_TM_REMINDER_KV_KEY) (fun r _ => fst r = OPRT_OK) k ->
  kv_kept k WUKONG_TM_REMINDER_KV_KEY = Some text -> ty_cJSON_Parse text = Some (reminders_doc cx) ->
  wp wukong_tm_reminder_init (fun rt '(cx', _) => rt = OPRT_OK -> rem_wf cx' /\ rem_map cx' = rem_map cx)
    (rctx_zero, (k, w)).
Proof.
  intros Hw Hwf Hread Hkept Hparse. unfold wukong_tm_reminder_init. do 2 tm_step. cbn [rctx_zero rx_initialized].
  do 2 tm_step. wp_step. eapply wp_dev; [apply th_register_law|done|]. intros rt w1 Hw1 _ _.
  destruct (Z.eqb_spec rt OPRT_OK) as [->|Hrt]; cbn [negb]; [|do 2 tm_step; wp_step; done].
  unfold __reminder_store_load. do 2 wp_step. apply wp_clock; [done|]. intros w2 Hw2 _ _.
  wp_step. apply wp_store. eapply wp_mono; [apply wp_conj; [exact Hread|apply kv_read_law]|].
  intros [rt data] k1 [Hok [_ Hdata]]. cbn [fst snd] in *. specialize (Hdata Hok). subst rt. cbn [negb].
  change (negb (OPRT_OK =? OPRT_OK)) with false. cbv iota. assert (data = text) as -> by congruence. rewrite Hparse.
  change (ty_cJSON_GetObjectItem (reminders_doc cx) "reminders") with (Some (JArray (map item_doc (used_items cx)))). cbv iota.
  destruct (used_listed cx Hwf) as (Hall & Hnd & Hlen & Hmap). destruct zero_wf as [Hwf0 Hm0].
  wp_step. eapply wp_mono; [apply load_items_wp; [done|exact Hwf0| |done|]|].
  - eapply Forall_impl; [exact Hall|]. intros it [? ?]. rewrite Hm0. by rewrite lookup_empty.
  - rewrite Hm0, map_size_empty. lia.
  - intros _ [cx' [k' w3]] (-> & Hw3 & Hwf' & Hiff). wp_step. apply store_notify_wp; [done|]. intros rt w4 Hw4 _.
    do 2 wp_step. intros _. split; [done|]. apply map_eq. intros id. apply option_eq. intros r.
    rewrite Hiff, Hmap, Hm0, lookup_empty. split; [by intros [?|?]|by right].
Qed.

(** C37. Reminders survive a reboot: when saving the table reports success on a
    device with memory to spare, then initialising the service on the same store
    after a restart yields exactly the saved reminders, with their times,
    messages and switches, provided the store can be read and the JSON library
    reads the saved document back. *)
Theorem reminders_survive_reboot cx k w w2 : heap_ok (W := W) ->
  (forall key text k0, kv_kept k0 key = Some text -> wp (wd_common_read key) (fun r _ => fst r = OPRT_OK) k0) ->
  (forall text, ty_cJSON_PrintUnformatted (reminders_doc cx) = Some text ->
     ty_cJSON_Parse text = Some (reminders_doc cx)) ->
  th_ok w -> th_ok w2 -> rem_wf cx ->
  exists rt k' w', __reminder_store_save (cx, (k, w)) = Some (rt, (cx, (k', w'))) /\
    (rt = OPRT_OK -> exists rt2 cx2 s2, wukong_tm_reminder_init (rctx_zero, (k', w2)) = Some (rt2, (cx2, s2)) /\
       (rt2 = OPRT_OK -> rem_wf cx2 /\ rem_map cx2 = rem_map cx)).
Proof.
  intros Hh Hread Hjson Hw Hw2 Hwf. destruct (wp_elim _ _ _ (save_doc_wp cx k w Hh Hw)) as (rt & (cx' & k' & w') & Hrun & -> & _ & Hsave).
  exists rt, k', w'. split; [done|]. intros Hrt. destruct (Hsave Hrt) as (text & Hprint & Hkept).
  destruct (wp_elim _ _ _ (reminder_init_wp cx k' w2 text Hw2 Hwf (Hread _ _ _ Hkept) Hkept (Hjson text Hprint)))
    as (rt2 & (cx2 & s2) & Hinit & Hpost). by exists rt2, cx2, s2.
Qed.

End Correct.
