(* ===== verification/TmFeatureDemo.v ===== *)
(** A device on which every call succeeds and a store that keeps everything (the
    interfaces of [TmHost] and [TmStore] at work); runs of reminders and alarms
    on it and on other stores and clocks, and the witnesses of their theorems. *)
From stdpp Require Import gmap strings.
From stdpp Require Import gmap strings fin_maps.
From S2P Require Import Prelude.
From S2P Require Import Calendar.
From S2P Require Import CStr.
From S2P Require Import CronField.
From S2P Require Import CronParse.
From S2P Require Import CronNext.
From S2P Require Import CronNextCorrect.
From S2P Require Import World.
From S2P Require Import Slots.
From S2P Require Import Json.
From S2P Require Import TmHost.
From S2P Require Import TmStore.
From S2P Require Import TmAlarm.
From S2P Require Import TmAlarmTime.
From S2P Require Import TmAlarmCorrect.
From S2P Require Import TmReminder.
From S2P Require Import TmReminderCorrect.

#[local] Open Scope string_scope.
#[local] Open Scope Z_scope.

(** The clock, and the events sent, newest first. *)
Record Calm := mk_calm { calm_now : TIME_T; calm_sent : list (WUKONG_AI_EVENT_TYPE_E * list Z) }.

#[export] Instance calm_host : TmHost Calm := {
  th_posix := cget calm_now;
  th_malloc := cret true;
  wukong_ai_event_notify e m := cmod (fun c => mk_calm (calm_now c) ((e, m) :: calm_sent c));
  wukong_ai_agent_input _ := cret tt;
  wukong_ai_agent_send_text _ := cret OPRT_OK;
  th_job_add _ _ := cret (OPRT_OK, "cron-1");
  th_job_remove _ := cret OPRT_OK;
  th_register _ _ := cret OPRT_OK;
  th_unregister _ := cret OPRT_OK;
  th_ok c := is_u32 (calm_now c);
  th_clock := calm_now;
  th_sent := calm_sent;
  th_job_text _ := True }.

#[export] Instance calm_laws : TmHostLaws Calm.
Proof. split; repeat intros ?; by split_and!. Qed.

Lemma calm_heap : heap_ok (W := Calm).
Proof. by intros w Hw. Qed.

#[export] Instance map_store : KvStore (gmap string string) := {
  wd_common_write key text := fun k => Some (OPRT_OK, <[key := text]> k);
  wd_common_read key := fun k => Some (match k !! key with Some t => (OPRT_OK, t) | None => (OPRT_NOT_FOUND, "") end, k);
  kv_kept k key := k !! key }.

#[export] Instance map_store_laws : KvStoreLaws (gmap string string).
Proof.
  split.
  - intros key text k key'. cbn. destruct (String.eqb_spec key' key) as [->|Hne]; cbn.
    + apply lookup_insert_eq.
    + by apply lookup_insert_ne.
  - intros key k. unfold wp. cbn. split; [done|]. by destruct (k !! key).
Qed.

Lemma map_store_reads key text (k : gmap string string) :
  kv_kept k key = Some text -> wp (wd_common_read key) (fun r _ => fst r = OPRT_OK) k.
Proof. intros Hk. unfold wp. cbn in *. by rewrite Hk. Qed.

(** Addresses of the tables. *)
#[export] Instance calm_layout : TmLayout := { s_reminder_items := 4096; s_alarm_alarms := 8192 }.

(** 2026-03-06 10:00:00 and the two reminders set for later. *)
Definition demo_now : TIME_T := 1772762400.

Definition tea : WUKONG_TM_REMINDER_CFG_T := mk_rcfg true 1772766000 "tea" "cron-4".
Definition call : WUKONG_TM_REMINDER_CFG_T := mk_rcfg false 1772848800 "call home" "cron-5".

Definition demo_reminders : WUKONG_TM_REMINDER_CTX_T :=
  mk_rctx true (mk_ritem true "r1" tea :: mk_ritem true "r2" call :: replicate 6 ritem_zero).

(** The JSON library on the one document stored here. *)
#[local] Instance one_document : JsonText := {
  ty_cJSON_Parse _ := Some (reminders_doc demo_reminders);
  ty_cJSON_PrintUnformatted _ := Some "stored" }.

(** Closed side conditions. *)
Ltac closed := first [by apply Nat.leb_le | done | cbn; lia].

Lemma demo_reminders_wf : rem_wf demo_reminders.
Proof.
  split; [done|done| |].
  - repeat (apply Forall_cons; split; [|]); [..|by apply Forall_nil];
      (intros Hu; try discriminate Hu; split; split; closed).
  - intros i j a b k v v' Hi Hj Ha Hb.
    destruct i as [|[|[|[|[|[|[|[|i]]]]]]]]; [injection Hi as <-..|done]; try done.
    all: destruct j as [|[|[|[|[|[|[|[|j]]]]]]]]; [injection Hj as <-..|done]; done || (cbn in Ha, Hb; congruence).
Qed.

Definition demo_device : Calm := mk_calm demo_now [].

Lemma demo_device_ok : th_ok demo_device.
Proof. split; [done|]. reflexivity. Qed.


Lemma reminder_query_complete_witness : exists r w',
  wukong_tm_reminder_query_text demo_now 0 (Some "tea") (demo_reminders, (∅ : gmap string string, demo_device)) =
    Some (r, (demo_reminders, (∅ : gmap string string, w'))) /\
  th_ok w' /\ th_sent w' = th_sent demo_device /\
  (r = None \/ r = Some (query_answer (query_selected demo_now 0 (Some "tea")) demo_reminders)) /\
  forall it, unescape (escaped escape_char (rc_message (ri_cfg it))) = Some (rc_message (ri_cfg it)).
Proof. apply reminder_query_complete; [exact demo_device_ok|exact demo_reminders_wf]. Defined.

Lemma reminders_survive_reboot_witness : exists rt k' w',
  __reminder_store_save (demo_reminders, (∅ : gmap string string, demo_device)) =
    Some (rt, (demo_reminders, (k' : gmap string string, w'))) /\
  (rt = OPRT_OK -> exists rt2 cx2 s2, wukong_tm_reminder_init (rctx_zero, (k', demo_device)) = Some (rt2, (cx2, s2)) /\
     (rt2 = OPRT_OK -> rem_wf cx2 /\ rem_map cx2 = rem_map demo_reminders)).
Proof.
  apply reminders_survive_reboot; [done|exact calm_heap|exact map_store_reads|done|exact demo_device_ok|
    exact demo_device_ok|exact demo_reminders_wf].
Defined.

(** A reminder set two years ahead, for 2028-03-06 11:00:00, fires on the next 6
    March instead: the one-shot expression has no year. *)
Example reminder_fires_early : exists expr e,
  __reminder_build_cron_expr (mk_rcfg true 1835924400 "far" "") 32 = (OPRT_OK, expr) /\
  wukong_cron_expr_parse expr = Some (OPRT_OK, e) /\
  wukong_cron_expr_next_fire e demo_now = Some (OPRT_OK, 1772766000).
Proof. exists "0 0 11 6 3 *", (mk_expr 1 1 2048 64 8 127). split_and!; vm_compute; reflexivity. Qed.

(** 2026-03-06 10:00:00 in UTC+8, a Friday. *)
Definition friday_ten : TIME_T := 1772762400.

Definition wake_up : WUKONG_TM_ALARM_CFG_T := mk_acfg true WUKONG_TM_ALARM_REPEAT_DAILY 7 0 0 0 0 "wake up" "cron-1".
Definition gym : WUKONG_TM_ALARM_CFG_T := mk_acfg true WUKONG_TM_ALARM_REPEAT_WEEKLY 18 30 42 0 0 "gym" "cron-2".
Definition nap : WUKONG_TM_ALARM_CFG_T := mk_acfg true WUKONG_TM_ALARM_REPEAT_ONCE 9 59 0 0 1772762340 "nap over" "cron-3".
Definition rent : WUKONG_TM_ALARM_CFG_T := mk_acfg true WUKONG_TM_ALARM_REPEAT_MONTHLY 9 0 0 31 0 "rent" "".

(** The once alarm rings in its first round. *)
Definition a1 : WUKONG_TM_ALARM_ITEM_T := mk_alarm true "a1" wake_up false 0 "" "".
Definition a2 : WUKONG_TM_ALARM_ITEM_T := mk_alarm true "a2" gym false 0 "" "".
Definition a3 : WUKONG_TM_ALARM_ITEM_T := mk_alarm true "a3" nap true 1 "cron-4" "".

Definition demo_alarms : ALARM_STATICS :=
  mk_as (mk_actx true 1 (a1 :: a2 :: a3 :: replicate 5 alarm_zero)) true 30 300 3.

#[local] Instance no_documents : JsonText := { ty_cJSON_Parse _ := None; ty_cJSON_PrintUnformatted _ := Some "stored" }.

Definition morning : Calm := mk_calm friday_ten [].

Lemma morning_ok : th_ok morning.
Proof. split; [done|]. reflexivity. Qed.

(** Closed side conditions. *)
Ltac closed_side :=
  first [ by apply Nat.leb_le | done
        | cbn; unfold is_u32, WUKONG_TM_ALARM_REPEAT_ONCE, WUKONG_TM_ALARM_REPEAT_DAILY, WUKONG_TM_ALARM_REPEAT_WEEKLY,
            WUKONG_TM_ALARM_REPEAT_MONTHLY; cbn; lia ].

Lemma demo_alarms_wf : alarms_wf demo_alarms.
Proof.
  split; [done|done| |].
  - change (alarms demo_alarms) with (a1 :: a2 :: a3 :: replicate 5 alarm_zero). cbn [replicate].
    repeat (apply Forall_cons; split; [|]); [..|by apply Forall_nil];
      (intros Hu; first [discriminate Hu|split; [split; closed_side|split; [split; closed_side|split; closed_side|closed_side]]]).
  - intros i j a b k v v' Hi Hj Ha Hb.
    destruct i as [|[|[|[|[|[|[|[|i]]]]]]]]; [injection Hi as <-..|done]; try done.
    all: destruct j as [|[|[|[|[|[|[|[|j]]]]]]]]; [injection Hj as <-..|done]; done || (cbn in Ha, Hb; congruence).
Qed.

Lemma zone8_clock ts tm : is_u32 ts -> tal_time_get_local_time_custom ts = (OPRT_OK, tm) ->
  0 <= tm_hour tm < 24 /\ 0 <= tm_min tm < 60.
Proof.
  intros Hts [= <-]. destruct (gmtime_spec (ts + zone8_off)) as ([? ? ? ?] & _); [unfold is_u32, zone8_off in *; lia|]. done.
Qed.

Lemma calm_reliable : reliable (W := Calm).
Proof. split; [exact calm_heap|]. split; [by intros json n _ w Hw|done]. Qed.

(** ** Witnesses *)

Lemma alarm_rings_when_due_witness : exists expr e t, __alarm_build_cron_expr gym 32 = (OPRT_OK, expr) /\
  wukong_cron_expr_parse expr = Some (OPRT_OK, e) /\ wukong_cron_expr_next_fire e friday_ten = Some (OPRT_OK, t) /\
  friday_ten < t <= friday_ten + 86400 * alarm_period gym /\ alarm_due gym (local_tm t) = true /\
  forall u, friday_ten < u < t -> alarm_due gym (local_tm u) = false.
Proof.
  apply (alarm_rings_when_due (off := zone8_off) (mkoff := 0) gym friday_ten).
  - split; closed_side.
  - reflexivity.
  - intros H. discriminate H.
  - unfold search_room. vm_compute. split; congruence.
Defined.

Lemma once_alarm_rolls_over_witness : exists t expr e,
  once_rollover friday_ten nap = (OPRT_OK, ac_set_start (ac_hour nap) (ac_minute nap) t nap) /\
  friday_ten < t <= friday_ten + 86400 /\ alarm_due nap (local_tm t) = true /\
  (forall u, friday_ten < u < t -> alarm_due nap (local_tm u) = false) /\
  __alarm_build_cron_expr (ac_set_start (ac_hour nap) (ac_minute nap) t nap) 32 = (OPRT_OK, expr) /\
  wukong_cron_expr_parse expr = Some (OPRT_OK, e) /\ wukong_cron_expr_next_fire e friday_ten = Some (OPRT_OK, t).
Proof.
  apply (once_alarm_rolls_over (off := zone8_off) (mkoff := 0) nap friday_ten).
  - split; closed_side.
  - reflexivity.
  - reflexivity.
  - unfold search_room. vm_compute. split; congruence.
  - unfold search_room. vm_compute. split; congruence.
Defined.

(** Today's 07:00 is three hours ago, but the flag only rises at 15:00. *)
Lemma expired_flag_skewed_witness :
  __alarm_is_expired wake_up friday_ten (local_tm friday_ten) = (1772751600 + (zone8_off - 0) <=? friday_ten).
Proof.
  apply (expired_flag_skewed (off := zone8_off) (mkoff := 0)).
  - split; closed_side.
  - reflexivity.
  - intros H. discriminate H.
  - unfold search_room. vm_compute. split; congruence.
  - unfold search_room. vm_compute. split; congruence.
  - vm_compute. reflexivity.
  - vm_compute. reflexivity.
Defined.

(** A daily alarm and one on all seven days. *)
Definition every_day : WUKONG_TM_ALARM_CFG_T := mk_acfg true WUKONG_TM_ALARM_REPEAT_WEEKLY 7 0 127 0 0 "up" "".

Lemma semantic_match_same_times_witness : __alarm_semantic_match wake_up every_day = true <->
  forall tm, wf_tm tm -> 0 <= tm_wday tm < 7 -> alarm_due wake_up tm = alarm_due every_day tm.
Proof.
  apply semantic_match_same_times; (split; [split; closed_side|discriminate|]); intros H; first [discriminate H|split; reflexivity].
Defined.

Example daily_not_expired : __alarm_is_expired wake_up friday_ten (local_tm friday_ten) = false /\ 1772751600 < friday_ten /\
  alarm_due wake_up (local_tm 1772751600) = true.
Proof. by vm_compute. Qed.


Lemma alarm_ring_step_witness : exists rt st,
  run_ring (al_alarm_id a3) (RingTimeout 1) (demo_alarms, (∅ : gmap string string, morning)) = Some (rt, st) /\
  rung demo_alarms 2 a3 (RingTimeout 1) (∅ : gmap string string) morning st /\ (reliable (W := Calm) -> rt = OPRT_OK).
Proof.
  apply alarm_ring_step; [done|cbn; unfold INT_MAX; lia|exact morning_ok|exact demo_alarms_wf|done|done].
Defined.

Lemma unanswered_alarm_finishes_witness : exists k' w' a' tail,
  run_rings (al_alarm_id a2) (RingFire :: rounds 3 1) (demo_alarms, (∅ : gmap string string, morning)) =
    Some (tt, (set_alarm 1 a' demo_alarms, (k' : gmap string string, w'))) /\
  cycle_over a2 a' /\ alarms_wf (set_alarm 1 a' demo_alarms) /\
  th_sent w' = (tail ++ rev (alarm_event "a2" 1 WUKONG_TM_TIMER_OPR_START :: round_events "a2" 3 1) ++ th_sent morning)%list /\
  (tail = [] \/ is_once gym = true /\ tail = [(WUKONG_AI_EVENT_CLOCK_MCP_ALARM, alarm_list_msg)]).
Proof.
  apply (unanswered_alarm_finishes (K := gmap string string) (W := Calm)) with (a := a2);
    [done|exact calm_reliable|exact morning_ok|exact demo_alarms_wf|done|done|done|done|done|split; reflexivity].
Defined.

(** Listing the alarms while a once alarm rings switches it off and forgets the
    round; the answer can be printed, but no STOP or FINISH event is sent. *)
Example list_silences_ringing : exists a3' k' w',
  wukong_tm_alarm_list (demo_alarms, (∅ : gmap string string, morning)) =
    Some ((OPRT_OK, Some "stored"), (set_alarm 2 a3' demo_alarms, (k', w'))) /\
  al_is_ringing a3' = false /\ ac_enabled (al_cfg a3') = false /\
  th_sent w' = [(WUKONG_AI_EVENT_CLOCK_MCP_ALARM, alarm_list_msg)].
Proof.
  exists (mk_alarm true "a3" (ac_set_job "" (ac_set_enabled false nap)) false 0 "" ""),
    {[WUKONG_TM_ALARM_KV_KEY := "stored"]}, (mk_calm friday_ten [(WUKONG_AI_EVENT_CLOCK_MCP_ALARM, alarm_list_msg)]).
  by vm_compute.
Qed.
