(* ===== verification/TmStopwatch.v ===== *)
(** The stopwatch of src/wukong/tm/wukong_tm_stopwatch.c: its operations, and
    that what it reports is the time it has been running. *)
From S2P Require Import Prelude.
From S2P Require Import World.
From S2P Require Import TmHost.

#[local] Open Scope Z_scope.

Record WUKONG_TM_STOPWATCH_CTX_T := mk_sw {
  sw_initialized : bool; sw_active : bool; sw_paused : bool;
  sw_start_ts : TIME_T; sw_paused_elapsed_sec : TIME_T }.

Definition sw_zero : WUKONG_TM_STOPWATCH_CTX_T := mk_sw false false false 0 0.

Record WUKONG_TM_STOPWATCH_STATE_T := mk_sw_state {
  st_active : bool; st_paused : bool; st_elapsed_sec : TIME_T }.

Section Stopwatch.
Context {W : Type} `{TH : TmHost W}.
Abbreviation M := (C (WUKONG_TM_STOPWATCH_CTX_T * W)).

Definition __stopwatch_elapsed_sec : M TIME_T :=
  let* cx := get_ctx in
  if negb (sw_active cx) then cret 0
  else if sw_paused cx then cret (sw_paused_elapsed_sec cx)
  else
    let* now := on_host th_posix in
    cret (u32 (sw_paused_elapsed_sec cx + u32 (now - sw_start_ts cx))).

Definition __stopwatch_emit_event (opr : WUKONG_TM_TIMER_OPR_E) (include_elapsed_sec : bool) : M OPERATE_RET :=
  let* elapsed_value :=
    (if include_elapsed_sec then
       let* elapsed := __stopwatch_elapsed_sec in
       let elapsed := if elapsed <? 0 then 0 else elapsed in
       cret (u32 elapsed)
     else cret 0) in
  let* ok := on_host th_malloc in
  if negb ok then cret OPRT_MALLOC_FAILED
  else
    let msg := __tm_tlv_pack [] (tag_code WUKONG_TM_TAG_STOPWATCH_OPR) 1 (le_bytes 4 (opr_code opr)) in
    let msg := if include_elapsed_sec
      then __tm_tlv_pack msg (tag_code WUKONG_TM_TAG_STOPWATCH_ELAPSED_SEC) 4 (le_bytes 4 elapsed_value)
      else msg in
    let* _ := __stopwatch_elapsed_sec in
    let* _ := on_host (wukong_ai_event_notify WUKONG_AI_EVENT_CLOCK_MCP_STOPWATCH_TIMER msg) in
    cret OPRT_OK.

Definition wukong_tm_stopwatch_init : M OPERATE_RET :=
  let* cx := get_ctx in
  if sw_initialized cx then cret OPRT_OK
  else let* _ := put_ctx (mk_sw true false false 0 0) in cret OPRT_OK.

Definition wukong_tm_stopwatch_deinit : M OPERATE_RET :=
  let* _ := put_ctx sw_zero in cret OPRT_OK.

Definition wukong_tm_stopwatch_start : M OPERATE_RET :=
  let* cx := get_ctx in
  if sw_active cx then cret OPRT_COM_ERROR
  else
    let* now := on_host th_posix in
    let* _ := put_ctx (mk_sw (sw_initialized cx) true false now 0) in
    __stopwatch_emit_event WUKONG_TM_TIMER_OPR_START false.

Definition wukong_tm_stopwatch_pause : M OPERATE_RET :=
  let* cx := get_ctx in
  if negb (sw_active cx) || sw_paused cx then cret OPRT_NOT_SUPPORTED
  else
    let* now := on_host th_posix in
    let* _ := put_ctx (mk_sw (sw_initialized cx) (sw_active cx) true (sw_start_ts cx)
                         (u32 (sw_paused_elapsed_sec cx + u32 (now - sw_start_ts cx)))) in
    __stopwatch_emit_event WUKONG_TM_TIMER_OPR_PAUSE true.

Definition wukong_tm_stopwatch_resume : M OPERATE_RET :=
  let* cx := get_ctx in
  if negb (sw_active cx) || negb (sw_paused cx) then cret OPRT_NOT_SUPPORTED
  else
    let* now := on_host th_posix in
    let* _ := put_ctx (mk_sw (sw_initialized cx) (sw_active cx) false now (sw_paused_elapsed_sec cx)) in
    __stopwatch_emit_event WUKONG_TM_TIMER_OPR_RESUME false.

Definition wukong_tm_stopwatch_stop : M OPERATE_RET :=
  let* cx := get_ctx in
  if negb (sw_active cx) then cret OPRT_NOT_FOUND
  else
    let* rt := __stopwatch_emit_event WUKONG_TM_TIMER_OPR_STOP true in
    let* _ := mod_ctx (fun cx => mk_sw (sw_initialized cx) false false 0 0) in
    cret rt.

Definition wukong_tm_stopwatch_reset : M OPERATE_RET :=
  let* cx := get_ctx in
  if negb (sw_active cx) then cret OPRT_NOT_FOUND
  else
    let* rt := __stopwatch_emit_event WUKONG_TM_TIMER_OPR_RESET true in
    let* _ := mod_ctx (fun cx => mk_sw (sw_initialized cx) false false 0 0) in
    cret rt.

(** Return code and the snapshot written to [state] ([None]: left alone). *)
Definition wukong_tm_stopwatch_query (state : bool) : M (OPERATE_RET * option WUKONG_TM_STOPWATCH_STATE_T) :=
  if negb state then cret (OPRT_INVALID_PARM, None)
  else
    let* cx := get_ctx in
    if negb (sw_active cx) then cret (OPRT_NOT_FOUND, None)
    else
      let* elapsed := __stopwatch_elapsed_sec in
      cret (OPRT_OK, Some (mk_sw_state true (sw_paused cx) elapsed)).

End Stopwatch.

(** ** What it measures *)

(** The session so far as the instants it was started, paused, resumed, paused
    and so on, oldest first; it runs when their number is odd. *)
Definition marks := list TIME_T.

(** The time the session has been running, pauses left out. *)
Fixpoint running_time (m : marks) (now : TIME_T) : Z :=
  match m with
  | [] => 0
  | [t] => now - t
  | t :: t' :: m => (t' - t) + running_time m now
  end.

Fixpoint runs (m : marks) : bool :=
  match m with [] => false | [_] => true | _ :: _ :: m => runs m end.

(** The context of a session with these marks. *)
Definition tracks (cx : WUKONG_TM_STOPWATCH_CTX_T) (m : marks) : Prop :=
  match m with
  | [] => sw_active cx = false
  | _ =>
      sw_active cx = true /\ sw_paused cx = negb (runs m) /\
      forall now, u32 (running_time m now) =
        (if runs m then u32 (sw_paused_elapsed_sec cx + u32 (now - sw_start_ts cx)) else sw_paused_elapsed_sec cx)
  end.

Inductive sw_op := SwStart | SwPause | SwResume | SwStop | SwReset | SwQuery (state : bool).

Definition sw_event (opr : WUKONG_TM_TIMER_OPR_E) (elapsed : option TIME_T) : WUKONG_AI_EVENT_TYPE_E * list Z :=
  (WUKONG_AI_EVENT_CLOCK_MCP_STOPWATCH_TIMER,
   ([6; 0; 1; 0; opr_code opr] ++ match elapsed with Some e => [14; 0; 4; 0] ++ le_bytes 4 e | None => [] end)%list).

(** What an operation at instant [t] does: refuse, or move to new marks, send
    an event and give a snapshot. *)
Definition sw_spec (op : sw_op) (m : marks) (t : TIME_T)
    : OPERATE_RET + marks * option (WUKONG_AI_EVENT_TYPE_E * list Z) * option WUKONG_TM_STOPWATCH_STATE_T :=
  let elapsed := Some (u32 (running_time m t)) in
  match op, m with
  | SwStart, [] => inr ([t], Some (sw_event WUKONG_TM_TIMER_OPR_START None), None)
  | SwStart, _ => inl OPRT_COM_ERROR
  | SwPause, _ => if runs m then inr ((m ++ [t])%list, Some (sw_event WUKONG_TM_TIMER_OPR_PAUSE elapsed), None)
                  else inl OPRT_NOT_SUPPORTED
  | SwResume, [] => inl OPRT_NOT_SUPPORTED
  | SwResume, _ => if runs m then inl OPRT_NOT_SUPPORTED
                   else inr ((m ++ [t])%list, Some (sw_event WUKONG_TM_TIMER_OPR_RESUME None), None)
  | SwStop, [] | SwReset, [] => inl OPRT_NOT_FOUND
  | SwStop, _ => inr ([], Some (sw_event WUKONG_TM_TIMER_OPR_STOP elapsed), None)
  | SwReset, _ => inr ([], Some (sw_event WUKONG_TM_TIMER_OPR_RESET elapsed), None)
  | SwQuery false, _ => inl OPRT_INVALID_PARM
  | SwQuery true, [] => inl OPRT_NOT_FOUND
  | SwQuery true, _ => inr (m, None, Some (mk_sw_state true (negb (runs m)) (u32 (running_time m t))))
  end.

Section Correct.
Context {W : Type} `{TL : TmHostLaws W}.
Abbreviation M := (C (WUKONG_TM_STOPWATCH_CTX_T * W)).

Definition run_sw (op : sw_op) : M (OPERATE_RET * option WUKONG_TM_STOPWATCH_STATE_T) :=
  let plain (m : M OPERATE_RET) := let* rt := m in cret (rt, None) in
  match op with
  | SwStart => plain wukong_tm_stopwatch_start
  | SwPause => plain wukong_tm_stopwatch_pause
  | SwResume => plain wukong_tm_stopwatch_resume
  | SwStop => plain wukong_tm_stopwatch_stop
  | SwReset => plain wukong_tm_stopwatch_reset
  | SwQuery state => wukong_tm_stopwatch_query state
  end.

(** The session an active context is in, before and after a mark. *)
Lemma running_time_app m t now : running_time (m ++ [t]) now =
  if runs m then running_time m t else running_time m now + (now - t).
Proof.
  revert now. enough (forall n m now, (length m <= n)%nat -> running_time (m ++ [t]) now =
    if runs m then running_time m t else running_time m now + (now - t)) by eauto.
  clear m. induction n as [|n IH]; intros [|a [|b m]] now Hn; cbn in Hn; try lia; cbn; try lia.
  rewrite IH by lia. destruct (runs m); lia.
Qed.

Lemma runs_app m t : runs (m ++ [t]) = negb (runs m).
Proof.
  enough (forall n m, (length m <= n)%nat -> runs (m ++ [t]) = negb (runs m)) by eauto.
  clear m. induction n as [|n IH]; intros [|a [|b m]] Hn; cbn in Hn; try lia; try done. cbn. apply IH. lia.
Qed.

(** A paused session does not depend on the clock. *)
Lemma running_time_paused m now now' : runs m = false -> running_time m now = running_time m now'.
Proof.
  enough (forall n m, (length m <= n)%nat -> runs m = false -> running_time m now = running_time m now') by eauto.
  clear m. induction n as [|n IH]; intros [|a [|b m]] Hn Hr; cbn in Hn, Hr; try lia; try done.
  cbn. rewrite IH; [done|lia|done].
Qed.

Lemma elapsed_wp cx m w (Q : TIME_T -> WUKONG_TM_STOPWATCH_CTX_T * W -> Prop) :
  th_ok w -> tracks cx m ->
  (forall w', th_ok w' -> th_sent w' = th_sent w -> Q (u32 (running_time m (th_clock w))) (cx, w')) ->
  wp __stopwatch_elapsed_sec Q (cx, w).
Proof.
  intros Hw Ht HQ. unfold __stopwatch_elapsed_sec. tm_steps.
  destruct m as [|t m]; [cbn in Ht; rewrite Ht; cbn [negb]; wp_step; by apply HQ|].
  destruct Ht as (-> & -> & He). cbn [negb]. specialize (He (th_clock w)). destruct (runs (t :: m)); cbn [negb].
  - wp_step. apply wp_host. eapply wp_mono; [by apply th_posix_law|]. intros now w' (? & ? & -> & _).
    wp_step. rewrite <- He. by apply HQ.
  - wp_step. rewrite <- He. by apply HQ.
Qed.

(** Sending an event; the clock is [th_clock w] when the event carries the
    elapsed time. *)
Lemma sw_emit_wp cx m w opr (b : bool) (Q : OPERATE_RET -> WUKONG_TM_STOPWATCH_CTX_T * W -> Prop) :
  th_ok w -> tracks cx m ->
  (forall rt w', th_ok w' ->
     (rt = OPRT_OK /\ th_sent w' = sw_event opr (if b then Some (u32 (running_time m (th_clock w))) else None) :: th_sent w \/
      rt = OPRT_MALLOC_FAILED /\ th_sent w' = th_sent w /\ ~ th_ample) -> Q rt (cx, w')) ->
  wp (__stopwatch_emit_event opr b) Q (cx, w).
Proof.
  intros Hw Ht HQ. unfold __stopwatch_emit_event. wp_step.
  assert (Hrest : forall (v : TIME_T) w1, th_ok w1 -> th_sent w1 = th_sent w ->
    (b = true -> v = u32 (running_time m (th_clock w))) ->
    wp (let* ok := on_host th_malloc in
        if negb ok then cret OPRT_MALLOC_FAILED
        else
          let msg := __tm_tlv_pack [] (tag_code WUKONG_TM_TAG_STOPWATCH_OPR) 1 (le_bytes 4 (opr_code opr)) in
          let msg := if b then __tm_tlv_pack msg (tag_code WUKONG_TM_TAG_STOPWATCH_ELAPSED_SEC) 4 (le_bytes 4 v) else msg in
          let* _ := __stopwatch_elapsed_sec in
          let* _ := on_host (wukong_ai_event_notify WUKONG_AI_EVENT_CLOCK_MCP_STOPWATCH_TIMER msg) in
          cret OPRT_OK) Q (cx, w1)).
  { intros v w1 Hw1 Hs1 Hv. wp_step. apply malloc_ample_wp; [done|]. intros ok w2 Hw2 Hs2 Hample.
    destruct ok; cbn [negb]; [|wp_step; apply HQ; [done|right; split_and!; [done|congruence|by apply Hample]]].
    cbv zeta. wp_step. eapply elapsed_wp; [done|done|]. intros w3 Hw3 Hs3. wp_step. apply wp_host.
    eapply wp_mono; [by apply th_notify_law|]. intros _ w4 [Hw4 Hs4]. wp_step. apply HQ; [done|].
    left. split; [done|]. rewrite Hs4, Hs3, Hs2, Hs1. f_equal. unfold sw_event. f_equal.
    destruct b; [rewrite Hv by done|]; by destruct opr. }
  destruct b.
  - wp_step. eapply elapsed_wp; [done|done|]. intros w' Hw' Hs'. wp_step. apply Hrest; [done|done|]. intros _.
    pose proof (u32_range (running_time m (th_clock w))) as Hr. unfold is_u32 in Hr.
    destruct (Z.ltb_spec (u32 (running_time m (th_clock w))) 0); [lia|]. apply u32_idem.
  - wp_step. by apply (Hrest 0).
Qed.

(** The outcome of an operation against its specification. *)
Definition sw_outcome (op : sw_op) (m : marks) cx w (r : OPERATE_RET * option WUKONG_TM_STOPWATCH_STATE_T)
    (s' : WUKONG_TM_STOPWATCH_CTX_T * W) : Prop :=
  th_ok (snd s') /\
  match sw_spec op m (th_clock w) with
  | inl rt => r = (rt, None) /\ s' = (cx, w)
  | inr (m', event, snapshot) =>
      snd r = snapshot /\ tracks (fst s') m' /\
      match event with
      | None => fst r = OPRT_OK /\ th_sent (snd s') = th_sent w
      | Some e => fst r = OPRT_OK /\ th_sent (snd s') = e :: th_sent w \/
                  fst r = OPRT_MALLOC_FAILED /\ th_sent (snd s') = th_sent w /\ ~ th_ample
      end
  end.

Lemma tracks_start cx t : is_u32 t -> tracks (mk_sw (sw_initialized cx) true false t 0) [t].
Proof. intros Ht. split_and!; try done. intros now. cbn. by rewrite Z.add_0_l, u32_idem. Qed.

(** Closing the two ends of an operation that sends an event. *)
Lemma outcome_event op m cx w r rt cx' w' m' e :
  sw_spec op m (th_clock w) = inr (m', Some e, None) -> th_ok w' -> tracks cx' m' ->
  (rt = OPRT_OK /\ th_sent w' = e :: th_sent w \/ rt = OPRT_MALLOC_FAILED /\ th_sent w' = th_sent w /\ ~ th_ample) ->
  r = (rt, None) -> sw_outcome op m cx w r (cx', w').
Proof. intros Hs Hw Ht Hev ->. split; [done|]. by rewrite Hs. Qed.

Lemma outcome_refused op m cx w rt :
  sw_spec op m (th_clock w) = inl rt -> th_ok w -> sw_outcome op m cx w (rt, None) (cx, w).
Proof. intros Hs Hw. split; [done|]. by rewrite Hs. Qed.

Lemma sw_start_wp cx m w : th_ok w -> tracks cx m -> wp (run_sw SwStart) (sw_outcome SwStart m cx w) (cx, w).
Proof.
  intros Hw Ht. cbn [run_sw]. unfold wukong_tm_stopwatch_start. wp_steps. tm_steps.
  destruct m as [|t0 m]; [cbn in Ht; rewrite Ht|destruct Ht as (-> & _)].
  - tm_step. apply posix_wp; [done|]. intros w1 Hw1 Hs1 Ht1. tm_steps.
    apply (sw_emit_wp _ [th_clock w]); [done|by apply tracks_start|]. intros rt w2 Hw2 Hev. wp_step.
    eapply outcome_event; [done|done|by apply tracks_start|by rewrite <- Hs1|done].
  - wp_steps. by apply outcome_refused.
Qed.

Lemma sw_pause_wp cx m w : th_ok w -> tracks cx m -> wp (run_sw SwPause) (sw_outcome SwPause m cx w) (cx, w).
Proof.
  intros Hw Ht. cbn [run_sw]. unfold wukong_tm_stopwatch_pause. wp_steps. tm_steps.
  assert (Hcase : runs m = false /\ negb (sw_active cx) || sw_paused cx = true \/
                  runs m = true /\ sw_active cx = true /\ sw_paused cx = false).
  { destruct m as [|t0 m]; [cbn in Ht; rewrite Ht; by left|]. destruct Ht as (-> & -> & _).
    destruct (runs (t0 :: m)); [by right | by left]. }
  destruct Hcase as [[Hr ->]|(Hr & Ha & Hp)].
  { wp_steps. apply outcome_refused; [cbn [sw_spec]; by rewrite Hr | done]. }
  rewrite Ha, Hp. cbn [negb orb]. tm_step. apply posix_wp; [done|]. intros w1 Hw1 Hs1 Ht1. tm_steps.
  assert (Hacc : u32 (running_time m (th_clock w)) =
    u32 (sw_paused_elapsed_sec cx + u32 (th_clock w - sw_start_ts cx))).
  { destruct m as [|t0 m]; [done|]. destruct Ht as (_ & _ & He). specialize (He (th_clock w)). by rewrite Hr in He. }
  set (cx1 := mk_sw _ _ _ _ _). assert (Ht' : tracks cx1 (m ++ [th_clock w])).
  { destruct m as [|t0 m]; [done|]. split_and!; [done|change (true = negb (runs ((t0 :: m) ++ [th_clock w])))|].
    - by rewrite runs_app, Hr.
    - intros now. change (t0 :: m ++ [th_clock w])%list with ((t0 :: m) ++ [th_clock w])%list.
      rewrite runs_app, running_time_app, Hr. cbn [negb]. by rewrite Hacc. }
  apply (sw_emit_wp _ (m ++ [th_clock w])); [done|done|]. intros rt w2 Hw2 Hev. wp_step.
  rewrite running_time_app, Hr, Hs1 in Hev.
  eapply outcome_event; [cbn [sw_spec]; by rewrite Hr|done|done|done|done].
Qed.

Lemma sw_resume_wp cx m w : th_ok w -> tracks cx m -> wp (run_sw SwResume) (sw_outcome SwResume m cx w) (cx, w).
Proof.
  intros Hw Ht. cbn [run_sw]. unfold wukong_tm_stopwatch_resume. wp_steps. tm_steps.
  destruct m as [|t0 m]; [cbn in Ht; rewrite Ht; cbn [negb orb]; wp_steps; by apply outcome_refused|].
  destruct Ht as (Ha & Hp & He). rewrite Ha, Hp, negb_involutive. cbn [negb orb].
  destruct (runs (t0 :: m)) eqn:Hr.
  { wp_steps. apply outcome_refused; [cbn [sw_spec]; by rewrite Hr | done]. }
  tm_step. apply posix_wp; [done|]. intros w1 Hw1 Hs1 Ht1. tm_steps.
  set (cx1 := mk_sw _ _ _ _ _). assert (Ht' : tracks cx1 ((t0 :: m) ++ [th_clock w])).
  { split_and!; [done|change (false = negb (runs ((t0 :: m) ++ [th_clock w])))|].
    - by rewrite runs_app, Hr.
    - intros now. change (t0 :: m ++ [th_clock w])%list with ((t0 :: m) ++ [th_clock w])%list.
      rewrite runs_app, running_time_app, Hr. cbn [negb sw_paused_elapsed_sec sw_start_ts cx1].
      by rewrite <- (He now), u32_add. }
  apply (sw_emit_wp _ ((t0 :: m) ++ [th_clock w])); [done|done|]. intros rt w2 Hw2 Hev. wp_step.
  rewrite Hs1 in Hev. eapply outcome_event; [cbn [sw_spec]; by rewrite Hr|done|done|done|done].
Qed.

(** Stopping and resetting differ in the event only. *)
Lemma sw_end_wp op opr cx m w :
  (op = SwStop /\ opr = WUKONG_TM_TIMER_OPR_STOP \/ op = SwReset /\ opr = WUKONG_TM_TIMER_OPR_RESET) ->
  th_ok w -> tracks cx m -> wp (run_sw op) (sw_outcome op m cx w) (cx, w).
Proof.
  intros Hop Hw Ht.
  replace (run_sw op) with (let* rt := (let* cx := get_ctx in
    if negb (sw_active cx) then cret OPRT_NOT_FOUND
    else let* rt := __stopwatch_emit_event opr true in
         let* _ := mod_ctx (fun cx => mk_sw (sw_initialized cx) false false 0 0) in cret rt) in
    cret (rt, @None WUKONG_TM_STOPWATCH_STATE_T)) by (destruct Hop as [[-> ->]|[-> ->]]; reflexivity).
  tm_steps. destruct m as [|t0 m].
  { cbn in Ht. rewrite Ht. cbn [negb]. wp_steps. apply outcome_refused; [|done]. by destruct Hop as [[-> ->]|[-> ->]]. }
  destruct (Ht) as (-> & _). cbn [negb]. wp_step. apply (sw_emit_wp _ (t0 :: m)); [done|done|].
  intros rt w2 Hw2 Hev. tm_steps. eapply (outcome_event _ _ _ _ _ _ _ _ []); [|done|done|exact Hev|done].
  by destruct Hop as [[-> ->]|[-> ->]].
Qed.

Lemma sw_query_wp b cx m w : th_ok w -> tracks cx m ->
  wp (run_sw (SwQuery b)) (sw_outcome (SwQuery b) m cx w) (cx, w).
Proof.
  intros Hw Ht. cbn [run_sw]. unfold wukong_tm_stopwatch_query.
  destruct b; cbn [negb]; [|wp_step; by apply outcome_refused]. tm_steps.
  destruct m as [|t0 m]; [cbn in Ht; rewrite Ht; cbn [negb]; wp_step; by apply outcome_refused|].
  destruct (Ht) as (-> & Hp & _). cbn [negb]. wp_step. apply (elapsed_wp _ (t0 :: m)); [done|done|].
  intros w1 Hw1 Hs1. wp_step. split; [done|]. cbn [sw_spec]. rewrite Hp. by split_and!.
Qed.

Lemma sw_op_wp op cx m w : th_ok w -> tracks cx m -> wp (run_sw op) (sw_outcome op m cx w) (cx, w).
Proof.
  intros Hw Ht. destruct op as [| | | | |b].
  - by apply sw_start_wp.
  - by apply sw_pause_wp.
  - by apply sw_resume_wp.
  - by apply (sw_end_wp SwStop WUKONG_TM_TIMER_OPR_STOP); [left|..].
  - by apply (sw_end_wp SwReset WUKONG_TM_TIMER_OPR_RESET); [right|..].
  - by apply sw_query_wp.
Qed.

(** C26. The stopwatch measures running time: through any sequence of
    operations its context represents the instants at which the session was
    started, paused and resumed; every operation accepts exactly the states it
    should, moves to the right one, and the elapsed time it reports (in events
    and queries, modulo 2^32 seconds) is the sum of the running intervals,
    pauses excluded. Only a failed allocation keeps an event from being sent,
    and the state then moves on all the same. *)
Theorem stopwatch_measures_running_time op cx m w :
  th_ok w -> tracks cx m ->
  exists r s', run_sw op (cx, w) = Some (r, s') /\ sw_outcome op m cx w r s'.
Proof. intros Hw Ht. by apply wp_elim, sw_op_wp. Qed.

End Correct.
