(* ===== verification/TmCountdown.v ===== *)
(** The countdown timer of src/wukong/tm/wukong_tm_countdown.c. *)
From S2P Require Import Prelude.
From S2P Require Import Calendar.
From S2P Require Import CStr.
From S2P Require Import World.
From S2P Require Import Json.
From S2P Require Import TmHost.

#[local] Open Scope string_scope.
#[local] Open Scope Z_scope.

Definition WUKONG_TM_COUNTDOWN_TICK_METHOD : string := "tm.countdown.tick".
Definition WUKONG_TM_COUNTDOWN_JOB_ID_LEN : nat := 32.

Inductive WUKONG_TM_COUNTDOWN_STATE_E :=
| WUKONG_TM_COUNTDOWN_STATE_IDLE | WUKONG_TM_COUNTDOWN_STATE_RUNNING | WUKONG_TM_COUNTDOWN_STATE_PAUSED.

#[export] Instance countdown_state_eq_dec : EqDecision WUKONG_TM_COUNTDOWN_STATE_E.
Proof. solve_decision. Defined.

Record WUKONG_TM_COUNTDOWN_CTX_T := mk_cd {
  cd_initialized : bool; cd_next_handle : Z; cd_handle : Z; cd_state : WUKONG_TM_COUNTDOWN_STATE_E;
  cd_duration_sec : TIME_T; cd_target_ts : TIME_T; cd_paused_remaining_sec : TIME_T;
  cd_cron_job_id : string }.

Definition cd_zero : WUKONG_TM_COUNTDOWN_CTX_T := mk_cd false 0 0 WUKONG_TM_COUNTDOWN_STATE_IDLE 0 0 0 "".

Definition cd_set_job (id : string) (cx : WUKONG_TM_COUNTDOWN_CTX_T) : WUKONG_TM_COUNTDOWN_CTX_T :=
  mk_cd (cd_initialized cx) (cd_next_handle cx) (cd_handle cx) (cd_state cx) (cd_duration_sec cx)
    (cd_target_ts cx) (cd_paused_remaining_sec cx) id.
Definition cd_set_state (st : WUKONG_TM_COUNTDOWN_STATE_E) (target remaining : TIME_T)
    (cx : WUKONG_TM_COUNTDOWN_CTX_T) : WUKONG_TM_COUNTDOWN_CTX_T :=
  mk_cd (cd_initialized cx) (cd_next_handle cx) (cd_handle cx) st (cd_duration_sec cx) target remaining
    (cd_cron_job_id cx).

Record WUKONG_TM_COUNTDOWN_SNAPSHOT_T := mk_cd_snapshot {
  sn_active : bool; sn_state : WUKONG_TM_COUNTDOWN_STATE_E;
  sn_remaining_sec : TIME_T; sn_duration_sec : TIME_T; sn_elapsed_sec : TIME_T }.

Section Countdown.
Context {W : Type} `{TH : TmHost W} `{TS : TimeService}.
Abbreviation M := (C (WUKONG_TM_COUNTDOWN_CTX_T * W)).

(** The bytes of an event, and the size the code allocates for them. *)
Definition countdown_msg (handle : Z) (opr : WUKONG_TM_TIMER_OPR_E) (remaining_sec duration_sec : TIME_T)
    : list Z * nat :=
  let remaining_sec := if remaining_sec <? 0 then 0 else remaining_sec in
  let remaining_value := u32 remaining_sec in
  let pack_elapsed := bool_decide (opr = WUKONG_TM_TIMER_OPR_PAUSE) in
  let elapsed_sec := u32 (duration_sec - remaining_sec) in
  let elapsed_value := u32 (if elapsed_sec <? 0 then 0 else elapsed_sec) in
  let hours := i32 (remaining_sec / 3600) in
  let minutes := i32 ((remaining_sec mod 3600) / 60) in
  let seconds := i32 (remaining_sec mod 60) in
  let len := (4 * (WUKONG_TM_TLV_TL_LEN + 1) + 2 * (WUKONG_TM_TLV_TL_LEN + 4))%nat in
  let len := if pack_elapsed then (len + (WUKONG_TM_TLV_TL_LEN + 4))%nat else len in
  let msg := __tm_tlv_pack [] (tag_code WUKONG_TM_TAG_COUNTDOWN_OPR) 1 (le_bytes 4 (opr_code opr)) in
  let msg := __tm_tlv_pack msg (tag_code WUKONG_TM_TAG_COUNTDOWN_HOUR) 1 (le_bytes 4 hours) in
  let msg := __tm_tlv_pack msg (tag_code WUKONG_TM_TAG_COUNTDOWN_MINUTE) 1 (le_bytes 4 minutes) in
  let msg := __tm_tlv_pack msg (tag_code WUKONG_TM_TAG_COUNTDOWN_SECOND) 1 (le_bytes 4 seconds) in
  let msg := __tm_tlv_pack msg (tag_code WUKONG_TM_TAG_COUNTDOWN_HANDLE) 4 (le_bytes 4 handle) in
  let msg := __tm_tlv_pack msg (tag_code WUKONG_TM_TAG_COUNTDOWN_REMAINING_SEC) 4 (le_bytes 4 remaining_value) in
  let msg := if pack_elapsed
    then __tm_tlv_pack msg (tag_code WUKONG_TM_TAG_COUNTDOWN_ELAPSED_SEC) 4 (le_bytes 4 elapsed_value)
    else msg in
  (msg, len).

Definition __countdown_emit_event (handle : Z) (opr : WUKONG_TM_TIMER_OPR_E) (remaining_sec : TIME_T) : M OPERATE_RET :=
  let* cx := get_ctx in
  let* ok := on_host th_malloc in
  if negb ok then cret OPRT_MALLOC_FAILED
  else
    let* _ := on_host (wukong_ai_event_notify WUKONG_AI_EVENT_CLOCK_MCP_COUNTDOWN_TIMER
                         (fst (countdown_msg handle opr remaining_sec (cd_duration_sec cx)))) in
    cret OPRT_OK.

Definition __countdown_exists (cx : WUKONG_TM_COUNTDOWN_CTX_T) : bool :=
  negb (bool_decide (cd_state cx = WUKONG_TM_COUNTDOWN_STATE_IDLE)).

Definition __countdown_remaining : M TIME_T :=
  let* now := on_host th_posix in
  let* cx := get_ctx in
  if bool_decide (cd_state cx = WUKONG_TM_COUNTDOWN_STATE_PAUSED) then
    cret (if 0 <? cd_paused_remaining_sec cx then cd_paused_remaining_sec cx else 0)
  else if negb (bool_decide (cd_state cx = WUKONG_TM_COUNTDOWN_STATE_RUNNING)) then cret 0
  else if cd_target_ts cx <=? now then cret 0
  else cret (u32 (cd_target_ts cx - now)).

Definition __countdown_step_from_remaining (remaining_sec : TIME_T) : TIME_T :=
  if 3600 <? remaining_sec then 3600
  else if 600 <? remaining_sec then 60
  else if 10 <? remaining_sec then 10
  else 1.

Definition __countdown_build_cron_expr (target_ts : TIME_T) (cron_expr_len : nat) : OPERATE_RET * string :=
  build_cron_expr target_ts cron_expr_len.

Definition __countdown_remove_bound_cron : M unit :=
  let* cx := get_ctx in
  if String.eqb (cd_cron_job_id cx) "" then cret tt
  else
    let* _ := on_host (th_job_remove (cd_cron_job_id cx)) in
    mod_ctx (cd_set_job "").

Definition countdown_job_json (cron_expr : string) (handle : Z) : string :=
  strtrunc 383 (once_job_json "tm-countdown" cron_expr "tm-countdown-" WUKONG_TM_COUNTDOWN_TICK_METHOD "handle" handle).

Definition __countdown_schedule_next_tick (remaining_sec : TIME_T) : M OPERATE_RET :=
  if remaining_sec <=? 0 then cret OPRT_OK
  else
    let step := __countdown_step_from_remaining remaining_sec in
    let step := if remaining_sec <? step then remaining_sec else step in
    let* now := on_host th_posix in
    let next_fire_ts := u32 (now + step) in
    let '(rt, cron_expr) := __countdown_build_cron_expr next_fire_ts 32 in
    if negb (rt =? OPRT_OK) then cret rt
    else
      let* _ := __countdown_remove_bound_cron in
      let* cx := get_ctx in
      let* (rt, job_id) := on_host (th_job_add (countdown_job_json cron_expr (cd_handle cx))
                                      (WUKONG_TM_COUNTDOWN_JOB_ID_LEN + 1)) in
      if negb (rt =? OPRT_OK) then cret rt
      else
        let* _ := mod_ctx (cd_set_job (strtrunc WUKONG_TM_COUNTDOWN_JOB_ID_LEN job_id)) in
        cret OPRT_OK.

Definition __countdown_reset : M unit :=
  mod_ctx (fun cx =>
    mk_cd (cd_initialized cx) (if cd_next_handle cx =? 0 then 1 else cd_next_handle cx) 0
      WUKONG_TM_COUNTDOWN_STATE_IDLE 0 0 0 "").

(** Result: return code and the result object (the caller's pointer is never
    NULL). *)
Definition __countdown_tick_handler (params : option cJSON) : M (OPERATE_RET * option cJSON) :=
  match params with
  | None => cret (OPRT_INVALID_PARM, None)
  | Some params =>
      match ty_cJSON_GetObjectItem params "handle" with
      | Some (JNumber n) =>
          let handle := u32 (valueint n) in
          let* cx := get_ctx in
          if negb (__countdown_exists cx) || negb (handle =? cd_handle cx) ||
             negb (bool_decide (cd_state cx = WUKONG_TM_COUNTDOWN_STATE_RUNNING))
          then cret (OPRT_NOT_FOUND, None)
          else
            let* _ := mod_ctx (cd_set_job "") in
            let* remaining_sec := __countdown_remaining in
            let* result := (
              let* ok := on_host th_malloc in
              if negb ok then cret None
              else
                let* obj := result_add (JObject []) "handle" (JNumber (i32 handle)) in
                let* obj := result_add obj "remaining_sec" (JNumber (i32 remaining_sec)) in
                cret (Some obj)) in
            if remaining_sec <=? 0 then
              let* _ := __countdown_emit_event (cd_handle cx) WUKONG_TM_TIMER_OPR_FINISH 0 in
              let* _ := __countdown_reset in
              cret (OPRT_OK, result)
            else
              let* _ := __countdown_emit_event (cd_handle cx) WUKONG_TM_TIMER_OPR_TICK remaining_sec in
              let* rt := __countdown_schedule_next_tick remaining_sec in
              let* _ := (if negb (rt =? OPRT_OK) then __countdown_reset else cret tt) in
              cret (rt, result)
      | _ => cret (OPRT_INVALID_PARM, None)
      end
  end.

Definition wukong_tm_countdown_init : M OPERATE_RET :=
  let* cx := get_ctx in
  if cd_initialized cx then cret OPRT_OK
  else
    let* _ := put_ctx (mk_cd true 1 0 WUKONG_TM_COUNTDOWN_STATE_IDLE 0 0 0 "") in
    on_host (th_register WUKONG_TM_COUNTDOWN_TICK_METHOD COUNTDOWN_TICK_HANDLER).

Definition wukong_tm_countdown_deinit : M OPERATE_RET :=
  let* cx := get_ctx in
  if negb (cd_initialized cx) then cret OPRT_OK
  else
    let* _ := __countdown_remove_bound_cron in
    let* _ := on_host (th_unregister WUKONG_TM_COUNTDOWN_TICK_METHOD) in
    let* _ := put_ctx cd_zero in
    cret OPRT_OK.

Definition countdown_total (hours minutes seconds : Z) : TIME_T :=
  u32 (u32 (u32 (u32 hours * 3600) + u32 (u32 minutes * 60)) + u32 seconds).

Definition wukong_tm_countdown_create (hours minutes seconds : Z) : M OPERATE_RET :=
  let* cx := get_ctx in
  if negb (cd_initialized cx) then cret OPRT_COM_ERROR
  else if __countdown_exists cx then cret OPRT_COM_ERROR
  else if (hours <? 0) || (minutes <? 0) || (seconds <? 0) then cret OPRT_INVALID_PARM
  else
    let total_sec := countdown_total hours minutes seconds in
    if total_sec <=? 0 then cret OPRT_INVALID_PARM
    else
      let* now := on_host th_posix in
      let* _ := put_ctx (mk_cd (cd_initialized cx) (u32 (cd_next_handle cx + 1)) (cd_next_handle cx)
                           WUKONG_TM_COUNTDOWN_STATE_RUNNING total_sec (u32 (now + total_sec)) total_sec
                           (cd_cron_job_id cx)) in
      let* rt := __countdown_emit_event (cd_next_handle cx) WUKONG_TM_TIMER_OPR_START total_sec in
      if negb (rt =? OPRT_OK) then let* _ := __countdown_reset in cret rt
      else
        let* rt := __countdown_schedule_next_tick total_sec in
        if negb (rt =? OPRT_OK) then let* _ := __countdown_reset in cret rt else cret OPRT_OK.

Definition wukong_tm_countdown_query (snapshot : bool) : M (OPERATE_RET * option WUKONG_TM_COUNTDOWN_SNAPSHOT_T) :=
  if negb snapshot then cret (OPRT_INVALID_PARM, None)
  else
    let* cx := get_ctx in
    if negb (__countdown_exists cx) then cret (OPRT_NOT_FOUND, None)
    else
      let* remaining := __countdown_remaining in
      let elapsed := u32 (cd_duration_sec cx - remaining) in
      let elapsed := if elapsed <? 0 then 0 else elapsed in
      cret (OPRT_OK, Some (mk_cd_snapshot true (cd_state cx) remaining (cd_duration_sec cx) elapsed)).

Definition wukong_tm_countdown_pause : M OPERATE_RET :=
  let* cx := get_ctx in
  if negb (__countdown_exists cx) then cret OPRT_NOT_FOUND
  else if negb (bool_decide (cd_state cx = WUKONG_TM_COUNTDOWN_STATE_RUNNING)) then cret OPRT_COM_ERROR
  else
    let* remaining := __countdown_remaining in
    let* _ := mod_ctx (fun cx => cd_set_state (cd_state cx) (cd_target_ts cx) remaining cx) in
    let* _ := __countdown_remove_bound_cron in
    let* _ := mod_ctx (fun cx => cd_set_state WUKONG_TM_COUNTDOWN_STATE_PAUSED (cd_target_ts cx)
                                   (cd_paused_remaining_sec cx) cx) in
    __countdown_emit_event (cd_handle cx) WUKONG_TM_TIMER_OPR_PAUSE remaining.

Definition wukong_tm_countdown_resume : M OPERATE_RET :=
  let* cx := get_ctx in
  if negb (__countdown_exists cx) then cret OPRT_NOT_FOUND
  else if negb (bool_decide (cd_state cx = WUKONG_TM_COUNTDOWN_STATE_PAUSED)) then cret OPRT_COM_ERROR
  else if cd_paused_remaining_sec cx <=? 0 then
    let* rt := __countdown_emit_event (cd_handle cx) WUKONG_TM_TIMER_OPR_FINISH 0 in
    let* _ := __countdown_reset in
    cret rt
  else
    let* now := on_host th_posix in
    let* _ := put_ctx (cd_set_state WUKONG_TM_COUNTDOWN_STATE_RUNNING (u32 (now + cd_paused_remaining_sec cx))
                         (cd_paused_remaining_sec cx) cx) in
    let* rt := __countdown_emit_event (cd_handle cx) WUKONG_TM_TIMER_OPR_RESUME (cd_paused_remaining_sec cx) in
    if negb (rt =? OPRT_OK) then let* _ := __countdown_reset in cret rt
    else
      let* rt := __countdown_schedule_next_tick (cd_paused_remaining_sec cx) in
      let* _ := (if negb (rt =? OPRT_OK) then __countdown_reset else cret tt) in
      cret rt.

Definition wukong_tm_countdown_delete : M OPERATE_RET :=
  let* cx := get_ctx in
  if negb (__countdown_exists cx) then cret OPRT_NOT_FOUND
  else
    let* remaining_sec := __countdown_remaining in
    let* _ := __countdown_remove_bound_cron in
    let* rt := __countdown_emit_event (cd_handle cx) WUKONG_TM_TIMER_OPR_STOP remaining_sec in
    let* _ := __countdown_reset in
    cret rt.

End Countdown.
