(* ===== verification/TmCountdownCorrect.v ===== *)
(** The countdown timer refines an abstract countdown: idle, running towards
    an instant, or paused with some time left. *)
From stdpp Require Import gmultiset strings sorting.
From S2P Require Import Prelude.
From S2P Require Import Calendar.
From S2P Require Import CStr.
From S2P Require Import World.
From S2P Require Import Json.
From S2P Require Import TmHost.
From S2P Require Import TmCountdown.

#[local] Open Scope string_scope.
#[local] Open Scope Z_scope.

(** ** The abstract countdown *)

Inductive countdown :=
| Idle
| Running (handle : Z) (duration target : TIME_T)
| Paused (handle : Z) (duration remaining : TIME_T).

Inductive cd_op :=
| CdCreate (hours minutes seconds : Z) | CdPause | CdResume | CdDelete | CdTick (params : option cJSON).

Definition cd_event (handle : Z) (opr : WUKONG_TM_TIMER_OPR_E) (remaining duration : TIME_T)
    : WUKONG_AI_EVENT_TYPE_E * list Z :=
  (WUKONG_AI_EVENT_CLOCK_MCP_COUNTDOWN_TIMER, fst (countdown_msg handle opr remaining duration)).

(** Time left to [target] at [now]. *)
Definition left (target now : TIME_T) : TIME_T := if target <=? now then 0 else target - now.

(** The duration a request asks for, if it is acceptable. *)
Definition requested (hours minutes seconds : Z) : option TIME_T :=
  if (hours <? 0) || (minutes <? 0) || (seconds <? 0) then None
  else let total := countdown_total hours minutes seconds in if total =? 0 then None else Some total.

(** The handle a tick is addressed to. *)
Definition tick_handle (params : option cJSON) : option Z :=
  match params ≫= fun p => ty_cJSON_GetObjectItem p "handle" with
  | Some (JNumber v) => Some (u32 (valueint v))
  | _ => None
  end.

(** [cd_step t next op c rt events next' c']: at instant [t], with [next] the
    next unused handle, the operation returns [rt], sends the events and
    leaves the countdown [c']. An event that cannot be allocated is not sent;
    on a start or resume that, or a tick that cannot be scheduled, ends the
    countdown. *)
Inductive cd_step (t : TIME_T) (next : Z) : cd_op -> countdown ->
    OPERATE_RET -> list (WUKONG_AI_EVENT_TYPE_E * list Z) -> Z -> countdown -> Prop :=
| create_busy h m s c : c <> Idle -> cd_step t next (CdCreate h m s) c OPRT_COM_ERROR [] next c
| create_bad h m s : requested h m s = None ->
    cd_step t next (CdCreate h m s) Idle OPRT_INVALID_PARM [] next Idle
| create_ok h m s total : requested h m s = Some total ->
    cd_step t next (CdCreate h m s) Idle OPRT_OK [cd_event next WUKONG_TM_TIMER_OPR_START total total]
      (u32 (next + 1)) (Running next total (u32 (t + total)))
| create_silent h m s total next' : requested h m s = Some total ->
    cd_step t next (CdCreate h m s) Idle OPRT_MALLOC_FAILED [] next' Idle
| create_unscheduled h m s total rt next' : requested h m s = Some total -> rt <> OPRT_OK ->
    cd_step t next (CdCreate h m s) Idle rt [cd_event next WUKONG_TM_TIMER_OPR_START total total] next' Idle
| pause_idle : cd_step t next CdPause Idle OPRT_NOT_FOUND [] next Idle
| pause_paused h d r : cd_step t next CdPause (Paused h d r) OPRT_COM_ERROR [] next (Paused h d r)
| pause_ok h d target rt events :
    rt = OPRT_OK /\ events = [cd_event h WUKONG_TM_TIMER_OPR_PAUSE (left target t) d] \/
    rt = OPRT_MALLOC_FAILED /\ events = [] ->
    cd_step t next CdPause (Running h d target) rt events next (Paused h d (left target t))
| resume_idle : cd_step t next CdResume Idle OPRT_NOT_FOUND [] next Idle
| resume_running h d target : cd_step t next CdResume (Running h d target) OPRT_COM_ERROR [] next (Running h d target)
| resume_over h d rt events next' :
    rt = OPRT_OK /\ events = [cd_event h WUKONG_TM_TIMER_OPR_FINISH 0 d] \/
    rt = OPRT_MALLOC_FAILED /\ events = [] ->
    cd_step t next CdResume (Paused h d 0) rt events next' Idle
| resume_ok h d r : r <> 0 ->
    cd_step t next CdResume (Paused h d r) OPRT_OK [cd_event h WUKONG_TM_TIMER_OPR_RESUME r d]
      next (Running h d (u32 (t + r)))
| resume_silent h d r next' : r <> 0 -> cd_step t next CdResume (Paused h d r) OPRT_MALLOC_FAILED [] next' Idle
| resume_unscheduled h d r rt next' : r <> 0 -> rt <> OPRT_OK ->
    cd_step t next CdResume (Paused h d r) rt [cd_event h WUKONG_TM_TIMER_OPR_RESUME r d] next' Idle
| delete_idle : cd_step t next CdDelete Idle OPRT_NOT_FOUND [] next Idle
| delete_ok c h d r rt events next' :
    c = Paused h d r \/ (exists target, c = Running h d target /\ r = left target t) ->
    rt = OPRT_OK /\ events = [cd_event h WUKONG_TM_TIMER_OPR_STOP r d] \/
    rt = OPRT_MALLOC_FAILED /\ events = [] ->
    cd_step t next CdDelete c rt events next' Idle
| tick_bad params c : tick_handle params = None -> cd_step t next (CdTick params) c OPRT_INVALID_PARM [] next c
| tick_stale params h c : tick_handle params = Some h -> (forall d target, c <> Running h d target) ->
    cd_step t next (CdTick params) c OPRT_NOT_FOUND [] next c
| tick_finish params h d target events next' : tick_handle params = Some h -> target <= t ->
    events = [cd_event h WUKONG_TM_TIMER_OPR_FINISH 0 d] \/ events = [] ->
    cd_step t next (CdTick params) (Running h d target) OPRT_OK events next' Idle
| tick_ok params h d target events : tick_handle params = Some h -> t < target ->
    events = [cd_event h WUKONG_TM_TIMER_OPR_TICK (target - t) d] \/ events = [] ->
    cd_step t next (CdTick params) (Running h d target) OPRT_OK events next (Running h d target)
| tick_unscheduled params h d target rt events next' : tick_handle params = Some h -> t < target ->
    events = [cd_event h WUKONG_TM_TIMER_OPR_TICK (target - t) d] \/ events = [] -> rt <> OPRT_OK ->
    cd_step t next (CdTick params) (Running h d target) rt events next' Idle.

(** ** Representation *)

(** A tick job is bound exactly while the countdown runs. *)
Record cd_repr (cx : WUKONG_TM_COUNTDOWN_CTX_T) (next : Z) (c : countdown) : Prop := {
  cr_init : cd_initialized cx = true;
  cr_next : cd_next_handle cx = next;
  cr_state :
    match c with
    | Idle => cd_state cx = WUKONG_TM_COUNTDOWN_STATE_IDLE /\ cd_cron_job_id cx = ""
    | Running h d target =>
        cd_state cx = WUKONG_TM_COUNTDOWN_STATE_RUNNING /\ cd_cron_job_id cx <> "" /\
        cd_handle cx = h /\ cd_duration_sec cx = d /\ cd_target_ts cx = target /\ is_u32 target
    | Paused h d r =>
        cd_state cx = WUKONG_TM_COUNTDOWN_STATE_PAUSED /\ cd_cron_job_id cx = "" /\
        cd_handle cx = h /\ cd_duration_sec cx = d /\ cd_paused_remaining_sec cx = r /\ is_u32 r
    end }.

Section Correct.
Context {W : Type} `{TL : TmHostLaws W} `{TS : TimeService}.
Abbreviation CX := WUKONG_TM_COUNTDOWN_CTX_T.

(** The cron service can take the tick jobs. *)
Hypothesis tick_text : forall ts expr h,
  build_cron_expr ts 32 = (OPRT_OK, expr) -> th_job_text (countdown_job_json expr h).

Implicit Types (cx : CX) (w : W).

Lemma cd_emit_wp cx w h opr r (Q : OPERATE_RET -> CX * W -> Prop) :
  th_ok w ->
  (forall rt w' events, th_ok w' -> th_sent w' = (events ++ th_sent w)%list ->
     rt = OPRT_OK /\ events = [cd_event h opr r (cd_duration_sec cx)] \/
     rt = OPRT_MALLOC_FAILED /\ events = [] -> Q rt (cx, w')) ->
  wp (__countdown_emit_event h opr r) Q (cx, w).
Proof.
  intros Hw HQ. unfold __countdown_emit_event. tm_steps.
  eapply wp_quiet; [apply th_malloc_law|done|]. intros ok w1 Hw1 Hs1 _. destruct ok; cbn [negb].
  - tm_steps. apply wp_host. eapply wp_mono; [by apply th_notify_law|]. intros _ w2 [Hw2 Hs2]. wp_step.
    apply (HQ OPRT_OK w2 [cd_event h opr r (cd_duration_sec cx)]); [done|by rewrite Hs2, Hs1|by left].
  - wp_step. apply (HQ OPRT_MALLOC_FAILED w1 []); [done|done|by right].
Qed.

Lemma remaining_wp cx w c next (Q : TIME_T -> CX * W -> Prop) :
  th_ok w -> cd_repr cx next c ->
  (forall w', th_ok w' -> th_sent w' = th_sent w ->
     Q (match c with Idle => 0 | Running _ _ target => left target (th_clock w) | Paused _ _ r => r end) (cx, w')) ->
  wp __countdown_remaining Q (cx, w).
Proof.
  intros Hw [_ _ Hc] HQ. unfold __countdown_remaining. wp_step. apply posix_wp; [done|].
  intros w1 Hw1 Hs1 Ht. tm_steps. destruct c as [|h d target|h d r].
  - destruct Hc as (-> & _). cbn. by apply HQ.
  - destruct Hc as (-> & _ & _ & _ & -> & Htgt). cbn [bool_decide negb].
    rewrite bool_decide_eq_false_2, bool_decide_eq_true_2 by done. cbn [negb]. unfold left in HQ.
    unfold is_u32 in *. destruct (Z.leb_spec target (th_clock w)); wp_step; [by apply HQ|].
    rewrite u32_id by (unfold is_u32; lia). by apply HQ.
  - destruct Hc as (-> & _ & _ & _ & -> & Hr). rewrite bool_decide_eq_true_2 by done. wp_step.
    unfold is_u32 in Hr. destruct (Z.ltb_spec 0 r); [by apply HQ|].
    replace 0 with r by lia. by apply HQ.
Qed.

Lemma remove_bound_wp cx w (Q : unit -> CX * W -> Prop) :
  th_ok w ->
  (forall w', th_ok w' -> th_sent w' = th_sent w -> Q tt (cd_set_job "" cx, w')) ->
  wp __countdown_remove_bound_cron Q (cx, w).
Proof.
  intros Hw HQ. unfold __countdown_remove_bound_cron. tm_steps.
  destruct (String.eqb_spec (cd_cron_job_id cx) "") as [He|He].
  - wp_step. replace cx with (cd_set_job "" cx) at 1 by (unfold cd_set_job; rewrite <- He; by destruct cx).
    by apply HQ.
  - tm_steps. eapply wp_quiet; [apply th_job_remove_law|done|]. intros rt w1 Hw1 Hs1 _. tm_steps. by apply HQ.
Qed.

(** Scheduling the next tick binds a job, or fails with an error. *)
Lemma cd_schedule_wp cx w r (Q : OPERATE_RET -> CX * W -> Prop) :
  th_ok w -> 0 < r ->
  (forall w' id, th_ok w' -> th_sent w' = th_sent w -> id <> "" -> Q OPRT_OK (cd_set_job id cx, w')) ->
  (forall rt w' id, th_ok w' -> th_sent w' = th_sent w -> rt <> OPRT_OK -> Q rt (cd_set_job id cx, w')) ->
  wp (__countdown_schedule_next_tick r) Q (cx, w).
Proof.
  intros Hw Hr Hok Herr. unfold __countdown_schedule_next_tick. destruct (Z.leb_spec r 0); [lia|]. cbv zeta.
  wp_step. apply posix_wp; [done|]. intros w1 Hw1 Hs1 _. unfold __countdown_build_cron_expr.
  destruct (build_cron_expr _ 32) as [rt expr] eqn:Hb.
  destruct (Z.eqb_spec rt OPRT_OK) as [->|Hrt]; cbn [negb].
  2:{ wp_step. replace cx with (cd_set_job (cd_cron_job_id cx) cx) at 1 by by destruct cx. by apply Herr. }
  wp_step. apply remove_bound_wp; [done|]. intros w2 Hw2 Hs2. tm_steps.
  eapply wp_quiet; [apply (th_job_add_law _ 32); eapply tick_text; exact Hb|done|].
  intros [rt id] w3 Hw3 Hs3 Hid. cbn [fst snd] in *.
  destruct (Z.eqb_spec rt OPRT_OK) as [->|Hrt]; cbn [negb].
  - tm_steps. change (cd_set_job ?a (cd_set_job ?b cx)) with (cd_set_job a cx).
    apply Hok; [done|congruence|]. apply strtrunc_nonempty; [unfold WUKONG_TM_COUNTDOWN_JOB_ID_LEN; lia|].
    apply Hid; [done|lia].
  - wp_step. apply Herr; [done|congruence|done].
Qed.

Lemma exists_repr cx next c : cd_repr cx next c -> __countdown_exists cx = match c with Idle => false | _ => true end.
Proof.
  intros [_ _ Hc]. unfold __countdown_exists. destruct c; destruct Hc as (-> & _); done.
Qed.

Definition run_cd (op : cd_op) : C (CX * W) OPERATE_RET :=
  match op with
  | CdCreate h m s => wukong_tm_countdown_create h m s
  | CdPause => wukong_tm_countdown_pause
  | CdResume => wukong_tm_countdown_resume
  | CdDelete => wukong_tm_countdown_delete
  | CdTick params => let* (rt, _) := __countdown_tick_handler params in cret rt
  end.

(** The outcome of an operation against the abstract countdown. *)
Definition cd_outcome op (w : W) next c (rt : OPERATE_RET) (s' : CX * W) : Prop :=
  th_ok (snd s') /\ exists next' c' events,
    cd_step (th_clock w) next op c rt events next' c' /\
    cd_repr (fst s') next' c' /\ th_sent (snd s') = (events ++ th_sent w)%list.

Lemma cd_outcome_intro op w next c rt cx' w' next' c' events :
  cd_step (th_clock w) next op c rt events next' c' -> th_ok w' -> cd_repr cx' next' c' ->
  th_sent w' = (events ++ th_sent w)%list -> cd_outcome op w next c rt (cx', w').
Proof. intros. split; [done|]. by exists next', c', events. Qed.

(** Resetting ends in [Idle]. *)
Lemma cd_reset_wp op w next c rt cx w' events :
  cd_initialized cx = true -> th_ok w' -> th_sent w' = (events ++ th_sent w)%list ->
  (forall next', cd_step (th_clock w) next op c rt events next' Idle) ->
  wp (let* _ := __countdown_reset in cret rt) (cd_outcome op w next c) (cx, w').
Proof.
  intros Hi Hw' Hs Hstep. unfold __countdown_reset. tm_steps.
  eapply cd_outcome_intro; [apply Hstep|done| |exact Hs]. by split.
Qed.

Lemma repr_set_job cx next h d target id :
  cd_repr cx next (Running h d target) -> id <> "" -> cd_repr (cd_set_job id cx) next (Running h d target).
Proof. intros [Hi Hn (Hs & _ & Hh & Hd & Ht & Hu)] Hid. by split. Qed.

Lemma create_wp h m s cx w next c : th_ok w -> cd_repr cx next c ->
  wp (run_cd (CdCreate h m s)) (cd_outcome (CdCreate h m s) w next c) (cx, w).
Proof.
  intros Hw Hr. cbn [run_cd]. unfold wukong_tm_countdown_create. tm_steps.
  pose proof (exists_repr _ _ _ Hr) as Hex. destruct (Hr) as [Hi Hn Hc]. rewrite Hi, Hex. cbn [negb].
  destruct c as [|h0 d target|h0 d r];
    [|wp_step; eapply cd_outcome_intro; [by apply create_busy|done..] |wp_step; eapply cd_outcome_intro; [by apply create_busy|done..]].
  assert (Hreq : requested h m s = if (h <? 0) || (m <? 0) || (s <? 0) then None else
    if countdown_total h m s <=? 0 then None else Some (countdown_total h m s)).
  { unfold requested. assert (Hu : is_u32 (countdown_total h m s)) by apply u32_range. unfold is_u32 in Hu.
    cbv zeta. destruct (Z.eqb_spec (countdown_total h m s) 0), (Z.leb_spec (countdown_total h m s) 0);
      first [done | exfalso; lia]. }
  destruct (_ || _ || _); [wp_step; eapply cd_outcome_intro; [by apply create_bad|done..]|]. cbv zeta.
  set (total := countdown_total h m s) in *.
  destruct (Z.leb_spec total 0) as [Hle|Hpos]; [wp_step; eapply cd_outcome_intro; [by apply create_bad|done..]|].
  wp_step. apply posix_wp; [done|]. intros w1 Hw1 Hs1 Ht. rewrite Hn. tm_steps. set (cx1 := mk_cd _ _ _ _ _ _ _ _).
  apply cd_emit_wp; [done|]. intros rt w2 events Hw2 Hs2 Hev. rewrite Hs1 in Hs2.
  destruct Hev as [[-> ->]|[-> ->]]; cbn [negb].
  2:{ eapply cd_reset_wp; [done|done|exact Hs2|]. intros n'. by eapply create_silent. }
  change (negb (OPRT_OK =? OPRT_OK)) with false. cbv beta iota. wp_step. apply cd_schedule_wp; [done|done| |].
  - intros w3 id Hw3 Hs3 Hid. change (negb (OPRT_OK =? OPRT_OK)) with false. cbv beta iota. wp_step.
    eapply cd_outcome_intro; [by apply create_ok|done| |by rewrite Hs3]. split; [done..|]. split_and!; try done.
    apply u32_range.
  - intros rt w3 id Hw3 Hs3 Hrt. destruct (Z.eqb_spec rt OPRT_OK); [done|]. cbn [negb].
    eapply cd_reset_wp; [done|done|by rewrite Hs3|]. intros n'. by eapply create_unscheduled.
Qed.

Lemma cd_pause_wp cx w next c : th_ok w -> cd_repr cx next c ->
  wp (run_cd CdPause) (cd_outcome CdPause w next c) (cx, w).
Proof.
  intros Hw Hr. cbn [run_cd]. unfold wukong_tm_countdown_pause. tm_steps.
  rewrite (exists_repr _ _ _ Hr). destruct (Hr) as [Hi Hn Hc].
  destruct c as [|h d target|h d r]; cbn [negb].
  - wp_step. eapply cd_outcome_intro; [apply pause_idle|done..].
  - destruct Hc as (Hst & Hj & Hh & Hd & Htg & Hu). rewrite bool_decide_eq_true_2 by done. cbn [negb].
    wp_step. eapply remaining_wp; [done|done|]. intros w1 Hw1 Hs1. cbv beta iota. tm_steps.
    apply remove_bound_wp; [done|]. intros w2 Hw2 Hs2. tm_steps.
    apply cd_emit_wp; [done|]. intros rt w3 events Hw3 Hs3 Hev. cbn [cd_duration_sec cd_set_state cd_set_job] in Hev.
    rewrite Hh, Hd in Hev. eapply cd_outcome_intro; [by apply pause_ok|done| |by rewrite Hs3, Hs2, Hs1].
    split; [done..|]. split_and!; try done. unfold left. unfold is_u32 in *.
    destruct (Z.leb_spec target (th_clock w)); [lia|].
    pose proof (th_posix_law w Hw) as Hp. unfold wp in Hp.
    destruct (th_posix w) as [[t w']|]; [|done]. destruct Hp as (_ & _ & -> & Ht). unfold is_u32 in Ht. lia.
  - destruct Hc as (Hst & Hj & Hh & Hd & Hp & Hu). rewrite bool_decide_eq_false_2 by (by rewrite Hst). cbn [negb].
    wp_step. eapply cd_outcome_intro; [apply pause_paused|done..].
Qed.

Lemma cd_resume_wp cx w next c : th_ok w -> cd_repr cx next c ->
  wp (run_cd CdResume) (cd_outcome CdResume w next c) (cx, w).
Proof.
  intros Hw Hr. cbn [run_cd]. unfold wukong_tm_countdown_resume. tm_steps.
  rewrite (exists_repr _ _ _ Hr). destruct (Hr) as [Hi Hn Hc].
  destruct c as [|h d target|h d r]; cbn [negb].
  - wp_step. eapply cd_outcome_intro; [apply resume_idle|done..].
  - destruct Hc as (Hst & Hj & Hh & Hd & Htg & Hu). rewrite bool_decide_eq_false_2 by (by rewrite Hst). cbn [negb].
    wp_step. eapply cd_outcome_intro; [apply resume_running|done..].
  - destruct Hc as (Hst & Hj & Hh & Hd & Hp & Hu). rewrite bool_decide_eq_true_2 by done. cbn [negb].
    rewrite Hp, Hh. unfold is_u32 in Hu. destruct (Z.leb_spec r 0) as [Hle|Hpos].
    + assert (r = 0) as -> by lia. wp_step. apply cd_emit_wp; [done|]. intros rt w1 events Hw1 Hs1 Hev.
      rewrite Hd in Hev. eapply cd_reset_wp; [done|done|exact Hs1|]. intros n'. by apply resume_over.
    + wp_step. apply posix_wp; [done|]. intros w1 Hw1 Hs1 Ht. tm_steps. set (cx1 := cd_set_state _ _ _ cx).
      apply cd_emit_wp; [done|]. intros rt w2 events Hw2 Hs2 Hev. change (cd_duration_sec cx1) with (cd_duration_sec cx) in Hev.
      rewrite Hs1 in Hs2. rewrite Hd in Hev. destruct Hev as [[-> ->]|[-> ->]].
      2:{ change (negb (OPRT_MALLOC_FAILED =? OPRT_OK)) with true. cbv beta iota.
          eapply cd_reset_wp; [done|done|exact Hs2|]. intros n'. apply resume_silent. lia. }
      change (negb (OPRT_OK =? OPRT_OK)) with false. cbv beta iota. wp_step. apply cd_schedule_wp; [done|lia| |].
      * intros w3 id Hw3 Hs3 Hid. change (negb (OPRT_OK =? OPRT_OK)) with false. cbv beta iota. wp_steps.
        eapply cd_outcome_intro; [apply resume_ok; lia|done| |by rewrite Hs3].
        split; [done..|]. split_and!; try done. apply u32_range.
      * intros rt w3 id Hw3 Hs3 Hrt. destruct (Z.eqb_spec rt OPRT_OK); [done|]. cbn [negb].
        eapply cd_reset_wp; [done|done|by rewrite Hs3|]. intros n'. apply resume_unscheduled; [lia|done].
Qed.

Lemma delete_wp cx w next c : th_ok w -> cd_repr cx next c ->
  wp (run_cd CdDelete) (cd_outcome CdDelete w next c) (cx, w).
Proof.
  intros Hw Hr. cbn [run_cd]. unfold wukong_tm_countdown_delete. tm_steps.
  rewrite (exists_repr _ _ _ Hr). destruct (Hr) as [Hi Hn Hc].
  destruct c as [|h d target|h d r]; cbn [negb]; [wp_step; eapply cd_outcome_intro; [apply delete_idle|done..]|..];
    (wp_step; eapply remaining_wp; [done|done|]; intros w1 Hw1 Hs1; cbv beta iota; wp_step;
     apply remove_bound_wp; [done|]; intros w2 Hw2 Hs2; wp_step; apply cd_emit_wp; [done|];
     intros rt w3 events Hw3 Hs3 Hev; cbn [cd_duration_sec cd_set_job] in Hev;
     destruct Hc as (Hst & Hj & Hh & Hd & Hrest); rewrite Hh, Hd in Hev;
     eapply cd_reset_wp; [done|done|by rewrite Hs3, Hs2, Hs1|]; intros n'; eapply delete_ok; [|exact Hev]).
  - right. by exists target.
  - by left.
Qed.

(** Building the result object of the tick changes nothing else. *)
Lemma tick_result_wp cx w h r (Q : option cJSON -> CX * W -> Prop) :
  th_ok w -> (forall res w', th_ok w' -> th_sent w' = th_sent w -> Q res (cx, w')) ->
  wp (let* ok := on_host th_malloc in
      if negb ok then cret None
      else
        let* obj := result_add (JObject []) "handle" h in
        let* obj := result_add obj "remaining_sec" r in
        cret (Some obj)) Q (cx, w).
Proof.
  intros Hw HQ. wp_step. eapply wp_quiet; [apply th_malloc_law|done|]. intros ok w1 Hw1 Hs1 _.
  destruct ok; cbn [negb]; [|wp_step; by apply HQ]. unfold result_add.
  wp_steps. eapply wp_quiet; [apply th_malloc_law|done|]. intros ok2 w2 Hw2 Hs2 _.
  wp_steps. eapply wp_quiet; [apply th_malloc_law|done|]. intros ok3 w3 Hw3 Hs3 _. wp_steps.
  apply HQ; [done|congruence].
Qed.

(** A tick addressed to the running countdown. *)
Lemma tick_running_wp params p v cx w next h d target :
  th_ok w -> cd_repr cx next (Running h d target) ->
  params = Some p -> ty_cJSON_GetObjectItem p "handle" = Some (JNumber v) -> u32 (valueint v) = h ->
  wp (run_cd (CdTick params)) (cd_outcome (CdTick params) w next (Running h d target)) (cx, w).
Proof.
  intros Hw Hr -> Hp Hv. cbn [run_cd]. unfold __countdown_tick_handler. rewrite Hp. tm_steps.
  rewrite (exists_repr _ _ _ Hr). destruct (Hr) as [Hi Hn (Hst & Hj & Hh & Hd & Htg & Hu)].
  assert (Hth : tick_handle (Some p) = Some h) by (unfold tick_handle; cbn; by rewrite Hp, Hv).
  rewrite Hh, Hv, Z.eqb_refl, bool_decide_eq_true_2 by done. cbn [negb orb].
  tm_steps. set (cx1 := cd_set_job "" cx).
  assert (Hrem : forall Q : TIME_T -> CX * W -> Prop,
    (forall w', th_ok w' -> th_sent w' = th_sent w -> Q (left target (th_clock w)) (cx1, w')) ->
    wp __countdown_remaining Q (cx1, w)).
  { intros Q HQ. unfold __countdown_remaining. wp_step. apply posix_wp; [done|]. intros w1 Hw1 Hs1 Ht. tm_steps.
    cbn [cx1 cd_set_job cd_state cd_target_ts]. rewrite Hst, Htg. rewrite bool_decide_eq_false_2 by done.
    cbn [bool_decide]. rewrite bool_decide_eq_true_2 by done. cbn [negb]. unfold left in HQ. unfold is_u32 in *.
    destruct (Z.leb_spec target (th_clock w)); wp_step; [by apply HQ|].
    rewrite u32_id by (unfold is_u32; lia). by apply HQ. }
  apply Hrem. intros w1 Hw1 Hs1. tm_step. apply tick_result_wp; [done|]. intros res w2 Hw2 Hs2.
  unfold left. destruct (Z.leb_spec target (th_clock w)) as [Hle|Hgt].
  - rewrite Z.leb_refl. wp_step. apply cd_emit_wp; [done|]. intros rt w3 events Hw3 Hs3 Hev.
    unfold __countdown_reset. tm_steps.
    eapply cd_outcome_intro; [eapply (tick_finish _ _ _ _ _ _ events); [exact Hth|done|]|done|by split|congruence].
    change (cd_duration_sec cx1) with (cd_duration_sec cx) in Hev. rewrite Hd in Hev. tauto.
  - destruct (Z.leb_spec (target - th_clock w) 0); [lia|]. wp_step. apply cd_emit_wp; [done|].
    intros rt w3 events Hw3 Hs3 Hev. change (cd_duration_sec cx1) with (cd_duration_sec cx) in Hev. rewrite Hd in Hev.
    assert (Hev' : events = [cd_event h WUKONG_TM_TIMER_OPR_TICK (target - th_clock w) d] \/ events = []) by tauto.
    wp_step. apply cd_schedule_wp; [done|lia| |].
    + intros w4 id Hw4 Hs4 Hid. change (negb (OPRT_OK =? OPRT_OK)) with false. cbv beta iota. wp_steps.
      eapply cd_outcome_intro; [by apply tick_ok|done|by apply (repr_set_job cx)|congruence].
    + intros rt2 w4 id Hw4 Hs4 Hrt. destruct (Z.eqb_spec rt2 OPRT_OK); [done|]. cbn [negb].
      unfold __countdown_reset. tm_steps.
      eapply cd_outcome_intro; [by apply (tick_unscheduled _ _ _ _ _ _ _ events)|done|by split|congruence].
Qed.

Lemma tick_wp params cx w next c : th_ok w -> cd_repr cx next c ->
  wp (run_cd (CdTick params)) (cd_outcome (CdTick params) w next c) (cx, w).
Proof.
  intros Hw Hr. destruct params as [p|].
  2:{ cbn [run_cd __countdown_tick_handler]. wp_steps. eapply cd_outcome_intro; [by apply tick_bad|done..]. }
  destruct (ty_cJSON_GetObjectItem p "handle") as [[| |v| | |]|] eqn:Hp;
    try (cbn [run_cd]; unfold __countdown_tick_handler; rewrite Hp; wp_steps;
         eapply cd_outcome_intro; [apply tick_bad; unfold tick_handle; cbn; by rewrite Hp|done..]).
  assert (Hth : tick_handle (Some p) = Some (u32 (valueint v))) by (unfold tick_handle; cbn; by rewrite Hp).
  assert (Hcase : (exists d target, c = Running (u32 (valueint v)) d target) \/ forall d target, c <> Running (u32 (valueint v)) d target).
  { destruct c as [|h d target|]; [by right| |by right].
    destruct (decide (h = u32 (valueint v))) as [->|Hne]; [left; eauto | right; congruence]. }
  destruct Hcase as [(d & target & ->)|Hstale]; [by eapply tick_running_wp|].
  cbn [run_cd]. unfold __countdown_tick_handler. rewrite Hp. tm_steps. rewrite (exists_repr _ _ _ Hr).
  replace (negb _ || _ || _) with true.
  { wp_steps. eapply cd_outcome_intro; [by eapply tick_stale|done..]. }
  destruct (Hr) as [Hi Hn Hc]. destruct c as [|h d target|h d r]; [done| |].
  - destruct Hc as (Hst & _ & -> & _). destruct (Z.eqb_spec (u32 (valueint v)) h) as [He|]; [|done].
    by destruct (Hstale d target); rewrite He.
  - destruct Hc as (Hst & _). rewrite bool_decide_eq_false_2 by (by rewrite Hst). by rewrite orb_true_r.
Qed.

(** ** The jobs of the countdown *)

(** The job named by the id a countdown stores, "" for none. *)
Definition own (id : string) : gmultiset string := if String.eqb id "" then ∅ else {[+ id +]}.

(** Does the countdown [c] take the operation? *)
Definition accepts (op : cd_op) (c : countdown) : bool :=
  match op, c with
  | CdCreate h m s, Idle => bool_decide (is_Some (requested h m s))
  | CdPause, Running _ _ _ | CdResume, Paused _ _ _ => true
  | CdDelete, Running _ _ _ | CdDelete, Paused _ _ _ => true
  | CdTick params, Running h _ _ => bool_decide (tick_handle params = Some h)
  | _, _ => false
  end.

(** The job an operation gives back: the one of a tick has left the service
    when it fires. *)
Definition released (op : cd_op) (id : string) : gmultiset string :=
  match op with CdTick _ => ∅ | _ => own id end.

(** Scheduling from the jobs [J] leaves [J']: the job stored as [id'] is one
    more; when scheduling fails a job the countdown knows nothing of may stay. *)
Definition scheduled (rt : OPERATE_RET) (J : gmultiset string) (id' : string) (J' : gmultiset string) : Prop :=
  exists lost, J' = J ⊎ own id' ⊎ lost /\ (lost = ∅ \/ rt <> OPRT_OK /\ exists id, lost = {[+ id +]}).

(** What an operation does to the jobs of the service, the stored id going from
    [id] to [id']. *)
Definition cd_jobs (op : cd_op) (c : countdown) (rt : OPERATE_RET) (id : string) (J : gmultiset string)
    (id' : string) (J' : gmultiset string) : Prop :=
  if accepts op c then
    match op with
    | CdCreate _ _ _ | CdResume | CdTick _ => scheduled rt (J ∖ released op id) id' J'
    | CdPause | CdDelete => J' = (J ∖ released op id) ⊎ own id'
    end
  else id' = id /\ J' = J.

Section Jobs.
Context {TJ : TmJobs W} {TJL : TmJobsLaws W}.

Lemma jobless_wp {A} (m : C W A) P (Q : A -> CX * W -> Prop) cx w :
  quiet m P -> jobless m -> th_ok w ->
  (forall a w', th_ok w' -> th_jobs w' = th_jobs w -> Q a (cx, w')) -> wp (on_host m) Q (cx, w).
Proof.
  intros Hq Hj Hw HQ. apply wp_host. eapply wp_mono; [apply wp_conj; [by apply Hq|by apply Hj]|].
  intros a w' [(? & _) ?]. by apply HQ.
Qed.

Lemma malloc_jobs (Q : bool -> CX * W -> Prop) cx w : th_ok w ->
  (forall a w', th_ok w' -> th_jobs w' = th_jobs w -> Q a (cx, w')) -> wp (on_host th_malloc) Q (cx, w).
Proof. apply (jobless_wp _ (fun _ => True)); [apply th_malloc_law|apply tj_malloc_law]. Qed.

Lemma posix_jobs (Q : TIME_T -> CX * W -> Prop) cx w : th_ok w ->
  (forall a w', th_ok w' -> th_jobs w' = th_jobs w -> Q a (cx, w')) -> wp (on_host th_posix) Q (cx, w).
Proof.
  apply (jobless_wp _ (fun _ => True)); [|apply tj_posix_law]. intros w0 Hw0.
  eapply wp_mono; [by apply th_posix_law|]. by intros t w' (? & ? & _).
Qed.

Lemma emit_jobs h opr r (Q : OPERATE_RET -> CX * W -> Prop) cx w : th_ok w ->
  (forall rt w', th_ok w' -> th_jobs w' = th_jobs w -> Q rt (cx, w')) -> wp (__countdown_emit_event h opr r) Q (cx, w).
Proof.
  intros Hw HQ. unfold __countdown_emit_event. tm_steps. apply malloc_jobs; [done|]. intros ok w1 Hw1 Hj1.
  destruct ok; cbn [negb]; [|wp_step; by apply HQ]. tm_steps. apply wp_host.
  eapply wp_mono; [apply wp_conj; [by apply th_notify_law|by apply tj_notify_law]|].
  intros _ w2 [[Hw2 _] Hj2]. wp_step. apply HQ; [done|congruence].
Qed.

Lemma remaining_jobs (Q : TIME_T -> CX * W -> Prop) cx w : th_ok w ->
  (forall r w', th_ok w' -> th_jobs w' = th_jobs w -> Q r (cx, w')) -> wp __countdown_remaining Q (cx, w).
Proof.
  intros Hw HQ. unfold __countdown_remaining. wp_step. apply posix_jobs; [done|]. intros t w1 Hw1 Hj1. tm_steps.
  repeat (case_match; [wp_step; by apply HQ|]). wp_step; by apply HQ.
Qed.

Lemma remove_bound_jobs (Q : unit -> CX * W -> Prop) cx w : th_ok w ->
  (forall w', th_ok w' -> th_jobs w' = th_jobs w ∖ own (cd_cron_job_id cx) -> Q tt (cd_set_job "" cx, w')) ->
  wp __countdown_remove_bound_cron Q (cx, w).
Proof.
  intros Hw HQ. unfold __countdown_remove_bound_cron. tm_steps. unfold own in HQ.
  destruct (String.eqb_spec (cd_cron_job_id cx) "") as [He|He].
  - wp_step. replace cx with (cd_set_job "" cx) at 1 by (unfold cd_set_job; rewrite <- He; by destruct cx).
    apply HQ; [done|multiset_solver].
  - tm_steps. apply wp_host. eapply wp_mono; [apply wp_conj; [by apply th_job_remove_law|by apply tj_job_remove_law]|].
    intros rt w1 [(Hw1 & _) Hj1]. tm_steps. by apply HQ.
Qed.

Lemma schedule_jobs r (Q : OPERATE_RET -> CX * W -> Prop) cx w : th_ok w -> cd_cron_job_id cx = "" ->
  (forall rt id' w', th_ok w' -> scheduled rt (th_jobs w) id' (th_jobs w') -> (rt <> OPRT_OK -> id' = "") ->
     Q rt (cd_set_job id' cx, w')) ->
  wp (__countdown_schedule_next_tick r) Q (cx, w).
Proof.
  intros Hw Hid HQ. assert (Hcx : cd_set_job "" cx = cx) by (unfold cd_set_job; rewrite <- Hid; by destruct cx).
  assert (Hsame : forall rt w', th_ok w' -> th_jobs w' = th_jobs w -> Q rt (cx, w')).
  { intros rt w' Hw' Hj'. rewrite <- Hcx. apply HQ; [done|exists ∅|done]. unfold own. cbn. split; [multiset_solver|by left]. }
  unfold __countdown_schedule_next_tick. destruct (r <=? 0); [wp_step; by apply Hsame|]. cbv zeta.
  wp_step. apply posix_jobs; [done|]. intros t w1 Hw1 Hj1. unfold __countdown_build_cron_expr.
  destruct (build_cron_expr _ 32) as [rt expr] eqn:Hb.
  destruct (Z.eqb_spec rt OPRT_OK) as [->|Hrt]; cbn [negb]; [|wp_step; by apply Hsame].
  wp_step. apply remove_bound_jobs; [done|]. rewrite Hid. intros w2 Hw2 Hj2. tm_steps. apply wp_host.
  eapply wp_mono; [apply wp_conj; [apply (th_job_add_law _ 32); [eapply tick_text; exact Hb|done]
                                  |apply (tj_job_add_law _ 32); [eapply tick_text; exact Hb|done]]|].
  assert (HJ : th_jobs w2 = th_jobs w) by (rewrite Hj2, Hj1; unfold own; cbn; multiset_solver).
  intros [rt id] w3 [(Hw3 & _ & Hne) Hj3]. cbn [fst snd] in *. destruct (Z.eqb_spec rt OPRT_OK) as [->|Hrt]; cbn [negb].
  - destruct Hj3 as (id0 & -> & Hlen & Hj3). tm_steps. change (cd_set_job ?a (cd_set_job ?b cx)) with (cd_set_job a cx).
    specialize (Hne eq_refl ltac:(lia)). rewrite strtrunc_id in * by (unfold WUKONG_TM_COUNTDOWN_JOB_ID_LEN; try rewrite strtrunc_id; lia).
    rewrite strtrunc_id by (unfold WUKONG_TM_COUNTDOWN_JOB_ID_LEN; lia).
    apply HQ; [done| |done]. exists ∅. split; [|by left]. unfold own. destruct (String.eqb_spec id0 ""); [done|].
    rewrite Hj3, HJ. multiset_solver.
  - wp_step. apply HQ; [done| |done]. unfold own. cbn. destruct Hj3 as [Hj3|[l Hj3]]; rewrite Hj3, HJ.
    + exists ∅. split; [multiset_solver|by left].
    + exists {[+ l +]}. split; [multiset_solver|right; split; [done|by eexists]].
Qed.

(** Resetting the countdown after a failure. *)
Lemma reset_jobs rt (Q : OPERATE_RET -> CX * W -> Prop) cx w :
  (forall cx', cd_cron_job_id cx' = "" -> Q rt (cx', w)) ->
  wp (let* _ := __countdown_reset in cret rt) Q (cx, w).
Proof. intros HQ. unfold __countdown_reset. tm_steps. by apply HQ. Qed.

Definition jobs_follow op cx w c (rt : OPERATE_RET) (s' : CX * W) : Prop :=
  cd_jobs op c rt (cd_cron_job_id cx) (th_jobs w) (cd_cron_job_id (fst s')) (th_jobs (snd s')).

(** A refused operation; one taken that schedules from no bound job. *)
Lemma follow_refused op cx w c rt w' : accepts op c = false -> th_jobs w' = th_jobs w -> jobs_follow op cx w c rt (cx, w').
Proof. intros Ha Hj. unfold jobs_follow, cd_jobs. by rewrite Ha. Qed.

Lemma follow_scheduled op cx w c rt cx' w' :
  accepts op c = true -> match op with CdPause | CdDelete => False | _ => True end ->
  released op (cd_cron_job_id cx) = ∅ ->
  scheduled rt (th_jobs w) (cd_cron_job_id cx') (th_jobs w') -> jobs_follow op cx w c rt (cx', w').
Proof.
  intros Ha Hop Hr Hs. unfold jobs_follow, cd_jobs. rewrite Ha, Hr.
  replace (th_jobs w ∖ ∅) with (th_jobs w) by multiset_solver. by destruct op.
Qed.

Lemma scheduled_none rt w w' : th_jobs w' = th_jobs w -> scheduled rt (th_jobs w) "" (th_jobs w').
Proof. intros ->. exists ∅. split; [unfold own; cbn; multiset_solver|by left]. Qed.

Lemma unbound cx next c : cd_repr cx next c -> (forall h d t, c <> Running h d t) -> cd_cron_job_id cx = "".
Proof. intros [_ _ Hc] Hn. destruct c as [|h d t|h d r]; [by destruct Hc|by destruct (Hn h d t)|by destruct Hc as (_ & ? & _)]. Qed.

(** Scheduling at the end of a start or resume. *)
Lemma schedule_follow op cx w c cx1 w1 r :
  accepts op c = true -> match op with CdPause | CdDelete => False | _ => True end ->
  released op (cd_cron_job_id cx) = ∅ -> cd_cron_job_id cx1 = "" -> th_ok w1 -> th_jobs w1 = th_jobs w ->
  wp (__countdown_schedule_next_tick r) (fun rt s' => scheduled rt (th_jobs w) (cd_cron_job_id (fst s')) (th_jobs (snd s')) /\
    (rt <> OPRT_OK -> cd_cron_job_id (fst s') = "") /\ jobs_follow op cx w c rt s') (cx1, w1).
Proof.
  intros Ha Hop Hrel Hid Hw1 Hj1. apply schedule_jobs; [done|done|]. intros rt id' w2 _ Hs Hf. rewrite Hj1 in Hs.
  split; [exact Hs|]. split; [exact Hf|]. by apply follow_scheduled.
Qed.

Lemma create_jobs h m s cx w next c : th_ok w -> cd_repr cx next c ->
  wp (run_cd (CdCreate h m s)) (jobs_follow (CdCreate h m s) cx w c) (cx, w).
Proof.
  intros Hw Hr. cbn [run_cd]. unfold wukong_tm_countdown_create. tm_steps.
  rewrite (cr_init _ _ _ Hr), (exists_repr _ _ _ Hr). cbn [negb].
  destruct c as [|h0 d target|h0 d r]; [|wp_step; by apply follow_refused..].
  assert (Hid : cd_cron_job_id cx = "") by by eapply unbound.
  destruct (_ || _ || _) eqn:Hneg.
  { wp_step. apply follow_refused; [|done]. cbn. unfold requested. by rewrite Hneg. }
  cbv zeta. set (total := countdown_total h m s). assert (Hu : is_u32 total) by apply u32_range. unfold is_u32 in Hu.
  destruct (Z.leb_spec total 0) as [Hle|Hpos].
  { wp_step. apply follow_refused; [|done]. cbn. unfold requested. rewrite Hneg. fold total. by replace total with 0 by lia. }
  assert (Ha : accepts (CdCreate h m s) Idle = true).
  { cbn. unfold requested. rewrite Hneg. fold total. cbv zeta. by destruct (Z.eqb_spec total 0); [lia|]. }
  assert (Hrel : released (CdCreate h m s) (cd_cron_job_id cx) = ∅) by (cbn; by rewrite Hid).
  assert (Hreset : forall rt s', scheduled rt (th_jobs w) "" (th_jobs (snd s')) ->
    wp (let* _ := __countdown_reset in cret rt) (jobs_follow (CdCreate h m s) cx w Idle) s').
  { intros rt [cx' w'] Hs. apply reset_jobs. intros cx2 Hcx2. apply follow_scheduled; try done. by rewrite Hcx2. }
  wp_step. apply posix_jobs; [done|]. intros t w1 Hw1 Hj1. tm_steps. apply emit_jobs; [done|]. intros rt w2 Hw2 Hj2.
  destruct (Z.eqb_spec rt OPRT_OK) as [->|Hrt]; cbn [negb].
  2: { apply Hreset. apply scheduled_none. cbn. congruence. }
  wp_step. eapply wp_mono; [apply (schedule_follow (CdCreate h m s) cx w Idle); try done; congruence|].
  intros rt [cx' w'] (Hs & Hf & Hfol). destruct (Z.eqb_spec rt OPRT_OK) as [->|Hrt]; cbn [negb]; [by wp_step|].
  apply Hreset. rewrite <- (Hf Hrt). exact Hs.
Qed.

Lemma pause_jobs cx w next c : th_ok w -> cd_repr cx next c -> wp (run_cd CdPause) (jobs_follow CdPause cx w c) (cx, w).
Proof.
  intros Hw Hr. cbn [run_cd]. unfold wukong_tm_countdown_pause. tm_steps.
  rewrite (exists_repr _ _ _ Hr). destruct (Hr) as [Hi Hn Hc]. destruct c as [|h d target|h d r]; cbn [negb].
  - wp_step. by apply follow_refused.
  - destruct Hc as (-> & _). cbn [bool_decide]. rewrite bool_decide_eq_true_2 by done. cbn [negb].
    wp_step. apply remaining_jobs; [done|]. intros r w1 Hw1 Hj1. tm_steps. apply remove_bound_jobs; [done|].
    intros w2 Hw2 Hj2. tm_steps. apply emit_jobs; [done|]. intros rt w3 Hw3 Hj3.
    unfold jobs_follow, cd_jobs. cbn. rewrite Hj3, Hj2, Hj1. cbn. multiset_solver.
  - destruct Hc as (-> & _). rewrite bool_decide_eq_false_2 by done. cbn [negb]. wp_step. by apply follow_refused.
Qed.

Lemma resume_jobs cx w next c : th_ok w -> cd_repr cx next c -> wp (run_cd CdResume) (jobs_follow CdResume cx w c) (cx, w).
Proof.
  intros Hw Hr. cbn [run_cd]. unfold wukong_tm_countdown_resume. tm_steps.
  rewrite (exists_repr _ _ _ Hr). destruct (Hr) as [Hi Hn Hc]. destruct c as [|h d target|h d r]; cbn [negb].
  - wp_step. by apply follow_refused.
  - destruct Hc as (-> & _). rewrite bool_decide_eq_false_2 by done. cbn [negb]. wp_step. by apply follow_refused.
  - destruct Hc as (Hst & Hid & _). rewrite bool_decide_eq_true_2 by done. cbn [negb].
    assert (Hrel : released CdResume (cd_cron_job_id cx) = ∅) by (cbn; by rewrite Hid).
    assert (Hreset : forall rt s', scheduled rt (th_jobs w) "" (th_jobs (snd s')) ->
      wp (let* _ := __countdown_reset in cret rt) (jobs_follow CdResume cx w (Paused h d r)) s').
    { intros rt [cx' w'] Hs. apply reset_jobs. intros cx2 Hcx2. apply follow_scheduled; try done. by rewrite Hcx2. }
    destruct (_ <=? 0).
    + wp_step. apply emit_jobs; [done|]. intros rt w1 Hw1 Hj1. by apply Hreset, scheduled_none.
    + wp_step. apply posix_jobs; [done|]. intros t w1 Hw1 Hj1. tm_steps. apply emit_jobs; [done|]. intros rt w2 Hw2 Hj2.
      destruct (Z.eqb_spec rt OPRT_OK) as [->|Hrt]; cbn [negb].
      2: { apply Hreset, scheduled_none. cbn. congruence. }
      wp_step. eapply wp_mono; [apply (schedule_follow CdResume cx w (Paused h d r)); try done; congruence|].
      intros rt [cx' w'] (Hs & Hf & Hfol). destruct (Z.eqb_spec rt OPRT_OK) as [->|Hrt]; cbn [negb]; [by wp_steps|].
      apply Hreset. rewrite <- (Hf Hrt). exact Hs.
Qed.

Lemma delete_jobs cx w next c : th_ok w -> cd_repr cx next c -> wp (run_cd CdDelete) (jobs_follow CdDelete cx w c) (cx, w).
Proof.
  intros Hw Hr. cbn [run_cd]. unfold wukong_tm_countdown_delete. tm_steps.
  rewrite (exists_repr _ _ _ Hr). destruct c as [|h d target|h d r]; cbn [negb]; [wp_step; by apply follow_refused|..];
    (wp_step; apply remaining_jobs; [done|]; intros r0 w1 Hw1 Hj1; wp_step; apply remove_bound_jobs; [done|];
     intros w2 Hw2 Hj2; wp_step; apply emit_jobs; [done|]; intros rt w3 Hw3 Hj3; wp_step; apply reset_jobs; intros cx' Hcx';
     unfold jobs_follow, cd_jobs; cbn; rewrite Hcx', Hj3, Hj2, Hj1; multiset_solver).
Qed.

Lemma tick_jobs params cx w next c : th_ok w -> cd_repr cx next c ->
  wp (run_cd (CdTick params)) (jobs_follow (CdTick params) cx w c) (cx, w).
Proof.
  intros Hw Hr. cbn [run_cd]. unfold __countdown_tick_handler.
  assert (Hbad : tick_handle params = None -> accepts (CdTick params) c = false)
    by (intros Hn; destruct c; cbn; [done|by rewrite Hn|done]).
  destruct params as [p|]; [|wp_steps; apply follow_refused; by auto].
  destruct (ty_cJSON_GetObjectItem p "handle") as [[| |v| | |]|] eqn:Hp;
    try (wp_steps; apply follow_refused; [apply Hbad; unfold tick_handle; cbn; by rewrite Hp|done]).
  assert (Hth : tick_handle (Some p) = Some (u32 (valueint v))) by (unfold tick_handle; cbn; by rewrite Hp).
  tm_steps. rewrite (exists_repr _ _ _ Hr). destruct (Hr) as [Hi Hn Hc].
  destruct (negb _ || _ || _) eqn:Hstale.
  { wp_steps. apply follow_refused; [|done]. destruct c as [|h d target|h d r]; [done| |done]. cbn. rewrite Hth.
    destruct Hc as (Hst & _ & Hh & _). rewrite Hst, Hh, bool_decide_eq_true_2 in Hstale by done. cbn in Hstale.
    rewrite orb_false_r in Hstale. apply negb_true_iff, Z.eqb_neq in Hstale. apply bool_decide_eq_false_2. congruence. }
  assert (Ha : accepts (CdTick (Some p)) c = true).
  { destruct c as [|h d target|h d r]; [done| |]; cbn [accepts negb orb] in *.
    - destruct Hc as (_ & _ & Hh & _). rewrite Hth. apply orb_false_iff in Hstale as [Hstale _].
      apply negb_false_iff, Z.eqb_eq in Hstale. apply bool_decide_eq_true_2. congruence.
    - destruct Hc as (Hst & _). rewrite Hst in Hstale. by rewrite bool_decide_eq_false_2, orb_true_r in Hstale. }
  tm_steps. apply remaining_jobs; [done|]. intros r w1 Hw1 Hj1. tm_step.
  assert (Hres : forall (Q : option cJSON -> CX * W -> Prop) cx0 w0 h0, th_ok w0 ->
    (forall res w', th_ok w' -> th_jobs w' = th_jobs w0 -> Q res (cx0, w')) ->
    wp (let* ok := on_host th_malloc in
        if negb ok then cret None
        else let* obj := result_add (JObject []) "handle" h0 in
             let* obj := result_add obj "remaining_sec" (JNumber (i32 r)) in cret (Some obj)) Q (cx0, w0)).
  { intros Q cx0 w0 h0 Hw0 HQ. wp_step. apply malloc_jobs; [done|]. intros ok w2 Hw2 Hj2.
    destruct ok; cbn [negb]; [|wp_step; by apply HQ]. unfold result_add.
    wp_steps. apply malloc_jobs; [done|]. intros ok2 w3 Hw3 Hj3.
    wp_steps. apply malloc_jobs; [done|]. intros ok3 w4 Hw4 Hj4. wp_steps. apply HQ; [done|congruence]. }
  apply Hres; [done|]. intros res w2 Hw2 Hj2. destruct (r <=? 0).
  - wp_step. apply emit_jobs; [done|]. intros rt w3 Hw3 Hj3. unfold __countdown_reset. tm_steps.
    apply follow_scheduled; [done..|]. apply scheduled_none. congruence.
  - wp_step. apply emit_jobs; [done|]. intros rt w3 Hw3 Hj3. wp_step.
    eapply wp_mono; [apply (schedule_follow (CdTick (Some p)) cx w c); try done; congruence|].
    intros rt2 [cx' w'] (Hs & Hf & Hfol). destruct (Z.eqb_spec rt2 OPRT_OK) as [->|Hrt]; cbn [negb]; [by wp_steps|].
    unfold __countdown_reset. tm_steps. apply follow_scheduled; [done..|]. cbn. rewrite <- (Hf Hrt). exact Hs.
Qed.

Lemma cd_jobs_wp op cx w next c : th_ok w -> cd_repr cx next c -> wp (run_cd op) (jobs_follow op cx w c) (cx, w).
Proof.
  intros Hw Hr. destruct op as [h m s| | | |params]; [by eapply create_jobs|by eapply pause_jobs|by eapply resume_jobs
    |by eapply delete_jobs|by eapply tick_jobs].
Qed.

End Jobs.

(** C4. The countdown refines the abstract countdown: every operation, from
    every state, runs to its end and does one of its abstract steps: it
    returns that code and sends exactly those events. In particular it
    finishes only at or after its target, pausing keeps the time left and
    resuming moves the target by the length of the pause. And the jobs the
    cron service holds follow: an operation that is refused touches none; one
    that is taken gives the bound job back (that of a tick has left the
    service) and binds a new one exactly if the countdown runs on; no other
    job comes or goes, except that when a start, resume or tick fails while
    scheduling, one job may stay in the service without a countdown. Jobs are
    counted by id. *)
Theorem countdown_refines {TJ : TmJobs W} {TJL : TmJobsLaws W} op cx w next c :
  th_ok w -> cd_repr cx next c ->
  exists rt s', run_cd op (cx, w) = Some (rt, s') /\ cd_outcome op w next c rt s' /\
    cd_jobs op c rt (cd_cron_job_id cx) (th_jobs w) (cd_cron_job_id (fst s')) (th_jobs (snd s')).
Proof.
  intros Hw Hr. assert (Hwp : wp (run_cd op) (cd_outcome op w next c) (cx, w)).
  { destruct op as [h m s| | | |params];
      [by apply create_wp|by apply cd_pause_wp|by apply cd_resume_wp|by apply delete_wp|by apply tick_wp]. }
  destruct (wp_elim _ _ _ (wp_conj _ _ _ _ Hwp (cd_jobs_wp op cx w next c Hw Hr))) as (rt & s' & Hrun & Ho & Hj).
  by exists rt, s'.
Qed.

End Correct.

(** ** Event layout *)

Lemma take1_value v : le_value (take (Z.to_nat 1) (le_bytes 4 v)) = v mod 256.
Proof. change (v mod 256 + 256 * 0 = v mod 256). lia. Qed.

Lemma take4_value v : le_value (take (Z.to_nat 4) (le_bytes 4 v)) = u32 v.
Proof. change (take (Z.to_nat 4) (le_bytes 4 v)) with (le_bytes 4 v). apply le_value_bytes. Qed.

Lemma hours_small r : is_u32 r -> i32 (r / 3600) = r / 3600 /\ i32 (r mod 3600 / 60) = r mod 3600 / 60 /\
  i32 (r mod 60) = r mod 60.
Proof.
  unfold is_u32. intros Hr. pose proof (Z.mod_pos_bound r 3600). pose proof (Z.mod_pos_bound r 60).
  assert (0 <= r / 3600 < 2 ^ 31) by (split; [apply Z.div_pos|apply Z.div_lt_upper_bound]; lia).
  assert (0 <= r mod 3600 / 60 < 60) by (split; [apply Z.div_pos|apply Z.div_lt_upper_bound]; lia).
  unfold i32. split_and!; rewrite Z.mod_small; lia.
Qed.

(** Byte 4 of an event is its operation: what the modes look at. *)
Lemma countdown_msg_opr handle opr r d : fst (countdown_msg handle opr r d) !! 4%nat = Some (opr_code opr).
Proof.
  unfold countdown_msg. cbv zeta. rewrite !tlv_pack_field by lia. rewrite app_nil_l.
  assert (Hop : opr_code opr mod 256 = opr_code opr) by by destruct opr.
  destruct (bool_decide _); cbn [fst]; rewrite <- !app_assoc; cbn; by rewrite Hop.
Qed.

(** An event exactly fills the buffer allocated for it, starts with its
    operation byte at offset 4, and reads back to its operation, the hours,
    minutes and seconds left (the hours modulo 256: they are cut to a byte),
    the handle, the seconds left and, when pausing, the seconds elapsed. *)
Theorem countdown_event_layout handle opr r d : is_u32 r ->
  let '(msg, len) := countdown_msg handle opr r d in
  length msg = len /\ msg !! 4%nat = Some (opr_code opr) /\
  tlv_fields 8 msg = Some ([(0, opr_code opr); (1, (r / 3600) mod 256); (2, r mod 3600 / 60); (3, r mod 60);
                            (4, u32 handle); (5, r)]
                           ++ if bool_decide (opr = WUKONG_TM_TIMER_OPR_PAUSE) then [(15, u32 (d - r))] else [])%list.
Proof.
  intros Hr. pose proof (countdown_msg_opr handle opr r d) as Hb4. revert Hb4.
  unfold countdown_msg. cbv zeta. destruct (hours_small r Hr) as (Hh & Hm & Hs).
  assert (Hr0 : 0 <= r) by (unfold is_u32 in Hr; lia).
  destruct (Z.ltb_spec r 0); [lia|]. rewrite !(u32_id r) by done.
  pose proof (u32_range (d - r)) as Hd. unfold is_u32 in Hd. destruct (Z.ltb_spec (u32 (d - r)) 0); [lia|].
  rewrite !tlv_pack_field by lia. rewrite Hh, Hm, Hs, u32_idem, app_nil_l.
  assert (Hmin : (r mod 3600 / 60) mod 256 = r mod 3600 / 60).
  { apply Z.mod_small. pose proof (Z.mod_pos_bound r 3600).
    split; [apply Z.div_pos|apply Z.lt_le_trans with 60; [apply Z.div_lt_upper_bound|]]; lia. }
  assert (Hsec : (r mod 60) mod 256 = r mod 60)
    by (apply Z.mod_small; pose proof (Z.mod_pos_bound r 60); lia).
  assert (Hop : opr_code opr mod 256 = opr_code opr) by by destruct opr.
  intros Hb4. split_and!.
  - destruct (bool_decide _); rewrite !length_app, !length_tlv_field by lia; reflexivity.
  - exact Hb4.
  - destruct (bool_decide _); rewrite <- !app_assoc; rewrite !tlv_fields_cons by (cbn; lia);
      [rewrite <- (app_nil_r (tlv_field (tag_code WUKONG_TM_TAG_COUNTDOWN_ELAPSED_SEC) _ _)), tlv_fields_cons by (cbn; lia)
      |rewrite <- (app_nil_r (tlv_field (tag_code WUKONG_TM_TAG_COUNTDOWN_REMAINING_SEC) _ _)), tlv_fields_cons by (cbn; lia)];
      cbn [tlv_fields fmap option_fmap option_map tag_code]; rewrite !take1_value, !take4_value, Hop, Hmin, Hsec, (u32_id r) by done;
      rewrite ?u32_idem; reflexivity.
Qed.

(** ** Cadence *)

(** The instants, as remaining seconds, at which ticks are due after one at
    [r]: each by the cadence of the one before. *)
Fixpoint tick_times (fuel : nat) (r : Z) : list Z :=
  match fuel with
  | O => [r]
  | S fuel => if r <=? 0 then [r] else
      let step := __countdown_step_from_remaining r in
      r :: tick_times fuel (r - (if r <? step then r else step))
  end.

Lemma step_bounds r : 0 < r -> 1 <= __countdown_step_from_remaining r <= r.
Proof.
  intros Hr. unfold __countdown_step_from_remaining.
  destruct (Z.ltb_spec 3600 r); [lia|]. destruct (Z.ltb_spec 600 r); [lia|].
  destruct (Z.ltb_spec 10 r); lia.
Qed.

(** The tick cadence always makes progress, never overshoots, and the
    clamp to the remaining time is never needed: from any remaining time the
    scheduled ticks strictly decrease and the last one is at exactly zero, in
    at most that many ticks. *)
Theorem tick_cadence r : 0 <= r ->
  StronglySorted (fun a b => b < a) (tick_times (Z.to_nat r) r) /\
  last (tick_times (Z.to_nat r) r) = Some 0 /\
  forall q, 0 < q -> (q <? __countdown_step_from_remaining q) = false.
Proof.
  intros Hr.
  assert (Hclamp : forall q, 0 < q -> (q <? __countdown_step_from_remaining q) = false)
    by (intros q Hq; pose proof (step_bounds q Hq); lia).
  assert (Hmain : forall fuel q, 0 <= q <= Z.of_nat fuel ->
    StronglySorted (fun a b => b < a) (tick_times fuel q) /\ last (tick_times fuel q) = Some 0 /\
    Forall (fun x => x <= q) (tick_times fuel q)).
  { induction fuel as [|fuel IH]; intros q Hq; cbn [tick_times].
    - assert (q = 0) as -> by lia. split_and!; repeat constructor; lia.
    - destruct (Z.leb_spec q 0) as [Hle|Hpos].
      + assert (q = 0) as -> by lia. split_and!; repeat constructor; lia.
      + cbv zeta. rewrite Hclamp by done. pose proof (step_bounds q Hpos) as Hs.
        destruct (IH (q - __countdown_step_from_remaining q)) as (Hsort & Hlast & Hall); [lia|].
        split_and!.
        * constructor; [done|]. eapply Forall_impl; [exact Hall|]. cbn. lia.
        * destruct (tick_times fuel _); [done|]. exact Hlast.
        * constructor; [lia|]. eapply Forall_impl; [exact Hall|]. cbn. lia. }
  destruct (Hmain (Z.to_nat r) r) as (Hs & Hl & _); [lia|]. by split_and!.
Qed.
