(* ===== verification/TmPomodoro.v ===== *)
(** The pomodoro timer of src/wukong/tm/wukong_tm_pomodoro.c. *)
From S2P Require Import Prelude.
From S2P Require Import Calendar.
From S2P Require Import CStr.
From S2P Require Import World.
From S2P Require Import Json.
From S2P Require Import TmHost.

#[local] Open Scope string_scope.
#[local] Open Scope Z_scope.

Definition WUKONG_TM_POMODORO_PHASE_END_METHOD : string := "tm.pomodoro.phase_end".
Definition WUKONG_TM_POMODORO_JOB_ID_LEN : nat := 32.
Definition WUKONG_TM_POMODORO_WORK_BEFORE_LONG_MIN : Z := 1.
Definition WUKONG_TM_POMODORO_WORK_BEFORE_LONG_MAX : Z := 12.

Inductive WUKONG_TM_POMODORO_PHASE_E :=
| WUKONG_TM_POMODORO_PHASE_WORK | WUKONG_TM_POMODORO_PHASE_SHORT_BREAK | WUKONG_TM_POMODORO_PHASE_LONG_BREAK.

#[export] Instance phase_eq_dec : EqDecision WUKONG_TM_POMODORO_PHASE_E.
Proof. solve_decision. Defined.

Definition phase_code (p : WUKONG_TM_POMODORO_PHASE_E) : Z :=
  match p with
  | WUKONG_TM_POMODORO_PHASE_WORK => 0
  | WUKONG_TM_POMODORO_PHASE_SHORT_BREAK => 1
  | WUKONG_TM_POMODORO_PHASE_LONG_BREAK => 2
  end.

Record WUKONG_TM_POMODORO_CFG_T := mk_pomo_cfg {
  work_duration : Z; short_break_duration : Z; long_break_duration : Z; work_sessions_before_long_break : Z }.

Record WUKONG_TM_POMODORO_STATE_T := mk_pomo_state {
  ps_active : bool; ps_paused : bool; ps_session_id : Z; ps_phase : WUKONG_TM_POMODORO_PHASE_E;
  ps_current_cycle : Z; ps_completed_work_count : Z;
  ps_phase_start_ts : TIME_T; ps_phase_end_ts : TIME_T; ps_remaining_sec : TIME_T;
  ps_cfg : WUKONG_TM_POMODORO_CFG_T }.

Record WUKONG_TM_POMODORO_CTX_T := mk_pomo {
  pm_initialized : bool; pm_active : bool; pm_paused : bool; pm_next_session_id : Z;
  pm_cron_job_id : string; pm_state : WUKONG_TM_POMODORO_STATE_T }.

Definition pomo_state_zero : WUKONG_TM_POMODORO_STATE_T :=
  mk_pomo_state false false 0 WUKONG_TM_POMODORO_PHASE_WORK 0 0 0 0 0 (mk_pomo_cfg 0 0 0 0).
(** memset(&s_ctx, 0, sizeof(s_ctx)), then the given session counter. *)
Definition pomo_cleared (initialized : bool) (next : Z) : WUKONG_TM_POMODORO_CTX_T :=
  mk_pomo initialized false false next "" pomo_state_zero.

Definition pm_set_job (id : string) (cx : WUKONG_TM_POMODORO_CTX_T) : WUKONG_TM_POMODORO_CTX_T :=
  mk_pomo (pm_initialized cx) (pm_active cx) (pm_paused cx) (pm_next_session_id cx) id (pm_state cx).
Definition pm_set_state (st : WUKONG_TM_POMODORO_STATE_T) (cx : WUKONG_TM_POMODORO_CTX_T) : WUKONG_TM_POMODORO_CTX_T :=
  mk_pomo (pm_initialized cx) (pm_active cx) (pm_paused cx) (pm_next_session_id cx) (pm_cron_job_id cx) st.
Definition ps_set_remaining (r : TIME_T) (st : WUKONG_TM_POMODORO_STATE_T) : WUKONG_TM_POMODORO_STATE_T :=
  mk_pomo_state (ps_active st) (ps_paused st) (ps_session_id st) (ps_phase st) (ps_current_cycle st)
    (ps_completed_work_count st) (ps_phase_start_ts st) (ps_phase_end_ts st) r (ps_cfg st).

Section Pomodoro.
Context {W : Type} `{TH : TmHost W} `{TS : TimeService}.
Abbreviation M := (C (WUKONG_TM_POMODORO_CTX_T * W)).

Definition __pomodoro_reminder_style_notify (opr : WUKONG_TM_TIMER_OPR_E) (ended_phase : WUKONG_TM_POMODORO_PHASE_E)
    : M unit :=
  let say (message : string) := let* _ := on_host (wukong_tm_reminder_action_notify message) in cret tt in
  match opr with
  | WUKONG_TM_TIMER_OPR_FINISH =>
      match ended_phase with
      | WUKONG_TM_POMODORO_PHASE_WORK => say "番茄钟专注时间已结束，请休息。"
      | WUKONG_TM_POMODORO_PHASE_SHORT_BREAK => say "番茄钟休息时间已结束，请继续专注。"
      | WUKONG_TM_POMODORO_PHASE_LONG_BREAK => say "番茄钟长休息已结束，请继续专注。"
      end
  | WUKONG_TM_TIMER_OPR_STOP => say "番茄钟已停止。"
  | _ => cret tt
  end.

Definition pomodoro_msg (opr : WUKONG_TM_TIMER_OPR_E) (phase : WUKONG_TM_POMODORO_PHASE_E) : list Z :=
  let msg := __tm_tlv_pack [] (tag_code WUKONG_TM_TAG_POMODORO_OPR) 1 (le_bytes 4 (opr_code opr)) in
  __tm_tlv_pack msg (tag_code WUKONG_TM_TAG_POMODORO_PHASE) 1 (le_bytes 4 (phase_code phase)).

Definition __pomodoro_emit_event (opr : WUKONG_TM_TIMER_OPR_E) : M OPERATE_RET :=
  let* cx := get_ctx in
  let phase := ps_phase (pm_state cx) in
  let* ok := on_host th_malloc in
  if negb ok then cret OPRT_MALLOC_FAILED
  else
    let* _ := on_host (wukong_ai_event_notify WUKONG_AI_EVENT_CLOCK_MCP_POMODORO_TIMER (pomodoro_msg opr phase)) in
    let* _ := __pomodoro_reminder_style_notify opr phase in
    cret OPRT_OK.

Definition __pomodoro_phase_total_sec (phase : WUKONG_TM_POMODORO_PHASE_E) (cfg : option WUKONG_TM_POMODORO_CFG_T) : TIME_T :=
  match cfg with
  | None => 0
  | Some cfg =>
      match phase with
      | WUKONG_TM_POMODORO_PHASE_SHORT_BREAK => u32 (u32 (short_break_duration cfg) * 60)
      | WUKONG_TM_POMODORO_PHASE_LONG_BREAK => u32 (u32 (long_break_duration cfg) * 60)
      | _ => u32 (u32 (work_duration cfg) * 60)
      end
  end.

Definition __pomodoro_build_cron_expr (target_ts : TIME_T) (cron_expr_len : nat) : OPERATE_RET * string :=
  build_cron_expr target_ts cron_expr_len.

Definition __pomodoro_remove_cron : M unit :=
  let* cx := get_ctx in
  if String.eqb (pm_cron_job_id cx) "" then cret tt
  else
    let* _ := on_host (th_job_remove (pm_cron_job_id cx)) in
    mod_ctx (pm_set_job "").

Definition pomodoro_job_json (cron_expr : string) (session_id : Z) : string :=
  strtrunc 383 (once_job_json "tm-pomodoro" cron_expr "tm-pomo-" WUKONG_TM_POMODORO_PHASE_END_METHOD "session_id" session_id).

Definition __pomodoro_schedule_cron (delay_sec : TIME_T) : M OPERATE_RET :=
  if delay_sec <=? 0 then cret OPRT_INVALID_PARM
  else
    let* now := on_host th_posix in
    let fire_ts := u32 (now + delay_sec) in
    let '(rt, cron_expr) := __pomodoro_build_cron_expr fire_ts 32 in
    if negb (rt =? OPRT_OK) then cret rt
    else
      let* _ := __pomodoro_remove_cron in
      let* cx := get_ctx in
      let* (rt, job_id) := on_host (th_job_add (pomodoro_job_json cron_expr (ps_session_id (pm_state cx)))
                                      (WUKONG_TM_POMODORO_JOB_ID_LEN + 1)) in
      if negb (rt =? OPRT_OK) then cret rt
      else
        let* _ := mod_ctx (pm_set_job (strtrunc WUKONG_TM_POMODORO_JOB_ID_LEN job_id)) in
        cret OPRT_OK.

Definition __pomodoro_reset : M unit :=
  let* _ := __pomodoro_remove_cron in
  mod_ctx (fun cx => pomo_cleared (pm_initialized cx) (if pm_next_session_id cx =? 0 then 1 else pm_next_session_id cx)).

Definition __pomodoro_refresh_running : M unit :=
  let* cx := get_ctx in
  if negb (pm_active cx) || pm_paused cx then cret tt
  else
    let* now := on_host th_posix in
    if ps_phase_end_ts (pm_state cx) <=? now
    then put_ctx (pm_set_state (ps_set_remaining 0 (pm_state cx)) cx)
    else put_ctx (pm_set_state (ps_set_remaining (u32 (ps_phase_end_ts (pm_state cx) - now)) (pm_state cx)) cx).

(** [cfg] is [s_ctx.state.cfg]. *)
Definition __pomodoro_next_phase (cfg : WUKONG_TM_POMODORO_CFG_T) (current_phase : WUKONG_TM_POMODORO_PHASE_E)
    (completed_work_count : Z) : WUKONG_TM_POMODORO_PHASE_E :=
  match current_phase with
  | WUKONG_TM_POMODORO_PHASE_SHORT_BREAK | WUKONG_TM_POMODORO_PHASE_LONG_BREAK => WUKONG_TM_POMODORO_PHASE_WORK
  | WUKONG_TM_POMODORO_PHASE_WORK =>
      let interval := u32 (work_sessions_before_long_break cfg) in
      let interval := if interval =? 0 then 1 else interval in
      if (0 <? completed_work_count) && (completed_work_count mod interval =? 0)
      then WUKONG_TM_POMODORO_PHASE_LONG_BREAK else WUKONG_TM_POMODORO_PHASE_SHORT_BREAK
  end.

Definition __pomodoro_begin_phase (phase : WUKONG_TM_POMODORO_PHASE_E) (opr_event : WUKONG_TM_TIMER_OPR_E) : M OPERATE_RET :=
  let* now := on_host th_posix in
  let* cx := get_ctx in
  let st := pm_state cx in
  let phase_sec := __pomodoro_phase_total_sec phase (Some (ps_cfg st)) in
  let* _ := put_ctx (mk_pomo (pm_initialized cx) (pm_active cx) false (pm_next_session_id cx) (pm_cron_job_id cx)
              (mk_pomo_state (ps_active st) false (ps_session_id st) phase (ps_current_cycle st)
                 (ps_completed_work_count st) now (u32 (now + phase_sec)) phase_sec (ps_cfg st))) in
  let* rt := __pomodoro_schedule_cron phase_sec in
  if negb (rt =? OPRT_OK) then let* _ := __pomodoro_reset in cret rt
  else __pomodoro_emit_event opr_event.

Definition __pomodoro_phase_end_handler (params : option cJSON) : M (OPERATE_RET * option cJSON) :=
  match params with
  | None => cret (OPRT_INVALID_PARM, None)
  | Some params =>
      match ty_cJSON_GetObjectItem params "session_id" with
      | Some (JNumber n) =>
          let session_id := u32 (valueint n) in
          let* cx := get_ctx in
          if negb (pm_active cx) || pm_paused cx || negb (session_id =? ps_session_id (pm_state cx))
          then cret (OPRT_NOT_FOUND, None)
          else
            let st := pm_state cx in
            let completed := if bool_decide (ps_phase st = WUKONG_TM_POMODORO_PHASE_WORK)
              then u32 (ps_completed_work_count st + 1) else ps_completed_work_count st in
            let* _ := put_ctx (pm_set_job "" (pm_set_state
                (mk_pomo_state (ps_active st) (ps_paused st) (ps_session_id st) (ps_phase st) (ps_current_cycle st)
                   completed (ps_phase_start_ts st) (ps_phase_end_ts st) (ps_remaining_sec st) (ps_cfg st)) cx)) in
            let* _ := __pomodoro_emit_event WUKONG_TM_TIMER_OPR_FINISH in
            let next_phase := __pomodoro_next_phase (ps_cfg st) (ps_phase st) completed in
            let cycle := if bool_decide (next_phase = WUKONG_TM_POMODORO_PHASE_WORK)
              then u32 (ps_current_cycle st + 1) else ps_current_cycle st in
            let* _ := mod_ctx (fun cx => pm_set_state
                (mk_pomo_state (ps_active st) (ps_paused st) (ps_session_id st) (ps_phase st) cycle
                   completed (ps_phase_start_ts st) (ps_phase_end_ts st) (ps_remaining_sec st) (ps_cfg st)) cx) in
            let* rt := __pomodoro_begin_phase next_phase WUKONG_TM_TIMER_OPR_START in
            let* ok := on_host th_malloc in
            if negb ok then cret (rt, None)
            else
              let* obj := result_add (JObject []) "status" (JString (if rt =? OPRT_OK then "ok" else "error")) in
              cret (rt, Some obj)
      | _ => cret (OPRT_INVALID_PARM, None)
      end
  end.

Definition wukong_tm_pomodoro_init : M OPERATE_RET :=
  let* cx := get_ctx in
  if pm_initialized cx then cret OPRT_OK
  else
    let* _ := put_ctx (pomo_cleared true 1) in
    on_host (th_register WUKONG_TM_POMODORO_PHASE_END_METHOD POMODORO_PHASE_END_HANDLER).

Definition wukong_tm_pomodoro_deinit : M OPERATE_RET :=
  let* cx := get_ctx in
  if negb (pm_initialized cx) then cret OPRT_OK
  else
    let* _ := __pomodoro_remove_cron in
    let* _ := on_host (th_unregister WUKONG_TM_POMODORO_PHASE_END_METHOD) in
    let* _ := put_ctx (pomo_cleared false 0) in
    cret OPRT_OK.

Definition wukong_tm_pomodoro_start (pomodoro_cfg : option WUKONG_TM_POMODORO_CFG_T) : M OPERATE_RET :=
  match pomodoro_cfg with
  | None => cret OPRT_INVALID_PARM
  | Some cfg =>
      let* cx := get_ctx in
      if negb (pm_initialized cx) then cret OPRT_COM_ERROR
      else if (work_duration cfg <=? 0) || (short_break_duration cfg <=? 0) || (long_break_duration cfg <=? 0)
      then cret OPRT_INVALID_PARM
      else if (work_sessions_before_long_break cfg <? WUKONG_TM_POMODORO_WORK_BEFORE_LONG_MIN) ||
              (WUKONG_TM_POMODORO_WORK_BEFORE_LONG_MAX <? work_sessions_before_long_break cfg)
      then cret OPRT_INVALID_PARM
      else if pm_active cx then cret OPRT_COM_ERROR
      else
        let* _ := __pomodoro_reset in
        let* cx := get_ctx in
        let st := pm_state cx in
        let* _ := put_ctx (mk_pomo (pm_initialized cx) true (pm_paused cx) (u32 (pm_next_session_id cx + 1)) (pm_cron_job_id cx)
                    (mk_pomo_state true (ps_paused st) (pm_next_session_id cx) (ps_phase st) 1 0
                       (ps_phase_start_ts st) (ps_phase_end_ts st) (ps_remaining_sec st) cfg)) in
        __pomodoro_begin_phase WUKONG_TM_POMODORO_PHASE_WORK WUKONG_TM_TIMER_OPR_START
  end.

Definition wukong_tm_pomodoro_pause : M OPERATE_RET :=
  let* cx := get_ctx in
  if negb (pm_active cx) || pm_paused cx then cret OPRT_NOT_FOUND
  else
    let* _ := __pomodoro_refresh_running in
    let* _ := __pomodoro_remove_cron in
    let* _ := mod_ctx (fun cx =>
      let st := pm_state cx in
      mk_pomo (pm_initialized cx) (pm_active cx) true (pm_next_session_id cx) (pm_cron_job_id cx)
        (mk_pomo_state (ps_active st) true (ps_session_id st) (ps_phase st) (ps_current_cycle st)
           (ps_completed_work_count st) (ps_phase_start_ts st) 0 (ps_remaining_sec st) (ps_cfg st))) in
    __pomodoro_emit_event WUKONG_TM_TIMER_OPR_PAUSE.

Definition wukong_tm_pomodoro_resume : M OPERATE_RET :=
  let* cx := get_ctx in
  let st := pm_state cx in
  if negb (pm_active cx) || negb (pm_paused cx) then cret OPRT_NOT_FOUND
  else if ps_remaining_sec st <=? 0 then cret OPRT_COM_ERROR
  else
    let* now := on_host th_posix in
    let* _ := put_ctx (mk_pomo (pm_initialized cx) (pm_active cx) false (pm_next_session_id cx) (pm_cron_job_id cx)
                (mk_pomo_state (ps_active st) false (ps_session_id st) (ps_phase st) (ps_current_cycle st)
                   (ps_completed_work_count st) now (u32 (now + ps_remaining_sec st)) (ps_remaining_sec st) (ps_cfg st))) in
    let* rt := __pomodoro_schedule_cron (ps_remaining_sec st) in
    if negb (rt =? OPRT_OK) then let* _ := __pomodoro_reset in cret rt
    else __pomodoro_emit_event WUKONG_TM_TIMER_OPR_RESUME.

Definition wukong_tm_pomodoro_stop : M OPERATE_RET :=
  let* cx := get_ctx in
  if negb (pm_active cx) then cret OPRT_NOT_FOUND
  else
    let* rt := __pomodoro_emit_event WUKONG_TM_TIMER_OPR_STOP in
    let* _ := __pomodoro_reset in
    cret rt.

Definition wukong_tm_pomodoro_query (state : bool) : M (OPERATE_RET * option WUKONG_TM_POMODORO_STATE_T) :=
  if negb state then cret (OPRT_INVALID_PARM, None)
  else
    let* cx := get_ctx in
    if negb (pm_active cx) then cret (OPRT_NOT_FOUND, None)
    else
      let* _ := __pomodoro_refresh_running in
      let* cx := get_ctx in
      let st := pm_state cx in
      cret (OPRT_OK, Some (mk_pomo_state true (pm_paused cx) (ps_session_id st) (ps_phase st) (ps_current_cycle st)
                            (ps_completed_work_count st) (ps_phase_start_ts st) (ps_phase_end_ts st)
                            (ps_remaining_sec st) (ps_cfg st))).

End Pomodoro.
