(* ===== verification/TmPomodoroCorrect.v ===== *)
(** The pomodoro timer refines an abstract session that moves from phase to
    phase; the phases follow the work / short break / long break rotation. *)
From S2P Require Import Prelude.
From S2P Require Import Calendar.
From S2P Require Import CStr.
From S2P Require Import World.
From S2P Require Import Json.
From S2P Require Import TmHost.
From S2P Require Import TmPomodoro.

#[local] Open Scope string_scope.
#[local] Open Scope Z_scope.

(** ** The abstract session *)

Record session := mk_session {
  se_id : Z; se_cfg : WUKONG_TM_POMODORO_CFG_T; se_phase : WUKONG_TM_POMODORO_PHASE_E;
  se_cycle : Z; se_completed : Z }.

Inductive pomodoro :=
| NoSession
| InPhase (x : session) (end_ts : TIME_T)
| OnHold (x : session) (remaining : TIME_T).

Inductive pm_op :=
| PmStart (cfg : option WUKONG_TM_POMODORO_CFG_T) | PmPause | PmResume | PmStop | PmPhaseEnd (params : option cJSON).

Definition pm_event (opr : WUKONG_TM_TIMER_OPR_E) (phase : WUKONG_TM_POMODORO_PHASE_E)
    : WUKONG_AI_EVENT_TYPE_E * list Z :=
  (WUKONG_AI_EVENT_CLOCK_MCP_POMODORO_TIMER, pomodoro_msg opr phase).

Definition time_left (end_ts now : TIME_T) : TIME_T := if end_ts <=? now then 0 else end_ts - now.

Definition cfg_ok (cfg : WUKONG_TM_POMODORO_CFG_T) : bool :=
  (0 <? work_duration cfg) && (0 <? short_break_duration cfg) && (0 <? long_break_duration cfg) &&
  (1 <=? work_sessions_before_long_break cfg) && (work_sessions_before_long_break cfg <=? 12).

(** The session after its phase has ended. *)
Definition advance (x : session) : session :=
  let completed := if bool_decide (se_phase x = WUKONG_TM_POMODORO_PHASE_WORK)
    then u32 (se_completed x + 1) else se_completed x in
  let next := __pomodoro_next_phase (se_cfg x) (se_phase x) completed in
  mk_session (se_id x) (se_cfg x) next
    (if bool_decide (next = WUKONG_TM_POMODORO_PHASE_WORK) then u32 (se_cycle x + 1) else se_cycle x) completed.

Definition phase_seconds (x : session) : TIME_T := __pomodoro_phase_total_sec (se_phase x) (Some (se_cfg x)).

Definition phase_end_session (params : option cJSON) : option Z :=
  match params ≫= fun p => ty_cJSON_GetObjectItem p "session_id" with
  | Some (JNumber v) => Some (u32 (valueint v))
  | _ => None
  end.

(** The one event of an operation is sent, or could not be allocated. *)
Definition sent_or_not (e : WUKONG_AI_EVENT_TYPE_E * list Z) (rt : OPERATE_RET)
    (events : list (WUKONG_AI_EVENT_TYPE_E * list Z)) : Prop :=
  rt = OPRT_OK /\ events = [e] \/ rt = OPRT_MALLOC_FAILED /\ events = [].

(** Entering the phase of [x] (or the rest of it, [sec] seconds) at [t]: the
    phase runs from then on, or its end cannot be scheduled and the session is
    gone. *)
Inductive enters (t : TIME_T) (x : session) (sec : TIME_T) (opr : WUKONG_TM_TIMER_OPR_E) :
    OPERATE_RET -> list (WUKONG_AI_EVENT_TYPE_E * list Z) -> pomodoro -> Prop :=
| enters_ok rt events : 0 < sec -> sent_or_not (pm_event opr (se_phase x)) rt events ->
    enters t x sec opr rt events (InPhase x (u32 (t + sec)))
| enters_unscheduled rt : rt <> OPRT_OK -> enters t x sec opr rt [] NoSession.

Inductive pm_step (t : TIME_T) (next : Z) : pm_op -> pomodoro ->
    OPERATE_RET -> list (WUKONG_AI_EVENT_TYPE_E * list Z) -> pomodoro -> Prop :=
| start_null p : pm_step t next (PmStart None) p OPRT_INVALID_PARM [] p
| start_bad cfg p : cfg_ok cfg = false -> pm_step t next (PmStart (Some cfg)) p OPRT_INVALID_PARM [] p
| start_busy cfg p : cfg_ok cfg = true -> p <> NoSession -> pm_step t next (PmStart (Some cfg)) p OPRT_COM_ERROR [] p
| start_ok cfg id rt events p' : cfg_ok cfg = true -> id = (if next =? 0 then 1 else next) ->
    enters t (mk_session id cfg WUKONG_TM_POMODORO_PHASE_WORK 1 0) (u32 (u32 (work_duration cfg) * 60))
      WUKONG_TM_TIMER_OPR_START rt events p' ->
    pm_step t next (PmStart (Some cfg)) NoSession rt events p'
| pause_not p : (forall x e, p <> InPhase x e) -> pm_step t next PmPause p OPRT_NOT_FOUND [] p
| pause_ok x e rt events : sent_or_not (pm_event WUKONG_TM_TIMER_OPR_PAUSE (se_phase x)) rt events ->
    pm_step t next PmPause (InPhase x e) rt events (OnHold x (time_left e t))
| resume_not p : (forall x r, p <> OnHold x r) -> pm_step t next PmResume p OPRT_NOT_FOUND [] p
| resume_stuck x : pm_step t next PmResume (OnHold x 0) OPRT_COM_ERROR [] (OnHold x 0)
| resume_ok x r rt events p' : 0 < r -> enters t x r WUKONG_TM_TIMER_OPR_RESUME rt events p' ->
    pm_step t next PmResume (OnHold x r) rt events p'
| stop_not : pm_step t next PmStop NoSession OPRT_NOT_FOUND [] NoSession
| stop_ok p x e rt events : p = InPhase x e \/ p = OnHold x e ->
    sent_or_not (pm_event WUKONG_TM_TIMER_OPR_STOP (se_phase x)) rt events ->
    pm_step t next PmStop p rt events NoSession
| end_bad params p : phase_end_session params = None -> pm_step t next (PmPhaseEnd params) p OPRT_INVALID_PARM [] p
| end_stale params id p : phase_end_session params = Some id -> (forall x e, p = InPhase x e -> se_id x <> id) ->
    pm_step t next (PmPhaseEnd params) p OPRT_NOT_FOUND [] p
| end_ok params x e rt0 finish t' rt events p' : phase_end_session params = Some (se_id x) ->
    sent_or_not (pm_event WUKONG_TM_TIMER_OPR_FINISH (se_phase x)) rt0 finish ->
    enters t' (advance x) (phase_seconds (advance x)) WUKONG_TM_TIMER_OPR_START rt events p' ->
    pm_step t next (PmPhaseEnd params) (InPhase x e) rt (events ++ finish) p'.

(** ** Representation *)

(** The runtime state of a session [x]. *)
Record shows (st : WUKONG_TM_POMODORO_STATE_T) (x : session) : Prop := {
  sh_id : ps_session_id st = se_id x;
  sh_cfg : ps_cfg st = se_cfg x;
  sh_phase : ps_phase st = se_phase x;
  sh_cycle : ps_current_cycle st = se_cycle x;
  sh_completed : ps_completed_work_count st = se_completed x }.

(** The phase-end job is bound exactly while a phase runs. *)
Record pm_repr (cx : WUKONG_TM_POMODORO_CTX_T) (p : pomodoro) : Prop := {
  pr_init : pm_initialized cx = true;
  pr_state :
    match p with
    | NoSession => pm_active cx = false /\ pm_cron_job_id cx = ""
    | InPhase x e =>
        pm_active cx = true /\ pm_paused cx = false /\ pm_cron_job_id cx <> "" /\
        shows (pm_state cx) x /\ ps_phase_end_ts (pm_state cx) = e /\ is_u32 e
    | OnHold x r =>
        pm_active cx = true /\ pm_paused cx = true /\ pm_cron_job_id cx = "" /\
        shows (pm_state cx) x /\ ps_remaining_sec (pm_state cx) = r /\ is_u32 r
    end }.

Section Correct.
Context {W : Type} `{TL : TmHostLaws W} `{TS : TimeService}.
Abbreviation CX := WUKONG_TM_POMODORO_CTX_T.

(** The cron service can take the phase-end jobs. *)
Hypothesis phase_text : forall ts expr id,
  build_cron_expr ts 32 = (OPRT_OK, expr) -> th_job_text (pomodoro_job_json expr id).

Implicit Types (cx : CX) (w : W).

Lemma style_notify_wp cx w opr phase (Q : unit -> CX * W -> Prop) :
  th_ok w -> (forall w', th_ok w' -> th_sent w' = th_sent w -> Q tt (cx, w')) ->
  wp (__pomodoro_reminder_style_notify opr phase) Q (cx, w).
Proof.
  intros Hw HQ.
  assert (Hsay : forall m, wp (let* _ := on_host (wukong_tm_reminder_action_notify m) in cret tt) Q (cx, w)).
  { intros m. wp_step. eapply wp_quiet; [apply action_notify_quiet|done|]. intros rt w1 Hw1 Hs1 _. wp_step. by apply HQ. }
  unfold __pomodoro_reminder_style_notify. destruct opr; try (wp_step; by apply HQ); [apply Hsay|].
  destruct phase; apply Hsay.
Qed.

Lemma pm_emit_wp cx w opr (Q : OPERATE_RET -> CX * W -> Prop) :
  th_ok w ->
  (forall rt w' events, th_ok w' -> th_sent w' = (events ++ th_sent w)%list ->
     sent_or_not (pm_event opr (ps_phase (pm_state cx))) rt events -> Q rt (cx, w')) ->
  wp (__pomodoro_emit_event opr) Q (cx, w).
Proof.
  intros Hw HQ. unfold __pomodoro_emit_event. tm_steps.
  eapply wp_quiet; [apply th_malloc_law|done|]. intros ok w1 Hw1 Hs1 _. destruct ok; cbn [negb].
  - tm_steps. apply wp_host. eapply wp_mono; [by apply th_notify_law|]. intros _ w2 [Hw2 Hs2]. wp_step.
    apply style_notify_wp; [done|]. intros w3 Hw3 Hs3. wp_step.
    apply (HQ OPRT_OK w3 [pm_event opr (ps_phase (pm_state cx))]); [done|by rewrite Hs3, Hs2, Hs1|by left].
  - wp_step. apply (HQ OPRT_MALLOC_FAILED w1 []); [done|done|by right].
Qed.

Lemma remove_cron_wp cx w (Q : unit -> CX * W -> Prop) :
  th_ok w -> (forall w', th_ok w' -> th_sent w' = th_sent w -> Q tt (pm_set_job "" cx, w')) ->
  wp __pomodoro_remove_cron Q (cx, w).
Proof.
  intros Hw HQ. unfold __pomodoro_remove_cron. tm_steps.
  destruct (String.eqb_spec (pm_cron_job_id cx) "") as [He|He].
  - wp_step. replace cx with (pm_set_job "" cx) at 1 by (unfold pm_set_job; rewrite <- He; by destruct cx).
    by apply HQ.
  - tm_steps. eapply wp_quiet; [apply th_job_remove_law|done|]. intros rt w1 Hw1 Hs1 _. tm_steps. by apply HQ.
Qed.

Lemma pm_reset_wp cx w (Q : unit -> CX * W -> Prop) :
  th_ok w ->
  (forall w', th_ok w' -> th_sent w' = th_sent w ->
     Q tt (pomo_cleared (pm_initialized cx) (if pm_next_session_id cx =? 0 then 1 else pm_next_session_id cx), w')) ->
  wp __pomodoro_reset Q (cx, w).
Proof.
  intros Hw HQ. unfold __pomodoro_reset. wp_step. apply remove_cron_wp; [done|]. intros w1 Hw1 Hs1. tm_steps.
  by apply HQ.
Qed.

Lemma pm_schedule_wp cx w sec (Q : OPERATE_RET -> CX * W -> Prop) :
  th_ok w ->
  (forall w' id, th_ok w' -> th_sent w' = th_sent w -> id <> "" -> 0 < sec -> Q OPRT_OK (pm_set_job id cx, w')) ->
  (forall rt w' id, th_ok w' -> th_sent w' = th_sent w -> rt <> OPRT_OK -> Q rt (pm_set_job id cx, w')) ->
  wp (__pomodoro_schedule_cron sec) Q (cx, w).
Proof.
  intros Hw Hok Herr. unfold __pomodoro_schedule_cron.
  assert (Hsame : cx = pm_set_job (pm_cron_job_id cx) cx) by by destruct cx.
  destruct (Z.leb_spec sec 0); [wp_step; rewrite Hsame; by apply Herr|]. cbv zeta.
  wp_step. apply posix_wp; [done|]. intros w1 Hw1 Hs1 _. unfold __pomodoro_build_cron_expr.
  destruct (build_cron_expr _ 32) as [rt expr] eqn:Hb.
  destruct (Z.eqb_spec rt OPRT_OK) as [->|Hrt]; cbn [negb]; [|wp_step; rewrite Hsame; by apply Herr].
  wp_step. apply remove_cron_wp; [done|]. intros w2 Hw2 Hs2. tm_steps.
  eapply wp_quiet; [apply (th_job_add_law _ 32); eapply phase_text; exact Hb|done|].
  intros [rt id] w3 Hw3 Hs3 Hid. cbn [fst snd] in *.
  destruct (Z.eqb_spec rt OPRT_OK) as [->|Hrt]; cbn [negb].
  - tm_steps. change (pm_set_job ?a (pm_set_job ?b cx)) with (pm_set_job a cx).
    apply Hok; [done|congruence| |lia]. specialize (Hid eq_refl). destruct id; [by apply Hid; lia|done].
  - wp_step. apply Herr; [done|congruence|done].
Qed.

(** Entering a phase: the shared end of starting, resuming and advancing, from
    the context [cx1] that shows the new session. *)
Lemma enter_wp cx1 w x t sec opr (Q : OPERATE_RET -> CX * W -> Prop) :
  th_ok w -> pm_initialized cx1 = true -> pm_active cx1 = true -> pm_paused cx1 = false ->
  shows (pm_state cx1) x -> ps_phase_end_ts (pm_state cx1) = u32 (t + sec) ->
  (forall rt cx' w' events p', th_ok w' -> th_sent w' = (events ++ th_sent w)%list ->
     enters t x sec opr rt events p' -> pm_repr cx' p' -> Q rt (cx', w')) ->
  wp (let* rt := __pomodoro_schedule_cron sec in
      if negb (rt =? OPRT_OK) then let* _ := __pomodoro_reset in cret rt
      else __pomodoro_emit_event opr) Q (cx1, w).
Proof.
  intros Hw Hi Ha Hp Hsh He HQ. wp_step. apply pm_schedule_wp; [done| |].
  - intros w1 id Hw1 Hs1 Hid Hsec. change (negb (OPRT_OK =? OPRT_OK)) with false. cbv beta iota.
    apply pm_emit_wp; [done|]. intros rt w2 events Hw2 Hs2 Hev.
    change (ps_phase (pm_state (pm_set_job id cx1))) with (ps_phase (pm_state cx1)) in Hev.
    rewrite (sh_phase _ _ Hsh) in Hev.
    apply (HQ _ _ _ events (InPhase x (u32 (t + sec)))); [done|by rewrite Hs2, Hs1|by apply enters_ok|].
    split; [done|]. split_and!; try done. apply u32_range.
  - intros rt w1 id Hw1 Hs1 Hrt. destruct (Z.eqb_spec rt OPRT_OK); [done|]. cbn [negb].
    wp_step. apply pm_reset_wp; [done|]. intros w2 Hw2 Hs2. wp_step.
    apply (HQ _ _ _ [] NoSession); [done|by rewrite Hs2, Hs1|by apply enters_unscheduled|]. by split.
Qed.

Lemma begin_phase_wp cx w x opr (Q : OPERATE_RET -> CX * W -> Prop) :
  th_ok w -> pm_initialized cx = true -> pm_active cx = true ->
  ps_session_id (pm_state cx) = se_id x -> ps_cfg (pm_state cx) = se_cfg x ->
  ps_current_cycle (pm_state cx) = se_cycle x -> ps_completed_work_count (pm_state cx) = se_completed x ->
  (forall rt cx' w' events p', th_ok w' -> th_sent w' = (events ++ th_sent w)%list ->
     enters (th_clock w) x (phase_seconds x) opr rt events p' -> pm_repr cx' p' -> Q rt (cx', w')) ->
  wp (__pomodoro_begin_phase (se_phase x) opr) Q (cx, w).
Proof.
  intros Hw Hi Ha Hid Hcfg Hcy Hco HQ. unfold __pomodoro_begin_phase. wp_step.
  apply posix_wp; [done|]. intros w1 Hw1 Hs1 Ht. do 4 tm_step. rewrite Hcfg. fold (phase_seconds x).
  apply (enter_wp _ w1 x (th_clock w)); try done. intros rt cx' w' events p' Hw' Hs' Hen Hrep.
  eapply HQ; [done|by rewrite Hs', Hs1|done|done].
Qed.

(** ** The operations *)

Definition run_pm (op : pm_op) : C (CX * W) OPERATE_RET :=
  match op with
  | PmStart cfg => wukong_tm_pomodoro_start cfg
  | PmPause => wukong_tm_pomodoro_pause
  | PmResume => wukong_tm_pomodoro_resume
  | PmStop => wukong_tm_pomodoro_stop
  | PmPhaseEnd params => let* (rt, _) := __pomodoro_phase_end_handler params in cret rt
  end.

Definition pm_outcome op (w : W) next p (rt : OPERATE_RET) (s' : CX * W) : Prop :=
  th_ok (snd s') /\ exists p' events,
    pm_step (th_clock w) next op p rt events p' /\
    pm_repr (fst s') p' /\ th_sent (snd s') = (events ++ th_sent w)%list.

Lemma pm_outcome_intro op w next p rt cx' w' p' events :
  pm_step (th_clock w) next op p rt events p' -> th_ok w' -> pm_repr cx' p' ->
  th_sent w' = (events ++ th_sent w)%list -> pm_outcome op w next p rt (cx', w').
Proof. intros. split; [done|]. by exists p', events. Qed.

Lemma reset_idle_wp cx w (Q : unit -> CX * W -> Prop) :
  pm_cron_job_id cx = "" ->
  Q tt (pomo_cleared (pm_initialized cx) (if pm_next_session_id cx =? 0 then 1 else pm_next_session_id cx), w) ->
  wp __pomodoro_reset Q (cx, w).
Proof.
  intros Hj HQ. unfold __pomodoro_reset, __pomodoro_remove_cron. tm_steps. rewrite Hj, String.eqb_refl. wp_step. tm_steps. done.
Qed.

Lemma repr_active cx p : pm_repr cx p ->
  pm_active cx = match p with NoSession => false | _ => true end /\
  (pm_active cx = true -> pm_paused cx = match p with OnHold _ _ => true | _ => false end).
Proof.
  intros [_ Hp]. destruct p as [|x e|x r]; [destruct Hp as (-> & _)|destruct Hp as (-> & -> & _)..]; done.
Qed.

Lemma start_wp cfg cx w p : th_ok w -> pm_repr cx p ->
  wp (run_pm (PmStart cfg)) (pm_outcome (PmStart cfg) w (pm_next_session_id cx) p) (cx, w).
Proof.
  intros Hw Hr. cbn [run_pm]. unfold wukong_tm_pomodoro_start.
  destruct cfg as [cfg|]; [|wp_step; eapply pm_outcome_intro; [apply start_null|done..]].
  tm_steps. destruct (repr_active _ _ Hr) as [Ha _]. destruct (Hr) as [Hi Hp]. rewrite Hi. cbn [negb].
  assert (Hcfg : cfg_ok cfg = negb ((work_duration cfg <=? 0) || (short_break_duration cfg <=? 0) || (long_break_duration cfg <=? 0)) &&
    negb ((work_sessions_before_long_break cfg <? WUKONG_TM_POMODORO_WORK_BEFORE_LONG_MIN) ||
          (WUKONG_TM_POMODORO_WORK_BEFORE_LONG_MAX <? work_sessions_before_long_break cfg))).
  { unfold cfg_ok, WUKONG_TM_POMODORO_WORK_BEFORE_LONG_MIN, WUKONG_TM_POMODORO_WORK_BEFORE_LONG_MAX.
    rewrite !negb_orb, <- !Z.ltb_antisym, <- !Z.leb_antisym. by rewrite !andb_assoc. }
  destruct (_ || _ || _); [wp_step; eapply pm_outcome_intro; [by apply start_bad|done..]|].
  destruct (_ || _); [wp_step; eapply pm_outcome_intro; [by apply start_bad|done..]|]. cbn in Hcfg. rewrite Ha.
  destruct p as [|x e|x r]; [|wp_step; eapply pm_outcome_intro; [by apply start_busy|done..]..].
  destruct Hp as (_ & Hj). wp_step. apply reset_idle_wp; [done|]. do 4 tm_step.
  set (id := if pm_next_session_id cx =? 0 then 1 else pm_next_session_id cx).
  set (x := mk_session id cfg WUKONG_TM_POMODORO_PHASE_WORK 1 0).
  apply (begin_phase_wp _ w x); try done. intros rt cx' w' events p' Hw' Hs' Hen Hrep.
  eapply pm_outcome_intro; [by eapply start_ok|done|done|done].
Qed.

Lemma refresh_wp cx w x e (Q : unit -> CX * W -> Prop) :
  th_ok w -> pm_repr cx (InPhase x e) ->
  (forall w', th_ok w' -> th_sent w' = th_sent w -> is_u32 (time_left e (th_clock w)) ->
     Q tt (pm_set_state (ps_set_remaining (time_left e (th_clock w)) (pm_state cx)) cx, w')) ->
  wp __pomodoro_refresh_running Q (cx, w).
Proof.
  intros Hw [_ (Ha & Hp & _ & _ & He & Hu)] HQ. unfold __pomodoro_refresh_running. tm_steps. rewrite Ha, Hp.
  cbn [negb orb]. wp_step. apply posix_wp; [done|]. intros w1 Hw1 Hs1 Ht. rewrite He. unfold time_left in HQ.
  unfold is_u32 in *. destruct (Z.leb_spec e (th_clock w)); tm_steps; [apply HQ; [done..|lia]|].
  rewrite u32_id by (unfold is_u32; lia). apply HQ; [done..|lia].
Qed.

Lemma pm_pause_wp cx w next p : th_ok w -> pm_repr cx p -> wp (run_pm PmPause) (pm_outcome PmPause w next p) (cx, w).
Proof.
  intros Hw Hr. cbn [run_pm]. unfold wukong_tm_pomodoro_pause. tm_steps.
  destruct (repr_active _ _ Hr) as [Ha Hpa].
  assert (Hno : forall p0, p = p0 -> (forall x e, p0 <> InPhase x e) ->
    wp (cret OPRT_NOT_FOUND) (pm_outcome PmPause w next p) (cx, w)).
  { intros p0 <- Hp0. wp_step. eapply pm_outcome_intro; [by apply pause_not|done..]. }
  destruct p as [|x e|x r].
  - rewrite Ha. by eapply Hno.
  - rewrite Ha, (Hpa Ha). cbn [negb orb]. wp_step. eapply refresh_wp; [done|done|]. intros w1 Hw1 Hs1 Hu. wp_step.
    apply remove_cron_wp; [done|]. intros w2 Hw2 Hs2. tm_steps. destruct (Hr) as [Hi (_ & _ & _ & Hsh & _)].
    apply pm_emit_wp; [done|]. intros rt w3 events Hw3 Hs3 Hev. cbn in Hev. rewrite (sh_phase _ _ Hsh) in Hev.
    eapply pm_outcome_intro; [by apply pause_ok|done| |by rewrite Hs3, Hs2, Hs1].
    split; [done|]. split_and!; try done. by destruct Hsh.
  - rewrite Ha, (Hpa Ha). by eapply Hno.
Qed.

Lemma pm_resume_wp cx w next p : th_ok w -> pm_repr cx p -> wp (run_pm PmResume) (pm_outcome PmResume w next p) (cx, w).
Proof.
  intros Hw Hr. cbn [run_pm]. unfold wukong_tm_pomodoro_resume. do 2 tm_step. cbv zeta.
  destruct (repr_active _ _ Hr) as [Ha Hpa].
  assert (Hno : forall p0, p = p0 -> (forall x e, p0 <> OnHold x e) ->
    wp (cret OPRT_NOT_FOUND) (pm_outcome PmResume w next p) (cx, w)).
  { intros p0 <- Hp0. wp_step. eapply pm_outcome_intro; [by apply resume_not|done..]. }
  destruct p as [|x e|x r]; [rewrite Ha; by eapply Hno|rewrite Ha, (Hpa Ha); by eapply Hno|].
  rewrite Ha, (Hpa Ha). cbn [negb orb]. destruct (Hr) as [Hi (_ & _ & Hj & Hsh & Hrem & Hu)]. rewrite Hrem.
  unfold is_u32 in Hu. destruct (Z.leb_spec r 0).
  - assert (r = 0) as -> by lia. wp_step. eapply pm_outcome_intro; [apply resume_stuck|done..].
  - wp_step. apply posix_wp; [done|]. intros w1 Hw1 Hs1 Ht. do 2 tm_step. rewrite Hi.
    apply (enter_wp _ w1 x (th_clock w)); try done; [by destruct Hsh|]. intros rt cx' w' events p' Hw' Hs' Hen Hrep.
    eapply pm_outcome_intro; [by eapply resume_ok|done|done|by rewrite Hs', Hs1].
Qed.

Lemma stop_wp cx w next p : th_ok w -> pm_repr cx p -> wp (run_pm PmStop) (pm_outcome PmStop w next p) (cx, w).
Proof.
  intros Hw Hr. cbn [run_pm]. unfold wukong_tm_pomodoro_stop. tm_steps.
  destruct (repr_active _ _ Hr) as [Ha _]. destruct (Hr) as [Hi Hp]. rewrite Ha.
  assert (Hgo : forall x e, p = InPhase x e \/ p = OnHold x e -> shows (pm_state cx) x ->
    wp (let* rt := __pomodoro_emit_event WUKONG_TM_TIMER_OPR_STOP in let* _ := __pomodoro_reset in cret rt)
      (pm_outcome PmStop w next p) (cx, w)).
  { intros x e Hpe Hsh. wp_step. apply pm_emit_wp; [done|]. intros rt w1 events Hw1 Hs1 Hev.
    rewrite (sh_phase _ _ Hsh) in Hev. wp_step. apply pm_reset_wp; [done|]. intros w2 Hw2 Hs2. wp_step.
    eapply pm_outcome_intro; [by eapply stop_ok|done|by split|by rewrite Hs2]. }
  destruct p as [|x e|x r]; cbn [negb].
  - wp_step. eapply pm_outcome_intro; [apply stop_not|done..].
  - apply (Hgo x e); [by left|apply Hp].
  - apply (Hgo x r); [by right|apply Hp].
Qed.

(** The phase-end callback for the session in progress. *)
Lemma phase_end_running_wp params pp v cx w next x e :
  th_ok w -> pm_repr cx (InPhase x e) -> params = Some pp ->
  ty_cJSON_GetObjectItem pp "session_id" = Some (JNumber v) -> u32 (valueint v) = se_id x ->
  wp (run_pm (PmPhaseEnd params)) (pm_outcome (PmPhaseEnd params) w next (InPhase x e)) (cx, w).
Proof.
  intros Hw Hr -> Hp Hv. cbn [run_pm]. unfold __pomodoro_phase_end_handler. rewrite Hp. do 3 tm_step.
  destruct (Hr) as [Hi (Ha & Hpa & Hj & [Hid Hcfg Hph Hcy Hco] & He & Hu)].
  rewrite Ha, Hpa, Hid, Hv, Z.eqb_refl. cbn [negb orb]. cbv zeta. do 3 tm_step.
  apply pm_emit_wp; [done|]. intros rt0 w1 finish Hw1 Hs1 Hfin. cbn in Hfin. rewrite Hph in Hfin. do 3 tm_step.
  rewrite Hph, Hcfg, Hcy, Hco.
  assert (Hend : phase_end_session (Some pp) = Some (se_id x)) by (unfold phase_end_session; cbn; by rewrite Hp, Hv).
  apply (begin_phase_wp _ w1 (advance x)); try done. intros rt cx' w2 events p' Hw2 Hs2 Hen Hrep.
  assert (Hout : forall w3, th_ok w3 -> th_sent w3 = th_sent w2 ->
    pm_outcome (PmPhaseEnd (Some pp)) w next (InPhase x e) rt (cx', w3)).
  { intros w3 Hw3 Hs3. eapply pm_outcome_intro; [by eapply end_ok|done|done|].
    by rewrite Hs3, Hs2, Hs1, app_assoc. }
  wp_step. eapply wp_quiet; [apply th_malloc_law|done|]. intros ok w3 Hw3 Hs3 _. destruct ok; cbn [negb].
  - unfold result_add. wp_steps. eapply wp_quiet; [apply th_malloc_law|done|]. intros ok2 w4 Hw4 Hs4 _. wp_steps.
    apply Hout; [done|congruence].
  - wp_steps. by apply Hout.
Qed.

Lemma phase_end_wp params cx w next p : th_ok w -> pm_repr cx p ->
  wp (run_pm (PmPhaseEnd params)) (pm_outcome (PmPhaseEnd params) w next p) (cx, w).
Proof.
  intros Hw Hr. destruct params as [pp|].
  2:{ cbn [run_pm __pomodoro_phase_end_handler]. wp_steps. eapply pm_outcome_intro; [by apply end_bad|done..]. }
  destruct (ty_cJSON_GetObjectItem pp "session_id") as [[| |v| | |]|] eqn:Hp;
    try (cbn [run_pm]; unfold __pomodoro_phase_end_handler; rewrite Hp; wp_steps;
         eapply pm_outcome_intro; [apply end_bad; unfold phase_end_session; cbn; by rewrite Hp|done..]).
  assert (Hth : phase_end_session (Some pp) = Some (u32 (valueint v))) by (unfold phase_end_session; cbn; by rewrite Hp).
  assert (Hcase : (exists x e, p = InPhase x e /\ u32 (valueint v) = se_id x) \/ forall x e, p = InPhase x e -> se_id x <> u32 (valueint v)).
  { destruct p as [|x e|]; [by right| |by right].
    destruct (decide (u32 (valueint v) = se_id x)) as [Heq|Hne]; [left; eauto|]. right. intros x' e' [= -> ->]. by apply not_eq_sym. }
  destruct Hcase as [(x & e & -> & Hv)|Hstale]; [by eapply phase_end_running_wp|].
  cbn [run_pm]. unfold __pomodoro_phase_end_handler. rewrite Hp. tm_steps.
  destruct (repr_active _ _ Hr) as [Ha Hpa].
  replace (negb (pm_active cx) || pm_paused cx || _) with true.
  { wp_steps. eapply pm_outcome_intro; [by eapply end_stale|done..]. }
  destruct p as [|x e|x r]; rewrite Ha; [done| |by rewrite (Hpa Ha)].
  rewrite (Hpa Ha). destruct (Hr) as [_ (_ & _ & _ & Hsh & _)]. rewrite (sh_id _ _ Hsh).
  destruct (Z.eqb_spec (u32 (valueint v)) (se_id x)) as [Heq|]; [|done]. by destruct (Hstale x e eq_refl).
Qed.


End Correct.

(** ** The rotation of phases *)

(** The phase after [n] phase ends, with a long break after every [k]-th work
    phase. *)
Definition nth_phase (k : Z) (n : nat) : WUKONG_TM_POMODORO_PHASE_E :=
  if Nat.even n then WUKONG_TM_POMODORO_PHASE_WORK
  else if ((Z.of_nat n + 1) / 2) mod k =? 0 then WUKONG_TM_POMODORO_PHASE_LONG_BREAK
  else WUKONG_TM_POMODORO_PHASE_SHORT_BREAK.

Lemma half a b : 2 * b <= a < 2 * b + 2 -> a / 2 = b.
Proof. intros H. symmetry. apply (Z.div_unique_pos a 2 b (a - 2 * b)); lia. Qed.

(** A session started with [k] work phases per long break goes through
    work, break, work, break and so on, the break after every [k]-th work phase
    being long and all others short; it counts the completed work phases and
    the cycles right. *)
Theorem pomodoro_rotation id cfg n :
  cfg_ok cfg = true -> Z.of_nat n < 2 ^ 32 ->
  let x := Nat.iter n advance (mk_session id cfg WUKONG_TM_POMODORO_PHASE_WORK 1 0) in
  se_id x = id /\ se_cfg x = cfg /\ se_phase x = nth_phase (work_sessions_before_long_break cfg) n /\
  se_completed x = (Z.of_nat n + 1) / 2 /\ se_cycle x = 1 + Z.of_nat n / 2.
Proof.
  intros Hcfg. unfold cfg_ok in Hcfg. set (k := work_sessions_before_long_break cfg) in *.
  assert (Hk : 1 <= k <= 12) by lia. clear Hcfg.
  induction n as [|n IH]; intros Hn; [done|]. cbv zeta in *.
  change (Nat.iter (S n) ?f ?a) with (f (Nat.iter n f a)).
  destruct IH as (Hid & Hc & Hp & Hco & Hcy); [lia|]. set (x := Nat.iter n advance _) in *.
  unfold advance. cbn [se_id se_cfg se_phase se_completed se_cycle]. rewrite Hc, Hp, Hco, Hcy, Hid.
  destruct (Nat.Even_or_Odd n) as [[m ->]|[m ->]].
  - assert (Hev : Nat.even (2 * m) = true) by (apply Nat.even_spec; by exists m).
    assert (Hw : nth_phase k (2 * m) = WUKONG_TM_POMODORO_PHASE_WORK) by (unfold nth_phase; by rewrite Hev).
    rewrite Hw, (bool_decide_eq_true_2 (WUKONG_TM_POMODORO_PHASE_WORK = WUKONG_TM_POMODORO_PHASE_WORK)) by done.
    rewrite (half (Z.of_nat (2 * m) + 1) (Z.of_nat m)), (half (Z.of_nat (2 * m)) (Z.of_nat m)),
      (half (Z.of_nat (S (2 * m)) + 1) (Z.of_nat m + 1)), (half (Z.of_nat (S (2 * m))) (Z.of_nat m)) by lia.
    rewrite (u32_id (Z.of_nat m + 1)) by (unfold is_u32; lia).
    unfold nth_phase. rewrite Nat.even_succ, <- Nat.negb_even, Hev. cbn [negb __pomodoro_next_phase].
    fold k. rewrite (u32_id k) by (unfold is_u32; lia).
    rewrite (half (Z.of_nat (S (2 * m)) + 1) (Z.of_nat m + 1)) by lia.
    destruct (Z.eqb_spec k 0); [lia|]. destruct (Z.ltb_spec 0 (Z.of_nat m + 1)); [|lia]. cbn [andb].
    destruct (_ =? 0); rewrite bool_decide_eq_false_2 by done; by split_and!.
  - assert (Hev : Nat.even (2 * m + 1) = false).
    { rewrite <- Nat.negb_odd. apply negb_false_iff, Nat.odd_spec. by exists m. }
    assert (Hbr : nth_phase k (2 * m + 1) <> WUKONG_TM_POMODORO_PHASE_WORK)
      by (unfold nth_phase; rewrite Hev; by destruct (_ =? 0)).
    assert (Hnext : __pomodoro_next_phase cfg (nth_phase k (2 * m + 1)) ((Z.of_nat (2 * m + 1) + 1) / 2)
                    = WUKONG_TM_POMODORO_PHASE_WORK) by (by destruct (nth_phase k (2 * m + 1))).
    rewrite (bool_decide_eq_false_2 (nth_phase k (2 * m + 1) = _)) by done.
    rewrite Hnext, bool_decide_eq_true_2 by done.
    rewrite (half (Z.of_nat (2 * m + 1) + 1) (Z.of_nat m + 1)), (half (Z.of_nat (2 * m + 1)) (Z.of_nat m)),
      (half (Z.of_nat (S (2 * m + 1)) + 1) (Z.of_nat m + 1)), (half (Z.of_nat (S (2 * m + 1))) (Z.of_nat m + 1)) by lia.
    rewrite u32_id by (unfold is_u32; lia).
    unfold nth_phase. rewrite Nat.even_succ, <- Nat.negb_even, Hev. split_and!; try done. lia.
Qed.
