(* ===== verification/TmService.v ===== *)
(** Starting and stopping the five time-management features together
    (src/apps/src/wukong/tm/wukong_tm.c), and what that promises: it always ends
    with all of them or none, and what a failure undoes. *)
From stdpp Require Import gmap strings fin_maps.
From S2P Require Import Prelude.
From S2P Require Import Calendar.
From S2P Require Import CStr.
From S2P Require Import World.
From S2P Require Import Slots.
From S2P Require Import Json.
From S2P Require Import TmHost.
From S2P Require Import TmStore.
From S2P Require Import TmAlarm.
From S2P Require Import TmAlarmTime.
From S2P Require Import TmAlarmCorrect.
From S2P Require Import TmReminder.
From S2P Require Import TmReminderCorrect.
From S2P Require Import TmStopwatch.
From S2P Require Import TmCountdown.
From S2P Require Import TmCountdownCorrect.
From S2P Require Import TmPomodoro.
From S2P Require Import TmPomodoroCorrect.

#[local] Open Scope string_scope.
#[local] Open Scope Z_scope.

(** The contexts of the features, and the static variable of the file. *)
Record TM_STATE := mk_tms {
  tms_alarm : ALARM_STATICS; tms_reminder : WUKONG_TM_REMINDER_CTX_T; tms_countdown : WUKONG_TM_COUNTDOWN_CTX_T;
  tms_stopwatch : WUKONG_TM_STOPWATCH_CTX_T; tms_pomodoro : WUKONG_TM_POMODORO_CTX_T;
  s_tm_time_sync_subscribed : bool }.

Definition tms_set_alarm (x : ALARM_STATICS) (t : TM_STATE) : TM_STATE :=
  mk_tms x (tms_reminder t) (tms_countdown t) (tms_stopwatch t) (tms_pomodoro t) (s_tm_time_sync_subscribed t).
Definition tms_set_reminder (x : WUKONG_TM_REMINDER_CTX_T) (t : TM_STATE) : TM_STATE :=
  mk_tms (tms_alarm t) x (tms_countdown t) (tms_stopwatch t) (tms_pomodoro t) (s_tm_time_sync_subscribed t).
Definition tms_set_countdown (x : WUKONG_TM_COUNTDOWN_CTX_T) (t : TM_STATE) : TM_STATE :=
  mk_tms (tms_alarm t) (tms_reminder t) x (tms_stopwatch t) (tms_pomodoro t) (s_tm_time_sync_subscribed t).
Definition tms_set_stopwatch (x : WUKONG_TM_STOPWATCH_CTX_T) (t : TM_STATE) : TM_STATE :=
  mk_tms (tms_alarm t) (tms_reminder t) (tms_countdown t) x (tms_pomodoro t) (s_tm_time_sync_subscribed t).
Definition tms_set_pomodoro (x : WUKONG_TM_POMODORO_CTX_T) (t : TM_STATE) : TM_STATE :=
  mk_tms (tms_alarm t) (tms_reminder t) (tms_countdown t) (tms_stopwatch t) x (s_tm_time_sync_subscribed t).
Definition tms_set_subscribed (b : bool) (t : TM_STATE) : TM_STATE :=
  mk_tms (tms_alarm t) (tms_reminder t) (tms_countdown t) (tms_stopwatch t) (tms_pomodoro t) b.

(** The calls on the rest of the program. *)
Class TimeSync (W : Type) := {
  tal_time_check_time_sync : C W OPERATE_RET;
  tal_time_check_time_zone_sync : C W OPERATE_RET;
  subscribe_time_sync : C W OPERATE_RET;    (* ty_subscribe_event(EVENT_TIME_SYNC, "wukong_tm", ...) *)
  unsubscribe_time_sync : C W OPERATE_RET;
  cron_time_ready_notify : C W OPERATE_RET }.

Class TimeSyncLaws (W : Type) `{!TmHost W} `{!TimeSync W} : Prop := {
  sync_check_law : quiet tal_time_check_time_sync (fun _ => True);
  zone_check_law : quiet tal_time_check_time_zone_sync (fun _ => True);
  subscribe_law : quiet subscribe_time_sync (fun _ => True);
  unsubscribe_law : quiet unsubscribe_time_sync (fun _ => True);
  ready_law : quiet cron_time_ready_notify (fun _ => True) }.

Section Service.
Context {K W : Type} `{KS : KvStore K} `{TH : TmHost W} `{SY : TimeSync W} `{TS : TimeService} `{JT : JsonText} `{TL : TmLayout}.
Abbreviation M := (C (TM_STATE * (K * W))).

(** A feature's operation, on its part of the state. *)
Definition on_stored {X A} (get : TM_STATE -> X) (set : X -> TM_STATE -> TM_STATE) (m : C (X * (K * W)) A) : M A :=
  fun '(t, s) => match m (get t, s) with Some (a, (x, s')) => Some (a, (set x t, s')) | None => None end.
Definition on_feature {X A} (get : TM_STATE -> X) (set : X -> TM_STATE -> TM_STATE) (m : C (X * W) A) : M A :=
  fun '(t, (k, w)) => match m (get t, w) with Some (a, (x, w')) => Some (a, (set x t, (k, w'))) | None => None end.

Definition alarm {A} (m : C (ALARM_STATICS * (K * W)) A) : M A := on_stored tms_alarm tms_set_alarm m.
Definition reminder {A} (m : C (WUKONG_TM_REMINDER_CTX_T * (K * W)) A) : M A := on_stored tms_reminder tms_set_reminder m.
Definition countdown {A} (m : C (WUKONG_TM_COUNTDOWN_CTX_T * W) A) : M A := on_feature tms_countdown tms_set_countdown m.
Definition stopwatch {A} (m : C (WUKONG_TM_STOPWATCH_CTX_T * W) A) : M A := on_feature tms_stopwatch tms_set_stopwatch m.
Definition pomodoro {A} (m : C (WUKONG_TM_POMODORO_CTX_T * W) A) : M A := on_feature tms_pomodoro tms_set_pomodoro m.

Definition __tm_notify_time_ready : M OPERATE_RET :=
  let* sync := on_dev tal_time_check_time_sync in
  if negb (sync =? OPRT_OK) then cret OPRT_OK
  else
    let* zone := on_dev tal_time_check_time_zone_sync in
    if negb (zone =? OPRT_OK) then cret OPRT_OK else on_dev cron_time_ready_notify.

(** The deinitialisation calls that the error paths share, from each feature
    down. *)
Definition undo_alarm : M unit := let* _ := alarm wukong_tm_alarm_deinit in cret tt.
Definition undo_reminder : M unit := let* _ := reminder wukong_tm_reminder_deinit in undo_alarm.
Definition undo_countdown : M unit := let* _ := countdown wukong_tm_countdown_deinit in undo_reminder.
Definition undo_stopwatch : M unit := let* _ := stopwatch wukong_tm_stopwatch_deinit in undo_countdown.
Definition undo_pomodoro : M unit := let* _ := pomodoro wukong_tm_pomodoro_deinit in undo_stopwatch.

Definition wukong_time_manage_init : M OPERATE_RET :=
  let* rt := alarm wukong_tm_alarm_init in
  if negb (rt =? OPRT_OK) then cret rt
  else
  let* rt := reminder wukong_tm_reminder_init in
  if negb (rt =? OPRT_OK) then let* _ := undo_alarm in cret rt
  else
  let* rt := countdown wukong_tm_countdown_init in
  if negb (rt =? OPRT_OK) then let* _ := undo_reminder in cret rt
  else
  let* rt := stopwatch wukong_tm_stopwatch_init in
  if negb (rt =? OPRT_OK) then let* _ := undo_countdown in cret rt
  else
  let* rt := pomodoro wukong_tm_pomodoro_init in
  if negb (rt =? OPRT_OK) then let* _ := undo_stopwatch in cret rt
  else
  let* rt := on_dev subscribe_time_sync in
  if negb (rt =? OPRT_OK) then let* _ := undo_pomodoro in cret rt
  else
  let* _ := mod_ctx (tms_set_subscribed true) in
  let* rt := __tm_notify_time_ready in
  if negb (rt =? OPRT_OK) then
    let* _ := on_dev unsubscribe_time_sync in
    let* _ := mod_ctx (tms_set_subscribed false) in
    let* _ := undo_pomodoro in
    cret rt
  else cret OPRT_OK.

Definition wukong_time_manage_deinit : M OPERATE_RET :=
  let keep rt last_err := if negb (rt =? OPRT_OK) then rt else last_err in
  let* t := get_ctx in
  let* last_err := (if s_tm_time_sync_subscribed t then
      let* rt := on_dev unsubscribe_time_sync in
      let* _ := mod_ctx (tms_set_subscribed false) in
      cret (keep rt OPRT_OK)
    else cret OPRT_OK) in
  let* rt := pomodoro wukong_tm_pomodoro_deinit in
  let last_err := keep rt last_err in
  let* rt := stopwatch wukong_tm_stopwatch_deinit in
  let last_err := keep rt last_err in
  let* rt := countdown wukong_tm_countdown_deinit in
  let last_err := keep rt last_err in
  let* rt := reminder wukong_tm_reminder_deinit in
  let last_err := keep rt last_err in
  let* rt := alarm wukong_tm_alarm_deinit in
  let last_err := keep rt last_err in
  cret last_err.

End Service.

(** ** Stored documents that can be loaded

    Their numbers fit their types, and their ids are plain text. *)

Definition alarm_item_loadable (item : cJSON) : Prop :=
  forall id, ty_cJSON_GetObjectItem item "id" = Some (JString id) -> id <> "" ->
    plain id = true /\ is_Some (load_alarm_cfg item).

Definition reminder_item_loadable (item : cJSON) : Prop :=
  forall id, ty_cJSON_GetObjectItem item "id" = Some (JString id) -> id <> "" ->
    plain id = true /\ is_Some (load_cfg item).

Definition array_ok (name : string) (P : cJSON -> Prop) (root : cJSON) : Prop :=
  match ty_cJSON_GetObjectItem root name with Some (JArray items) => Forall P items | _ => True end.

Definition documents_ok {K} `{KvStore K} `{JsonText} (k : K) : Prop :=
  (forall text root, kv_kept k WUKONG_TM_ALARM_KV_KEY = Some text -> ty_cJSON_Parse text = Some root ->
     array_ok "alarms" alarm_item_loadable root) /\
  (forall text root, kv_kept k WUKONG_TM_REMINDER_KV_KEY = Some text -> ty_cJSON_Parse text = Some root ->
     array_ok "reminders" reminder_item_loadable root).

Lemma load_alarm_cfg_fits item cfg : load_alarm_cfg item = Some cfg ->
  acfg_u32 cfg /\ (strlen (ac_message cfg) <= WUKONG_TM_ALARM_MESSAGE_LEN)%nat.
Proof.
  unfold load_alarm_cfg, to_time. destruct (_ && _) eqn:Ht; [|done]. intros [= <-].
  apply andb_true_iff in Ht as [?%Z.leb_le ?%Z.ltb_lt]. split.
  - split; cbn; [apply u32_range..|]. by split.
  - cbn. destruct (ty_cJSON_GetObjectItem item "message") as [[]|]; cbn; try lia. apply strtrunc_length.
Qed.

Lemma load_cfg_fits item cfg : load_cfg item = Some cfg ->
  0 <= rc_start_time cfg < 2 ^ 32 /\ (strlen (rc_message cfg) <= WUKONG_TM_REMINDER_MESSAGE_LEN)%nat.
Proof.
  unfold load_cfg, to_time. destruct (_ && _) eqn:Ht; [|done]. intros [= <-].
  apply andb_true_iff in Ht as [?%Z.leb_le ?%Z.ltb_lt]. split; [cbn; lia|].
  cbn. destruct (ty_cJSON_GetObjectItem item "message") as [[]|]; cbn; try lia. apply strtrunc_length.
Qed.

Lemma plain_trunc n s : plain s = true -> plain (strtrunc n s) = true.
Proof. apply str_all_trunc. Qed.

(** ** Tables whatever they hold

    An arbitrary document may repeat an id: the table is then no map, but its
    slots still hold well-formed items. *)

Definition tabled_alarms (s : ALARM_STATICS) : Prop :=
  length (alarms s) = WUKONG_TM_ALARM_MAX_COUNT /\ Forall alarm_wf (alarms s) /\ ax_initialized (s_alarm_ctx s) = true.
Definition tabled_reminders (cx : WUKONG_TM_REMINDER_CTX_T) : Prop :=
  length (rx_items cx) = WUKONG_TM_MAX_REMINDERS /\ Forall ritem_wf (rx_items cx) /\ rx_initialized cx = true.

Lemma tabled_set_alarm i a s : tabled_alarms s -> alarm_wf a -> tabled_alarms (set_alarm i a s).
Proof. intros (Hl & Hf & Hi) Ha. unfold tabled_alarms. rewrite set_alarm_items, length_insert. split_and!; [done|by apply Forall_insert|done]. Qed.

Lemma tabled_set_item i it cx : tabled_reminders cx -> ritem_wf it -> tabled_reminders (set_item i it cx).
Proof. intros (Hl & Hf & Hi) Ha. split_and!; cbn; [by rewrite length_insert|by apply Forall_insert|done]. Qed.

Lemma first_slot_at {A} (P : A -> bool) l i : first_slot P l = Some i -> exists a, l !! i = Some a.
Proof. intros H. apply first_slot_Some in H as (a & Ha & _). by exists a. Qed.

Section Lifecycle.
Context {K W : Type} `{KL : KvStoreLaws K} `{HL : TmHostLaws W} `{SY : TimeSync W} `{YL : !TimeSyncLaws W}
  `{TS : TimeService} `{JT : JsonText} `{TL : TmLayout}.

(** The cron service can take the features' jobs. *)
Hypothesis alarm_text : forall c expr id enabled once message,
  acfg_ok c -> __alarm_build_cron_expr c 32 = (OPRT_OK, expr) -> aid_wf id ->
  (strlen message <= WUKONG_TM_ALARM_MESSAGE_LEN)%nat ->
  th_job_text (alarm_job_json id enabled once expr (escaped alarm_escape_char message)).
Hypothesis reminder_text : forall ts expr id enabled message,
  build_cron_expr ts 32 = (OPRT_OK, expr) -> rid_wf id ->
  (strlen message <= WUKONG_TM_REMINDER_MESSAGE_LEN)%nat ->
  th_job_text (reminder_job_json id enabled expr (escaped escape_char message)).

Implicit Types (k : K) (w : W).

(** ** Alarms *)

Lemma load_alarms_wp now arr need s k w : th_ok w -> tabled_alarms s -> Forall alarm_item_loadable arr ->
  wp (load_alarms now arr need) (fun _ '(s', (k', w')) => k' = k /\ th_ok w' /\ tabled_alarms s') (s, (k, w)).
Proof.
  revert need s w. induction arr as [|item arr IH]; intros need s w Hw Hs Harr; cbn [load_alarms]; [by wp_step|].
  apply Forall_cons in Harr as [Hitem Harr]. destruct (negb _); [by apply IH|].
  destruct (ty_cJSON_GetObjectItem item "id") as [[| | |id| |]|] eqn:Hid; try by apply IH.
  destruct (String.eqb_spec id "") as [_|Hne]; [by apply IH|]. destruct (Hitem id Hid Hne) as [Hplain [cfg Hcfg]].
  do 2 tm_step. destruct (__alarm_alloc_index s) as [slot|] eqn:Hslot; [|by wp_step].
  destruct (first_slot_at _ _ _ Hslot) as [old Hold]. wp_step. eapply wp_pure; [exact Hcfg|].
  destruct (load_alarm_cfg_fits _ _ Hcfg) as [Hu Hmsg].
  destruct (validate_spec cfg Hu) as [Hok|_]; cbn [negb]; [|do 2 tm_step; by apply IH; [|apply tabled_set_alarm|]].
  do 2 tm_step. set (new := mk_alarm true _ cfg false 0 "" "").
  assert (Haid : aid_wf (al_alarm_id new)).
  { split; [apply strtrunc_nonempty; [unfold WUKONG_TM_ALARM_ID_LEN; lia|done]|apply strtrunc_length|by apply plain_trunc]. }
  assert (Hc : acfg_wf cfg) by done.
  destruct (negb (ac_enabled cfg)); [by apply IH; [|apply tabled_set_alarm|]|].
  destruct (_ && _).
  - wp_step. eapply mod_set_wp; [exact Hold|]. apply IH; [done| |done]. apply tabled_set_alarm; [done|].
    intros _. split; [done|]. by apply acfg_wf_enabled.
  - wp_step. eapply sync_alarm_wp; [exact alarm_text|done|exact Hold|done|done|]. intros rt j w1 Hw1 _ _.
    apply IH; [done| |done]. apply tabled_set_alarm; [done|]. intros _. split; [done|]. by apply acfg_wf_job.
Qed.

Lemma alarm_store_load_wp s k w (Q : OPERATE_RET -> ALARM_STATICS * (K * W) -> Prop) :
  th_ok w -> tabled_alarms s -> documents_ok k ->
  (forall s' k' w', th_ok w' -> tabled_alarms s' -> (forall key, key <> WUKONG_TM_ALARM_KV_KEY -> kv_kept k' key = kv_kept k key) ->
     Q OPRT_OK (s', (k', w'))) ->
  wp __alarm_store_load Q (s, (k, w)).
Proof.
  intros Hw Hs [Hdoc _] HQ. unfold __alarm_store_load. wp_step. apply wp_clock; [done|]. intros w1 Hw1 _ _.
  wp_step. apply wp_store. eapply wp_mono; [apply kv_read_law|]. intros [rt data] k1 [Hk1 Hdata]. cbn [fst snd] in Hdata.
  assert (Hdone : wp (cret OPRT_OK) Q (s, (k1, w1))) by (wp_step; by apply HQ).
  destruct (Z.eqb_spec rt OPRT_OK) as [->|_]; cbn [negb]; [|done]. specialize (Hdata eq_refl).
  destruct (ty_cJSON_Parse data) as [root|] eqn:Hroot; [|done]. specialize (Hdoc data root Hdata Hroot). unfold array_ok in Hdoc.
  destruct (ty_cJSON_GetObjectItem root "alarms") as [[]|]; try done.
  wp_step. eapply wp_mono; [by apply load_alarms_wp|]. intros need [s' [k' w2]] (-> & Hw2 & Hs'). wp_step.
  destruct need.
  - apply save_store_wp; [done|]. intros rt k3 w3 Hw3 [Hk3 _]. wp_step. apply HQ; [done..|]. intros key Hne. by rewrite Hk3.
  - unfold __alarm_store_notify. apply store_notify_wp; [done|]. intros rt w3 Hw3 _. wp_step. by apply HQ.
Qed.

(** Starting the alarms: all or nothing. *)
Lemma alarm_init_wp s k w (Q : OPERATE_RET -> ALARM_STATICS * (K * W) -> Prop) :
  s_alarm_ctx s = actx_zero -> th_ok w -> documents_ok k ->
  (forall rt s' w', th_ok w' -> rt <> OPRT_OK -> s_alarm_ctx s' = actx_zero -> Q rt (s', (k, w'))) ->
  (forall s' k' w', th_ok w' -> tabled_alarms s' -> (forall key, key <> WUKONG_TM_ALARM_KV_KEY -> kv_kept k' key = kv_kept k key) ->
     Q OPRT_OK (s', (k', w'))) ->
  wp wukong_tm_alarm_init Q (s, (k, w)).
Proof.
  intros Hs Hw Hdoc Hbad Hgood. unfold wukong_tm_alarm_init, put_alarm_ctx. do 2 tm_step. rewrite Hs. cbn [actx_zero ax_initialized].
  do 2 tm_step. wp_step. eapply wp_dev; [apply th_register_law|done|]. intros rt w1 Hw1 _ _.
  destruct (Z.eqb_spec rt OPRT_OK) as [->|Hrt]; cbn [negb]; [|do 2 tm_step; wp_step; by apply Hbad].
  wp_step. eapply wp_dev; [apply th_register_law|done|]. intros rt w2 Hw2 _ _.
  destruct (Z.eqb_spec rt OPRT_OK) as [->|Hrt]; cbn [negb].
  2:{ wp_step. eapply wp_dev; [apply th_unregister_law|done|]. intros _ w3 Hw3 _ _. do 2 tm_step. wp_step. by apply Hbad. }
  wp_step. eapply wp_dev; [apply th_register_law|done|]. intros rt w3 Hw3 _ _.
  destruct (Z.eqb_spec rt OPRT_OK) as [->|Hrt]; cbn [negb].
  2:{ wp_step. eapply wp_dev; [apply th_unregister_law|done|]. intros _ w4 Hw4 _ _.
      wp_step. eapply wp_dev; [apply th_unregister_law|done|]. intros _ w5 Hw5 _ _. do 2 tm_step. wp_step. by apply Hbad. }
  wp_step. apply alarm_store_load_wp; [done| |done|].
  { split; [done|]. split; [|done]. by apply Forall_replicate. }
  intros s' k' w4 Hw4 Hs' Hk. wp_step. by apply Hgood.
Qed.

(** A loop over the slots that keeps [P]. *)
Lemma for_slots_wp (f : nat -> C (ALARM_STATICS * (K * W)) unit) (P : ALARM_STATICS * (K * W) -> Prop) n i x :
  (forall j y, (j < i + n)%nat -> P y -> wp (f j) (fun _ => P) y) -> P x -> wp (for_slots f n i) (fun _ => P) x.
Proof.
  revert i x. induction n as [|n IH]; intros i x Hf Hx; cbn [for_slots]; [by wp_step|].
  wp_step. eapply wp_mono; [apply Hf; [lia|done]|]. intros ? y Hy. apply IH; [|done]. intros j z Hj. apply Hf. lia.
Qed.

Lemma alarm_deinit_wp s k w (Q : OPERATE_RET -> ALARM_STATICS * (K * W) -> Prop) :
  length (alarms s) = WUKONG_TM_ALARM_MAX_COUNT -> th_ok w ->
  (forall s' w', th_ok w' -> s_alarm_ctx s' = actx_zero -> Q OPRT_OK (s', (k, w'))) ->
  wp wukong_tm_alarm_deinit Q (s, (k, w)).
Proof.
  intros Hl Hw HQ. unfold wukong_tm_alarm_deinit. wp_step.
  eapply wp_mono; [apply (for_slots_wp _ (fun '(s', (k', w')) =>
    length (alarms s') = WUKONG_TM_ALARM_MAX_COUNT /\ k' = k /\ th_ok w')); [|done]|].
  - intros j [s' [k' w']] Hj (Hl' & -> & Hw'). destruct (lookup_lt_is_Some_2 (alarms s') j) as [a Ha]; [by rewrite Hl'|].
    wp_step. eapply get_alarm_wp; [exact Ha|]. destruct (negb _); [by wp_step|]. rewrite <- (set_alarm_id j a s') by done.
    wp_step. eapply clear_runtime_wp; [done|exact Ha|]. intros j1 j2 w1 Hw1 _.
    assert (Hlen : forall b, length (alarms (set_alarm j b s')) = WUKONG_TM_ALARM_MAX_COUNT)
      by (intros b; by rewrite set_alarm_items, length_insert).
    destruct (String.eqb _ ""); [wp_step; by rewrite Hlen|].
    wp_step. eapply wp_dev; [apply th_job_remove_law|done|]. intros _ w2 Hw2 _ _. wp_step. by rewrite Hlen.
  - intros _ [s' [k' w1]] (Hl' & -> & Hw1). do 3 (wp_step; eapply wp_dev; [apply th_unregister_law|done|]; intros ? ? ? _ _).
    unfold put_alarm_ctx. do 2 tm_step. wp_step. by apply HQ.
Qed.

(** ** Reminders *)

Lemma load_items_any_wp now arr cx k w : th_ok w -> tabled_reminders cx -> Forall reminder_item_loadable arr ->
  wp (load_items now arr) (fun _ '(cx', (k', w')) => k' = k /\ th_ok w' /\ tabled_reminders cx') (cx, (k, w)).
Proof.
  revert cx w. induction arr as [|item arr IH]; intros cx w Hw Hs Harr; cbn [load_items]; [by wp_step|].
  apply Forall_cons in Harr as [Hitem Harr]. destruct (negb _); [by apply IH|].
  destruct (ty_cJSON_GetObjectItem item "id") as [[| | |id| |]|] eqn:Hid; try by apply IH.
  destruct (String.eqb_spec id "") as [_|Hne]; [by apply IH|]. destruct (Hitem id Hid Hne) as [Hplain [cfg Hcfg]].
  do 2 tm_step. destruct (free_item cx) as [slot|] eqn:Hslot; [|by wp_step].
  destruct (first_slot_at _ _ _ Hslot) as [old Hold]. wp_step. eapply wp_pure; [exact Hcfg|].
  destruct (load_cfg_fits _ _ Hcfg) as [Hu Hmsg]. destruct (_ || _) eqn:Hbad.
  { wp_step. apply put_item_wp. by apply IH; [|apply tabled_set_item|]. }
  apply orb_false_iff in Hbad as [?%Z.leb_gt Hm%String.eqb_neq].
  wp_step. apply put_item_wp. set (new := mk_ritem true _ cfg).
  assert (Hrid : rid_wf (ri_reminder_id new)).
  { split; [apply strtrunc_nonempty; [unfold WUKONG_TM_REMINDER_ID_LEN; lia|done]|apply strtrunc_length|by apply plain_trunc]. }
  assert (Hc : rcfg_wf cfg) by (split; [lia|done|done]).
  destruct (_ && _); [by apply IH; [|apply tabled_set_item|]|].
  wp_step. eapply sync_wp; [exact reminder_text|done|by eapply set_item_lookup|done|done|]. intros rt j w1 Hw1 _ _.
  rewrite set_item_twice. apply IH; [done| |done]. apply tabled_set_item; [done|]. intros _. split; [done|]. by destruct Hc; split.
Qed.

Lemma reminder_start_wp cx k w (Q : OPERATE_RET -> WUKONG_TM_REMINDER_CTX_T * (K * W) -> Prop) :
  cx = rctx_zero -> th_ok w ->
  (forall text root, kv_kept k WUKONG_TM_REMINDER_KV_KEY = Some text -> ty_cJSON_Parse text = Some root ->
     array_ok "reminders" reminder_item_loadable root) ->
  (forall rt w', th_ok w' -> rt <> OPRT_OK -> Q rt (rctx_zero, (k, w'))) ->
  (forall cx' k' w', th_ok w' -> tabled_reminders cx' -> Q OPRT_OK (cx', (k', w'))) ->
  wp wukong_tm_reminder_init Q (cx, (k, w)).
Proof.
  intros -> Hw Hdoc Hbad Hgood. unfold wukong_tm_reminder_init. do 2 tm_step. cbn [rctx_zero rx_initialized].
  do 2 tm_step. wp_step. eapply wp_dev; [apply th_register_law|done|]. intros rt w1 Hw1 _ _.
  destruct (Z.eqb_spec rt OPRT_OK) as [->|Hrt]; cbn [negb]; [|do 2 tm_step; wp_step; by apply Hbad].
  unfold __reminder_store_load. do 2 wp_step. apply wp_clock; [done|]. intros w2 Hw2 _ _.
  wp_step. apply wp_store. eapply wp_mono; [apply kv_read_law|]. intros [rt data] k1 [_ Hdata]. cbn [fst snd] in Hdata.
  assert (H0 : tabled_reminders (mk_rctx true (rx_items rctx_zero))).
  { split; [done|]. split; [|done]. by apply Forall_replicate. }
  assert (Hdone : forall cx' k' w', th_ok w' -> tabled_reminders cx' -> wp (cret OPRT_OK)
    (fun (_ : OPERATE_RET) s' => wp (cret OPRT_OK) Q s') (cx', (k', w'))) by (intros; do 2 wp_step; by apply Hgood).
  destruct (Z.eqb_spec rt OPRT_OK) as [->|_]; cbn [negb]; [|by apply Hdone]. specialize (Hdata eq_refl).
  destruct (ty_cJSON_Parse data) as [root|] eqn:Hroot; [|by apply Hdone]. specialize (Hdoc data root Hdata Hroot).
  unfold array_ok in Hdoc. destruct (ty_cJSON_GetObjectItem root "reminders") as [[]|]; try by apply Hdone.
  wp_step. eapply wp_mono; [by apply load_items_any_wp|]. intros _ [cx' [k' w3]] (-> & Hw3 & Hcx'). wp_step.
  unfold __reminder_store_notify. apply store_notify_wp; [done|]. intros rt w4 Hw4 _. by apply Hdone.
Qed.

Lemma remove_jobs_wp items cx k w (Q : unit -> WUKONG_TM_REMINDER_CTX_T * (K * W) -> Prop) :
  th_ok w -> (forall w', th_ok w' -> Q tt (cx, (k, w'))) -> wp (remove_jobs items) Q (cx, (k, w)).
Proof.
  revert w. induction items as [|it items IH]; intros w Hw HQ; cbn [remove_jobs]; [wp_step; by apply HQ|].
  wp_step. destruct (_ && _).
  - wp_step. eapply wp_dev; [apply th_job_remove_law|done|]. intros _ w1 Hw1 _ _. wp_step. by apply IH.
  - wp_step. by apply IH.
Qed.

Lemma reminder_stop_wp cx k w (Q : OPERATE_RET -> WUKONG_TM_REMINDER_CTX_T * (K * W) -> Prop) :
  (rx_initialized cx = false -> cx = rctx_zero) -> th_ok w ->
  (forall w', th_ok w' -> Q OPRT_OK (rctx_zero, (k, w'))) -> wp wukong_tm_reminder_deinit Q (cx, (k, w)).
Proof.
  intros Hz Hw HQ. unfold wukong_tm_reminder_deinit. do 2 tm_step. destruct (rx_initialized cx) eqn:Hi; cbn [negb].
  - wp_step. apply remove_jobs_wp; [done|]. intros w1 Hw1. wp_step. eapply wp_dev; [apply th_unregister_law|done|].
    intros _ w2 Hw2 _ _. do 2 tm_step. wp_step. by apply HQ.
  - wp_step. rewrite Hz by done. by apply HQ.
Qed.

(** ** Countdown, stopwatch, pomodoro *)

(** A countdown or a session that has been initialised and not started. *)
Definition cd_fresh : WUKONG_TM_COUNTDOWN_CTX_T := mk_cd true 1 0 WUKONG_TM_COUNTDOWN_STATE_IDLE 0 0 0 "".

Lemma countdown_start_wp w (Q : OPERATE_RET -> WUKONG_TM_COUNTDOWN_CTX_T * W -> Prop) :
  th_ok w -> (forall rt w', th_ok w' -> Q rt (cd_fresh, w')) -> wp wukong_tm_countdown_init Q (cd_zero, w).
Proof.
  intros Hw HQ. unfold wukong_tm_countdown_init. do 2 tm_step. cbn [cd_zero cd_initialized]. do 2 tm_step.
  eapply wp_quiet; [apply th_register_law|done|]. intros rt w1 Hw1 _ _. by apply HQ.
Qed.

Lemma countdown_stop_wp cx w (Q : OPERATE_RET -> WUKONG_TM_COUNTDOWN_CTX_T * W -> Prop) :
  (cd_initialized cx = false -> cx = cd_zero) -> th_ok w ->
  (forall w', th_ok w' -> Q OPRT_OK (cd_zero, w')) -> wp wukong_tm_countdown_deinit Q (cx, w).
Proof.
  intros Hz Hw HQ. unfold wukong_tm_countdown_deinit. do 2 tm_step. destruct (cd_initialized cx) eqn:Hi; cbn [negb].
  - wp_step. apply remove_bound_wp; [done|]. intros w1 Hw1 _. wp_step. eapply wp_quiet; [apply th_unregister_law|done|].
    intros _ w2 Hw2 _ _. do 2 tm_step. wp_step. by apply HQ.
  - wp_step. rewrite Hz by done. by apply HQ.
Qed.

Lemma pomodoro_start_wp w (Q : OPERATE_RET -> WUKONG_TM_POMODORO_CTX_T * W -> Prop) :
  th_ok w -> (forall rt w', th_ok w' -> Q rt (pomo_cleared true 1, w')) -> wp wukong_tm_pomodoro_init Q (pomo_cleared false 0, w).
Proof.
  intros Hw HQ. unfold wukong_tm_pomodoro_init. do 2 tm_step. cbn [pomo_cleared pm_initialized]. do 2 tm_step.
  eapply wp_quiet; [apply th_register_law|done|]. intros rt w1 Hw1 _ _. by apply HQ.
Qed.

Lemma pomodoro_stop_wp cx w (Q : OPERATE_RET -> WUKONG_TM_POMODORO_CTX_T * W -> Prop) :
  (pm_initialized cx = false -> cx = pomo_cleared false 0) -> th_ok w ->
  (forall w', th_ok w' -> Q OPRT_OK (pomo_cleared false 0, w')) -> wp wukong_tm_pomodoro_deinit Q (cx, w).
Proof.
  intros Hz Hw HQ. unfold wukong_tm_pomodoro_deinit. do 2 tm_step. destruct (pm_initialized cx) eqn:Hi; cbn [negb].
  - wp_step. apply remove_cron_wp; [done|]. intros w1 Hw1 _. wp_step. eapply wp_quiet; [apply th_unregister_law|done|].
    intros _ w2 Hw2 _ _. do 2 tm_step. wp_step. by apply HQ.
  - wp_step. rewrite Hz by done. by apply HQ.
Qed.

(** ** The service *)

Lemma stored_wp {X A} get set (m : C (X * (K * W)) A) (Q : A -> TM_STATE * (K * W) -> Prop) t x :
  wp m (fun a '(y, s) => Q a (set y t, s)) (get t, x) -> wp (on_stored get set m) Q (t, x).
Proof. unfold wp, on_stored. destruct (m (get t, x)) as [[a [y s]]|]; done. Qed.

Lemma feature_wp {X A} get set (m : C (X * W) A) (Q : A -> TM_STATE * (K * W) -> Prop) t k w :
  wp m (fun a '(y, w') => Q a (set y t, (k, w'))) (get t, w) -> wp (on_feature get set m) Q (t, (k, w)).
Proof. unfold wp, on_feature. destruct (m (get t, w)) as [[a [y w']]|]; done. Qed.

(** What holds of the contexts at all times: a feature that is not initialised
    has a zero context. *)
Record tidy (t : TM_STATE) : Prop := {
  td_alarm : length (alarms (tms_alarm t)) = WUKONG_TM_ALARM_MAX_COUNT;
  td_reminder : rx_initialized (tms_reminder t) = false -> tms_reminder t = rctx_zero;
  td_countdown : cd_initialized (tms_countdown t) = false -> tms_countdown t = cd_zero;
  td_pomodoro : pm_initialized (tms_pomodoro t) = false -> tms_pomodoro t = pomo_cleared false 0 }.

(** Every context zero, the alarm settings apart. *)
Definition off_but (c : WUKONG_TM_COUNTDOWN_CTX_T) (p : WUKONG_TM_POMODORO_CTX_T) (t : TM_STATE) : Prop :=
  exists s, s_alarm_ctx s = actx_zero /\ t = mk_tms s rctx_zero c sw_zero p false.
Definition off : TM_STATE -> Prop := off_but cd_zero (pomo_cleared false 0).

(** Every feature started. *)
Record running (t : TM_STATE) : Prop := {
  rn_alarm : tabled_alarms (tms_alarm t);
  rn_reminder : tabled_reminders (tms_reminder t);
  rn_countdown : tms_countdown t = cd_fresh;
  rn_stopwatch : tms_stopwatch t = mk_sw true false false 0 0;
  rn_pomodoro : tms_pomodoro t = pomo_cleared true 1;
  rn_subscribed : s_tm_time_sync_subscribed t = true }.

Lemma running_tidy t : running t -> tidy t.
Proof.
  intros [(Ha & _ & _) (_ & _ & Hr) Hc _ Hp _]. split; [done|by rewrite Hr|by rewrite Hc|by rewrite Hp].
Qed.

Lemma off_tidy c p t : (cd_initialized c = false -> c = cd_zero) -> (pm_initialized p = false -> p = pomo_cleared false 0) ->
  off_but c p t -> tidy t.
Proof. intros Hc Hp (s & Hs & ->). split; [|done|done|done]. cbn. unfold alarms. by rewrite Hs. Qed.

Lemma undo_alarm_wp t k w (Q : unit -> TM_STATE * (K * W) -> Prop) : tidy t -> th_ok w ->
  (forall s w', th_ok w' -> s_alarm_ctx s = actx_zero -> Q tt (tms_set_alarm s t, (k, w'))) -> wp undo_alarm Q (t, (k, w)).
Proof.
  intros Ht Hw HQ. unfold undo_alarm, alarm. wp_step. apply stored_wp. apply alarm_deinit_wp; [apply Ht|done|].
  intros s w1 Hw1 Hs. wp_step. by apply HQ.
Qed.

Lemma undo_reminder_wp t k w (Q : unit -> TM_STATE * (K * W) -> Prop) : tidy t -> th_ok w ->
  (forall s w', th_ok w' -> s_alarm_ctx s = actx_zero -> Q tt (tms_set_alarm s (tms_set_reminder rctx_zero t), (k, w'))) ->
  wp undo_reminder Q (t, (k, w)).
Proof.
  intros Ht Hw HQ. unfold undo_reminder, reminder. wp_step. apply stored_wp. apply reminder_stop_wp; [apply Ht|done|].
  intros w1 Hw1. apply undo_alarm_wp; [|done|done]. by destruct Ht; split.
Qed.

Lemma undo_countdown_wp t k w (Q : unit -> TM_STATE * (K * W) -> Prop) : tidy t -> th_ok w ->
  (forall s w', th_ok w' -> s_alarm_ctx s = actx_zero ->
     Q tt (tms_set_alarm s (tms_set_reminder rctx_zero (tms_set_countdown cd_zero t)), (k, w'))) ->
  wp undo_countdown Q (t, (k, w)).
Proof.
  intros Ht Hw HQ. unfold undo_countdown, countdown. wp_step. apply feature_wp. apply countdown_stop_wp; [apply Ht|done|].
  intros w1 Hw1. apply undo_reminder_wp; [|done|done]. by destruct Ht; split.
Qed.

Lemma undo_stopwatch_wp t k w (Q : unit -> TM_STATE * (K * W) -> Prop) : tidy t -> th_ok w ->
  (forall s w', th_ok w' -> s_alarm_ctx s = actx_zero ->
     Q tt (mk_tms s rctx_zero cd_zero sw_zero (tms_pomodoro t) (s_tm_time_sync_subscribed t), (k, w'))) ->
  wp undo_stopwatch Q (t, (k, w)).
Proof.
  intros Ht Hw HQ. unfold undo_stopwatch, stopwatch. wp_step. apply feature_wp. unfold wukong_tm_stopwatch_deinit.
  do 2 tm_step. wp_step. apply undo_countdown_wp; [|done|done]. by destruct Ht; split.
Qed.

Lemma undo_pomodoro_wp t k w (Q : unit -> TM_STATE * (K * W) -> Prop) : tidy t -> th_ok w ->
  (forall s w', th_ok w' -> s_alarm_ctx s = actx_zero ->
     Q tt (mk_tms s rctx_zero cd_zero sw_zero (pomo_cleared false 0) (s_tm_time_sync_subscribed t), (k, w'))) ->
  wp undo_pomodoro Q (t, (k, w)).
Proof.
  intros Ht Hw HQ. unfold undo_pomodoro, pomodoro. wp_step. apply feature_wp. apply pomodoro_stop_wp; [apply Ht|done|].
  intros w1 Hw1. apply undo_stopwatch_wp; [|done|done]. by destruct Ht; split.
Qed.

Lemma service_stop_wp t k w : tidy t -> th_ok w ->
  wp wukong_time_manage_deinit (fun _ '(t', (k', w')) => off t' /\ k' = k /\ th_ok w') (t, (k, w)).
Proof.
  intros Ht Hw. unfold wukong_time_manage_deinit, pomodoro, stopwatch, countdown, reminder, alarm. do 2 tm_step. wp_step.
  assert (Hrest : forall err t1 w1, t1 = tms_set_subscribed false t -> th_ok w1 ->
    wp (let keep rt last_err := if negb (rt =? OPRT_OK) then rt else last_err in
        let* rt := on_feature tms_pomodoro tms_set_pomodoro wukong_tm_pomodoro_deinit in
        let last_err := keep rt err in
        let* rt := on_feature tms_stopwatch tms_set_stopwatch wukong_tm_stopwatch_deinit in
        let last_err := keep rt last_err in
        let* rt := on_feature tms_countdown tms_set_countdown wukong_tm_countdown_deinit in
        let last_err := keep rt last_err in
        let* rt := on_stored tms_reminder tms_set_reminder wukong_tm_reminder_deinit in
        let last_err := keep rt last_err in
        let* rt := on_stored tms_alarm tms_set_alarm wukong_tm_alarm_deinit in
        let last_err := keep rt last_err in
        cret last_err) (fun _ '(t', (k', w')) => off t' /\ k' = k /\ th_ok w') (t1, (k, w1))).
  { intros err t1 w1 -> Hw1. cbv zeta. wp_step. apply feature_wp, pomodoro_stop_wp; [apply Ht|done|]. intros w2 Hw2.
    wp_step. apply feature_wp. unfold wukong_tm_stopwatch_deinit. do 2 tm_step. wp_step.
    wp_step. apply feature_wp, countdown_stop_wp; [apply Ht|done|]. intros w3 Hw3.
    wp_step. apply stored_wp, reminder_stop_wp; [apply Ht|done|]. intros w4 Hw4.
    wp_step. apply stored_wp, alarm_deinit_wp; [apply Ht|done|]. intros s w5 Hw5 Hs. wp_step.
    split; [by exists s|done]. }
  destruct (s_tm_time_sync_subscribed t) eqn:Hsub.
  - wp_step. eapply wp_dev; [apply unsubscribe_law|done|]. intros rt w1 Hw1 _ _. do 2 tm_step. wp_step. by apply Hrest.
  - wp_step. apply Hrest; [|done]. destruct t; cbn in *. by subst.
Qed.

Lemma clock_ready_wp t k w (Q : OPERATE_RET -> TM_STATE * (K * W) -> Prop) : th_ok w ->
  (forall rt w', th_ok w' -> Q rt (t, (k, w'))) -> wp __tm_notify_time_ready Q (t, (k, w)).
Proof.
  intros Hw HQ. unfold __tm_notify_time_ready. wp_step. eapply wp_dev; [apply sync_check_law|done|]. intros r1 w1 Hw1 _ _.
  destruct (negb _); [wp_step; by apply HQ|]. wp_step. eapply wp_dev; [apply zone_check_law|done|]. intros r2 w2 Hw2 _ _.
  destruct (negb _); [wp_step; by apply HQ|]. eapply wp_dev; [apply ready_law|done|]. intros r3 w3 Hw3 _ _. by apply HQ.
Qed.

(** The two features that a failed start may leave initialised. *)
Definition left_over (t : TM_STATE) : Prop :=
  off t \/ off_but cd_fresh (pomo_cleared false 0) t \/ off_but cd_zero (pomo_cleared true 1) t.

Lemma left_over_tidy t : left_over t -> tidy t.
Proof. by intros [H|[H|H]]; eapply off_tidy in H. Qed.

Definition started (rt : OPERATE_RET) (t : TM_STATE) : Prop := if rt =? OPRT_OK then running t else left_over t.

Lemma started_bad rt t : rt <> OPRT_OK -> left_over t -> started rt t.
Proof. intros Hrt Ht. unfold started. by destruct (Z.eqb_spec rt OPRT_OK). Qed.

Lemma service_start_wp t k w : off t -> th_ok w -> documents_ok k ->
  wp wukong_time_manage_init (fun rt '(t', (k', w')) => started rt t' /\ th_ok w') (t, (k, w)).
Proof.
  intros (s & Hs & ->) Hw Hdoc. unfold wukong_time_manage_init, alarm, reminder, countdown, stopwatch, pomodoro.
  wp_step. apply stored_wp, alarm_init_wp; [done|done|done| |]; cbn [tms_set_alarm].
  { intros rt s' w' Hw' Hrt Hs'. if_true (by apply negb_true_iff, Z.eqb_neq). wp_step. split; [|done].
    apply started_bad; [done|]. left. by exists s'. }
  intros s1 k1 w1 Hw1 Hs1 Hk1. change (negb (OPRT_OK =? OPRT_OK)) with false. cbv iota.
  wp_step. apply stored_wp, reminder_start_wp; [done|done| | |]; cbn [tms_set_alarm tms_set_reminder].
  { rewrite Hk1 by done. apply Hdoc. }
  { intros rt w2 Hw2 Hrt. if_true (by apply negb_true_iff, Z.eqb_neq). wp_step. apply undo_alarm_wp; [|done|].
    { destruct Hs1. by split. }
    intros s' w3 Hw3 Hs'. wp_step. split; [|done]. apply started_bad; [done|]. left. by exists s'. }
  intros cx k2 w2 Hw2 Hcx. change (negb (OPRT_OK =? OPRT_OK)) with false. cbv iota. destruct Hs1 as (Hl & Hf & Hi).
  assert (Htidy : forall c sw p b, (cd_initialized c = false -> c = cd_zero) ->
    (pm_initialized p = false -> p = pomo_cleared false 0) -> tidy (mk_tms s1 cx c sw p b)).
  { intros c sw p b Hc Hp. destruct Hcx as (_ & _ & Hr). split; cbn; [done|by rewrite Hr|done|done]. }
  wp_step. apply feature_wp, countdown_start_wp; [done|]; cbn [tms_set_countdown]. intros rt w3 Hw3.
  destruct (Z.eqb_spec rt OPRT_OK) as [->|Hrt]; cbn [negb].
  2:{ wp_step. apply undo_reminder_wp; [by apply Htidy|done|]. intros s' w4 Hw4 Hs'. wp_step. split; [|done].
      apply started_bad; [done|]. right. left. by exists s'. }
  wp_step. apply feature_wp. unfold wukong_tm_stopwatch_init. do 2 tm_step. cbn [tms_set_countdown tms_set_reminder tms_set_alarm tms_stopwatch sw_zero sw_initialized]. do 2 tm_step. wp_step.
  change (negb (OPRT_OK =? OPRT_OK)) with false. cbv iota.
  wp_step. apply feature_wp, pomodoro_start_wp; [done|]; cbn [tms_set_pomodoro]. intros rt w4 Hw4.
  destruct (Z.eqb_spec rt OPRT_OK) as [->|Hrt]; cbn [negb].
  2:{ wp_step. apply undo_stopwatch_wp; [by apply Htidy|done|]. intros s' w5 Hw5 Hs'. wp_step. split; [|done].
      apply started_bad; [done|]. right. right. by exists s'. }
  wp_step. eapply wp_dev; [apply subscribe_law|done|]. intros rt w5 Hw5 _ _. destruct (Z.eqb_spec rt OPRT_OK) as [->|Hrt]; cbn [negb].
  2:{ wp_step. apply undo_pomodoro_wp; [by apply Htidy|done|]. intros s' w6 Hw6 Hs'. wp_step. split; [|done].
      apply started_bad; [done|]. left. by exists s'. }
  do 2 tm_step. wp_step. apply clock_ready_wp; [done|]. intros rt w6 Hw6. destruct (Z.eqb_spec rt OPRT_OK) as [->|Hrt]; cbn [negb].
  - wp_step. split; [|done]. by split.
  - wp_step. eapply wp_dev; [apply unsubscribe_law|done|]. intros ? w7 Hw7 _ _. do 2 tm_step. wp_step.
    apply undo_pomodoro_wp; [by apply Htidy|done|]. intros s' w8 Hw8 Hs'. wp_step. split; [|done].
    apply started_bad; [done|]. left. by exists s'.
Qed.

(** C38. Starting the time-management service from rest always returns, for any
    stored documents that can be loaded and whatever the registry, the clock and
    the event service answer: with success, every feature is initialised with a
    table of well-formed items and the service is subscribed to the clock; with
    an error, everything is off again, except that the countdown or the pomodoro
    may stay marked as initialised. Stopping the service afterwards leaves
    everything off and the store as it is. *)
Theorem time_manage_lifecycle t k w : off t -> th_ok w -> documents_ok k ->
  exists rt t1 k1 w1, wukong_time_manage_init (t, (k, w)) = Some (rt, (t1, (k1, w1))) /\ started rt t1 /\
    exists err t2 w2, wukong_time_manage_deinit (t1, (k1, w1)) = Some (err, (t2, (k1, w2))) /\ off t2.
Proof.
  intros Ht Hw Hdoc. destruct (wp_elim _ _ _ (service_start_wp t k w Ht Hw Hdoc)) as (rt & [t1 [k1 w1]] & Hinit & Hst & Hw1).
  assert (Htidy : tidy t1).
  { unfold started in Hst. destruct (rt =? OPRT_OK); [by apply running_tidy|by apply left_over_tidy]. }
  destruct (wp_elim _ _ _ (service_stop_wp t1 k1 w1 Htidy Hw1)) as (err & [t2 [k2 w2]] & Hstop & Hoff & -> & _).
  exists rt, t1, k1, w1. split; [done|]. split; [done|]. by exists err, t2, w2.
Qed.

End Lifecycle.
