(* ===== verification/TmCron.v ===== *)
(** The cron service as the host of the time-management features: it discharges
    the interface of [TmHost], and calls the features' callbacks back. *)
From stdpp Require Import gmap gmultiset strings.
From S2P Require Import Prelude.
From S2P Require Import Calendar.
From S2P Require Import CStr.
From S2P Require Import CronField.
From S2P Require Import CronParse.
From S2P Require Import CronNext.
From S2P Require Import CronNextCorrect.
From S2P Require Import CronMeaning.
From S2P Require Import World.
From S2P Require Import Slots.
From S2P Require Import Json.
From S2P Require Import CronRpc.
From S2P Require Import CronJobs.
From S2P Require Import CronJobsInv.
From S2P Require Import CronJobsApi.
From S2P Require Import CronTimer.
From S2P Require Import TmHost.
From S2P Require Import OnceJob.
From S2P Require Import TmStopwatch.
From S2P Require Import TmCountdown.
From S2P Require Import TmCountdownCorrect.
From S2P Require Import TmPomodoro.
From S2P Require Import TmPomodoroCorrect.

#[local] Open Scope string_scope.
#[local] Open Scope Z_scope.

(** ** Text of one-shot jobs *)

(** The object that the text of a one-shot job stands for. *)
Definition once_job_root (name cron_expr request_id method param : string) (value : Z) : cJSON :=
  JObject [("name", JString name); ("enabled", JNumber 1); ("once", JNumber 1); ("cron", JString cron_expr);
           ("request", JObject [("jsonrpc", JString "2.0"); ("id", JString (request_id ++ fmt_u (u32 value)));
                                ("method", JString method);
                                ("params", JObject [(param, JNumber (u32 value))])])].

(** The JSON parser reads such text as written (numbers saturate at INT_MAX). *)
Class OnceJson `{JsonText} : Prop := {
  once_json_parse : forall name cron_expr request_id method param value,
    plain name && plain cron_expr && plain request_id && plain method && plain param = true ->
    ty_cJSON_Parse (once_job_json name cron_expr request_id method param value) =
    Some (once_job_root name cron_expr request_id method param value) }.

Lemma fmt_d_chars (p : ascii -> bool) n :
  (forall a, isdigit a = true -> p a = true) -> p "-"%char = true -> str_all p (fmt_d n) = true.
Proof.
  intros Hd Hm. assert (Hu : forall k, str_all p (fmt_u k) = true).
  { intros k. apply (str_all_impl isdigit); [exact Hd|]. unfold fmt_u. by rewrite fmt_digits_digits. }
  unfold fmt_d. destruct (n <? 0); [|done]. rewrite str_all_app, Hu. cbn. by rewrite Hm.
Qed.

(** Digits, minus signs, blanks and stars: the characters of the expression. *)
Lemma build_cron_expr_chars `{TimeService} (p : ascii -> bool) ts n expr :
  (forall a, isdigit a = true -> p a = true) -> p "-"%char = true -> p " "%char = true -> p "*"%char = true ->
  build_cron_expr ts n = (OPRT_OK, expr) -> str_all p expr = true.
Proof.
  intros Hd Hm Hb Hs. unfold build_cron_expr. destruct (n =? 0)%nat; [done|].
  destruct (tal_time_get_local_time_custom ts) as [rt tm]. destruct (negb _); [by intros [= -> <-]|]. intros [= <-].
  apply str_all_trunc. rewrite !str_all_app, !(fmt_d_chars p) by done. cbn. by rewrite Hb, Hs.
Qed.

Lemma isdigit_plain a : isdigit a = true -> plain_char a = true.
Proof.
  unfold isdigit, plain_char. rewrite !andb_true_iff, !negb_true_iff, !Nat.eqb_neq, !Nat.leb_le, !Nat.ltb_lt. lia.
Qed.

Lemma isdigit_no_slash a : isdigit a = true -> negb (Ascii.eqb a "/") = true.
Proof. intros Ha. by rewrite (isdigit_not a "/"%char). Qed.

Lemma build_cron_expr_length `{TimeService} ts n expr :
  build_cron_expr ts n = (OPRT_OK, expr) -> (strlen expr <= n - 1)%nat.
Proof.
  unfold build_cron_expr. destruct (n =? 0)%nat; [done|].
  destruct (tal_time_get_local_time_custom ts) as [rt tm]. destruct (negb _); [intros [= -> <-]; cbn; lia|]. intros [= <-].
  apply strtrunc_length.
Qed.

(** ** The cron service as a host *)

(** The events sent so far, newest first. *)
Definition notifications (trace : list effect) : list (WUKONG_AI_EVENT_TYPE_E * list Z) :=
  omap (fun fx => match fx with FxNotify e m => Some (e, m) | _ => None end) trace.

Lemma notifications_app a b : notifications (a ++ b)%list = (notifications a ++ notifications b)%list.
Proof. apply omap_app. Qed.

Section Host.
Context `{TS : TimeService} `{JT : JsonText} `{FZ : !FixedZone off mkoff}.
Abbreviation ST := (CronState TM_METHOD).
Implicit Types (s : ST).

#[export] Instance cron_tm_host : TmHost (CronState TM_METHOD) := {
  th_posix := posix;
  th_malloc := malloc;
  wukong_ai_event_notify e m := cs_emit (FxNotify e m);
  wukong_ai_agent_input on := cs_emit (FxInput on);
  wukong_ai_agent_send_text prompt := let* _ := cs_emit (FxText prompt) in oscall;
  th_job_add json n := wukong_cron_job_add (Some json) (Some n);
  th_job_remove id := wukong_cron_job_remove (Some id);
  th_register name m := wukong_cron_method_register (Some name) (Some m);
  th_unregister name := wukong_cron_method_unregister (Some name);
  th_ok := cron_inv;
  th_clock s := clock_now s;
  th_sent s := notifications (w_trace (cs_world s));
  th_job_text := parse_defined }.

Lemma rearms_no_event cx now os fx rt : rearms cx now os fx rt -> notifications fx = [].
Proof. intros Hr. destruct Hr; destruct (cx_in_timer_cb cx); done. Qed.

Lemma rearmed_no_event s s' rt : rearmed s s' rt ->
  notifications (w_trace (cs_world s')) = notifications (w_trace (cs_world s)).
Proof.
  intros (fx & -> & Hr). by rewrite notifications_app, (rearms_no_event _ _ _ _ _ Hr).
Qed.

Lemma world_inv s w : cron_inv s -> w_clock w = w_clock (cs_world s) -> cron_inv (with_world w s).
Proof. intros [Hc Hk Hb] Hw. split; [done| |done]. intros n. cbn. rewrite Hw. apply Hk. Qed.

Lemma job_add_quiet json n : parse_defined json ->
  quiet (th_job_add json (S n)) (fun r => fst r = OPRT_OK -> (1 <= n)%nat -> snd r <> "").
Proof.
  intros Hdef s Hs. eapply wp_mono; [by apply job_add_wp|]. intros r s' [Hinv Hslot]. split; [done|].
  destruct Hslot as [rt (? & ? & _ & Hrt) Hj Htr|j i Hdesc Hf Hj Htr|Hfull Hj Htr|j i Hdesc Hfree Hnf Hj Htr
    |rt j i ts Hdesc Hfree Hnew Href Hj Hre]; cbn [fst snd th_sent cron_tm_host].
  1-4: rewrite Htr; split; [done|]; intros; try done.
  split; [by eapply rearmed_no_event|]. intros _ Hn.
  assert (Hid : assigned_id s j <> "").
  { unfold assigned_id. destruct (String.eqb_spec (j_id j) ""); [apply auto_job_id_nonempty | done]. }
  replace (S n - 1)%nat with n by lia. by apply strtrunc_nonempty.
Qed.

Lemma job_remove_quiet id : quiet (th_job_remove id) (fun _ => True).
Proof.
  intros s Hs. eapply wp_mono; [by apply job_remove_wp|]. intros r s' [Hinv Hcase]. split; [done|].
  split; [|done]. destruct Hcase as [(_ & _ & ->)|(i & _ & _ & Hre)]; [done|by eapply rearmed_no_event].
Qed.

Lemma registry_quiet {A} (m : C ST A) :
  (forall s, exists a es w, m s = Some (a, mk_cron_state w es (cs_ctx s)) /\ same_env (cs_world s) w /\
     w_trace w = w_trace (cs_world s)) -> quiet m (fun _ => True).
Proof.
  intros Hm s Hs. destruct (Hm s) as (a & es & w & Hrun & (Hc & _) & Htr). eapply wp_intro; [exact Hrun|].
  cbn [th_ok th_sent cron_tm_host cs_world]. rewrite Htr. split; [|done]. destruct Hs as [Hcx Hk Hb].
  split; [done| |done]. intros n. cbn. rewrite Hc. apply Hk.
Qed.

#[export] Instance cron_tm_host_laws : TmHostLaws (CronState TM_METHOD).
Proof.
  split.
  - intros s Hs. unfold wp. cbn. split; [by apply (world_inv s)|]. split; [done|]. split; [done|].
    pose proof (ci_clock _ Hs (w_reads (cs_world s))) as Hr. unfold search_room, max_jump, search_span in Hr.
    unfold is_u32. lia.
  - intros s Hs. unfold wp. cbn. split; [by apply (world_inv s)|done].
  - intros e m s Hs. unfold wp. cbn. split; [by apply (world_inv s)|done].
  - intros on s Hs. unfold wp. cbn. split; [by apply (world_inv s)|done].
  - intros m s Hs. unfold wp. cbn. split; [by apply (world_inv s)|done].
  - apply job_add_quiet.
  - apply job_remove_quiet.
  - intros name m. apply registry_quiet. intros [w es cx].
    unfold th_register, cron_tm_host, wukong_cron_method_register, wukong_cron_rpc_method_register, cbind, cget, cmod, alloc_ok, cret.
    cbn. repeat case_match; simplify_eq/=; eexists _, _, _; (split; [reflexivity|done]).
  - intros name. apply registry_quiet. intros [w es cx].
    unfold th_unregister, cron_tm_host, wukong_cron_method_unregister, wukong_cron_rpc_method_unregister, cbind, cget, cmod, cret.
    cbn. repeat case_match; simplify_eq/=; eexists _, _, _; (split; [reflexivity|done]).
Qed.

(** *** The jobs it holds *)

(** The id in a slot, and the ids in the table. *)
Definition slot_ids (j : WUKONG_CRON_JOB_T) : gmultiset string := if j_used j then {[+ j_id j +]} else ∅.
Fixpoint held_ids (jobs : list WUKONG_CRON_JOB_T) : gmultiset string :=
  match jobs with [] => ∅ | j :: jobs => slot_ids j ⊎ held_ids jobs end.

Lemma held_ids_insert jobs i j j' : jobs !! i = Some j ->
  exists rest, held_ids jobs = slot_ids j ⊎ rest /\ held_ids (<[i := j']> jobs) = slot_ids j' ⊎ rest.
Proof.
  revert i. induction jobs as [|x jobs IH]; intros [|i]; try done.
  - intros [= ->]. by exists (held_ids jobs).
  - intros Hi. destruct (IH i Hi) as (rest & Hr & Hr'). exists (slot_ids x ⊎ rest).
    change (<[S i := j']> (x :: jobs)) with (x :: <[i := j']> jobs). cbn [held_ids]. rewrite Hr, Hr'. split; multiset_solver.
Qed.

Lemma held_ids_store jobs i j j' : jobs !! i = Some j -> j_used j = false ->
  held_ids (<[i := j']> jobs) = held_ids jobs ⊎ slot_ids j'.
Proof.
  intros Hi Hu. destruct (held_ids_insert jobs i j j' Hi) as (rest & -> & ->). unfold slot_ids at 2. rewrite Hu. multiset_solver.
Qed.

#[export] Instance cron_tm_jobs : TmJobs (CronState TM_METHOD) := fun s => held_ids (cx_jobs (cs_ctx s)).

Lemma assigned_id_length s json j : describes json true j -> (strlen (assigned_id s j) <= 32)%nat.
Proof.
  intros (root & _ & _ & [? ? ? Hid] & _). unfold assigned_id. destruct (String.eqb _ _); [|rewrite Hid]; apply strtrunc_length.
Qed.

#[export] Instance cron_tm_jobs_laws : TmJobsLaws (CronState TM_METHOD).
Proof.
  split.
  - intros s Hs. done.
  - intros s Hs. done.
  - intros e m s Hs. done.
  - intros json n s Hdef Hs. eapply wp_mono; [by apply job_add_wp|]. intros r s' [_ Hslot]. unfold th_jobs, cron_tm_jobs.
    destruct Hslot as [rt (? & ? & _ & Hrt) Hj Htr|j i Hdesc Hf Hj Htr|Hfull Hj Htr|j i Hdesc Hfree Hnf Hj Htr
      |rt j i ts Hdesc Hfree Hnew Href Hj Hre]; cbn [fst snd]; rewrite Hj.
    + destruct (Z.eqb_spec rt OPRT_OK); [done|by left].
    + by left.
    + by left.
    + left. apply find_index_Some in Hfree as (j0 & Hi & Hu). rewrite (held_ids_store _ _ j0) by done.
      unfold slot_ids. cbn. multiset_solver.
    + pose proof (assigned_id_length s json j Hdesc) as Hlen.
      apply find_index_Some in Hfree as (j0 & Hi & Hu). rewrite (held_ids_store _ _ j0) by done.
      unfold slot_ids. cbn [j_used j_id job_set_next job_set_id].
      assert (Hju : j_used j = true) by by destruct Hdesc as (? & _ & _ & [] & _). rewrite Hju.
      destruct (Z.eqb_spec rt OPRT_OK) as [->|Hrt]; [|right; by eexists].
      exists (assigned_id s j). replace (S n - 1)%nat with n by lia. by split_and!.
  - intros id s Hs. eapply wp_mono; [by apply job_remove_wp|]. intros rt s' [_ Hcase]. unfold th_jobs, cron_tm_jobs.
    destruct Hcase as [(_ & Hf & ->)|(i & Hf & Hj & _)].
    + assert (Hn : id ∉ held_ids (cx_jobs (cs_ctx s))); [|multiset_solver].
      assert (Hall : forall j, j ∈ cx_jobs (cs_ctx s) -> id ∉ slot_ids j).
      { intros j (i & Hi)%list_elem_of_lookup_1 Hin. unfold slot_ids in Hin. destruct (j_used j) eqn:Hu; [|multiset_solver].
        apply (find_index_None _ _ Hf i j Hi). split; [done|]. multiset_solver. }
      revert Hall. generalize (cx_jobs (cs_ctx s)). induction l as [|j l IH]; intros Hall; cbn; [multiset_solver|].
      rewrite gmultiset_elem_of_disj_union. intros [Hin|Hin]; [by apply (Hall j); [left|]|].
      apply IH; [intros; apply Hall; by right|done].
    + destruct (find_job_Some s id i Hf) as (j & Hi & Hu & <-). rewrite Hj.
      destruct (held_ids_insert _ i j job_zero Hi) as (rest & -> & ->).
      assert (slot_ids j = {[+ j_id j +]}) as -> by (unfold slot_ids; by rewrite Hu).
      change (slot_ids job_zero) with (∅ : gmultiset string). multiset_solver.
Qed.

(** ** The features' jobs are jobs the cron service can take *)

Context `{OJ : !OnceJson}.

Lemma once_job_text name expr rid method param v n ts :
  build_cron_expr ts 32 = (OPRT_OK, expr) ->
  plain name && plain rid && plain method && plain param = true ->
  (strlen (once_job_json name expr rid method param v) <= n)%nat ->
  parse_defined (strtrunc n (once_job_json name expr rid method param v)).
Proof.
  intros Hb Hplain Hlen. rewrite strtrunc_id by done. intros root cron Hp Hc.
  assert (Hexpr : plain expr = true)
    by (eapply build_cron_expr_chars; [apply isdigit_plain|..|exact Hb]; done).
  rewrite !andb_true_iff in Hplain. destruct Hplain as (((Hn & Hr) & Hm) & Hpa).
  rewrite once_json_parse in Hp by (by rewrite Hn, Hexpr, Hr, Hm, Hpa). injection Hp as <-.
  injection Hc as <-. apply no_slash_parse, str_all_trunc.
  eapply build_cron_expr_chars; [apply isdigit_no_slash|..|exact Hb]; done.
Qed.

Lemma once_job_length name expr rid method param v :
  (strlen (once_job_json name expr rid method param v) <=
   130 + strlen name + strlen expr + strlen rid + strlen method + strlen param)%nat.
Proof.
  pose proof (fmt_u_length (u32 v)). unfold once_job_json, quoted, dq. rewrite !strlen_app. strlen_closed. lia.
Qed.

Lemma countdown_tick_text ts expr h : build_cron_expr ts 32 = (OPRT_OK, expr) ->
  th_job_text (W := ST) (countdown_job_json expr h).
Proof.
  intros Hb. apply (once_job_text _ _ _ _ _ _ _ ts Hb); [done|].
  pose proof (build_cron_expr_length _ _ _ Hb). etrans; [apply once_job_length|]. unfold WUKONG_TM_COUNTDOWN_TICK_METHOD. strlen_closed. lia.
Qed.

Lemma pomodoro_phase_text ts expr id : build_cron_expr ts 32 = (OPRT_OK, expr) ->
  th_job_text (W := ST) (pomodoro_job_json expr id).
Proof.
  intros Hb. apply (once_job_text _ _ _ _ _ _ _ ts Hb); [done|].
  pose proof (build_cron_expr_length _ _ _ Hb). etrans; [apply once_job_length|]. unfold WUKONG_TM_POMODORO_PHASE_END_METHOD. strlen_closed. lia.
Qed.

End Host.
