(* ===== verification/TmDemo.v ===== *)
(** The start-up of time management and its service on a concrete device, and the
    features linked to the cron service: runs and witnesses. *)
From stdpp Require Import gmap strings fin_maps.
From stdpp Require Import gmap strings sorting.
From S2P Require Import Prelude.
From S2P Require Import Calendar.
From S2P Require Import CStr.
From S2P Require Import World.
From S2P Require Import Slots.
From S2P Require Import Json.
From S2P Require Import CronRpc.
From S2P Require Import CronJobs.
From S2P Require Import CronJobsInv.
From S2P Require Import CronJobsApi.
From S2P Require Import CronDemo.
From S2P Require Import TmHost.
From S2P Require Import TmStore.
From S2P Require Import TmAlarm.
From S2P Require Import TmAlarmTime.
From S2P Require Import TmAlarmCorrect.
From S2P Require Import TmReminder.
From S2P Require Import TmReminderCorrect.
From S2P Require Import TmFeatureDemo.
From S2P Require Import TmStopwatch.
From S2P Require Import TmCountdown.
From S2P Require Import TmCountdownCorrect.
From S2P Require Import TmPomodoro.
From S2P Require Import TmPomodoroCorrect.
From S2P Require Import TmService.
From S2P Require Import TmCron.

#[local] Open Scope string_scope.
#[local] Open Scope Z_scope.

(** ** A device that starts *)

#[export] Instance calm_sync : TimeSync Calm := {
  tal_time_check_time_sync := cret OPRT_OK;
  tal_time_check_time_zone_sync := cret OPRT_OK;
  subscribe_time_sync := cret OPRT_OK;
  unsubscribe_time_sync := cret OPRT_OK;
  cron_time_ready_notify := cret OPRT_OK }.

#[export] Instance calm_sync_laws : TimeSyncLaws Calm.
Proof. by split. Qed.

Definition alarm_item (id : string) (hour : Z) : cJSON :=
  JObject [("id", JString id); ("hour", JNumber hour); ("minute", JNumber 30); ("repeat_type", JNumber 1); ("message", JString "up")].

(** Two alarms of the same id, one with an impossible hour, and a reminder. *)
Definition kept_alarms : cJSON := JObject [("alarms", JArray [alarm_item "a1" 7; alarm_item "a1" 8; alarm_item "a2" 25])].
Definition kept_reminders : cJSON := JObject [("reminders", JArray [JObject
  [("id", JString "r1"); ("start_time", JNumber 1772766000); ("message", JString "call home")]])].

#[local] Instance two_documents : JsonText := {
  ty_cJSON_Parse text := if String.eqb text "alarms" then Some kept_alarms
                         else if String.eqb text "reminders" then Some kept_reminders else None;
  ty_cJSON_PrintUnformatted _ := None }.

Definition store : gmap string string :=
  <[WUKONG_TM_ALARM_KV_KEY := "alarms"]> (<[WUKONG_TM_REMINDER_KV_KEY := "reminders"]> ∅).

Definition at_rest : TM_STATE := mk_tms alarm_statics_boot rctx_zero cd_zero sw_zero (pomo_cleared false 0) false.

Lemma at_rest_off : off at_rest.
Proof. by exists alarm_statics_boot. Qed.

Lemma store_loadable : documents_ok store.
Proof.
  assert (Ha : kv_kept store WUKONG_TM_ALARM_KV_KEY = Some "alarms") by reflexivity.
  assert (Hr : kv_kept store WUKONG_TM_REMINDER_KV_KEY = Some "reminders") by reflexivity.
  split; intros text root Hk; [rewrite Ha in Hk|rewrite Hr in Hk]; injection Hk as <-; intros [= <-];
    unfold array_ok; cbn [ty_cJSON_GetObjectItem]; vm_compute ty_cJSON_GetObjectItem; cbv iota.
  all: repeat (apply List.Forall_cons; [|]); [..|apply List.Forall_nil]; intros id Hid _; vm_compute in Hid; injection Hid as <-;
    (split; [reflexivity|eexists; vm_compute; reflexivity]).
Qed.

Definition ten_am : Calm := mk_calm 1772762400 [].

Lemma time_manage_lifecycle_witness :
  exists rt t1 (k1 : gmap string string) w1, wukong_time_manage_init (at_rest, (store, ten_am)) = Some (rt, (t1, (k1, w1))) /\ started rt t1 /\
    exists err t2 w2, wukong_time_manage_deinit (t1, (k1, w1)) = Some (err, (t2, (k1, w2))) /\ off t2.
Proof. apply time_manage_lifecycle; [done|done|exact at_rest_off|split; [done|reflexivity]|exact store_loadable]. Defined.

(** What that start gives: both alarms called a1, and the reminder. *)
Example stored_items_start :
  (let* rt := wukong_time_manage_init in
   let* t := get_ctx in
   cret (rt, map al_alarm_id (List.filter al_used (alarms (tms_alarm t))), map ri_reminder_id (List.filter ri_in_use (rx_items (tms_reminder t)))))
    (at_rest, (store, ten_am)) ≫= (fun r => Some (fst r)) = Some (OPRT_OK, ["a1"; "a1"], ["r1"]).
Proof. by vm_compute. Qed.

(** ** A registry that is full once *)

(** The methods registered, and the number of registrations tried. *)
Record Busy := mk_busy { busy_methods : list string; busy_tries : nat }.

(** The fifth registration, the countdown's, is refused. *)
Definition busy_register (name : string) : C Busy OPERATE_RET := fun b =>
  if (busy_tries b =? 4)%nat then Some (OPRT_COM_ERROR, mk_busy (busy_methods b) 5)
  else Some (OPRT_OK, mk_busy (name :: busy_methods b) (S (busy_tries b))).

#[local] Instance busy_host : TmHost Busy := {
  th_posix := cret 1772762400;
  th_malloc := cret true;
  wukong_ai_event_notify _ _ := cret tt;
  wukong_ai_agent_input _ := cret tt;
  wukong_ai_agent_send_text _ := cret OPRT_OK;
  th_job_add _ _ := cret (OPRT_OK, "cron-1");
  th_job_remove _ := cret OPRT_OK;
  th_register name _ := busy_register name;
  th_unregister name := fun b =>
    Some (OPRT_OK, mk_busy (List.filter (fun m => negb (String.eqb m name)) (busy_methods b)) (busy_tries b));
  th_ok _ := True;
  th_clock _ := 1772762400;
  th_sent _ := [];
  th_job_text _ := True }.

#[local] Instance busy_sync : TimeSync Busy := {
  tal_time_check_time_sync := cret OPRT_OK;
  tal_time_check_time_zone_sync := cret OPRT_OK;
  subscribe_time_sync := cret OPRT_OK;
  unsubscribe_time_sync := cret OPRT_OK;
  cron_time_ready_notify := cret OPRT_OK }.

Definition start_twice : C (TM_STATE * (gmap string string * Busy)) (OPERATE_RET * OPERATE_RET * OPERATE_RET) :=
  let* rt1 := wukong_time_manage_init in
  let* rt2 := wukong_time_manage_init in
  let* rt3 := countdown (wukong_tm_countdown_create 0 5 0) in
  cret (rt1, rt2, rt3).

(** After a failed start, a second one reports success and a countdown can be
    started, but its tick method is not registered. *)
Example retry_loses_countdown_tick :
  match start_twice (at_rest, (∅ : gmap string string, mk_busy [] 0)) with
  | Some (r, (t, (_, b))) => r = (OPRT_COM_ERROR, OPRT_OK, OPRT_OK) /\ cd_state (tms_countdown t) = WUKONG_TM_COUNTDOWN_STATE_RUNNING /\
      existsb (String.eqb WUKONG_TM_COUNTDOWN_TICK_METHOD) (busy_methods b) = false
  | None => False
  end.
Proof. by vm_compute. Qed.

(** Every text reads as the same job: one that fires once a year. *)
Definition yearly_root : cJSON :=
  JObject [("name", JString "demo"); ("once", JNumber 1); ("cron", JString "30 0 11 6 3 *"); ("request", demo_request)].

#[local] Instance yearly_text : JsonText := {
  ty_cJSON_Parse _ := Some yearly_root;
  ty_cJSON_PrintUnformatted _ := Some "{}" }.

Lemma yearly_defined s : parse_defined s.
Proof. intros root cron [= <-] [= <-]. by vm_compute. Qed.

Definition tm_host : CronState TM_METHOD := demo_state demo_time (demo_table job_zero).

Lemma tm_host_inv : cron_inv tm_host.
Proof. apply demo_table_wf; [by apply demo_room | by left]. Qed.

(** *** Stopwatch: started, paused and running again, then stopped. *)

Definition sw_running : WUKONG_TM_STOPWATCH_CTX_T := mk_sw true true false 1772762390 100.

Lemma stopwatch_measures_running_time_witness : exists r s',
  run_sw SwStop (sw_running, tm_host) = Some (r, s') /\
  sw_outcome SwStop [1772762200; 1772762300; 1772762390] sw_running tm_host r s'.
Proof.
  apply stopwatch_measures_running_time; [exact tm_host_inv|].
  split; [done|]. split; [done|]. intros now. cbn [running_time runs sw_running sw_paused_elapsed_sec sw_start_ts].
  unfold u32. rewrite Zplus_mod_idemp_r. f_equal; lia.
Defined.

(** *** Countdown: paused with two minutes left, then resumed. *)

Definition cd_paused : WUKONG_TM_COUNTDOWN_CTX_T :=
  mk_cd true 2 1 WUKONG_TM_COUNTDOWN_STATE_PAUSED 300 1772762500 120 "".

Lemma countdown_refines_witness : exists rt s',
  run_cd CdResume (cd_paused, tm_host) = Some (rt, s') /\
  cd_outcome CdResume tm_host 2 (Paused 1 300 120) rt s' /\
  cd_jobs CdResume (Paused 1 300 120) rt "" (th_jobs tm_host) (cd_cron_job_id (fst s')) (th_jobs (snd s')).
Proof.
  apply (countdown_refines) with (cx := cd_paused); [intros; apply yearly_defined|apply cron_tm_jobs_laws|exact tm_host_inv|].
  split; [done|done|]. split_and!; try done; by vm_compute.
Defined.

Lemma countdown_event_layout_witness :
  let '(msg, len) := countdown_msg 1 WUKONG_TM_TIMER_OPR_PAUSE 3725 4000 in
  length msg = len /\ msg !! 4%nat = Some (opr_code WUKONG_TM_TIMER_OPR_PAUSE) /\
  tlv_fields 8 msg = Some ([(0, opr_code WUKONG_TM_TIMER_OPR_PAUSE); (1, 1); (2, 2); (3, 5); (4, 1); (5, 3725)]
                           ++ [(15, 275)])%list.
Proof. apply (countdown_event_layout 1 WUKONG_TM_TIMER_OPR_PAUSE 3725 4000). by vm_compute. Defined.

Lemma tick_cadence_witness :
  StronglySorted (fun a b => b < a) (tick_times 620 620) /\ last (tick_times 620 620) = Some 0 /\
  forall q, 0 < q -> (q <? __countdown_step_from_remaining q) = false.
Proof. apply (tick_cadence 620). lia. Defined.

(** *** Pomodoro: a running work phase is paused; four work phases per long
    break. *)

Definition demo_cfg : WUKONG_TM_POMODORO_CFG_T := mk_pomo_cfg 25 5 15 4.
Definition demo_session : session := mk_session 7 demo_cfg WUKONG_TM_POMODORO_PHASE_WORK 1 0.
Definition pm_working : WUKONG_TM_POMODORO_CTX_T :=
  mk_pomo true true false 8 "cron-1"
    (mk_pomo_state true false 7 WUKONG_TM_POMODORO_PHASE_WORK 1 0 1772762000 1772763500 1500 demo_cfg).


Lemma pomodoro_rotation_witness :
  let x := Nat.iter 7 advance demo_session in
  se_id x = 7 /\ se_cfg x = demo_cfg /\ se_phase x = nth_phase 4 7 /\ se_completed x = 4 /\ se_cycle x = 4.
Proof. apply (pomodoro_rotation 7 demo_cfg 7); [done|lia]. Defined.
