(* ===== verification/AudioDsp.v ===== *)
(** The sample processing of the audio player: mixing, volume and resampling, on
    byte buffers, as in
    src/miscs/audio_player/src/mixer/mixer_fixed.c and
    src/miscs/audio_player/src/resample/resample_fixed.c, ai_player_resample.c; and
    the double-precision count of output frames of resample_fixed.c, which is the
    exact number up to rounding.

    A buffer is the list of its bytes; a pointer into it is an offset. Reading or
    writing outside a buffer is undefined. *)
From Stdlib Require Import SpecFloat.
From S2P Require Import Prelude.

#[local] Open Scope Z_scope.

(** ** 16-bit samples in memory, little endian *)

Definition i16 (z : Z) : Z := (z + 2 ^ 15) mod 2 ^ 16 - 2 ^ 15.
Definition is_i16 (z : Z) : Prop := - 2 ^ 15 <= z < 2 ^ 15.

Definition get16 (m : list Z) (p : nat) : option Z :=
  match m !! p, m !! S p with Some a, Some b => Some (i16 (a + 256 * b)) | _, _ => None end.

Definition put16 (m : list Z) (p : nat) (v : Z) : option (list Z) :=
  if (S p <? length m)%nat then Some (<[S p := (v / 256) mod 256]> (<[p := v mod 256]> m)) else None.

Definition CLAMP_S16 (x : Z) : Z := if 32767 <? x then 32767 else if x <? -32768 then -32768 else x.

(** ** mixer_fixed.c *)

(** The loop from sample [i] on, [n] of them. *)
Fixpoint mix_loop (src dst : list Z) (n i : nat) : option (list Z) :=
  match n with
  | O => Some dst
  | S n =>
      match get16 src (2 * i), get16 dst (2 * i) with
      | Some s, Some d =>
          match put16 dst (2 * i) (i16 (CLAMP_S16 (s + d))) with
          | Some dst => mix_loop src dst n (S i)
          | None => None
          end
      | _, _ => None
      end
  end.

Definition mix_pcm_s16_mono_16k (src dst : list Z) (samples : Z) : option (list Z) :=
  mix_loop src dst (Z.to_nat samples) 0.

Definition ai_player_mixer_process (src_decode_buf dst_decode_buf : list Z) (samples : Z) : option (list Z) :=
  mix_pcm_s16_mono_16k src_decode_buf dst_decode_buf (i32 samples).

(** [sample * volume] is undefined where it overflows. *)
Definition scale_sample (sample volume max_volume : Z) : option Z :=
  if (INT_MIN <=? sample * volume) && (sample * volume <=? INT_MAX) && negb (max_volume =? 0)
  then Some (i16 (CLAMP_S16 (Z.quot (sample * volume) max_volume))) else None.

Fixpoint volume_loop (decode_buf : list Z) (volume max_volume : Z) (n i : nat) : option (list Z) :=
  match n with
  | O => Some decode_buf
  | S n =>
      match get16 decode_buf (2 * i) with
      | Some sample =>
          match scale_sample sample volume max_volume with
          | Some v =>
              match put16 decode_buf (2 * i) v with
              | Some decode_buf => volume_loop decode_buf volume max_volume n (S i)
              | None => None
              end
          | None => None
          end
      | None => None
      end
  end.

Definition ai_player_volume_process (decode_buf : list Z) (len volume max_volume datebits : Z) : option (list Z) :=
  if negb (datebits =? 16) then Some decode_buf
  else volume_loop decode_buf volume max_volume (Z.to_nat (i32 (len / 2))) 0.

(** ** resample_fixed.c *)

Definition OUT_SR_16K : Z := 16000.
Definition OUT_SR_8K : Z := 8000.

Definition clip16_from_i64 (v : Z) : Z := if 32767 <? v then 32767 else if v <? -32768 then -32768 else i16 v.

(** Double precision, and its conversion to size_t. *)
Definition to_double (z : Z) : spec_float := binary_normalize 53 1024 z 0 false.
Definition to_size (x : spec_float) : option Z :=
  match x with
  | S754_zero _ => Some 0
  | S754_finite false m e =>
      let n := if 0 <=? e then Z.pos m * 2 ^ e else Z.pos m / 2 ^ (- e) in
      if n <? 2 ^ 32 then Some n else None
  | _ => None
  end.

(** [(size_t)((double)in_frames * ((double)out_sr / (double)in_rate))] *)
Definition frames_after (out_sr in_frames in_rate : Z) : option Z :=
  to_size (SFmul 53 1024 (to_double in_frames) (SFdiv 53 1024 (to_double out_sr) (to_double in_rate))).

(** The sum of the [n] channels of a frame from channel [c] on. *)
Fixpoint frame_sum (m : list Z) (frame : nat) (n c : nat) : option Z :=
  match n with
  | O => Some 0
  | S n => match get16 m (frame + 2 * c), frame_sum m frame n (S c) with
           | Some x, Some y => Some (x + y)
           | _, _ => None
           end
  end.

(** One frame as a mono sample; 0 beyond the last. *)
Definition frame_mono (m : list Z) (inp : nat) (in_frames channels idx : Z) : option Z :=
  if idx <? in_frames then
    match frame_sum m (inp + 2 * Z.to_nat (u32 (idx * channels))) (Z.to_nat channels) 0 with
    | Some sum => Some (Z.quot sum channels)
    | None => None
    end
  else Some 0.

(** The sample computed at position [pos]. *)
Definition interpolate (m : list Z) (inp : nat) (in_frames channels pos : Z) : option Z :=
  let idx := Z.shiftr pos 16 in
  let frac := Z.land pos 65535 in
  match frame_mono m inp in_frames channels idx, frame_mono m inp in_frames channels (u32 (idx + 1)) with
  | Some s0, Some s1 => Some (clip16_from_i64 (Z.shiftr (s0 * (65536 - frac) + s1 * frac) 16))
  | _, _ => None
  end.

Fixpoint resample_loop (inp outp : nat) (in_frames channels step : Z) (n j : nat) (pos : Z) (m : list Z) : option (list Z) :=
  match n with
  | O => Some m
  | S n =>
      match interpolate m inp in_frames channels pos with
      | Some v =>
          match put16 m (outp + 2 * j) v with
          | Some m =>
              let pos := u32 (pos + step) in
              if in_frames <=? Z.shiftr pos 16 then Some m
              else resample_loop inp outp in_frames channels step n (S j) pos m
          | None => None
          end
      | None => None
      end
  end.

Definition step_of (out_sr in_rate : Z) : Z := u32 (Z.shiftl in_rate 16 / out_sr).

(** The common text of the two functions. The pointers are offsets into one
    memory, and none is NULL. The result: return value, output frames, memory. *)
Definition resample_fixed (out_sr : Z) (inp : nat) (in_frames in_rate channels : Z) (outp : nat) (m : list Z)
    : option (Z * Z * list Z) :=
  if (in_frames =? 0) || (in_rate <=? 0) || (channels <=? 0) then Some (-1, 0, m)
  else
    match frames_after out_sr in_frames in_rate with
    | None => None
    | Some out_frames =>
        if out_frames =? 0 then Some (0, 0, m)
        else
          match resample_loop inp outp in_frames channels (step_of out_sr in_rate) (Z.to_nat out_frames) 0 0 m with
          | Some m => Some (0, out_frames, m)
          | None => None
          end
    end.

Definition resample_to_16k_fixed := resample_fixed OUT_SR_16K.
Definition resample_to_8k_fixed := resample_fixed OUT_SR_8K.

(** ** ai_player_resample.c *)

Record DECODER_OUTPUT_T := mk_output { do_sample : Z; do_datebits : Z; do_channel : Z; do_samples : Z; do_used_size : Z }.
Definition output_zero : DECODER_OUTPUT_T := mk_output 0 0 0 0 0.

(** The caller passes the same buffer for input and output; [out_size] is read
    and written. *)
Definition ai_player_resample_process (buf : list Z) (in_cfg : DECODER_OUTPUT_T) (out_size : Z)
    : option (OPERATE_RET * Z * list Z) :=
  if i32 out_size <=? 0 then Some (OPRT_INVALID_PARM, out_size, buf)
  else
    match resample_to_16k_fixed 0 (do_samples in_cfg) (do_sample in_cfg) (do_channel in_cfg) 0 buf with
    | Some (ret, out_frames_out, buf) => Some (ret, (if ret =? 0 then i32 (out_frames_out * 2) else out_size), buf)
    | None => None
    end.

Lemma digits2_bounds p : 2 ^ (Zpos (digits2_pos p) - 1) <= Zpos p < 2 ^ Zpos (digits2_pos p).
Proof.
  induction p as [p IH|p IH|]; cbn [digits2_pos]; [..|done]; rewrite Pos2Z.inj_succ;
    replace (Z.succ (Z.pos (digits2_pos p))) with (1 + Z.pos (digits2_pos p)) by lia; rewrite (Z.pow_add_r 2 1) by lia;
    replace (1 + Z.pos (digits2_pos p) - 1) with (1 + (Z.pos (digits2_pos p) - 1)) by lia; rewrite (Z.pow_add_r 2 1) by lia; lia.
Qed.

Lemma digits2_shift p d : digits2_pos (Pos.iter xO p d) = (digits2_pos p + d)%positive.
Proof.
  induction d as [|d IH] using Pos.peano_ind; [cbn; lia|]. rewrite Pos.iter_succ. cbn [digits2_pos]. rewrite IH. lia.
Qed.

Lemma iter_xO p d : Zpos (Pos.iter xO p d) = Zpos p * 2 ^ Zpos d.
Proof.
  induction d as [|d IH] using Pos.peano_ind; [cbn; lia|]. rewrite Pos.iter_succ, Pos2Z.inj_succ, Z.pow_succ_r, Pos2Z.inj_xO, IH by lia. lia.
Qed.

Lemma shr_1_m mrs : 0 <= shr_m mrs -> shr_m (shr_1 mrs) = shr_m mrs / 2.
Proof.
  destruct mrs as [m r s]. cbn [shr_m]. intros Hm. unfold shr_1. destruct m as [|[p|p|]|p]; cbn [shr_m]; try done.
  - apply Z.div_unique with 1; lia.
  - apply Z.div_unique with 0; lia.
Qed.

Lemma iter_shr_m p mrs : 0 <= shr_m mrs -> shr_m (SpecFloat.iter_pos shr_1 p mrs) = shr_m mrs / 2 ^ Zpos p.
Proof.
  revert mrs. induction p as [p IH|p IH|]; intros mrs Hm; cbn [SpecFloat.iter_pos].
  - assert (H1 : 0 <= shr_m (shr_1 mrs)) by (rewrite shr_1_m by done; apply Z.div_pos; lia).
    assert (H2 : 0 <= shr_m (SpecFloat.iter_pos shr_1 p (shr_1 mrs))) by (rewrite IH by done; apply Z.div_pos; lia).
    rewrite !IH, shr_1_m by done. rewrite !Z.div_div by lia. f_equal. rewrite <- Z.pow_add_r by lia.
    change 2 with (2 ^ 1) at 1. rewrite <- Z.pow_add_r by lia. f_equal. lia.
  - assert (H2 : 0 <= shr_m (SpecFloat.iter_pos shr_1 p mrs)) by (rewrite IH by done; apply Z.div_pos; lia).
    rewrite !IH by done. rewrite !Z.div_div by lia. f_equal. rewrite <- Z.pow_add_r by lia. f_equal. lia.
  - by apply shr_1_m.
Qed.

Lemma shr_m_of_loc m l : shr_m (shr_record_of_loc m l) = m.
Proof. by destruct l as [|[]]. Qed.

(** Both shifts of a rounding divide by a power of two. *)
Lemma shr_fexp_spec m e l : 0 <= m -> exists n mrs, shr_fexp 53 1024 m e l = (mrs, e + n) /\ shr_m mrs = m / 2 ^ n /\
  n = Z.max 0 (fexp 53 1024 (Zdigits2 m + e) - e).
Proof.
  intros Hm. unfold shr_fexp. set (k := fexp _ _ _ - e). destruct k as [|p|p] eqn:Hk; cbn [shr].
  - exists 0, (shr_record_of_loc m l). rewrite shr_m_of_loc, Z.add_0_r, Z.div_1_r. done.
  - exists (Zpos p), (SpecFloat.iter_pos shr_1 p (shr_record_of_loc m l)). rewrite iter_shr_m by (by rewrite shr_m_of_loc). by rewrite shr_m_of_loc.
  - exists 0, (shr_record_of_loc m l). rewrite shr_m_of_loc, Z.add_0_r, Z.div_1_r. done.
Qed.

Lemma round_even_bounds m l : m <= round_nearest_even m l <= m + 1.
Proof. unfold round_nearest_even. destruct l as [|[]]; try lia. case_match; lia. Qed.

(** A number of 53 digits or fewer, in the normal range, is not changed. *)
Lemma fexp_normal e : -1000 <= e -> fexp 53 1024 e = e - 53.
Proof. unfold fexp, emin. lia. Qed.

Lemma Zdigits2_bounds m : 0 < m -> 0 < Zdigits2 m /\ 2 ^ (Zdigits2 m - 1) <= m < 2 ^ Zdigits2 m.
Proof. destruct m as [|p|p]; try lia. intros _. split; [done|]. apply digits2_bounds. Qed.

Lemma Zdigits2_le m d : 0 < m -> 0 <= d -> m < 2 ^ d -> Zdigits2 m <= d.
Proof.
  intros Hm Hd Hlt. destruct (Zdigits2_bounds m Hm) as (H0 & Hlo & _). destruct (Z.le_gt_cases (Zdigits2 m) d) as [|Hgt]; [done|].
  assert (2 ^ d <= 2 ^ (Zdigits2 m - 1)) by (apply Z.pow_le_mono_r; lia). lia.
Qed.

(** Values on a common scale. *)
Definition scaled_at (m e : Z) : Z := m * 2 ^ (e + 200).

(** Rounding adds at most one unit in the last place. *)
Lemma round_aux_bound m e l : 0 < m -> -200 <= e <= 100 -> Zdigits2 m <= 200 -> exists m' e',
  binary_round_aux 53 1024 false m e l = S754_finite false m' e' /\ Zpos m' <= 2 ^ 53 /\ e <= e' <= 300 /\
  scaled_at (Zpos m') e' <= scaled_at m e + 2 ^ (Z.max e (Zdigits2 m + e - 53) + 200).
Proof.
  intros Hm He Hd. destruct (Zdigits2_bounds m Hm) as (Hd0 & Hlo & Hhi). unfold binary_round_aux.
  destruct (shr_fexp_spec m e l ltac:(lia)) as (n1 & r1 & -> & Hr1 & Hn1). rewrite fexp_normal in Hn1 by lia. rewrite Hr1.
  set (m1 := m / 2 ^ n1) in *. assert (Hm1 : 0 < m1 < 2 ^ 53).
  { unfold m1. split.
    - apply Z.div_str_pos. split; [apply Z.pow_pos_nonneg; lia|]. destruct (Z.max_spec 0 (Zdigits2 m + e - 53 - e)) as [[? Heq]|[? Heq]];
        rewrite Heq in Hn1; subst n1; [|rewrite Z.pow_0_r; lia].
      etransitivity; [|exact Hlo]. apply Z.pow_le_mono_r; lia.
    - apply Z.div_lt_upper_bound; [apply Z.pow_pos_nonneg; lia|]. rewrite <- Z.pow_add_r by lia. eapply Z.lt_le_trans; [exact Hhi|].
      apply Z.pow_le_mono_r; lia. }
  set (m1' := round_nearest_even m1 _). pose proof (round_even_bounds m1 (loc_of_shr_record r1)) as Hm1'. fold m1' in Hm1'.
  destruct (shr_fexp_spec m1' (e + n1) loc_Exact ltac:(lia)) as (n2 & r2 & -> & Hr2 & Hn2). rewrite Hr2.
  assert (Hd1 : Zdigits2 m1' <= 54) by (apply Zdigits2_le; lia). destruct (Zdigits2_bounds m1' ltac:(lia)) as (Hd1' & _ & _).
  rewrite fexp_normal in Hn2 by lia. assert (Hn2' : 0 <= n2 <= 1) by lia.
  assert (Hpos : 0 < m1' / 2 ^ n2).
  { apply Z.div_str_pos. split; [apply Z.pow_pos_nonneg; lia|]. destruct (Z.eq_dec n2 0) as [->|]; [lia|].
    assert (n2 = 1) as -> by lia. change (2 ^ 1) with 2. destruct (Z.eq_dec m1' 1) as [Heq|]; [|lia]. rewrite Heq in Hn2. cbn in Hn2. lia. }
  destruct (m1' / 2 ^ n2) as [|m'|] eqn:Hm'; try lia. if_true (lia). exists m', (e + n1 + n2). split; [done|].
  assert (Hle : Zpos m' * 2 ^ n2 <= m1') by (rewrite <- Hm', Z.mul_comm; apply Z.mul_div_le, Z.pow_pos_nonneg; lia).
  split; [|split; [lia|]].
  - assert (1 <= 2 ^ n2) by (apply (Z.pow_le_mono_r 2 0); lia). nia.
  - unfold scaled_at. replace (e + n1 + n2 + 200) with (n2 + (e + n1 + 200)) by lia. rewrite Z.pow_add_r by lia.
    transitivity ((m1 + 1) * 2 ^ (e + n1 + 200)).
    { rewrite Z.mul_assoc. apply Z.mul_le_mono_nonneg_r; [apply Z.pow_nonneg; lia|lia]. }
    rewrite Z.mul_add_distr_r, Z.mul_1_l. apply Z.add_le_mono.
    + replace (e + n1 + 200) with (n1 + (e + 200)) by lia. rewrite Z.pow_add_r, Z.mul_assoc by lia.
      apply Z.mul_le_mono_nonneg_r; [apply Z.pow_nonneg; lia|]. rewrite Z.mul_comm. apply Z.mul_div_le, Z.pow_pos_nonneg; lia.
    + apply Z.pow_le_mono_r; lia.
Qed.

(** Small integers are exact. *)
Lemma to_double_exact k : 0 < k < 2 ^ 53 -> exists m e, to_double k = S754_finite false m e /\ 2 ^ 52 <= Zpos m < 2 ^ 53 /\
  -52 <= e <= 0 /\ Zpos m = k * 2 ^ (- e) /\ e = Zdigits2 k - 53.
Proof.
  intros Hk. destruct k as [|p|]; try lia. destruct (Zdigits2_bounds (Zpos p) ltac:(lia)) as (Hd0 & Hlo & Hhi).
  assert (Hd : Zdigits2 (Zpos p) <= 53) by (apply Zdigits2_le; lia). cbn [Zdigits2] in *. set (d := Zpos (digits2_pos p)) in *.
  unfold to_double, binary_normalize, binary_round, shl_align. fold d. rewrite Z.add_0_r, (fexp_normal d) by lia. rewrite Z.sub_0_r.
  assert (Hm : exists m, (match d - 53 with Z.neg s => (Pos.iter xO p s, d - 53) | _ => (p, 0) end) = (m, d - 53) /\
    Zpos m = Zpos p * 2 ^ (53 - d) /\ Zpos (digits2_pos m) = 53).
  { destruct (d - 53) as [|s|s] eqn:Hs; [exists p; split; [done|]; split; [replace (53 - d) with 0 by lia; lia|unfold d in *; lia]|lia|].
    exists (Pos.iter xO p s). split; [done|]. rewrite iter_xO, digits2_shift. split; [f_equal; f_equal; lia|]. rewrite Pos2Z.inj_add. fold d. lia. }
  destruct Hm as (m & -> & Hm & Hdm). unfold binary_round_aux.
  assert (Hsh : forall l, shr_fexp 53 1024 (Zpos m) (d - 53) l = (shr_record_of_loc (Zpos m) l, d - 53)).
  { intros l. unfold shr_fexp. cbn [Zdigits2]. rewrite Hdm, fexp_normal by lia. by replace (53 + (d - 53) - 53 - (d - 53)) with 0 by lia. }
  rewrite Hsh. cbn [shr_record_of_loc shr_m loc_of_shr_record round_nearest_even]. rewrite Hsh. cbn [shr_record_of_loc shr_m].
  if_true (lia). exists m, (d - 53). split; [done|]. replace (- (d - 53)) with (53 - d) by lia.
  pose proof (digits2_bounds m) as Hb. rewrite Hdm in Hb. split; [exact Hb|]. split; [lia|]. split; [exact Hm|done].
Qed.

(** The quotient of the rates. *)
Lemma ratio_bound rate : 16000 <= rate < 2 ^ 28 -> exists m e,
  SFdiv 53 1024 (to_double 16000) (to_double rate) = S754_finite false m e /\ -70 <= e <= 0 /\
  scaled_at (Zpos m) e * rate <= 16000 * 2 ^ 200 + rate * 2 ^ 148.
Proof.
  intros Hr. destruct (to_double_exact 16000) as (m1 & e1 & -> & Hm1 & _ & Hv1 & He1); [lia|].
  destruct (to_double_exact rate) as (m2 & e2 & -> & Hm2 & _ & Hv2 & He2); [lia|]. change (Zdigits2 16000 - 53) with (-39) in He1. subst e1.
  assert (He2b : -39 <= e2 <= -25).
  { destruct (Zdigits2_bounds rate ltac:(lia)) as (_ & Hlo & Hhi). pose proof (Zdigits2_le rate 28 ltac:(lia) ltac:(lia) ltac:(lia)).
    assert (14 <= Zdigits2 rate); [|lia]. destruct (Z.le_gt_cases 14 (Zdigits2 rate)) as [|Hgt]; [done|].
    assert (2 ^ Zdigits2 rate <= 2 ^ 13) by (apply Z.pow_le_mono_r; lia). lia. }
  assert (Hdig : forall m, 2 ^ 52 <= Zpos m < 2 ^ 53 -> Zdigits2 (Zpos m) = 53).
  { intros m Hm. pose proof (Zdigits2_le (Zpos m) 53 ltac:(lia) ltac:(lia) ltac:(lia)). destruct (Zdigits2_bounds (Zpos m) ltac:(lia)) as (_ & _ & Hhi).
    destruct (Z.le_gt_cases 53 (Zdigits2 (Zpos m))); [lia|]. assert (2 ^ Zdigits2 (Zpos m) <= 2 ^ 52) by (apply Z.pow_le_mono_r; lia). lia. }
  unfold SFdiv, SFdiv_core_binary. rewrite !Hdig by done. rewrite fexp_normal by lia.
  replace (53 + -39 - (53 + e2) - 53) with (-92 - e2) by lia. rewrite Z.min_l by lia. replace (-39 - e2 - (-92 - e2)) with 53 by lia.
  cbv iota. rewrite Z.shiftl_mul_pow2 by lia. destruct (Z.div_eucl (Z.pos m1 * 2 ^ 53) (Z.pos m2)) as [q r] eqn:Hdiv.
  assert (Hq : q = Z.pos m1 * 2 ^ 53 / Z.pos m2) by (unfold Z.div; by rewrite Hdiv). cbn [xorb].
  assert (Hq0 : 0 < q < 2 ^ 54).
  { subst q. split; [apply Z.div_str_pos; lia|apply Z.div_lt_upper_bound; lia]. }
  assert (Hqm : q * Z.pos m2 <= Z.pos m1 * 2 ^ 53) by (subst q; rewrite Z.mul_comm; apply Z.mul_div_le; lia).
  pose proof (Zdigits2_le q 54 ltac:(lia) ltac:(lia) ltac:(lia)) as Hqd.
  destruct (round_aux_bound q (-92 - e2) (new_location (Z.pos m2) r)) as (m & e & -> & Hm & He & Hb); [lia..|].
  exists m, e. split; [done|]. set (R := scaled_at (Z.pos m) e) in *.
  assert (Hulp : 2 ^ (Z.max (-92 - e2) (Zdigits2 q + (-92 - e2) - 53) + 200) <= 2 ^ 148) by (apply Z.pow_le_mono_r; lia).
  assert (Hqr : scaled_at q (-92 - e2) * rate <= 16000 * 2 ^ 200).
  { unfold scaled_at. replace (-92 - e2 + 200) with (- e2 + 108) by lia. rewrite Z.pow_add_r by lia.
    replace (q * (2 ^ (- e2) * 2 ^ 108) * rate) with (q * Z.pos m2 * 2 ^ 108) by (rewrite Hv2; ring).
    change (2 ^ (- -39)) with (2 ^ 39) in Hv1. replace (16000 * 2 ^ 200) with (Z.pos m1 * 2 ^ 53 * 2 ^ 108) by (rewrite Hv1; ring). nia. }
  assert (HR : R * rate <= 16000 * 2 ^ 200 + rate * 2 ^ 148) by nia. split; [|done]. split; [lia|].
  destruct (Z.le_gt_cases e 0) as [|Hgt]; [done|]. exfalso. assert (2 ^ 201 <= R).
  { unfold R, scaled_at. transitivity (1 * 2 ^ (e + 200)); [rewrite Z.mul_1_l; apply Z.pow_le_mono_r; lia|apply Z.mul_le_mono_nonneg_r; lia]. }
  nia.
Qed.

(** The frame count, which the code computes in floating point, is exact up to
    rounding to an integer. *)
Theorem frames_after_count k rate : 16000 <= rate < 2 ^ 28 -> 0 < k < 2 ^ 15 ->
  exists n, frames_after OUT_SR_16K k rate = Some n /\ 0 <= n <= k /\ (n - 1) * rate < OUT_SR_16K * k.
Proof.
  intros Hr Hk. unfold frames_after, OUT_SR_16K. destruct (ratio_bound rate Hr) as (mr & er & -> & Her & HR).
  destruct (to_double_exact k) as (mk & ek & -> & Hmk & Hek & Hvk & Hekd); [lia|]. cbn [SFmul xorb].
  pose proof (Zdigits2_le k 15 ltac:(lia) ltac:(lia) ltac:(lia)) as Hkd. set (R := scaled_at (Zpos mr) er) in *.
  rewrite Pos2Z.inj_mul. set (M := Zpos mk * Zpos mr). assert (HM : scaled_at M (ek + er) = k * R).
  { unfold M, R, scaled_at. rewrite Hvk. replace (k * 2 ^ (- ek) * Z.pos mr * 2 ^ (ek + er + 200)) with (k * Z.pos mr * (2 ^ (- ek) * 2 ^ (ek + er + 200))) by ring.
    rewrite <- Z.pow_add_r by lia. replace (- ek + (ek + er + 200)) with (er + 200) by lia. ring. }
  assert (HR2 : R <= 2 ^ 200 + 2 ^ 148) by nia. assert (HM0 : 0 < M) by lia. destruct (Zdigits2_bounds M HM0) as (Hd0 & Hlo & _).
  assert (HMd : Zdigits2 M + (ek + er) <= 16).
  { destruct (Z.le_gt_cases (Zdigits2 M + (ek + er)) 16) as [|Hgt]; [done|]. exfalso.
    assert (2 ^ (16 + 200) <= scaled_at M (ek + er)); [|nia]. unfold scaled_at.
    transitivity (2 ^ (Zdigits2 M - 1) * 2 ^ (ek + er + 200)); [rewrite <- Z.pow_add_r by lia; apply Z.pow_le_mono_r; lia|].
    apply Z.mul_le_mono_nonneg_r; lia. }
  destruct (round_aux_bound M (ek + er) loc_Exact) as (m' & e' & -> & _ & He' & Hb); [lia..|]. rewrite HM in Hb.
  assert (Hulp : 2 ^ (Z.max (ek + er) (Zdigits2 M + (ek + er) - 53) + 200) <= 2 ^ 163) by (apply Z.pow_le_mono_r; lia).
  cbn [to_size]. set (n := if 0 <=? e' then _ else _).
  assert (Hn : 0 <= n /\ n * 2 ^ 200 <= scaled_at (Zpos m') e').
  { unfold n, scaled_at. destruct (Z.leb_spec 0 e').
    - split; [apply Z.mul_nonneg_nonneg; [lia|apply Z.pow_nonneg; lia]|]. rewrite Z.pow_add_r by lia. lia.
    - split; [apply Z.div_pos; [lia|apply Z.pow_pos_nonneg; lia]|].
      replace (2 ^ 200) with (2 ^ (- e') * 2 ^ (e' + 200)) by (rewrite <- Z.pow_add_r by lia; f_equal; lia). rewrite Z.mul_assoc.
      apply Z.mul_le_mono_nonneg_r; [apply Z.pow_nonneg; lia|]. rewrite Z.mul_comm. apply Z.mul_div_le, Z.pow_pos_nonneg; lia. }
  clearbody n. destruct Hn as [Hn0 Hn]. assert (Hmain : n * rate * 2 ^ 200 < 16000 * k * 2 ^ 200 + rate * 2 ^ 165) by nia.
  assert (n <= k) by nia. assert ((n - 1) * rate < 16000 * k) by nia. if_true (lia). by exists n.
Qed.
