(* ===== verification/AudioDspCorrect.v ===== *)
(** What the sample processing computes: mixing is a saturating sum, a volume
    below the maximum never makes a sample louder, and resampling in place gives
    the same samples as resampling into a buffer of its own - when the input is
    not slower than the output. *)
From S2P Require Import Prelude.
From S2P Require Import AudioDsp.

#[local] Open Scope Z_scope.

(** ** Memory *)

Lemma i16_id z : is_i16 z -> i16 z = z.
Proof. unfold is_i16, i16. intros ?. rewrite Z.mod_small; lia. Qed.

Lemma i16_range z : is_i16 (i16 z).
Proof. unfold is_i16, i16. pose proof (Z.mod_pos_bound (z + 2 ^ 15) (2 ^ 16)). lia. Qed.

Lemma i16_bytes v : is_i16 v -> i16 (v mod 256 + 256 * ((v / 256) mod 256)) = v.
Proof.
  intros Hv. assert (Heq : v mod 256 + 256 * ((v / 256) mod 256) = v mod 2 ^ 16).
  { change (2 ^ 16) with (256 * 256). rewrite Z.rem_mul_r by lia. lia. }
  rewrite Heq. unfold i16, is_i16 in *. rewrite Zplus_mod_idemp_l, Z.mod_small; lia.
Qed.

(** [m'] is [m] with the sample [v] at offset [p]. *)
Record wrote (m : list Z) (p : nat) (v : Z) (m' : list Z) : Prop := {
  wr_length : length m' = length m;
  wr_same : get16 m' p = Some v;
  wr_byte : forall q, q <> p -> q <> S p -> m' !! q = m !! q }.

Lemma put16_wrote m p v : is_i16 v -> (S p < length m)%nat -> exists m', put16 m p v = Some m' /\ wrote m p v m'.
Proof.
  intros Hv Hp. unfold put16. if_true (by apply Nat.ltb_lt). eexists. split; [reflexivity|].
  split.
  - by rewrite !length_insert.
  - unfold get16. rewrite list_lookup_insert_ne by lia. rewrite list_lookup_insert_eq by lia.
    rewrite list_lookup_insert_eq by (rewrite length_insert; lia). by rewrite i16_bytes.
  - intros q H1 H2. by rewrite !list_lookup_insert_ne by done.
Qed.

Lemma wrote_other m p v m' q : wrote m p v m' -> (q + 1 < p \/ p + 1 < q)%nat -> get16 m' q = get16 m q.
Proof. intros [_ _ Hb] Hq. unfold get16. by rewrite !Hb by lia. Qed.

Lemma get16_some m p : (S p < length m)%nat -> exists v, get16 m p = Some v /\ is_i16 v.
Proof.
  intros Hp. destruct (lookup_lt_is_Some_2 m p) as [a Ha]; [lia|]. destruct (lookup_lt_is_Some_2 m (S p)) as [b Hb]; [lia|].
  unfold get16. rewrite Ha, Hb. eexists. split; [reflexivity|]. apply i16_range.
Qed.

Lemma get16_range m p v : get16 m p = Some v -> is_i16 v /\ (S p < length m)%nat.
Proof.
  unfold get16. destruct (m !! p) as [a|] eqn:Ha; [|done]. destruct (m !! S p) as [b|] eqn:Hb; [|done]. intros [= <-].
  split; [apply i16_range|]. by apply lookup_lt_is_Some_1.
Qed.

(** ** Loops that rewrite the samples of a buffer one by one *)

(** [m'] is [m] with [f i] as sample [i] of the buffer at offset [o], for [i] from
    [a] to [b - 1]. *)
Record rewritten (m : list Z) (o : nat) (f : nat -> option Z) (a b : nat) (m' : list Z) : Prop := {
  rw_length : length m' = length m;
  rw_in : forall i, (a <= i < b)%nat -> get16 m' (o + 2 * i) = f i;
  rw_out : forall q, (q < o + 2 * a \/ o + 2 * b <= q)%nat -> m' !! q = m !! q }.

Lemma rewritten_get m o f a b m' p : rewritten m o f a b m' -> (p + 1 < o + 2 * a \/ o + 2 * b <= p)%nat ->
  get16 m' p = get16 m p.
Proof. intros [_ _ Ho] Hi. unfold get16. by rewrite !Ho by lia. Qed.

Lemma rewritten_nil m o f a : rewritten m o f a a m.
Proof. split; [done|lia|done]. Qed.

Lemma rewritten_step m o f a b v m1 m' : wrote m (o + 2 * a) v m1 -> f a = Some v -> (a < b)%nat ->
  rewritten m1 o f (S a) b m' -> rewritten m o f a b m'.
Proof.
  intros Hw Hf Hab Hr. split.
  - rewrite (rw_length _ _ _ _ _ _ Hr). apply Hw.
  - intros i Hi. destruct (decide (i = a)) as [->|Hne]; [|apply Hr; lia].
    rewrite (rewritten_get _ _ _ _ _ _ _ Hr) by lia. rewrite Hf. apply Hw.
  - intros q Hq. rewrite (rw_out _ _ _ _ _ _ Hr) by lia. apply Hw; lia.
Qed.

Lemma rewritten_ext m o f g a b m' : (forall i, (a <= i < b)%nat -> f i = g i) -> rewritten m o f a b m' -> rewritten m o g a b m'.
Proof. intros Hfg [Hl Hi Ho]. split; [done| |done]. intros i Hab. by rewrite Hi, Hfg. Qed.

(** ** Mixing *)

Definition mixed (src dst : list Z) (i : nat) : option Z :=
  match get16 src (2 * i), get16 dst (2 * i) with Some s, Some d => Some (CLAMP_S16 (s + d)) | _, _ => None end.

Lemma clamp_range x : is_i16 (CLAMP_S16 x).
Proof. unfold CLAMP_S16, is_i16. repeat case_match; lia. Qed.

Lemma mix_loop_spec src dst n i : (2 * (i + n) <= length src)%nat -> (2 * (i + n) <= length dst)%nat ->
  exists dst', mix_loop src dst n i = Some dst' /\ rewritten dst 0 (mixed src dst) i (i + n) dst'.
Proof.
  revert dst i. induction n as [|n IH]; intros dst i Hs Hd; cbn [mix_loop].
  { exists dst. split; [done|]. rewrite Nat.add_0_r. apply rewritten_nil. }
  destruct (get16_some src (2 * i)) as (s & Hgs & _); [lia|]. destruct (get16_some dst (2 * i)) as (d & Hgd & _); [lia|].
  rewrite Hgs, Hgd, i16_id by apply clamp_range.
  destruct (put16_wrote dst (2 * i) (CLAMP_S16 (s + d))) as (d1 & Hput & Hw); [apply clamp_range|lia|]. rewrite Hput.
  destruct (IH d1 (S i)) as (d2 & Hloop & Hr); [lia|rewrite (wr_length _ _ _ _ Hw); lia|]. exists d2. split; [done|].
  eapply rewritten_step; [done|by unfold mixed; rewrite Hgs, Hgd|lia|]. replace (i + S n)%nat with (S i + n)%nat by lia.
  eapply rewritten_ext; [|exact Hr]. intros j Hj. unfold mixed. by rewrite (wrote_other _ _ _ _ (2 * j)%nat Hw) by lia.
Qed.

Lemma mixer_spec src dst samples : 0 <= samples < 2 ^ 31 -> 2 * samples <= Z.of_nat (length src) -> 2 * samples <= Z.of_nat (length dst) ->
  exists dst', ai_player_mixer_process src dst samples = Some dst' /\ rewritten dst 0 (mixed src dst) 0 (Z.to_nat samples) dst'.
Proof.
  intros Hn Hs Hd. unfold ai_player_mixer_process, mix_pcm_s16_mono_16k. rewrite i32_id by (unfold INT_MIN, INT_MAX; lia).
  apply mix_loop_spec; lia.
Qed.

(** ** Volume *)

Definition scaled (buf : list Z) (volume max_volume : Z) (i : nat) : option Z :=
  match get16 buf (2 * i) with Some s => Some (Z.quot (s * volume) max_volume) | None => None end.

Lemma quot_bound s v m : 0 <= v <= m -> 0 < m -> Z.abs (Z.quot (s * v) m) <= Z.abs s.
Proof.
  intros Hv Hm. rewrite <- Z.quot_abs by lia. rewrite Z.abs_mul, (Z.abs_eq v), (Z.abs_eq m) by lia.
  apply Z.quot_le_upper_bound; [lia|]. nia.
Qed.

Lemma scale_sample_spec s v m : is_i16 s -> 0 <= v <= m -> 0 < m <= 100 ->
  scale_sample s v m = Some (Z.quot (s * v) m) /\ is_i16 (Z.quot (s * v) m).
Proof.
  intros Hs Hv Hm. pose proof (quot_bound s v m). unfold is_i16 in *.
  assert (Hq : is_i16 (Z.quot (s * v) m)).
  { unfold is_i16. destruct (Z.eq_dec s (- 2 ^ 15)) as [->|]; [|lia].
    assert (Z.quot (- 2 ^ 15 * v) m <= 0); [|lia]. apply Z.quot_le_upper_bound; lia. }
  split; [|exact Hq]. unfold scale_sample. if_true (unfold INT_MIN, INT_MAX; apply andb_true_iff; split;
    [apply andb_true_iff; split; apply Z.leb_le; nia|by apply negb_true_iff, Z.eqb_neq; lia]).
  f_equal. unfold is_i16 in Hq. unfold CLAMP_S16. if_false (lia). if_false (lia). by apply i16_id.
Qed.

Lemma volume_loop_spec v m n i buf : 0 <= v <= m -> 0 < m <= 100 -> (2 * (i + n) <= length buf)%nat ->
  exists buf', volume_loop buf v m n i = Some buf' /\ rewritten buf 0 (scaled buf v m) i (i + n) buf'.
Proof.
  intros Hv Hm. revert buf i. induction n as [|n IH]; intros buf i Hd; cbn [volume_loop].
  { exists buf. split; [done|]. rewrite Nat.add_0_r. apply rewritten_nil. }
  destruct (get16_some buf (2 * i)) as (s & Hgs & Hs); [lia|]. rewrite Hgs.
  destruct (scale_sample_spec s v m Hs Hv Hm) as [-> Hr16].
  destruct (put16_wrote buf (2 * i) (Z.quot (s * v) m)) as (d1 & Hput & Hw); [done|lia|]. rewrite Hput.
  destruct (IH d1 (S i)) as (d2 & Hloop & Hr); [rewrite (wr_length _ _ _ _ Hw); lia|]. exists d2. split; [done|].
  eapply rewritten_step; [done|by unfold scaled; rewrite Hgs|lia|]. replace (i + S n)%nat with (S i + n)%nat by lia.
  eapply rewritten_ext; [|exact Hr]. intros j Hj. unfold scaled. by rewrite (wrote_other _ _ _ _ (2 * j)%nat Hw) by lia.
Qed.

(** ** Resampling *)

Section Resample.
Context (in_frames channels step : Z) (inp : nat).
Hypothesis Hchannels : 1 <= channels.
Hypothesis Hframes : 0 < in_frames < 2 ^ 15.
Hypothesis Hsize : in_frames * channels < 2 ^ 31.
Hypothesis Hstep : 0 < step < 2 ^ 31.

(** The input frame at the [i]-th output sample. *)
Definition frame_of (i : nat) : Z := Z.shiftr (Z.of_nat i * step) 16.

(** The bytes of the input. *)
Definition input_end : nat := (inp + 2 * Z.to_nat (in_frames * channels))%nat.

(** Rounds of the loop from round [j] on, at most [n]. *)
Fixpoint rounds_from (n j : nat) : nat :=
  match n with O => O | S n => if in_frames <=? frame_of (S j) then 1 else S (rounds_from n (S j)) end.

Definition interp (m : list Z) (i : nat) : option Z := interpolate m inp in_frames channels (Z.of_nat i * step).

Lemma frame_of_nonneg i : 0 <= frame_of i.
Proof. unfold frame_of. apply Z.shiftr_nonneg. lia. Qed.

Lemma frame_of_pos i : frame_of i < in_frames -> 0 <= Z.of_nat i * step < in_frames * 2 ^ 16.
Proof. unfold frame_of. rewrite Z.shiftr_div_pow2 by lia. intros H. split; [lia|].
  destruct (Z.lt_ge_cases (Z.of_nat i * step) (in_frames * 2 ^ 16)) as [|Hge]; [done|].
  assert (in_frames <= Z.of_nat i * step / 2 ^ 16) by (apply Z.div_le_lower_bound; lia). lia.
Qed.

Lemma next_pos i : frame_of i < in_frames -> u32 (Z.of_nat i * step + step) = Z.of_nat (S i) * step.
Proof. intros H. apply frame_of_pos in H. rewrite u32_id; [lia|]. unfold is_u32. nia. Qed.

(** A frame that exists is read inside the input, at its own bytes or later. *)
Lemma frame_start idx : 0 <= idx < in_frames ->
  Z.of_nat (inp + 2 * Z.to_nat (u32 (idx * channels))) = Z.of_nat inp + 2 * (idx * channels).
Proof. intros H. rewrite u32_id by (unfold is_u32; nia). lia. Qed.

Lemma frame_sum_ext m m' frame n c :
  (forall c', (c <= c' < c + n)%nat -> get16 m' (frame + 2 * c') = get16 m (frame + 2 * c')) ->
  frame_sum m' frame n c = frame_sum m frame n c.
Proof.
  revert c. induction n as [|n IH]; intros c H; [done|]. cbn [frame_sum]. rewrite H by lia. rewrite IH; [done|].
  intros c' Hc. apply H. lia.
Qed.

Lemma frame_sum_some m frame n c : (frame + 2 * (c + n) <= length m)%nat ->
  exists sum, frame_sum m frame n c = Some sum /\ - 2 ^ 15 * Z.of_nat n <= sum <= (2 ^ 15 - 1) * Z.of_nat n.
Proof.
  revert c. induction n as [|n IH]; intros c H; cbn [frame_sum]; [by exists 0|].
  destruct (get16_some m (frame + 2 * c)) as (x & -> & Hx); [lia|]. destruct (IH (S c)) as (y & -> & Hy); [lia|].
  exists (x + y). split; [done|]. unfold is_i16 in Hx. lia.
Qed.

Lemma frame_mono_ext m m' idx : 0 <= idx ->
  (forall q, Z.of_nat inp + 2 * idx <= Z.of_nat q -> (q + 2 <= input_end)%nat -> get16 m' q = get16 m q) ->
  frame_mono m' inp in_frames channels idx = frame_mono m inp in_frames channels idx.
Proof.
  intros Hi H. unfold frame_mono. destruct (Z.ltb_spec idx in_frames); [|done]. pose proof (frame_start idx ltac:(lia)).
  rewrite (frame_sum_ext m m'); [done|]. intros c Hc. apply H; [nia|]. unfold input_end. nia.
Qed.

Lemma frame_mono_some m idx : 0 <= idx -> (input_end <= length m)%nat ->
  exists v, frame_mono m inp in_frames channels idx = Some v /\ is_i16 v.
Proof.
  intros Hi Hm. unfold frame_mono. destruct (Z.ltb_spec idx in_frames); [|by exists 0]. pose proof (frame_start idx ltac:(lia)).
  destruct (frame_sum_some m (inp + 2 * Z.to_nat (u32 (idx * channels))) (Z.to_nat channels) 0) as (sum & -> & Hs).
  { unfold input_end in Hm. nia. }
  eexists. split; [reflexivity|]. unfold is_i16. rewrite Z2Nat.id in Hs by lia.
  pose proof (Z.quot_rem' sum channels). pose proof (Z.rem_bound_abs sum channels ltac:(lia)).
  pose proof (Z.rem_sign_mul sum channels ltac:(lia)). nia.
Qed.

Lemma interp_unfold m i : frame_of i < in_frames -> interp m i =
  match frame_mono m inp in_frames channels (frame_of i), frame_mono m inp in_frames channels (frame_of i + 1) with
  | Some s0, Some s1 => let frac := (Z.of_nat i * step) mod 65536 in
      Some (clip16_from_i64 (Z.shiftr (s0 * (65536 - frac) + s1 * frac) 16))
  | _, _ => None
  end.
Proof.
  intros H. pose proof (frame_of_nonneg i). unfold interp, interpolate. fold (frame_of i).
  rewrite u32_id by (unfold is_u32; lia). by rewrite (Z.land_ones _ 16) by lia.
Qed.

Lemma interp_ext m m' i : frame_of i < in_frames ->
  (forall q, Z.of_nat inp + 2 * frame_of i <= Z.of_nat q -> (q + 2 <= input_end)%nat -> get16 m' q = get16 m q) ->
  interp m' i = interp m i.
Proof.
  intros Hi H. pose proof (frame_of_nonneg i). rewrite !interp_unfold by done.
  rewrite !(frame_mono_ext m m') by (try lia; intros q Hq ?; apply H; lia). done.
Qed.

(** The sample lies between the two frames around its position. *)
Lemma lerp_between s0 s1 frac : is_i16 s0 -> is_i16 s1 -> 0 <= frac < 65536 ->
  Z.min s0 s1 <= Z.shiftr (s0 * (65536 - frac) + s1 * frac) 16 <= Z.max s0 s1.
Proof.
  intros H0 H1 Hf. rewrite Z.shiftr_div_pow2 by lia. split.
  - apply Z.div_le_lower_bound; [lia|]. nia.
  - apply Z.div_le_upper_bound; [lia|]. nia.
Qed.

Lemma interp_some m i : (input_end <= length m)%nat -> frame_of i < in_frames ->
  exists v s0 s1, interp m i = Some v /\ frame_mono m inp in_frames channels (frame_of i) = Some s0 /\
    frame_mono m inp in_frames channels (frame_of i + 1) = Some s1 /\ is_i16 v /\ Z.min s0 s1 <= v <= Z.max s0 s1.
Proof.
  intros Hm Hi. pose proof (frame_of_nonneg i). rewrite interp_unfold by done.
  destruct (frame_mono_some m (frame_of i)) as (s0 & -> & H0); [lia|done|].
  destruct (frame_mono_some m (frame_of i + 1)) as (s1 & -> & H1); [lia|done|]. cbv zeta.
  pose proof (Z.mod_pos_bound (Z.of_nat i * step) 65536 ltac:(lia)) as Hf.
  pose proof (lerp_between s0 s1 _ H0 H1 Hf) as Hb. set (v := Z.shiftr _ 16) in *. unfold is_i16 in *.
  assert (Hv : clip16_from_i64 v = v).
  { unfold clip16_from_i64. if_false (lia). if_false (lia). apply i16_id. unfold is_i16. lia. }
  exists v, s0, s1. rewrite Hv. split_and!; [done|done|done|lia|lia|lia|lia].
Qed.

(** The loop, when its writes never reach what it has yet to read. *)
Lemma resample_loop_spec m0 outp n j m : frame_of j < in_frames ->
  (input_end <= length m0)%nat ->
  (forall i m1 v m2 i', (i' < i)%nat -> frame_of i < in_frames -> wrote m1 (outp + 2 * i') v m2 -> interp m2 i = interp m1 i) ->
  (forall i, (j <= i)%nat -> frame_of i < in_frames -> interp m i = interp m0 i) ->
  (forall i, frame_of i < in_frames -> (S (outp + 2 * i) < length m)%nat) ->
  exists m', resample_loop inp outp in_frames channels step n j (Z.of_nat j * step) m = Some m' /\
    rewritten m outp (interp m0) j (j + rounds_from n j) m'.
Proof.
  intros Hj Hm0 Hind. revert j m Hj. induction n as [|n IH]; intros j m Hj Hsame Hroom; cbn [resample_loop rounds_from].
  { exists m. split; [done|]. rewrite Nat.add_0_r. apply rewritten_nil. }
  fold (interp m j). rewrite (Hsame j) by (lia || done).
  destruct (interp_some m0 j Hm0 Hj) as (v & _ & _ & Hv & _ & _ & Hv16 & _). rewrite Hv.
  destruct (put16_wrote m (outp + 2 * j) v) as (m1 & -> & Hw); [done|by apply Hroom|]. rewrite next_pos by done. fold (frame_of (S j)).
  destruct (Z.leb_spec in_frames (frame_of (S j))) as [Hend|Hmore].
  - exists m1. split; [done|]. eapply rewritten_step; [done|done|lia|]. rewrite Nat.add_1_r. apply rewritten_nil.
  - destruct (IH (S j) m1) as (m' & Hloop & Hr); [done| | |].
    + intros i Hi Hfi. rewrite (Hind i m v m1 j) by (lia || done). apply Hsame; [lia|done].
    + intros i Hi. rewrite (wr_length _ _ _ _ Hw). by apply Hroom.
    + exists m'. split; [done|]. eapply rewritten_step; [done|done|lia|].
      by replace (j + S (rounds_from n (S j)))%nat with (S j + rounds_from n (S j))%nat by lia.
Qed.

(** Writes that cannot disturb: in place when each output sample uses up at least
    one input frame, or anywhere beyond the input. *)
Lemma in_place_independent i m1 v m2 i' : 65536 <= step ->
  (i' < i)%nat -> frame_of i < in_frames -> wrote m1 (inp + 2 * i') v m2 -> interp m2 i = interp m1 i.
Proof.
  intros Hs Hi Hf Hw. apply interp_ext; [done|]. intros q Hq _. eapply wrote_other; [exact Hw|].
  assert (Z.of_nat i <= frame_of i); [|lia]. unfold frame_of. rewrite Z.shiftr_div_pow2 by lia.
  apply Z.div_le_lower_bound; nia.
Qed.

Lemma apart_independent outp i m1 v m2 i' : (input_end <= outp)%nat ->
  frame_of i < in_frames -> wrote m1 (outp + 2 * i') v m2 -> interp m2 i = interp m1 i.
Proof. intros Ho Hf Hw. apply interp_ext; [done|]. intros q _ Hq. eapply wrote_other; [exact Hw|]. lia. Qed.

Lemma rounds_all n j : (forall i, (j < i < j + n)%nat -> frame_of i < in_frames) -> rounds_from n j = n.
Proof.
  revert j. induction n as [|n IH]; intros j H; [done|]. cbn [rounds_from]. destruct (Z.leb_spec in_frames (frame_of (S j))) as [Hge|_].
  - destruct n; [done|]. specialize (H (S j)). lia.
  - f_equal. apply IH. intros i Hi. apply H. lia.
Qed.

Lemma frame_of_mono i j : (i <= j)%nat -> frame_of i <= frame_of j.
Proof. intros H. unfold frame_of. rewrite !Z.shiftr_div_pow2 by lia. apply Z.div_le_mono; [lia|]. nia. Qed.
End Resample.

(** ** A whole call *)

Section Call.
Context (in_frames in_rate channels n : Z).
Hypothesis Hrate : OUT_SR_16K <= in_rate < 2 ^ 28.
Hypothesis Hch : 1 <= channels.
Hypothesis Hfr : 0 < in_frames < 2 ^ 15.
Hypothesis Hsz : in_frames * channels < 2 ^ 31.
Hypothesis Hcount : frames_after OUT_SR_16K in_frames in_rate = Some n.
Hypothesis Hn : 0 < n.
(** The frame count is right up to rounding. *)
Hypothesis Hexact : (n - 1) * in_rate < OUT_SR_16K * in_frames.

Let step := step_of OUT_SR_16K in_rate.

Lemma step_value : step = Z.shiftl in_rate 16 / OUT_SR_16K /\ 65536 <= step < 2 ^ 31.
Proof.
  unfold step, step_of, OUT_SR_16K in *. rewrite Z.shiftl_mul_pow2 by lia.
  assert (65536 <= in_rate * 2 ^ 16 / 16000 < 2 ^ 31); [|rewrite u32_id by (unfold is_u32; lia); lia].
  split; [apply Z.div_le_lower_bound; lia|apply Z.div_lt_upper_bound; lia].
Qed.

Lemma frame_exists i : Z.of_nat i < n -> frame_of step i < in_frames.
Proof.
  intros Hi. destruct step_value as [-> _]. unfold frame_of, OUT_SR_16K in *. rewrite Z.shiftr_div_pow2, Z.shiftl_mul_pow2 by lia.
  apply Z.div_lt_upper_bound; [lia|]. pose proof (Z.mul_div_le (in_rate * 2 ^ 16) 16000 ltac:(lia)). nia.
Qed.

Lemma frame_ahead i : Z.of_nat i <= frame_of step i.
Proof.
  destruct step_value. unfold frame_of. rewrite Z.shiftr_div_pow2 by lia. apply Z.div_le_lower_bound; nia.
Qed.

Lemma resample_run (m : list Z) (outp : nat) : (input_end in_frames channels 0 <= length m)%nat ->
  (outp = 0 \/ input_end in_frames channels 0 <= outp)%nat -> (outp + 2 * Z.to_nat in_frames <= length m)%nat ->
  exists m', resample_to_16k_fixed 0 in_frames in_rate channels outp m = Some (0, n, m') /\
    rewritten m outp (interp in_frames channels step 0 m) 0 (Z.to_nat n) m'.
Proof.
  intros Hm Ho Hspace. pose proof step_value as [_ Hstep]. unfold resample_to_16k_fixed, resample_fixed. unfold OUT_SR_16K in Hrate.
  if_false (apply orb_false_iff; split; [apply orb_false_iff; split|]; lia). rewrite Hcount. if_false (lia). fold step.
  destruct (resample_loop_spec in_frames channels step 0 Hch Hfr Hsz ltac:(lia) m outp (Z.to_nat n) 0 m) as (m' & Hl & Hr).
  - apply frame_exists. lia.
  - done.
  - intros i m1 v m2 i' Hi Hf Hw. destruct Ho as [->|Ho]; [|eapply (apart_independent in_frames channels step 0); [lia..|exact Ho|exact Hf|exact Hw]].
    eapply (in_place_independent in_frames channels step 0); [..|exact Hi|exact Hf|exact Hw]; lia.
  - done.
  - intros i Hi. pose proof (frame_ahead i). lia.
  - change (Z.of_nat 0 * step) with 0 in Hl. rewrite Hl. exists m'. split; [done|].
    rewrite rounds_all in Hr; [done|]. intros i Hi. apply frame_exists. lia.
Qed.
End Call.

(** C40. Resampling a buffer in place, as the player does, is the same as
    resampling it into a buffer of its own, as long as the input is not slower
    than the 16 kHz output: both give, sample by sample, the interpolation of the
    original frames, a value between the two frames around its position; the rest
    of the buffer is as it was. The number of samples, computed in floating point,
    is the exact one up to rounding. *)
Theorem resample_in_place m room in_frames in_rate channels :
  OUT_SR_16K <= in_rate < 2 ^ 28 -> 1 <= channels -> 0 < in_frames < 2 ^ 15 -> in_frames * channels < 2 ^ 31 ->
  2 * (in_frames * channels) <= Z.of_nat (length m) -> 2 * in_frames <= Z.of_nat (length room) ->
  exists n m' out, 0 <= n <= in_frames /\ (n - 1) * in_rate < OUT_SR_16K * in_frames /\
    resample_to_16k_fixed 0 in_frames in_rate channels 0 m = Some (0, n, m') /\
    resample_to_16k_fixed 0 in_frames in_rate channels (length m) (m ++ room) = Some (0, n, m ++ out) /\
    (forall i, Z.of_nat i < n -> get16 m' (2 * i) = get16 out (2 * i) /\
      exists v s0 s1 f, get16 m' (2 * i) = Some v /\ Z.min s0 s1 <= v <= Z.max s0 s1 /\
        f = Z.of_nat i * step_of OUT_SR_16K in_rate / 65536 /\
        frame_mono m 0 in_frames channels f = Some s0 /\ frame_mono m 0 in_frames channels (f + 1) = Some s1) /\
    (forall q, 2 * n <= Z.of_nat q -> m' !! q = m !! q /\ out !! q = room !! q).
Proof.
  intros Hrate Hch Hfr Hsz Hm Hroom. destruct (frames_after_count in_frames in_rate) as (n & Hcount & Hn0 & Hexact); [done..|].
  destruct (Z.eq_dec n 0) as [->|Hn1].
  { exists 0, m, room. split; [done|]. split; [done|]. unfold resample_to_16k_fixed, resample_fixed. rewrite Hcount.
    if_false (apply orb_false_iff; split; [apply orb_false_iff; split|]; unfold OUT_SR_16K in *; lia). cbn [Z.eqb].
    split_and!; [done|done|intros; lia|]. by split. }
  assert (Hn : 0 < n) by lia. set (step := step_of OUT_SR_16K in_rate).
  assert (Hend : (input_end in_frames channels 0 <= length m)%nat) by (unfold input_end; lia).
  destruct (resample_run in_frames in_rate channels n Hrate Hch Hfr Hsz Hcount Hn Hexact m 0) as (m' & Hin & Hr);
    [done|by left|nia|].
  destruct (resample_run in_frames in_rate channels n Hrate Hch Hfr Hsz Hcount Hn Hexact (m ++ room) (length m)) as (m2 & Hout & Hr2);
    [rewrite length_app; lia|by right|rewrite length_app; lia|]. fold step in Hr, Hr2.
  assert (Hm2 : m2 = m ++ drop (length m) m2).
  { rewrite <- (take_drop (length m) m2) at 1. f_equal. apply list_eq. intros q.
    destruct (decide (q < length m)%nat) as [Hq|Hq].
    - rewrite lookup_take_lt by lia. rewrite (rw_out _ _ _ _ _ _ Hr2) by lia. by rewrite lookup_app_l.
    - rewrite lookup_take_ge, lookup_ge_None_2 by lia. done. }
  assert (Hsame : forall q, (q < length m)%nat -> get16 (m ++ room) q = get16 m q \/ (S q = length m)%nat).
  { intros q Hq. destruct (decide (S q = length m)) as [|Hne]; [by right|left]. unfold get16. by rewrite !lookup_app_l by lia. }
  exists n, m', (drop (length m) m2). split; [done|]. split; [done|]. split; [exact Hin|]. split; [by rewrite Hout, <- Hm2|]. split.
  - intros i Hi. pose proof (frame_exists in_frames in_rate n Hrate Hexact i Hi) as Hf. fold step in Hf.
    destruct (step_value in_rate Hrate) as [_ Hst]. fold step in Hst.
    assert (Heq : interp in_frames channels step 0 (m ++ room) i = interp in_frames channels step 0 m i).
    { apply interp_ext; [done..|lia|done|]. intros q _ Hq. destruct (Hsame q) as [|]; [lia|done|lia]. }
    pose proof (rw_in _ _ _ _ _ _ Hr i ltac:(lia)) as Hri. change (0 + 2 * i)%nat with (2 * i)%nat in Hri. rewrite Hri. split.
    + rewrite <- Heq, <- (rw_in _ _ _ _ _ _ Hr2 i) by lia. unfold get16. rewrite !lookup_drop. by rewrite Nat.add_succ_r.
    + destruct (interp_some in_frames channels step 0 Hch Hfr Hsz ltac:(lia) m i) as (v & s0 & s1 & Hv & H0 & H1 & _ & Hb);
        [done|done|]. unfold frame_of in H0, H1. rewrite Z.shiftr_div_pow2 in H0, H1 by lia. by exists v, s0, s1, (Z.of_nat i * step / 65536).
  - intros q Hq. rewrite (rw_out _ _ _ _ _ _ Hr) by lia. split; [done|]. rewrite lookup_drop, (rw_out _ _ _ _ _ _ Hr2) by lia.
    by rewrite lookup_app_r, Nat.add_comm, Nat.add_sub by lia.
Qed.

(** Nine stereo frames at 44.1 kHz: three output samples. *)
Definition bytes16 (l : list Z) : list Z := flat_map (fun v => [v mod 256; (v / 256) mod 256]) l.
Definition stereo : list Z := bytes16 (flat_map (fun i => [100 * i; -50 * i]) [1; 2; 3; 4; 5; 6; 7; 8; 9]).

Lemma resample_in_place_witness : exists n m' out, 0 <= n <= 9 /\ (n - 1) * 44100 < OUT_SR_16K * 9 /\
  resample_to_16k_fixed 0 9 44100 2 0 stereo = Some (0, n, m') /\
  resample_to_16k_fixed 0 9 44100 2 (length stereo) (stereo ++ replicate 20 0) = Some (0, n, stereo ++ out) /\
  (forall i, Z.of_nat i < n -> get16 m' (2 * i) = get16 out (2 * i) /\
    exists v s0 s1 f, get16 m' (2 * i) = Some v /\ Z.min s0 s1 <= v <= Z.max s0 s1 /\
      f = Z.of_nat i * step_of OUT_SR_16K 44100 / 65536 /\
      frame_mono stereo 0 9 2 f = Some s0 /\ frame_mono stereo 0 9 2 (f + 1) = Some s1) /\
  (forall q, 2 * n <= Z.of_nat q -> m' !! q = stereo !! q /\ out !! q = replicate 20 0 !! q).
Proof.
  apply resample_in_place; [split; [discriminate|reflexivity]|discriminate|split; reflexivity|reflexivity|discriminate|discriminate].
Defined.

(** At 8 kHz each input frame gives two samples, so writing overtakes reading: in
    place, the call spreads one early value over the whole buffer. *)
Example upsampling_in_place_corrupts :
  let m := bytes16 [100; 200; 300; 400; 0; 0; 0; 0] in
  let samples o r := match r with Some (_, _, m) => map (fun i => get16 m (o + 2 * i)) (seq 0 8) | None => [] end in
  samples 0%nat (resample_to_16k_fixed 0 4 8000 1 0 m) =
    map Some [100; 150; 150; 150; 150; 150; 150; 75] /\
  samples (length m) (resample_to_16k_fixed 0 4 8000 1 (length m) (m ++ replicate 16 0)) =
    map Some [100; 150; 200; 250; 300; 350; 400; 200].
Proof. by vm_compute. Qed.

(** Upsampling can also leave the buffer, here twice the size of the input as the
    player's is: eight 8-bit samples at 8 kHz are sixteen samples of two bytes. *)
Example upsampling_overflows :
  is_Some (ai_player_resample_process (replicate 16 0) (mk_output 8000 16 1 4 8) 8) /\
  ai_player_resample_process (replicate 16 0) (mk_output 8000 8 1 8 8) 8 = None.
Proof. split; [eexists; vm_compute; reflexivity|by vm_compute]. Qed.
