(* ===== verification/AudioPlayer.v ===== *)
(** The player service of src/miscs/audio_player/src/svc_ai_player.c, with the
    types of svc_ai_player.h, ai_player.h and svc_ai_player_ctx.h (full build, not
    AI_PLAYER_LITE; mixing, resampling, digital volume and the Ogg/Opus decoder
    enabled).

    One thread owns the players. It takes commands from a queue of two, and when
    the queue is empty and something plays it moves one chunk of audio from a data
    source through a decoder to the consumer. [player_thread_step] is one round of
    its loop; a caller that waits for the thread lets it run. *)
From S2P Require Import Prelude.
From S2P Require Import World.
From S2P Require Import TmHost.
From S2P Require Import AudioDsp.

#[local] Open Scope Z_scope.

(** ** Types *)

Inductive AI_PLAYER_STATE_T := AI_PLAYER_STOPPED | AI_PLAYER_PLAYING | AI_PLAYER_PAUSED.
Inductive AI_PLAYER_MODE_E := AI_PLAYER_MODE_FOREGROUND | AI_PLAYER_MODE_BACKGROUND.
Inductive AI_PLAYER_SRC_E := AI_PLAYER_SRC_MEM | AI_PLAYER_SRC_FILE | AI_PLAYER_SRC_URL.
Inductive AI_AUDIO_CODEC_E :=
| AI_AUDIO_CODEC_MP3 | AI_AUDIO_CODEC_WAV | AI_AUDIO_CODEC_SPEEX | AI_AUDIO_CODEC_OPUS | AI_AUDIO_CODEC_OGGOPUS.

#[export] Instance player_state_dec : EqDecision AI_PLAYER_STATE_T.
Proof. solve_decision. Defined.
#[export] Instance player_mode_dec : EqDecision AI_PLAYER_MODE_E.
Proof. solve_decision. Defined.
#[export] Instance player_src_dec : EqDecision AI_PLAYER_SRC_E.
Proof. solve_decision. Defined.
#[export] Instance audio_codec_dec : EqDecision AI_AUDIO_CODEC_E.
Proof. solve_decision. Defined.

Definition AI_PLAYER_FRAMEBUF_SIZE : Z := 4096.
Definition AI_PLAYER_DECODEBUF_SIZE : Z := 9600.
Definition PLAYER_IDLE_TIMEOUT_MS : Z := 4294967295.
Definition PLAYER_BUSY_TIMEOUT_MS : Z := 1.
Definition PLAYER_MAX_VOLUME : Z := 100.
Definition PLAYER_QUEUE_LEN : nat := 2.

(** [AI_PLAYER_CMD_E] with the parameters of the start command. *)
Inductive player_cmd :=
| PLAYER_CMD_START (src : AI_PLAYER_SRC_E) (value : option string) (codec : AI_AUDIO_CODEC_E)
| PLAYER_CMD_STOP | PLAYER_CMD_PAUSE | PLAYER_CMD_RESUME | PLAYER_CMD_EXIT | PLAYER_CMD_SERVICE_DEINIT.

Record AI_PLAYER_MSG_T := mk_pmsg { pmsg_mode : AI_PLAYER_MODE_E; pmsg_cmd : player_cmd }.

(** A player; its mode is its place in the service's table. The playlist pointer
    and its callback are set together. *)
Record AI_PLAYER_T := mk_player {
  ap_state : AI_PLAYER_STATE_T; ap_framebuf : list Z; ap_offset : Z; ap_decode_buf : list Z; ap_decode_size : Z;
  ap_volume : Z; ap_mute : bool; ap_has_pending_output : bool; ap_playlist : bool }.

Record AI_PLAYER_CFG_T := mk_pcfg { pc_sample : Z; pc_datebits : Z; pc_channel : Z }.

Record AI_PLAYER_CTX_T := mk_pctx {
  px_queue : option (list AI_PLAYER_MSG_T);   (* None: not created *)
  px_running : bool;                          (* the thread's state is THREAD_STATE_RUNNING *)
  px_thread_rt : OPERATE_RET;                 (* the variable rt of the thread function *)
  px_is_playing : bool; px_msg_timeout : Z;
  px_fg : option AI_PLAYER_T; px_bg : option AI_PLAYER_T;   (* player[AI_PLAYER_MODE_MAX] *)
  px_active_player : option AI_PLAYER_MODE_E;
  px_cfg : AI_PLAYER_CFG_T; px_volume : Z; px_mute : bool; px_mixer_mode : bool; px_decoder_mode : bool;
  px_mixer_buf : option (list Z); px_mixer_offset : Z; px_mixer_flag : Z }.

Definition player_ctx_zero : AI_PLAYER_CTX_T :=
  mk_pctx None false 0 false 0 None None None (mk_pcfg 0 0 0) 0 false false false None 0 0.

Definition px_player (m : AI_PLAYER_MODE_E) (x : AI_PLAYER_CTX_T) : option AI_PLAYER_T :=
  match m with AI_PLAYER_MODE_FOREGROUND => px_fg x | AI_PLAYER_MODE_BACKGROUND => px_bg x end.

Definition px_set_queue q x := mk_pctx q (px_running x) (px_thread_rt x) (px_is_playing x) (px_msg_timeout x) (px_fg x) (px_bg x)
  (px_active_player x) (px_cfg x) (px_volume x) (px_mute x) (px_mixer_mode x) (px_decoder_mode x) (px_mixer_buf x)
  (px_mixer_offset x) (px_mixer_flag x).
Definition px_set_thread running rt x := mk_pctx (px_queue x) running rt (px_is_playing x) (px_msg_timeout x) (px_fg x) (px_bg x)
  (px_active_player x) (px_cfg x) (px_volume x) (px_mute x) (px_mixer_mode x) (px_decoder_mode x) (px_mixer_buf x)
  (px_mixer_offset x) (px_mixer_flag x).
Definition px_set_active active playing timeout x := mk_pctx (px_queue x) (px_running x) (px_thread_rt x) playing timeout
  (px_fg x) (px_bg x) active (px_cfg x) (px_volume x) (px_mute x) (px_mixer_mode x) (px_decoder_mode x) (px_mixer_buf x)
  (px_mixer_offset x) (px_mixer_flag x).
Definition px_set_players fg bg x := mk_pctx (px_queue x) (px_running x) (px_thread_rt x) (px_is_playing x) (px_msg_timeout x)
  fg bg (px_active_player x) (px_cfg x) (px_volume x) (px_mute x) (px_mixer_mode x) (px_decoder_mode x) (px_mixer_buf x)
  (px_mixer_offset x) (px_mixer_flag x).
Definition px_set_levels volume mute x := mk_pctx (px_queue x) (px_running x) (px_thread_rt x) (px_is_playing x)
  (px_msg_timeout x) (px_fg x) (px_bg x) (px_active_player x) (px_cfg x) volume mute (px_mixer_mode x) (px_decoder_mode x)
  (px_mixer_buf x) (px_mixer_offset x) (px_mixer_flag x).
Definition px_set_mixer buf offset flag x := mk_pctx (px_queue x) (px_running x) (px_thread_rt x) (px_is_playing x)
  (px_msg_timeout x) (px_fg x) (px_bg x) (px_active_player x) (px_cfg x) (px_volume x) (px_mute x) (px_mixer_mode x)
  (px_decoder_mode x) buf offset flag.
Definition px_set_modes mixer decoder x := mk_pctx (px_queue x) (px_running x) (px_thread_rt x) (px_is_playing x)
  (px_msg_timeout x) (px_fg x) (px_bg x) (px_active_player x) (px_cfg x) (px_volume x) (px_mute x) mixer decoder (px_mixer_buf x)
  (px_mixer_offset x) (px_mixer_flag x).

Definition px_set_player (m : AI_PLAYER_MODE_E) (p : option AI_PLAYER_T) (x : AI_PLAYER_CTX_T) : AI_PLAYER_CTX_T :=
  match m with
  | AI_PLAYER_MODE_FOREGROUND => px_set_players p (px_bg x) x
  | AI_PLAYER_MODE_BACKGROUND => px_set_players (px_fg x) p x
  end.

Definition ap_set_state st p := mk_player st (ap_framebuf p) (ap_offset p) (ap_decode_buf p) (ap_decode_size p) (ap_volume p)
  (ap_mute p) (ap_has_pending_output p) (ap_playlist p).
(** Stopping and starting also clear the offset and the pending flag. *)
Definition ap_restart st p := mk_player st (ap_framebuf p) 0 (ap_decode_buf p) (ap_decode_size p) (ap_volume p)
  (ap_mute p) false (ap_playlist p).
Definition ap_set_frame buf offset p := mk_player (ap_state p) buf offset (ap_decode_buf p) (ap_decode_size p) (ap_volume p)
  (ap_mute p) (ap_has_pending_output p) (ap_playlist p).
Definition ap_set_decode buf size p := mk_player (ap_state p) (ap_framebuf p) (ap_offset p) buf size (ap_volume p)
  (ap_mute p) (ap_has_pending_output p) (ap_playlist p).
Definition ap_set_pending b p := mk_player (ap_state p) (ap_framebuf p) (ap_offset p) (ap_decode_buf p) (ap_decode_size p)
  (ap_volume p) (ap_mute p) b (ap_playlist p).
Definition ap_set_levels volume mute p := mk_player (ap_state p) (ap_framebuf p) (ap_offset p) (ap_decode_buf p)
  (ap_decode_size p) volume mute (ap_has_pending_output p) (ap_playlist p).
Definition ap_set_playlist b p := mk_player (ap_state p) (ap_framebuf p) (ap_offset p) (ap_decode_buf p) (ap_decode_size p)
  (ap_volume p) (ap_mute p) (ap_has_pending_output p) b.

(** ** The rest of the program

    Data sources and decoders of one player each, the consumer, the event service;
    and the playlist callback, which runs in the player thread. *)

Class AudioDev (W : Type) := {
  ai_player_datasink_start : AI_PLAYER_MODE_E -> AI_PLAYER_SRC_E -> option string -> C W OPERATE_RET;
  ai_player_datasink_stop : AI_PLAYER_MODE_E -> C W unit;
  ai_player_datasink_deinit : AI_PLAYER_MODE_E -> C W unit;
  ai_player_datasink_read : AI_PLAYER_MODE_E -> Z -> C W (OPERATE_RET * list Z);      (* the bytes read *)
  ai_player_datasink_get_progress : AI_PLAYER_MODE_E -> C W (OPERATE_RET * Z * Z);
  ai_player_datasink_feed : AI_PLAYER_MODE_E -> option (list Z) -> C W OPERATE_RET;   (* None: end of stream *)
  ai_player_decoder_start : AI_PLAYER_MODE_E -> AI_AUDIO_CODEC_E -> C W OPERATE_RET;
  ai_player_decoder_stop : AI_PLAYER_MODE_E -> C W unit;
  ai_player_decoder_get_codec : AI_PLAYER_MODE_E -> C W AI_AUDIO_CODEC_E;
  ai_player_decoder_deinit : AI_PLAYER_MODE_E -> C W unit;
  (* input, output buffer; result, new contents of the output buffer, description *)
  ai_player_decoder_process : AI_PLAYER_MODE_E -> list Z -> list Z -> C W (Z * list Z * DECODER_OUTPUT_T);
  consumer_open : C W unit;
  consumer_close : C W unit;
  consumer_start : option AI_PLAYER_MODE_E -> C W unit;
  consumer_stop : option AI_PLAYER_MODE_E -> C W unit;
  consumer_write : AI_PLAYER_MODE_E -> list Z -> C W unit;
  consumer_set_volume : Z -> C W unit;
  publish_player_state : AI_PLAYER_MODE_E -> AI_PLAYER_STATE_T -> C W unit;           (* EVENT_AI_PLAYER_STATE *)
  player_malloc : C W bool;
  player_queue_create : C W OPERATE_RET;
  player_queue_full : OPERATE_RET;                                                    (* tal_queue_post on a full queue *)
  player_thread_create : C W OPERATE_RET;
  (* rounds of the player thread within the ten seconds that a caller waits *)
  thread_rounds : C W nat;
  (** what the laws talk about *)
  ad_ok : W -> Prop;
  ad_output : W -> list Z      (* the bytes written to the consumer *) }.

Section Service.
Context {X W : Type} `{AD : AudioDev W}.
Abbreviation M := (C (AI_PLAYER_CTX_T * (X * W))).

Definition on_audio {A} (m : C W A) : M A := on_host (on_host m).

Definition find_player (m : AI_PLAYER_MODE_E) : M (option AI_PLAYER_T) := let* x := get_ctx in cret (px_player m x).
(** Following the pointer of a player: undefined once it is freed. *)
Definition get_player (m : AI_PLAYER_MODE_E) : M AI_PLAYER_T := let* x := get_ctx in cpure (px_player m x).
Definition mod_player (m : AI_PLAYER_MODE_E) (f : AI_PLAYER_T -> AI_PLAYER_T) : M unit :=
  let* p := get_player m in mod_ctx (px_set_player m (Some (f p))).

(** tal_queue_post without waiting. *)
Definition player_post (m : AI_PLAYER_MODE_E) (cmd : player_cmd) : M OPERATE_RET :=
  let* x := get_ctx in
  let* q := cpure (px_queue x) in
  if (length q <? PLAYER_QUEUE_LEN)%nat
  then let* _ := mod_ctx (px_set_queue (Some (q ++ [mk_pmsg m cmd])%list)) in cret OPRT_OK
  else cret player_queue_full.
End Service.

Section Start.
Context {X W : Type} `{AD : AudioDev W}.
Abbreviation M := (C (AI_PLAYER_CTX_T * (X * W))).

(** [tuya_ai_player_start] up to the wait: everything, for a source that is not
    memory. A NULL handle is followed for the log although it fails the check. *)
Definition player_start_post (handle : option AI_PLAYER_MODE_E) (src : AI_PLAYER_SRC_E) (value : option string)
    (codec : AI_AUDIO_CODEC_E) : M OPERATE_RET :=
  let* m := cpure handle in
  let* p := get_player m in
  if negb (bool_decide (ap_state p = AI_PLAYER_STOPPED)) then cret OPRT_INVALID_PARM
  else if negb (bool_decide (src = AI_PLAYER_SRC_MEM)) && match value with Some v => String.eqb v "" | None => true end
  then cret OPRT_INVALID_PARM
  else
    let* value := (match value with
      | Some v => let* ok := on_audio player_malloc in cret (if ok then Some v else None)
      | None => cret None
      end) in
    player_post m (PLAYER_CMD_START src value codec).
End Start.

(** What the thread calls when a player with a playlist stops. *)
Class PlaylistHook (X W : Type) := {
  playlist_cb : AI_PLAYER_MODE_E -> AI_PLAYER_STATE_T -> C (AI_PLAYER_CTX_T * (X * W)) unit }.

(** Memory blocks of the streaming functions. *)
Definition copy_in (dst src : list Z) (at_ : nat) : option (list Z) :=
  if (at_ + length src <=? length dst)%nat then Some (take at_ dst ++ src ++ drop (at_ + length src) dst)%list else None.
Definition memmove (dst src : list Z) (off n : nat) : option (list Z) :=
  if (off + n <=? length src)%nat && (n <=? length dst)%nat then Some (take n (drop off src) ++ drop n dst)%list else None.

Section Thread.
Context {X W : Type} `{AD : AudioDev W} `{HK : !PlaylistHook X W}.
Abbreviation M := (C (AI_PLAYER_CTX_T * (X * W))).

Definition is_state (st : AI_PLAYER_STATE_T) (p : option AI_PLAYER_T) : bool :=
  match p with Some p => bool_decide (ap_state p = st) | None => false end.

Definition __switch_player_mode : M unit :=
  let* x := get_ctx in
  let active_player :=
    if is_state AI_PLAYER_PLAYING (px_fg x) then Some AI_PLAYER_MODE_FOREGROUND
    else if is_state AI_PLAYER_PLAYING (px_bg x) then Some AI_PLAYER_MODE_BACKGROUND else None in
  let* _ := (match active_player with
    | Some _ =>
        if bool_decide (px_active_player x = active_player) then cret tt
        else
          let* _ := (if bool_decide (px_active_player x = None) && px_decoder_mode x then on_audio (consumer_start None) else cret tt) in
          mod_ctx (fun x => px_set_active active_player true (px_msg_timeout x) x)
    | None =>
        let* _ := (if negb (bool_decide (px_active_player x = None)) && px_decoder_mode x then on_audio (consumer_stop None) else cret tt) in
        mod_ctx (fun x => px_set_active None false (px_msg_timeout x) x)
    end) in
  mod_ctx (fun x => px_set_active (px_active_player x) (px_is_playing x)
    (if px_is_playing x then PLAYER_BUSY_TIMEOUT_MS else PLAYER_IDLE_TIMEOUT_MS) x).

Definition __cmd_player_start (m : AI_PLAYER_MODE_E) (src : AI_PLAYER_SRC_E) (value : option string) (codec : AI_AUDIO_CODEC_E)
    : M OPERATE_RET :=
  let* rt := on_audio (ai_player_datasink_start m src value) in
  if negb (rt =? OPRT_OK) then cret rt
  else
    let* rt := on_audio (ai_player_decoder_start m codec) in
    if negb (rt =? OPRT_OK) then cret rt
    else
      let* _ := mod_player m (ap_restart AI_PLAYER_PLAYING) in
      let* x := get_ctx in
      let* _ := (if px_decoder_mode x then cret tt else on_audio (consumer_start (Some m))) in
      let* p := get_player m in
      let* _ := on_audio (publish_player_state m (ap_state p)) in
      cret OPRT_OK.

Definition __cmd_player_stop (m : AI_PLAYER_MODE_E) : M OPERATE_RET :=
  let* _ := on_audio (ai_player_datasink_stop m) in
  let* _ := on_audio (ai_player_decoder_stop m) in
  let* _ := mod_player m (ap_restart AI_PLAYER_STOPPED) in
  let* p := get_player m in
  let* _ := (if ap_playlist p then playlist_cb m (ap_state p) else cret tt) in
  let* x := get_ctx in
  let* _ := (if px_decoder_mode x then cret tt else on_audio (consumer_stop (Some m))) in
  let* p := get_player m in
  let* _ := on_audio (publish_player_state m (ap_state p)) in
  cret OPRT_OK.

Definition __cmd_player_pause (m : AI_PLAYER_MODE_E) : M OPERATE_RET :=
  let* _ := mod_player m (ap_set_state AI_PLAYER_PAUSED) in
  let* _ := on_audio (publish_player_state m AI_PLAYER_PAUSED) in
  cret OPRT_OK.

Definition __cmd_player_resume (m : AI_PLAYER_MODE_E) : M OPERATE_RET :=
  let* _ := mod_player m (ap_set_state AI_PLAYER_PLAYING) in
  let* _ := on_audio (publish_player_state m AI_PLAYER_PLAYING) in
  cret OPRT_OK.

Definition __cmd_player_exit (m : AI_PLAYER_MODE_E) : M OPERATE_RET :=
  let* _ := on_audio (ai_player_datasink_deinit m) in
  let* _ := on_audio (ai_player_decoder_deinit m) in
  let* _ := mod_ctx (px_set_player m None) in
  cret OPRT_OK.

Definition exit_if_present (m : AI_PLAYER_MODE_E) : M unit :=
  let* p := find_player m in
  match p with Some _ => let* _ := __cmd_player_exit m in cret tt | None => cret tt end.

Definition __cmd_player_service_deinit : M OPERATE_RET :=
  let* _ := exit_if_present AI_PLAYER_MODE_FOREGROUND in
  let* _ := exit_if_present AI_PLAYER_MODE_BACKGROUND in
  let* _ := on_audio consumer_close in
  let* _ := put_ctx player_ctx_zero in
  cret OPRT_OK.

(** *** Streaming *)

(** Step 2 to 4 of the function below: decode, adjust the volume, resample. *)
Definition streaming_decode (m : AI_PLAYER_MODE_E) (is_eof : bool) : M OPERATE_RET :=
  let* p := get_player m in
  let* (rt, decode_buf, output) :=
    on_audio (ai_player_decoder_process m (take (Z.to_nat (ap_offset p)) (ap_framebuf p)) (ap_decode_buf p)) in
  let pending := rt =? OPRT_BUFFER_NOT_ENOUGH in
  let* _ := mod_player m (fun p => ap_set_pending pending (ap_set_decode decode_buf (ap_decode_size p) p)) in
  let rt := if (rt =? OPRT_OK) || pending then OPRT_OK else rt in
  if rt <? 0 then let* _ := mod_player m (fun p => ap_set_frame (ap_framebuf p) 0 p) in cret OPRT_OK
  else
    let* framebuf := cpure (if (0 <? rt) && negb ((rt =? ap_offset p) && is_eof)
                            then if rt <=? ap_offset p
                                 then memmove (ap_framebuf p) (ap_framebuf p) (Z.to_nat (ap_offset p - rt)) (Z.to_nat rt) else None
                            else Some (ap_framebuf p)) in
    let offset := if (0 <? rt) && negb ((rt =? ap_offset p) && is_eof) then rt else 0 in
    let* _ := mod_player m (ap_set_frame framebuf offset) in
    if do_sample output =? 0 then cret OPRT_OK
    else
      let* decode_buf := cpure (if negb (ap_volume p =? PLAYER_MAX_VOLUME)
        then ai_player_volume_process decode_buf (do_used_size output) (ap_volume p) PLAYER_MAX_VOLUME (do_datebits output)
        else Some decode_buf) in
      let* _ := mod_player m (ap_set_decode decode_buf (do_used_size output)) in
      let* x := get_ctx in
      if (do_channel output =? pc_channel (px_cfg x)) && (do_sample output =? pc_sample (px_cfg x)) &&
         (do_datebits output =? pc_datebits (px_cfg x))
      then cret OPRT_OK
      else
        let* (rt, size, decode_buf) := cpure (ai_player_resample_process decode_buf output (do_used_size output)) in
        let* _ := mod_player m (ap_set_decode decode_buf (u32 size)) in
        cret rt.

Definition __handle_player_streaming_source (m : AI_PLAYER_MODE_E) : M OPERATE_RET :=
  let* _ := mod_player m (fun p => ap_set_decode (ap_decode_buf p) 0 p) in
  let* p := get_player m in
  let* (rt, bytes) := (if ap_has_pending_output p then cret (OPRT_OK, [])
                       else on_audio (ai_player_datasink_read m (AI_PLAYER_FRAMEBUF_SIZE - ap_offset p))) in
  if negb (rt =? OPRT_OK) && negb (rt =? OPRT_NOT_FOUND) then cret rt
  else
    let is_eof := rt =? OPRT_NOT_FOUND in
    let bytes := if is_eof then [] else bytes in
    let* framebuf := cpure (copy_in (ap_framebuf p) bytes (Z.to_nat (ap_offset p))) in
    let* _ := mod_player m (ap_set_frame framebuf (u32 (ap_offset p + Z.of_nat (length bytes)))) in
    let* p := get_player m in
    if (ap_offset p =? 0) && negb (ap_has_pending_output p) then
      let* _ := (if is_eof then let* _ := __cmd_player_stop m in __switch_player_mode else cret tt) in
      cret OPRT_OK
    else
      let* x := get_ctx in
      if negb (px_decoder_mode x) then
        let size := Z.min (ap_offset p) AI_PLAYER_DECODEBUF_SIZE in
        let* decode_buf := cpure (memmove (ap_decode_buf p) (ap_framebuf p) 0 (Z.to_nat size)) in
        let* _ := mod_player m (fun p => ap_set_frame (ap_framebuf p) (ap_offset p - size) (ap_set_decode decode_buf size p)) in
        cret OPRT_OK
      else streaming_decode m is_eof.

(** *** Mixing

    The part of a chunk that had no counterpart waits in the mixer buffer;
    [px_mixer_flag] says whose it is (1 foreground, 2 background, 0 none). *)

Definition write_wrap (m : AI_PLAYER_MODE_E) (buf : list Z) (len : Z) : M unit :=
  on_audio (consumer_write m (take (Z.to_nat len) buf)).

(** Keep [n] bytes of [src] from [off] on as the rest of the player that [flag] names. *)
Definition keep_rest (src : list Z) (off n flag : Z) : M unit :=
  if n =? 0 then mod_ctx (fun x => px_set_mixer (px_mixer_buf x) n 0 x)
  else
    let* x := get_ctx in
    let* buf := cpure (match px_mixer_buf x with Some b => memmove b src (Z.to_nat off) (Z.to_nat n) | None => None end) in
    mod_ctx (fun x => px_set_mixer (Some buf) n flag x).

(** Mix [samples] samples of [src] into the decode buffer of [m]. *)
Definition mix_into (m : AI_PLAYER_MODE_E) (src : list Z) (samples : Z) : M unit :=
  let* p := get_player m in
  let* buf := cpure (ai_player_mixer_process src (ap_decode_buf p) samples) in
  mod_player m (fun p => ap_set_decode buf (ap_decode_size p) p).

Definition write_mixed (m : AI_PLAYER_MODE_E) (samples : Z) : M unit :=
  let* p := get_player m in write_wrap m (ap_decode_buf p) (samples * 2).

(** Both players have a chunk. *)
Definition mix_both : M unit :=
  let* fg := get_player AI_PLAYER_MODE_FOREGROUND in
  let* bg := get_player AI_PLAYER_MODE_BACKGROUND in
  let fg_size := ap_decode_size fg in
  let bg_size := ap_decode_size bg in
  let samples := (if bg_size <=? fg_size then bg_size else fg_size) / 2 in
  let* _ := mix_into AI_PLAYER_MODE_FOREGROUND (ap_decode_buf bg) samples in
  let* _ := write_mixed AI_PLAYER_MODE_FOREGROUND samples in
  if bg_size <=? fg_size then
    let* fg := get_player AI_PLAYER_MODE_FOREGROUND in
    keep_rest (ap_decode_buf fg) bg_size (fg_size - bg_size) 1
  else
    let* bg := get_player AI_PLAYER_MODE_BACKGROUND in
    keep_rest (ap_decode_buf bg) fg_size (bg_size - fg_size) 2.

(** Only the player [m] has a chunk, the other one's rest being in the mixer
    buffer. *)
Definition mix_with_rest (m : AI_PLAYER_MODE_E) (own other : Z) : M unit :=
  let* p := get_player m in
  let* x := get_ctx in
  let size := ap_decode_size p in
  let rest := px_mixer_offset x in
  let samples := (if rest <=? size then rest else size) / 2 in
  let* _ := mix_into m (default [] (px_mixer_buf x)) samples in
  let* _ := write_mixed m samples in
  if rest <=? size then
    let* p := get_player m in keep_rest (ap_decode_buf p) (samples * 2) (size - rest) own
  else
    let* x := get_ctx in keep_rest (default [] (px_mixer_buf x)) (samples * 2) (rest - size) other.

Definition __handle_player_streaming_mix (fg_player bg_player : bool) : M OPERATE_RET :=
  let* _ := (if fg_player && bg_player then mix_both
    else if fg_player then mix_with_rest AI_PLAYER_MODE_FOREGROUND 1 2
    else if bg_player then mix_with_rest AI_PLAYER_MODE_BACKGROUND 2 1 else cret tt) in
  cret OPRT_OK.

(** Raw output of one player's chunk. *)
Definition write_raw (m : AI_PLAYER_MODE_E) : M unit :=
  let* p := get_player m in
  if ap_decode_size p =? 0 then cret tt
  else
    let* _ := write_wrap m (ap_decode_buf p) (ap_decode_size p) in
    mod_player m (fun p => ap_set_decode (ap_decode_buf p) 0 p).

(** One round of mixed output. *)
Definition streaming_mixed : M OPERATE_RET :=
  let fg := AI_PLAYER_MODE_FOREGROUND in
  let bg := AI_PLAYER_MODE_BACKGROUND in
  let* x := get_ctx in
  let* _ := (if px_mixer_flag x =? 0 then
      let* _ := __handle_player_streaming_source bg in
      let* _ := __handle_player_streaming_source fg in
      let* x := get_ctx in
      if px_decoder_mode x then let* _ := __handle_player_streaming_mix true true in cret tt
      else let* _ := write_raw bg in write_raw fg
    else if px_mixer_flag x =? 1 then
      let* rt := __handle_player_streaming_source bg in
      let* x := get_ctx in
      if px_decoder_mode x then let* _ := __handle_player_streaming_mix false true in cret tt
      else if rt =? OPRT_OK then write_raw bg else cret tt
    else
      let* rt := __handle_player_streaming_source fg in
      let* x := get_ctx in
      if px_decoder_mode x then let* _ := __handle_player_streaming_mix true false in cret tt
      else if rt =? OPRT_OK then write_raw fg else cret tt) in
  cret OPRT_OK.

Definition __handle_player_streaming : M OPERATE_RET :=
  let* x := get_ctx in
  let* active_player := cpure (px_active_player x) in
  let* _ := get_player active_player in
  let foreground := bool_decide (active_player = AI_PLAYER_MODE_FOREGROUND) in
  if px_mixer_mode x && foreground && is_state AI_PLAYER_PLAYING (px_bg x) then streaming_mixed
  else
    let* _ := (if negb (px_mixer_mode x && foreground) && negb (px_mixer_offset x =? 0)
               then mod_ctx (fun x => px_set_mixer (px_mixer_buf x) 0 0 x) else cret tt) in
    let* rt := __handle_player_streaming_source active_player in
    let* p := get_player active_player in
    let* _ := (if (rt =? OPRT_OK) && negb (ap_decode_size p =? 0)
               then write_wrap active_player (ap_decode_buf p) (ap_decode_size p) else cret tt) in
    let* _ := mod_player active_player (fun p => ap_set_decode (ap_decode_buf p) 0 p) in
    cret rt.

(** *** The thread *)

(** A command, whose player exists unless it is the last of all. *)
Definition player_dispatch (m : AI_PLAYER_MODE_E) (cmd : player_cmd) : M unit :=
  let set_rt (run : M OPERATE_RET) : M unit := let* rt := run in mod_ctx (fun x => px_set_thread (px_running x) rt x) in
  match cmd with
  | PLAYER_CMD_START src value codec => set_rt (__cmd_player_start m src value codec)
  | PLAYER_CMD_STOP => set_rt (__cmd_player_stop m)
  | PLAYER_CMD_PAUSE => set_rt (__cmd_player_pause m)
  | PLAYER_CMD_RESUME => set_rt (__cmd_player_resume m)
  | PLAYER_CMD_EXIT => set_rt (__cmd_player_exit m)
  | PLAYER_CMD_SERVICE_DEINIT => mod_ctx (fun x => px_set_thread false (px_thread_rt x) x)
  end.

(** One round of the loop of [__ai_player_thread_cb]. With an empty queue and
    nothing playing the thread sleeps until a command comes. *)
Definition player_thread_step : M unit :=
  let* x := get_ctx in
  if negb (px_running x) then cret tt
  else
    let* q := cpure (px_queue x) in
    match q with
    | [] =>
        if px_is_playing x then
          let* rt := __handle_player_streaming in
          let* _ := mod_ctx (fun x => px_set_thread (px_running x) rt x) in
          if negb (rt =? OPRT_OK) then
            let* x := get_ctx in
            let* m := cpure (px_active_player x) in
            let* _ := __cmd_player_stop m in
            __switch_player_mode
          else cret tt
        else cret tt
    | msg :: q =>
        let* _ := mod_ctx (px_set_queue (Some q)) in
        let* player := find_player (pmsg_mode msg) in
        let deinit := match pmsg_cmd msg with PLAYER_CMD_SERVICE_DEINIT => true | _ => false end in
        if negb (bool_decide (is_Some player)) && negb deinit then cret tt
        else
          let* _ := player_dispatch (pmsg_mode msg) (pmsg_cmd msg) in
          let* x := get_ctx in
          let* _ := (if negb (px_thread_rt x =? OPRT_OK) && bool_decide (is_Some player)
                     then let* _ := __cmd_player_stop (pmsg_mode msg) in cret tt else cret tt) in
          let* _ := __switch_player_mode in
          if deinit then let* _ := __cmd_player_service_deinit in cret tt else cret tt
    end.

(** *** Waiting for the thread *)

(** The thread runs until the player [m] is in state [st], [n] rounds at most. *)
Fixpoint run_until (n : nat) (m : AI_PLAYER_MODE_E) (st : AI_PLAYER_STATE_T) : M bool :=
  let* p := get_player m in
  if bool_decide (ap_state p = st) then cret true
  else match n with O => cret false | S n => let* _ := player_thread_step in run_until n m st end.

(** ** The interface

    A handle is NULL or leads to a player of the table: [__is_player_valid] says
    which, and following the handle of a player that has been freed is undefined. *)

Definition tuya_ai_player_service_init (cfg : AI_PLAYER_CFG_T) : M OPERATE_RET :=
  let* _ := mod_ctx (fun x => mk_pctx (px_queue x) (px_running x) (px_thread_rt x) (px_is_playing x) (px_msg_timeout x)
    (px_fg x) (px_bg x) (px_active_player x) cfg PLAYER_MAX_VOLUME false (px_mixer_mode x) true (px_mixer_buf x)
    (px_mixer_offset x) (px_mixer_flag x)) in
  let* rt := on_audio player_queue_create in
  if negb (rt =? OPRT_OK) then cret rt
  else
    let* _ := mod_ctx (px_set_queue (Some [])) in
    let* rt := on_audio player_thread_create in
    if negb (rt =? OPRT_OK) then cret rt
    else
      let* _ := mod_ctx (fun x => px_set_active (px_active_player x) (px_is_playing x) PLAYER_IDLE_TIMEOUT_MS
                           (px_set_thread true OPRT_OK x)) in
      let* _ := on_audio consumer_open in
      cret OPRT_OK.

Definition tuya_ai_player_service_deinit : M OPERATE_RET := player_post AI_PLAYER_MODE_FOREGROUND PLAYER_CMD_SERVICE_DEINIT.

Definition player_new : AI_PLAYER_T :=
  mk_player AI_PLAYER_STOPPED (replicate (Z.to_nat AI_PLAYER_FRAMEBUF_SIZE) 0) 0
    (replicate (Z.to_nat AI_PLAYER_DECODEBUF_SIZE) 0) 0 PLAYER_MAX_VOLUME false false false.

(** The handle is the mode; the new buffers are not initialised, and nothing is
    read from them before it is written. *)
Definition tuya_ai_player_create (mode : AI_PLAYER_MODE_E) : M (OPERATE_RET * option AI_PLAYER_MODE_E) :=
  let* x := get_ctx in
  if bool_decide (is_Some (px_player mode x)) then cret (OPRT_INVALID_PARM, None)
  else
    let* player := on_audio player_malloc in
    if negb player then cret (OPRT_MALLOC_FAILED, None)
    else
      let* framebuf := on_audio player_malloc in
      if negb framebuf then cret (OPRT_MALLOC_FAILED, None)
      else
        let* decode_buf := on_audio player_malloc in
        if negb decode_buf then cret (OPRT_MALLOC_FAILED, None)
        else
          let* _ := mod_ctx (px_set_player mode (Some player_new)) in
          cret (OPRT_OK, Some mode).

(** The mode of the handle is read before the handle is checked. *)
Definition tuya_ai_player_destroy (handle : option AI_PLAYER_MODE_E) : M OPERATE_RET :=
  let* m := cpure handle in
  let* _ := get_player m in
  player_post m PLAYER_CMD_EXIT.

Definition tuya_ai_player_start (handle : option AI_PLAYER_MODE_E) (src : AI_PLAYER_SRC_E) (value : option string)
    (codec : AI_AUDIO_CODEC_E) : M OPERATE_RET :=
  let* rt := player_start_post handle src value codec in
  if negb (rt =? OPRT_OK) then cret rt
  else if bool_decide (src = AI_PLAYER_SRC_MEM) then
    let* m := cpure handle in
    let* rounds := on_audio thread_rounds in
    let* playing := run_until rounds m AI_PLAYER_PLAYING in
    cret (if playing : bool then OPRT_OK else OPRT_TIMEOUT)
  else cret OPRT_OK.

Definition tuya_ai_player_feed (handle : option AI_PLAYER_MODE_E) (data : option (list Z)) : M OPERATE_RET :=
  match handle with
  | None => cret OPRT_INVALID_PARM
  | Some m =>
      let* p := get_player m in
      if bool_decide (ap_state p = AI_PLAYER_STOPPED) then cret OPRT_INVALID_PARM
      else on_audio (ai_player_datasink_feed m data)
  end.

(** The wait has no limit; the command is among the next two. *)
Definition tuya_ai_player_stop (handle : option AI_PLAYER_MODE_E) : M OPERATE_RET :=
  match handle with
  | None => cret OPRT_INVALID_PARM
  | Some m =>
      let* p := get_player m in
      if bool_decide (ap_state p = AI_PLAYER_STOPPED) then cret OPRT_OK
      else
        let* rt := player_post m PLAYER_CMD_STOP in
        if negb (rt =? OPRT_OK) then cret rt
        else
          let* stopped := run_until PLAYER_QUEUE_LEN m AI_PLAYER_STOPPED in
          cpure (if stopped : bool then Some OPRT_OK else None)
  end.

Definition player_request (handle : option AI_PLAYER_MODE_E) (from : AI_PLAYER_STATE_T) (cmd : player_cmd) : M OPERATE_RET :=
  match handle with
  | None => cret OPRT_INVALID_PARM
  | Some m =>
      let* p := get_player m in
      if negb (bool_decide (ap_state p = from)) then cret OPRT_INVALID_PARM else player_post m cmd
  end.

(** [player->state] is also read for the log, before the check. *)
Definition tuya_ai_player_pause (handle : option AI_PLAYER_MODE_E) : M OPERATE_RET :=
  let* _ := cpure handle in player_request handle AI_PLAYER_PLAYING PLAYER_CMD_PAUSE.
Definition tuya_ai_player_resume (handle : option AI_PLAYER_MODE_E) : M OPERATE_RET :=
  let* _ := cpure handle in player_request handle AI_PLAYER_PAUSED PLAYER_CMD_RESUME.

Definition tuya_ai_player_get_state (handle : option AI_PLAYER_MODE_E) : M AI_PLAYER_STATE_T :=
  match handle with
  | None => cret AI_PLAYER_STOPPED
  | Some m => let* p := get_player m in cret (ap_state p)
  end.

Definition tuya_ai_player_get_progress (handle : option AI_PLAYER_MODE_E) : M (OPERATE_RET * Z * Z) :=
  match handle with
  | None => cret (OPRT_INVALID_PARM, 0, 0)
  | Some m =>
      let* p := get_player m in
      if bool_decide (ap_state p = AI_PLAYER_STOPPED) then cret (OPRT_INVALID_PARM, 0, 0)
      else on_audio (ai_player_datasink_get_progress m)
  end.

Definition tuya_ai_player_get_codec (handle : option AI_PLAYER_MODE_E) : M AI_AUDIO_CODEC_E :=
  match handle with
  | None => cret AI_AUDIO_CODEC_MP3
  | Some m => let* _ := get_player m in on_audio (ai_player_decoder_get_codec m)
  end.

Definition tuya_ai_player_set_consumer : M OPERATE_RET :=
  let* _ := on_audio consumer_close in
  let* _ := on_audio consumer_open in
  cret OPRT_OK.

Definition tuya_ai_player_set_volume (handle : option AI_PLAYER_MODE_E) (volume : Z) : M OPERATE_RET :=
  match handle with
  | None =>
      let* _ := mod_ctx (fun x => px_set_levels volume (px_mute x) x) in
      let* _ := on_audio (consumer_set_volume volume) in
      cret OPRT_OK
  | Some m => let* _ := mod_player m (fun p => ap_set_levels volume (ap_mute p) p) in cret OPRT_OK
  end.

Definition tuya_ai_player_get_volume (handle : option AI_PLAYER_MODE_E) : M (OPERATE_RET * Z) :=
  match handle with
  | None => let* x := get_ctx in cret (OPRT_OK, px_volume x)
  | Some m => let* p := get_player m in cret (OPRT_OK, ap_volume p)
  end.

Definition tuya_ai_player_set_mute (handle : option AI_PLAYER_MODE_E) (mute : bool) : M OPERATE_RET :=
  match handle with
  | None =>
      let* _ := mod_ctx (fun x => px_set_levels (px_volume x) mute x) in
      let* x := get_ctx in
      let* _ := on_audio (consumer_set_volume (if mute then 0 else px_volume x)) in
      cret OPRT_OK
  | Some m => let* _ := mod_player m (fun p => ap_set_levels (ap_volume p) mute p) in cret OPRT_OK
  end.

Definition tuya_ai_player_get_mute (handle : option AI_PLAYER_MODE_E) : M (OPERATE_RET * bool) :=
  match handle with
  | None => let* x := get_ctx in cret (OPRT_OK, px_mute x)
  | Some m => let* p := get_player m in cret (OPRT_OK, ap_mute p)
  end.

Definition tuya_ai_player_set_mix_mode (enable : bool) : M OPERATE_RET :=
  let* x := get_ctx in
  let* ok := (if enable && bool_decide (px_mixer_buf x = None) then
      let* ok := on_audio player_malloc in
      let* _ := (if ok : bool then mod_ctx (fun x => px_set_mixer (Some (replicate (Z.to_nat AI_PLAYER_DECODEBUF_SIZE) 0))
                                      (px_mixer_offset x) (px_mixer_flag x) x) else cret tt) in
      cret ok
    else cret true) in
  if negb ok then cret OPRT_MALLOC_FAILED
  else
    let* _ := mod_ctx (fun x => px_set_modes enable (px_decoder_mode x) (px_set_mixer (px_mixer_buf x) 0 0 x)) in
    cret OPRT_OK.

Definition tuya_ai_player_set_decoder_mode (enable : bool) : M OPERATE_RET :=
  let* _ := mod_ctx (fun x => px_set_modes (px_mixer_mode x) enable x) in cret OPRT_OK.

End Thread.

(** ** What the rest of the program promises *)

(** A step that writes nothing to the consumer. *)
Definition aquiet {W} `{AudioDev W} {A} (m : C W A) (P : A -> Prop) : Prop :=
  forall w, ad_ok w -> wp m (fun a w' => ad_ok w' /\ ad_output w' = ad_output w /\ P a) w.

(** A decoder's description of [n] bytes of output that the rest of the round can
    work on in place: not slower than the speaker, whole frames, inside the buffer.
    Nothing is decoded when the rate is 0. *)
Definition sound_output (o : DECODER_OUTPUT_T) (n : nat) : Prop :=
  do_sample o = 0 \/
  (OUT_SR_16K <= do_sample o < 2 ^ 28 /\ 1 <= do_channel o /\ 0 < do_samples o /\
   2 * (do_samples o * do_channel o) <= Z.of_nat n /\ 0 < do_used_size o <= Z.of_nat n).

Class AudioDevLaws (W : Type) `{!AudioDev W} : Prop := {
  ad_start_law : forall m src value, aquiet (ai_player_datasink_start m src value) (fun _ => True);
  ad_stop_law : forall m, aquiet (ai_player_datasink_stop m) (fun _ => True);
  ad_deinit_law : forall m, aquiet (ai_player_datasink_deinit m) (fun _ => True);
  ad_read_law : forall m n, 0 <= n -> aquiet (ai_player_datasink_read m n) (fun r => Z.of_nat (length (snd r)) <= n);
  ad_feed_law : forall m data, aquiet (ai_player_datasink_feed m data) (fun _ => True);
  ad_progress_law : forall m, aquiet (ai_player_datasink_get_progress m) (fun _ => True);
  ad_decoder_start_law : forall m codec, aquiet (ai_player_decoder_start m codec) (fun _ => True);
  ad_decoder_stop_law : forall m, aquiet (ai_player_decoder_stop m) (fun _ => True);
  ad_decoder_codec_law : forall m, aquiet (ai_player_decoder_get_codec m) (fun _ => True);
  ad_decoder_deinit_law : forall m, aquiet (ai_player_decoder_deinit m) (fun _ => True);
  ad_decoder_law : forall m input buf, aquiet (ai_player_decoder_process m input buf) (fun '(rt, buf', o) =>
    rt <= Z.of_nat (length input) /\ length buf' = length buf /\ sound_output o (length buf));
  ad_open_law : aquiet consumer_open (fun _ => True);
  ad_close_law : aquiet consumer_close (fun _ => True);
  ad_consumer_start_law : forall m, aquiet (consumer_start m) (fun _ => True);
  ad_consumer_stop_law : forall m, aquiet (consumer_stop m) (fun _ => True);
  ad_volume_law : forall v, aquiet (consumer_set_volume v) (fun _ => True);
  ad_publish_law : forall m st, aquiet (publish_player_state m st) (fun _ => True);
  ad_malloc_law : aquiet player_malloc (fun _ => True);
  ad_queue_law : aquiet player_queue_create (fun _ => True);
  ad_thread_law : aquiet player_thread_create (fun _ => True);
  ad_rounds_law : aquiet thread_rounds (fun _ => True);
  ad_queue_full_law : player_queue_full <> OPRT_OK;
  ad_write_law : forall m bytes w, ad_ok w ->
    wp (consumer_write m bytes) (fun _ w' => ad_ok w' /\ ad_output w' = (ad_output w ++ bytes)%list) w }.

(** ** Rules *)

Lemma px_player_set m m' p x : px_player m (px_set_player m' p x) = if decide (m = m') then p else px_player m x.
Proof. destruct m, m'; reflexivity. Qed.

Lemma px_player_set_eq m p x : px_player m (px_set_player m p x) = p.
Proof. by destruct m. Qed.

Lemma px_set_player_twice m p q x : px_set_player m p (px_set_player m q x) = px_set_player m p x.
Proof. by destruct m. Qed.

Section Rules.
Context {X W : Type} `{AD : AudioDev W}.
Implicit Types (x : AI_PLAYER_CTX_T) (y : X) (w : W).

Lemma wp_audio {A} (m : C W A) (Q : A -> AI_PLAYER_CTX_T * (X * W) -> Prop) x y w :
  wp m (fun a w' => Q a (x, (y, w'))) w -> wp (on_audio m) Q (x, (y, w)).
Proof. intros H. by apply wp_host, wp_host. Qed.

Lemma wp_aquiet {A} (m : C W A) P (Q : A -> AI_PLAYER_CTX_T * (X * W) -> Prop) x y w :
  aquiet m P -> ad_ok w ->
  (forall a w', ad_ok w' -> ad_output w' = ad_output w -> P a -> Q a (x, (y, w'))) -> wp (on_audio m) Q (x, (y, w)).
Proof. intros Hm Hw HQ. apply wp_audio. eapply wp_mono; [by apply Hm|]. intros a w' (? & ? & ?). by apply HQ. Qed.

Lemma get_player_wp m p (Q : AI_PLAYER_T -> AI_PLAYER_CTX_T * (X * W) -> Prop) x y w :
  px_player m x = Some p -> Q p (x, (y, w)) -> wp (get_player m) Q (x, (y, w)).
Proof. intros Hp HQ. unfold get_player. tm_steps. cbn [fst]. by eapply wp_pure. Qed.

Lemma mod_player_wp m f p (Q : unit -> AI_PLAYER_CTX_T * (X * W) -> Prop) x y w :
  px_player m x = Some p -> Q tt (px_set_player m (Some (f p)) x, (y, w)) -> wp (mod_player m f) Q (x, (y, w)).
Proof. intros Hp HQ. unfold mod_player. apply wp_bind. eapply get_player_wp; [done|]. by tm_steps. Qed.

Lemma write_wrap_wp `{!AudioDevLaws W} m buf len (Q : unit -> AI_PLAYER_CTX_T * (X * W) -> Prop) x y w : ad_ok w ->
  (forall w', ad_ok w' -> ad_output w' = (ad_output w ++ take (Z.to_nat len) buf)%list -> Q tt (x, (y, w'))) ->
  wp (write_wrap m buf len) Q (x, (y, w)).
Proof.
  intros Hw HQ. apply wp_audio. eapply wp_mono; [by apply ad_write_law|]. intros [] w' [? ?]. by apply HQ.
Qed.
End Rules.
