(* ===== verification/AudioMix.v ===== *)
(** Mixing two streams: however the two decoders cut their streams into chunks,
    the consumer gets the sample-wise saturating sum of the streams. *)
From S2P Require Import Prelude.
From S2P Require Import World.
From S2P Require Import TmHost.
From S2P Require Import AudioDsp.
From S2P Require Import AudioDspCorrect.
From S2P Require Import AudioPlayer.

#[local] Open Scope Z_scope.

(** ** Samples of a buffer *)

(** The [n] samples at offset [o]. *)
Definition samples_of (b : list Z) (o n : nat) : list Z := map (fun i => default 0 (get16 b (o + 2 * i))) (seq 0 n).

(** All samples of a block of bytes. *)
Definition pcm (b : list Z) : list Z := samples_of b 0 (length b / 2).

Definition mixture (F B : list Z) : list Z := zip_with (fun f b => CLAMP_S16 (f + b)) F B.

Lemma samples_length b o n : length (samples_of b o n) = n.
Proof. unfold samples_of. by rewrite length_map, length_seq. Qed.

Lemma samples_lookup b o n i : (i < n)%nat -> samples_of b o n !! i = Some (default 0 (get16 b (o + 2 * i))).
Proof. intros Hi. unfold samples_of. by rewrite list_lookup_fmap, lookup_seq_lt. Qed.

Lemma samples_ext b b' o o' n : (forall i, (i < n)%nat -> get16 b (o + 2 * i) = get16 b' (o' + 2 * i)) ->
  samples_of b o n = samples_of b' o' n.
Proof.
  intros H. apply list_eq. intros i. destruct (decide (i < n)%nat) as [Hi|Hi].
  - by rewrite !samples_lookup, H.
  - by rewrite !lookup_ge_None_2 by (rewrite samples_length; lia).
Qed.

Lemma get16_take b k p : (S p < k)%nat -> get16 (take k b) p = get16 b p.
Proof. intros H. unfold get16. by rewrite !lookup_take_lt by lia. Qed.

Lemma pcm_take b k : (2 * k <= length b)%nat -> pcm (take (2 * k) b) = samples_of b 0 k.
Proof.
  intros H. unfold pcm. rewrite length_take, Nat.min_l, (Nat.mul_comm 2 k), Nat.div_mul by lia.
  apply samples_ext. intros i Hi. apply get16_take. lia.
Qed.

Lemma samples_take b n k : (k <= n)%nat -> take k (samples_of b 0 n) = samples_of b 0 k.
Proof.
  intros H. apply list_eq. intros i. destruct (decide (i < k)%nat) as [Hi|Hi].
  - by rewrite lookup_take_lt, !samples_lookup by lia.
  - rewrite lookup_take_ge by lia. by rewrite lookup_ge_None_2 by (rewrite samples_length; lia).
Qed.

Lemma samples_drop b n k : (k <= n)%nat -> drop k (samples_of b 0 n) = samples_of b (2 * k) (n - k).
Proof.
  intros H. apply list_eq. intros i. rewrite lookup_drop. destruct (decide (i < n - k)%nat) as [Hi|Hi].
  - rewrite !samples_lookup by lia. do 3 f_equal. lia.
  - by rewrite !lookup_ge_None_2 by (rewrite samples_length; lia).
Qed.

Lemma samples_memmove dst src off n buf : memmove dst src off (2 * n) = Some buf ->
  length buf = length dst /\ samples_of buf 0 n = samples_of src off n.
Proof.
  unfold memmove. destruct (_ && _) eqn:H; [|done]. intros <-%(inj Some). apply andb_true_iff in H as [H1%Nat.leb_le H2%Nat.leb_le].
  assert (Hl : length (take (2 * n) (drop off src)) = (2 * n)%nat) by (rewrite length_take, length_drop; lia).
  split; [rewrite length_app, length_take, !length_drop; lia|]. apply samples_ext. intros i Hi. unfold get16.
  rewrite !lookup_app_l by lia. rewrite !lookup_take_lt, !lookup_drop by lia.
  by rewrite Nat.add_succ_r.
Qed.

Lemma memmove_some dst src off n : (off + n <= length src)%nat -> (n <= length dst)%nat -> exists buf, memmove dst src off n = Some buf.
Proof.
  intros H1 H2. unfold memmove. if_true (apply andb_true_iff; split; by apply Nat.leb_le). by eexists.
Qed.

(** Mixing into a buffer. *)
Lemma mixer_samples src dst k : (2 * k <= length src)%nat -> (2 * k <= length dst)%nat -> Z.of_nat k < 2 ^ 31 ->
  exists dst', ai_player_mixer_process src dst (Z.of_nat k) = Some dst' /\ length dst' = length dst /\
    samples_of dst' 0 k = mixture (samples_of src 0 k) (samples_of dst 0 k) /\
    forall q, (2 * k <= q)%nat -> get16 dst' q = get16 dst q.
Proof.
  intros Hs Hd Hk. destruct (mixer_spec src dst (Z.of_nat k)) as (dst' & Hrun & Hr); [lia..|]. rewrite Nat2Z.id in Hr.
  exists dst'. split; [done|]. split; [apply Hr|]. split.
  - apply list_eq. intros i. unfold mixture. rewrite lookup_zip_with. destruct (decide (i < k)%nat) as [Hi|Hi].
    + rewrite !samples_lookup by done. pose proof (rw_in _ _ _ _ _ _ Hr i ltac:(lia)) as ->. unfold mixed.
      change (0 + 2 * i)%nat with (2 * i)%nat.
      destruct (get16_some src (2 * i)) as (s & -> & _); [lia|]. by destruct (get16_some dst (2 * i)) as (d & -> & _); [lia|].
    + by rewrite !lookup_ge_None_2 by (rewrite samples_length; lia).
  - intros q Hq. unfold get16. by rewrite !(rw_out _ _ _ _ _ _ Hr) by lia.
Qed.

(** ** Mixtures of longer streams *)

Lemma mixture_comm F B : mixture F B = mixture B F.
Proof. unfold mixture. apply list_eq. intros i. rewrite !lookup_zip_with. destruct (F !! i), (B !! i); cbn; try done. by rewrite Z.add_comm. Qed.

Lemma mixture_app F B f b : length F = length B -> mixture (F ++ f) (B ++ b) = mixture F B ++ mixture f b.
Proof. intros H. unfold mixture. by rewrite zip_with_app. Qed.

Lemma mixture_rest F B b : mixture F (B ++ b) = mixture F B ++ mixture (drop (length B) F) b.
Proof. unfold mixture. by rewrite zip_with_app_r, zip_with_take_l. Qed.

Lemma mixture_length F B : length (mixture F B) = Nat.min (length F) (length B).
Proof. unfold mixture. apply length_zip_with. Qed.

Lemma mixture_take F B k : (length F <= k)%nat -> mixture F (take k B) = mixture F B.
Proof. intros H. unfold mixture. apply zip_with_take_r'. lia. Qed.

Lemma mixture_min F B k : Nat.min (length F) (length B) = k -> mixture (take k F) (take k B) = mixture F B.
Proof. intros H. apply zip_with_take_both'; lia. Qed.

Lemma get16_app_r a b p : (length a <= p)%nat -> get16 (a ++ b) p = get16 b (p - length a).
Proof. intros H. unfold get16. rewrite !lookup_app_r by lia. by rewrite Nat.sub_succ_l. Qed.

Lemma pcm_app a b : Nat.Even (length a) -> pcm (a ++ b) = pcm a ++ pcm b.
Proof.
  intros [n Hn]. unfold pcm. rewrite length_app, Hn, (Nat.mul_comm 2 n), Nat.div_add_l, Nat.div_mul by lia.
  apply list_eq. intros i. destruct (decide (i < n)%nat) as [Hi|Hi].
  - rewrite lookup_app_l by (rewrite samples_length; lia). rewrite !samples_lookup by lia. do 2 f_equal. unfold get16.
    by rewrite !lookup_app_l by lia.
  - rewrite lookup_app_r by (rewrite samples_length; lia). rewrite samples_length.
    destruct (decide (i < n + length b / 2)%nat) as [Hj|Hj].
    + rewrite !samples_lookup by lia. rewrite get16_app_r by lia. do 3 f_equal. lia.
    + by rewrite !lookup_ge_None_2 by (rewrite samples_length; lia).
Qed.

(** ** The stream that is ahead *)

(** [L] is [n] samples longer than [S], and [b] holds them. *)
Definition ahead (L S : list Z) (b : list Z) (n : nat) : Prop :=
  length L = (length S + n)%nat /\ drop (length S) L = samples_of b 0 n.

Lemma ahead_even L S b b' : ahead L S b 0 -> ahead S L b' 0.
Proof. intros [Hl _]. split; [lia|]. by rewrite drop_ge by lia. Qed.

(** The other stream gets a chunk that is no longer than the rest. *)
Lemma ahead_less L S b n s : ahead L S b n -> (length s <= n)%nat -> (2 * n <= length b)%nat ->
  mixture L (S ++ s) = mixture L S ++ mixture (samples_of b 0 n) s /\
  forall b', samples_of b' 0 (n - length s) = samples_of b (2 * length s) (n - length s) ->
    ahead L (S ++ s) b' (n - length s).
Proof.
  intros [Hl Hr] Hs Hb. split; [by rewrite mixture_rest, Hr|]. intros b' Hb'. split; rewrite length_app; [lia|].
  rewrite <- drop_drop, Hr, Hb'. by apply samples_drop.
Qed.

(** It gets at least as much. *)
Lemma ahead_more L S b n s : ahead L S b n -> (n <= length s)%nat ->
  mixture L (S ++ s) = mixture L S ++ mixture (samples_of b 0 n) s /\
  forall b', samples_of b' 0 (length s - n) = drop n s -> ahead (S ++ s) L b' (length s - n).
Proof.
  intros [Hl Hr] Hs. split; [by rewrite mixture_rest, Hr|]. intros b' Hb'. split; [rewrite length_app; lia|].
  rewrite Hl, Hb'. by rewrite drop_app_add.
Qed.

(** ** The operations *)

Definition DECODEBUF : nat := Z.to_nat AI_PLAYER_DECODEBUF_SIZE.

Lemma decodebuf_value : Z.of_nat DECODEBUF = 9600.
Proof. reflexivity. Qed.

#[global] Opaque DECODEBUF.

(** The chunk of a player: [k] samples. *)
Definition chunk_len (p : AI_PLAYER_T) (k : nat) : Prop :=
  ap_decode_size p = Z.of_nat (2 * k) /\ length (ap_decode_buf p) = DECODEBUF /\ (2 * k <= DECODEBUF)%nat.

Definition chunk_samples (p : AI_PLAYER_T) : list Z := samples_of (ap_decode_buf p) 0 (Z.to_nat (ap_decode_size p / 2)).

Lemma even_half k : Z.of_nat (2 * k) / 2 = Z.of_nat k.
Proof. rewrite Nat2Z.inj_mul, Z.mul_comm. by apply Z.div_mul. Qed.

Lemma chunk_samples_eq p k : chunk_len p k -> chunk_samples p = samples_of (ap_decode_buf p) 0 k.
Proof. intros (Hs & _). unfold chunk_samples. by rewrite Hs, even_half, Nat2Z.id. Qed.

Section Ops.
Context {X W : Type} `{AL : AudioDevLaws W}.
Implicit Types (x : AI_PLAYER_CTX_T) (y : X) (w : W).

(** Mixing the first [k] samples of [src] into the chunk of a player and writing
    the mixture. *)
Lemma mix_and_write_wp m src k p rest (Q : unit -> AI_PLAYER_CTX_T * (X * W) -> Prop) x y w :
  ad_ok w -> px_player m x = Some p -> length (ap_decode_buf p) = DECODEBUF ->
  (2 * k <= length src)%nat -> (2 * k <= DECODEBUF)%nat ->
  (forall buf w', ad_ok w' -> length buf = DECODEBUF ->
     (forall q, (2 * k <= q)%nat -> get16 buf q = get16 (ap_decode_buf p) q) ->
     ad_output w' = (ad_output w ++ take (2 * k) buf)%list ->
     pcm (take (2 * k) buf) = mixture (samples_of src 0 k) (samples_of (ap_decode_buf p) 0 k) ->
     wp rest Q (px_set_player m (Some (ap_set_decode buf (ap_decode_size p) p)) x, (y, w'))) ->
  wp (let* _ := mix_into m src (Z.of_nat k) in let* _ := write_mixed m (Z.of_nat k) in rest) Q (x, (y, w)).
Proof.
  intros Hw Hp Hl Hs Hk HQ. pose proof decodebuf_value.
  destruct (mixer_samples src (ap_decode_buf p) k) as (buf & Hrun & Hb & Hmix & Hrest); [lia..|].
  unfold mix_into, write_mixed. do 2 apply wp_bind. eapply get_player_wp; [done|]. apply wp_bind. eapply wp_pure; [done|].
  eapply mod_player_wp; [done|]. do 2 apply wp_bind. eapply get_player_wp; [apply px_player_set_eq|].
  apply write_wrap_wp; [done|]. intros w' Hw' Ho. cbn [ap_decode_buf ap_set_decode] in Ho.
  replace (Z.to_nat (Z.of_nat k * 2)) with (2 * k)%nat in Ho by lia. apply HQ; [done|lia|done|done|]. by rewrite pcm_take by lia.
Qed.

Lemma keep_rest_wp src off n flag b (Q : unit -> AI_PLAYER_CTX_T * (X * W) -> Prop) x y w :
  px_mixer_buf x = Some b -> length b = DECODEBUF -> (off + 2 * n <= length src)%nat -> (2 * n <= DECODEBUF)%nat ->
  (forall b', length b' = DECODEBUF -> samples_of b' 0 n = samples_of src off n ->
     Q tt (px_set_mixer (Some b') (Z.of_nat (2 * n)) (if decide (n = 0%nat) then 0 else flag) x, (y, w))) ->
  wp (keep_rest src (Z.of_nat off) (Z.of_nat (2 * n)) flag) Q (x, (y, w)).
Proof.
  intros Hb Hl Hs Hn HQ. unfold keep_rest. destruct (Z.eqb_spec (Z.of_nat (2 * n)) 0) as [H0|H0].
  - tm_steps. rewrite Hb. destruct (decide (n = 0%nat)) as [->|]; [|lia]. by apply HQ.
  - tm_steps. rewrite Hb, !Nat2Z.id. destruct (memmove_some b src off (2 * n)) as [b' Hm]; [lia..|].
    destruct (samples_memmove _ _ _ _ _ Hm) as [Hl' Hs']. eapply wp_pure; [done|]. tm_steps.
    destruct (decide (n = 0%nat)); [lia|]. apply HQ; [lia|done].
Qed.
End Ops.

(** ** Mixing is exact *)

(** Of the two streams [F] and [B] decoded so far, the part that is not mixed yet
    waits in the mixer buffer. *)
Definition holds_rest (x : AI_PLAYER_CTX_T) (F B : list Z) : Prop :=
  exists b n, px_mixer_buf x = Some b /\ length b = DECODEBUF /\ px_mixer_offset x = Z.of_nat (2 * n) /\ (2 * n <= DECODEBUF)%nat /\
    ((px_mixer_flag x = 0 /\ n = 0%nat /\ ahead F B b 0) \/ (px_mixer_flag x = 1 /\ ahead F B b n) \/
     (px_mixer_flag x = 2 /\ ahead B F b n)).

(** The consumer has got, after [out], the mixture of the two streams. *)
Definition has_mixed {X W} `{AudioDev W} (out : list Z) (F B : list Z) (s : AI_PLAYER_CTX_T * (X * W)) : Prop :=
  let '(x, (_, w)) := s in
  ad_ok w /\ holds_rest x F B /\
  exists bytes, ad_output w = (out ++ bytes)%list /\ Nat.Even (length bytes) /\ pcm bytes = mixture F B.

(** The players that get a new chunk in this round. *)
Definition reads_fg (x : AI_PLAYER_CTX_T) : bool := negb (px_mixer_flag x =? 1).
Definition reads_bg (x : AI_PLAYER_CTX_T) : bool := (px_mixer_flag x =? 0) || (px_mixer_flag x =? 1).

Section Mixing.
Context {X W : Type} `{AL : AudioDevLaws W}.
Implicit Types (x : AI_PLAYER_CTX_T) (y : X) (w : W).

Lemma mixed_on out F B F' B' x y w x' w' src p k buf :
  has_mixed out F B (x, (y, w)) -> ad_ok w' -> holds_rest x' F' B' -> (2 * k <= length buf)%nat ->
  ad_output w' = (ad_output w ++ take (2 * k) buf)%list ->
  pcm (take (2 * k) buf) = mixture (samples_of src 0 k) (samples_of p 0 k) ->
  mixture F' B' = mixture F B ++ mixture (samples_of src 0 k) (samples_of p 0 k) ->
  has_mixed out F' B' (x', (y, w')).
Proof.
  intros (_ & _ & bytes & Ho & He & Hp) Hw' Hr Hb Ho' Hk Hm. split; [done|]. split; [done|].
  exists (bytes ++ take (2 * k) buf). split; [by rewrite Ho', Ho, app_assoc|]. split.
  - destruct He as [j Hj]. exists (j + k)%nat. rewrite length_app, length_take. lia.
  - by rewrite pcm_app, Hp, Hk, Hm.
Qed.

Lemma holds_rest_set x F B b n flag : length b = DECODEBUF -> (2 * n <= DECODEBUF)%nat ->
  (flag = 1 /\ ahead F B b n) \/ (flag = 2 /\ ahead B F b n) ->
  holds_rest (px_set_mixer (Some b) (Z.of_nat (2 * n)) (if decide (n = 0%nat) then 0 else flag) x) F B.
Proof.
  intros Hb Hn Ha. exists b, n. do 4 (split; [done|]). cbn [px_mixer_flag px_set_mixer].
  destruct (decide (n = 0%nat)) as [->|]; [|by right]. left. split; [done|]. split; [done|].
  destruct Ha as [[_ Ha]|[_ Ha]]; [done|]. by eapply ahead_even.
Qed.

Lemma mixture_samples b n c k : (n <= k \/ k <= n)%nat ->
  mixture (samples_of b 0 n) (samples_of c 0 k) = mixture (samples_of b 0 (Nat.min n k)) (samples_of c 0 (Nat.min n k)).
Proof.
  intros _. rewrite <- (mixture_min _ _ (Nat.min n k)) by (by rewrite !samples_length).
  by rewrite !samples_take by lia.
Qed.

(** One player's stream [S] is behind [L], whose rest waits in [b]; it gets a chunk. *)
Lemma mix_with_rest_wp m own other L S b n k p (Q : unit -> AI_PLAYER_CTX_T * (X * W) -> Prop) x y w :
  ad_ok w -> px_player m x = Some p -> chunk_len p k -> px_mixer_buf x = Some b -> length b = DECODEBUF ->
  px_mixer_offset x = Z.of_nat (2 * n) -> (2 * n <= DECODEBUF)%nat -> ahead L S b n ->
  (forall buf b' n' flag w', ad_ok w' -> length b' = DECODEBUF -> (2 * n' <= DECODEBUF)%nat -> length buf = DECODEBUF ->
     ad_output w' = (ad_output w ++ take (2 * Nat.min n k) buf)%list ->
     pcm (take (2 * Nat.min n k) buf) = mixture (samples_of b 0 (Nat.min n k)) (samples_of (ap_decode_buf p) 0 (Nat.min n k)) ->
     mixture L (S ++ chunk_samples p) = mixture L S ++
       mixture (samples_of b 0 (Nat.min n k)) (samples_of (ap_decode_buf p) 0 (Nat.min n k)) ->
     (flag = own /\ ahead (S ++ chunk_samples p) L b' n') \/ (flag = other /\ ahead L (S ++ chunk_samples p) b' n') ->
     Q tt (px_set_mixer (Some b') (Z.of_nat (2 * n')) (if decide (n' = 0%nat) then 0 else flag)
             (px_set_player m (Some (ap_set_decode buf (ap_decode_size p) p)) x), (y, w'))) ->
  wp (mix_with_rest m own other) Q (x, (y, w)).
Proof.
  intros Hw Hp Hc Hb Hl Ho Hn Ha HQ. pose proof Hc as (Hs & Hlp & Hk). pose proof (chunk_samples_eq _ _ Hc) as Hcs.
  unfold mix_with_rest. apply wp_bind. eapply get_player_wp; [done|]. do 2 tm_step. rewrite Ho, Hs, Hb. cbn [default from_option id].
  assert (Hsamples : (if Z.of_nat (2 * n) <=? Z.of_nat (2 * k) then Z.of_nat (2 * n) else Z.of_nat (2 * k)) / 2
                     = Z.of_nat (Nat.min n k)).
  { destruct (Z.leb_spec (Z.of_nat (2 * n)) (Z.of_nat (2 * k))); rewrite even_half; lia. }
  rewrite Hsamples. eapply mix_and_write_wp; [done..|lia|lia|]. intros buf w' Hw' Hbuf Hq Ho' Hpcm.
  replace (Z.of_nat (Nat.min n k) * 2) with (Z.of_nat (2 * Nat.min n k)) by lia.
  assert (Hsk : length (chunk_samples p) = k) by (by rewrite Hcs, samples_length).
  destruct (Z.leb_spec (Z.of_nat (2 * n)) (Z.of_nat (2 * k))) as [Hle|Hlt].
  - destruct (ahead_more _ _ _ _ (chunk_samples p) Ha) as [Hm Hr]; [lia|]. rewrite Hsk in Hr.
    apply wp_bind. eapply get_player_wp; [apply px_player_set_eq|]. cbn [ap_decode_buf ap_set_decode].
    replace (Z.of_nat (2 * k) - Z.of_nat (2 * n)) with (Z.of_nat (2 * (k - n))) by lia. replace (Nat.min n k) with n in * by lia.
    eapply keep_rest_wp; [by destruct m|done|lia|lia|]. intros b' Hb' Hs'. eapply HQ; [done|done|lia|done|done|done|by rewrite Hm, Hcs, mixture_samples, Nat.min_l by lia|].
    left. split; [done|]. apply Hr. rewrite Hs', Hcs, samples_drop by lia. apply samples_ext. intros i Hi. apply Hq. lia.
  - destruct (ahead_less _ _ _ _ (chunk_samples p) Ha) as [Hm Hr]; [lia|lia|]. rewrite Hsk in Hr.
    replace (Nat.min n k) with k in * by lia. tm_steps.
    replace (px_mixer_buf (px_set_player m _ x)) with (px_mixer_buf x) by (by destruct m). rewrite Hb. cbn [default from_option id].
    replace (Z.of_nat (2 * n) - Z.of_nat (2 * k)) with (Z.of_nat (2 * (n - k))) by lia.
    eapply keep_rest_wp; [by destruct m|done|lia|lia|]. intros b' Hb' Hs'. eapply HQ; [done|done|lia|done|done|done|by rewrite Hm, Hcs, mixture_samples, Nat.min_r by lia|].
    right. split; [done|]. by apply Hr.
Qed.

(** Neither stream is ahead and both get a chunk. *)
Lemma mix_both_wp fg bg kf kb F B n0 b0 (Q : unit -> AI_PLAYER_CTX_T * (X * W) -> Prop) x y w :
  ad_ok w -> px_fg x = Some fg -> px_bg x = Some bg -> chunk_len fg kf -> chunk_len bg kb ->
  px_mixer_buf x = Some b0 -> length b0 = DECODEBUF -> ahead F B n0 0 ->
  (forall buf b' n' flag w', ad_ok w' -> length b' = DECODEBUF -> (2 * n' <= DECODEBUF)%nat -> length buf = DECODEBUF ->
     ad_output w' = (ad_output w ++ take (2 * Nat.min kf kb) buf)%list ->
     pcm (take (2 * Nat.min kf kb) buf) =
       mixture (samples_of (ap_decode_buf bg) 0 (Nat.min kf kb)) (samples_of (ap_decode_buf fg) 0 (Nat.min kf kb)) ->
     mixture (F ++ chunk_samples fg) (B ++ chunk_samples bg) = mixture F B ++
       mixture (samples_of (ap_decode_buf bg) 0 (Nat.min kf kb)) (samples_of (ap_decode_buf fg) 0 (Nat.min kf kb)) ->
     (flag = 1 /\ ahead (F ++ chunk_samples fg) (B ++ chunk_samples bg) b' n') \/
     (flag = 2 /\ ahead (B ++ chunk_samples bg) (F ++ chunk_samples fg) b' n') ->
     Q tt (px_set_mixer (Some b') (Z.of_nat (2 * n')) (if decide (n' = 0%nat) then 0 else flag)
             (px_set_player AI_PLAYER_MODE_FOREGROUND (Some (ap_set_decode buf (ap_decode_size fg) fg)) x), (y, w'))) ->
  wp mix_both Q (x, (y, w)).
Proof.
  intros Hw Hfg Hbg Hcf Hcb Hm Hl [Hlen _] HQ. pose proof Hcf as (Hsf & Hlf & Hkf). pose proof Hcb as (Hsb & Hlb & Hkb).
  pose proof (chunk_samples_eq _ _ Hcf) as Ef. pose proof (chunk_samples_eq _ _ Hcb) as Eb.
  assert (Hmix : mixture (F ++ chunk_samples fg) (B ++ chunk_samples bg) = mixture F B ++
       mixture (samples_of (ap_decode_buf bg) 0 (Nat.min kf kb)) (samples_of (ap_decode_buf fg) 0 (Nat.min kf kb))).
  { rewrite mixture_app by lia. f_equal. rewrite Ef, Eb, mixture_comm, (Nat.min_comm kf kb). apply mixture_samples. lia. }
  unfold mix_both. apply wp_bind. eapply get_player_wp; [done|]. apply wp_bind. eapply get_player_wp; [done|]. rewrite Hsf, Hsb.
  assert (Hsamples : (if Z.of_nat (2 * kb) <=? Z.of_nat (2 * kf) then Z.of_nat (2 * kb) else Z.of_nat (2 * kf)) / 2
                     = Z.of_nat (Nat.min kf kb)).
  { destruct (Z.leb_spec (Z.of_nat (2 * kb)) (Z.of_nat (2 * kf))); rewrite even_half; lia. }
  rewrite Hsamples. eapply mix_and_write_wp; [done..|lia|lia|]. intros buf w' Hw' Hbuf Hq Ho' Hpcm.
  destruct (Z.leb_spec (Z.of_nat (2 * kb)) (Z.of_nat (2 * kf))) as [Hle|Hlt]; apply wp_bind.
  - eapply get_player_wp; [apply px_player_set_eq|]. cbn [ap_decode_buf ap_set_decode].
    replace (Z.of_nat (2 * kf) - Z.of_nat (2 * kb)) with (Z.of_nat (2 * (kf - kb))) by lia.
    eapply keep_rest_wp; [done|done|lia|lia|]. intros b' Hb' Hs'. eapply HQ; [done|done|lia|done..|].
    left. split; [done|]. split; rewrite !length_app, Ef, Eb, !samples_length; [lia|]. replace (length B) with (length F) by lia. rewrite drop_app_add, Hs', samples_drop by lia.
    apply samples_ext. intros i Hi. symmetry. apply Hq. lia.
  - eapply get_player_wp; [done|]. replace (Z.of_nat (2 * kb) - Z.of_nat (2 * kf)) with (Z.of_nat (2 * (kb - kf))) by lia.
    eapply keep_rest_wp; [done|done|lia|lia|]. intros b' Hb' Hs'. eapply HQ; [done|done|lia|done..|].
    right. split; [done|]. split; rewrite !length_app, Ef, Eb, !samples_length; [lia|]. replace (length F) with (length B) by lia. rewrite drop_app_add, Hs', samples_drop by lia.
    done.
Qed.

Definition good_chunk (p : AI_PLAYER_T) : Prop := exists k, chunk_len p k.

(** C12. However the two decoders cut their streams into chunks, the consumer gets
    the sample-wise sum of the streams, each sum limited to 16 bits: each round of
    [__handle_player_streaming_mix] appends exactly the mixture that the new chunks
    make possible, and what one stream is ahead of the other waits, unchanged, in
    the mixer buffer. *)
Theorem mixing_exact out F B fg bg x y w :
  has_mixed out F B (x, (y, w)) -> px_fg x = Some fg -> px_bg x = Some bg ->
  (reads_fg x = true -> good_chunk fg) -> (reads_bg x = true -> good_chunk bg) ->
  wp (__handle_player_streaming_mix (reads_fg x) (reads_bg x))
    (fun rt s' => rt = OPRT_OK /\
       has_mixed out (F ++ (if reads_fg x then chunk_samples fg else [])) (B ++ (if reads_bg x then chunk_samples bg else [])) s')
    (x, (y, w)).
Proof.
  intros Hmixed Hfg Hbg Hcf Hcb. pose proof Hmixed as (Hw & (b & n & Hb & Hl & Ho & Hn & Hflag) & _).
  unfold __handle_player_streaming_mix, reads_fg, reads_bg in *.
  apply wp_bind. destruct Hflag as [(Hf & -> & Ha)|[(Hf & Ha)|(Hf & Ha)]]; rewrite Hf in *; cbn [negb Z.eqb Pos.eqb orb andb] in *.
  - destruct (Hcf eq_refl) as [kf Hkf], (Hcb eq_refl) as [kb Hkb]. eapply (mix_both_wp fg bg kf kb F B b b); [done..|].
    intros buf b' n' flag w' Hw' Hb' Hn' Hbuf Ho' Hpcm Hmix Hah. wp_step. split; [done|]. destruct Hkf as (_ & _ & Hkf).
    eapply mixed_on; eauto; [by apply holds_rest_set|lia].
  - destruct (Hcb eq_refl) as [kb Hkb]. rewrite app_nil_r.
    eapply (mix_with_rest_wp AI_PLAYER_MODE_BACKGROUND 2 1 F B b n kb bg); [done..|].
    intros buf b' n' flag w' Hw' Hb' Hn' Hbuf Ho' Hpcm Hmix Hah. wp_step. split; [done|].
    eapply (mixed_on out F B _ _ x y w _ w' b (ap_decode_buf bg) (Nat.min n kb) buf); [done|done| |lia|done|done|done].
    apply holds_rest_set; [done|done|]. destruct Hah as [[-> ?]|[-> ?]]; auto.
  - destruct (Hcf eq_refl) as [kf Hkf]. rewrite app_nil_r.
    eapply (mix_with_rest_wp AI_PLAYER_MODE_FOREGROUND 1 2 B F b n kf fg); [done..|].
    intros buf b' n' flag w' Hw' Hb' Hn' Hbuf Ho' Hpcm Hmix Hah. wp_step. split; [done|].
    eapply (mixed_on out F B _ _ x y w _ w' b (ap_decode_buf fg) (Nat.min n kf) buf);
      [done|done| |lia|done|done|by rewrite (mixture_comm _ B), Hmix, (mixture_comm F B)].
    apply holds_rest_set; [done|done|]. destruct Hah as [[-> ?]|[-> ?]]; auto.
Qed.
End Mixing.
