(* ===== verification/AudioSafe.v ===== *)
(** The player service stays inside its buffers and keeps its bookkeeping: the
    invariant of the context, kept by every round of the thread and every call. *)
From S2P Require Import Prelude.
From S2P Require Import World.
From S2P Require Import TmHost.
From S2P Require Import AudioDsp.
From S2P Require Import AudioDspCorrect.
From S2P Require Import AudioPlayer.
From S2P Require Import AudioMix.

#[local] Open Scope Z_scope.

(** ** The invariant *)

Record player_ok (p : AI_PLAYER_T) : Prop := {
  po_frame : Z.of_nat (length (ap_framebuf p)) = AI_PLAYER_FRAMEBUF_SIZE;
  po_offset : 0 <= ap_offset p <= AI_PLAYER_FRAMEBUF_SIZE;
  po_decode : length (ap_decode_buf p) = DECODEBUF;
  po_size : 0 <= ap_decode_size p <= AI_PLAYER_DECODEBUF_SIZE;
  po_volume : 0 <= ap_volume p <= PLAYER_MAX_VOLUME }.

Definition slot_ok (o : option AI_PLAYER_T) : Prop := match o with Some p => player_ok p | None => True end.

Record ctx_ok (x : AI_PLAYER_CTX_T) : Prop := {
  co_queue : match px_queue x with Some q => (length q <= PLAYER_QUEUE_LEN)%nat | None => px_running x = false end;
  co_players : forall m, slot_ok (px_player m x);
  co_mixer : if px_mixer_mode x then exists b, px_mixer_buf x = Some b else True;
  co_buf : match px_mixer_buf x with Some b => length b = DECODEBUF | None => True end;
  co_rest : 0 <= px_mixer_offset x <= AI_PLAYER_DECODEBUF_SIZE }.

Definition is_playing (m : AI_PLAYER_MODE_E) (x : AI_PLAYER_CTX_T) : bool := is_state AI_PLAYER_PLAYING (px_player m x).

(** The foreground player has priority. *)
Definition chosen (x : AI_PLAYER_CTX_T) : option AI_PLAYER_MODE_E :=
  if is_playing AI_PLAYER_MODE_FOREGROUND x then Some AI_PLAYER_MODE_FOREGROUND
  else if is_playing AI_PLAYER_MODE_BACKGROUND x then Some AI_PLAYER_MODE_BACKGROUND else None.

Definition active_ok (x : AI_PLAYER_CTX_T) : Prop :=
  px_active_player x = chosen x /\ px_is_playing x = bool_decide (is_Some (chosen x)).

Definition service_ok (x : AI_PLAYER_CTX_T) : Prop := ctx_ok x /\ active_ok x.

Definition is_start (msg : AI_PLAYER_MSG_T) : Prop := exists src value codec, pmsg_cmd msg = PLAYER_CMD_START src value codec.

(** The commands in the queue stay in place; others may be posted. *)
Definition queue_grows (x x' : AI_PLAYER_CTX_T) : Prop :=
  forall q, px_queue x = Some q -> exists extra, px_queue x' = Some (q ++ extra)%list /\ Forall is_start extra.

#[export] Instance queue_grows_refl : Reflexive queue_grows.
Proof. intros x q Hq. exists []. by rewrite app_nil_r. Qed.
#[export] Instance queue_grows_trans : Transitive queue_grows.
Proof.
  intros x1 x2 x3 H1 H2 q Hq. destruct (H1 q Hq) as (e1 & Hq1 & ?), (H2 _ Hq1) as (e2 & Hq2 & ?).
  exists (e1 ++ e2)%list. rewrite Hq2, app_assoc. split; [done|]. by apply Forall_app.
Qed.

Lemma queue_same x x' : px_queue x' = px_queue x -> queue_grows x x'.
Proof. intros H q Hq. exists []. by rewrite app_nil_r, H. Qed.

#[export] Hint Resolve queue_same : core.

(** What one piece of a round leaves alone. *)
Record kept (x x' : AI_PLAYER_CTX_T) : Prop := {
  kp_players : forall m, is_Some (px_player m x) -> is_Some (px_player m x');
  kp_running : px_running x' = px_running x;
  kp_queue : queue_grows x x';
  kp_mixer : px_mixer_mode x' = px_mixer_mode x;
  kp_decoder : px_decoder_mode x' = px_decoder_mode x }.

#[export] Instance kept_refl : Reflexive kept.
Proof. split; auto. Qed.
#[export] Instance kept_trans : Transitive kept.
Proof. intros x1 x2 x3 [] []. split; [auto|congruence|by etransitivity|congruence..]. Qed.

Ltac same_kept := split; try done; by apply queue_same.

Lemma chosen_player x m : chosen x = Some m -> exists p, px_player m x = Some p /\ ap_state p = AI_PLAYER_PLAYING.
Proof.
  unfold chosen, is_playing, is_state. intros H.
  assert (Hm : match px_player m x with Some p => bool_decide (ap_state p = AI_PLAYER_PLAYING) | None => false end = true).
  { revert H. repeat case_match; naive_solver. }
  destruct (px_player m x) as [p|]; [|done]. exists p. split; [done|]. by apply bool_decide_eq_true in Hm.
Qed.

(** A change of one player. *)
Lemma set_player_ctx m p x : ctx_ok x -> slot_ok p -> ctx_ok (px_set_player m p x).
Proof.
  intros [] Hp. split; try (by destruct m); try done.
  intros m'. rewrite px_player_set. by destruct (decide _).
Qed.

Lemma set_player_kept m p x : kept x (px_set_player m (Some p) x).
Proof. split; try (by destruct m); [|apply queue_same; by destruct m]. intros m' Hm. rewrite px_player_set. by destruct (decide _). Qed.

Lemma set_player_active m p p' x : px_player m x = Some p -> ap_state p' = ap_state p -> active_ok x ->
  active_ok (px_set_player m (Some p') x).
Proof. unfold active_ok, chosen, is_playing, is_state. destruct m; cbn; intros -> ->; done. Qed.

(** What the rest of the program must promise of the playlist callback: it may
    post commands. *)
Class PlaylistLaws (X W : Type) `{!AudioDev W, !PlaylistHook X W} := {
  hk_ok : X -> Prop;
  hk_law : forall m p q x y w, px_player m x = Some p -> px_queue x = Some q -> (length q <= PLAYER_QUEUE_LEN)%nat ->
    hk_ok y -> ad_ok w ->
    wp (playlist_cb m (ap_state p)) (fun _ '(x', (y', w')) => hk_ok y' /\ ad_ok w' /\ ad_output w' = ad_output w /\
      exists q', x' = px_set_queue (Some (q ++ q'))%list x /\ Forall is_start q' /\ (length (q ++ q') <= PLAYER_QUEUE_LEN)%nat)
      (x, (y, w)) }.

(** ** Sample processing *)

Lemma resample_safe buf o : length buf = DECODEBUF -> sound_output o (length buf) -> do_sample o <> 0 ->
  exists rt size buf', ai_player_resample_process buf o (do_used_size o) = Some (rt, size, buf') /\
    0 <= size <= AI_PLAYER_DECODEBUF_SIZE /\ length buf' = length buf.
Proof.
  intros Hl [H0|(Hr & Hc & Hs & Hb & Hu)] Hne; [done|]. pose proof decodebuf_value as Hd. rewrite Hl, Hd in *.
  unfold ai_player_resample_process, AI_PLAYER_DECODEBUF_SIZE. rewrite (i32_id (do_used_size o)) by (unfold INT_MIN, INT_MAX; lia).
  if_false (lia). destruct (frames_after_count (do_samples o) (do_sample o)) as (n & Hn & Hnr & Hex); [done|nia|].
  destruct (Z.eq_dec n 0) as [->|Hpos].
  - unfold resample_to_16k_fixed, resample_fixed. unfold OUT_SR_16K in *.
    if_false (apply orb_false_iff; split; [apply orb_false_iff; split|]; lia). rewrite Hn. cbn [Z.eqb].
    do 3 eexists. split; [reflexivity|]. split; [vm_compute; intuition congruence|done].
  - destruct (resample_run (do_samples o) (do_sample o) (do_channel o) n Hr Hc ltac:(nia) ltac:(lia) Hn ltac:(lia) Hex
      buf 0) as (m' & -> & Hw); [unfold input_end; lia|by left|nia|].
    do 3 eexists. split; [reflexivity|]. split; [|pose proof (rw_length _ _ _ _ _ _ Hw); lia]. cbn [Z.eqb]. rewrite i32_id by (unfold INT_MIN, INT_MAX; nia). nia.
Qed.

Lemma volume_safe buf used volume datebits : length buf = DECODEBUF -> 0 <= used <= AI_PLAYER_DECODEBUF_SIZE ->
  0 <= volume <= PLAYER_MAX_VOLUME ->
  exists buf', ai_player_volume_process buf used volume PLAYER_MAX_VOLUME datebits = Some buf' /\ length buf' = length buf.
Proof.
  intros Hl Hu Hv. unfold ai_player_volume_process, AI_PLAYER_DECODEBUF_SIZE, PLAYER_MAX_VOLUME in *. pose proof decodebuf_value.
  destruct (negb _); [by exists buf|]. pose proof (Z.mul_div_le used 2 ltac:(lia)). pose proof (Z.div_pos used 2 ltac:(lia) ltac:(lia)).
  rewrite i32_id by (unfold INT_MIN, INT_MAX; lia).
  destruct (volume_loop_spec volume 100 (Z.to_nat (used / 2)) 0 buf) as (buf' & Hrun & Hw); [lia..|]. exists buf'. split; [done|apply Hw].
Qed.

Lemma copy_in_some dst src at_ : (at_ + length src <= length dst)%nat -> exists buf, copy_in dst src at_ = Some buf /\ length buf = length dst.
Proof.
  intros H. unfold copy_in. if_true (by apply Nat.leb_le). eexists. split; [reflexivity|].
  rewrite !length_app, length_take, length_drop. lia.
Qed.

Lemma memmove_safe dst src off n : (off + n <= length src)%nat -> (n <= length dst)%nat ->
  exists buf, memmove dst src off n = Some buf /\ length buf = length dst.
Proof.
  intros H1 H2. unfold memmove. if_true (apply andb_true_iff; split; by apply Nat.leb_le). eexists. split; [reflexivity|].
  rewrite length_app, length_take, !length_drop. lia.
Qed.

(** ** Streaming *)

Section Streaming.
Context {X W : Type} `{AL : AudioDevLaws W} `{HK : !PlaylistHook X W} `{HL : !PlaylistLaws X W}.
Implicit Types (x : AI_PLAYER_CTX_T) (y : X) (w : W).

(** The context with the player [m] in the state [p]. *)
Lemma mod_at m f p (Q : unit -> AI_PLAYER_CTX_T * (X * W) -> Prop) x y w :
  Q tt (px_set_player m (Some (f p)) x, (y, w)) -> wp (mod_player m f) Q (px_set_player m (Some p) x, (y, w)).
Proof. intros H. eapply mod_player_wp; [apply px_player_set_eq|]. by rewrite px_set_player_twice. Qed.

Lemma get_at m p (Q : AI_PLAYER_T -> AI_PLAYER_CTX_T * (X * W) -> Prop) x y w :
  Q p (px_set_player m (Some p) x, (y, w)) -> wp (get_player m) Q (px_set_player m (Some p) x, (y, w)).
Proof. intros H. eapply get_player_wp; [apply px_player_set_eq|done]. Qed.

Lemma px_set_player_id m p x : px_player m x = Some p -> px_set_player m (Some p) x = x.
Proof. destruct x, m; cbn; by intros ->. Qed.

Lemma wp_enter {A} m p (mm : C (AI_PLAYER_CTX_T * (X * W)) A) Q x y w : px_player m x = Some p ->
  wp mm Q (px_set_player m (Some p) x, (y, w)) -> wp mm Q (x, (y, w)).
Proof. intros Hp. by rewrite px_set_player_id. Qed.

(** One player was worked on, in its state. *)
Definition worked (m : AI_PLAYER_MODE_E) (p : AI_PLAYER_T) x (s' : AI_PLAYER_CTX_T * (X * W)) y : Prop :=
  exists p' w', s' = (px_set_player m (Some p') x, (y, w')) /\ player_ok p' /\ ap_state p' = ap_state p /\ ad_ok w'.

Lemma worked_intro m p p' x w' y : player_ok p' -> ap_state p' = ap_state p -> ad_ok w' ->
  worked m p x (px_set_player m (Some p') x, (y, w')) y.
Proof. intros. by exists p', w'. Qed.

Ltac at_step := lazymatch goal with
  | |- wp (mod_player _ _) _ _ => apply mod_at
  | |- wp (get_player _) _ _ => apply get_at
  | |- wp get_ctx _ _ => tm_step
  | |- wp _ _ _ => wp_step
  end; cbv beta.

Ltac player_tac := split; cbn; unfold AI_PLAYER_FRAMEBUF_SIZE, AI_PLAYER_DECODEBUF_SIZE, PLAYER_MAX_VOLUME in *; lia.

Lemma take_offset p : player_ok p -> Z.of_nat (length (take (Z.to_nat (ap_offset p)) (ap_framebuf p))) = ap_offset p.
Proof. intros []. rewrite length_take. unfold AI_PLAYER_FRAMEBUF_SIZE in *. lia. Qed.

(** What the decoder leaves of the input moves to the front. *)
Lemma keep_input p rt is_eof : player_ok p -> 0 <= rt <= ap_offset p ->
  exists framebuf, (if (0 <? rt) && negb ((rt =? ap_offset p) && is_eof)
      then if rt <=? ap_offset p then memmove (ap_framebuf p) (ap_framebuf p) (Z.to_nat (ap_offset p - rt)) (Z.to_nat rt) else None
      else Some (ap_framebuf p)) = Some framebuf /\ length framebuf = length (ap_framebuf p) /\
    0 <= (if (0 <? rt) && negb ((rt =? ap_offset p) && is_eof) then rt else 0) <= AI_PLAYER_FRAMEBUF_SIZE.
Proof.
  intros [] Hrt. unfold AI_PLAYER_FRAMEBUF_SIZE in *. destruct (_ && _); [|exists (ap_framebuf p); split_and!; (done || lia)].
  if_true (lia). destruct (memmove_safe (ap_framebuf p) (ap_framebuf p) (Z.to_nat (ap_offset p - rt)) (Z.to_nat rt)) as (b & Hb & Hl);
    [lia..|]. exists b. split_and!; (done || lia).
Qed.

Lemma decode_levels_safe m p o x y w : player_ok p -> ad_ok w -> sound_output o DECODEBUF -> do_sample o <> 0 ->
  wp (let* decode_buf := cpure (if negb (ap_volume p =? PLAYER_MAX_VOLUME)
        then ai_player_volume_process (ap_decode_buf p) (do_used_size o) (ap_volume p) PLAYER_MAX_VOLUME (do_datebits o)
        else Some (ap_decode_buf p)) in
      let* _ := mod_player m (ap_set_decode decode_buf (do_used_size o)) in
      let* x := get_ctx in
      if (do_channel o =? pc_channel (px_cfg x)) && (do_sample o =? pc_sample (px_cfg x)) && (do_datebits o =? pc_datebits (px_cfg x))
      then cret OPRT_OK
      else
        let* (rt, size, decode_buf) := cpure (ai_player_resample_process decode_buf o (do_used_size o)) in
        let* _ := mod_player m (ap_set_decode decode_buf (u32 size)) in
        cret rt) (fun _ s' => worked m p x s' y) (px_set_player m (Some p) x, (y, w)).
Proof.
  intros Hp Hw Ho Hne. pose proof Hp as []. pose proof decodebuf_value. destruct Ho as [?|Ho]; [done|].
  assert (Hu : 0 <= do_used_size o <= AI_PLAYER_DECODEBUF_SIZE) by (unfold AI_PLAYER_DECODEBUF_SIZE; lia).
  assert (Hv : exists buf, (if negb (ap_volume p =? PLAYER_MAX_VOLUME)
        then ai_player_volume_process (ap_decode_buf p) (do_used_size o) (ap_volume p) PLAYER_MAX_VOLUME (do_datebits o)
        else Some (ap_decode_buf p)) = Some buf /\ length buf = DECODEBUF).
  { destruct (negb _); [|by eexists]. destruct (volume_safe (ap_decode_buf p) (do_used_size o) (ap_volume p) (do_datebits o)) as (b & Hb & Hl);
      [done..|]. exists b. split; [done|lia]. }
  destruct Hv as (buf & Hrun & Hl). apply wp_bind. eapply wp_pure; [exact Hrun|]. repeat at_step. destruct (_ && _).
  - at_step. apply worked_intro; [player_tac|done|done].
  - destruct (resample_safe buf o) as (rt & size & buf' & Hr & Hs & Hl'); [done|right; rewrite Hl; exact Ho|done|].
    apply wp_bind. eapply wp_pure; [exact Hr|]. cbv beta iota. repeat at_step. rewrite u32_id by (unfold is_u32, AI_PLAYER_DECODEBUF_SIZE in *; lia).
    apply worked_intro; [player_tac|done|done].
Qed.

Lemma streaming_decode_safe m is_eof p x y w : player_ok p -> ad_ok w ->
  wp (streaming_decode m is_eof) (fun _ s' => worked m p x s' y) (px_set_player m (Some p) x, (y, w)).
Proof.
  intros Hp Hw. pose proof Hp as []. pose proof (take_offset _ Hp). unfold streaming_decode. repeat at_step.
  eapply wp_aquiet; [apply ad_decoder_law|done|].
  intros [[rt buf] o] w' Hw' _ (Hrt & Hbuf & Ho). repeat at_step. set (rt' := if (_ || _) then _ else rt).
  assert (Hrt' : rt' <= ap_offset p) by (unfold rt', OPRT_OK; case_match; lia).
  destruct (Z.ltb_spec rt' 0).
  { repeat at_step. apply worked_intro; [player_tac|done|done]. }
  destruct (keep_input p rt' is_eof Hp ltac:(lia)) as (fb & Hfb & Hlfb & Hoff). apply wp_bind. eapply wp_pure; [exact Hfb|].
  repeat at_step. set (p2 := ap_set_frame _ _ _). assert (Hp2 : player_ok p2) by player_tac.
  destruct (Z.eqb_spec (do_sample o) 0); [at_step; by apply worked_intro|].
  eapply wp_mono; [apply (decode_levels_safe m p2 o); [done|done|congruence|done]|].
  intros rt2 s' (p3 & w3 & -> & ? & Hst & ?). by exists p3, w3.
Qed.

(** *** Stopping and switching *)

Definition safe (s : AI_PLAYER_CTX_T * (X * W)) : Prop := service_ok s.1 /\ is_Some (px_queue s.1) /\ hk_ok s.2.1 /\ ad_ok s.2.2.

(** Before the switch, the active player may be out of date. *)
Definition active_sync x : Prop := px_is_playing x = bool_decide (is_Some (px_active_player x)).
Definition unswitched (s : AI_PLAYER_CTX_T * (X * W)) : Prop :=
  ctx_ok s.1 /\ active_sync s.1 /\ is_Some (px_queue s.1) /\ hk_ok s.2.1 /\ ad_ok s.2.2.

Lemma safe_unswitched s : safe s -> unswitched s.
Proof. intros ([? [Ha Hp]] & ? & ? & ?). split; [done|]. split; [by unfold active_sync; rewrite Hp, Ha|done]. Qed.

Lemma queue_some x : ctx_ok x -> is_Some (px_queue x) -> exists q, px_queue x = Some q /\ (length q <= PLAYER_QUEUE_LEN)%nat.
Proof. intros [Hq _ _ _ _] [q Hr]. rewrite Hr in Hq. by exists q. Qed.

Lemma set_queue_ctx q x : ctx_ok x -> (length q <= PLAYER_QUEUE_LEN)%nat -> ctx_ok (px_set_queue (Some q) x).
Proof. by intros [] ?; split. Qed.

Lemma set_queue_kept q q' x : px_queue x = Some q -> Forall is_start q' -> kept x (px_set_queue (Some (q ++ q')) x).
Proof. intros Hq Hs. split; try done. intros q1 Hq1. exists q'. split; [cbn; congruence|done]. Qed.

Lemma restarted_ok st p : player_ok p -> player_ok (ap_restart st p).
Proof. intros []. player_tac. Qed.

(** The context after a stop whose callback posts [q']. *)
Definition stopped m p q q' x := px_set_queue (Some (q ++ q')) (px_set_player m (Some (ap_restart AI_PLAYER_STOPPED p)) x).

(** Stopping, with what the callback does as a parameter. *)
Lemma stop_with_callback (R : X -> list AI_PLAYER_MSG_T -> Prop) m p q x y w : px_player m x = Some p -> px_queue x = Some q -> ad_ok w ->
  (forall w', ad_ok w' -> ad_output w' = ad_output w ->
     wp (if ap_playlist p then playlist_cb m AI_PLAYER_STOPPED else cret tt)
       (fun _ s' => exists y' q' w', s' = (stopped m p q q' x, (y', w')) /\ ad_ok w' /\ ad_output w' = ad_output w /\ R y' q')
       (px_set_player m (Some (ap_restart AI_PLAYER_STOPPED p)) x, (y, w'))) ->
  wp (__cmd_player_stop m) (fun rt s' => rt = OPRT_OK /\
    exists y' q' w', s' = (stopped m p q q' x, (y', w')) /\ ad_ok w' /\ ad_output w' = ad_output w /\ R y' q') (x, (y, w)).
Proof.
  intros Hp Hq Hw Hcb. unfold __cmd_player_stop. apply wp_bind. eapply wp_aquiet; [apply ad_stop_law|done|]. intros [] w1 Hw1 Ho1 _.
  apply wp_bind. eapply wp_aquiet; [apply ad_decoder_stop_law|done|]. intros [] w2 Hw2 Ho2 _.
  apply wp_bind. eapply mod_player_wp; [done|]. apply wp_bind, get_at. cbn [ap_playlist ap_restart ap_state].
  apply wp_bind. eapply wp_mono; [apply Hcb; [done|congruence]|]. intros [] s' (y3 & q' & w3 & -> & Hw3 & Ho3 & HR).
  do 3 tm_step. eapply (wp_mono _ (fun _ s' => exists w4, s' = (stopped m p q q' x, (y3, w4)) /\ ad_ok w4 /\ ad_output w4 = ad_output w)).
  { destruct (px_decoder_mode _); [wp_step; eauto|]. eapply wp_aquiet; [apply ad_consumer_stop_law|done|].
    intros [] w4 ? ? _. exists w4. split_and!; congruence. }
  intros [] s' (w4 & -> & Hw4 & Ho4). apply wp_bind. eapply get_player_wp; [by destruct m|]. apply wp_bind.
  eapply wp_aquiet; [apply ad_publish_law|done|]. intros [] w5 Hw5 Ho5 _. wp_step. split; [done|].
  exists y3, q', w5. do 2 (split; [done|]). split; [congruence|done].
Qed.

Lemma player_stop_wp m p x y w : unswitched (x, (y, w)) -> px_player m x = Some p ->
  wp (__cmd_player_stop m) (fun rt s' => rt = OPRT_OK /\ hk_ok s'.2.1 /\ ad_ok s'.2.2 /\ ad_output s'.2.2 = ad_output w /\
    exists q q', px_queue x = Some q /\ Forall is_start q' /\ (length (q ++ q') <= PLAYER_QUEUE_LEN)%nat /\
      s'.1 = stopped m p q q' x) (x, (y, w)).
Proof.
  intros (Hc & _ & Hr & Hy & Hw) Hp. destruct (queue_some x Hc Hr) as (q & Hq & Hlq). cbn [fst snd] in *.
  eapply wp_mono; [apply (stop_with_callback (fun y' q' => hk_ok y' /\ Forall is_start q' /\ (length (q ++ q') <= PLAYER_QUEUE_LEN)%nat) m p q);
    [done..|]|].
  - intros w1 Hw1 Ho1. destruct (ap_playlist p).
    + eapply wp_mono; [apply (hk_law m (ap_restart AI_PLAYER_STOPPED p) q); [apply px_player_set_eq|by destruct m|done..]|].
      intros [] (x' & y' & w') (Hy' & Hw' & Ho' & q' & -> & Hst & Hl). exists y', q', w'. do 2 (split; [done|]). split; [congruence|done].
    + wp_step. exists y, [], w1. unfold stopped. rewrite app_nil_r. split; [|done]. f_equal. destruct x, m; cbn in *; by subst.
  - intros rt s' (-> & y' & q' & w' & -> & Hw' & Ho' & Hy' & Hst & Hl). do 4 (split; [done|]). by exists q, q'.
Qed.

Lemma switch_wp x y w : active_sync x -> ad_ok w ->
  wp __switch_player_mode (fun _ s' => exists t w', s' = (px_set_active (chosen x) (bool_decide (is_Some (chosen x))) t x, (y, w')) /\
    ad_ok w' /\ ad_output w' = ad_output w) (x, (y, w)).
Proof.
  intros Hs Hw. unfold __switch_player_mode. do 2 tm_step.
  change (if is_state AI_PLAYER_PLAYING (px_fg x) then _ else _) with (chosen x). wp_step.
  apply (wp_mono _ (fun _ s' => exists w', s' = (px_set_active (chosen x) (bool_decide (is_Some (chosen x))) (px_msg_timeout x) x, (y, w')) /\
    ad_ok w' /\ ad_output w' = ad_output w)).
  - destruct (chosen x) as [m|] eqn:Hch.
    + destruct (bool_decide (px_active_player x = Some m)) eqn:Hact.
      { apply bool_decide_eq_true in Hact. wp_step. exists w. split; [|done]. f_equal. unfold active_sync in Hs. rewrite Hact in Hs. destruct x; cbn in *. by subst. }
      wp_step. apply (wp_mono _ (fun _ s' => exists w', s' = (x, (y, w')) /\ ad_ok w' /\ ad_output w' = ad_output w)).
      { destruct (_ && _); [|wp_step; by exists w]. eapply wp_aquiet; [apply ad_consumer_start_law|done|]. intros [] w1 ? ? _. by exists w1. }
      intros [] s' (w1 & -> & ? & ?). tm_step. by exists w1.
    + wp_step. apply (wp_mono _ (fun _ s' => exists w', s' = (x, (y, w')) /\ ad_ok w' /\ ad_output w' = ad_output w)).
      { destruct (_ && _); [|wp_step; by exists w]. eapply wp_aquiet; [apply ad_consumer_stop_law|done|]. intros [] w1 ? ? _. by exists w1. }
      intros [] s' (w1 & -> & ? & ?). tm_step. by exists w1.
  - intros [] s' (w' & -> & ? & ?). tm_step. by do 2 eexists.
Qed.

Lemma set_active_kept a b t x : kept x (px_set_active a b t x).
Proof. same_kept. Qed.

Lemma set_active_ok t x : ctx_ok x -> service_ok (px_set_active (chosen x) (bool_decide (is_Some (chosen x))) t x).
Proof. intros []. split; [|done]. by split. Qed.

Lemma switch_safe x y w : unswitched (x, (y, w)) ->
  wp __switch_player_mode (fun _ s' => safe s' /\ kept x s'.1 /\ ad_output s'.2.2 = ad_output w) (x, (y, w)).
Proof.
  intros (Hc & Hs & Hr & Hy & Hw). eapply wp_mono; [by apply switch_wp|]. intros [] s' (t & w' & -> & Hw' & Ho). cbn [fst snd] in *.
  split; [split; [by apply set_active_ok|done]|]. split; [apply set_active_kept|done].
Qed.

Lemma stop_unswitched m p x y w : unswitched (x, (y, w)) -> px_player m x = Some p ->
  wp (__cmd_player_stop m) (fun rt s' => rt = OPRT_OK /\ unswitched s' /\ kept x s'.1 /\ ad_output s'.2.2 = ad_output w) (x, (y, w)).
Proof.
  intros Hu Hp. eapply wp_mono; [by apply (player_stop_wp m p)|]. intros rt [x' [y' w']] (-> & Hy & Hw & Ho & q & q' & Hq & Hst & Hl & Hx).
  cbn [fst snd] in *. subst x'. unfold stopped. split; [done|]. destruct Hu as (Hc & Hs & Hr & _ & _). cbn [fst snd] in *.
  assert (Hpo : player_ok p) by (pose proof (co_players _ Hc m) as H; by rewrite Hp in H). split; [split; [|split; [|split; [|done]]]|split; [|done]].
  - apply set_queue_ctx; [|done]. apply set_player_ctx; [done|]. by apply restarted_ok.
  - by destruct m.
  - by destruct m.
  - etransitivity; [apply set_player_kept|apply set_queue_kept; [by destruct m|done]].
Qed.

Lemma stop_switch_safe m p x y w : unswitched (x, (y, w)) -> px_player m x = Some p ->
  wp (let* _ := __cmd_player_stop m in __switch_player_mode)
    (fun _ s' => safe s' /\ kept x s'.1 /\ ad_output s'.2.2 = ad_output w) (x, (y, w)).
Proof.
  intros Hu Hp. apply wp_bind. eapply wp_mono; [by apply (stop_unswitched m p)|]. intros rt [x' [y' w']] (_ & Hu' & Hk & Ho).
  eapply wp_mono; [by apply switch_safe|]. cbn [fst snd] in *. intros [] s' (? & ? & ?). split; [done|]. split; [by etransitivity|congruence].
Qed.

(** *** Reading one source *)

(** A piece of a round: the context stays safe, the players stay. *)
Definition piece x (s' : AI_PLAYER_CTX_T * (X * W)) : Prop := safe s' /\ kept x s'.1.

Lemma worked_safe m p x y w s' : safe (x, (y, w)) -> px_player m x = Some p -> worked m p x s' y ->
  piece x s' /\ px_active_player s'.1 = px_active_player x.
Proof.
  intros ([Hc Ha] & Hr & Hy & Hw) Hp (p' & w' & -> & Hp' & Hst & Hw'). cbn [fst snd] in *. split; [split|by destruct m].
  - split; [split; [by apply set_player_ctx|by eapply set_player_active]|]. split; [by destruct m|done].
  - apply set_player_kept.
Qed.

Lemma source_safe m p x y w : safe (x, (y, w)) -> px_player m x = Some p ->
  wp (__handle_player_streaming_source m)
    (fun rt s' => piece x s' /\ (rt <> OPRT_OK -> px_active_player s'.1 = px_active_player x)) (x, (y, w)).
Proof.
  intros Hs Hp. pose proof Hs as ([Hc _] & _ & _ & Hw). cbn [fst snd] in *.
  assert (Hpo : player_ok p) by (pose proof (co_players _ Hc m) as H; by rewrite Hp in H). pose proof Hpo as [].
  assert (Hgo : forall rt s', worked m p x s' y -> piece x s' /\ (rt <> OPRT_OK -> px_active_player s'.1 = px_active_player x)).
  { intros rt s' Hwk. destruct (worked_safe _ _ _ _ _ _ Hs Hp Hwk). done. }
  unfold __handle_player_streaming_source. apply (wp_enter m p); [done|]. repeat at_step. cbn [ap_has_pending_output ap_set_decode ap_offset].
  apply (wp_mono _ (fun r s' => exists w', s' = (px_set_player m (Some (ap_set_decode (ap_decode_buf p) 0 p)) x, (y, w')) /\ ad_ok w' /\
     Z.of_nat (length (snd r)) <= AI_PLAYER_FRAMEBUF_SIZE - ap_offset p)).
  { destruct (ap_has_pending_output p); [wp_step; exists w; split_and!; [done|done|cbn; lia]|].
    eapply wp_aquiet; [apply ad_read_law; lia|done|]. intros r w' ? _ ?. by exists w'. }
  intros [rt bytes] s' (w1 & -> & Hw1 & Hlen). cbv beta iota. cbn [snd] in Hlen. set (p1 := ap_set_decode _ _ p).
  destruct (_ && _); [wp_step; apply Hgo, worked_intro; [player_tac|done|done]|].
  set (bytes' := if rt =? OPRT_NOT_FOUND then [] else bytes).
  assert (Hlen' : Z.of_nat (length bytes') <= AI_PLAYER_FRAMEBUF_SIZE - ap_offset p) by (unfold bytes'; case_match; cbn; lia).
  destruct (copy_in_some (ap_framebuf p) bytes' (Z.to_nat (ap_offset p))) as (fb & Hfb & Hlfb); [lia|].
  apply wp_bind. eapply wp_pure; [exact Hfb|]. apply wp_bind, mod_at, wp_bind, get_at.
  set (p2 := ap_set_frame fb _ p1). assert (Hp2 : player_ok p2).
  { split; cbn; try (done || lia). rewrite u32_id; unfold is_u32, AI_PLAYER_FRAMEBUF_SIZE in *; lia. }
  assert (Hst2 : ap_state p2 = ap_state p) by done. clearbody p2. destruct (_ && _).
  - apply wp_bind. destruct (rt =? OPRT_NOT_FOUND).
    + eapply wp_mono; [apply (stop_switch_safe m p2); [|apply px_player_set_eq]|].
      * apply safe_unswitched. by eapply (Hgo 0), worked_intro.
      * intros [] s' (Hs' & Hk & _). wp_step. split; [split; [done|]|done]. etransitivity; [apply set_player_kept|exact Hk].
    + do 2 wp_step. by apply Hgo, worked_intro.
  - do 2 tm_step. destruct (negb _).
    + destruct (memmove_safe (ap_decode_buf p2) (ap_framebuf p2) 0 (Z.to_nat (Z.min (ap_offset p2) AI_PLAYER_DECODEBUF_SIZE))) as (db & Hdb & Hldb).
      { destruct Hp2. lia. }
      { destruct Hp2. pose proof decodebuf_value. unfold AI_PLAYER_DECODEBUF_SIZE in *. lia. }
      apply wp_bind. eapply wp_pure; [exact Hdb|]. repeat at_step. apply Hgo, worked_intro; [|done|done]. destruct Hp2. player_tac.
    + eapply wp_mono; [by apply streaming_decode_safe|]. intros rt' s' (p3 & w3 & -> & Hp3 & Hst & Hw3). apply Hgo, worked_intro; [done|congruence|done].
Qed.

(** *** Mixing *)

Lemma mix_into_safe m src k p rest (Q : unit -> AI_PLAYER_CTX_T * (X * W) -> Prop) x y w :
  ad_ok w -> px_player m x = Some p -> player_ok p -> length src = DECODEBUF -> 0 <= k -> k * 2 <= AI_PLAYER_DECODEBUF_SIZE ->
  (forall buf w', ad_ok w' -> length buf = DECODEBUF ->
     wp rest Q (px_set_player m (Some (ap_set_decode buf (ap_decode_size p) p)) x, (y, w'))) ->
  wp (let* _ := mix_into m src k in let* _ := write_mixed m k in rest) Q (x, (y, w)).
Proof.
  intros Hw Hp [] Hs Hk Hk2 HQ. unfold AI_PLAYER_DECODEBUF_SIZE in *. pose proof decodebuf_value.
  apply (wp_enter m p); [done|]. unfold mix_into, write_mixed.
  destruct (mixer_spec src (ap_decode_buf p) k) as (buf & Hb & Hr); [lia..|].
  do 2 apply wp_bind. apply get_at, wp_bind. eapply wp_pure; [exact Hb|]. apply mod_at. do 2 apply wp_bind. apply get_at, write_wrap_wp; [done|].
  intros w' Hw' _. apply HQ; [done|]. pose proof (rw_length _ _ _ _ _ _ Hr). lia.
Qed.

Lemma keep_rest_safe src off n flag b (Q : unit -> AI_PLAYER_CTX_T * (X * W) -> Prop) x y w :
  px_mixer_buf x = Some b -> length b = DECODEBUF -> length src = DECODEBUF -> 0 <= off -> 0 <= n -> off + n <= AI_PLAYER_DECODEBUF_SIZE ->
  (forall b' fl, length b' = DECODEBUF -> Q tt (px_set_mixer (Some b') n fl x, (y, w))) ->
  wp (keep_rest src off n flag) Q (x, (y, w)).
Proof.
  intros Hb Hl Hs Ho Hn Hon HQ. unfold keep_rest, AI_PLAYER_DECODEBUF_SIZE in *. pose proof decodebuf_value. destruct (n =? 0).
  - tm_steps. rewrite Hb. by apply HQ.
  - tm_steps. rewrite Hb. destruct (memmove_safe b src (Z.to_nat off) (Z.to_nat n)) as (b' & Hm & Hl'); [lia..|].
    eapply wp_pure; [done|]. tm_steps. apply HQ. lia.
Qed.

(** What mixing changes. *)
Lemma mixed_piece m p buf b n fl x y w w' : safe (x, (y, w)) -> px_player m x = Some p -> player_ok p -> length buf = DECODEBUF ->
  length b = DECODEBUF -> 0 <= n <= AI_PLAYER_DECODEBUF_SIZE -> ad_ok w' ->
  piece x (px_set_mixer (Some b) n fl (px_set_player m (Some (ap_set_decode buf (ap_decode_size p) p)) x), (y, w')).
Proof.
  intros Hs Hp Hpo Hl Hb Hn Hw'. destruct (worked_safe m p x y w (px_set_player m (Some (ap_set_decode buf (ap_decode_size p) p)) x, (y, w')) Hs Hp)
    as [[([Hc Ha] & Hr & Hy & _) Hk] _].
  { apply worked_intro; [destruct Hpo; player_tac|done|done]. }
  cbn [fst snd] in *. split; [|split; by destruct Hk]. split; [|done]. split; [|done]. destruct Hc. split; try done.
  cbn [px_mixer_mode px_set_mixer px_mixer_buf]. destruct (px_mixer_mode _); [by eexists|done].
Qed.

Lemma mixer_has_buf x : ctx_ok x -> px_mixer_mode x = true -> exists b, px_mixer_buf x = Some b /\ length b = DECODEBUF.
Proof. intros [_ _ Hm Hb _] Hmm. rewrite Hmm in Hm. destruct Hm as [b Hm]. exists b. rewrite Hm in Hb. done. Qed.

Lemma safe_player m p x y w : safe (x, (y, w)) -> px_player m x = Some p -> player_ok p.
Proof. intros ([Hc _] & _) Hp. cbn [fst] in Hc. pose proof (co_players _ Hc m) as H. by rewrite Hp in H. Qed.

Lemma half_bounds n : 0 <= n -> 0 <= n / 2 /\ n / 2 * 2 <= n.
Proof. intros H. pose proof (Z.mul_div_le n 2). pose proof (Z.div_pos n 2). lia. Qed.

Lemma mix_with_rest_safe m own other p x y w : safe (x, (y, w)) -> px_player m x = Some p -> px_mixer_mode x = true ->
  wp (mix_with_rest m own other) (fun _ s' => piece x s') (x, (y, w)).
Proof.
  intros Hs Hp Hmm. pose proof (safe_player _ _ _ _ _ Hs Hp) as Hpo. pose proof Hs as ([Hc _] & _ & _ & Hw). cbn [fst snd] in *.
  destruct (mixer_has_buf x Hc Hmm) as (b & Hb & Hl). pose proof (co_rest _ Hc) as Hrest. pose proof (po_size _ Hpo).
  unfold mix_with_rest. apply wp_bind. eapply get_player_wp; [done|]. do 2 tm_step. rewrite Hb. cbn [default from_option id].
  set (least := if _ <=? _ then _ else _). assert (Hleast : 0 <= least /\ least <= px_mixer_offset x /\ least <= ap_decode_size p)
    by (unfold least; case_match; lia). destruct (half_bounds least ltac:(lia)).
  eapply mix_into_safe; [done..|lia|]. intros buf w' Hw' Hbuf. unfold least in *. destruct (Z.leb_spec (px_mixer_offset x) (ap_decode_size p)).
  - apply wp_bind, get_at. cbn [ap_decode_buf ap_set_decode]. eapply keep_rest_safe; [by destruct m|done|done|lia|lia|lia|].
    intros b' fl Hb'. eapply mixed_piece; [exact Hs|done|done|done|done|lia|done].
  - do 2 tm_step. replace (px_mixer_buf (px_set_player m _ x)) with (px_mixer_buf x) by (by destruct m). rewrite Hb. cbn [default from_option id].
    eapply keep_rest_safe; [by destruct m|done|done|lia|lia|lia|]. intros b' fl Hb'. eapply mixed_piece; [exact Hs|done|done|done|done|lia|done].
Qed.

Lemma mix_both_safe fg bg x y w : safe (x, (y, w)) -> px_fg x = Some fg -> px_bg x = Some bg -> px_mixer_mode x = true ->
  wp mix_both (fun _ s' => piece x s') (x, (y, w)).
Proof.
  intros Hs Hf Hb Hmm. pose proof (safe_player AI_PLAYER_MODE_FOREGROUND _ _ _ _ Hs Hf) as Hfo.
  pose proof (safe_player AI_PLAYER_MODE_BACKGROUND _ _ _ _ Hs Hb) as Hbo. pose proof Hs as ([Hc _] & _ & _ & Hw). cbn [fst snd] in *.
  destruct (mixer_has_buf x Hc Hmm) as (b & Hmb & Hl). pose proof (po_size _ Hfo). pose proof (po_size _ Hbo).
  unfold mix_both. apply wp_bind. eapply get_player_wp; [done|]. apply wp_bind. eapply get_player_wp; [done|].
  set (least := if _ <=? _ then _ else _). assert (Hleast : 0 <= least /\ least <= ap_decode_size bg /\ least <= ap_decode_size fg)
    by (unfold least; case_match; lia). destruct (half_bounds least ltac:(lia)).
  eapply mix_into_safe; [done|done|done|apply Hbo|lia|lia|]. intros buf w' Hw' Hbuf. unfold least in *.
  destruct (Z.leb_spec (ap_decode_size bg) (ap_decode_size fg)); apply wp_bind.
  - apply get_at. eapply keep_rest_safe; [done|done|done|lia|lia|lia|]. intros b' fl Hb'.
    eapply (mixed_piece AI_PLAYER_MODE_FOREGROUND); [exact Hs|done|done|done|done|lia|done].
  - eapply get_player_wp; [done|]. eapply keep_rest_safe; [done|done|apply Hbo|lia|lia|lia|]. intros b' fl Hb'.
    eapply (mixed_piece AI_PLAYER_MODE_FOREGROUND); [exact Hs|done|done|done|done|lia|done].
Qed.

(** *** A round *)

Lemma piece_bind {A B} (m : C (AI_PLAYER_CTX_T * (X * W)) A) (k : A -> C (AI_PLAYER_CTX_T * (X * W)) B) x y w :
  wp m (fun _ s' => piece x s') (x, (y, w)) ->
  (forall a x1 y1 w1, safe (x1, (y1, w1)) -> kept x x1 -> wp (k a) (fun _ s' => piece x1 s') (x1, (y1, w1))) ->
  wp (cbind m k) (fun _ s' => piece x s') (x, (y, w)).
Proof.
  intros Hm Hk. apply wp_bind. eapply wp_mono; [exact Hm|]. intros a [x1 [y1 w1]] [Hs Hk1]. cbn [fst] in Hk1.
  eapply wp_mono; [by apply Hk|]. intros b s' [? ?]. split; [done|]. by etransitivity.
Qed.

Lemma piece_ret {A} (a : A) x y w : safe (x, (y, w)) -> wp (cret a) (fun _ s' => piece x s') (x, (y, w)).
Proof. intros Hs. wp_step. split; [done|reflexivity]. Qed.

Lemma piece_get {A} (f : AI_PLAYER_CTX_T -> C (AI_PLAYER_CTX_T * (X * W)) A) x y w :
  wp (f x) (fun _ s' => piece x s') (x, (y, w)) -> wp (let* x := get_ctx in f x) (fun _ s' => piece x s') (x, (y, w)).
Proof. intros H. by do 2 tm_step. Qed.

Lemma source_piece m x y w : safe (x, (y, w)) -> is_Some (px_player m x) ->
  wp (__handle_player_streaming_source m) (fun _ s' => piece x s') (x, (y, w)).
Proof. intros Hs [p Hp]. eapply wp_mono; [by eapply source_safe|]. by intros rt s' [? _]. Qed.

Lemma write_raw_piece m x y w : safe (x, (y, w)) -> is_Some (px_player m x) -> wp (write_raw m) (fun _ s' => piece x s') (x, (y, w)).
Proof.
  intros Hs [p Hp]. pose proof Hs as (_ & _ & _ & Hw). cbn [fst snd] in Hw. unfold write_raw. apply wp_bind. eapply get_player_wp; [done|].
  destruct (_ =? 0); [by apply piece_ret|]. apply wp_bind. apply write_wrap_wp; [done|]. intros w' Hw' _.
  eapply mod_player_wp; [done|]. eapply worked_safe; [exact Hs|done|]. apply worked_intro; [|done|done].
  destruct (safe_player _ _ _ _ _ Hs Hp). player_tac.
Qed.

Lemma handle_mix_piece f b x y w : safe (x, (y, w)) -> is_Some (px_fg x) -> is_Some (px_bg x) -> px_mixer_mode x = true ->
  wp (__handle_player_streaming_mix f b) (fun _ s' => piece x s') (x, (y, w)).
Proof.
  intros Hs [fg Hf] [bg Hb] Hm. unfold __handle_player_streaming_mix. apply piece_bind; [|intros; by apply piece_ret].
  destruct f, b; cbn [andb]; [by eapply mix_both_safe|by eapply (mix_with_rest_safe AI_PLAYER_MODE_FOREGROUND)|
    by eapply (mix_with_rest_safe AI_PLAYER_MODE_BACKGROUND)|by apply piece_ret].
Qed.

Lemma streaming_mixed_piece x y w : safe (x, (y, w)) -> is_Some (px_fg x) -> is_Some (px_bg x) -> px_mixer_mode x = true ->
  wp streaming_mixed (fun rt s' => rt = OPRT_OK /\ piece x s') (x, (y, w)).
Proof.
  intros Hs Hf Hb Hm. unfold streaming_mixed. do 2 tm_step. apply wp_bind.
  eapply (wp_mono _ (fun _ s' => piece x s')); [|intros [] s' ?; by wp_step].
  destruct (_ =? 0); [|destruct (_ =? 1)].
  - apply piece_bind; [by apply source_piece|]. intros _ x1 y1 w1 Hs1 Hk1. apply piece_bind; [apply source_piece; [done|by apply Hk1]|].
    intros _ x2 y2 w2 Hs2 Hk2. pose proof (transitivity Hk1 Hk2) as Hk. apply piece_get. destruct (px_decoder_mode x2).
    + apply piece_bind; [|intros; by apply piece_ret]. apply handle_mix_piece; [done|..];
        [by apply (kp_players _ _ Hk AI_PLAYER_MODE_FOREGROUND)|by apply (kp_players _ _ Hk AI_PLAYER_MODE_BACKGROUND)|by rewrite (kp_mixer _ _ Hk)].
    + apply piece_bind; [apply write_raw_piece; [done|by apply Hk]|]. intros _ x3 y3 w3 Hs3 Hk3. apply write_raw_piece; [done|].
      by apply Hk3, Hk.
  - apply piece_bind; [by apply source_piece|]. intros rt x1 y1 w1 Hs1 Hk. apply piece_get. destruct (px_decoder_mode x1).
    + apply piece_bind; [|intros; by apply piece_ret]. apply handle_mix_piece; [done|..];
        [by apply (kp_players _ _ Hk AI_PLAYER_MODE_FOREGROUND)|by apply (kp_players _ _ Hk AI_PLAYER_MODE_BACKGROUND)|by rewrite (kp_mixer _ _ Hk)].
    + destruct (rt =? OPRT_OK); [apply write_raw_piece; [done|by apply Hk]|by apply piece_ret].
  - apply piece_bind; [by apply source_piece|]. intros rt x1 y1 w1 Hs1 Hk. apply piece_get. destruct (px_decoder_mode x1).
    + apply piece_bind; [|intros; by apply piece_ret]. apply handle_mix_piece; [done|..];
        [by apply (kp_players _ _ Hk AI_PLAYER_MODE_FOREGROUND)|by apply (kp_players _ _ Hk AI_PLAYER_MODE_BACKGROUND)|by rewrite (kp_mixer _ _ Hk)].
    + destruct (rt =? OPRT_OK); [apply write_raw_piece; [done|by apply Hk]|by apply piece_ret].
Qed.

Lemma set_mixer_safe x y w : safe (x, (y, w)) -> piece x (px_set_mixer (px_mixer_buf x) 0 0 x, (y, w)).
Proof. intros ([[] Ha] & Hrest). split; [|same_kept]. split; [|done]. split; [|done]. by split. Qed.

Lemma streaming_safe m x y w : safe (x, (y, w)) -> px_active_player x = Some m ->
  wp __handle_player_streaming (fun rt s' => piece x s' /\ (rt <> OPRT_OK -> px_active_player s'.1 = Some m)) (x, (y, w)).
Proof.
  intros Hs Hact. pose proof Hs as ([Hc [Ha _]] & _). cbn [fst] in Ha. rewrite Hact in Ha. symmetry in Ha.
  destruct (chosen_player _ _ Ha) as (p & Hp & _). unfold __handle_player_streaming. do 2 tm_step. apply wp_bind.
  eapply wp_pure; [exact Hact|]. apply wp_bind. eapply get_player_wp; [done|]. cbv zeta. destruct (_ && _ && _) eqn:Hmix.
  - apply andb_true_iff in Hmix as [[Hm Hf]%andb_true_iff Hb]. apply bool_decide_eq_true in Hf. subst m.
    eapply wp_mono; [apply streaming_mixed_piece; [done|by eexists| |done]|by intros rt s' [-> ?]].
    destruct (px_bg x); [by eexists|done].
  - clear Hmix. apply wp_bind. apply (wp_mono _ (fun _ s' => piece x s' /\ px_active_player s'.1 = Some m)).
    { destruct (_ && _); [tm_steps; split; [by apply set_mixer_safe|done]|wp_step; split; [split; [done|reflexivity]|done]]. }
    intros [] [x1 [y1 w1]] [[Hs1 Hk1] Ha1]. cbn [fst] in *. apply wp_bind.
    destruct (kp_players _ _ Hk1 m) as [p1 Hp1]; [by eexists|]. eapply wp_mono; [by apply (source_safe m p1)|].
    intros rt [x2 [y2 w2]] [[Hs2 Hk2] Hrt]. cbn [fst] in *. pose proof (transitivity Hk1 Hk2) as Hk.
    destruct (kp_players _ _ Hk2 m) as [p2 Hp2]; [by eexists|]. apply wp_bind. eapply get_player_wp; [done|]. apply wp_bind.
    pose proof Hs2 as (_ & _ & _ & Hw2). apply (wp_mono _ (fun _ s' => exists w3, s' = (x2, (y2, w3)) /\ ad_ok w3)).
    { destruct (_ && _); [|wp_step; by exists w2]. apply write_wrap_wp; [done|]. intros w3 ? _. by exists w3. }
    intros [] s' (w3 & -> & Hw3). apply wp_bind. eapply mod_player_wp; [done|]. wp_step.
    destruct (worked_safe m p2 x2 y2 w2 (px_set_player m (Some (ap_set_decode (ap_decode_buf p2) 0 p2)) x2, (y2, w3)) Hs2 Hp2) as [[Hs3 Hk3] Ha3].
    { apply worked_intro; [|done|done]. destruct (safe_player _ _ _ _ _ Hs2 Hp2). player_tac. }
    split; [split; [done|by etransitivity]|]. intros Hne. rewrite Ha3, Hrt by done. done.
Qed.

(** *** Commands *)

Lemma unswitched_player m p x y w : unswitched (x, (y, w)) -> px_player m x = Some p -> player_ok p.
Proof. intros (Hc & _) Hp. cbn [fst] in Hc. pose proof (co_players _ Hc m) as H. by rewrite Hp in H. Qed.

Lemma unswitched_set m p' x y w w' : unswitched (x, (y, w)) -> slot_ok p' -> ad_ok w' ->
  unswitched (px_set_player m p' x, (y, w')).
Proof. intros (Hc & Hs & Hq & Hy & _) Hp Hw. split; [by apply set_player_ctx|]. split; [by destruct m|]. split; [by destruct m|done]. Qed.

Lemma set_state_ok st p : player_ok p -> player_ok (ap_set_state st p).
Proof. intros []. player_tac. Qed.

(** The players that a command on [m] leaves there. *)
Definition survives (m : AI_PLAYER_MODE_E) (cmd : player_cmd) (m' : AI_PLAYER_MODE_E) : Prop :=
  match cmd with PLAYER_CMD_EXIT => m' <> m | _ => True end.

(** A command on a player ends with the player there, unless it succeeds. *)
Definition commanded (m : AI_PLAYER_MODE_E) (P : AI_PLAYER_MODE_E -> Prop) x (rt : OPERATE_RET) (s' : AI_PLAYER_CTX_T * (X * W)) : Prop :=
  unswitched s' /\ (rt <> OPRT_OK -> is_Some (px_player m s'.1)) /\ queue_grows x s'.1 /\
  px_running s'.1 = px_running x /\ forall m', P m' -> is_Some (px_player m' x) -> is_Some (px_player m' s'.1).

Lemma kept_commanded m P x rt s' : unswitched s' -> kept x s'.1 -> is_Some (px_player m x) -> commanded m P x rt s'.
Proof. intros Hu [] Hm. do 2 (split; [auto|]). do 2 (split; [done|]). auto. Qed.

Lemma start_safe m src value codec p x y w : unswitched (x, (y, w)) -> px_player m x = Some p ->
  wp (__cmd_player_start m src value codec) (fun rt s' => commanded m (fun _ => True) x rt s') (x, (y, w)).
Proof.
  intros Hu Hp. pose proof (unswitched_player _ _ _ _ _ Hu Hp) as Hpo. pose proof Hu as (Hc & Hsy & Hq & Hy & Hw). cbn [fst snd] in *.
  unfold __cmd_player_start. apply wp_bind. eapply wp_aquiet; [apply ad_start_law|done|]. intros rt w1 Hw1 _ _.
  assert (Hback : forall rt w', ad_ok w' -> commanded m (fun _ => True) x rt (x, (y, w'))).
  { intros rt' w' Hw'. apply kept_commanded; [by split|reflexivity|by eexists]. }
  destruct (negb _); [wp_step; by apply Hback|]. apply wp_bind. eapply wp_aquiet; [apply ad_decoder_start_law|done|]. intros rt2 w2 Hw2 _ _.
  destruct (negb _); [wp_step; by apply Hback|]. apply wp_bind. eapply mod_player_wp; [done|]. do 3 tm_step.
  apply (wp_mono _ (fun _ s' => exists w3, s' = (px_set_player m (Some (ap_restart AI_PLAYER_PLAYING p)) x, (y, w3)) /\ ad_ok w3)).
  { destruct (px_decoder_mode _); [wp_step; by exists w2|]. eapply wp_aquiet; [apply ad_consumer_start_law|done|]. intros _ w3 ? _ _. by exists w3. }
  intros _ s' (w3 & -> & Hw3). apply wp_bind, get_at, wp_bind. eapply wp_aquiet; [apply ad_publish_law|done|]. intros _ w4 Hw4 _ _.
  wp_step. apply kept_commanded; [|apply set_player_kept|by eexists]. eapply unswitched_set; [done|by apply restarted_ok|done].
Qed.

Lemma state_safe m st p x y w : unswitched (x, (y, w)) -> px_player m x = Some p ->
  wp (let* _ := mod_player m (ap_set_state st) in let* _ := on_audio (publish_player_state m st) in cret OPRT_OK)
    (fun rt s' => commanded m (fun _ => True) x rt s') (x, (y, w)).
Proof.
  intros Hu Hp. pose proof Hu as (_ & _ & _ & _ & Hw). apply wp_bind. eapply mod_player_wp; [done|]. apply wp_bind.
  eapply wp_aquiet; [apply ad_publish_law|done|]. intros _ w1 Hw1 _ _. wp_step.
  apply kept_commanded; [|apply set_player_kept|by eexists].
  eapply unswitched_set; [done| |done]. by eapply set_state_ok, unswitched_player.
Qed.

Lemma exit_safe m x y w : unswitched (x, (y, w)) ->
  wp (__cmd_player_exit m) (fun rt s' => commanded m (fun m' => m' <> m) x rt s') (x, (y, w)).
Proof.
  intros Hu. pose proof Hu as (_ & _ & _ & _ & Hw). unfold __cmd_player_exit. apply wp_bind.
  eapply wp_aquiet; [apply ad_deinit_law|done|]. intros _ w1 Hw1 _ _. apply wp_bind.
  eapply wp_aquiet; [apply ad_decoder_deinit_law|done|]. intros _ w2 Hw2 _ _. tm_steps. split; [by eapply unswitched_set|].
  split; [done|]. split; [apply queue_same; by destruct m|]. split; [by destruct m|]. intros m' Hm' Hp. cbn [fst]. rewrite px_player_set. by rewrite decide_False.
Qed.

Lemma set_thread_unswitched r rt x y w : unswitched (x, (y, w)) -> (r = true -> px_running x = true) ->
  unswitched (px_set_thread r rt x, (y, w)).
Proof.
  intros ([] & Hs & Hq & Hrest) Hr. split; [|done]. split; try done. cbn in *. destruct (px_queue x); [done|]. by destruct Hq.
Qed.

Lemma dispatch_safe m cmd p x y w : unswitched (x, (y, w)) -> px_player m x = Some p -> cmd <> PLAYER_CMD_SERVICE_DEINIT ->
  wp (player_dispatch m cmd) (fun _ s' => commanded m (survives m cmd) x (px_thread_rt s'.1) s') (x, (y, w)).
Proof.
  intros Hu Hp Hne.
  assert (Hrun : forall P (run : C (AI_PLAYER_CTX_T * (X * W)) OPERATE_RET), wp run (fun rt s' => commanded m P x rt s') (x, (y, w)) ->
    wp (let* rt := run in mod_ctx (fun x => px_set_thread (px_running x) rt x)) (fun _ s' => commanded m P x (px_thread_rt s'.1) s') (x, (y, w))).
  { intros P run Hrun. apply wp_bind. eapply wp_mono; [exact Hrun|]. intros rt [x1 [y1 w1]] [Hu1 Hc1]. tm_steps.
    split; [by apply set_thread_unswitched|done]. }
  destruct cmd; cbn [player_dispatch survives]; try apply Hrun.
  - by apply start_safe with p.
  - eapply wp_mono; [by apply (stop_unswitched m p)|]. intros rt s' (-> & ? & ? & _). apply kept_commanded; [done..|by eexists].
  - by apply (state_safe m AI_PLAYER_PAUSED p).
  - by apply (state_safe m AI_PLAYER_PLAYING p).
  - by apply exit_safe.
  - done.
Qed.

(** *** A round of the thread *)

Definition player_inv (s : AI_PLAYER_CTX_T * (X * W)) : Prop := service_ok s.1 /\ hk_ok s.2.1 /\ ad_ok s.2.2.

Lemma safe_inv s : safe s -> player_inv s.
Proof. by intros (? & _ & ?). Qed.

Lemma pop_unswitched msg q x y w : player_inv (x, (y, w)) -> px_queue x = Some (msg :: q) ->
  unswitched (px_set_queue (Some q) x, (y, w)).
Proof.
  intros ([Hc [Ha Hp]] & Hy & Hw) Hq. cbn [fst snd] in *. split.
  - apply set_queue_ctx; [done|]. pose proof (co_queue _ Hc) as Hl. rewrite Hq in Hl. cbn in Hl. lia.
  - split; [by unfold active_sync; cbn [px_is_playing px_set_queue fst px_active_player]; rewrite Hp, Ha|]. by split; [eexists|].
Qed.

(** Every command but the last. *)
Lemma command_step msg q x y w : player_inv (x, (y, w)) -> px_running x = true -> px_queue x = Some (msg :: q) ->
  pmsg_cmd msg <> PLAYER_CMD_SERVICE_DEINIT ->
  wp player_thread_step (fun _ s' => player_inv s' /\ (exists extra, px_queue s'.1 = Some (q ++ extra)%list /\ Forall is_start extra) /\
    px_running s'.1 = true /\
    forall m, survives (pmsg_mode msg) (pmsg_cmd msg) m -> is_Some (px_player m x) -> is_Some (px_player m s'.1)) (x, (y, w)).
Proof.
  intros Hi Hr Hq Hcmd. pose proof (pop_unswitched _ _ _ _ _ Hi Hq) as Hu. destruct msg as [m cmd]. cbn [pmsg_mode pmsg_cmd] in *.
  unfold player_thread_step. do 2 tm_step. rewrite Hr. apply wp_bind. eapply wp_pure; [exact Hq|]. cbv beta iota. do 2 tm_step. cbn [negb].
  set (x0 := px_set_queue (Some q) x) in *. unfold find_player. do 3 tm_step. cbn [pmsg_mode pmsg_cmd].
  replace (match cmd with PLAYER_CMD_SERVICE_DEINIT => true | _ => false end) with false by (by destruct cmd).
  change (px_player m x0) with (px_player m x). destruct (px_player m x) as [p|] eqn:Hp; wp_step.
  - rewrite bool_decide_true by (by eexists). cbn [negb andb]. wp_step. eapply wp_mono; [by apply (dispatch_safe m cmd p)|].
    intros [] [x1 [y1 w1]] (Hu1 & Hm1 & Hq1 & Hr1 & Hs1). cbn [fst snd] in *. do 3 tm_step.
    eapply (wp_mono _ (fun _ s' => unswitched s' /\ kept x1 s'.1)).
    { rewrite andb_true_r. destruct (Z.eqb_spec (px_thread_rt x1) OPRT_OK) as [|Hne]; cbn [negb]; [wp_step; split; [done|reflexivity]|].
      destruct (Hm1 Hne) as [p1 Hp1]. apply wp_bind. eapply wp_mono; [by apply (stop_unswitched m p1)|].
      intros rt s' (_ & ? & ? & _). by wp_step. }
    intros [] [x2 [y2 w2]] [Hu2 Hk2]. apply wp_bind. eapply wp_mono; [by apply switch_safe|]. intros [] s' (Hs' & Hk3 & _).
    wp_step. pose proof (transitivity Hk2 Hk3) as Hk. split; [by apply safe_inv|]. split.
    + assert (Hg : queue_grows x0 s'.1) by (etransitivity; [exact Hq1|apply Hk]). by apply Hg.
    + split; [rewrite (kp_running _ _ Hk), Hr1; exact Hr|]. intros m' Hm' Hx'. apply Hk, Hs1; [done|]. exact Hx'.
  - rewrite bool_decide_false by (by intros []). cbn [negb andb]. wp_step. split; [|split; [exists []; by rewrite app_nil_r|by split]].
    destruct Hu as (? & _ & _ & ?). destruct Hi as [[_ Ha] _]. by split.
Qed.

(** No command: stream, if something plays. *)
Lemma idle_step x y w : player_inv (x, (y, w)) -> px_running x = true -> px_queue x = Some [] ->
  wp player_thread_step (fun _ s' => player_inv s' /\ queue_grows x s'.1 /\ px_running s'.1 = true /\
    forall m, is_Some (px_player m x) -> is_Some (px_player m s'.1)) (x, (y, w)).
Proof.
  intros Hi Hr Hq. unfold player_thread_step. do 2 tm_step. rewrite Hr. apply wp_bind. eapply wp_pure; [exact Hq|]. cbv beta iota.
  destruct (px_is_playing x) eqn:Hpl; [|by wp_step]. pose proof Hi as ([Hc [Ha Hp]] & Hy & Hw). cbn [fst snd] in *.
  rewrite Hpl in Hp. symmetry in Hp. apply bool_decide_eq_true in Hp as [m Hm]. rewrite Hm in Ha.
  assert (Hs : safe (x, (y, w))) by (split; [apply Hi|]; split; [by eexists|done]).
  wp_step. eapply wp_mono; [by apply (streaming_safe m)|]. intros rt [x1 [y1 w1]] [[Hs1 Hk1] Hrt]. cbn [fst] in *. do 2 tm_step.
  set (x2 := px_set_thread _ rt x1). assert (Hs2 : safe (x2, (y1, w1))).
  { destruct Hs1 as ([[] ?] & ? & ?). split; [|done]. split; [by split|done]. }
  assert (Hk2 : kept x x2) by (etransitivity; [exact Hk1|]; same_kept).
  assert (Hpost : forall s', safe s' -> kept x2 s'.1 -> player_inv s' /\ queue_grows x s'.1 /\ px_running s'.1 = true /\
    forall m, is_Some (px_player m x) -> is_Some (px_player m s'.1)).
  { intros s' Hs' Hk'. split; [by apply safe_inv|]. pose proof (transitivity Hk2 Hk') as []. split; [done|]. split; [congruence|done]. }
  destruct (Z.eqb_spec rt OPRT_OK) as [|Hne]; cbn [negb]; [wp_step; by apply Hpost|].
  do 2 tm_step. apply wp_bind. eapply wp_pure; [by apply Hrt|].
  pose proof Hs as ([_ [Hact _]] & _). cbn [fst] in Hact.
  destruct (kp_players _ _ Hk2 m) as [p Hp]; [destruct (chosen_player _ _ Hm) as (? & -> & _); by eexists|].
  eapply wp_mono; [by apply (stop_switch_safe m p); [apply safe_unswitched|]|]. intros [] s' (? & ? & _). by apply Hpost.
Qed.

(** The last command frees everything. *)
Lemma exit_if_present_safe m x y w : unswitched (x, (y, w)) -> wp (exit_if_present m) (fun _ s' => unswitched s') (x, (y, w)).
Proof.
  intros Hu. unfold exit_if_present, find_player. do 4 tm_step. destruct (px_player m x); [|by wp_step].
  apply wp_bind. eapply wp_mono; [by apply exit_safe|]. intros rt s' [? _]. by wp_step.
Qed.

Lemma service_deinit_safe x y w : unswitched (x, (y, w)) ->
  wp __cmd_player_service_deinit (fun _ s' => player_inv s' /\ s'.1 = player_ctx_zero) (x, (y, w)).
Proof.
  intros Hu. unfold __cmd_player_service_deinit. apply wp_bind. eapply wp_mono; [by apply exit_if_present_safe|].
  intros [] [x1 [y1 w1]] Hu1. apply wp_bind. eapply wp_mono; [by apply exit_if_present_safe|]. intros [] [x2 [y2 w2]] (_ & _ & _ & Hy & Hw).
  apply wp_bind. eapply wp_aquiet; [apply ad_close_law|done|]. intros _ w3 Hw3 _ _. tm_steps. split; [|done]. split; [|done].
  split; [|done]. split; try done. by intros [].
Qed.

Lemma deinit_step m q x y w : player_inv (x, (y, w)) -> px_running x = true ->
  px_queue x = Some (mk_pmsg m PLAYER_CMD_SERVICE_DEINIT :: q) ->
  wp player_thread_step (fun _ s' => player_inv s' /\ s'.1 = player_ctx_zero) (x, (y, w)).
Proof.
  intros Hi Hr Hq. pose proof (pop_unswitched _ _ _ _ _ Hi Hq) as Hu.
  unfold player_thread_step. do 2 tm_step. rewrite Hr. apply wp_bind. eapply wp_pure; [exact Hq|]. cbv beta iota. do 2 tm_step. cbn [negb].
  set (x0 := px_set_queue (Some q) x) in *. unfold find_player. do 3 tm_step. cbn [pmsg_mode pmsg_cmd].
  wp_step. cbn [negb]. rewrite andb_false_r. wp_step. cbn [player_dispatch]. do 3 tm_step.
  set (x1 := px_set_thread false _ x0). assert (Hu1 : unswitched (x1, (y, w))) by (by apply set_thread_unswitched).
  apply wp_bind, (wp_mono _ (fun _ s' => unswitched s')).
  { change (px_player m x0) with (px_player m x1). destruct (_ && bool_decide _) eqn:Hb; [|by wp_step].
    apply andb_true_iff in Hb as [_ [p Hp]%bool_decide_eq_true].
    apply wp_bind. eapply wp_mono; [by apply (stop_unswitched m p)|]. intros rt s' (_ & ? & _). by wp_step. }
  intros [] [x2 [y2 w2]] Hu2. apply wp_bind. eapply wp_mono; [by apply switch_safe|]. intros [] [x3 [y3 w3]] (Hs & _).
  apply wp_bind. eapply wp_mono; [by apply service_deinit_safe, safe_unswitched|]. intros rt s' ?. by wp_step.
Qed.

(** Every round. *)
Lemma step_inv s : player_inv s -> wp player_thread_step (fun _ s' => player_inv s') s.
Proof.
  destruct s as [x [y w]]. intros Hi. destruct (px_running x) eqn:Hr.
  - pose proof Hi as [[Hc _] _]. pose proof (co_queue _ Hc) as Hl. cbn [fst] in Hl. destruct (px_queue x) as [[|[m cmd] q]|] eqn:Hq; [| |congruence].
    + eapply wp_mono; [by apply idle_step|]. by intros ? s' [? _].
    + assert (cmd = PLAYER_CMD_SERVICE_DEINIT \/ cmd <> PLAYER_CMD_SERVICE_DEINIT) as [->|Hne] by (destruct cmd; (by left) || by right).
      * eapply wp_mono; [by eapply deinit_step|]. by intros ? s' [? _].
      * eapply wp_mono; [by eapply command_step|]. by intros ? s' [? _].
  - unfold player_thread_step. do 2 tm_step. rewrite Hr. by apply wp_ret.
Qed.

(** The stop command stops: the round that takes it off the queue. *)
Definition stop_round m p q q' x x' : Prop :=
  exists a b t, x' = px_set_active a b t (px_set_thread true OPRT_OK (stopped m p q q' (px_set_queue (Some q) x))).

Lemma stop_step_with (R : X -> list AI_PLAYER_MSG_T -> Prop) m q p x y w : active_sync x -> px_running x = true ->
  px_queue x = Some (mk_pmsg m PLAYER_CMD_STOP :: q) -> px_player m x = Some p -> ad_ok w ->
  (forall w', ad_ok w' -> ad_output w' = ad_output w ->
     wp (if ap_playlist p then playlist_cb m AI_PLAYER_STOPPED else cret tt)
       (fun _ s' => exists y' q' w', s' = (stopped m p q q' (px_set_queue (Some q) x), (y', w')) /\ ad_ok w' /\
          ad_output w' = ad_output w /\ R y' q')
       (px_set_player m (Some (ap_restart AI_PLAYER_STOPPED p)) (px_set_queue (Some q) x), (y, w'))) ->
  wp player_thread_step (fun _ s' => exists x' y' q' w', s' = (x', (y', w')) /\ stop_round m p q q' x x' /\ ad_ok w' /\
    ad_output w' = ad_output w /\ R y' q') (x, (y, w)).
Proof.
  intros Hs Hr Hq Hp Hw Hcb.
  unfold player_thread_step. do 2 tm_step. rewrite Hr. apply wp_bind. eapply wp_pure; [exact Hq|]. cbv beta iota. do 2 tm_step. cbn [negb].
  set (x0 := px_set_queue (Some q) x) in *. unfold find_player. do 3 tm_step. cbn [pmsg_mode pmsg_cmd].
  change (px_player m x0) with (px_player m x). rewrite Hp. wp_step. rewrite bool_decide_true by (by eexists). cbn [negb andb player_dispatch].
  do 2 wp_step. eapply wp_mono; [by apply (stop_with_callback R m p q)|].
  intros rt s1 (-> & y1 & q' & w1 & -> & Hw1 & Ho1 & HR).
  do 4 tm_step. cbn [px_thread_rt px_set_thread Z.eqb OPRT_OK negb andb]. do 2 wp_step.
  eapply wp_mono; [apply switch_wp; [by destruct m|done]|].
  intros [] s' (t & w' & -> & Hw' & Ho'). wp_step. do 4 eexists. split; [reflexivity|]. split; [|split; [done|split; [congruence|done]]].
  do 3 eexists. unfold OPRT_OK. replace true with (px_running (stopped m p q q' x0)); [reflexivity|by destruct m].
Qed.

Lemma stop_round_player m p q q' x x' : stop_round m p q q' x x' ->
  px_player m x' = Some (ap_restart AI_PLAYER_STOPPED p) /\ px_queue x' = Some (q ++ q')%list /\ px_running x' = true.
Proof. intros (a & b & t & ->). by destruct m. Qed.

Lemma stop_step m q p x y w : player_inv (x, (y, w)) -> px_running x = true -> px_queue x = Some (mk_pmsg m PLAYER_CMD_STOP :: q) ->
  px_player m x = Some p ->
  wp player_thread_step (fun _ s' => player_inv s' /\
    exists p', px_player m s'.1 = Some p' /\ ap_state p' = AI_PLAYER_STOPPED) (x, (y, w)).
Proof.
  intros Hi Hr Hq Hp. pose proof (pop_unswitched _ _ _ _ _ Hi Hq) as (Hc & Hs & Hq0 & Hy & Hw). cbn [fst snd] in *.
  eapply wp_mono; [apply wp_conj; [by eapply step_inv|]|].
  - eapply (stop_step_with (fun _ _ => True) m q p); [apply Hs|done..|]. intros w' Hw' Ho'. destruct (ap_playlist p).
    + eapply wp_mono; [apply (hk_law m (ap_restart AI_PLAYER_STOPPED p) q); [apply px_player_set_eq|by destruct m|apply (co_queue _ Hc)|done..]|].
      intros [] (x' & y' & w1) (_ & Hw1 & Ho1 & q' & -> & _). exists y', q', w1. do 2 (split; [done|]). split; [congruence|done].
    + wp_step. exists y, [], w'. unfold stopped. rewrite app_nil_r. split; [|done]. f_equal. by destruct x, m.
  - intros [] s' [Hi' (x' & y' & q' & w' & -> & Hx' & _)]. split; [done|]. destruct (stop_round_player _ _ _ _ _ _ Hx') as [Hp' _].
    by eexists.
Qed.

(** *** Waiting for the thread *)

(** No queued command frees the player [m]. *)
Definition spares (m : AI_PLAYER_MODE_E) (msg : AI_PLAYER_MSG_T) : Prop :=
  pmsg_cmd msg <> PLAYER_CMD_SERVICE_DEINIT /\ (pmsg_mode msg = m -> pmsg_cmd msg <> PLAYER_CMD_EXIT).

Definition no_exit (m : AI_PLAYER_MODE_E) x : Prop := exists q, px_queue x = Some q /\ Forall (spares m) q.

Lemma starts_spare m q : Forall is_start q -> Forall (spares m) q.
Proof. intros H. eapply Forall_impl; [exact H|]. intros msg (src & value & codec & Hc). unfold spares. by rewrite Hc. Qed.

Lemma spares_survives m msg : spares m msg -> survives (pmsg_mode msg) (pmsg_cmd msg) m.
Proof. intros [_ H]. unfold survives. destruct (pmsg_cmd msg); try done. intros ->. by apply H. Qed.

(** A player that a caller waits for. *)
Definition waited (m : AI_PLAYER_MODE_E) (s : AI_PLAYER_CTX_T * (X * W)) : Prop :=
  player_inv s /\ px_running s.1 = true /\ no_exit m s.1 /\ is_Some (px_player m s.1).

Lemma waited_step m s : waited m s -> wp player_thread_step (fun _ s' => waited m s' /\
  (forall c q, px_queue s.1 = Some (c :: q) -> exists extra, px_queue s'.1 = Some (q ++ extra)%list)) s.
Proof.
  destruct s as [x [y w]]. intros (Hi & Hr & (q & Hq & Hs) & Hp). cbn [fst] in *. destruct q as [|msg q].
  - eapply wp_mono; [by apply idle_step|]. intros [] s' (Hi' & Hg & Hr' & Hp'). destruct (Hg [] Hq) as (extra & Hq' & He).
    split; [|intros; congruence]. split; [done|]. split; [done|]. split; [|by apply Hp']. exists extra. split; [done|by apply starts_spare].
  - apply Forall_cons in Hs as [Hm Hs]. eapply wp_mono; [apply (command_step msg q); try done; apply Hm|].
    intros [] s' (Hi' & (extra & Hq' & He) & Hr' & Hp'). split; [|intros c q1 Hq1; exists extra; congruence].
    split; [done|]. split; [done|]. split; [|apply Hp'; [by apply spares_survives|done]]. exists (q ++ extra)%list.
    split; [done|]. apply Forall_app. split; [done|by apply starts_spare].
Qed.

Lemma run_until_inv n m st s : waited m s -> wp (run_until n m st) (fun _ s' => waited m s') s.
Proof.
  revert s. induction n as [|n IH]; intros [x [y w]] Hw; pose proof Hw as (_ & _ & _ & [p Hp]); cbn [run_until fst] in *;
    apply wp_bind; (eapply get_player_wp; [done|]); (case_bool_decide; [by wp_step|]); [by wp_step|].
  apply wp_bind. eapply wp_mono; [by apply waited_step|]. intros [] s' [? _]. by apply IH.
Qed.

Lemma run_until_done n m st p x y w : px_player m x = Some p -> ap_state p = st ->
  wp (run_until n m st) (fun b s' => b = true /\ s' = (x, (y, w))) (x, (y, w)).
Proof.
  intros Hp Hst. destruct n; cbn [run_until]; apply wp_bind; (eapply get_player_wp; [done|]); rewrite bool_decide_true by done; by wp_step.
Qed.

(** With a stop command among the next [n], [n] rounds stop the player. *)
Lemma run_until_stopped n pre m q s : waited m s -> px_queue s.1 = Some (pre ++ mk_pmsg m PLAYER_CMD_STOP :: q)%list -> (length pre < n)%nat ->
  wp (run_until n m AI_PLAYER_STOPPED) (fun b s' => b = true /\ player_inv s' /\
    exists p, px_player m s'.1 = Some p /\ ap_state p = AI_PLAYER_STOPPED) s.
Proof.
  revert pre q s. induction n as [|n IH]; intros pre q [x [y w]] Hw Hq Hn; [lia|]. pose proof Hw as (Hi & Hr & _ & [p Hp]).
  cbn [run_until fst] in *. apply wp_bind. eapply get_player_wp; [done|]. case_bool_decide as Hst.
  { wp_step. split; [done|]. split; [done|]. by exists p. }
  apply wp_bind. destruct pre as [|c pre]; cbn [app length] in *.
  - eapply wp_mono; [by eapply stop_step|]. intros [] [x' [y' w']] (Hi' & p' & Hp' & Hst'). cbn [fst] in *.
    eapply wp_mono; [by apply (run_until_done n m _ p')|]. intros b s' [-> ->]. split; [done|]. split; [done|]. by exists p'.
  - eapply wp_mono; [by apply (waited_step m (x, (y, w)))|]. intros [] s' [Hw' Hq']. destruct (Hq' _ _ Hq) as [extra Hq1].
    apply (IH pre (q ++ extra)%list); [done| |lia]. by rewrite Hq1, <- app_assoc.
Qed.

(** *** Posting *)

Lemma post_inv m cmd s : player_inv s -> is_Some (px_queue s.1) ->
  wp (player_post m cmd) (fun rt s' => player_inv s' /\ exists q, px_queue s.1 = Some q /\
    ((rt = OPRT_OK /\ (length q < PLAYER_QUEUE_LEN)%nat /\ s' = (px_set_queue (Some (q ++ [mk_pmsg m cmd])%list) s.1, s.2)) \/
     (rt = player_queue_full /\ length q = PLAYER_QUEUE_LEN /\ s' = s))) s.
Proof.
  destruct s as [x [y w]]. intros Hi [q Hq]. cbn [fst snd] in *. unfold player_post. do 2 tm_step. apply wp_bind. eapply wp_pure; [exact Hq|].
  pose proof Hi as [[Hc Ha] Hrest]. pose proof (co_queue _ Hc) as Hl. cbn [fst snd] in *. rewrite Hq in Hl.
  destruct (Nat.ltb_spec (length q) PLAYER_QUEUE_LEN).
  - tm_steps. split; [split; [split; [apply set_queue_ctx; [done|rewrite length_app; cbn; lia]|done]|done]|].
    exists q. split; [done|]. left. done.
  - wp_step. split; [done|]. exists q. split; [done|]. right. split; [done|]. split; [lia|done].
Qed.
End Streaming.
