(* ===== verification/AudioApi.v ===== *)
(** The calls of the audio player's clients: each one is defined, however they are
    interleaved with the rounds of the player thread, and stopping stops. *)
From stdpp Require Import relations.
From S2P Require Import Prelude.
From S2P Require Import World.
From S2P Require Import TmHost.
From S2P Require Import AudioDsp.
From S2P Require Import AudioPlayer.
From S2P Require Import AudioMix.
From S2P Require Import AudioSafe.

#[local] Open Scope Z_scope.

(** What happens to the service: a round of the thread, or a call. *)
Inductive player_op :=
| OpRound
| OpServiceInit (cfg : AI_PLAYER_CFG_T) | OpServiceDeinit
| OpCreate (mode : AI_PLAYER_MODE_E) | OpDestroy (m : AI_PLAYER_MODE_E)
| OpStart (m : AI_PLAYER_MODE_E) (src : AI_PLAYER_SRC_E) (value : option string) (codec : AI_AUDIO_CODEC_E)
| OpFeed (m : AI_PLAYER_MODE_E) (data : option (list Z))
| OpStop (m : AI_PLAYER_MODE_E) | OpPause (m : AI_PLAYER_MODE_E) | OpResume (m : AI_PLAYER_MODE_E)
| OpProgress (m : AI_PLAYER_MODE_E) | OpCodec (m : AI_PLAYER_MODE_E) | OpConsumer
| OpVolume (handle : option AI_PLAYER_MODE_E) (volume : Z) | OpMute (handle : option AI_PLAYER_MODE_E) (mute : bool)
| OpMixMode (enable : bool) | OpDecoderMode (enable : bool).

Section Api.
Context {X W : Type} `{AL : AudioDevLaws W} `{HK : !PlaylistHook X W} `{HL : !PlaylistLaws X W}.
Abbreviation M := (C (AI_PLAYER_CTX_T * (X * W))).
Implicit Types (x : AI_PLAYER_CTX_T) (y : X) (w : W).

Definition run_op (op : player_op) : M unit :=
  let drop {A} (run : M A) : M unit := let* _ := run in cret tt in
  match op with
  | OpRound => player_thread_step
  | OpServiceInit cfg => drop (tuya_ai_player_service_init cfg)
  | OpServiceDeinit => drop tuya_ai_player_service_deinit
  | OpCreate mode => drop (tuya_ai_player_create mode)
  | OpDestroy m => drop (tuya_ai_player_destroy (Some m))
  | OpStart m src value codec => drop (tuya_ai_player_start (Some m) src value codec)
  | OpFeed m data => drop (tuya_ai_player_feed (Some m) data)
  | OpStop m => drop (tuya_ai_player_stop (Some m))
  | OpPause m => drop (tuya_ai_player_pause (Some m))
  | OpResume m => drop (tuya_ai_player_resume (Some m))
  | OpProgress m => drop (tuya_ai_player_get_progress (Some m))
  | OpCodec m => drop (tuya_ai_player_get_codec (Some m))
  | OpConsumer => drop tuya_ai_player_set_consumer
  | OpVolume handle volume => drop (tuya_ai_player_set_volume handle volume)
  | OpMute handle mute => drop (tuya_ai_player_set_mute handle mute)
  | OpMixMode enable => drop (tuya_ai_player_set_mix_mode enable)
  | OpDecoderMode enable => drop (tuya_ai_player_set_decoder_mode enable)
  end.

(** When a call may be made: the handle leads to a player, the service has been
    set up, and nobody else has asked to free what the call waits for. *)
Definition op_allowed (op : player_op) x : Prop :=
  match op with
  | OpRound | OpCreate _ | OpConsumer | OpMixMode _ | OpDecoderMode _ | OpVolume None _ | OpMute None _ => True
  | OpServiceInit _ => px_queue x = None
  | OpServiceDeinit => is_Some (px_queue x)
  | OpDestroy m | OpPause m | OpResume m => is_Some (px_player m x) /\ is_Some (px_queue x)
  | OpFeed m _ | OpProgress m | OpCodec m | OpMute (Some m) _ => is_Some (px_player m x)
  | OpVolume (Some m) v => is_Some (px_player m x) /\ 0 <= v <= PLAYER_MAX_VOLUME
  | OpStart m _ _ _ | OpStop m => is_Some (px_player m x) /\ px_running x = true /\ no_exit m x
  end.

(** ** Each call *)

Lemma drop_wp {A B} (run : M A) (b : B) (P : AI_PLAYER_CTX_T * (X * W) -> Prop) s : wp run (fun _ s' => P s') s ->
  wp (let* _ := run in cret b) (fun _ s' => P s') s.
Proof. intros H. apply wp_bind. eapply wp_mono; [exact H|]. intros a s' ?. by wp_step. Qed.

Lemma inv_player m p x y w : player_inv (x, (y, w)) -> px_player m x = Some p -> player_ok p.
Proof. intros [[Hc _] _] Hp. cbn [fst] in Hc. pose proof (co_players _ Hc m) as H. by rewrite Hp in H. Qed.

Lemma inv_set_player m p p' x y w w' : player_inv (x, (y, w)) -> px_player m x = Some p -> player_ok p' -> ap_state p' = ap_state p ->
  ad_ok w' -> player_inv (px_set_player m (Some p') x, (y, w')).
Proof. intros [[Hc Ha] [Hy _]] Hp Ho Hs Hw. split; [split; [by apply set_player_ctx|by eapply set_player_active]|done]. Qed.

Lemma post_op m cmd x y w : player_inv (x, (y, w)) -> is_Some (px_queue x) -> wp (player_post m cmd) (fun _ s' => player_inv s') (x, (y, w)).
Proof. intros Hi Hq. eapply wp_mono; [by apply (post_inv m cmd)|]. by intros rt s' [? _]. Qed.

Lemma service_init_op cfg x y w : player_inv (x, (y, w)) -> px_queue x = None ->
  wp (tuya_ai_player_service_init cfg) (fun _ s' => player_inv s') (x, (y, w)).
Proof.
  intros ([Hc Ha] & Hy & Hw) Hq. cbn [fst snd] in *. pose proof (co_queue _ Hc) as Hl. rewrite Hq in Hl.
  unfold tuya_ai_player_service_init. do 2 tm_step. set (x1 := mk_pctx _ _ _ _ _ _ _ _ _ _ _ _ _ _ _ _).
  assert (Hx1 : forall w', ad_ok w' -> player_inv (x1, (y, w'))).
  { intros w' ?. split; [|done]. split; [|done]. destruct Hc. by split. }
  apply wp_bind. eapply wp_aquiet; [apply ad_queue_law|done|]. intros rt w1 Hw1 _ _. destruct (negb _); [wp_step; by apply Hx1|].
  do 2 tm_step. set (x2 := px_set_queue _ x1).
  assert (Hx2 : forall r t w', ad_ok w' -> player_inv (px_set_active (px_active_player x2) (px_is_playing x2) t (px_set_thread r OPRT_OK x2), (y, w'))).
  { intros r t w' ?. split; [|done]. split; [|done]. destruct Hc. split; try done. cbn. lia. }
  apply wp_bind. eapply wp_aquiet; [apply ad_thread_law|done|]. intros rt2 w2 Hw2 _ _. destruct (negb _).
  - wp_step. destruct (Hx1 w2 Hw2) as [[[] ?] ?]. split; [|done]. split; [|done]. split; try done. cbn. lia.
  - do 2 tm_step. apply wp_bind. eapply wp_aquiet; [apply ad_open_law|done|]. intros _ w3 Hw3 _ _. wp_step. by apply Hx2.
Qed.

Lemma create_op mode x y w : player_inv (x, (y, w)) -> wp (tuya_ai_player_create mode) (fun _ s' => player_inv s') (x, (y, w)).
Proof.
  intros Hi. pose proof Hi as ([Hc Ha] & Hy & Hw). cbn [fst snd] in *. unfold tuya_ai_player_create. do 2 tm_step.
  case_bool_decide as Hp; [by wp_step|].
  apply wp_bind. eapply wp_aquiet; [apply ad_malloc_law|done|]. intros [] w1 Hw1 _ _; cbn [negb]; [|wp_step; by split].
  apply wp_bind. eapply wp_aquiet; [apply ad_malloc_law|done|]. intros [] w2 Hw2 _ _; cbn [negb]; [|wp_step; by split].
  apply wp_bind. eapply wp_aquiet; [apply ad_malloc_law|done|]. intros [] w3 Hw3 _ _; cbn [negb]; [|wp_step; by split].
  tm_steps. split; [|done]. split.
  - apply set_player_ctx; [done|]. split; cbn [ap_framebuf ap_offset ap_decode_buf ap_decode_size ap_volume player_new];
      unfold AI_PLAYER_FRAMEBUF_SIZE, PLAYER_MAX_VOLUME, AI_PLAYER_DECODEBUF_SIZE; try lia; by rewrite length_replicate.
  - assert (Hn : px_player mode x = None) by (destruct (px_player mode x); [destruct Hp; by eexists|done]).
    revert Ha. unfold active_ok, chosen, is_playing, is_state. destruct mode; cbn in *; by rewrite Hn.
Qed.

Lemma start_post_wp m src value codec x y w : player_inv (x, (y, w)) -> is_Some (px_player m x) -> is_Some (px_queue x) ->
  wp (player_start_post (Some m) src value codec) (fun rt s' => player_inv s' /\
    ((exists v q, rt = OPRT_OK /\ px_queue x = Some q /\ s'.1 = px_set_queue (Some (q ++ [mk_pmsg m (PLAYER_CMD_START src v codec)])%list) x) \/
     s'.1 = x /\ rt <> OPRT_OK)) (x, (y, w)).
Proof.
  intros Hi [p Hp] Hq. pose proof Hi as ([Hc Ha] & Hy & Hw). cbn [fst snd] in *. unfold player_start_post.
  apply wp_bind. eapply wp_pure; [done|]. apply wp_bind. eapply get_player_wp; [done|].
  destruct (negb _); [wp_step; by eauto|]. destruct (_ && _); [wp_step; by eauto|].
  apply wp_bind. apply (wp_mono _ (fun _ s' => exists w', s' = (x, (y, w')) /\ ad_ok w')).
  { destruct value; [|wp_step; by exists w]. apply wp_bind. eapply wp_aquiet; [apply ad_malloc_law|done|]. intros ok w1 ? _ _.
    wp_step. by exists w1. }
  intros v s' (w1 & -> & Hw1). eapply wp_mono; [by apply (post_inv m)|].
  intros rt s' (Hi' & q & Hq' & [(-> & _ & ->)|(-> & _ & ->)]); (split; [done|]); [left; by exists v, q|right].
  split; [done|]. apply ad_queue_full_law.
Qed.

Lemma start_waited m x y w s' v q src codec : player_inv (x, (y, w)) -> waited m (x, (y, w)) -> player_inv s' ->
  px_queue x = Some q -> s'.1 = px_set_queue (Some (q ++ [mk_pmsg m (PLAYER_CMD_START src v codec)])%list) x -> waited m s'.
Proof.
  intros _ (_ & Hr & (q1 & Hq1 & Hs) & Hp) Hi Hq Hx. cbn [fst] in *. split; [done|]. rewrite Hx. split; [done|]. split; [|done].
  eexists. split; [done|]. apply Forall_app. split; [by simplify_eq|]. by repeat constructor.
Qed.

Lemma start_op m src value codec x y w : waited m (x, (y, w)) ->
  wp (tuya_ai_player_start (Some m) src value codec) (fun _ s' => player_inv s') (x, (y, w)).
Proof.
  intros Hwt. pose proof Hwt as (Hi & Hr & (q & Hq & _) & Hp). cbn [fst] in *. unfold tuya_ai_player_start. apply wp_bind.
  eapply wp_mono; [apply start_post_wp; [done|done|by eexists]|]. intros rt s1 (Hi1 & Hcase). destruct (Z.eqb_spec rt OPRT_OK) as [->|]; cbn [negb]; [|by wp_step].
  destruct Hcase as [(v & q' & _ & Hq' & Hx1)|[_ ?]]; [|done]. case_bool_decide; [|by wp_step].
  pose proof (start_waited _ _ _ _ _ _ _ _ _ Hi Hwt Hi1 Hq' Hx1) as Hw1. destruct s1 as [x1 [y1 w1]]. apply wp_bind. eapply wp_pure; [done|].
  apply wp_bind. eapply wp_aquiet; [apply ad_rounds_law|apply Hi1|]. intros n w2 Hw2 _ _. apply wp_bind.
  eapply wp_mono; [apply run_until_inv; destruct Hw1 as ((Hs & Hy & _) & ?); by split|]. intros b s' (? & _). by wp_step.
Qed.

(** *** Stopping *)

Lemma stop_op m x y w : waited m (x, (y, w)) ->
  wp (tuya_ai_player_stop (Some m)) (fun rt s' => player_inv s' /\
    ((rt = OPRT_OK /\ exists p, px_player m s'.1 = Some p /\ ap_state p = AI_PLAYER_STOPPED) \/
     (rt = player_queue_full /\ s' = (x, (y, w)) /\ exists q, px_queue x = Some q /\ length q = PLAYER_QUEUE_LEN))) (x, (y, w)).
Proof.
  intros Hwt. pose proof Hwt as (Hi & Hr & (q & Hq & Hsp) & [p Hp]). cbn [fst] in *. unfold tuya_ai_player_stop.
  apply wp_bind. eapply get_player_wp; [done|]. case_bool_decide as Hst.
  { wp_step. split; [done|]. left. split; [done|]. by exists p. }
  apply wp_bind. eapply wp_mono; [apply (post_inv m PLAYER_CMD_STOP); [done|by eexists]|].
  intros rt s1 (Hi1 & q1 & Hq1 & Hcase). cbn [fst] in *. assert (q1 = q) as -> by congruence.
  destruct Hcase as [(-> & Hlen & ->)|(-> & Hlen & ->)].
  - cbn [negb Z.eqb OPRT_OK]. apply wp_bind. match goal with |- wp _ _ ?st => set (s1 := st) in * end.
    assert (Hw1 : waited m s1).
    { split; [done|]. split; [done|]. split; [|by eexists]. eexists. split; [done|]. apply Forall_app. split; [done|]. by repeat constructor. }
    assert (Hrun : wp (run_until PLAYER_QUEUE_LEN m AI_PLAYER_STOPPED) (fun b s' => b = true /\ player_inv s' /\
      exists p, px_player m s'.1 = Some p /\ ap_state p = AI_PLAYER_STOPPED) s1).
    { apply (run_until_stopped _ q m []); done. }
    eapply wp_mono; [exact Hrun|]. intros b s' (-> & Hi' & Hp'). eapply wp_pure; [done|]. split; [done|]. by left.
  - destruct (Z.eqb_spec player_queue_full OPRT_OK); [by destruct ad_queue_full_law|]. cbn [negb]. wp_step. split; [done|]. right. split; [done|].
    split; [done|]. by exists q.
Qed.

(** *** All of them *)

Lemma set_field_op (f : AI_PLAYER_CTX_T -> AI_PLAYER_CTX_T) x y w w' : player_inv (x, (y, w)) -> ad_ok w' ->
  (ctx_ok x -> ctx_ok (f x)) -> (active_ok x -> active_ok (f x)) -> player_inv (f x, (y, w')).
Proof. intros [[Hc Ha] [Hy _]] Hw H1 H2. split; [split; [by apply H1|by apply H2]|done]. Qed.

Lemma quiet_op {A} (m : C W A) x y w : player_inv (x, (y, w)) -> aquiet m (fun _ => True) ->
  wp (on_audio m) (fun _ s' => player_inv s') (x, (y, w)).
Proof. intros (Hs & Hy & Hw) Hm. eapply wp_aquiet; [exact Hm|exact Hw|]. intros a w' ? _ _. by split. Qed.

Lemma levels_op m v b x y w : player_inv (x, (y, w)) -> is_Some (px_player m x) -> (forall p, player_ok p -> 0 <= v p <= PLAYER_MAX_VOLUME) ->
  wp (mod_player m (fun p => ap_set_levels (v p) (b p) p)) (fun _ s' => player_inv s') (x, (y, w)).
Proof.
  intros Hi [p Hp] Hv. eapply mod_player_wp; [done|]. pose proof (inv_player _ _ _ _ _ Hi Hp) as Hpo. pose proof (Hv p Hpo).
  eapply inv_set_player; [done|done| |done|apply Hi]. destruct Hpo. by split.
Qed.

Lemma mix_mode_op enable x y w : player_inv (x, (y, w)) -> wp (tuya_ai_player_set_mix_mode enable) (fun _ s' => player_inv s') (x, (y, w)).
Proof.
  intros Hi. unfold tuya_ai_player_set_mix_mode. do 2 tm_step. apply wp_bind.
  apply (wp_mono _ (fun ok s' => player_inv s' /\ (ok = true -> enable = true -> is_Some (px_mixer_buf s'.1)))).
  - destruct (_ && bool_decide _) eqn:Hb.
    + apply wp_bind. eapply wp_aquiet; [apply ad_malloc_law|apply Hi|]. intros [] w1 Hw1 _ _; [|do 2 wp_step; split; [|done]; destruct Hi as (? & ? & _); by split].
      tm_steps. split; [|intros; by eexists]. eapply set_field_op; [exact Hi|done| |done]. intros []. split; try done.
      cbn. destruct (px_mixer_mode x); [by eexists|done].
    + wp_step. split; [done|]. intros _ ->. cbn [andb] in Hb. apply bool_decide_eq_false in Hb. cbn [fst]. destruct (px_mixer_buf x); [by eexists|done].
  - intros ok [x1 [y1 w1]] [Hi1 Hok]. destruct ok; cbn [negb]; [|by wp_step]. tm_steps.
    eapply (set_field_op (fun x => px_set_modes enable (px_decoder_mode x) (px_set_mixer (px_mixer_buf x) 0 0 x)));
      [exact Hi1|apply Hi1| |done].
    intros []. split; try done. cbn. destruct enable; [|done]. destruct (Hok eq_refl eq_refl) as [b Hb]. by exists b.
Qed.

Lemma get_player_op {A} m (k : AI_PLAYER_T -> M A) x y w (Q : A -> AI_PLAYER_CTX_T * (X * W) -> Prop) : is_Some (px_player m x) ->
  (forall p, wp (k p) Q (x, (y, w))) -> wp (let* p := get_player m in k p) Q (x, (y, w)).
Proof. intros [p Hp] Hk. apply wp_bind. by eapply get_player_wp. Qed.

Lemma op_inv op x y w : player_inv (x, (y, w)) -> op_allowed op x -> wp (run_op op) (fun _ s' => player_inv s') (x, (y, w)).
Proof.
  intros Hi Ha. destruct op; cbn [run_op op_allowed] in *; try apply drop_wp with (P := player_inv).
  - by apply step_inv.
  - by apply service_init_op.
  - by apply post_op.
  - by apply create_op.
  - destruct Ha as [Hp Hq]. apply wp_bind. eapply wp_pure; [done|]. apply get_player_op; [done|]. intros p. by apply post_op.
  - apply start_op. destruct Ha as (? & ? & ?). by split.
  - apply get_player_op; [done|]. intros p. case_bool_decide; [by wp_step|]. apply quiet_op; [done|apply ad_feed_law].
  - destruct Ha as (? & ? & ?). eapply wp_mono; [apply stop_op; by split|]. by intros rt s' [? _].
  - destruct Ha as [Hp Hq]. apply wp_bind. eapply wp_pure; [done|]. apply get_player_op; [done|]. intros p.
    destruct (negb _); [by wp_step|by apply post_op].
  - destruct Ha as [Hp Hq]. apply wp_bind. eapply wp_pure; [done|]. apply get_player_op; [done|]. intros p.
    destruct (negb _); [by wp_step|by apply post_op].
  - apply get_player_op; [done|]. intros p. case_bool_decide; [by wp_step|]. apply quiet_op; [done|apply ad_progress_law].
  - apply get_player_op; [done|]. intros p. apply quiet_op; [done|apply ad_decoder_codec_law].
  - apply wp_bind. eapply wp_mono; [apply quiet_op; [done|apply ad_close_law]|]. intros a [x1 [y1 w1]] Hi1.
    apply wp_bind. eapply wp_mono; [apply quiet_op; [done|apply ad_open_law]|]. intros a2 s' ?. by wp_step.
  - destruct handle as [m|]; cbn [tuya_ai_player_set_volume].
    + destruct Ha as [Hp Hv]. apply drop_wp with (P := player_inv). by apply (levels_op m (fun _ => volume) ap_mute).
    + do 2 tm_step. apply drop_wp with (P := player_inv). apply quiet_op; [|apply ad_volume_law].
      eapply (set_field_op (px_set_levels volume (px_mute x))); [exact Hi|apply Hi| |done]. intros []. by split.
  - destruct handle as [m|]; cbn [tuya_ai_player_set_mute].
    + apply drop_wp with (P := player_inv). apply (levels_op m ap_volume (fun _ => mute)); [done|done|]. by intros p [].
    + do 4 tm_step. apply drop_wp with (P := player_inv). apply quiet_op; [|apply ad_volume_law].
      eapply (set_field_op (px_set_levels (px_volume x) mute)); [exact Hi|apply Hi| |done]. intros []. by split.
  - by apply mix_mode_op.
  - unfold tuya_ai_player_set_decoder_mode. tm_steps. eapply set_field_op; [exact Hi|apply Hi| |done]. intros []. by split.
Qed.

(** ** Reachable states *)

Inductive player_step : AI_PLAYER_CTX_T * (X * W) -> AI_PLAYER_CTX_T * (X * W) -> Prop :=
| player_step_op op s s' : op_allowed op s.1 -> run_op op s = Some (tt, s') -> player_step s s'.

(** Before the service is set up the context is all zero. *)
Definition reachable (s : AI_PLAYER_CTX_T * (X * W)) : Prop :=
  exists y w, hk_ok y /\ ad_ok w /\ rtc player_step (player_ctx_zero, (y, w)) s.

Lemma reachable_inv s : reachable s -> player_inv s.
Proof.
  intros (y & w & Hy & Hw & Hr). assert (H0 : player_inv (player_ctx_zero, (y, w))).
  { split; [|done]. split; [|done]. split; try done. by intros []. }
  revert H0. induction Hr as [s|s1 s2 s3 [op [x1 [y1 w1]] s' Ha Hrun] _ IH]; [done|]. intros Hi. apply IH.
  pose proof (op_inv op x1 y1 w1 Hi Ha) as Hwp. unfold wp in Hwp. by rewrite Hrun in Hwp.
Qed.


End Api.
