(* ===== verification/Playlist.v ===== *)
(** The playlists of src/miscs/audio_player/src/svc_ai_playlist.c: a list of items
    for a player, the next of which is started when the player stops.

    The list has a mutex. A client holds it while it waits for the player to stop;
    the player thread, which runs the callback, then waits in turn until the client
    unlocks. [pl_owed] is the callback that is waiting. *)
From S2P Require Import Prelude.
From S2P Require Import World.
From S2P Require Import TmHost.
From S2P Require Import AudioDsp.
From S2P Require Import AudioPlayer.

#[local] Open Scope Z_scope.

Definition INVALID_INDEX : Z := 4294967295.

(** ** Types *)

Record AI_PLAYITEM_T := mk_playitem { pi_src : AI_PLAYER_SRC_E; pi_value : string; pi_codec : AI_AUDIO_CODEC_E }.

Record AI_PLAYLIST_CFG_T := mk_plcfg { lc_loop : bool; lc_auto_play : bool; lc_interval : Z; lc_capacity : Z }.

(** The items are those below [count]; the others are freed or not set. [pl_room] is
    the length of the array; the mutex is [pl_locked] and [pl_owed]. *)
Record AI_PLAYLIST_CTX_T := mk_playlist {
  pl_cfg : AI_PLAYLIST_CFG_T; pl_items : list AI_PLAYITEM_T; pl_room : Z;
  pl_index : Z; pl_target_index : Z; pl_playing : bool; pl_single : bool;
  pl_locked : bool; pl_owed : option AI_PLAYER_STATE_T }.

Definition pl_count (l : AI_PLAYLIST_CTX_T) : Z := Z.of_nat (length (pl_items l)).

Definition pl_set_loop loop single l := mk_playlist (mk_plcfg loop (lc_auto_play (pl_cfg l)) (lc_interval (pl_cfg l)) (lc_capacity (pl_cfg l)))
  (pl_items l) (pl_room l) (pl_index l) (pl_target_index l) (pl_playing l) single (pl_locked l) (pl_owed l).
Definition pl_set_items items l := mk_playlist (pl_cfg l) items (pl_room l) (pl_index l) (pl_target_index l) (pl_playing l)
  (pl_single l) (pl_locked l) (pl_owed l).
Definition pl_set_index i l := mk_playlist (pl_cfg l) (pl_items l) (pl_room l) i (pl_target_index l) (pl_playing l)
  (pl_single l) (pl_locked l) (pl_owed l).
Definition pl_set_target i l := mk_playlist (pl_cfg l) (pl_items l) (pl_room l) (pl_index l) i (pl_playing l)
  (pl_single l) (pl_locked l) (pl_owed l).
Definition pl_set_playing b l := mk_playlist (pl_cfg l) (pl_items l) (pl_room l) (pl_index l) (pl_target_index l) b
  (pl_single l) (pl_locked l) (pl_owed l).
Definition pl_set_lock locked owed l := mk_playlist (pl_cfg l) (pl_items l) (pl_room l) (pl_index l) (pl_target_index l) (pl_playing l)
  (pl_single l) locked owed.

(** What a playlist pointer leads to; each player has its own. *)
Inductive pl_slot := PlNone | PlLive (l : AI_PLAYLIST_CTX_T) | PlFreed.

Record playlists := mk_playlists { pls_fg : pl_slot; pls_bg : pl_slot }.

Definition pls_get (m : AI_PLAYER_MODE_E) (y : playlists) : pl_slot :=
  match m with AI_PLAYER_MODE_FOREGROUND => pls_fg y | AI_PLAYER_MODE_BACKGROUND => pls_bg y end.
Definition pls_set (m : AI_PLAYER_MODE_E) (s : pl_slot) (y : playlists) : playlists :=
  match m with
  | AI_PLAYER_MODE_FOREGROUND => mk_playlists s (pls_bg y)
  | AI_PLAYER_MODE_BACKGROUND => mk_playlists (pls_fg y) s
  end.

(** ** The callback *)

Section Callback.
Context {W : Type} `{AD : AudioDev W}.
Abbreviation M := (C (AI_PLAYER_CTX_T * (playlists * W))).

Definition get_list (m : AI_PLAYER_MODE_E) : M AI_PLAYLIST_CTX_T :=
  let* y := cget (fun s : AI_PLAYER_CTX_T * (playlists * W) => fst (snd s)) in
  cpure (match pls_get m y with PlLive l => Some l | _ => None end).
Definition put_slot (m : AI_PLAYER_MODE_E) (s : pl_slot) : M unit :=
  cmod (fun st : AI_PLAYER_CTX_T * (playlists * W) => (fst st, (pls_set m s (fst (snd st)), snd (snd st)))).
Definition mod_list (m : AI_PLAYER_MODE_E) (f : AI_PLAYLIST_CTX_T -> AI_PLAYLIST_CTX_T) : M unit :=
  let* l := get_list m in put_slot m (PlLive (f l)).

(** [tuya_ai_player_start(ctx->player, ctx->playlist[ctx->index]->...)]: undefined
    when there is no such item. No item is in memory, so nothing is waited for. *)
Definition start_current (m : AI_PLAYER_MODE_E) : M unit :=
  let* l := get_list m in
  let* item := cpure (pl_items l !! Z.to_nat (pl_index l)) in
  let* _ := player_start_post (Some m) (pi_src item) (Some (pi_value item)) (pi_codec item) in
  cret tt.

(** [__player_status_cb] with the mutex held. *)
Definition status_changed (m : AI_PLAYER_MODE_E) (state : AI_PLAYER_STATE_T) : M unit :=
  let* l := get_list m in
  if negb (bool_decide (state = AI_PLAYER_STOPPED)) then cret tt
  else if negb (pl_target_index l =? INVALID_INDEX) && (pl_target_index l <? pl_count l) then
    let* _ := mod_list m (fun l => pl_set_target INVALID_INDEX (pl_set_index (pl_target_index l) l)) in
    start_current m
  else if pl_single l then start_current m
  else
    let* _ := mod_list m (fun l => pl_set_index (u32 (pl_index l + 1)) l) in
    let* l := get_list m in
    if pl_count l <=? pl_index l then
      let* _ := mod_list m (pl_set_index 0) in
      if lc_loop (pl_cfg l) then start_current m else mod_list m (pl_set_playing false)
    else start_current m.

(** The mutex may be taken: then the thread waits. *)
Definition __player_status_cb (m : AI_PLAYER_MODE_E) (state : AI_PLAYER_STATE_T) : M unit :=
  let* y := cget (fun s : AI_PLAYER_CTX_T * (playlists * W) => fst (snd s)) in
  match pls_get m y with
  | PlNone => cret tt
  | _ =>
      let* l := get_list m in
      if pl_locked l then mod_list m (pl_set_lock true (Some state)) else status_changed m state
  end.

#[export] Instance playlist_hook : PlaylistHook playlists W := {| playlist_cb := __player_status_cb |}.

Definition tal_mutex_lock (m : AI_PLAYER_MODE_E) : M unit := mod_list m (pl_set_lock true None).

(** After unlocking, the thread that was waiting goes on. *)
Definition tal_mutex_unlock (m : AI_PLAYER_MODE_E) : M unit :=
  let* l := get_list m in
  let* _ := mod_list m (pl_set_lock false None) in
  match pl_owed l with Some state => status_changed m state | None => cret tt end.

(** ** The interface *)

Definition playlist_empty (cfg : AI_PLAYLIST_CFG_T) : AI_PLAYLIST_CTX_T :=
  mk_playlist cfg [] (u32 (4 * lc_capacity cfg) / 4) 0 INVALID_INDEX false false false None.

(** The handle is that of the player. *)
Definition tuya_ai_playlist_create (player : option AI_PLAYER_MODE_E) (cfg : option AI_PLAYLIST_CFG_T)
    : M (OPERATE_RET * option AI_PLAYER_MODE_E) :=
  match player, cfg with
  | Some m, Some cfg =>
      let* ctx := on_audio player_malloc in
      if negb ctx then cret (OPRT_MALLOC_FAILED, None)
      else
        let* playlist := on_audio player_malloc in
        if negb playlist then cret (OPRT_MALLOC_FAILED, None)
        else
          let* _ := put_slot m (PlLive (playlist_empty cfg)) in
          let* _ := mod_player m (ap_set_playlist true) in
          cret (OPRT_OK, Some m)
  | _, _ => cret (OPRT_INVALID_PARM, None)
  end.

(** The player keeps its pointer to the list. *)
Definition tuya_ai_playlist_destroy (handle : option AI_PLAYER_MODE_E) : M OPERATE_RET :=
  match handle with
  | None => cret OPRT_INVALID_PARM
  | Some m => let* _ := get_list m in let* _ := put_slot m PlFreed in cret OPRT_OK
  end.

Definition tuya_ai_playlist_add (handle : option AI_PLAYER_MODE_E) (src : AI_PLAYER_SRC_E) (value : option string)
    (codec : AI_AUDIO_CODEC_E) : M OPERATE_RET :=
  match handle, value with
  | Some m, Some v =>
      if bool_decide (src = AI_PLAYER_SRC_MEM) then cret OPRT_INVALID_PARM
      else
        let* l := get_list m in
        if lc_capacity (pl_cfg l) <=? pl_count l then cret OPRT_EXCEED_UPPER_LIMIT
        else
          let* item := on_audio player_malloc in
          if negb item then cret OPRT_MALLOC_FAILED
          else
            let* value := on_audio player_malloc in
            if negb value then cret OPRT_MALLOC_FAILED
            else
              let* _ := tal_mutex_lock m in
              let* _ := cpure (if pl_count l <? pl_room l then Some tt else None) in
              let* _ := mod_list m (fun l => pl_set_items (pl_items l ++ [mk_playitem src v codec])%list l) in
              let* _ := tal_mutex_unlock m in
              let* l := get_list m in
              let* _ := (if (pl_count l =? 1) && lc_auto_play (pl_cfg l) then
                  let* _ := tuya_ai_player_start (Some m) src (Some v) codec in
                  mod_list m (pl_set_playing true)
                else cret tt) in
              cret OPRT_OK
  | _, _ => cret OPRT_INVALID_PARM
  end.

(** The calls that stop the player while they hold the mutex. *)
Definition with_mutex (handle : option AI_PLAYER_MODE_E) (body : AI_PLAYER_MODE_E -> M OPERATE_RET) : M OPERATE_RET :=
  match handle with
  | None => cret OPRT_INVALID_PARM
  | Some m =>
      let* _ := tal_mutex_lock m in
      let* rt := body m in
      let* _ := tal_mutex_unlock m in
      cret rt
  end.

Definition stop_player (m : AI_PLAYER_MODE_E) : M unit := let* _ := tuya_ai_player_stop (Some m) in cret tt.

Definition tuya_ai_playlist_prev (handle : option AI_PLAYER_MODE_E) : M OPERATE_RET :=
  with_mutex handle (fun m =>
    let* _ := mod_list m (fun l =>
      if 0 <? pl_index l then pl_set_index (pl_index l - 1) l
      else if lc_loop (pl_cfg l) then pl_set_index (u32 (pl_count l - 1)) l else l) in
    let* _ := stop_player m in
    cret OPRT_OK).

Definition tuya_ai_playlist_next (handle : option AI_PLAYER_MODE_E) : M OPERATE_RET :=
  with_mutex handle (fun m =>
    let* _ := mod_list m (fun l =>
      let index := u32 (pl_index l + 1) in
      if pl_count l <=? index
      then pl_set_index (if lc_loop (pl_cfg l) then 0 else if 1 <=? pl_count l then pl_count l - 1 else 0) l
      else pl_set_index index l) in
    let* _ := stop_player m in
    cret OPRT_OK).

Definition tuya_ai_playlist_stop (handle : option AI_PLAYER_MODE_E) : M OPERATE_RET :=
  with_mutex handle (fun m =>
    let* _ := stop_player m in
    let* _ := mod_list m (pl_set_playing false) in
    cret OPRT_OK).

Definition tuya_ai_playlist_restart (handle : option AI_PLAYER_MODE_E) : M OPERATE_RET :=
  with_mutex handle (fun m =>
    let* l := get_list m in
    let* _ := (if pl_playing l then stop_player m
      else match pl_items l with
           | item :: _ => let* _ := tuya_ai_player_start (Some m) (pi_src item) (Some (pi_value item)) (pi_codec item) in cret tt
           | [] => cret tt
           end) in
    let* _ := mod_list m (fun l => pl_set_playing true (pl_set_index 0 l)) in
    cret OPRT_OK).

Definition tuya_ai_playlist_clear (handle : option AI_PLAYER_MODE_E) : M OPERATE_RET :=
  with_mutex handle (fun m =>
    let* l := get_list m in
    let* _ := (if pl_playing l then stop_player m else cret tt) in
    let* _ := mod_list m (fun l => pl_set_playing false (pl_set_index 0 (pl_set_items [] l))) in
    cret OPRT_OK).

Definition tuya_ai_playlist_play (handle : option AI_PLAYER_MODE_E) (index : Z) : M OPERATE_RET :=
  with_mutex handle (fun m =>
    let* l := get_list m in
    if pl_count l <=? index then cret OPRT_INDEX_OUT_OF_BOUND
    else
      let* _ := (if pl_playing l then
          let* _ := mod_list m (pl_set_target index) in stop_player m
        else
          let* _ := mod_list m (pl_set_index index) in start_current m) in
      let* _ := mod_list m (pl_set_playing true) in
      cret OPRT_OK).

Definition tuya_ai_playlist_set_loop (handle : option AI_PLAYER_MODE_E) (loop single : bool) : M OPERATE_RET :=
  with_mutex handle (fun m =>
    let* _ := mod_list m (pl_set_loop loop (if loop then single else false)) in
    cret OPRT_OK).

(** The result: count and index. *)
Definition tuya_ai_playlist_get_info (handle : option AI_PLAYER_MODE_E) : M (OPERATE_RET * Z * Z) :=
  match handle with
  | None => cret (OPRT_INVALID_PARM, 0, 0)
  | Some m => let* l := get_list m in cret (OPRT_OK, pl_count l, pl_index l)
  end.
End Callback.
