(* ===== verification/PlaylistCorrect.v ===== *)
(** Which item a playlist plays next, and where the calls of its clients land. *)
From S2P Require Import Prelude.
From S2P Require Import World.
From S2P Require Import TmHost.
From S2P Require Import AudioDsp.
From S2P Require Import AudioPlayer.
From S2P Require Import AudioMix.
From S2P Require Import AudioSafe.
From S2P Require Import AudioApi.
From S2P Require Import Playlist.

#[local] Open Scope Z_scope.

(** ** The order of the items *)

Definition targeted (l : AI_PLAYLIST_CTX_T) : bool := negb (pl_target_index l =? INVALID_INDEX) && (pl_target_index l <? pl_count l).

(** The item that follows when the player stops. *)
Definition upcoming (l : AI_PLAYLIST_CTX_T) : option Z :=
  if targeted l then Some (pl_target_index l)
  else if pl_single l then Some (pl_index l)
  else if u32 (pl_index l + 1) <? pl_count l then Some (u32 (pl_index l + 1))
  else if lc_loop (pl_cfg l) then Some 0 else None.

(** The list afterwards. *)
Definition advance (l : AI_PLAYLIST_CTX_T) : AI_PLAYLIST_CTX_T :=
  if targeted l then pl_set_target INVALID_INDEX (pl_set_index (pl_target_index l) l)
  else match upcoming l with
       | Some i => pl_set_index i l
       | None => pl_set_playing false (pl_set_index 0 l)
       end.

Definition start_msg (m : AI_PLAYER_MODE_E) (item : AI_PLAYITEM_T) (v : option string) : AI_PLAYER_MSG_T :=
  mk_pmsg m (PLAYER_CMD_START (pi_src item) v (pi_codec item)).

(** The item is started: the command is posted; the value is lost when there is no
    memory for its copy. Nothing is posted when the queue is full, or for an item
    with an empty name. *)
Definition posted (m : AI_PLAYER_MODE_E) (q : list AI_PLAYER_MSG_T) (item : AI_PLAYITEM_T) (q' : list AI_PLAYER_MSG_T) : Prop :=
  ((length q < PLAYER_QUEUE_LEN)%nat /\ exists v, (v = Some (pi_value item) \/ v = None) /\ q' = [start_msg m item v]) \/
  (q' = [] /\ (length q = PLAYER_QUEUE_LEN \/ pi_value item = "")).

Lemma pls_get_set m s y : pls_get m (pls_set m s y) = s.
Proof. by destruct m. Qed.

Lemma pls_set_twice m s s' y : pls_set m s (pls_set m s' y) = pls_set m s y.
Proof. by destruct m. Qed.

Section Rules.
Context {W : Type} `{AL : AudioDevLaws W}.
Implicit Types (x : AI_PLAYER_CTX_T) (y : playlists) (w : W).

Lemma get_list_wp m l (Q : AI_PLAYLIST_CTX_T -> AI_PLAYER_CTX_T * (playlists * W) -> Prop) x y w :
  pls_get m y = PlLive l -> Q l (x, (y, w)) -> wp (get_list m) Q (x, (y, w)).
Proof. intros Hl HQ. unfold get_list. do 2 wp_step. eapply wp_pure; [|exact HQ]. cbn [fst snd]. by rewrite Hl. Qed.

Lemma put_slot_wp m s (Q : unit -> AI_PLAYER_CTX_T * (playlists * W) -> Prop) x y w :
  Q tt (x, (pls_set m s y, w)) -> wp (put_slot m s) Q (x, (y, w)).
Proof. done. Qed.

Lemma mod_list_wp m f l (Q : unit -> AI_PLAYER_CTX_T * (playlists * W) -> Prop) x y w :
  pls_get m y = PlLive l -> Q tt (x, (pls_set m (PlLive (f l)) y, w)) -> wp (mod_list m f) Q (x, (y, w)).
Proof. intros Hl HQ. unfold mod_list. apply wp_bind. eapply get_list_wp; [done|]. by apply put_slot_wp. Qed.

(** With the list written back already. *)
Lemma mod_list_at m f l (Q : unit -> AI_PLAYER_CTX_T * (playlists * W) -> Prop) x y w :
  Q tt (x, (pls_set m (PlLive (f l)) y, w)) -> wp (mod_list m f) Q (x, (pls_set m (PlLive l) y, w)).
Proof. intros HQ. eapply mod_list_wp; [apply pls_get_set|]. by rewrite pls_set_twice. Qed.

Lemma get_list_at m l (Q : AI_PLAYLIST_CTX_T -> AI_PLAYER_CTX_T * (playlists * W) -> Prop) x y w :
  Q l (x, (pls_set m (PlLive l) y, w)) -> wp (get_list m) Q (x, (pls_set m (PlLive l) y, w)).
Proof. intros HQ. eapply get_list_wp; [apply pls_get_set|done]. Qed.

Lemma pls_set_id m l y : pls_get m y = PlLive l -> pls_set m (PlLive l) y = y.
Proof. destruct y, m; cbn; by intros ->. Qed.

(** *** Starting an item *)

Lemma start_current_wp m p q l item (Q : unit -> AI_PLAYER_CTX_T * (playlists * W) -> Prop) x y w :
  px_player m x = Some p -> ap_state p = AI_PLAYER_STOPPED -> px_queue x = Some q -> (length q <= PLAYER_QUEUE_LEN)%nat ->
  ad_ok w -> pls_get m y = PlLive l -> pl_items l !! Z.to_nat (pl_index l) = Some item ->
  (forall q' w', ad_ok w' -> ad_output w' = ad_output w -> posted m q item q' -> Q tt (px_set_queue (Some (q ++ q')%list) x, (y, w'))) ->
  wp (start_current m) Q (x, (y, w)).
Proof.
  intros Hp Hst Hq Hlq Hw Hl Hi HQ. assert (Hback : forall w', posted m q item [] -> ad_ok w' -> ad_output w' = ad_output w -> Q tt (x, (y, w'))).
  { intros w' Hpo Hw' Ho. specialize (HQ [] w' Hw' Ho Hpo). rewrite app_nil_r in HQ.
    replace x with (px_set_queue (Some q) x); [done|]. destruct x; cbn in *; by subst. }
  unfold start_current. apply wp_bind. eapply get_list_wp; [done|]. apply wp_bind. eapply wp_pure; [done|].
  unfold player_start_post. do 2 apply wp_bind. eapply wp_pure; [done|]. apply wp_bind. eapply get_player_wp; [done|].
  rewrite Hst, bool_decide_true by done. cbn [negb]. destruct (_ && _) eqn:Hempty.
  { do 2 wp_step. apply Hback; [|done|done]. right. split; [done|]. right. apply andb_true_iff in Hempty as [_ He]. by apply String.eqb_eq. }
  cbv beta iota. do 2 apply wp_bind. eapply wp_aquiet; [apply ad_malloc_law|done|]. intros ok w1 Hw1 Ho1 _. wp_step.
  unfold player_post. do 2 tm_step. apply wp_bind. eapply wp_pure; [exact Hq|]. destruct (Nat.ltb_spec (length q) PLAYER_QUEUE_LEN).
  - tm_steps. apply HQ; [done|done|]. left. split; [done|]. destruct ok; eexists; (split; [|reflexivity]); auto.
  - do 2 wp_step. apply Hback; [|done|done]. right. split; [done|]. left. lia.
Qed.

(** *** The callback *)

Lemma count_lookup l i : 0 <= i < pl_count l -> exists item, pl_items l !! Z.to_nat i = Some item.
Proof. intros H. unfold pl_count in H. destruct (lookup_lt_is_Some_2 (pl_items l) (Z.to_nat i)) as [item Hi]; [lia|by exists item]. Qed.

(** There is an item to start. *)
Definition startable (l : AI_PLAYLIST_CTX_T) : Prop := forall i, upcoming l = Some i -> 0 <= i < pl_count l.

Definition callback_posts (m : AI_PLAYER_MODE_E) (q : list AI_PLAYER_MSG_T) (l : AI_PLAYLIST_CTX_T) (q' : list AI_PLAYER_MSG_T) : Prop :=
  match upcoming l with
  | Some i => exists item, pl_items l !! Z.to_nat i = Some item /\ posted m q item q'
  | None => q' = []
  end.

Lemma status_changed_wp m p q l (Q : unit -> AI_PLAYER_CTX_T * (playlists * W) -> Prop) x y w :
  px_player m x = Some p -> ap_state p = AI_PLAYER_STOPPED -> px_queue x = Some q -> (length q <= PLAYER_QUEUE_LEN)%nat ->
  ad_ok w -> pls_get m y = PlLive l -> startable l ->
  (forall q' w', ad_ok w' -> ad_output w' = ad_output w -> callback_posts m q l q' ->
     Q tt (px_set_queue (Some (q ++ q')%list) x, (pls_set m (PlLive (advance l)) y, w'))) ->
  wp (status_changed m AI_PLAYER_STOPPED) Q (x, (y, w)).
Proof.
  intros Hp Hst Hq Hlq Hw Hl Hs HQ. rewrite <- (pls_set_id m l y Hl). unfold status_changed. apply wp_bind, get_list_at.
  rewrite bool_decide_true by done. cbn [negb]. fold (targeted l).
  assert (Hstart : forall i l', (upcoming l = Some i) -> pl_items l' = pl_items l -> pl_index l' = i -> advance l = l' ->
    wp (start_current m) Q (x, (pls_set m (PlLive l') y, w))).
  { intros i l' Hu Hil Hix Hadv. destruct (count_lookup l i (Hs i Hu)) as [item Hitem].
    eapply start_current_wp; [done..|apply pls_get_set|by rewrite Hil, Hix|]. intros q' w' Hw' Ho' Hpo. subst l'. apply HQ; [done|done|].
    unfold callback_posts. rewrite Hu. by exists item. }
  destruct (targeted l) eqn:Ht.
  { apply wp_bind, mod_list_at. eapply Hstart; unfold advance, upcoming; by rewrite ?Ht. }
  destruct (pl_single l) eqn:Hsi.
  { eapply (Hstart _ l); unfold advance, upcoming; rewrite ?Ht, ?Hsi; try done. by destruct l. }
  apply wp_bind, mod_list_at, wp_bind, get_list_at. cbn [pl_index pl_set_index]. change (pl_count (pl_set_index _ l)) with (pl_count l).
  destruct (u32 (pl_index l + 1) <? pl_count l) eqn:Hlt.
  { if_false (lia). eapply Hstart; unfold advance, upcoming; by rewrite ?Ht, ?Hsi, ?Hlt. }
  if_true (lia). apply wp_bind, mod_list_at. change (lc_loop (pl_cfg (pl_set_index _ l))) with (lc_loop (pl_cfg l)).
  destruct (lc_loop (pl_cfg l)) eqn:Hloop.
  { eapply (Hstart 0); unfold advance, upcoming; by rewrite ?Ht, ?Hsi, ?Hlt, ?Hloop. }
  assert (Hu : upcoming l = None) by (unfold upcoming; by rewrite Ht, Hsi, Hlt, Hloop).
  apply mod_list_at. specialize (HQ [] w Hw eq_refl). unfold callback_posts, advance in HQ. rewrite Hu, Ht, app_nil_r in HQ.
  replace (px_set_queue (Some q) x) with x in HQ; [by apply HQ|]. destruct x; cbn in *; by subst.
Qed.

(** *** The promise to the player service *)

(** A list whose callback finds an item to start, now and later. *)
Record list_ok (l : AI_PLAYLIST_CTX_T) : Prop := {
  lo_unlocked : pl_locked l = false;
  lo_index : 0 <= pl_index l;
  lo_target : 0 <= pl_target_index l;
  lo_repeat : (lc_loop (pl_cfg l) || pl_single l = true) -> pl_index l < pl_count l }.

Lemma list_ok_startable l : list_ok l -> startable l.
Proof.
  intros [_ Hi Ht Hr] i. unfold upcoming. destruct (targeted l) eqn:Htg.
  { intros [= <-]. apply andb_true_iff in Htg as [_ Hlt%Z.ltb_lt]. lia. }
  destruct (pl_single l); [intros [= <-]; rewrite orb_true_r in Hr; auto|].
  destruct (Z.ltb_spec (u32 (pl_index l + 1)) (pl_count l)).
  { intros [= <-]. split; [|done]. apply Z.mod_pos_bound. lia. }
  rewrite orb_false_r in Hr. destruct (lc_loop (pl_cfg l)); [|done]. intros [= <-]. specialize (Hr eq_refl). lia.
Qed.

Lemma advance_ok l : list_ok l -> list_ok (advance l).
Proof.
  intros Hl. pose proof (list_ok_startable l Hl) as Hs. destruct Hl as [Hu Hi Ht Hr]. unfold startable, advance in *.
  unfold upcoming in *. destruct (targeted l) eqn:Htg.
  { specialize (Hs _ eq_refl). split; try done; cbn; unfold INVALID_INDEX; try lia. intros _. apply Hs. }
  destruct (if pl_single l then _ else _) as [i|] eqn:Hup.
  { specialize (Hs _ eq_refl). split; try done; cbn; try lia. intros _. apply Hs. }
  split; try done. cbn [pl_index pl_set_playing pl_set_index pl_cfg pl_single pl_count pl_items].
  destruct (pl_single l); [done|]. destruct (_ <? _); [done|]. by destruct (lc_loop (pl_cfg l)).
Qed.

Definition slots_ok (y : playlists) : Prop :=
  forall m, match pls_get m y with PlNone => True | PlLive l => list_ok l | PlFreed => False end.

Lemma posted_start m q item q' : posted m q item q' -> (length q <= PLAYER_QUEUE_LEN)%nat ->
  Forall is_start q' /\ (length (q ++ q') <= PLAYER_QUEUE_LEN)%nat.
Proof.
  intros [(Hl & v & _ & ->)|[-> _]] Hq; rewrite length_app; cbn [length]; (split; [|lia]); [|done].
  apply Forall_singleton. by do 3 eexists.
Qed.

Lemma slots_set m l y : slots_ok y -> list_ok l -> slots_ok (pls_set m (PlLive l) y).
Proof. intros Hy Hl m'. specialize (Hy m'). by destruct m, m'. Qed.

Lemma playlist_callback_law m p q x y w : px_player m x = Some p -> px_queue x = Some q -> (length q <= PLAYER_QUEUE_LEN)%nat ->
  slots_ok y -> ad_ok w ->
  wp (playlist_cb m (ap_state p)) (fun _ '(x', (y', w')) => slots_ok y' /\ ad_ok w' /\ ad_output w' = ad_output w /\
    exists q', x' = px_set_queue (Some (q ++ q'))%list x /\ Forall is_start q' /\ (length (q ++ q') <= PLAYER_QUEUE_LEN)%nat) (x, (y, w)).
Proof.
  intros Hp Hq Hlq Hy Hw. pose proof (Hy m) as Hm. cbn [playlist_cb playlist_hook]. unfold __player_status_cb.
  assert (Hnone : slots_ok y /\ ad_ok w /\ ad_output w = ad_output w /\
    exists q', x = px_set_queue (Some (q ++ q'))%list x /\ Forall is_start q' /\ (length (q ++ q') <= PLAYER_QUEUE_LEN)%nat).
  { do 3 (split; [done|]). exists []. rewrite app_nil_r. split; [|done]. destruct x; cbn in *; by subst. }
  do 2 wp_step. cbn [fst snd]. destruct (pls_get m y) as [|l|] eqn:Hl; [by wp_step| |done].
  apply wp_bind. eapply get_list_wp; [done|]. rewrite (lo_unlocked _ Hm). destruct (decide (ap_state p = AI_PLAYER_STOPPED)) as [Hst|Hst].
  - rewrite Hst. eapply (status_changed_wp m p q l); [done..|by apply list_ok_startable|]. intros q' w' Hw' Ho' Hpo.
    split; [apply slots_set; [done|by apply advance_ok]|]. do 2 (split; [done|]). exists q'. split; [done|].
    unfold callback_posts in Hpo. destruct (upcoming l); [destruct Hpo as (item & _ & Hpo); by eapply posted_start|]. subst q'.
    by rewrite app_nil_r.
  - unfold status_changed. apply wp_bind. eapply get_list_wp; [done|]. rewrite bool_decide_false by done. cbn [negb]. by wp_step.
Qed.

#[export] Instance playlist_laws : PlaylistLaws playlists W := {| hk_ok := slots_ok; hk_law := playlist_callback_law |}.

(** *** Commands while an item plays *)

(** The player [m] plays, or is paused, its thread is idle, and the list [l] is not
    in use. *)
Record playing_list (m : AI_PLAYER_MODE_E) (p : AI_PLAYER_T) (l : AI_PLAYLIST_CTX_T) x y w : Prop := {
  pg_sync : active_sync x;
  pg_running : px_running x = true;
  pg_queue : px_queue x = Some [];
  pg_player : px_player m x = Some p;
  pg_state : ap_state p <> AI_PLAYER_STOPPED;
  pg_callback : ap_playlist p = true;
  pg_list : pls_get m y = PlLive l;
  pg_ok : ad_ok w }.

(** The player has been stopped, and its thread waits for the mutex. *)
Definition stop_waits m p l y (s' : AI_PLAYER_CTX_T * (playlists * W)) : Prop :=
  exists x' w', s' = (x', (pls_set m (PlLive (pl_set_lock true (Some AI_PLAYER_STOPPED) l)) y, w')) /\
    px_queue x' = Some [] /\ px_player m x' = Some (ap_restart AI_PLAYER_STOPPED p) /\ ad_ok w'.

Lemma stop_player_wp m p l x y w : playing_list m p l x y w -> pl_locked l = true ->
  wp (stop_player m) (fun _ s' => stop_waits m p l y s') (x, (y, w)).
Proof.
  intros [Hs Hr Hq Hp Hst Hcb Hl Hw] Hlock. unfold stop_player, tuya_ai_player_stop. do 2 apply wp_bind. eapply get_player_wp; [done|].
  rewrite bool_decide_false by done. unfold player_post. apply wp_bind. do 2 tm_step. apply wp_bind. eapply wp_pure; [exact Hq|].
  cbn [length Nat.ltb Nat.leb PLAYER_QUEUE_LEN]. tm_steps. cbn [negb Z.eqb OPRT_OK app]. apply wp_bind. unfold PLAYER_QUEUE_LEN. cbn [run_until].
  set (x1 := px_set_queue (Some [mk_pmsg m PLAYER_CMD_STOP]) x). apply wp_bind. eapply get_player_wp; [exact Hp|].
  rewrite bool_decide_false by done. apply wp_bind.
  eapply wp_mono; [apply (stop_step_with (fun y' q' => q' = [] /\ y' = pls_set m (PlLive (pl_set_lock true (Some AI_PLAYER_STOPPED) l)) y) m [] p);
    [exact Hs|exact Hr|done|exact Hp|exact Hw|]|].
  - intros w' Hw' Ho'. rewrite Hcb. cbn [playlist_cb playlist_hook]. unfold __player_status_cb. do 2 wp_step. cbn [fst snd].
    rewrite Hl. apply wp_bind. eapply get_list_wp; [done|]. rewrite Hlock. eapply mod_list_wp; [done|].
    do 3 eexists. split; [|split; [exact Hw'|split; [exact Ho'|by split]]]. unfold stopped. cbn [app]. f_equal. subst x1. by destruct m.
  - intros [] s' (x' & y' & q' & w' & -> & Hx' & Hw' & _ & -> & ->). destruct (stop_round_player _ _ _ _ _ _ Hx') as (Hp' & Hq' & _).
    eapply wp_mono; [by apply (run_until_done 1 m _ _ _ _ _ Hp')|]. intros b s' [-> ->]. eapply wp_pure; [done|]. wp_step.
    do 2 eexists. by split.
Qed.

Lemma with_mutex_wp m l body (Q : OPERATE_RET -> AI_PLAYER_CTX_T * (playlists * W) -> Prop) x y w : pls_get m y = PlLive l ->
  wp (body m) (fun rt s' => wp (tal_mutex_unlock m) (fun _ s' => Q rt s') s') (x, (pls_set m (PlLive (pl_set_lock true None l)) y, w)) ->
  wp (with_mutex (Some m) body) Q (x, (y, w)).
Proof.
  intros Hl Hb. unfold with_mutex, tal_mutex_lock. apply wp_bind. eapply mod_list_wp; [done|]. apply wp_bind. eapply wp_mono; [exact Hb|].
  intros rt s' Hs'. apply wp_bind. eapply wp_mono; [exact Hs'|]. intros a s2 ?. by wp_step.
Qed.

(** Unlocking lets the thread go on: the next item is started. *)
Definition next_started m (l : AI_PLAYLIST_CTX_T) y (s' : AI_PLAYER_CTX_T * (playlists * W)) : Prop :=
  s'.2.1 = pls_set m (PlLive (advance l)) y /\
  match upcoming l with
  | Some i => exists item v, pl_items l !! Z.to_nat i = Some item /\ (v = Some (pi_value item) \/ v = None) /\
                px_queue s'.1 = Some [start_msg m item v]
  | None => px_queue s'.1 = Some []
  end.

Lemma unlock_wp m p l y s : stop_waits m p l y s -> startable (pl_set_lock false None l) ->
  Forall (fun item => pi_value item <> "") (pl_items l) ->
  wp (tal_mutex_unlock m) (fun _ s' => next_started m (pl_set_lock false None l) y s') s.
Proof.
  intros (x & w & -> & Hq & Hp & Hw) Hs Hv. unfold tal_mutex_unlock. apply wp_bind, get_list_at, wp_bind, mod_list_at. cbn [pl_owed pl_set_lock].
  change (pl_set_lock false None (pl_set_lock true _ l)) with (pl_set_lock false None l).
  eapply status_changed_wp; [done|done|done|cbn; lia|done|apply pls_get_set|exact Hs|]. intros q' w' Hw' Ho' Hpo. rewrite pls_set_twice.
  split; [done|]. unfold callback_posts in Hpo. destruct (upcoming _) as [i|] eqn:Hu; [|by subst q'].
  destruct Hpo as (item & Hi & [(_ & v & Hv' & ->)|(_ & [Hlen|He])]); [by exists item, v|done|].
  rewrite Forall_lookup in Hv. by specialize (Hv _ _ Hi).
Qed.

(** Stopping with the mutex held. *)
Lemma stop_at m p l l' (Q : unit -> AI_PLAYER_CTX_T * (playlists * W) -> Prop) x y w : playing_list m p l' x y w ->
  (forall x' w', (forall l2, stop_waits m p l2 y (x', (pls_set m (PlLive (pl_set_lock true (Some AI_PLAYER_STOPPED) l2)) y, w'))) ->
     Q tt (x', (pls_set m (PlLive (pl_set_lock true (Some AI_PLAYER_STOPPED) l)) y, w'))) ->
  wp (stop_player m) Q (x, (pls_set m (PlLive (pl_set_lock true None l)) y, w)).
Proof.
  intros [] HQ. eapply wp_mono; [apply (stop_player_wp m p (pl_set_lock true None l)); [split; try done; apply pls_get_set|done]|].
  intros [] s' (x' & w' & -> & ? & ? & ?). rewrite pls_set_twice. apply HQ. intros l2. by do 2 eexists.
Qed.

(** ** Where the commands land *)

Inductive list_cmd := CmdNext | CmdPrev | CmdStop | CmdRestart | CmdPlay (index : Z).

Definition run_list_cmd (m : AI_PLAYER_MODE_E) (c : list_cmd) : C (AI_PLAYER_CTX_T * (playlists * W)) OPERATE_RET :=
  match c with
  | CmdNext => tuya_ai_playlist_next (Some m)
  | CmdPrev => tuya_ai_playlist_prev (Some m)
  | CmdStop => tuya_ai_playlist_stop (Some m)
  | CmdRestart => tuya_ai_playlist_restart (Some m)
  | CmdPlay index => tuya_ai_playlist_play (Some m) index
  end.

(** The item after [i]. *)
Definition item_after (l : AI_PLAYLIST_CTX_T) (i : Z) : option Z :=
  if pl_single l then Some i
  else if i + 1 <? pl_count l then Some (i + 1) else if lc_loop (pl_cfg l) then Some 0 else None.

(** The item that a command starts, the current one being [i]. *)
Definition lands (l : AI_PLAYLIST_CTX_T) (c : list_cmd) : option Z :=
  let i := pl_index l in
  let k := pl_count l in
  let loop := lc_loop (pl_cfg l) in
  match c with
  | CmdNext => item_after l (if i + 1 <? k then i + 1 else if loop then 0 else k - 1)
  | CmdPrev => item_after l (if 0 <? i then i - 1 else if loop then k - 1 else 0)
  | CmdStop => item_after l i
  | CmdRestart => item_after l 0
  | CmdPlay index => Some index
  end.

Definition cmd_valid (l : AI_PLAYLIST_CTX_T) (c : list_cmd) : Prop :=
  match c with CmdPlay index => 0 <= index < pl_count l | _ => True end.

(** What the command makes of the list before the callback runs. *)
Definition cmd_list (l : AI_PLAYLIST_CTX_T) (c : list_cmd) : AI_PLAYLIST_CTX_T :=
  let i := pl_index l in
  let k := pl_count l in
  let loop := lc_loop (pl_cfg l) in
  match c with
  | CmdNext => pl_set_index (if i + 1 <? k then i + 1 else if loop then 0 else k - 1) l
  | CmdPrev => pl_set_index (if 0 <? i then i - 1 else if loop then k - 1 else 0) l
  | CmdStop => pl_set_playing false l
  | CmdRestart => pl_set_playing true (pl_set_index 0 l)
  | CmdPlay index => pl_set_playing true (pl_set_target index l)
  end.

(** A list in use: the current item exists, no other is asked for. *)
Record in_use (l : AI_PLAYLIST_CTX_T) : Prop := {
  iu_index : 0 <= pl_index l < pl_count l;
  iu_count : pl_count l < 2 ^ 32 - 1;
  iu_target : pl_target_index l = INVALID_INDEX;
  iu_playing : pl_playing l = true;
  iu_locked : pl_locked l = false /\ pl_owed l = None;
  iu_names : Forall (fun item => pi_value item <> "") (pl_items l) }.

Lemma upcoming_after l : pl_target_index l = INVALID_INDEX -> 0 <= pl_index l < pl_count l -> pl_count l < 2 ^ 32 - 1 ->
  upcoming l = item_after l (pl_index l).
Proof.
  intros Ht Hi Hk. unfold upcoming, targeted, item_after. rewrite Ht. cbn [negb Z.eqb andb INVALID_INDEX Pos.eqb].
  destruct (pl_single l); [done|]. rewrite u32_id by (unfold is_u32; lia). done.
Qed.

Lemma cmd_list_upcoming l c : in_use l -> cmd_valid l c ->
  upcoming (cmd_list l c) = lands l c /\ startable (cmd_list l c) /\ pl_items (cmd_list l c) = pl_items l.
Proof.
  intros [Hi Hk Ht Hp Hl Hv] Hc.
  assert (Hup : upcoming (cmd_list l c) = lands l c).
  { destruct c; cbn [cmd_list lands cmd_valid] in *; try (rewrite upcoming_after; [done|done| |done]; cbn [pl_index pl_set_index pl_set_playing];
      change (pl_count (pl_set_index _ _)) with (pl_count l); change (pl_count (pl_set_playing _ _)) with (pl_count l);
      repeat case_match; lia).
    unfold upcoming, targeted. cbn [pl_target_index pl_set_playing pl_set_target]. change (pl_count (pl_set_playing _ _)) with (pl_count l).
    if_true (unfold INVALID_INDEX; lia). done. }
  split; [done|]. split; [|by destruct c]. intros j Hj. rewrite Hup in Hj. change (pl_count (cmd_list l c)) with (Z.of_nat (length (pl_items (cmd_list l c)))).
  replace (pl_items (cmd_list l c)) with (pl_items l) by (by destruct c). fold (pl_count l).
  destruct c; cbn [lands cmd_valid] in *; unfold item_after in *; repeat case_match; simplify_eq; lia.
Qed.

(** The command, up to unlocking. *)
Lemma cmd_run m p l c (Q : OPERATE_RET -> AI_PLAYER_CTX_T * (playlists * W) -> Prop) x y w : playing_list m p l x y w -> in_use l -> cmd_valid l c ->
  (forall s', stop_waits m p (cmd_list l c) y s' -> wp (tal_mutex_unlock m) (fun _ s' => Q OPRT_OK s') s') ->
  wp (run_list_cmd m c) Q (x, (y, w)).
Proof.
  intros Hg [Hi Hk Ht Hpl _ Hv] Hc HQ. pose proof (pg_list _ _ _ _ _ _ Hg) as Hl.
  assert (Hu : u32 (pl_index l + 1) = pl_index l + 1) by (apply u32_id; unfold is_u32; lia).
  destruct c; cbn [run_list_cmd cmd_list cmd_valid] in *; (eapply with_mutex_wp; [done|]).
  - apply wp_bind, mod_list_at. cbn [pl_index pl_set_lock]. rewrite Hu. change (pl_count (pl_set_lock _ _ _)) with (pl_count l).
    change (lc_loop (pl_cfg (pl_set_lock _ _ _))) with (lc_loop (pl_cfg l)).
    match goal with |- wp _ _ (_, (pls_set _ (PlLive ?l2) _, _)) =>
      replace l2 with (pl_set_lock true None (pl_set_index (if pl_index l + 1 <? pl_count l then pl_index l + 1
        else if lc_loop (pl_cfg l) then 0 else pl_count l - 1) l)) by (repeat case_match; (done || lia)) end.
    apply wp_bind. eapply stop_at; [exact Hg|]. intros x' w' Hw'. wp_step. apply HQ, Hw'.
  - apply wp_bind, mod_list_at. cbn [pl_index pl_set_lock]. change (pl_count (pl_set_lock _ _ _)) with (pl_count l).
    change (lc_loop (pl_cfg (pl_set_lock _ _ _))) with (lc_loop (pl_cfg l)).
    match goal with |- wp _ _ (_, (pls_set _ (PlLive ?l2) _, _)) =>
      replace l2 with (pl_set_lock true None (pl_set_index (if 0 <? pl_index l then pl_index l - 1
        else if lc_loop (pl_cfg l) then pl_count l - 1 else 0) l)) end.
    2: { destruct (Z.ltb_spec 0 (pl_index l)); [done|]. destruct (lc_loop _) eqn:Hloop; [rewrite u32_id by (unfold is_u32; lia); done|].
         replace 0 with (pl_index l) at 1 by lia. by destruct l. }
    apply wp_bind. eapply stop_at; [exact Hg|]. intros x' w' Hw'. wp_step. apply HQ, Hw'.
  - apply wp_bind. eapply stop_at; [exact Hg|]. intros x' w' Hw'. apply wp_bind, mod_list_at. wp_step.
    apply HQ, (Hw' (pl_set_playing false l)).
  - apply wp_bind, get_list_at. cbn [pl_playing pl_set_lock]. rewrite Hpl. apply wp_bind. eapply stop_at; [exact Hg|]. intros x' w' Hw'.
    apply wp_bind, mod_list_at. wp_step. apply HQ, (Hw' (pl_set_playing true (pl_set_index 0 l))).
  - apply wp_bind, get_list_at. change (pl_count (pl_set_lock _ _ _)) with (pl_count l). if_false (lia). cbn [pl_playing pl_set_lock]. rewrite Hpl.
    do 2 apply wp_bind. apply mod_list_at. change (pl_set_target index (pl_set_lock true None l)) with (pl_set_lock true None (pl_set_target index l)).
    eapply stop_at; [exact Hg|]. intros x' w' Hw'. apply wp_bind, mod_list_at. wp_step.
    apply HQ, (Hw' (pl_set_playing true (pl_set_target index l))).
Qed.

(** C35. While an item plays, each command of a playlist stops the player, and the
    callback of that stop then starts an item: which one, for every command and
    every state of the list. The callback moves on from the item that the command
    chose, so that only [play] lands on what was asked for: with items after the
    current one, [next] skips an item, [prev] plays the current item again, [restart]
    begins with the second item, and [stop] starts the next item. *)
Theorem playlist_commands_land m p l c x y w : playing_list m p l x y w -> in_use l -> cmd_valid l c ->
  exists s', run_list_cmd m c (x, (y, w)) = Some (OPRT_OK, s') /\
    match lands l c with
    | Some i => exists item v l', pl_items l !! Z.to_nat i = Some item /\ (v = Some (pi_value item) \/ v = None) /\
        px_queue s'.1 = Some [start_msg m item v] /\ pls_get m s'.2.1 = PlLive l' /\ pl_index l' = i /\ pl_items l' = pl_items l
    | None => px_queue s'.1 = Some [] /\
        exists l', pls_get m s'.2.1 = PlLive l' /\ pl_index l' = 0 /\ pl_playing l' = false /\ pl_items l' = pl_items l
    end.
Proof.
  intros Hg Hu Hc. destruct (cmd_list_upcoming l c Hu Hc) as (Hup & Hs & Hit).
  assert (Hwp : wp (run_list_cmd m c) (fun rt s' => rt = OPRT_OK /\ next_started m (pl_set_lock false None (cmd_list l c)) y s') (x, (y, w))).
  { apply (cmd_run m p l c); [done..|]. intros s' Hs'. eapply wp_mono; [eapply unlock_wp; [exact Hs'|exact Hs|rewrite Hit; apply Hu]|]. by intros [] s2 ?. }
  destruct (wp_elim _ _ _ Hwp) as (rt & s' & Hrun & -> & Hl' & Hq'). exists s'. split; [done|]. rewrite Hl', pls_get_set. change (upcoming (pl_set_lock _ _ _)) with (upcoming (cmd_list l c)) in Hq'. rewrite Hup in Hq'.
  assert (Hit' : pl_items (advance (pl_set_lock false None (cmd_list l c))) = pl_items l).
  { unfold advance. repeat case_match; exact Hit. }
  pose proof Hup as Hup2. revert Hup2. change (upcoming (cmd_list l c)) with (upcoming (pl_set_lock false None (cmd_list l c))).
  revert Hit'. unfold advance. set (l2 := pl_set_lock _ _ _) in *. intros Hit' Hup2.
  destruct (targeted l2) eqn:Ht.
  - assert (Hj : upcoming l2 = Some (pl_target_index l2)) by (unfold upcoming; by rewrite Ht). rewrite Hj in Hup2. rewrite <- Hup2 in Hq' |- *.
    destruct Hq' as (item & v & Hi & Hv & Hq'). exists item, v, (pl_set_target INVALID_INDEX (pl_set_index (pl_target_index l2) l2)).
    change (pl_items l2) with (pl_items (cmd_list l c)) in Hi.
      rewrite Hit in Hi. by split_and!.
  - rewrite Hup2 in *. destruct (lands l c) as [j|].
    + destruct Hq' as (item & v & Hi & Hv & Hq'). exists item, v, (pl_set_index j l2). change (pl_items l2) with (pl_items (cmd_list l c)) in Hi.
      rewrite Hit in Hi. by split_and!.
    + split; [done|]. by exists (pl_set_playing false (pl_set_index 0 l2)).
Qed.
End Rules.
