(* ===== verification/AudioDemo.v ===== *)
(** The audio player on a small device: files are byte lists of 16 kHz mono PCM, the
    decoder copies. The witnesses of the player's properties, and short runs. *)
From stdpp Require Import relations.
From S2P Require Import Prelude.
From S2P Require Import World.
From S2P Require Import TmHost.
From S2P Require Import AudioDsp.
From S2P Require Import AudioDspCorrect.
From S2P Require Import AudioPlayer.
From S2P Require Import AudioMix.
From S2P Require Import AudioSafe.
From S2P Require Import AudioApi.
From S2P Require Import Playlist.
From S2P Require Import PlaylistCorrect.

#[local] Open Scope Z_scope.

(** ** The device *)

Record demo_audio := mk_demo_audio { da_fg : list Z; da_bg : list Z; da_out : list Z }.

Definition da_src (m : AI_PLAYER_MODE_E) (d : demo_audio) : list Z :=
  match m with AI_PLAYER_MODE_FOREGROUND => da_fg d | AI_PLAYER_MODE_BACKGROUND => da_bg d end.
Definition da_set_src (m : AI_PLAYER_MODE_E) (l : list Z) (d : demo_audio) : demo_audio :=
  match m with
  | AI_PLAYER_MODE_FOREGROUND => mk_demo_audio l (da_bg d) (da_out d)
  | AI_PLAYER_MODE_BACKGROUND => mk_demo_audio (da_fg d) l (da_out d)
  end.

(** A file of four samples, which its name decides. *)
Definition demo_file (value : option string) : list Z :=
  match value with
  | Some v => flat_map (fun i => [Z.of_nat (String.length v); i]) [0; 1; 2; 3]
  | None => []
  end.

Definition demo_read (m : AI_PLAYER_MODE_E) (n : Z) : C demo_audio (OPERATE_RET * list Z) := fun d =>
  match da_src m d with
  | [] => Some ((OPRT_NOT_FOUND, []), d)
  | src => Some ((OPRT_OK, take (Z.to_nat n) src), da_set_src m (drop (Z.to_nat n) src) d)
  end.

Definition demo_decode (input buf : list Z) : Z * list Z * DECODER_OUTPUT_T :=
  let n := Nat.min (length input) (length buf) in
  let k := Z.of_nat n / 2 in
  (Z.of_nat (length input - n), (take n input ++ drop n buf)%list,
   if k =? 0 then output_zero else mk_output 16000 16 1 k (2 * k)).

#[export] Instance demo_audio_dev : AudioDev demo_audio := {|
  ai_player_datasink_start m _ value := fun d => Some (OPRT_OK, da_set_src m (demo_file value) d);
  ai_player_datasink_stop m := fun d => Some (tt, da_set_src m [] d);
  ai_player_datasink_deinit m := fun d => Some (tt, da_set_src m [] d);
  ai_player_datasink_read := demo_read;
  ai_player_datasink_get_progress _ := cret (OPRT_OK, 0, 0);
  ai_player_datasink_feed m data := fun d => Some (OPRT_OK, da_set_src m (da_src m d ++ default [] data)%list d);
  ai_player_decoder_start _ _ := cret OPRT_OK;
  ai_player_decoder_stop _ := cret tt;
  ai_player_decoder_get_codec _ := cret AI_AUDIO_CODEC_WAV;
  ai_player_decoder_deinit _ := cret tt;
  ai_player_decoder_process _ input buf := cret (demo_decode input buf);
  consumer_open := cret tt;
  consumer_close := cret tt;
  consumer_start _ := cret tt;
  consumer_stop _ := cret tt;
  consumer_write _ bytes := fun d => Some (tt, mk_demo_audio (da_fg d) (da_bg d) (da_out d ++ bytes)%list);
  consumer_set_volume _ := cret tt;
  publish_player_state _ _ := cret tt;
  player_malloc := cret true;
  player_queue_create := cret OPRT_OK;
  player_queue_full := OPRT_COM_ERROR;
  player_thread_create := cret OPRT_OK;
  thread_rounds := cret 10%nat;
  ad_ok _ := True;
  ad_output := da_out |}.

Lemma da_out_src m l d : da_out (da_set_src m l d) = da_out d.
Proof. by destruct m. Qed.

Lemma demo_sound input buf : let '(rt, buf', o) := demo_decode input buf in
  rt <= Z.of_nat (length input) /\ length buf' = length buf /\ sound_output o (length buf).
Proof.
  unfold demo_decode. split; [lia|]. split; [rewrite length_app, length_take, length_drop; lia|].
  set (n := Nat.min _ _). destruct (Z.eqb_spec (Z.of_nat n / 2) 0); [by left|right].
  pose proof (half_bounds (Z.of_nat n) ltac:(lia)). cbn. assert (n <= length buf)%nat by lia. unfold OUT_SR_16K in *. intuition lia.
Qed.

#[export] Instance demo_audio_laws : AudioDevLaws demo_audio.
Proof.
  split; try (intros; by split_and!); try (intros; intros d _; cbn; by rewrite ?da_out_src).
  - intros m n Hn d _. cbn. unfold wp, demo_read. destruct (da_src m d) as [|b l]; cbn [snd length]; [by split_and!|].
    rewrite da_out_src. split_and!; try done. rewrite length_take. lia.
  - intros m input buf d _. split; [done|]. split; [done|]. apply demo_sound.
  - discriminate.
Qed.

(** ** Mixing *)

Definition no_playlists : playlists := mk_playlists PlNone PlNone.
Definition silence : demo_audio := mk_demo_audio [] [] [].

(** A chunk of the samples [l]. *)
Definition chunk_player (l : list Z) : AI_PLAYER_T :=
  ap_set_decode (bytes16 l ++ replicate (Z.to_nat AI_PLAYER_DECODEBUF_SIZE - 2 * length l) 0)%list (2 * Z.of_nat (length l))
    (ap_set_state AI_PLAYER_PLAYING player_new).

(** Two samples of the foreground stream wait; the background gets three. *)
Definition mixing_ctx : AI_PLAYER_CTX_T :=
  px_set_mixer (Some (bytes16 [30000; -7] ++ replicate (Z.to_nat AI_PLAYER_DECODEBUF_SIZE - 4) 0)%list) 4 1
    (px_set_modes true true (px_set_players (Some (chunk_player [])) (Some (chunk_player [10000; 1; 5])) player_ctx_zero)).

Lemma mixing_exact_witness :
  has_mixed [] [30000; -7] [] (mixing_ctx, (no_playlists, silence)) /\
  wp (__handle_player_streaming_mix false true)
    (fun rt s' => rt = OPRT_OK /\ has_mixed [] [30000; -7] [10000; 1; 5] s') (mixing_ctx, (no_playlists, silence)).
Proof.
  assert (Hm : has_mixed [] [30000; -7] [] (mixing_ctx, (no_playlists, silence))).
  { split; [exact I|]. split; [|exists []; split; [reflexivity|split; [by exists 0%nat|reflexivity]]].
    eexists _, 2%nat. split; [reflexivity|]. split; [by vm_compute|]. split; [reflexivity|]. split; [by vm_compute; lia|].
    right; left. split; [reflexivity|]. split; by vm_compute. }
  split; [exact Hm|].
  assert (Hg : good_chunk (chunk_player [10000; 1; 5])) by (exists 3%nat; split; [reflexivity|split; [by vm_compute|by vm_compute; lia]]).
  pose proof (mixing_exact [] [30000; -7] [] (chunk_player []) (chunk_player [10000; 1; 5]) mixing_ctx no_playlists silence Hm
    eq_refl eq_refl) as H.
  cbn [reads_fg reads_bg mixing_ctx px_mixer_flag px_set_mixer Z.eqb Pos.eqb negb orb app] in H.
  replace (chunk_samples (chunk_player [10000; 1; 5])) with [10000; 1; 5] in H by (by vm_compute).
  apply H; [discriminate|intros _; exact Hg].
Defined.

(** ** The service *)

Definition demo_cfg : AI_PLAYER_CFG_T := mk_pcfg 16000 16 1.

(** The service is set up and has a foreground player. *)
Definition set_up_ctx : AI_PLAYER_CTX_T :=
  mk_pctx (Some []) true OPRT_OK false PLAYER_IDLE_TIMEOUT_MS (Some player_new) None None demo_cfg PLAYER_MAX_VOLUME false false true None 0 0.

Lemma set_up_reachable : reachable (set_up_ctx, (no_playlists, silence)).
Proof.
  exists no_playlists, silence. split; [by intros []|]. split; [exact I|].
  eapply rtc_l; [apply (player_step_op (OpServiceInit demo_cfg)); [reflexivity|reflexivity]|].
  apply rtc_once, (player_step_op (OpCreate AI_PLAYER_MODE_FOREGROUND)); [exact I|reflexivity].
Qed.


Definition started_ctx : AI_PLAYER_CTX_T :=
  px_set_queue (Some [mk_pmsg AI_PLAYER_MODE_FOREGROUND (PLAYER_CMD_START AI_PLAYER_SRC_FILE (Some "a.wav") AI_AUDIO_CODEC_WAV)]) set_up_ctx.

Definition playing_ctx : AI_PLAYER_CTX_T :=
  px_set_active (Some AI_PLAYER_MODE_FOREGROUND) true PLAYER_BUSY_TIMEOUT_MS
    (px_set_players (Some (ap_restart AI_PLAYER_PLAYING player_new)) None set_up_ctx).

Definition playing_dev : demo_audio := mk_demo_audio (demo_file (Some "a.wav")) [] [].

Lemma playing_reachable : reachable (playing_ctx, (no_playlists, playing_dev)).
Proof.
  destruct set_up_reachable as (y & w & Hy & Hw & Hr). exists y, w. split; [exact Hy|]. split; [exact Hw|].
  eapply rtc_r; [eapply rtc_r; [exact Hr|]|].
  - apply (player_step_op (OpStart AI_PLAYER_MODE_FOREGROUND AI_PLAYER_SRC_FILE (Some "a.wav") AI_AUDIO_CODEC_WAV) _
      (started_ctx, (no_playlists, silence))); [|reflexivity].
    split; [by eexists|]. split; [reflexivity|]. exists []. split; [reflexivity|constructor].
  - apply (player_step_op OpRound); [exact I|reflexivity].
Qed.


(** ** Playlists *)

Definition demo_item (name : string) : AI_PLAYITEM_T := mk_playitem AI_PLAYER_SRC_FILE name AI_AUDIO_CODEC_WAV.

Definition demo_list (loop : bool) (names : list string) : AI_PLAYLIST_CTX_T :=
  mk_playlist (mk_plcfg loop true 0 8) (map demo_item names) 8 0 INVALID_INDEX true false false None.

(** The first of three items plays. *)
Definition three : playlists := mk_playlists (PlLive (demo_list false ["a"; "bb"; "ccc"])) PlNone.
Definition listed_ctx : AI_PLAYER_CTX_T :=
  px_set_players (Some (ap_set_playlist true (ap_restart AI_PLAYER_PLAYING player_new))) None playing_ctx.

Lemma playlist_commands_land_witness : exists s', run_list_cmd AI_PLAYER_MODE_FOREGROUND CmdNext (listed_ctx, (three, playing_dev)) = Some (OPRT_OK, s') /\
  exists item v l', map demo_item ["a"; "bb"; "ccc"] !! 2%nat = Some item /\ (v = Some (pi_value item) \/ v = None) /\
    px_queue s'.1 = Some [start_msg AI_PLAYER_MODE_FOREGROUND item v] /\ pls_get AI_PLAYER_MODE_FOREGROUND s'.2.1 = PlLive l' /\
    pl_index l' = 2 /\ pl_items l' = map demo_item ["a"; "bb"; "ccc"].
Proof.
  apply (playlist_commands_land AI_PLAYER_MODE_FOREGROUND (ap_set_playlist true (ap_restart AI_PLAYER_PLAYING player_new))
    (demo_list false ["a"; "bb"; "ccc"]) CmdNext listed_ctx three playing_dev); [|..|exact I].
  - split; try reflexivity; try discriminate.
  - split; try reflexivity; try (vm_compute; intuition congruence). by repeat constructor.
Defined.

(** The playlist calls, then rounds. *)
Fixpoint rounds (n : nat) : C (AI_PLAYER_CTX_T * (playlists * demo_audio)) unit :=
  match n with O => cret tt | S n => let* _ := player_thread_step in rounds n end.

Definition output_after (run : C (AI_PLAYER_CTX_T * (playlists * demo_audio)) OPERATE_RET) (n : nat) : option (list Z * bool) :=
  match (let* _ := run in rounds n) (set_up_ctx, (no_playlists, silence)) with
  | Some (_, (x, (y, d))) => Some (pcm (da_out d), match pls_fg y with PlLive l => pl_playing l | _ => false end)
  | None => None
  end.

Definition with_list (loop : bool) (names : list string) (after : C (AI_PLAYER_CTX_T * (playlists * demo_audio)) OPERATE_RET)
    : C (AI_PLAYER_CTX_T * (playlists * demo_audio)) OPERATE_RET :=
  let fg := Some AI_PLAYER_MODE_FOREGROUND in
  let* _ := tuya_ai_playlist_create fg (Some (mk_plcfg loop true 0 8)) in
  let* _ := (fix add (l : list string) := match l with
     | [] => cret OPRT_OK
     | v :: l => let* _ := tuya_ai_playlist_add fg AI_PLAYER_SRC_FILE (Some v) AI_AUDIO_CODEC_WAV in add l
     end) names in
  after.

(** Two items are played once each, in order, from the first to the last sample;
    then the list is no longer playing. *)
Example playlist_in_order : output_after (with_list false ["a"; "bb"] (cret OPRT_OK)) 12 =
  Some ([1; 257; 513; 769; 2; 258; 514; 770], false).
Proof. by vm_compute. Qed.

(** Stopping a list of two while the first item plays plays the second. *)
Example playlist_stop_goes_on : output_after (with_list false ["a"; "bb"]
    (let* _ := player_thread_step in tuya_ai_playlist_stop (Some AI_PLAYER_MODE_FOREGROUND))) 12 =
  Some ([2; 258; 514; 770], false).
Proof. by vm_compute. Qed.

(** Clearing a looping list while an item plays makes the callback use an item that
    has been freed; so does stopping the player of a list that has been destroyed. *)
Example clear_uses_freed_item : output_after (with_list true ["a"; "bb"]
    (let* _ := player_thread_step in tuya_ai_playlist_clear (Some AI_PLAYER_MODE_FOREGROUND))) 0 = None.
Proof. by vm_compute. Qed.

Example destroy_leaves_callback : output_after (with_list false ["a"]
    (let* _ := player_thread_step in let* _ := tuya_ai_playlist_destroy (Some AI_PLAYER_MODE_FOREGROUND) in
     tuya_ai_player_stop (Some AI_PLAYER_MODE_FOREGROUND))) 0 = None.
Proof. by vm_compute. Qed.

(** A stop that comes before the queued start reports success, and the player plays. *)
Example early_stop_is_lost : output_after
    (let* _ := tuya_ai_player_start (Some AI_PLAYER_MODE_FOREGROUND) AI_PLAYER_SRC_FILE (Some "a") AI_AUDIO_CODEC_WAV in
     tuya_ai_player_stop (Some AI_PLAYER_MODE_FOREGROUND)) 6 = Some ([1; 257; 513; 769], false).
Proof. by vm_compute. Qed.
