(* ===== verification/ModeHost.v ===== *)
(** What the interaction modes of src/mode share: the build options, the states
    and payloads of src/mode/wukong_ai_mode.h, the calls into the rest of the
    device (recorded in order), and the helpers every mode file repeats. *)
From S2P Require Import Prelude.
From S2P Require Import World.
From S2P Require Import TmHost.

#[local] Open Scope string_scope.
#[local] Open Scope Z_scope.

(** Build options (menuconfig and Kconfig values). *)
Class ModeConfig := {
  ENABLE_TUYA_UI : bool;
  USING_BOARD_AUDIO_INPUT : bool;
  ENABLE_TUYA_PICTURE : bool;
  ENABLE_TUYA_CODEC_OPUS : bool;
  TUYA_AI_TOY_ISP_WIDTH : Z;
  TUYA_AI_TOY_ISP_HEIGHT : Z;
  chat_sub_built : Z -> bool;      (* ENABLE_AI_MODE_HOLD, _ONESHOT, _WAKEUP, _FREE *)
  device_mode_built : Z -> bool;   (* ENABLE_AI_MODE_TRANSLATE, _P2P, _RECORD, _PICTURE, _DETECTION *)
  TUYA_AI_CHAT_DEFAULT_MODE : Z;
  AI_AGENT_SCODE_CHAT : string;
  AI_AGENT_SCODE_TRANSLATE : string;
  AI_AGENT_SCODE_PICTURE : string;
  AI_AGENT_SCODE_DETECTION : string }.

(** *** Enumerations; those used as array indices stay integers. *)

Definition AI_CHAT_SUB_HOLD : Z := 0.
Definition AI_CHAT_SUB_ONESHOT : Z := 1.
Definition AI_CHAT_SUB_WAKEUP : Z := 2.
Definition AI_CHAT_SUB_FREE : Z := 3.
Definition AI_CHAT_SUB_MAX : Z := 4.

Definition AI_DEVICE_MODE_CHAT : Z := 0.
Definition AI_DEVICE_MODE_TRANSLATE : Z := 1.
Definition AI_DEVICE_MODE_P2P : Z := 2.
Definition AI_DEVICE_MODE_RECORD : Z := 3.
Definition AI_DEVICE_MODE_PICTURE : Z := 4.
Definition AI_DEVICE_MODE_DETECTION : Z := 5.
Definition AI_DEVICE_MODE_MAX : Z := 6.

Inductive AI_CHAT_STATE_E :=
| AI_CHAT_INIT | AI_CHAT_IDLE | AI_CHAT_LISTEN | AI_CHAT_UPLOAD | AI_CHAT_THINK | AI_CHAT_SPEAK | AI_CHAT_INVALID.

#[export] Instance chat_state_eq_dec : EqDecision AI_CHAT_STATE_E.
Proof. solve_decision. Defined.

Definition chat_state_code (s : AI_CHAT_STATE_E) : Z :=
  match s with
  | AI_CHAT_INIT => 0 | AI_CHAT_IDLE => 1 | AI_CHAT_LISTEN => 2 | AI_CHAT_UPLOAD => 3
  | AI_CHAT_THINK => 4 | AI_CHAT_SPEAK => 5 | AI_CHAT_INVALID => 6
  end.

Inductive PUSH_KEY_TYPE_E := NORMAL_KEY | SEQ_KEY | LONG_KEY | RELEASE_KEY.

Inductive WUKONG_AUDIO_VAD_FLAG_E := WUKONG_AUDIO_VAD_START | WUKONG_AUDIO_VAD_STOP.
#[export] Instance vad_flag_eq_dec : EqDecision WUKONG_AUDIO_VAD_FLAG_E.
Proof. solve_decision. Defined.

Inductive WUKONG_AUDIO_VAD_MODE_E := WUKONG_AUDIO_VAD_MANUAL | WUKONG_AUDIO_VAD_AUTO.
Inductive WUKONG_AUDIO_VAD_THRESHOLD_E := WUKONG_AUDIO_VAD_HIGH | WUKONG_AUDIO_VAD_MID | WUKONG_AUDIO_VAD_LOW.

Definition AI_TOY_ALERT_TYPE_LONG_KEY_TALK : Z := 8.
Definition AI_TOY_ALERT_TYPE_WAKEUP : Z := 12.

(** The display messages the modes send, with their bytes. *)
Inductive DISPLAY_MSG :=
| TY_DISPLAY_TP_HUMAN_CHAT (text : string)
| TY_DISPLAY_TP_CHAT_MODE (mode : Z)
| TY_DISPLAY_TP_CHAT_STAT (state : Z)
| TY_DISPLAY_TP_EMOJI (name : string)
| TY_DISPLAY_TP_AI_CHAT_START (text : string)
| TY_DISPLAY_TP_AI_CHAT_DATA (text : string)
| TY_DISPLAY_TP_AI_CHAT_STOP
| TY_DISPLAY_TP_MODE_NOTIFY (text : string)
| TY_DISPLAY_TP_AI_IMAGE (name : string)
| TY_DISPLAY_TP_CLEAR_ATTACHMENT.

(** *** Payloads *)

(** What the [data] of an event points to; for PLAY_ALERT the pointer itself
    carries the alert number. *)
Inductive EVENT_DATA :=
| EvText (text : string)          (* WUKONG_AI_TEXT_T *)
| EvEmo (name : string)           (* WUKONG_AI_EMO_T *)
| EvBytes (bytes : list Z)        (* the time-management events *)
| EvName (name : string)          (* char *, the name of a picture *)
| EvAlert (alert : Z).

Record WUKONG_AI_EVENT_T := mk_event { ev_type : WUKONG_AI_EVENT_TYPE_E; ev_data : option EVENT_DATA }.

(** What the [data] of an operation points to. *)
Inductive AI_DATA :=
| DataKey (key : PUSH_KEY_TYPE_E)
| DataVad (flag : WUKONG_AUDIO_VAD_FLAG_E)
| DataEvent (event : WUKONG_AI_EVENT_T)
| DataPcm (samples : list Z).

(** *** Calls into the rest of the device *)

(** The codecs the record mode names. *)
Inductive AI_AUDIO_CODEC_TYPE := AUDIO_CODEC_PCM | AUDIO_CODEC_OPUS.

Record TUYA_AI_ENCODER_INFO_T := mk_encoder_info {
  encode_type : AI_AUDIO_CODEC_TYPE; sample_rate : Z; channels : Z; bits_per_sample : Z; frame_size : Z;
  bitrate : Z; bandwidth : Z; vbr : Z; dtx : Z; complexity : Z; container : Z }.

Inductive DEV_CALL :=
| tuya_ai_toy_led_on | tuya_ai_toy_led_off | tuya_ai_toy_led_flash (time : Z)
| tuya_ai_toy_idle_timer_ctrl (enable : bool) | tuya_ai_toy_lowpower_timer_ctrl (enable : bool)
| wukong_audio_input_wakeup_set (is_wakeup : bool)
| wukong_audio_input_wakeup_mode_set (mode : WUKONG_AUDIO_VAD_MODE_E)
| wukong_audio_input_reset
| wukong_vad_set_threshold (level : WUKONG_AUDIO_VAD_THRESHOLD_E)
| wukong_kws_enable | wukong_kws_disable
| wukong_ai_agent_server_vad_ctrl (enable : bool)
| wukong_ai_agent_set_scene (scode : string)
| wukong_ai_agent_input_start (enable_vad : bool) | wukong_ai_agent_input_stop
| wukong_ai_agent_output_stop (force : bool) | wukong_ai_agent_chat_break
| tuya_ai_agent_del_session (scode : string)
| tuya_ai_audio_input (data : option AI_DATA) (len : Z)
| wukong_audio_player_stop_all | wukong_audio_player_pause | wukong_audio_player_resume | wukong_audio_player_replay
| wukong_audio_player_alert (type : Z) (send_eof : bool)
| tuya_ai_display_msg (msg : DISPLAY_MSG)
| tal_mutex_lock | tal_mutex_unlock
| wd_common_write (key : string) (value : list Z)
(* the agent, called by the device modes directly *)
| tuya_ai_input_start (force : bool) | tuya_ai_input_stop
| tuya_ai_agent_set_scode (scode : string) | tuya_ai_agent_server_vad_ctrl (enable : bool)
| tuya_ai_agent_event_chat_break
| wukong_ai_agent_send_text (text : string) | wukong_ai_agent_send_image (data : list Z)
| tuya_ai_image_input (data : list Z) | tuya_ai_text_input (text : string)
(* where the audio of the P2P and record modes goes *)
| tuya_ipc_app_audio_frame_put (data : option AI_DATA) (len : Z)
| record_input_audio (codec : AI_AUDIO_CODEC_TYPE) (data : list Z) (len : Z)
| encoder_create (info : TUYA_AI_ENCODER_INFO_T) | encoder_destroy (handle : Z)
| encoder_encode (handle : Z) (data : list Z) (len : Z)
(* camera, motion detection, album *)
| camera_subscribe_md | camera_unsubscribe_md | camera_snapshot_jpeg (timeout_ms : Z)
| tuya_ipc_motion_init (width height : Z) | tuya_ipc_motion_release | tuya_ipc_motion (luma : list Z)
| image_album_item_retain_locked (name : string) | image_album_item_release_locked (name : string)
| image_album_read (name : string) | image_album_free_file_data.

(** What the n-th query answers, by what is asked. *)
Record DEV_ANSWERS := mk_answers {
  an_result : nat -> OPERATE_RET;         (* a call that reports success or failure *)
  an_ms : nat -> Z;                       (* tal_system_get_millisecond, 32 bits *)
  an_data : nat -> option (list Z);       (* a picture read or taken; NULL *)
  an_motion : nat -> Z;                   (* the flag tuya_ipc_motion sets *)
  an_bool : nat -> bool;                  (* whether a pointer asked for is there *)
  an_handle : nat -> option Z;            (* the handle an encoder's create leaves *)
  an_packets : nat -> list (list Z);      (* what an encoder makes of its input *)
  an_item : nat -> string * (Z * Z) }.    (* an item of the album: name, size *)

(** The device: the calls so far, newest first, and what its queries answer. *)
Record Device := mk_device {
  dv_calls : list DEV_CALL;
  dv_ready : nat -> bool;                        (* n-th wukong_ai_agent_is_ready *)
  dv_vad : nat -> WUKONG_AUDIO_VAD_FLAG_E;       (* n-th wukong_vad_get_flag *)
  dv_write : nat -> OPERATE_RET;                 (* n-th wd_common_write *)
  dv_answers : DEV_ANSWERS;
  dv_asked : nat }.

(** A device on which everything succeeds. *)
Definition calm_device : Device :=
  mk_device [] (fun _ => true) (fun _ => WUKONG_AUDIO_VAD_STOP) (fun _ => OPRT_OK)
    (mk_answers (fun _ => OPRT_OK) (fun n => Z.of_nat n) (fun _ => Some [0]) (fun _ => 0) (fun _ => true)
       (fun _ => Some 1) (fun _ => [[0]]) (fun _ => ("picture.jpg", (480, 480)))) 0.

Definition call (c : DEV_CALL) : C Device unit :=
  cmod (fun d => mk_device (c :: dv_calls d) (dv_ready d) (dv_vad d) (dv_write d) (dv_answers d) (dv_asked d)).
Definition ask {A} (answer : Device -> nat -> A) : C Device A :=
  fun d => Some (answer d (dv_asked d),
                 mk_device (dv_calls d) (dv_ready d) (dv_vad d) (dv_write d) (dv_answers d) (S (dv_asked d))).
Definition wukong_ai_agent_is_ready : C Device bool := ask dv_ready.
Definition wukong_vad_get_flag : C Device WUKONG_AUDIO_VAD_FLAG_E := ask dv_vad.
Definition tuya_ai_agent_is_ready : C Device bool := ask dv_ready.
Definition answered {A} (what : DEV_ANSWERS -> nat -> A) : C Device A := ask (fun d => what (dv_answers d)).

(** *** The static data of a mode file *)

Record AI_CHAT_MODE_PARAM_T := mk_param { wakeup_stat : bool; state : AI_CHAT_STATE_E }.

(** s_ai_<mode> and s_ai_cur_state. *)
Record MODE_STATICS := mk_statics { s_ai : AI_CHAT_MODE_PARAM_T; s_ai_cur_state : AI_CHAT_STATE_E }.

(** Before the first operation. *)
Definition statics_zero : MODE_STATICS := mk_statics (mk_param false AI_CHAT_INIT) AI_CHAT_INVALID.

(** *** The callbacks of a mode, on the state [X] *)

Definition CALLBACK (X : Type) : Type := option AI_DATA -> Z -> C X OPERATE_RET.

Record AI_CHAT_MODE_HANDLE_T (X : Type) := mk_handle {
  on_init : option (CALLBACK X);
  on_deinit : option (CALLBACK X);
  on_key : option (CALLBACK X);
  on_task : option (CALLBACK X);
  on_event : option (CALLBACK X);
  on_wakeup : option (CALLBACK X);
  on_vad : option (CALLBACK X);
  on_client : option (CALLBACK X);
  on_notify_idle : option (CALLBACK X);
  on_audio_input : option (CALLBACK X) }.

Arguments on_init {X} _.
Arguments on_deinit {X} _.
Arguments on_key {X} _.
Arguments on_task {X} _.
Arguments on_event {X} _.
Arguments on_wakeup {X} _.
Arguments on_vad {X} _.
Arguments on_client {X} _.
Arguments on_notify_idle {X} _.
Arguments on_audio_input {X} _.

Section Statics.
Abbreviation M := (C (MODE_STATICS * Device)).

Definition set_wakeup_stat (b : bool) : M unit :=
  mod_ctx (fun s => mk_statics (mk_param b (state (s_ai s))) (s_ai_cur_state s)).
Definition CHAT_SUB_STATE_CHANGE (new : AI_CHAT_STATE_E) : M unit :=
  mod_ctx (fun s => mk_statics (mk_param (wakeup_stat (s_ai s)) new) (s_ai_cur_state s)).
Definition set_cur_state (st : AI_CHAT_STATE_E) : M unit :=
  mod_ctx (fun s => mk_statics (s_ai s) st).
Definition get_wakeup_stat : M bool := let* s := get_ctx in cret (wakeup_stat (s_ai s)).

(** A handler of a mode: payload (NULL is [None]) and its length. *)
Definition HANDLER : Type := CALLBACK (MODE_STATICS * Device).

End Statics.

Section Mode.
(** [X]: the static data of the mode file. *)
Context `{CFG : ModeConfig} {X : Type}.
Abbreviation M := (C (X * Device)).

Definition dev (c : DEV_CALL) : M unit := on_host (call c).
Definition display (m : DISPLAY_MSG) : M unit := if ENABLE_TUYA_UI then dev (tuya_ai_display_msg m) else cret tt.

(** Fails: the payload is not of the type the handler casts it to. *)
Definition wrong_payload {A} : M A := fun _ => None.

(** *** Helpers that every mode file repeats *)

Definition asr_result (type : WUKONG_AI_EVENT_TYPE_E) (data : option EVENT_DATA) : M unit :=
  match data with
  | None => cret tt
  | Some (EvText text) => display (TY_DISPLAY_TP_HUMAN_CHAT text)
  | Some _ => wrong_payload
  end.

Definition text_stream (type : WUKONG_AI_EVENT_TYPE_E) (data : option EVENT_DATA) : M unit :=
  match data with
  | None => cret tt
  | Some (EvText text) =>
      match type with
      | WUKONG_AI_EVENT_TEXT_STREAM_START => display (TY_DISPLAY_TP_AI_CHAT_START text)
      | WUKONG_AI_EVENT_TEXT_STREAM_DATA => display (TY_DISPLAY_TP_AI_CHAT_DATA text)
      | WUKONG_AI_EVENT_TEXT_STREAM_STOP | WUKONG_AI_EVENT_TEXT_STREAM_ABORT => display TY_DISPLAY_TP_AI_CHAT_STOP
      | _ => cret tt
      end
  | Some _ => wrong_payload
  end.

Definition emition (type : WUKONG_AI_EVENT_TYPE_E) (data : option EVENT_DATA) : M unit :=
  match data with
  | None => cret tt
  | Some (EvEmo name) => display (TY_DISPLAY_TP_EMOJI name)
  | Some _ => wrong_payload
  end.

(** PLAY_ALERT: the alert number is the pointer. *)
Definition play_alert (data : option EVENT_DATA) : M unit :=
  match data with
  | None => dev (wukong_audio_player_alert 0 true)
  | Some (EvAlert n) => dev (wukong_audio_player_alert n true)
  | Some _ => wrong_payload
  end.

(** A time-management event: alert when byte 4 of its payload is [opr]. *)
Definition tm_alert (opr : WUKONG_TM_TIMER_OPR_E) (data : option EVENT_DATA) : M unit :=
  match data with
  | None => cret tt
  | Some (EvBytes bytes) =>
      let* b := cpure (nth_error bytes 4) in
      if b =? opr_code opr then dev (wukong_audio_player_alert AI_TOY_ALERT_TYPE_WAKEUP false) else cret tt
  | Some _ => wrong_payload
  end.

(** Interrupting whatever is going on, as the key and wakeup handlers do. *)
Definition interrupt : M unit :=
  let* _ := dev (wukong_ai_agent_output_stop true) in
  let* _ := dev wukong_audio_player_stop_all in
  let* _ := dev wukong_audio_input_reset in
  dev wukong_ai_agent_chat_break.

(** A call that reports success or failure. *)
Definition dev_rt (c : DEV_CALL) : M OPERATE_RET := let* _ := dev c in on_host (answered an_result).

(** *** Running the primitives *)

(** The device after the call [c]. *)
Definition called (c : DEV_CALL) (d : Device) : Device :=
  mk_device (c :: dv_calls d) (dv_ready d) (dv_vad d) (dv_write d) (dv_answers d) (dv_asked d).
Definition asked (d : Device) : Device :=
  mk_device (dv_calls d) (dv_ready d) (dv_vad d) (dv_write d) (dv_answers d) (S (dv_asked d)).

Lemma wp_mode_dev c (Q : unit -> X * Device -> Prop) s d : Q tt (s, called c d) -> wp (dev c) Q (s, d).
Proof. done. Qed.

Lemma wp_display msg (Q : unit -> X * Device -> Prop) s d :
  Q tt (s, d) -> Q tt (s, called (tuya_ai_display_msg msg) d) -> wp (display msg) Q (s, d).
Proof. unfold display. by destruct ENABLE_TUYA_UI. Qed.

Lemma wp_display_on msg (Q : unit -> X * Device -> Prop) s d : ENABLE_TUYA_UI = true ->
  Q tt (s, called (tuya_ai_display_msg msg) d) -> wp (display msg) Q (s, d).
Proof. unfold display. by intros ->. Qed.
Lemma wp_display_off msg (Q : unit -> X * Device -> Prop) s d : ENABLE_TUYA_UI = false ->
  Q tt (s, d) -> wp (display msg) Q (s, d).
Proof. unfold display. by intros ->. Qed.

Lemma wp_ask {A} (answer : Device -> nat -> A) (Q : A -> X * Device -> Prop) s d :
  Q (answer d (dv_asked d)) (s, asked d) -> wp (on_host (ask answer)) Q (s, d).
Proof. done. Qed.

Lemma wp_answer {A} (what : DEV_ANSWERS -> nat -> A) (Q : A -> X * Device -> Prop) s d :
  Q (what (dv_answers d) (dv_asked d)) (s, asked d) -> wp (on_host (answered what)) Q (s, d).
Proof. done. Qed.

End Mode.

Ltac head_of t := lazymatch t with ?f _ => head_of f | _ => t end.

(** Run the primitive steps of a mode's handler, unfolding its definitions. *)
Ltac mode_step :=
  lazymatch goal with
  | |- wp (dev _) _ _ => apply wp_mode_dev
  | |- wp (display _) _ _ =>
      first [apply wp_display_on; [eassumption|] | apply wp_display_off; [eassumption|] | apply wp_display]
  | |- wp (on_host wukong_ai_agent_is_ready) _ _ => apply wp_ask
  | |- wp (on_host wukong_vad_get_flag) _ _ => apply wp_ask
  | |- wp (on_host tuya_ai_agent_is_ready) _ _ => apply wp_ask
  | |- wp (on_host (answered _)) _ _ => apply wp_answer
  | |- wp (if ?b then _ else _) _ _ =>
      let v := eval vm_compute in b in
      match v with
      | true => change b with true
      | false => change b with false
      | _ => match goal with H : b = _ |- _ => rewrite H end
      | _ => let H := fresh "Htest" in
             destruct b eqn:H; [try (apply bool_decide_eq_true_1 in H; subst)|]
      end; cbv iota
  | |- wp ?m _ _ => first [tm_step | let h := head_of m in unfold h]
  end; cbn [s_ai s_ai_cur_state wakeup_stat state fst snd].
Ltac mode_steps := repeat mode_step.

(** Run an operation, or a callback, on one part of a state. *)
Definition on_part {X Y A} (get : Y -> X) (put : X -> Y -> Y) (m : C (X * Device) A) : C (Y * Device) A :=
  fun s =>
    match m (get (fst s), snd s) with
    | Some (a, (x, d)) => Some (a, (put x (fst s), d))
    | None => None
    end.

Definition zoom {X Y} (get : Y -> X) (put : X -> Y -> Y) (f : CALLBACK (X * Device)) : CALLBACK (Y * Device) :=
  fun data len => on_part get put (f data len).

Definition zoom_handle {X Y} (get : Y -> X) (put : X -> Y -> Y) (h : AI_CHAT_MODE_HANDLE_T (X * Device))
    : AI_CHAT_MODE_HANDLE_T (Y * Device) := {|
  on_init := zoom get put <$> on_init h;
  on_deinit := zoom get put <$> on_deinit h;
  on_key := zoom get put <$> on_key h;
  on_task := zoom get put <$> on_task h;
  on_event := zoom get put <$> on_event h;
  on_wakeup := zoom get put <$> on_wakeup h;
  on_vad := zoom get put <$> on_vad h;
  on_client := zoom get put <$> on_client h;
  on_notify_idle := zoom get put <$> on_notify_idle h;
  on_audio_input := zoom get put <$> on_audio_input h |}.

Lemma wp_on_part {X Y A} (get : Y -> X) (put : X -> Y -> Y) (m : C (X * Device) A) y d (Q : A -> Y * Device -> Prop) :
  wp m (fun a r => Q a (put (fst r) y, snd r)) (get y, d) -> wp (on_part get put m) Q (y, d).
Proof. unfold wp, on_part. cbn. by destruct (m (get y, d)) as [[a [x' d']]|]. Qed.

Lemma wp_zoom {X Y} (get : Y -> X) (put : X -> Y -> Y) f data len y d (Q : OPERATE_RET -> Y * Device -> Prop) :
  wp (f data len) (fun rt r => Q rt (put (fst r) y, snd r)) (get y, d) -> wp (zoom get put f data len) Q (y, d).
Proof. apply wp_on_part. Qed.
