(* ===== verification/ModeWakeup.v ===== *)
(** The wakeup (keyword, one turn) mode, src/mode/wukong_ai_mode_wakeup.c. *)
From S2P Require Import Prelude.
From S2P Require Import World.
From S2P Require Import TmHost.
From S2P Require Import ModeHost.

#[local] Open Scope Z_scope.

Section Wakeup.
Context `{CFG : ModeConfig}.
Abbreviation M := (C (MODE_STATICS * Device)).

Definition __ai_wakeup_asr_result (type : WUKONG_AI_EVENT_TYPE_E) (data : option EVENT_DATA) : M unit :=
  asr_result type data.
Definition __ai_wakeup_text_stream (type : WUKONG_AI_EVENT_TYPE_E) (data : option EVENT_DATA) : M unit :=
  text_stream type data.
Definition __ai_wakeup_emition (type : WUKONG_AI_EVENT_TYPE_E) (data : option EVENT_DATA) : M unit :=
  emition type data.

Definition __ai_wakeup_idle_cb : M unit :=
  let* _ := dev tuya_ai_toy_led_off in
  let* _ := dev (tuya_ai_toy_idle_timer_ctrl false) in
  let* _ := dev (tuya_ai_toy_lowpower_timer_ctrl true) in
  let* _ := dev (wukong_audio_input_wakeup_set false) in
  set_wakeup_stat false.

Definition __ai_wakeup_listen_cb : M unit :=
  let* _ := dev (tuya_ai_toy_led_flash 500) in
  let* _ := dev (tuya_ai_toy_idle_timer_ctrl true) in
  let* _ := dev (tuya_ai_toy_lowpower_timer_ctrl false) in
  let* _ := set_wakeup_stat true in
  dev (wukong_audio_input_wakeup_set true).

Definition __ai_wakeup_upload_cb : M unit := cret tt.

Definition __ai_wakeup_think_cb : M unit :=
  let* _ := dev (tuya_ai_toy_led_flash 2000) in
  let* _ := dev (tuya_ai_toy_idle_timer_ctrl true) in
  let* vad_flag := on_host wukong_vad_get_flag in
  let* _ := (if bool_decide (WUKONG_AUDIO_VAD_START = vad_flag) then dev wukong_ai_agent_input_stop else cret tt) in
  let* _ := set_wakeup_stat false in
  dev (wukong_audio_input_wakeup_set false).

Definition __ai_wakeup_speak_cb : M unit :=
  let* _ := dev tuya_ai_toy_led_on in
  dev (tuya_ai_toy_idle_timer_ctrl false).

Definition wukong_ai_wakeup_int_cb : HANDLER := fun _ _ =>
  let* _ := dev tuya_ai_toy_led_on in
  let* _ := dev (wukong_audio_input_wakeup_mode_set WUKONG_AUDIO_VAD_AUTO) in
  let* _ := dev wukong_kws_enable in
  let* _ := CHAT_SUB_STATE_CHANGE AI_CHAT_IDLE in
  let* _ := set_wakeup_stat false in
  let* _ := display (TY_DISPLAY_TP_CHAT_MODE AI_CHAT_SUB_WAKEUP) in
  cret OPRT_OK.

Definition wukong_ai_wakeup_deint_cb : HANDLER := fun _ _ =>
  let* _ := dev wukong_ai_agent_input_stop in
  let* _ := set_cur_state AI_CHAT_INVALID in
  cret OPRT_OK.

Definition wukong_ai_wakeup_task_cb : HANDLER := fun _ _ =>
  let* s := get_ctx in
  if bool_decide (s_ai_cur_state s = state (s_ai s)) then cret OPRT_OK
  else
    let* _ :=
      match state (s_ai s) with
      | AI_CHAT_INIT => cret tt
      | AI_CHAT_IDLE => __ai_wakeup_idle_cb
      | AI_CHAT_LISTEN => __ai_wakeup_listen_cb
      | AI_CHAT_UPLOAD => __ai_wakeup_upload_cb
      | AI_CHAT_THINK => __ai_wakeup_think_cb
      | AI_CHAT_SPEAK => __ai_wakeup_speak_cb
      | AI_CHAT_INVALID => cret tt
      end in
    let* s := get_ctx in
    let* _ := set_cur_state (state (s_ai s)) in
    let* _ := display (TY_DISPLAY_TP_CHAT_STAT (chat_state_code (state (s_ai s)))) in
    cret OPRT_OK.

Definition wukong_ai_wakeup_event_cb : HANDLER := fun data _ =>
  match data with
  | None => cret OPRT_INVALID_PARM
  | Some (DataEvent event) =>
      let* _ :=
        match ev_type event with
        | WUKONG_AI_EVENT_ASR_EMPTY | WUKONG_AI_EVENT_ASR_ERROR => CHAT_SUB_STATE_CHANGE AI_CHAT_LISTEN
        | WUKONG_AI_EVENT_ASR_OK =>
            let* _ := CHAT_SUB_STATE_CHANGE AI_CHAT_THINK in
            __ai_wakeup_asr_result (ev_type event) (ev_data event)
        | WUKONG_AI_EVENT_TTS_PRE => CHAT_SUB_STATE_CHANGE AI_CHAT_SPEAK
        | WUKONG_AI_EVENT_TEXT_STREAM_START | WUKONG_AI_EVENT_TEXT_STREAM_DATA
        | WUKONG_AI_EVENT_TEXT_STREAM_STOP | WUKONG_AI_EVENT_TEXT_STREAM_ABORT =>
            __ai_wakeup_text_stream (ev_type event) (ev_data event)
        | WUKONG_AI_EVENT_EMOTION | WUKONG_AI_EVENT_LLM_EMOTION => __ai_wakeup_emition (ev_type event) (ev_data event)
        | WUKONG_AI_EVENT_EXIT => CHAT_SUB_STATE_CHANGE AI_CHAT_IDLE
        | WUKONG_AI_EVENT_PLAY_CTL_RESUME => dev wukong_audio_player_resume
        | WUKONG_AI_EVENT_PLAY_CTL_PAUSE => dev wukong_audio_player_pause
        | WUKONG_AI_EVENT_PLAY_CTL_REPLAY => dev wukong_audio_player_replay
        | WUKONG_AI_EVENT_PLAY_CTL_END | WUKONG_AI_EVENT_PLAY_END =>
            let* awake := get_wakeup_stat in
            if awake : bool then CHAT_SUB_STATE_CHANGE AI_CHAT_LISTEN else CHAT_SUB_STATE_CHANGE AI_CHAT_IDLE
        | WUKONG_AI_EVENT_PLAY_ALERT => play_alert (ev_data event)
        | WUKONG_AI_EVENT_CLOCK_MCP_COUNTDOWN_TIMER => tm_alert WUKONG_TM_TIMER_OPR_FINISH (ev_data event)
        | WUKONG_AI_EVENT_CLOCK_MCP_ALARM => tm_alert WUKONG_TM_TIMER_OPR_START (ev_data event)
        | _ => cret tt
        end in
      cret OPRT_OK
  | Some _ => wrong_payload
  end.

Definition wukong_ai_wakeup_wakeup : HANDLER := fun _ _ =>
  let* _ := interrupt in
  let* _ := dev (wukong_audio_player_alert AI_TOY_ALERT_TYPE_WAKEUP false) in
  let* _ := CHAT_SUB_STATE_CHANGE AI_CHAT_LISTEN in
  let* _ := set_wakeup_stat true in
  cret OPRT_OK.

(** [len] is at least sizeof(WUKONG_AUDIO_VAD_FLAG_E) = 4, or the flag reads as
    neither start nor stop. *)
Definition wukong_ai_wakeup_vad : HANDLER := fun data len =>
  let* awake := get_wakeup_stat in
  if negb awake then cret OPRT_OK
  else
    match data with
    | None => cret OPRT_INVALID_PARM
    | Some (DataVad flag) =>
        if (4 <=? len) && bool_decide (flag = WUKONG_AUDIO_VAD_START) then
          let* ready := on_host wukong_ai_agent_is_ready in
          if negb ready then cret OPRT_RESOURCE_NOT_READY
          else
            let* _ := dev (wukong_ai_agent_set_scene AI_AGENT_SCODE_CHAT) in
            let* _ := dev (wukong_ai_agent_input_start true) in
            cret OPRT_OK
        else
          let* _ := dev wukong_ai_agent_input_stop in
          cret OPRT_OK
    | Some _ => wrong_payload
    end.

Definition wukong_ai_wakeup_client_run : HANDLER := fun _ _ =>
  let* _ := CHAT_SUB_STATE_CHANGE AI_CHAT_IDLE in cret OPRT_OK.

(** [data] must point to a key: it is not checked against NULL. *)
Definition wukong_ai_wakeup_key_cb : HANDLER := fun data _ =>
  match data with
  | Some (DataKey event) =>
      let* _ :=
        match event with
        | NORMAL_KEY =>
            let* _ := interrupt in
            let* _ := dev (wukong_audio_player_alert AI_TOY_ALERT_TYPE_WAKEUP false) in
            let* _ := CHAT_SUB_STATE_CHANGE AI_CHAT_LISTEN in
            set_wakeup_stat true
        | SEQ_KEY => cret tt
        | LONG_KEY => cret tt
        | RELEASE_KEY => cret tt
        end in
      cret OPRT_OK
  | _ => wrong_payload
  end.

Definition wukong_ai_wakeup_notify_idle_cb : HANDLER := fun _ _ =>
  let* _ := CHAT_SUB_STATE_CHANGE AI_CHAT_IDLE in cret OPRT_OK.

(** The callbacks that registering the mode installs. *)
Definition ai_wakeup_register : AI_CHAT_MODE_HANDLE_T (MODE_STATICS * Device) := {|
  on_init := Some wukong_ai_wakeup_int_cb;
  on_deinit := Some wukong_ai_wakeup_deint_cb;
  on_key := Some wukong_ai_wakeup_key_cb;
  on_task := Some wukong_ai_wakeup_task_cb;
  on_event := Some wukong_ai_wakeup_event_cb;
  on_wakeup := Some wukong_ai_wakeup_wakeup;
  on_vad := Some wukong_ai_wakeup_vad;
  on_client := Some wukong_ai_wakeup_client_run;
  on_notify_idle := Some wukong_ai_wakeup_notify_idle_cb;
  on_audio_input := None |}.

End Wakeup.
