(* ===== verification/ToyConfig.v ===== *)
(** The stored interaction mode of src/tuya_ai_toy.c: the configuration in
    memory, the byte kept in the key-value store, and its loading at boot. *)
From S2P Require Import Prelude.
From S2P Require Import World.
From S2P Require Import TmHost.
From S2P Require Import ModeHost.

#[local] Open Scope string_scope.
#[local] Open Scope Z_scope.

(** The modes of s_ai_toy->cfg, and the value stored under AI_DEVICE_MODE. *)
Record TOY_MODES := mk_toy { cfg_device_mode : Z; cfg_trigger_mode : Z; kv_device_mode : option (list Z) }.

Definition AI_DEVICE_MODE : string := "ai_dev_mode".

Definition AI_DEVICE_MODE_PACK (dev sub : Z) : Z :=
  u8 (Z.lor (Z.shiftl (Z.land (u8 dev) 15) 4) (Z.land (u8 sub) 15)).
Definition AI_DEVICE_MODE_DEV (b : Z) : Z := Z.land (Z.shiftr (u8 b) 4) 15.
Definition AI_DEVICE_MODE_SUB (b : Z) : Z := Z.land (u8 b) 15.

Abbreviation M := (C (TOY_MODES * Device)).

Definition kv_write (value : list Z) : M OPERATE_RET :=
  let* _ := on_host (call (wd_common_write AI_DEVICE_MODE value)) in
  let* rt := on_host (ask dv_write) in
  let* _ := (if rt =? OPRT_OK then
               mod_ctx (fun t => mk_toy (cfg_device_mode t) (cfg_trigger_mode t) (Some value))
             else cret tt) in
  cret rt.

Definition __ai_toy_mode_save (dev sub : Z) : M OPERATE_RET :=
  if (dev <? AI_DEVICE_MODE_CHAT) || (AI_DEVICE_MODE_MAX <=? dev) ||
     (sub <? AI_CHAT_SUB_HOLD) || (AI_CHAT_SUB_MAX <=? sub) then cret OPRT_INVALID_PARM
  else if (dev =? AI_DEVICE_MODE_P2P) || (dev =? AI_DEVICE_MODE_RECORD) then cret OPRT_OK
  else kv_write [AI_DEVICE_MODE_PACK dev sub].

Definition __ai_toy_mode_load : M OPERATE_RET :=
  let* t := get_ctx in
  match kv_device_mode t with
  | None => cret OPRT_OK
  | Some [] => cret OPRT_OK
  | Some (packed :: _) =>
      let dev := AI_DEVICE_MODE_DEV packed in
      let sub := AI_DEVICE_MODE_SUB packed in
      let dev := if (dev =? AI_DEVICE_MODE_P2P) || (dev =? AI_DEVICE_MODE_RECORD) ||
                    (dev <? AI_DEVICE_MODE_CHAT) || (AI_DEVICE_MODE_MAX <=? dev)
                 then AI_DEVICE_MODE_CHAT else dev in
      let* _ := mod_ctx (fun t => mk_toy dev (cfg_trigger_mode t) (kv_device_mode t)) in
      let* _ := (if (sub <? AI_CHAT_SUB_HOLD) || (AI_CHAT_SUB_MAX <=? sub) then cret tt
                 else mod_ctx (fun t => mk_toy (cfg_device_mode t) sub (kv_device_mode t))) in
      cret OPRT_OK
  end.

Definition tuya_ai_toy_trigger_mode_get : M Z := let* t := get_ctx in cret (cfg_trigger_mode t).

Definition tuya_ai_toy_trigger_mode_set (mode : Z) : M unit :=
  if (AI_CHAT_SUB_HOLD <=? mode) && (mode <? AI_CHAT_SUB_MAX) then
    let* t := get_ctx in
    if negb (cfg_trigger_mode t =? mode) then
      let* _ := put_ctx (mk_toy (cfg_device_mode t) mode (kv_device_mode t)) in
      let* _ := __ai_toy_mode_save (cfg_device_mode t) mode in
      cret tt
    else cret tt
  else cret tt.

Definition tuya_ai_toy_device_mode_get : M Z := let* t := get_ctx in cret (cfg_device_mode t).

Definition tuya_ai_toy_device_mode_set (mode : Z) : M unit :=
  if (AI_DEVICE_MODE_CHAT <=? mode) && (mode <? AI_DEVICE_MODE_MAX) then
    let* t := get_ctx in
    if negb (cfg_device_mode t =? mode) then
      let* _ := put_ctx (mk_toy mode (cfg_trigger_mode t) (kv_device_mode t)) in
      let* _ := __ai_toy_mode_save mode (cfg_trigger_mode t) in
      cret tt
    else cret tt
  else cret tt.

(** ** What survives a reboot *)

Definition valid_device (m : Z) : Prop := AI_DEVICE_MODE_CHAT <= m < AI_DEVICE_MODE_MAX.
Definition valid_sub (m : Z) : Prop := AI_CHAT_SUB_HOLD <= m < AI_CHAT_SUB_MAX.

(** P2P and record are never stored. *)
Definition transient (m : Z) : bool := (m =? AI_DEVICE_MODE_P2P) || (m =? AI_DEVICE_MODE_RECORD).

Inductive toy_set := SetTrigger (mode : Z) | SetDevice (mode : Z).

Definition run_set (s : toy_set) : M unit :=
  match s with
  | SetTrigger m => tuya_ai_toy_trigger_mode_set m
  | SetDevice m => tuya_ai_toy_device_mode_set m
  end.

(** Rebooting: memory holds the defaults again, the store what it held. *)
Definition reboot (dev sub : Z) (t : TOY_MODES) : TOY_MODES := mk_toy dev sub (kv_device_mode t).

Lemma pack_unpack dev sub : valid_device dev -> valid_sub sub ->
  AI_DEVICE_MODE_DEV (AI_DEVICE_MODE_PACK dev sub) = dev /\ AI_DEVICE_MODE_SUB (AI_DEVICE_MODE_PACK dev sub) = sub.
Proof.
  unfold valid_device, valid_sub, AI_DEVICE_MODE_CHAT, AI_DEVICE_MODE_MAX, AI_CHAT_SUB_HOLD, AI_CHAT_SUB_MAX.
  intros Hd Hs.
  assert (dev = 0 \/ dev = 1 \/ dev = 2 \/ dev = 3 \/ dev = 4 \/ dev = 5) as Hdev by lia.
  assert (sub = 0 \/ sub = 1 \/ sub = 2 \/ sub = 3) as Hsub by lia. clear Hd Hs.
  destruct_or?; subst; by vm_compute.
Qed.

(** The store holds a mode that can be booted; it is the current one unless
    that is transient. *)
Record kept (t : TOY_MODES) (dev : Z) : Prop := {
  kp_dev : valid_device (cfg_device_mode t);
  kp_sub : valid_sub (cfg_trigger_mode t);
  kp_store : exists sub, kv_device_mode t = Some [AI_DEVICE_MODE_PACK dev sub] /\
    valid_device dev /\ valid_sub sub /\ transient dev = false /\
    (transient (cfg_device_mode t) = false -> dev = cfg_device_mode t /\ sub = cfg_trigger_mode t) }.

(** The last mode set that is not transient. *)
Definition stable_device (m : Z) : bool :=
  (AI_DEVICE_MODE_CHAT <=? m) && (m <? AI_DEVICE_MODE_MAX) && negb (transient m).
Fixpoint last_stable (ops : list toy_set) (m : Z) : Z :=
  match ops with
  | [] => m
  | SetDevice m' :: ops => last_stable ops (if stable_device m' then m' else m)
  | SetTrigger _ :: ops => last_stable ops m
  end.

Fixpoint run_sets (ops : list toy_set) : M unit :=
  match ops with [] => cret tt | s :: ops => let* _ := run_set s in run_sets ops end.

Definition writes_ok (d : Device) : Prop := forall n, dv_write d n = OPRT_OK.

Lemma mode_save_wp dev sub t d (Q : OPERATE_RET -> TOY_MODES * Device -> Prop) :
  valid_device dev -> valid_sub sub -> writes_ok d ->
  (forall rt d', writes_ok d' ->
     Q rt (if transient dev then t
           else mk_toy (cfg_device_mode t) (cfg_trigger_mode t) (Some [AI_DEVICE_MODE_PACK dev sub]), d')) ->
  wp (__ai_toy_mode_save dev sub) Q (t, d).
Proof.
  intros Hd Hs Hw HQ. unfold __ai_toy_mode_save. unfold valid_device, valid_sub in *.
  replace (_ || _ || _ || _) with false by lia.
  fold (transient dev). destruct (transient dev); [wp_step; by apply HQ|].
  unfold kv_write. wp_step. apply wp_host. unfold wp, call, cmod, ask. cbn. rewrite Hw. cbn. by apply HQ.
Qed.

Lemma set_wp s t d dev (Q : unit -> TOY_MODES * Device -> Prop) : kept t dev -> writes_ok d ->
  (forall t' d', kept t' (last_stable [s] dev) -> writes_ok d' -> Q tt (t', d')) ->
  wp (run_set s) Q (t, d).
Proof.
  intros Hk Hw HQ. destruct (Hk) as [Hcd Hcs (sub & Hkv & Hd & Hs & Htr & Hcur)].
  destruct s as [m|m]; cbn [run_set last_stable] in *.
  - unfold tuya_ai_toy_trigger_mode_set. destruct (_ && _) eqn:Hv; [|wp_step; by apply HQ].
    tm_steps. destruct (Z.eqb_spec (cfg_trigger_mode t) m) as [|Hne]; cbn [negb]; [wp_step; by apply HQ|].
    tm_step. tm_step. tm_step. assert (valid_sub m) by (unfold valid_sub; lia).
    apply mode_save_wp; [done..|]. intros rt d' Hw'. wp_step. apply HQ; [|done]. cbn [cfg_device_mode cfg_trigger_mode].
    destruct (transient (cfg_device_mode t)) eqn:Ht; (split; [done|done|]).
    + exists sub. split_and!; try done. cbn. by rewrite Ht.
    + destruct (Hcur eq_refl) as [-> ->]. exists m. by split_and!.
  - unfold tuya_ai_toy_device_mode_set. unfold stable_device in *. destruct (_ && (m <? _)) eqn:Hv; [|wp_step; by apply HQ].
    assert (Hvm : valid_device m) by (unfold valid_device; lia).
    tm_steps. destruct (Z.eqb_spec (cfg_device_mode t) m) as [Heq|Hne]; cbn [negb].
    { wp_step. apply HQ; [|done]. cbn [andb]. destruct (transient m) eqn:Ht; cbn [negb]; [done|].
      rewrite <- Heq in Ht. destruct (Hcur Ht) as [-> _]. by rewrite <- Heq. }
    tm_step. tm_step. tm_step. apply mode_save_wp; [done..|]. intros rt d' Hw'. wp_step. apply HQ; [|done].
    cbn [cfg_device_mode cfg_trigger_mode andb]. destruct (transient m) eqn:Ht; cbn [negb]; (split; [done|done|]).
    + exists sub. split_and!; try done. cbn. by rewrite Ht.
    + exists (cfg_trigger_mode t). by split_and!.
Qed.

Lemma load_wp dev sub0 t dev0 d (Q : OPERATE_RET -> TOY_MODES * Device -> Prop) : kept t dev ->
  (forall rt t', cfg_device_mode t' = dev -> valid_sub (cfg_trigger_mode t') ->
     (transient (cfg_device_mode t) = false -> cfg_trigger_mode t' = cfg_trigger_mode t) -> Q rt (t', d)) ->
  wp __ai_toy_mode_load Q (reboot dev0 sub0 t, d).
Proof.
  intros [_ _ (sub & Hkv & Hd & Hs & Htr & Hcur)] HQ. unfold __ai_toy_mode_load. tm_steps.
  unfold reboot. cbn [kv_device_mode]. rewrite Hkv. destruct (pack_unpack dev sub Hd Hs) as [-> ->].
  fold (transient dev). rewrite Htr. unfold valid_device, valid_sub in *. cbn [orb].
  replace ((dev <? _) || _) with false by lia. replace ((sub <? _) || _) with false by lia. tm_steps.
  apply HQ; cbn; [done|lia|]. intros Ht. by destruct (Hcur Ht).
Qed.

(** The interaction mode survives a reboot: whatever modes are set one
    after the other, the device boots into the last device mode that is neither
    P2P nor record, and with the current chat sub-mode if the current device
    mode is such a mode. *)
Theorem mode_survives_reboot ops t d dev : kept t dev -> writes_ok d ->
  exists t' d', run_sets ops (t, d) = Some (tt, (t', d')) /\
  forall dev0 sub0, exists rt t'', __ai_toy_mode_load (reboot dev0 sub0 t', d') = Some (rt, (t'', d')) /\
    cfg_device_mode t'' = last_stable ops dev /\ valid_sub (cfg_trigger_mode t'') /\
    (transient (cfg_device_mode t') = false ->
       cfg_device_mode t'' = cfg_device_mode t' /\ cfg_trigger_mode t'' = cfg_trigger_mode t').
Proof.
  revert t d dev. induction ops as [|s ops IH]; intros t d dev Hk Hw.
  - exists t, d. split; [done|]. intros dev0 sub0.
    destruct (wp_elim (__ai_toy_mode_load) (fun rt s' => snd s' = d /\ cfg_device_mode (fst s') = dev /\
       valid_sub (cfg_trigger_mode (fst s')) /\
       (transient (cfg_device_mode t) = false -> cfg_trigger_mode (fst s') = cfg_trigger_mode t))
       (reboot dev0 sub0 t, d)) as (rt & [t'' d''] & Hr & Hd & Hdev & Hs & Ht); [by apply (load_wp dev)|].
    cbn in Hd. subst d''. exists rt, t''. split_and!; try done. intros Htr.
    destruct Hk as [_ _ (? & _ & _ & _ & _ & Hcur)]. destruct (Hcur Htr) as [Hd _]. split; [cbn in *; congruence|by apply Ht].
  - destruct (wp_elim (run_set s) (fun _ s' => kept (fst s') (last_stable [s] dev) /\ writes_ok (snd s')) (t, d))
      as ([] & [t1 d1] & Hr & Hk1 & Hw1); [by apply (set_wp s t d dev)|].
    destruct (IH t1 d1 _ Hk1 Hw1) as (t' & d' & Hr' & Hload). exists t', d'.
    split; [cbn; unfold cbind; by rewrite Hr|]. replace (last_stable (s :: ops) dev) with (last_stable ops (last_stable [s] dev))
      by (by destruct s). exact Hload.
Qed.

(** From chat (hold): translate, P2P, then free talk. *)
Lemma mode_survives_reboot_witness : exists t' d',
  run_sets [SetDevice 1; SetTrigger 3; SetDevice 2] (mk_toy 0 0 (Some [0]), calm_device) = Some (tt, (t', d')) /\
  forall dev0 sub0, exists rt t'', __ai_toy_mode_load (reboot dev0 sub0 t', d') = Some (rt, (t'', d')) /\
    cfg_device_mode t'' = 1 /\ valid_sub (cfg_trigger_mode t'') /\
    (transient (cfg_device_mode t') = false ->
       cfg_device_mode t'' = cfg_device_mode t' /\ cfg_trigger_mode t'' = cfg_trigger_mode t').
Proof.
  apply (mode_survives_reboot [SetDevice 1; SetTrigger 3; SetDevice 2] (mk_toy 0 0 (Some [0])) _ 0); [|done].
  split; [done|done|]. by exists 0.
Defined.
