(* ===== verification/ModeMgr.v ===== *)
(** The mode manager of src/mode/wukong_ai_mode.c: the two-level mode state,
    dispatch to the active mode, switching and boot. *)
From S2P Require Import Prelude.
From S2P Require Import CStr.
From S2P Require Import World.
From S2P Require Import TmHost.
From S2P Require Import ModeHost.
From S2P Require Import ToyConfig.

#[local] Open Scope string_scope.
#[local] Open Scope Z_scope.

(** The modes behind the manager: [H] names a mode file, [X] holds the static
    data of all of them. *)
Class ModeTable (H X : Type) := {
  chat_register : Z -> H;       (* ai_hold_register, ai_oneshot_register, ... by chat sub-mode *)
  device_register : Z -> H;     (* ai_translate_register, ... by device mode *)
  callbacks : H -> AI_CHAT_MODE_HANDLE_T (X * Device) }.

Inductive AI_MODE_OP_E :=
| AI_MODE_OP_INIT | AI_MODE_OP_DEINIT | AI_MODE_OP_KEY | AI_MODE_OP_TASK | AI_MODE_OP_EVENT | AI_MODE_OP_WAKEUP
| AI_MODE_OP_VAD | AI_MODE_OP_CLIENT | AI_MODE_OP_NOTIFY_IDLE | AI_MODE_OP_AUDIO_INPUT
| AI_MODE_OP_MAX (* and any number above *).

Record AI_MODE_ENTRY_T (H : Type) := mk_entry { enabled : bool; mutex : bool; handle : option H }.
Arguments mk_entry {H} _ _ _.
Arguments enabled {H} _.
Arguments mutex {H} _.
Arguments handle {H} _.

(** A pointer to an entry of the manager. *)
Inductive ENTRY_REF := ChatSub (sub : Z) | DeviceMode (mode : Z).

Record AI_MODE_MGR_T (H : Type) := mk_mgr {
  device_mode : Z;
  chat_sub_mode : Z;
  chat_subs : list (AI_MODE_ENTRY_T H);
  device_modes : list (AI_MODE_ENTRY_T H);
  active : option ENTRY_REF }.
Arguments mk_mgr {H} _ _ _ _ _.
Arguments device_mode {H} _.
Arguments chat_sub_mode {H} _.
Arguments chat_subs {H} _.
Arguments device_modes {H} _.
Arguments active {H} _.

(** The whole: manager, stored modes, mode files, device. *)
Record Sys (H X : Type) := mk_sys {
  s_mode_mgr : AI_MODE_MGR_T H; sy_toy : TOY_MODES; sy_modes : X; sy_dev : Device }.
Arguments mk_sys {H X} _ _ _ _.
Arguments s_mode_mgr {H X} _.
Arguments sy_toy {H X} _.
Arguments sy_modes {H X} _.
Arguments sy_dev {H X} _.

Definition entry_zero {H} : AI_MODE_ENTRY_T H := mk_entry false false None.
Definition mgr_zero {H} : AI_MODE_MGR_T H :=
  mk_mgr 0 0 (replicate 4 entry_zero) (replicate 6 entry_zero) None.

Definition s_device_mode_display : list string :=
  ["闲聊模式"; "翻译模式"; "P2P模式"; "录音模式"; "生图模式"; "侦测模式"].
Definition s_chat_sub_display : list string := ["长按"; "按键"; "唤醒"; "自由"].

Section Manager.
Context {H X : Type} `{MT : ModeTable H X} `{CFG : ModeConfig}.
Abbreviation M := (C (Sys H X)).

Definition get_mgr : M (AI_MODE_MGR_T H) := cget s_mode_mgr.
Definition mod_mgr (f : AI_MODE_MGR_T H -> AI_MODE_MGR_T H) : M unit :=
  cmod (fun s => mk_sys (f (s_mode_mgr s)) (sy_toy s) (sy_modes s) (sy_dev s)).
Definition on_dev {A} (m : C Device A) : M A :=
  fun s => match m (sy_dev s) with
           | Some (a, d) => Some (a, mk_sys (s_mode_mgr s) (sy_toy s) (sy_modes s) d)
           | None => None
           end.
Definition on_toy {A} (m : C (TOY_MODES * Device) A) : M A :=
  fun s => match m (sy_toy s, sy_dev s) with
           | Some (a, (t, d)) => Some (a, mk_sys (s_mode_mgr s) t (sy_modes s) d)
           | None => None
           end.
Definition on_modes {A} (m : C (X * Device) A) : M A :=
  fun s => match m (sy_modes s, sy_dev s) with
           | Some (a, (x, d)) => Some (a, mk_sys (s_mode_mgr s) (sy_toy s) x d)
           | None => None
           end.

(** The entry a pointer points to; an index out of range is undefined. *)
Definition entry_at (m : AI_MODE_MGR_T H) (r : ENTRY_REF) : option (AI_MODE_ENTRY_T H) :=
  match r with
  | ChatSub i => nth_error (chat_subs m) (Z.to_nat i)
  | DeviceMode i => nth_error (device_modes m) (Z.to_nat i)
  end.

Definition __post_mode_switched_notify : M unit :=
  if ENABLE_TUYA_UI then
    let* m := get_mgr in
    let mode := device_mode m in
    if AI_DEVICE_MODE_MAX <=? mode then cret tt
    else
      let* name := cpure (nth_error s_device_mode_display (Z.to_nat mode)) in
      let* text :=
        (if mode =? AI_DEVICE_MODE_CHAT then
           let sub := chat_sub_mode m in
           let* sub_name := (if sub <? AI_CHAT_SUB_MAX then cpure (nth_error s_chat_sub_display (Z.to_nat sub))
                             else cret "") in
           cret ("已成功切换到" ++ name ++ ": " ++ sub_name)
         else cret ("已成功切换到" ++ name)) in
      if (String.length text <=? 0)%nat then cret tt
      else on_dev (call (tuya_ai_display_msg (TY_DISPLAY_TP_MODE_NOTIFY (strtrunc 63 text))))
  else cret tt.

Definition __resolve_active (m : AI_MODE_MGR_T H) : option ENTRY_REF :=
  if device_mode m =? AI_DEVICE_MODE_CHAT then
    let sub := chat_sub_mode m in
    if (sub <? AI_CHAT_SUB_MAX) && default false (enabled <$> entry_at m (ChatSub sub)) then Some (ChatSub sub) else None
  else
    let dev := device_mode m in
    if (dev <? AI_DEVICE_MODE_MAX) && default false (enabled <$> entry_at m (DeviceMode dev))
    then Some (DeviceMode dev) else None.

Definition __get_scode_by_mode (mode : Z) : option string :=
  if mode =? AI_DEVICE_MODE_CHAT then Some AI_AGENT_SCODE_CHAT
  else if mode =? AI_DEVICE_MODE_TRANSLATE then Some AI_AGENT_SCODE_TRANSLATE
  else if mode =? AI_DEVICE_MODE_PICTURE then Some AI_AGENT_SCODE_PICTURE
  else if mode =? AI_DEVICE_MODE_DETECTION then Some AI_AGENT_SCODE_DETECTION
  else None.

Definition __default_audio_input (data : option AI_DATA) (len : Z) : M OPERATE_RET :=
  let* ready := on_dev wukong_ai_agent_is_ready in
  if negb ready then cret OPRT_OK
  else let* _ := on_dev (call (tuya_ai_audio_input data len)) in cret OPRT_OK.

(** MODE_DISPATCH_CALL *)
Definition dispatch_call (cb : option (CALLBACK (X * Device))) (data : option AI_DATA) (len : Z) : M OPERATE_RET :=
  match cb with
  | None => cret OPRT_NOT_FOUND
  | Some f => on_modes (f data len)
  end.

Definition __mode_dispatch (op : AI_MODE_OP_E) (data : option AI_DATA) (len : Z) : M OPERATE_RET :=
  let* m := get_mgr in
  let* entry := (match active m with
                 | None => cret None
                 | Some r => let* e := cpure (entry_at m r) in cret (Some e)
                 end) in
  let h := match entry with Some e => handle e | None => None end in
  let cb (field : AI_CHAT_MODE_HANDLE_T (X * Device) -> option (CALLBACK (X * Device))) :=
    match h with Some h => field (callbacks h) | None => None end in
  match op with
  | AI_MODE_OP_INIT => dispatch_call (cb on_init) data len
  | AI_MODE_OP_DEINIT => dispatch_call (cb on_deinit) data len
  | AI_MODE_OP_KEY => dispatch_call (cb on_key) data len
  | AI_MODE_OP_TASK => dispatch_call (cb on_task) data len
  | AI_MODE_OP_WAKEUP => dispatch_call (cb on_wakeup) data len
  | AI_MODE_OP_VAD => dispatch_call (cb on_vad) data len
  | AI_MODE_OP_CLIENT => dispatch_call (cb on_client) data len
  | AI_MODE_OP_NOTIFY_IDLE => dispatch_call (cb on_notify_idle) data len
  | AI_MODE_OP_EVENT =>
      match cb on_event, entry with
      | Some f, Some e =>
          if mutex e then
            let* _ := on_dev (call tal_mutex_lock) in
            let* _ := on_modes (f data len) in
            let* _ := on_dev (call tal_mutex_unlock) in
            cret OPRT_OK
          else let* _ := on_modes (f data len) in cret OPRT_OK
      | _, _ => cret OPRT_NOT_FOUND
      end
  | AI_MODE_OP_AUDIO_INPUT =>
      match cb on_audio_input with
      | None => __default_audio_input data len
      | Some f => on_modes (f data len)
      end
  | AI_MODE_OP_MAX => cret OPRT_NOT_FOUND
  end.

Definition wukong_ai_mode_dispatch (op : AI_MODE_OP_E) (data : option AI_DATA) (len : Z) : M OPERATE_RET :=
  match op with
  | AI_MODE_OP_MAX => cret OPRT_INVALID_PARM
  | _ => __mode_dispatch op data len
  end.

Definition wukong_ai_device_mode_switch (mode : Z) : M OPERATE_RET :=
  if AI_DEVICE_MODE_MAX <=? mode then cret OPRT_INVALID_PARM
  else
    let* m := get_mgr in
    let target := if mode =? AI_DEVICE_MODE_CHAT then ChatSub (chat_sub_mode m) else DeviceMode mode in
    let* e := cpure (entry_at m target) in
    if negb (enabled e) then cret OPRT_NOT_SUPPORTED
    else
      let* _ := wukong_ai_mode_dispatch AI_MODE_OP_DEINIT None 0 in
      let* m := get_mgr in
      let* _ := (match __get_scode_by_mode (device_mode m) with
                 | Some old_scode => on_dev (call (tuya_ai_agent_del_session old_scode))
                 | None => cret tt
                 end) in
      let* _ := mod_mgr (fun m => mk_mgr mode (chat_sub_mode m) (chat_subs m) (device_modes m) (Some target)) in
      let* _ := on_toy (tuya_ai_toy_device_mode_set mode) in
      let* _ := wukong_ai_mode_dispatch AI_MODE_OP_INIT None 0 in
      let* _ := __post_mode_switched_notify in
      cret OPRT_OK.

Definition wukong_ai_chat_sub_mode_switch (sub : Z) : M OPERATE_RET :=
  if AI_CHAT_SUB_MAX <=? sub then cret OPRT_INVALID_PARM
  else
    let* m := get_mgr in
    let* e := cpure (entry_at m (ChatSub sub)) in
    if negb (enabled e) then cret OPRT_NOT_SUPPORTED
    else
      let* _ := wukong_ai_mode_dispatch AI_MODE_OP_DEINIT None 0 in
      let* _ := mod_mgr (fun m => mk_mgr AI_DEVICE_MODE_CHAT sub (chat_subs m) (device_modes m) (Some (ChatSub sub))) in
      let* _ := on_toy (tuya_ai_toy_trigger_mode_set sub) in
      let* _ := wukong_ai_mode_dispatch AI_MODE_OP_INIT None 0 in
      let* _ := __post_mode_switched_notify in
      cret OPRT_OK.

(** The while loop of the cycle, [count] iterations left. *)
Fixpoint cycle_loop (count : nat) (next : Z) : M OPERATE_RET :=
  match count with
  | O => cret OPRT_NOT_SUPPORTED
  | S count =>
      let* m := get_mgr in
      let* e := cpure (entry_at m (ChatSub next)) in
      if enabled e then wukong_ai_chat_sub_mode_switch next
      else cycle_loop count ((next + 1) mod AI_CHAT_SUB_MAX)
  end.

Definition wukong_ai_chat_sub_mode_cycle : M OPERATE_RET :=
  let* m := get_mgr in
  cycle_loop (Z.to_nat AI_CHAT_SUB_MAX) ((chat_sub_mode m + 1) mod AI_CHAT_SUB_MAX).

Definition wukong_ai_mode_mgr_get : M (AI_MODE_MGR_T H) := get_mgr.

(** [mutex_ok]: whether tal_mutex_create_init succeeds (else the mutex stays
    NULL). *)
Definition __register_chat_sub (mutex_ok : bool) (sub : Z) : M unit :=
  mod_mgr (fun m => mk_mgr (device_mode m) (chat_sub_mode m)
    (<[Z.to_nat sub := mk_entry true mutex_ok (Some (chat_register sub))]> (chat_subs m)) (device_modes m) (active m)).

Definition __register_device_mode (mutex_ok : bool) (mode : Z) : M unit :=
  mod_mgr (fun m => mk_mgr (device_mode m) (chat_sub_mode m) (chat_subs m)
    (<[Z.to_nat mode := mk_entry true mutex_ok (Some (device_register mode))]> (device_modes m)) (active m)).

(** The modes that are built in, in the order they are registered. *)
Fixpoint register_all (register : Z -> M unit) (built : Z -> bool) (modes : list Z) : M unit :=
  match modes with
  | [] => cret tt
  | i :: modes => let* _ := (if built i then register i else cret tt) in register_all register built modes
  end.

(** The do-while loop of the boot, [count] iterations left. *)
Fixpoint init_loop (count : nat) (try_sub : Z) : M OPERATE_RET :=
  match count with
  | O => cret OPRT_NOT_SUPPORTED
  | S count =>
      let* m := get_mgr in
      let* e := cpure (entry_at m (ChatSub try_sub)) in
      if enabled e then
        let* _ := mod_mgr (fun m => mk_mgr AI_DEVICE_MODE_CHAT try_sub (chat_subs m) (device_modes m)
                                      (Some (ChatSub try_sub))) in
        let* _ := on_toy (tuya_ai_toy_trigger_mode_set try_sub) in
        let* _ := wukong_ai_mode_dispatch AI_MODE_OP_INIT None 0 in
        cret OPRT_OK
      else init_loop count ((try_sub + 1) mod AI_CHAT_SUB_MAX)
  end.

Definition sub_usable (m : AI_MODE_MGR_T H) (sub : Z) : M bool :=
  if AI_CHAT_SUB_MAX <=? sub then cret false
  else let* e := cpure (entry_at m (ChatSub sub)) in cret (enabled e).

Definition wukong_ai_mode_init (mutex_ok : bool) : M OPERATE_RET :=
  let* _ := mod_mgr (fun _ => mgr_zero) in
  let* _ := register_all (__register_chat_sub mutex_ok) chat_sub_built
              [AI_CHAT_SUB_HOLD; AI_CHAT_SUB_ONESHOT; AI_CHAT_SUB_WAKEUP; AI_CHAT_SUB_FREE] in
  let* _ := register_all (__register_device_mode mutex_ok) device_mode_built
              [AI_DEVICE_MODE_TRANSLATE; AI_DEVICE_MODE_P2P; AI_DEVICE_MODE_RECORD; AI_DEVICE_MODE_PICTURE;
               AI_DEVICE_MODE_DETECTION] in
  let* _ := mod_mgr (fun m => mk_mgr (device_mode m) (chat_sub_mode m) (chat_subs m)
              (alter (fun e => mk_entry true (mutex e) (handle e)) (Z.to_nat AI_DEVICE_MODE_CHAT) (device_modes m))
              (active m)) in
  let* stored_sub := on_toy tuya_ai_toy_trigger_mode_get in
  let* stored_dev := on_toy tuya_ai_toy_device_mode_get in
  let* m := get_mgr in
  if stored_dev =? AI_DEVICE_MODE_CHAT then
    let* usable := sub_usable m stored_sub in
    let stored_sub := if usable : bool then stored_sub else TUYA_AI_CHAT_DEFAULT_MODE in
    let* usable := sub_usable m stored_sub in
    let stored_sub := if usable : bool then stored_sub else AI_CHAT_SUB_HOLD in
    init_loop (S (Z.to_nat AI_CHAT_SUB_MAX)) stored_sub
  else if stored_dev <? AI_DEVICE_MODE_MAX then
    let* e := cpure (entry_at m (DeviceMode stored_dev)) in
    if enabled e then
      let* _ := mod_mgr (fun m => mk_mgr stored_dev (chat_sub_mode m) (chat_subs m) (device_modes m)
                                    (Some (DeviceMode stored_dev))) in
      let* _ := wukong_ai_mode_dispatch AI_MODE_OP_INIT None 0 in
      cret OPRT_OK
    else cret OPRT_NOT_SUPPORTED
  else cret OPRT_NOT_SUPPORTED.

End Manager.
