(* ===== verification/ModeChat.v ===== *)
(** The four conversation modes: what they promise - the device always shows the
    state the mode last acted on (indicator, microphone gate, low-power timer) -
    and sequences of operations on them: what a turn of conversation leaves
    behind, how push-to-talk bounds the recording, and which events of the
    countdown sound the alert. *)
From S2P Require Import Prelude.
From S2P Require Import World.
From S2P Require Import TmHost.
From S2P Require Import TmCountdown.
From S2P Require Import TmCountdownCorrect.
From S2P Require Import ModeHost.
From S2P Require Import ModeHold.
From S2P Require Import ModeOneshot.
From S2P Require Import ModeWakeup.
From S2P Require Import ModeFree.
From S2P Require Import ToyConfig.
From S2P Require Import ModeMgr.

#[local] Open Scope Z_scope.

Inductive CHAT_MODE := Hold | Oneshot | Wakeup | Free.
#[export] Instance chat_mode_eq_dec : EqDecision CHAT_MODE.
Proof. solve_decision. Defined.

Definition chat_callbacks `{ModeConfig} (m : CHAT_MODE) : AI_CHAT_MODE_HANDLE_T (MODE_STATICS * Device) :=
  match m with
  | Hold => ai_hold_register
  | Oneshot => ai_oneshot_register
  | Wakeup => ai_wakeup_register
  | Free => ai_free_register
  end.

(** The callback for an operation. *)
Definition callback_for {X} (h : AI_CHAT_MODE_HANDLE_T X) (op : AI_MODE_OP_E) : option (CALLBACK X) :=
  match op with
  | AI_MODE_OP_INIT => on_init h
  | AI_MODE_OP_DEINIT => on_deinit h
  | AI_MODE_OP_KEY => on_key h
  | AI_MODE_OP_TASK => on_task h
  | AI_MODE_OP_EVENT => on_event h
  | AI_MODE_OP_WAKEUP => on_wakeup h
  | AI_MODE_OP_VAD => on_vad h
  | AI_MODE_OP_CLIENT => on_client h
  | AI_MODE_OP_NOTIFY_IDLE => on_notify_idle h
  | AI_MODE_OP_AUDIO_INPUT => on_audio_input h
  | AI_MODE_OP_MAX => None
  end.

(** ** Payloads the handlers can take *)

Definition event_ok (e : WUKONG_AI_EVENT_T) : bool :=
  match ev_type e, ev_data e with
  | _, None => true
  | (WUKONG_AI_EVENT_ASR_OK | WUKONG_AI_EVENT_TEXT_STREAM_START | WUKONG_AI_EVENT_TEXT_STREAM_DATA
     | WUKONG_AI_EVENT_TEXT_STREAM_STOP | WUKONG_AI_EVENT_TEXT_STREAM_ABORT), Some (EvText _) => true
  | (WUKONG_AI_EVENT_EMOTION | WUKONG_AI_EVENT_LLM_EMOTION), Some (EvEmo _) => true
  | WUKONG_AI_EVENT_PLAY_ALERT, Some (EvAlert _) => true
  | (WUKONG_AI_EVENT_CLOCK_MCP_COUNTDOWN_TIMER | WUKONG_AI_EVENT_CLOCK_MCP_ALARM), Some (EvBytes b) =>
      (5 <=? length b)%nat
  | (WUKONG_AI_EVENT_ASR_OK | WUKONG_AI_EVENT_TEXT_STREAM_START | WUKONG_AI_EVENT_TEXT_STREAM_DATA
     | WUKONG_AI_EVENT_TEXT_STREAM_STOP | WUKONG_AI_EVENT_TEXT_STREAM_ABORT | WUKONG_AI_EVENT_EMOTION
     | WUKONG_AI_EVENT_LLM_EMOTION | WUKONG_AI_EVENT_PLAY_ALERT | WUKONG_AI_EVENT_CLOCK_MCP_COUNTDOWN_TIMER
     | WUKONG_AI_EVENT_CLOCK_MCP_ALARM), _ => false
  | _, _ => true
  end.

Definition payload_ok (op : AI_MODE_OP_E) (data : option AI_DATA) : bool :=
  match op, data with
  | AI_MODE_OP_KEY, Some (DataKey _) => true
  | AI_MODE_OP_EVENT, (None | Some (DataEvent _)) => match data with Some (DataEvent e) => event_ok e | _ => true end
  | AI_MODE_OP_VAD, (None | Some (DataVad _)) => true
  | (AI_MODE_OP_KEY | AI_MODE_OP_EVENT | AI_MODE_OP_VAD), _ => false
  | _, _ => true
  end.

(** ** What the device shows *)

Inductive LED := LedOn | LedOff | LedFlash (ms : Z).

(** The latest call that says something about an output, newest first. *)
Fixpoint latest {A} (says : DEV_CALL -> option A) (calls : list DEV_CALL) : option A :=
  match calls with
  | [] => None
  | c :: calls => match says c with Some a => Some a | None => latest says calls end
  end.

Definition led_call (c : DEV_CALL) : option LED :=
  match c with
  | tuya_ai_toy_led_on => Some LedOn
  | tuya_ai_toy_led_off => Some LedOff
  | tuya_ai_toy_led_flash t => Some (LedFlash t)
  | _ => None
  end.
Definition gate_call (c : DEV_CALL) : option bool :=
  match c with wukong_audio_input_wakeup_set b => Some b | _ => None end.
Definition lowpower_call (c : DEV_CALL) : option bool :=
  match c with tuya_ai_toy_lowpower_timer_ctrl b => Some b | _ => None end.

(** Is the detection mode subscribed to the camera? *)
Definition camera_call (c : DEV_CALL) : option bool :=
  match c with camera_subscribe_md => Some true | camera_unsubscribe_md => Some false | _ => None end.
Definition camera := latest camera_call.

Definition led := latest led_call.
(** Is the microphone passed on for recognition? *)
Definition gate := latest gate_call.
Definition lowpower := latest lowpower_call.

(** Only free talk keeps listening while the cloud thinks. *)
Definition listens_while_thinking (m : CHAT_MODE) : bool := match m with Free => true | _ => false end.

(** The outputs of mode [m] once it has acted on state [st]. *)
Definition shows (m : CHAT_MODE) (st : AI_CHAT_STATE_E) (calls : list DEV_CALL) : Prop :=
  match st with
  | AI_CHAT_IDLE => led calls = Some LedOff /\ gate calls = Some false /\ lowpower calls = Some true
  | AI_CHAT_LISTEN => led calls = Some (LedFlash 500) /\ gate calls = Some true /\ lowpower calls = Some false
  | AI_CHAT_UPLOAD => m = Hold -> gate calls = Some false
  | AI_CHAT_THINK => led calls = Some (LedFlash 2000) /\ gate calls = Some (listens_while_thinking m)
  | AI_CHAT_SPEAK => led calls = Some LedOn
  | AI_CHAT_INIT | AI_CHAT_INVALID => True
  end.

(** The mode has been initialised, and the device shows what it acted on. *)
Definition awake (m : CHAT_MODE) (s : MODE_STATICS) (calls : list DEV_CALL) : Prop :=
  state (s_ai s) <> AI_CHAT_INIT /\ state (s_ai s) <> AI_CHAT_INVALID /\
  (state (s_ai s) = AI_CHAT_UPLOAD -> m = Hold) /\ shows m (s_ai_cur_state s) calls.

Definition asleep (s : MODE_STATICS) : Prop := s_ai_cur_state s = AI_CHAT_INVALID.

Section Chat.
Context `{CFG : ModeConfig}.
Implicit Types (m : CHAT_MODE) (s : MODE_STATICS) (d : Device).

Definition run_mode m (op : AI_MODE_OP_E) (data : option AI_DATA) (len : Z) : C (MODE_STATICS * Device) OPERATE_RET :=
  match callback_for (chat_callbacks m) op with
  | Some f => f data len
  | None => cret OPRT_NOT_FOUND
  end.

(** One call more that says nothing about the outputs. *)
Definition silent (c : DEV_CALL) : bool :=
  match led_call c, gate_call c, lowpower_call c, camera_call c with
  | None, None, None, None => true
  | _, _, _, _ => false
  end.

Lemma shows_silent m st c calls : silent c = true -> shows m st calls -> shows m st (c :: calls).
Proof.
  unfold silent, shows, led, gate, lowpower.
  destruct (led_call c) eqn:Hl, (gate_call c) eqn:Hg, (lowpower_call c) eqn:Hp, (camera_call c) eqn:Hc; try done.
  intros _. cbn [latest]. by rewrite Hl, Hg, Hp.
Qed.

(** The callback of [m] for an operation, at the head of the goal. *)
Ltac open_mode m :=
  destruct m; unfold run_mode;
  cbn [callback_for chat_callbacks on_init on_deinit on_key on_task on_event on_wakeup on_vad on_client on_notify_idle
       on_audio_input ai_hold_register ai_oneshot_register ai_wakeup_register ai_free_register].

(** After an operation that is not a task step, the outputs are as before. *)
Ltac still_awake := split_and!; cbn; repeat apply shows_silent; done.

Lemma task_wp m s d data len : awake m s (dv_calls d) ->
  wp (run_mode m AI_MODE_OP_TASK data len)
     (fun rt r => rt = OPRT_OK /\ awake m (fst r) (dv_calls (snd r)) /\
        s_ai_cur_state (fst r) = state (s_ai s) /\ state (s_ai (fst r)) = state (s_ai s)) (s, d).
Proof.
  destruct s as [[w st] cur]. intros (Hi & Hv & Hu & Hs). cbn in *. open_mode m.
  all: do 3 mode_step; (case_bool_decide as Hc; [mode_step; subst; by split_and!|]).
  all: destruct st; try done; mode_steps; split_and!; done.
Qed.

Lemma chat_init_wp m s d data len : asleep s ->
  wp (run_mode m AI_MODE_OP_INIT data len)
     (fun _ r => awake m (fst r) (dv_calls (snd r)) /\ state (s_ai (fst r)) = AI_CHAT_IDLE) (s, d).
Proof.
  destruct s as [[w st] cur]. unfold asleep. cbn. intros ->. open_mode m; mode_steps; split_and!; done.
Qed.

Lemma deinit_wp m s d data len :
  wp (run_mode m AI_MODE_OP_DEINIT data len) (fun _ r => asleep (fst r)) (s, d).
Proof. open_mode m; mode_steps; done. Qed.

Lemma key_wp m s d data len : payload_ok AI_MODE_OP_KEY data = true -> awake m s (dv_calls d) ->
  wp (run_mode m AI_MODE_OP_KEY data len) (fun _ r => awake m (fst r) (dv_calls (snd r))) (s, d).
Proof.
  destruct data as [[k| | |]|]; try done. intros _. destruct s as [[w st] cur]. intros (Hi & Hv & Hu & Hs). cbn in *.
  open_mode m; destruct k; mode_steps; still_awake.
Qed.

Lemma vad_wp m s d data len : payload_ok AI_MODE_OP_VAD data = true -> awake m s (dv_calls d) ->
  wp (run_mode m AI_MODE_OP_VAD data len) (fun _ r => awake m (fst r) (dv_calls (snd r))) (s, d).
Proof.
  destruct data as [[|f| |]|]; try done; intros _; destruct s as [[w st] cur]; intros (Hi & Hv & Hu & Hs); cbn in *.
  all: open_mode m; mode_steps; still_awake.
Qed.

Lemma other_wp m s d op data len :
  op = AI_MODE_OP_WAKEUP \/ op = AI_MODE_OP_CLIENT \/ op = AI_MODE_OP_NOTIFY_IDLE -> awake m s (dv_calls d) ->
  wp (run_mode m op data len) (fun _ r => awake m (fst r) (dv_calls (snd r))) (s, d).
Proof.
  intros Hop. destruct s as [[w st] cur]. intros (Hi & Hv & Hu & Hs). cbn in *.
  destruct_or! Hop; subst op; open_mode m; mode_steps; still_awake.
Qed.

Lemma tm_alert_wp {X} opr ev (Q : unit -> X * Device -> Prop) (x : X) d :
  (ev = None \/ exists b, ev = Some (EvBytes b) /\ (5 <= length b)%nat) ->
  Q tt (x, d) -> Q tt (x, called (wukong_audio_player_alert AI_TOY_ALERT_TYPE_WAKEUP false) d) ->
  wp (tm_alert opr ev) Q (x, d).
Proof.
  intros Hev Hq Hq'. unfold tm_alert. destruct Hev as [->|(b & -> & Hb)]; [by wp_step|]. wp_step.
  destruct (nth_error b 4) as [byte|] eqn:Hx; [|apply nth_error_None in Hx; lia].
  apply (wp_pure _ byte); [done|]. mode_steps; done.
Qed.

Lemma tm_event_ok ty ev : event_ok (mk_event ty ev) = true ->
  ty = WUKONG_AI_EVENT_CLOCK_MCP_COUNTDOWN_TIMER \/ ty = WUKONG_AI_EVENT_CLOCK_MCP_ALARM ->
  ev = None \/ exists b, ev = Some (EvBytes b) /\ (5 <= length b)%nat.
Proof.
  intros Hok [Ht|Ht]; subst ty; destruct ev as [[]|]; try done; [right|by left|right|by left];
    (eexists; split; [done|]); by apply Nat.leb_le.
Qed.

Lemma event_wp m s d data len : payload_ok AI_MODE_OP_EVENT data = true -> awake m s (dv_calls d) ->
  wp (run_mode m AI_MODE_OP_EVENT data len) (fun _ r => awake m (fst r) (dv_calls (snd r))) (s, d).
Proof.
  destruct data as [[| |[ty ev]|]|]; try done; intros Hok; destruct s as [[w st] cur]; intros (Hi & Hv & Hu & Hs); cbn in *.
  2: { open_mode m; mode_steps; still_awake. }
  open_mode m; mode_step; destruct ty; cbn [ev_type ev_data];
    first [wp_step; wp_step; still_awake
          |wp_step; apply tm_alert_wp; [by eapply tm_event_ok; [exact Hok|first [by left|by right]]|wp_step; still_awake..]
          |destruct ev as [[]|]; try done; mode_steps; still_awake].
Qed.
(** Any operation a mode can be asked once it is initialised. *)
Lemma op_wp m s d op data len : op <> AI_MODE_OP_INIT -> op <> AI_MODE_OP_DEINIT -> payload_ok op data = true ->
  awake m s (dv_calls d) ->
  wp (run_mode m op data len) (fun _ r => awake m (fst r) (dv_calls (snd r))) (s, d).
Proof.
  intros Hi Hd Hp Hs. destruct op; try done.
  - by apply key_wp.
  - eapply wp_mono; [by apply task_wp|]. by intros rt r (_ & ? & _).
  - by apply event_wp.
  - apply other_wp; auto.
  - by apply vad_wp.
  - apply other_wp; auto.
  - apply other_wp; auto.
  - destruct m; exact Hs.
Qed.

End Chat.

(** An operation with its payload. *)
Record mode_op := Op { op_kind : AI_MODE_OP_E; op_data : option AI_DATA; op_len : Z }.

Definition OpKey (k : PUSH_KEY_TYPE_E) : mode_op := Op AI_MODE_OP_KEY (Some (DataKey k)) 0.
Definition OpTask : mode_op := Op AI_MODE_OP_TASK None 0.
Definition OpWakeup : mode_op := Op AI_MODE_OP_WAKEUP None 0.
Definition OpEvent (ty : WUKONG_AI_EVENT_TYPE_E) : mode_op :=
  Op AI_MODE_OP_EVENT (Some (DataEvent (mk_event ty None))) 0.

Section Turns.
Context `{CFG : ModeConfig}.
Implicit Types (m : CHAT_MODE) (s : MODE_STATICS) (d : Device).

Fixpoint run_ops m (ops : list mode_op) : C (MODE_STATICS * Device) unit :=
  match ops with
  | [] => cret tt
  | o :: ops => let* _ := run_mode m (op_kind o) (op_data o) (op_len o) in run_ops m ops
  end.

(** An operation other than (de)initialisation, with a payload of its type. *)
Definition usable (o : mode_op) : bool :=
  match op_kind o with AI_MODE_OP_INIT | AI_MODE_OP_DEINIT => false | _ => payload_ok (op_kind o) (op_data o) end.

Lemma run_ops_wp m ops s d : Forall (fun o => usable o = true) ops -> awake m s (dv_calls d) ->
  wp (run_ops m ops) (fun _ r => awake m (fst r) (dv_calls (snd r))) (s, d).
Proof.
  revert s d. induction ops as [|o ops IH]; intros s d Hok Hs; [exact Hs|]. cbn [run_ops].
  apply Forall_cons in Hok as [Ho Hok]. wp_step. eapply wp_mono.
  - apply op_wp; [..|exact Hs]; unfold usable in Ho; by destruct (op_kind o).
  - intros _ [s1 d1] H1. by apply IH.
Qed.

(** C14. The device always shows what the mode is doing: however the operations
    on a freshly initialised conversation mode interleave (keys, cloud events,
    voice activity, wakeups, idle timeouts, task steps), each runs to its end,
    and after the next task step the indicator, the microphone gate and the
    low-power timer are those of the state the mode is in. *)
Theorem chat_mode_shows_state m ops s d len :
  asleep s -> Forall (fun o => usable o = true) ops ->
  exists s' d',
    run_ops m (Op AI_MODE_OP_INIT None len :: ops ++ [OpTask]) (s, d) = Some (tt, (s', d')) /\
    s_ai_cur_state s' = state (s_ai s') /\ awake m s' (dv_calls d').
Proof.
  intros Hs Hok. destruct (wp_elim (run_ops m (Op AI_MODE_OP_INIT None len :: ops ++ [OpTask]))
    (fun _ r => s_ai_cur_state (fst r) = state (s_ai (fst r)) /\ awake m (fst r) (dv_calls (snd r))) (s, d))
    as ([] & [s' d'] & Hr & Hc & Ha); [|by eauto].
  cbn [run_ops op_kind op_data op_len]. wp_step. eapply wp_mono; [by apply chat_init_wp|].
  intros _ [s1 d1] [H1 _]. cbn [fst snd] in H1. clear Hs. revert s1 d1 H1.
  induction ops as [|o ops IH]; intros s1 d1 H1; cbn [run_ops app].
  - wp_step. eapply wp_mono; [by apply task_wp|]. intros rt [s2 d2] (_ & Ha & Hc & Hst). wp_step. cbn in *. by rewrite Hst.
  - apply Forall_cons in Hok as [Ho Hok]. wp_step. eapply wp_mono.
    + apply op_wp; [..|exact H1]; unfold usable in Ho; by destruct (op_kind o).
    + intros _ [s2 d2] H2. by apply IH.
Qed.

(** ** One turn of conversation *)

(** How the user starts talking in each mode. *)
Definition talk m : list mode_op :=
  match m with
  | Hold => [OpKey LONG_KEY; OpTask; OpKey RELEASE_KEY; OpTask]
  | Oneshot => [OpKey NORMAL_KEY; OpTask]
  | Wakeup | Free => [OpWakeup; OpTask]
  end.

(** The cloud recognises, answers, and the answer has been played. *)
Definition answer : list mode_op :=
  [OpEvent WUKONG_AI_EVENT_ASR_OK; OpTask; OpEvent WUKONG_AI_EVENT_TTS_PRE; OpTask;
   OpEvent WUKONG_AI_EVENT_PLAY_END; OpTask].

(** Does the mode go on listening after the answer? *)
Definition continues m : bool := match m with Oneshot | Free => true | Hold | Wakeup => false end.

(** Run the operations of a given mode, one primitive step at a time. *)
Ltac op_step :=
  lazymatch goal with
  | |- wp (run_mode _ _ _ _) _ _ =>
      unfold run_mode;
      cbn [callback_for chat_callbacks on_key on_task on_event on_wakeup on_vad
           ai_hold_register ai_oneshot_register ai_wakeup_register ai_free_register ev_type ev_data]
  | |- _ => mode_step
  end; cbn [ev_type ev_data].
Ltac op_steps := repeat op_step.

(** C29. A turn of conversation: from whatever state, once the user has talked,
    the cloud has answered and the answer has been played, hold and wakeup mode
    are idle with the microphone off and wait to be triggered again, and
    oneshot and free mode listen again with the microphone on. *)
Theorem conversation_turn m s d :
  awake m s (dv_calls d) ->
  exists s' d', run_ops m (talk m ++ answer) (s, d) = Some (tt, (s', d')) /\
    s_ai_cur_state s' = (if continues m then AI_CHAT_LISTEN else AI_CHAT_IDLE) /\
    state (s_ai s') = s_ai_cur_state s' /\ wakeup_stat (s_ai s') = continues m /\
    gate (dv_calls d') = Some (continues m).
Proof.
  intros (Hi & Hv & Hu & Hs). destruct s as [[w st] cur].
  destruct (wp_elim (run_ops m (talk m ++ answer)) (fun _ r =>
    s_ai_cur_state (fst r) = (if continues m then AI_CHAT_LISTEN else AI_CHAT_IDLE) /\
    state (s_ai (fst r)) = s_ai_cur_state (fst r) /\ wakeup_stat (s_ai (fst r)) = continues m /\
    gate (dv_calls (snd r)) = Some (continues m)) (mk_statics (mk_param w st) cur, d))
    as ([] & [s' d'] & Hr & HQ); [|by eauto].
  destruct ENABLE_TUYA_UI eqn:HUI; destruct m; cbn [talk answer app run_ops op_kind op_data op_len OpKey OpTask OpWakeup OpEvent].
  all: op_steps; split_and!; done.
Qed.

(** ** Push to talk *)

(** The microphone is open and hold mode shows it. *)
Definition recording s d : Prop := s_ai_cur_state s = AI_CHAT_LISTEN /\ gate (dv_calls d) = Some true.

(** Is a stretch of speech being uploaded? *)
Definition uploading (calls : list DEV_CALL) : option bool :=
  latest (fun c => match c with
                   | wukong_ai_agent_input_start _ => Some true
                   | wukong_ai_agent_input_stop => Some false
                   | _ => None
                   end) calls.

Definition listening : MODE_STATICS := mk_statics (mk_param true AI_CHAT_LISTEN) AI_CHAT_LISTEN.

Lemma press_wp s d : s_ai_cur_state s <> AI_CHAT_LISTEN ->
  wp (run_ops Hold [OpKey LONG_KEY; OpTask])
     (fun _ r => fst r = listening /\ gate (dv_calls (snd r)) = Some true) (s, d).
Proof.
  destruct s as [[w st] cur]. cbn. intros Hn. destruct ENABLE_TUYA_UI eqn:HUI;
    cbn [run_ops op_kind op_data op_len OpKey OpTask]; op_steps; by split_and!.
Qed.

Lemma release_wp d :
  wp (run_ops Hold [OpKey RELEASE_KEY; OpTask])
     (fun _ r => s_ai_cur_state (fst r) = AI_CHAT_UPLOAD /\ gate (dv_calls (snd r)) = Some false /\
        uploading (dv_calls (snd r)) = Some false) (listening, d).
Proof.
  destruct ENABLE_TUYA_UI eqn:HUI; cbn [run_ops op_kind op_data op_len OpKey OpTask]; op_steps; by split_and!.
Qed.

(** The release comes before the task step has acted on the press. *)
Lemma quick_release_wp s d : s_ai_cur_state s <> AI_CHAT_LISTEN -> wakeup_stat (s_ai s) = false ->
  wp (run_ops Hold [OpKey LONG_KEY; OpKey RELEASE_KEY; OpTask; OpTask])
     (fun _ r => fst r = listening /\ gate (dv_calls (snd r)) = Some true) (s, d).
Proof.
  destruct s as [[w st] cur]. cbn. intros Hn ->. destruct ENABLE_TUYA_UI eqn:HUI;
    cbn [run_ops op_kind op_data op_len OpKey OpTask]; op_steps; by split_and!.
Qed.

(** Push to talk: from any state in which hold mode is not listening,
    pressing the key opens the microphone at the next task step, and releasing
    it shuts the microphone and ends the upload at the task step after. But if
    the release comes before the task step has acted on the press, it is lost:
    the task steps open the microphone with the key up. *)
Theorem hold_push_to_talk s d :
  s_ai_cur_state s <> AI_CHAT_LISTEN ->
  (exists s1 d1, run_ops Hold [OpKey LONG_KEY; OpTask] (s, d) = Some (tt, (s1, d1)) /\ recording s1 d1 /\
   exists s2 d2, run_ops Hold [OpKey RELEASE_KEY; OpTask] (s1, d1) = Some (tt, (s2, d2)) /\
     s_ai_cur_state s2 = AI_CHAT_UPLOAD /\ gate (dv_calls d2) = Some false /\ uploading (dv_calls d2) = Some false) /\
  (wakeup_stat (s_ai s) = false ->
   exists s3 d3, run_ops Hold [OpKey LONG_KEY; OpKey RELEASE_KEY; OpTask; OpTask] (s, d) = Some (tt, (s3, d3)) /\
     recording s3 d3).
Proof.
  intros Hn. split.
  - destruct (wp_elim _ _ _ (press_wp s d Hn)) as ([] & [s1 d1] & Hr & Hs1 & Hg). cbn in *. subst s1.
    exists listening, d1. split; [done|]. split; [done|].
    destruct (wp_elim _ _ _ (release_wp d1)) as ([] & [s2 d2] & Hr2 & HQ). by exists s2, d2.
  - intros Hw. destruct (wp_elim _ _ _ (quick_release_wp s d Hn Hw)) as ([] & [s3 d3] & Hr & Hs3 & Hg). cbn in *.
    subst s3. by exists listening, d3.
Qed.

(** ** The end of a countdown *)

(** The alert of the countdown: in every conversation mode, the events the
    countdown sends sound the wakeup alert when the countdown has finished and
    do nothing otherwise; the conversation is not disturbed. *)
Theorem countdown_finish_alerts m s d handle opr r duration len :
  let msg := fst (countdown_msg handle opr r duration) in
  let event := mk_event WUKONG_AI_EVENT_CLOCK_MCP_COUNTDOWN_TIMER (Some (EvBytes msg)) in
  run_mode m AI_MODE_OP_EVENT (Some (DataEvent event)) len (s, d) =
  Some (OPRT_OK, (s, if bool_decide (opr = WUKONG_TM_TIMER_OPR_FINISH)
                     then called (wukong_audio_player_alert AI_TOY_ALERT_TYPE_WAKEUP false) d else d)).
Proof.
  intros msg event.
  assert (Hb : nth_error msg 4 = Some (opr_code opr)) by (rewrite nth_error_is_lookup; apply countdown_msg_opr).
  assert (Hrun : tm_alert WUKONG_TM_TIMER_OPR_FINISH (Some (EvBytes msg)) (s, d) =
    Some (tt, (s, if bool_decide (opr = WUKONG_TM_TIMER_OPR_FINISH)
                  then called (wukong_audio_player_alert AI_TOY_ALERT_TYPE_WAKEUP false) d else d))).
  { unfold tm_alert, cbind, cpure. rewrite Hb. by destruct opr. }
  destruct m; unfold run_mode; cbn -[tm_alert msg]; unfold cbind; rewrite Hrun; done.
Qed.

End Turns.

(** ** At concrete states *)

#[local] Instance demo_config : ModeConfig := {
  ENABLE_TUYA_UI := true; USING_BOARD_AUDIO_INPUT := true; ENABLE_TUYA_PICTURE := true; ENABLE_TUYA_CODEC_OPUS := true;
  TUYA_AI_TOY_ISP_WIDTH := 480; TUYA_AI_TOY_ISP_HEIGHT := 480;
  chat_sub_built _ := true; device_mode_built _ := true; TUYA_AI_CHAT_DEFAULT_MODE := AI_CHAT_SUB_HOLD;
  AI_AGENT_SCODE_CHAT := ""; AI_AGENT_SCODE_TRANSLATE := "asr-llm-tts"; AI_AGENT_SCODE_PICTURE := "";
  AI_AGENT_SCODE_DETECTION := "" }.

Lemma chat_mode_shows_state_witness : exists s' d',
  run_ops Free (Op AI_MODE_OP_INIT None 0 :: [OpWakeup; OpEvent WUKONG_AI_EVENT_ASR_OK] ++ [OpTask])
    (statics_zero, calm_device) = Some (tt, (s', d')) /\
  s_ai_cur_state s' = state (s_ai s') /\ awake Free s' (dv_calls d').
Proof. apply (chat_mode_shows_state Free); [done|]. by repeat constructor. Defined.

Lemma conversation_turn_witness : exists s' d',
  run_ops Oneshot (talk Oneshot ++ answer) (mk_statics (mk_param false AI_CHAT_SPEAK) AI_CHAT_INVALID, calm_device)
    = Some (tt, (s', d')) /\
  s_ai_cur_state s' = AI_CHAT_LISTEN /\ state (s_ai s') = s_ai_cur_state s' /\ wakeup_stat (s_ai s') = true /\
  gate (dv_calls d') = Some true.
Proof. apply (conversation_turn Oneshot). by split_and!. Defined.

Lemma hold_push_to_talk_witness :
  (exists s1 d1, run_ops Hold [OpKey LONG_KEY; OpTask] (statics_zero, calm_device) = Some (tt, (s1, d1)) /\
   recording s1 d1 /\
   exists s2 d2, run_ops Hold [OpKey RELEASE_KEY; OpTask] (s1, d1) = Some (tt, (s2, d2)) /\
     s_ai_cur_state s2 = AI_CHAT_UPLOAD /\ gate (dv_calls d2) = Some false /\ uploading (dv_calls d2) = Some false) /\
  (wakeup_stat (s_ai statics_zero) = false ->
   exists s3 d3, run_ops Hold [OpKey LONG_KEY; OpKey RELEASE_KEY; OpTask; OpTask] (statics_zero, calm_device)
       = Some (tt, (s3, d3)) /\ recording s3 d3).
Proof. by apply (hold_push_to_talk statics_zero calm_device). Defined.
