(* ===== verification/ModeMgrCorrect.v ===== *)
(** The mode manager against the interface of the modes: exactly the active
    mode is awake, it is the one the two-level mode state names, and switching,
    cycling and booting choose the mode they should. *)
From S2P Require Import Prelude.
From S2P Require Import World.
From S2P Require Import TmHost.
From S2P Require Import ModeHost.
From S2P Require Import ToyConfig.
From S2P Require Import ModeMgr.
From S2P Require Import ModeChat.

#[local] Open Scope Z_scope.

(** ** What a mode promises to the manager *)

Class ModeLaws (H X : Type) `{!ModeTable H X} := {
  ml_asleep : H -> X -> Prop;
  ml_awake : H -> X -> list DEV_CALL -> Prop;
  ml_payload : H -> AI_MODE_OP_E -> option AI_DATA -> bool;
  (** calls the manager makes between the mode's own do not matter *)
  ml_silent : forall h x c calls, silent c = true -> ml_awake h x calls -> ml_awake h x (c :: calls);
  ml_init : forall h x d, ml_asleep h x -> exists f, on_init (callbacks h) = Some f /\
    wp (f None 0) (fun _ r => ml_awake h (fst r) (dv_calls (snd r)) /\
      forall h', h' <> h -> ml_asleep h' x -> ml_asleep h' (fst r)) (x, d);
  ml_deinit : forall h x d, ml_awake h x (dv_calls d) -> exists f, on_deinit (callbacks h) = Some f /\
    wp (f None 0) (fun _ r => ml_asleep h (fst r) /\
      forall h', h' <> h -> ml_asleep h' x -> ml_asleep h' (fst r)) (x, d);
  ml_run : forall h op f data len x d, callback_for (callbacks h) op = Some f ->
    op <> AI_MODE_OP_INIT -> op <> AI_MODE_OP_DEINIT -> ml_payload h op data = true -> ml_awake h x (dv_calls d) ->
    wp (f data len) (fun _ r => ml_awake h (fst r) (dv_calls (snd r)) /\
      forall h', h' <> h -> ml_asleep h' x -> ml_asleep h' (fst r)) (x, d) }.

(** More calls, none of which changes the outputs. *)
Definition quietly (d d' : Device) : Prop :=
  exists l, dv_calls d' = (l ++ dv_calls d)%list /\ Forall (fun c => silent c = true) l.

Lemma quietly_refl d : quietly d d.
Proof. by exists []. Qed.

Lemma quietly_call c d d' : silent c = true -> dv_calls d' = c :: dv_calls d -> quietly d d'.
Proof. intros Hc Hd. exists [c]. rewrite Hd. split; [done|]. by constructor. Qed.

Section Correct.
Context {H X : Type} `{ML : ModeLaws H X} `{!EqDecision H} `{CFG : ModeConfig}.
Abbreviation SYS := (Sys H X).
Implicit Types (m : AI_MODE_MGR_T H) (t : TOY_MODES) (x : X) (d : Device).

Lemma awake_quietly h x d d' : quietly d d' -> ml_awake h x (dv_calls d) -> ml_awake h x (dv_calls d').
Proof. intros (l & -> & Hl) Ha. induction Hl as [|c l Hc _ IH]; [done|]. by apply ml_silent. Qed.

(** *** Running the manager *)

Lemma wp_on_dev {A} (f : C Device A) (Q : A -> SYS -> Prop) m t x d :
  wp f (fun a d' => Q a (mk_sys m t x d')) d -> wp (on_dev f) Q (mk_sys m t x d).
Proof. unfold wp, on_dev. cbn. by destruct (f d) as [[a d']|]. Qed.

Lemma wp_on_toy {A} (f : C (TOY_MODES * Device) A) (Q : A -> SYS -> Prop) m t x d :
  wp f (fun a r => Q a (mk_sys m (fst r) x (snd r))) (t, d) -> wp (on_toy f) Q (mk_sys m t x d).
Proof. unfold wp, on_toy. cbn. by destruct (f (t, d)) as [[a [t' d']]|]. Qed.

Lemma wp_on_modes {A} (f : C (X * Device) A) (Q : A -> SYS -> Prop) m t x d :
  wp f (fun a r => Q a (mk_sys m t (fst r) (snd r))) (x, d) -> wp (on_modes f) Q (mk_sys m t x d).
Proof. unfold wp, on_modes. cbn. by destruct (f (x, d)) as [[a [x' d']]|]. Qed.

Lemma wp_get_mgr (Q : AI_MODE_MGR_T H -> SYS -> Prop) m t x d :
  Q m (mk_sys m t x d) -> wp get_mgr Q (mk_sys m t x d).
Proof. done. Qed.

Lemma wp_mod_mgr f (Q : unit -> SYS -> Prop) m t x d :
  Q tt (mk_sys (f m) t x d) -> wp (mod_mgr f) Q (mk_sys m t x d).
Proof. done. Qed.

(** Setting a stored mode changes that mode and makes silent calls only. *)
Lemma mode_save_quiet dev sub t d (Q : OPERATE_RET -> TOY_MODES * Device -> Prop) :
  (forall rt kv d', quietly d d' -> Q rt (mk_toy (cfg_device_mode t) (cfg_trigger_mode t) kv, d')) ->
  wp (__ai_toy_mode_save dev sub) Q (t, d).
Proof.
  intros HQ. assert (Ht : t = mk_toy (cfg_device_mode t) (cfg_trigger_mode t) (kv_device_mode t)) by by destruct t.
  unfold __ai_toy_mode_save. destruct (_ || _ || _ || _).
  { wp_step. rewrite Ht. apply HQ, quietly_refl. }
  destruct (_ || _); [wp_step; rewrite Ht; apply HQ, quietly_refl|].
  unfold kv_write, wp, cbind, on_host, call, ask, cmod, cret. cbn.
  destruct (_ =? _); cbn; [|rewrite Ht]; apply HQ;
    (eapply (quietly_call (wd_common_write AI_DEVICE_MODE _)); [|cbn; reflexivity]; done).
Qed.

Lemma device_set_wp mode t d (Q : unit -> TOY_MODES * Device -> Prop) : 0 <= mode < AI_DEVICE_MODE_MAX ->
  (forall kv d', quietly d d' -> Q tt (mk_toy mode (cfg_trigger_mode t) kv, d')) ->
  wp (tuya_ai_toy_device_mode_set mode) Q (t, d).
Proof.
  intros Hm HQ. unfold tuya_ai_toy_device_mode_set.
  if_true ltac:(unfold AI_DEVICE_MODE_CHAT, AI_DEVICE_MODE_MAX in *; lia). tm_steps.
  destruct (Z.eqb_spec (cfg_device_mode t) mode) as [<-|]; cbn [negb].
  - wp_step. destruct t. apply HQ, quietly_refl.
  - tm_step. tm_step. tm_step. apply mode_save_quiet. intros rt kv d' Hd. wp_step. by apply HQ.
Qed.

Lemma trigger_set_wp mode t d (Q : unit -> TOY_MODES * Device -> Prop) : 0 <= mode < AI_CHAT_SUB_MAX ->
  (forall kv d', quietly d d' -> Q tt (mk_toy (cfg_device_mode t) mode kv, d')) ->
  wp (tuya_ai_toy_trigger_mode_set mode) Q (t, d).
Proof.
  intros Hm HQ. unfold tuya_ai_toy_trigger_mode_set.
  if_true ltac:(unfold AI_CHAT_SUB_HOLD, AI_CHAT_SUB_MAX in *; lia). tm_steps.
  destruct (Z.eqb_spec (cfg_trigger_mode t) mode) as [<-|]; cbn [negb].
  - wp_step. destruct t. apply HQ, quietly_refl.
  - tm_step. tm_step. tm_step. apply mode_save_quiet. intros rt kv d' Hd. wp_step. by apply HQ.
Qed.

Lemma notify_wp m t x d (Q : unit -> SYS -> Prop) :
  0 <= device_mode m -> 0 <= chat_sub_mode m ->
  (forall d', quietly d d' -> Q tt (mk_sys m t x d')) -> wp __post_mode_switched_notify Q (mk_sys m t x d).
Proof.
  intros Hdm Hcs HQ. unfold __post_mode_switched_notify.
  destruct ENABLE_TUYA_UI; [|wp_step; apply HQ, quietly_refl].
  wp_step. apply wp_get_mgr. destruct (Z.leb_spec AI_DEVICE_MODE_MAX (device_mode m)) as [|Hlt];
    [wp_step; apply HQ, quietly_refl|].
  assert (Hname : exists name, nth_error s_device_mode_display (Z.to_nat (device_mode m)) = Some name).
  { destruct (nth_error _ _) eqn:Hn; [by eauto|]. apply nth_error_None in Hn. cbn in Hn.
    unfold AI_DEVICE_MODE_MAX in Hlt. lia. }
  destruct Hname as [name Hname]. wp_step. apply (wp_pure _ name); [done|].
  assert (Hsend : forall text, wp (if (String.length text <=? 0)%nat then cret tt
      else on_dev (call (tuya_ai_display_msg (TY_DISPLAY_TP_MODE_NOTIFY (CStr.strtrunc 63 text))))) Q (mk_sys m t x d)).
  { intros text. destruct (_ <=? _)%nat; [wp_step; apply HQ, quietly_refl|].
    apply wp_on_dev. unfold call. wp_step. apply HQ.
    eapply (quietly_call (tuya_ai_display_msg _)); [|cbn; reflexivity]; done. }
  wp_step. destruct (device_mode m =? AI_DEVICE_MODE_CHAT); [|wp_step; apply Hsend].
  wp_step. destruct (Z.ltb_spec (chat_sub_mode m) AI_CHAT_SUB_MAX) as [Hs|]; [|do 2 wp_step; apply Hsend].
  destruct (nth_error s_chat_sub_display (Z.to_nat (chat_sub_mode m))) as [sn|] eqn:Hn.
  - apply (wp_pure _ sn); [done|]. wp_step. apply Hsend.
  - apply nth_error_None in Hn. cbn in Hn. unfold AI_CHAT_SUB_MAX in Hs. lia.
Qed.

(** *** The invariant *)

Definition all_asleep x : Prop := forall h, ml_asleep h x.
Definition only_awake (h : H) x (calls : list DEV_CALL) : Prop :=
  ml_awake h x calls /\ forall h', h' <> h -> ml_asleep h' x.

(** Not the chat entry of the device modes, which never has a handler. *)
Definition real_ref (r : ENTRY_REF) : Prop := match r with ChatSub _ => True | DeviceMode i => 0 < i end.

Record mgr_shape m : Prop := {
  sh_chat : length (chat_subs m) = 4%nat;
  sh_device : length (device_modes m) = 6%nat;
  sh_sub : 0 <= chat_sub_mode m < AI_CHAT_SUB_MAX;
  sh_mode : 0 <= device_mode m < AI_DEVICE_MODE_MAX;
  sh_handle : forall r e, entry_at m r = Some e -> enabled e = true -> real_ref r -> is_Some (handle e) }.

(** The active mode alone is awake, and it is the one the mode state names. *)
Definition mgr_inv (s : SYS) : Prop :=
  mgr_shape (s_mode_mgr s) /\
  match active (s_mode_mgr s) with
  | None => all_asleep (sy_modes s)
  | Some r => __resolve_active (s_mode_mgr s) = Some r /\
      exists e h, entry_at (s_mode_mgr s) r = Some e /\ handle e = Some h /\
        only_awake h (sy_modes s) (dv_calls (sy_dev s))
  end.

Lemma deinit_dispatch_wp m t x d (Q : OPERATE_RET -> SYS -> Prop) : mgr_inv (mk_sys m t x d) ->
  (forall rt x' d', all_asleep x' -> Q rt (mk_sys m t x' d')) ->
  wp (wukong_ai_mode_dispatch AI_MODE_OP_DEINIT None 0) Q (mk_sys m t x d).
Proof.
  intros [_ Ha] HQ. unfold wukong_ai_mode_dispatch, __mode_dispatch. wp_step. apply wp_get_mgr. cbn in Ha.
  destruct (active m) as [r|]; [|do 2 wp_step; apply HQ, Ha].
  destruct Ha as (_ & e & h & He & Hh & Haw & Hsl). do 2 wp_step. apply (wp_pure _ e); [done|]. wp_step.
  rewrite Hh. destruct (ml_deinit h x d Haw) as (f & Hf & Hwp). rewrite Hf. cbn [dispatch_call].
  apply wp_on_modes. eapply wp_mono; [exact Hwp|]. intros rt [x' d'] [Hs Ho]. apply HQ. intros h'.
  destruct (decide (h' = h)) as [->|Hne]; [done|]. by apply Ho, Hsl.
Qed.

Lemma init_dispatch_wp m t x d r e h (Q : OPERATE_RET -> SYS -> Prop) :
  active m = Some r -> entry_at m r = Some e -> handle e = Some h -> all_asleep x ->
  (forall rt x' d', only_awake h x' (dv_calls d') -> Q rt (mk_sys m t x' d')) ->
  wp (wukong_ai_mode_dispatch AI_MODE_OP_INIT None 0) Q (mk_sys m t x d).
Proof.
  intros Ha He Hh Hs HQ. unfold wukong_ai_mode_dispatch, __mode_dispatch. wp_step. apply wp_get_mgr.
  rewrite Ha. do 2 wp_step. apply (wp_pure _ e); [done|]. wp_step. rewrite Hh.
  destruct (ml_init h x d (Hs h)) as (f & Hf & Hwp). rewrite Hf. cbn [dispatch_call]. apply wp_on_modes.
  eapply wp_mono; [exact Hwp|]. intros rt [x' d'] [Haw Ho]. apply HQ. split; [done|]. intros h' Hne. by apply Ho, Hs.
Qed.

(** Awake with a new mode state: what switching and booting end in. *)
Lemma switched_inv m t x d r e h : mgr_shape m -> active m = Some r -> __resolve_active m = Some r ->
  entry_at m r = Some e -> handle e = Some h -> only_awake h x (dv_calls d) -> mgr_inv (mk_sys m t x d).
Proof. intros Hsh Ha Hr He Hh Haw. split; [done|]. cbn. rewrite Ha. split; [done|]. by exists e, h. Qed.

Lemma only_awake_quietly h x d d' : quietly d d' -> only_awake h x (dv_calls d) -> only_awake h x (dv_calls d').
Proof. intros Hd [Ha Ho]. split; [by eapply awake_quietly|done]. Qed.

Lemma shape_switch m mode sub a : mgr_shape m -> 0 <= sub < AI_CHAT_SUB_MAX -> 0 <= mode < AI_DEVICE_MODE_MAX ->
  mgr_shape (mk_mgr mode sub (chat_subs m) (device_modes m) a).
Proof. intros [Hc Hd _ _ Hh] Hs Hm. by split. Qed.

(** *** Switching the chat sub-mode *)

Definition sub_enabled m (sub : Z) : bool := default false (enabled <$> entry_at m (ChatSub sub)).
Definition mode_enabled m (mode : Z) : bool := default false (enabled <$> entry_at m (DeviceMode mode)).

Lemma sub_entry m sub : mgr_shape m -> 0 <= sub < AI_CHAT_SUB_MAX ->
  exists e, entry_at m (ChatSub sub) = Some e /\ sub_enabled m sub = enabled e.
Proof.
  intros [Hc _ _ _ _] Hs. unfold sub_enabled. cbn [entry_at]. destruct (nth_error _ _) as [e|] eqn:He; [by exists e|].
  apply nth_error_None in He. rewrite Hc in He. unfold AI_CHAT_SUB_MAX in Hs. lia.
Qed.

Lemma mode_entry m mode : mgr_shape m -> 0 <= mode < AI_DEVICE_MODE_MAX ->
  exists e, entry_at m (DeviceMode mode) = Some e /\ mode_enabled m mode = enabled e.
Proof.
  intros [_ Hd _ _ _] Hs. unfold mode_enabled. cbn [entry_at]. destruct (nth_error _ _) as [e|] eqn:He; [by exists e|].
  apply nth_error_None in He. rewrite Hd in He. unfold AI_DEVICE_MODE_MAX in Hs. lia.
Qed.

(** The sub-mode [sub] of chat becomes the active mode. *)
Definition sub_switched (sub : Z) (s s' : SYS) : Prop :=
  s_mode_mgr s' = mk_mgr AI_DEVICE_MODE_CHAT sub (chat_subs (s_mode_mgr s)) (device_modes (s_mode_mgr s))
                    (Some (ChatSub sub)) /\
  cfg_trigger_mode (sy_toy s') = sub /\ cfg_device_mode (sy_toy s') = cfg_device_mode (sy_toy s).

Lemma sub_switch_wp s sub (Q : OPERATE_RET -> SYS -> Prop) :
  mgr_inv s -> 0 <= sub ->
  (forall rt s', (rt = OPRT_OK /\ (sub <? AI_CHAT_SUB_MAX) && sub_enabled (s_mode_mgr s) sub = true /\
                  mgr_inv s' /\ sub_switched sub s s') \/
                 (rt <> OPRT_OK /\ (sub <? AI_CHAT_SUB_MAX) && sub_enabled (s_mode_mgr s) sub = false /\ s' = s) ->
     Q rt s') ->
  wp (wukong_ai_chat_sub_mode_switch sub) Q s.
Proof.
  intros Hinv Hs HQ. destruct s as [m t x d]. pose proof Hinv as [Hsh _]. cbn [s_mode_mgr] in *.
  unfold wukong_ai_chat_sub_mode_switch.
  destruct (Z.leb_spec AI_CHAT_SUB_MAX sub) as [|Hlt].
  { wp_step. apply HQ. right. split_and!; [done| |done]. by destruct (Z.ltb_spec sub AI_CHAT_SUB_MAX); [lia|]. }
  assert (Hltb : (sub <? AI_CHAT_SUB_MAX) = true) by lia.
  destruct (sub_entry m sub Hsh) as (e & He & Hen); [lia|]. wp_step. apply wp_get_mgr. wp_step.
  apply (wp_pure _ e); [done|]. destruct (enabled e) eqn:Hee; cbn [negb].
  2: { wp_step. apply HQ. right. split_and!; [done| |done]. by rewrite Hltb, Hen. }
  destruct (sh_handle _ Hsh _ _ He Hee I) as [h Hh].
  wp_step. apply deinit_dispatch_wp; [done|]. intros _ x1 d1 Hx1. wp_step. apply wp_mod_mgr.
  set (m' := mk_mgr AI_DEVICE_MODE_CHAT sub (chat_subs m) (device_modes m) (Some (ChatSub sub))).
  wp_step. apply wp_on_toy, trigger_set_wp; [lia|]. intros kv d2 _. cbn [fst snd].
  wp_step. apply (init_dispatch_wp m' _ _ _ (ChatSub sub) e h); try done. intros _ x3 d3 Haw.
  wp_step. apply notify_wp; [cbn; unfold AI_DEVICE_MODE_CHAT; lia|cbn; lia|]. intros d4 Hd4. wp_step. apply HQ. left.
  split_and!; [done|by rewrite Hltb, Hen| |done..].
  apply (switched_inv m' _ _ _ (ChatSub sub) e h); try done.
  - apply shape_switch; [done|lia|unfold AI_DEVICE_MODE_CHAT, AI_DEVICE_MODE_MAX; lia].
  - unfold __resolve_active. subst m'. cbn [device_mode chat_sub_mode]. rewrite Hltb.
    change (entry_at _ (ChatSub sub)) with (entry_at m (ChatSub sub)). rewrite He. cbn. by rewrite Hee.
  - by eapply only_awake_quietly.
Qed.

(** *** Switching the device mode *)

Definition device_target m (mode : Z) : ENTRY_REF :=
  if mode =? AI_DEVICE_MODE_CHAT then ChatSub (chat_sub_mode m) else DeviceMode mode.
Definition switchable m (mode : Z) : bool :=
  (mode <? AI_DEVICE_MODE_MAX) && default false (enabled <$> entry_at m (device_target m mode)).

Definition device_switched (mode : Z) (s s' : SYS) : Prop :=
  s_mode_mgr s' = mk_mgr mode (chat_sub_mode (s_mode_mgr s)) (chat_subs (s_mode_mgr s)) (device_modes (s_mode_mgr s))
                    (Some (device_target (s_mode_mgr s) mode)) /\
  cfg_device_mode (sy_toy s') = mode /\ cfg_trigger_mode (sy_toy s') = cfg_trigger_mode (sy_toy s).

Lemma target_entry m mode : mgr_shape m -> 0 <= mode < AI_DEVICE_MODE_MAX ->
  exists e, entry_at m (device_target m mode) = Some e /\ switchable m mode = enabled e /\
    real_ref (device_target m mode).
Proof.
  intros Hsh Hm. unfold switchable, device_target.
  assert (Hltb : (mode <? AI_DEVICE_MODE_MAX) = true) by lia. rewrite Hltb. cbn [andb].
  destruct (Z.eqb_spec mode AI_DEVICE_MODE_CHAT) as [->|Hne].
  - destruct (sub_entry m (chat_sub_mode m) Hsh (sh_sub _ Hsh)) as (e & He & _). exists e. by rewrite He.
  - destruct (mode_entry m mode Hsh Hm) as (e & He & _). exists e. rewrite He. split_and!; [done..|].
    cbn. unfold AI_DEVICE_MODE_CHAT in Hne. lia.
Qed.

Lemma resolve_target m mode e : mgr_shape m -> 0 <= mode < AI_DEVICE_MODE_MAX ->
  entry_at m (device_target m mode) = Some e -> enabled e = true ->
  __resolve_active (mk_mgr mode (chat_sub_mode m) (chat_subs m) (device_modes m) (Some (device_target m mode))) =
  Some (device_target m mode).
Proof.
  intros Hsh Hm He Hen. unfold __resolve_active, device_target in *. cbn [device_mode chat_sub_mode].
  destruct (mode =? AI_DEVICE_MODE_CHAT).
  - pose proof (sh_sub _ Hsh). assert (Hl : (chat_sub_mode m <? AI_CHAT_SUB_MAX) = true) by lia. rewrite Hl.
    change (entry_at _ (ChatSub (chat_sub_mode m))) with (entry_at m (ChatSub (chat_sub_mode m))).
    rewrite He. cbn. by rewrite Hen.
  - assert (Hl : (mode <? AI_DEVICE_MODE_MAX) = true) by lia. rewrite Hl.
    change (entry_at _ (DeviceMode mode)) with (entry_at m (DeviceMode mode)). rewrite He. cbn. by rewrite Hen.
Qed.

Lemma device_switch_wp s mode (Q : OPERATE_RET -> SYS -> Prop) :
  mgr_inv s -> 0 <= mode ->
  (forall rt s', (rt = OPRT_OK /\ switchable (s_mode_mgr s) mode = true /\ mgr_inv s' /\ device_switched mode s s') \/
                 (rt <> OPRT_OK /\ switchable (s_mode_mgr s) mode = false /\ s' = s) -> Q rt s') ->
  wp (wukong_ai_device_mode_switch mode) Q s.
Proof.
  intros Hinv Hm HQ. destruct s as [m t x d]. pose proof Hinv as [Hsh _]. cbn [s_mode_mgr] in *.
  unfold wukong_ai_device_mode_switch.
  destruct (Z.leb_spec AI_DEVICE_MODE_MAX mode) as [|Hlt].
  { wp_step. apply HQ. right. split_and!; [done| |done]. unfold switchable.
    by destruct (Z.ltb_spec mode AI_DEVICE_MODE_MAX); [lia|]. }
  destruct (target_entry m mode Hsh) as (e & He & Hsw & Hreal); [lia|]. wp_step. apply wp_get_mgr. wp_step.
  fold (device_target m mode). apply (wp_pure _ e); [done|]. destruct (enabled e) eqn:Hee; cbn [negb].
  2: { wp_step. apply HQ. right. by split_and!. }
  destruct (sh_handle _ Hsh _ _ He Hee Hreal) as [h Hh].
  wp_step. apply deinit_dispatch_wp; [done|]. intros _ x1 d1 Hx1. wp_step. apply wp_get_mgr. wp_step.
  assert (Hdel : forall P : unit -> SYS -> Prop, (forall d2, P tt (mk_sys m t x1 d2)) ->
    wp (match __get_scode_by_mode (device_mode m) with
        | Some old_scode => on_dev (call (tuya_ai_agent_del_session old_scode)) | None => cret tt end) P (mk_sys m t x1 d1)).
  { intros P HP. destruct (__get_scode_by_mode _); [apply wp_on_dev; unfold call; wp_step; apply HP|wp_step; apply HP]. }
  apply Hdel. clear Hdel. intros d2. wp_step. apply wp_mod_mgr.
  set (m' := mk_mgr mode (chat_sub_mode m) (chat_subs m) (device_modes m) (Some (device_target m mode))).
  wp_step. apply wp_on_toy, device_set_wp; [lia|]. intros kv d3 _. cbn [fst snd].
  wp_step. apply (init_dispatch_wp m' _ _ _ (device_target m mode) e h); try done.
  intros _ x4 d4 Haw. wp_step. apply notify_wp; [done|by apply Hsh|]. intros d5 Hd5. wp_step.
  apply HQ. left. split_and!; [done|by rewrite Hsw| |done..].
  apply (switched_inv m' _ _ _ (device_target m mode) e h); try done.
  - apply shape_switch; [done|apply Hsh|lia].
  - by apply (resolve_target m mode e); [|lia|..].
  - by eapply only_awake_quietly.
Qed.

(** *** Cycling *)

(** The first enabled sub-mode from [sub] on, in cyclic order. *)
Fixpoint next_enabled m (count : nat) (sub : Z) : option Z :=
  match count with
  | O => None
  | S count => if sub_enabled m sub then Some sub else next_enabled m count ((sub + 1) mod AI_CHAT_SUB_MAX)
  end.

Lemma cycle_loop_wp count sub s (Q : OPERATE_RET -> SYS -> Prop) :
  mgr_inv s -> 0 <= sub < AI_CHAT_SUB_MAX ->
  (forall rt s', match next_enabled (s_mode_mgr s) count sub with
                 | Some next => rt = OPRT_OK /\ mgr_inv s' /\ sub_switched next s s'
                 | None => rt = OPRT_NOT_SUPPORTED /\ s' = s
                 end -> Q rt s') ->
  wp (cycle_loop count sub) Q s.
Proof.
  intros Hinv. revert sub. induction count as [|count IH]; intros sub Hs HQ; cbn [cycle_loop next_enabled] in *.
  { wp_step. by apply HQ. }
  destruct s as [m t x d]. pose proof Hinv as [Hsh _]. cbn [s_mode_mgr] in *.
  destruct (sub_entry m sub Hsh Hs) as (e & He & Hen). wp_step. apply wp_get_mgr. wp_step.
  apply (wp_pure _ e); [done|]. rewrite Hen in HQ. destruct (enabled e).
  - apply sub_switch_wp; [done|lia|]. intros rt s' [(-> & _ & Hi & Hsw)|(_ & Hno & _)]; [by apply HQ|].
    cbn [s_mode_mgr] in Hno. rewrite Hen in Hno. by destruct (Z.ltb_spec sub AI_CHAT_SUB_MAX); [|lia].
  - apply IH; [|exact HQ]. apply Z.mod_pos_bound. unfold AI_CHAT_SUB_MAX. lia.
Qed.

(** *** Every call *)

Inductive mgr_call :=
| MDispatch (op : AI_MODE_OP_E) (data : option AI_DATA) (len : Z)
| MDevice (mode : Z) | MSub (sub : Z) | MCycle.

Definition run_mgr (c : mgr_call) : C SYS OPERATE_RET :=
  match c with
  | MDispatch op data len => wukong_ai_mode_dispatch op data len
  | MDevice mode => wukong_ai_device_mode_switch mode
  | MSub sub => wukong_ai_chat_sub_mode_switch sub
  | MCycle => wukong_ai_chat_sub_mode_cycle
  end.

(** Operations are dispatched with payloads the active mode can take;
    (de)initialisation is left to the manager. *)
Definition mgr_call_ok (c : mgr_call) (s : SYS) : Prop :=
  match c with
  | MDispatch op data len =>
      op <> AI_MODE_OP_INIT /\ op <> AI_MODE_OP_DEINIT /\
      forall r e h, active (s_mode_mgr s) = Some r -> entry_at (s_mode_mgr s) r = Some e -> handle e = Some h ->
        ml_payload h op data = true
  | MDevice mode => 0 <= mode
  | MSub sub => 0 <= sub
  | MCycle => True
  end.

Definition mgr_call_spec (c : mgr_call) (s : SYS) (rt : OPERATE_RET) (s' : SYS) : Prop :=
  match c with
  | MDispatch _ _ _ => s_mode_mgr s' = s_mode_mgr s /\ sy_toy s' = sy_toy s
  | MDevice mode =>
      if switchable (s_mode_mgr s) mode then rt = OPRT_OK /\ device_switched mode s s' else rt <> OPRT_OK /\ s' = s
  | MSub sub =>
      if (sub <? AI_CHAT_SUB_MAX) && sub_enabled (s_mode_mgr s) sub then rt = OPRT_OK /\ sub_switched sub s s'
      else rt <> OPRT_OK /\ s' = s
  | MCycle =>
      match next_enabled (s_mode_mgr s) 4 ((chat_sub_mode (s_mode_mgr s) + 1) mod AI_CHAT_SUB_MAX) with
      | Some next => rt = OPRT_OK /\ sub_switched next s s'
      | None => rt = OPRT_NOT_SUPPORTED /\ s' = s
      end
  end.

(** The state after a dispatched operation: the manager and the stored modes
    are as before. *)
Definition dispatched m t (s' : SYS) : Prop := mgr_inv s' /\ s_mode_mgr s' = m /\ sy_toy s' = t.

Lemma dispatched_quietly m t x d d' : mgr_inv (mk_sys m t x d) -> quietly d d' -> dispatched m t (mk_sys m t x d').
Proof.
  intros [Hsh Ha] Hq. split; [|done]. split; [done|]. cbn in *. destruct (active m) as [r|]; [|done].
  destruct Ha as (Hr & e & h & He & Hh & Haw). split; [done|]. exists e, h. split_and!; [done..|].
  by eapply only_awake_quietly.
Qed.

Lemma active_run_wp m t x d r e h op f data len : mgr_inv (mk_sys m t x d) ->
  active m = Some r -> entry_at m r = Some e -> handle e = Some h -> callback_for (callbacks h) op = Some f ->
  op <> AI_MODE_OP_INIT -> op <> AI_MODE_OP_DEINIT -> ml_payload h op data = true ->
  wp (on_modes (f data len)) (fun _ s' => dispatched m t s' /\ exists x' d', s' = mk_sys m t x' d') (mk_sys m t x d).
Proof.
  intros [Hsh Ha] Hact He Hh Hf Hi Hd Hp. cbn in Ha. rewrite Hact in Ha.
  destruct Ha as (Hr & e' & h' & He' & Hh' & Haw & Hsl).
  replace e' with e in * by congruence. replace h' with h in * by congruence. apply wp_on_modes.
  eapply wp_mono; [by apply (ml_run h op f data len x d)|]. intros rt [x' d'] [Haw' Ho]. split; [|by eexists _, _].
  split; [|done]. eapply switched_inv; try done. split; [done|]. intros h'' Hne. by apply Ho, Hsl.
Qed.

Lemma default_audio_wp m t x d data len : mgr_inv (mk_sys m t x d) ->
  wp (__default_audio_input data len) (fun _ s' => dispatched m t s') (mk_sys m t x d).
Proof.
  intros Hinv. unfold __default_audio_input. wp_step. apply wp_on_dev.
  unfold wukong_ai_agent_is_ready, ask, wp at 1. destruct (dv_ready d (dv_asked d)); cbn [negb].
  - wp_step. apply wp_on_dev. unfold call. wp_step. wp_step. eapply dispatched_quietly; [done|].
    eapply (quietly_call (tuya_ai_audio_input data len)); [|cbn; reflexivity]; done.
  - wp_step. eapply dispatched_quietly; [done|]. by exists [].
Qed.

Lemma mgr_dispatch_wp s op data len : mgr_inv s -> mgr_call_ok (MDispatch op data len) s ->
  wp (wukong_ai_mode_dispatch op data len) (fun _ s' => dispatched (s_mode_mgr s) (sy_toy s) s') s.
Proof.
  intros Hinv (Hi & Hd & Hp). destruct s as [m t x d]. cbn [s_mode_mgr sy_toy] in *.
  assert (Hnone : dispatched m t (mk_sys m t x d)) by (eapply dispatched_quietly; [done|apply quietly_refl]).
  pose proof (proj2 Hinv) as Ha. cbn in Ha. unfold wukong_ai_mode_dispatch, __mode_dispatch.
  destruct op; try done; (wp_step; apply wp_get_mgr; wp_step);
    (destruct (active m) as [r|] eqn:Hact; [|wp_step; first [exact Hnone|by apply default_audio_wp]]);
    destruct Ha as (Hres & e & h & He & Hh & Haw); wp_step; (apply (wp_pure _ e); [done|]); wp_step; rewrite Hh;
    specialize (Hp r e h eq_refl He Hh).
  all: lazymatch goal with
       | |- context [on_event _] => idtac
       | |- context [dispatch_call (?field (callbacks ?g))] =>
           destruct (field (callbacks g)) as [f|] eqn:Hf; [|exact Hnone]; cbn [dispatch_call];
           eapply wp_mono; [eapply active_run_wp; [exact Hinv|exact Hact|exact He|exact Hh| | | |exact Hp]; [exact Hf|done..]|];
           by intros ?? [? _]
       | |- _ => idtac
       end.
  - destruct (on_event (callbacks h)) as [f|] eqn:Hf; [|exact Hnone].
    assert (Hrun : forall d1, quietly d d1 -> wp (on_modes (f data len))
      (fun _ s' => dispatched m t s' /\ exists x' d', s' = mk_sys m t x' d') (mk_sys m t x d1)).
    { intros d1 Hq. destruct (dispatched_quietly m t x d d1 Hinv Hq) as (Hinv1 & _).
      eapply active_run_wp; [exact Hinv1|exact Hact|exact He|exact Hh| | | |exact Hp]; [exact Hf|done..]. }
    destruct (mutex e).
    + wp_step. apply wp_on_dev. unfold call. wp_step. wp_step. eapply wp_mono.
      { apply Hrun. eapply (quietly_call tal_mutex_lock); [|cbn; reflexivity]; done. }
      intros _ s' [[Hinv' _] (x' & d' & ->)]. wp_step. apply wp_on_dev. unfold call. wp_step. wp_step.
      eapply dispatched_quietly; [exact Hinv'|].
      eapply (quietly_call tal_mutex_unlock); [|cbn; reflexivity]; done.
    + wp_step. eapply wp_mono; [apply Hrun, quietly_refl|]. intros _ s' [Hs' _]. by wp_step.
  - destruct (on_audio_input (callbacks h)) as [f|] eqn:Hf; [|by apply default_audio_wp].
    eapply wp_mono; [eapply active_run_wp; [exact Hinv|exact Hact|exact He|exact Hh| | | |exact Hp]; [exact Hf|done..]|].
    by intros ?? [? _].
Qed.

(** C5. The mode manager: in every call exactly the mode that the two-level
    mode state names is awake and the others are asleep; dispatching leaves the
    mode state alone, switching and cycling go to the mode asked for, or to the
    next one built in, and store it, or are refused and change nothing. Except
    that switching the chat sub-mode stores only the sub-mode: coming from
    another device mode, that one stays stored. A successful cycle returns
    OPRT_OK, not the new sub-mode as its declaration says. *)
Theorem mode_mgr_correct c s : mgr_inv s -> mgr_call_ok c s ->
  exists rt s', run_mgr c s = Some (rt, s') /\ mgr_inv s' /\ mgr_call_spec c s rt s'.
Proof.
  intros Hinv Hok. apply (wp_elim (run_mgr c) (fun rt s' => mgr_inv s' /\ mgr_call_spec c s rt s')).
  destruct c as [op data len|mode|sub|]; cbn [run_mgr mgr_call_spec mgr_call_ok] in *.
  - eapply wp_mono; [by apply mgr_dispatch_wp|]. by intros rt s' (Hi & Hm & Ht).
  - apply device_switch_wp; [done..|]. intros rt s' [(-> & Hsw & Hi & Hd)|(Hne & Hsw & ->)]; by rewrite Hsw.
  - apply sub_switch_wp; [done..|]. intros rt s' [(-> & Hsw & Hi & Hd)|(Hne & Hsw & ->)]; by rewrite Hsw.
  - unfold wukong_ai_chat_sub_mode_cycle. destruct s as [m t x d]. wp_step. apply wp_get_mgr.
    change (Z.to_nat AI_CHAT_SUB_MAX) with 4%nat. apply cycle_loop_wp; [done| |].
    + apply Z.mod_pos_bound. unfold AI_CHAT_SUB_MAX. lia.
    + intros rt s'. cbn [s_mode_mgr]. destruct (next_enabled _ _ _); [by intros (-> & Hi & Hs)|by intros (-> & ->)].
Qed.

(** *** Booting *)

Definition chat_entry (mutex_ok : bool) (i : Z) : AI_MODE_ENTRY_T H :=
  if chat_sub_built i then mk_entry true mutex_ok (Some (chat_register i)) else entry_zero.
Definition device_entry (mutex_ok : bool) (i : Z) : AI_MODE_ENTRY_T H :=
  if device_mode_built i then mk_entry true mutex_ok (Some (device_register i)) else entry_zero.

(** The manager once every mode that is built in has registered. *)
Definition registered (mutex_ok : bool) (mode sub : Z) (a : option ENTRY_REF) : AI_MODE_MGR_T H :=
  mk_mgr mode sub (map (chat_entry mutex_ok) [0; 1; 2; 3])
    (mk_entry true false None :: map (device_entry mutex_ok) [1; 2; 3; 4; 5]) a.

Definition sub_built (sub : Z) : bool := (sub <? AI_CHAT_SUB_MAX) && chat_sub_built sub.

Lemma registered_shape mutex_ok mode sub a : 0 <= mode < AI_DEVICE_MODE_MAX -> 0 <= sub < AI_CHAT_SUB_MAX ->
  mgr_shape (registered mutex_ok mode sub a).
Proof.
  intros Hm Hs. split; [done..|]. intros [i|i] e He Hen Hr; cbn [entry_at registered chat_subs device_modes] in He.
  - destruct (Z.to_nat i) as [|[|[|[|n]]]]; cbn in He; [..|by destruct n];
      injection He as <-; unfold chat_entry in *; destruct (chat_sub_built _); done.
  - cbn in Hr. destruct (Z.to_nat i) as [|[|[|[|[|[|n]]]]]] eqn:Hi; cbn in He; [lia|..|by destruct n];
      injection He as <-; unfold device_entry in *; destruct (device_mode_built _); done.
Qed.

Lemma registered_sub mutex_ok mode sub a i : 0 <= i < AI_CHAT_SUB_MAX ->
  entry_at (registered mutex_ok mode sub a) (ChatSub i) = Some (chat_entry mutex_ok i).
Proof.
  unfold AI_CHAT_SUB_MAX. intros Hi. assert (i = 0 \/ i = 1 \/ i = 2 \/ i = 3) as Hc by lia. by destruct_or! Hc; subst i.
Qed.

Lemma registered_mode mutex_ok mode sub a i : 0 < i < AI_DEVICE_MODE_MAX ->
  entry_at (registered mutex_ok mode sub a) (DeviceMode i) = Some (device_entry mutex_ok i).
Proof.
  unfold AI_DEVICE_MODE_MAX. intros Hi.
  assert (i = 1 \/ i = 2 \/ i = 3 \/ i = 4 \/ i = 5) as Hc by lia. by destruct_or! Hc; subst i.
Qed.

Lemma enabled_chat_entry mutex_ok i : enabled (chat_entry mutex_ok i) = chat_sub_built i.
Proof. unfold chat_entry. by destruct (chat_sub_built i). Qed.
Lemma enabled_device_entry mutex_ok i : enabled (device_entry mutex_ok i) = device_mode_built i.
Proof. unfold device_entry. by destruct (device_mode_built i). Qed.

Lemma register_chat mutex_ok t x d m : m = mgr_zero ->
  register_all (__register_chat_sub mutex_ok) chat_sub_built
    [AI_CHAT_SUB_HOLD; AI_CHAT_SUB_ONESHOT; AI_CHAT_SUB_WAKEUP; AI_CHAT_SUB_FREE] (mk_sys m t x d) =
  Some (tt, mk_sys (mk_mgr 0 0 (map (chat_entry mutex_ok) [0; 1; 2; 3]) (replicate 6 entry_zero) None) t x d).
Proof.
  intros ->. cbn [register_all map]. unfold chat_entry, AI_CHAT_SUB_HOLD, AI_CHAT_SUB_ONESHOT, AI_CHAT_SUB_WAKEUP, AI_CHAT_SUB_FREE.
  destruct (chat_sub_built 0), (chat_sub_built 1), (chat_sub_built 2), (chat_sub_built 3); reflexivity.
Qed.

Lemma register_device mutex_ok t x d subs :
  register_all (__register_device_mode mutex_ok) device_mode_built
    [AI_DEVICE_MODE_TRANSLATE; AI_DEVICE_MODE_P2P; AI_DEVICE_MODE_RECORD; AI_DEVICE_MODE_PICTURE; AI_DEVICE_MODE_DETECTION]
    (mk_sys (mk_mgr 0 0 subs (replicate 6 entry_zero) None) t x d) =
  Some (tt, mk_sys (mk_mgr 0 0 subs (entry_zero :: map (device_entry mutex_ok) [1; 2; 3; 4; 5]) None) t x d).
Proof.
  cbn [register_all map]. unfold device_entry, AI_DEVICE_MODE_TRANSLATE, AI_DEVICE_MODE_P2P, AI_DEVICE_MODE_RECORD,
    AI_DEVICE_MODE_PICTURE, AI_DEVICE_MODE_DETECTION.
  destruct (device_mode_built 1), (device_mode_built 2), (device_mode_built 3), (device_mode_built 4),
    (device_mode_built 5); reflexivity.
Qed.

(** The first sub-mode built in, from [sub] on, in cyclic order. *)
Fixpoint next_built (count : nat) (sub : Z) : option Z :=
  match count with
  | O => None
  | S count => if chat_sub_built sub then Some sub else next_built count ((sub + 1) mod AI_CHAT_SUB_MAX)
  end.

(** Where the search starts: the stored sub-mode, the default, or hold. *)
Definition boot_from (stored : Z) : Z :=
  if sub_built stored then stored
  else if sub_built TUYA_AI_CHAT_DEFAULT_MODE then TUYA_AI_CHAT_DEFAULT_MODE else AI_CHAT_SUB_HOLD.

Definition booted mutex_ok (mode sub : Z) (r : ENTRY_REF) (rt : OPERATE_RET) (s' : SYS) : Prop :=
  rt = OPRT_OK /\ s_mode_mgr s' = registered mutex_ok mode sub (Some r).
Definition not_booted mutex_ok (rt : OPERATE_RET) (s' : SYS) : Prop :=
  rt = OPRT_NOT_SUPPORTED /\ s_mode_mgr s' = registered mutex_ok 0 0 None.

Lemma init_loop_wp mutex_ok count sub t x d : 0 <= sub < AI_CHAT_SUB_MAX -> all_asleep x ->
  wp (init_loop count sub)
     (fun rt s' => mgr_inv s' /\
        match next_built count sub with
        | Some sub' => booted mutex_ok AI_DEVICE_MODE_CHAT sub' (ChatSub sub') rt s' /\ cfg_trigger_mode (sy_toy s') = sub'
        | None => not_booted mutex_ok rt s'
        end) (mk_sys (registered mutex_ok 0 0 None) t x d).
Proof.
  intros Hs Hx. revert sub Hs. induction count as [|count IH]; intros sub Hs; cbn [init_loop next_built].
  { wp_step. split; [|done]. split; [|done]. by apply registered_shape. }
  wp_step. apply wp_get_mgr. wp_step. apply (wp_pure _ (chat_entry mutex_ok sub)); [by apply registered_sub|].
  rewrite enabled_chat_entry. destruct (chat_sub_built sub) eqn:Hb.
  2: { apply IH. apply Z.mod_pos_bound. unfold AI_CHAT_SUB_MAX. lia. }
  wp_step. apply wp_mod_mgr. set (m' := registered mutex_ok AI_DEVICE_MODE_CHAT sub (Some (ChatSub sub))).
  change (mk_mgr AI_DEVICE_MODE_CHAT sub _ _ _) with m'. wp_step. apply wp_on_toy, trigger_set_wp; [done|].
  intros kv d1 _. cbn [fst snd]. wp_step.
  assert (He : entry_at m' (ChatSub sub) = Some (chat_entry mutex_ok sub)) by by apply registered_sub.
  assert (Hh : handle (chat_entry mutex_ok sub) = Some (chat_register sub)) by (unfold chat_entry; by rewrite Hb).
  apply (init_dispatch_wp m' _ _ _ (ChatSub sub) _ _ _ eq_refl He Hh Hx). intros _ x2 d2 Haw. wp_step.
  split; [|done]. eapply (switched_inv m' _ _ _ (ChatSub sub)); try done; [by apply registered_shape|].
  unfold __resolve_active. change (chat_sub_mode m') with sub. change (device_mode m') with AI_DEVICE_MODE_CHAT.
  assert (Hl : (sub <? AI_CHAT_SUB_MAX) = true) by lia. cbv zeta. rewrite He, Hl. cbn. by rewrite enabled_chat_entry, Hb.
Qed.

Lemma sub_usable_wp mutex_ok sub s (Q : bool -> SYS -> Prop) : 0 <= sub ->
  Q (sub_built sub) s -> wp (sub_usable (registered mutex_ok 0 0 None) sub) Q s.
Proof.
  intros Hs HQ. unfold sub_usable, sub_built in *.
  destruct (Z.leb_spec AI_CHAT_SUB_MAX sub), (Z.ltb_spec sub AI_CHAT_SUB_MAX); try lia; [by wp_step|].
  wp_step. apply (wp_pure _ (chat_entry mutex_ok sub)); [by apply registered_sub|]. wp_step.
  by rewrite enabled_chat_entry.
Qed.

(** Booting: with every mode asleep, the manager ends with the stored mode
    active and alone awake if it is built in. In chat mode it falls back to the
    default sub-mode, to hold and then to the next one built in, and fails only
    when none is; but a stored device mode that is not built in leaves the
    device without any mode, even when chat sub-modes are built in. *)
Theorem mode_boot mutex_ok s :
  all_asleep (sy_modes s) -> 0 <= cfg_device_mode (sy_toy s) -> 0 <= cfg_trigger_mode (sy_toy s) ->
  0 <= TUYA_AI_CHAT_DEFAULT_MODE ->
  exists rt s', wukong_ai_mode_init mutex_ok s = Some (rt, s') /\ mgr_inv s' /\
    let dev := cfg_device_mode (sy_toy s) in
    if dev =? AI_DEVICE_MODE_CHAT then
      match next_built 5 (boot_from (cfg_trigger_mode (sy_toy s))) with
      | Some sub => booted mutex_ok AI_DEVICE_MODE_CHAT sub (ChatSub sub) rt s' /\ cfg_trigger_mode (sy_toy s') = sub
      | None => not_booted mutex_ok rt s'
      end
    else if (dev <? AI_DEVICE_MODE_MAX) && device_mode_built dev then booted mutex_ok dev 0 (DeviceMode dev) rt s'
    else not_booted mutex_ok rt s'.
Proof.
  intros Hx Hdev Hsub Hdef. destruct s as [m t x d]. cbn [sy_modes sy_toy] in *.
  apply (wp_elim (wukong_ai_mode_init mutex_ok) (fun rt s' => mgr_inv s' /\ _)).
  unfold wukong_ai_mode_init. wp_step. apply wp_mod_mgr. wp_step.
  eapply wp_intro; [by apply register_chat|]. wp_step. eapply wp_intro; [apply register_device|].
  wp_step. apply wp_mod_mgr. match goal with |- wp _ _ (mk_sys ?mm _ _ _) => change mm with (registered mutex_ok 0 0 None) end.
  wp_step. apply wp_on_toy. unfold tuya_ai_toy_trigger_mode_get. do 3 tm_step.
  wp_step. apply wp_on_toy. unfold tuya_ai_toy_device_mode_get. do 3 tm_step.
  wp_step. apply wp_get_mgr. destruct (Z.eqb_spec (cfg_device_mode t) AI_DEVICE_MODE_CHAT) as [Hc|Hc].
  - wp_step. apply sub_usable_wp; [done|]. wp_step.
    assert (Hmid : 0 <= (if sub_built (cfg_trigger_mode t) then cfg_trigger_mode t else TUYA_AI_CHAT_DEFAULT_MODE))
      by (by destruct (sub_built _)).
    apply sub_usable_wp; [done|].
    replace (if sub_built (if sub_built _ then _ else _) then _ else _) with (boot_from (cfg_trigger_mode t)).
    2: { unfold boot_from. destruct (sub_built (cfg_trigger_mode t)) eqn:Hb; [by rewrite Hb|done]. }
    apply init_loop_wp; [|done]. unfold boot_from.
    assert (Hr : forall i, 0 <= i -> sub_built i = true -> 0 <= i < AI_CHAT_SUB_MAX).
    { intros i Hi. unfold sub_built. rewrite andb_true_iff. lia. }
    destruct (sub_built (cfg_trigger_mode t)) eqn:H1; [by apply Hr|].
    destruct (sub_built TUYA_AI_CHAT_DEFAULT_MODE) eqn:H2; [by apply Hr|done].
  - assert (Hfail : mgr_inv (mk_sys (registered mutex_ok 0 0 None) t x d)) by (split; [by apply registered_shape|done]).
    destruct (Z.ltb_spec (cfg_device_mode t) AI_DEVICE_MODE_MAX) as [Hlt|]; cbn [andb]; [|by wp_step].
    set (dev := cfg_device_mode t) in *. wp_step.
    assert (Hd : 0 < dev < AI_DEVICE_MODE_MAX) by (unfold AI_DEVICE_MODE_CHAT in Hc; lia).
    apply (wp_pure _ (device_entry mutex_ok dev)); [by apply registered_mode|]. rewrite enabled_device_entry.
    destruct (device_mode_built dev) eqn:Hb; [|by wp_step]. wp_step. apply wp_mod_mgr.
    set (m' := registered mutex_ok dev 0 (Some (DeviceMode dev))). change (mk_mgr dev _ _ _ _) with m'.
    assert (He : entry_at m' (DeviceMode dev) = Some (device_entry mutex_ok dev)) by by apply registered_mode.
    assert (Hh : handle (device_entry mutex_ok dev) = Some (device_register dev)) by (unfold device_entry; by rewrite Hb).
    wp_step. apply (init_dispatch_wp m' _ _ _ (DeviceMode dev) _ _ _ eq_refl He Hh Hx). intros _ x2 d2 Haw. wp_step.
    split; [|done]. eapply (switched_inv m' _ _ _ (DeviceMode dev)); try done; [apply registered_shape; [lia|done]|].
    unfold __resolve_active. change (device_mode m') with dev. cbv zeta. rewrite He.
    destruct (Z.eqb_spec dev AI_DEVICE_MODE_CHAT); [done|].
    assert (Hl : (dev <? AI_DEVICE_MODE_MAX) = true) by lia. rewrite Hl. cbn. by rewrite enabled_device_entry, Hb.
Qed.

End Correct.
