(* ===== verification/ModeDevices.v ===== *)
(** The translate, P2P and record modes (src/mode/wukong_ai_mode_translate.c,
    wukong_ai_mode_p2p.c, wukong_ai_mode_record.c). *)
From S2P Require Import Prelude.
From S2P Require Import CStr.
From S2P Require Import World.
From S2P Require Import Json.
From S2P Require Import TmHost.
From S2P Require Import ModeHost.
From S2P Require Import ModeMgr.
From S2P Require Import ModeChat.

#[local] Open Scope string_scope.
#[local] Open Scope Z_scope.

(** ** Translate mode *)

Section Translate.
Context `{CFG : ModeConfig}.
Abbreviation M := (C (MODE_STATICS * Device)).

Definition __ai_translate_asr_result (type : WUKONG_AI_EVENT_TYPE_E) (data : option EVENT_DATA) : M unit :=
  asr_result type data.
Definition __ai_translate_text_stream (type : WUKONG_AI_EVENT_TYPE_E) (data : option EVENT_DATA) : M unit :=
  text_stream type data.
Definition __ai_translate_emition (type : WUKONG_AI_EVENT_TYPE_E) (data : option EVENT_DATA) : M unit :=
  emition type data.

Definition __ai_translate_idle_cb : M unit :=
  let* _ := dev tuya_ai_toy_led_off in
  let* _ := dev (tuya_ai_toy_idle_timer_ctrl false) in
  let* _ := dev (tuya_ai_toy_lowpower_timer_ctrl true) in
  let* _ := dev (wukong_audio_input_wakeup_set false) in
  let* _ := set_wakeup_stat false in
  if USING_BOARD_AUDIO_INPUT then dev (wukong_vad_set_threshold WUKONG_AUDIO_VAD_LOW) else cret tt.

Definition __ai_translate_listen_cb : M unit :=
  let* _ := dev (tuya_ai_toy_led_flash 500) in
  let* _ := dev (tuya_ai_toy_idle_timer_ctrl true) in
  let* _ := dev (tuya_ai_toy_lowpower_timer_ctrl false) in
  let* _ := set_wakeup_stat true in
  dev (wukong_audio_input_wakeup_set true).

Definition __ai_translate_upload_cb : M unit := cret tt.

Definition __ai_translate_think_cb : M unit :=
  let* _ := dev (tuya_ai_toy_led_flash 2000) in
  let* _ := dev (tuya_ai_toy_idle_timer_ctrl true) in
  let* _ := dev (wukong_audio_input_wakeup_set true) in
  let* _ := set_wakeup_stat true in
  if USING_BOARD_AUDIO_INPUT then dev (wukong_vad_set_threshold WUKONG_AUDIO_VAD_MID) else cret tt.

Definition __ai_translate_speak_cb : M unit :=
  let* _ := dev tuya_ai_toy_led_on in
  dev (tuya_ai_toy_idle_timer_ctrl false).

Definition wukong_ai_translate_int_cb : HANDLER := fun _ _ =>
  let* _ := dev tuya_ai_toy_led_on in
  let* _ := dev (wukong_audio_input_wakeup_mode_set WUKONG_AUDIO_VAD_AUTO) in
  let* _ := dev wukong_kws_enable in
  let* _ := CHAT_SUB_STATE_CHANGE AI_CHAT_IDLE in
  let* _ := set_wakeup_stat false in
  cret OPRT_OK.

Definition wukong_ai_translate_deint_cb : HANDLER := fun _ _ =>
  let* _ := set_cur_state AI_CHAT_INVALID in
  let* _ := dev wukong_ai_agent_input_stop in
  let* _ := set_cur_state AI_CHAT_INVALID in
  cret OPRT_OK.

Definition wukong_ai_translate_task_cb : HANDLER := fun _ _ =>
  let* s := get_ctx in
  if bool_decide (s_ai_cur_state s = state (s_ai s)) then cret OPRT_OK
  else
    let* _ :=
      match state (s_ai s) with
      | AI_CHAT_INIT => cret tt
      | AI_CHAT_IDLE => __ai_translate_idle_cb
      | AI_CHAT_LISTEN => __ai_translate_listen_cb
      | AI_CHAT_UPLOAD => __ai_translate_upload_cb
      | AI_CHAT_THINK => __ai_translate_think_cb
      | AI_CHAT_SPEAK => __ai_translate_speak_cb
      | AI_CHAT_INVALID => cret tt
      end in
    let* s := get_ctx in
    let* _ := set_cur_state (state (s_ai s)) in
    let* _ := display (TY_DISPLAY_TP_CHAT_STAT (chat_state_code (state (s_ai s)))) in
    cret OPRT_OK.

Definition wukong_ai_translate_event_cb : HANDLER := fun data _ =>
  match data with
  | None => cret OPRT_INVALID_PARM
  | Some (DataEvent event) =>
      let* _ :=
        match ev_type event with
        | WUKONG_AI_EVENT_ASR_EMPTY | WUKONG_AI_EVENT_ASR_ERROR => CHAT_SUB_STATE_CHANGE AI_CHAT_LISTEN
        | WUKONG_AI_EVENT_ASR_OK =>
            let* _ := CHAT_SUB_STATE_CHANGE AI_CHAT_THINK in
            __ai_translate_asr_result (ev_type event) (ev_data event)
        | WUKONG_AI_EVENT_TTS_PRE => CHAT_SUB_STATE_CHANGE AI_CHAT_SPEAK
        | WUKONG_AI_EVENT_TEXT_STREAM_START | WUKONG_AI_EVENT_TEXT_STREAM_DATA
        | WUKONG_AI_EVENT_TEXT_STREAM_STOP | WUKONG_AI_EVENT_TEXT_STREAM_ABORT =>
            __ai_translate_text_stream (ev_type event) (ev_data event)
        | WUKONG_AI_EVENT_EMOTION | WUKONG_AI_EVENT_LLM_EMOTION =>
            __ai_translate_emition (ev_type event) (ev_data event)
        | WUKONG_AI_EVENT_EXIT => CHAT_SUB_STATE_CHANGE AI_CHAT_IDLE
        | WUKONG_AI_EVENT_PLAY_CTL_RESUME => dev wukong_audio_player_resume
        | WUKONG_AI_EVENT_PLAY_CTL_PAUSE => dev wukong_audio_player_pause
        | WUKONG_AI_EVENT_PLAY_CTL_REPLAY => dev wukong_audio_player_replay
        | WUKONG_AI_EVENT_PLAY_CTL_END | WUKONG_AI_EVENT_PLAY_END =>
            let* awake := get_wakeup_stat in
            if awake : bool then CHAT_SUB_STATE_CHANGE AI_CHAT_LISTEN else CHAT_SUB_STATE_CHANGE AI_CHAT_IDLE
        | WUKONG_AI_EVENT_PLAY_ALERT => play_alert (ev_data event)
        | WUKONG_AI_EVENT_CLOCK_MCP_COUNTDOWN_TIMER => tm_alert WUKONG_TM_TIMER_OPR_FINISH (ev_data event)
        | WUKONG_AI_EVENT_CLOCK_MCP_ALARM => tm_alert WUKONG_TM_TIMER_OPR_START (ev_data event)
        | _ => cret tt
        end in
      cret OPRT_OK
  | Some _ => wrong_payload
  end.

Definition wukong_ai_translate_wakeup : HANDLER := fun _ _ =>
  let* _ := dev wukong_audio_player_stop_all in
  let* _ := dev wukong_audio_input_reset in
  let* _ := dev wukong_ai_agent_chat_break in
  let* _ := dev (wukong_audio_player_alert AI_TOY_ALERT_TYPE_WAKEUP false) in
  let* _ := CHAT_SUB_STATE_CHANGE AI_CHAT_LISTEN in
  let* _ := set_wakeup_stat true in
  cret OPRT_OK.

(** [len] below sizeof(WUKONG_AUDIO_VAD_FLAG_E) = 4: the flag reads as neither
    start nor stop. *)
Definition wukong_ai_translate_vad : HANDLER := fun data len =>
  let* awake := get_wakeup_stat in
  if negb awake then cret OPRT_OK
  else
    match data with
    | None => cret OPRT_INVALID_PARM
    | Some (DataVad flag) =>
        if (4 <=? len) && bool_decide (flag = WUKONG_AUDIO_VAD_START) then
          let* ready := on_host wukong_ai_agent_is_ready in
          if negb ready then cret OPRT_RESOURCE_NOT_READY
          else
            let* _ := dev (wukong_ai_agent_set_scene AI_AGENT_SCODE_TRANSLATE) in
            let* _ := dev (wukong_ai_agent_input_start false) in
            let* _ := dev (tuya_ai_toy_idle_timer_ctrl false) in
            cret OPRT_OK
        else
          let* _ := dev wukong_ai_agent_input_stop in
          let* _ := dev (tuya_ai_toy_idle_timer_ctrl true) in
          cret OPRT_OK
    | Some _ => wrong_payload
    end.

Definition wukong_ai_translate_client_run : HANDLER := fun _ _ =>
  let* _ := CHAT_SUB_STATE_CHANGE AI_CHAT_IDLE in cret OPRT_OK.

(** [data] must point to a key: it is not checked against NULL. *)
Definition wukong_ai_translate_key_cb : HANDLER := fun data _ =>
  match data with
  | Some (DataKey event) =>
      let* _ :=
        match event with
        | NORMAL_KEY =>
            let* _ := dev wukong_audio_player_stop_all in
            let* _ := dev wukong_audio_input_reset in
            let* _ := dev wukong_ai_agent_chat_break in
            let* _ := dev (wukong_audio_player_alert AI_TOY_ALERT_TYPE_WAKEUP false) in
            let* _ := CHAT_SUB_STATE_CHANGE AI_CHAT_LISTEN in
            set_wakeup_stat true
        | SEQ_KEY | LONG_KEY | RELEASE_KEY => cret tt
        end in
      cret OPRT_OK
  | _ => wrong_payload
  end.

Definition wukong_ai_translate_notify_idle_cb : HANDLER := fun _ _ =>
  let* _ := CHAT_SUB_STATE_CHANGE AI_CHAT_IDLE in cret OPRT_OK.

(** The callbacks that registering the mode installs. *)
Definition ai_translate_register : AI_CHAT_MODE_HANDLE_T (MODE_STATICS * Device) := {|
  on_init := Some wukong_ai_translate_int_cb;
  on_deinit := Some wukong_ai_translate_deint_cb;
  on_key := Some wukong_ai_translate_key_cb;
  on_task := Some wukong_ai_translate_task_cb;
  on_event := Some wukong_ai_translate_event_cb;
  on_wakeup := Some wukong_ai_translate_wakeup;
  on_vad := Some wukong_ai_translate_vad;
  on_client := Some wukong_ai_translate_client_run;
  on_notify_idle := Some wukong_ai_translate_notify_idle_cb;
  on_audio_input := None |}.

End Translate.

(** *** The languages, over the cloud's HTTP interface *)

Section Languages.
(** iot_httpc_common_post_simple: interface, version and body to a result and
    the document in the answer; tuya_ai_agent_get_session: the session's token. *)
Context `{CFG : ModeConfig} (iot_httpc_common_post_simple : string -> string -> string -> OPERATE_RET * option cJSON)
  (tuya_ai_agent_get_session : string -> option string).

Definition OPRT_MID_HTTP_GET_RESP_ERROR : OPERATE_RET := -2055.

(** A double quote, alone and behind a backslash. *)
Definition dq : string := String (Ascii.ascii_of_nat 34) "".
Definition bq : string := String (Ascii.ascii_of_nat 92) dq.

(** A string member of the inner document. *)
Definition inner_member (key value : string) : string := bq ++ key ++ bq ++ ":" ++ bq ++ value ++ bq.
Definition json_params (members : string) : string :=
  "{" ++ dq ++ "jsonParams" ++ dq ++ ": " ++ dq ++ "{" ++ members ++ "}" ++ dq ++ "}".

(** [result] is not NULL. *)
Definition wukong_ai_agent_translate_list_language : OPERATE_RET * option cJSON :=
  let post_content := json_params (inner_member "source" AI_AGENT_SCODE_TRANSLATE) in
  if 256 <=? Z.of_nat (String.length post_content) then (OPRT_COM_ERROR, None)
  else
    let '(rt, result) := iot_httpc_common_post_simple "thing.bard.ai.voice.asr.lang.list" "1.0" post_content in
    if negb (rt =? OPRT_OK) then (rt, result)
    else match result with None => (OPRT_MID_HTTP_GET_RESP_ERROR, None) | Some _ => (OPRT_OK, result) end.

Definition wukong_ai_agent_translate_update_language (lang tts_lang : option string) : OPERATE_RET :=
  match tuya_ai_agent_get_session AI_AGENT_SCODE_TRANSLATE with
  | None => OPRT_RESOURCE_NOT_READY
  | Some agent_token =>
      match lang, tts_lang with
      | Some lang, Some tts_lang =>
          let post_content := json_params (inner_member "agentToken" agent_token ++ "," ++
            inner_member "workflow" AI_AGENT_SCODE_TRANSLATE ++ "," ++ inner_member "lang" lang ++ "," ++
            inner_member "ttsLang" tts_lang) in
          if 512 <=? Z.of_nat (String.length post_content) then OPRT_COM_ERROR
          else
            let '(rt, result) := iot_httpc_common_post_simple "thing.bard.ai.voice.endpoint.update" "1.0" post_content in
            if negb (rt =? OPRT_OK) then rt
            else match result with None => OPRT_MID_HTTP_GET_RESP_ERROR | Some _ => OPRT_OK end
      | _, _ => OPRT_INVALID_PARM
      end
  end.

End Languages.

(** ** P2P mode *)

Section P2p.
Context `{CFG : ModeConfig}.
Abbreviation M := (C (AI_CHAT_MODE_PARAM_T * Device)).
Definition P2P_HANDLER : Type := CALLBACK (AI_CHAT_MODE_PARAM_T * Device).

(** DEVICE_MODE_STATE_CHANGE and wakeup_stat of s_ai_p2p. *)
Definition DEVICE_MODE_STATE_CHANGE (new : AI_CHAT_STATE_E) : M unit := mod_ctx (fun s => mk_param (wakeup_stat s) new).
Definition p2p_wakeup_stat (b : bool) : M unit := mod_ctx (fun s => mk_param b (state s)).

Definition wukong_ai_p2p_int_cb : P2P_HANDLER := fun _ _ =>
  let* _ := dev tuya_ai_toy_led_on in
  let* _ := dev (wukong_audio_input_wakeup_mode_set WUKONG_AUDIO_VAD_MANUAL) in
  let* _ := dev wukong_kws_disable in
  let* _ := DEVICE_MODE_STATE_CHANGE AI_CHAT_IDLE in
  let* _ := p2p_wakeup_stat true in
  let* _ := dev (wukong_audio_input_wakeup_set true) in
  cret OPRT_OK.

(** The result is that of wukong_audio_input_reset. *)
Definition wukong_ai_p2p_deint_cb : P2P_HANDLER := fun _ _ =>
  let* _ := p2p_wakeup_stat false in
  let* _ := dev_rt (wukong_audio_input_wakeup_set false) in
  let* rt := dev_rt wukong_audio_input_reset in
  let* _ := dev wukong_ai_agent_input_stop in
  cret rt.

Definition wukong_ai_p2p_task_cb : P2P_HANDLER := fun _ _ => cret OPRT_OK.

(** The two events that a mode without conversation acts on. *)
Definition clock_events {X} (event : WUKONG_AI_EVENT_T) : C (X * Device) unit :=
  match ev_type event with
  | WUKONG_AI_EVENT_CLOCK_MCP_COUNTDOWN_TIMER => tm_alert WUKONG_TM_TIMER_OPR_FINISH (ev_data event)
  | WUKONG_AI_EVENT_CLOCK_MCP_ALARM => tm_alert WUKONG_TM_TIMER_OPR_START (ev_data event)
  | _ => cret tt
  end.

Definition wukong_ai_p2p_event_cb : P2P_HANDLER := fun data _ =>
  match data with
  | None => cret OPRT_OK
  | Some (DataEvent event) => let* _ := clock_events event in cret OPRT_OK
  | Some _ => wrong_payload
  end.

Definition wukong_ai_p2p_wakeup : P2P_HANDLER := fun _ _ => cret OPRT_OK.
Definition wukong_ai_p2p_vad : P2P_HANDLER := fun _ _ => cret OPRT_OK.
Definition wukong_ai_p2p_client_run : P2P_HANDLER := fun _ _ => cret OPRT_OK.

(** [data] must point to a key: it is not checked against NULL. *)
Definition wukong_ai_p2p_key_cb : P2P_HANDLER := fun data _ =>
  match data with
  | Some (DataKey event) =>
      let* _ :=
        match event with
        | NORMAL_KEY =>
            let* _ := dev wukong_audio_player_stop_all in
            let* _ := dev wukong_audio_input_reset in
            let* _ := dev wukong_ai_agent_chat_break in
            let* _ := DEVICE_MODE_STATE_CHANGE AI_CHAT_IDLE in
            p2p_wakeup_stat false
        | SEQ_KEY => cret tt
        | LONG_KEY => let* _ := DEVICE_MODE_STATE_CHANGE AI_CHAT_LISTEN in p2p_wakeup_stat true
        | RELEASE_KEY => DEVICE_MODE_STATE_CHANGE AI_CHAT_UPLOAD
        end in
      cret OPRT_OK
  | _ => wrong_payload
  end.

Definition wukong_ai_p2p_notify_idle_cb : P2P_HANDLER := fun _ _ => cret OPRT_OK.

Definition wukong_ai_p2p_handle_audio_input : P2P_HANDLER := fun data len =>
  dev_rt (tuya_ipc_app_audio_frame_put data len).

Definition ai_p2p_register : AI_CHAT_MODE_HANDLE_T (AI_CHAT_MODE_PARAM_T * Device) := {|
  on_init := Some wukong_ai_p2p_int_cb;
  on_deinit := Some wukong_ai_p2p_deint_cb;
  on_key := Some wukong_ai_p2p_key_cb;
  on_task := Some wukong_ai_p2p_task_cb;
  on_event := Some wukong_ai_p2p_event_cb;
  on_wakeup := Some wukong_ai_p2p_wakeup;
  on_vad := Some wukong_ai_p2p_vad;
  on_client := Some wukong_ai_p2p_client_run;
  on_notify_idle := Some wukong_ai_p2p_notify_idle_cb;
  on_audio_input := Some wukong_ai_p2p_handle_audio_input |}.

End P2p.

(** ** Record mode *)

(** The static data of the mode, s_record_handle of src/mode/wukong_ai_mode.c
    (whether its callback is set) and the handle field of the codec's encoder. *)
Record RECORD_STATICS := mk_record {
  s_ai_record : AI_CHAT_MODE_PARAM_T;
  s_record_encoder : bool;                       (* s_record_opus.encoder is not NULL *)
  s_record_encoder_info : TUYA_AI_ENCODER_INFO_T; (* s_record_opus.encoder_info *)
  rc_encoder_handle : option Z;
  s_record_handle : bool }.

Definition encoder_info_zero : TUYA_AI_ENCODER_INFO_T := mk_encoder_info AUDIO_CODEC_PCM 0 0 0 0 0 0 0 0 0 0.
Definition record_zero : RECORD_STATICS := mk_record (mk_param false AI_CHAT_INIT) false encoder_info_zero None false.

Section Record_mode.
Context `{CFG : ModeConfig}.
Abbreviation M := (C (RECORD_STATICS * Device)).
Definition RECORD_HANDLER : Type := CALLBACK (RECORD_STATICS * Device).

Definition record_param (f : AI_CHAT_MODE_PARAM_T -> AI_CHAT_MODE_PARAM_T) : M unit :=
  mod_ctx (fun r => mk_record (f (s_ai_record r)) (s_record_encoder r) (s_record_encoder_info r) (rc_encoder_handle r)
                      (s_record_handle r)).
Definition record_state (new : AI_CHAT_STATE_E) : M unit := record_param (fun s => mk_param (wakeup_stat s) new).
Definition record_wakeup_stat (b : bool) : M unit := record_param (fun s => mk_param b (state s)).
Definition set_encoder (there : bool) (info : TUYA_AI_ENCODER_INFO_T) (h : option Z) : M unit :=
  mod_ctx (fun r => mk_record (s_ai_record r) there info h (s_record_handle r)).

(** [handle]: the caller's structure, if any, and whether its callback is set. *)
Definition wukong_ai_record_handle_set (handle : option bool) : M OPERATE_RET :=
  match handle with
  | None => cret OPRT_INVALID_PARM
  | Some there =>
      let* _ := mod_ctx (fun r => mk_record (s_ai_record r) (s_record_encoder r) (s_record_encoder_info r)
                                    (rc_encoder_handle r) there) in
      cret OPRT_OK
  end.
Definition wukong_ai_record_handle_get : M bool := let* r := get_ctx in cret (s_record_handle r).

(** The settings of the encoder; the container stays as it was. *)
Definition record_encoder_info (old : TUYA_AI_ENCODER_INFO_T) : TUYA_AI_ENCODER_INFO_T :=
  mk_encoder_info AUDIO_CODEC_OPUS 16000 1 16 0 16000 1102 0 0 0 (container old).

(** Only one codec has an encoder object, so its handle is the one known. *)
Definition wukong_ai_record_opus_encoder : M OPERATE_RET :=
  let* r := get_ctx in
  let* there := on_host (answered an_bool) in
  let info := record_encoder_info (s_record_encoder_info r) in
  let* _ := set_encoder there info (rc_encoder_handle r) in
  if there : bool then
    let* _ :=
      match rc_encoder_handle r with
      | Some h => let* _ := dev (encoder_destroy h) in set_encoder there info None
      | None => cret tt
      end in
    let* rt := dev_rt (encoder_create info) in
    let* h := on_host (answered an_handle) in
    let* _ := set_encoder (rt =? OPRT_OK) info h in
    cret rt
  else cret OPRT_OK.

Definition __ai_record_encoder_data_cb (codec_type : AI_AUDIO_CODEC_TYPE) (data : list Z) (len : Z) : M OPERATE_RET :=
  let* there := wukong_ai_record_handle_get in
  if there : bool then dev_rt (record_input_audio AUDIO_CODEC_OPUS data len) else cret OPRT_OK.

(** The encoder hands every packet it makes to its callback. *)
Fixpoint encoded (packets : list (list Z)) : M unit :=
  match packets with
  | [] => cret tt
  | p :: packets =>
      let* _ := __ai_record_encoder_data_cb AUDIO_CODEC_OPUS p (Z.of_nat (length p)) in encoded packets
  end.

Definition wukong_ai_record_int_cb : RECORD_HANDLER := fun _ _ =>
  let* _ := dev tuya_ai_toy_led_on in
  let* _ := dev (wukong_audio_input_wakeup_mode_set WUKONG_AUDIO_VAD_MANUAL) in
  let* _ := dev wukong_kws_disable in
  let* _ := record_state AI_CHAT_IDLE in
  let* _ := record_wakeup_stat true in
  let* _ := dev (wukong_audio_input_wakeup_set false) in
  let* _ := (if ENABLE_TUYA_CODEC_OPUS then let* _ := wukong_ai_record_opus_encoder in cret tt else cret tt) in
  cret OPRT_OK.

(** The result is that of wukong_audio_input_reset. *)
Definition wukong_ai_record_deint_cb : RECORD_HANDLER := fun _ _ =>
  let* _ := record_wakeup_stat false in
  let* _ := dev_rt (wukong_audio_input_wakeup_set false) in
  let* rt := dev_rt wukong_audio_input_reset in
  let* _ := dev wukong_ai_agent_input_stop in
  cret rt.

Definition wukong_ai_record_task_cb : RECORD_HANDLER := fun _ _ => cret OPRT_OK.

Definition wukong_ai_record_event_cb : RECORD_HANDLER := fun data _ =>
  match data with
  | None => cret OPRT_OK
  | Some (DataEvent event) => let* _ := clock_events event in cret OPRT_OK
  | Some _ => wrong_payload
  end.

Definition wukong_ai_record_wakeup : RECORD_HANDLER := fun _ _ => cret OPRT_OK.
Definition wukong_ai_record_vad : RECORD_HANDLER := fun _ _ => cret OPRT_OK.
Definition wukong_ai_record_client_run : RECORD_HANDLER := fun _ _ => cret OPRT_OK.

(** [data] must point to a key: it is not checked against NULL. *)
Definition wukong_ai_record_key_cb : RECORD_HANDLER := fun data _ =>
  match data with
  | Some (DataKey event) =>
      let* _ :=
        match event with
        | NORMAL_KEY =>
            let* _ := dev wukong_audio_player_stop_all in
            let* _ := dev wukong_audio_input_reset in
            let* _ := dev wukong_ai_agent_chat_break in
            let* _ := record_state AI_CHAT_IDLE in
            record_wakeup_stat false
        | SEQ_KEY => cret tt
        | LONG_KEY => let* _ := record_state AI_CHAT_LISTEN in record_wakeup_stat true
        | RELEASE_KEY => record_state AI_CHAT_UPLOAD
        end in
      cret OPRT_OK
  | _ => wrong_payload
  end.

Definition wukong_ai_record_notify_idle_cb : RECORD_HANDLER := fun _ _ => cret OPRT_OK.

Definition wukong_ai_record_handle_audio_input : RECORD_HANDLER := fun data len =>
  match data with
  | None => cret OPRT_INVALID_PARM
  | Some payload =>
      if len =? 0 then cret OPRT_INVALID_PARM
      else
        match payload with
        | DataPcm samples =>
            if ENABLE_TUYA_CODEC_OPUS then
              let* r := get_ctx in
              match s_record_encoder r, rc_encoder_handle r with
              | true, Some h =>
                  let* _ := dev (encoder_encode h samples len) in
                  let* packets := on_host (answered an_packets) in
                  let* _ := encoded packets in
                  let* rt := on_host (answered an_result) in
                  cret rt
              | _, _ => cret OPRT_OK
              end
            else
              let* there := wukong_ai_record_handle_get in
              if there : bool then dev_rt (record_input_audio AUDIO_CODEC_PCM samples len) else cret OPRT_OK
        | _ => wrong_payload
        end
  end.

Definition ai_record_register : AI_CHAT_MODE_HANDLE_T (RECORD_STATICS * Device) := {|
  on_init := Some wukong_ai_record_int_cb;
  on_deinit := Some wukong_ai_record_deint_cb;
  on_key := Some wukong_ai_record_key_cb;
  on_task := Some wukong_ai_record_task_cb;
  on_event := Some wukong_ai_record_event_cb;
  on_wakeup := Some wukong_ai_record_wakeup;
  on_vad := Some wukong_ai_record_vad;
  on_client := Some wukong_ai_record_client_run;
  on_notify_idle := Some wukong_ai_record_notify_idle_cb;
  on_audio_input := Some wukong_ai_record_handle_audio_input |}.

End Record_mode.

(** ** What the manager relies on *)

Section Promises.
Context `{CFG : ModeConfig}.
Implicit Types (d : Device).

Ltac still_awake := split_and!; cbn; repeat apply shows_silent; done.

(** *** Translate mode: the outputs are those of free talk in the same states. *)

Lemma translate_init_wp (x : MODE_STATICS) d data len : asleep x ->
  wp (wukong_ai_translate_int_cb data len) (fun _ r => awake Free (fst r) (dv_calls (snd r))) (x, d).
Proof.
  destruct x as [[w st] cur]. unfold asleep. cbn. intros ->. unfold wukong_ai_translate_int_cb. mode_steps. by split_and!.
Qed.

Lemma translate_deinit_wp (x : MODE_STATICS) d data len :
  wp (wukong_ai_translate_deint_cb data len) (fun _ r => asleep (fst r)) (x, d).
Proof. unfold wukong_ai_translate_deint_cb. mode_steps. done. Qed.

Lemma translate_event_wp (x : MODE_STATICS) d data len : payload_ok AI_MODE_OP_EVENT data = true ->
  awake Free x (dv_calls d) ->
  wp (wukong_ai_translate_event_cb data len) (fun _ r => awake Free (fst r) (dv_calls (snd r))) (x, d).
Proof.
  destruct x as [[w st] cur]. intros Hp (Hi & Hv & Hu & Hs). cbn in Hi, Hv, Hu, Hs.
  destruct data as [[| |[ty ev]|]|]; try done. cbn in Hp. unfold wukong_ai_translate_event_cb. mode_step.
  destruct ty; cbn [ev_type ev_data];
    first [wp_step; wp_step; still_awake
          |apply tm_alert_wp; [by eapply tm_event_ok; [exact Hp|first [by left|by right]]|wp_step; still_awake..]
          |destruct ev as [[]|]; try done; mode_steps; still_awake].
Qed.

Lemma translate_op_wp op f (x : MODE_STATICS) d data len :
  callback_for ai_translate_register op = Some f -> op <> AI_MODE_OP_INIT -> op <> AI_MODE_OP_DEINIT ->
  payload_ok op data = true -> awake Free x (dv_calls d) ->
  wp (f data len) (fun _ r => awake Free (fst r) (dv_calls (snd r))) (x, d).
Proof.
  intros Hf Hni Hnd Hp Ha. destruct op; cbn in Hf; try done; injection Hf as <-.
  3: by apply translate_event_wp.
  all: destruct x as [[w st] cur]; destruct Ha as (Hi & Hv & Hu & Hs); cbn in Hi, Hv, Hu, Hs.
  - destruct data as [[k| | |]|]; try done. unfold wukong_ai_translate_key_cb. destruct k; mode_steps; still_awake.
  - unfold wukong_ai_translate_task_cb. do 2 mode_step. case_bool_decide as Hc; [mode_step; subst; by split_and!|].
    destruct st; try done; mode_steps; by split_and!.
  - mode_steps. still_awake.
  - destruct data as [[|f| |]|]; try done; unfold wukong_ai_translate_vad; mode_steps; still_awake.
  - mode_steps. still_awake.
  - mode_steps. still_awake.
Qed.

(** *** P2P and record mode: the light is on; the microphone is open in P2P mode
    and shut in record mode. *)

Definition steady_state (st : AI_CHAT_STATE_E) : Prop := st = AI_CHAT_IDLE \/ st = AI_CHAT_LISTEN \/ st = AI_CHAT_UPLOAD.
Definition steady (mic : bool) (x : AI_CHAT_MODE_PARAM_T) (calls : list DEV_CALL) : Prop :=
  steady_state (state x) /\ led calls = Some LedOn /\ gate calls = Some mic.

Lemma steady_silent mic x c calls : silent c = true -> steady mic x calls -> steady mic x (c :: calls).
Proof.
  intros Hc (Hs & Hl & Hg). unfold silent in Hc. unfold steady, led, gate. cbn [latest].
  destruct (led_call c), (gate_call c), (lowpower_call c), (camera_call c); done.
Qed.

Ltac still_steady :=
  split; [first [by left|by right; left|by right; right|assumption]|split; first [reflexivity|assumption]].

Lemma clock_events_wp {X} (x : X) d e (Q : unit -> X * Device -> Prop) : event_ok e = true ->
  Q tt (x, d) -> Q tt (x, called (wukong_audio_player_alert AI_TOY_ALERT_TYPE_WAKEUP false) d) ->
  wp (clock_events e) Q (x, d).
Proof.
  intros He Hq Hq'. destruct e as [ty ev]. unfold clock_events.
  destruct ty; cbn [ev_type ev_data];
    first [by wp_step|apply tm_alert_wp; [by eapply tm_event_ok; [exact He|first [by left|by right]]|done..]].
Qed.

Lemma p2p_init_wp (x : AI_CHAT_MODE_PARAM_T) d data len :
  wp (wukong_ai_p2p_int_cb data len) (fun _ r => steady true (fst r) (dv_calls (snd r))) (x, d).
Proof. unfold wukong_ai_p2p_int_cb. mode_steps. still_steady. Qed.

Lemma p2p_deinit_wp (x : AI_CHAT_MODE_PARAM_T) d data len :
  wp (wukong_ai_p2p_deint_cb data len) (fun _ r => wakeup_stat (fst r) = false /\ gate (dv_calls (snd r)) = Some false) (x, d).
Proof. unfold wukong_ai_p2p_deint_cb. mode_steps. done. Qed.

Lemma p2p_op_wp op f (x : AI_CHAT_MODE_PARAM_T) d data len :
  callback_for ai_p2p_register op = Some f -> op <> AI_MODE_OP_INIT -> op <> AI_MODE_OP_DEINIT ->
  payload_ok op data = true -> steady true x (dv_calls d) ->
  wp (f data len) (fun _ r => steady true (fst r) (dv_calls (snd r))) (x, d).
Proof.
  intros Hf Hni Hnd Hp Ha. destruct op; cbn in Hf; try done; injection Hf as <-; try exact Ha.
  - destruct data as [[k| | |]|]; try done. destruct Ha as (Hs & Hl & Hg), x as [w st].
    unfold wukong_ai_p2p_key_cb. destruct k; mode_steps; still_steady.
  - destruct data as [[| |e|]|]; try done. mode_step. mode_step.
    apply clock_events_wp; [done|by wp_step|]. wp_step. by apply steady_silent.
Qed.

(** The state of the mode proper, changed by [f]. *)
Definition record_awake (r : RECORD_STATICS) (calls : list DEV_CALL) : Prop := steady false (s_ai_record r) calls.

Lemma record_silent r c calls : silent c = true -> record_awake r calls -> record_awake r (c :: calls).
Proof. apply steady_silent. Qed.

Lemma encoder_wp r d (Q : OPERATE_RET -> RECORD_STATICS * Device -> Prop) : record_awake r (dv_calls d) ->
  (forall rt r' d', record_awake r' (dv_calls d') -> Q rt (r', d')) -> wp wukong_ai_record_opus_encoder Q (r, d).
Proof.
  intros Ha HQ. unfold wukong_ai_record_opus_encoder.
  destruct (rc_encoder_handle r) eqn:Hh; mode_steps; rewrite ?Hh; mode_steps; apply HQ; unfold record_awake; cbn [s_ai_record];
    repeat (apply steady_silent; [reflexivity|]); exact Ha.
Qed.

(** The packets reach the registered callback, in order and whole. *)
Lemma encoded_wp packets r d :
  wp (encoded packets) (fun _ s' => fst s' = r /\ exists d', snd s' = d' /\ dv_answers d' = dv_answers d /\
    dv_calls d' = ((if s_record_handle r
                    then rev (map (fun p => record_input_audio AUDIO_CODEC_OPUS p (Z.of_nat (length p))) packets)
                    else []) ++ dv_calls d)%list) (r, d).
Proof.
  revert d. induction packets as [|p packets IH]; intros d; cbn [encoded].
  { wp_step. split; [done|]. exists d. by destruct (s_record_handle r). }
  unfold __ai_record_encoder_data_cb, wukong_ai_record_handle_get. do 5 mode_step. destruct (s_record_handle r) eqn:Hr.
  - do 4 mode_step. eapply wp_mono; [apply IH|]. intros _ [r' d'] (Hr' & d2 & Hd & Ha & Hc). cbn [fst snd] in *.
    subst. split; [done|]. exists d2. split_and!; [done|done|]. rewrite Hc. cbn [map rev].
    by rewrite <- app_assoc.
  - mode_step. eapply wp_mono; [apply IH|]. intros _ [r' d'] (Hr' & d2 & Hd & Ha & Hc). cbn [fst snd] in *.
    subst. split; [done|]. by exists d2.
Qed.

(** Run the primitive steps of the mode, up to making the encoder. *)
Ltac rec_step :=
  lazymatch goal with
  | |- wp wukong_ai_record_opus_encoder _ _ => fail
  | |- _ => mode_step
  end;
  cbn [s_ai_record s_record_encoder s_record_encoder_info rc_encoder_handle s_record_handle].
Ltac rec_steps := repeat rec_step.

Lemma record_init_wp r d data len :
  wp (wukong_ai_record_int_cb data len) (fun _ s' => record_awake (fst s') (dv_calls (snd s'))) (r, d).
Proof.
  unfold wukong_ai_record_int_cb. destruct ENABLE_TUYA_CODEC_OPUS eqn:Ho; [|mode_steps; still_steady].
  destruct r as [[w st] enc info h cb]. rec_steps. apply encoder_wp; [still_steady|]. intros rt r' d' Ha. by rec_steps.
Qed.

Lemma record_deinit_wp r d data len :
  wp (wukong_ai_record_deint_cb data len)
     (fun _ s' => wakeup_stat (s_ai_record (fst s')) = false /\ gate (dv_calls (snd s')) = Some false) (r, d).
Proof. unfold wukong_ai_record_deint_cb. mode_steps. done. Qed.

Lemma record_audio_wp r d data len : (forall p, data = Some p -> exists l, p = DataPcm l) ->
  wp (wukong_ai_record_handle_audio_input data len) (fun _ s' => s_ai_record (fst s') = s_ai_record r /\
    exists new, dv_calls (snd s') = (new ++ dv_calls d)%list /\ Forall (fun c => silent c = true) new) (r, d).
Proof.
  intros Hd. unfold wukong_ai_record_handle_audio_input.
  destruct data as [p|]; [|wp_step; split; [done|by exists []]]. destruct (Hd p eq_refl) as [l ->].
  destruct (len =? 0); [wp_step; split; [done|by exists []]|].
  destruct ENABLE_TUYA_CODEC_OPUS eqn:Ho.
  - do 2 mode_step. destruct (s_record_encoder r), (rc_encoder_handle r) as [h|]; try (wp_step; split; [done|by exists []]).
    do 4 mode_step. wp_step. eapply wp_mono; [apply encoded_wp|]. intros _ [r' d'] (Hr & d2 & Hd2 & _ & Hc). cbn [fst snd] in *. subst.
    do 3 mode_step. split; [done|]. cbn [dv_calls called asked] in *. rewrite Hc.
    eexists (_ ++ [_])%list. rewrite <- app_assoc. split; [reflexivity|]. apply Forall_app. split; [|by repeat constructor].
    destruct (s_record_handle r); [|done]. apply Forall_rev, Forall_map, Forall_true. done.
  - unfold wukong_ai_record_handle_get. do 3 mode_step. destruct (s_record_handle r); mode_steps; (split; [done|]).
    + exists [record_input_audio AUDIO_CODEC_PCM l len]. split; [done|]. by repeat constructor.
    + by exists [].
Qed.

Definition record_payload (op : AI_MODE_OP_E) (data : option AI_DATA) : bool :=
  match op, data with
  | AI_MODE_OP_AUDIO_INPUT, (None | Some (DataPcm _)) => true
  | AI_MODE_OP_AUDIO_INPUT, _ => false
  | _, _ => payload_ok op data
  end.

Lemma record_op_wp op f r d data len :
  callback_for ai_record_register op = Some f -> op <> AI_MODE_OP_INIT -> op <> AI_MODE_OP_DEINIT ->
  record_payload op data = true -> record_awake r (dv_calls d) ->
  wp (f data len) (fun _ s' => record_awake (fst s') (dv_calls (snd s'))) (r, d).
Proof.
  intros Hf Hni Hnd Hp Ha. destruct op; cbn in Hf; try done; injection Hf as <-; try exact Ha.
  - destruct data as [[k| | |]|]; try done. destruct Ha as (Hs & Hl & Hg), r as [[w st] enc info h cb].
    unfold wukong_ai_record_key_cb. destruct k; rec_steps; still_steady.
  - destruct data as [[| |e|]|]; try done. mode_step. mode_step.
    apply clock_events_wp; [done|by wp_step|]. wp_step. by apply record_silent.
  - eapply wp_mono; [apply record_audio_wp|].
    { intros p ->. destruct p as [| | |l]; try done. by exists l. }
    intros _ [r' d'] (Hr & new & Hc & Hs). cbn [fst snd] in *. unfold record_awake. rewrite Hr, Hc.
    clear Hc. induction Hs as [|c new Hc _ IH]; [exact Ha|]. by apply steady_silent.
Qed.

End Promises.
