(* ===== verification/ModePicture.v ===== *)
(** The picture mode (src/mode/wukong_ai_mode_picture.c) and the queue of album
    pictures it sends along with what the user says
    (src/wukong/picture/wukong_picture_input.c). *)
From stdpp Require Import list.
From S2P Require Import Prelude.
From S2P Require Import CStr.
From S2P Require Import World.
From S2P Require Import TmHost.
From S2P Require Import ModeHost.
From S2P Require Import ModeMgr.
From S2P Require Import ModeChat.

#[local] Open Scope string_scope.
#[local] Open Scope Z_scope.

(** ** The queue *)

Definition WUKONG_PICTURE_INPUT_MAX_NUM : Z := 3.
Definition WUKONG_PICTURE_NAME_MAX_LEN : nat := 64.

Record WUKONG_PICTURE_INFO_T := mk_picture {
  pc_name : string; pc_width : Z; pc_height : Z; pc_len : Z; pc_data : option (list Z) }.
Record WUKONG_PICTURE_INPUT_T := mk_pic_input { pic : WUKONG_PICTURE_INFO_T; pic_text : option string }.

(** The static data of both files. *)
Record PICTURE_STATICS := mk_pictures {
  s_ai_picture : MODE_STATICS;
  sg_pic_input : list WUKONG_PICTURE_INPUT_T;
  sg_pic_num : Z }.

Definition pic_zero : WUKONG_PICTURE_INPUT_T := mk_pic_input (mk_picture "" 0 0 0 None) None.
Definition pictures_none : list WUKONG_PICTURE_INPUT_T :=
  replicate (Z.to_nat WUKONG_PICTURE_INPUT_MAX_NUM) pic_zero.
Definition picture_zero : PICTURE_STATICS := mk_pictures statics_zero pictures_none 0.

(** The data and the text of a slot changed. *)
Definition edit_slot (idx : nat) (data : option (list Z)) (text : option string) (p : PICTURE_STATICS) : PICTURE_STATICS :=
  mk_pictures (s_ai_picture p)
    (alter (fun e => mk_pic_input (mk_picture (pc_name (pic e)) (pc_width (pic e)) (pc_height (pic e))
                                     (match data with Some b => Z.of_nat (length b) | None => 0 end) data) text)
       idx (sg_pic_input p)) (sg_pic_num p).

Section Picture.
(** [mutex_ok]: whether the mode's entry of the manager got its mutex. *)
Context `{CFG : ModeConfig} (mutex_ok : bool).
Abbreviation P := (C (PICTURE_STATICS * Device)).
Abbreviation M := (C (MODE_STATICS * Device)).

Definition put_picture (x : MODE_STATICS) (p : PICTURE_STATICS) : PICTURE_STATICS :=
  mk_pictures x (sg_pic_input p) (sg_pic_num p).
Definition set_queue (l : list WUKONG_PICTURE_INPUT_T) (n : Z) : P unit :=
  mod_ctx (fun p => mk_pictures (s_ai_picture p) l n).
Definition set_slot (idx : nat) (data : option (list Z)) (text : option string) : P unit :=
  mod_ctx (edit_slot idx data text).

Definition wukong_picture_input_add_from_album (filename : string) (text : option string) : P OPERATE_RET :=
  let* p := get_ctx in
  if WUKONG_PICTURE_INPUT_MAX_NUM <=? sg_pic_num p then cret OPRT_EXCEED_UPPER_LIMIT
  else
    let* rt := dev_rt (image_album_item_retain_locked filename) in
    if negb (rt =? OPRT_OK) then cret rt
    else
      let* item := on_host (answered an_item) in
      let '(name, (width, height)) := item in
      let* copy :=
        match text with
        | Some t =>
            if (0 <? String.length t)%nat
            then let* ok := on_host (answered an_bool) in cret (if ok : bool then Some t else None)
            else cret None
        | None => cret None
        end in
      let slot := mk_pic_input (mk_picture (strtrunc WUKONG_PICTURE_NAME_MAX_LEN name) (width mod 2 ^ 16)
                                  (height mod 2 ^ 16) 0 None) copy in
      let* _ := set_queue (<[Z.to_nat (sg_pic_num p) := slot]> (sg_pic_input p)) (sg_pic_num p + 1) in
      cret OPRT_OK.

(** The first of the [count] queued pictures from [i] on with that name. *)
Fixpoint find_picture (filename : string) (l : list WUKONG_PICTURE_INPUT_T) (i count : nat) : option nat :=
  match count with
  | O => None
  | S count =>
      match l !! i with
      | Some e => if (filename =? pc_name (pic e))%string then Some i else find_picture filename l (S i) count
      | None => None
      end
  end.

Definition wukong_picture_input_del_from_album (filename : string) : P OPERATE_RET :=
  let* p := get_ctx in
  match find_picture filename (sg_pic_input p) 0 (Z.to_nat (sg_pic_num p)) with
  | None => cret OPRT_NOT_FOUND
  | Some idx =>
      let* slot := cpure (sg_pic_input p !! idx) in
      let* rt := dev_rt (image_album_item_release_locked (pc_name (pic slot))) in
      if negb (rt =? OPRT_OK) then cret rt
      else
        let* data :=
          match pc_data (pic slot) with
          | Some _ => let* _ := dev image_album_free_file_data in cret (None : option (list Z), 0)
          | None => cret (None, pc_len (pic slot))
          end in
        let slot := mk_pic_input (mk_picture (pc_name (pic slot)) (pc_width (pic slot)) (pc_height (pic slot))
                                    (snd data) (fst data)) None in
        let l := <[idx := slot]> (sg_pic_input p) in
        (* memmove of the slots behind; the last one stays *)
        let l := (take idx l ++ drop (S idx) l ++ drop (length l - 1) l)%list in
        let* _ := set_queue l (sg_pic_num p - 1) in
        cret OPRT_OK
  end.

Definition wukong_picture_input_get_num : P Z := let* p := get_ctx in cret (sg_pic_num p mod 2 ^ 32).

Definition wukong_picture_input_recognize (data : option (list Z)) : P OPERATE_RET :=
  match data with
  | None | Some [] => cret OPRT_INVALID_PARM
  | Some data =>
      let* _ := dev (wukong_ai_agent_input_start true) in
      let* _ := dev_rt (wukong_ai_agent_send_image data) in
      let* rt := dev_rt (wukong_ai_agent_send_text
        "explain the content of the uploaded image, do not trigger MCP skills, do not call MCP tools") in
      let* _ := dev wukong_ai_agent_input_stop in
      cret rt
  end.

(** ** The mode *)

Definition __ai_picture_asr_result (type : WUKONG_AI_EVENT_TYPE_E) (data : option EVENT_DATA) : M unit :=
  asr_result type data.
Definition __ai_picture_text_stream (type : WUKONG_AI_EVENT_TYPE_E) (data : option EVENT_DATA) : M unit :=
  text_stream type data.
Definition __ai_picture_emition (type : WUKONG_AI_EVENT_TYPE_E) (data : option EVENT_DATA) : M unit :=
  emition type data.

(** strlen of a name that is NULL is undefined. *)
Definition __ai_picture_image (data : option EVENT_DATA) : M unit :=
  if ENABLE_TUYA_UI then
    match data with
    | Some (EvName name) => display (TY_DISPLAY_TP_AI_IMAGE name)
    | _ => wrong_payload
    end
  else cret tt.

Definition __ai_picture_idle_cb : M unit :=
  let* _ := dev tuya_ai_toy_led_off in
  let* _ := dev (tuya_ai_toy_idle_timer_ctrl false) in
  let* _ := dev (tuya_ai_toy_lowpower_timer_ctrl true) in
  let* _ := dev (wukong_audio_input_wakeup_set false) in
  set_wakeup_stat false.

Definition __ai_picture_listen_cb : M unit :=
  let* _ := dev (tuya_ai_toy_led_flash 500) in
  let* _ := dev (tuya_ai_toy_idle_timer_ctrl true) in
  let* _ := dev (tuya_ai_toy_lowpower_timer_ctrl false) in
  let* _ := set_wakeup_stat true in
  dev (wukong_audio_input_wakeup_set true).

Definition __ai_picture_upload_cb : M unit :=
  let* _ := set_wakeup_stat false in
  let* _ := dev (wukong_audio_input_wakeup_set false) in
  dev tuya_ai_input_stop.

Definition __ai_picture_think_cb : M unit :=
  let* _ := dev (tuya_ai_toy_led_flash 2000) in
  let* _ := dev (tuya_ai_toy_idle_timer_ctrl true) in
  let* awake := get_wakeup_stat in
  let* _ := (if awake : bool then dev tuya_ai_input_stop else cret tt) in
  let* _ := dev (wukong_audio_input_wakeup_set false) in
  set_wakeup_stat false.

Definition __ai_picture_speak_cb : M unit :=
  let* _ := dev tuya_ai_toy_led_on in
  dev (tuya_ai_toy_idle_timer_ctrl false).

Definition wukong_ai_picture_int_cb : HANDLER := fun _ _ =>
  let* _ := dev tuya_ai_toy_led_on in
  let* _ := dev (wukong_audio_input_wakeup_mode_set WUKONG_AUDIO_VAD_MANUAL) in
  let* _ := dev wukong_kws_disable in
  let* _ := CHAT_SUB_STATE_CHANGE AI_CHAT_IDLE in
  let* _ := dev (tuya_ai_agent_server_vad_ctrl false) in
  let* _ := set_wakeup_stat false in
  cret OPRT_OK.

Definition wukong_ai_picture_deint_cb : HANDLER := fun _ _ =>
  let* _ := dev tuya_ai_input_stop in
  let* _ := set_cur_state AI_CHAT_INVALID in
  let* _ := dev (tuya_ai_agent_server_vad_ctrl true) in
  cret OPRT_OK.

Definition wukong_ai_picture_task_cb : HANDLER := fun _ _ =>
  let* s := get_ctx in
  if bool_decide (s_ai_cur_state s = state (s_ai s)) then cret OPRT_OK
  else
    let* _ :=
      match state (s_ai s) with
      | AI_CHAT_INIT => cret tt
      | AI_CHAT_IDLE => __ai_picture_idle_cb
      | AI_CHAT_LISTEN => __ai_picture_listen_cb
      | AI_CHAT_UPLOAD => __ai_picture_upload_cb
      | AI_CHAT_THINK => __ai_picture_think_cb
      | AI_CHAT_SPEAK => __ai_picture_speak_cb
      | AI_CHAT_INVALID => cret tt
      end in
    let* s := get_ctx in
    let* _ := set_cur_state (state (s_ai s)) in
    let* _ := display (TY_DISPLAY_TP_CHAT_STAT (chat_state_code (state (s_ai s)))) in
    cret OPRT_OK.

Definition wukong_ai_picture_event_cb : HANDLER := fun data _ =>
  match data with
  | None => cret OPRT_INVALID_PARM
  | Some (DataEvent event) =>
      let* _ :=
        match ev_type event with
        | WUKONG_AI_EVENT_ASR_EMPTY | WUKONG_AI_EVENT_ASR_ERROR => CHAT_SUB_STATE_CHANGE AI_CHAT_IDLE
        | WUKONG_AI_EVENT_ASR_OK =>
            let* _ := CHAT_SUB_STATE_CHANGE AI_CHAT_THINK in
            __ai_picture_asr_result (ev_type event) (ev_data event)
        | WUKONG_AI_EVENT_TTS_PRE => CHAT_SUB_STATE_CHANGE AI_CHAT_SPEAK
        | WUKONG_AI_EVENT_TEXT_STREAM_START | WUKONG_AI_EVENT_TEXT_STREAM_DATA
        | WUKONG_AI_EVENT_TEXT_STREAM_STOP | WUKONG_AI_EVENT_TEXT_STREAM_ABORT =>
            __ai_picture_text_stream (ev_type event) (ev_data event)
        | WUKONG_AI_EVENT_EMOTION | WUKONG_AI_EVENT_LLM_EMOTION => __ai_picture_emition (ev_type event) (ev_data event)
        | WUKONG_AI_EVENT_PLAY_CTL_RESUME => dev wukong_audio_player_resume
        | WUKONG_AI_EVENT_PLAY_CTL_PAUSE => dev wukong_audio_player_pause
        | WUKONG_AI_EVENT_PLAY_CTL_REPLAY => dev wukong_audio_player_replay
        | WUKONG_AI_EVENT_PLAY_CTL_END | WUKONG_AI_EVENT_PLAY_END =>
            let* awake := get_wakeup_stat in
            if awake : bool then CHAT_SUB_STATE_CHANGE AI_CHAT_LISTEN else CHAT_SUB_STATE_CHANGE AI_CHAT_IDLE
        | WUKONG_AI_EVENT_PLAY_ALERT => play_alert (ev_data event)
        | WUKONG_AI_EVENT_ACCEPT_PICTURE =>
            let* _ := __ai_picture_image (ev_data event) in
            CHAT_SUB_STATE_CHANGE AI_CHAT_IDLE
        | WUKONG_AI_EVENT_SEND_PICTURE_END =>
            let* _ := CHAT_SUB_STATE_CHANGE AI_CHAT_IDLE in
            display TY_DISPLAY_TP_CLEAR_ATTACHMENT
        | _ => cret tt
        end in
      cret OPRT_OK
  | Some _ => wrong_payload
  end.

(** wukong_ai_event_notify while this mode is the active one: the event comes
    back to it through the manager (src/mode/wukong_ai_mode.c). *)
Definition picture_event_notify (event : WUKONG_AI_EVENT_T) : P unit :=
  let* _ := (if mutex_ok then dev tal_mutex_lock else cret tt) in
  let* _ := on_part s_ai_picture put_picture (wukong_ai_picture_event_cb (Some (DataEvent event)) 0) in
  if mutex_ok then dev tal_mutex_unlock else cret tt.

(** The loop over the queue from [idx] on; the error it stops with, or whether
    a picture was sent. *)
Fixpoint send_pictures (count idx : nat) (has_data : bool) : P (OPERATE_RET + bool) :=
  match count with
  | O => cret (inr has_data)
  | S count =>
      let* p := get_ctx in
      let* slot := cpure (sg_pic_input p !! idx) in
      let name := pc_name (pic slot) in
      let* rt := dev_rt (image_album_read name) in
      let* file_data := on_host (answered an_data) in
      match (if rt =? OPRT_OK then file_data else None) with
      | None =>
          let* _ := dev_rt (image_album_item_release_locked name) in
          send_pictures count (S idx) has_data
      | Some data =>
          let* _ := set_slot idx (Some data) (pic_text slot) in
          let* _ := on_host (answered an_ms) in
          let* rt := dev_rt (tuya_ai_image_input data) in
          if negb (rt =? OPRT_OK) then cret (inl rt)
          else
            let* _ := dev image_album_free_file_data in
            let* _ := set_slot idx None (pic_text slot) in
            let* _ :=
              match pic_text slot with
              | Some t => let* _ := dev_rt (tuya_ai_text_input t) in set_slot idx None None
              | None => cret tt
              end in
            let* _ := dev_rt (image_album_item_release_locked name) in
            send_pictures count (S idx) true
      end
  end.

Definition wukong_picture_input_from_album : P OPERATE_RET :=
  let* p := get_ctx in
  let* r := send_pictures (Z.to_nat (sg_pic_num p)) 0 false in
  match r with
  | inl rt => cret rt
  | inr has_data =>
      let* _ := set_queue pictures_none 0 in
      let* _ := (if has_data : bool then picture_event_notify (mk_event WUKONG_AI_EVENT_SEND_PICTURE_END None)
                 else cret tt) in
      cret OPRT_OK
  end.

Definition wukong_ai_picture_wakeup : HANDLER := fun _ _ => cret OPRT_OK.

(** [len] below sizeof(WUKONG_AUDIO_VAD_FLAG_E) = 4: the flag reads as neither
    start nor stop. *)
Definition wukong_ai_picture_vad : CALLBACK (PICTURE_STATICS * Device) := fun data len =>
  match data with
  | None => cret OPRT_INVALID_PARM
  | Some (DataVad flag) =>
      if (4 <=? len) && bool_decide (flag = WUKONG_AUDIO_VAD_START) then
        let* ready := on_host tuya_ai_agent_is_ready in
        if negb ready then cret OPRT_RESOURCE_NOT_READY
        else
          let* _ := dev (tuya_ai_agent_set_scode AI_AGENT_SCODE_PICTURE) in
          let* _ := dev (tuya_ai_input_start false) in
          let* _ :=
            (if ENABLE_TUYA_PICTURE then
               let* num := wukong_picture_input_get_num in
               if 0 <? num then let* _ := wukong_picture_input_from_album in cret tt else cret tt
             else cret tt) in
          let* _ := dev (tuya_ai_toy_idle_timer_ctrl false) in
          cret OPRT_OK
      else
        let* _ := dev tuya_ai_input_stop in
        let* _ := dev (tuya_ai_toy_idle_timer_ctrl true) in
        cret OPRT_OK
  | Some _ => wrong_payload
  end.

Definition wukong_ai_picture_client_run : HANDLER := fun _ _ =>
  let* _ := CHAT_SUB_STATE_CHANGE AI_CHAT_IDLE in cret OPRT_OK.

(** [data] must point to a key: it is not checked against NULL. *)
Definition wukong_ai_picture_key_cb : HANDLER := fun data _ =>
  match data with
  | Some (DataKey event) =>
      let* _ :=
        match event with
        | NORMAL_KEY =>
            let* _ := dev wukong_audio_player_stop_all in
            let* _ := dev wukong_audio_input_reset in
            let* _ := dev tuya_ai_agent_event_chat_break in
            let* _ := CHAT_SUB_STATE_CHANGE AI_CHAT_IDLE in
            set_wakeup_stat false
        | SEQ_KEY => cret tt
        | LONG_KEY =>
            let* _ := dev wukong_audio_player_stop_all in
            let* _ := dev wukong_audio_input_reset in
            let* _ := dev tuya_ai_agent_event_chat_break in
            CHAT_SUB_STATE_CHANGE AI_CHAT_LISTEN
        | RELEASE_KEY =>
            let* awake := get_wakeup_stat in
            if awake : bool then CHAT_SUB_STATE_CHANGE AI_CHAT_UPLOAD else cret tt
        end in
      cret OPRT_OK
  | _ => wrong_payload
  end.

Definition wukong_ai_picture_notify_idle_cb : HANDLER := fun _ _ =>
  let* _ := CHAT_SUB_STATE_CHANGE AI_CHAT_IDLE in cret OPRT_OK.

(** The callbacks that registering the mode installs. *)
Definition ai_picture_register : AI_CHAT_MODE_HANDLE_T (PICTURE_STATICS * Device) :=
  let mode := zoom s_ai_picture put_picture in {|
  on_init := Some (mode wukong_ai_picture_int_cb);
  on_deinit := Some (mode wukong_ai_picture_deint_cb);
  on_key := Some (mode wukong_ai_picture_key_cb);
  on_task := Some (mode wukong_ai_picture_task_cb);
  on_event := Some (mode wukong_ai_picture_event_cb);
  on_wakeup := Some (mode wukong_ai_picture_wakeup);
  on_vad := Some wukong_ai_picture_vad;
  on_client := Some (mode wukong_ai_picture_client_run);
  on_notify_idle := Some (mode wukong_ai_picture_notify_idle_cb);
  on_audio_input := None |}.

End Picture.

(** ** Sending the queue *)

(** The queue fits its array. *)
Definition queue_ok (p : PICTURE_STATICS) : Prop :=
  length (sg_pic_input p) = Z.to_nat WUKONG_PICTURE_INPUT_MAX_NUM /\ 0 <= sg_pic_num p <= WUKONG_PICTURE_INPUT_MAX_NUM.

Definition slot_name (e : WUKONG_PICTURE_INPUT_T) : string := pc_name (pic e).

(** The calls for one queued picture, in order: read and not there, or read as
    [b], sent with its text behind it, and given back. *)
Definition slot_calls (e : WUKONG_PICTURE_INPUT_T) (read : option (list Z)) : list DEV_CALL :=
  (image_album_read (slot_name e) ::
   match read with
   | None => []
   | Some b => tuya_ai_image_input b :: image_album_free_file_data ::
               match pic_text e with Some t => [tuya_ai_text_input t] | None => [] end
   end ++ [image_album_item_release_locked (slot_name e)])%list.

(** What reading a picture gives, by the album's answers from the [n]-th on:
    its bytes, or nothing when the call fails or leaves NULL. *)
Definition album_read (a : DEV_ANSWERS) (n : nat) : option (list Z) :=
  if an_result a n =? OPRT_OK then an_data a (S n) else None.

(** How the pictures [l] fare, by the answers of the album and the agent from
    the [n]-th on: what each one handled was read as, and the one the agent
    refused, if any, with its bytes and the agent's error. *)
Fixpoint fare (a : DEV_ANSWERS) (l : list WUKONG_PICTURE_INPUT_T) (n : nat)
    : list (option (list Z)) * option (WUKONG_PICTURE_INPUT_T * list Z * OPERATE_RET) :=
  match l with
  | [] => ([], None)
  | e :: l =>
      match album_read a n with
      | None => let '(reads, refused) := fare a l (3 + n) in (None :: reads, refused)
      | Some b =>
          let sent := an_result a (3 + n)%nat in
          if sent =? OPRT_OK then
            let '(reads, refused) := fare a l (match pic_text e with Some _ => 6 | None => 5 end + n) in
            (Some b :: reads, refused)
          else ([], Some (e, b, sent))
      end
  end.

Lemma fare_length a l n reads refused : fare a l n = (reads, refused) ->
  match refused with
  | None => length reads = length l
  | Some (e, _, err) => l !! length reads = Some e /\ err <> OPRT_OK
  end.
Proof.
  revert n reads refused. induction l as [|e l IH]; intros n reads refused; cbn [fare]; [by intros [= <- <-]|].
  destruct (album_read a n) as [b|]; [destruct (Z.eqb_spec (an_result a (3 + n)) OPRT_OK)|].
  2: by intros [= <- <-].
  all: destruct (fare a l _) as [reads' refused'] eqn:Hf; intros [= <- <-]; apply IH in Hf;
    destruct refused' as [[[e' b'] err]|]; cbn [length lookup list_lookup]; [exact Hf|by f_equal].
Qed.

(** More calls, [new] in order. *)
Definition did (new : list DEV_CALL) (d d' : Device) : Prop := dv_calls d' = (rev new ++ dv_calls d)%list.

Lemma did_trans a b d1 d2 d3 : did a d1 d2 -> did b d2 d3 -> did (a ++ b)%list d1 d3.
Proof. unfold did. intros -> ->. by rewrite rev_app_distr, app_assoc. Qed.

Section Sending.
Context `{CFG : ModeConfig} (mutex_ok : bool).
Implicit Types (p : PICTURE_STATICS) (d : Device).

(** What sending [count] pictures from [idx] on leaves, by the answers the
    device gives: all were handled, or the agent refused one and the loop
    stopped there with its error. *)
Definition sent (count idx : nat) (has : bool) p d (r : OPERATE_RET + bool) p' d' : Prop :=
  s_ai_picture p' = s_ai_picture p /\ sg_pic_num p' = sg_pic_num p /\ queue_ok p' /\
  map slot_name (sg_pic_input p') = map slot_name (sg_pic_input p) /\
  let l := take count (drop idx (sg_pic_input p)) in
  let '(reads, refused) := fare (dv_answers d) l (dv_asked d) in
  match refused with
  | None => r = inr (has || existsb (fun r => bool_decide (is_Some r)) reads) /\
      did (concat (zip_with slot_calls l reads)) d d'
  | Some (e, b, err) => r = inl err /\
      did (concat (zip_with slot_calls l reads) ++ [image_album_read (slot_name e); tuya_ai_image_input b])%list d d'
  end.

(** The slots behind [idx] of [p1] are those of [p], and so are all names. *)
Definition edited (idx : nat) p p1 : Prop :=
  s_ai_picture p1 = s_ai_picture p /\ sg_pic_num p1 = sg_pic_num p /\
  length (sg_pic_input p1) = length (sg_pic_input p) /\
  map slot_name (sg_pic_input p1) = map slot_name (sg_pic_input p) /\
  drop (S idx) (sg_pic_input p1) = drop (S idx) (sg_pic_input p).

Lemma edited_refl idx p : edited idx p p.
Proof. by split_and!. Qed.

Lemma edited_slot idx data text p p1 : edited idx p p1 -> edited idx p (edit_slot idx data text p1).
Proof.
  intros (Ha & Hn & Hl & Hm & Hd). unfold edited, edit_slot. cbn [s_ai_picture sg_pic_num sg_pic_input].
  rewrite length_alter, drop_alter_lt by lia. split_and!; try done. rewrite <- Hm.
  apply list_eq. intros i. rewrite !list_lookup_fmap, list_lookup_alter. destruct (decide (idx = i)) as [->|]; [|done].
  by destruct (sg_pic_input p1 !! i).
Qed.

Lemma edited_ok idx p p1 : edited idx p p1 -> queue_ok p -> queue_ok p1.
Proof. intros (_ & Hn & Hl & _). unfold queue_ok. by rewrite Hn, Hl. Qed.

(** One picture handled, then the rest. *)
Lemma sent_more count idx has p d e read k p1 d1 r p' d' :
  sg_pic_input p !! idx = Some e -> edited idx p p1 -> did (slot_calls e read) d d1 ->
  dv_answers d1 = dv_answers d -> dv_asked d1 = (k + dv_asked d)%nat ->
  (forall l, fare (dv_answers d) (e :: l) (dv_asked d) =
     let '(reads, refused) := fare (dv_answers d) l (k + dv_asked d) in (read :: reads, refused)) ->
  sent count (S idx) (has || bool_decide (is_Some read)) p1 d1 r p' d' -> sent (S count) idx has p d r p' d'.
Proof.
  intros He (Ha & Hn & Hl & Hm & Hd) Hdid Hans Hask Hfare (Ha' & Hn' & Hq & Hm' & Hr).
  split_and!; [congruence|congruence|done|congruence|]. rewrite (drop_S _ _ _ He). cbn [take].
  cbv zeta in Hr. rewrite Hans, Hask, Hd in Hr. rewrite Hfare. destruct (fare _ _ _) as [reads refused].
  destruct refused as [[[e' b] err]|]; destruct Hr as [-> Hc]; cbn [zip_with concat existsb]; (split;
    [by rewrite ?orb_assoc|rewrite <- ?app_assoc; by eapply did_trans]).
Qed.

Lemma send_pictures_wp count idx has p d : queue_ok p -> (idx + count <= Z.to_nat (sg_pic_num p))%nat ->
  wp (send_pictures count idx has) (fun r s' => sent count idx has p d r (fst s') (snd s')) (p, d).
Proof.
  revert idx has p d. induction count as [|count IH]; intros idx has p d Hq Hc; cbn [send_pictures].
  { wp_step. split_and!; try done. split; [by rewrite orb_false_r|done]. }
  pose proof Hq as [Hl Hn]. do 2 mode_step.
  destruct (sg_pic_input p !! idx) as [e|] eqn:He; [|apply lookup_ge_None in He; lia].
  mode_step. apply (wp_pure _ e); [done|]. do 7 mode_step.
  assert (Hrest : forall read k p1 d1, edited idx p p1 -> did (slot_calls e read) d d1 ->
    dv_answers d1 = dv_answers d -> dv_asked d1 = (k + dv_asked d)%nat ->
    (forall l, fare (dv_answers d) (e :: l) (dv_asked d) =
       let '(reads, refused) := fare (dv_answers d) l (k + dv_asked d) in (read :: reads, refused)) ->
    wp (send_pictures count (S idx) (has || bool_decide (is_Some read)))
      (fun r s' => sent (S count) idx has p d r (fst s') (snd s')) (p1, d1)).
  { intros read k p1 d1 Hed Hdid Hans Hask Hfare. pose proof Hed as (_ & Hn1 & _). eapply wp_mono; [apply IH|].
    - by eapply edited_ok.
    - rewrite Hn1. lia.
    - intros r [p' d'] Hs. by eapply sent_more. }
  match goal with |- context [if ?x =? ?y then ?u else None] =>
    change (if x =? y then u else None) with (album_read (dv_answers d) (dv_asked d)) end.
  destruct (album_read _ _) as [b|] eqn:Hread.
  2: { do 4 mode_step. specialize (Hrest None 3%nat). rewrite bool_decide_false, orb_false_r in Hrest by by intros [].
       apply Hrest; [apply edited_refl|done..|]. intros l. cbn [fare]. by rewrite Hread. }
  specialize (Hrest (Some b)). rewrite bool_decide_true, orb_true_r in Hrest by done.
  assert (Hb : edited idx p (edit_slot idx (Some b) (pic_text e) p)) by by apply edited_slot, edited_refl.
  do 9 mode_step.
  match goal with |- context [?x =? OPRT_OK] => change x with (an_result (dv_answers d) (3 + dv_asked d)) end.
  destruct (an_result (dv_answers d) (3 + dv_asked d) =? OPRT_OK) eqn:Hsent; cbn [negb].
  2: { mode_step. destruct Hb as (Ha & Hnum & Hlen & Hm & _). split_and!; [done|done|..|].
    { by eapply edited_ok; [apply edited_slot, edited_refl|]. }
    { exact Hm. }
    rewrite (drop_S _ _ _ He). cbn [take fare]. rewrite Hread, Hsent. cbv zeta. by rewrite zip_with_nil_r. }
  do 4 mode_step. unfold slot_calls in Hrest. destruct (pic_text e) as [t|] eqn:Htext.
  - mode_steps. apply (Hrest 6%nat); [by repeat apply edited_slot|done..|]. intros l. cbn [fare]. by rewrite Hread, Hsent, Htext.
  - mode_steps. apply (Hrest 5%nat); [by repeat apply edited_slot|done..|]. intros l. cbn [fare]. by rewrite Hread, Hsent, Htext.
Qed.

(** What the mode does when the pictures have been sent. *)
Definition sent_event_calls : list DEV_CALL :=
  ((if mutex_ok then [tal_mutex_lock] else []) ++
   (if ENABLE_TUYA_UI then [tuya_ai_display_msg TY_DISPLAY_TP_CLEAR_ATTACHMENT] else []) ++
   (if mutex_ok then [tal_mutex_unlock] else []))%list.

(** The mode after that event: idle. *)
Definition sent_event p : PICTURE_STATICS :=
  put_picture (mk_statics (mk_param (wakeup_stat (s_ai (s_ai_picture p))) AI_CHAT_IDLE) (s_ai_cur_state (s_ai_picture p))) p.

Definition clear_attachment : list DEV_CALL :=
  if ENABLE_TUYA_UI then [tuya_ai_display_msg TY_DISPLAY_TP_CLEAR_ATTACHMENT] else [].

Lemma sent_event_wp w st cur d (Q : OPERATE_RET -> MODE_STATICS * Device -> Prop) :
  (forall d', did clear_attachment d d' -> Q OPRT_OK (mk_statics (mk_param w AI_CHAT_IDLE) cur, d')) ->
  wp (wukong_ai_picture_event_cb (Some (DataEvent (mk_event WUKONG_AI_EVENT_SEND_PICTURE_END None))) 0) Q
    (mk_statics (mk_param w st) cur, d).
Proof.
  intros HQ. unfold wukong_ai_picture_event_cb, clear_attachment in *. cbn [ev_type].
  destruct ENABLE_TUYA_UI eqn:Hui; mode_steps; by apply HQ.
Qed.

Lemma sent_notify_wp p d : wp (picture_event_notify mutex_ok (mk_event WUKONG_AI_EVENT_SEND_PICTURE_END None))
  (fun _ r => fst r = sent_event p /\ did sent_event_calls d (snd r)) (p, d).
Proof.
  unfold picture_event_notify, sent_event_calls. fold clear_attachment. destruct p as [[[w st] cur] l n], mutex_ok.
  - do 3 mode_step. apply wp_on_part. cbn [s_ai_picture]. apply sent_event_wp. intros d' Hd. cbn [snd fst].
    apply wp_mode_dev. split; [done|].
    apply (did_trans [tal_mutex_lock] _ d (called tal_mutex_lock d)); [done|]. by eapply did_trans; [exact Hd|].
  - do 3 mode_step. apply wp_on_part. cbn [s_ai_picture]. apply sent_event_wp. intros d' Hd. wp_step. split; [done|].
    by rewrite app_nil_r.
Qed.

(** What sending the queue leaves, by the answers the device gives. *)
Definition album_sent p d (rt : OPERATE_RET) p' d' : Prop :=
  let l := take (Z.to_nat (sg_pic_num p)) (sg_pic_input p) in
  let '(reads, refused) := fare (dv_answers d) l (dv_asked d) in
  match refused with
  | None =>
      rt = OPRT_OK /\ length reads = length l /\ sg_pic_num p' = 0 /\ sg_pic_input p' = pictures_none /\
      let any := existsb (fun r => bool_decide (is_Some r)) reads in
      s_ai_picture p' = s_ai_picture (if any : bool then sent_event p else p) /\
      did (concat (zip_with slot_calls l reads) ++ if any then sent_event_calls else [])%list d d'
  | Some (e, b, err) =>
      rt = err /\ rt <> OPRT_OK /\ l !! length reads = Some e /\
      s_ai_picture p' = s_ai_picture p /\ sg_pic_num p' = sg_pic_num p /\
      map slot_name (sg_pic_input p') = map slot_name (sg_pic_input p) /\
      did (concat (zip_with slot_calls l reads) ++ [image_album_read (slot_name e); tuya_ai_image_input b])%list d d'
  end.

Lemma from_album_wp p d : queue_ok p ->
  wp (wukong_picture_input_from_album mutex_ok)
     (fun rt r => queue_ok (fst r) /\ album_sent p d rt (fst r) (snd r)) (p, d).
Proof.
  intros Hq. unfold wukong_picture_input_from_album. do 2 mode_step. mode_step.
  eapply wp_mono; [by apply send_pictures_wp|]. intros r [p1 d1] (Ha & Hn & Hq1 & Hm & Hr). cbn [fst snd] in *.
  unfold album_sent. rewrite drop_0 in Hr. destruct (fare _ _ _) as [reads refused] eqn:Hf.
  pose proof (fare_length _ _ _ _ _ Hf) as Hlen. destruct refused as [[[e b] err]|]; destruct Hr as [-> Hd].
  - wp_step. split; [done|]. destruct Hlen. by split_and!.
  - cbn [orb]. do 3 mode_step.
    assert (Hq0 : forall x, queue_ok (mk_pictures x pictures_none 0)) by done.
    destruct (existsb _ reads) eqn:Hany.
    + wp_step. eapply wp_mono; [apply sent_notify_wp|]. intros _ [p2 d2] [Hp2 Hd2]. cbn [fst snd] in *. subst p2. wp_step.
      split; [apply Hq0|]. cbn [sent_event put_picture sg_pic_num sg_pic_input s_ai_picture].
      split_and!; [done|done|done|done|by rewrite Ha|]. by eapply did_trans.
    + do 2 wp_step. split; [apply Hq0|]. rewrite app_nil_r. by split_and!.
Qed.

(** C30. Sending the queued pictures, by the answers that the album and the agent
    give to the calls: every picture, in order, is read, and when the album
    gives its bytes these are sent, with its text behind them, and it is given
    back; when the read fails it is given back unread. Then the queue is empty,
    and the mode goes back to idle if any was sent. At the first picture the
    agent refuses, the call fails at once with the agent's error and keeps the
    whole queue, the pictures already sent and given back included. *)
Theorem pictures_sent p d : queue_ok p ->
  exists rt p' d', wukong_picture_input_from_album mutex_ok (p, d) = Some (rt, (p', d')) /\ queue_ok p' /\ album_sent p d rt p' d'.
Proof.
  intros Hq. destruct (wp_elim _ _ _ (from_album_wp p d Hq)) as (rt & [p' d'] & Hr & Hq' & Hs). by exists rt, p', d'.
Qed.

(** *** Adding and removing pictures *)

(** The pictures queued, in order. *)
Definition queued p : list WUKONG_PICTURE_INPUT_T := take (Z.to_nat (sg_pic_num p)) (sg_pic_input p).

(** The result of a call may be anything. *)
Ltac generalize_result rt := match goal with |- context [an_result ?a ?b] => generalize (an_result a b); intros rt end.

Lemma length_queued p : queue_ok p -> length (queued p) = Z.to_nat (sg_pic_num p).
Proof. intros [Hl Hn]. unfold queued. rewrite length_take. lia. Qed.

(** A picture is added behind the others, up to three. *)
Lemma picture_add_wp name text p d : queue_ok p ->
  wp (wukong_picture_input_add_from_album name text) (fun rt r => let p' := fst r in
    queue_ok p' /\ s_ai_picture p' = s_ai_picture p /\
    if (length (queued p) =? 3)%nat then rt = OPRT_EXCEED_UPPER_LIMIT /\ r = (p, d)
    else if rt =? OPRT_OK then exists e, queued p' = (queued p ++ [e])%list /\ pc_data (pic e) = None
    else p' = p) (p, d).
Proof.
  intros Hq. pose proof Hq as [Hl Hn]. rewrite (length_queued p Hq). unfold wukong_picture_input_add_from_album. do 2 mode_step.
  destruct (Z.leb_spec WUKONG_PICTURE_INPUT_MAX_NUM (sg_pic_num p)) as [Hfull|Hroom];
    unfold WUKONG_PICTURE_INPUT_MAX_NUM in *.
  { replace (_ =? 3)%nat with true by (symmetry; apply Nat.eqb_eq; lia). wp_step. by split_and!. }
  replace (_ =? 3)%nat with false by (symmetry; apply Nat.eqb_neq; lia). do 5 mode_step.
  generalize_result rt0. destruct (Z.eqb_spec rt0 OPRT_OK) as [Hok|Hbad]; cbn [negb].
  2: { wp_step. split; [done|]. split; [done|]. by destruct (Z.eqb_spec rt0 OPRT_OK). }
  do 2 mode_step. destruct (an_item _ _) as [nm [wd ht]].
  assert (Hend : forall copy d', wp (let* _ := set_queue (<[Z.to_nat (sg_pic_num p) :=
        mk_pic_input (mk_picture (strtrunc WUKONG_PICTURE_NAME_MAX_LEN nm) (wd mod 2 ^ 16) (ht mod 2 ^ 16) 0 None) copy]>
        (sg_pic_input p)) (sg_pic_num p + 1) in cret OPRT_OK)
      (fun rt r => queue_ok (fst r) /\ s_ai_picture (fst r) = s_ai_picture p /\
        if rt =? OPRT_OK then exists e, queued (fst r) = (queued p ++ [e])%list /\ pc_data (pic e) = None
        else fst r = p) (p, d')).
  { intros copy d'. set (e := mk_pic_input _ copy). mode_steps. split_and!; try done.
    - split; cbn [sg_pic_input sg_pic_num]; [by rewrite length_insert|unfold WUKONG_PICTURE_INPUT_MAX_NUM; lia].
    - exists e. split; [|done]. unfold queued. cbn [sg_pic_input sg_pic_num].
      replace (Z.to_nat (sg_pic_num p + 1)) with (S (Z.to_nat (sg_pic_num p))) by lia.
      rewrite (take_S_r _ _ e) by (apply list_lookup_insert_eq; lia). by rewrite take_insert_ge. }
  mode_step. destruct text as [t|]; [|wp_step; apply Hend].
  destruct (0 <? String.length t)%nat; [|wp_step; apply Hend]. do 2 mode_step. destruct (an_bool _ _); wp_step; apply Hend.
Qed.

Lemma find_picture_spec name l i count : (i + count <= length l)%nat ->
  match find_picture name l i count with
  | Some k => (i <= k < i + count)%nat /\ exists e, l !! k = Some e /\ slot_name e = name /\
      forall j e', (i <= j < k)%nat -> l !! j = Some e' -> slot_name e' <> name
  | None => forall j e', (i <= j < i + count)%nat -> l !! j = Some e' -> slot_name e' <> name
  end.
Proof.
  revert i. induction count as [|count IH]; intros i Hi; cbn [find_picture]; [lia|].
  destruct (l !! i) as [e|] eqn:He; [|apply lookup_ge_None in He; lia].
  destruct (String.eqb_spec name (pc_name (pic e))) as [Heq|Hne].
  { split; [lia|]. exists e. split_and!; [done|done|]. intros. lia. }
  specialize (IH (S i) ltac:(lia)). destruct (find_picture name l (S i) count) as [k|].
  - destruct IH as (Hk & e2 & He2 & Hn2 & Hfirst). split; [lia|]. exists e2. split_and!; [done|done|].
    intros j e' Hj Hje. destruct (decide (j = i)) as [->|]; [|apply (Hfirst j); [lia|done]]. unfold slot_name. congruence.
  - intros j e' Hj Hje. destruct (decide (j = i)) as [->|]; [|apply (IH j); [lia|done]]. unfold slot_name. congruence.
Qed.

(** The slots behind a removed one move up; how the last place looks does not
    matter. *)
Lemma removed_slots {A} (l x : list A) (slot : A) idx n : (idx < n <= length l)%nat ->
  take (n - 1) (take idx (<[idx := slot]> l) ++ drop (S idx) (<[idx := slot]> l) ++ x)%list =
  (take idx (take n l) ++ drop (S idx) (take n l))%list.
Proof.
  intros Hn. rewrite take_insert_ge, drop_insert_lt by lia. rewrite take_app_ge by (rewrite length_take; lia).
  rewrite length_take, take_app_le by (rewrite length_drop; lia).
  rewrite take_take, take_drop_commute. do 2 f_equal; [lia|f_equal; lia].
Qed.

(** The first picture queued under the name is taken out and given back. *)
Lemma picture_del_wp name p d : queue_ok p ->
  wp (wukong_picture_input_del_from_album name) (fun rt r => let p' := fst r in
    queue_ok p' /\ s_ai_picture p' = s_ai_picture p /\
    if rt =? OPRT_OK then
      exists idx e, queued p !! idx = Some e /\ slot_name e = name /\
        (forall j e', (j < idx)%nat -> queued p !! j = Some e' -> slot_name e' <> name) /\
        queued p' = (take idx (queued p) ++ drop (S idx) (queued p))%list
    else p' = p /\ (rt = OPRT_NOT_FOUND \/ exists e, e ∈ queued p /\ slot_name e = name)) (p, d).
Proof.
  intros Hq. pose proof Hq as [Hl Hn]. unfold wukong_picture_input_del_from_album. do 2 mode_step.
  pose proof (find_picture_spec name (sg_pic_input p) 0 (Z.to_nat (sg_pic_num p)) ltac:(lia)) as Hf.
  destruct (find_picture _ _ _ _) as [idx|]; [|wp_step; split; [done|]; split; [done|]; split; [done|by left]].
  destruct Hf as (Hidx & e & He & Hname & Hfirst). mode_step. apply (wp_pure _ e); [done|]. do 5 mode_step.
  assert (Hqe : queued p !! idx = Some e) by (unfold queued; by rewrite lookup_take_lt by lia).
  generalize_result rt0. destruct (Z.eqb_spec rt0 OPRT_OK) as [Hok|Hbad]; cbn [negb].
  2: { wp_step. split; [done|]. split; [done|]. destruct (Z.eqb_spec rt0 OPRT_OK); [done|]. split; [done|]. right.
       exists e. split; [by eapply list_elem_of_lookup_2|done]. }
  mode_step. eapply wp_mono with (Q := fun _ s' => exists d', s' = (p, d')).
  { destruct (pc_data (pic e)); mode_steps; by eexists. }
  intros data [p1 d1] [d' Heq]. injection Heq as -> ->. mode_steps. cbn [fst snd]. split_and!; [|done|].
  - split; cbn [sg_pic_input sg_pic_num]; [|unfold WUKONG_PICTURE_INPUT_MAX_NUM in *; lia].
    rewrite !length_app, length_take, !length_drop, !length_insert.
    unfold WUKONG_PICTURE_INPUT_MAX_NUM in *. lia.
  - exists idx, e. split_and!; [done|done| |].
    + intros j e' Hj He'. apply (Hfirst j); [lia|]. unfold queued in He'. by rewrite lookup_take_lt in He' by lia.
    + unfold queued. cbn [sg_pic_input sg_pic_num].
      replace (Z.to_nat (sg_pic_num p - 1)) with (Z.to_nat (sg_pic_num p) - 1)%nat by lia. apply removed_slots. lia.
Qed.

(** *** What the manager relies on *)

(** The outputs are those of hold mode in the same states. *)
Definition picture_awake p (calls : list DEV_CALL) : Prop := queue_ok p /\ awake Hold (s_ai_picture p) calls.
Definition picture_asleep p : Prop := queue_ok p /\ asleep (s_ai_picture p).

(** The name of a picture accepted is there. *)
Definition picture_payload (op : AI_MODE_OP_E) (data : option AI_DATA) : bool :=
  payload_ok op data &&
  match op, data with
  | AI_MODE_OP_EVENT, Some (DataEvent (mk_event WUKONG_AI_EVENT_ACCEPT_PICTURE ev)) =>
      match ev with Some (EvName _) => true | _ => false end
  | _, _ => true
  end.

Lemma awake_silent m x c calls : silent c = true -> awake m x calls -> awake m x (c :: calls).
Proof. intros Hc (? & ? & ? & ?). split_and!; [done..|]. by apply shows_silent. Qed.

Lemma awake_did m x new d d' : Forall (fun c => silent c = true) new -> did new d d' ->
  awake m x (dv_calls d) -> awake m x (dv_calls d').
Proof.
  intros Hs -> Ha. apply Forall_rev in Hs. revert Hs. induction (rev new) as [|c l IH]; intros Hs; [done|].
  apply Forall_cons in Hs as [Hc Hs]. cbn [app]. by apply awake_silent, IH.
Qed.

Lemma slot_calls_silent l reads : Forall (fun c => silent c = true) (concat (zip_with slot_calls l reads)).
Proof.
  revert reads. induction l as [|e l IH]; intros [|r reads]; cbn [zip_with concat]; try by constructor.
  apply Forall_app. split; [|apply IH]. unfold slot_calls. destruct r, (pic_text e); by repeat constructor.
Qed.

Lemma sent_event_silent : Forall (fun c => silent c = true) sent_event_calls.
Proof. unfold sent_event_calls. destruct mutex_ok, ENABLE_TUYA_UI; by repeat constructor. Qed.

Lemma album_sent_awake p d rt p' d' : album_sent p d rt p' d' -> awake Hold (s_ai_picture p) (dv_calls d) ->
  awake Hold (s_ai_picture p') (dv_calls d').
Proof.
  unfold album_sent. destruct (fare _ _ _) as [reads [[[e b] err]|]]; intros Hs Ha.
  - destruct Hs as (_ & _ & _ & -> & _ & _ & Hd). eapply awake_did; [|exact Hd|done].
    apply Forall_app. split; [apply slot_calls_silent|]. by repeat constructor.
  - destruct Hs as (_ & _ & _ & _ & -> & Hd). eapply awake_did; [|exact Hd|].
    + apply Forall_app. split; [apply slot_calls_silent|]. destruct (existsb _ _); [apply sent_event_silent|done].
    + destruct (existsb _ _); [|done]. destruct Ha as (Hi & Hv & Hu & Hsh). by split_and!.
Qed.

Lemma picture_vad_wp p d data len : payload_ok AI_MODE_OP_VAD data = true -> picture_awake p (dv_calls d) ->
  wp (wukong_ai_picture_vad mutex_ok data len) (fun _ r => picture_awake (fst r) (dv_calls (snd r))) (p, d).
Proof.
  intros Hp [Hq Ha]. destruct data as [[|f| |]|]; try done. unfold wukong_ai_picture_vad. cbv beta iota.
  destruct (_ && _); [|mode_steps; split; [done|]; cbn; by repeat apply awake_silent].
  mode_step. mode_step. mode_step; [mode_steps; by split|].
  do 5 mode_step. set (d1 := called (tuya_ai_input_start false) _).
  assert (Ha1 : awake Hold (s_ai_picture p) (dv_calls d1)).
  { apply awake_silent; [done|]. by apply awake_silent. }
  assert (Hend : forall p' d', queue_ok p' -> awake Hold (s_ai_picture p') (dv_calls d') ->
    wp (let* _ := dev (tuya_ai_toy_idle_timer_ctrl false) in cret OPRT_OK)
       (fun _ r => picture_awake (fst r) (dv_calls (snd r))) (p', d')).
  { intros p' d' Hq' Ha'. mode_steps. split; [done|]. by apply awake_silent. }
  destruct ENABLE_TUYA_PICTURE; [|wp_step; by apply Hend].
  mode_step. unfold wukong_picture_input_get_num. do 3 mode_step. destruct (0 <? _); [|wp_step; by apply Hend].
  mode_step. eapply wp_mono; [by apply from_album_wp|]. intros rt [p' d'] [Hq' Hs]. cbn [fst snd] in *. wp_step.
  apply Hend; [done|]. by eapply album_sent_awake.
Qed.

(** A callback of the mode proper, on the whole. *)
Lemma picture_zoom_wp p d (f : HANDLER) data len : queue_ok p ->
  wp (f data len) (fun _ r => awake Hold (fst r) (dv_calls (snd r))) (s_ai_picture p, d) ->
  wp (zoom s_ai_picture put_picture f data len) (fun _ r => picture_awake (fst r) (dv_calls (snd r))) (p, d).
Proof. intros Hq Hw. apply wp_zoom. eapply wp_mono; [exact Hw|]. intros _ [x' d'] Ha. by split. Qed.

Ltac still_awake := split_and!; cbn; repeat apply shows_silent; done.

Lemma picture_init_wp p d data len : picture_asleep p ->
  wp (zoom s_ai_picture put_picture wukong_ai_picture_int_cb data len)
     (fun _ r => picture_awake (fst r) (dv_calls (snd r))) (p, d).
Proof.
  intros [Hq Hs]. apply picture_zoom_wp; [done|]. destruct (s_ai_picture p) as [[w st] cur]. unfold asleep in Hs.
  cbn in Hs. subst cur. unfold wukong_ai_picture_int_cb. mode_steps. by split_and!.
Qed.

Lemma picture_deinit_wp p d data len : picture_awake p (dv_calls d) ->
  wp (zoom s_ai_picture put_picture wukong_ai_picture_deint_cb data len) (fun _ r => picture_asleep (fst r)) (p, d).
Proof.
  intros [Hq _]. apply wp_zoom. unfold wukong_ai_picture_deint_cb. mode_steps. by split.
Qed.

Lemma picture_event_wp x d data len : picture_payload AI_MODE_OP_EVENT data = true -> awake Hold x (dv_calls d) ->
  wp (wukong_ai_picture_event_cb data len) (fun _ r => awake Hold (fst r) (dv_calls (snd r))) (x, d).
Proof.
  destruct x as [[w st] cur]. intros Hp (Hi & Hv & Hu & Hs). cbn in Hi, Hv, Hu, Hs.
  destruct data as [[| |[ty ev]|]|]; try done. unfold wukong_ai_picture_event_cb.
  apply andb_true_iff in Hp as [Hok Hpic]. cbn in Hok. mode_step.
  destruct ty; cbn [ev_type ev_data];
    first [wp_step; wp_step; still_awake
          |destruct ev as [[]|]; try done; mode_steps; still_awake].
Qed.

(** Any callback once the mode is initialised. *)
Lemma picture_op_wp op f p d data len :
  callback_for (ai_picture_register mutex_ok) op = Some f -> op <> AI_MODE_OP_INIT -> op <> AI_MODE_OP_DEINIT ->
  picture_payload op data = true -> picture_awake p (dv_calls d) ->
  wp (f data len) (fun _ r => picture_awake (fst r) (dv_calls (snd r))) (p, d).
Proof.
  intros Hf Hni Hnd Hp [Hq Ha]. destruct op; cbn in Hf; try done; injection Hf as <-.
  all: lazymatch goal with
       | |- wp (zoom _ _ _ _ _) _ _ => apply picture_zoom_wp; [exact Hq|]
       | |- _ => by apply picture_vad_wp; [apply andb_true_iff in Hp as [Hp _]|split]
       end.
  3: by apply picture_event_wp.
  all: destruct (s_ai_picture p) as [[w st] cur]; destruct Ha as (Hi & Hv & Hu & Hs); cbn in Hi, Hv, Hu, Hs.
  - destruct data as [[k| | |]|]; try done. unfold wukong_ai_picture_key_cb. destruct k; mode_steps; still_awake.
  - unfold wukong_ai_picture_task_cb. do 2 mode_step. case_bool_decide as Hc; [mode_step; subst; by split_and!|].
    destruct st; try done; mode_steps; by split_and!.
  - mode_steps. still_awake.
  - mode_steps. still_awake.
  - mode_steps. still_awake.
Qed.

End Sending.

#[local] Existing Instance demo_config.

(** Pictures sent while the key is held end the listening: the event that they
    are sent makes the mode idle, its next step shuts the microphone, and letting
    the key go does nothing. *)
Example picture_sent_stops_listening :
  let run (m : C (PICTURE_STATICS * Device) OPERATE_RET) (k : C (PICTURE_STATICS * Device) OPERATE_RET) :=
    (let* _ := m in k) in
  let key k := zoom s_ai_picture put_picture wukong_ai_picture_key_cb (Some (DataKey k)) 4 in
  let task := zoom s_ai_picture put_picture wukong_ai_picture_task_cb None 0 in
  match
    (run (wukong_picture_input_add_from_album "picture.jpg" None)
      (run (zoom s_ai_picture put_picture wukong_ai_picture_int_cb None 0)
        (run (key LONG_KEY) (run task
          (run (wukong_ai_picture_vad true (Some (DataVad WUKONG_AUDIO_VAD_START)) 4)
            (run task (run (key RELEASE_KEY) task))))))) (picture_zero, calm_device)
  with
  | Some (_, (p, d)) =>
      state (s_ai (s_ai_picture p)) = AI_CHAT_IDLE /\ gate (dv_calls d) = Some false /\ sg_pic_num p = 0
  | None => False
  end.
Proof. by vm_compute. Qed.

(** One picture queued, with a text. *)
Definition demo_pictures : PICTURE_STATICS :=
  mk_pictures statics_zero
    (mk_pic_input (mk_picture "picture.jpg" 480 480 0 None) (Some "look") :: drop 1 pictures_none) 1.

Lemma pictures_sent_witness : exists rt p' d',
  wukong_picture_input_from_album true (demo_pictures, calm_device) = Some (rt, (p', d')) /\ queue_ok p' /\
  album_sent true demo_pictures calm_device rt p' d'.
Proof. apply (pictures_sent true). by split. Defined.

