(* ===== verification/ModeDetect.v ===== *)
(** The detection mode (src/mode/wukong_ai_mode_detection.c): the camera is
    watched until something moves, a photo goes to the cloud, the answer is
    played, and the camera is watched again. *)
From stdpp Require Import list.
From S2P Require Import Prelude.
From S2P Require Import World.
From S2P Require Import TmHost.
From S2P Require Import ModeHost.
From S2P Require Import ModeMgr.
From S2P Require Import ModeChat.

#[local] Open Scope string_scope.
#[local] Open Scope Z_scope.

Definition MD_SKIP_FRAMES : Z := 50.
Definition MD_WARMUP_FRAMES : Z := 10.
Definition MD_COOLDOWN_MS : Z := 10000.
Definition MD_THINK_TIMEOUT_MS : Z := 10000.

Record CAM_FRAME_T := mk_frame { fr_data : list Z; fr_width : Z; fr_height : Z }.

Record DETECTION_STATICS := mk_md {
  s_ai_detection : AI_CHAT_MODE_PARAM_T;
  s_md_inited : bool;
  s_md_y_buf : option (list Z);
  s_md_frame_cnt : Z;
  s_md_last_motion_ms : Z;
  s_md_photo_pending : bool;
  s_md_think_start_ms : Z }.

Definition detection_zero : DETECTION_STATICS := mk_md (mk_param false AI_CHAT_INIT) false None 0 0 false 0.

(** ** Sampling a frame *)

Section Extract.
Context (yuv422 : list Z) (src_w src_h dst_w dst_h : Z).

(** A pixel has two bytes, the second its luma. The frame is in memory, so the
    index is an int. *)
Definition luma_index (i j : Z) : Z := j * (src_h / dst_h) * src_w * 2 + (i * (src_w / dst_w)) * 2 + 1.

Fixpoint extract_row (count : nat) (i j : Z) (y_out : list Z) : option (list Z) :=
  match count with
  | O => Some y_out
  | S count =>
      match yuv422 !! Z.to_nat (luma_index i j) with
      | Some b =>
          if (Z.to_nat (j * dst_w + i) <? length y_out)%nat
          then extract_row count (i + 1) j (<[Z.to_nat (j * dst_w + i) := b]> y_out) else None
      | None => None
      end
  end.

Fixpoint extract_rows (count : nat) (j : Z) (y_out : list Z) : option (list Z) :=
  match count with
  | O => Some y_out
  | S count =>
      match extract_row (Z.to_nat dst_w) 0 j y_out with
      | Some y_out => extract_rows count (j + 1) y_out
      | None => None
      end
  end.

(** Fails on a division by zero, a read outside the frame and a write outside
    the buffer. *)
Definition __extract_y_downsample (y_out : list Z) : option (list Z) :=
  if (dst_w =? 0) || (dst_h =? 0) then None else extract_rows (Z.to_nat dst_h) 0 y_out.

End Extract.

Section Detection.
Context `{CFG : ModeConfig}.
Abbreviation M := (C (DETECTION_STATICS * Device)).
Definition MD_HANDLER : Type := CALLBACK (DETECTION_STATICS * Device).

Definition MD_DS_WIDTH : Z := TUYA_AI_TOY_ISP_WIDTH / 3.
Definition MD_DS_HEIGHT : Z := TUYA_AI_TOY_ISP_HEIGHT / 3.

Definition md_set_state (new : AI_CHAT_STATE_E) : M unit :=
  mod_ctx (fun s => mk_md (mk_param (wakeup_stat (s_ai_detection s)) new) (s_md_inited s) (s_md_y_buf s)
    (s_md_frame_cnt s) (s_md_last_motion_ms s) (s_md_photo_pending s) (s_md_think_start_ms s)).
Definition md_set_algo (inited : bool) (buf : option (list Z)) : M unit :=
  mod_ctx (fun s => mk_md (s_ai_detection s) inited buf
    (s_md_frame_cnt s) (s_md_last_motion_ms s) (s_md_photo_pending s) (s_md_think_start_ms s)).
Definition md_set_frame_cnt (n : Z) : M unit :=
  mod_ctx (fun s => mk_md (s_ai_detection s) (s_md_inited s) (s_md_y_buf s)
    n (s_md_last_motion_ms s) (s_md_photo_pending s) (s_md_think_start_ms s)).
Definition md_set_last_motion (t : Z) : M unit :=
  mod_ctx (fun s => mk_md (s_ai_detection s) (s_md_inited s) (s_md_y_buf s)
    (s_md_frame_cnt s) t (s_md_photo_pending s) (s_md_think_start_ms s)).
Definition md_set_pending (b : bool) : M unit :=
  mod_ctx (fun s => mk_md (s_ai_detection s) (s_md_inited s) (s_md_y_buf s)
    (s_md_frame_cnt s) (s_md_last_motion_ms s) b (s_md_think_start_ms s)).
Definition md_set_think_start (t : Z) : M unit :=
  mod_ctx (fun s => mk_md (s_ai_detection s) (s_md_inited s) (s_md_y_buf s)
    (s_md_frame_cnt s) (s_md_last_motion_ms s) (s_md_photo_pending s) t).

(** Read into a UINT32_T. *)
Definition tal_system_get_millisecond : M Z := let* t := on_host (answered an_ms) in cret (t mod 2 ^ 32).

(** What the clock shows next. *)
Definition ms_now (d : Device) : Z := an_ms (dv_answers d) (dv_asked d) mod 2 ^ 32.
Lemma ms_wp (Q : Z -> DETECTION_STATICS * Device -> Prop) s d :
  Q (ms_now d) (s, asked d) -> wp tal_system_get_millisecond Q (s, d).
Proof. done. Qed.

(** The mode is waiting for the cloud or playing its answer. *)
Definition md_busy (s : DETECTION_STATICS) : bool :=
  bool_decide (state (s_ai_detection s) = AI_CHAT_THINK) || bool_decide (state (s_ai_detection s) = AI_CHAT_SPEAK).

(** The request that the detection screen makes. *)
Definition __on_get_detection_msg : M unit :=
  let* s := get_ctx in
  let* _ :=
    (if md_busy s then
       let* _ := dev wukong_audio_player_stop_all in dev tuya_ai_agent_event_chat_break
     else cret tt) in
  let* _ := dev camera_unsubscribe_md in
  let* _ := md_set_state AI_CHAT_THINK in
  let* _ := dev (tuya_ai_agent_set_scode AI_AGENT_SCODE_DETECTION) in
  let* _ := dev (tuya_ai_input_start true) in
  let* _ := dev_rt (wukong_ai_agent_send_text "summary") in
  let* _ := dev tuya_ai_input_stop in
  let* now := tal_system_get_millisecond in
  md_set_think_start now.

Definition __md_resume_detection : M unit :=
  let* _ := md_set_frame_cnt 0 in
  let* _ := md_set_pending false in
  let* _ := md_set_think_start 0 in
  let* now := tal_system_get_millisecond in
  let* _ := md_set_last_motion now in
  let* _ := md_set_state AI_CHAT_IDLE in
  dev camera_subscribe_md.

Definition __md_text_stream (type : WUKONG_AI_EVENT_TYPE_E) (data : option EVENT_DATA) : M unit :=
  text_stream type data.
Definition __md_emotion (type : WUKONG_AI_EVENT_TYPE_E) (data : option EVENT_DATA) : M unit :=
  emition type data.

(** strlen of a name that is NULL is undefined. *)
Definition __md_image (data : option EVENT_DATA) : M unit :=
  if ENABLE_TUYA_UI then
    match data with
    | Some (EvName name) => display (TY_DISPLAY_TP_AI_IMAGE name)
    | _ => wrong_payload
    end
  else cret tt.

(** The buffer holds anything when it is new: here, zeros. *)
Definition __md_algo_init : M OPERATE_RET :=
  let* s := get_ctx in
  if s_md_inited s then cret OPRT_OK
  else
    let* rt := dev_rt (tuya_ipc_motion_init MD_DS_WIDTH MD_DS_HEIGHT) in
    if negb (rt =? OPRT_OK) then cret rt
    else
      let* ok := on_host (answered an_bool) in
      if negb ok then
        let* _ := md_set_algo (s_md_inited s) None in
        let* _ := dev tuya_ipc_motion_release in
        cret OPRT_MALLOC_FAILED
      else
        let* _ := md_set_algo true (Some (replicate (Z.to_nat (MD_DS_WIDTH * MD_DS_HEIGHT)) 0)) in
        cret OPRT_OK.

Definition __on_motion_detected : M unit :=
  let* _ := md_set_pending true in
  dev camera_unsubscribe_md.

Definition __on_yuv_frame (frame : option CAM_FRAME_T) : M unit :=
  let* s := get_ctx in
  match frame, s_md_inited s, s_md_y_buf s with
  | Some frame, true, Some buf =>
      if s_md_frame_cnt s <? MD_SKIP_FRAMES then md_set_frame_cnt ((s_md_frame_cnt s + 1) mod 2 ^ 32)
      else
        let* luma := cpure (__extract_y_downsample (fr_data frame) (fr_width frame) (fr_height frame)
                              MD_DS_WIDTH MD_DS_HEIGHT buf) in
        let* _ := md_set_algo true (Some luma) in
        let* ret := dev_rt (tuya_ipc_motion luma) in
        let* motion_flag := on_host (answered an_motion) in
        if s_md_frame_cnt s <? MD_SKIP_FRAMES + MD_WARMUP_FRAMES
        then md_set_frame_cnt ((s_md_frame_cnt s + 1) mod 2 ^ 32)
        else if (ret =? OPRT_OK) && (motion_flag =? 1) then
          let* now_ms := tal_system_get_millisecond in
          if MD_COOLDOWN_MS <=? (now_ms - s_md_last_motion_ms s) mod 2 ^ 32 then
            let* _ := md_set_last_motion now_ms in
            __on_motion_detected
          else cret tt
        else cret tt
  | _, _, _ => cret tt
  end.

Definition wukong_ai_detection_init_cb : MD_HANDLER := fun _ _ =>
  let* _ := dev wukong_kws_disable in
  let* _ := dev (wukong_audio_input_wakeup_mode_set WUKONG_AUDIO_VAD_MANUAL) in
  let* _ := dev (wukong_audio_input_wakeup_set false) in
  let* _ := md_set_pending false in
  let* _ := md_set_state AI_CHAT_IDLE in
  let* _ := __md_algo_init in
  let* _ := dev camera_subscribe_md in
  cret OPRT_OK.

(** The result is that of wukong_audio_input_reset. *)
Definition wukong_ai_detection_deinit_cb : MD_HANDLER := fun _ _ =>
  let* _ := dev camera_unsubscribe_md in
  let* s := get_ctx in
  let* _ :=
    (if md_busy s then
       let* _ := dev wukong_audio_player_stop_all in dev wukong_ai_agent_chat_break
     else cret tt) in
  let* _ := md_set_frame_cnt 0 in
  let* _ := md_set_last_motion 0 in
  let* _ := md_set_pending false in
  let* _ := md_set_think_start 0 in
  dev_rt wukong_audio_input_reset.

Definition wukong_ai_detection_task_cb : MD_HANDLER := fun _ _ =>
  let* s := get_ctx in
  let* timed_out :=
    (if bool_decide (state (s_ai_detection s) = AI_CHAT_THINK) && negb (s_md_think_start_ms s =? 0) then
       let* now := tal_system_get_millisecond in
       cret (MD_THINK_TIMEOUT_MS <=? (now - s_md_think_start_ms s) mod 2 ^ 32)
     else cret false) in
  if timed_out : bool then
    let* _ := md_set_think_start 0 in
    let* _ := __md_resume_detection in
    cret OPRT_OK
  else if negb (s_md_photo_pending s) || negb (bool_decide (state (s_ai_detection s) = AI_CHAT_IDLE)) then cret OPRT_OK
  else
    let* _ := md_set_pending false in
    let* _ := md_set_state AI_CHAT_UPLOAD in
    let* rt := dev_rt (camera_snapshot_jpeg 5000) in
    let* image := on_host (answered an_data) in
    match (if rt =? OPRT_OK then image else None) with
    | None | Some [] => let* _ := __md_resume_detection in cret rt
    | Some image_data =>
        let* _ := dev (wukong_ai_agent_set_scene AI_AGENT_SCODE_DETECTION) in
        let* _ := dev (wukong_ai_agent_input_start true) in
        let* rt := dev_rt (wukong_ai_agent_send_image image_data) in
        if negb (rt =? OPRT_OK) then
          let* _ := dev wukong_ai_agent_input_stop in
          let* _ := __md_resume_detection in
          cret rt
        else
          let* rt := dev_rt (wukong_ai_agent_send_text "帮我检测下这张图片") in
          if negb (rt =? OPRT_OK) then
            let* _ := dev wukong_ai_agent_input_stop in
            let* _ := __md_resume_detection in
            cret rt
          else
            let* _ := dev wukong_ai_agent_input_stop in
            let* _ := md_set_state AI_CHAT_THINK in
            let* now := tal_system_get_millisecond in
            let* _ := md_set_think_start now in
            cret OPRT_OK
    end.

Definition wukong_ai_detection_event_cb : MD_HANDLER := fun data _ =>
  match data with
  | None => cret OPRT_INVALID_PARM
  | Some (DataEvent event) =>
      let* s := get_ctx in
      let st := state (s_ai_detection s) in
      let* _ :=
        match ev_type event with
        | WUKONG_AI_EVENT_TTS_PRE =>
            if negb (bool_decide (st = AI_CHAT_THINK)) then cret tt
            else let* _ := md_set_think_start 0 in md_set_state AI_CHAT_SPEAK
        | WUKONG_AI_EVENT_TEXT_STREAM_START | WUKONG_AI_EVENT_TEXT_STREAM_DATA
        | WUKONG_AI_EVENT_TEXT_STREAM_STOP | WUKONG_AI_EVENT_TEXT_STREAM_ABORT =>
            __md_text_stream (ev_type event) (ev_data event)
        | WUKONG_AI_EVENT_EMOTION | WUKONG_AI_EVENT_LLM_EMOTION => __md_emotion (ev_type event) (ev_data event)
        | WUKONG_AI_EVENT_ACCEPT_PICTURE => __md_image (ev_data event)
        | WUKONG_AI_EVENT_SEND_PICTURE_END => display TY_DISPLAY_TP_CLEAR_ATTACHMENT
        | WUKONG_AI_EVENT_PLAY_CTL_END | WUKONG_AI_EVENT_PLAY_END =>
            if negb (bool_decide (st = AI_CHAT_SPEAK)) then cret tt else __md_resume_detection
        | WUKONG_AI_EVENT_ASR_EMPTY | WUKONG_AI_EVENT_ASR_ERROR | WUKONG_AI_EVENT_TTS_ABORT
        | WUKONG_AI_EVENT_TTS_ERROR =>
            if bool_decide (st = AI_CHAT_IDLE) then cret tt else __md_resume_detection
        | WUKONG_AI_EVENT_PLAY_CTL_RESUME => dev wukong_audio_player_resume
        | WUKONG_AI_EVENT_PLAY_CTL_PAUSE => dev wukong_audio_player_pause
        | WUKONG_AI_EVENT_PLAY_ALERT => play_alert (ev_data event)
        | _ => cret tt
        end in
      cret OPRT_OK
  | Some _ => wrong_payload
  end.

Definition wukong_ai_detection_wakeup_cb : MD_HANDLER := fun _ _ => cret OPRT_OK.
Definition wukong_ai_detection_vad_cb : MD_HANDLER := fun _ _ => cret OPRT_OK.
Definition wukong_ai_detection_client_cb : MD_HANDLER := fun _ _ => cret OPRT_OK.
Definition wukong_ai_detection_notify_idle_cb : MD_HANDLER := fun _ _ => cret OPRT_OK.

(** What the key does while the mode is busy. *)
Definition md_cancel : M unit :=
  let* _ := dev wukong_audio_player_stop_all in
  let* _ := dev wukong_ai_agent_chat_break in
  __md_resume_detection.

(** The key goes to the manager when the mode is not busy, so its callback runs
    on a state [Y] that this mode's is part of. [data] must point to a key: it
    is not checked against NULL. *)
Definition wukong_ai_detection_key_cb {Y} (part : forall A, M A -> C Y A)
    (wukong_ai_device_mode_switch : Z -> C Y OPERATE_RET) : CALLBACK Y := fun data _ =>
  match data with
  | Some (DataKey event) =>
      let* _ :=
        match event with
        | NORMAL_KEY =>
            let* s := part _ get_ctx in
            if md_busy s then part _ md_cancel
            else let* _ := wukong_ai_device_mode_switch AI_DEVICE_MODE_CHAT in cret tt
        | SEQ_KEY | LONG_KEY | RELEASE_KEY => cret tt
        end in
      cret OPRT_OK
  | _ => fun _ => None
  end.

(** [switch]: wukong_ai_device_mode_switch as the mode sees it. *)
Definition ai_detection_register (switch : Z -> M OPERATE_RET) : AI_CHAT_MODE_HANDLE_T (DETECTION_STATICS * Device) := {|
  on_init := Some wukong_ai_detection_init_cb;
  on_deinit := Some wukong_ai_detection_deinit_cb;
  on_key := Some (wukong_ai_detection_key_cb (fun _ m => m) switch);
  on_task := Some wukong_ai_detection_task_cb;
  on_event := Some wukong_ai_detection_event_cb;
  on_wakeup := Some wukong_ai_detection_wakeup_cb;
  on_vad := Some wukong_ai_detection_vad_cb;
  on_client := Some wukong_ai_detection_client_cb;
  on_notify_idle := Some wukong_ai_detection_notify_idle_cb;
  on_audio_input := None |}.

End Detection.

(** ** The sampled picture *)

Section Sampling.
Context (yuv422 : list Z) (src_w src_h dst_w dst_h : Z).
Hypothesis Hsrc : 0 < src_w /\ 0 < src_h.
Hypothesis Hdst : 0 < dst_w /\ 0 < dst_h.
Hypothesis Hframe : src_w * src_h * 2 <= Z.of_nat (length yuv422).
Abbreviation index := (luma_index src_w src_h dst_w dst_h).

(** [n - 1] steps of the length [m / n] stay in [m]. *)
Lemma step_bound n m k : 0 < n -> 0 < m -> 0 <= k < n -> 0 <= k * (m / n) <= m - 1.
Proof.
  intros Hn Hm Hk. pose proof (Z.div_pos m n). pose proof (Z.mul_div_le m n Hn).
  destruct (Z.eq_dec (m / n) 0) as [->|]; nia.
Qed.

Lemma index_range i j : 0 <= i < dst_w -> 0 <= j < dst_h -> 0 <= index i j < src_w * src_h * 2.
Proof.
  intros Hi Hj. unfold luma_index.
  pose proof (step_bound dst_w src_w i ltac:(lia) ltac:(lia) Hi).
  pose proof (step_bound dst_h src_h j ltac:(lia) ltac:(lia) Hj). nia.
Qed.

Lemma extract_row_spec count i j y_out :
  0 <= i -> i + Z.of_nat count = dst_w -> 0 <= j < dst_h -> length y_out = Z.to_nat (dst_w * dst_h) ->
  exists out, extract_row yuv422 src_w src_h dst_w dst_h count i j y_out = Some out /\
    length out = length y_out /\
    (forall k, 0 <= k < dst_w * dst_h -> ~ (j * dst_w + i <= k < (j + 1) * dst_w) -> out !! Z.to_nat k = y_out !! Z.to_nat k) /\
    (forall k, i <= k < dst_w -> out !! Z.to_nat (j * dst_w + k) = yuv422 !! Z.to_nat (index k j)).
Proof.
  revert i y_out. induction count as [|count IH]; intros i y_out Hi Hc Hj Hl; cbn [extract_row].
  { exists y_out. split_and!; [done..|]. intros k Hk. lia. }
  pose proof (index_range i j ltac:(lia) Hj) as Hr.
  destruct (yuv422 !! Z.to_nat (index i j)) as [b|] eqn:Hb; [|apply lookup_ge_None in Hb; lia].
  assert (Hin : 0 <= j * dst_w + i < dst_w * dst_h) by nia.
  replace (_ <? _)%nat with true by (symmetry; apply Nat.ltb_lt; lia).
  destruct (IH (i + 1) (<[Z.to_nat (j * dst_w + i) := b]> y_out)) as (out & -> & Hlen & Hold & Hnew);
    [lia|lia|done|by rewrite length_insert|].
  exists out. rewrite length_insert in Hlen. split_and!; [done|done| |].
  - intros k Hk Hn. rewrite Hold by lia. apply list_lookup_insert_ne. lia.
  - intros k Hk. destruct (Z.eq_dec k i) as [->|]; [|apply Hnew; lia].
    rewrite Hold by lia. rewrite Hb. apply list_lookup_insert_eq. lia.
Qed.

Lemma extract_rows_spec count j y_out :
  0 <= j -> j + Z.of_nat count = dst_h -> length y_out = Z.to_nat (dst_w * dst_h) ->
  exists out, extract_rows yuv422 src_w src_h dst_w dst_h count j y_out = Some out /\ length out = length y_out /\
    (forall k, 0 <= k < j * dst_w -> out !! Z.to_nat k = y_out !! Z.to_nat k) /\
    (forall i l, 0 <= i < dst_w -> j <= l < dst_h -> out !! Z.to_nat (l * dst_w + i) = yuv422 !! Z.to_nat (index i l)).
Proof.
  revert j y_out. induction count as [|count IH]; intros j y_out Hj Hc Hl; cbn [extract_rows].
  { exists y_out. split_and!; [done..|]. intros. lia. }
  destruct (extract_row_spec (Z.to_nat dst_w) 0 j y_out) as (row & -> & Hlr & Hold & Hnew); [lia..|].
  destruct (IH (j + 1) row) as (out & -> & Hlen & Hold' & Hnew'); [lia|lia|congruence|].
  exists out. split_and!; [done|congruence| |].
  - intros k Hk. rewrite Hold' by nia. apply Hold; nia.
  - intros i l Hi Hll. destruct (Z.eq_dec l j) as [->|]; [|apply Hnew'; lia].
    rewrite Hold' by nia. apply Hnew. lia.
Qed.

(** Every frame of its announced size can be sampled, and the sample at column
    [i] and row [j] is the luma of the pixel that many steps in. *)
Lemma extract_spec y_out : length y_out = Z.to_nat (dst_w * dst_h) ->
  exists out, __extract_y_downsample yuv422 src_w src_h dst_w dst_h y_out = Some out /\ length out = length y_out /\
    forall i j, 0 <= i < dst_w -> 0 <= j < dst_h -> out !! Z.to_nat (j * dst_w + i) = yuv422 !! Z.to_nat (index i j).
Proof.
  intros Hl. unfold __extract_y_downsample.
  destruct (Z.eqb_spec dst_w 0); [lia|]. destruct (Z.eqb_spec dst_h 0); [lia|]. cbn [orb].
  destruct (extract_rows_spec (Z.to_nat dst_h) 0 y_out) as (out & -> & Hlen & _ & Hnew); [lia..|].
  exists out. split_and!; [done..|]. intros i j Hi Hj. by apply Hnew.
Qed.

End Sampling.

(** ** The mode as a machine of four phases *)

Inductive MD_PHASE := Watching | PhotoDue | Thinking | Speaking.
#[export] Instance phase_eq_dec : EqDecision MD_PHASE.
Proof. solve_decision. Defined.

Inductive MD_OP :=
| MdFrame (frame : option CAM_FRAME_T)   (* the camera's thread: __on_yuv_frame *)
| MdTask                                 (* the task of the toy *)
| MdEvent (event : WUKONG_AI_EVENT_T)    (* an event of the agent or the player *)
| MdCancel                               (* the key, while the mode is busy *)
| MdRequest.                             (* __on_get_detection_msg *)

(** Where an event leads. *)
Definition md_event (p : MD_PHASE) (type : WUKONG_AI_EVENT_TYPE_E) : MD_PHASE :=
  match type, p with
  | WUKONG_AI_EVENT_TTS_PRE, Thinking => Speaking
  | (WUKONG_AI_EVENT_PLAY_CTL_END | WUKONG_AI_EVENT_PLAY_END), Speaking => Watching
  | (WUKONG_AI_EVENT_ASR_EMPTY | WUKONG_AI_EVENT_ASR_ERROR | WUKONG_AI_EVENT_TTS_ABORT | WUKONG_AI_EVENT_TTS_ERROR),
    (Thinking | Speaking) => Watching
  | _, _ => p
  end.

Definition md_next (p : MD_PHASE) (op : MD_OP) (p' : MD_PHASE) : Prop :=
  match op with
  | MdFrame _ => p' = p \/ (p = Watching /\ p' = PhotoDue)
  | MdTask =>
      match p with
      | PhotoDue => p' = Thinking \/ p' = Watching
      | Thinking => p' = Thinking \/ p' = Watching
      | _ => p' = p
      end
  | MdEvent event => p' = md_event p (ev_type event)
  | MdCancel => p' = Watching
  | MdRequest => p' = Thinking
  end.

Definition in_phase (p : MD_PHASE) (s : DETECTION_STATICS) (calls : list DEV_CALL) : Prop :=
  gate calls = Some false /\
  match p with
  | Watching => state (s_ai_detection s) = AI_CHAT_IDLE /\ s_md_photo_pending s = false /\ camera calls = Some true
  | PhotoDue => state (s_ai_detection s) = AI_CHAT_IDLE /\ s_md_photo_pending s = true /\ camera calls = Some false
  | Thinking => state (s_ai_detection s) = AI_CHAT_THINK /\ camera calls = Some false
  | Speaking => state (s_ai_detection s) = AI_CHAT_SPEAK /\ camera calls = Some false
  end.

(** Run the primitive steps of the mode, splitting on its tests. *)
Ltac md_step :=
  lazymatch goal with
  | |- wp (if ?b then _ else _) _ _ =>
      lazymatch b with
      | context [Z.modulo] => let H := fresh "Htest" in destruct b eqn:H
      | _ => mode_step
      end
  | |- wp __md_resume_detection _ _ => fail
  | |- wp tal_system_get_millisecond _ _ => apply ms_wp
  | |- _ => mode_step
  end;
  cbn [s_ai_detection s_md_inited s_md_y_buf s_md_frame_cnt s_md_last_motion_ms s_md_photo_pending
       s_md_think_start_ms wakeup_stat state fst snd].
Ltac md_steps := repeat md_step.

Section Refinement.
Context `{CFG : ModeConfig}.
Implicit Types (s : DETECTION_STATICS) (d : Device) (p : MD_PHASE).

Definition run_md (op : MD_OP) : C (DETECTION_STATICS * Device) unit :=
  match op with
  | MdFrame frame => __on_yuv_frame frame
  | MdTask => let* _ := wukong_ai_detection_task_cb None 0 in cret tt
  | MdEvent event => let* _ := wukong_ai_detection_event_cb (Some (DataEvent event)) 0 in cret tt
  | MdCancel => md_cancel
  | MdRequest => __on_get_detection_msg
  end.

(** Payloads as the agent sends them; a picture's name is there. *)
Definition md_event_ok (e : WUKONG_AI_EVENT_T) : bool :=
  match ev_type e with
  | WUKONG_AI_EVENT_ACCEPT_PICTURE => match ev_data e with Some (EvName _) => true | _ => false end
  | WUKONG_AI_EVENT_TEXT_STREAM_START | WUKONG_AI_EVENT_TEXT_STREAM_DATA | WUKONG_AI_EVENT_TEXT_STREAM_STOP
  | WUKONG_AI_EVENT_TEXT_STREAM_ABORT | WUKONG_AI_EVENT_EMOTION | WUKONG_AI_EVENT_LLM_EMOTION
  | WUKONG_AI_EVENT_PLAY_ALERT => event_ok e
  | _ => true
  end.

(** A frame holds the pixels it announces. *)
Definition frame_ok (f : CAM_FRAME_T) : Prop :=
  0 < fr_width f /\ 0 < fr_height f /\ fr_width f * fr_height f * 2 <= Z.of_nat (length (fr_data f)).

(** The key comes here only while the mode is busy: else it is the manager's. *)
Definition md_op_ok (op : MD_OP) p : Prop :=
  match op with
  | MdFrame (Some f) => frame_ok f
  | MdEvent e => md_event_ok e = true
  | MdCancel => p = Thinking \/ p = Speaking
  | _ => True
  end.

(** The buffer has the size of the sampled picture. *)
Definition md_wf s : Prop :=
  match s_md_y_buf s with Some buf => length buf = Z.to_nat (MD_DS_WIDTH * MD_DS_HEIGHT) | None => True end.

(** The state that watches again, the clock showing [now]. *)
Definition resumed (now : Z) s : DETECTION_STATICS :=
  mk_md (mk_param (wakeup_stat (s_ai_detection s)) AI_CHAT_IDLE) (s_md_inited s) (s_md_y_buf s) 0 now false 0.

Lemma resume_wp s d (Q : unit -> DETECTION_STATICS * Device -> Prop) :
  Q tt (resumed (ms_now d) s, called camera_subscribe_md (asked d)) -> wp __md_resume_detection Q (s, d).
Proof. intros HQ. exact HQ. Qed.

Lemma resumed_watching now s d : gate (dv_calls d) = Some false ->
  in_phase Watching (resumed now s) (dv_calls (called camera_subscribe_md (asked d))).
Proof. by intros Hg. Qed.

Lemma cancel_watches s d : gate (dv_calls d) = Some false ->
  wp md_cancel (fun _ r => in_phase Watching (fst r) (dv_calls (snd r)) /\
    s_md_y_buf (fst r) = s_md_y_buf s /\ s_md_inited (fst r) = s_md_inited s) (s, d).
Proof. intros Hg. unfold md_cancel. mode_step. mode_step. mode_step. mode_step. by apply resume_wp. Qed.

(** Calls that are neither the microphone's nor the camera's. *)
Definition md_quiet (c : DEV_CALL) : Prop := gate_call c = None /\ camera_call c = None.

Lemma in_phase_quiet p s c calls : md_quiet c -> in_phase p s calls -> in_phase p s (c :: calls).
Proof.
  intros [Hg Hc] [Hgate Hp]. unfold in_phase, gate, camera. cbn [latest]. rewrite Hg, Hc. by split.
Qed.

(** What an operation from phase [p] ends in. *)
Definition md_ends (op : MD_OP) p (r : DETECTION_STATICS * Device) : Prop :=
  md_wf (fst r) /\ exists p', md_next p op p' /\ in_phase p' (fst r) (dv_calls (snd r)).

Hypothesis Hisp : 3 <= TUYA_AI_TOY_ISP_WIDTH /\ 3 <= TUYA_AI_TOY_ISP_HEIGHT.

Lemma ds_positive : 0 < MD_DS_WIDTH /\ 0 < MD_DS_HEIGHT.
Proof. unfold MD_DS_WIDTH, MD_DS_HEIGHT. split; apply Z.div_str_pos; lia. Qed.

Lemma frame_wp p s d frame : md_wf s -> in_phase p s (dv_calls d) -> md_op_ok (MdFrame frame) p ->
  wp (__on_yuv_frame frame) (fun _ r => md_ends (MdFrame frame) p r) (s, d).
Proof.
  intros Hwf Hp Hok. destruct s as [[w st] inited buf cnt last pend think]. unfold __on_yuv_frame. md_step. md_step.
  assert (Hstay : forall buf' cnt' d', md_wf (mk_md (mk_param w st) inited buf' cnt' last pend think) ->
    in_phase p (mk_md (mk_param w st) inited buf cnt last pend think) (dv_calls d') ->
    md_ends (MdFrame frame) p (mk_md (mk_param w st) inited buf' cnt' last pend think, d')).
  { intros buf' cnt' d' Hw Hin. split; [done|]. exists p. split; [by left|exact Hin]. }
  assert (Hdue : forall buf' cnt' now d', md_wf (mk_md (mk_param w st) inited buf' cnt' now true think) ->
    in_phase p (mk_md (mk_param w st) inited buf cnt last pend think) (dv_calls d') ->
    md_ends (MdFrame frame) p (mk_md (mk_param w st) inited buf' cnt' now true think, called camera_unsubscribe_md d')).
  { intros buf' cnt' now d' Hw [Hg Hin]. split; [done|].
    destruct p; [exists PhotoDue|exists PhotoDue|exists Thinking|exists Speaking];
      (split; [first [by left|by right]|]); (split; [exact Hg|]); cbn in Hin |- *; intuition. }
  destruct frame as [f|]; [|md_step; by apply Hstay].
  destruct inited; [|md_step; by apply Hstay]. destruct buf as [buf|]; [|md_step; by apply Hstay].
  md_step; [md_steps; by apply Hstay|].
  destruct Hok as (Hfw & Hfh & Hfl). pose proof ds_positive as [Hdw Hdh].
  destruct (extract_spec (fr_data f) (fr_width f) (fr_height f) MD_DS_WIDTH MD_DS_HEIGHT
              ltac:(done) ltac:(done) Hfl buf Hwf) as (luma & Hx & Hll & _).
  md_step. apply (wp_pure _ luma); [exact Hx|].
  assert (Hwf' : length luma = Z.to_nat (MD_DS_WIDTH * MD_DS_HEIGHT)) by (rewrite Hll; exact Hwf).
  assert (Hin : in_phase p (mk_md (mk_param w st) true (Some buf) cnt last pend think)
    (tuya_ipc_motion luma :: dv_calls d)) by (by apply in_phase_quiet).
  md_steps; [by apply Hstay|by apply Hdue|by apply Hstay..].
Qed.

Lemma ends_resumed op p s now d : md_wf s -> gate (dv_calls d) = Some false -> md_next p op Watching ->
  md_ends op p (resumed now s, called camera_subscribe_md (asked d)).
Proof. intros Hwf Hg Hn. split; [exact Hwf|]. exists Watching. split; [exact Hn|]. by apply resumed_watching. Qed.

(** The mode ends in phase [ph]; what the microphone and the camera were told
    last is among the hypotheses. *)
Ltac ends_in ph :=
  split; [assumption|]; exists ph; split; [first [reflexivity|by left|by right]|]; split; [assumption|]; repeat split; assumption.
Ltac ends_watching :=
  lazymatch goal with |- wp __md_resume_detection _ _ => idtac end;
  apply resume_wp; md_steps; apply ends_resumed; [assumption|assumption|first [done|by left|by right]].

Lemma md_task_wp p s d data len : md_wf s -> in_phase p s (dv_calls d) ->
  wp (wukong_ai_detection_task_cb data len) (fun _ r => md_ends MdTask p r) (s, d).
Proof.
  intros Hwf [Hg Hp]. destruct s as [[w st] inited buf cnt last pend think]. unfold wukong_ai_detection_task_cb.
  do 2 md_step. destruct p; cbn in Hp.
  - destruct Hp as (-> & -> & Hc). md_steps. ends_in Watching.
  - destruct Hp as (-> & -> & Hc). md_steps.
    destruct (if _ =? _ then _ else _) as [[|b image]|]; md_steps; try ends_watching. ends_in Thinking.
  - destruct Hp as (-> & Hc), pend; md_steps; try ends_watching; ends_in Thinking.
  - destruct Hp as (-> & Hc), pend; md_steps; ends_in Speaking.
Qed.

Lemma md_request_wp p s d : md_wf s -> in_phase p s (dv_calls d) ->
  wp __on_get_detection_msg (fun _ r => md_ends MdRequest p r) (s, d).
Proof.
  intros Hwf [Hg Hp]. destruct s as [[w st] inited buf cnt last pend think]. unfold __on_get_detection_msg.
  do 2 md_step. unfold md_busy. md_steps; ends_in Thinking.
Qed.

(** The events that can change the phase. *)
Definition moves (type : WUKONG_AI_EVENT_TYPE_E) : bool :=
  match type with
  | WUKONG_AI_EVENT_TTS_PRE | WUKONG_AI_EVENT_PLAY_CTL_END | WUKONG_AI_EVENT_PLAY_END | WUKONG_AI_EVENT_ASR_EMPTY
  | WUKONG_AI_EVENT_ASR_ERROR | WUKONG_AI_EVENT_TTS_ABORT | WUKONG_AI_EVENT_TTS_ERROR => true
  | _ => false
  end.

Lemma show_ends p s d len e : md_wf s -> in_phase p s (dv_calls d) -> md_event_ok e = true -> moves (ev_type e) = false ->
  wp (wukong_ai_detection_event_cb (Some (DataEvent e)) len) (fun _ r => md_ends (MdEvent e) p r) (s, d).
Proof.
  intros Hwf Hp Hok Hm. destruct e as [ty ev]. unfold wukong_ai_detection_event_cb. do 3 md_step.
  assert (Hend : forall d', in_phase p s (dv_calls d') -> md_ends (MdEvent (mk_event ty ev)) p (s, d')).
  { intros d' Hin. split; [done|]. exists p. split; [|done]. by destruct ty, p. }
  destruct ty; try done; cbn [ev_type ev_data];
    first [do 2 wp_step; by apply Hend
          |destruct ev as [[]|]; try done; md_steps; apply Hend; repeat apply in_phase_quiet; done
          |md_steps; apply Hend; repeat apply in_phase_quiet; done].
Qed.

Lemma event_ends p s d len e : md_wf s -> in_phase p s (dv_calls d) -> md_event_ok e = true ->
  wp (wukong_ai_detection_event_cb (Some (DataEvent e)) len) (fun _ r => md_ends (MdEvent e) p r) (s, d).
Proof.
  intros Hwf Hp Hok. destruct (moves (ev_type e)) eqn:Hm; [|by apply show_ends].
  destruct s as [[w st] inited buf cnt last pend think], e as [ty ev], Hp as [Hg Hp].
  unfold wukong_ai_detection_event_cb. do 3 md_step.
  destruct p; cbn in Hp; [destruct Hp as (-> & -> & Hc)|destruct Hp as (-> & -> & Hc)|destruct Hp as (-> & Hc)..];
    destruct ty; try discriminate Hm; cbn [ev_type ev_data]; md_steps; try ends_watching;
    first [ends_in Watching|ends_in PhotoDue|ends_in Thinking|ends_in Speaking].
Qed.

(** C15. The detection mode does, in every operation, one step of a machine of
    four phases: it watches the camera until a photo is due, sends the photo,
    waits for the cloud, plays its answer and watches again. The camera is
    subscribed to exactly while it watches, the microphone stays shut, nothing is
    undefined, and every failure, error or cancellation leads back to watching. *)
Theorem detection_refines p op s d :
  md_wf s -> in_phase p s (dv_calls d) -> md_op_ok op p ->
  exists s' d', run_md op (s, d) = Some (tt, (s', d')) /\ md_wf s' /\
    exists p', md_next p op p' /\ in_phase p' s' (dv_calls d').
Proof.
  intros Hwf Hp Hok.
  assert (Hrun : wp (run_md op) (fun _ r => md_ends op p r) (s, d)).
  { destruct op as [frame| |e| |]; cbn [run_md].
    - by apply frame_wp.
    - wp_step. eapply wp_mono; [by apply md_task_wp|]. intros rt [s' d'] He. wp_step. exact He.
    - wp_step. eapply wp_mono; [by apply event_ends|]. intros rt [s' d'] He. wp_step. exact He.
    - eapply wp_mono; [apply cancel_watches, Hp|]. intros [] [s' d'] (Hin & Hb & _). split; [|by exists Watching].
      unfold md_wf in *. by rewrite Hb.
    - by apply md_request_wp. }
  apply wp_elim in Hrun as ([] & [s' d'] & Hr & Hw & He). by exists s', d'.
Qed.

(** *** When the camera's frames lead to a photo *)

(** What a frame makes of the state when it can be sampled: is motion reported,
    and at what time? *)
Definition motion_reported s d : bool :=
  (MD_SKIP_FRAMES + MD_WARMUP_FRAMES <=? s_md_frame_cnt s) && (an_result (dv_answers d) (dv_asked d) =? OPRT_OK) &&
  (an_motion (dv_answers d) (S (dv_asked d)) =? 1) &&
  (MD_COOLDOWN_MS <=? (ms_now (asked (asked d)) - s_md_last_motion_ms s) mod 2 ^ 32).

Definition watching_on s : bool := s_md_inited s && bool_decide (is_Some (s_md_y_buf s)).

Lemma frame_spec frame s d : md_wf s -> frame_ok frame -> 0 <= s_md_frame_cnt s <= MD_SKIP_FRAMES + MD_WARMUP_FRAMES ->
  wp (__on_yuv_frame (Some frame)) (fun _ r =>
    let s' := fst r in
    let reported := watching_on s && motion_reported s d in
    md_wf s' /\ dv_answers (snd r) = dv_answers d /\ watching_on s' = watching_on s /\
    s_md_frame_cnt s' = (if watching_on s && (s_md_frame_cnt s <? MD_SKIP_FRAMES + MD_WARMUP_FRAMES)
                         then s_md_frame_cnt s + 1 else s_md_frame_cnt s) /\
    s_md_photo_pending s' = s_md_photo_pending s || reported /\
    s_md_last_motion_ms s' = (if reported then ms_now (asked (asked d))
                              else s_md_last_motion_ms s)) (s, d).
Proof.
  intros Hwf Hf Hc. destruct s as [[w st] inited buf cnt last pend think]. unfold __on_yuv_frame. do 2 md_step.
  unfold watching_on, motion_reported, MD_SKIP_FRAMES, MD_WARMUP_FRAMES in *.
  cbn [s_md_inited s_md_y_buf s_md_frame_cnt s_md_last_motion_ms] in *.
  destruct inited; [|md_step; by rewrite orb_false_r]. destruct buf as [buf|]; [|md_step; by rewrite orb_false_r].
  change (bool_decide (is_Some (Some buf))) with true. cbn [andb].
  destruct (Z.ltb_spec cnt 50) as [Hlt|Hge].
  { md_steps. cbn [fst snd s_md_frame_cnt s_md_photo_pending s_md_last_motion_ms s_md_inited s_md_y_buf].
    replace (50 + 10 <=? cnt) with false by lia. replace (cnt <? 50 + 10) with true by lia. cbn [andb].
    rewrite orb_false_r, Z.mod_small by lia. by split_and!. }
  destruct Hf as (Hfw & Hfh & Hfl). pose proof ds_positive as [Hdw Hdh].
  destruct (extract_spec (fr_data frame) (fr_width frame) (fr_height frame) MD_DS_WIDTH MD_DS_HEIGHT
              ltac:(done) ltac:(done) Hfl buf Hwf) as (luma & Hx & Hll & _).
  assert (Hwf' : length luma = Z.to_nat (MD_DS_WIDTH * MD_DS_HEIGHT)) by (rewrite Hll; exact Hwf).
  md_step. apply (wp_pure _ luma); [exact Hx|].
  md_steps; cbn [fst snd s_md_frame_cnt s_md_photo_pending s_md_last_motion_ms s_md_inited s_md_y_buf called asked
    dv_answers dv_asked] in *.
  all: try change (ms_now (asked (asked (called (tuya_ipc_motion luma) d)))) with (ms_now (asked (asked d))) in *.
  - replace (50 + 10 <=? cnt) with false by lia. cbn [andb]. rewrite orb_false_r, Z.mod_small by lia. by split_and!.
  - replace (50 + 10 <=? cnt) with true by lia. cbn [andb]. rewrite Htest0, Htest1, orb_true_r. by split_and!.
  - replace (50 + 10 <=? cnt) with true by lia. cbn [andb]. rewrite Htest0, Htest1, orb_false_r. by split_and!.
  - replace (50 + 10 <=? cnt) with true by lia. cbn [andb]. rewrite Htest0, orb_false_r. by split_and!.
Qed.

(** The frames of a while, one after the other. *)
Fixpoint run_frames (frames : list CAM_FRAME_T) : C (DETECTION_STATICS * Device) unit :=
  match frames with
  | [] => cret tt
  | f :: frames => let* _ := __on_yuv_frame (Some f) in run_frames frames
  end.

(** What the mode knows [n] frames after it began to watch at [t0]. *)
Definition watched (n t0 : Z) (a : DEV_ANSWERS) s d : Prop :=
  md_wf s /\ dv_answers d = a /\ 0 <= s_md_frame_cnt s <= Z.min n (MD_SKIP_FRAMES + MD_WARMUP_FRAMES) /\
  if s_md_photo_pending s
  then MD_SKIP_FRAMES + MD_WARMUP_FRAMES < n /\ exists k, MD_COOLDOWN_MS <= (an_ms a k mod 2 ^ 32 - t0) mod 2 ^ 32
  else s_md_last_motion_ms s = t0.

Lemma frames_watched frames n t0 a s d : watched n t0 a s d -> Forall frame_ok frames ->
  wp (run_frames frames) (fun _ r => watched (n + Z.of_nat (length frames)) t0 a (fst r) (snd r)) (s, d).
Proof.
  revert n s d. induction frames as [|f frames IH]; intros n s d Hw Hf; cbn [run_frames length].
  { wp_step. by rewrite Z.add_0_r. }
  apply Forall_cons in Hf as [Hf Hfs]. destruct Hw as (Hwf & Ha & Hc & Hpend).
  wp_step. eapply wp_mono; [apply frame_spec; [done|done|lia]|]. intros _ [s' d'] (Hwf' & Ha' & Hon & Hc' & Hp' & Hl').
  cbn [fst snd] in *. replace (n + Z.of_nat (S (length frames))) with (n + 1 + Z.of_nat (length frames)) by lia.
  apply IH; [|done]. split; [done|]. split; [congruence|]. split.
  { rewrite Hc'. destruct (watching_on s); cbn [andb]; [|lia].
    destruct (Z.ltb_spec (s_md_frame_cnt s) (MD_SKIP_FRAMES + MD_WARMUP_FRAMES)); lia. }
  rewrite Hp'. destruct (s_md_photo_pending s); cbn [orb].
  { destruct Hpend as [Hn Hk]. split; [lia|exact Hk]. }
  destruct (watching_on s && motion_reported s d) eqn:Hr; [|by rewrite Hl'].
  apply andb_true_iff in Hr as [_ Hr]. unfold motion_reported in Hr. rewrite !andb_true_iff in Hr.
  destruct Hr as [[[Hn _] _] Ht]. split; [lia|]. eexists. rewrite <- Hpend, <- Ha. apply Z.leb_le. exact Ht.
Qed.

(** C32. Once the detection mode has begun to watch, a photo is due only after more
    than sixty frames, and at a moment when the millisecond clock has moved ten
    seconds on (modulo its 32 bits); whatever the frames show and whatever the
    motion algorithm answers. *)
Theorem photo_needs_watching frames t0 s d :
  md_wf s -> s_md_frame_cnt s = 0 -> s_md_photo_pending s = false -> s_md_last_motion_ms s = t0 ->
  Forall frame_ok frames ->
  exists s' d', run_frames frames (s, d) = Some (tt, (s', d')) /\
    (s_md_photo_pending s' = true ->
     60 < Z.of_nat (length frames) /\
     exists k, MD_COOLDOWN_MS <= (an_ms (dv_answers d) k mod 2 ^ 32 - t0) mod 2 ^ 32).
Proof.
  intros Hwf Hc Hp Hl Hf.
  assert (Hw : watched 0 t0 (dv_answers d) s d).
  { unfold watched, MD_SKIP_FRAMES, MD_WARMUP_FRAMES. rewrite Hc, Hp. split_and!; done. }
  destruct (wp_elim _ _ _ (frames_watched frames 0 _ _ _ _ Hw Hf)) as ([] & [s' d'] & Hr & _ & _ & _ & Hpend).
  exists s', d'. split; [exact Hr|]. intros Hdue. cbn [fst] in Hpend. rewrite Hdue in Hpend.
  destruct Hpend as [Hn Hk]. split; [|exact Hk]. unfold MD_SKIP_FRAMES, MD_WARMUP_FRAMES in Hn. lia.
Qed.

(** While the cloud thinks, the task does nothing until ten seconds have passed
    since the request, and then watches again - unless the clock stood at zero
    when the request was made: then only an event ends the wait. *)
Theorem think_timeout s d data len : in_phase Thinking s (dv_calls d) ->
  exists s' d', wukong_ai_detection_task_cb data len (s, d) = Some (OPRT_OK, (s', d')) /\
    if negb (s_md_think_start_ms s =? 0) && (MD_THINK_TIMEOUT_MS <=? (ms_now d - s_md_think_start_ms s) mod 2 ^ 32)
    then s' = resumed (ms_now (asked d)) s /\ in_phase Watching s' (dv_calls d')
    else s' = s /\ dv_calls d' = dv_calls d.
Proof.
  intros [Hg Hp]. destruct s as [[w st] inited buf cnt last pend think]. destruct Hp as [Hst Hc]. cbn in Hst. subst st.
  set (s0 := mk_md _ _ _ _ _ _ _) in *. set (late := negb _ && _).
  assert (Hrun : wp (wukong_ai_detection_task_cb data len) (fun rt r => rt = OPRT_OK /\
    if late then fst r = resumed (ms_now (asked d)) s0 /\ in_phase Watching (fst r) (dv_calls (snd r))
    else fst r = s0 /\ dv_calls (snd r) = dv_calls d) (s0, d)).
  { subst late. unfold wukong_ai_detection_task_cb. do 2 md_step. cbn [s_md_think_start_ms s0].
    destruct (think =? 0) eqn:Hz; cbn [negb andb].
    - destruct pend; subst s0; md_steps; done.
    - subst s0. destruct pend; md_steps.
      2, 4: by split_and!.
      all: apply resume_wp; wp_step; (split; [reflexivity|]); (split; [reflexivity|]); by apply resumed_watching. }
  apply wp_elim in Hrun as (rt & [s' d'] & Hr & -> & Hs). by exists s', d'.
Qed.

(** *** What the manager relies on *)

Definition detection_asleep s : Prop :=
  md_wf s /\ s_md_frame_cnt s = 0 /\ s_md_last_motion_ms s = 0 /\ s_md_photo_pending s = false /\
  s_md_think_start_ms s = 0.
Definition detection_awake s (calls : list DEV_CALL) : Prop := md_wf s /\ exists p, in_phase p s calls.

(** The single press is the manager's. *)
Definition detection_payload (op : AI_MODE_OP_E) (data : option AI_DATA) : bool :=
  match op, data with
  | AI_MODE_OP_KEY, Some (DataKey NORMAL_KEY) => false
  | AI_MODE_OP_EVENT, Some (DataEvent e) => md_event_ok e
  | _, _ => payload_ok op data
  end.

Lemma detection_silent s c calls : silent c = true -> detection_awake s calls -> detection_awake s (c :: calls).
Proof.
  intros Hc (Hwf & p & Hp). split; [done|]. exists p. apply in_phase_quiet; [|done].
  unfold silent in Hc. unfold md_quiet. by destruct (led_call c), (gate_call c), (lowpower_call c), (camera_call c).
Qed.

Lemma detection_init_wp s d data len : detection_asleep s ->
  wp (wukong_ai_detection_init_cb data len) (fun _ r =>
    detection_awake (fst r) (dv_calls (snd r)) /\ in_phase Watching (fst r) (dv_calls (snd r)) /\
    s_md_frame_cnt (fst r) = 0 /\ s_md_last_motion_ms (fst r) = 0) (s, d).
Proof.
  intros (Hwf & Hc & Hl & Hp & Ht). destruct s as [[w st] inited buf cnt last pend think]. cbn in Hc, Hl, Hp, Ht. subst.
  assert (Hend : forall i b d', gate (dv_calls d') = Some false -> md_wf (mk_md (mk_param w AI_CHAT_IDLE) i b 0 0 false 0) ->
    let s' := mk_md (mk_param w AI_CHAT_IDLE) i b 0 0 false 0 in
    let calls := dv_calls (called camera_subscribe_md d') in
    detection_awake s' calls /\ in_phase Watching s' calls /\ s_md_frame_cnt s' = 0 /\ s_md_last_motion_ms s' = 0).
  { intros i b d' Hg Hw. split_and!; try done. split; [exact Hw|]. by exists Watching. }
  unfold wukong_ai_detection_init_cb. md_steps; apply Hend; try done.
  unfold md_wf. cbn [s_md_y_buf]. apply length_replicate.
Qed.

Lemma detection_deinit_wp s d data len : detection_awake s (dv_calls d) ->
  wp (wukong_ai_detection_deinit_cb data len) (fun _ r => detection_asleep (fst r)) (s, d).
Proof.
  intros (Hwf & _). destruct s as [[w st] inited buf cnt last pend think].
  unfold wukong_ai_detection_deinit_cb. do 4 md_step. unfold md_busy. md_steps; by split_and!.
Qed.

(** Any callback once the mode is initialised. *)
Lemma detection_op_wp switch op f s d data len :
  callback_for (ai_detection_register switch) op = Some f -> op <> AI_MODE_OP_INIT -> op <> AI_MODE_OP_DEINIT ->
  detection_payload op data = true -> detection_awake s (dv_calls d) ->
  wp (f data len) (fun _ r => detection_awake (fst r) (dv_calls (snd r))) (s, d).
Proof.
  intros Hf Hi Hd Hp (Hwf & p & Hin). assert (Hsame : detection_awake s (dv_calls d)) by (split; [done|by exists p]).
  assert (Hends : forall o r, md_ends o p r -> detection_awake (fst r) (dv_calls (snd r))).
  { intros o r (Hw & p' & _ & Hp'). split; [done|by exists p']. }
  destruct op; cbn in Hf; try done; injection Hf as <-; try exact Hsame.
  - destruct data as [[[]| | |]|]; try done; by md_steps.
  - eapply wp_mono; [by apply md_task_wp|]. intros ? r. apply Hends.
  - destruct data as [[| |e|]|]; try done; eapply wp_mono; [by apply event_ends|]. intros ? r; apply Hends.
Qed.

End Refinement.

(** ** At concrete states: a camera of six by six pixels. *)

#[local] Instance small_config : ModeConfig := {
  ENABLE_TUYA_UI := true; USING_BOARD_AUDIO_INPUT := true; ENABLE_TUYA_PICTURE := true; ENABLE_TUYA_CODEC_OPUS := true;
  TUYA_AI_TOY_ISP_WIDTH := 6; TUYA_AI_TOY_ISP_HEIGHT := 6;
  chat_sub_built _ := true; device_mode_built _ := true; TUYA_AI_CHAT_DEFAULT_MODE := AI_CHAT_SUB_HOLD;
  AI_AGENT_SCODE_CHAT := ""; AI_AGENT_SCODE_TRANSLATE := ""; AI_AGENT_SCODE_PICTURE := "";
  AI_AGENT_SCODE_DETECTION := "" }.

Definition demo_frame : CAM_FRAME_T := mk_frame (replicate 72 0) 6 6.

Lemma demo_frame_ok : frame_ok demo_frame.
Proof. by split_and!. Qed.

(** Watching for sixty frames; the clock showed 0 when that began. *)
Definition demo_md : DETECTION_STATICS := mk_md (mk_param false AI_CHAT_IDLE) true (Some [0; 0; 0; 0]) 60 0 false 0.

(** Something moves, and the clock shows twelve seconds. *)
Definition demo_watching : Device :=
  called camera_subscribe_md (called (wukong_audio_input_wakeup_set false)
    (mk_device [] (fun _ => true) (fun _ => WUKONG_AUDIO_VAD_STOP) (fun _ => OPRT_OK)
      (mk_answers (fun _ => OPRT_OK) (fun _ => 12000) (fun _ => Some [0]) (fun _ => 1) (fun _ => true)
         (fun _ => None) (fun _ => []) (fun _ => ("", (0, 0)))) 0)).

Lemma detection_refines_witness : exists s' d',
  run_md (MdFrame (Some demo_frame)) (demo_md, demo_watching) = Some (tt, (s', d')) /\ md_wf s' /\
  exists p', md_next Watching (MdFrame (Some demo_frame)) p' /\ in_phase p' s' (dv_calls d').
Proof.
  apply (detection_refines ltac:(by split) Watching (MdFrame (Some demo_frame)) demo_md demo_watching);
    [done|by split_and!|apply demo_frame_ok].
Defined.

Lemma photo_needs_watching_witness : exists s' d',
  run_frames (replicate 61 demo_frame) (mk_md (mk_param false AI_CHAT_IDLE) true (Some [0; 0; 0; 0]) 0 5 false 0, demo_watching)
    = Some (tt, (s', d')) /\
  (s_md_photo_pending s' = true ->
   60 < Z.of_nat (length (replicate 61 demo_frame)) /\
   exists k, MD_COOLDOWN_MS <= (an_ms (dv_answers demo_watching) k mod 2 ^ 32 - 5) mod 2 ^ 32).
Proof. apply photo_needs_watching; [by split|done..|]. by apply Forall_replicate, demo_frame_ok. Defined.

(** Sixty-one frames are enough when something moves and the clock has gone on. *)
Example photo_due :
  match run_frames (replicate 61 demo_frame)
      (mk_md (mk_param false AI_CHAT_IDLE) true (Some [0; 0; 0; 0]) 0 5 false 0, demo_watching) with
  | Some (_, (s, d)) => s_md_photo_pending s = true /\ camera (dv_calls d) = Some false
  | None => False
  end.
Proof. by vm_compute. Qed.
