(* ===== verification/ModeSystem.v ===== *)
(** The mode files behind the manager: the conversation modes side by side with
    the device modes discharge the interface of [ModeMgrCorrect]; the key of the
    detection mode, which the manager serves; and the theorems at concrete states. *)
From S2P Require Import Prelude.
From S2P Require Import World.
From S2P Require Import TmHost.
From S2P Require Import ModeHost.
From S2P Require Import ToyConfig.
From S2P Require Import ModeMgr.
From S2P Require Import ModeHold.
From S2P Require Import ModeOneshot.
From S2P Require Import ModeWakeup.
From S2P Require Import ModeFree.
From S2P Require Import ModeChat.
From S2P Require Import ModeMgrCorrect.
From S2P Require Import ModeDevices.
From S2P Require Import ModePicture.
From S2P Require Import ModeDetect.

#[local] Open Scope Z_scope.

Lemma callback_zoom {X Y} (get : Y -> X) (put : X -> Y -> Y) h op :
  callback_for (zoom_handle get put h) op = zoom get put <$> callback_for h op.
Proof. by destruct op. Qed.

(** ** The device modes *)

(** The device modes' files, each with its static data. *)
Inductive DEVICE_FILE := TranslateMode | P2pMode | RecordMode | PictureMode | DetectionMode.
#[export] Instance device_file_eq_dec : EqDecision DEVICE_FILE.
Proof. solve_decision. Defined.

Record DEVICE_STATICS := mk_devices {
  in_translate : MODE_STATICS;
  in_p2p : AI_CHAT_MODE_PARAM_T;
  in_record : RECORD_STATICS;
  in_picture : PICTURE_STATICS;
  in_detection : DETECTION_STATICS }.

Definition devices_zero : DEVICE_STATICS :=
  mk_devices statics_zero (mk_param false AI_CHAT_INIT) record_zero picture_zero detection_zero.

Definition put_translate x s := mk_devices x (in_p2p s) (in_record s) (in_picture s) (in_detection s).
Definition put_p2p x s := mk_devices (in_translate s) x (in_record s) (in_picture s) (in_detection s).
Definition put_record x s := mk_devices (in_translate s) (in_p2p s) x (in_picture s) (in_detection s).
Definition put_pictures x s := mk_devices (in_translate s) (in_p2p s) (in_record s) x (in_detection s).
Definition put_detection x s := mk_devices (in_translate s) (in_p2p s) (in_record s) (in_picture s) x.

Section Devices.
Context `{CFG : ModeConfig} (mutex_ok : bool).

Definition device_file_of (mode : Z) : DEVICE_FILE :=
  if mode =? AI_DEVICE_MODE_TRANSLATE then TranslateMode
  else if mode =? AI_DEVICE_MODE_P2P then P2pMode
  else if mode =? AI_DEVICE_MODE_RECORD then RecordMode
  else if mode =? AI_DEVICE_MODE_PICTURE then PictureMode
  else DetectionMode.

(** The detection mode's single press goes through [system_dispatch] below: the
    manager is not part of the modes' data. *)
Definition beyond_modes : Z -> C (DETECTION_STATICS * Device) OPERATE_RET := fun _ _ => None.

Definition device_callbacks (h : DEVICE_FILE) : AI_CHAT_MODE_HANDLE_T (DEVICE_STATICS * Device) :=
  match h with
  | TranslateMode => zoom_handle in_translate put_translate ai_translate_register
  | P2pMode => zoom_handle in_p2p put_p2p ai_p2p_register
  | RecordMode => zoom_handle in_record put_record ai_record_register
  | PictureMode => zoom_handle in_picture put_pictures (ai_picture_register mutex_ok)
  | DetectionMode => zoom_handle in_detection put_detection (ai_detection_register beyond_modes)
  end.

Definition device_table : ModeTable DEVICE_FILE DEVICE_STATICS :=
  {| chat_register _ := TranslateMode; device_register := device_file_of; callbacks := device_callbacks |}.

Definition device_asleep (h : DEVICE_FILE) (x : DEVICE_STATICS) : Prop :=
  match h with
  | TranslateMode => asleep (in_translate x)
  | P2pMode => wakeup_stat (in_p2p x) = false
  | RecordMode => wakeup_stat (s_ai_record (in_record x)) = false
  | PictureMode => picture_asleep (in_picture x)
  | DetectionMode => detection_asleep (in_detection x)
  end.

Definition device_awake (h : DEVICE_FILE) (x : DEVICE_STATICS) (calls : list DEV_CALL) : Prop :=
  match h with
  | TranslateMode => awake Free (in_translate x) calls
  | P2pMode => steady true (in_p2p x) calls
  | RecordMode => record_awake (in_record x) calls
  | PictureMode => picture_awake (in_picture x) calls
  | DetectionMode => detection_awake (in_detection x) calls
  end.

Definition device_payload (h : DEVICE_FILE) (op : AI_MODE_OP_E) (data : option AI_DATA) : bool :=
  match h with
  | TranslateMode | P2pMode => payload_ok op data
  | RecordMode => record_payload op data
  | PictureMode => picture_payload op data
  | DetectionMode => detection_payload op data
  end.

#[local] Existing Instance device_table.

(** One file's callback: by its lemma; the others keep their data. *)
Ltac by_file lem :=
  apply wp_zoom; eapply wp_mono; [lem|]; let H := fresh in intros ? [? ?] H; split; [first [exact H|exact (proj1 H)]|]; let k := fresh in intros k; by destruct k.

Lemma device_run h op f data len x d : callback_for (callbacks h) op = Some f ->
  op <> AI_MODE_OP_INIT -> op <> AI_MODE_OP_DEINIT -> device_payload h op data = true -> device_awake h x (dv_calls d) ->
  wp (f data len) (fun _ r => device_awake h (fst r) (dv_calls (snd r)) /\
    forall h', h' <> h -> device_asleep h' x -> device_asleep h' (fst r)) (x, d).
Proof.
  intros Hf Hi Hd Hp Ha. destruct h; cbn [callbacks device_table device_callbacks] in Hf; rewrite callback_zoom in Hf;
    apply fmap_Some in Hf as (g & Hg & ->).
  - by_file ltac:(by apply (translate_op_wp op g)).
  - by_file ltac:(by apply (p2p_op_wp op g)).
  - by_file ltac:(by apply (record_op_wp op g)).
  - by_file ltac:(by apply (picture_op_wp mutex_ok op g)).
  - by_file ltac:(by apply (detection_op_wp beyond_modes op g)).
Qed.

Definition device_laws : @ModeLaws DEVICE_FILE DEVICE_STATICS device_table.
Proof.
  refine {| ml_asleep := device_asleep; ml_awake := device_awake; ml_payload := device_payload; ml_run := device_run |}.
  - intros []; cbn; intros x c calls Hc;
      [by apply awake_silent|by apply steady_silent|by apply record_silent| |by apply detection_silent].
    intros [Hq Ha]. split; [done|]. by apply awake_silent.
  - intros [] x d Hs; cbn in Hs |- *; eexists; (split; [reflexivity|]).
    + by_file ltac:(by apply translate_init_wp).
    + by_file ltac:(by apply p2p_init_wp).
    + by_file ltac:(by apply record_init_wp).
    + by_file ltac:(by apply picture_init_wp).
    + by_file ltac:(by apply detection_init_wp).
  - intros [] x d Ha; cbn in Ha |- *; eexists; (split; [reflexivity|]).
    + by_file ltac:(by apply translate_deinit_wp).
    + by_file ltac:(by apply p2p_deinit_wp).
    + by_file ltac:(by apply record_deinit_wp).
    + by_file ltac:(by apply picture_deinit_wp).
    + by_file ltac:(by apply detection_deinit_wp).
Defined.

End Devices.

Section System.
Context `{CFG : ModeConfig} {HD XD : Type} `{MLD : ModeLaws HD XD}.

(** The static data of the mode files. *)
Definition STATICS : Type := (CHAT_MODE -> MODE_STATICS) * XD.
Abbreviation MODE := (CHAT_MODE + HD)%type.

Definition put_chat (m : CHAT_MODE) (s : MODE_STATICS) (x : STATICS) : STATICS :=
  (fun m' => if decide (m' = m) then s else fst x m', snd x).
Definition put_device (x' : XD) (x : STATICS) : STATICS := (fst x, x').

Definition chat_mode_of (sub : Z) : CHAT_MODE :=
  if sub =? AI_CHAT_SUB_HOLD then Hold
  else if sub =? AI_CHAT_SUB_ONESHOT then Oneshot
  else if sub =? AI_CHAT_SUB_WAKEUP then Wakeup
  else Free.

#[export] Instance system_table : ModeTable MODE STATICS := {
  chat_register sub := inl (chat_mode_of sub);
  device_register mode := inr (device_register mode);
  callbacks h :=
    match h with
    | inl m => zoom_handle (fun x => fst x m) (put_chat m) (chat_callbacks m)
    | inr h => zoom_handle snd put_device (callbacks h)
    end }.

Definition system_asleep (h : MODE) (x : STATICS) : Prop :=
  match h with inl m => asleep (fst x m) | inr h => ml_asleep h (snd x) end.
Definition system_awake (h : MODE) (x : STATICS) (calls : list DEV_CALL) : Prop :=
  match h with inl m => awake m (fst x m) calls | inr h => ml_awake h (snd x) calls end.

Lemma put_chat_others m s x h : h <> inl m -> system_asleep h x -> system_asleep h (put_chat m s x).
Proof. destruct h as [m'|h]; [|done]. cbn. intros Hne. by rewrite decide_False by congruence. Qed.

Lemma put_device_others h x' x h' : h' <> inr h -> (forall g, g <> h -> ml_asleep g (snd x) -> ml_asleep g x') ->
  system_asleep h' x -> system_asleep h' (put_device x' x).
Proof. destruct h' as [m|g]; [done|]. cbn. intros Hne Ho. apply Ho. congruence. Qed.

Lemma chat_callback m op : op <> AI_MODE_OP_MAX -> op <> AI_MODE_OP_AUDIO_INPUT ->
  exists f, callback_for (chat_callbacks m) op = Some f /\ forall data len, f data len = run_mode m op data len.
Proof. intros Hm Ha. destruct m, op; try done; by eexists. Qed.

#[export] Instance system_laws : ModeLaws MODE STATICS.
Proof.
  refine {| ml_asleep := system_asleep; ml_awake := system_awake;
            ml_payload h op data := match h with inl _ => payload_ok op data | inr h => ml_payload h op data end |}.
  - intros [m|h] x c calls Hc; cbn; [|by apply ml_silent]. intros (? & ? & ? & ?). split_and!; [done..|].
    by apply shows_silent.
  - intros [m|h] x d Hs; cbn in Hs.
    + destruct (chat_callback m AI_MODE_OP_INIT) as (f & Hf & Hrun); [done..|]. cbn in Hf. cbn. rewrite Hf.
      eexists. split; [done|]. apply wp_zoom. rewrite Hrun. eapply wp_mono; [by apply chat_init_wp|].
      intros rt [s' d'] [Ha _]. cbn [fst snd] in *. split; [cbn; by rewrite decide_True|].
      intros h' Hne. by apply put_chat_others.
    + destruct (ml_init h (snd x) d Hs) as (f & Hf & Hw). cbn. rewrite Hf. eexists. split; [done|]. apply wp_zoom.
      eapply wp_mono; [exact Hw|]. intros rt [x' d'] [Ha Ho]. split; [done|]. intros h' Hne. by eapply put_device_others.
  - intros [m|h] x d Ha; cbn in Ha.
    + destruct (chat_callback m AI_MODE_OP_DEINIT) as (f & Hf & Hrun); [done..|]. cbn in Hf. cbn. rewrite Hf.
      eexists. split; [done|]. apply wp_zoom. rewrite Hrun. eapply wp_mono; [by apply deinit_wp|].
      intros rt [s' d'] Hs. cbn [fst snd] in *. split; [cbn; by rewrite decide_True|].
      intros h' Hne. by apply put_chat_others.
    + destruct (ml_deinit h (snd x) d Ha) as (f & Hf & Hw). cbn. rewrite Hf. eexists. split; [done|]. apply wp_zoom.
      eapply wp_mono; [exact Hw|]. intros rt [x' d'] [Hs Ho]. split; [done|]. intros h' Hne. by eapply put_device_others.
  - intros [m|h] op f data len x d Hf Hi Hd Hp Ha; cbn in Ha; cbn [callbacks system_table] in Hf;
      rewrite callback_zoom in Hf; apply fmap_Some in Hf as (g & Hg & ->); apply wp_zoom.
    + assert (Hrun : g data len = run_mode m op data len) by (unfold run_mode; by rewrite Hg).
      rewrite Hrun. eapply wp_mono; [by apply op_wp|]. intros rt [s' d'] Ha'. cbn [fst snd] in *.
      split; [cbn; by rewrite decide_True|]. intros h' Hne. by apply put_chat_others.
    + eapply wp_mono; [by apply (ml_run h op g)|]. intros rt [x' d'] [Ha' Ho]. split; [done|].
      intros h' Hne. by eapply put_device_others.
Defined.

End System.

(** ** All modes, and the key of the detection mode *)

Section Whole.
Context `{CFG : ModeConfig} (mutex_ok : bool).
#[local] Instance whole_table : ModeTable DEVICE_FILE DEVICE_STATICS := device_table mutex_ok.
#[local] Instance whole_laws : @ModeLaws DEVICE_FILE DEVICE_STATICS whole_table := device_laws mutex_ok.

Definition WHOLE : Type := Sys (CHAT_MODE + DEVICE_FILE) (@STATICS DEVICE_STATICS).
Definition whole_detection (s : WHOLE) : DETECTION_STATICS := in_detection (snd (sy_modes s)).

Definition detection_part (A : Type) (m : C (DETECTION_STATICS * Device) A) : C WHOLE A :=
  on_modes (on_part (fun x => in_detection (snd x)) (fun x' x => put_device (put_detection x' (snd x)) x) m).

(** wukong_ai_mode_dispatch with every mode: the detection mode's key reaches
    back into the manager. *)
Definition system_dispatch (op : AI_MODE_OP_E) (data : option AI_DATA) (len : Z) : C WHOLE OPERATE_RET :=
  let* m := get_mgr in
  let* entry := (match active m with
                 | None => cret None
                 | Some r => let* e := cpure (entry_at m r) in cret (Some e)
                 end) in
  match op, match entry with Some e => handle e | None => None end with
  | AI_MODE_OP_KEY, Some (inr DetectionMode) =>
      wukong_ai_detection_key_cb detection_part wukong_ai_device_mode_switch data len
  | _, _ => wukong_ai_mode_dispatch op data len
  end.

Lemma wp_detection_part {A} (m : C (DETECTION_STATICS * Device) A) (Q : A -> WHOLE -> Prop) mgr t x d :
  wp m (fun a r => Q a (mk_sys mgr t (put_device (put_detection (fst r) (snd x)) x) (snd r))) (in_detection (snd x), d) ->
  wp (detection_part A m) Q (mk_sys mgr t x d).
Proof. intros Hw. unfold detection_part. apply wp_on_modes, wp_on_part. exact Hw. Qed.

(** What the key does in detection mode. *)
Definition detection_key_spec (k : PUSH_KEY_TYPE_E) (s s' : WHOLE) : Prop :=
  match k with
  | NORMAL_KEY =>
      if md_busy (whole_detection s) then
        s_mode_mgr s' = s_mode_mgr s /\ sy_toy s' = sy_toy s /\
        in_phase Watching (whole_detection s') (dv_calls (sy_dev s'))
      else if switchable (s_mode_mgr s) AI_DEVICE_MODE_CHAT then device_switched AI_DEVICE_MODE_CHAT s s'
      else s' = s
  | SEQ_KEY | LONG_KEY | RELEASE_KEY => s' = s
  end.

(** The detection mode alone is awake, and only its data change. *)
Lemma cancelled_inv m t x d r e s' d' : mgr_inv (mk_sys m t x d) -> active m = Some r -> entry_at m r = Some e ->
  handle e = Some (inr DetectionMode) -> detection_awake s' (dv_calls d') ->
  mgr_inv (mk_sys m t (put_device (put_detection s' (snd x)) x) d').
Proof.
  intros [Hsh Ha] Hact He Hh Haw. cbn in Ha. rewrite Hact in Ha. destruct Ha as (Hr & e' & h & He' & Hh' & _ & Ho).
  replace e' with e in * by congruence. replace h with (inr DetectionMode : (CHAT_MODE + DEVICE_FILE)%type) in * by congruence.
  eapply switched_inv; [exact Hsh|exact Hact|exact Hr|exact He|exact Hh|]. split; [exact Haw|].
  intros [c|g] Hne; specialize (Ho _ Hne); [exact Ho|]. by destruct g.
Qed.

Lemma cancel_wp m t x d r e : mgr_inv (mk_sys m t x d) -> active m = Some r -> entry_at m r = Some e ->
  handle e = Some (inr DetectionMode) ->
  wp (detection_part unit md_cancel) (fun _ s' => mgr_inv s' /\ s_mode_mgr s' = m /\ sy_toy s' = t /\
    in_phase Watching (whole_detection s') (dv_calls (sy_dev s'))) (mk_sys m t x d).
Proof.
  intros Hinv Hact He Hh. assert (Haw : detection_awake (in_detection (snd x)) (dv_calls d)).
  { destruct Hinv as [_ Ha]. cbn in Ha. rewrite Hact in Ha. destruct Ha as (_ & e' & h & He' & Hh' & Haw & _).
    replace e' with e in * by congruence. by replace h with (inr DetectionMode : (CHAT_MODE + DEVICE_FILE)%type) in * by congruence. }
  destruct Haw as (Hwf & p & Hg & _). apply wp_detection_part. eapply wp_mono; [by apply cancel_watches|].
  intros _ [s' d'] (Hw & Hbuf & _). cbn [fst snd] in *. split_and!; [|done..].
  eapply cancelled_inv; try done. split; [unfold md_wf in *; by rewrite Hbuf|]. by exists Watching.
Qed.

(** C31. The key in detection mode: while the mode waits for the cloud or plays
    its answer, a press cancels that and the camera is watched again; otherwise
    it takes the device back to chat mode, if its sub-mode is built in. Exactly
    one mode is awake after it, and the other gestures do nothing. *)
Theorem detection_key k len (s : WHOLE) r e :
  mgr_inv s -> active (s_mode_mgr s) = Some r -> entry_at (s_mode_mgr s) r = Some e ->
  handle e = Some (inr DetectionMode) ->
  exists s', system_dispatch AI_MODE_OP_KEY (Some (DataKey k)) len s = Some (OPRT_OK, s') /\ mgr_inv s' /\
    detection_key_spec k s s'.
Proof.
  intros Hinv Hact He Hh.
  assert (Hrun : wp (system_dispatch AI_MODE_OP_KEY (Some (DataKey k)) len)
    (fun rt s' => rt = OPRT_OK /\ mgr_inv s' /\ detection_key_spec k s s') s).
  { destruct s as [m t x d]. cbn [s_mode_mgr sy_toy sy_modes] in *. unfold system_dispatch.
    wp_step. apply wp_get_mgr. rewrite Hact. do 2 wp_step. apply (wp_pure _ e); [done|]. wp_step. rewrite Hh. cbv iota.
    unfold wukong_ai_detection_key_cb. wp_step. destruct k; try by do 2 wp_step.
    wp_step. apply wp_detection_part. tm_step. cbn [fst snd].
    replace (put_device (put_detection (in_detection (snd x)) (snd x)) x) with x by by destruct x as [c []].
    unfold detection_key_spec, whole_detection. cbn [sy_modes s_mode_mgr sy_toy].
    destruct (md_busy (in_detection (snd x))).
    - eapply wp_mono; [by eapply cancel_wp|]. intros _ s' (Hi & Hm & Ht & Hw). by wp_step.
    - wp_step. apply device_switch_wp; [done|done|]. cbn [s_mode_mgr].
      intros rt s' [(-> & Hsw & Hi & Hd)|(Hne & Hsw & ->)]; do 2 wp_step; by rewrite Hsw. }
  apply wp_elim in Hrun as (rt & s' & Hr & -> & Hi & Hs). by exists s'.
Qed.

End Whole.

(** ** At concrete states *)

#[local] Existing Instance demo_config.
#[local] Instance demo_devices : ModeTable DEVICE_FILE DEVICE_STATICS := device_table true.
#[local] Instance demo_laws : @ModeLaws DEVICE_FILE DEVICE_STATICS demo_devices := device_laws true.

Definition chats_zero : CHAT_MODE -> MODE_STATICS := fun _ => statics_zero.

(** Hold mode just initialised. *)
Definition demo_sys : WHOLE :=
  mk_sys (registered true 0 0 (Some (ChatSub 0))) (mk_toy 1 0 None)
    (fun m => match m with Hold => mk_statics (mk_param false AI_CHAT_IDLE) AI_CHAT_INVALID | _ => statics_zero end,
     devices_zero) calm_device.

Lemma devices_zero_asleep h : device_asleep h devices_zero.
Proof. by destruct h. Qed.

Lemma demo_sys_inv : mgr_inv demo_sys.
Proof.
  split; [by apply registered_shape|]. cbn [active s_mode_mgr demo_sys registered]. split; [done|].
  eexists _, _. split; [done|]. split; [done|]. split; [by split_and!|].
  intros [[]|h]; try done. intros _. apply devices_zero_asleep.
Qed.

(** From hold mode to translation. *)
Lemma mode_mgr_correct_witness : exists rt s',
  run_mgr (MDevice AI_DEVICE_MODE_TRANSLATE) demo_sys = Some (rt, s') /\ mgr_inv s' /\
  rt = OPRT_OK /\ device_switched AI_DEVICE_MODE_TRANSLATE demo_sys s'.
Proof.
  destruct (mode_mgr_correct (MDevice AI_DEVICE_MODE_TRANSLATE) demo_sys demo_sys_inv) as (rt & s' & Hr & Hi & Hs); [done|].
  exists rt, s'. split; [exact Hr|]. split; [exact Hi|]. exact Hs.
Defined.

(** The detection mode is stored: the device boots into it. *)
Definition demo_off : WHOLE := mk_sys mgr_zero (mk_toy AI_DEVICE_MODE_DETECTION 3 None) (chats_zero, devices_zero) calm_device.

Lemma mode_boot_witness : exists rt s',
  wukong_ai_mode_init true demo_off = Some (rt, s') /\ mgr_inv s' /\
  booted true AI_DEVICE_MODE_DETECTION 0 (DeviceMode AI_DEVICE_MODE_DETECTION) rt s'.
Proof.
  destruct (mode_boot true demo_off) as (rt & s' & Hr & Hi & Hs); [|done..|].
  { intros [m|h]; [done|apply devices_zero_asleep]. }
  exists rt, s'. split; [exact Hr|]. split; [exact Hi|]. exact Hs.
Defined.

(** The detection mode while the cloud thinks. *)
Definition thinking : DETECTION_STATICS := mk_md (mk_param false AI_CHAT_THINK) true None 60 5 false 7.
Definition thinking_device : Device :=
  called (wukong_audio_input_wakeup_set false) (called camera_unsubscribe_md calm_device).
Definition demo_thinking : WHOLE :=
  mk_sys (registered true AI_DEVICE_MODE_DETECTION 0 (Some (DeviceMode AI_DEVICE_MODE_DETECTION)))
    (mk_toy AI_DEVICE_MODE_DETECTION 0 None) (chats_zero, put_detection thinking devices_zero) thinking_device.

Lemma thinking_phase : in_phase Thinking thinking (dv_calls thinking_device).
Proof. by split_and!. Qed.

Lemma demo_thinking_inv : mgr_inv demo_thinking.
Proof.
  split; [by apply registered_shape|]. cbn [active s_mode_mgr demo_thinking registered]. split; [done|].
  eexists _, _. split; [done|]. split; [done|]. split.
  - split; [done|]. exists Thinking. apply thinking_phase.
  - intros [m|[]]; by intros.
Qed.

Lemma detection_key_witness : exists s',
  system_dispatch true AI_MODE_OP_KEY (Some (DataKey NORMAL_KEY)) 4 demo_thinking = Some (OPRT_OK, s') /\
  mgr_inv s' /\ detection_key_spec NORMAL_KEY demo_thinking s'.
Proof.
  apply (detection_key true NORMAL_KEY 4 demo_thinking (DeviceMode AI_DEVICE_MODE_DETECTION)
    (device_entry true AI_DEVICE_MODE_DETECTION)); [apply demo_thinking_inv|reflexivity..].
Defined.
