(* ===== verification/McpCore.v ===== *)
(** The MCP server's data, its transport and its content builders
    (mcp_server.c, mcp_server_internal.h and mcp_content.c of src/wukong/mcp).

    A message that is sent is its text; a message that cannot be printed is not
    sent. Pointers that the code never leaves NULL are plain values. *)
From S2P Require Import Prelude.
From S2P Require Import World.
From S2P Require Import Json.
From S2P Require Import TmHost.

#[local] Open Scope string_scope.
#[local] Open Scope Z_scope.

(** ** Constants and configuration (mcp_server.h) *)

Definition MCP_PROTOCOL_VERSION : string := "2024-11-05".
Definition MCP_MAX_PAYLOAD_SIZE : Z := 16384.
Definition MCP_ERR_PARSE : Z := -32700.
Definition MCP_ERR_INVALID_REQUEST : Z := -32600.
Definition MCP_ERR_METHOD_NOT_FOUND : Z := -32601.
Definition MCP_ERR_INVALID_PARAMS : Z := -32602.
Definition MCP_ERR_INTERNAL : Z := -32603.
Definition MCP_ERR_RESOURCE_NOT_FOUND : Z := -32002.

(** The compile-time switches of the capabilities. *)
Class McpConfig := {
  MCP_ENABLE_TOOLS : bool; MCP_ENABLE_RESOURCES : bool;
  MCP_ENABLE_PROMPTS : bool; MCP_ENABLE_LOGGING : bool }.

(** ** State *)

Record MCP_SERVER_CTX_T := mk_mctx {
  mc_initialized : bool; mc_name : option string; mc_version : option string;
  mc_session_sid : option string; mc_session_eid : option string }.

(** [t_addr] is the address of the entry; [H] is the type of function pointers
    together with the user data registered with them. *)
Record MCP_TOOL_ENTRY_T (H : Type) := mk_tool {
  t_addr : nat; t_name : string; t_description : string; t_input_schema : cJSON; t_handler : H }.
Arguments mk_tool {H}.
Arguments t_addr {H}.
Arguments t_name {H}.
Arguments t_description {H}.
Arguments t_input_schema {H}.
Arguments t_handler {H}.

Record TOOL_CALL_MSG_T := mk_call {
  cm_sid : string; cm_eid : string; cm_id : string; cm_arguments : option cJSON; cm_tool : nat }.

Record MCP_RESOURCE_ENTRY_T (H : Type) := mk_resource {
  r_uri : string; r_name : string; r_description : option string; r_mime_type : option string; r_handler : H }.
Arguments mk_resource {H}.
Arguments r_uri {H}.
Arguments r_name {H}.
Arguments r_description {H}.
Arguments r_mime_type {H}.
Arguments r_handler {H}.

Record MCP_PROMPT_ENTRY_T (H : Type) := mk_prompt {
  p_name : string; p_description : option string; p_args_json : option cJSON; p_handler : H }.
Arguments mk_prompt {H}.
Arguments p_name {H}.
Arguments p_description {H}.
Arguments p_args_json {H}.
Arguments p_handler {H}.

(** The static variables of the files, the addresses used for tools so far, and
    the calls waiting in the system work queue. *)
Record MCP (H : Type) := mk_mcp {
  s_ctx : MCP_SERVER_CTX_T;
  s_tools : list (MCP_TOOL_ENTRY_T H);
  s_addrs : nat;
  s_calls : list TOOL_CALL_MSG_T;
  s_resources : list (MCP_RESOURCE_ENTRY_T H);
  s_subscriptions : list string;
  s_prompts : list (MCP_PROMPT_ENTRY_T H);
  s_log_level : Z }.
Arguments mk_mcp {H}.
Arguments s_ctx {H}.
Arguments s_tools {H}.
Arguments s_addrs {H}.
Arguments s_calls {H}.
Arguments s_resources {H}.
Arguments s_subscriptions {H}.
Arguments s_prompts {H}.
Arguments s_log_level {H}.

Section Setters.
Context {H : Type}.
Implicit Types m : MCP H.
Definition set_server_ctx c m := mk_mcp c (s_tools m) (s_addrs m) (s_calls m) (s_resources m) (s_subscriptions m) (s_prompts m) (s_log_level m).
Definition set_tools ts n m := mk_mcp (s_ctx m) ts n (s_calls m) (s_resources m) (s_subscriptions m) (s_prompts m) (s_log_level m).
Definition set_calls q m := mk_mcp (s_ctx m) (s_tools m) (s_addrs m) q (s_resources m) (s_subscriptions m) (s_prompts m) (s_log_level m).
Definition set_resources rs m := mk_mcp (s_ctx m) (s_tools m) (s_addrs m) (s_calls m) rs (s_subscriptions m) (s_prompts m) (s_log_level m).
Definition set_subscriptions us m := mk_mcp (s_ctx m) (s_tools m) (s_addrs m) (s_calls m) (s_resources m) us (s_prompts m) (s_log_level m).
Definition set_prompts ps m := mk_mcp (s_ctx m) (s_tools m) (s_addrs m) (s_calls m) (s_resources m) (s_subscriptions m) ps (s_log_level m).
Definition set_log_level l m := mk_mcp (s_ctx m) (s_tools m) (s_addrs m) (s_calls m) (s_resources m) (s_subscriptions m) (s_prompts m) l.
End Setters.

Definition ctx_zero : MCP_SERVER_CTX_T := mk_mctx false None None None None.
Definition mcp_boot {H} : MCP H := mk_mcp ctx_zero [] 0 [] [] [] [] 7.

(** ** The rest of the program

    A tool's handler returns its result code, the content it built and its error
    flag; the handlers of resources and prompts, what they read. *)
Class McpHost (W H : Type) := {
  mh_malloc : C W bool;
  tuya_ai_agent_mcp_set_cb : bool -> C W unit;
  tuya_ai_agent_mcp_response : string -> string -> string -> C W unit;
  mh_schedule : C W OPERATE_RET;  (* tal_workq_schedule(WORKQ_SYSTEM, __tool_call_worker, ..) *)
  tool_handler : H -> string -> option cJSON -> C W (OPERATE_RET * option cJSON * bool);
  resource_handler : H -> string -> C W (OPERATE_RET * option cJSON);
  prompt_handler : H -> string -> option cJSON -> C W (OPERATE_RET * option cJSON);
  (** what the laws talk about *)
  mh_ok : W -> Prop;
  mh_sent : W -> list (string * string * string) (* session, event, text; newest first *) }.

(** ** Building JSON, in any part of the program that can allocate *)

Class Alloc (X : Type) := heap_alloc : C X bool.

Section Build.
Context {X : Type} `{AL : !Alloc X}.
Abbreviation M := (C X).

(** ty_cJSON_CreateObject and ty_cJSON_CreateArray. *)
Definition json_create (empty : cJSON) : M (option cJSON) :=
  let* ok := heap_alloc in cret (if ok then Some empty else None).

(** ty_cJSON_Add...ToObject, which nothing tests: without memory the object
    stays as it is. *)
Definition obj_add (obj : cJSON) (name : string) (v : cJSON) : M cJSON :=
  let* ok := heap_alloc in cret (if ok then ty_cJSON_AddItemToObject obj name v else obj).

(** The same for a value that may be NULL, and then is not added. *)
Definition obj_add_opt (obj : cJSON) (name : string) (v : option cJSON) : M cJSON :=
  match v with Some v => obj_add obj name v | None => cret obj end.

Definition obj_add_str_opt (obj : cJSON) (name : string) (s : option string) : M cJSON :=
  obj_add_opt obj name (JString <$> s).

(** An empty object, added when it could be created. *)
Definition obj_add_new (obj : cJSON) (name : string) (empty : cJSON) : M cJSON :=
  let* v := json_create empty in obj_add_opt obj name v.

Definition arr_add_opt (arr : cJSON) (v : option cJSON) : cJSON :=
  match v with Some v => ty_cJSON_AddItemToArray arr v | None => arr end.

(** mm_strdup. *)
Definition mcp_strdup (s : string) : M (option string) :=
  let* ok := heap_alloc in cret (if ok then Some s else None).

(** ** Content (mcp_content.c) *)

Definition mcp_content_make_text (text : option string) : M (option cJSON) :=
  match text with
  | None => cret None
  | Some text =>
      let* item := json_create (JObject []) in
      match item with
      | None => cret None
      | Some item =>
          let* item := obj_add item "type" (JString "text") in
          let* item := obj_add item "text" (JString text) in
          cret (Some item)
      end
  end.

Definition mcp_content_make_image_base64 (mime_type base64_data : option string) : M (option cJSON) :=
  match mime_type, base64_data with
  | Some mime_type, Some base64_data =>
      let* item := json_create (JObject []) in
      match item with
      | None => cret None
      | Some item =>
          let* item := obj_add item "type" (JString "image") in
          let* item := obj_add item "mimeType" (JString mime_type) in
          let* item := obj_add item "data" (JString base64_data) in
          cret (Some item)
      end
  | _, _ => cret None
  end.

Definition mcp_content_make_resource (uri mime_type text : option string) : M (option cJSON) :=
  match uri, text with
  | Some uri, Some text =>
      let* item := json_create (JObject []) in
      match item with
      | None => cret None
      | Some item =>
          let* item := obj_add item "type" (JString "resource") in
          let* resource := json_create (JObject []) in
          match resource with
          | None => cret None
          | Some resource =>
              let* resource := obj_add resource "uri" (JString uri) in
              let* resource := obj_add_str_opt resource "mimeType" mime_type in
              let* resource := obj_add resource "text" (JString text) in
              let* item := obj_add item "resource" resource in
              cret (Some item)
          end
      end
  | _, _ => cret None
  end.

(** What the handlers test first. *)
Definition field_of (params : option cJSON) (name : string) : option cJSON :=
  params ≫= fun j => ty_cJSON_GetObjectItem j name.

End Build.

Section Core.
Context {W H : Type} `{MH : McpHost W H} `{JT : JsonText}.
Abbreviation M := (C (MCP H * W)).

#[export] Instance mcp_heap : Alloc (MCP H * W) := on_host mh_malloc.

(** ** Transport (mcp_server.c) *)

Definition __send_message (sid eid : string) (message : string) : M unit :=
  on_host (tuya_ai_agent_mcp_response sid eid message).

Definition print_and_send (sid eid : string) (j : cJSON) : M unit :=
  match ty_cJSON_PrintUnformatted j with
  | Some json_str => __send_message sid eid json_str
  | None => cret tt
  end.

Definition mcp_server_reply_result (sid eid : string) (id : option string) (result : option cJSON) : M OPERATE_RET :=
  match id with
  | None => cret OPRT_INVALID_PARM
  | Some id =>
      let* response := json_create (JObject []) in
      match response with
      | None => cret OPRT_MALLOC_FAILED
      | Some response =>
          let* response := obj_add response "jsonrpc" (JString "2.0") in
          let* response := obj_add response "id" (JString id) in
          let* response :=
            match result with
            | Some result => obj_add response "result" result
            | None => obj_add_new response "result" (JObject [])
            end in
          let* _ := print_and_send sid eid response in
          cret OPRT_OK
      end
  end.

Definition mcp_server_reply_error (sid eid : string) (id : option string) (code : Z) (msg : option string) : M OPERATE_RET :=
  let* response := json_create (JObject []) in
  match response with
  | None => cret OPRT_MALLOC_FAILED
  | Some response =>
      let* response := obj_add response "jsonrpc" (JString "2.0") in
      let* response := obj_add response "id" (match id with Some id => JString id | None => JNull end) in
      let* error := json_create (JObject []) in
      match error with
      | None => cret OPRT_MALLOC_FAILED
      | Some error =>
          let* error := obj_add error "code" (JNumber code) in
          let* error := obj_add error "message" (JString (default "Unknown error" msg)) in
          let* response := obj_add response "error" error in
          let* _ := print_and_send sid eid response in
          cret OPRT_OK
      end
  end.

Definition mcp_server_send_notification (method : string) (params : option cJSON) : M OPERATE_RET :=
  let* m := get_ctx in
  match mc_initialized (s_ctx m), mc_session_sid (s_ctx m), mc_session_eid (s_ctx m) with
  | true, Some session_sid, Some session_eid =>
      let* notif := json_create (JObject []) in
      match notif with
      | None => cret OPRT_MALLOC_FAILED
      | Some notif =>
          let* notif := obj_add notif "jsonrpc" (JString "2.0") in
          let* notif := obj_add notif "method" (JString method) in
          let* notif := obj_add_opt notif "params" params in
          let* _ := print_and_send session_sid session_eid notif in
          cret OPRT_OK
      end
  | _, _, _ => cret OPRT_COM_ERROR
  end.

End Core.
