(* ===== verification/McpTools.v ===== *)
(** The Tools capability of the MCP server (src/wukong/mcp/mcp_server_tools.c):
    registration, tools/list, tools/call and its worker. *)
From Stdlib Require QArith_base.
From S2P Require Import Prelude.
From S2P Require Import CStr.
From S2P Require Import World.
From S2P Require Import Json.
From S2P Require Import TmHost.
From S2P Require Import McpCore.

#[local] Open Scope string_scope.
#[local] Open Scope Z_scope.

(** ** Schemas (mcp_server_tools.h) *)

Record MCP_SCHEMA_PROP_T := mk_prop {
  sp_name : string; sp_type : string; sp_description : option string; sp_required : bool;
  sp_has_minimum : bool; sp_minimum : Z; sp_has_maximum : bool; sp_maximum : Z }.

Definition MCP_SCHEMA_INT (n d : string) : MCP_SCHEMA_PROP_T := mk_prop n "integer" (Some d) true false 0 false 0.
Definition MCP_SCHEMA_INT_OPT (n d : string) : MCP_SCHEMA_PROP_T := mk_prop n "integer" (Some d) false false 0 false 0.
Definition MCP_SCHEMA_INT_RANGE (n d : string) (lo hi : Z) : MCP_SCHEMA_PROP_T :=
  mk_prop n "integer" (Some d) true true lo true hi.
Definition MCP_SCHEMA_INT_OPT_RANGE (n d : string) (lo hi : Z) : MCP_SCHEMA_PROP_T :=
  mk_prop n "integer" (Some d) false true lo true hi.
Definition MCP_SCHEMA_STR (n d : string) : MCP_SCHEMA_PROP_T := mk_prop n "string" (Some d) true false 0 false 0.
Definition MCP_SCHEMA_STR_OPT (n d : string) : MCP_SCHEMA_PROP_T := mk_prop n "string" (Some d) false false 0 false 0.
Definition MCP_SCHEMA_BOOL (n d : string) : MCP_SCHEMA_PROP_T := mk_prop n "boolean" (Some d) true false 0 false 0.
Definition MCP_SCHEMA_BOOL_OPT (n d : string) : MCP_SCHEMA_PROP_T := mk_prop n "boolean" (Some d) false false 0 false 0.
Definition MCP_SCHEMA_NUM (n d : string) : MCP_SCHEMA_PROP_T := mk_prop n "number" (Some d) true false 0 false 0.
Definition MCP_SCHEMA_NUM_OPT (n d : string) : MCP_SCHEMA_PROP_T := mk_prop n "number" (Some d) false false 0 false 0.

(** ** Checking the arguments of a call *)

Definition below (x y : Q) : bool := negb (QArith_base.Qle_bool y x).

(** The members of a node that are reached through its child pointer. *)
Definition children (j : cJSON) : list (string * cJSON) := match j with JObject fields => fields | _ => [] end.

Definition number_of (j : option cJSON) : option Q := match j with Some (JNumber v) => Some v | _ => None end.

Definition constraint_text (name : string) (v : Q) (side : string) (bound : Q) : string :=
  "Parameter '" ++ name ++ "' value " ++ fmt_g v ++ " " ++ side ++ " " ++ fmt_g bound.

(** The loop over the properties: the message of the first violation. *)
Fixpoint constraint_loop (props : list (string * cJSON)) (arguments : cJSON) : option string :=
  match props with
  | [] => None
  | (name, prop) :: props =>
      match number_of (ty_cJSON_GetObjectItem arguments name) with
      | None => constraint_loop props arguments
      | Some v =>
          let too_low := match number_of (ty_cJSON_GetObjectItem prop "minimum") with
                         | Some lo => if below v lo then Some (constraint_text name v "below minimum" lo) else None
                         | None => None end in
          let too_high := match number_of (ty_cJSON_GetObjectItem prop "maximum") with
                          | Some hi => if below hi v then Some (constraint_text name v "above maximum" hi) else None
                          | None => None end in
          match too_low, too_high with
          | Some msg, _ => Some msg
          | None, Some msg => Some msg
          | None, None => constraint_loop props arguments
          end
      end
  end.

(** The buffer holds [err_msg_size] characters, the last a zero. *)
Definition __validate_schema_constraints (input_schema : cJSON) (arguments : option cJSON) (err_msg_size : nat)
    : OPERATE_RET * string :=
  match arguments, ty_cJSON_GetObjectItem input_schema "properties" with
  | Some arguments, Some props =>
      match constraint_loop (children props) arguments with
      | Some msg => (OPRT_INVALID_PARM, strtrunc (err_msg_size - 1) msg)
      | None => (OPRT_OK, "")
      end
  | _, _ => (OPRT_OK, "")
  end.

Definition missing_header : string := "Missing required parameter(s):".

(** [text] is what the calls of snprintf were asked to write so far, its length
    the variable offset: the buffer holds its beginning. *)
Fixpoint missing_loop (required : list cJSON) (arguments : option cJSON) (err_msg_size : nat) (text : string) : string :=
  match required with
  | [] => text
  | JString name :: required =>
      let text :=
        match field_of arguments name with
        | Some _ => text
        | None => if (strlen text <? err_msg_size - 1)%nat then text ++ " " ++ name else text
        end in
      missing_loop required arguments err_msg_size text
  | _ :: required => missing_loop required arguments err_msg_size text
  end.

Definition __validate_required_args (input_schema : cJSON) (arguments : option cJSON) (err_msg_size : nat)
    : OPERATE_RET * string :=
  match ty_cJSON_GetObjectItem input_schema "required" with
  | Some (JArray []) => (OPRT_OK, "")
  | Some (JArray required) =>
      let text := missing_loop required arguments err_msg_size missing_header in
      if (strlen text =? strlen missing_header)%nat then (OPRT_OK, strtrunc (err_msg_size - 1) text)
      else (OPRT_INVALID_PARM, strtrunc (err_msg_size - 1) text)
  | _ => (OPRT_OK, "")
  end.

Section Tools.
Context {W H : Type} `{MH : McpHost W H} `{JT : JsonText}.
Abbreviation M := (C (MCP H * W)).

(** ** Registration *)

Definition build_prop (p : MCP_SCHEMA_PROP_T) (prop_obj : cJSON) : M cJSON :=
  let* prop_obj := obj_add prop_obj "type" (JString (sp_type p)) in
  let* prop_obj := obj_add_str_opt prop_obj "description" (sp_description p) in
  let* prop_obj := obj_add_opt prop_obj "minimum" (if sp_has_minimum p then Some (JNumber (sp_minimum p)) else None) in
  obj_add_opt prop_obj "maximum" (if sp_has_maximum p then Some (JNumber (sp_maximum p)) else None).

(** The loop over the variable arguments, which NULL ends. *)
Fixpoint build_props (ps : list MCP_SCHEMA_PROP_T) (props required : cJSON) : M (cJSON * cJSON) :=
  match ps with
  | [] => cret (props, required)
  | p :: ps =>
      let* prop_obj := json_create (JObject []) in
      match prop_obj with
      | None => build_props ps props required
      | Some prop_obj =>
          let* prop_obj := build_prop p prop_obj in
          let* props := obj_add props (sp_name p) prop_obj in
          if sp_required p then
            let* item := json_create (JString (sp_name p)) in
            build_props ps props (arr_add_opt required item)
          else build_props ps props required
      end
  end.

Definition __build_input_schema (ps : list MCP_SCHEMA_PROP_T) : M (option cJSON) :=
  let* schema := json_create (JObject []) in
  match schema with
  | None => cret None
  | Some schema =>
      let* schema := obj_add schema "type" (JString "object") in
      let* props := json_create (JObject []) in
      let* required := json_create (JArray []) in
      match props, required with
      | Some props, Some required =>
          let* (props, required) := build_props ps props required in
          let* schema := obj_add schema "properties" props in
          match required with
          | JArray (_ :: _) => let* schema := obj_add schema "required" required in cret (Some schema)
          | _ => cret (Some schema)
          end
      | _, _ => cret None
      end
  end.

Definition named (name : string) (t : MCP_TOOL_ENTRY_T H) : bool := String.eqb (t_name t) name.

Definition mcp_server_tool_register (name description : option string) (handler : option H) (ps : list MCP_SCHEMA_PROP_T)
    : M OPERATE_RET :=
  match name, description, handler with
  | Some name, Some description, Some handler =>
      let* m := get_ctx in
      if existsb (named name) (s_tools m) then cret OPRT_COM_ERROR
      else
        let* entry := heap_alloc in
        if negb entry then cret OPRT_MALLOC_FAILED
        else
          let* name' := mcp_strdup name in
          let* description' := mcp_strdup description in
          match name', description' with
          | Some name, Some description =>
              let* input_schema := __build_input_schema ps in
              match input_schema with
              | None => cret OPRT_MALLOC_FAILED
              | Some input_schema =>
                  let* m := get_ctx in
                  let entry := mk_tool (s_addrs m) name description input_schema handler in
                  let* _ := mod_ctx (set_tools (entry :: s_tools m) (S (s_addrs m))) in
                  cret OPRT_OK
              end
          | _, _ => cret OPRT_MALLOC_FAILED
          end
  | _, _, _ => cret OPRT_INVALID_PARM
  end.

(** ** tools/list *)

Fixpoint list_tools (cursor_str : string) (found_cursor : bool) (payload_len : Z) (tools : list (MCP_TOOL_ENTRY_T H))
    (result tools_arr : cJSON) : M (cJSON * cJSON) :=
  match tools with
  | [] => cret (result, tools_arr)
  | tool :: tools =>
      if negb (found_cursor || named cursor_str tool)
      then list_tools cursor_str false payload_len tools result tools_arr
      else
        let* tj := json_create (JObject []) in
        match tj with
        | None => list_tools cursor_str true payload_len tools result tools_arr
        | Some tj =>
            let* tj := obj_add tj "name" (JString (t_name tool)) in
            let* tj := obj_add tj "description" (JString (t_description tool)) in
            let* tj := obj_add tj "inputSchema" (t_input_schema tool) in
            match ty_cJSON_PrintUnformatted tj with
            | Some ts =>
                let tl := Z.of_nat (strlen ts) in
                if MCP_MAX_PAYLOAD_SIZE <? payload_len + tl + 128 then
                  let* result := obj_add result "nextCursor" (JString (t_name tool)) in
                  cret (result, tools_arr)
                else list_tools cursor_str true (payload_len + tl) tools result (ty_cJSON_AddItemToArray tools_arr tj)
            | None => list_tools cursor_str true payload_len tools result (ty_cJSON_AddItemToArray tools_arr tj)
            end
        end
  end.

Definition mcp_tools_handle_list (sid eid : string) (params : option cJSON) (id : string) : M OPERATE_RET :=
  let cursor_str := match field_of params "cursor" with Some (JString s) => s | _ => "" end in
  let* result := json_create (JObject []) in
  let* tools_arr := json_create (JArray []) in
  match result, tools_arr with
  | Some result, Some tools_arr =>
      let* m := get_ctx in
      let* (result, tools_arr) := list_tools cursor_str (String.eqb cursor_str "") 0 (s_tools m) result tools_arr in
      let* result := obj_add result "tools" tools_arr in
      mcp_server_reply_result sid eid (Some id) (Some result)
  | _, _ => cret OPRT_MALLOC_FAILED
  end.

(** ** tools/call *)

(** Reading a tool that has been freed is undefined. *)
Definition tool_at (addr : nat) (tools : list (MCP_TOOL_ENTRY_T H)) : option (MCP_TOOL_ENTRY_T H) :=
  List.find (fun t => (t_addr t =? addr)%nat) tools.

Definition __tool_call_worker (msg : TOOL_CALL_MSG_T) : M unit :=
  let* m := get_ctx in
  let* tool := cpure (tool_at (cm_tool msg) (s_tools m)) in
  let* (rt, content, is_error) := on_host (tool_handler (t_handler tool) (t_name tool) (cm_arguments msg)) in
  let* result := json_create (JObject []) in
  match result with
  | None => cret tt
  | Some result =>
      let* (content, is_error) :=
        match content with
        | None =>
            if negb (rt =? OPRT_OK) then
              let* content := json_create (JArray []) in
              match content with
              | Some content =>
                  let* item := mcp_content_make_text (Some "Tool execution failed") in
                  cret (Some (arr_add_opt content item), true)
              | None => cret (None, true)
              end
            else cret (None, is_error)
        | Some _ => cret (content, is_error)
        end in
      let* result :=
        match content with
        | Some content => obj_add result "content" content
        | None => obj_add_new result "content" (JArray [])
        end in
      let* result := obj_add_opt result "isError" (if is_error then Some (JBool true) else None) in
      let* _ := mcp_server_reply_result (cm_sid msg) (cm_eid msg) (Some (cm_id msg)) (Some result) in
      cret tt
  end.

(** The work queue's thread takes the oldest call. *)
Definition run_call : M unit :=
  let* m := get_ctx in
  match s_calls m with
  | [] => cret tt
  | msg :: calls => let* _ := mod_ctx (set_calls calls) in __tool_call_worker msg
  end.

Definition ERR_MSG_SIZE : nat := 256.

Definition invalid_params (sid eid id msg : string) : M OPERATE_RET :=
  mcp_server_reply_error sid eid (Some id) MCP_ERR_INVALID_PARAMS (Some msg).

(** From the allocation of the message on. *)
Definition schedule_call (sid eid id : string) (args_j : option cJSON) (tool : MCP_TOOL_ENTRY_T H) : M OPERATE_RET :=
  let fail := mcp_server_reply_error sid eid (Some id) MCP_ERR_INTERNAL (Some "Failed to schedule tool call") in
  let* msg := heap_alloc in
  if negb msg then mcp_server_reply_error sid eid (Some id) MCP_ERR_INTERNAL (Some "Allocation failed")
  else
    let* sid' := mcp_strdup sid in
    let* eid' := mcp_strdup eid in
    let* id' := mcp_strdup id in
    match sid', eid', id' with
    | Some sid', Some eid', Some id' =>
        let* arguments :=
          match args_j with
          | Some args_j => json_create args_j
          | None => cret None
          end in
        let* rt := on_host mh_schedule in
        if negb (rt =? OPRT_OK) then fail
        else
          let* m := get_ctx in
          let* _ := mod_ctx (set_calls (s_calls m ++ [mk_call sid' eid' id' arguments (t_addr tool)])%list) in
          cret OPRT_OK
    | _, _, _ => fail
    end.

Definition mcp_tools_handle_call (sid eid : string) (params : option cJSON) (id : string) : M OPERATE_RET :=
  if negb (ty_cJSON_IsObject params) then invalid_params sid eid id "Missing params"
  else
    match field_of params "name" with
    | Some (JString tool_name) =>
        let args_j := field_of params "arguments" in
        if (match args_j with Some _ => negb (ty_cJSON_IsObject args_j) | None => false end)
        then invalid_params sid eid id "Invalid arguments"
        else
          let* m := get_ctx in
          match List.find (named tool_name) (s_tools m) with
          | None => invalid_params sid eid id "Unknown tool"
          | Some tool =>
              let '(rt, err_msg) := __validate_required_args (t_input_schema tool) args_j ERR_MSG_SIZE in
              if negb (rt =? OPRT_OK) then invalid_params sid eid id err_msg
              else
                let '(rt, err_msg) := __validate_schema_constraints (t_input_schema tool) args_j ERR_MSG_SIZE in
                if negb (rt =? OPRT_OK) then invalid_params sid eid id err_msg
                else schedule_call sid eid id args_j tool
          end
    | _ => invalid_params sid eid id "Missing tool name"
    end.

Definition mcp_server_notify_tools_changed : M OPERATE_RET :=
  mcp_server_send_notification "notifications/tools/list_changed" None.

Definition mcp_tools_cap_destroy : M unit := let* m := get_ctx in mod_ctx (set_tools [] (s_addrs m)).

End Tools.
