(* ===== verification/McpExtras.v ===== *)
(** The optional capabilities of the MCP server: resources, prompts and logging
    (mcp_server_resources.c, mcp_server_prompts.c, mcp_server_logging.c of
    src/wukong/mcp). *)
From S2P Require Import Prelude.
From S2P Require Import CStr.
From S2P Require Import World.
From S2P Require Import Json.
From S2P Require Import TmHost.
From S2P Require Import McpCore.
From S2P Require Import McpTools.

#[local] Open Scope string_scope.
#[local] Open Scope Z_scope.

(** Unlinking the first entry that satisfies [P]. *)
Fixpoint remove_first {A} (P : A -> bool) (l : list A) : option (list A) :=
  match l with
  | [] => None
  | a :: l => if P a then Some l else cons a <$> remove_first P l
  end.

Record MCP_PROMPT_ARG_T := mk_parg { pa_name : string; pa_description : option string; pa_required : bool }.

Definition MCP_LOG_INFO : Z := 6.
Definition MCP_LOG_DEBUG : Z := 7.

Definition s_log_level_names : list string :=
  ["emergency"; "alert"; "critical"; "error"; "warning"; "notice"; "info"; "debug"].

Fixpoint level_index (level : string) (names : list string) (i : Z) : Z :=
  match names with
  | [] => -1
  | name :: names => if String.eqb name level then i else level_index level names (i + 1)
  end.
Definition __log_level_from_string (level : string) : Z := level_index level s_log_level_names 0.

Section Extras.
Context {W H : Type} `{MH : McpHost W H} `{JT : JsonText}.
Abbreviation M := (C (MCP H * W)).

(** mm_strdup of a string that may be NULL. *)
Definition strdup_opt (s : option string) : M (option string) :=
  match s with Some s => mcp_strdup s | None => cret None end.

(** ** Resources *)

Definition located (uri : string) (r : MCP_RESOURCE_ENTRY_T H) : bool := String.eqb (r_uri r) uri.

Definition mcp_server_resource_add (uri name description mime_type : option string) (handler : option H) : M OPERATE_RET :=
  match uri, name, handler with
  | Some uri, Some name, Some handler =>
      let* m := get_ctx in
      if existsb (located uri) (s_resources m) then cret OPRT_COM_ERROR
      else
        let* entry := heap_alloc in
        if negb entry then cret OPRT_MALLOC_FAILED
        else
          let* uri := mcp_strdup uri in
          let* name := mcp_strdup name in
          let* description := strdup_opt description in
          let* mime_type := strdup_opt mime_type in
          match uri, name with
          | Some uri, Some name =>
              let* _ := mod_ctx (set_resources (mk_resource uri name description mime_type handler :: s_resources m)) in
              cret OPRT_OK
          | _, _ => cret OPRT_MALLOC_FAILED
          end
  | _, _, _ => cret OPRT_INVALID_PARM
  end.

Definition mcp_server_resource_remove (uri : option string) : M OPERATE_RET :=
  match uri with
  | None => cret OPRT_INVALID_PARM
  | Some uri =>
      let* m := get_ctx in
      match remove_first (located uri) (s_resources m) with
      | Some rs => let* _ := mod_ctx (set_resources rs) in cret OPRT_OK
      | None => cret OPRT_NOT_FOUND
      end
  end.

Fixpoint list_resources (rs : list (MCP_RESOURCE_ENTRY_T H)) (arr : cJSON) : M cJSON :=
  match rs with
  | [] => cret arr
  | res :: rs =>
      let* obj := json_create (JObject []) in
      match obj with
      | None => list_resources rs arr
      | Some obj =>
          let* obj := obj_add obj "uri" (JString (r_uri res)) in
          let* obj := obj_add obj "name" (JString (r_name res)) in
          let* obj := obj_add_str_opt obj "description" (r_description res) in
          let* obj := obj_add_str_opt obj "mimeType" (r_mime_type res) in
          list_resources rs (ty_cJSON_AddItemToArray arr obj)
      end
  end.

Definition mcp_resources_handle_list (sid eid : string) (params : option cJSON) (id : string) : M OPERATE_RET :=
  let* result := json_create (JObject []) in
  let* arr := json_create (JArray []) in
  match result, arr with
  | Some result, Some arr =>
      let* m := get_ctx in
      let* arr := list_resources (s_resources m) arr in
      let* result := obj_add result "resources" arr in
      mcp_server_reply_result sid eid (Some id) (Some result)
  | _, _ => cret OPRT_MALLOC_FAILED
  end.

(** The handlers that take a URI read it the same way. *)
Definition with_uri (sid eid : string) (params : option cJSON) (id : string) (k : string -> M OPERATE_RET) : M OPERATE_RET :=
  if negb (ty_cJSON_IsObject params) then invalid_params sid eid id "Missing params"
  else match field_of params "uri" with
       | Some (JString uri) => k uri
       | _ => invalid_params sid eid id "Missing URI"
       end.

(** The reply that carries what a handler read. *)
Definition reply_read (sid eid id name failed : string) (r : OPERATE_RET * option cJSON) : M OPERATE_RET :=
  match r with
  | (rt, Some contents) =>
      if negb (rt =? OPRT_OK) then mcp_server_reply_error sid eid (Some id) MCP_ERR_INTERNAL (Some failed)
      else
        let* result := json_create (JObject []) in
        match result with
        | None => cret OPRT_MALLOC_FAILED
        | Some result =>
            let* result := obj_add result name contents in
            mcp_server_reply_result sid eid (Some id) (Some result)
        end
  | (_, None) => mcp_server_reply_error sid eid (Some id) MCP_ERR_INTERNAL (Some failed)
  end.

Definition mcp_resources_handle_read (sid eid : string) (params : option cJSON) (id : string) : M OPERATE_RET :=
  with_uri sid eid params id (fun uri =>
    let* m := get_ctx in
    match List.find (located uri) (s_resources m) with
    | None => mcp_server_reply_error sid eid (Some id) MCP_ERR_RESOURCE_NOT_FOUND (Some "Resource not found")
    | Some res =>
        let* r := on_host (resource_handler (r_handler res) uri) in
        reply_read sid eid id "contents" "Failed to read resource" r
    end).

Definition mcp_resources_handle_templates_list (sid eid : string) (params : option cJSON) (id : string) : M OPERATE_RET :=
  let* result := json_create (JObject []) in
  match result with
  | None => cret OPRT_MALLOC_FAILED
  | Some result =>
      let* result := obj_add_new result "resourceTemplates" (JArray []) in
      mcp_server_reply_result sid eid (Some id) (Some result)
  end.

(** ty_cJSON_CreateObject() as the argument of a reply. *)
Definition reply_empty (sid eid : string) (id : string) : M OPERATE_RET :=
  let* result := json_create (JObject []) in
  mcp_server_reply_result sid eid (Some id) result.

Definition mcp_resources_handle_subscribe (sid eid : string) (params : option cJSON) (id : string) : M OPERATE_RET :=
  with_uri sid eid params id (fun uri =>
    let fail := mcp_server_reply_error sid eid (Some id) MCP_ERR_INTERNAL (Some "Allocation failed") in
    let* sub := heap_alloc in
    if negb sub then fail
    else
      let* uri := mcp_strdup uri in
      match uri with
      | None => fail
      | Some uri =>
          let* m := get_ctx in
          let* _ := mod_ctx (set_subscriptions (uri :: s_subscriptions m)) in
          reply_empty sid eid id
      end).

Definition mcp_resources_handle_unsubscribe (sid eid : string) (params : option cJSON) (id : string) : M OPERATE_RET :=
  with_uri sid eid params id (fun uri =>
    let* m := get_ctx in
    let* _ :=
      match remove_first (String.eqb uri) (s_subscriptions m) with
      | Some us => mod_ctx (set_subscriptions us)
      | None => cret tt
      end in
    reply_empty sid eid id).

Definition mcp_server_resource_notify_updated (uri : option string) : M OPERATE_RET :=
  match uri with
  | None => cret OPRT_INVALID_PARM
  | Some uri =>
      let* m := get_ctx in
      if negb (existsb (String.eqb uri) (s_subscriptions m)) then cret OPRT_OK
      else
        let* params := json_create (JObject []) in
        match params with
        | None => cret OPRT_MALLOC_FAILED
        | Some params =>
            let* params := obj_add params "uri" (JString uri) in
            mcp_server_send_notification "notifications/resources/updated" (Some params)
        end
  end.

Definition mcp_server_notify_resources_changed : M OPERATE_RET :=
  mcp_server_send_notification "notifications/resources/list_changed" None.

Definition mcp_resources_cap_destroy : M unit :=
  let* _ := mod_ctx (set_resources []) in mod_ctx (set_subscriptions []).

(** ** Prompts *)

Fixpoint build_args (args : list MCP_PROMPT_ARG_T) (arr : cJSON) : M cJSON :=
  match args with
  | [] => cret arr
  | a :: args =>
      let* obj := json_create (JObject []) in
      match obj with
      | None => build_args args arr
      | Some obj =>
          let* obj := obj_add obj "name" (JString (pa_name a)) in
          let* obj := obj_add_str_opt obj "description" (pa_description a) in
          let* obj := obj_add obj "required" (JBool (pa_required a)) in
          build_args args (ty_cJSON_AddItemToArray arr obj)
      end
  end.

(** The array ends with an entry without a name; NULL is the empty one. *)
Definition __build_prompt_args_json (args : list MCP_PROMPT_ARG_T) : M (option cJSON) :=
  match args with
  | [] => cret None
  | _ =>
      let* arr := json_create (JArray []) in
      match arr with
      | None => cret None
      | Some arr => let* arr := build_args args arr in cret (Some arr)
      end
  end.

Definition prompted (name : string) (p : MCP_PROMPT_ENTRY_T H) : bool := String.eqb (p_name p) name.

Definition mcp_server_prompt_add (name description : option string) (args : list MCP_PROMPT_ARG_T) (handler : option H) : M OPERATE_RET :=
  match name, handler with
  | Some name, Some handler =>
      let* m := get_ctx in
      if existsb (prompted name) (s_prompts m) then cret OPRT_COM_ERROR
      else
        let* entry := heap_alloc in
        if negb entry then cret OPRT_MALLOC_FAILED
        else
          let* name := mcp_strdup name in
          let* description := strdup_opt description in
          match name with
          | None => cret OPRT_MALLOC_FAILED
          | Some name =>
              let* args_json := __build_prompt_args_json args in
              let* _ := mod_ctx (set_prompts (mk_prompt name description args_json handler :: s_prompts m)) in
              cret OPRT_OK
          end
  | _, _ => cret OPRT_INVALID_PARM
  end.

Fixpoint list_prompts (ps : list (MCP_PROMPT_ENTRY_T H)) (arr : cJSON) : M cJSON :=
  match ps with
  | [] => cret arr
  | prompt :: ps =>
      let* obj := json_create (JObject []) in
      match obj with
      | None => list_prompts ps arr
      | Some obj =>
          let* obj := obj_add obj "name" (JString (p_name prompt)) in
          let* obj := obj_add_str_opt obj "description" (p_description prompt) in
          let* obj := obj_add_opt obj "arguments" (p_args_json prompt) in
          list_prompts ps (ty_cJSON_AddItemToArray arr obj)
      end
  end.

Definition mcp_prompts_handle_list (sid eid : string) (params : option cJSON) (id : string) : M OPERATE_RET :=
  let* result := json_create (JObject []) in
  let* arr := json_create (JArray []) in
  match result, arr with
  | Some result, Some arr =>
      let* m := get_ctx in
      let* arr := list_prompts (s_prompts m) arr in
      let* result := obj_add result "prompts" arr in
      mcp_server_reply_result sid eid (Some id) (Some result)
  | _, _ => cret OPRT_MALLOC_FAILED
  end.

Definition mcp_prompts_handle_get (sid eid : string) (params : option cJSON) (id : string) : M OPERATE_RET :=
  if negb (ty_cJSON_IsObject params) then invalid_params sid eid id "Missing params"
  else
    match field_of params "name" with
    | Some (JString prompt_name) =>
        let* m := get_ctx in
        match List.find (prompted prompt_name) (s_prompts m) with
        | None => invalid_params sid eid id "Unknown prompt"
        | Some prompt =>
            let* r := on_host (prompt_handler (p_handler prompt) prompt_name (field_of params "arguments")) in
            reply_read sid eid id "messages" "Failed to get prompt" r
        end
    | _ => invalid_params sid eid id "Missing prompt name"
    end.

Definition mcp_server_notify_prompts_changed : M OPERATE_RET :=
  mcp_server_send_notification "notifications/prompts/list_changed" None.

Definition mcp_prompts_cap_destroy : M unit := mod_ctx (set_prompts []).

(** ** Logging *)

Definition mcp_logging_handle_set_level (sid eid : string) (params : option cJSON) (id : string) : M OPERATE_RET :=
  if negb (ty_cJSON_IsObject params) then invalid_params sid eid id "Missing params"
  else
    match field_of params "level" with
    | Some (JString level_j) =>
        let level := __log_level_from_string level_j in
        if level <? 0 then invalid_params sid eid id "Invalid log level"
        else let* _ := mod_ctx (set_log_level level) in reply_empty sid eid id
    | _ => invalid_params sid eid id "Missing level"
    end.

(** [text] is what vsnprintf makes of the format and its arguments, [None] when
    the format is NULL; 511 characters of it fit. *)
Definition mcp_server_log (level logger text : option string) : M OPERATE_RET :=
  match level, text with
  | Some level, Some text =>
      let severity := __log_level_from_string level in
      let severity := if severity <? 0 then MCP_LOG_INFO else severity in
      let* m := get_ctx in
      if s_log_level m <? severity then cret OPRT_OK
      else
        let* params := json_create (JObject []) in
        match params with
        | None => cret OPRT_MALLOC_FAILED
        | Some params =>
            let* params := obj_add params "level" (JString level) in
            let* params := obj_add_str_opt params "logger" logger in
            let* params := obj_add params "data" (JString (strtrunc 511 text)) in
            mcp_server_send_notification "notifications/message" (Some params)
        end
  | _, _ => cret OPRT_INVALID_PARM
  end.

Definition mcp_logging_cap_destroy : M unit := mod_ctx (set_log_level MCP_LOG_DEBUG).

End Extras.
