(* ===== verification/McpServer.v ===== *)
(** The MCP server's router and life cycle (src/wukong/mcp/mcp_server.c). *)
From S2P Require Import Prelude.
From S2P Require Import CStr.
From S2P Require Import World.
From S2P Require Import Json.
From S2P Require Import TmHost.
From S2P Require Import McpCore.
From S2P Require Import McpTools.
From S2P Require Import McpExtras.

#[local] Open Scope string_scope.
#[local] Open Scope Z_scope.

Section Server.
Context {W H : Type} `{MH : McpHost W H} `{JT : JsonText} `{CF : McpConfig}.
Abbreviation M := (C (MCP H * W)).

(** ** initialize and ping *)

(** A capability object with its flags. *)
Fixpoint add_flags (obj : cJSON) (flags : list string) : M cJSON :=
  match flags with
  | [] => cret obj
  | flag :: flags => let* obj := obj_add obj flag (JBool true) in add_flags obj flags
  end.

Definition capability (enabled : bool) (name : string) (flags : list string) (caps : cJSON) : M cJSON :=
  if negb enabled then cret caps
  else
    let* obj := json_create (JObject []) in
    match obj with
    | None => cret caps
    | Some obj => let* obj := add_flags obj flags in obj_add caps name obj
    end.

Definition server_caps (caps : cJSON) : M cJSON :=
  let* caps := capability MCP_ENABLE_TOOLS "tools" ["listChanged"] caps in
  let* caps := capability MCP_ENABLE_RESOURCES "resources" ["subscribe"; "listChanged"] caps in
  let* caps := capability MCP_ENABLE_PROMPTS "prompts" ["listChanged"] caps in
  if MCP_ENABLE_LOGGING then obj_add_new caps "logging" (JObject []) else cret caps.

Definition set_session (sid eid : option string) (c : MCP_SERVER_CTX_T) : MCP_SERVER_CTX_T :=
  mk_mctx (mc_initialized c) (mc_name c) (mc_version c) sid eid.

Definition __handle_initialize (sid eid : string) (params : option cJSON) (id : string) : M OPERATE_RET :=
  let* result := json_create (JObject []) in
  match result with
  | None => cret OPRT_MALLOC_FAILED
  | Some result =>
      let* result := obj_add result "protocolVersion" (JString MCP_PROTOCOL_VERSION) in
      let* caps := json_create (JObject []) in
      let* result :=
        match caps with
        | Some caps => let* caps := server_caps caps in obj_add result "capabilities" caps
        | None => cret result
        end in
      let* server_info := json_create (JObject []) in
      let* m := get_ctx in
      let* result :=
        match server_info with
        | Some server_info =>
            let* server_info := obj_add_str_opt server_info "name" (mc_name (s_ctx m)) in
            let* server_info := obj_add_str_opt server_info "version" (mc_version (s_ctx m)) in
            obj_add result "serverInfo" server_info
        | None => cret result
        end in
      let* session_sid := mcp_strdup sid in
      let* session_eid := mcp_strdup eid in
      let* _ := mod_ctx (fun m => set_server_ctx (set_session session_sid session_eid (s_ctx m)) m) in
      mcp_server_reply_result sid eid (Some id) (Some result)
  end.

Definition __handle_ping (sid eid : string) (params : option cJSON) (id : string) : M OPERATE_RET :=
  reply_empty sid eid id.

(** ** Routing *)

Definition MCP_METHOD_HANDLER_FN : Type := string -> string -> option cJSON -> string -> M OPERATE_RET.

Definition s_routes : list (string * MCP_METHOD_HANDLER_FN) :=
  ([("initialize", __handle_initialize); ("ping", __handle_ping)] ++
   (if MCP_ENABLE_TOOLS then
      [("tools/list", mcp_tools_handle_list); ("tools/call", mcp_tools_handle_call)] else []) ++
   (if MCP_ENABLE_RESOURCES then
      [("resources/list", mcp_resources_handle_list); ("resources/read", mcp_resources_handle_read);
       ("resources/templates/list", mcp_resources_handle_templates_list);
       ("resources/subscribe", mcp_resources_handle_subscribe);
       ("resources/unsubscribe", mcp_resources_handle_unsubscribe)] else []) ++
   (if MCP_ENABLE_PROMPTS then
      [("prompts/list", mcp_prompts_handle_list); ("prompts/get", mcp_prompts_handle_get)] else []) ++
   (if MCP_ENABLE_LOGGING then [("logging/setLevel", mcp_logging_handle_set_level)] else []))%list.

Definition invalid_request (sid eid msg : string) : M OPERATE_RET :=
  mcp_server_reply_error sid eid None MCP_ERR_INVALID_REQUEST (Some msg).

Definition mcp_server_handle_message (sid eid : string) (msg : option cJSON) : M OPERATE_RET :=
  let* m := get_ctx in
  match mc_initialized (s_ctx m), msg with
  | true, Some msg =>
      match ty_cJSON_GetObjectItem msg "jsonrpc" with
      | Some (JString "2.0") =>
          match ty_cJSON_GetObjectItem msg "method" with
          | Some (JString method) =>
              if String.prefix "notifications/" method then cret OPRT_OK
              else
                match ty_cJSON_GetObjectItem msg "id" with
                | Some (JString id_str) =>
                    match List.find (fun route => String.eqb method (fst route)) s_routes with
                    | Some (_, handler) => handler sid eid (ty_cJSON_GetObjectItem msg "params") id_str
                    | None => mcp_server_reply_error sid eid (Some id_str) MCP_ERR_METHOD_NOT_FOUND (Some "Method not found")
                    end
                | _ => invalid_request sid eid "Missing request ID"
                end
          | _ => invalid_request sid eid "Missing method"
          end
      | _ => invalid_request sid eid "Invalid JSON-RPC version"
      end
  | _, _ => cret OPRT_INVALID_PARM
  end.

(** ** Life cycle *)

Definition mcp_server_init (name version : option string) : M OPERATE_RET :=
  let* m := get_ctx in
  if mc_initialized (s_ctx m) then cret OPRT_OK
  else
    match name, version with
    | Some name, Some version =>
        let* _ := mod_ctx (set_server_ctx ctx_zero) in
        let* name := mcp_strdup name in
        match name with
        | None => cret OPRT_MALLOC_FAILED
        | Some name =>
            let* _ := mod_ctx (set_server_ctx (mk_mctx false (Some name) None None None)) in
            let* version := mcp_strdup version in
            match version with
            | None => let* _ := mod_ctx (set_server_ctx ctx_zero) in cret OPRT_MALLOC_FAILED
            | Some version =>
                let* _ := on_host (tuya_ai_agent_mcp_set_cb true) in
                let* _ := mod_ctx (set_server_ctx (mk_mctx true (Some name) (Some version) None None)) in
                cret OPRT_OK
            end
        end
    | _, _ => cret OPRT_INVALID_PARM
    end.

Definition when_enabled (enabled : bool) (k : M unit) : M unit := if enabled then k else cret tt.

Definition mcp_server_destroy : M unit :=
  let* m := get_ctx in
  if negb (mc_initialized (s_ctx m)) then cret tt
  else
    let* _ := on_host (tuya_ai_agent_mcp_set_cb false) in
    let* _ := when_enabled MCP_ENABLE_TOOLS mcp_tools_cap_destroy in
    let* _ := when_enabled MCP_ENABLE_RESOURCES mcp_resources_cap_destroy in
    let* _ := when_enabled MCP_ENABLE_PROMPTS mcp_prompts_cap_destroy in
    let* _ := when_enabled MCP_ENABLE_LOGGING mcp_logging_cap_destroy in
    mod_ctx (set_server_ctx ctx_zero).

End Server.
