(* ===== verification/McpRules.v ===== *)
(** Rules for the MCP server: the laws of its host, evaluation with memory to
    spare, and the replies it sends. *)
From Stdlib Require QArith_base.
From S2P Require Import Prelude.
From S2P Require Import CStr.
From S2P Require Import World.
From S2P Require Import Json.
From S2P Require Import TmHost.
From S2P Require Import McpCore.

#[local] Open Scope string_scope.
#[local] Open Scope Z_scope.

(** ** The laws of the host

    No call sends anything, the transport apart; in particular a handler does not
    reply by itself. *)
Definition silent {W H A} `{McpHost W H} (m : C W A) : Prop :=
  forall w, mh_ok w -> wp m (fun _ w' => mh_ok w' /\ mh_sent w' = mh_sent w) w.

Class McpHostLaws (W H : Type) `{!McpHost W H} : Prop := {
  mh_malloc_law : silent mh_malloc;
  mh_set_cb_law : forall on, silent (tuya_ai_agent_mcp_set_cb on);
  mh_response_law : forall sid eid text w, mh_ok w ->
    wp (tuya_ai_agent_mcp_response sid eid text) (fun _ w' => mh_ok w' /\ mh_sent w' = (sid, eid, text) :: mh_sent w) w;
  mh_schedule_law : silent mh_schedule;
  tool_handler_law : forall h name args, silent (tool_handler h name args);
  resource_handler_law : forall h uri, silent (resource_handler h uri);
  prompt_handler_law : forall h name args, silent (prompt_handler h name args) }.

(** Memory to spare. *)
Definition roomy {W H} `{McpHost W H} : Prop :=
  forall w, mh_ok w -> wp mh_malloc (fun ok w' => ok = true /\ mh_ok w' /\ mh_sent w' = mh_sent w) w.

(** ** Replies *)

Definition result_json (id : string) (result : cJSON) : cJSON :=
  JObject [("jsonrpc", JString "2.0"); ("id", JString id); ("result", result)].
Definition error_json (id : option string) (code : Z) (msg : string) : cJSON :=
  JObject [("jsonrpc", JString "2.0"); ("id", match id with Some id => JString id | None => JNull end);
           ("error", JObject [("code", JNumber code); ("message", JString msg)])].

(** The transmissions that a message amounts to: none when it cannot be printed. *)
Definition answer `{JsonText} (sid eid : string) (j : cJSON) : list (string * string * string) :=
  match ty_cJSON_PrintUnformatted j with Some text => [(sid, eid, text)] | None => [] end.

Section Rules.
Context {W H : Type} `{ML : McpHostLaws W H} `{JT : JsonText}.
Abbreviation M := (C (MCP H * W)).
Implicit Types (s : MCP H) (w : W).

(** ** Steps that send nothing *)

Lemma silent_wp {A} (m : C W A) s w (Q : A -> MCP H * W -> Prop) :
  silent m -> mh_ok w -> (forall a w', mh_ok w' -> mh_sent w' = mh_sent w -> Q a (s, w')) -> wp (on_host m) Q (s, w).
Proof. intros Hm Hw HQ. apply wp_host. eapply wp_mono; [by apply Hm|]. intros a w' [? ?]. by apply HQ. Qed.

Lemma malloc_any_wp s w (Q : bool -> MCP H * W -> Prop) : mh_ok w ->
  (forall ok w', mh_ok w' -> mh_sent w' = mh_sent w -> Q ok (s, w')) -> wp heap_alloc Q (s, w).
Proof. intros Hw HQ. apply silent_wp; [apply mh_malloc_law|done|done]. Qed.

(** ** Evaluation with memory to spare

    [evals c s a s' out]: from server state [s], [c] returns [a], leaves [s'] and
    sends [out] (newest first). *)
Definition evals {A} (c : M A) (s : MCP H) (a : A) (s' : MCP H) (out : list (string * string * string)) : Prop :=
  forall w, mh_ok w -> wp c (fun r '(s1, w1) => r = a /\ s1 = s' /\ mh_ok w1 /\ mh_sent w1 = out ++ mh_sent w)%list (s, w).

Lemma runs_wp {A} (c : M A) s a s' out w (Q : A -> MCP H * W -> Prop) : evals c s a s' out -> mh_ok w ->
  (forall w', mh_ok w' -> mh_sent w' = (out ++ mh_sent w)%list -> Q a (s', w')) -> wp c Q (s, w).
Proof.
  intros Hc Hw HQ. eapply wp_mono; [by apply Hc|]. intros r [s1 w1] (-> & -> & ? & ?). by apply HQ.
Qed.

Lemma runs_ret {A} (a : A) s : evals (cret a) s a s [].
Proof. intros w Hw. by apply wp_ret. Qed.

Lemma runs_bind {A B} (c : M A) (k : A -> M B) s a s1 o1 b s2 o2 :
  evals c s a s1 o1 -> evals (k a) s1 b s2 o2 -> evals (cbind c k) s b s2 (o2 ++ o1)%list.
Proof.
  intros Hc Hk w Hw. apply wp_bind. eapply runs_wp; [done|done|]. intros w1 Hw1 Hs1.
  eapply runs_wp; [done|done|]. intros w2 Hw2 Hs2. split_and!; [done..|]. by rewrite Hs2, Hs1, app_assoc.
Qed.

(** The common cases: one of the two parts sends nothing. *)
Lemma runs_quietly {A B} (c : M A) (k : A -> M B) s a s1 b s2 out :
  evals c s a s1 [] -> evals (k a) s1 b s2 out -> evals (cbind c k) s b s2 out.
Proof. intros Hc Hk. rewrite <- (app_nil_r out). by eapply runs_bind. Qed.

Lemma runs_then_quiet {A B} (c : M A) (k : A -> M B) s a s1 b s2 out :
  evals c s a s1 out -> evals (k a) s1 b s2 [] -> evals (cbind c k) s b s2 out.
Proof. intros Hc Hk. change out with ([] ++ out)%list. by eapply runs_bind. Qed.

Lemma runs_get s : evals get_ctx s s s [].
Proof. intros w Hw. unfold get_ctx. by apply wp_get. Qed.

Lemma runs_mod (f : MCP H -> MCP H) s : evals (mod_ctx f) s tt (f s) [].
Proof. intros w Hw. unfold mod_ctx. by apply wp_mod. Qed.

Lemma runs_host {A} (m : C W A) s a out :
  (forall w, mh_ok w -> wp m (fun r w' => r = a /\ mh_ok w' /\ mh_sent w' = out ++ mh_sent w)%list w) ->
  evals (on_host m) s a s out.
Proof.
  intros Hm w Hw. apply wp_host. eapply wp_mono; [by apply Hm|]. by intros r w' (-> & ? & ?).
Qed.

Lemma runs_send sid eid j s : evals (print_and_send sid eid j) s tt s (answer sid eid j).
Proof.
  unfold print_and_send, answer. destruct (ty_cJSON_PrintUnformatted j) as [text|]; [|apply runs_ret].
  apply runs_host. intros w Hw. eapply wp_mono; [by apply mh_response_law|]. by intros [] w' [? ?].
Qed.

Context (room : roomy (W := W) (H := H)).

Lemma runs_malloc s : evals heap_alloc s true s [].
Proof. apply runs_host. exact room. Qed.

Lemma runs_create j s : evals (json_create j) s (Some j) s [].
Proof. eapply runs_quietly; [apply runs_malloc|apply runs_ret]. Qed.

Lemma runs_add obj name v s : evals (obj_add obj name v) s (ty_cJSON_AddItemToObject obj name v) s [].
Proof. eapply runs_quietly; [apply runs_malloc|apply runs_ret]. Qed.

(** A member that is there or not. *)
Definition member_opt (name : string) (v : option cJSON) : list (string * cJSON) :=
  match v with Some v => [(name, v)] | None => [] end.

Lemma runs_add_opt fields name v s :
  evals (obj_add_opt (JObject fields) name v) s (JObject (fields ++ member_opt name v)) s [].
Proof. destruct v; [apply runs_add|]. cbn. rewrite app_nil_r. apply runs_ret. Qed.

Lemma runs_add_str_opt fields name str s :
  evals (obj_add_str_opt (JObject fields) name str) s (JObject (fields ++ member_opt name (JString <$> str))) s [].
Proof. apply runs_add_opt. Qed.

Lemma runs_add_new obj name empty s :
  evals (obj_add_new obj name empty) s (ty_cJSON_AddItemToObject obj name empty) s [].
Proof. eapply runs_quietly; [apply runs_create|apply runs_add]. Qed.

Lemma runs_strdup str s : evals (mcp_strdup str) s (Some str) s [].
Proof. eapply runs_quietly; [apply runs_malloc|apply runs_ret]. Qed.

Lemma runs_reply sid eid id result s :
  evals (mcp_server_reply_result sid eid (Some id) (Some result)) s OPRT_OK s (answer sid eid (result_json id result)).
Proof.
  unfold mcp_server_reply_result. eapply runs_quietly; [apply runs_create|]. cbv beta iota.
  do 3 (eapply runs_quietly; [apply runs_add|]). eapply runs_then_quiet; [apply runs_send|apply runs_ret].
Qed.

Lemma runs_error sid eid id code msg s :
  evals (mcp_server_reply_error sid eid id code (Some msg)) s OPRT_OK s (answer sid eid (error_json id code msg)).
Proof.
  unfold mcp_server_reply_error. eapply runs_quietly; [apply runs_create|]. cbv beta iota.
  do 2 (eapply runs_quietly; [apply runs_add|]). eapply runs_quietly; [apply runs_create|]. cbv beta iota.
  do 3 (eapply runs_quietly; [apply runs_add|]). eapply runs_then_quiet; [apply runs_send|apply runs_ret].
Qed.

Lemma runs_text text s :
  evals (mcp_content_make_text (Some text)) s (Some (JObject [("type", JString "text"); ("text", JString text)])) s [].
Proof.
  unfold mcp_content_make_text. eapply runs_quietly; [apply runs_create|]. cbv beta iota.
  do 2 (eapply runs_quietly; [apply runs_add|]). apply runs_ret.
Qed.

End Rules.

(** The rules that evaluate one step each. *)
Create HintDb mcp.
#[export] Hint Resolve runs_ret runs_get runs_mod runs_malloc runs_create runs_add runs_add_opt runs_add_str_opt runs_add_new
  runs_strdup runs_reply runs_error runs_text : mcp.

(** Evaluate quiet steps at the head. *)
Ltac runs_step := eapply runs_quietly; [solve [eauto with mcp]|]; cbv beta iota.
Ltac runs_steps := repeat runs_step; try solve [eauto with mcp].
