(* ===== verification/McpTyped.v ===== *)
(** What is checked of a tool's arguments: what a schema built from property descriptions
    demands, and that validation accepts exactly the arguments that meet it. *)
From Stdlib Require QArith_base.
From S2P Require Import Prelude.
From S2P Require Import CStr.
From S2P Require Import World.
From S2P Require Import Json.
From S2P Require Import TmHost.
From S2P Require Import McpCore.
From S2P Require Import McpTools.
From S2P Require Import McpRules.

#[local] Open Scope string_scope.
#[local] Open Scope Z_scope.

(** ** Specification *)

(** One described argument: there if required, within its bounds if a number. *)
Record arg_ok (args : option cJSON) (p : MCP_SCHEMA_PROP_T) : Prop := {
  ao_present : sp_required p = true -> field_of args (sp_name p) <> None;
  ao_minimum : forall v, number_of (field_of args (sp_name p)) = Some v -> sp_has_minimum p = true -> QArith_base.Qle (sp_minimum p) v;
  ao_maximum : forall v, number_of (field_of args (sp_name p)) = Some v -> sp_has_maximum p = true -> QArith_base.Qle v (sp_maximum p) }.

Definition typed (ps : list MCP_SCHEMA_PROP_T) (args : option cJSON) : Prop := List.Forall (arg_ok args) ps.

(** The schema that a list of descriptions stands for. *)
Definition bound_json (has : bool) (n : Z) : option cJSON := if has then Some (JNumber n) else None.

Definition prop_json (p : MCP_SCHEMA_PROP_T) : cJSON :=
  JObject ([("type", JString (sp_type p))] ++ member_opt "description" (JString <$> sp_description p) ++
           member_opt "minimum" (bound_json (sp_has_minimum p) (sp_minimum p)) ++
           member_opt "maximum" (bound_json (sp_has_maximum p) (sp_maximum p)))%list.

Definition required_names (ps : list MCP_SCHEMA_PROP_T) : list string := map sp_name (List.filter sp_required ps).

Definition schema_of (ps : list MCP_SCHEMA_PROP_T) : cJSON :=
  JObject ([("type", JString "object"); ("properties", JObject (map (fun p => (sp_name p, prop_json p)) ps))] ++
           match required_names ps with [] => [] | names => [("required", JArray (map JString names))] end)%list.

(** The names of the required arguments that are not there, as the reply lists
    them. *)
Definition missing (args : option cJSON) (names : list string) : list string :=
  List.filter (fun n => match field_of args n with Some _ => false | None => true end) names.
Fixpoint listing (names : list string) : string :=
  match names with [] => "" | n :: names => " " ++ n ++ listing names end.

(** ** The schema that is built *)

Section Build.
Context {W H : Type} `{ML : McpHostLaws W H} (room : roomy (W := W) (H := H)).

Lemma runs_prop p (s : MCP H) : evals (build_prop p (JObject [])) s (prop_json p) s [].
Proof.
  unfold build_prop. runs_step. cbn [ty_cJSON_AddItemToObject app]. do 2 runs_step.
  unfold prop_json. rewrite !app_assoc. apply (runs_add_opt room).
Qed.

Lemma runs_props ps fields names (s : MCP H) :
  evals (build_props ps (JObject fields) (JArray (map JString names))) s
    (JObject (fields ++ map (fun p => (sp_name p, prop_json p)) ps), JArray (map JString (names ++ required_names ps))) s [].
Proof.
  revert fields names. induction ps as [|p ps IH]; intros fields names; cbn [build_props map].
  { unfold required_names. cbn. rewrite !app_nil_r. apply runs_ret. }
  runs_step. eapply runs_quietly; [apply runs_prop|]. cbv beta. runs_step. cbn [ty_cJSON_AddItemToObject].
  unfold required_names in *. cbn [List.filter]. destruct (sp_required p).
  - runs_step. cbn [arr_add_opt ty_cJSON_AddItemToArray]. specialize (IH (fields ++ [(sp_name p, prop_json p)])%list (names ++ [sp_name p])%list).
    rewrite map_app, <- !app_assoc in IH. exact IH.
  - specialize (IH (fields ++ [(sp_name p, prop_json p)])%list names). rewrite <- app_assoc in IH. exact IH.
Qed.

Lemma runs_schema ps (s : MCP H) : evals (__build_input_schema ps) s (Some (schema_of ps)) s [].
Proof.
  unfold __build_input_schema. do 4 runs_step. eapply runs_quietly; [apply (runs_props ps [] [])|]. cbv beta iota.
  runs_step. cbn [ty_cJSON_AddItemToObject app]. unfold schema_of. destruct (required_names ps) as [|n ns]; cbn [map app]; [apply runs_ret|].
  runs_step. apply runs_ret.
Qed.
End Build.

(** ** Validation *)

Lemma schema_properties ps :
  ty_cJSON_GetObjectItem (schema_of ps) "properties" = Some (JObject (map (fun p => (sp_name p, prop_json p)) ps)).
Proof. reflexivity. Qed.

Lemma schema_required ps : ty_cJSON_GetObjectItem (schema_of ps) "required" =
  match required_names ps with [] => None | names => Some (JArray (map JString names)) end.
Proof. unfold schema_of. by destruct (required_names ps). Qed.

Lemma prop_minimum p : number_of (ty_cJSON_GetObjectItem (prop_json p) "minimum") = if sp_has_minimum p then Some (sp_minimum p : Q) else None.
Proof. unfold prop_json. by destruct (sp_description p), (sp_has_minimum p), (sp_has_maximum p). Qed.

Lemma prop_maximum p : number_of (ty_cJSON_GetObjectItem (prop_json p) "maximum") = if sp_has_maximum p then Some (sp_maximum p : Q) else None.
Proof. unfold prop_json. by destruct (sp_description p), (sp_has_minimum p), (sp_has_maximum p). Qed.

Lemma below_false x y : below x y = false <-> QArith_base.Qle y x.
Proof. unfold below. rewrite negb_false_iff. apply QArith_base.Qle_bool_iff. Qed.

(** The bounds of one argument. *)
Definition in_bounds (args : option cJSON) (p : MCP_SCHEMA_PROP_T) : Prop :=
  forall v, number_of (field_of args (sp_name p)) = Some v ->
    (sp_has_minimum p = true -> QArith_base.Qle (sp_minimum p) v) /\ (sp_has_maximum p = true -> QArith_base.Qle v (sp_maximum p)).

(** One bound that is there or not, and what its check reports. *)
Definition check_bound {A} (has : bool) (b : Q) (bad : Q -> bool) (msg : Q -> A) : option A :=
  match (if has then Some b else None) with Some b => if bad b then Some (msg b) else None | None => None end.

Lemma check_bound_none {A} has b bad (msg : Q -> A) : check_bound has b bad msg = None <-> (has = true -> bad b = false).
Proof.
  unfold check_bound. destruct has; [|split; done]. destruct (bad b); split; try done. intros Hb. by specialize (Hb eq_refl).
Qed.

Lemma constraint_loop_spec ps args :
  constraint_loop (map (fun p => (sp_name p, prop_json p)) ps) args = None <-> List.Forall (in_bounds (Some args)) ps.
Proof.
  induction ps as [|p ps IH]; cbn [map constraint_loop]; [by split|]. rewrite List.Forall_cons_iff, prop_minimum, prop_maximum.
  unfold in_bounds at 1. cbn [field_of mbind option_bind].
  destruct (number_of (ty_cJSON_GetObjectItem args (sp_name p))) as [v|].
  2:{ rewrite IH. split; [intros ?; by split|by intros [_ ?]]. }
  fold (check_bound (sp_has_minimum p) (sp_minimum p) (below v) (constraint_text (sp_name p) v "below minimum")).
  fold (check_bound (sp_has_maximum p) (sp_maximum p) (fun b => below b v) (constraint_text (sp_name p) v "above maximum")).
  pose proof (check_bound_none (sp_has_minimum p) (sp_minimum p) (below v) (constraint_text (sp_name p) v "below minimum")) as Hlo.
  pose proof (check_bound_none (sp_has_maximum p) (sp_maximum p) (fun b => below b v) (constraint_text (sp_name p) v "above maximum")) as Hhi.
  cbv beta in Hhi. rewrite below_false in Hlo, Hhi.
  destruct (check_bound (sp_has_minimum p) _ _ _); [split; [done|]; intros [Hb _]; apply Hlo, (Hb v eq_refl)|].
  destruct (check_bound (sp_has_maximum p) _ _ _); [split; [done|]; intros [Hb _]; apply Hhi, (Hb v eq_refl)|].
  rewrite IH. split; [|by intros [_ ?]]. intros ?. split; [|done]. intros u [= <-]. split; [by apply Hlo|by apply Hhi].
Qed.

(** While there is room, the loop lists everything that is missing. *)
Lemma missing_loop_grows names args n text :
  (strlen text <= strlen (missing_loop (map JString names) args n text))%nat.
Proof.
  revert text. induction names as [|x names IH]; intros text; cbn [map missing_loop]; [done|].
  etrans; [|apply IH]. destruct (field_of args x); [done|]. destruct (_ <? _)%nat; [|done]. rewrite strlen_app. lia.
Qed.

Lemma missing_loop_none names args n text : (strlen text < n - 1)%nat ->
  strlen (missing_loop (map JString names) args n text) = strlen text <-> missing args names = [].
Proof.
  revert text. induction names as [|x names IH]; intros text Hn; cbn [map missing_loop missing List.filter]; [done|].
  destruct (field_of args x); [by apply IH|]. destruct (Nat.ltb_spec (strlen text) (n - 1)); [|lia]. split; [|done]. intros He.
  pose proof (missing_loop_grows names args n (text ++ " " ++ x)) as Hg. rewrite !strlen_app in Hg. cbn in Hg. unfold strlen in *. lia.
Qed.

(** The buffer holds the beginning of the whole list. *)
Lemma missing_loop_text names args n text :
  strtrunc (n - 1) (missing_loop (map JString names) args n text) = strtrunc (n - 1) (text ++ listing (missing args names)).
Proof.
  revert text. induction names as [|x names IH]; intros text; cbn [map missing_loop].
  { cbn [listing missing List.filter]. by rewrite app_nil_r_str. }
  cbv zeta. rewrite IH. change (missing args (x :: names)) with
    (if match field_of args x with Some _ => false | None => true end then x :: missing args names else missing args names).
  destruct (field_of args x); [done|]. cbn [listing]. destruct (Nat.ltb_spec (strlen text) (n - 1)) as [_|Hfull].
  - by rewrite !app_assoc_str.
  - by rewrite !strtrunc_full.
Qed.

Lemma missing_none args ps : missing args (required_names ps) = [] <->
  List.Forall (fun p => sp_required p = true -> field_of args (sp_name p) <> None) ps.
Proof.
  unfold required_names, missing. induction ps as [|p ps IH]; cbn [List.filter map]; [by split|]. rewrite List.Forall_cons_iff, <- IH.
  destruct (sp_required p); [|split; [by intros ?|by intros [_ ?]]]. cbn [map List.filter].
  destruct (field_of args (sp_name p)); split; [by intros ?|by intros [_ ?]|done|]. intros [Hp _]. by destruct (Hp eq_refl).
Qed.

Lemma required_spec ps args n : (strlen missing_header < n - 1)%nat ->
  fst (__validate_required_args (schema_of ps) args n) = OPRT_OK <-> missing args (required_names ps) = [].
Proof.
  intros Hn. unfold __validate_required_args. rewrite schema_required. destruct (required_names ps) as [|x names] eqn:He; [done|].
  pose proof (missing_loop_none (x :: names) args n missing_header Hn) as Hm. cbn [map] in *. cbv zeta.
  destruct (Nat.eqb_spec (strlen (missing_loop (JString x :: map JString names) args n missing_header)) (strlen missing_header)) as [Heq|Hne].
  - split; [by intros _; apply Hm|done].
  - split; [done|]. intros Hmiss. by destruct Hne; apply Hm.
Qed.

Lemma constraints_spec ps args n :
  fst (__validate_schema_constraints (schema_of ps) args n) = OPRT_OK <-> List.Forall (in_bounds args) ps.
Proof.
  unfold __validate_schema_constraints. rewrite schema_properties. destruct args as [args|]; cbn [children].
  - rewrite <- constraint_loop_spec. by destruct (constraint_loop _ args).
  - split; [|done]. intros _. apply List.Forall_forall. by intros p _ v.
Qed.

(** Validation accepts exactly the arguments of the right type. *)
Lemma validation_spec ps args n : (strlen missing_header < n - 1)%nat ->
  typed ps args <-> fst (__validate_required_args (schema_of ps) args n) = OPRT_OK /\
                    fst (__validate_schema_constraints (schema_of ps) args n) = OPRT_OK.
Proof.
  intros Hn. rewrite required_spec, constraints_spec, missing_none by done. unfold typed.
  rewrite !List.Forall_forall. split.
  - intros Ht. split; intros p Hp; destruct (Ht p Hp) as [H1 H2 H3]; [done|]. intros v Hv. split; eauto.
  - intros [Hr Hb] p Hp. specialize (Hr p Hp). specialize (Hb p Hp). split; [done|..]; intros v Hv; by apply (Hb v Hv).
Qed.
