(* ===== verification/McpListing.v ===== *)
(** Listing the tools: what one page holds, and that a client that follows the
    cursors reads every tool once. *)
From S2P Require Import Prelude.
From S2P Require Import CStr.
From S2P Require Import World.
From S2P Require Import Json.
From S2P Require Import TmHost.
From S2P Require Import McpCore.
From S2P Require Import McpTools.
From S2P Require Import McpRules.

#[local] Open Scope string_scope.
#[local] Open Scope Z_scope.

Section Listing.
Context {W H : Type} `{ML : McpHostLaws W H} `{JT : JsonText}.
Abbreviation T := (MCP_TOOL_ENTRY_T H).

Definition tool_json (t : T) : cJSON :=
  JObject [("name", JString (t_name t)); ("description", JString (t_description t)); ("inputSchema", t_input_schema t)].

(** ** One page *)

(** The tools that fit after [payload_len] characters, and the name of the first
    that does not. *)
Fixpoint page (payload_len : Z) (tools : list T) : list T * option string :=
  match tools with
  | [] => ([], None)
  | t :: tools =>
      let more n := let '(ts, next) := page n tools in (t :: ts, next) in
      match ty_cJSON_PrintUnformatted (tool_json t) with
      | Some ts =>
          let tl := Z.of_nat (strlen ts) in
          if MCP_MAX_PAYLOAD_SIZE <? payload_len + tl + 128 then ([], Some (t_name t)) else more (payload_len + tl)
      | None => more payload_len
      end
  end.

Fixpoint from_cursor (cursor : string) (tools : list T) : list T :=
  match tools with
  | [] => []
  | t :: tools' => if named cursor t then tools else from_cursor cursor tools'
  end.

Definition page_of (cursor : string) (tools : list T) : list T * option string :=
  page 0 (if String.eqb cursor "" then tools else from_cursor cursor tools).

Definition page_json (p : list T * option string) : cJSON :=
  JObject (member_opt "nextCursor" (JString <$> snd p) ++ [("tools", JArray (map tool_json (fst p)))])%list.

(** The whole list, read page by page. *)
Fixpoint read_all (fuel : nat) (cursor : string) (tools : list T) : option (list T) :=
  match fuel with
  | O => None
  | S fuel =>
      let '(ts, next) := page_of cursor tools in
      match next with
      | None => Some ts
      | Some cursor => app ts <$> read_all fuel cursor tools
      end
  end.

(** ** The handler replies with that page *)

Lemma runs_list_found (room : roomy (W := W) (H := H)) cursor payload_len tools arr (s : MCP H) :
  evals (list_tools cursor true payload_len tools (JObject []) (JArray arr)) s
    (JObject (member_opt "nextCursor" (JString <$> snd (page payload_len tools))),
     JArray (arr ++ map tool_json (fst (page payload_len tools)))) s [].
Proof.
  revert payload_len arr. induction tools as [|t tools IH]; intros payload_len arr; cbn [list_tools page orb negb].
  { cbn. rewrite app_nil_r. apply runs_ret. }
  do 4 runs_step. cbn [ty_cJSON_AddItemToObject ty_cJSON_AddItemToArray app].
  change (JObject [("name", _); ("description", _); ("inputSchema", _)]) with (tool_json t).
  destruct (ty_cJSON_PrintUnformatted (tool_json t)) as [ts|].
  - destruct (MCP_MAX_PAYLOAD_SIZE <? payload_len + Z.of_nat (strlen ts) + 128).
    + runs_step. cbn. rewrite app_nil_r. apply runs_ret.
    + specialize (IH (payload_len + Z.of_nat (strlen ts)) (arr ++ [tool_json t])%list).
      destruct (page _ tools) as [ts' next]. cbn [fst snd map] in *. rewrite <- app_assoc in IH. exact IH.
  - specialize (IH payload_len (arr ++ [tool_json t])%list).
    destruct (page _ tools) as [ts' next]. cbn [fst snd map] in *. rewrite <- app_assoc in IH. exact IH.
Qed.

Lemma list_tools_skips cursor tools payload_len result arr :
  list_tools (W := W) cursor false payload_len tools result arr =
  list_tools cursor true payload_len (from_cursor cursor tools) result arr.
Proof.
  induction tools as [|t tools IH]; cbn [from_cursor]; [done|]. cbn [list_tools orb].
  destruct (named cursor t) eqn:Hn; cbn [negb]; [|exact IH]. cbn [list_tools orb negb]. by rewrite ?Hn.
Qed.

Definition cursor_of (params : option cJSON) : string :=
  match field_of params "cursor" with Some (JString s) => s | _ => "" end.

Lemma runs_handle_list (room : roomy (W := W) (H := H)) sid eid params id (s : MCP H) :
  evals (mcp_tools_handle_list sid eid params id) s OPRT_OK s
    (answer sid eid (result_json id (page_json (page_of (cursor_of params) (s_tools s))))).
Proof.
  unfold mcp_tools_handle_list. fold (cursor_of params). set (cursor := cursor_of params). do 3 runs_step.
  eapply (runs_quietly _ _ s (JObject (member_opt "nextCursor" (JString <$> snd (page_of cursor (s_tools s)))),
                              JArray (map tool_json (fst (page_of cursor (s_tools s)))))).
  { unfold page_of. destruct (String.eqb cursor ""); [|rewrite list_tools_skips]; apply (runs_list_found room). }
  cbv beta iota. runs_step. apply (runs_reply room).
Qed.

(** ** Following the cursors *)

(** A tool that fits on a page of its own, and whose name is a usable cursor. *)
Definition listable (t : T) : Prop := t_name t <> "" /\
  match ty_cJSON_PrintUnformatted (tool_json t) with Some ts => Z.of_nat (strlen ts) + 128 <= MCP_MAX_PAYLOAD_SIZE | None => True end.

(** A page is a prefix; what is left starts at the cursor. *)
Lemma page_splits payload_len tools :
  match page payload_len tools with
  | (ts, None) => ts = tools
  | (ts, Some c) => exists t rest, tools = (ts ++ t :: rest)%list /\ t_name t = c
  end.
Proof.
  revert payload_len. induction tools as [|t tools IH]; intros payload_len; cbn [page]; [done|]. cbv zeta.
  assert (Hmore : forall n, match (let '(ts, next) := page n tools in (t :: ts, next)) with
    | (ts, None) => ts = t :: tools
    | (ts, Some c) => exists t' rest, t :: tools = (ts ++ t' :: rest)%list /\ t_name t' = c
    end).
  { intros n. specialize (IH n). destruct (page n tools) as [ts [c|]]; [|by rewrite IH].
    destruct IH as (t' & rest & -> & ?). by exists t', rest. }
  destruct (ty_cJSON_PrintUnformatted (tool_json t)); [|apply Hmore]. destruct (_ <? _); [by exists t, tools|apply Hmore].
Qed.

Lemma page_nonempty t tools : listable t -> exists ts, fst (page 0 (t :: tools)) = t :: ts.
Proof.
  intros [_ Ht]. cbn [page]. cbv zeta. destruct (ty_cJSON_PrintUnformatted (tool_json t)) as [x|].
  - if_false (lia). destruct (page _ tools). by eexists.
  - destruct (page _ tools). by eexists.
Qed.

Lemma from_cursor_at before t rest : NoDup (map t_name (before ++ t :: rest)) ->
  from_cursor (t_name t) (before ++ t :: rest) = t :: rest.
Proof.
  induction before as [|b before IH]; cbn [app map from_cursor].
  - intros _. unfold named. by rewrite String.eqb_refl.
  - rewrite NoDup_cons. intros [Hb Hnd]. unfold named. destruct (String.eqb_spec (t_name b) (t_name t)) as [He|_]; [|by apply IH].
    destruct Hb. rewrite He, map_app. apply elem_of_app. right. by left.
Qed.

(** A tool that fits no page: the page that starts with it is empty, and its
    cursor is the tool itself. *)
Lemma oversize_repeats t tools text : ty_cJSON_PrintUnformatted (tool_json t) = Some text -> t_name t <> "" ->
  MCP_MAX_PAYLOAD_SIZE < Z.of_nat (strlen text) + 128 -> List.In t tools -> NoDup (map t_name tools) ->
  page_of (t_name t) tools = ([], Some (t_name t)).
Proof.
  intros Hp Hname Hlong Hin Hnd. unfold page_of. destruct (String.eqb_spec (t_name t) "") as [|_]; [done|].
  apply in_split in Hin as (before & rest & ->). rewrite from_cursor_at by done. cbn [page]. rewrite Hp. cbv zeta.
  by rewrite (proj2 (Z.ltb_lt _ _)) by lia.
Qed.

Lemma read_from tools before : NoDup (map t_name tools) -> List.Forall listable tools ->
  forall rest t fuel, tools = (before ++ t :: rest)%list -> (length rest < fuel)%nat -> read_all fuel (t_name t) tools = Some (t :: rest).
Proof.
  intros Hnd Hl rest t fuel. revert before t rest. induction fuel as [|fuel IH]; intros before t rest He Hf; [lia|].
  assert (Hlt : listable t) by (rewrite List.Forall_forall in Hl; apply Hl; rewrite He; apply in_elt).
  cbn [read_all]. unfold page_of. destruct (String.eqb_spec (t_name t) "") as [Hz|_]; [by destruct Hlt|].
  rewrite He, from_cursor_at by (by rewrite <- He). pose proof (page_splits 0 (t :: rest)) as Hp.
  destruct (page_nonempty t rest Hlt) as [ts Hts]. destruct (page 0 (t :: rest)) as [ts' [c|]]; [|by rewrite Hp]. cbn [fst] in Hts. subst ts'.
  destruct Hp as (t' & rest' & Hr & Hc). cbn [app] in Hr. injection Hr as Hr. rewrite <- Hc, <- He.
  rewrite (IH (before ++ t :: ts)%list t' rest').
  - cbn. by rewrite Hr.
  - by rewrite He, Hr, <- app_assoc.
  - rewrite Hr, length_app in Hf. cbn in Hf. lia.
Qed.

Lemma read_all_complete tools : NoDup (map t_name tools) -> List.Forall listable tools ->
  read_all (S (length tools)) "" tools = Some tools.
Proof.
  intros Hnd Hl. cbn [read_all]. unfold page_of. cbn [String.eqb]. destruct tools as [|t tools]; [done|].
  assert (Hlt : listable t) by (by inversion Hl). pose proof (page_splits 0 (t :: tools)) as Hp.
  destruct (page_nonempty t tools Hlt) as [ts Hts]. destruct (page 0 (t :: tools)) as [ts' [c|]]; [|by rewrite Hp]. cbn [fst] in Hts. subst ts'.
  destruct Hp as (t' & rest & Hr & Hc). cbn [app] in Hr. injection Hr as Hr. rewrite <- Hc.
  rewrite (read_from (t :: tools) (t :: ts)%list Hnd Hl rest t' (length (t :: tools))).
  - cbn. by rewrite Hr.
  - by rewrite Hr.
  - cbn. rewrite Hr, length_app. cbn. lia.
Qed.
End Listing.
