(* ===== verification/McpAnswers.v ===== *)
(** Every request is answered: what a handler does, the handlers of the routes,
    and the routing of a request. *)
From S2P Require Import Prelude.
From S2P Require Import CStr.
From S2P Require Import World.
From S2P Require Import Json.
From S2P Require Import TmHost.
From S2P Require Import McpCore.
From S2P Require Import McpTools.
From S2P Require Import McpExtras.
From S2P Require Import McpServer.
From S2P Require Import McpRules.
From S2P Require Import McpTyped.
From S2P Require Import McpListing.

#[local] Open Scope string_scope.
#[local] Open Scope Z_scope.

(** A reply to the request [id]: its result, or an error. *)
Definition is_reply (id : string) (j : cJSON) : Prop :=
  (exists result, j = result_json id result) \/ (exists code msg, j = error_json (Some id) code msg).

(** Replies to several requests, each in its session and event, oldest first. *)
Inductive answers_for `{JsonText} : list (string * string * string) -> list (string * string * string) -> Prop :=
| answers_none : answers_for [] []
| answers_one sid eid id j l out : is_reply id j -> answers_for l out -> answers_for ((sid, eid, id) :: l) (answer sid eid j ++ out).

Section Replies.
Context {W H : Type} `{ML : McpHostLaws W H} `{JT : JsonText} (room : roomy (W := W) (H := H)).
Abbreviation M := (C (MCP H * W)).
Implicit Types (s : MCP H) (w : W).

(** A waiting call: its tool is there, and its arguments passed the check. *)
Definition call_ok s (c : TOOL_CALL_MSG_T) : Prop :=
  exists t, tool_at (cm_tool c) (s_tools s) = Some t /\
    forall ps, t_input_schema t = schema_of ps -> typed ps (cm_arguments c).

(** Tools have names and addresses of their own. *)
Record tools_ok s : Prop := {
  to_names : NoDup (map t_name (s_tools s));
  to_addrs : NoDup (map t_addr (s_tools s));
  to_fresh : List.Forall (fun t => (t_addr t < s_addrs s)%nat) (s_tools s);
  to_schemas : List.Forall (fun t => exists ps, t_input_schema t = schema_of ps) (s_tools s) }.

Definition same_tools s s' : Prop := s_tools s' = s_tools s /\ s_addrs s' = s_addrs s.

(** What a handler does: it replies, or leaves a call for the worker. *)
Definition replied sid eid id s w s' w' : Prop :=
  s_calls s' = s_calls s /\ exists j, is_reply id j /\ mh_sent w' = (answer sid eid j ++ mh_sent w)%list.
Definition queued sid eid id s w s' w' : Prop :=
  mh_sent w' = mh_sent w /\ exists c, s_calls s' = (s_calls s ++ [c])%list /\
    cm_sid c = sid /\ cm_eid c = eid /\ cm_id c = id /\ call_ok s c.

Definition handles sid eid id (c : M OPERATE_RET) : Prop := forall s w, tools_ok s -> mh_ok w ->
  wp c (fun rt '(s', w') => rt = OPRT_OK /\ mh_ok w' /\ same_tools s s' /\
    (replied sid eid id s w s' w' \/ queued sid eid id s w s' w')) (s, w).

Lemma runs_replies sid eid id j c s s' w (Q : OPERATE_RET -> MCP H * W -> Prop) :
  evals c s OPRT_OK s' (answer sid eid j) -> is_reply id j -> same_tools s s' -> s_calls s' = s_calls s -> mh_ok w ->
  (forall w', mh_ok w' -> same_tools s s' -> replied sid eid id s w s' w' -> Q OPRT_OK (s', w')) -> wp c Q (s, w).
Proof.
  intros Hc Hj Hsame Hcalls Hw HQ. eapply runs_wp; [done|done|]. intros w' Hw' Hs'. apply HQ; [done|done|]. split; [done|by exists j].
Qed.

Lemma handles_runs sid eid id c :
  (forall s, exists s' j, evals c s OPRT_OK s' (answer sid eid j) /\ is_reply id j /\ same_tools s s' /\ s_calls s' = s_calls s) ->
  handles sid eid id c.
Proof.
  intros Hc s w _ Hw. destruct (Hc s) as (s' & j & Hrun & Hj & Hsame & Hcalls).
  eapply runs_replies; [done..|]. intros w' Hw' _ Hr. split_and!; [done..|]. by left.
Qed.

Lemma reply_is_result id result : is_reply id (result_json id result).
Proof. left. by exists result. Qed.

Lemma reply_is_error id code msg : is_reply id (error_json (Some id) code msg).
Proof. right. by exists code, msg. Qed.

Lemma handles_error sid eid id code msg : handles sid eid id (mcp_server_reply_error sid eid (Some id) code (Some msg)).
Proof. apply handles_runs. intros s. exists s, (error_json (Some id) code msg). split; [by apply runs_error|]. split; [apply reply_is_error|done]. Qed.

Lemma handles_invalid sid eid id msg : handles sid eid id (invalid_params sid eid id msg).
Proof. apply handles_error. Qed.

(** A pure evaluation before the rest of a handler. *)
Lemma handles_quietly {A} sid eid id (c : M A) k :
  (forall s, exists a s', evals c s a s' [] /\ same_tools s s' /\ s_calls s' = s_calls s /\ handles sid eid id (k a)) ->
  handles sid eid id (cbind c k).
Proof.
  intros Hc s w Hok Hw. destruct (Hc s) as (a & s1 & Hrun & [Ht Ha] & Hcalls & Hk). apply wp_bind. eapply runs_wp; [done|done|].
  intros w1 Hw1 Hs1. assert (Hok1 : tools_ok s1) by (destruct Hok; split; by rewrite ?Ht, ?Ha).
  eapply wp_mono; [by apply Hk|]. intros rt [s2 w2] (? & ? & [Ht2 Ha2] & Hout). split_and!; [done|done|split; congruence|].
  cbn [app] in Hs1. destruct Hout as [(Hc2 & j & Hj & Hs2)|(Hs2 & c2 & Hc2 & Hrest)].
  - left. split; [congruence|]. exists j. by rewrite Hs2, Hs1.
  - right. split; [congruence|]. exists c2. rewrite Hc2, Hcalls. split; [done|]. destruct Hrest as (? & ? & ? & t & Htool & Hty).
    split_and!; [done..|]. exists t. by rewrite <- Ht.
Qed.

Lemma handles_host {A} sid eid id (m : C W A) k : silent m -> (forall a, handles sid eid id (k a)) ->
  handles sid eid id (cbind (on_host m) k).
Proof.
  intros Hm Hk s w Hok Hw. apply wp_bind. apply silent_wp; [done|done|]. intros a w1 Hw1 Hs1.
  eapply wp_mono; [by apply Hk|]. intros rt [s2 w2] (? & ? & ? & Hout). split_and!; [done..|].
  destruct Hout as [(Hc2 & j & Hj & Hs2)|(Hs2 & Hc2)]; [left|right].
  - split; [done|]. exists j. by rewrite Hs2, Hs1.
  - split; [congruence|done].
Qed.

Lemma handles_get sid eid id k : (forall s, handles sid eid id (k s)) -> handles sid eid id (cbind get_ctx k).
Proof. intros Hk. apply handles_quietly. intros s. exists s, s. split; [apply runs_get|]. by split_and!. Qed.

Lemma handles_if sid eid id (b : bool) c1 c2 : handles sid eid id c1 -> handles sid eid id c2 -> handles sid eid id (if b then c1 else c2).
Proof. by destruct b. Qed.

(** ** The handlers that always reply *)

Lemma handles_empty sid eid id : handles sid eid id (reply_empty sid eid id).
Proof.
  apply handles_runs. intros s. exists s, (result_json id (JObject [])). split; [|split; [apply reply_is_result|done]].
  unfold reply_empty. eapply runs_quietly; [by apply runs_create|]. by apply runs_reply.
Qed.

Lemma handles_list sid eid params id : handles sid eid id (mcp_tools_handle_list sid eid params id).
Proof.
  apply handles_runs. intros s. eexists s, _. split; [by apply runs_handle_list|]. split; [apply reply_is_result|done].
Qed.

(** Building a value, whatever it is. *)
Definition builds {A} (c : M A) : Prop := forall s, exists a, evals c s a s [].

Lemma builds_ret {A} (a : A) : builds (cret a).
Proof. intros s. exists a. apply runs_ret. Qed.

Lemma builds_bind {A B} (c : M A) (k : A -> M B) : builds c -> (forall a, builds (k a)) -> builds (cbind c k).
Proof. intros Hc Hk s. destruct (Hc s) as [a Ha]. destruct (Hk a s) as [b Hb]. exists b. by eapply runs_quietly. Qed.

Lemma builds_malloc : builds heap_alloc.
Proof. intros s. exists true. by apply runs_malloc. Qed.

Lemma builds_create j : builds (json_create j).
Proof. intros s. exists (Some j). by apply runs_create. Qed.

Lemma builds_add obj name v : builds (obj_add obj name v).
Proof. intros s. eexists. by apply runs_add. Qed.

Lemma builds_add_opt obj name v : builds (obj_add_opt obj name v).
Proof. destruct v; [apply builds_add|apply builds_ret]. Qed.

Lemma builds_add_new obj name v : builds (obj_add_new obj name v).
Proof. intros s. eexists. by apply runs_add_new. Qed.

Lemma handles_built {A} sid eid id (c : M A) k : builds c -> (forall a, handles sid eid id (k a)) -> handles sid eid id (cbind c k).
Proof. intros Hc Hk. apply handles_quietly. intros s. destruct (Hc s) as [a Ha]. exists a, s. by split_and!. Qed.

(** Creation does succeed. *)
Lemma handles_create sid eid id j (k : option cJSON -> M OPERATE_RET) : handles sid eid id (k (Some j)) -> handles sid eid id (cbind (json_create j) k).
Proof. intros Hk. apply handles_quietly. intros s. exists (Some j), s. split; [by apply runs_create|]. by split_and!. Qed.

Lemma handles_strdup sid eid id str (k : option string -> M OPERATE_RET) : handles sid eid id (k (Some str)) -> handles sid eid id (cbind (mcp_strdup str) k).
Proof. intros Hk. apply handles_quietly. intros s. exists (Some str), s. split; [by apply runs_strdup|]. by split_and!. Qed.

Lemma handles_result sid eid id result : handles sid eid id (mcp_server_reply_result sid eid (Some id) (Some result)).
Proof. apply handles_runs. intros s. eexists s, _. split; [by apply runs_reply|]. split; [apply reply_is_result|done]. Qed.

(** Changing what is not about tools. *)
Lemma handles_mod sid eid id (f : MCP H -> MCP H) (k : unit -> M OPERATE_RET) :
  (forall s, same_tools s (f s) /\ s_calls (f s) = s_calls s) -> handles sid eid id (k tt) -> handles sid eid id (cbind (mod_ctx f) k).
Proof. intros Hf Hk. apply handles_quietly. intros s. exists tt, (f s). destruct (Hf s). split; [apply runs_mod|]. by split_and!. Qed.
End Replies.

Create HintDb mcp_builds.
#[export] Hint Resolve builds_ret builds_malloc builds_create builds_add builds_add_opt builds_add_new : mcp_builds.

Section Answers.
Context {W H : Type} `{ML : McpHostLaws W H} `{JT : JsonText} `{CF : McpConfig} (room : roomy (W := W) (H := H)).
Abbreviation M := (C (MCP H * W)).
Implicit Types (s : MCP H) (w : W).

(** Descend through a handler that replies in the end. *)
Ltac builds_tac :=
  repeat (cbv beta iota; first [ solve [eauto with mcp_builds] | apply builds_bind; [|intros ?] | case_match ]).
Ltac handles_step :=
  cbv beta iota zeta;
  lazymatch goal with
  | |- handles _ _ _ (mcp_server_reply_error _ _ _ _ _) => by apply handles_error
  | |- handles _ _ _ (invalid_params _ _ _ _) => by apply handles_invalid
  | |- handles _ _ _ (reply_empty _ _ _) => by apply handles_empty
  | |- handles _ _ _ (mcp_server_reply_result _ _ _ _) => by apply handles_result
  | |- handles _ _ _ (cbind (json_create _) _) => apply (handles_create room)
  | |- handles _ _ _ (cbind (mcp_strdup _) _) => apply (handles_strdup room)
  | |- handles _ _ _ (cbind get_ctx _) => apply handles_get; intros ?
  | |- handles _ _ _ (cbind (mod_ctx _) _) => apply handles_mod; [done|]
  | |- handles _ _ _ (cbind (on_host _) _) => apply handles_host; [first [apply resource_handler_law|apply prompt_handler_law]|intros ?]
  | |- handles _ _ _ (cbind _ _) => apply handles_built; [solve [builds_tac]|intros ?]
  | |- handles _ _ _ (if _ then _ else _) => case_match
  | |- handles _ _ _ (match _ with _ => _ end) => case_match
  end.

(** ** The optional capabilities *)

Lemma builds_resources (rs : list (MCP_RESOURCE_ENTRY_T H)) arr : builds (W := W) (list_resources rs arr).
Proof.
  revert arr. induction rs as [|r rs IH]; intros arr; cbn [list_resources]; [apply builds_ret|].
  unfold obj_add_str_opt. repeat (apply builds_bind; [eauto with mcp_builds|intros ?]; cbv beta iota; try case_match); eauto.
Qed.

Lemma builds_prompts (ps : list (MCP_PROMPT_ENTRY_T H)) arr : builds (W := W) (list_prompts ps arr).
Proof.
  revert arr. induction ps as [|p ps IH]; intros arr; cbn [list_prompts]; [apply builds_ret|].
  unfold obj_add_str_opt. repeat (apply builds_bind; [eauto with mcp_builds|intros ?]; cbv beta iota; try case_match); eauto.
Qed.
#[local] Hint Resolve builds_resources builds_prompts : mcp_builds.

Lemma handles_resources_list sid eid params id : handles sid eid id (mcp_resources_handle_list sid eid params id).
Proof. unfold mcp_resources_handle_list. repeat handles_step. Qed.

Lemma handles_prompts_list sid eid params id : handles sid eid id (mcp_prompts_handle_list sid eid params id).
Proof. unfold mcp_prompts_handle_list. repeat handles_step. Qed.

Lemma handles_templates sid eid params id : handles sid eid id (mcp_resources_handle_templates_list sid eid params id).
Proof. unfold mcp_resources_handle_templates_list. repeat handles_step. Qed.

Lemma handles_read sid eid id name failed r : handles sid eid id (reply_read sid eid id name failed r).
Proof. unfold reply_read. repeat handles_step. Qed.

Lemma handles_uri sid eid params id k : (forall uri, handles sid eid id (k uri)) -> handles sid eid id (with_uri sid eid params id k).
Proof. intros Hk. unfold with_uri. repeat first [apply Hk|handles_step]. Qed.

Lemma handles_resources_read sid eid params id : handles sid eid id (mcp_resources_handle_read sid eid params id).
Proof. apply handles_uri. intros uri. repeat first [apply handles_read|handles_step]. Qed.

Lemma handles_subscribe sid eid params id : handles sid eid id (mcp_resources_handle_subscribe sid eid params id).
Proof.
  apply handles_uri. intros uri. cbv zeta. apply handles_quietly. intros s. exists true, s. split; [by apply runs_malloc|].
  split_and!; [done..|]. cbn [negb]. repeat handles_step.
Qed.

Lemma handles_unsubscribe sid eid params id : handles sid eid id (mcp_resources_handle_unsubscribe sid eid params id).
Proof. apply handles_uri. intros uri. handles_step. destruct (remove_first _ _); repeat handles_step. Qed.

Lemma handles_prompts_get sid eid params id : handles sid eid id (mcp_prompts_handle_get sid eid params id).
Proof. unfold mcp_prompts_handle_get. repeat first [apply handles_read|handles_step]. Qed.

Lemma handles_set_level sid eid params id : handles sid eid id (mcp_logging_handle_set_level sid eid params id).
Proof. unfold mcp_logging_handle_set_level. repeat handles_step. Qed.

(** ** initialize *)

Lemma builds_flags flags obj : builds (W := W) (H := H) (add_flags obj flags).
Proof. revert obj. induction flags as [|f flags IH]; intros obj; cbn [add_flags]; eauto using builds_bind with mcp_builds. Qed.

Lemma builds_capability enabled name flags caps : builds (W := W) (H := H) (capability enabled name flags caps).
Proof.
  unfold capability. destruct enabled; cbn [negb]; [|apply builds_ret]. apply builds_bind; [eauto with mcp_builds|]. intros [obj|]; [|apply builds_ret].
  apply builds_bind; [apply builds_flags|]. eauto with mcp_builds.
Qed.

Lemma builds_caps caps : builds (W := W) (H := H) (server_caps caps).
Proof.
  unfold server_caps. do 3 (apply builds_bind; [apply builds_capability|intros ?]). destruct MCP_ENABLE_LOGGING; eauto with mcp_builds.
Qed.
#[local] Hint Resolve builds_caps : mcp_builds.

Lemma handles_initialize sid eid params id : handles sid eid id (__handle_initialize sid eid params id).
Proof. unfold __handle_initialize, obj_add_str_opt. repeat handles_step. Qed.

(** ** tools/call *)

Lemma find_tool_at s (P : MCP_TOOL_ENTRY_T H -> bool) t : tools_ok s -> List.find P (s_tools s) = Some t ->
  tool_at (t_addr t) (s_tools s) = Some t /\ exists ps, t_input_schema t = schema_of ps.
Proof.
  intros Hok Hf. apply List.find_some in Hf as [Hin _]. split.
  - unfold tool_at. pose proof (to_addrs s Hok) as Hnd. clear Hok. induction (s_tools s) as [|x ts IH]; [done|]. cbn [List.find].
    destruct (Nat.eqb_spec (t_addr x) (t_addr t)) as [He|Hne].
    + destruct Hin as [->|Hin]; [done|]. cbn [map] in Hnd. apply NoDup_cons in Hnd as [Hx _]. destruct Hx. rewrite He.
      apply list_elem_of_In, in_map, Hin.
    + destruct Hin as [->|Hin]; [done|]. apply IH; [done|]. cbn [map] in Hnd. by apply NoDup_cons in Hnd as [_ ?].
  - pose proof (to_schemas s Hok) as Hs. rewrite List.Forall_forall in Hs. by apply Hs.
Qed.

Lemma schedule_call_wp sid eid id args t s w (Q : OPERATE_RET -> MCP H * W -> Prop) : mh_ok w ->
  tool_at (t_addr t) (s_tools s) = Some t -> (forall ps, t_input_schema t = schema_of ps -> typed ps args) ->
  (forall s' w', mh_ok w' -> same_tools s s' -> replied sid eid id s w s' w' \/ queued sid eid id s w s' w' -> Q OPRT_OK (s', w')) ->
  wp (schedule_call sid eid id args t) Q (s, w).
Proof.
  intros Hw Ht Hty HQ. unfold schedule_call. cbv zeta. apply wp_bind. eapply runs_wp; [by apply runs_malloc|done|]. intros w1 Hw1 Hs1. cbn [negb app] in *.
  do 3 (apply wp_bind; eapply runs_wp; [by apply runs_strdup|done|]; intros ? ? ?; cbn [app] in *).
  apply wp_bind. assert (Hargs : evals (match args with Some j => json_create j | None => cret None end) s args s []).
  { destruct args; [by apply runs_create|apply runs_ret]. }
  eapply runs_wp; [exact Hargs|done|]. clear Hargs. intros w5 Hw5 Hs5. cbn [app] in Hs5. apply wp_bind.
  apply silent_wp; [apply mh_schedule_law|done|]. intros rt w6 Hw6 Hs6. assert (Hsent : mh_sent w6 = mh_sent w) by congruence.
  destruct (rt =? OPRT_OK); cbn [negb].
  - unfold get_ctx, mod_ctx. do 3 wp_step. cbn [fst snd]. apply HQ; [done|done|]. right. split; [done|]. eexists. split; [done|].
    split_and!; [done..|]. by exists t.
  - eapply runs_wp; [by apply runs_error|done|]. intros w7 Hw7 Hs7. apply HQ; [done|done|]. left. split; [done|].
    eexists. split; [apply reply_is_error|]. by rewrite Hs7, Hsent.
Qed.

Lemma handles_call sid eid params id : handles sid eid id (mcp_tools_handle_call sid eid params id).
Proof.
  unfold mcp_tools_handle_call. destruct (ty_cJSON_IsObject params); cbn [negb]; [|by apply handles_invalid].
  destruct (field_of params "name") as [[| | |tool_name| |]|]; try by apply handles_invalid. cbv zeta.
  set (args := field_of params "arguments"). case_match; [by apply handles_invalid|].
  intros s w Hok Hw. unfold get_ctx. do 2 wp_step. cbn [fst].
  destruct (List.find (named tool_name) (s_tools s)) as [t|] eqn:Hf; [|by apply (handles_invalid room sid eid id)].
  destruct (find_tool_at s _ t Hok Hf) as [Hat [ps0 Hps0]].
  destruct (__validate_required_args (t_input_schema t) args ERR_MSG_SIZE) as [rt1 msg1] eqn:Hr.
  destruct (Z.eqb_spec rt1 OPRT_OK) as [->|]; cbn [negb]; [|by apply (handles_invalid room sid eid id)].
  destruct (__validate_schema_constraints (t_input_schema t) args ERR_MSG_SIZE) as [rt2 msg2] eqn:Hc.
  destruct (Z.eqb_spec rt2 OPRT_OK) as [->|]; cbn [negb]; [|by apply (handles_invalid room sid eid id)].
  apply schedule_call_wp; [done|done| |intros s' w' ? ? ?; by split_and!].
  intros ps Hps. apply (validation_spec ps args ERR_MSG_SIZE); [vm_compute; lia|]. by rewrite <- Hps, Hr, Hc.
Qed.

(** ** Routing *)

Lemma handles_routes sid eid params id :
  List.Forall (fun route => handles sid eid id (snd route sid eid params id)) (s_routes (W := W) (H := H)).
Proof.
  unfold s_routes. repeat (apply List.Forall_app; split); repeat case_match; repeat (apply List.Forall_cons; [cbn [snd]|]); try apply List.Forall_nil.
  - apply handles_initialize.
  - by apply handles_empty.
  - by apply handles_list.
  - apply handles_call.
  - apply handles_resources_list.
  - apply handles_resources_read.
  - apply handles_templates.
  - apply handles_subscribe.
  - apply handles_unsubscribe.
  - apply handles_prompts_list.
  - apply handles_prompts_get.
  - apply handles_set_level.
Qed.

(** A request: a method that is no notification, and an identifier. *)
Record request (msg : cJSON) (method id : string) : Prop := {
  rq_version : ty_cJSON_GetObjectItem msg "jsonrpc" = Some (JString "2.0");
  rq_method : ty_cJSON_GetObjectItem msg "method" = Some (JString method);
  rq_asked : String.prefix "notifications/" method = false;
  rq_id : ty_cJSON_GetObjectItem msg "id" = Some (JString id) }.

Lemma request_wp sid eid msg method id s w : request msg method id -> mc_initialized (s_ctx s) = true -> tools_ok s -> mh_ok w ->
  wp (mcp_server_handle_message sid eid (Some msg)) (fun rt '(s', w') => rt = OPRT_OK /\ mh_ok w' /\ same_tools s s' /\
    (replied sid eid id s w s' w' \/ queued sid eid id s w s' w')) (s, w).
Proof.
  intros [Hv Hm Hn Hi] Hinit Hok Hw. unfold mcp_server_handle_message, get_ctx. do 2 wp_step. cbn [fst].
  rewrite Hinit, Hv, Hm, Hn, Hi. cbv beta iota.
  destruct (List.find _ s_routes) as [[name handler]|] eqn:Hf; [|by apply (handles_error room sid eid id)].
  apply List.find_some in Hf as [Hin _]. pose proof (handles_routes sid eid (ty_cJSON_GetObjectItem msg "params") id) as Hr.
  rewrite List.Forall_forall in Hr. by apply (Hr _ Hin).
Qed.
End Answers.
