(* ===== verification/McpService.v ===== *)
(** The server as a whole: the worker, the calls of the application, and what
    holds in every state the server can reach: its tools have names and schemas of
    their own, and what waits in the work queue is typed. *)
From S2P Require Import Prelude.
From S2P Require Import CStr.
From S2P Require Import World.
From S2P Require Import Json.
From S2P Require Import TmHost.
From S2P Require Import McpCore.
From S2P Require Import McpTools.
From S2P Require Import McpExtras.
From S2P Require Import McpServer.
From S2P Require Import McpRules.
From S2P Require Import McpTyped.
From S2P Require Import McpListing.
From S2P Require Import McpAnswers.

#[local] Open Scope string_scope.
#[local] Open Scope Z_scope.

Section Service.
Context {W H : Type} `{ML : McpHostLaws W H} `{JT : JsonText} `{CF : McpConfig}.
Abbreviation M := (C (MCP H * W)).
Implicit Types (s : MCP H) (w : W).

(** ** The worker *)

Definition server_ok s : Prop := tools_ok s /\ List.Forall (call_ok s) (s_calls s).

Lemma content_runs (room : roomy (W := W) (H := H)) rt content (is_error : bool) s :
  exists r, evals (match content with
        | None =>
            if negb (rt =? OPRT_OK) then
              let* content := json_create (JArray []) in
              match content with
              | Some content =>
                  let* item := mcp_content_make_text (Some "Tool execution failed") in
                  cret (Some (arr_add_opt content item), true)
              | None => cret (None, true)
              end
            else cret (None, is_error)
        | Some _ => cret (content, is_error)
        end) s r s [].
Proof.
  destruct content as [content|]; [eexists; apply runs_ret|]. destruct (rt =? OPRT_OK); cbn [negb]; [eexists; apply runs_ret|].
  eexists. eapply runs_quietly; [by apply runs_create|]. cbv iota. eapply runs_quietly; [by apply runs_text|]. apply runs_ret.
Qed.

Lemma worker_wp (room : roomy (W := W) (H := H)) c s w (Q : unit -> MCP H * W -> Prop) : call_ok s c -> mh_ok w ->
  (forall w' j, mh_ok w' -> is_reply (cm_id c) j -> mh_sent w' = (answer (cm_sid c) (cm_eid c) j ++ mh_sent w)%list -> Q tt (s, w')) ->
  wp (__tool_call_worker c) Q (s, w).
Proof.
  intros (t & Ht & _) Hw HQ. unfold __tool_call_worker, get_ctx. do 2 wp_step. cbn [fst]. wp_step. eapply wp_pure; [exact Ht|].
  wp_step. apply silent_wp; [apply tool_handler_law|done|]. intros [[rt content] is_error] w1 Hw1 Hs1.
  wp_step. eapply runs_wp; [by apply runs_create|done|]. intros w2 Hw2 Hs2. cbv iota. cbn [app] in Hs2.
  destruct (content_runs room rt content is_error s) as [[content' is_error'] Hr].
  wp_step. eapply runs_wp; [exact Hr|done|]. intros w3 Hw3 Hs3. cbn [app] in Hs3. clear Hr. cbv iota beta.
  wp_step. assert (Hb : exists r, evals match content' with
      | Some c => obj_add (JObject []) "content" c | None => obj_add_new (X := MCP H * W) (JObject []) "content" (JArray []) end s r s []).
  { destruct content'; eexists; [by apply runs_add|by apply runs_add_new]. }
  destruct Hb as [r Hb]. eapply runs_wp; [exact Hb|done|]. intros w4 Hw4 Hs4. clear Hb. cbn [app] in Hs4.
  wp_step. destruct (builds_add_opt room r "isError" (if is_error' then Some (JBool true) else None) s) as [r' Hb].
  eapply runs_wp; [exact Hb|done|]. intros w5 Hw5 Hs5. clear Hb. cbn [app] in Hs5.
  wp_step. eapply runs_wp; [by apply runs_reply|done|]. intros w6 Hw6 Hs6. wp_step.
  apply (HQ w6 (result_json (cm_id c) r')); [done|apply reply_is_result|]. rewrite Hs6. by rewrite Hs5, Hs4, Hs3, Hs2, Hs1.
Qed.

Lemma run_call_wp (room : roomy (W := W) (H := H)) c calls s w (Q : unit -> MCP H * W -> Prop) :
  s_calls s = c :: calls -> call_ok s c -> mh_ok w ->
  (forall w' j, mh_ok w' -> is_reply (cm_id c) j -> mh_sent w' = (answer (cm_sid c) (cm_eid c) j ++ mh_sent w)%list -> Q tt (set_calls calls s, w')) ->
  wp run_call Q (s, w).
Proof.
  intros Hc Hok Hw HQ. unfold run_call, get_ctx, mod_ctx. do 2 wp_step. cbn [fst]. rewrite Hc. do 2 wp_step. cbn [fst snd].
  by apply worker_wp.
Qed.

(** ** Every request is answered once *)

(** The replies that are still to come. *)
Definition owed s : list (string * string * string) := map (fun c => (cm_sid c, cm_eid c, cm_id c)) (s_calls s).

(** The work queue's thread catches up. *)
Fixpoint drain (n : nat) : M unit := match n with O => cret tt | S n => let* _ := run_call in drain n end.

Lemma drain_wp (room : roomy (W := W) (H := H)) n s w (Q : unit -> MCP H * W -> Prop) : length (s_calls s) = n -> server_ok s -> mh_ok w ->
  (forall s' w' out, mh_ok w' -> s_calls s' = [] -> answers_for (owed s) out -> mh_sent w' = (rev out ++ mh_sent w)%list -> Q tt (s', w')) ->
  wp (drain n) Q (s, w).
Proof.
  revert s w Q. induction n as [|n IH]; intros s w Q Hn [Htools Hcalls] Hw HQ; cbn [drain].
  { wp_step. destruct s as [? ? ? [|] ? ? ? ?]; [|done]. apply (HQ _ w []); [done|done|constructor|done]. }
  destruct (s_calls s) as [|c calls] eqn:Hc; [done|]. apply List.Forall_cons_iff in Hcalls as [Hc1 Hcs].
  wp_step. eapply run_call_wp; [done|done|done|done|]. intros w1 j Hw1 Hj Hs1. apply IH; [by injection Hn| |done|].
  { split; [by destruct Htools; split|]. exact Hcs. }
  intros s' w' out Hw' Hempty Hout Hs'. apply (HQ s' w' (answer (cm_sid c) (cm_eid c) j ++ out)%list); [done|done| |].
  - unfold owed. rewrite Hc. by constructor.
  - rewrite Hs', Hs1, rev_app_distr, <- !app_assoc. unfold answer. by destruct (ty_cJSON_PrintUnformatted j).
Qed.

Lemma answers_app l1 l2 out1 out2 : answers_for l1 out1 -> answers_for l2 out2 -> answers_for (l1 ++ l2) (out1 ++ out2).
Proof. induction 1; intros Ho; [done|]. rewrite <- app_assoc. cbn [app]. constructor; auto. Qed.

Lemma answered_wp sid eid msg method id s w : roomy (W := W) (H := H) -> request msg method id ->
  mc_initialized (s_ctx s) = true -> server_ok s -> mh_ok w ->
  wp (let* rt := mcp_server_handle_message sid eid (Some msg) in
      let* m := get_ctx in
      let* _ := drain (length (s_calls m)) in cret rt)
    (fun rt '(s', w') => rt = OPRT_OK /\ mh_ok w' /\ s_calls s' = [] /\ exists l out, Permutation l ((sid, eid, id) :: owed s) /\
       answers_for l out /\ mh_sent w' = (rev out ++ mh_sent w)%list) (s, w).
Proof.
  intros room Hreq Hinit [Htools Hcalls] Hw. wp_step. eapply wp_mono; [by eapply request_wp|].
  intros rt [s1 w1] (-> & Hw1 & [Ht Ha] & Hout). unfold get_ctx. do 2 wp_step. cbn [fst].
  assert (Htools1 : tools_ok s1) by (destruct Htools; split; by rewrite ?Ht, ?Ha).
  assert (Hmove : forall c, call_ok s c -> call_ok s1 c) by (intros c (t & Hat & Hty); exists t; by rewrite Ht).
  assert (Hok1 : server_ok s1).
  { split; [done|]. destruct Hout as [(Hc & _)|(_ & c & Hc & _ & _ & _ & Hcok)]; rewrite Hc; [|apply List.Forall_app; split; [|by constructor; auto]];
      by eapply List.Forall_impl; [|exact Hcalls]. }
  wp_step. apply drain_wp; [done|done|done|done|]. intros s2 w2 out Hw2 Hempty Hans Hs2. wp_step. split_and!; [done|done|done|].
  destruct Hout as [(Hc & j & Hj & Hs1)|(Hs1 & c & Hc & <- & <- & <- & _)].
  - exists ((sid, eid, id) :: owed s1), (answer sid eid j ++ out)%list. unfold owed. rewrite Hc. split; [done|]. split.
    + constructor; [done|]. unfold owed in Hans. by rewrite Hc in Hans.
    + rewrite Hs2, Hs1, rev_app_distr, <- !app_assoc. unfold answer. by destruct (ty_cJSON_PrintUnformatted j).
  - exists (owed s1), out. split; [|by rewrite Hs2, Hs1]. unfold owed. rewrite Hc, map_app. cbn [map].
    symmetry. apply Permutation_cons_append.
Qed.

Lemma answers_length l out : answers_for l out -> (forall j, is_Some (ty_cJSON_PrintUnformatted j)) -> length out = length l.
Proof.
  intros Ho Hp. induction Ho as [|sid eid id j l out _ _ IH]; [done|]. unfold answer. destruct (Hp j) as [text ->].
  cbn. by rewrite IH.
Qed.

(** A message that wants no reply. *)
Definition notification (msg : cJSON) : Prop :=
  ty_cJSON_GetObjectItem msg "jsonrpc" = Some (JString "2.0") /\
  exists method, ty_cJSON_GetObjectItem msg "method" = Some (JString method) /\ String.prefix "notifications/" method = true.

(** Any other message is refused, without an identifier. *)
Lemma not_request_wp sid eid msg s w : roomy (W := W) (H := H) -> mc_initialized (s_ctx s) = true -> mh_ok w ->
  (forall method id, ~ request msg method id) ->
  wp (mcp_server_handle_message sid eid (Some msg)) (fun rt '(s', w') => rt = OPRT_OK /\ s' = s /\
    (notification msg -> mh_sent w' = mh_sent w) /\
    (~ notification msg -> exists text,
       mh_sent w' = (answer sid eid (error_json None MCP_ERR_INVALID_REQUEST text) ++ mh_sent w)%list)) (s, w).
Proof.
  intros room Hinit Hw Hnot. unfold mcp_server_handle_message, get_ctx. do 2 wp_step. cbn [fst]. rewrite Hinit.
  assert (Hinv : ~ notification msg -> forall text, wp (invalid_request sid eid text) (fun rt '(s', w') => rt = OPRT_OK /\ s' = s /\
      (notification msg -> mh_sent w' = mh_sent w) /\
      (~ notification msg -> exists text, mh_sent w' = (answer sid eid (error_json None MCP_ERR_INVALID_REQUEST text) ++ mh_sent w)%list)) (s, w)).
  { intros Hn text. unfold invalid_request. eapply runs_wp; [by apply runs_error|done|]. intros w1 Hw1 Hs1.
    split; [done|]. split; [done|]. split; [done|]. intros _. by exists text. }
  destruct (ty_cJSON_GetObjectItem msg "jsonrpc") as [[| | |v| |]|] eqn:Hv; try by (apply Hinv; intros [Hv' _]; congruence).
  destruct (decide (v = "2.0")) as [->|Hne]; cycle 1.
  { repeat case_match; simplify_eq; apply Hinv; intros [Hv' _]; congruence. }
  destruct (ty_cJSON_GetObjectItem msg "method") as [[| | |m| |]|] eqn:Hm; try by (apply Hinv; intros [_ (m' & Hm' & _)]; congruence).
  destruct (String.prefix "notifications/" m) eqn:Hn.
  { wp_step. split; [done|]. split; [done|]. split; [done|]. intros Hno. destruct Hno. split; [done|]. by exists m. }
  assert (Hno : ~ notification msg) by (intros [_ (m' & Hm' & Hp)]; congruence).
  destruct (ty_cJSON_GetObjectItem msg "id") as [[| | |id| |]|] eqn:Hid; try by apply Hinv.
  destruct (Hnot m id). by split.
Qed.

(** C6. Every message gets the replies it is owed, as long as memory lasts. A
    request - version 2.0, a method that is no notification, and a text as its
    identifier - is accepted whatever its method and parameters are, and once
    the work queue has caught up there is exactly one reply to it, with its
    identifier, in its session and event, and one to each tool call that was
    waiting; nothing else is sent and no call is left over. A notification is
    accepted without a reply. Anything else, a request whose identifier is a
    number included, is answered at once with an invalid request error that
    names no identifier, and changes nothing. (A reply is transmitted if it can
    be printed: when every reply can, there are exactly as many transmissions
    as replies.) *)
Theorem request_answered sid eid msg s w : roomy (W := W) (H := H) ->
  mc_initialized (s_ctx s) = true -> server_ok s -> mh_ok w ->
  (forall method id, request msg method id ->
     wp (let* rt := mcp_server_handle_message sid eid (Some msg) in
         let* m := get_ctx in
         let* _ := drain (length (s_calls m)) in cret rt)
       (fun rt '(s', w') => rt = OPRT_OK /\ s_calls s' = [] /\ exists l out, Permutation l ((sid, eid, id) :: owed s) /\
          answers_for l out /\ ((forall j, is_Some (ty_cJSON_PrintUnformatted j)) -> length out = length l) /\
          mh_sent w' = (rev out ++ mh_sent w)%list) (s, w)) /\
  ((forall method id, ~ request msg method id) ->
     wp (mcp_server_handle_message sid eid (Some msg)) (fun rt '(s', w') => rt = OPRT_OK /\ s' = s /\
       (notification msg -> mh_sent w' = mh_sent w) /\
       (~ notification msg -> exists text,
          mh_sent w' = (answer sid eid (error_json None MCP_ERR_INVALID_REQUEST text) ++ mh_sent w)%list)) (s, w)).
Proof.
  intros room Hinit Hok Hw. split; [|by apply not_request_wp].
  intros method id Hreq. eapply wp_mono; [by eapply answered_wp|].
  intros rt [s' w'] (? & _ & ? & l & out & ? & Ho & ?). split; [done|]. split; [done|]. exists l, out. split_and!; [done|done| |done].
  by apply answers_length.
Qed.

(** ** Reachable states *)

(** What the rest of the program calls. *)
Inductive mcp_event :=
| McpInit (name version : option string)
| McpToolRegister (name description : option string) (handler : option H) (ps : list MCP_SCHEMA_PROP_T)
| McpMessage (sid eid : string) (msg : option cJSON)
| McpWork
| McpToolsChanged
| McpResourceAdd (uri name description mime_type : option string) (handler : option H)
| McpResourceRemove (uri : option string)
| McpResourceUpdated (uri : option string)
| McpResourcesChanged
| McpPromptAdd (name description : option string) (args : list MCP_PROMPT_ARG_T) (handler : option H)
| McpPromptsChanged
| McpLog (level logger text : option string)
| McpDestroy.

Definition mcp_do (e : mcp_event) : M unit :=
  let run (c : M OPERATE_RET) := let* _ := c in cret tt in
  match e with
  | McpInit name version => run (mcp_server_init name version)
  | McpToolRegister name description handler ps => run (mcp_server_tool_register name description handler ps)
  | McpMessage sid eid msg => run (mcp_server_handle_message sid eid msg)
  | McpWork => run_call
  | McpToolsChanged => run mcp_server_notify_tools_changed
  | McpResourceAdd uri name description mime_type handler => run (mcp_server_resource_add uri name description mime_type handler)
  | McpResourceRemove uri => run (mcp_server_resource_remove uri)
  | McpResourceUpdated uri => run (mcp_server_resource_notify_updated uri)
  | McpResourcesChanged => run mcp_server_notify_resources_changed
  | McpPromptAdd name description args handler => run (mcp_server_prompt_add name description args handler)
  | McpPromptsChanged => run mcp_server_notify_prompts_changed
  | McpLog level logger text => run (mcp_server_log level logger text)
  | McpDestroy => mcp_server_destroy
  end.

(** The server is not destroyed while calls wait. *)
Definition event_ok s (e : mcp_event) : Prop := match e with McpDestroy => s_calls s = [] | _ => True end.

(** Operations that leave tools and calls as they are. *)
Definition calm {A} (c : M A) : Prop := forall s w, mh_ok w ->
  wp c (fun _ '(s', w') => same_tools s s' /\ s_calls s' = s_calls s /\ mh_ok w') (s, w).

Lemma calm_ret {A} (a : A) : calm (cret a).
Proof. intros s w Hw. by apply wp_ret. Qed.

Lemma calm_bind {A B} (c : M A) (k : A -> M B) : calm c -> (forall a, calm (k a)) -> calm (cbind c k).
Proof.
  intros Hc Hk s w Hw. apply wp_bind. eapply wp_mono; [by apply Hc|]. intros a [s1 w1] ([Ht Ha] & Hcalls & Hw1).
  eapply wp_mono; [by apply Hk|]. intros b [s2 w2] ([Ht2 Ha2] & Hcalls2 & Hw2). split_and!; [split; congruence|congruence|done].
Qed.

Lemma calm_get : calm get_ctx.
Proof. intros s w Hw. unfold get_ctx. by wp_step. Qed.

Lemma calm_mod (f : MCP H -> MCP H) : (forall x, same_tools x (f x) /\ s_calls (f x) = s_calls x) -> calm (mod_ctx f).
Proof. intros Hf s w Hw. unfold mod_ctx. wp_step. cbn [fst snd]. destruct (Hf s). by split_and!. Qed.

Lemma calm_host {A} (m : C W A) : silent m -> calm (on_host m).
Proof. intros Hm s w Hw. by apply silent_wp. Qed.

Lemma calm_malloc : calm heap_alloc.
Proof. apply calm_host, mh_malloc_law. Qed.

Lemma calm_send sid eid j : calm (print_and_send sid eid j).
Proof.
  unfold print_and_send. destruct (ty_cJSON_PrintUnformatted j) as [text|]; [|apply calm_ret]. intros s w Hw. unfold __send_message.
  apply wp_host. eapply wp_mono; [by apply mh_response_law|]. by intros [] w' [? _].
Qed.
End Service.

Create HintDb mcp_calm.
#[export] Hint Resolve calm_ret calm_get calm_malloc calm_send : mcp_calm.
#[export] Hint Extern 1 (calm (mod_ctx _)) => apply calm_mod; done : mcp_calm.
#[export] Hint Extern 2 (calm (on_host (tuya_ai_agent_mcp_set_cb _))) => apply calm_host, mh_set_cb_law : mcp_calm.

(** Operations made of calm steps. *)
Ltac calm_tac :=
  cbv beta iota zeta;
  lazymatch goal with
  | |- calm (cbind _ _) => apply calm_bind; [calm_tac|intros ?; calm_tac]
  | |- calm (if ?b then _ else _) => destruct b; calm_tac
  | |- calm (match ?x with _ => _ end) => destruct x; calm_tac
  | |- _ => eauto with mcp_calm
  end.

Section Reach.
Context {W H : Type} `{ML : McpHostLaws W H} `{JT : JsonText} `{CF : McpConfig}.
Abbreviation M := (C (MCP H * W)).
Implicit Types (s : MCP H) (w : W).

(** ** The calm operations *)

Lemma calm_create j : calm (json_create (X := MCP H * W) j).
Proof. unfold json_create. calm_tac. Qed.
#[local] Hint Resolve calm_create : mcp_calm.

Lemma calm_add obj name v : calm (obj_add (X := MCP H * W) obj name v).
Proof. unfold obj_add. calm_tac. Qed.
#[local] Hint Resolve calm_add : mcp_calm.

Lemma calm_add_opt obj name v : calm (obj_add_opt (X := MCP H * W) obj name v).
Proof. unfold obj_add_opt. calm_tac. Qed.
#[local] Hint Resolve calm_add_opt : mcp_calm.

Lemma calm_strdup str : calm (mcp_strdup (X := MCP H * W) str).
Proof. unfold mcp_strdup. calm_tac. Qed.
#[local] Hint Resolve calm_strdup : mcp_calm.

Lemma calm_strdup_opt str : calm (W := W) (H := H) (strdup_opt str).
Proof. unfold strdup_opt. calm_tac. Qed.
#[local] Hint Resolve calm_strdup_opt : mcp_calm.

Lemma calm_notification method params : calm (W := W) (H := H) (mcp_server_send_notification method params).
Proof. unfold mcp_server_send_notification. calm_tac. Qed.
#[local] Hint Resolve calm_notification : mcp_calm.

Lemma calm_changed : calm (W := W) (H := H) mcp_server_notify_tools_changed /\
  calm (W := W) (H := H) mcp_server_notify_resources_changed /\ calm (W := W) (H := H) mcp_server_notify_prompts_changed.
Proof. split_and!; apply calm_notification. Qed.

Lemma calm_init name version : calm (W := W) (H := H) (mcp_server_init name version).
Proof. unfold mcp_server_init. calm_tac. Qed.

Lemma calm_resource_add uri name description mime_type handler :
  calm (W := W) (H := H) (mcp_server_resource_add uri name description mime_type handler).
Proof. unfold mcp_server_resource_add. calm_tac. Qed.

Lemma calm_resource_remove uri : calm (W := W) (H := H) (mcp_server_resource_remove uri).
Proof. unfold mcp_server_resource_remove. calm_tac. Qed.

Lemma calm_resource_updated uri : calm (W := W) (H := H) (mcp_server_resource_notify_updated uri).
Proof. unfold mcp_server_resource_notify_updated. calm_tac. Qed.

Lemma calm_args args arr : calm (W := W) (H := H) (build_args args arr).
Proof. revert arr. induction args as [|a args IH]; intros arr; cbn [build_args]; unfold obj_add_str_opt; calm_tac. Qed.
#[local] Hint Resolve calm_args : mcp_calm.

Lemma calm_prompt_add name description args handler : calm (W := W) (H := H) (mcp_server_prompt_add name description args handler).
Proof. unfold mcp_server_prompt_add, __build_prompt_args_json. calm_tac. Qed.

Lemma calm_log level logger text : calm (W := W) (H := H) (mcp_server_log level logger text).
Proof. unfold mcp_server_log, obj_add_str_opt. calm_tac. Qed.

Lemma calm_error sid eid id code msg : calm (W := W) (H := H) (mcp_server_reply_error sid eid id code msg).
Proof. unfold mcp_server_reply_error. calm_tac. Qed.

(** ** The invariant *)

Lemma tools_ok_same s s' : same_tools s s' -> tools_ok s -> tools_ok s'.
Proof. intros [Ht Ha] []. split; by rewrite ?Ht, ?Ha. Qed.

Lemma call_ok_same s s' c : same_tools s s' -> call_ok s c -> call_ok s' c.
Proof. intros [Ht _] (t & ? & ?). exists t. by rewrite Ht. Qed.

Lemma server_ok_same s s' : same_tools s s' -> s_calls s' = s_calls s -> server_ok s -> server_ok s'.
Proof.
  intros Hs Hc [Ht Hcs]. split; [by eapply tools_ok_same|]. rewrite Hc. eapply List.Forall_impl; [|exact Hcs].
  intros c. by apply call_ok_same.
Qed.

(** Registering a tool under a new name. *)
Lemma register_ok s t ps : server_ok s -> t_addr t = s_addrs s -> t_input_schema t = schema_of ps ->
  existsb (named (t_name t)) (s_tools s) = false -> server_ok (set_tools (t :: s_tools s) (S (s_addrs s)) s).
Proof.
  intros [[Hn Ha Hf Hs] Hcs] Haddr Hschema Hnew. split.
  - split; cbn [s_tools s_addrs set_tools map].
    + apply NoDup_cons. split; [|done]. intros Hin. apply list_elem_of_fmap in Hin as (x & He & Hx).
      apply list_elem_of_In in Hx. apply not_true_iff_false in Hnew. apply Hnew, existsb_exists. exists x. split; [done|].
      unfold named. by apply String.eqb_eq.
    + apply NoDup_cons. split; [|done]. rewrite Haddr. intros Hin. apply list_elem_of_fmap in Hin as (x & He & Hx).
      apply list_elem_of_In in Hx. rewrite List.Forall_forall in Hf. specialize (Hf x Hx). lia.
    + constructor; [lia|]. eapply List.Forall_impl; [|exact Hf]. cbn. intros; lia.
    + constructor; [by exists ps|done].
  - cbn [s_calls set_tools]. eapply List.Forall_impl; [|exact Hcs]. intros c (x & Hx & Hty). exists x. split; [|done].
    cbn [s_tools set_tools]. unfold tool_at in *. cbn [List.find]. destruct (Nat.eqb_spec (t_addr t) (cm_tool c)) as [He|]; [|done].
    pose proof (List.find_some _ _ Hx) as [Hin Hm]. apply Nat.eqb_eq in Hm. rewrite List.Forall_forall in Hf. specialize (Hf x Hin). lia.
Qed.

Lemma register_wp (room : roomy (W := W) (H := H)) name description handler ps s w : server_ok s -> mh_ok w ->
  wp (mcp_server_tool_register name description handler ps) (fun _ '(s', w') => server_ok s' /\ mh_ok w') (s, w).
Proof.
  intros Hok Hw. unfold mcp_server_tool_register, get_ctx, mod_ctx. destruct name as [name|], description as [description|], handler as [handler|];
    try by wp_step. do 2 wp_step. cbn [fst]. destruct (existsb (named name) (s_tools s)) eqn:Hnew; [by wp_step|].
  wp_step. eapply runs_wp; [by apply runs_malloc|done|]. intros w1 Hw1 _. cbn [negb].
  do 2 (wp_step; eapply runs_wp; [by apply runs_strdup|done|]; intros ? ? _; cbv iota).
  wp_step. eapply runs_wp; [by apply runs_schema|done|]. intros w4 Hw4 _. cbv iota. do 4 wp_step. do 1 wp_step. cbn [fst snd].
  split; [|done]. by apply (register_ok s (mk_tool (s_addrs s) name description (schema_of ps) handler) ps).
Qed.

Lemma message_wp (room : roomy (W := W) (H := H)) sid eid msg s w : server_ok s -> mh_ok w ->
  wp (mcp_server_handle_message sid eid msg) (fun _ '(s', w') => server_ok s' /\ mh_ok w') (s, w).
Proof.
  intros Hok Hw. assert (Herr : forall id code m, wp (mcp_server_reply_error sid eid id code m) (fun _ '(s', w') => server_ok s' /\ mh_ok w') (s, w)).
  { intros id code m. eapply wp_mono; [by apply calm_error|]. intros rt [s1 w1] (Hs & Hc & ?). split; [by eapply server_ok_same|done]. }
  destruct msg as [msg|]; [|unfold mcp_server_handle_message, get_ctx; do 2 wp_step; cbn [fst]; by destruct (mc_initialized _)].
  destruct (mc_initialized (s_ctx s)) eqn:Hi; [|unfold mcp_server_handle_message, get_ctx; do 2 wp_step; cbn [fst]; by rewrite Hi].
  destruct (ty_cJSON_GetObjectItem msg "jsonrpc") as [[| | |v| |]|] eqn:Hv;
    try (unfold mcp_server_handle_message, get_ctx; do 2 wp_step; cbn [fst]; rewrite Hi, Hv; apply Herr).
  destruct (decide (v = "2.0")) as [->|Hne]; cycle 1.
  { unfold mcp_server_handle_message, get_ctx; do 2 wp_step; cbn [fst]; rewrite Hi, Hv. repeat case_match; simplify_eq; apply Herr. }
  destruct (ty_cJSON_GetObjectItem msg "method") as [[| | |m| |]|] eqn:Hm;
    try (unfold mcp_server_handle_message, get_ctx; do 2 wp_step; cbn [fst]; rewrite Hi, Hv, Hm; apply Herr).
  destruct (String.prefix "notifications/" m) eqn:Hn.
  { unfold mcp_server_handle_message, get_ctx; do 2 wp_step; cbn [fst]; rewrite Hi, Hv, Hm, Hn. by wp_step. }
  destruct (ty_cJSON_GetObjectItem msg "id") as [[| | |id| |]|] eqn:Hid;
    try (unfold mcp_server_handle_message, get_ctx; do 2 wp_step; cbn [fst]; rewrite Hi, Hv, Hm, Hn, Hid; apply Herr).
  eapply wp_mono; [eapply (request_wp room sid eid msg m id); [by split|done|apply Hok|done]|].
  intros rt [s1 w1] (_ & Hw1 & Hsame & Hout). split; [|done]. destruct Hok as [Ht Hcs]. split; [by eapply tools_ok_same|].
  assert (Hkeep : List.Forall (call_ok s1) (s_calls s)) by (eapply List.Forall_impl; [|exact Hcs]; intros c; by apply call_ok_same).
  destruct Hout as [(Hc & _)|(_ & c & Hc & _ & _ & _ & Hcok)]; rewrite Hc; [done|]. apply List.Forall_app. split; [done|].
  constructor; [by eapply call_ok_same|done].
Qed.

Lemma no_tools_ok s : s_tools s = [] -> s_calls s = [] -> server_ok s.
Proof. intros Ht Hc. split; [split|]; rewrite ?Ht, ?Hc; cbn [map]; first [apply NoDup_nil_2|apply List.Forall_nil]. Qed.

Lemma destroy_wp s w : s_calls s = [] -> server_ok s -> mh_ok w ->
  wp mcp_server_destroy (fun _ '(s', w') => server_ok s' /\ mh_ok w') (s, w).
Proof.
  intros Hc Hok Hw. unfold mcp_server_destroy, when_enabled, mcp_tools_cap_destroy, mcp_resources_cap_destroy, mcp_prompts_cap_destroy,
    mcp_logging_cap_destroy, get_ctx, mod_ctx. do 2 wp_step. cbn [fst]. destruct (mc_initialized (s_ctx s)); cbn [negb]; [|by wp_step].
  wp_step. apply silent_wp; [apply mh_set_cb_law|done|]. intros _ w1 Hw1 _.
  destruct MCP_ENABLE_TOOLS, MCP_ENABLE_RESOURCES, MCP_ENABLE_PROMPTS, MCP_ENABLE_LOGGING; wp_steps; cbn [fst snd]; split; try done.
  all: first [by apply (server_ok_same s)|apply no_tools_ok; [done|exact Hc]].
Qed.

Lemma calm_keeps {A} (c : M A) s w : calm c -> server_ok s -> mh_ok w ->
  wp (let* _ := c in cret tt) (fun _ '(s', w') => server_ok s' /\ mh_ok w') (s, w).
Proof.
  intros Hc Hok Hw. wp_step. eapply wp_mono; [by apply Hc|]. intros a [s1 w1] (Hs & Hcalls & ?). wp_step. split; [by eapply server_ok_same|done].
Qed.

(** C7. Tools only see arguments that passed their check: as long as memory
    lasts, whatever is registered and whatever messages arrive, each operation
    of the server and each run of the worker is defined, tools keep distinct
    names, and every call that waits for the worker names a tool that is still
    there, with all the arguments its description requires and every described
    number within its bounds. That is all that is checked: a value need not have
    the type the description declares. And the server must not be destroyed
    while calls wait: that leaves the worker with a call to a tool that is gone. *)
Theorem tool_arguments_typed s w e : roomy (W := W) (H := H) -> event_ok s e -> server_ok s -> mh_ok w ->
  wp (mcp_do e) (fun _ '(s', w') => server_ok s' /\ mh_ok w') (s, w).
Proof.
  intros room He Hok Hw. destruct e; cbn [mcp_do].
  - by apply calm_keeps; [apply calm_init|..].
  - wp_step. eapply wp_mono; [by apply register_wp|]. intros rt [s1 w1] ?. by wp_step.
  - wp_step. eapply wp_mono; [by apply message_wp|]. intros rt [s1 w1] ?. by wp_step.
  - destruct Hok as [Ht Hcs]. destruct (s_calls s) as [|c calls] eqn:Hc.
    + unfold run_call, get_ctx. do 2 wp_step. cbn [fst]. rewrite Hc. wp_step. split; [|done]. split; [done|]. by rewrite Hc.
    + apply List.Forall_cons_iff in Hcs as [Hc1 Hcs]. eapply run_call_wp; [done|done|done|done|]. intros w' j Hw' _ _.
      split; [|done]. split; [by apply (tools_ok_same s)|]. exact Hcs.
  - by apply calm_keeps; [apply calm_changed|..].
  - by apply calm_keeps; [apply calm_resource_add|..].
  - by apply calm_keeps; [apply calm_resource_remove|..].
  - by apply calm_keeps; [apply calm_resource_updated|..].
  - by apply calm_keeps; [apply calm_changed|..].
  - by apply calm_keeps; [apply calm_prompt_add|..].
  - by apply calm_keeps; [apply calm_changed|..].
  - by apply calm_keeps; [apply calm_log|..].
  - by apply destroy_wp.
Qed.
End Reach.
