(* ===== verification/McpCalls.v ===== *)
(** The two requests about tools, as a client sees them: what tools/call accepts
    and what it reports, and reading the whole list with tools/list. *)
From Stdlib Require QArith_base.
From S2P Require Import Prelude.
From S2P Require Import CStr.
From S2P Require Import World.
From S2P Require Import Json.
From S2P Require Import TmHost.
From S2P Require Import McpCore.
From S2P Require Import McpTools.
From S2P Require Import McpServer.
From S2P Require Import McpRules.
From S2P Require Import McpTyped.
From S2P Require Import McpListing.
From S2P Require Import McpAnswers.

#[local] Open Scope string_scope.
#[local] Open Scope Z_scope.

(** ** The reports *)

(** What a reply says about arguments that do not pass: the names that
    are missing; or else the first value that is out of its bounds. *)
Inductive reported (ps : list MCP_SCHEMA_PROP_T) (args : option cJSON) : string -> Prop :=
| reported_missing : missing args (required_names ps) <> [] ->
    reported ps args (missing_header ++ listing (missing args (required_names ps)))
| reported_low before p after v : missing args (required_names ps) = [] ->
    ps = (before ++ p :: after)%list -> List.Forall (in_bounds args) before ->
    number_of (field_of args (sp_name p)) = Some v -> sp_has_minimum p = true -> below v (sp_minimum p) = true ->
    reported ps args (constraint_text (sp_name p) v "below minimum" (sp_minimum p))
| reported_high before p after v : missing args (required_names ps) = [] ->
    ps = (before ++ p :: after)%list -> List.Forall (in_bounds args) before ->
    number_of (field_of args (sp_name p)) = Some v -> sp_has_maximum p = true -> below (sp_maximum p) v = true ->
    reported ps args (constraint_text (sp_name p) v "above maximum" (sp_maximum p)).

(** The check that fails says so. *)
Lemma constraint_reported ps args n text : missing args (required_names ps) = [] ->
  __validate_schema_constraints (schema_of ps) args n = (OPRT_INVALID_PARM, text) ->
  exists full, reported ps args full /\ text = strtrunc (n - 1) full.
Proof.
  intros Hm. unfold __validate_schema_constraints. rewrite schema_properties. destruct args as [args|]; [|done]. cbn [children].
  destruct (constraint_loop _ args) as [msg|] eqn:Hl; [|done]. intros [= <-]. exists msg. split; [|done].
  assert (Hsplit : forall before rest, ps = (before ++ rest)%list -> List.Forall (in_bounds (Some args)) before ->
    constraint_loop (map (fun p => (sp_name p, prop_json p)) rest) args = Some msg -> reported ps (Some args) msg).
  2:{ by apply (Hsplit [] ps). }
  clear Hl. intros before rest. revert before. induction rest as [|p rest IH]; intros before Hps Hbefore; [done|].
  cbn [map constraint_loop]. rewrite prop_minimum, prop_maximum.
  assert (Hnext : in_bounds (Some args) p -> constraint_loop (map (fun p => (sp_name p, prop_json p)) rest) args = Some msg ->
    reported ps (Some args) msg).
  { intros Hp. apply (IH (before ++ [p])%list); [by rewrite <- app_assoc|]. apply List.Forall_app. split; [done|]. by constructor. }
  destruct (number_of (ty_cJSON_GetObjectItem args (sp_name p))) as [v|] eqn:Hv; cycle 1.
  { apply Hnext. intros u. cbn. by rewrite Hv. }
  destruct (sp_has_minimum p) eqn:Hlo, (sp_has_maximum p) eqn:Hhi; cbv zeta;
    repeat match goal with |- context [below ?x ?y] => destruct (below x y) eqn:? end;
    first [intros [= <-]; by eapply reported_low|intros [= <-]; by eapply reported_high|idtac].
  all: apply Hnext; intros u; cbn; rewrite Hv; intros [= <-]; by split; rewrite ?Hlo, ?Hhi; intros ?; apply below_false.
Qed.

Lemma rejected_reported ps args n : (strlen missing_header < n - 1)%nat -> ~ typed ps args ->
  exists full text, reported ps args full /\ text = strtrunc (n - 1) full /\
    (__validate_required_args (schema_of ps) args n = (OPRT_INVALID_PARM, text) \/
     fst (__validate_required_args (schema_of ps) args n) = OPRT_OK /\
     __validate_schema_constraints (schema_of ps) args n = (OPRT_INVALID_PARM, text)).
Proof.
  intros Hn Hty. pose proof (required_spec ps args n Hn) as Hreq. destruct (missing args (required_names ps)) as [|x names] eqn:Hm.
  - assert (Hc : fst (__validate_schema_constraints (schema_of ps) args n) <> OPRT_OK).
    { intros Hc. apply Hty, (validation_spec ps args n Hn). split; [by apply Hreq|done]. }
    destruct (__validate_schema_constraints (schema_of ps) args n) as [rt text] eqn:Hv.
    assert (rt = OPRT_INVALID_PARM) as ->.
    { unfold __validate_schema_constraints in Hv. rewrite schema_properties in Hv. destruct args as [args|]; [|by injection Hv as <- _].
      cbn [children] in Hv. destruct (constraint_loop _ args); injection Hv as <- _; done. }
    destruct (constraint_reported ps args n text Hm Hv) as (full & ? & ?). exists full, text. split_and!; [done..|]. right. split; [|done].
    by apply Hreq.
  - exists (missing_header ++ listing (x :: names)), (strtrunc (n - 1) (missing_header ++ listing (x :: names))).
    split; [rewrite <- Hm; apply reported_missing; by rewrite Hm|]. split; [done|]. left.
    assert (Hr : fst (__validate_required_args (schema_of ps) args n) <> OPRT_OK) by (intros Hr; by apply Hreq in Hr).
    revert Hr. rewrite <- Hm. unfold __validate_required_args. rewrite schema_required. destruct (required_names ps) as [|y ys]; [done|].
    cbn [map]. cbv zeta. change (JString y :: map JString ys) with (map JString (y :: ys)). rewrite missing_loop_text.
    by destruct (_ =? _)%nat.
Qed.

Section Client.
Context {W H : Type} `{ML : McpHostLaws W H} `{JT : JsonText} `{CF : McpConfig}.
Implicit Types (s : MCP H) (w : W).

(** A request goes to the handler of its route. *)
Lemma routed sid eid msg method id handler s : request msg method id -> mc_initialized (s_ctx s) = true ->
  List.find (fun route => String.eqb method (fst route)) (s_routes (W := W) (H := H)) = Some (method, handler) ->
  forall w (Q : OPERATE_RET -> MCP H * W -> Prop),
  wp (handler sid eid (ty_cJSON_GetObjectItem msg "params") id) Q (s, w) -> wp (mcp_server_handle_message sid eid (Some msg)) Q (s, w).
Proof.
  intros [Hv Hm Hn Hi] Hinit Hf w Q HQ. unfold mcp_server_handle_message, get_ctx. do 2 wp_step. cbn [fst].
  rewrite Hinit, Hv, Hm, Hn, Hi. cbv beta iota. by rewrite Hf.
Qed.

(** ** Calling a tool *)

(** The parameters of a call: the tool's name, and arguments if any. *)
Record call_params (params : option cJSON) (name : string) (args : option cJSON) : Prop := {
  cp_object : ty_cJSON_IsObject params = true;
  cp_name : field_of params "name" = Some (JString name);
  cp_args : field_of params "arguments" = args;
  cp_args_object : match args with Some (JObject _) | None => True | _ => False end }.

Lemma call_checked sid eid params id name args s w (Q : OPERATE_RET -> MCP H * W -> Prop) :
  call_params params name args ->
  (forall t, List.find (named name) (s_tools s) = Some t ->
     let '(rt, text) := __validate_required_args (t_input_schema t) args ERR_MSG_SIZE in
     if negb (rt =? OPRT_OK) then wp (invalid_params sid eid id text) Q (s, w)
     else
       let '(rt, text) := __validate_schema_constraints (t_input_schema t) args ERR_MSG_SIZE in
       if negb (rt =? OPRT_OK) then wp (invalid_params sid eid id text) Q (s, w)
       else wp (schedule_call sid eid id args t) Q (s, w)) ->
  (List.find (named name) (s_tools s) = None -> wp (invalid_params sid eid id "Unknown tool") Q (s, w)) ->
  wp (mcp_tools_handle_call sid eid params id) Q (s, w).
Proof.
  intros [Hobj Hname Hargs Hargo] Hfound Hnone. unfold mcp_tools_handle_call. rewrite Hobj, Hname, Hargs. cbn [negb]. cbv zeta.
  assert (Ha : match args with Some _ => negb (ty_cJSON_IsObject args) | None => false end = false) by by destruct args as [[]|].
  rewrite Ha. unfold get_ctx. do 2 wp_step. cbn [fst]. destruct (List.find (named name) (s_tools s)) as [t|]; [|by apply Hnone].
  specialize (Hfound t eq_refl). destruct (__validate_required_args _ _ _) as [rt text]. destruct (negb (rt =? OPRT_OK)); [done|].
  destruct (__validate_schema_constraints _ _ _) as [rt2 text2]. by destruct (negb (rt2 =? OPRT_OK)).
Qed.

(** The call waits for the worker; or the work queue refused it, which the
    reply says. *)
Definition accepted sid eid id args (t : MCP_TOOL_ENTRY_T H) s w s' w' : Prop :=
  s' = set_calls (s_calls s ++ [mk_call sid eid id args (t_addr t)]) s /\ mh_sent w' = mh_sent w \/
  s' = s /\ mh_sent w' = (answer sid eid (error_json (Some id) MCP_ERR_INTERNAL "Failed to schedule tool call") ++ mh_sent w)%list.

Lemma schedule_accepts (room : roomy (W := W) (H := H)) sid eid id args t s w : mh_ok w ->
  wp (schedule_call sid eid id args t) (fun rt '(s', w') => rt = OPRT_OK /\ accepted sid eid id args t s w s' w') (s, w).
Proof.
  intros Hw. unfold schedule_call. cbv zeta. wp_step. eapply runs_wp; [by apply runs_malloc|done|]. intros w1 Hw1 Hs1. cbn [negb].
  do 3 (wp_step; eapply runs_wp; [by apply runs_strdup|done|]; intros ? ? ?; cbn [app] in *). cbv iota.
  wp_step. assert (Hargs : evals match args with Some j => json_create j | None => cret None end s args s []).
  { destruct args; [by apply runs_create|apply runs_ret]. }
  eapply runs_wp; [exact Hargs|done|]. clear Hargs. intros w5 Hw5 Hs5. wp_step.
  apply silent_wp; [apply mh_schedule_law|done|]. intros rt w6 Hw6 Hs6. cbn [app] in *.
  assert (Hsent : mh_sent w6 = mh_sent w) by congruence. destruct (rt =? OPRT_OK); cbn [negb].
  - unfold get_ctx, mod_ctx. do 3 wp_step. cbn [fst snd]. split; [done|]. by left.
  - eapply runs_wp; [by apply runs_error|done|]. intros w7 Hw7 Hs7. split; [done|]. right. by rewrite Hs7, Hsent.
Qed.

Lemma header_fits : (strlen missing_header < ERR_MSG_SIZE - 1)%nat.
Proof. vm_compute. lia. Qed.

(** C16. As long as memory lasts, a tools/call request is checked against the
    tool's description. Arguments among which every required one is present and
    every described number is within its bounds are handed to the worker
    unchanged, or, when the work queue refuses the call, it is answered with an
    internal error; if one is missing or out of bounds the request is refused
    with the code for invalid parameters, and the reply names every required
    argument that is missing or else the first value that is out of its bounds
    (as much of the report as fits the buffer); a tool that is not registered is
    unknown. The type that the description declares for a value is not checked. *)
Theorem tool_call_checked sid eid msg id name args s w : roomy (W := W) (H := H) -> MCP_ENABLE_TOOLS = true ->
  mc_initialized (s_ctx s) = true -> tools_ok s -> mh_ok w ->
  request msg "tools/call" id -> call_params (ty_cJSON_GetObjectItem msg "params") name args ->
  wp (mcp_server_handle_message sid eid (Some msg)) (fun rt '(s', w') => rt = OPRT_OK /\
    let refused text := s' = s /\ mh_sent w' = (answer sid eid (error_json (Some id) MCP_ERR_INVALID_PARAMS text) ++ mh_sent w)%list in
    match List.find (named name) (s_tools s) with
    | None => refused "Unknown tool"
    | Some t => forall ps, t_input_schema t = schema_of ps ->
        (typed ps args -> accepted sid eid id args t s w s' w') /\
        (~ typed ps args -> exists full, reported ps args full /\ refused (strtrunc 255 full))
    end) (s, w).
Proof.
  intros room Htools Hinit Hok Hw Hreq Hcall. eapply (routed sid eid msg "tools/call" id mcp_tools_handle_call); [done|done| |].
  { unfold s_routes. by rewrite Htools. }
  apply (call_checked _ _ _ _ name args); [done| |].
  - intros t Hf. rewrite Hf. pose proof (fun ps Hty => rejected_reported ps args ERR_MSG_SIZE header_fits Hty) as Hbad.
    pose proof (fun ps => validation_spec ps args ERR_MSG_SIZE header_fits) as Hval.
    destruct (__validate_required_args (t_input_schema t) args ERR_MSG_SIZE) as [rt1 text1] eqn:Hr.
    destruct (Z.eqb_spec rt1 OPRT_OK) as [->|H1]; cbn [negb];
      [destruct (__validate_schema_constraints (t_input_schema t) args ERR_MSG_SIZE) as [rt2 text2] eqn:Hc;
       destruct (Z.eqb_spec rt2 OPRT_OK) as [->|H2]; cbn [negb]|].
    + eapply wp_mono; [by apply schedule_accepts|]. intros rt [s' w'] [-> Hacc]. split; [done|]. intros ps Hps. split; [done|].
      intros Hty. destruct Hty. apply Hval. by rewrite <- Hps, Hr, Hc.
    + eapply runs_wp; [by apply runs_error|done|]. intros w1 Hw1 Hs1. split; [done|]. intros ps Hps.
      specialize (Hval ps). specialize (Hbad ps). rewrite <- Hps, Hr, Hc in Hval. rewrite <- Hps, Hr, Hc in Hbad. cbn [fst] in *.
      split; [by intros [_ ?]%Hval|]. intros Hty. destruct (Hbad Hty) as (full & text & Hfull & -> & [He|[_ He]]); [done|].
      exists full. injection He as _ ->. by split_and!.
    + eapply runs_wp; [by apply runs_error|done|]. intros w1 Hw1 Hs1. split; [done|]. intros ps Hps.
      specialize (Hval ps). specialize (Hbad ps). rewrite <- Hps, Hr in Hval. rewrite <- Hps, Hr in Hbad. cbn [fst] in *.
      split; [by intros [? _]%Hval|]. intros Hty. destruct (Hbad Hty) as (full & text & Hfull & -> & [He|[He _]]); [|done].
      exists full. injection He as _ ->. by split_and!.
  - intros Hf. rewrite Hf. unfold invalid_params. eapply runs_wp; [by apply runs_error|done|]. intros w1 Hw1 Hs1. by split_and!.
Qed.
(** ** Reading the list *)

(** A client that follows the cursors of the replies, where [serve] is the
    result the server gives for a cursor. *)
Fixpoint read_listing (fuel : nat) (serve : string -> cJSON) (cursor : string) : option (list cJSON) :=
  match fuel with
  | O => None
  | S fuel =>
      match ty_cJSON_GetObjectItem (serve cursor) "tools", ty_cJSON_GetObjectItem (serve cursor) "nextCursor" with
      | Some (JArray items), Some (JString next) => app items <$> read_listing fuel serve next
      | Some (JArray items), None => Some items
      | _, _ => None
      end
  end.

Lemma read_listing_pages fuel cursor (tools : list (MCP_TOOL_ENTRY_T H)) :
  read_listing fuel (fun c => page_json (page_of c tools)) cursor = map tool_json <$> read_all fuel cursor tools.
Proof.
  revert cursor. induction fuel as [|fuel IH]; intros cursor; cbn [read_listing read_all]; [done|].
  destruct (page_of cursor tools) as [ts [next|]]; [|done].
  change (app (map tool_json ts) <$> read_listing fuel (fun c => page_json (page_of c tools)) next =
          map tool_json <$> (app ts <$> read_all fuel next tools)).
  rewrite IH. destruct (read_all fuel next tools); [|done]. cbn. by rewrite map_app.
Qed.

(** C17. Listing is complete: there is a result for each cursor such that every
    tools/list request is answered with the result for its cursor, no state
    changes, and a client that starts without a cursor and follows the cursors it
    is given gets every registered tool exactly once, in order, and then stops,
    provided that each tool fits a page and has a name. *)
Theorem tools_listed s : roomy (W := W) (H := H) -> MCP_ENABLE_TOOLS = true -> mc_initialized (s_ctx s) = true ->
  tools_ok s -> List.Forall listable (s_tools s) ->
  exists serve : string -> cJSON,
    (forall sid eid msg id, request msg "tools/list" id ->
       evals (mcp_server_handle_message sid eid (Some msg)) s OPRT_OK s
         (answer sid eid (result_json id (serve (cursor_of (ty_cJSON_GetObjectItem msg "params")))))) /\
    read_listing (S (length (s_tools s))) serve "" = Some (map tool_json (s_tools s)).
Proof.
  intros room Htools Hinit Hok Hl. exists (fun c => page_json (page_of c (s_tools s))). split.
  - intros sid eid msg id Hreq w Hw. eapply (routed sid eid msg "tools/list" id mcp_tools_handle_list); [done|done| |by apply runs_handle_list].
    unfold s_routes. by rewrite Htools.
  - rewrite read_listing_pages, read_all_complete by (by destruct Hok). done.
Qed.
End Client.
