(* ===== verification/McpTm.v ===== *)
(** The time-management tools of the MCP server: the handlers of
    src/wukong/mcp/tools/mcp_tool_tm.c. *)
From S2P Require Import Prelude.
From S2P Require Import Calendar.
From S2P Require Import CStr.
From S2P Require Import World.
From S2P Require Import Json.
From S2P Require Import TmHost.
From S2P Require Import TmStore.
From S2P Require Import TmAlarm.
From S2P Require Import TmReminder.
From S2P Require Import TmCountdown.
From S2P Require Import TmStopwatch.
From S2P Require Import TmPomodoro.
From S2P Require Import TmService.
From S2P Require Import McpCore.

#[local] Open Scope string_scope.
#[local] Open Scope Z_scope.

(** ** Constants *)

Definition MCP_TM_FMT_BUF_SIZE : nat := 768.
Definition MCP_ALARM_OP_ADD : Z := 0.
Definition MCP_ALARM_OP_DELETE : Z := 1.
Definition MCP_ALARM_OP_UPDATE : Z := 2.
Definition MCP_ALARM_OP_ACK : Z := 3.
Definition MCP_SCHEDULE_OP_ADD : Z := 0.
Definition MCP_SCHEDULE_OP_DELETE : Z := 1.
Definition MCP_SCHEDULE_OP_UPDATE : Z := 2.
Definition MCP_SCHEDULE_OFFSET_MINUTES_MAX : Z := 525600.
Definition MCP_COUNTDOWN_OP_CREATE : Z := 0.
Definition MCP_COUNTDOWN_OP_PAUSE : Z := 1.
Definition MCP_COUNTDOWN_OP_RESUME : Z := 2.
Definition MCP_COUNTDOWN_OP_DELETE : Z := 3.
Definition MCP_COUNTDOWN_OP_QUERY : Z := 4.
Definition MCP_STOPWATCH_OP_START : Z := 0.
Definition MCP_STOPWATCH_OP_PAUSE : Z := 1.
Definition MCP_STOPWATCH_OP_RESUME : Z := 2.
Definition MCP_STOPWATCH_OP_STOP : Z := 3.
Definition MCP_STOPWATCH_OP_RESET : Z := 4.
Definition MCP_STOPWATCH_OP_QUERY : Z := 5.
Definition MCP_POMODORO_OP_START : Z := 0.
Definition MCP_POMODORO_OP_PAUSE : Z := 1.
Definition MCP_POMODORO_OP_RESUME : Z := 2.
Definition MCP_POMODORO_OP_STOP : Z := 3.
Definition MCP_POMODORO_OP_QUERY : Z := 4.

(** ** Reading arguments *)

Definition __read_int_field (args : option cJSON) (key : string) (default_value : Z) : Z :=
  match field_of args key with Some (JNumber v) => valueint v | _ => default_value end.

Definition __read_string_field (args : option cJSON) (key : string) : option string :=
  match field_of args key with Some (JString s) => Some s | _ => None end.

Definition __has_int_field (args : option cJSON) (key : string) : bool := ty_cJSON_IsNumber (field_of args key).

(** ** Writing results *)

(** A JSON object as the format strings lay it out. *)
Fixpoint members_text (ms : list (string * string)) : string :=
  match ms with
  | [] => ""
  | [(name, value)] => quoted name ++ ":" ++ value
  | (name, value) :: ms => quoted name ++ ":" ++ value ++ "," ++ members_text ms
  end.
Definition object_text (ms : list (string * string)) : string := "{" ++ members_text ms ++ "}".
Definition bool_text (b : bool) : string := if b then "true" else "false".

(** snprintf into a buffer of [size] bytes. *)
Definition snprintf (size : nat) (text : string) : string := strtrunc (size - 1) text.

(** [pos += snprintf(text + pos, size - pos, ..)] for each piece, without a check:
    once [pos] is past the end, the call writes out of bounds. *)
Fixpoint put_pieces (size : nat) (pieces : list string) (text : string) : option string :=
  match pieces with
  | [] => Some (snprintf size text)
  | piece :: pieces => if (size <? strlen text)%nat then None else put_pieces size pieces (text ++ piece)
  end.

Definition countdown_state_code (st : WUKONG_TM_COUNTDOWN_STATE_E) : Z :=
  match st with
  | WUKONG_TM_COUNTDOWN_STATE_IDLE => 0
  | WUKONG_TM_COUNTDOWN_STATE_RUNNING => 1
  | WUKONG_TM_COUNTDOWN_STATE_PAUSED => 2
  end.

(** The members that describe a snapshot. *)
Definition countdown_members (snap : WUKONG_TM_COUNTDOWN_SNAPSHOT_T) : list (string * string) :=
  [("active", bool_text (sn_active snap)); ("state", fmt_d (countdown_state_code (sn_state snap)));
   ("remaining_sec", fmt_u (sn_remaining_sec snap)); ("duration_sec", fmt_u (sn_duration_sec snap));
   ("elapsed_sec", fmt_u (sn_elapsed_sec snap))].

Definition stopwatch_members (st : WUKONG_TM_STOPWATCH_STATE_T) : list (string * string) :=
  [("active", bool_text (st_active st)); ("paused", bool_text (st_paused st)); ("elapsed_sec", fmt_u (st_elapsed_sec st))].

Definition pomodoro_members (st : WUKONG_TM_POMODORO_STATE_T) (elapsed : list (string * string)) : list (string * string) :=
  ([("active", bool_text (ps_active st)); ("paused", bool_text (ps_paused st)); ("session_id", fmt_u (ps_session_id st));
    ("phase", fmt_d (phase_code (ps_phase st))); ("current_cycle", fmt_u (ps_current_cycle st));
    ("completed_work_count", fmt_u (ps_completed_work_count st)); ("phase_start_ts", fmt_u (ps_phase_start_ts st));
    ("phase_end_ts", fmt_u (ps_phase_end_ts st)); ("remaining_sec", fmt_u (ps_remaining_sec st))] ++ elapsed ++
   [("work_duration", fmt_d (work_duration (ps_cfg st))); ("short_break_duration", fmt_d (short_break_duration (ps_cfg st)));
    ("long_break_duration", fmt_d (long_break_duration (ps_cfg st)));
    ("work_sessions_before_long_break", fmt_d (work_sessions_before_long_break (ps_cfg st)))])%list.

Definition reason_text (reason : string) : string := object_text [("success", "false"); ("reason", quoted reason)].

(** ** Local time *)

Section LocalTime.
Context `{TS : TimeService}.

(** INT_T arithmetic, which the years and months in use do not overflow. *)
Definition __schedule_days_from_civil (year month day : Z) : TIME_T :=
  let year := year - (if month <=? 2 then 1 else 0) in
  let era := if 0 <=? year then Z.quot year 400 else Z.quot (year - 399) 400 in
  let yoe := u32 (year - era * 400) in
  let doy := u32 (Z.quot (153 * (month + (if 2 <? month then -3 else 9)) + 2) 5 + day - 1) in
  let doe := u32 (yoe * 365 + yoe / 4 - yoe / 100 + doy) in
  u32 (era * 146097 + i32 doe - 719468).

Definition __schedule_local_tm_equals (lhs rhs : POSIX_TM_S) : bool :=
  (tm_year lhs =? tm_year rhs) && (tm_mon lhs =? tm_mon rhs) && (tm_mday lhs =? tm_mday rhs) &&
  (tm_hour lhs =? tm_hour rhs) && (tm_min lhs =? tm_min rhs) && (tm_sec lhs =? tm_sec rhs).

Definition __schedule_tm_to_plain_epoch (tm_info : POSIX_TM_S) : TIME_T :=
  let days := __schedule_days_from_civil (tm_year tm_info + 1900) (tm_mon tm_info + 1) (tm_mday tm_info) in
  u32 (days * 24 * 60 * 60 + u32 (tm_hour tm_info) * 60 * 60 + u32 (tm_min tm_info) * 60 + u32 (tm_sec tm_info)).

(** Result: return code and [start_ts] ([None]: left alone). *)
Definition __schedule_local_tm_to_timestamp (local_tm : POSIX_TM_S) : OPERATE_RET * option TIME_T :=
  let candidate_ts := tal_time_mktime local_tm in
  let '(rt, actual_tm) := tal_time_get_local_time_custom candidate_ts in
  if negb (rt =? OPRT_OK) then (rt, None)
  else if __schedule_local_tm_equals local_tm actual_tm then (OPRT_OK, Some candidate_ts)
  else
    let adjust_sec := u32 (__schedule_tm_to_plain_epoch local_tm - __schedule_tm_to_plain_epoch actual_tm) in
    let candidate_ts := u32 (candidate_ts + adjust_sec) in
    let '(rt, actual_tm) := tal_time_get_local_time_custom candidate_ts in
    if negb (rt =? OPRT_OK) then (rt, None)
    else if negb (__schedule_local_tm_equals local_tm actual_tm) then (OPRT_INVALID_PARM, None)
    else (OPRT_OK, Some candidate_ts).

(** Whether the field is there, and the new value of the member; the prefix is
    empty in every call. *)
Definition __schedule_read_tm_field (args : option cJSON) (field : string) (tm_val offset : Z) (has_base : bool) : bool * Z :=
  let key := snprintf 32 field in
  let present := __has_int_field args key in
  let value := __read_int_field args key (tm_val + offset) in
  (present, if present || has_base then value - offset else tm_val).

(** The five members, read one after the other into [tm]; the seconds are 0. *)
Definition read_local_tm (args : option cJSON) (tm : POSIX_TM_S) (has_base : bool) : list bool * POSIX_TM_S :=
  let '(has_year, year) := __schedule_read_tm_field args "year" (tm_year tm) 1900 has_base in
  let '(has_month, mon) := __schedule_read_tm_field args "month" (tm_mon tm) 1 has_base in
  let '(has_day, mday) := __schedule_read_tm_field args "day" (tm_mday tm) 0 has_base in
  let '(has_hour, hour) := __schedule_read_tm_field args "hour" (tm_hour tm) 0 has_base in
  let '(has_minute, min) := __schedule_read_tm_field args "minute" (tm_min tm) 0 has_base in
  ([has_year; has_month; has_day; has_hour; has_minute], mk_tm 0 min hour mday mon year (tm_wday tm)).

Definition __schedule_parse_local_time (args : option cJSON) : OPERATE_RET * option TIME_T :=
  let '(has, local_tm) := read_local_tm args tm_zero false in
  if negb (forallb id has) then (OPRT_INVALID_PARM, None) else __schedule_local_tm_to_timestamp local_tm.
End LocalTime.

(** ** Alarm configurations *)

Section AlarmCfg.
Implicit Types c : WUKONG_TM_ALARM_CFG_T.

Definition merge_field (keep_missing : bool) (args : option cJSON) (key : string) (current : Z) : option Z :=
  if negb keep_missing || __has_int_field args key then Some (__read_int_field args key current) else None.

Definition ac_with (enabled : bool) (repeat_type hour minute weekday_mask month_day : Z) (message : string) c :=
  mk_acfg enabled repeat_type hour minute weekday_mask month_day (ac_start_time c) message (ac_cron_job_id c).

(** The result code is always OPRT_OK: nothing is NULL. *)
Definition __alarm_cfg_from_args (args : option cJSON) (fallback : option WUKONG_TM_ALARM_CFG_T) : WUKONG_TM_ALARM_CFG_T :=
  let c := match fallback with
           | Some c => c
           | None => mk_acfg true WUKONG_TM_ALARM_REPEAT_ONCE 0 0 0 0 0 "" ""
           end in
  let keep_missing := match fallback with Some _ => true | None => false end in
  let uint key current := match merge_field keep_missing args key (i32 current) with Some v => u32 v | None => current end in
  let enabled := match merge_field keep_missing args "enabled" (if ac_enabled c then 1 else 0) with
                 | Some v => negb (v =? 0) | None => ac_enabled c end in
  let repeat_type := match merge_field keep_missing args "repeat_type" (ac_repeat_type c) with
                     | Some v => v | None => ac_repeat_type c end in
  let hour := uint "hour" (ac_hour c) in
  let minute := uint "minute" (ac_minute c) in
  let weekday_mask := uint "weekday_mask" (ac_weekday_mask c) in
  let month_day := uint "month_day" (ac_month_day c) in
  let message := match __read_string_field args "message" with
                 | Some m => strtrunc WUKONG_TM_ALARM_MESSAGE_LEN m
                 | None => ac_message c end in
  let repeat_type := if negb (weekday_mask =? 0) && negb (repeat_type =? WUKONG_TM_ALARM_REPEAT_WEEKLY)
                     then WUKONG_TM_ALARM_REPEAT_WEEKLY else repeat_type in
  let repeat_type := if negb (month_day =? 0) && negb (repeat_type =? WUKONG_TM_ALARM_REPEAT_MONTHLY)
                     then WUKONG_TM_ALARM_REPEAT_MONTHLY else repeat_type in
  ac_with enabled repeat_type hour minute weekday_mask month_day message c.
End AlarmCfg.

(** ** The handlers

    A handler returns its code, the content it set, and the error flag, which
    none of them raises. The name and the user data are not used. *)

Section Handlers.
Context {K W : Type} `{KS : KvStore K} `{TH : TmHost W} `{TS : TimeService} `{JT : JsonText} `{TL : TmLayout}.
Abbreviation M := (C (TM_STATE * (K * W))).

Definition TOOL_RESULT : Type := OPERATE_RET * option cJSON * bool.

#[export] Instance tm_heap : Alloc (TM_STATE * (K * W)) := on_dev th_malloc.

Definition __make_text_result (text : string) : M TOOL_RESULT :=
  let* out_content := json_create (JArray []) in
  match out_content with
  | None => cret (OPRT_MALLOC_FAILED, None, false)
  | Some out_content =>
      let* item := mcp_content_make_text (Some text) in
      cret (OPRT_OK, Some (arr_add_opt out_content item), false)
  end.

Definition __make_bool_result (success : bool) : M TOOL_RESULT := __make_text_result (bool_text success).

(** Through the shared buffer. *)
Definition make_fmt_result (ms : list (string * string)) : M TOOL_RESULT :=
  __make_text_result (snprintf MCP_TM_FMT_BUF_SIZE (object_text ms)).

Definition success_false : list (string * string) := [("success", "false")].
Definition success_true (ms : list (string * string)) : list (string * string) := ("success", "true") :: ms.

(** One member after others, when there is a text for it. *)
Definition more_member (name : string) (v : option string) : list string :=
  match v with
  | Some s => if String.eqb s "" then [] else ["," ++ quoted name ++ ":" ++ quoted s]
  | None => []
  end.

Definition schedule_pieces (success : bool) (start_time : TIME_T) (reminder_id reason : option string) : list string :=
  (("{" ++ quoted "success" ++ ":" ++ bool_text success)%string ::
   more_member "reason" reason ++
   (if (0 <? start_time)%Z then [("," ++ quoted "start_timestamp" ++ ":" ++ fmt_u start_time)%string] else []) ++
   more_member "reminder_id" reminder_id ++ ["}"])%list.

Definition __make_schedule_result (success : bool) (start_time : TIME_T) (reminder_id reason : option string) : M TOOL_RESULT :=
  let* text := cpure (put_pieces 256 (schedule_pieces success start_time reminder_id reason) "") in
  __make_text_result text.

Definition __make_pomodoro_query_result (success : bool) (state : option WUKONG_TM_POMODORO_STATE_T) : M TOOL_RESULT :=
  match success, state with
  | true, Some st =>
      let total_phase_sec := u32 (60 * u32 (
        match ps_phase st with
        | WUKONG_TM_POMODORO_PHASE_SHORT_BREAK => short_break_duration (ps_cfg st)
        | WUKONG_TM_POMODORO_PHASE_LONG_BREAK => long_break_duration (ps_cfg st)
        | WUKONG_TM_POMODORO_PHASE_WORK => work_duration (ps_cfg st)
        end)) in
      let elapsed_sec := u32 (total_phase_sec - ps_remaining_sec st) in
      let elapsed_sec := if elapsed_sec <? 0 then 0 else elapsed_sec in
      make_fmt_result (success_true (pomodoro_members st [("elapsed_sec", fmt_u elapsed_sec)]))
  | _, _ => make_fmt_result success_false
  end.

Definition __make_stopwatch_query_result (success : bool) (state : option WUKONG_TM_STOPWATCH_STATE_T) : M TOOL_RESULT :=
  match success, state with
  | true, Some st => make_fmt_result (success_true (stopwatch_members st))
  | _, _ => make_fmt_result success_false
  end.

Definition __make_stopwatch_elapsed_result (elapsed_sec : TIME_T) : M TOOL_RESULT :=
  make_fmt_result (success_true [("elapsed_sec", fmt_u elapsed_sec)]).

Definition __make_countdown_query_result (success : bool) (snap : option WUKONG_TM_COUNTDOWN_SNAPSHOT_T) : M TOOL_RESULT :=
  match success, snap with
  | true, Some snap => make_fmt_result (success_true (countdown_members snap))
  | _, _ => make_fmt_result success_false
  end.

Definition __make_countdown_times_result (remaining_sec elapsed_sec : TIME_T) : M TOOL_RESULT :=
  make_fmt_result (success_true [("remaining_sec", fmt_u remaining_sec); ("elapsed_sec", fmt_u elapsed_sec)]).

Definition __make_already_exists_result (current_json : string) : M TOOL_RESULT :=
  make_fmt_result [("success", "false"); ("reason", quoted "already_exists"); ("current", current_json)].

Definition inactive_result : M TOOL_RESULT := __make_text_result (object_text (success_true [("active", "false")])).

(** The snapshot a query gave, when it succeeded. *)
Definition queried {A} (r : OPERATE_RET * option A) : option A := if fst r =? OPRT_OK then snd r else None.

(** *** device_countdown_timer_set *)

Definition __set_countdown_timer (args : option cJSON) : M TOOL_RESULT :=
  let operation := __read_int_field args "operation" 0 in
  let hours := __read_int_field args "hour_duration" 0 in
  let minutes := __read_int_field args "minute_duration" 0 in
  let seconds := __read_int_field args "second_duration" 0 in
  let query := countdown (K := K) (wukong_tm_countdown_query true) in
  if operation =? MCP_COUNTDOWN_OP_CREATE then
    let* rt := countdown (wukong_tm_countdown_create hours minutes seconds) in
    if negb (rt =? OPRT_OK) then
      let* q := query in
      match queried q with
      | Some snapshot => __make_already_exists_result (snprintf 384 (object_text (countdown_members snapshot)))
      | None => __make_bool_result false
      end
    else __make_bool_result true
  else if operation =? MCP_COUNTDOWN_OP_PAUSE then
    let* rt := countdown wukong_tm_countdown_pause in
    if negb (rt =? OPRT_OK) then __make_bool_result false
    else
      let* q := query in
      match queried q with
      | Some snapshot => __make_countdown_times_result (sn_remaining_sec snapshot) (sn_elapsed_sec snapshot)
      | None => __make_bool_result false
      end
  else if operation =? MCP_COUNTDOWN_OP_RESUME then
    let* rt := countdown wukong_tm_countdown_resume in __make_bool_result (rt =? OPRT_OK)
  else if operation =? MCP_COUNTDOWN_OP_DELETE then
    let* q := query in
    match queried q with
    | None => __make_bool_result false
    | Some snapshot =>
        let* rt := countdown wukong_tm_countdown_delete in
        if negb (rt =? OPRT_OK) then __make_bool_result false
        else __make_countdown_times_result (sn_remaining_sec snapshot) (sn_elapsed_sec snapshot)
    end
  else if operation =? MCP_COUNTDOWN_OP_QUERY then
    let* (rt, snapshot) := query in
    if rt =? OPRT_NOT_FOUND then inactive_result else __make_countdown_query_result (rt =? OPRT_OK) snapshot
  else __make_bool_result false.

(** *** device_stopwatch_timer_set *)

Definition __set_stopwatch_timer (args : option cJSON) : M TOOL_RESULT :=
  let operation := __read_int_field args "operation" 0 in
  let query := stopwatch (K := K) (wukong_tm_stopwatch_query true) in
  (* stop and reset: the time is read before *)
  let ending (op : M OPERATE_RET) :=
    let* q := query in
    match queried q with
    | None => __make_bool_result false
    | Some state =>
        let* rt := op in
        if negb (rt =? OPRT_OK) then __make_bool_result false else __make_stopwatch_elapsed_result (st_elapsed_sec state)
    end in
  if operation =? MCP_STOPWATCH_OP_START then
    let* rt := stopwatch wukong_tm_stopwatch_start in
    if negb (rt =? OPRT_OK) then
      let* q := query in
      match queried q with
      | Some state => __make_already_exists_result (snprintf 128 (object_text (stopwatch_members state)))
      | None => __make_bool_result false
      end
    else __make_bool_result true
  else if operation =? MCP_STOPWATCH_OP_PAUSE then
    let* rt := stopwatch wukong_tm_stopwatch_pause in
    if negb (rt =? OPRT_OK) then __make_bool_result false
    else
      let* q := query in
      match queried q with
      | Some state => __make_stopwatch_elapsed_result (st_elapsed_sec state)
      | None => __make_bool_result false
      end
  else if operation =? MCP_STOPWATCH_OP_RESUME then
    let* rt := stopwatch wukong_tm_stopwatch_resume in __make_bool_result (rt =? OPRT_OK)
  else if operation =? MCP_STOPWATCH_OP_STOP then ending (stopwatch wukong_tm_stopwatch_stop)
  else if operation =? MCP_STOPWATCH_OP_RESET then ending (stopwatch wukong_tm_stopwatch_reset)
  else if operation =? MCP_STOPWATCH_OP_QUERY then
    let* (rt, state) := query in
    if rt =? OPRT_NOT_FOUND then inactive_result else __make_stopwatch_query_result (rt =? OPRT_OK) state
  else __make_bool_result false.

(** *** device_pomodoro_timer_set *)

Definition __set_pomodoro_timer (args : option cJSON) : M TOOL_RESULT :=
  let operation := __read_int_field args "operation" 0 in
  let cfg := mk_pomo_cfg (__read_int_field args "work_duration" 25) (__read_int_field args "short_break_duration" 5)
               (__read_int_field args "long_break_duration" 15) (__read_int_field args "work_sessions_before_long_break" 4) in
  let query := pomodoro (K := K) (wukong_tm_pomodoro_query true) in
  let done (op : M OPERATE_RET) := let* rt := op in __make_bool_result (rt =? OPRT_OK) in
  if operation =? MCP_POMODORO_OP_START then
    let* rt := pomodoro (wukong_tm_pomodoro_start (Some cfg)) in
    if negb (rt =? OPRT_OK) then
      let* q := query in
      match queried q with
      | Some state => __make_already_exists_result (snprintf 512 (object_text (pomodoro_members state [])))
      | None => __make_bool_result false
      end
    else __make_bool_result true
  else if operation =? MCP_POMODORO_OP_PAUSE then done (pomodoro wukong_tm_pomodoro_pause)
  else if operation =? MCP_POMODORO_OP_RESUME then done (pomodoro wukong_tm_pomodoro_resume)
  else if operation =? MCP_POMODORO_OP_STOP then done (pomodoro wukong_tm_pomodoro_stop)
  else if operation =? MCP_POMODORO_OP_QUERY then
    let* (rt, state) := query in
    if rt =? OPRT_NOT_FOUND then inactive_result else __make_pomodoro_query_result (rt =? OPRT_OK) state
  else __make_bool_result false.

(** *** device_schedule_set *)

Definition __schedule_resolve_add_start_time (args : option cJSON) : M (OPERATE_RET * option TIME_T) :=
  if __has_int_field args "offset_minutes" then
    let offset_minutes := __read_int_field args "offset_minutes" 0 in
    if (offset_minutes <? 1) || (MCP_SCHEDULE_OFFSET_MINUTES_MAX <? offset_minutes) then cret (OPRT_INVALID_PARM, None)
    else
      let* now := on_dev th_posix in
      cret (OPRT_OK, Some (u32 (now + u32 (offset_minutes * 60))))
  else cret (__schedule_parse_local_time args).

(** Adding: the result so far, or the code of wukong_tm_reminder_add and the
    instant. *)
Definition schedule_add (args : option cJSON) (id : string) : M (TOOL_RESULT + OPERATE_RET * TIME_T) :=
  let fail start_ts reason := let* r := __make_schedule_result false start_ts None (Some reason) in cret (inl r) in
  let* (rt, start_ts) := __schedule_resolve_add_start_time args in
  let start_ts := default 0 start_ts in
  let message := __read_string_field args "message" in
  if negb (rt =? OPRT_OK) then
    if __has_int_field args "offset_minutes" then fail 0 "invalid_offset" else fail start_ts "invalid_params"
  else
    match message with
    | None | Some "" => fail start_ts "invalid_params"
    | Some message =>
        let* now := on_dev th_posix in
        if start_ts <=? now then fail start_ts "time_in_the_past"
        else
          let cfg := mk_rcfg true start_ts (strtrunc WUKONG_TM_REMINDER_MESSAGE_LEN message) "" in
          let* rt := reminder (wukong_tm_reminder_add cfg id) in
          cret (inr (rt, start_ts))
    end.

Definition schedule_update (args : option cJSON) (id : string) : M (TOOL_RESULT + OPERATE_RET * TIME_T) :=
  let* got := reminder (wukong_tm_reminder_get id) in
  match queried got with
  | None => let* r := __make_text_result (reason_text "not_found") in cret (inl r)
  | Some existing =>
      let '(rt, local_tm) := tal_time_get_local_time_custom (rc_start_time existing) in
      if negb (rt =? OPRT_OK) then let* r := __make_schedule_result false 0 None None in cret (inl r)
      else
        let '(has, local_tm) := read_local_tm args local_tm true in
        let moved := if existsb Datatypes.id has then __schedule_local_tm_to_timestamp local_tm
                     else (OPRT_OK, Some (rc_start_time existing)) in
        if negb (fst moved =? OPRT_OK) then let* r := __make_schedule_result false 0 None (Some "invalid_time") in cret (inl r)
        else
          let start_ts := default 0 (snd moved) in
          let message := match __read_string_field args "message" with
                         | None | Some "" => rc_message existing
                         | Some m => strtrunc WUKONG_TM_REMINDER_MESSAGE_LEN m
                         end in
          let* rt := reminder (wukong_tm_reminder_update id (mk_rcfg true start_ts message (rc_cron_job_id existing))) in
          cret (inr (rt, start_ts))
  end.

Definition __set_schedule (args : option cJSON) : M TOOL_RESULT :=
  let operation := __read_int_field args "operation" MCP_SCHEDULE_OP_ADD in
  match __read_string_field args "id" with
  | None | Some "" => __make_text_result (reason_text "missing_id")
  | Some id =>
      let* outcome :=
        if operation =? MCP_SCHEDULE_OP_ADD then schedule_add args id
        else if operation =? MCP_SCHEDULE_OP_DELETE then
          let* rt := reminder (wukong_tm_reminder_remove id) in cret (inr (rt, 0))
        else if operation =? MCP_SCHEDULE_OP_UPDATE then schedule_update args id
        else cret (inr (OPRT_INVALID_PARM, 0)) in
      match outcome with
      | inl result => cret result
      | inr (rt, start_ts) =>
          __make_schedule_result (rt =? OPRT_OK) start_ts
            (if (operation =? MCP_SCHEDULE_OP_ADD) || (operation =? MCP_SCHEDULE_OP_UPDATE) then Some id else None) None
      end
  end.

(** *** device_schedule_query *)

Definition __set_schedule_query (args : option cJSON) : M TOOL_RESULT :=
  let start_ts := u32 (__read_int_field args "start_timestamp" 0) in
  let end_ts := u32 (__read_int_field args "end_timestamp" 0) in
  let keyword := __read_string_field args "keyword" in
  let* ret_content := reminder (wukong_tm_reminder_query_text start_ts end_ts keyword) in
  __make_text_result (default "false" ret_content).

(** *** device_alarm_set *)

Definition result_id (reason existing_id : string) : string :=
  object_text [("success", "false"); ("reason", quoted reason); ("existing_id", quoted existing_id)].

Definition alarm_add (args : option cJSON) (alarm_id : string) : M (TOOL_RESULT + OPERATE_RET) :=
  let text t := let* r := __make_text_result t in cret (inl r) in
  let alarm_cfg := __alarm_cfg_from_args args None in
  let timed := if ac_repeat_type alarm_cfg =? WUKONG_TM_ALARM_REPEAT_ONCE then __schedule_parse_local_time args
               else (OPRT_OK, Some (ac_start_time alarm_cfg)) in
  if negb (fst timed =? OPRT_OK) then text (reason_text "invalid_time")
  else
    let alarm_cfg := ac_set_start (ac_hour alarm_cfg) (ac_minute alarm_cfg) (default 0 (snd timed)) alarm_cfg in
    let* probe := alarm (wukong_tm_alarm_get alarm_id) in
    if fst probe =? OPRT_OK then text (snprintf 128 (result_id "id_exists" alarm_id))
    else
      let* (found, existing_id) := alarm (wukong_tm_alarm_find_by_time alarm_cfg (S WUKONG_TM_ALARM_ID_LEN)) in
      if found =? OPRT_OK then text (snprintf 128 (result_id "already_exists" existing_id))
      else let* rt := alarm (wukong_tm_alarm_add alarm_cfg alarm_id) in cret (inr rt).

Definition alarm_update (args : option cJSON) (alarm_id : string) : M (TOOL_RESULT + OPERATE_RET) :=
  let text t := let* r := __make_text_result t in cret (inl r) in
  let* got := alarm (wukong_tm_alarm_get alarm_id) in
  match queried got with
  | None => text (reason_text "not_found")
  | Some existing_cfg =>
      let alarm_cfg := __alarm_cfg_from_args args (Some existing_cfg) in
      let update alarm_cfg := let* rt := alarm (wukong_tm_alarm_update alarm_id alarm_cfg) in cret (inr rt) in
      if ac_repeat_type alarm_cfg =? WUKONG_TM_ALARM_REPEAT_ONCE then
        let* base_ts := if 0 <? ac_start_time existing_cfg then cret (ac_start_time existing_cfg) else on_dev th_posix in
        let '(rt, local_tm) := tal_time_get_local_time_custom base_ts in
        if negb (rt =? OPRT_OK) then text "false"
        else
          let '(has, local_tm) := read_local_tm args local_tm true in
          if existsb Datatypes.id has then
            match __schedule_local_tm_to_timestamp local_tm with
            | (rt, new_ts) =>
                if negb (rt =? OPRT_OK) then text (reason_text "invalid_time")
                else
                  let alarm_cfg := ac_set_start (u32 (tm_hour local_tm)) (u32 (tm_min local_tm)) (default 0 new_ts) alarm_cfg in
                  update (if __has_int_field args "enabled" then alarm_cfg else ac_set_enabled true alarm_cfg)
            end
          else update alarm_cfg
      else update alarm_cfg
  end.

Definition alarm_reason (operation : Z) (rt : OPERATE_RET) : string :=
  if rt =? OPRT_INVALID_PARM then "invalid_params"
  else if rt =? OPRT_NOT_FOUND then "not_found"
  else if rt =? OPRT_COM_ERROR then (if operation =? MCP_ALARM_OP_ADD then "storage_full" else "operation_failed")
  else "internal_error".

Definition mcp_tool_alarm_set_exec (args : option cJSON) : M TOOL_RESULT :=
  let operation := __read_int_field args "operation" MCP_ALARM_OP_ADD in
  match __read_string_field args "id" with
  | None | Some "" => __make_text_result (reason_text "missing_id")
  | Some alarm_id =>
      let* outcome :=
        if operation =? MCP_ALARM_OP_ADD then alarm_add args alarm_id
        else if operation =? MCP_ALARM_OP_DELETE then
          let* rt := alarm (wukong_tm_alarm_remove alarm_id) in cret (inr rt)
        else if operation =? MCP_ALARM_OP_UPDATE then alarm_update args alarm_id
        else if operation =? MCP_ALARM_OP_ACK then
          let* rt := alarm (wukong_tm_alarm_ack alarm_id) in cret (inr rt)
        else cret (inr OPRT_INVALID_PARM) in
      match outcome with
      | inl result => cret result
      | inr rt =>
          if rt =? OPRT_OK then __make_text_result (object_text (success_true []))
          else __make_text_result (snprintf 96 (reason_text (alarm_reason operation rt)))
      end
  end.

(** *** device_alarm_query *)

Definition mcp_tool_alarm_query_exec : M TOOL_RESULT :=
  let* (rt, alarm_list_json) := alarm wukong_tm_alarm_list in
  match rt =? OPRT_OK, alarm_list_json with
  | true, Some alarm_list_json => __make_text_result alarm_list_json
  | _, _ => __make_text_result "false"
  end.

(** *** The handlers as the server calls them *)

Inductive TM_TOOL :=
| TOOL_SET_ALARM | TOOL_QUERY_ALARM | TOOL_SET_COUNTDOWN_TIMER | TOOL_SET_STOPWATCH_TIMER
| TOOL_SET_POMODORO_TIMER | TOOL_SET_SCHEDULE | TOOL_SET_SCHEDULE_QUERY.

Definition tm_tool_run (tool : TM_TOOL) (args : option cJSON) : M TOOL_RESULT :=
  match tool with
  | TOOL_SET_ALARM => mcp_tool_alarm_set_exec args
  | TOOL_QUERY_ALARM => mcp_tool_alarm_query_exec
  | TOOL_SET_COUNTDOWN_TIMER => __set_countdown_timer args
  | TOOL_SET_STOPWATCH_TIMER => __set_stopwatch_timer args
  | TOOL_SET_POMODORO_TIMER => __set_pomodoro_timer args
  | TOOL_SET_SCHEDULE => __set_schedule args
  | TOOL_SET_SCHEDULE_QUERY => __set_schedule_query args
  end.

End Handlers.
