(* ===== verification/McpTmTools.v ===== *)
(** The time-management tools as they are registered (mcp_tool_tm.c), and the
    start of the server with its toolkits (wukong_ai_mcp.c). *)
From S2P Require Import Prelude.
From S2P Require Import CStr.
From S2P Require Import World.
From S2P Require Import Json.
From S2P Require Import TmHost.
From S2P Require Import TmPomodoro.
From S2P Require Import McpCore.
From S2P Require Import McpTools.
From S2P Require Import McpServer.
From S2P Require Import McpRules.
From S2P Require Import McpTyped.
From S2P Require Import McpAnswers.
From S2P Require Import McpService.
From S2P Require Import McpTm.

#[local] Open Scope string_scope.
#[local] Open Scope Z_scope.

(** ** The texts *)

(** Registered by [__register_alarm_tools]. *)
Definition device_alarm_set_description : string :=
  "Manage local alarms (one-time or recurring) that fire an audible RINGTONE. " ++
  "`message` is a stored note only and is NOT spoken; for spoken reminders use `device_schedule_set`." ++ newline ++
  "`repeat_type`: 0=once (default; needs year+month+day+hour+minute; if today's " ++
  "time already passed it rolls to tomorrow), " ++
  "1=daily, 2=weekly (`weekday_mask` bit0=Sun..bit6=Sat; workdays=62, weekend=65), " ++
  "3=monthly (`month_day`). Set >0 ONLY on explicit recurrence ('every day/morning/weekday/month')." ++ newline ++
  "Result is JSON: success=true => {" ++ dq ++ "success" ++ dq ++ ":true}; failure => " ++ "{" ++ dq ++ "success" ++
  dq ++ ":false," ++ dq ++ "reason" ++ dq ++ ":<code>[," ++ dq ++ "existing_id" ++ dq ++ ":<id>]}. " ++
  "`reason` codes: `already_exists` (same time/repeat already scheduled; " ++
  "`existing_id` returned), `id_exists` (the requested `id` is already used; " ++
  "pick a new id or use operation=2 to update), `storage_full` (alarm slots " ++
  "exhausted; ask the user to delete an unwanted alarm first — DO NOT claim " ++
  "the time is taken), `invalid_time`, " ++ "`invalid_params`, `not_found`, `operation_failed`. " ++
  "Update merges only provided fields.".

Definition device_alarm_set_props : list MCP_SCHEMA_PROP_T :=
  [MCP_SCHEMA_INT_RANGE "operation" "Operation (0=add, 1=delete, 2=update, 3=ack ringing alarm)" 0 3;
   MCP_SCHEMA_STR "id" "Alarm identifier (unique on add; required for all operations)";
   MCP_SCHEMA_INT_OPT_RANGE "repeat_type" "Repeat type 0=once|1=daily|2=weekly|3=monthly" 0 3;
   MCP_SCHEMA_INT_OPT_RANGE "year" "Local year" 1970 2099;
   MCP_SCHEMA_INT_OPT_RANGE "month" "Local month" 1 12;
   MCP_SCHEMA_INT_OPT_RANGE "day" "Local day of month" 1 31;
   MCP_SCHEMA_INT_OPT_RANGE "hour" "Local hour" 0 23;
   MCP_SCHEMA_INT_OPT_RANGE "minute" "Local minute" 0 59;
   MCP_SCHEMA_INT_OPT_RANGE "weekday_mask" "Weekly bitmask bit0=Sun..bit6=Sat (workdays=62, weekend=65)" 0 127;
   MCP_SCHEMA_INT_OPT_RANGE "month_day" "Day of month for repeat_type=3" 1 31;
   MCP_SCHEMA_STR_OPT "message" "Text note for query/display; NOT spoken when the alarm fires";
   MCP_SCHEMA_INT_OPT_RANGE "enabled" "Enable=1, disable=0 (kept in list but won't fire)" 0 1].

(** Registered by [__register_alarm_tools]. *)
Definition device_alarm_query_description : string :=
  "Query LOCAL ALARMS only (alarm clock, ringtone-based; one-time and recurring). " ++
  "Every returned entry IS an alarm — the item type is fixed by this tool, " ++
  "regardless of what the per-item `message` field contains. Free-text " ++
  "`message` strings such as 'remind me to drink water', 'remind me ...' or anything " ++
  "containing 'remind/schedule' MUST NOT be reinterpreted as a " ++
  "reminder/schedule item; they are still alarms. " ++ "This tool NEVER returns spoken reminders/schedules; use " ++
  "`device_schedule_query` for those. " ++ "Reply rules: when the user explicitly asks about 'alarm', call " ++
  "ONLY this tool and describe the results using the word 'alarm'; do NOT " ++
  "use 'reminder' or 'schedule' in the spoken reply, even if a `message` contains " ++
  "those words. Only call BOTH this tool and `device_schedule_query` when " ++
  "the user uses an ambiguous term that covers both (e.g. 'what to-dos do I have').".

Definition device_alarm_query_props : list MCP_SCHEMA_PROP_T := [].

(** Registered by [__register_counter_tools]. *)
Definition device_countdown_timer_set_description : string :=
  "Single-instance countdown timer; not modifiable in place. " ++
  "Duplicate create returns {success:false,reason:already_exists,current:...}. " ++
  "Pause/delete return {success:true,remaining_sec,elapsed_sec}; " ++
  "query returns active/state/remaining_sec/duration_sec/elapsed_sec. " ++
  "All duration fields are integers; convert fractional minutes to seconds (e.g. 0.5min -> minute_duration=0, second_duration=30).".

Definition device_countdown_timer_set_props : list MCP_SCHEMA_PROP_T :=
  [MCP_SCHEMA_INT_OPT_RANGE "hour_duration" "Hours (create only)" 0 24;
   MCP_SCHEMA_INT_OPT_RANGE "minute_duration" "Whole minutes (create only)" 0 60;
   MCP_SCHEMA_INT_OPT_RANGE "second_duration" "Seconds (create only)" 0 60;
   MCP_SCHEMA_INT_RANGE "operation" "Operation (0=create, 1=pause, 2=resume, 3=delete, 4=query)" 0 4].

(** Registered by [__register_counter_tools]. *)
Definition device_stopwatch_timer_set_description : string :=
  "Single-instance count-up stopwatch from 0. " ++
  "Duplicate start returns {success:false,reason:already_exists,current:...}. " ++
  "Pause/stop/reset return {success:true,elapsed_sec}; query returns active/paused/elapsed_sec.".

Definition device_stopwatch_timer_set_props : list MCP_SCHEMA_PROP_T :=
  [MCP_SCHEMA_INT_RANGE "operation" "Operation (0=start, 1=pause, 2=resume, 3=stop, 4=reset, 5=query)" 0 5].

(** Registered by [__register_counter_tools]. *)
Definition device_pomodoro_timer_set_description : string :=
  "Pomodoro focus timer (use for 'pomodoro/focus session/concentrate for X minutes'). " ++
  "Single instance; stop before recreating with new durations. " ++
  "Duplicate start returns {success:false,reason:already_exists,current:...}. " ++
  "`remaining_sec`/`elapsed_sec` are seconds — convert to minutes when speaking to user.".

Definition device_pomodoro_timer_set_props : list MCP_SCHEMA_PROP_T :=
  [MCP_SCHEMA_INT_OPT_RANGE "work_duration" "Work minutes (default 25)" 1 120;
   MCP_SCHEMA_INT_OPT_RANGE "short_break_duration" "Short break minutes (default 5)" 1 30;
   MCP_SCHEMA_INT_OPT_RANGE "long_break_duration" "Long break minutes (default 15)" 5 60;
   MCP_SCHEMA_INT_OPT_RANGE "work_sessions_before_long_break" "Work sessions before a long break (default 4)"
     WUKONG_TM_POMODORO_WORK_BEFORE_LONG_MIN WUKONG_TM_POMODORO_WORK_BEFORE_LONG_MAX;
   MCP_SCHEMA_INT_RANGE "operation" "Operation (0=start, 1=pause, 2=resume, 3=stop, 4=query)" 0 4].

(** Registered by [__register_schedule_tools]. *)
Definition device_schedule_set_description : string :=
  "Manage ONE-TIME spoken reminders (device SPEAKS `message` via TTS at fire time)." ++ newline ++
  "Use for 'remind me at <time> to ...'. For ringtone-only alarms use `device_alarm_set`." ++ newline ++
  "Recurring spoken reminders not supported; create the next occurrence and tell user it fires once." ++ newline ++
  "Add requires `message` and EITHER `offset_minutes` OR full local year+month+day+hour+minute. " ++
  "Prefer `offset_minutes` for relative time ('in N minutes/hours'); device clock is authoritative. " ++
  "If both given, `offset_minutes` wins. Resolved time MUST be in the future. " ++
  "If the user specifies a date but no time of day, you MUST ask ONLY for the time before calling this tool; do NOT guess or assume a default time (e.g. do NOT default to 9:00); do NOT ask about id, categories, or other fields." ++
  newline ++ "Update merges only provided fields. " ++ "Returns `success`, `start_timestamp`, `reminder_id`; " ++
  "failure `reason`: `time_in_the_past` | `invalid_offset` | `invalid_params`.".

Definition device_schedule_set_props : list MCP_SCHEMA_PROP_T :=
  [MCP_SCHEMA_INT_RANGE "operation" "Operation (0=add, 1=delete, 2=update)" 0 2;
   MCP_SCHEMA_STR "id" "Reminder identifier; auto-generate if user does not provide one (do not ask the user)";
   MCP_SCHEMA_INT_OPT_RANGE "categories" "Reminder category (0=meeting, 1=work, 2=personal, 3=health, 4=learning, 5=social, 6=other); infer from context, do not ask the user" 0 6;
   MCP_SCHEMA_INT_OPT_RANGE "offset_minutes" "Minutes from device now until the reminder; preferred for relative time on add" 1 MCP_SCHEDULE_OFFSET_MINUTES_MAX;
   MCP_SCHEMA_INT_OPT_RANGE "year" "Reminder local year" 1970 2099;
   MCP_SCHEMA_INT_OPT_RANGE "month" "Reminder local month" 1 12;
   MCP_SCHEMA_INT_OPT_RANGE "day" "Reminder local day of month" 1 31;
   MCP_SCHEMA_INT_OPT_RANGE "hour" "Reminder local hour" 0 23;
   MCP_SCHEMA_INT_OPT_RANGE "minute" "Reminder local minute" 0 59;
   MCP_SCHEMA_STR_OPT "message" "Reminder message text (required on add)"].

(** Registered by [__register_schedule_tools]. *)
Definition device_schedule_query_description : string :=
  "Query one-time spoken reminders (TTS-spoken `message`). " ++
  "Does NOT return ringtone alarms; use `device_alarm_query` for those, " ++
  "and call BOTH when user asks 'what reminders do I have' without specifying type. " ++
  "`start_timestamp`/`end_timestamp` are inclusive UTC Unix-second bounds.".

Definition device_schedule_query_props : list MCP_SCHEMA_PROP_T :=
  [MCP_SCHEMA_INT_OPT_RANGE "query_method" "Query method (0=time range, 1=category, 2=keyword)" 0 2;
   MCP_SCHEMA_INT_OPT_RANGE "start_timestamp" "Inclusive lower bound, UTC Unix seconds" 0 2147483647;
   MCP_SCHEMA_INT_OPT_RANGE "end_timestamp" "Inclusive upper bound, UTC Unix seconds" 0 2147483647;
   MCP_SCHEMA_INT_OPT_RANGE "categories" "Category filter 0-6" 0 6;
   MCP_SCHEMA_STR_OPT "keyword" "Keyword matched against reminder message"].

(** ** Registration

    [handler_of] is the function pointer of a handler among those of the program. *)

Section Register.
Context {W H : Type} `{MH : McpHost W H} (handler_of : TM_TOOL -> H).
Abbreviation M := (C (MCP H * W)).

Definition MCP_TOOL_ADD (name description : string) (tool : TM_TOOL) (ps : list MCP_SCHEMA_PROP_T) : M OPERATE_RET :=
  mcp_server_tool_register (Some name) (Some description) (Some (handler_of tool)) ps.

(** [if (rt != OPRT_OK) return rt;] *)
Definition then_ok (first next : M OPERATE_RET) : M OPERATE_RET :=
  let* rt := first in if negb (rt =? OPRT_OK) then cret rt else next.

Definition __register_alarm_tools : M OPERATE_RET :=
  then_ok (MCP_TOOL_ADD "device_alarm_set" device_alarm_set_description TOOL_SET_ALARM device_alarm_set_props)
    (MCP_TOOL_ADD "device_alarm_query" device_alarm_query_description TOOL_QUERY_ALARM device_alarm_query_props).

Definition __register_counter_tools : M OPERATE_RET :=
  then_ok (MCP_TOOL_ADD "device_countdown_timer_set" device_countdown_timer_set_description TOOL_SET_COUNTDOWN_TIMER
             device_countdown_timer_set_props)
    (then_ok (MCP_TOOL_ADD "device_stopwatch_timer_set" device_stopwatch_timer_set_description TOOL_SET_STOPWATCH_TIMER
                device_stopwatch_timer_set_props)
       (MCP_TOOL_ADD "device_pomodoro_timer_set" device_pomodoro_timer_set_description TOOL_SET_POMODORO_TIMER
          device_pomodoro_timer_set_props)).

Definition __register_schedule_tools : M OPERATE_RET :=
  then_ok (MCP_TOOL_ADD "device_schedule_set" device_schedule_set_description TOOL_SET_SCHEDULE device_schedule_set_props)
    (MCP_TOOL_ADD "device_schedule_query" device_schedule_query_description TOOL_SET_SCHEDULE_QUERY device_schedule_query_props).

Definition mcp_tool_tm_init : M OPERATE_RET :=
  then_ok __register_alarm_tools (then_ok __register_counter_tools (then_ok __register_schedule_tools (cret OPRT_OK))).

(** The entries it makes, the last one first. *)
Definition tm_entries (first : nat) : list (MCP_TOOL_ENTRY_T H) :=
  [mk_tool (6 + first) "device_schedule_query" device_schedule_query_description (schema_of device_schedule_query_props) (handler_of TOOL_SET_SCHEDULE_QUERY);
   mk_tool (5 + first) "device_schedule_set" device_schedule_set_description (schema_of device_schedule_set_props) (handler_of TOOL_SET_SCHEDULE);
   mk_tool (4 + first) "device_pomodoro_timer_set" device_pomodoro_timer_set_description (schema_of device_pomodoro_timer_set_props) (handler_of TOOL_SET_POMODORO_TIMER);
   mk_tool (3 + first) "device_stopwatch_timer_set" device_stopwatch_timer_set_description (schema_of device_stopwatch_timer_set_props) (handler_of TOOL_SET_STOPWATCH_TIMER);
   mk_tool (2 + first) "device_countdown_timer_set" device_countdown_timer_set_description (schema_of device_countdown_timer_set_props) (handler_of TOOL_SET_COUNTDOWN_TIMER);
   mk_tool (1 + first) "device_alarm_query" device_alarm_query_description (schema_of device_alarm_query_props) (handler_of TOOL_QUERY_ALARM);
   mk_tool first "device_alarm_set" device_alarm_set_description (schema_of device_alarm_set_props) (handler_of TOOL_SET_ALARM)].

(** ** Start and stop (wukong_ai_mcp.c)

    The initialisers of the other toolkits are those that the configuration
    compiles in, before and after the time-management tools. *)

Definition wukong_ai_mcp_init (before after : list (M OPERATE_RET)) (ENABLE_TOOLKITS_TM : bool) : M OPERATE_RET :=
  let call_err_log (inits : list (M OPERATE_RET)) := foldr (fun init next => let* _ := init in next) (cret tt) inits in
  let* rt := mcp_server_init (Some "Wukong AI") (Some "3.0") in
  if negb (rt =? OPRT_OK) then cret rt
  else
    let* _ := call_err_log before in
    let* _ := call_err_log (if ENABLE_TOOLKITS_TM then [mcp_tool_tm_init] else []) in
    let* _ := call_err_log after in
    cret OPRT_OK.

Definition wukong_ai_mcp_deinit `{McpConfig} : M OPERATE_RET := let* _ := mcp_server_destroy in cret OPRT_OK.
End Register.

(** ** What is registered *)

Section Registered.
Context {W H : Type} `{ML : McpHostLaws W H} (handler_of : TM_TOOL -> H) (room : roomy (W := W) (H := H)).
Implicit Types s : MCP H.

(** The entry for a tool under a new name. *)
Definition new_entry name description tool ps s : MCP_TOOL_ENTRY_T H :=
  mk_tool (s_addrs s) name description (schema_of ps) (handler_of tool).
Definition with_tool name description tool ps s : MCP H :=
  set_tools (new_entry name description tool ps s :: s_tools s) (S (s_addrs s)) s.

Lemma tool_add_runs name description tool ps s : existsb (named name) (s_tools s) = false ->
  evals (W := W) (MCP_TOOL_ADD handler_of name description tool ps) s OPRT_OK (with_tool name description tool ps s) [].
Proof.
  intros Hnew. unfold MCP_TOOL_ADD, mcp_server_tool_register. runs_step. rewrite Hnew. runs_step. cbn [negb]. do 2 runs_step.
  eapply runs_quietly; [by apply runs_schema|]. cbv beta iota zeta. do 2 runs_step. apply runs_ret.
Qed.

Lemma then_ok_runs (first next : C (MCP H * W) OPERATE_RET) s1 s2 s3 rt :
  evals first s1 OPRT_OK s2 [] -> evals next s2 rt s3 [] -> evals (then_ok first next) s1 rt s3 [].
Proof. intros Hf Hn. unfold then_ok. eapply runs_quietly; [done|]. exact Hn. Qed.

Lemma tm_tools_run s : Forall (fun e => existsb (named (t_name e)) (s_tools s) = false) (tm_entries handler_of 0) ->
  evals (W := W) (mcp_tool_tm_init handler_of) s OPRT_OK
    (set_tools (tm_entries handler_of (s_addrs s) ++ s_tools s) (7 + s_addrs s) s) [].
Proof.
  unfold tm_entries. rewrite !Forall_cons. cbn [t_name]. intros (H6 & H5 & H4 & H3 & H2 & H1 & H0 & _).
  unfold mcp_tool_tm_init, __register_alarm_tools, __register_counter_tools, __register_schedule_tools.
  repeat first [apply runs_ret|eapply then_ok_runs].
  all: apply tool_add_runs; cbn [existsb with_tool s_tools set_tools new_entry named t_name String.eqb Ascii.eqb Bool.eqb orb]; try done.
Qed.
End Registered.
