(* ===== verification/McpTmTime.v ===== *)
(** The local times that the schedule and alarm tools are given: the day number
    they compute, and the instant they find for a date. *)
From S2P Require Import Prelude.
From S2P Require Import Calendar.
From S2P Require Import CStr.
From S2P Require Import Json.
From S2P Require Import McpCore.
From S2P Require Import McpTm.

#[local] Open Scope string_scope.
#[local] Open Scope Z_scope.

(** ** The plain epoch *)

(** Days of the 400-year cycles that end with a February, against those of the
    calendar's years. *)
Lemma era_days year : 0 <= year ->
  year / 400 * 146097 + (year mod 400 * 365 + year mod 400 / 4 - year mod 400 / 100) = days_before_year (year - 1899) + 693595.
Proof. intros Hy. unfold days_before_year. Z.div_mod_to_equations. lia. Qed.

Lemma month_days year mon : 2 <= mon < 12 ->
  Z.quot (153 * (mon + 1 + -3) + 2) 5 + 59 + (if __is_leap_year year then 1 else 0) = days_before_month year mon.
Proof.
  intros Hm. unfold days_before_month. rewrite (proj2 (Z.leb_le 2 mon)) by lia. cbn [andb].
  generalize (if __is_leap_year year then 1 else 0). intros l.
  assert (H : mon = 2 \/ mon = 3 \/ mon = 4 \/ mon = 5 \/ mon = 6 \/ mon = 7 \/ mon = 8 \/ mon = 9 \/ mon = 10 \/ mon = 11) by lia.
  repeat (destruct H as [H|H]; [by subst|]). by subst.
Qed.

Lemma days_from_civil_spec year mon mday : wf_date year mon mday -> 0 <= year < 1000 ->
  __schedule_days_from_civil (year + 1900) (mon + 1) mday = u32 (day_number year mon mday).
Proof.
  intros [Hm Hd] Hy. pose proof (days_in_month_range year mon Hm). unfold __schedule_days_from_civil.
  set (Y := year + 1900 - (if mon + 1 <=? 2 then 1 else 0)).
  assert (HY : 1899 <= Y < 2900) by (unfold Y; destruct (mon + 1 <=? 2); lia).
  rewrite (proj2 (Z.leb_le 0 Y)) by lia. rewrite Z.quot_div_nonneg by lia.
  set (doy0 := Z.quot (153 * (mon + 1 + (if 2 <? mon + 1 then -3 else 9)) + 2) 5 + mday - 1).
  assert (Hdoy : day_number year mon mday = days_before_year (Y - 1899) + 693595 + doy0 - 719468 /\ 0 <= doy0 < 400).
  { unfold day_number, doy0, Y. destruct (Z.leb_spec (mon + 1) 2).
    - rewrite (proj2 (Z.ltb_ge 2 (mon + 1))) by lia.
      assert (Hcases : mon = 0 \/ mon = 1) by lia. replace (year + 1900 - 1 - 1899) with year by lia.
      
      destruct Hcases as [-> | ->]; [change (days_before_month year 0) with 0|change (days_before_month year 1) with 31]; Z.quot_rem_to_equations; lia.
    - rewrite (proj2 (Z.ltb_lt 2 (mon + 1))) by lia. replace (year + 1900 - 0 - 1899) with (year + 1) by lia.
      rewrite days_before_year_succ, <- (month_days year mon) by lia. 
      change (days_before_month year 12) with (365 + (if __is_leap_year year then 1 else 0)).
      split; [destruct (__is_leap_year year); lia|]. Z.quot_rem_to_equations. lia. }
  destruct Hdoy as [-> Hdoy]. pose proof (era_days Y ltac:(lia)) as Hera.
  assert (Hyoe : u32 (Y - Y / 400 * 400) = Y mod 400).
  { rewrite u32_id; [Z.div_mod_to_equations; lia|]. unfold is_u32. Z.div_mod_to_equations. lia. }
  rewrite Hyoe, (u32_id doy0) by (unfold is_u32; lia).
  set (doe := Y mod 400 * 365 + Y mod 400 / 4 - Y mod 400 / 100 + doy0).
  assert (Hdoe : 0 <= doe < 2 ^ 31) by (unfold doe; pose proof (Z.mod_pos_bound Y 400 ltac:(lia)); Z.div_mod_to_equations; lia).
  rewrite (u32_id doe), i32_id by (unfold is_u32, INT_MIN, INT_MAX; lia). f_equal. unfold doe. lia.
Qed.

Lemma u32_scale a b c : u32 (u32 a * b + c) = u32 (a * b + c).
Proof. unfold u32. by rewrite <- Zplus_mod_idemp_l, Zmult_mod_idemp_l, Zplus_mod_idemp_l. Qed.

Lemma plain_epoch_spec tm : wf_tm tm -> 0 <= tm_year tm < 1000 -> __schedule_tm_to_plain_epoch tm = u32 (tm_secs tm).
Proof.
  intros [Hs Hmi Hh Hd] Hy. unfold __schedule_tm_to_plain_epoch, tm_secs, tm_days. rewrite days_from_civil_spec by done.
  rewrite !(u32_id (tm_hour tm)), !(u32_id (tm_min tm)), (u32_id (tm_sec tm)) by (unfold is_u32; lia).
  set (d := day_number _ _ _). rewrite <- (Z.add_assoc (u32 d * 24 * 60 * 60)), <- (Z.add_assoc (u32 d * 24 * 60 * 60)), <- !Z.mul_assoc.
  rewrite u32_scale. f_equal. lia.
Qed.

(** ** The instant of a local time *)

Section Instant.
Context `{TS : TimeService}.

(** What the arguments ask for: the five numbers. *)
Definition int_arg (args : option cJSON) (key : string) : option Z :=
  match field_of args key with Some (JNumber v) => Some (valueint v) | _ => None end.

Definition requested_tm (args : option cJSON) : option POSIX_TM_S :=
  match int_arg args "year", int_arg args "month", int_arg args "day", int_arg args "hour", int_arg args "minute" with
  | Some year, Some month, Some day, Some hour, Some minute => Some (mk_tm 0 minute hour day (month - 1) (year - 1900) 0)
  | _, _, _, _, _ => None
  end.

Lemma read_field args field v offset : (strlen field <= 31)%nat ->
  __schedule_read_tm_field args field v offset false =
  match int_arg args field with Some n => (true, n - offset) | None => (false, v) end.
Proof.
  intros Hf. unfold __schedule_read_tm_field, __has_int_field, __read_int_field, int_arg, snprintf. rewrite strtrunc_id by done.
  by destruct (field_of args field) as [[]|].
Qed.

Lemma parse_requested args : __schedule_parse_local_time args =
  match requested_tm args with Some tm => __schedule_local_tm_to_timestamp tm | None => (OPRT_INVALID_PARM, None) end.
Proof.
  unfold __schedule_parse_local_time, read_local_tm, requested_tm. rewrite !read_field by (vm_compute; lia).
  destruct (int_arg args "year"), (int_arg args "month"), (int_arg args "day"), (int_arg args "hour"), (int_arg args "minute"); try done.
  by rewrite !Z.sub_0_r.
Qed.

Context `{FZ : !FixedZone off mkoff}.

Lemma local_equals_spec a b : __schedule_local_tm_equals a b = __tm_equals a b.
Proof. done. Qed.

(** Local time at an instant the zone covers. *)
Lemma local_at ts : 86400 <= ts < 2 ^ 32 - 86400 ->
  exists tm, tal_time_get_local_time_custom ts = (OPRT_OK, tm) /\ wf_tm tm /\ tm_secs tm = ts + off.
Proof. intros Hts. destruct (fz_local ts Hts) as (tm & ? & ? & ? & _). by exists tm. Qed.

Lemma year_bounds tm : wf_tm tm -> 0 <= tm_secs tm < 2 ^ 32 -> 0 <= tm_year tm < 1000.
Proof.
  intros Hwf Hs. destruct (wf_tm_digits tm Hwf) as (Hd & _). destruct Hwf as [_ _ _ Hwf]. unfold tm_days in Hd.
  assert (Hlo : day_number 70 0 1 <= day_number (tm_year tm) (tm_mon tm) (tm_mday tm)).
  { rewrite Hd. change (day_number 70 0 1) with 0. apply Z.div_pos; lia. }
  assert (Hhi : day_number (tm_year tm) (tm_mon tm) (tm_mday tm) <= day_number 300 0 1).
  { rewrite Hd. change (day_number 300 0 1) with 84006. Z.div_mod_to_equations. lia. }
  apply day_number_le_inv in Hlo; [|by split|done]. apply day_number_le_inv in Hhi; [|done|by split].
  unfold date_lt in *. lia.
Qed.

Lemma zone_off_bounds : -50400 <= off <= 50400.
Proof. destruct fz_quarter as (q & ? & ->). lia. Qed.

(** The conversion finds the instant of a well-formed local time. *)
Lemma timestamp_exact tm : wf_tm tm -> 172800 <= tm_secs tm < 2 ^ 32 - 172800 ->
  __schedule_local_tm_to_timestamp tm = (OPRT_OK, Some (tm_secs tm - off)).
Proof.
  intros Hwf Hs. pose proof zone_off_bounds as Hoff. unfold __schedule_local_tm_to_timestamp. rewrite fz_mktime by done.
  assert (Hmk : -50400 <= mkoff <= 50400) by (destruct fz_mkoff as [-> | ->]; lia).
  rewrite (u32_id (tm_secs tm - mkoff)) by (unfold is_u32; lia).
  destruct (local_at (tm_secs tm - mkoff)) as (tm1 & -> & Hwf1 & Hs1); [lia|]. cbn [negb Z.eqb OPRT_OK]. change (0 =? 0) with true. cbn [negb].
  rewrite local_equals_spec. destruct (__tm_equals tm tm1) eqn:He.
  - apply tm_equals_secs in He; [|done|done]. do 2 f_equal. lia.
  - rewrite !plain_epoch_spec, u32_sub by (first [done|apply year_bounds; [done|lia]]).
    assert (Hmove : u32 (tm_secs tm - mkoff + u32 (tm_secs tm - tm_secs tm1)) = tm_secs tm - off).
    { rewrite <- (u32_id (tm_secs tm - off)) by (unfold is_u32; lia). unfold u32. rewrite Zplus_mod_idemp_r. f_equal. lia. }
    rewrite Hmove. destruct (local_at (tm_secs tm - off)) as (tm2 & -> & Hwf2 & Hs2); [lia|]. change (0 =? 0) with true. cbn [negb].
    rewrite local_equals_spec, (proj2 (tm_equals_secs tm tm2 Hwf Hwf2)); [done|lia].
Qed.

(** Whatever it finds has that local time. *)
Lemma timestamp_sound tm ts : __schedule_local_tm_to_timestamp tm = (OPRT_OK, Some ts) ->
  exists tm', tal_time_get_local_time_custom ts = (OPRT_OK, tm') /\ __tm_equals tm tm' = true.
Proof.
  unfold __schedule_local_tm_to_timestamp. destruct (tal_time_get_local_time_custom (tal_time_mktime tm)) as [rt tm1] eqn:H1.
  destruct (Z.eqb_spec rt OPRT_OK) as [->|]; cbn [negb]; [|done]. rewrite local_equals_spec. destruct (__tm_equals tm tm1) eqn:He.
  { intros [= <-]. by exists tm1. }
  set (ts2 := u32 _). destruct (tal_time_get_local_time_custom ts2) as [rt tm2] eqn:H2.
  destruct (Z.eqb_spec rt OPRT_OK) as [->|]; cbn [negb]; [|done]. rewrite local_equals_spec. destruct (__tm_equals tm tm2) eqn:He2; [|done].
  intros [= <-]. by exists tm2.
Qed.

(** C28. The tools take a date for what it is: when the arguments give the five
    numbers of a local time, the instant is the one at which the device's clock
    shows it, whichever way the platform's mktime reads its argument; no date that
    the calendar lacks is accepted; and without all five numbers the request is
    refused. *)
Theorem schedule_time_exact args :
  match requested_tm args with
  | None => __schedule_parse_local_time args = (OPRT_INVALID_PARM, None)
  | Some tm =>
      (wf_tm tm -> 172800 <= tm_secs tm < 2 ^ 32 - 172800 -> __schedule_parse_local_time args = (OPRT_OK, Some (tm_secs tm - off))) /\
      (forall ts, 86400 <= ts < 2 ^ 32 - 86400 -> __schedule_parse_local_time args = (OPRT_OK, Some ts) ->
         wf_tm tm /\ tm_secs tm = ts + off)
  end.
Proof.
  rewrite parse_requested. destruct (requested_tm args) as [tm|]; [|done]. split; [apply timestamp_exact|]. intros ts Hts Hp.
  destruct (timestamp_sound tm ts Hp) as (tm' & Hl & He). destruct (local_at ts Hts) as (tm2 & Hl2 & Hwf2 & Hs2).
  rewrite Hl in Hl2. injection Hl2 as <-. apply tm_equals_spec in He as (E1 & E2 & E3 & E4 & E5 & E6).
  split; [destruct Hwf2; split; rewrite ?E1, ?E2, ?E3, ?E4, ?E5, ?E6; done|].
  rewrite <- Hs2. unfold tm_secs, tm_days. by rewrite E1, E2, E3, E4, E5, E6.
Qed.
End Instant.
