(* ===== verification/McpTimers.v ===== *)
(** The replies of two tools: when the text of the schedule tool fits its buffer,
    and what the stopwatch tool replies. *)
From S2P Require Import Prelude.
From S2P Require Import Calendar.
From S2P Require Import CStr.
From S2P Require Import World.
From S2P Require Import Json.
From S2P Require Import TmHost.
From S2P Require Import TmStore.
From S2P Require Import TmReminder.
From S2P Require Import TmStopwatch.
From S2P Require Import TmCountdown.
From S2P Require Import TmCountdownCorrect.
From S2P Require Import TmPomodoro.
From S2P Require Import TmPomodoroCorrect.
From S2P Require Import TmService.
From S2P Require Import McpCore.
From S2P Require Import McpTm.

#[local] Open Scope string_scope.
#[local] Open Scope Z_scope.

(** The whole text of several pieces. *)
Definition whole (pieces : list string) : string := foldr append "" pieces.

(** Writing piece after piece is defined when what comes before the last piece
    fits the buffer. *)
Lemma put_pieces_spec size pieces last text : (strlen text <= size)%nat -> strlen last = 1%nat ->
  put_pieces size (pieces ++ [last])%list text =
  if (S size <? strlen (text ++ whole (pieces ++ [last])%list))%nat then None else Some (snprintf size (text ++ whole (pieces ++ [last])%list)).
Proof.
  intros Ht Hlast. revert text Ht. induction pieces as [|p pieces IH]; intros text Ht; cbn [app put_pieces whole foldr].
  - rewrite app_nil_r_str, strlen_app, Hlast, (proj2 (Nat.ltb_ge size (strlen text))) by lia.
    by rewrite (proj2 (Nat.ltb_ge (S size) (strlen text + 1))) by lia.
  - fold (whole (pieces ++ [last])%list). rewrite (proj2 (Nat.ltb_ge size (strlen text))) by lia. rewrite app_assoc_str.
    destruct (Nat.leb_spec (strlen (text ++ p)) size) as [Hp|Hp]; [by apply IH|].
    assert (Hlong : forall l, (strlen last <= strlen (whole (l ++ [last])%list))%nat).
    { intros l. induction l as [|x l IHl]; cbn [app whole foldr]; rewrite strlen_app; [lia|]. fold (whole (l ++ [last])%list). lia. }
    specialize (Hlong pieces). rewrite (strlen_app (text ++ p)), (proj2 (Nat.ltb_lt (S size) _)) by lia.
    assert (Hover : forall l, put_pieces size (l ++ [last])%list (text ++ p) = None).
    { intros l. destruct l; cbn [app put_pieces]; by rewrite (proj2 (Nat.ltb_lt size _)) by lia. }
    apply Hover.
Qed.

Lemma pieces_last success start_time reminder_id reason :
  exists pieces, schedule_pieces success start_time reminder_id reason = (pieces ++ ["}"])%list /\
    whole (schedule_pieces success start_time reminder_id reason) = whole (pieces ++ ["}"])%list.
Proof. eexists. split; [|f_equal]; unfold schedule_pieces; rewrite !app_comm_cons, !app_assoc; done. Qed.

Section Reply.
Context {K W : Type} `{KS : KvStore K} `{TH : TmHost W} `{TS : TimeService} `{JT : JsonText} `{TL : TmLayout}.

(** C39. The schedule tool's reply and its 256 bytes: the call is defined exactly
    when the whole text has at most 257 characters, and then it replies with the
    first 255 of them; in particular with the whole text when the reminder's
    identifier and the reason have at most 180 characters together. The
    identifier is the caller's, and nothing bounds it. *)
Theorem schedule_reply_bounds success start_time reminder_id reason (s : TM_STATE * (K * W)) :
  let text := whole (schedule_pieces success start_time reminder_id reason) in
  __make_schedule_result success start_time reminder_id reason s =
    (if (257 <? strlen text)%nat then None else __make_text_result (strtrunc 255 text) s) /\
  ((strlen (default "" reminder_id) + strlen (default "" reason) <= 180)%nat -> (strlen text <= 255)%nat).
Proof.
  cbv zeta. split.
  - unfold __make_schedule_result. destruct (pieces_last success start_time reminder_id reason) as (pieces & He & _). rewrite He.
    rewrite put_pieces_spec by (cbn; lia). cbn [append]. change ("" ++ whole (pieces ++ ["}"])%list) with (whole (pieces ++ ["}"])%list).
    by destruct (_ <? _)%nat.
  - intros Hl. unfold schedule_pieces, more_member, whole. pose proof (fmt_u_length start_time) as Hu.
    assert (Hs : (strlen (bool_text success) <= 5)%nat) by (destruct success; cbn; lia).
    destruct reason as [reason|], reminder_id as [id|]; cbn [from_option Datatypes.id] in Hl;
      repeat match goal with |- context [if ?b then _ else _] => destruct b end;
      cbn [app foldr]; unfold quoted, dq; rewrite !strlen_app; strlen_closed; change (strlen "") with 0%nat in *; lia.
Qed.
End Reply.

(** ** The stopwatch tool's specification *)

Definition sw_snapshot (m : marks) (t : TIME_T) : WUKONG_TM_STOPWATCH_STATE_T :=
  mk_sw_state true (negb (runs m)) (u32 (running_time m t)).

Definition elapsed_text (m : marks) (t : TIME_T) : string :=
  object_text [("success", "true"); ("elapsed_sec", fmt_u (u32 (running_time m t)))].

(** The session after an operation at [t], and the reply. *)
Definition sw_tool_spec (operation : Z) (m : marks) (t : TIME_T) : marks * string :=
  match operation, m with
  | 0, [] => ([t], "true")
  | 0, _ => (m, object_text [("success", "false"); ("reason", quoted "already_exists");
                             ("current", object_text (stopwatch_members (sw_snapshot m t)))])
  | 1, _ => if runs m then ((m ++ [t])%list, elapsed_text m t) else (m, "false")
  | 2, [] => ([], "false")
  | 2, _ => if runs m then (m, "false") else ((m ++ [t])%list, "true")
  | 3, [] | 4, [] => ([], "false")
  | 3, _ | 4, _ => ([], elapsed_text m t)
  | 5, [] => ([], object_text [("success", "true"); ("active", "false")])
  | 5, _ => (m, object_text (("success", "true") :: stopwatch_members (sw_snapshot m t)))
  | _, _ => (m, "false")
  end.

(** What a handler returns for a text. *)
Definition text_reply (text : string) : TOOL_RESULT :=
  (OPRT_OK, Some (JArray [JObject [("type", JString "text"); ("text", JString text)]]), false).

(** ** Lengths *)

Lemma bool_text_length b : (strlen (bool_text b) <= 5)%nat.
Proof. destruct b; cbn; lia. Qed.

Lemma stopwatch_members_length st : (strlen (object_text (stopwatch_members st)) <= 100)%nat.
Proof.
  unfold object_text, stopwatch_members. cbn [members_text]. unfold quoted, dq. rewrite !strlen_app.
  pose proof (bool_text_length (st_active st)). pose proof (bool_text_length (st_paused st)). pose proof (fmt_u_length (st_elapsed_sec st)).
  strlen_closed. lia.
Qed.

Lemma snprintf_fits n text : (strlen text < n)%nat -> snprintf n text = text.
Proof. intros Hn. unfold snprintf. apply strtrunc_id. lia. Qed.

Section Timers.
Context {K W : Type} `{KL : KvStoreLaws K} `{HL : TmHostLaws W} `{TS : TimeService} `{JT : JsonText} `{TL : TmLayout}.
Abbreviation S := (TM_STATE * (K * W))%type.
Implicit Types (t : TM_STATE) (k : K) (w : W).

(** ** Replies, with memory to spare *)

Section Ample.
Hypothesis ample : th_ample (W := W).

Lemma heap_wp (x : TM_STATE) k w (Q : bool -> S -> Prop) :
  th_ok w -> (forall w', th_ok w' -> Q true (x, (k, w'))) -> wp heap_alloc Q (x, (k, w)).
Proof.
  intros Hw HQ. unfold heap_alloc, tm_heap, on_dev. apply wp_host. apply malloc_ample_wp; [done|]. intros [|] w' Hw' _ Ha; [by apply HQ|].
  by destruct (Ha eq_refl).
Qed.

Lemma text_result_wp text t k w (Q : TOOL_RESULT -> S -> Prop) :
  th_ok w -> (forall w', th_ok w' -> Q (text_reply text) (t, (k, w'))) -> wp (__make_text_result text) Q (t, (k, w)).
Proof.
  intros Hw HQ. unfold __make_text_result, mcp_content_make_text, json_create, obj_add. wp_step. wp_step. apply heap_wp; [done|]. intros w1 Hw1.
  do 2 wp_step. wp_step. wp_step. apply heap_wp; [done|]. intros w2 Hw2. wp_step. do 2 wp_step. apply heap_wp; [done|]. intros w3 Hw3.
  wp_step. do 2 wp_step. apply heap_wp; [done|]. intros w4 Hw4. do 3 wp_step. by apply HQ.
Qed.

(** A stopwatch operation that gives no snapshot. *)
Lemma stopwatch_wp op c t k w m (Q : OPERATE_RET -> S -> Prop) :
  run_sw op = (let* rt := c in cret (rt, None)) -> th_ok w -> tracks (tms_stopwatch t) m ->
  match sw_spec op m (th_clock w) with
  | inl rt => Q rt (t, (k, w))
  | inr (m', Some _, _) => forall x w', th_ok w' -> tracks x m' -> Q OPRT_OK (tms_set_stopwatch x t, (k, w'))
  | inr (m', None, _) => forall rt x w', th_ok w' -> tracks x m' -> Q rt (tms_set_stopwatch x t, (k, w'))
  end -> wp (stopwatch c) Q (t, (k, w)).
Proof.
  intros Hop Hw Ht HQ. apply feature_wp. pose proof (sw_op_wp op (tms_stopwatch t) m w Hw Ht) as Hwp. rewrite Hop in Hwp.
  unfold wp, cbind, cret in *. destruct (c (tms_stopwatch t, w)) as [[rt [x w']]|]; [|done]. destruct Hwp as [Hw' Hout]. cbn [fst snd] in *.
  destruct (sw_spec op m (th_clock w)) as [rt'|[[m' ev] snap]].
  - destruct Hout as [[= <-] [= -> ->]]. by destruct t.
  - destruct Hout as (_ & Hx & Hev). destruct ev; [|by apply HQ]. destruct Hev as [[-> _]|(_ & _ & Ha)]; [by apply HQ|done].
Qed.

Lemma stopwatch_query_wp t k w m (Q : OPERATE_RET * option WUKONG_TM_STOPWATCH_STATE_T -> S -> Prop) :
  th_ok w -> tracks (tms_stopwatch t) m ->
  (forall x w', th_ok w' -> tracks x m ->
     Q (match m with [] => (OPRT_NOT_FOUND, None) | _ => (OPRT_OK, Some (sw_snapshot m (th_clock w))) end) (tms_set_stopwatch x t, (k, w'))) ->
  wp (stopwatch (K := K) (wukong_tm_stopwatch_query true)) Q (t, (k, w)).
Proof.
  intros Hw Ht HQ. apply feature_wp. eapply wp_mono; [by apply (sw_op_wp (SwQuery true) (tms_stopwatch t) m w)|].
  intros [rt snap] [x w'] [Hw' Hout]. cbn [fst snd] in *. destruct m as [|t0 m]; cbn [sw_spec] in Hout.
  - destruct Hout as [[= -> ->] [= -> ->]]. by apply HQ.
  - destruct Hout as (-> & Hx & -> & _). by apply HQ.
Qed.
Definition sw_tool_outcome (operation : Z) (m : marks) (now : TIME_T) t k (r : TOOL_RESULT) (s' : S) : Prop :=
  let '(m', text) := sw_tool_spec operation m now in
  r = text_reply text /\ exists x w', s' = (tms_set_stopwatch x t, (k, w')) /\ tracks x m' /\ th_ok w'.

Lemma sw_outcome_wp operation m now t k x w text m' : sw_tool_spec operation m now = (m', text) -> th_ok w -> tracks x m' ->
  wp (__make_text_result text) (sw_tool_outcome operation m now t k) (tms_set_stopwatch x t, (k, w)).
Proof.
  intros Hs Hw Hx. apply text_result_wp; [done|]. intros w' Hw'. unfold sw_tool_outcome. rewrite Hs. split; [done|]. by exists x, w'.
Qed.

Lemma sw_same_wp operation m now t k w text : sw_tool_spec operation m now = (m, text) -> th_ok w -> tracks (tms_stopwatch t) m ->
  wp (__make_text_result text) (sw_tool_outcome operation m now t k) (t, (k, w)).
Proof.
  intros Hs Hw Hx. pose proof (sw_outcome_wp operation m now t k _ w text m Hs Hw Hx) as Hwp.
  assert (Ht : tms_set_stopwatch (tms_stopwatch t) t = t) by by destruct t. by rewrite Ht in Hwp.
Qed.

(** The texts fit their buffers. *)
Lemma elapsed_result m now : __make_stopwatch_elapsed_result (K := K) (W := W) (u32 (running_time m now)) = __make_text_result (elapsed_text m now).
Proof.
  unfold __make_stopwatch_elapsed_result, make_fmt_result, success_true, elapsed_text. f_equal. apply snprintf_fits.
  unfold object_text. cbn [members_text]. unfold quoted, dq. rewrite !strlen_app. pose proof (fmt_u_length (u32 (running_time m now))).
  unfold MCP_TM_FMT_BUF_SIZE. strlen_closed. lia.
Qed.

Lemma query_result st : __make_stopwatch_query_result (K := K) (W := W) true (Some st) =
  __make_text_result (object_text (("success", "true") :: stopwatch_members st)).
Proof.
  unfold __make_stopwatch_query_result, make_fmt_result, success_true. f_equal. apply snprintf_fits.
  pose proof (stopwatch_members_length st) as Hl. unfold object_text, stopwatch_members in *. cbn [members_text] in *.
  unfold quoted, dq in *. rewrite !strlen_app in *. unfold MCP_TM_FMT_BUF_SIZE. strlen_closed. lia.
Qed.

Lemma exists_result st : __make_already_exists_result (K := K) (W := W) (snprintf 128 (object_text (stopwatch_members st))) =
  __make_text_result (object_text [("success", "false"); ("reason", quoted "already_exists");
                                   ("current", object_text (stopwatch_members st))]).
Proof.
  pose proof (stopwatch_members_length st) as Hl. rewrite (snprintf_fits 128) by lia.
  unfold __make_already_exists_result, make_fmt_result. f_equal. apply snprintf_fits. unfold object_text at 1. cbn [members_text].
  unfold quoted, dq in *. rewrite !strlen_app. unfold MCP_TM_FMT_BUF_SIZE. strlen_closed. lia.
Qed.

Lemma sw_tool_spec_other operation m now : operation <> 0 -> operation <> 1 -> operation <> 2 -> operation <> 3 ->
  operation <> 4 -> operation <> 5 -> sw_tool_spec operation m now = (m, "false").
Proof. intros. unfold sw_tool_spec. repeat case_match; simplify_eq; done. Qed.

(** Stopping and resetting: the time is read before. *)
Lemma sw_ending_wp operation op c t k w m : (operation = 3 /\ op = SwStop \/ operation = 4 /\ op = SwReset) ->
  run_sw op = (let* rt := c in cret (rt, None)) -> th_ok w -> tracks (tms_stopwatch t) m ->
  wp (let* q := stopwatch (K := K) (wukong_tm_stopwatch_query true) in
      match queried q with
      | None => __make_bool_result false
      | Some state =>
          let* rt := stopwatch c in
          if negb (rt =? OPRT_OK) then __make_bool_result false else __make_stopwatch_elapsed_result (st_elapsed_sec state)
      end) (sw_tool_outcome operation m (th_clock w) t k) (t, (k, w)).
Proof.
  intros Hop Hc Hw Ht. wp_step. apply (stopwatch_query_wp t k w m); [done|done|]. intros x w1 Hw1 Hx. destruct m as [|t0 m]; unfold queried; cbn [fst snd].
  { change (wp (__make_text_result "false") (sw_tool_outcome operation [] (th_clock w) t k) (tms_set_stopwatch x t, (k, w1))).
    eapply sw_outcome_wp; [by destruct Hop as [[-> _]|[-> _]]|done|done]. }
  change (OPRT_OK =? OPRT_OK) with true. cbv beta iota. wp_step. eapply (stopwatch_wp op c _ k w1 (t0 :: m)); [done|done|done|].
  assert (Hspec : exists e, sw_spec op (t0 :: m) (th_clock w1) = inr ([], Some e, None)) by (destruct Hop as [[_ ->]|[_ ->]]; by eexists).
  destruct Hspec as [e ->]. intros y w2 Hw2 Hy. change (OPRT_OK =? OPRT_OK) with true. cbn [negb st_elapsed_sec sw_snapshot].
  rewrite elapsed_result. change (tms_set_stopwatch y (tms_set_stopwatch x t)) with (tms_set_stopwatch y t).
  eapply sw_outcome_wp; [by destruct Hop as [[-> _]|[-> _]]|done|done].
Qed.
Lemma bool_result (b : bool) : __make_bool_result (K := K) (W := W) b = __make_text_result (bool_text b).
Proof. done. Qed.

Lemma sw_start_tool_wp t k w m : th_ok w -> tracks (tms_stopwatch t) m ->
  wp (let* rt := stopwatch wukong_tm_stopwatch_start in
      if negb (rt =? OPRT_OK) then
        let* q := stopwatch (K := K) (wukong_tm_stopwatch_query true) in
        match queried q with
        | Some state => __make_already_exists_result (snprintf 128 (object_text (stopwatch_members state)))
        | None => __make_bool_result false
        end
      else __make_bool_result true) (sw_tool_outcome 0 m (th_clock w) t k) (t, (k, w)).
Proof.
  intros Hw Ht. wp_step. apply (stopwatch_wp SwStart _ t k w m); [done|done|done|]. destruct m as [|t0 m]; cbn [sw_spec].
  - intros x w1 Hw1 Hx. by eapply sw_outcome_wp.
  - change (negb (OPRT_COM_ERROR =? OPRT_OK)) with true. cbv iota. wp_step. apply (stopwatch_query_wp t k w (t0 :: m)); [done|done|].
    intros x w1 Hw1 Hx. unfold queried. cbn [fst snd]. change (OPRT_OK =? OPRT_OK) with true. cbv beta iota. rewrite exists_result.
    by eapply sw_outcome_wp.
Qed.

Lemma sw_pause_tool_wp t k w m : th_ok w -> tracks (tms_stopwatch t) m ->
  wp (let* rt := stopwatch wukong_tm_stopwatch_pause in
      if negb (rt =? OPRT_OK) then __make_bool_result false
      else
        let* q := stopwatch (K := K) (wukong_tm_stopwatch_query true) in
        match queried q with
        | Some state => __make_stopwatch_elapsed_result (st_elapsed_sec state)
        | None => __make_bool_result false
        end) (sw_tool_outcome 1 m (th_clock w) t k) (t, (k, w)).
Proof.
  intros Hw Ht. wp_step. apply (stopwatch_wp SwPause _ t k w m); [done|done|done|]. cbn [sw_spec]. destruct (runs m) eqn:Hr.
  - intros x w1 Hw1 Hx. change (negb (OPRT_OK =? OPRT_OK)) with false. cbv iota. wp_step.
    apply (stopwatch_query_wp _ k w1 (m ++ [th_clock w])%list); [done|done|]. intros y w2 Hw2 Hy.
    destruct (m ++ [th_clock w])%list as [|t1 m1] eqn:Hm; [by destruct m|]. rewrite <- Hm in *. unfold queried. cbn [fst snd].
    change (OPRT_OK =? OPRT_OK) with true. cbv beta iota. cbn [sw_snapshot st_elapsed_sec]. rewrite running_time_app, Hr, elapsed_result.
    change (tms_set_stopwatch y (tms_set_stopwatch x t)) with (tms_set_stopwatch y t). eapply sw_outcome_wp; [|done|exact Hy].
    cbn [sw_tool_spec]. by rewrite Hr.
  - change (negb (OPRT_NOT_SUPPORTED =? OPRT_OK)) with true. cbv iota. eapply sw_same_wp; [|done|done]. cbn [sw_tool_spec]. by rewrite Hr.
Qed.

Lemma sw_resume_tool_wp t k w m : th_ok w -> tracks (tms_stopwatch t) m ->
  wp (let* rt := stopwatch wukong_tm_stopwatch_resume in __make_bool_result (rt =? OPRT_OK))
    (sw_tool_outcome 2 m (th_clock w) t k) (t, (k, w)).
Proof.
  intros Hw Ht. wp_step. apply (stopwatch_wp SwResume _ t k w m); [done|done|done|]. destruct m as [|t0 m].
  - by eapply sw_same_wp.
  - cbn [sw_spec]. destruct (runs (t0 :: m)) eqn:Hr.
    + change (OPRT_NOT_SUPPORTED =? OPRT_OK) with false. eapply sw_same_wp; [|done|done]. unfold sw_tool_spec. by rewrite Hr.
    + intros x w1 Hw1 Hx. change (OPRT_OK =? OPRT_OK) with true. eapply sw_outcome_wp; [|done|exact Hx]. unfold sw_tool_spec. by rewrite Hr.
Qed.

Lemma sw_query_tool_wp t k w m : th_ok w -> tracks (tms_stopwatch t) m ->
  wp (let* (rt, state) := stopwatch (K := K) (wukong_tm_stopwatch_query true) in
      if rt =? OPRT_NOT_FOUND then inactive_result else __make_stopwatch_query_result (rt =? OPRT_OK) state)
    (sw_tool_outcome 5 m (th_clock w) t k) (t, (k, w)).
Proof.
  intros Hw Ht. wp_step. apply (stopwatch_query_wp t k w m); [done|done|]. intros x w1 Hw1 Hx. destruct m as [|t0 m].
  - change (OPRT_NOT_FOUND =? OPRT_NOT_FOUND) with true. cbv beta iota. by eapply sw_outcome_wp.
  - change (OPRT_OK =? OPRT_NOT_FOUND) with false. change (OPRT_OK =? OPRT_OK) with true. cbv beta iota. rewrite query_result.
    by eapply sw_outcome_wp.
Qed.

(** C27. The stopwatch tool does what its description says: for every operation
    number and from every state of the stopwatch, the call runs to its end, the
    session moves as the operation demands, and the reply is the JSON text with
    the outcome, whole: the elapsed time of the session with pauses left out, the
    running session when one exists already, and a refusal where the operation
    does not apply. *)
Theorem stopwatch_tool_replies args t k w m : th_ok w -> tracks (tms_stopwatch t) m ->
  wp (__set_stopwatch_timer args) (sw_tool_outcome (__read_int_field args "operation" 0) m (th_clock w) t k) (t, (k, w)).
Proof.
  intros Hw Ht. unfold __set_stopwatch_timer. cbv zeta. generalize (__read_int_field args "operation" 0). intros operation.
  destruct (Z.eqb_spec operation MCP_STOPWATCH_OP_START) as [->|?]; [by apply sw_start_tool_wp|].
  destruct (Z.eqb_spec operation MCP_STOPWATCH_OP_PAUSE) as [->|?]; [by apply sw_pause_tool_wp|].
  destruct (Z.eqb_spec operation MCP_STOPWATCH_OP_RESUME) as [->|?]; [by apply sw_resume_tool_wp|].
  destruct (Z.eqb_spec operation MCP_STOPWATCH_OP_STOP) as [->|?]; [by apply (sw_ending_wp 3 SwStop); [left|..]|].
  destruct (Z.eqb_spec operation MCP_STOPWATCH_OP_RESET) as [->|?]; [by apply (sw_ending_wp 4 SwReset); [right|..]|].
  destruct (Z.eqb_spec operation MCP_STOPWATCH_OP_QUERY) as [->|?]; [by apply sw_query_tool_wp|].
  eapply sw_same_wp; [by apply sw_tool_spec_other|done|done].
Qed.
End Ample.
End Timers.
