(* ===== verification/McpTimersHost.v ===== *)
(** The MCP server on top of the time-management service: the host that runs the
    timers' tools, and that requests to it are answered with the timers kept well
    formed. *)
From S2P Require Import Prelude.
From S2P Require Import Calendar.
From S2P Require Import CStr.
From S2P Require Import World.
From S2P Require Import Json.
From S2P Require Import TmHost.
From S2P Require Import TmStore.
From S2P Require Import TmCountdown.
From S2P Require Import TmCountdownCorrect.
From S2P Require Import TmStopwatch.
From S2P Require Import TmPomodoro.
From S2P Require Import TmPomodoroCorrect.
From S2P Require Import TmReminder.
From S2P Require Import TmService.
From S2P Require Import McpCore.
From S2P Require Import McpTools.
From S2P Require Import McpServer.
From S2P Require Import McpRules.
From S2P Require Import McpAnswers.
From S2P Require Import McpService.
From S2P Require Import McpTm.

#[local] Open Scope string_scope.
#[local] Open Scope Z_scope.

Create HintDb tm_kept.

(** ** The timers' tools keep the timers well formed *)

Record timers_ok (t : TM_STATE) : Prop := {
  tk_countdown : exists next c, cd_repr (tms_countdown t) next c;
  tk_stopwatch : exists m, tracks (tms_stopwatch t) m;
  tk_pomodoro : exists p, pm_repr (tms_pomodoro t) p }.

Section Kept.
Context {K W : Type} `{KL : KvStoreLaws K} `{HL : TmHostLaws W} `{TS : TimeService} `{JT : JsonText} `{TL : TmLayout}.
Abbreviation S := (TM_STATE * (K * W))%type.

Hypothesis tick_text : forall ts expr h, build_cron_expr ts 32 = (OPRT_OK, expr) -> th_job_text (countdown_job_json expr h).
Hypothesis phase_text : forall ts expr id, build_cron_expr ts 32 = (OPRT_OK, expr) -> th_job_text (pomodoro_job_json expr id).

Definition kept {A} (c : C S A) : Prop := forall t k w, timers_ok t -> th_ok w ->
  wp c (fun _ '(t', (k', w')) => timers_ok t' /\ th_ok w') (t, (k, w)).

Lemma kept_ret {A} (a : A) : kept (cret a).
Proof. intros t k w Ht Hw. by wp_step. Qed.

Lemma kept_bind {A B} (c : C S A) (f : A -> C S B) : kept c -> (forall a, kept (f a)) -> kept (cbind c f).
Proof.
  intros Hc Hf t k w Ht Hw. wp_step. eapply wp_mono; [by apply Hc|]. intros a [t1 [k1 w1]] [? ?]. by apply Hf.
Qed.

Lemma kept_malloc : kept heap_alloc.
Proof.
  intros t k w Ht Hw. unfold heap_alloc, tm_heap, on_dev. apply wp_host. eapply wp_quiet; [apply th_malloc_law|done|]. by intros ok w' Hw' _ _.
Qed.

(** An operation of each timer. *)
Lemma kept_countdown {A} (c : C (WUKONG_TM_COUNTDOWN_CTX_T * W) A) :
  (forall cx w next s, th_ok w -> cd_repr cx next s -> wp c (fun _ '(cx', w') => th_ok w' /\ exists next' s', cd_repr cx' next' s') (cx, w)) ->
  kept (countdown c).
Proof.
  intros Hc t k w [(next & s & Hr) Hs Hp] Hw. apply feature_wp. eapply wp_mono; [by apply (Hc _ w next s)|]. intros a [cx w'] [? ?].
  by split; [split|].
Qed.

Lemma kept_stopwatch {A} (c : C (WUKONG_TM_STOPWATCH_CTX_T * W) A) :
  (forall cx w m, th_ok w -> tracks cx m -> wp c (fun _ '(cx', w') => th_ok w' /\ exists m', tracks cx' m') (cx, w)) -> kept (stopwatch c).
Proof.
  intros Hc t k w [Hd (m & Hs) Hp] Hw. apply feature_wp. eapply wp_mono; [by apply (Hc _ w m)|]. intros a [cx w'] [? ?]. by split; [split|].
Qed.

Lemma kept_pomodoro {A} (c : C (WUKONG_TM_POMODORO_CTX_T * W) A) :
  (forall cx w p, th_ok w -> pm_repr cx p -> wp c (fun _ '(cx', w') => th_ok w' /\ exists p', pm_repr cx' p') (cx, w)) -> kept (pomodoro c).
Proof.
  intros Hc t k w [Hd Hs (p & Hp)] Hw. apply feature_wp. eapply wp_mono; [by apply (Hc _ w p)|]. intros a [cx w'] [? ?]. by split; [split|].
Qed.

Lemma cd_outcome_kept op c : run_cd op = c ->
  (forall cx w next s, th_ok w -> cd_repr cx next s -> wp (run_cd op) (cd_outcome op w next s) (cx, w)) -> kept (countdown c).
Proof.
  intros <- Hop. apply kept_countdown. intros cx w next s Hw Hr. eapply wp_mono; [by apply (Hop cx w next s)|].
  intros rt [cx' w'] (Hw' & next' & s' & _ & _ & Hr' & _). split; [done|]. by exists next', s'.
Qed.

Lemma kept_cd_create h m s : kept (countdown (wukong_tm_countdown_create h m s)).
Proof. apply (cd_outcome_kept (CdCreate h m s)); [done|]. intros. by apply create_wp. Qed.
Lemma kept_cd_pause : kept (countdown wukong_tm_countdown_pause).
Proof. apply (cd_outcome_kept CdPause); [done|]. intros. by apply cd_pause_wp. Qed.
Lemma kept_cd_resume : kept (countdown wukong_tm_countdown_resume).
Proof. apply (cd_outcome_kept CdResume); [done|]. intros. by apply cd_resume_wp. Qed.
Lemma kept_cd_delete : kept (countdown wukong_tm_countdown_delete).
Proof. apply (cd_outcome_kept CdDelete); [done|]. intros. by apply delete_wp. Qed.
Lemma kept_cd_query : kept (countdown (wukong_tm_countdown_query true)).
Proof.
  apply kept_countdown. intros cx w next s Hw Hr. unfold wukong_tm_countdown_query. cbn [negb]. do 2 tm_step.
  destruct (negb _); [wp_step; by split; [|exists next, s]|]. wp_step. eapply remaining_wp; [done|done|]. intros w1 Hw1 _. cbv zeta. wp_step.
  by split; [|exists next, s].
Qed.

Lemma sw_outcome_kept op c : run_sw op = (let* rt := c in cret (rt, None)) -> kept (stopwatch c).
Proof.
  intros Hop. apply kept_stopwatch. intros cx w m Hw Ht. pose proof (sw_op_wp op cx m w Hw Ht) as Hwp. rewrite Hop in Hwp.
  unfold wp, cbind, cret in *. destruct (c (cx, w)) as [[rt [cx' w']]|]; [|done]. destruct Hwp as [Hw' Hout]. split; [done|].
  destruct (sw_spec op m (th_clock w)) as [rt'|[[m' ev] snap]]; [destruct Hout as [_ [= -> _]]; by exists m|].
  destruct Hout as (_ & ? & _). by exists m'.
Qed.
Lemma kept_sw_query : kept (stopwatch (wukong_tm_stopwatch_query true)).
Proof.
  apply kept_stopwatch. intros cx w m Hw Ht. eapply wp_mono; [by apply (sw_op_wp (SwQuery true) cx m w)|].
  intros r [cx' w'] [Hw' Hout]. split; [done|]. destruct m as [|t0 m]; cbn [sw_spec] in Hout; [destruct Hout as [_ [= -> _]]; by exists []|].
  destruct Hout as (_ & ? & _). by exists (t0 :: m).
Qed.

Lemma pm_outcome_kept op c : run_pm op = c ->
  (forall cx w p, th_ok w -> pm_repr cx p -> wp (run_pm op) (pm_outcome op w (pm_next_session_id cx) p) (cx, w)) -> kept (pomodoro c).
Proof.
  intros <- Hop. apply kept_pomodoro. intros cx w p Hw Hr. eapply wp_mono; [by apply (Hop cx w p)|].
  intros rt [cx' w'] (Hw' & p' & _ & _ & Hr' & _). split; [done|]. by exists p'.
Qed.
Lemma kept_pm_start cfg : kept (pomodoro (wukong_tm_pomodoro_start cfg)).
Proof. apply (pm_outcome_kept (PmStart cfg)); [done|]. intros. by apply start_wp. Qed.
Lemma kept_pm_pause : kept (pomodoro wukong_tm_pomodoro_pause).
Proof. apply (pm_outcome_kept PmPause); [done|]. intros. by apply pm_pause_wp. Qed.
Lemma kept_pm_resume : kept (pomodoro wukong_tm_pomodoro_resume).
Proof. apply (pm_outcome_kept PmResume); [done|]. intros. by apply pm_resume_wp. Qed.
Lemma kept_pm_stop : kept (pomodoro wukong_tm_pomodoro_stop).
Proof. apply (pm_outcome_kept PmStop); [done|]. intros. by apply stop_wp. Qed.
Lemma kept_pm_query : kept (pomodoro (wukong_tm_pomodoro_query true)).
Proof.
  apply kept_pomodoro. intros cx w p Hw Hr. unfold wukong_tm_pomodoro_query. cbn [negb]. do 2 tm_step.
  destruct (repr_active _ _ Hr) as [Ha Hpa]. destruct p as [|x e|x r].
  - rewrite Ha. cbn [negb]. wp_step. by split; [|exists NoSession].
  - rewrite Ha. cbn [negb]. wp_step. eapply refresh_wp; [done|done|]. intros w1 Hw1 _ _. do 2 tm_step. cbv zeta. wp_step. split; [done|].
    exists (InPhase x e). destruct Hr as [Hi (? & ? & ? & Hsh & ? & ?)]. split; [done|]. by split_and!; [..|destruct Hsh; split| |].
  - rewrite Ha. cbn [negb]. wp_step. unfold __pomodoro_refresh_running. do 2 tm_step. rewrite Ha, (Hpa Ha). cbn [negb orb]. wp_step.
    do 2 tm_step. cbv zeta. wp_step. by split; [|exists (OnHold x r)].
Qed.

(** ** The handlers *)

#[local] Hint Resolve kept_ret kept_malloc kept_cd_create kept_cd_pause kept_cd_resume kept_cd_delete kept_cd_query kept_sw_query
  kept_pm_start kept_pm_pause kept_pm_resume kept_pm_stop kept_pm_query : tm_kept.

Lemma kept_sw_start : kept (stopwatch wukong_tm_stopwatch_start).
Proof. by apply (sw_outcome_kept SwStart). Qed.
Lemma kept_sw_pause : kept (stopwatch wukong_tm_stopwatch_pause).
Proof. by apply (sw_outcome_kept SwPause). Qed.
Lemma kept_sw_resume : kept (stopwatch wukong_tm_stopwatch_resume).
Proof. by apply (sw_outcome_kept SwResume). Qed.
Lemma kept_sw_stop : kept (stopwatch wukong_tm_stopwatch_stop).
Proof. by apply (sw_outcome_kept SwStop). Qed.
Lemma kept_sw_reset : kept (stopwatch wukong_tm_stopwatch_reset).
Proof. by apply (sw_outcome_kept SwReset). Qed.
#[local] Hint Resolve kept_sw_start kept_sw_pause kept_sw_resume kept_sw_stop kept_sw_reset : tm_kept.

Ltac kept_tac :=
  cbv beta iota zeta;
  lazymatch goal with
  | |- kept (cbind _ _) => apply kept_bind; [kept_tac|intros ?; kept_tac]
  | |- kept (if ?b then _ else _) => destruct b; kept_tac
  | |- kept (match ?x with _ => _ end) => destruct x; kept_tac
  | |- _ => solve [eauto with tm_kept]
  end.

Lemma kept_text text : kept (__make_text_result text).
Proof. unfold __make_text_result, mcp_content_make_text, json_create, obj_add. kept_tac. Qed.
#[local] Hint Resolve kept_text : tm_kept.

Lemma kept_countdown_tool args : kept (__set_countdown_timer args).
Proof.
  unfold __set_countdown_timer, __make_already_exists_result, __make_countdown_times_result, __make_countdown_query_result, inactive_result,
    __make_bool_result, make_fmt_result. kept_tac.
Qed.

Lemma kept_stopwatch_tool args : kept (__set_stopwatch_timer args).
Proof.
  unfold __set_stopwatch_timer, __make_already_exists_result, __make_stopwatch_elapsed_result, __make_stopwatch_query_result, inactive_result,
    __make_bool_result, make_fmt_result. kept_tac.
Qed.

Lemma kept_pomodoro_tool args : kept (__set_pomodoro_timer args).
Proof.
  unfold __set_pomodoro_timer, __make_already_exists_result, __make_pomodoro_query_result, inactive_result, __make_bool_result,
    make_fmt_result. kept_tac.
Qed.
End Kept.

(** ** The rest of the server's host

    The agent's connection and the work queue, and whatever other handlers the
    program registers. *)

Class McpLink (L : Type) := {
  lk_set_cb : bool -> C L unit;
  lk_response : string -> string -> string -> C L unit;
  lk_schedule : C L OPERATE_RET;
  lk_resource : string -> C L (OPERATE_RET * option cJSON);
  lk_prompt : string -> option cJSON -> C L (OPERATE_RET * option cJSON);
  lk_ok : L -> Prop;
  lk_sent : L -> list (string * string * string) }.

Definition link_silent {L A} `{McpLink L} (m : C L A) : Prop :=
  forall l, lk_ok l -> wp m (fun _ l' => lk_ok l' /\ lk_sent l' = lk_sent l) l.

Class McpLinkLaws (L : Type) `{!McpLink L} : Prop := {
  lk_set_cb_law : forall on, link_silent (lk_set_cb on);
  lk_response_law : forall sid eid text l, lk_ok l ->
    wp (lk_response sid eid text) (fun _ l' => lk_ok l' /\ lk_sent l' = (sid, eid, text) :: lk_sent l) l;
  lk_schedule_law : link_silent lk_schedule;
  lk_resource_law : forall uri, link_silent (lk_resource uri);
  lk_prompt_law : forall name args, link_silent (lk_prompt name args) }.

(** The handlers of the timers. *)
Inductive TIMER_TOOL := TIMER_COUNTDOWN | TIMER_STOPWATCH | TIMER_POMODORO.
Definition timer_tool (tool : TIMER_TOOL) : TM_TOOL :=
  match tool with
  | TIMER_COUNTDOWN => TOOL_SET_COUNTDOWN_TIMER
  | TIMER_STOPWATCH => TOOL_SET_STOPWATCH_TIMER
  | TIMER_POMODORO => TOOL_SET_POMODORO_TIMER
  end.

Section Host.
Context {K W L : Type} `{KL : KvStoreLaws K} `{HL : TmHostLaws W} `{LL : McpLinkLaws L} `{TS : TimeService} `{JT : JsonText} `{TL : TmLayout}.
Abbreviation X := (L * (TM_STATE * (K * W)))%type.

Definition on_link {A} (m : C L A) : C X A :=
  fun '(l, s) => match m l with Some (a, l') => Some (a, (l', s)) | None => None end.

#[export] Instance timers_host : McpHost X TIMER_TOOL := {
  mh_malloc := on_host heap_alloc;
  tuya_ai_agent_mcp_set_cb on := on_link (lk_set_cb on);
  tuya_ai_agent_mcp_response sid eid text := on_link (lk_response sid eid text);
  mh_schedule := on_link lk_schedule;
  tool_handler tool _ args := on_host (tm_tool_run (timer_tool tool) args);
  resource_handler _ uri := on_link (lk_resource uri);
  prompt_handler _ name args := on_link (lk_prompt name args);
  mh_ok '(l, (t, (k, w))) := lk_ok l /\ timers_ok t /\ th_ok w;
  mh_sent '(l, _) := lk_sent l }.

Lemma on_link_wp {A} (m : C L A) l s (Q : A -> X -> Prop) : wp m (fun a l' => Q a (l', s)) l -> wp (on_link m) Q (l, s).
Proof. unfold wp, on_link. destruct (m l) as [[a l']|]; done. Qed.

Lemma link_host {A} (m : C L A) : link_silent m -> silent (on_link m).
Proof.
  intros Hm [l [t [k w]]] (Hl & Ht & Hw). apply on_link_wp. eapply wp_mono; [by apply Hm|]. intros a l' [? ?]. by split_and!.
Qed.

Lemma kept_host {A} (m : C (TM_STATE * (K * W)) A) : kept m -> silent (on_host m).
Proof.
  intros Hm [l [t [k w]]] (Hl & Ht & Hw). apply wp_host. eapply wp_mono; [by apply Hm|]. intros a [t' [k' w']] [? ?]. by split_and!.
Qed.

Hypothesis tick_text : forall ts expr h, build_cron_expr ts 32 = (OPRT_OK, expr) -> th_job_text (countdown_job_json expr h).
Hypothesis phase_text : forall ts expr id, build_cron_expr ts 32 = (OPRT_OK, expr) -> th_job_text (pomodoro_job_json expr id).

Lemma timers_laws : McpHostLaws X TIMER_TOOL.
Proof.
  split.
  - apply kept_host, kept_malloc.
  - intros on. apply link_host, lk_set_cb_law.
  - intros sid eid text [l [t [k w]]] (Hl & Ht & Hw). apply on_link_wp. eapply wp_mono; [by apply lk_response_law|].
    intros a l' [? ?]. by split_and!.
  - apply link_host, lk_schedule_law.
  - intros [] name args; apply kept_host; cbn [timer_tool tm_tool_run].
    + by apply kept_countdown_tool.
    + by apply kept_stopwatch_tool.
    + by apply kept_pomodoro_tool.
  - intros h uri. apply link_host, lk_resource_law.
  - intros h name args. apply link_host, lk_prompt_law.
Qed.

Lemma timers_roomy : th_ample (W := W) -> roomy (W := X) (H := TIMER_TOOL).
Proof.
  intros Ha [l [t [k w]]] (Hl & Ht & Hw). unfold mh_malloc, timers_host, heap_alloc, tm_heap, on_dev. apply wp_host, wp_host.
  apply malloc_ample_wp; [done|]. intros [|] w' Hw' _ Hno; [by split_and!|]. by destruct (Hno eq_refl).
Qed.

(** The timers behind the server: with the countdown, stopwatch and pomodoro
    tools registered, and memory to spare, every request to the server is answered
    exactly once, waiting tool calls included, and whatever the requests ask of
    the timers, each timer still represents a state of its specification. *)
Theorem timers_served `{McpConfig} sid eid msg method id (s : MCP TIMER_TOOL) l t k w :
  th_ample (W := W) -> request msg method id -> mc_initialized (s_ctx s) = true -> server_ok s -> lk_ok l -> timers_ok t -> th_ok w ->
  wp (let* rt := mcp_server_handle_message sid eid (Some msg) in
      let* m := get_ctx in
      let* _ := drain (length (s_calls m)) in cret rt)
    (fun rt '(s', (l', (t', (k', w')))) => rt = OPRT_OK /\ timers_ok t' /\ th_ok w' /\ s_calls s' = [] /\
       exists asked out, Permutation asked ((sid, eid, id) :: owed s) /\ answers_for asked out /\ lk_sent l' = (rev out ++ lk_sent l)%list)
    (s, (l, (t, (k, w)))).
Proof.
  intros Ha Hreq Hinit Hs Hl Ht Hw. eapply wp_mono.
  - apply (answered_wp (ML := timers_laws) sid eid msg method id); [by apply timers_roomy|done|done|done|by split_and!].
  - intros rt [s' [l' [t' [k' w']]]] (-> & (_ & ? & ?) & ? & Hout). by split_and!.
Qed.
End Host.
