(* ===== verification/McpDemo.v ===== *)
(** The MCP server at work: a host, a printer, the tools as the device registers
    them, and the theorems at concrete requests. *)
From Stdlib Require QArith_base.
From stdpp Require Import gmap strings.
From S2P Require Import Prelude.
From S2P Require Import Calendar.
From S2P Require Import CStr.
From S2P Require Import World.
From S2P Require Import Json.
From S2P Require Import TmHost.
From S2P Require Import TmStore.
From S2P Require Import TmFeatureDemo.
From S2P Require Import TmReminder.
From S2P Require Import TmCountdown.
From S2P Require Import TmCountdownCorrect.
From S2P Require Import TmStopwatch.
From S2P Require Import TmPomodoro.
From S2P Require Import TmPomodoroCorrect.
From S2P Require Import TmAlarm.
From S2P Require Import TmService.
From S2P Require Import McpCore.
From S2P Require Import McpTools.
From S2P Require Import McpExtras.
From S2P Require Import McpServer.
From S2P Require Import McpRules.
From S2P Require Import McpTyped.
From S2P Require Import McpListing.
From S2P Require Import McpAnswers.
From S2P Require Import McpService.
From S2P Require Import McpCalls.
From S2P Require Import McpTm.
From S2P Require Import McpTmTools.
From S2P Require Import McpTmTime.
From S2P Require Import McpTimers.
From S2P Require Import McpTimersHost.

#[local] Open Scope string_scope.
#[local] Open Scope Z_scope.

(** ** A printer *)

Fixpoint escape (s : string) : string :=
  match s with
  | EmptyString => ""
  | String a s => if Ascii.eqb a (ascii_of_nat 34) || Ascii.eqb a (ascii_of_nat 92)
                  then String (ascii_of_nat 92) (String a (escape s))
                  else if Ascii.eqb a (ascii_of_nat 10) then String (ascii_of_nat 92) (String "n" (escape s))
                  else String a (escape s)
  end.

Fixpoint print (j : cJSON) : string :=
  match j with
  | JNull => "null"
  | JBool b => bool_text b
  | JNumber v => fmt_d (truncated v)
  | JString s => quoted (escape s)
  | JArray items => "[" ++ String.concat "," (map print items) ++ "]"
  | JObject fields => "{" ++ String.concat "," (map (fun '(k, v) => quoted (escape k) ++ ":" ++ print v) fields) ++ "}"
  end.

#[local] Instance printer : JsonText := { ty_cJSON_Parse _ := None; ty_cJSON_PrintUnformatted j := Some (print j) }.
#[local] Instance all_enabled : McpConfig := {
  MCP_ENABLE_TOOLS := true; MCP_ENABLE_RESOURCES := true; MCP_ENABLE_PROMPTS := true; MCP_ENABLE_LOGGING := true }.

(** Single quotes read as double ones. *)
Fixpoint js (s : string) : string :=
  match s with
  | EmptyString => ""
  | String a s => String (if Ascii.eqb a (ascii_of_nat 39) then ascii_of_nat 34 else a) (js s)
  end.

(** ** A host whose tools answer with a fixed text *)

Abbreviation Log := (list (string * string * string)).

#[local] Instance log_host : McpHost Log TM_TOOL := {
  mh_malloc := cret true;
  tuya_ai_agent_mcp_set_cb _ := cret tt;
  tuya_ai_agent_mcp_response sid eid text := cmod (cons (sid, eid, text));
  mh_schedule := cret OPRT_OK;
  tool_handler _ _ _ := cret (text_reply "done");
  resource_handler _ _ := cret (OPRT_OK, Some (JString "page"));
  prompt_handler _ _ _ := cret (OPRT_COM_ERROR, None);
  mh_ok _ := True;
  mh_sent log := log }.

#[local] Instance log_laws : McpHostLaws Log TM_TOOL.
Proof. split; repeat intros ?; by split_and!. Qed.

Lemma log_roomy : roomy (W := Log) (H := TM_TOOL).
Proof. by intros w _. Qed.

(** ** The server after its start *)

Definition ready : MCP TM_TOOL :=
  mk_mcp (mk_mctx true (Some "Wukong AI") (Some "3.0") None None) (tm_entries (fun tool => tool) 0) 7 [] [] [] [] 7.

Example starts_ready : wukong_ai_mcp_init (W := Log) (fun tool => tool) [] [] true (mcp_boot, []) = Some (OPRT_OK, (ready, [])).
Proof. by vm_compute. Qed.

Lemma ready_tools : tools_ok ready.
Proof.
  split.
  - apply (bool_decide_unpack _). by vm_compute.
  - apply (bool_decide_unpack _). by vm_compute.
  - cbn [ready s_tools s_addrs tm_entries t_addr]. repeat (apply List.Forall_cons; [cbn; lia|]). apply List.Forall_nil.
  - cbn [ready s_tools tm_entries]. repeat (apply List.Forall_cons; [by eexists|]). apply List.Forall_nil.
Qed.

Lemma ready_listable : List.Forall listable (s_tools ready).
Proof.
  cbn [ready s_tools tm_entries]. unfold listable.
  repeat (apply List.Forall_cons; [split; [done|apply Z.leb_le; by vm_compute]|]). apply List.Forall_nil.
Qed.

(** ** Requests *)

Definition ask (id method : string) (params : cJSON) : cJSON :=
  JObject [("jsonrpc", JString "2.0"); ("id", JString id); ("method", JString method); ("params", params)].
Definition call (id name : string) (args : list (string * cJSON)) : cJSON :=
  ask id "tools/call" (JObject [("name", JString name); ("arguments", JObject args)]).

Definition start_stopwatch : cJSON := call "7" "device_stopwatch_timer_set" [("operation", JNumber 0)].
Definition waiting : TOOL_CALL_MSG_T := mk_call "s1" "e1" "6" (Some (JObject [("operation", JNumber 5)])) 3.
Definition busy : MCP TM_TOOL := set_calls [waiting] ready.

Lemma waiting_ok : call_ok ready waiting.
Proof.
  eexists. split; [reflexivity|]. intros ps Hps. apply (validation_spec ps _ ERR_MSG_SIZE); [vm_compute; lia|]. rewrite <- Hps. by vm_compute.
Qed.

Lemma busy_ok : server_ok busy.
Proof. split; [by destruct ready_tools; split|]. constructor; [exact waiting_ok|apply List.Forall_nil]. Qed.

Lemma start_is_request : request start_stopwatch "tools/call" "7".
Proof. by split. Qed.

(** ** The server's theorems at these requests *)

(** A request whose identifier is a number. *)
Definition numbered_request : cJSON :=
  JObject [("jsonrpc", JString "2.0"); ("method", JString "tools/list"); ("id", JNumber 7)].

Lemma request_answered_witness :
  request start_stopwatch "tools/call" "7" /\ server_ok busy /\ s_calls busy = [waiting] /\
  wp (let* rt := mcp_server_handle_message "s1" "e2" (Some start_stopwatch) in
      let* m := get_ctx in
      let* _ := drain (length (s_calls m)) in cret rt)
    (fun rt '(s', w') => rt = OPRT_OK /\ s_calls s' = [] /\ exists l out, Permutation l (("s1", "e2", "7") :: owed busy) /\
       answers_for l out /\ ((forall j, is_Some (ty_cJSON_PrintUnformatted j)) -> length out = length l) /\
       mh_sent w' = (rev out ++ mh_sent [])%list) (busy, [] : Log) /\
  wp (mcp_server_handle_message "s1" "e2" (Some numbered_request)) (fun rt '(s', w') => rt = OPRT_OK /\ s' = busy /\
    (notification numbered_request -> mh_sent w' = mh_sent []) /\
    (~ notification numbered_request -> exists text,
       mh_sent w' = (answer "s1" "e2" (error_json None MCP_ERR_INVALID_REQUEST text) ++ mh_sent [])%list)) (busy, [] : Log).
Proof.
  split; [apply start_is_request|]. split; [exact busy_ok|]. split; [reflexivity|]. split.
  - destruct (request_answered "s1" "e2" start_stopwatch busy ([] : Log) log_roomy eq_refl busy_ok I) as [Hasked _].
    exact (Hasked "tools/call" "7" start_is_request).
  - destruct (request_answered "s1" "e2" numbered_request busy ([] : Log) log_roomy eq_refl busy_ok I) as [_ Hother].
    apply Hother. intros method id [_ _ _ Hid]. discriminate Hid.
Defined.

Lemma tool_arguments_typed_witness :
  event_ok busy (McpMessage "s1" "e2" (Some start_stopwatch)) /\ server_ok busy /\
  wp (mcp_do (McpMessage "s1" "e2" (Some start_stopwatch))) (fun _ '(s', w') => server_ok s' /\ mh_ok w') (busy, [] : Log).
Proof.
  split; [exact I|]. split; [exact busy_ok|]. apply tool_arguments_typed; [exact log_roomy|exact I|exact busy_ok|exact I].
Defined.

(** A call without its operation, and one whose operation is out of bounds. *)
Definition no_operation : cJSON := call "8" "device_stopwatch_timer_set" [].

Lemma tool_call_checked_witness :
  tools_ok ready /\ request no_operation "tools/call" "8" /\
  call_params (ty_cJSON_GetObjectItem no_operation "params") "device_stopwatch_timer_set" (Some (JObject [])) /\
  wp (mcp_server_handle_message "s1" "e2" (Some no_operation)) (fun rt '(s', w') => rt = OPRT_OK /\
    let refused text := s' = ready /\ mh_sent w' = (answer "s1" "e2" (error_json (Some "8") MCP_ERR_INVALID_PARAMS text) ++ mh_sent [])%list in
    match List.find (named "device_stopwatch_timer_set") (s_tools ready) with
    | None => refused "Unknown tool"
    | Some t => forall ps, t_input_schema t = schema_of ps ->
        (typed ps (Some (JObject [])) -> accepted "s1" "e2" "8" (Some (JObject [])) t ready [] s' w') /\
        (~ typed ps (Some (JObject [])) -> exists full, reported ps (Some (JObject [])) full /\ refused (strtrunc 255 full))
    end) (ready, [] : Log).
Proof.
  assert (Hreq : request no_operation "tools/call" "8") by (split; reflexivity).
  assert (Hpar : call_params (ty_cJSON_GetObjectItem no_operation "params") "device_stopwatch_timer_set" (Some (JObject [])))
    by (split; [reflexivity|reflexivity|reflexivity|exact I]).
  split; [exact ready_tools|]. split; [exact Hreq|]. split; [exact Hpar|].
  apply (tool_call_checked "s1" "e2" no_operation "8" "device_stopwatch_timer_set" (Some (JObject [])) ready []);
    [exact log_roomy|reflexivity|reflexivity|exact ready_tools|exact I|exact Hreq|exact Hpar].
Defined.

Definition handled (msg : cJSON) : option (list string) :=
  match mcp_server_handle_message "s" "e" (Some msg) (ready, [] : Log) with
  | Some (_, (_, log)) => Some (map (fun '(_, _, text) => text) log)
  | None => None
  end.

Example missing_operation : handled no_operation =
  Some [js "{'jsonrpc':'2.0','id':'8','error':{'code':-32602,'message':'Missing required parameter(s): operation'}}"].
Proof. by vm_compute. Qed.

Example operation_out_of_bounds : handled (call "9" "device_stopwatch_timer_set" [("operation", JNumber 6)]) =
  Some ["{" ++ js "'jsonrpc':'2.0','id':'9','error':{'code':-32602,'message':" ++
        quoted "Parameter 'operation' value 6 above maximum 5" ++ "}}"]%string.
Proof. by vm_compute. Qed.

(** The type of a value is not checked: a text passes for the operation, and the
    tool then takes the default operation. *)
Example text_for_a_number :
  handled (call "10" "device_stopwatch_timer_set" [("operation", JString "5")]) = Some [] /\
  __read_int_field (Some (JObject [("operation", JString "5")])) "operation" 0 = MCP_STOPWATCH_OP_START.
Proof. by vm_compute. Qed.

Lemma tools_listed_witness :
  tools_ok ready /\ List.Forall listable (s_tools ready) /\
  exists serve : string -> cJSON,
    (forall sid eid msg id, request msg "tools/list" id ->
       evals (W := Log) (mcp_server_handle_message sid eid (Some msg)) ready OPRT_OK ready
         (answer sid eid (result_json id (serve (cursor_of (ty_cJSON_GetObjectItem msg "params")))))) /\
    read_listing (S (length (s_tools ready))) serve "" = Some (map tool_json (s_tools ready)).
Proof.
  split; [exact ready_tools|]. split; [exact ready_listable|].
  apply tools_listed; [exact log_roomy|reflexivity|reflexivity|exact ready_tools|exact ready_listable].
Defined.

(** The seven tools of the device fit one page; two pages when there is a large
    tool in between. *)
Example one_page : snd (page_of "" (s_tools ready)) = None.
Proof. by vm_compute. Qed.

(** ** What the server does not do *)

(** A call that waits when the server is destroyed reads a freed tool. *)
Example destroyed_with_a_call :
  match mcp_server_destroy (busy, [] : Log) with Some (_, s) => run_call s = None | None => False end.
Proof. by vm_compute. Qed.

(** A client that subscribes twice is still subscribed after it unsubscribes. *)
Example subscribed_twice :
  let subscribe := mcp_resources_handle_subscribe "s" "e" (Some (JObject [("uri", JString "file:a")])) "1" in
  match (let* _ := subscribe in let* _ := subscribe in
         mcp_resources_handle_unsubscribe "s" "e" (Some (JObject [("uri", JString "file:a")])) "2") (ready, [] : Log) with
  | Some (_, (s, _)) => s_subscriptions s = ["file:a"]
  | None => False
  end.
Proof. by vm_compute. Qed.

(** The arguments of a call are lost when they cannot be copied, and the tool runs
    without them: the worker was told that they passed the check. *)
Definition short_of_memory : McpHost (nat * Log) TM_TOOL := {|
  mh_malloc := fun '(n, log) => Some (negb (n =? 4)%nat, (S n, log));
  tuya_ai_agent_mcp_set_cb _ := cret tt;
  tuya_ai_agent_mcp_response sid eid text := cmod (fun '(n, log) => (n, (sid, eid, text) :: log));
  mh_schedule := cret OPRT_OK;
  tool_handler _ _ _ := cret (text_reply "done");
  resource_handler _ _ := cret (OPRT_COM_ERROR, None);
  prompt_handler _ _ _ := cret (OPRT_COM_ERROR, None);
  mh_ok _ := True;
  mh_sent '(_, log) := log |}.

Example arguments_lost :
  match mcp_server_handle_message (MH := short_of_memory) "s" "e" (Some start_stopwatch) (ready, (0%nat, [])) with
  | Some (rt, (s, _)) => rt = OPRT_OK /\ map cm_arguments (s_calls s) = [None]
  | None => False
  end.
Proof. by vm_compute. Qed.

(** ** Times *)

Definition half_past_seven : option cJSON := Some (JObject
  [("year", JNumber 2026); ("month", JNumber 3); ("day", JNumber 6); ("hour", JNumber 19); ("minute", JNumber 30)]).
Definition no_such_day : option cJSON := Some (JObject
  [("year", JNumber 2026); ("month", JNumber 2); ("day", JNumber 30); ("hour", JNumber 19); ("minute", JNumber 30)]).

Lemma schedule_time_exact_witness :
  FixedZone zone8_off 0 /\ requested_tm half_past_seven = Some (mk_tm 0 30 19 6 2 126 0) /\
  match requested_tm half_past_seven with
  | None => __schedule_parse_local_time half_past_seven = (OPRT_INVALID_PARM, None)
  | Some tm =>
      (wf_tm tm -> 172800 <= tm_secs tm < 2 ^ 32 - 172800 ->
         __schedule_parse_local_time half_past_seven = (OPRT_OK, Some (tm_secs tm - zone8_off))) /\
      (forall ts, 86400 <= ts < 2 ^ 32 - 86400 -> __schedule_parse_local_time half_past_seven = (OPRT_OK, Some ts) ->
         wf_tm tm /\ tm_secs tm = ts + zone8_off)
  end.
Proof. split; [exact zone8_fixed|]. split; [reflexivity|]. apply schedule_time_exact. Defined.

Example times_found : __schedule_parse_local_time half_past_seven = (OPRT_OK, Some 1772796600) /\
  fst (__schedule_parse_local_time no_such_day) = OPRT_INVALID_PARM.
Proof. by vm_compute. Qed.

(** ** The timers behind the server *)

Definition still : Calm := mk_calm 1772762400 [].
Definition timers_on : TM_STATE := mk_tms alarm_statics_boot rctx_zero cd_fresh (mk_sw true false false 0 0) (pomo_cleared true 1) true.

Lemma timers_on_ok : timers_ok timers_on.
Proof.
  split.
  - exists 1, Idle. by split.
  - by exists [].
  - exists NoSession. by split.
Qed.

Lemma calm_ample : th_ample (W := Calm).
Proof. by intros w _. Qed.

Lemma stopwatch_tool_replies_witness :
  th_ample (W := Calm) /\ th_ok still /\ tracks (tms_stopwatch timers_on) [] /\
  wp (__set_stopwatch_timer (Some (JObject [("operation", JNumber 0)])))
    (sw_tool_outcome (__read_int_field (Some (JObject [("operation", JNumber 0)])) "operation" 0) [] (th_clock still) timers_on
       (∅ : gmap string string)) (timers_on, (∅, still)).
Proof.
  assert (Hok : th_ok still) by (split; reflexivity || discriminate). split; [exact calm_ample|]. split; [exact Hok|]. split; [reflexivity|].
  apply stopwatch_tool_replies; [exact calm_ample|exact Hok|reflexivity].
Defined.

#[local] Instance log_link : McpLink Log := {
  lk_set_cb _ := cret tt;
  lk_response sid eid text := cmod (cons (sid, eid, text));
  lk_schedule := cret OPRT_OK;
  lk_resource _ := cret (OPRT_COM_ERROR, None);
  lk_prompt _ _ := cret (OPRT_COM_ERROR, None);
  lk_ok _ := True;
  lk_sent log := log }.

#[local] Instance log_link_laws : McpLinkLaws Log.
Proof. split; repeat intros ?; by split_and!. Qed.

(** The server with the stopwatch tool alone. *)
Definition stopwatch_only : MCP TIMER_TOOL :=
  mk_mcp (mk_mctx true (Some "Wukong AI") (Some "3.0") None None)
    [mk_tool 0 "device_stopwatch_timer_set" device_stopwatch_timer_set_description (schema_of device_stopwatch_timer_set_props) TIMER_STOPWATCH]
    1 [] [] [] [] 7.

Lemma stopwatch_only_ok : server_ok stopwatch_only.
Proof.
  split; [|apply List.Forall_nil]. split; cbn [stopwatch_only s_tools s_addrs map].
  - apply NoDup_singleton.
  - apply NoDup_singleton.
  - constructor; [cbn; lia|apply List.Forall_nil].
  - constructor; [by eexists|apply List.Forall_nil].
Qed.

Lemma timers_served_witness :
  th_ample (W := Calm) /\ request start_stopwatch "tools/call" "7" /\ server_ok stopwatch_only /\ timers_ok timers_on /\
  wp (let* rt := mcp_server_handle_message "s1" "e2" (Some start_stopwatch) in
      let* m := get_ctx in
      let* _ := drain (length (s_calls m)) in cret rt)
    (fun rt '(s', (l', (t', (k', w')))) => rt = OPRT_OK /\ timers_ok t' /\ th_ok w' /\ s_calls s' = [] /\
       exists asked out, Permutation asked (("s1", "e2", "7") :: owed stopwatch_only) /\ answers_for asked out /\
         lk_sent l' = (rev out ++ lk_sent ([] : Log))%list)
    (stopwatch_only, ([] : Log, (timers_on, (∅ : gmap string string, still)))).
Proof.
  assert (Hok : th_ok still) by (split; reflexivity || discriminate).
  split; [exact calm_ample|]. split; [apply start_is_request|]. split; [exact stopwatch_only_ok|]. split; [exact timers_on_ok|].
  apply (timers_served (W := Calm)) with (method := "tools/call");
    [intros; exact I|intros; exact I|exact calm_ample|apply start_is_request|reflexivity|exact stopwatch_only_ok|exact I|exact timers_on_ok|exact Hok].
Defined.

(** Starting, asking 90 seconds later, and starting once more. *)
Definition ask_stopwatch (id : string) (operation : Z) : cJSON := call id "device_stopwatch_timer_set" [("operation", JNumber operation)].
Definition serve_at (now : Z) (msg : cJSON) (x : MCP TIMER_TOOL * (Log * (TM_STATE * (gmap string string * Calm)))) :=
  let '(s, (l, (t, (k, w)))) := x in
  match (let* _ := mcp_server_handle_message "s" "e" (Some msg) in run_call) (s, (l, (t, (k, mk_calm now (calm_sent w))))) with
  | Some (_, x) => x
  | None => x
  end.

Example stopwatch_session :
  let '(_, (log, _)) := serve_at 1772762500 (ask_stopwatch "3" 0) (serve_at 1772762490 (ask_stopwatch "2" 5)
    (serve_at 1772762400 (ask_stopwatch "1" 0) (stopwatch_only, ([], (timers_on, (∅, still)))))) in
  map (fun '(_, _, text) => text) (rev log) = map (fun '(id, text) => print (result_json id (JObject [("content",
      JArray [JObject [("type", JString "text"); ("text", JString (js text))]])])))
    [("1", "true"); ("2", "{'success':true,'active':true,'paused':false,'elapsed_sec':90}");
     ("3", "{'success':false,'reason':'already_exists','current':{'active':true,'paused':false,'elapsed_sec':100}}")].
Proof. by vm_compute. Qed.

(** ** The schedule tool's buffer *)

(** A reminder set with an identifier of 300 characters overflows it. *)
Example long_identifier :
  __make_schedule_result true 1772796600 (Some (String.concat "" (replicate 30 "0123456789"))) None
    (timers_on, (∅ : gmap string string, still)) = None.
Proof. by vm_compute. Qed.
