(* ===== verification/Keys.v ===== *)
(** The key driver (src/apps/src/drivers/app_tuya_key/src/tuya_key.c and its
    header) and the function that installs a key of the toy
    (src/apps/src/tuya_ai_toy_key.c, tuya_ai_toy_key_init): the scanner of one
    key, the table and the list of keys, registration and start, and the
    interleaving of the scanning thread with the pin interrupt and the
    software timer that ends a scan. *)
From S2P Require Import Prelude.
From S2P Require Import World.
From S2P Require Import TmHost.
From S2P Require Import ModeHost.

#[local] Open Scope Z_scope.

(** ** Data *)

Inductive KEY_LONG_PRESS_TP_E :=
| LP_INVALID | LP_ONCE_TRIG | LP_MORE_NORMAL_TRIG | FALLING_EDGE_TRIG | FALLING_LONG_TRIG.
#[export] Instance key_lp_eq_dec : EqDecision KEY_LONG_PRESS_TP_E.
Proof. solve_decision. Defined.

Inductive KEY_STAT_E :=
| KEY_DOWN | KEY_DOWN_CONFIRM | KEY_DOWNNING | KEY_UP_CONFIRM | KEY_UPING | KEY_FINISH.
#[export] Instance key_stat_eq_dec : EqDecision KEY_STAT_E.
Proof. solve_decision. Defined.

#[export] Instance push_key_eq_dec : EqDecision PUSH_KEY_TYPE_E.
Proof. solve_decision. Defined.

(** A function pointer is a number that names the function, or NULL. *)
Record KEY_USER_DEF_S := mk_kud {
  port : Z;
  low_level_detect : bool;
  lp_tp : KEY_LONG_PRESS_TP_E;
  long_key_time : Z;        (* USHORT_T *)
  seq_key_detect_time : Z;  (* USHORT_T *)
  call_back : option nat }.

Record KEY_ENTITY_S := mk_ent {
  kud : KEY_USER_DEF_S;
  status : KEY_STAT_E;
  long_key_press : bool;
  down_time : Z;            (* INT_T *)
  up_time : Z;
  seq_key_cnt : Z }.

(** An entity whose run variables memset has cleared. *)
Definition ent_zero (kud : KEY_USER_DEF_S) : KEY_ENTITY_S := mk_ent kud KEY_DOWN false 0 0 0.

Record KEY_MANAGE_S := mk_manage {
  p_tbl : list KEY_ENTITY_S;       (* tbl_cnt entities *)
  tickless_trig_timer : bool;      (* created *)
  timer_space : Z;
  lst : list KEY_ENTITY_S;         (* from the head of the list *)
  mutex : bool;                    (* created *)
  semHandle : option nat }.        (* its count once created *)

(** The static variables. *)
Record KEY_STATICS := mk_keys {
  key_mag : option KEY_MANAGE_S;
  key_handle : bool;               (* the thread has been started *)
  has_enter_irq : bool;
  tickless_endisable : bool;
  keep_time_val : Z }.

Definition keys_zero : KEY_STATICS := mk_keys None false false false (10 * 1000 + 500).

Definition TIMER_SPACE_MAX : Z := 100.
Definition KEY_DOWN_CONT_TRIG_TIME_MS : Z := 300.
Definition TUYA_GPIO_NUM_MAX : Z := 64.
Definition SEM_MAX : nat := 10.

(** ** The device around the driver

    The calls it makes, newest first; the level each pin shows while the n-th
    round is scanned; and which allocations and creations succeed. *)
Inductive KEY_FX :=
| KxGpioInit (port : Z)                             (* tkl_gpio_init *)
| KxIrqInit (port : Z) (falling : bool)             (* tal_gpio_irq_init *)
| KxIrqEnable (port : Z)                            (* tkl_gpio_irq_enable *)
| KxTimerStop | KxTimerStart (ms : Z)               (* tal_sw_timer_stop, tal_sw_timer_start(.., TAL_TIMER_ONCE) *)
| KxLpDisable | KxLpEnable                          (* tal_cpu_lp_disable, tal_cpu_lp_enable *)
| KxSleep (ms : Z)                                  (* tal_system_sleep *)
| KxFree                                            (* tal_free of a block *)
| KxEvent (call_back : nat) (port : Z) (type : PUSH_KEY_TYPE_E) (cnt : Z). (* call_back(port, type, cnt) *)

Record KeyWorld := mk_kw {
  kw_level : nat -> Z -> Z;
  kw_round : nat;                  (* rounds scanned so far *)
  kw_heap : nat -> bool;
  kw_allocs : nat;
  kw_os : nat -> OPERATE_RET;
  kw_calls : nat;
  kw_trace : list KEY_FX }.

Definition kw_add (fx : KEY_FX) (w : KeyWorld) : KeyWorld :=
  mk_kw (kw_level w) (kw_round w) (kw_heap w) (kw_allocs w) (kw_os w) (kw_calls w) (fx :: kw_trace w).

Definition kw_emit (fx : KEY_FX) : C KeyWorld unit := cmod (kw_add fx).
(** A call of the operating system that can fail. *)
Definition kw_call : C KeyWorld OPERATE_RET := fun w =>
  Some (kw_os w (kw_calls w),
        mk_kw (kw_level w) (kw_round w) (kw_heap w) (kw_allocs w) (kw_os w) (S (kw_calls w)) (kw_trace w)).
Definition tal_malloc : C KeyWorld bool := fun w =>
  Some (kw_heap w (kw_allocs w),
        mk_kw (kw_level w) (kw_round w) (kw_heap w) (S (kw_allocs w)) (kw_os w) (kw_calls w) (kw_trace w)).
Definition tal_free : C KeyWorld unit := kw_emit KxFree.
Definition tal_gpio_read (port : Z) : C KeyWorld Z := cget (fun w => kw_level w (kw_round w) port).
(** A sleep ends the round. *)
Definition tal_system_sleep (ms : Z) : C KeyWorld unit :=
  let* _ := kw_emit (KxSleep ms) in
  cmod (fun w => mk_kw (kw_level w) (S (kw_round w)) (kw_heap w) (kw_allocs w) (kw_os w) (kw_calls w) (kw_trace w)).

(** Signed addition; overflow is undefined. *)
Definition int_add (a b : Z) : option Z :=
  if (INT_MIN <=? a + b) && (a + b <=? INT_MAX) then Some (a + b) else None.

(** ** The scanner of one key *)

Definition __tuya_key_down_verify (e : KEY_ENTITY_S) : C KeyWorld bool :=
  let* gpio_stat := tal_gpio_read (port (kud e)) in
  cret (if negb (low_level_detect (kud e)) then negb (gpio_stat =? 0) else gpio_stat =? 0).

Definition set_status (st : KEY_STAT_E) (e : KEY_ENTITY_S) : KEY_ENTITY_S :=
  mk_ent (kud e) st (long_key_press e) (down_time e) (up_time e) (seq_key_cnt e).
Definition set_long (b : bool) (e : KEY_ENTITY_S) : KEY_ENTITY_S :=
  mk_ent (kud e) (status e) b (down_time e) (up_time e) (seq_key_cnt e).
Definition set_down (t : Z) (e : KEY_ENTITY_S) : KEY_ENTITY_S :=
  mk_ent (kud e) (status e) (long_key_press e) t (up_time e) (seq_key_cnt e).
Definition set_up (t : Z) (e : KEY_ENTITY_S) : KEY_ENTITY_S :=
  mk_ent (kud e) (status e) (long_key_press e) (down_time e) t (seq_key_cnt e).
Definition set_seq (n : Z) (e : KEY_ENTITY_S) : KEY_ENTITY_S :=
  mk_ent (kud e) (status e) (long_key_press e) (down_time e) (up_time e) n.

(** key_ent->kud.call_back(key_ent->kud.port, type, cnt) *)
Definition key_event (e : KEY_ENTITY_S) (type : PUSH_KEY_TYPE_E) (cnt : Z) : C KeyWorld unit :=
  let* f := cpure (call_back (kud e)) in
  kw_emit (KxEvent f (port (kud e)) type cnt).

Definition falling_trig (tp : KEY_LONG_PRESS_TP_E) : bool :=
  bool_decide (tp = FALLING_EDGE_TRIG) || bool_decide (tp = FALLING_LONG_TRIG).
Definition once_trig (tp : KEY_LONG_PRESS_TP_E) : bool :=
  bool_decide (tp = LP_ONCE_TRIG) || bool_decide (tp = FALLING_LONG_TRIG).

Section Scan.
Variable space : Z. (* key_mag->timer_space *)

Definition proc_down (e : KEY_ENTITY_S) : C KeyWorld KEY_ENTITY_S :=
  let* down := __tuya_key_down_verify e in
  let e := if down then set_status KEY_DOWN_CONFIRM e else e in
  cret (set_seq 0 (set_up 0 (set_down 0 e))).

Definition proc_down_confirm (e : KEY_ENTITY_S) : C KeyWorld KEY_ENTITY_S :=
  let* down := __tuya_key_down_verify e in
  if down then
    let e := set_status KEY_DOWNNING e in
    let* _ := if falling_trig (lp_tp (kud e)) then key_event e NORMAL_KEY 0 else cret tt in
    cret e
  else cret (set_down 0 (set_status KEY_DOWN e)).

Definition proc_downning (e : KEY_ENTITY_S) : C KeyWorld KEY_ENTITY_S :=
  let* down := __tuya_key_down_verify e in
  if down then
    let* t := cpure (int_add (down_time e) space) in
    let e := set_down t e in
    if once_trig (lp_tp (kud e)) && (long_key_time (kud e) <=? down_time e) && negb (long_key_press e) then
      let* _ := key_event e LONG_KEY 0 in
      cret (set_long true e)
    else if bool_decide (lp_tp (kud e) = LP_MORE_NORMAL_TRIG) && (KEY_DOWN_CONT_TRIG_TIME_MS <=? down_time e) then
      let* _ := key_event e NORMAL_KEY 0 in
      cret (set_down 0 e)
    else cret e
  else cret (set_up 0 (set_status KEY_UP_CONFIRM e)).

Definition proc_up_confirm (e : KEY_ENTITY_S) : C KeyWorld KEY_ENTITY_S :=
  let* down := __tuya_key_down_verify e in
  if negb down then cret (set_status KEY_UPING e)
  else
    let* t := cpure (int_add (down_time e) space) in
    cret (set_status KEY_DOWNNING (set_down t e)).

(** What the KEY_UPING case does once the gesture has ended. *)
Definition finish (e : KEY_ENTITY_S) : C KeyWorld KEY_ENTITY_S :=
  let* e := if negb (seq_key_cnt e =? 0)
            then let* n := cpure (int_add (seq_key_cnt e) 1) in cret (set_seq n e) else cret e in
  let* _ := if 1 <? seq_key_cnt e then key_event e SEQ_KEY (seq_key_cnt e)
            else if falling_trig (lp_tp (kud e)) then cret tt
            else if negb (bool_decide (lp_tp (kud e) = LP_ONCE_TRIG) && long_key_press e)
            then key_event e NORMAL_KEY 0 else cret tt in
  cret (if bool_decide (lp_tp (kud e) = LP_ONCE_TRIG) then set_long false e else e).

Definition proc_uping (e : KEY_ENTITY_S) : C KeyWorld KEY_ENTITY_S :=
  let* down := __tuya_key_down_verify e in
  let* e :=
    if negb down then
      let* t := cpure (if up_time e =? 0 then int_add space space else int_add (up_time e) space) in
      let e := set_up t e in
      cret (if seq_key_detect_time (kud e) <=? up_time e then set_status KEY_FINISH e else e)
    else if seq_key_detect_time (kud e) <=? up_time e then cret (set_status KEY_FINISH e)
    else
      let* n := cpure (int_add (seq_key_cnt e) 1) in
      cret (set_seq n (set_up 0 (set_status KEY_DOWN_CONFIRM e))) in
  if bool_decide (status e = KEY_FINISH) then finish e else cret e.

Definition proc_finish (e : KEY_ENTITY_S) : C KeyWorld KEY_ENTITY_S :=
  let* _ := key_event e RELEASE_KEY 0 in
  cret (set_status KEY_DOWN e).

Definition __key_ent_proc (e : KEY_ENTITY_S) : C KeyWorld KEY_ENTITY_S :=
  match status e with
  | KEY_DOWN => proc_down e
  | KEY_DOWN_CONFIRM => proc_down_confirm e
  | KEY_DOWNNING => proc_downning e
  | KEY_UP_CONFIRM => proc_up_confirm e
  | KEY_UPING => proc_uping e
  | KEY_FINISH => proc_finish e
  end.

(** The entities of the table or of the list, in order. *)
Fixpoint proc_all (es : list KEY_ENTITY_S) : C KeyWorld (list KEY_ENTITY_S) :=
  match es with
  | [] => cret []
  | e :: es =>
      let* e := __key_ent_proc e in
      let* es := proc_all es in
      cret (e :: es)
  end.
End Scan.

(** ** The driver *)

Abbreviation KeyM := (C (KEY_STATICS * KeyWorld)).

Definition kfx (fx : KEY_FX) : KeyM unit := on_host (kw_emit fx).
Definition put_mag (m : option KEY_MANAGE_S) : KeyM unit :=
  mod_ctx (fun s => mk_keys m (key_handle s) (has_enter_irq s) (tickless_endisable s) (keep_time_val s)).
Definition put_irq (b : bool) : KeyM unit :=
  mod_ctx (fun s => mk_keys (key_mag s) (key_handle s) b (tickless_endisable s) (keep_time_val s)).
Definition put_tickless (b : bool) : KeyM unit :=
  mod_ctx (fun s => mk_keys (key_mag s) (key_handle s) (has_enter_irq s) b (keep_time_val s)).
Definition put_handle (b : bool) : KeyM unit :=
  mod_ctx (fun s => mk_keys (key_mag s) b (has_enter_irq s) (tickless_endisable s) (keep_time_val s)).
(** *key_mag; following NULL is undefined. *)
Definition the_mag : KeyM KEY_MANAGE_S := let* s := get_ctx in cpure (key_mag s).

Definition with_tbl (t l : list KEY_ENTITY_S) (m : KEY_MANAGE_S) : KEY_MANAGE_S :=
  mk_manage t (tickless_trig_timer m) (timer_space m) l (mutex m) (semHandle m).
Definition with_sem (n : option nat) (m : KEY_MANAGE_S) : KEY_MANAGE_S :=
  mk_manage (p_tbl m) (tickless_trig_timer m) (timer_space m) (lst m) (mutex m) n.

(** The interrupt of a pin; __gpio_for_key_irq is its handler. *)
Definition irq_init (k : KEY_USER_DEF_S) : KeyM OPERATE_RET :=
  let* _ := kfx (KxIrqInit (port k) (low_level_detect k)) in
  on_host kw_call.

Definition __key_handle : KeyM unit :=
  let* m := the_mag in
  let* t := on_host (proc_all (timer_space m) (p_tbl m)) in
  let* l := on_host (proc_all (timer_space m) (lst m)) in
  put_mag (Some (with_tbl t l m)).

Definition key_set_keep_time (val : Z) : KeyM unit :=
  mod_ctx (fun s => mk_keys (key_mag s) (key_handle s) (has_enter_irq s) (tickless_endisable s) val).
Definition key_get_keep_time : KeyM Z := let* s := get_ctx in cret (keep_time_val s).

(** ERR_EXIT of key_init; tal_free ignores a NULL table. *)
Definition err_exit (tbl : bool) (op_ret : OPERATE_RET) : KeyM OPERATE_RET :=
  let* _ := if tbl then on_host tal_free else cret tt in
  let* _ := on_host tal_free in
  let* _ := put_mag None in
  cret op_ret.

Fixpoint irq_init_all (ks : list KEY_USER_DEF_S) : KeyM OPERATE_RET :=
  match ks with
  | [] => cret OPRT_OK
  | k :: ks =>
      let* op_ret := irq_init k in
      if negb (op_ret =? OPRT_OK) then cret op_ret else irq_init_all ks
  end.

(** From the creation of the mutex on. *)
Definition start_scan (tbl : bool) : KeyM OPERATE_RET :=
  let* op_ret := on_host kw_call in (* tal_mutex_create_init *)
  if negb (op_ret =? OPRT_OK) then err_exit tbl op_ret
  else
    let* m := the_mag in
    let* _ := put_mag (Some (mk_manage (p_tbl m) false (timer_space m) (lst m) true (semHandle m))) in
    let* op_ret := on_host kw_call in (* tal_sw_timer_create *)
    if negb (op_ret =? OPRT_OK) then err_exit tbl op_ret
    else
      let* m := the_mag in
      let* _ := put_mag (Some (mk_manage (p_tbl m) true (timer_space m) (lst m) (mutex m) (semHandle m))) in
      let* op_ret := on_host kw_call in (* tal_semaphore_create_init *)
      if negb (op_ret =? OPRT_OK) then cret op_ret
      else
        let* m := the_mag in
        let* _ := put_mag (Some (with_sem (Some 0%nat) m)) in
        let* opRet := on_host kw_call in (* tal_thread_create_and_start *)
        if negb (opRet =? OPRT_OK) then
          let* _ := put_handle false in
          err_exit tbl op_ret
        else
          let* _ := put_handle true in
          cret OPRT_OK.

(** [ptbl] is the caller's table with its [cnt] entries. *)
Definition key_init (ptbl : list KEY_USER_DEF_S) (space : Z) : KeyM OPERATE_RET :=
  let* s := get_ctx in
  match key_mag s with
  | Some _ => cret OPRT_OK
  | None =>
      if TIMER_SPACE_MAX <? space then cret OPRT_INVALID_PARM
      else
        let* ok := on_host tal_malloc in
        if negb ok then cret OPRT_MALLOC_FAILED
        else
          let* _ := put_mag (Some (mk_manage [] false 0 [] false None)) in
          let tbl := negb (length ptbl =? 0)%nat in
          let* ok := if tbl then on_host tal_malloc else cret true in
          if negb ok then err_exit false OPRT_MALLOC_FAILED
          else
            let* _ := put_mag (Some (mk_manage (ent_zero <$> ptbl) false (if space =? 0 then 20 else space)
                                               [] false None)) in
            let* op_ret := irq_init_all ptbl in
            if negb (op_ret =? OPRT_OK) then err_exit tbl op_ret
            else start_scan tbl
  end.

(** Search of the list for a key of the same port: what precedes it, it, what
    follows it. *)
Fixpoint find_port (p : Z) (es : list KEY_ENTITY_S) : option (list KEY_ENTITY_S * KEY_ENTITY_S * list KEY_ENTITY_S) :=
  match es with
  | [] => None
  | e :: es =>
      if port (kud e) =? p then Some ([], e, es)
      else match find_port p es with Some (pre, x, post) => Some (e :: pre, x, post) | None => None end
  end.

Definition set_kud (k : KEY_USER_DEF_S) (e : KEY_ENTITY_S) : KEY_ENTITY_S :=
  mk_ent k (status e) (long_key_press e) (down_time e) (up_time e) (seq_key_cnt e).

Definition reg_proc_key (key_ud : option KEY_USER_DEF_S) : KeyM OPERATE_RET :=
  match key_ud with
  | None => cret OPRT_INVALID_PARM
  | Some k =>
      match call_back k with
      | None => cret OPRT_INVALID_PARM
      | Some _ =>
          let* m := the_mag in
          match find_port (port k) (lst m) with
          | Some (pre, e, post) =>
              let* op_ret := irq_init k in
              if negb (op_ret =? OPRT_OK) then cret op_ret
              else
                let* _ := put_mag (Some (with_tbl (p_tbl m) (pre ++ set_kud k e :: post) m)) in
                cret OPRT_OK
          | None =>
              let* ok := on_host tal_malloc in
              if negb ok then cret OPRT_MALLOC_FAILED
              else
                let* op_ret := irq_init k in
                if negb (op_ret =? OPRT_OK) then cret op_ret
                else
                  let* _ := put_mag (Some (with_tbl (p_tbl m) (ent_zero k :: lst m) m)) in
                  cret OPRT_OK
          end
      end
  end.

(** tuya_ai_toy_key_init of the toy, for builds with real pins. *)
Definition tuya_ai_toy_key_init (pin : Z) (low_detect : bool) (seqk_time_ms longk_time_ms : Z) (cb : option nat)
    : KeyM OPERATE_RET :=
  if pin =? TUYA_GPIO_NUM_MAX then cret OPRT_OK
  else
    let pin_cfg := mk_kud pin low_detect LP_ONCE_TRIG (u16 longk_time_ms) (u16 seqk_time_ms) cb in
    let* _ := kfx (KxGpioInit pin) in
    let* rt := on_host kw_call in
    let* _ := key_init [] 20 in
    let* _ := key_set_keep_time (70 * 1000) in
    let* _ := reg_proc_key (Some pin_cfg) in
    let* _ := kfx (KxIrqEnable pin) in
    on_host kw_call.

(** ** The thread, the interrupt and the timer *)

Definition __restart_tickless_trig_timer : KeyM unit :=
  let* m := the_mag in
  let* _ := kfx KxTimerStop in
  let* op_ret := on_host kw_call in
  if negb (op_ret =? OPRT_OK) then cret tt
  else
    let* s := get_ctx in
    let* _ := kfx (KxTimerStart (keep_time_val s)) in
    let* _ := on_host kw_call in
    cret tt.

Definition __key_tickless_trig_timer_cb : KeyM unit :=
  let* s := get_ctx in
  if tickless_endisable s then
    let* _ := kfx KxLpEnable in
    put_tickless false
  else cret tt.

Definition __gpio_for_key_irq : KeyM unit :=
  let* s := get_ctx in
  let* _ :=
    if tickless_endisable s then cret tt
    else
      let* m := the_mag in
      let* n := cpure (semHandle m) in
      put_mag (Some (with_sem (Some (Nat.min SEM_MAX (S n))) m)) in
  put_irq true.

(** Where the thread is between two atomic steps. *)
Inductive KEY_PC :=
| AtWait      (* tal_semaphore_wait *)
| AtWoken     (* the semaphore has been taken *)
| AtClear     (* has_enter_irq = FALSE *)
| AtArm       (* __restart_tickless_trig_timer *)
| AtTest      (* while(tickless_endisable) *)
| AtHandle    (* __key_handle; tal_system_sleep *)
| AtCheck     (* if(has_enter_irq) *)
| AtRearm.    (* __restart_tickless_trig_timer *)
#[export] Instance key_pc_eq_dec : EqDecision KEY_PC.
Proof. solve_decision. Defined.

(** One step of key_handle_thrd; a wait on an empty semaphore stays where it is. *)
Definition key_handle_thrd (pc : KEY_PC) : KeyM KEY_PC :=
  match pc with
  | AtWait =>
      let* m := the_mag in
      let* n := cpure (semHandle m) in
      match n with
      | O => cret AtWait
      | S n => let* _ := put_mag (Some (with_sem (Some n) m)) in cret AtWoken
      end
  | AtWoken =>
      let* s := get_ctx in
      let* _ := if tickless_endisable s then cret tt
                else let* _ := kfx KxLpDisable in put_tickless true in
      cret AtClear
  | AtClear => let* _ := put_irq false in cret AtArm
  | AtArm => let* _ := __restart_tickless_trig_timer in cret AtTest
  | AtTest => let* s := get_ctx in cret (if tickless_endisable s then AtHandle else AtWait)
  | AtHandle =>
      let* _ := __key_handle in
      let* m := the_mag in
      let* _ := on_host (tal_system_sleep (timer_space m)) in
      cret AtCheck
  | AtCheck =>
      let* s := get_ctx in
      if has_enter_irq s then let* _ := put_irq false in cret AtRearm else cret AtTest
  | AtRearm => let* _ := __restart_tickless_trig_timer in cret AtTest
  end.

(** What happens next: the thread runs, a pin interrupts, the timer expires. *)
Inductive KEY_STEP := StThread | StIrq | StTimer.

Definition KEY_SYSTEM : Type := KEY_PC * (KEY_STATICS * KeyWorld).

Definition key_step (x : KEY_STEP) (sys : KEY_SYSTEM) : option KEY_SYSTEM :=
  let '(pc, s) := sys in
  match x with
  | StThread => key_handle_thrd pc s
  | StIrq => match __gpio_for_key_irq s with Some (_, s') => Some (pc, s') | None => None end
  | StTimer => match __key_tickless_trig_timer_cb s with Some (_, s') => Some (pc, s') | None => None end
  end.

Fixpoint key_steps (xs : list KEY_STEP) (sys : KEY_SYSTEM) : option KEY_SYSTEM :=
  match xs with
  | [] => Some sys
  | x :: xs => match key_step x sys with Some sys' => key_steps xs sys' | None => None end
  end.

(** The rounds of the inner loop while nothing interrupts: [n] scans. *)
Fixpoint scan_rounds (n : nat) : KeyM unit :=
  match n with
  | O => cret tt
  | S n =>
      let* _ := __key_handle in
      let* m := the_mag in
      let* _ := on_host (tal_system_sleep (timer_space m)) in
      scan_rounds n
  end.
