(* ===== verification/KeyGestures.v ===== *)
(** What the scanner of a key makes of the samples it takes: the pure machine
    behind Keys.__key_ent_proc, the gestures it reports for every kind of key,
    and the rejection of bounces. *)
From S2P Require Import Prelude.
From S2P Require Import World.
From S2P Require Import TmHost.
From S2P Require Import ModeHost.
From S2P Require Import Keys.

#[local] Open Scope Z_scope.

(** ** The machine

    One step on a sample: the entity afterwards and the events reported. *)
Definition EVENT : Type := PUSH_KEY_TYPE_E * Z.

Definition more_trig (tp : KEY_LONG_PRESS_TP_E) : bool := bool_decide (tp = LP_MORE_NORMAL_TRIG).

Section Machine.
Variable ts : Z.

Definition down_step (e : KEY_ENTITY_S) : KEY_ENTITY_S * list EVENT :=
  if once_trig (lp_tp (kud e)) && (long_key_time (kud e) <=? down_time e) && negb (long_key_press e)
  then (set_long true e, [(LONG_KEY, 0)])
  else if more_trig (lp_tp (kud e)) && (KEY_DOWN_CONT_TRIG_TIME_MS <=? down_time e)
  then (set_down 0 e, [(NORMAL_KEY, 0)])
  else (e, []).

(** The end of a gesture of [n] presses. *)
Definition end_events (tp : KEY_LONG_PRESS_TP_E) (n : Z) (fired : bool) : list EVENT :=
  if 1 <? n then [(SEQ_KEY, n)]
  else if falling_trig tp then []
  else if bool_decide (tp = LP_ONCE_TRIG) && fired then [] else [(NORMAL_KEY, 0)].

Definition finish_step (e : KEY_ENTITY_S) : option (KEY_ENTITY_S * list EVENT) :=
  option_map (fun n =>
      (set_long (long_key_press e && negb (bool_decide (lp_tp (kud e) = LP_ONCE_TRIG))) (set_seq n e),
       end_events (lp_tp (kud e)) n (long_key_press e)))
    (if seq_key_cnt e =? 0 then Some 0 else int_add (seq_key_cnt e) 1).

Definition up_step (down : bool) (e : KEY_ENTITY_S) : option (KEY_ENTITY_S * list EVENT) :=
  if down then
    if seq_key_detect_time (kud e) <=? up_time e then finish_step (set_status KEY_FINISH e)
    else option_map (fun n => (set_seq n (set_up 0 (set_status KEY_DOWN_CONFIRM e)), [])) (int_add (seq_key_cnt e) 1)
  else
    match (if up_time e =? 0 then int_add ts ts else int_add (up_time e) ts) with
    | Some t => if seq_key_detect_time (kud e) <=? t then finish_step (set_status KEY_FINISH (set_up t e))
                else Some (set_up t e, [])
    | None => None
    end.

Definition ent_step (down : bool) (e : KEY_ENTITY_S) : option (KEY_ENTITY_S * list EVENT) :=
  match status e with
  | KEY_DOWN =>
      Some (set_seq 0 (set_up 0 (set_down 0 (if down then set_status KEY_DOWN_CONFIRM e else e))), [])
  | KEY_DOWN_CONFIRM =>
      Some (if down then set_status KEY_DOWNNING e else set_down 0 (set_status KEY_DOWN e),
            if down && falling_trig (lp_tp (kud e)) then [(NORMAL_KEY, 0)] else [])
  | KEY_DOWNNING =>
      if down then option_map (fun t => down_step (set_down t e)) (int_add (down_time e) ts)
      else Some (set_up 0 (set_status KEY_UP_CONFIRM e), [])
  | KEY_UP_CONFIRM =>
      if down then option_map (fun t => (set_status KEY_DOWNNING (set_down t e), [])) (int_add (down_time e) ts)
      else Some (set_status KEY_UPING e, [])
  | KEY_UPING => up_step down e
  | KEY_FINISH => Some (set_status KEY_DOWN e, [(RELEASE_KEY, 0)])
  end.

Fixpoint ent_run (xs : list bool) (e : KEY_ENTITY_S) : option (KEY_ENTITY_S * list EVENT) :=
  match xs with
  | [] => Some (e, [])
  | x :: xs =>
      match ent_step x e with
      | Some (e', evs) => option_map (prod_map id (app evs)) (ent_run xs e')
      | None => None
      end
  end.

Lemma ent_run_app xs ys e e' evs : ent_run xs e = Some (e', evs) ->
  ent_run (xs ++ ys) e = option_map (prod_map id (app evs)) (ent_run ys e').
Proof.
  revert e evs. induction xs as [|x xs IH]; intros e evs; cbn [ent_run app].
  - intros [= -> <-]. by destruct (ent_run ys e') as [[? ?]|].
  - destruct (ent_step x e) as [[e1 evs1]|]; [|done].
    destruct (ent_run xs e1) as [[e2 evs2]|] eqn:Hr; [|done]. cbn. intros [= -> <-].
    rewrite (IH _ _ Hr). destruct (ent_run ys e') as [[? ?]|]; [|done]. cbn. by rewrite app_assoc.
Qed.

Lemma ent_run_seq xs ys e e1 e2 evs1 evs2 :
  ent_run xs e = Some (e1, evs1) -> ent_run ys e1 = Some (e2, evs2) ->
  ent_run (xs ++ ys) e = Some (e2, evs1 ++ evs2).
Proof. intros Hx Hy. by rewrite (ent_run_app _ _ _ _ _ Hx), Hy. Qed.

(** A step changes nothing of what the user has defined. *)
Lemma ent_step_kud x e e' evs : ent_step x e = Some (e', evs) -> kud e' = kud e.
Proof.
  unfold ent_step, up_step, finish_step, down_step. intros H.
  repeat (case_match; simplify_eq/=; try done).
  all: repeat match goal with H : option_map _ ?o = Some _ |- _ => destruct o; simplify_eq/= end; try done.
  all: by repeat (case_match; simplify_eq/=).
Qed.
End Machine.

(** ** The code is the machine *)

(** The sample of a key in the current round. *)
Definition pressed (k : KEY_USER_DEF_S) (level : Z) : bool :=
  if low_level_detect k then level =? 0 else negb (level =? 0).

Definition report (f : nat) (p : Z) (evs : list EVENT) (w : KeyWorld) : KeyWorld :=
  fold_left (fun w ev => kw_add (KxEvent f p (fst ev) (snd ev)) w) evs w.

Lemma ent_proc_eq ts e f w : call_back (kud e) = Some f ->
  __key_ent_proc ts e w =
  option_map (fun r => (fst r, report f (port (kud e)) (snd r) w))
    (ent_step ts (pressed (kud e) (kw_level w (kw_round w) (port (kud e)))) e).
Proof.
  intros Hf. destruct e as [k st lp dt ut sq]. cbn in Hf.
  assert (Hv : forall st lp dt ut sq, __tuya_key_down_verify (mk_ent k st lp dt ut sq) w =
    Some (pressed k (kw_level w (kw_round w) (port k)), w)) by (intros; unfold pressed; cbn; by destruct (low_level_detect k)).
  assert (Hev : forall st lp dt ut sq ty c w, key_event (mk_ent k st lp dt ut sq) ty c w =
    Some (tt, kw_add (KxEvent f (port k) ty c) w)) by (intros; unfold key_event, cbind, cpure; cbn; by rewrite Hf).
  cbn [kud]. set (x := pressed k (kw_level w (kw_round w) (port k))) in *. clearbody x.
  assert (Hfin : forall lp dt ut sq, finish (mk_ent k KEY_FINISH lp dt ut sq) w =
    option_map (fun r => (fst r, report f (port k) (snd r) w)) (finish_step (mk_ent k KEY_FINISH lp dt ut sq))).
  { intros lp' dt' ut' sq'. unfold finish, finish_step, end_events, cbind, cpure, set_seq, set_long. cbn -[Z.ltb].
    destruct (Z.eqb_spec sq' 0) as [->|Hsq]; cbn -[Z.ltb]; [|destruct (int_add sq' 1) as [n|]; cbn -[Z.ltb]; [|done]].
    1: change (1 <? 0) with false. 2: destruct (1 <? n).
    all: cbn; destruct (bool_decide (lp_tp k = LP_ONCE_TRIG)), lp'; try destruct (falling_trig (lp_tp k)).
    all: cbn; rewrite ?Hev; reflexivity. }
  destruct st; cbn [__key_ent_proc ent_step status kud].
  - unfold proc_down, cbind. rewrite Hv. cbn. by destruct x.
  - unfold proc_down_confirm, cbind. rewrite Hv. destruct x; cbn; [|done].
    destruct (falling_trig (lp_tp k)); cbn; [|done]. unfold set_status. cbn. by rewrite Hev.
  - unfold proc_downning, cbind. rewrite Hv. destruct x; cbn; [|done].
    unfold cpure, down_step, more_trig, set_down, set_long. destruct (int_add dt ts) as [t|]; cbn; [|done].
    destruct (once_trig (lp_tp k) && (long_key_time k <=? t) && negb lp); cbn; [by rewrite Hev|].
    destruct (bool_decide (lp_tp k = LP_MORE_NORMAL_TRIG) && (KEY_DOWN_CONT_TRIG_TIME_MS <=? t)); cbn; [by rewrite Hev|done].
  - unfold proc_up_confirm, cbind, cpure. rewrite Hv. destruct x; cbn; [|done]. by destruct (int_add dt ts).
  - unfold proc_uping, up_step, cbind, cpure, set_up, set_status, set_seq. rewrite Hv. destruct x; cbn.
    + destruct (seq_key_detect_time k <=? ut); cbn; [rewrite bool_decide_true by done; apply Hfin|].
      destruct (int_add sq 1); cbn; [by rewrite bool_decide_false|done].
    + destruct (if ut =? 0 then int_add ts ts else int_add ut ts) as [t|]; cbn; [|done].
      destruct (seq_key_detect_time k <=? t); cbn;
        [rewrite bool_decide_true by done; apply Hfin|by rewrite bool_decide_false].
  - unfold proc_finish, cbind. rewrite Hev. done.
Qed.

(** ** Runs of equal samples *)

Lemma int_add_some a b : 0 <= a -> 0 <= b -> a + b <= INT_MAX -> int_add a b = Some (a + b).
Proof.
  intros Ha Hb Hm. unfold int_add. change INT_MIN with (-2147483648). destruct (Z.leb_spec (-2147483648) (a + b)); [|lia].
  by destruct (Z.leb_spec (a + b) INT_MAX); [|lia].
Qed.

(** Division with rounding up. *)
Definition ceil (a b : Z) : Z := (a + b - 1) / b.

Lemma ceil_le a b d : 0 < b -> ceil a b <= d <-> a <= b * d.
Proof.
  intros Hb. unfold ceil. pose proof (Z.div_mod (a + b - 1) b ltac:(lia)) as He.
  pose proof (Z.mod_pos_bound (a + b - 1) b Hb) as Hm. set (q := (a + b - 1) / b) in *. split; intros H; nia.
Qed.

Section Runs.
Context (ts : Z) (Hts : 0 < ts <= TIMER_SPACE_MAX).
Context (k : KEY_USER_DEF_S).
Context (Hseq : 0 <= seq_key_detect_time k < 2 ^ 16) (Hlong : 0 <= long_key_time k < 2 ^ 16).
Abbreviation run := (ent_run ts).
Abbreviation tp := (lp_tp k).

(** Rounds of a held key between two reports of LP_MORE_NORMAL_TRIG. *)
Definition repeat_rounds : Z := ceil KEY_DOWN_CONT_TRIG_TIME_MS ts.

(** A key held for [n] rounds more, after [d]: the event, if [fired] has not
    been set, and what is remembered. *)
Definition long_reached (d n : Z) : bool := once_trig tp && (0 <? n) && (long_key_time k <=? ts * (d + n)).
Definition hold_events (d n : Z) (fired : bool) : list EVENT :=
  if more_trig tp then replicate (Z.to_nat ((d + n) / repeat_rounds)) (NORMAL_KEY, 0)
  else if long_reached d n && negb fired then [(LONG_KEY, 0)] else [].
Definition hold_rounds (d n : Z) : Z := if more_trig tp then (d + n) mod repeat_rounds else d + n.
Definition press_event : list EVENT := if falling_trig tp then [(NORMAL_KEY, 0)] else [].

(** A key that is down, held for [d] rounds, after [sq] earlier presses. *)
Definition held (fired : bool) (d sq : Z) : KEY_ENTITY_S := mk_ent k KEY_DOWNNING fired (ts * d) 0 sq.

Lemma repeat_rounds_spec d : KEY_DOWN_CONT_TRIG_TIME_MS <= ts * d <-> repeat_rounds <= d.
Proof. symmetry. apply ceil_le. lia. Qed.

Lemma repeat_rounds_pos : 1 <= repeat_rounds.
Proof.
  destruct (Z.lt_ge_cases repeat_rounds 1) as [H|H]; [|done].
  assert (KEY_DOWN_CONT_TRIG_TIME_MS <= ts * 0) by (apply repeat_rounds_spec; lia). by unfold KEY_DOWN_CONT_TRIG_TIME_MS in *; lia.
Qed.

Lemma once_not_more : once_trig tp = true -> more_trig tp = false.
Proof. unfold once_trig, more_trig. by destruct tp. Qed.

Definition held_ok (d : Z) : Prop := 0 <= d /\ (more_trig tp = true -> d < repeat_rounds).

Lemma held_step fired d sq : held_ok d -> ts * (d + 1) <= INT_MAX ->
  run [true] (held fired d sq) =
  Some (held (fired || long_reached d 1) (hold_rounds d 1) sq, hold_events d 1 fired) /\ held_ok (hold_rounds d 1).
Proof.
  intros [Hd Hm] Hb. unfold ent_run, ent_step, held. cbn [status down_time].
  rewrite int_add_some by nia. replace (ts * d + ts) with (ts * (d + 1)) by lia. cbn [option_map].
  unfold down_step, hold_events, hold_rounds, long_reached, set_down. cbn [kud down_time long_key_press status up_time seq_key_cnt].
  pose proof repeat_rounds_pos as Hc. change (0 <? 1) with true. rewrite andb_true_r.
  destruct (more_trig tp) eqn:Hmore.
  - assert (once_trig tp = false) as ->.
    { destruct (once_trig tp) eqn:Ho; [|done]. apply once_not_more in Ho. congruence. }
    cbn [andb orb]. rewrite orb_false_r. specialize (Hm eq_refl).
    pose proof (repeat_rounds_spec (d + 1)) as Hr.
    destruct (Z.leb_spec KEY_DOWN_CONT_TRIG_TIME_MS (ts * (d + 1))) as [Hge|Hlt].
    + assert (d + 1 = repeat_rounds) as -> by (apply Hr in Hge; lia).
      rewrite Z.div_same, Z.mod_same by lia. cbn. unfold set_down. cbn. rewrite Z.mul_0_r.
      split; [done|]. split; [lia|]. intros _. lia.
    + assert (d + 1 < repeat_rounds) by (destruct (Z.lt_ge_cases (d + 1) repeat_rounds); [done|]; apply Hr in H; lia).
      rewrite Z.div_small, Z.mod_small by lia. split; [done|]. split; [lia|by intros _].
  - split; [|split; [lia|congruence]]. cbn [andb].
    destruct (once_trig tp && (long_key_time k <=? ts * (d + 1))) eqn:Hl, fired; cbn; rewrite ?Hl; done.
Qed.

Lemma long_reached_mono d n : 0 <= d -> 0 <= n -> long_reached d 1 = true -> long_reached d (1 + n) = true.
Proof.
  unfold long_reached. intros Hd Hn. destruct (once_trig tp); [|done]. cbn [andb].
  rewrite !andb_true_iff, !Z.leb_le, !Z.ltb_lt. intros [_ H]. split; [lia|nia].
Qed.

Lemma long_reached_next d n : 0 <= n -> long_reached d 1 = false -> long_reached (d + 1) n = long_reached d (1 + n).
Proof.
  unfold long_reached. intros Hn. destruct (once_trig tp); [|done]. cbn [andb].
  change (0 <? 1) with true. cbn [andb]. rewrite Z.leb_gt. intros H.
  replace (d + 1 + n) with (d + (1 + n)) by lia. destruct (Z.ltb_spec 0 (1 + n)); [|lia]. cbn [andb].
  destruct (Z.ltb_spec 0 n); [done|]. assert (n = 0) as -> by lia. cbn. symmetry. apply Z.leb_gt. lia.
Qed.
(** Holding on composes. *)
Lemma hold_split fired d n : held_ok d -> 0 <= n ->
  hold_events d 1 fired ++ hold_events (hold_rounds d 1) n (fired || long_reached d 1) = hold_events d (1 + n) fired /\
  hold_rounds (hold_rounds d 1) n = hold_rounds d (1 + n) /\
  (fired || long_reached d 1) || long_reached (hold_rounds d 1) n = fired || long_reached d (1 + n).
Proof.
  intros [Hd Hm] Hn. unfold hold_events, hold_rounds. pose proof repeat_rounds_pos as Hc.
  destruct (more_trig tp) eqn:Hmore.
  - specialize (Hm eq_refl). assert (Ho : once_trig tp = false).
    { destruct (once_trig tp) eqn:Ho; [|done]. apply once_not_more in Ho. congruence. }
    split_and!.
    + rewrite <- replicate_add, <- Z2Nat.inj_add by (apply Z.div_pos; try apply Z.mod_pos_bound; lia || (pose proof (Z.mod_pos_bound (d + 1) repeat_rounds); lia)).
      do 2 f_equal. rewrite <- (Z.div_add_l ((d + 1) / repeat_rounds) repeat_rounds) by lia. f_equal.
      pose proof (Z.div_mod (d + 1) repeat_rounds). lia.
    + rewrite Zplus_mod_idemp_l. f_equal. lia.
    + unfold long_reached. rewrite Ho. cbn [andb]. by rewrite !orb_false_r.
  - destruct (long_reached d 1) eqn:H1.
    + rewrite (long_reached_mono d n) by done. rewrite !orb_true_r. cbn [andb negb orb].
      rewrite andb_false_r, app_nil_r. split_and!; [done|lia|done].
    + rewrite (long_reached_next d n) by done. rewrite orb_false_r. cbn [andb app].
      split_and!; [done|lia|done].
Qed.

Lemma hold_zero fired d : held_ok d -> hold_events d 0 fired = [] /\ hold_rounds d 0 = d /\ long_reached d 0 = false.
Proof.
  intros [Hd Hm]. unfold hold_events, hold_rounds, long_reached. rewrite Z.add_0_r, andb_false_r. cbn.
  pose proof repeat_rounds_pos. destruct (more_trig tp); [|done]. specialize (Hm eq_refl).
  by rewrite Z.div_small, Z.mod_small by lia.
Qed.

Lemma hold_run n fired d sq : held_ok d -> ts * (d + Z.of_nat n) <= INT_MAX ->
  run (replicate n true) (held fired d sq) =
    Some (held (fired || long_reached d (Z.of_nat n)) (hold_rounds d (Z.of_nat n)) sq, hold_events d (Z.of_nat n) fired) /\
  held_ok (hold_rounds d (Z.of_nat n)).
Proof.
  revert fired d. induction n as [|n IH]; intros fired d Hok Hb.
  - destruct (hold_zero fired d Hok) as (He & Hr & Hl). change (Z.of_nat 0) with 0. by rewrite He, Hr, Hl, orb_false_r.
  - rewrite Nat2Z.inj_succ in *. destruct (held_step fired d sq Hok ltac:(nia)) as [H1 Hok1].
    assert (Hle : hold_rounds d 1 <= d + 1).
    { unfold hold_rounds. destruct (more_trig tp); [|lia]. destruct Hok. pose proof repeat_rounds_pos. apply Z.mod_le; lia. }
    destruct (IH (fired || long_reached d 1) (hold_rounds d 1) Hok1 ltac:(nia)) as [H2 Hok2].
    destruct (hold_split fired d (Z.of_nat n) Hok ltac:(lia)) as (He & Hr & Hl).
    replace (Z.succ (Z.of_nat n)) with (1 + Z.of_nat n) by lia. rewrite Hr in *. rewrite Hl in H2. rewrite <- He.
    split; [|done]. change (replicate (S n) true) with ([true] ++ replicate n true). by apply (ent_run_seq _ _ _ _ _ _ _ _ H1).
Qed.

(** *** Letting go *)

(** The time let go after [r] samples. *)
Definition up_after (r : Z) : Z := if r <=? 2 then 0 else ts * (r - 1).
(** The samples after which a gesture ends. *)
Definition quiet : Z := Z.max 3 (ceil (seq_key_detect_time k) ts + 1).

Definition released (fired : bool) (d sq r : Z) : KEY_ENTITY_S := mk_ent k KEY_UPING fired (ts * d) (up_after r) sq.
(** A release of [r] samples after which the gesture goes on. *)
Definition goes_on (r : nat) : Prop := (2 <= r)%nat /\ up_after (Z.of_nat r) < seq_key_detect_time k.

Lemma quiet_spec r : 3 <= r -> seq_key_detect_time k <= ts * (r - 1) <-> quiet <= r.
Proof.
  intros Hr. unfold quiet. rewrite <- ceil_le by lia. lia.
Qed.

Lemma quiet_bound : ts * (quiet - 1) <= 2 ^ 16 + 3 * ts.
Proof.
  unfold quiet. pose proof (Z.div_mod (seq_key_detect_time k + ts - 1) ts) as He.
  pose proof (Z.mod_pos_bound (seq_key_detect_time k + ts - 1) ts). unfold ceil.
  destruct (Z.max_spec 3 ((seq_key_detect_time k + ts - 1) / ts + 1)) as [[_ ->]|[_ ->]]; nia.
Qed.

Lemma up_step_time r : 2 <= r -> r < quiet ->
  (if up_after r =? 0 then int_add ts ts else int_add (up_after r) ts) = Some (ts * r).
Proof.
  intros Hr Hq. pose proof quiet_bound. unfold TIMER_SPACE_MAX in Hts. unfold up_after.
  assert (ts * r <= INT_MAX) by (unfold INT_MAX; nia).
  destruct (Z.leb_spec r 2).
  - assert (r = 2) as -> by lia. cbn [Z.eqb]. rewrite int_add_some by lia. f_equal. lia.
  - destruct (Z.eqb_spec (ts * (r - 1)) 0); [nia|]. rewrite int_add_some by nia. f_equal. lia.
Qed.

Lemma release_run m fired d sq : Z.of_nat m + 2 < quiet ->
  run (replicate (2 + m) false) (held fired d sq) = Some (released fired d sq (Z.of_nat m + 2), []).
Proof.
  induction m as [|m IH]; intros Hq; [done|].
  change (2 + S m)%nat with (S (2 + m)). rewrite replicate_S_end.
  rewrite (ent_run_seq ts _ [false] _ _ (released fired d sq (Z.of_nat (S m) + 2)) [] [] (IH ltac:(lia))); [done|].
  unfold ent_run, ent_step, released. cbn [status kud]. unfold up_step. cbn [up_time kud].
  rewrite up_step_time by lia.
  destruct (Z.leb_spec (seq_key_detect_time k) (ts * (Z.of_nat m + 2))) as [Hle|Hgt].
  - exfalso. assert (quiet <= Z.of_nat m + 3); [|lia]. apply quiet_spec; [lia|].
    replace (Z.of_nat m + 3 - 1) with (Z.of_nat m + 2) by lia. done.
  - cbn. unfold set_up, up_after. cbn [kud status long_key_press down_time seq_key_cnt].
    destruct (Z.leb_spec (Z.of_nat (S m) + 2) 2); [lia|]. do 3 f_equal. lia.
Qed.
(** At rest: no key is down; what the entity remembers of a long press. *)
Definition rested (fired : bool) (e : KEY_ENTITY_S) : Prop :=
  status e = KEY_DOWN /\ kud e = k /\ long_key_press e = fired.

Definition keeps_fired (fired : bool) : bool := fired && negb (bool_decide (tp = LP_ONCE_TRIG)).

Lemma end_run fired d sq b : 0 <= sq -> sq + 1 <= INT_MAX -> exists e,
  run (replicate (Z.to_nat quiet) false ++ [b]) (held fired d sq) =
    Some (e, end_events tp (sq + 1) fired ++ [(RELEASE_KEY, 0)]) /\ rested (keeps_fired fired) e.
Proof.
  intros Hs Hm. pose proof quiet_bound as Hqb. assert (Hq3 : 3 <= quiet) by (unfold quiet; lia).
  set (m := Z.to_nat (quiet - 3)). replace (Z.to_nat quiet) with (S (2 + m)) by lia. rewrite replicate_S_end.
  pose proof (release_run m fired d sq ltac:(lia)) as Hr.
  set (n := if sq =? 0 then 0 else sq + 1).
  assert (He : end_events tp n fired = end_events tp (sq + 1) fired) by (subst n; by destruct (Z.eqb_spec sq 0) as [->|]).
  set (e1 := mk_ent k KEY_FINISH (keeps_fired fired) (ts * d) (ts * (Z.of_nat m + 2)) n).
  assert (Hf : run [false] (released fired d sq (Z.of_nat m + 2)) = Some (e1, end_events tp n fired)).
  { unfold ent_run, ent_step, released. cbn [status kud]. unfold up_step. cbn [up_time kud].
    rewrite up_step_time by lia. destruct (Z.leb_spec (seq_key_detect_time k) (ts * (Z.of_nat m + 2))) as [Hle|Hgt].
    - unfold finish_step, set_status, set_up. cbn [seq_key_cnt kud status long_key_press down_time up_time].
      assert ((if sq =? 0 then Some 0 else int_add sq 1) = Some n) as ->
        by (subst n; destruct (sq =? 0); [done|]; by apply int_add_some).
      cbn. by rewrite app_nil_r.
    - exfalso. assert (~ quiet <= Z.of_nat m + 3); [|lia]. rewrite <- quiet_spec by lia.
      replace (Z.of_nat m + 3 - 1) with (Z.of_nat m + 2) by lia. lia. }
  exists (set_status KEY_DOWN e1). split; [|done]. rewrite <- He.
  refine (ent_run_seq _ _ _ _ _ _ (end_events tp n fired) _ (ent_run_seq _ _ _ _ _ _ [] _ Hr Hf) _). done.
Qed.

(** *** Pressing *)

(** Where the next press begins: at rest, or between the presses of a gesture. *)
Definition may_press (e : KEY_ENTITY_S) (fired : bool) (d sq : Z) : Prop :=
  (rested fired e /\ d = 0 /\ sq = 0) \/
  (exists r, goes_on r /\ e = released fired d (sq - 1) (Z.of_nat r) /\ 1 <= sq <= INT_MAX).

Lemma press_run p e fired d sq : may_press e fired d sq -> held_ok d -> (2 <= p)%nat ->
  ts * (d + (Z.of_nat p - 2)) <= INT_MAX ->
  run (replicate p true) e =
    Some (held (fired || long_reached d (Z.of_nat p - 2)) (hold_rounds d (Z.of_nat p - 2)) sq,
          press_event ++ hold_events d (Z.of_nat p - 2) fired) /\ held_ok (hold_rounds d (Z.of_nat p - 2)).
Proof.
  intros Hmp Hok Hp Hb. replace p with (2 + (p - 2))%nat by lia. rewrite replicate_add.
  replace (Z.of_nat (2 + (p - 2)) - 2) with (Z.of_nat (p - 2)) in * by lia.
  replace (Z.of_nat p - 2) with (Z.of_nat (p - 2)) in Hb by lia.
  destruct (hold_run (p - 2) fired d sq Hok Hb) as [Hh Hok']. split; [|done].
  refine (ent_run_seq _ _ _ _ _ _ press_event _ _ Hh). destruct Hmp as [[(Hst & Hk & Hf) [-> ->]]|(r & [Hr Hu] & -> & Hsq)].
  - destruct e as [k0 st lk dt ut sq0]. cbn in *. subst. unfold ent_step, held, press_event. cbn.
    rewrite Z.mul_0_r. by destruct (falling_trig tp).
  - cbn [replicate ent_run]. unfold ent_step at 1, released. cbn [status]. unfold up_step. cbn [up_time kud seq_key_cnt].
    destruct (Z.leb_spec (seq_key_detect_time k) (up_after (Z.of_nat r))); [lia|].
    rewrite int_add_some by lia. cbn. unfold press_event, held, set_seq, set_up. cbn.
    replace (sq - 1 + 1) with sq by lia. by destruct (falling_trig tp).
Qed.

(** ** Gestures

    A gesture: presses, each with the samples it lasts and those of the release
    that follows it, and the last press. *)
Fixpoint gesture_samples (g : list (nat * nat)) (p : nat) (b : bool) : list bool :=
  match g with
  | [] => replicate p true ++ replicate (Z.to_nat quiet) false ++ [b]
  | (p', r) :: g => replicate p' true ++ replicate r false ++ gesture_samples g p b
  end.

Definition gesture_ok (g : list (nat * nat)) (p : nat) : Prop :=
  Forall (fun pr => (2 <= fst pr)%nat /\ goes_on (snd pr)) g /\ (2 <= p)%nat.

(** The events of presses that last [ps], after [sq] presses held for [d]. *)
Fixpoint gesture_events (ps : list nat) (d sq : Z) (fired : bool) : list EVENT :=
  match ps with
  | [] => end_events tp sq fired ++ [(RELEASE_KEY, 0)]
  | p :: ps =>
      press_event ++ hold_events d (Z.of_nat p - 2) fired ++
      gesture_events ps (hold_rounds d (Z.of_nat p - 2)) (sq + 1) (fired || long_reached d (Z.of_nat p - 2))
  end.
Fixpoint gesture_fired (ps : list nat) (d : Z) (fired : bool) : bool :=
  match ps with
  | [] => keeps_fired fired
  | p :: ps => gesture_fired ps (hold_rounds d (Z.of_nat p - 2)) (fired || long_reached d (Z.of_nat p - 2))
  end.

Lemma hold_rounds_le d n : held_ok d -> 0 <= n -> hold_rounds d n <= d + n.
Proof.
  intros [Hd _] Hn. unfold hold_rounds. destruct (more_trig tp); [|lia]. pose proof repeat_rounds_pos.
  apply Z.mod_le; lia.
Qed.

Lemma gesture_run g p b e fired d sq : gesture_ok g p -> may_press e fired d sq -> held_ok d -> 0 <= sq ->
  ts * (d + Z.of_nat (length (gesture_samples g p b))) <= INT_MAX ->
  sq + Z.of_nat (length (gesture_samples g p b)) <= INT_MAX -> exists e',
  run (gesture_samples g p b) e = Some (e', gesture_events ((fst <$> g) ++ [p]) d sq fired) /\
  rested (gesture_fired ((fst <$> g) ++ [p]) d fired) e'.
Proof.
  revert e fired d sq. induction g as [|[p' r] g IH]; intros e fired d sq [Hg Hp] Hmp Hok Hsq Hb Hsb;
    cbn [gesture_samples gesture_events gesture_fired fmap list_fmap app fst] in *.
  - rewrite !length_app, length_replicate in Hb, Hsb. cbn [length] in Hb, Hsb.
    destruct (press_run p e fired d sq Hmp Hok Hp ltac:(nia)) as [Hr Hok'].
    destruct (end_run (fired || long_reached d (Z.of_nat p - 2)) (hold_rounds d (Z.of_nat p - 2)) sq b Hsq ltac:(lia))
      as (e' & He & Hrest).
    exists e'. split; [|done]. rewrite (ent_run_seq _ _ _ _ _ _ _ _ Hr He). by rewrite <- app_assoc.
  - apply Forall_cons in Hg as [[Hp' Hgo] Hg]. cbn [fst snd] in *.
    rewrite !length_app, !length_replicate in Hb, Hsb.
    destruct (press_run p' e fired d sq Hmp Hok Hp' ltac:(nia)) as [Hr Hok'].
    set (d1 := hold_rounds d (Z.of_nat p' - 2)) in *. set (f1 := fired || long_reached d (Z.of_nat p' - 2)) in *.
    pose proof (hold_rounds_le d (Z.of_nat p' - 2) Hok ltac:(lia)) as Hle. fold d1 in Hle.
    assert (Hrel : run (replicate r false) (held f1 d1 sq) = Some (released f1 d1 sq (Z.of_nat r), [])).
    { pose proof Hgo as [Hr2 Hu]. replace r with (2 + (r - 2))%nat by lia. rewrite release_run; [do 2 f_equal; unfold released; do 2 f_equal; lia|].
      destruct (Z.lt_ge_cases (Z.of_nat (r - 2) + 2) quiet) as [|Hge]; [done|]. exfalso.
      unfold up_after in Hu. destruct (Z.leb_spec (Z.of_nat r) 2); [unfold quiet in Hge; lia|].
      assert (seq_key_detect_time k <= ts * (Z.of_nat r - 1)) by (apply quiet_spec; lia). lia. }
    destruct (IH (released f1 d1 sq (Z.of_nat r)) f1 d1 (sq + 1)) as (e' & He & Hrest); try done; try lia.
    { right. exists r. split; [done|]. replace (sq + 1 - 1) with sq by lia. split; [done|lia]. }
    { nia. }
    exists e'. split; [|done]. rewrite (ent_run_seq _ _ _ _ _ _ _ _ Hr (ent_run_seq _ _ _ _ _ _ _ _ Hrel He)).
    by rewrite <- app_assoc.
Qed.
(** *** Bounces *)

(** No two samples in a row show [x]. *)
Fixpoint isolated (x : bool) (xs : list bool) : Prop :=
  match xs with
  | [] => True
  | a :: xs => (a = x -> head xs <> Some x) /\ isolated x xs
  end.

(** A key at rest that bounces: every press lasts one sample. *)
Lemma bounce_run xs e fired : isolated true xs ->
  rested fired e \/ (status e = KEY_DOWN_CONFIRM /\ kud e = k /\ long_key_press e = fired /\ head xs <> Some true) ->
  exists e', run xs e = Some (e', []) /\ kud e' = k /\ long_key_press e' = fired /\
    (status e' = KEY_DOWN \/ status e' = KEY_DOWN_CONFIRM).
Proof.
  revert e. induction xs as [|x xs IH]; intros e Hi He.
  - exists e. destruct He as [(? & ? & ?)|(? & ? & ? & ?)]; by eauto.
  - destruct Hi as [Hh Hi]. destruct e as [k0 st lk dt ut sq]. cbn in He. cbn [ent_run].
    destruct He as [(Hst & Hk & Hf)|(Hst & Hk & Hf & Hx)]; cbn in *; subst; unfold ent_step; cbn.
    + edestruct IH as (e' & He' & ?); [done| |exists e'; rewrite He'; done].
      destruct x; [right|left]; repeat split. by apply Hh.
    + destruct x; [done|]. edestruct IH as (e' & He' & ?); [done| |exists e'; rewrite He'; done]. left. by repeat split.
Qed.

(** A key that is held and bounces: every release lasts one sample. *)
Lemma held_bounce_run xs e : isolated false xs -> kud e = k ->
  status e = KEY_DOWNNING \/ (status e = KEY_UP_CONFIRM /\ head xs <> Some false) ->
  0 <= down_time e -> down_time e + ts * Z.of_nat (length xs) <= INT_MAX ->
  exists e' evs, run xs e = Some (e', evs) /\ (status e' = KEY_DOWNNING \/ status e' = KEY_UP_CONFIRM) /\
    Forall (fun ev => fst ev = LONG_KEY \/ fst ev = NORMAL_KEY) evs.
Proof.
  revert e. induction xs as [|x xs IH]; intros e Hi Hk He Hd Hb.
  - exists e, []. cbn. repeat split; [|apply List.Forall_nil]. destruct He as [?|[? _]]; eauto.
  - destruct Hi as [Hh Hi]. destruct e as [k0 st lk dt ut sq]. cbn in *. subst k0.
    assert (Hgo : forall e1 evs1, ent_step ts x (mk_ent k st lk dt ut sq) = Some (e1, evs1) -> kud e1 = k ->
      status e1 = KEY_DOWNNING \/ (status e1 = KEY_UP_CONFIRM /\ head xs <> Some false) ->
      0 <= down_time e1 <= dt + ts -> Forall (fun ev => fst ev = LONG_KEY \/ fst ev = NORMAL_KEY) evs1 ->
      exists e' evs, match ent_step ts x (mk_ent k st lk dt ut sq) with
                     | Some (e', evs) => option_map (prod_map id (app evs)) (run xs e') | None => None end = Some (e', evs) /\
        (status e' = KEY_DOWNNING \/ status e' = KEY_UP_CONFIRM) /\
        Forall (fun ev => fst ev = LONG_KEY \/ fst ev = NORMAL_KEY) evs).
    { intros e1 evs1 Hs Hk1 He1 Hd1 Hf1. rewrite Hs.
      destruct (IH e1 Hi Hk1 He1 ltac:(lia) ltac:(lia)) as (e' & evs & -> & Hst & Hf). cbn.
      exists e', (evs1 ++ evs). split; [done|]. split; [done|]. by apply Forall_app. }
    destruct He as [->|[-> Hx]]; destruct x.
    + pose proof (int_add_some dt ts Hd ltac:(lia) ltac:(lia)) as Ha.
      unfold ent_step, down_step, set_down in Hgo |- *. cbn [status kud down_time long_key_press up_time seq_key_cnt] in Hgo |- *.
      rewrite Ha in Hgo |- *. cbn [option_map] in Hgo |- *. 
      destruct (once_trig tp && (long_key_time k <=? dt + ts) && negb lk);
        [|destruct (more_trig tp && (KEY_DOWN_CONT_TRIG_TIME_MS <=? dt + ts))];
        (eapply Hgo; [reflexivity|done|by left|cbn; lia|]); repeat (apply List.Forall_cons || apply List.Forall_nil); cbn; auto.
    + eapply Hgo; [reflexivity|done| |cbn; lia|apply List.Forall_nil]. right. split; [done|by apply Hh].
    + eapply Hgo; [|..]; unfold ent_step; cbn [status down_time].
      { by rewrite int_add_some by lia. } { done. } { by left. } { cbn; lia. } apply List.Forall_nil.
    + done.
Qed.
(** *** A key that is left alone *)

Lemma idle_run n e : status e = KEY_DOWN -> exists e', run (replicate n false) e = Some (e', []) /\ status e' = KEY_DOWN.
Proof.
  revert e. induction n as [|n IH]; intros e He; [by exists e|]. cbn [replicate ent_run]. unfold ent_step. rewrite He.
  destruct (IH (set_seq 0 (set_up 0 (set_down 0 e)))) as (e' & -> & ?); [done|]. by exists e'.
Qed.

(** The pause after which a key is told to have been released. *)
Definition told (n : nat) (e : KEY_ENTITY_S) : Prop := exists e' pre,
  run (replicate n false) e = Some (e', pre ++ [(RELEASE_KEY, 0)]) /\ status e' = KEY_DOWN.

Lemma told_finish n e : status e = KEY_FINISH -> told (S n) e.
Proof.
  intros He. destruct (idle_run n (set_status KEY_DOWN e)) as (e' & Hr & ?); [done|]. exists e', [].
  cbn [replicate ent_run]. unfold ent_step. by rewrite He, Hr.
Qed.

Lemma told_step n e e1 evs : ent_step ts false e = Some (e1, evs) -> told n e1 -> told (S n) e.
Proof.
  intros Hs (e' & pre & Hr & ?). exists e', (evs ++ pre). cbn [replicate ent_run]. rewrite Hs, Hr. cbn.
  by rewrite app_assoc.
Qed.

Lemma finish_step_some e : 0 <= seq_key_cnt e < INT_MAX ->
  exists e1 evs, finish_step e = Some (e1, evs) /\ status e1 = status e.
Proof.
  intros Hs. unfold finish_step. destruct (Z.eqb_spec (seq_key_cnt e) 0); rewrite ?int_add_some by lia; cbn; by eauto.
Qed.

Lemma uping_time u : 0 <= u <= 2 ^ 16 -> exists t,
  (if u =? 0 then int_add ts ts else int_add u ts) = Some t /\ u + ts <= t <= u + 2 * ts.
Proof.
  intros Hu. unfold TIMER_SPACE_MAX in Hts. assert (2 ^ 16 + 200 <= INT_MAX) by (unfold INT_MAX; lia).
  destruct (Z.eqb_spec u 0); rewrite int_add_some by lia; eexists; (split; [done|lia]).
Qed.

Lemma told_uping m n e : status e = KEY_UPING -> kud e = k -> 0 <= seq_key_cnt e < INT_MAX -> 0 <= up_time e <= 2 ^ 16 ->
  seq_key_detect_time k <= up_time e + ts * Z.of_nat (S m) -> told (S m + S n) e.
Proof.
  revert e. induction m as [|m IH]; intros e He Hk Hs Hu Hq;
    destruct (uping_time (up_time e) Hu) as (t & Ht & Hle);
    destruct (finish_step_some (set_status KEY_FINISH (set_up t e)) Hs) as (e1 & evs & Hf & Hst);
    destruct (Z.leb_spec (seq_key_detect_time k) t) as [Hge|Hlt]; try lia.
  1, 2: apply (told_step _ _ e1 evs); [|rewrite ?Nat.add_succ_r; by apply told_finish];
    unfold ent_step, up_step; rewrite He, Hk, Ht; by destruct (Z.leb_spec (seq_key_detect_time k) t); [|lia].
  apply (told_step _ _ (set_up t e) []).
  - unfold ent_step, up_step. rewrite He, Hk, Ht. by destruct (Z.leb_spec (seq_key_detect_time k) t); [lia|].
  - apply IH; cbn; try done; lia.
Qed.

(** Whatever the state of the scanner, [quiet + 2] samples without a press put
    it to rest; a press it has confirmed is told to have been released. *)
Lemma settle_run n e : kud e = k -> 0 <= seq_key_cnt e < INT_MAX ->
  (status e = KEY_UPING \/ status e = KEY_UP_CONFIRM -> 0 <= up_time e <= 2 ^ 16) -> quiet + 2 <= Z.of_nat n ->
  exists e' evs, run (replicate n false) e = Some (e', evs) /\ status e' = KEY_DOWN /\
    if bool_decide (status e = KEY_DOWN) || bool_decide (status e = KEY_DOWN_CONFIRM) then evs = []
    else last evs = Some (RELEASE_KEY, 0).
Proof.
  intros Hk Hs Hu Hn.
  assert (Hc : forall j, 0 <= j -> quiet <= j + 2 -> seq_key_detect_time k <= ts * (j + 1)).
  { intros j Hj Hq. replace (j + 1) with (j + 2 - 1) by lia. destruct (Z.le_gt_cases 3 (j + 2)).
    - by apply quiet_spec.
    - unfold quiet in Hq. lia. }
  assert (Htold : told n e -> exists e' evs, run (replicate n false) e = Some (e', evs) /\ status e' = KEY_DOWN /\ last evs = Some (RELEASE_KEY, 0)).
  { intros (e' & pre & Hr & He'). exists e', (pre ++ [(RELEASE_KEY, 0)]). by rewrite last_snoc. }
  assert (Hq3 : 3 <= quiet) by (unfold quiet; lia).
  assert (Huping : forall j e, status e = KEY_UPING -> kud e = k -> 0 <= seq_key_cnt e < INT_MAX ->
    0 <= up_time e <= 2 ^ 16 -> quiet <= Z.of_nat j -> told j e).
  { intros j e1 H1 H2 H3 H4 H5. replace j with (S (j - 2) + 1)%nat by lia. apply told_uping; try done.
    pose proof (Hc (Z.of_nat (j - 2)) ltac:(lia) ltac:(lia)). lia. }
  destruct (status e) eqn:He; cbn [orb].
  - rewrite bool_decide_true by done. destruct (idle_run n e He) as (e' & ? & ?). by exists e', [].
  - rewrite orb_comm, bool_decide_true by done. destruct n as [|n]; [lia|].
    destruct (idle_run n (set_down 0 (set_status KEY_DOWN e))) as (e' & Hr & ?); [done|]. exists e', [].
    cbn [replicate ent_run]. unfold ent_step. rewrite He. cbn [andb]. by rewrite Hr.
  - apply Htold. destruct n as [|[|n]]; try lia.
    apply (told_step _ _ (set_up 0 (set_status KEY_UP_CONFIRM e)) []); [by unfold ent_step; rewrite He|].
    apply (told_step _ _ (set_status KEY_UPING (set_up 0 (set_status KEY_UP_CONFIRM e))) []); [done|].
    apply Huping; cbn; try done; lia.
  - apply Htold. destruct n as [|n]; try lia.
    apply (told_step _ _ (set_status KEY_UPING e) []); [by unfold ent_step; rewrite He|].
    apply Huping; cbn; try done; [|lia]. apply Hu. auto.
  - apply Htold, Huping; try done; [|lia]. apply Hu. auto.
  - apply Htold. destruct n as [|n]; try lia. by apply told_finish.
Qed.
End Runs.
