(* ===== verification/KeyDriver.v ===== *)
(** The key driver as a whole: every registered key is scanned on its own, so
    the gestures of KeyGestures are what its callback gets; a single stray
    sample is never reported; a key let go is told. *)
From S2P Require Import Prelude.
From S2P Require Import World.
From S2P Require Import TmHost.
From S2P Require Import ModeHost.
From S2P Require Import Keys.
From S2P Require Import KeyGestures.

#[local] Open Scope Z_scope.

(** ** One round *)

(** The keys that are scanned, in order. *)
Definition all_keys (m : KEY_MANAGE_S) : list KEY_ENTITY_S := p_tbl m ++ lst m.

Definition event_of (p : Z) (fx : KEY_FX) : option EVENT :=
  match fx with
  | KxEvent _ p' type cnt => if p' =? p then Some (type, cnt) else None
  | _ => None
  end.
(** What has been reported of the pin [p], in order. *)
Definition key_events (p : Z) (w : KeyWorld) : list EVENT := omap (event_of p) (reverse (kw_trace w)).

Lemma key_events_add p fx w : key_events p (kw_add fx w) = key_events p w ++ option_list (event_of p fx).
Proof.
  unfold key_events, kw_add. cbn [kw_trace]. by rewrite reverse_cons, omap_app.
Qed.

Definition port_events (p p' : Z) (evs : list EVENT) : list EVENT := if p' =? p then evs else [].

Lemma key_events_report p f p' evs w : key_events p (report f p' evs w) = key_events p w ++ port_events p p' evs.
Proof.
  unfold port_events. revert w. induction evs as [|[ty c] evs IH]; intros w.
  - cbn. by destruct (p' =? p); rewrite app_nil_r.
  - unfold report in *. cbn [fold_left]. rewrite IH, key_events_add. cbn [event_of fst snd].
    destruct (p' =? p); cbn; by rewrite <- app_assoc.
Qed.

Definition same_pins (w w' : KeyWorld) : Prop := kw_level w' = kw_level w /\ kw_round w' = kw_round w.

Lemma report_same f p evs w : same_pins w (report f p evs w).
Proof.
  revert w. induction evs as [|ev evs IH]; intros w; [done|].
  exact (IH (kw_add (KxEvent f p ev.1 ev.2) w)).
Qed.

Definition sample (w : KeyWorld) (e : KEY_ENTITY_S) : bool :=
  pressed (kud e) (kw_level w (kw_round w) (port (kud e))).
(** The samples of the next [n] rounds. *)
Definition samples (w : KeyWorld) (n : nat) (e : KEY_ENTITY_S) : list bool :=
  (fun j => pressed (kud e) (kw_level w (kw_round w + j) (port (kud e)))) <$> seq 0 n.

Lemma sample_same w w' e : same_pins w w' -> sample w' e = sample w e.
Proof. unfold sample. by intros [-> ->]. Qed.

Definition has_callback (e : KEY_ENTITY_S) : Prop := is_Some (call_back (kud e)).

Definition after (r : option (KEY_ENTITY_S * list EVENT)) (e : KEY_ENTITY_S) : KEY_ENTITY_S := from_option fst e r.
Definition told_events (r : option (KEY_ENTITY_S * list EVENT)) : list EVENT := from_option snd [] r.

Lemma proc_all_wp ts es w : Forall has_callback es -> Forall (fun e => is_Some (ent_step ts (sample w e) e)) es ->
  wp (proc_all ts es) (fun es' w' => same_pins w w' /\ es' = (fun e => after (ent_step ts (sample w e) e) e) <$> es /\
    forall p, key_events p w' = key_events p w ++
      flat_map (fun e => port_events p (port (kud e)) (told_events (ent_step ts (sample w e) e))) es) w.
Proof.
  revert w. induction es as [|e es IH]; intros w Hcb Hs.
  - cbn. split_and!; try done. intros p. by rewrite app_nil_r.
  - apply Forall_cons in Hcb as [[f Hf] Hcb]. apply Forall_cons in Hs as [[[e1 evs] He] Hs].
    cbn [proc_all]. apply wp_bind. eapply wp_intro; [rewrite (ent_proc_eq _ _ f) by done; unfold sample in He; by rewrite He|].
    cbn [fst snd]. set (w1 := report f (port (kud e)) evs w).
    pose proof (report_same f (port (kud e)) evs w : same_pins w w1) as Hw1.
    assert (Hsm : forall e, sample w1 e = sample w e) by (intros; by apply sample_same).
    apply wp_bind. eapply wp_mono; [apply IH; [done|]|].
    { eapply Forall_impl; [done|]. intros x Hx. by rewrite Hsm. }
    intros es' w' ([Hl Hr] & -> & Hev). apply wp_ret. destruct Hw1 as [Hl1 Hr1].
    split; [split; congruence|]. rewrite !fmap_cons, He. cbn [after from_option fst]. split.
    + f_equal. apply list_fmap_ext. intros i x _. by rewrite Hsm.
    + intros p. rewrite Hev. cbn [flat_map]. unfold w1 at 1. rewrite key_events_report, He. cbn [told_events from_option snd].
      rewrite <- app_assoc. do 2 f_equal. apply flat_map_ext. intros x. by rewrite Hsm.
Qed.

Lemma proc_all_app ts a b w :
  proc_all ts (a ++ b) w = cbind (proc_all ts a) (fun a' => cbind (proc_all ts b) (fun b' => cret (a' ++ b'))) w.
Proof.
  revert w. induction a as [|e a IH]; intros w; unfold cbind in *; cbn [proc_all app].
  - cbn. by destruct (proc_all ts b w) as [[? ?]|].
  - unfold cbind. destruct (__key_ent_proc ts e w) as [[e' w1]|]; [|done]. rewrite IH.
    destruct (proc_all ts a w1) as [[a' w2]|]; [|done]. cbn.
    by destruct (proc_all ts b w2) as [[b' w3]|].
Qed.

Definition mag_is (m : KEY_MANAGE_S) (s : KEY_STATICS) : Prop := key_mag s = Some m.

Lemma handle_wp m s w (Q : unit -> KEY_STATICS * KeyWorld -> Prop) : key_mag s = Some m ->
  wp (proc_all (timer_space m) (all_keys m))
     (fun es w' => forall m', all_keys m' = es -> timer_space m' = timer_space m ->
        Q tt (mk_keys (Some m') (key_handle s) (has_enter_irq s) (tickless_endisable s) (keep_time_val s), w')) w ->
  wp __key_handle Q (s, w).
Proof.
  intros Hm HQ. unfold wp in *. unfold all_keys in HQ. rewrite proc_all_app in HQ. unfold cbind in HQ.
  unfold __key_handle, the_mag, get_ctx, cget, cbind, cpure, on_host. cbn. rewrite Hm. cbn.
  destruct (proc_all (timer_space m) (p_tbl m) w) as [[t w1]|]; [|done].
  destruct (proc_all (timer_space m) (lst m) w1) as [[l w2]|]; [|done]. cbn in *. by apply HQ.
Qed.

(** ** Several rounds *)

Section Rounds.
Variable ts : Z.

Definition runs_ok (n : nat) (w : KeyWorld) (e : KEY_ENTITY_S) : Prop := is_Some (ent_run ts (samples w n e) e).

Lemma samples_S w n e : samples w (S n) e =
  sample w e :: samples (mk_kw (kw_level w) (S (kw_round w)) (kw_heap w) (kw_allocs w) (kw_os w) (kw_calls w) (kw_trace w)) n e.
Proof.
  unfold samples, sample. cbn [seq]. rewrite fmap_cons, Nat.add_0_r. f_equal.
  rewrite <- fmap_S_seq, <- list_fmap_compose. apply list_fmap_ext. intros i j _. cbn.
  by replace (kw_round w + S j)%nat with (S (kw_round w + j)) by lia.
Qed.

Lemma samples_pins w w' n e e' : same_pins w w' -> kud e' = kud e -> samples w' n e' = samples w n e.
Proof. intros [Hl Hr] Hk. unfold samples. by rewrite Hl, Hr, Hk. Qed.

(** The ports of the keys are distinct, and their callbacks are functions. *)
Definition keys_ok (es : list KEY_ENTITY_S) : Prop :=
  Forall has_callback es /\ NoDup ((fun e => port (kud e)) <$> es).

(** One round of the loop: scan and sleep. *)
Definition scan_round : KeyM unit :=
  let* _ := __key_handle in
  let* m := the_mag in
  on_host (tal_system_sleep (timer_space m)).

Definition round_done (m : KEY_MANAGE_S) (w : KeyWorld) (m1 : KEY_MANAGE_S) (w1 : KeyWorld) : Prop :=
  timer_space m1 = timer_space m /\ kw_level w1 = kw_level w /\ kw_round w1 = S (kw_round w) /\
  all_keys m1 = (fun e => after (ent_step ts (sample w e) e) e) <$> all_keys m /\
  forall e, e ∈ all_keys m -> key_events (port (kud e)) w1 =
    key_events (port (kud e)) w ++ told_events (ent_step ts (sample w e) e).

Lemma round_wp s w m : key_mag s = Some m -> timer_space m = ts -> keys_ok (all_keys m) ->
  Forall (fun e => is_Some (ent_step ts (sample w e) e)) (all_keys m) ->
  wp scan_round (fun _ r => exists m1, key_mag (fst r) = Some m1 /\ round_done m w m1 (snd r)) (s, w).
Proof.
  intros Hm Hts [Hcb Hnd] Hstep. unfold scan_round. apply wp_bind, (handle_wp m); [done|]. rewrite Hts.
  eapply wp_mono; [by apply proc_all_wp|]. intros es w1 ([Hl1 Hr1] & -> & Hev1) m1 Hm1 Hts1.
  unfold the_mag, get_ctx. apply wp_bind, wp_bind, wp_get, wp_pure with m1; [done|].
  apply wp_host. unfold tal_system_sleep, kw_emit. apply wp_bind, wp_mod, wp_mod.
  exists m1. cbn [fst snd]. split; [done|]. unfold round_done. cbn [kw_level kw_round kw_add]. split_and!; try congruence.
  intros e He. transitivity (key_events (port (kud e)) (kw_add (KxSleep (timer_space m1)) w1)); [done|].
  rewrite key_events_add, Hev1. cbn [event_of option_list]. rewrite app_nil_r. f_equal.
  by apply (flat_map_key (fun x => port (kud x)) (fun x => told_events (ent_step ts (sample w x) x))).
Qed.

Lemma round_kud w e : kud (after (ent_step ts (sample w e) e) e) = kud e.
Proof. destruct (ent_step ts (sample w e) e) as [[e1 evs]|] eqn:He; [|done]. cbn. by eapply ent_step_kud. Qed.

Lemma round_keys_ok m w m1 w1 : round_done m w m1 w1 -> keys_ok (all_keys m) -> keys_ok (all_keys m1).
Proof.
  intros (_ & _ & _ & Hk & _) [Hcb Hnd]. rewrite Hk. split.
  - apply Forall_fmap. eapply Forall_impl; [exact Hcb|]. intros e. unfold compose, has_callback. by rewrite round_kud.
  - rewrite <- list_fmap_compose. erewrite list_fmap_ext; [exact Hnd|]. intros i e _. unfold compose. by rewrite round_kud.
Qed.

(** The first of the runs to come, and the others. *)
Lemma runs_ok_S n w e : runs_ok (S n) w e -> exists e1 evs, ent_step ts (sample w e) e = Some (e1, evs) /\
  forall w1, kw_level w1 = kw_level w -> kw_round w1 = S (kw_round w) -> exists e2 evs2,
    ent_run ts (samples w1 n e1) e1 = Some (e2, evs2) /\ ent_run ts (samples w (S n) e) e = Some (e2, evs ++ evs2).
Proof.
  unfold runs_ok. rewrite samples_S. set (w0 := mk_kw _ _ _ _ _ _ _). cbn [ent_run]. intros [x Hx].
  destruct (ent_step ts (sample w e) e) as [[e1 evs]|] eqn:Hs; [|done]. exists e1, evs. split; [done|].
  intros w1 Hl Hr. assert (Heq : samples w1 n e1 = samples w0 n e)
    by (apply samples_pins; [split; cbn; congruence|by eapply ent_step_kud]).
  rewrite Heq. destruct (ent_run ts (samples w0 n e) e1) as [[e2 evs2]|]; [|done]. by exists e2, evs2.
Qed.

Lemma scan_rounds_S n sw : scan_rounds (S n) sw = cbind scan_round (fun _ => scan_rounds n) sw.
Proof.
  cbn [scan_rounds]. unfold scan_round, cbind. destruct (__key_handle sw) as [[u r]|]; [|done].
  destruct (the_mag r) as [[m r']|]; [|done]. done.
Qed.

Lemma scan_wp n s w m : key_mag s = Some m -> timer_space m = ts -> keys_ok (all_keys m) ->
  Forall (runs_ok n w) (all_keys m) ->
  wp (scan_rounds n) (fun _ r => exists m', key_mag (fst r) = Some m' /\ timer_space m' = ts /\
      kw_level (snd r) = kw_level w /\ kw_round (snd r) = (kw_round w + n)%nat /\
      all_keys m' = (fun e => after (ent_run ts (samples w n e) e) e) <$> all_keys m /\
      forall e, e ∈ all_keys m -> key_events (port (kud e)) (snd r) =
        key_events (port (kud e)) w ++ told_events (ent_run ts (samples w n e) e)) (s, w).
Proof.
  revert s w m. induction n as [|n IH]; intros s w m Hm Hts Hok Hr.
  - apply wp_ret. exists m. cbn [fst snd samples]. repeat (split; [done || lia|]). split.
    + symmetry. apply list_fmap_id.
    + intros e _. cbn. by rewrite app_nil_r.
  - assert (Hrun : forall e, e ∈ all_keys m -> runs_ok (S n) w e) by (by apply Forall_forall).
    unfold wp. rewrite scan_rounds_S. apply wp_bind. eapply wp_mono.
    { apply (round_wp s w m Hm Hts Hok). apply Forall_forall. intros e He.
      destruct (runs_ok_S n w e (Hrun e He)) as (e1 & evs & -> & _). done. }
    intros _ [s1 w1] (m1 & Hm1 & Hd). cbn [fst snd] in *. pose proof Hd as (Ht1 & Hl1 & Hr1 & Hk1 & Hev1).
    assert (Hnext : forall e, e ∈ all_keys m -> exists e1 evs e2 evs2, ent_step ts (sample w e) e = Some (e1, evs) /\
        ent_run ts (samples w1 n e1) e1 = Some (e2, evs2) /\ ent_run ts (samples w (S n) e) e = Some (e2, evs ++ evs2)).
    { intros e He. destruct (runs_ok_S n w e (Hrun e He)) as (e1 & evs & Hs & Hn).
      destruct (Hn w1 Hl1 Hr1) as (e2 & evs2 & ? & ?). by exists e1, evs, e2, evs2. }
    eapply wp_mono; [apply (IH _ _ m1); [done|congruence|by eapply round_keys_ok|]|].
    + rewrite Hk1. apply Forall_fmap, Forall_forall. intros e He. unfold compose, runs_ok.
      destruct (Hnext e He) as (e1 & evs & e2 & evs2 & Hs & H1 & _). rewrite Hs. cbn [after from_option fst]. by rewrite H1.
    + intros _ [s' w'] (m' & Hm' & Hts' & Hl' & Hr' & Hk' & Hev'). cbn [fst snd] in *. exists m'.
      split_and!; [done|done|congruence|lia| |].
      * rewrite Hk', Hk1, <- list_fmap_compose. apply list_fmap_ext. intros i e He%list_elem_of_lookup_2. unfold compose.
        destruct (Hnext e He) as (e1 & evs & e2 & evs2 & Hs & H1 & Hru). rewrite Hru, Hs. cbn [after from_option fst]. by rewrite H1.
      * intros e He. destruct (Hnext e He) as (e1 & evs & e2 & evs2 & Hs & H1 & Hru).
        assert (He1 : e1 ∈ all_keys m1).
        { rewrite Hk1. replace e1 with (after (ent_step ts (sample w e) e) e) by (by rewrite Hs).
          by apply (list_elem_of_fmap_2 (fun e => after (ent_step ts (sample w e) e) e)). }
        pose proof (ent_step_kud _ _ _ _ _ Hs) as Hke. rewrite <- Hke, (Hev' e1 He1), Hke, (Hev1 e He), Hru, Hs, H1. cbn.
        by rewrite <- app_assoc.
Qed.
End Rounds.

(** ** Counters far from overflow *)

Definition counters_below (b : Z) (e : KEY_ENTITY_S) : Prop :=
  0 <= down_time e <= b /\ 0 <= up_time e <= b /\ 0 <= seq_key_cnt e <= b.

Lemma ent_step_some ts b x e : 0 < ts -> counters_below b e -> b + 2 * ts <= INT_MAX ->
  exists e' evs, ent_step ts x e = Some (e', evs) /\ counters_below (b + 2 * ts) e'.
Proof.
  intros Hts (Hd & Hu & Hs) Hb. destruct e as [k st lk dt ut sq]. unfold counters_below in *. cbn in Hd, Hu, Hs.
  assert (Hf : forall ut, 0 <= ut <= b + 2 * ts -> exists e' evs, finish_step (mk_ent k KEY_FINISH lk dt ut sq) = Some (e', evs) /\
      0 <= down_time e' <= b + 2 * ts /\ 0 <= up_time e' <= b + 2 * ts /\ 0 <= seq_key_cnt e' <= b + 2 * ts).
  { intros ut' Hu'. unfold finish_step. cbn [seq_key_cnt].
    destruct (sq =? 0); rewrite ?int_add_some by lia; cbn; eexists _, _; (split; [done|]); cbn; lia. }
  destruct st, x; unfold ent_step; cbn [status down_time]; rewrite ?int_add_some by lia; cbn [option_map].
  all: try (eexists _, _; split; [done|]; cbn; lia).
  - unfold down_step, set_down, set_long. cbn [kud down_time long_key_press status up_time seq_key_cnt].
    repeat case_match; eexists _, _; (split; [done|]); cbn; lia.
  - unfold up_step. cbn [kud up_time seq_key_cnt]. rewrite int_add_some by lia. cbn [option_map].
    destruct (seq_key_detect_time k <=? ut); [apply Hf; cbn; lia|]. eexists _, _; split; [done|]; cbn; lia.
  - unfold up_step. cbn [kud up_time]. destruct (ut =? 0); rewrite int_add_some by lia.
    all: case_match; [apply Hf; cbn; lia|]; eexists _, _; (split; [done|]); cbn; lia.
Qed.

Lemma ent_run_some ts b xs e : 0 < ts -> counters_below b e -> b + 2 * ts * Z.of_nat (length xs) <= INT_MAX ->
  is_Some (ent_run ts xs e).
Proof.
  intros Hts. revert b e. induction xs as [|x xs IH]; intros b e Hc Hb; [done|]. cbn [length] in Hb.
  destruct (ent_step_some ts b x e Hts Hc ltac:(nia)) as (e1 & evs & Hs & Hc1). cbn [ent_run]. rewrite Hs.
  destruct (IH (b + 2 * ts) e1 Hc1 ltac:(nia)) as [r Hr]. rewrite Hr. by eexists.
Qed.

(** ** What a client of the driver relies on *)

Definition scanning (s : KEY_STATICS) (m : KEY_MANAGE_S) : Prop :=
  key_mag s = Some m /\ 0 < timer_space m <= TIMER_SPACE_MAX /\ keys_ok (all_keys m).
(** [n] rounds overflow no counter of any key. *)
Definition room (n : nat) (m : KEY_MANAGE_S) : Prop :=
  Forall (fun e => exists b, counters_below b e /\ b + 2 * timer_space m * Z.of_nat n <= INT_MAX) (all_keys m).
Definition kud_ok (k : KEY_USER_DEF_S) : Prop :=
  0 <= seq_key_detect_time k < 2 ^ 16 /\ 0 <= long_key_time k < 2 ^ 16.

Lemma length_samples w n e : length (samples w n e) = n.
Proof. unfold samples. by rewrite length_fmap, length_seq. Qed.

(** After [n] rounds the key is in the state [e'] and [evs] has been reported. *)
Definition scanned (n : nat) (s : KEY_STATICS) (w : KeyWorld) (e e' : KEY_ENTITY_S) (evs : list EVENT) : Prop :=
  exists s' w' m', scan_rounds n (s, w) = Some (tt, (s', w')) /\ key_mag s' = Some m' /\ e' ∈ all_keys m' /\
    key_events (port (kud e)) w' = key_events (port (kud e)) w ++ evs.

Lemma scanned_run n s w m e e' evs : scanning s m -> room n m -> e ∈ all_keys m ->
  ent_run (timer_space m) (samples w n e) e = Some (e', evs) -> scanned n s w e e' evs.
Proof.
  intros (Hm & Hts & Hok) Hroom He Hrun.
  assert (Hr : Forall (runs_ok (timer_space m) n w) (all_keys m)).
  { eapply Forall_impl; [exact Hroom|]. intros x (b & Hc & Hb). apply (ent_run_some _ b); [lia|done|]. by rewrite length_samples. }
  destruct (wp_elim _ _ _ (scan_wp (timer_space m) n s w m Hm eq_refl Hok Hr)) as ([] & [s' w'] & Hs & m' & Hm' & _ & _ & _ & Hk & Hev).
  exists s', w', m'. cbn [fst snd] in *. split_and!; [done|done| |].
  - rewrite Hk. replace e' with (after (ent_run (timer_space m) (samples w n e) e) e) by (by rewrite Hrun).
    by apply (list_elem_of_fmap_2 (fun e => after (ent_run (timer_space m) (samples w n e) e) e)).
  - by rewrite (Hev e He), Hrun.
Qed.

Lemma room_in n m e : room n m -> e ∈ all_keys m ->
  exists b, counters_below b e /\ b + 2 * timer_space m * Z.of_nat n <= INT_MAX.
Proof. intros Hr He. by apply (proj1 (Forall_forall _ _) Hr). Qed.

(** C23. Gestures: a key at rest whose pin shows presses of at least two samples
    each, with releases short enough for the gesture to go on, reports exactly
    the events of that gesture (for every kind of key: the event of each press,
    the long press or the repetitions while it is held, SEQ_KEY with the number
    of presses or NORMAL_KEY at the end, and RELEASE_KEY), whatever the other
    keys do, and is at rest again. *)
Theorem key_gestures n s w m e g p b : scanning s m -> room n m -> e ∈ all_keys m -> kud_ok (kud e) ->
  rested (kud e) (long_key_press e) e -> gesture_ok (timer_space m) (kud e) g p ->
  samples w n e = gesture_samples (timer_space m) (kud e) g p b ->
  exists e', rested (kud e) (gesture_fired (timer_space m) (kud e) ((fst <$> g) ++ [p]) 0 (long_key_press e)) e' /\
    scanned n s w e e' (gesture_events (timer_space m) (kud e) ((fst <$> g) ++ [p]) 0 0 (long_key_press e)).
Proof.
  intros Hsc Hroom He [Hq Hl] Hrest Hg Hsm. pose proof Hsc as (_ & Hts & _).
  destruct (room_in n m e Hroom He) as (bd & [Hbd _] & Hb).
  assert (Hlen : length (gesture_samples (timer_space m) (kud e) g p b) = n) by (by rewrite <- Hsm, length_samples).
  destruct (gesture_run (timer_space m) Hts (kud e) Hq g p b e (long_key_press e) 0 0) as (e' & Hrun & Hr'); try done.
  - by left.
  - split; [lia|]. intros _. pose proof (repeat_rounds_pos (timer_space m) Hts). lia.
  - rewrite Hlen. nia.
  - rewrite Hlen. nia.
  - exists e'. split; [done|]. apply (scanned_run n s w m); try done. by rewrite Hsm.
Qed.

(** Bounces: isolated samples are never reported. A key at rest that shows
    no two pressed samples in a row reports nothing, and a key that is held
    down and shows no two released samples in a row is not reported as
    released. *)
Theorem key_debounced n s w m e : scanning s m -> room n m -> e ∈ all_keys m -> kud_ok (kud e) ->
  (status e = KEY_DOWN -> isolated true (samples w n e) -> exists e', scanned n s w e e' [] /\
     (status e' = KEY_DOWN \/ status e' = KEY_DOWN_CONFIRM)) /\
  (status e = KEY_DOWNNING -> isolated false (samples w n e) -> exists e' evs, scanned n s w e e' evs /\
     (status e' = KEY_DOWNNING \/ status e' = KEY_UP_CONFIRM) /\
     Forall (fun ev => fst ev = LONG_KEY \/ fst ev = NORMAL_KEY) evs).
Proof.
  intros Hsc Hroom He Hk. pose proof Hsc as (_ & Hts & _). split; intros Hst Hi.
  - destruct (bounce_run (timer_space m) (kud e) (samples w n e) e (long_key_press e) Hi) as (e' & Hrun & _ & _ & Hst').
    { by left. }
    exists e'. split; [|done]. by apply (scanned_run n s w m).
  - destruct (room_in n m e Hroom He) as (bd & [Hbd _] & Hb).
    destruct (held_bounce_run (timer_space m) Hts (kud e) (samples w n e) e Hi) as (e' & evs & Hrun & Hst' & Hf); try done.
    + by left.
    + lia.
    + rewrite length_samples. nia.
    + exists e', evs. split; [|done]. by apply (scanned_run n s w m).
Qed.

(** Every press ends: when the samples show a key let go for long enough,
    its scanner is at rest, and a press it had confirmed has been reported as
    released last of all. *)
Theorem key_released n s w m e : scanning s m -> room n m -> e ∈ all_keys m -> kud_ok (kud e) ->
  (status e = KEY_UPING \/ status e = KEY_UP_CONFIRM -> up_time e <= 2 ^ 16) ->
  quiet (timer_space m) (kud e) + 2 <= Z.of_nat n -> samples w n e = replicate n false ->
  exists e' evs, scanned n s w e e' evs /\ status e' = KEY_DOWN /\
    if bool_decide (status e = KEY_DOWN) || bool_decide (status e = KEY_DOWN_CONFIRM) then evs = []
    else last evs = Some (RELEASE_KEY, 0).
Proof.
  intros Hsc Hroom He [Hq Hl] Hu Hn Hsm. pose proof Hsc as (_ & Hts & _).
  destruct (room_in n m e Hroom He) as (bd & (Hd & Hut & Hs) & Hb).
  destruct (settle_run (timer_space m) Hts (kud e) Hq n e) as (e' & evs & Hrun & Hst & Hev); try done.
  - unfold quiet in Hn. nia.
  - intros H. split; [lia|auto].
  - exists e', evs. split; [|done]. apply (scanned_run n s w m); try done. by rewrite Hsm.
Qed.

(** ** At the talk key of the toy *)

(** The definition of a key of the toy. *)
Definition toy_kud (pin : Z) (low : bool) (seqk longk : Z) (f : nat) : KEY_USER_DEF_S :=
  mk_kud pin low LP_ONCE_TRIG (u16 longk) (u16 seqk) (Some f).
Definition talk_key : KEY_ENTITY_S := ent_zero (toy_kud 12 true 200 400 7).
Definition talk_mag : KEY_MANAGE_S := mk_manage [] true 20 [talk_key] true (Some 0%nat).
Definition talk_keys : KEY_STATICS := mk_keys (Some talk_mag) true false true (70 * 1000).
(** The pin is low in the rounds of [xs] that are [true]. *)
Definition pin_world (xs : list bool) : KeyWorld :=
  mk_kw (fun n _ => if nth n xs false then 0 else 1) 0 (fun _ => true) 0 (fun _ => OPRT_OK) 0 [].

Lemma talk_scanning e : scanning (mk_keys (Some (with_tbl [] [set_kud (kud talk_key) e] talk_mag)) true false true (70 * 1000))
  (with_tbl [] [set_kud (kud talk_key) e] talk_mag).
Proof.
  split; [done|]. split; [done|]. split; [repeat constructor; by eexists|]. apply NoDup_singleton.
Qed.

(** A double press whose second press is held reports LONG_KEY as well, and
    counts the first press for it. *)
Lemma key_gestures_witness : exists e',
  rested (kud talk_key) false e' /\
  scanned 44 talk_keys (pin_world (gesture_samples 20 (kud talk_key) [(3, 4)] 25 false)%nat) talk_key e'
    [(LONG_KEY, 0); (SEQ_KEY, 2); (RELEASE_KEY, 0)].
Proof.
  apply (key_gestures 44 talk_keys (pin_world (gesture_samples 20 (kud talk_key) [(3, 4)] 25 false)%nat) talk_mag talk_key
           [(3, 4)]%nat 25%nat false).
  - apply (talk_scanning talk_key).
  - apply List.Forall_cons; [|apply List.Forall_nil]. exists 0. by vm_compute.
  - by apply list_elem_of_singleton.
  - by vm_compute.
  - done.
  - split; [apply List.Forall_cons; [|apply List.Forall_nil]|lia]. split; [cbn; lia|]. split; [cbn; lia|]. by vm_compute.
  - by vm_compute.
Defined.

Lemma key_debounced_witness :
  (status talk_key = KEY_DOWN -> isolated true (samples (pin_world [true; false; true]) 4 talk_key) ->
     exists e', scanned 4 talk_keys (pin_world [true; false; true]) talk_key e' [] /\
       (status e' = KEY_DOWN \/ status e' = KEY_DOWN_CONFIRM)) /\
  isolated true (samples (pin_world [true; false; true]) 4 talk_key).
Proof.
  split; [|vm_compute; intuition done].
  apply (key_debounced 4 talk_keys (pin_world [true; false; true]) talk_mag talk_key).
  - apply (talk_scanning talk_key).
  - apply List.Forall_cons; [|apply List.Forall_nil]. exists 0. by vm_compute.
  - by apply list_elem_of_singleton.
  - by vm_compute.
Defined.

(** The talk key held down. *)
Definition held_key : KEY_ENTITY_S := mk_ent (kud talk_key) KEY_DOWNNING true 500 0 0.
Definition held_mag : KEY_MANAGE_S := mk_manage [] true 20 [held_key] true (Some 0%nat).
Definition held_keys : KEY_STATICS := mk_keys (Some held_mag) true false true (70 * 1000).

Lemma key_released_witness : exists e' evs, scanned 13 held_keys (pin_world []) held_key e' evs /\ status e' = KEY_DOWN /\
  last evs = Some (RELEASE_KEY, 0).
Proof.
  apply (key_released 13 held_keys (pin_world []) held_mag held_key).
  - apply (talk_scanning held_key).
  - apply List.Forall_cons; [|apply List.Forall_nil]. exists 500. by vm_compute.
  - by apply list_elem_of_singleton.
  - by vm_compute.
  - intros [H|H]; discriminate H.
  - by vm_compute.
  - reflexivity.
Defined.
