(* ===== verification/KeyThread.v ===== *)
(** Around the scanner: starting the driver, registering keys, installing those of
    the toy, and the interleaving of the scanning thread with the interrupt of a
    pin and the timer that ends the polling. *)
From S2P Require Import Prelude.
From S2P Require Import World.
From S2P Require Import TmHost.
From S2P Require Import ModeHost.
From S2P Require Import Keys.
From S2P Require Import KeyGestures.
From S2P Require Import KeyDriver.

#[local] Open Scope Z_scope.

(** ** Starting *)

(** Started: mutex, timer, semaphore and thread exist, [ptbl] is scanned. *)
Definition started (ptbl : list KEY_USER_DEF_S) (space : Z) (s : KEY_STATICS) : Prop :=
  key_mag s = Some (mk_manage (ent_zero <$> ptbl) true (if space =? 0 then 20 else space) [] true (Some 0%nat)) /\
  key_handle s = true.
(** Stuck: key_mag is set, but there is neither semaphore nor thread. *)
Definition stuck (s : KEY_STATICS) : Prop :=
  key_handle s = false /\ exists m, key_mag s = Some m /\ semHandle m = None.

Ltac key_step :=
  lazymatch goal with
  | |- wp (on_host kw_call) _ _ => apply wp_host; eapply wp_intro; [reflexivity|]
  | |- wp (on_host tal_malloc) _ _ => apply wp_host; eapply wp_intro; [reflexivity|]
  | |- wp (on_host tal_free) _ _ => apply wp_host; eapply wp_intro; [reflexivity|]
  | |- wp (kfx _) _ _ => apply wp_host; eapply wp_intro; [reflexivity|]
  | |- wp (if ?b then _ else _) _ _ => destruct b eqn:?
  | |- wp (cpure _) _ _ => eapply wp_pure; [reflexivity|]
  | |- wp (put_mag _) _ _ => unfold put_mag
  | |- wp (put_irq _) _ _ => unfold put_irq
  | |- wp (put_tickless _) _ _ => unfold put_tickless
  | |- wp (put_handle _) _ _ => unfold put_handle
  | |- wp (key_set_keep_time _) _ _ => unfold key_set_keep_time
  | |- wp the_mag _ _ => unfold the_mag
  | |- wp (err_exit _ _) _ _ => unfold err_exit
  | |- _ => tm_step
  end; cbn [key_mag key_handle has_enter_irq tickless_endisable keep_time_val fst snd negb].
Ltac key_steps := repeat key_step.

Lemma irq_init_all_wp ks s w (Q : OPERATE_RET -> KEY_STATICS * KeyWorld -> Prop) :
  (forall r w', Q r (s, w')) -> wp (irq_init_all ks) Q (s, w).
Proof.
  intros HQ. revert w. induction ks as [|k ks IH]; intros w; cbn [irq_init_all].
  - apply wp_ret, HQ.
  - unfold irq_init. key_steps; [apply HQ|apply IH].
Qed.

Lemma err_exit_wp tbl r s w (Q : OPERATE_RET -> KEY_STATICS * KeyWorld -> Prop) :
  (forall w', Q r (mk_keys None (key_handle s) (has_enter_irq s) (tickless_endisable s) (keep_time_val s), w')) ->
  wp (err_exit tbl r) Q (s, w).
Proof. intros HQ. key_steps; apply HQ. Qed.

Lemma start_scan_wp tbl s w m (Q : OPERATE_RET -> KEY_STATICS * KeyWorld -> Prop) :
  key_mag s = Some m -> key_handle s = false ->
  (forall r s' w', key_mag s' = None -> Q r (s', w')) ->
  (forall r s' w', r <> OPRT_OK -> key_handle s' = false ->
     key_mag s' = Some (mk_manage (p_tbl m) true (timer_space m) (lst m) true (semHandle m)) -> Q r (s', w')) ->
  (forall s' w', key_handle s' = true ->
     key_mag s' = Some (mk_manage (p_tbl m) true (timer_space m) (lst m) true (Some 0%nat)) -> Q OPRT_OK (s', w')) ->
  wp (start_scan tbl) Q (s, w).
Proof.
  intros Hm Hh Hnone Hstuck Hok. destruct s as [mag h i t kt]. cbn in Hm, Hh. subst. unfold start_scan.
  key_steps; try (by apply Hnone).
  - apply Hstuck; [|done|done]. by apply Z.eqb_neq, negb_true_iff.
  - by apply Hok.
Qed.

Lemma key_init_wp ptbl space s w (Q : OPERATE_RET -> KEY_STATICS * KeyWorld -> Prop) :
  key_mag s = None -> key_handle s = false -> space <= TIMER_SPACE_MAX ->
  (forall r s' w', key_mag s' = None -> Q r (s', w')) ->
  (forall r s' w', r <> OPRT_OK -> stuck s' -> Q r (s', w')) ->
  (forall s' w', started ptbl space s' -> Q OPRT_OK (s', w')) ->
  wp (key_init ptbl space) Q (s, w).
Proof.
  intros Hm Hh Hsp Hnone Hstuck Hok. destruct s as [mag h i t kt]. cbn in Hm, Hh. subst. unfold key_init.
  do 2 key_step.
  destruct (Z.ltb_spec TIMER_SPACE_MAX space); [lia|].
  do 3 key_step; [apply wp_ret; by apply Hnone|]. do 2 key_step. apply wp_bind.
  assert (Halloc : forall (k : bool -> KeyM OPERATE_RET) s w, (forall ok w', wp (k ok) Q (s, w')) ->
    wp (if negb (length ptbl =? 0)%nat then on_host tal_malloc else cret true) (fun ok s' => wp (k ok) Q s') (s, w)).
  { intros k s0 w0 Hk. destruct (negb (length ptbl =? 0)%nat); [key_step; apply Hk|apply wp_ret, Hk]. }
  apply (Halloc (fun ok => if negb ok then _ else _)). intros ok w1.
  destruct (negb ok); [apply err_exit_wp; intros; by apply Hnone|].
  do 2 key_step. apply wp_bind, irq_init_all_wp. intros r w2. destruct (negb (r =? OPRT_OK)).
  - apply err_exit_wp. intros. by apply Hnone.
  - eapply start_scan_wp; [reflexivity|done|intros; by apply Hnone|intros r' s' w' Hr' Hh' Hm'|intros s' w' Hh' Hm'].
    + apply Hstuck; [done|]. split; [done|]. eexists. split; [exact Hm'|done].
    + by apply Hok.
Qed.

(** The environment in which exactly the [n]-th call fails. *)
Definition failing_world (n : nat) : KeyWorld :=
  mk_kw (fun _ _ => 1) 0 (fun _ => true) 0 (fun i => if (i =? n)%nat then OPRT_COM_ERROR else OPRT_OK) 0 [].

(** Starting the driver: it refuses a scan interval above the limit, and
    otherwise has started everything and scans the table, or has put everything
    back; except when the semaphore cannot be created. Then the driver is stuck:
    every later start succeeds without doing anything, and the first interrupt
    is undefined. And when the thread cannot be created, success is reported
    although nothing has been started. *)
Theorem key_init_outcome ptbl space s w : key_mag s = None -> key_handle s = false ->
  (TIMER_SPACE_MAX < space -> key_init ptbl space (s, w) = Some (OPRT_INVALID_PARM, (s, w))) /\
  (space <= TIMER_SPACE_MAX -> exists r s' w', key_init ptbl space (s, w) = Some (r, (s', w')) /\
     (r = OPRT_OK /\ started ptbl space s' \/ key_mag s' = None \/ r <> OPRT_OK /\ stuck s')) /\
  (exists s' w', key_init [] 20 (keys_zero, failing_world 2) = Some (OPRT_COM_ERROR, (s', w')) /\ stuck s') /\
  (forall s w tbl sp, stuck s -> key_init tbl sp (s, w) = Some (OPRT_OK, (s, w)) /\
     (tickless_endisable s = false -> __gpio_for_key_irq (s, w) = None)) /\
  (exists s' w', key_init [] 20 (keys_zero, failing_world 3) = Some (OPRT_OK, (s', w')) /\ key_mag s' = None).
Proof.
  intros Hm Hh. split_and!.
  - intros Hsp. unfold key_init, get_ctx, cget, cbind. cbn [fst]. rewrite Hm.
    by destruct (Z.ltb_spec TIMER_SPACE_MAX space); [|lia].
  - intros Hsp.
    assert (Hwp : wp (key_init ptbl space) (fun r sw => r = OPRT_OK /\ started ptbl space (fst sw) \/
        key_mag (fst sw) = None \/ r <> OPRT_OK /\ stuck (fst sw)) (s, w)) by (apply key_init_wp; cbn; auto).
    destruct (wp_elim _ _ _ Hwp) as (r & [s' w'] & ? & ?). by exists r, s', w'.
  - eexists _, _. split; [vm_compute; reflexivity|]. split; [done|]. by eexists.
  - intros s1 w1 tbl sp (_ & m & Hm1 & Hsem). unfold key_init, __gpio_for_key_irq, the_mag, get_ctx, cget, cbind, cpure.
    cbn [fst]. rewrite Hm1. split; [done|]. intros ->. cbn. rewrite Hm1. cbn. by rewrite Hsem.
  - eexists _, _. by split; [vm_compute; reflexivity|].
Qed.

(** ** Registering *)

Abbreviation ports es := ((fun e => port (kud e)) <$> es).

Lemma find_port_some p es pre e post : find_port p es = Some (pre, e, post) -> es = pre ++ e :: post /\ port (kud e) = p.
Proof.
  revert pre. induction es as [|x es IH]; intros pre; cbn; [done|].
  destruct (Z.eqb_spec (port (kud x)) p); [by intros [= <- <- <-]|].
  destruct (find_port p es) as [[[pre' e'] post']|]; [|done]. intros [= <- -> ->].
  by destruct (IH pre' eq_refl) as [-> ?].
Qed.

Lemma find_port_none p es : find_port p es = None -> p ∉ ports es.
Proof.
  induction es as [|x es IH]; cbn; intros Hf; [apply not_elem_of_nil|].
  destruct (Z.eqb_spec (port (kud x)) p); [done|]. apply not_elem_of_cons. split; [congruence|].
  apply IH. by destruct (find_port p es) as [[[? ?] ?]|].
Qed.

(** [k] has been registered: a key of the same port has the new definition and
    goes on from where it was, a new one is at rest; the others are as before. *)
Definition registered (k : KEY_USER_DEF_S) (es es' : list KEY_ENTITY_S) : Prop :=
  (exists pre e post, es = pre ++ e :: post /\ port (kud e) = port k /\ es' = pre ++ set_kud k e :: post) \/
  ((port k ∉ ports es) /\ es' = ent_zero k :: es).

Lemma registered_nodup k es es' : registered k es es' -> NoDup (ports es) -> NoDup (ports es').
Proof.
  intros [(pre & e & post & -> & Hp & ->)|[Hk ->]] Hnd.
  - rewrite fmap_app, fmap_cons in *. cbn [kud set_kud]. by rewrite <- Hp.
  - rewrite fmap_cons. by apply NoDup_cons.
Qed.

Definition put_lst (l : list KEY_ENTITY_S) (m : KEY_MANAGE_S) (s : KEY_STATICS) : KEY_STATICS :=
  mk_keys (Some (with_tbl (p_tbl m) l m)) (key_handle s) (has_enter_irq s) (tickless_endisable s) (keep_time_val s).

Lemma reg_proc_key_wp k s w m (Q : OPERATE_RET -> KEY_STATICS * KeyWorld -> Prop) :
  key_mag s = Some m -> is_Some (call_back k) ->
  (forall r w', r <> OPRT_OK -> Q r (s, w')) ->
  (forall l w', registered k (lst m) l -> Q OPRT_OK (put_lst l m s, w')) ->
  wp (reg_proc_key (Some k)) Q (s, w).
Proof.
  intros Hm [f Hf] Hfail Hok. unfold reg_proc_key. rewrite Hf. unfold the_mag. do 3 key_step. rewrite Hm.
  eapply wp_pure; [reflexivity|]. unfold irq_init.
  assert (Hne : forall b, negb (b =? OPRT_OK) = true -> b <> OPRT_OK) by (intros b ?%negb_true_iff%Z.eqb_neq; done).
  destruct (find_port (port k) (lst m)) as [[[pre e] post]|] eqn:Hp.
  - apply find_port_some in Hp as [Hl Hp]. key_steps; [apply Hfail; by apply Hne|]. apply Hok. left. by exists pre, e, post.
  - apply find_port_none in Hp. key_steps; [by apply Hfail|apply Hfail; by apply Hne|]. apply Hok. right. done.
Qed.

(** Registering a key: refused without a definition or a callback; otherwise
    defined exactly when the driver has been started; a failure changes nothing,
    and success registers the key, leaves every other key as it was, and keeps
    the ports distinct. *)
Theorem key_registered ud s w :
  match ud with
  | None => reg_proc_key ud (s, w) = Some (OPRT_INVALID_PARM, (s, w))
  | Some k =>
      match call_back k, key_mag s with
      | None, _ => reg_proc_key ud (s, w) = Some (OPRT_INVALID_PARM, (s, w))
      | Some _, None => reg_proc_key ud (s, w) = None
      | Some _, Some m => exists r s' w', reg_proc_key ud (s, w) = Some (r, (s', w')) /\
          (r <> OPRT_OK -> s' = s) /\
          (r = OPRT_OK -> exists l, registered k (lst m) l /\ s' = put_lst l m s /\
             (NoDup (ports (lst m)) -> NoDup (ports l)))
      end
  end.
Proof.
  destruct ud as [k|]; [|done]. destruct (call_back k) as [f|] eqn:Hf; [|by unfold reg_proc_key; rewrite Hf].
  destruct (key_mag s) as [m|] eqn:Hm.
  - assert (Hwp : wp (reg_proc_key (Some k)) (fun r sw => (r <> OPRT_OK -> fst sw = s) /\ (r = OPRT_OK -> exists l,
      registered k (lst m) l /\ fst sw = put_lst l m s /\ (NoDup (ports (lst m)) -> NoDup (ports l)))) (s, w)).
    { eapply reg_proc_key_wp; [done|by eexists|by split|]. intros l w' Hl. split; [done|]. intros _. exists l.
      split_and!; [done|done|]. by eapply registered_nodup. }
    destruct (wp_elim _ _ _ Hwp) as (r & [s' w'] & ? & ?). by exists r, s', w'.
  - unfold reg_proc_key, the_mag, get_ctx, cget, cbind, cpure. rewrite Hf. cbn. by rewrite Hm.
Qed.

(** *** The keys of the toy *)

(** Every call succeeds. *)
Definition willing (w : KeyWorld) : Prop := (forall n, kw_heap w n = true) /\ (forall n, kw_os w n = OPRT_OK).


(** Run the steps of code whose calls all succeed. *)
Ltac willing_steps Hh Ho :=
  repeat (key_step; cbn [kw_heap kw_os kw_allocs kw_calls kw_add]; rewrite ?Hh, ?Ho; cbn [Z.eqb OPRT_OK negb]; cbv iota).

Lemma reg_willing k s w m (Q : OPERATE_RET -> KEY_STATICS * KeyWorld -> Prop) :
  key_mag s = Some m -> is_Some (call_back k) -> willing w ->
  (forall l w', registered k (lst m) l -> kw_heap w' = kw_heap w -> kw_os w' = kw_os w -> Q OPRT_OK (put_lst l m s, w')) ->
  wp (reg_proc_key (Some k)) Q (s, w).
Proof.
  intros Hm [f Hf] [Hh Ho] Hok. unfold reg_proc_key. rewrite Hf. unfold the_mag. do 3 key_step. rewrite Hm.
  eapply wp_pure; [reflexivity|]. unfold irq_init. destruct (find_port (port k) (lst m)) as [[[pre e] post]|] eqn:Hp.
  - apply find_port_some in Hp as [Hl Hp]. willing_steps Hh Ho. apply Hok; [|done|done]. left. by exists pre, e, post.
  - apply find_port_none in Hp. willing_steps Hh Ho. apply Hok; [by right|done|done].
Qed.

Lemma init_willing s w (Q : OPERATE_RET -> KEY_STATICS * KeyWorld -> Prop) :
  key_mag s = None -> willing w ->
  (forall s' w', started [] 20 s' -> keep_time_val s' = keep_time_val s -> kw_heap w' = kw_heap w -> kw_os w' = kw_os w ->
     Q OPRT_OK (s', w')) ->
  wp (key_init [] 20) Q (s, w).
Proof.
  intros Hm [Hh Ho] Hok. destruct s as [mag h i t kt]. cbn in Hm. subst. unfold key_init.
  do 2 key_step. change (TIMER_SPACE_MAX <? 20) with false. cbv iota. cbn [length Nat.eqb negb irq_init_all].
  willing_steps Hh Ho. unfold start_scan. willing_steps Hh Ho. by apply Hok.
Qed.

(** Installing a key of the toy: the first key starts the driver; every key
    is registered, at rest, with its times cut to 16 bits, next to those before
    it. But the outcome of the start is not looked at: when the driver has not
    been started, the registration that follows is undefined. *)
Theorem toy_key_installed pin low seqk longk f s w : pin <> TUYA_GPIO_NUM_MAX -> willing w ->
  (exists s' w' m', tuya_ai_toy_key_init pin low seqk longk (Some f) (s, w) = Some (OPRT_OK, (s', w')) /\
     key_mag s' = Some m' /\ keep_time_val s' = 70 * 1000 /\
     match key_mag s with
     | None => key_handle s' = true /\ p_tbl m' = [] /\ lst m' = [ent_zero (toy_kud pin low seqk longk f)] /\ timer_space m' = 20
     | Some m => p_tbl m' = p_tbl m /\ timer_space m' = timer_space m /\ registered (toy_kud pin low seqk longk f) (lst m) (lst m')
     end) /\
  (key_mag s = None -> forall w1, kw_heap w1 (kw_allocs w1) = false ->
     tuya_ai_toy_key_init pin low seqk longk (Some f) (s, w1) = None).
Proof.
  intros Hp [Hh Ho]. split.
  - assert (Hreg : forall s1 w1 m, key_mag s1 = Some m -> keep_time_val s1 = 70 * 1000 -> kw_heap w1 = kw_heap w -> kw_os w1 = kw_os w ->
      wp (let* _ := reg_proc_key (Some (toy_kud pin low seqk longk f)) in let* _ := kfx (KxIrqEnable pin) in on_host kw_call)
        (fun r sw => r = OPRT_OK /\ exists m', key_mag (fst sw) = Some m' /\ keep_time_val (fst sw) = 70 * 1000 /\
           key_handle (fst sw) = key_handle s1 /\ p_tbl m' = p_tbl m /\ timer_space m' = timer_space m /\
           registered (toy_kud pin low seqk longk f) (lst m) (lst m')) (s1, w1)).
    { intros s1 w1 m Hm Hk Hh1 Ho1. apply wp_bind. apply (reg_willing _ s1 w1 m); [done|by eexists|by split; intros; rewrite ?Hh1, ?Ho1|].
      intros l w2 Hl Hh2 Ho2. key_steps. split; [cbn; by rewrite Ho2, Ho1|]. eexists. split; [reflexivity|].
      cbn. by split_and!. }
    assert (Hwp : wp (tuya_ai_toy_key_init pin low seqk longk (Some f)) (fun r sw => r = OPRT_OK /\ exists m', key_mag (fst sw) = Some m' /\
        keep_time_val (fst sw) = 70 * 1000 /\
        match key_mag s with
        | None => key_handle (fst sw) = true /\ p_tbl m' = [] /\ lst m' = [ent_zero (toy_kud pin low seqk longk f)] /\ timer_space m' = 20
        | Some m => p_tbl m' = p_tbl m /\ timer_space m' = timer_space m /\ registered (toy_kud pin low seqk longk f) (lst m) (lst m')
        end) (s, w)).
    { unfold tuya_ai_toy_key_init. destruct (Z.eqb_spec pin TUYA_GPIO_NUM_MAX); [done|]. do 4 key_step. apply wp_bind.
      destruct (key_mag s) as [m|] eqn:Hm.
      - unfold key_init. do 2 key_step. rewrite Hm. do 4 key_step.
        eapply wp_mono; [by apply (Hreg _ _ m)|]. intros r sw (-> & m' & ? & ? & _ & ? & ? & ?). split; [done|]. by exists m'.
      - apply init_willing; [done|by split|]. intros s1 w1 [Hm1 Hh1] _ Hhw How. do 3 key_step.
        eapply wp_mono; [eapply Hreg; [exact Hm1|done|done|done]|].
        intros r sw (-> & m' & ? & ? & Hhd & Hpt & ? & Hr). split; [done|]. exists m'. cbn in Hhd, Hpt. rewrite Hhd, Hh1, Hpt. split_and!; try done.
        destruct Hr as [(pre & e & post & Hnil & _)|[_ Hr]]; [by destruct pre|done]. }
    destruct (wp_elim _ _ _ Hwp) as (r & [s' w'] & Hrun & -> & m' & ?). by exists s', w', m'.
  - intros Hm w1 Ha. unfold tuya_ai_toy_key_init. destruct (Z.eqb_spec pin TUYA_GPIO_NUM_MAX); [done|].
    unfold kfx, on_host, key_init, kw_emit, kw_call, tal_malloc, get_ctx, cget, cmod, cbind. cbn -[Z.ltb]. rewrite Hm.
    change (TIMER_SPACE_MAX <? 20) with false. cbv iota. cbn. rewrite Ha. cbn.
    unfold the_mag, get_ctx, cget, cpure, cbind. cbn. by rewrite Hm.
Qed.

(** ** Thread, interrupt and timer *)

(** Calls of tal_cpu_lp_disable less calls of tal_cpu_lp_enable. *)
Fixpoint lp_count (tr : list KEY_FX) : Z :=
  match tr with
  | [] => 0
  | KxLpDisable :: tr => lp_count tr + 1
  | KxLpEnable :: tr => lp_count tr - 1
  | _ :: tr => lp_count tr
  end.
Definition world_lp (w : KeyWorld) : Z := lp_count (kw_trace w).

(** Code that leaves the low-power calls alone. *)
Definition lp_quiet {A} (m : C KeyWorld A) : Prop := forall w a w', m w = Some (a, w') -> world_lp w' = world_lp w.

Lemma lp_quiet_bind {A B} (m : C KeyWorld A) (k : A -> C KeyWorld B) :
  lp_quiet m -> (forall a, lp_quiet (k a)) -> lp_quiet (cbind m k).
Proof.
  intros Hm Hk w b w' H. apply cbind_Some in H as (a & w1 & H1 & H2). rewrite (Hk a _ _ _ H2). by eapply Hm.
Qed.
Lemma lp_quiet_ret {A} (a : A) : lp_quiet (cret a).
Proof. by intros w x w' [= _ <-]. Qed.
Lemma lp_quiet_get {A} (f : KeyWorld -> A) : lp_quiet (cget f).
Proof. by intros w x w' [= _ <-]. Qed.
Lemma lp_quiet_pure {A} (o : option A) : lp_quiet (cpure o).
Proof. intros w x w' H. destruct o; [|done]. by injection H as _ <-. Qed.
Lemma lp_quiet_event e ty c : lp_quiet (key_event e ty c).
Proof. apply lp_quiet_bind; [apply lp_quiet_pure|]. by intros f w x w' [= _ <-]. Qed.

Create HintDb lp_quiet.
#[local] Hint Resolve lp_quiet_ret lp_quiet_get lp_quiet_pure lp_quiet_event : lp_quiet.
Ltac lp_quiet_tac :=
  repeat (cbv beta zeta; match goal with
  | |- lp_quiet (cbind _ _) => apply lp_quiet_bind; [|intros ?]
  | |- lp_quiet (if ?b then _ else _) => destruct b
  | |- lp_quiet _ => solve [eauto with lp_quiet]
  end).

Lemma lp_quiet_ent ts e : lp_quiet (__key_ent_proc ts e).
Proof.
  unfold __key_ent_proc, proc_down, proc_down_confirm, proc_downning, proc_up_confirm, proc_uping, finish, proc_finish,
    __tuya_key_down_verify, tal_gpio_read.
  destruct (status e); lp_quiet_tac.
Qed.

Lemma lp_quiet_all ts es : lp_quiet (proc_all ts es).
Proof.
  induction es as [|e es IH]; [apply lp_quiet_ret|]. cbn [proc_all]. apply lp_quiet_bind; [apply lp_quiet_ent|].
  intros e'. apply lp_quiet_bind; [done|]. intros es'. apply lp_quiet_ret.
Qed.

(** The CPU is kept awake exactly once while keys are polled, and not otherwise. *)
Definition lp_balanced (r : KEY_STATICS * KeyWorld) : Prop :=
  world_lp (snd r) = if tickless_endisable (fst r) then 1 else 0.

(** Code that keeps the balance. *)
Definition balances {A} (m : KeyM A) : Prop := forall r a r', m r = Some (a, r') -> lp_balanced r -> lp_balanced r'.

Lemma balances_bind {A B} (m : KeyM A) (k : A -> KeyM B) : balances m -> (forall a, balances (k a)) -> balances (cbind m k).
Proof.
  intros Hm Hk r b r' H Hb. apply cbind_Some in H as (a & r1 & H1 & H2).
  eapply Hk; [exact H2|]. by eapply Hm.
Qed.
Lemma balances_ret {A} (a : A) : balances (cret a).
Proof. by intros r x r' [= _ <-]. Qed.
Lemma balances_get : balances get_ctx.
Proof. by intros r x r' [= _ <-]. Qed.
Lemma balances_pure {A} (o : option A) : balances (cpure o).
Proof. intros r x r' H. destruct o; [|done]. by injection H as _ <-. Qed.
Lemma balances_host {A} (m : C KeyWorld A) : lp_quiet m -> balances (on_host m).
Proof.
  intros Hm [s w] a [s' w'] H. unfold on_host in H. cbn in H. destruct (m w) as [[x w1]|] eqn:Hr; [|done].
  injection H as _ <- <-. unfold lp_balanced. cbn. by rewrite (Hm _ _ _ Hr).
Qed.
Lemma balances_ctx (f : KEY_STATICS -> KEY_STATICS) :
  (forall s, tickless_endisable (f s) = tickless_endisable s) -> balances (mod_ctx f).
Proof. intros Hf [s w] x [s' w'] [= _ <- <-]. unfold lp_balanced. cbn. by rewrite Hf. Qed.
Lemma balances_mag : balances the_mag.
Proof. apply balances_bind; [apply balances_get|]. intros s. apply balances_pure. Qed.
Lemma balances_restart : balances __restart_tickless_trig_timer.
Proof.
  unfold __restart_tickless_trig_timer, kfx, kw_emit.
  assert (He : forall fx, fx <> KxLpDisable -> fx <> KxLpEnable -> balances (on_host (kw_emit fx))).
  { intros fx H1 H2. apply balances_host. intros w x w' [= _ <-]. unfold world_lp. cbn. by destruct fx. }
  assert (Hc : balances (on_host kw_call)) by (apply balances_host; by intros w x w' [= _ <-]).
  apply balances_bind; [apply balances_mag|]. intros m. apply balances_bind; [by apply He|]. intros _.
  apply balances_bind; [done|]. intros r. destruct (negb (r =? OPRT_OK)); [apply balances_ret|].
  apply balances_bind; [apply balances_get|]. intros s. apply balances_bind; [by apply He|]. intros _.
  apply balances_bind; [done|]. intros _. apply balances_ret.
Qed.

Lemma balances_handle : balances __key_handle.
Proof.
  apply balances_bind; [apply balances_mag|]. intros m. apply balances_bind; [apply balances_host, lp_quiet_all|].
  intros t. apply balances_bind; [apply balances_host, lp_quiet_all|]. intros l. by apply balances_ctx.
Qed.

Lemma balances_sleep ms : balances (on_host (tal_system_sleep ms)).
Proof. apply balances_host. by intros w x w' [= _ <-]. Qed.

#[local] Hint Resolve balances_ret balances_get balances_pure balances_mag balances_restart balances_handle balances_sleep : lp_quiet.

Lemma balances_put_mag m : balances (put_mag m).
Proof. by apply balances_ctx. Qed.
Lemma balances_put_irq b : balances (put_irq b).
Proof. by apply balances_ctx. Qed.
#[local] Hint Resolve balances_put_mag balances_put_irq : lp_quiet.

Ltac balances_tac :=
  repeat (cbv beta zeta; match goal with
  | |- balances (cbind _ _) => apply balances_bind; [|intros ?]
  | |- balances (if ?b then _ else _) => destruct b
  | |- balances (match ?n with O => _ | S _ => _ end) => destruct n
  | |- balances _ => solve [eauto with lp_quiet]
  end).

Lemma balances_thread pc : balances (key_handle_thrd pc).
Proof.
  destruct pc; cbn [key_handle_thrd]; try solve [balances_tac].
  intros [[mag h i t kt] w] x [s' w'] H Hb. unfold lp_balanced in *. cbn in Hb.
  destruct t; cbn in H; injection H as _ <- <-; [done|]. unfold world_lp in *. cbn. lia.
Qed.

Lemma balances_irq : balances __gpio_for_key_irq.
Proof. unfold __gpio_for_key_irq. balances_tac. Qed.

Lemma balances_timer : balances __key_tickless_trig_timer_cb.
Proof.
  intros [[mag h i t kt] w] x [s' w'] H Hb. unfold lp_balanced in *. cbn in Hb.
  destruct t; cbn in H; injection H as _ <- <-; [|done]. unfold world_lp in *. cbn. lia.
Qed.

Lemma step_balanced x pc r pc' r' : key_step x (pc, r) = Some (pc', r') -> lp_balanced r -> lp_balanced r'.
Proof.
  destruct x; cbn [key_step]; [apply balances_thread| |].
  - destruct (__gpio_for_key_irq r) as [[u r1]|] eqn:Hi; [|done]. intros [= _ <-]. by eapply balances_irq.
  - destruct (__key_tickless_trig_timer_cb r) as [[u r1]|] eqn:Hi; [|done]. intros [= _ <-]. by eapply balances_timer.
Qed.

(** However thread, interrupts and timer interleave, the CPU is kept out of
    low power exactly while keys are polled: the calls that disable low power
    are one ahead of those that enable it then, and balance them otherwise. *)
Theorem key_lp_balanced xs pc r pc' r' : lp_balanced r -> key_steps xs (pc, r) = Some (pc', r') -> lp_balanced r'.
Proof.
  revert pc r. induction xs as [|x xs IH]; intros pc r Hb; cbn [key_steps]; [by intros [= _ <-]|].
  destruct (key_step x (pc, r)) as [[pc1 r1]|] eqn:Hs; [|done]. apply IH. by eapply step_balanced.
Qed.

(** *** From an interrupt to the next scan *)

(** The driver is started, and the thread waits only while no keys are polled. *)
Definition thread_ok (sys : KEY_SYSTEM) : Prop :=
  let '(pc, (s, _)) := sys in
  (exists m n, key_mag s = Some m /\ semHandle m = Some n) /\ (pc = AtWait -> tickless_endisable s = false).

Lemma restart_same s w r : __restart_tickless_trig_timer (s, w) = Some (tt, r) -> fst r = s /\ kw_round (snd r) = kw_round w /\
  forall p, key_events p (snd r) = key_events p w.
Proof.
  intros Hr. unfold __restart_tickless_trig_timer in Hr. apply cbind_Some in Hr as (m & r1 & Hm & Hr).
  assert (r1 = (s, w)) as -> by (unfold the_mag, get_ctx, cget, cbind, cpure in Hm; cbn in Hm; by destruct (key_mag s); simplify_eq/=).
  clear Hm.
  unfold kfx, kw_emit, kw_call, kw_add, on_host, cmod, cbind, get_ctx, cget, cret in Hr. cbn in Hr.
  destruct (negb _); injection Hr as <-; (split; [done|]; split; [done|]); intros p; cbn [snd];
    rewrite <- (app_nil_r (key_events p w)); unfold key_events; cbn [kw_trace];
    rewrite !reverse_cons, !omap_app; cbn; by rewrite !app_nil_r.
Qed.

Lemma restart_runs s w m : key_mag s = Some m -> exists w', __restart_tickless_trig_timer (s, w) = Some (tt, (s, w')) /\
  kw_round w' = kw_round w /\ forall p, key_events p w' = key_events p w.
Proof.
  destruct s as [mag h i t kt]. cbn. intros ->.
  assert (Hr : wp __restart_tickless_trig_timer (fun _ _ => True) (mk_keys (Some m) h i t kt, w))
    by (unfold __restart_tickless_trig_timer; key_steps; done).
  destruct (wp_elim _ _ _ Hr) as ([] & [s' w'] & Hrun & _). destruct (restart_same _ _ _ Hrun) as (Hs & Hk & Hev).
  cbn in Hs. subst s'. by exists w'.
Qed.

Lemma handle_keeps s w r : __key_handle (s, w) = Some (tt, r) ->
  exists m t l, key_mag s = Some m /\ key_mag (fst r) = Some (with_tbl t l m) /\
    tickless_endisable (fst r) = tickless_endisable s.
Proof.
  unfold __key_handle, the_mag, get_ctx, cget, cbind, cpure, on_host, put_mag, mod_ctx, cmod. cbn.
  destruct (key_mag s) as [m|]; [|done]. cbn. destruct (proc_all _ (p_tbl m) w) as [[t w1]|]; [|done].
  destruct (proc_all _ (lst m) w1) as [[l w2]|]; [|done]. intros [= <-]. by exists m, t, l.
Qed.

Lemma thread_ok_thread pc r sys : thread_ok (pc, r) -> key_handle_thrd pc r = Some sys -> thread_ok sys.
Proof.
  destruct r as [[mag h i t kt] w]. intros [(m & n & Hm & Hs) Hw]. cbn in Hm, Hw. subst mag. destruct pc; cbn.
  - rewrite Hs. cbn. destruct n as [|n]; cbn; intros [= <-]; (split; [by eexists _, _|done]) || (split; [by eexists _, _|auto]).
  - destruct t; cbn; intros [= <-]; (split; [by eexists _, _|done]).
  - intros [= <-]. split; [by eexists _, _|done].
  - destruct (restart_runs (mk_keys (Some m) h i t kt) w m eq_refl) as (w' & Hr & _). unfold cbind. rewrite Hr.
    intros [= <-]. split; [by eexists _, _|done].
  - destruct t; intros [= <-]; (split; [by eexists _, _|done]).
  - intros H. apply cbind_Some in H as ([] & [s1 w1] & H1 & H2). apply handle_keeps in H1 as (m1 & t1 & l1 & [= <-] & Hm1 & Ht).
    cbn in Hm1, Ht. destruct s1 as [mag1 h1 i1 tk1 kt1]. cbn in Hm1, Ht. subst. cbn in H2. injection H2 as <-.
    split; [by eexists _, _|done].
  - destruct i; intros [= <-]; (split; [by eexists _, _|done]).
  - destruct (restart_runs (mk_keys (Some m) h i t kt) w m eq_refl) as (w' & Hr & _). unfold cbind. rewrite Hr.
    intros [= <-]. split; [by eexists _, _|done].
Qed.

(** What the interrupt does: it posts the semaphore unless keys are polled. *)
Lemma irq_runs pc s w m n : key_mag s = Some m -> semHandle m = Some n ->
  key_step StIrq (pc, (s, w)) = Some (pc, (mk_keys
    (Some (if tickless_endisable s then m else with_sem (Some (Nat.min SEM_MAX (S n))) m))
    (key_handle s) true (tickless_endisable s) (keep_time_val s), w)).
Proof.
  destruct s as [mag h i t kt]. cbn. intros -> Hs. cbn [key_step].
  unfold __gpio_for_key_irq, the_mag, get_ctx, cget, cpure, put_mag, put_irq, mod_ctx, cmod, cbind. cbn.
  destruct t; cbn; [done|]. by rewrite Hs.
Qed.

Lemma thread_ok_step x sys sys' : thread_ok sys -> key_step x sys = Some sys' -> thread_ok sys'.
Proof.
  destruct sys as [pc [s w]]. intros Hok Hstep. destruct x.
  - by eapply thread_ok_thread.
  - destruct Hok as [(m & n & Hm & Hs) Hw]. rewrite (irq_runs _ _ _ m n Hm Hs) in Hstep. injection Hstep as <-.
    split; [|done]. cbn. destruct (tickless_endisable s); by eexists _, _.
  - destruct Hok as [(m & n & Hm & Hs) Hw]. destruct s as [mag h i t kt]. cbn in Hm. subst mag.
    destruct t; injection Hstep as <-; (split; [by exists m, n|done]).
Qed.

Lemma thread_ok_steps xs sys sys' : thread_ok sys -> key_steps xs sys = Some sys' -> thread_ok sys'.
Proof.
  revert sys. induction xs as [|x xs IH]; intros sys Hok; cbn [key_steps]; [by intros [= <-]|].
  destruct (key_step x sys) as [sys1|] eqn:Hx; [|done]. apply IH. by eapply thread_ok_step.
Qed.

Lemma started_ok s w m n : key_mag s = Some m -> semHandle m = Some n -> tickless_endisable s = false ->
  thread_ok (AtWait, (s, w)).
Proof. intros Hm Hs Ht. split; [by exists m, n|done]. Qed.

(** How many steps of the thread the next scan is away. *)
Definition steps_to_scan (pc : KEY_PC) (polling : bool) : nat :=
  match pc with
  | AtHandle => 0
  | AtTest => if polling then 1 else 6
  | AtArm | AtRearm => if polling then 2 else 7
  | AtClear | AtCheck => if polling then 3 else 8
  | AtWoken => 4
  | AtWait => 5
  end.

(** On its way to a scan: the semaphore holds a token whenever the thread is
    about to wait for one. *)
Definition heading (k : nat) (sys : KEY_SYSTEM) : Prop :=
  let '(pc, (s, _)) := sys in
  (exists m n, key_mag s = Some m /\ semHandle m = Some n /\
     (tickless_endisable s = false -> pc = AtWoken \/ n <> O)) /\
  (pc = AtWait -> tickless_endisable s = false) /\ (steps_to_scan pc (tickless_endisable s) <= k)%nat.

Lemma irq_heading k pc s w m n : key_mag s = Some m -> semHandle m = Some n ->
  (pc = AtWait -> tickless_endisable s = false) -> (steps_to_scan pc (tickless_endisable s) <= k)%nat ->
  exists sys', key_step StIrq (pc, (s, w)) = Some sys' /\ heading k sys' /\ fst sys' = pc.
Proof.
  intros Hm Hs Hw Hk. rewrite (irq_runs pc s w m n Hm Hs). eexists. split; [done|]. split; [|done].
  cbn. split; [|by split]. destruct (tickless_endisable s); [by exists m, n|].
  eexists _, _. split; [done|]. split; [done|]. intros _. right. unfold SEM_MAX. lia.
Qed.

Lemma thread_heading k pc r : pc <> AtHandle -> heading (S k) (pc, r) ->
  exists sys', key_step StThread (pc, r) = Some sys' /\ heading k sys'.
Proof.
  destruct r as [[mag h i t kt] w]. intros Hpc [(m & n & Hm & Hs & Htok) [Hw Hk]]. cbn in Hm, Hw, Hk, Htok. subst mag.
  assert (Hrest : forall pc', (steps_to_scan pc' t <= k)%nat -> (t = false -> pc <> AtWoken) -> pc' <> AtWait ->
    (exists sys', (let* _ := __restart_tickless_trig_timer in cret pc') (mk_keys (Some m) h i t kt, w) = Some sys' /\ heading k sys')).
  { intros pc' Hk' Hnw Hnw'. destruct (restart_runs (mk_keys (Some m) h i t kt) w m eq_refl) as (w' & Hr & _).
    unfold cbind. rewrite Hr. eexists. split; [done|]. split; [|by split]. exists m, n. split; [done|]. split; [done|].
    intros Ht. right. destruct (Htok Ht); [by destruct (Hnw Ht)|done]. }
  destruct pc; cbn [key_step key_handle_thrd]; try done.
  - rewrite (Hw eq_refl) in *. destruct (Htok eq_refl) as [|Hn]; [done|]. destruct n as [|n]; [done|]. cbn. rewrite Hs. cbn.
    eexists. split; [done|]. split; [|split; [done|cbn in *; lia]]. eexists _, _. split; [done|]. split; [done|]. by left.
  - destruct t; cbn; (eexists; split; [done|]; split; [by exists m, n|split; [done|cbn in *; lia]]).
  - eexists. split; [done|]. split; [|split; [done|]].
    + exists m, n. split; [done|]. split; [done|]. intros Ht. cbn in Ht. destruct (Htok Ht); [done|by right].
    + cbn in *. destruct t; lia.
  - apply Hrest; [cbn in *; destruct t; lia|done..].
  - cbn. destruct t; cbn; (eexists; split; [done|]).
    + split; [by exists m, n|split; [done|cbn in *; lia]].
    + split; [|split; [done|cbn in *; lia]]. exists m, n. split; [done|]. split; [done|]. intros _. right. by destruct (Htok eq_refl).
  - cbn. destruct i; cbn; (eexists; split; [done|]).
    all: split; [|split; [done|cbn in *; destruct t; lia]]; exists m, n; split; [done|]; split; [done|];
      intros Ht; cbn in Ht; destruct (Htok Ht); [done|by right].
  - apply Hrest; [cbn in *; destruct t; lia|done..].
Qed.

Definition thread_steps (xs : list KEY_STEP) : nat :=
  length (List.filter (fun x => match x with StThread => true | _ => false end) xs).

(** Only thread steps and interrupts: the scan is reached within them. *)
Lemma heading_scans xs k sys : Forall (fun x => x <> StTimer) xs -> heading k sys -> (k <= thread_steps xs)%nat ->
  exists xs1 r, xs1 `prefix_of` xs /\ key_steps xs1 sys = Some (AtHandle, r).
Proof.
  revert k sys. induction xs as [|x xs IH]; intros k [pc r] Hxs Hh Hk; destruct (decide (pc = AtHandle)) as [->|Hpc];
    try by exists [], r; split; [apply prefix_nil|].
  - destruct r as [s w]. destruct Hh as (_ & _ & Hle). assert (k = 0%nat) as -> by (cbn in Hk; lia).
    destruct pc; cbn in Hle; try done; destruct (tickless_endisable s); lia.
  - apply Forall_cons in Hxs as [Hx Hxs]. destruct x; [| |done].
    + destruct k as [|k]; [destruct r as [s w]; destruct Hh as (_ & _ & Hle); destruct pc; cbn in Hle; try done;
        destruct (tickless_endisable s); lia|].
      destruct (thread_heading k pc r Hpc Hh) as (sys1 & Hs1 & Hh1). unfold thread_steps in Hk. cbn in Hk.
      destruct (IH k sys1 Hxs Hh1) as (xs1 & r' & Hp & Hr); [unfold thread_steps; lia|].
      exists (StThread :: xs1), r'. split; [by apply prefix_cons|]. cbn [key_steps]. by rewrite Hs1.
    + destruct r as [s w]. destruct Hh as ((m & n & Hm & Hs & _) & Hw & Hle).
      destruct (irq_heading k pc s w m n Hm Hs Hw Hle) as (sys1 & Hs1 & Hh1 & _).
      destruct (IH k sys1 Hxs Hh1) as (xs1 & r' & Hp & Hr); [exact Hk|].
      exists (StIrq :: xs1), r'. split; [by apply prefix_cons|]. cbn [key_steps]. by rewrite Hs1.
Qed.

(** *** The timer before the scan *)

(** Waiting for a semaphore without a token, nothing polled. *)
Definition asleep_at (m : KEY_MANAGE_S) (sys : KEY_SYSTEM) : Prop :=
  let '(pc, (s, _)) := sys in
  pc = AtWait /\ key_mag s = Some m /\ semHandle m = Some O /\ tickless_endisable s = false.

(** Between waking up and the next scan, or between two scans. *)
Definition between_scans (pc : KEY_PC) : bool :=
  match pc with AtClear | AtArm | AtTest | AtCheck | AtRearm => true | _ => false end.

(** Steps to sleep once nothing is polled any more. *)
Definition dozes (m : KEY_MANAGE_S) (k : nat) (sys : KEY_SYSTEM) : Prop :=
  let '(pc, (s, _)) := sys in
  key_mag s = Some m /\ semHandle m = Some O /\ tickless_endisable s = false /\
  match pc with
  | AtWait => True
  | AtTest => (1 <= k)%nat
  | AtArm | AtRearm => (2 <= k)%nat
  | AtClear | AtCheck => (3 <= k)%nat
  | _ => False
  end.

Definition same_scans (sys sys' : KEY_SYSTEM) : Prop :=
  kw_round (snd (snd sys')) = kw_round (snd (snd sys)) /\
  forall p, key_events p (snd (snd sys')) = key_events p (snd (snd sys)).

Lemma dozes_step m k sys : dozes m k sys -> exists sys', key_step StThread sys = Some sys' /\
  dozes m (pred k) sys' /\ same_scans sys sys'.
Proof.
  destruct sys as [pc [[mag h i t kt] w]]. intros (Hm & Hs & Ht & Hpc). cbn in Hm, Ht. subst mag t.
  assert (Hre : forall pc', pc' = AtTest -> (2 <= k)%nat -> exists sys',
    (let* _ := __restart_tickless_trig_timer in cret pc') (mk_keys (Some m) h i false kt, w) = Some sys' /\
    dozes m (pred k) sys' /\ same_scans (pc, (mk_keys (Some m) h i false kt, w)) sys').
  { intros pc' -> Hk. destruct (restart_runs (mk_keys (Some m) h i false kt) w m eq_refl) as (w' & Hr & Hround & Hev).
    unfold cbind. rewrite Hr. eexists. split; [done|]. split; [|by split]. split_and!; [done..|]. lia. }
  destruct pc; cbn [key_step key_handle_thrd] in *; try done; try (by apply Hre).
  - cbn. rewrite Hs. cbn. eexists. split; [done|]. by split.
  - eexists. split; [done|]. split; [|by split]. split_and!; [done..|]. lia.
  - eexists. split; [done|]. split; [|by split]. by split_and!.
  - cbn. destruct i; (eexists; split; [done|]; split; [|by split]); split_and!; (done || lia).
Qed.

Lemma dozes_asleep m j k sys : dozes m k sys -> (k <= j)%nat ->
  exists sys', key_steps (replicate j StThread) sys = Some sys' /\ asleep_at m sys' /\ same_scans sys sys'.
Proof.
  revert k sys. induction j as [|j IH]; intros k sys Hd Hk; cbn [replicate key_steps].
  - exists sys. split; [done|]. split; [|by split]. destruct sys as [pc [s w]]. destruct Hd as (Hm & Hs & Ht & Hpc).
    destruct pc; try done; lia.
  - destruct (dozes_step m k sys Hd) as (sys1 & -> & Hd1 & Hk1 & He1).
    destruct (IH (pred k) sys1 Hd1 ltac:(lia)) as (sys2 & Hr & Ha & Hk2 & He2). exists sys2.
    split; [done|]. split; [done|]. split; [congruence|]. intros p. by rewrite He2.
Qed.

(** C34. Waking up. From every state that a started driver, its thread waiting and
    no keys polled, gets into, wherever the thread is in its loop: after an interrupt, as long as the timer that ends the
    polling does not expire, the thread scans the keys within eight of its
    steps, however many more interrupts come in between. And the timer is the
    only danger, but a real one: when it expires while keys are polled, with
    the thread between two scans or between waking up and its first scan and no
    token in the semaphore, then without a further interrupt the thread goes to
    sleep and stays asleep without another scan, so that every interrupt since
    the last scan is lost. *)
Theorem key_wakes_up s0 w0 m0 n0 ys pc s w :
  key_mag s0 = Some m0 -> semHandle m0 = Some n0 -> tickless_endisable s0 = false ->
  key_steps ys (AtWait, (s0, w0)) = Some (pc, (s, w)) ->
  (forall xs, Forall (fun x => x <> StTimer) xs -> (8 <= thread_steps xs)%nat ->
     exists xs1 r, xs1 `prefix_of` xs /\ key_steps (StIrq :: xs1) (pc, (s, w)) = Some (AtHandle, r)) /\
  (forall m, key_mag s = Some m -> semHandle m = Some O -> tickless_endisable s = true -> between_scans pc = true ->
     forall j, exists sys', key_steps (StTimer :: replicate (3 + j) StThread) (pc, (s, w)) = Some sys' /\
       asleep_at m sys' /\ same_scans (pc, (s, w)) sys').
Proof.
  intros Hm0 Hn0 Ht Hys. pose proof (thread_ok_steps ys _ _ (started_ok s0 w0 m0 n0 Hm0 Hn0 Ht) Hys) as [(m & n & Hm & Hs) Hw]. split.
  - intros xs Hxs Hk. assert (H8 : (steps_to_scan pc (tickless_endisable s) <= 8)%nat)
      by (destruct pc; cbn; try lia; destruct (tickless_endisable s); lia).
    destruct (irq_heading 8 pc s w m n Hm Hs Hw H8) as (sys1 & Hs1 & Hh & _).
    destruct (heading_scans xs 8 sys1 Hxs Hh Hk) as (xs1 & r & Hp & Hr). exists xs1, r. split; [done|].
    cbn [key_steps]. by rewrite Hs1.
  - intros m' Hm' Hsem Hpoll Hpc j. destruct s as [mag h i t kt]. cbn in Hm', Hpoll. subst mag t.
    assert (Hd : dozes m' 3 (pc, (mk_keys (Some m') h i false kt, kw_add KxLpEnable w)))
      by (split_and!; [done..|]; destruct pc; try done; lia).
    destruct (dozes_asleep m' (3 + j) 3 _ Hd ltac:(lia)) as (sys' & Hr & Ha & Hk & He). exists sys'. split; [exact Hr|].
    split; [done|]. split; [exact Hk|]. intros p. rewrite He. cbn [snd]. rewrite <- (app_nil_r (key_events p w)).
    unfold key_events. cbn [kw_trace kw_add]. rewrite reverse_cons, omap_app. cbn. by rewrite app_nil_r.
Qed.

(** Interrupts that are lost: after the check of a round, the timer expiring
    before the next check or only after it; and one that woke the thread up,
    the timer of the last polling, started again by such a check, expiring
    before the first scan. *)
Definition keys_at_rest : KEY_STATICS := mk_keys (Some talk_mag) true false false 10500.
Definition polled : list KEY_STEP := StIrq :: replicate 6 StThread.
Example interrupts_lost :
  let lost xs := match key_steps (xs ++ replicate 20 StThread) (AtWait, (keys_at_rest, pin_world [])) with
                 | Some sys => asleep_at talk_mag sys /\ kw_round (snd (snd sys)) = 1%nat
                 | None => False
                 end in
  lost (polled ++ [StIrq; StTimer])%list /\
  lost (polled ++ [StIrq; StThread; StTimer])%list /\
  lost (polled ++ [StIrq; StTimer] ++ replicate 3 StThread ++ [StIrq; StThread; StThread; StTimer])%list.
Proof. vm_compute. by split_and!. Qed.

(** ** Witnesses *)

Lemma key_init_outcome_witness : exists r s' w', key_init [kud talk_key] 0 (keys_zero, pin_world []) = Some (r, (s', w')) /\
  (r = OPRT_OK /\ started [kud talk_key] 0 s' \/ key_mag s' = None \/ r <> OPRT_OK /\ stuck s').
Proof. apply (key_init_outcome [kud talk_key] 0 keys_zero (pin_world [])); by vm_compute. Defined.

Lemma toy_key_installed_witness : exists s' w' m',
  tuya_ai_toy_key_init 12 true 200 70000 (Some 7%nat) (keys_zero, pin_world []) = Some (OPRT_OK, (s', w')) /\
  key_mag s' = Some m' /\ keep_time_val s' = 70 * 1000 /\
  (key_handle s' = true /\ p_tbl m' = [] /\ lst m' = [ent_zero (mk_kud 12 true LP_ONCE_TRIG 4464 200 (Some 7%nat))] /\ timer_space m' = 20).
Proof. apply (toy_key_installed 12 true 200 70000 7 keys_zero (pin_world [])); [done|by split]. Defined.

Lemma key_lp_balanced_witness : forall pc' r',
  key_steps [StIrq; StThread; StThread; StTimer; StThread] (AtWait, (mk_keys (Some talk_mag) true false false 10500, pin_world []))
    = Some (pc', r') -> lp_balanced r'.
Proof. intros pc' r'. by apply key_lp_balanced. Defined.

Lemma key_wakes_up_witness :
  exists pc s w, key_steps (polled ++ [StIrq]) (AtWait, (keys_at_rest, pin_world [])) = Some (pc, (s, w)) /\ pc = AtCheck /\
  (exists xs1 r, xs1 `prefix_of` (StIrq :: replicate 8 StThread) /\ key_steps (StIrq :: xs1) (pc, (s, w)) = Some (AtHandle, r)) /\
  exists sys', key_steps (StTimer :: replicate (3 + 5) StThread) (pc, (s, w)) = Some sys' /\
    asleep_at talk_mag sys' /\ same_scans (pc, (s, w)) sys'.
Proof.
  destruct (key_steps (polled ++ [StIrq]) (AtWait, (keys_at_rest, pin_world []))) as [[pc [s w]]|] eqn:Hrun; [|vm_compute in Hrun; discriminate].
  exists pc, s, w. vm_compute in Hrun. injection Hrun as <- <- <-. split; [reflexivity|]. split; [reflexivity|].
  destruct (key_wakes_up keys_at_rest (pin_world []) talk_mag 0 (polled ++ [StIrq]) AtCheck _ _ ltac:(done) ltac:(done) ltac:(done) ltac:(vm_compute; reflexivity)) as [H1 H2]. split.
  - apply H1; [repeat constructor; discriminate|vm_compute; lia].
  - by apply H2.
Defined.

Lemma key_registered_witness : exists r s' w', reg_proc_key (Some (kud talk_key)) (mk_keys (Some (mk_manage [] true 20 [] true (Some 0%nat))) true false false 10500, pin_world []) = Some (r, (s', w')) /\
  (r <> OPRT_OK -> s' = mk_keys (Some (mk_manage [] true 20 [] true (Some 0%nat))) true false false 10500) /\
  (r = OPRT_OK -> exists l, registered (kud talk_key) [] l /\
     s' = put_lst l (mk_manage [] true 20 [] true (Some 0%nat)) (mk_keys (Some (mk_manage [] true 20 [] true (Some 0%nat))) true false false 10500) /\
     (NoDup (ports []) -> NoDup (ports l))).
Proof.
  apply (key_registered (Some (kud talk_key)) (mk_keys (Some (mk_manage [] true 20 [] true (Some 0%nat))) true false false 10500) (pin_world [])).
Defined.
