(* ===== verification/Leds.v ===== *)
(** The indicator driver (src/apps/src/drivers/app_tuya_led/src/tuya_led.c and
    its header) and the LED of the toy (src/apps/src/tuya_ai_toy_led.c):
    creation of handles, steady and flashing output, the 100 ms timer, and what
    the pin of a flashing LED shows. *)
From S2P Require Import Prelude.
From S2P Require Import World.
From S2P Require Import TmHost.

#[local] Open Scope Z_scope.

(** ** Data *)

Inductive LED_LT_E := OL_LOW | OL_HIGH | OL_FLASH_LOW | OL_FLASH_HIGH.
#[export] Instance led_lt_eq_dec : EqDecision LED_LT_E.
Proof. solve_decision. Defined.

(** A LED without its link; [led_id] is the address malloc gave it. *)
Record LED_CNTL_S := mk_led {
  led_id : nat;
  pinname : Z;
  type : LED_LT_E;
  flash_cycle : Z;      (* USHORT_T, ms *)
  expire_time : Z;      (* USHORT_T *)
  flh_sum_time : Z }.   (* USHORT_T *)

Definition LED_TIMER_VAL_MS : Z := 100.
Definition LED_FOREVER : Z := 65535. (* 0xffff *)

(** The static variables; s_ai_toy_led is the one of tuya_ai_toy_led.c. *)
Record LED_STATICS := mk_leds {
  led_cntl_list : list LED_CNTL_S;
  led_timer : bool;             (* not NULL *)
  led_mutex : bool;             (* not NULL *)
  s_ai_toy_led : option nat }.

Definition leds_zero : LED_STATICS := mk_leds [] false false None.

(** ** The device around the driver *)

Inductive LED_FX :=
| LxTimerStart (ms : Z)           (* tal_sw_timer_start(.., TAL_TIMER_CYCLE) that succeeded *)
| LxInit (pin : Z) (high : bool)  (* tal_gpio_init *)
| LxWrite (pin : Z) (high : bool). (* tal_gpio_write *)

Record LedWorld := mk_lw {
  lw_heap : nat -> bool;
  lw_allocs : nat;
  lw_os : nat -> OPERATE_RET;
  lw_calls : nat;
  lw_trace : list LED_FX }.

Definition lw_add (fx : LED_FX) (w : LedWorld) : LedWorld :=
  mk_lw (lw_heap w) (lw_allocs w) (lw_os w) (lw_calls w) (fx :: lw_trace w).
Definition lw_emit (fx : LED_FX) : C LedWorld unit := cmod (lw_add fx).
Definition lw_call : C LedWorld OPERATE_RET := fun w =>
  Some (lw_os w (lw_calls w), mk_lw (lw_heap w) (lw_allocs w) (lw_os w) (S (lw_calls w)) (lw_trace w)).
(** Malloc: the address of the block, or NULL. *)
Definition Malloc : C LedWorld (option nat) := fun w =>
  Some (if lw_heap w (lw_allocs w) then Some (lw_allocs w) else None,
        mk_lw (lw_heap w) (S (lw_allocs w)) (lw_os w) (lw_calls w) (lw_trace w)).

(** ** Operations *)

Definition flashing (t : LED_LT_E) : bool :=
  match t with OL_FLASH_LOW | OL_FLASH_HIGH => true | _ => false end.

Definition __set_led_light_type (ld : LED_CNTL_S) (t : LED_LT_E) (flh_mstime flh_ms_sumtime : Z) : C LedWorld LED_CNTL_S :=
  match t with
  | OL_LOW =>
      let* _ := lw_emit (LxWrite (pinname ld) false) in
      cret (mk_led (led_id ld) (pinname ld) t (flash_cycle ld) (expire_time ld) (flh_sum_time ld))
  | OL_HIGH =>
      let* _ := lw_emit (LxWrite (pinname ld) true) in
      cret (mk_led (led_id ld) (pinname ld) t (flash_cycle ld) (expire_time ld) (flh_sum_time ld))
  | _ => cret (mk_led (led_id ld) (pinname ld) t flh_mstime 0 flh_ms_sumtime)
  end.

(** What the timer does to one LED. *)
Definition led_tick (ld : LED_CNTL_S) : C LedWorld LED_CNTL_S :=
  if negb (flashing (type ld)) then cret ld
  else
    let e := u16 (expire_time ld + LED_TIMER_VAL_MS) in
    let* ld :=
      if flash_cycle ld <=? e then
        match type ld with
        | OL_FLASH_LOW =>
            let* _ := lw_emit (LxWrite (pinname ld) false) in
            cret (mk_led (led_id ld) (pinname ld) OL_FLASH_HIGH (flash_cycle ld) 0 (flh_sum_time ld))
        | _ =>
            let* _ := lw_emit (LxWrite (pinname ld) true) in
            cret (mk_led (led_id ld) (pinname ld) OL_FLASH_LOW (flash_cycle ld) 0 (flh_sum_time ld))
        end
      else cret (mk_led (led_id ld) (pinname ld) (type ld) (flash_cycle ld) e (flh_sum_time ld)) in
    if flh_sum_time ld =? LED_FOREVER then cret ld
    else
      let sum := if LED_TIMER_VAL_MS <=? flh_sum_time ld then flh_sum_time ld - LED_TIMER_VAL_MS else 0 in
      let ld := mk_led (led_id ld) (pinname ld) (type ld) (flash_cycle ld) (expire_time ld) sum in
      if sum =? 0 then
        match type ld with
        | OL_FLASH_LOW => __set_led_light_type ld OL_LOW 0 0
        | _ => __set_led_light_type ld OL_HIGH 0 0
        end
      else cret ld.

Fixpoint led_tick_all (lds : list LED_CNTL_S) : C LedWorld (list LED_CNTL_S) :=
  match lds with
  | [] => cret []
  | ld :: lds =>
      let* ld := led_tick ld in
      let* lds := led_tick_all lds in
      cret (ld :: lds)
  end.

Abbreviation LedM := (C (LED_STATICS * LedWorld)).

Definition put_list (l : list LED_CNTL_S) : LedM unit :=
  mod_ctx (fun s => mk_leds l (led_timer s) (led_mutex s) (s_ai_toy_led s)).
Definition put_timer : LedM unit :=
  mod_ctx (fun s => mk_leds (led_cntl_list s) true (led_mutex s) (s_ai_toy_led s)).
Definition put_mutex : LedM unit :=
  mod_ctx (fun s => mk_leds (led_cntl_list s) (led_timer s) true (s_ai_toy_led s)).

Definition __led_timer_cb : LedM unit :=
  let* s := get_ctx in
  match led_cntl_list s with
  | [] => cret tt
  | lds => let* lds := on_host (led_tick_all lds) in put_list lds
  end.

(** The parts of tuya_create_led_handle that create the mutex and start the
    timer once. *)
Definition create_mutex : LedM OPERATE_RET :=
  let* s := get_ctx in
  if led_mutex s then cret OPRT_OK
  else
    let* op_ret := on_host lw_call in (* tal_mutex_create_init *)
    if negb (op_ret =? OPRT_OK) then cret op_ret
    else let* _ := put_mutex in cret OPRT_OK.

Definition create_timer : LedM OPERATE_RET :=
  let* s := get_ctx in
  if led_timer s then cret OPRT_OK
  else
    let* op_ret := on_host lw_call in (* tal_sw_timer_create *)
    if negb (op_ret =? OPRT_OK) then cret op_ret
    else
      let* _ := put_timer in
      let* op_ret := on_host lw_call in (* tal_sw_timer_start *)
      if negb (op_ret =? OPRT_OK) then cret op_ret
      else
        let* _ := on_host (lw_emit (LxTimerStart LED_TIMER_VAL_MS)) in
        cret OPRT_OK.

(** The result and what it stores through [handle], which is not NULL. *)
Definition tuya_create_led_handle (pin : Z) (high : bool) : LedM (OPERATE_RET * option nat) :=
  let* op_ret := create_mutex in
  if negb (op_ret =? OPRT_OK) then cret (op_ret, None)
  else
    let* op_ret := create_timer in
    if negb (op_ret =? OPRT_OK) then cret (op_ret, None)
    else
      let* _ := on_host (lw_emit (LxInit pin high)) in
      let* len_cntl := on_host Malloc in
      match len_cntl with
      | None => cret (OPRT_MALLOC_FAILED, None)
      | Some id =>
          let* s := get_ctx in
          let* _ := put_list (mk_led id pin OL_LOW 0 0 0 :: led_cntl_list s) in
          cret (OPRT_OK, Some id)
      end.

(** The LED a handle points to: what precedes it in the list, it, the rest.
    A handle that points to no LED is undefined. *)
Fixpoint find_led (id : nat) (lds : list LED_CNTL_S) : option (list LED_CNTL_S * LED_CNTL_S * list LED_CNTL_S) :=
  match lds with
  | [] => None
  | ld :: lds =>
      if (led_id ld =? id)%nat then Some ([], ld, lds)
      else match find_led id lds with Some (pre, x, post) => Some (ld :: pre, x, post) | None => None end
  end.

Definition tuya_set_led_light_type (handle : nat) (t : LED_LT_E) (flh_mstime flh_ms_sumtime : Z) : LedM unit :=
  let* s := get_ctx in
  let* found := cpure (find_led handle (led_cntl_list s)) in
  let '(pre, ld, post) := found in
  let* ld := on_host (__set_led_light_type ld t flh_mstime flh_ms_sumtime) in
  put_list (pre ++ ld :: post).

(** *** src/apps/src/tuya_ai_toy_led.c *)

Definition TUYA_GPIO_NUM_MAX : Z := 64.

Definition toy_led_set (t : LED_LT_E) (ms : Z) : LedM unit :=
  let* s := get_ctx in
  match s_ai_toy_led s with
  | Some h => tuya_set_led_light_type h t (u16 ms) LED_FOREVER
  | None => cret tt
  end.
Definition tuya_ai_toy_led_on : LedM unit := toy_led_set OL_HIGH 200.
Definition tuya_ai_toy_led_off : LedM unit := toy_led_set OL_LOW 200.
Definition tuya_ai_toy_led_flash (time : Z) : LedM unit := toy_led_set OL_FLASH_LOW time.

Definition tuya_ai_toy_led_init (led_pin : Z) : LedM OPERATE_RET :=
  if negb (led_pin =? TUYA_GPIO_NUM_MAX) then
    let* r := tuya_create_led_handle led_pin true in
    match snd r with
    | Some h => let* _ := mod_ctx (fun s => mk_leds (led_cntl_list s) (led_timer s) (led_mutex s) (Some h)) in cret (fst r)
    | None => cret (fst r)
    end
  else cret OPRT_OK.

(** ** What a flashing LED shows *)

(** The pure step behind [led_tick]: the LED afterwards and the levels written. *)
Definition toggled (t : LED_LT_E) : LED_LT_E := match t with OL_FLASH_LOW => OL_FLASH_HIGH | _ => OL_FLASH_LOW end.
Definition first_level (t : LED_LT_E) : bool := match t with OL_FLASH_LOW | OL_LOW => false | _ => true end.
Definition steady (t : LED_LT_E) : LED_LT_E := match t with OL_FLASH_LOW => OL_LOW | _ => OL_HIGH end.

Definition tick_step (ld : LED_CNTL_S) : LED_CNTL_S * list bool :=
  if negb (flashing (type ld)) then (ld, [])
  else
    let e := u16 (expire_time ld + LED_TIMER_VAL_MS) in
    let b := flash_cycle ld <=? e in
    let t := if b then toggled (type ld) else type ld in
    let wr := if b then [first_level (type ld)] else [] in
    let e := if b then 0 else e in
    if flh_sum_time ld =? LED_FOREVER then (mk_led (led_id ld) (pinname ld) t (flash_cycle ld) e (flh_sum_time ld), wr)
    else
      let sum := if LED_TIMER_VAL_MS <=? flh_sum_time ld then flh_sum_time ld - LED_TIMER_VAL_MS else 0 in
      (mk_led (led_id ld) (pinname ld) (if sum =? 0 then steady t else t) (flash_cycle ld) e sum,
       if sum =? 0 then wr ++ [first_level t] else wr).

Definition writes (pin : Z) (levels : list bool) (w : LedWorld) : LedWorld :=
  fold_left (fun w b => lw_add (LxWrite pin b) w) levels w.

Lemma led_tick_eq ld w :
  led_tick ld w = Some (fst (tick_step ld), writes (pinname ld) (snd (tick_step ld)) w).
Proof.
  destruct ld as [id p t c e sum]. unfold led_tick, tick_step. cbn [type flash_cycle expire_time flh_sum_time pinname led_id].
  destruct t; try done; unfold lw_emit, cmod, cret, cbind; cbn [negb flashing].
  all: destruct (c <=? u16 (e + LED_TIMER_VAL_MS)); cbn [flh_sum_time type flash_cycle expire_time pinname led_id toggled].
  all: destruct (sum =? LED_FOREVER); try done.
  all: cbv zeta; destruct ((if LED_TIMER_VAL_MS <=? sum then sum - LED_TIMER_VAL_MS else 0) =? 0); done.
Qed.

Fixpoint tick_run (n : nat) (ld : LED_CNTL_S) : LED_CNTL_S * list bool :=
  match n with
  | O => (ld, [])
  | S n => let r := tick_run n ld in (fst (tick_step (fst r)), snd r ++ snd (tick_step (fst r)))
  end.

(** The level of the i-th write of a LED that starts flashing as [t]. *)
Definition level (t : LED_LT_E) (i : nat) : bool := xorb (first_level t) (Nat.odd i).
(** The timer ticks between two writes. *)
Definition cycle_ticks (c : Z) : nat := Z.to_nat (Z.max 1 ((c + 99) / 100)).
(** The timer ticks for which a LED flashes. *)
Definition total_ticks (sum : Z) : nat := Z.to_nat (Z.max 1 ((sum + 99) / 100)).

Section Flash.
Context (id : nat) (p : Z) (t0 : LED_LT_E) (c sum : Z).
Context (Ht : flashing t0 = true) (Hc : 0 <= c <= 65500).

Abbreviation N := (cycle_ticks c).

Definition kind (i : nat) : LED_LT_E := if Nat.even i then t0 else toggled t0.

Definition flash_state (s : Z) (n : nat) : LED_CNTL_S :=
  mk_led id p (kind (n / N)) c (100 * Z.of_nat (n mod N)) s.

Lemma cycle_ticks_pos : (1 <= N)%nat.
Proof. unfold cycle_ticks. lia. Qed.

Lemma next_tick n :
  (S n mod N = 0 /\ S n / N = S (n / N) /\ n mod N = N - 1)%nat \/
  (S n mod N = S (n mod N) /\ S n / N = n / N /\ n mod N < N - 1)%nat.
Proof.
  pose proof cycle_ticks_pos. pose proof (Nat.div_mod n N ltac:(lia)) as Hd. pose proof (Nat.mod_upper_bound n N ltac:(lia)).
  destruct (Nat.eq_dec (n mod N)%nat (N - 1)%nat) as [Heq|Hne].
  - left. assert (Hs : (S n = N * S (n / N) + 0)%nat) by lia.
    split_and!; [symmetry; by apply (Nat.mod_unique _ _ (S (n / N))%nat 0%nat); lia|symmetry; by apply (Nat.div_unique _ _ _ 0%nat); lia|done].
  - right. assert (Hs : (S n = N * (n / N) + S (n mod N))%nat) by lia.
    split_and!; [symmetry; by apply (Nat.mod_unique _ _ (n / N)%nat); lia|symmetry; by apply (Nat.div_unique _ _ _ (S (n mod N))%nat); lia|lia].
Qed.

Lemma kind_S i : kind (S i) = toggled (kind i).
Proof. unfold kind. rewrite Nat.even_succ, <- Nat.negb_even. destruct (Nat.even i), t0; done. Qed.

Lemma kind_flashing i : flashing (kind i) = true.
Proof. unfold kind. destruct (Nat.even i), t0; done. Qed.

Lemma kind_level i : first_level (kind i) = level t0 i.
Proof. unfold kind, level. rewrite <- Nat.negb_even. destruct (Nat.even i), t0; done. Qed.

Lemma cycle_bounds : c <= 100 * Z.of_nat N <= 65500 /\ (Z.of_nat N = 1 \/ 100 * (Z.of_nat N - 1) < c).
Proof.
  unfold cycle_ticks. pose proof (Z.div_mod (c + 99) 100 ltac:(lia)). pose proof (Z.mod_pos_bound (c + 99) 100 ltac:(lia)).
  set (q := (c + 99) / 100) in *. rewrite Z2Nat.id by lia. lia.
Qed.

Lemma expired n : let e := u16 (100 * Z.of_nat (n mod N) + LED_TIMER_VAL_MS) in
  (c <=? e) = (S n mod N =? 0)%nat /\ (if c <=? e then 0 else e) = 100 * Z.of_nat (S n mod N).
Proof.
  cbv zeta. pose proof cycle_ticks_pos. pose proof (Nat.mod_upper_bound n N ltac:(lia)) as Hlt. pose proof cycle_bounds.
  assert (u16 (100 * Z.of_nat (n mod N) + LED_TIMER_VAL_MS) = 100 * Z.of_nat (S (n mod N))) as ->.
  { unfold LED_TIMER_VAL_MS, u16. change (2 ^ 16) with 65536. rewrite Z.mod_small; lia. }
  destruct (next_tick n) as [(-> & _ & Hm)|(-> & _ & Hm)].
  - rewrite Hm. by destruct (Z.leb_spec c (100 * Z.of_nat (S (N - 1)))); [|lia].
  - by destruct (Z.leb_spec c (100 * Z.of_nat (S (n mod N)))); [lia|].
Qed.

Lemma seq_next n : level t0 <$> seq 0 (S n / N) =
  (level t0 <$> seq 0 (n / N)) ++ (if (S n mod N =? 0)%nat then [level t0 (n / N)] else []).
Proof.
  destruct (next_tick n) as [(-> & -> & _)|(-> & -> & _)]; cbn [Nat.eqb]; [|by rewrite app_nil_r].
  rewrite seq_S, fmap_app. done.
Qed.

(** Flashing for ever. *)
Lemma flash_run n : tick_run n (flash_state LED_FOREVER 0) = (flash_state LED_FOREVER n, level t0 <$> seq 0 (n / N)).
Proof.
  induction n as [|n IH].
  - cbn [tick_run]. by rewrite Nat.Div0.div_0_l.
  - cbn [tick_run]. rewrite IH. cbn [fst snd]. rewrite seq_next. unfold tick_step, flash_state.
    cbn [type flash_cycle expire_time flh_sum_time led_id pinname]. rewrite kind_flashing. cbn [negb].
    change (LED_FOREVER =? LED_FOREVER) with true. cbv iota zeta. destruct (expired n) as [He He2]. rewrite He2, He. cbn [fst snd].
    rewrite kind_level.
    destruct (next_tick n) as [(-> & -> & _)|(-> & -> & _)]; cbn [Nat.eqb]; by rewrite ?kind_S.
Qed.
(** Flashing for [sum] milliseconds. *)
Context (Hsum : 0 <= sum < LED_FOREVER).
Abbreviation K := (total_ticks sum).

Lemma total_ticks_spec n : (S n < K)%nat <-> 100 * Z.of_nat (S n) < sum.
Proof.
  unfold total_ticks. pose proof (Z.div_mod (sum + 99) 100 ltac:(lia)). pose proof (Z.mod_pos_bound (sum + 99) 100 ltac:(lia)).
  set (q := (sum + 99) / 100) in *. lia.
Qed.

Lemma timed_step n : (n < K)%nat ->
  tick_step (flash_state (sum - 100 * Z.of_nat n) n) =
  if (S n <? K)%nat then (flash_state (sum - 100 * Z.of_nat (S n)) (S n), if (S n mod N =? 0)%nat then [level t0 (n / N)] else [])
  else (mk_led id p (steady (kind (S n / N))) c (100 * Z.of_nat (S n mod N)) 0,
        (if (S n mod N =? 0)%nat then [level t0 (n / N)] else []) ++ [level t0 (S n / N)]).
Proof.
  intros Hn. unfold tick_step, flash_state. cbn [type flash_cycle expire_time flh_sum_time led_id pinname].
  rewrite kind_flashing. cbn [negb]. destruct (expired n) as [He He2]. rewrite He2, He. cbv zeta.
  unfold LED_FOREVER in *. destruct (Z.eqb_spec (sum - 100 * Z.of_nat n) 65535); [lia|].
  pose proof (total_ticks_spec n) as Hs.
  assert (Hsm : (if LED_TIMER_VAL_MS <=? sum - 100 * Z.of_nat n then sum - 100 * Z.of_nat n - LED_TIMER_VAL_MS else 0) =
    Z.max 0 (sum - 100 * Z.of_nat (S n))).
  { unfold LED_TIMER_VAL_MS. destruct (Z.leb_spec 100 (sum - 100 * Z.of_nat n)); lia. }
  rewrite Hsm. rewrite !kind_level.
  assert (Hk : (if (S n mod N =? 0)%nat then toggled (kind (n / N)) else kind (n / N)) = kind (S n / N)).
  { destruct (next_tick n) as [(-> & -> & _)|(-> & -> & _)]; cbn [Nat.eqb]; by rewrite ?kind_S. }
  rewrite Hk. destruct (Nat.ltb_spec (S n) K) as [Hlt|Hge].
  - destruct (Z.eqb_spec (Z.max 0 (sum - 100 * Z.of_nat (S n))) 0); [lia|]. by rewrite Z.max_r by lia.
  - assert (~ 100 * Z.of_nat (S n) < sum) by (rewrite <- Hs; lia). rewrite Z.max_l by lia. change (0 =? 0) with true. cbv iota.
    by rewrite kind_level.
Qed.

Lemma timed_run n : (n < K)%nat ->
  tick_run n (flash_state sum 0) = (flash_state (sum - 100 * Z.of_nat n) n, level t0 <$> seq 0 (n / N)).
Proof.
  induction n as [|n IH]; intros Hn.
  - cbn [tick_run]. rewrite Nat.Div0.div_0_l. by rewrite Z.sub_0_r.
  - cbn [tick_run]. rewrite IH by lia. cbn [fst snd]. rewrite seq_next, timed_step by lia.
    by destruct (Nat.ltb_spec (S n) K); [|lia].
Qed.

Lemma timed_end : exists ld, tick_run K (flash_state sum 0) = (ld, level t0 <$> seq 0 (S (K / N))) /\ flashing (type ld) = false.
Proof.
  assert (HK : exists n, K = S n) by (exists (K - 1)%nat; unfold total_ticks; lia). destruct HK as [n HK].
  rewrite HK. cbn [tick_run]. rewrite timed_run by lia. cbn [fst snd]. rewrite timed_step by lia.
  destruct (Nat.ltb_spec (S n) K); [lia|]. cbn [fst snd]. eexists. split.
  - f_equal. by rewrite app_assoc, <- seq_next, seq_S, fmap_app.
  - unfold kind. cbn [type]. by destruct (Nat.even (S n / N)), t0.
Qed.
End Flash.

Lemma steady_run n ld : flashing (type ld) = false -> tick_run n ld = (ld, []).
Proof.
  intros H. induction n as [|n IH]; [done|]. cbn [tick_run]. rewrite IH. cbn [fst snd].
  unfold tick_step. by rewrite H.
Qed.

Lemma tick_run_add m n ld : tick_run (m + n) ld =
  (fst (tick_run n (fst (tick_run m ld))), snd (tick_run m ld) ++ snd (tick_run n (fst (tick_run m ld)))).
Proof.
  induction n as [|n IH].
  - rewrite Nat.add_0_r. cbn. rewrite app_nil_r. by destruct (tick_run m ld).
  - rewrite Nat.add_succ_r. cbn [tick_run]. rewrite IH. cbn [fst snd]. by rewrite app_assoc.
Qed.

(** A cycle the 16-bit counter cannot reach: no write ever. *)
Lemma wrapped_run n ld : flashing (type ld) = true -> 65532 < flash_cycle ld -> flh_sum_time ld = LED_FOREVER ->
  (4 | expire_time ld) -> exists ld', tick_run n ld = (ld', []) /\ flashing (type ld') = true /\
    flash_cycle ld' = flash_cycle ld /\ flh_sum_time ld' = LED_FOREVER /\ (4 | expire_time ld').
Proof.
  intros Hf Hc Hs He. induction n as [|n IH]; [by exists ld|]. destruct IH as (l1 & Hr & Hf1 & Hc1 & Hs1 & He1).
  cbn [tick_run]. rewrite Hr. cbn [fst snd]. unfold tick_step. rewrite Hf1, Hs1. cbn [negb].
  change (LED_FOREVER =? LED_FOREVER) with true. cbv iota zeta.
  assert (Hd : (4 | u16 (expire_time l1 + LED_TIMER_VAL_MS))).
  { unfold u16, LED_TIMER_VAL_MS. destruct He1 as [x ->]. change (2 ^ 16) with (4 * 16384). exists ((x + 25) mod 16384).
    rewrite (Z.mul_comm ((x + 25) mod 16384)), <- Z.mul_mod_distr_l by lia. f_equal. lia. }
  assert (u16 (expire_time l1 + LED_TIMER_VAL_MS) < 65536) by (apply Z.mod_pos_bound; lia).
  destruct (Z.leb_spec (flash_cycle l1) (u16 (expire_time l1 + LED_TIMER_VAL_MS))); [destruct Hd; lia|].
  eexists. by split_and!.
Qed.

(** ** The timer and the list *)

Definition write_of (p : Z) (fx : LED_FX) : option bool :=
  match fx with LxWrite p' b => if p' =? p then Some b else None | _ => None end.
(** The levels written to the pin [p], in order. *)
Definition pin_writes (p : Z) (w : LedWorld) : list bool := omap (write_of p) (reverse (lw_trace w)).

Lemma pin_writes_writes p p' bs w : pin_writes p (writes p' bs w) = pin_writes p w ++ (if p' =? p then bs else []).
Proof.
  revert w. induction bs as [|b bs IH]; intros w.
  - cbn. by destruct (p' =? p); rewrite app_nil_r.
  - unfold writes in *. cbn [fold_left]. rewrite IH. unfold pin_writes, lw_add. cbn [lw_trace].
    rewrite reverse_cons, omap_app. cbn. destruct (p' =? p); cbn; by rewrite <- app_assoc.
Qed.

Abbreviation pins lds := (pinname <$> lds).

Lemma tick_step_pin ld : pinname (fst (tick_step ld)) = pinname ld.
Proof. unfold tick_step. destruct (negb (flashing (type ld))); [done|]. cbv zeta. by destruct (flh_sum_time ld =? LED_FOREVER). Qed.

Lemma tick_all_wp lds w : wp (led_tick_all lds)
  (fun lds' w' => lds' = (fun ld => fst (tick_step ld)) <$> lds /\
     forall p, pin_writes p w' = pin_writes p w ++ flat_map (fun ld => if pinname ld =? p then snd (tick_step ld) else []) lds) w.
Proof.
  revert w. induction lds as [|ld lds IH]; intros w; cbn [led_tick_all].
  - apply wp_ret. split; [done|]. intros p. by rewrite app_nil_r.
  - apply wp_bind. eapply wp_intro; [apply led_tick_eq|]. apply wp_bind. eapply wp_mono; [apply IH|].
    intros lds' w' [-> Hw]. apply wp_ret. split; [done|]. intros p. by rewrite Hw, pin_writes_writes, <- app_assoc.
Qed.

Fixpoint timer_ticks (n : nat) : LedM unit :=
  match n with
  | O => cret tt
  | S n => let* _ := timer_ticks n in __led_timer_cb
  end.

Lemma timer_ticks_wp n s w : NoDup (pins (led_cntl_list s)) ->
  wp (timer_ticks n) (fun _ r => led_cntl_list (fst r) = (fun ld => fst (tick_run n ld)) <$> led_cntl_list s /\
    forall ld, ld ∈ led_cntl_list s -> pin_writes (pinname ld) (snd r) = pin_writes (pinname ld) w ++ snd (tick_run n ld)) (s, w).
Proof.
  intros Hnd. induction n as [|n IH].
  - apply wp_ret. cbn [tick_run fst snd]. split; [symmetry; apply list_fmap_id|]. intros ld _. by rewrite app_nil_r.
  - cbn [timer_ticks]. apply wp_bind. eapply wp_mono; [exact IH|]. intros _ [s1 w1] [Hl Hw]. cbn [fst snd] in *.
    assert (Hpin : forall ld, pinname (fst (tick_run n ld)) = pinname ld).
    { intros ld. clear. induction n as [|n IH]; [done|]. cbn [tick_run fst]. by rewrite tick_step_pin. }
    assert (Hall : wp (on_host (led_tick_all (led_cntl_list s1))) (fun lds r =>
       lds = (fun ld => fst (tick_run (S n) ld)) <$> led_cntl_list s /\ fst r = s1 /\
       forall ld, ld ∈ led_cntl_list s -> pin_writes (pinname ld) (snd r) = pin_writes (pinname ld) w ++ snd (tick_run (S n) ld)) (s1, w1)).
    { apply wp_host. eapply wp_mono; [apply tick_all_wp|]. intros lds' w2 [-> Hw2]. cbn [fst snd].
      split; [rewrite Hl, <- list_fmap_compose; done|]. split; [done|]. intros ld Hld.
      rewrite Hw2, (Hw ld Hld). cbn [tick_run snd]. rewrite <- app_assoc. do 2 f_equal.
      rewrite <- (Hpin ld). apply (flat_map_key pinname (fun x => snd (tick_step x))).
      - rewrite Hl, <- list_fmap_compose. erewrite list_fmap_ext; [exact Hnd|]. intros i x _. apply Hpin.
      - rewrite Hl. by apply (list_elem_of_fmap_2 (fun ld => fst (tick_run n ld))). }
    unfold __led_timer_cb, get_ctx. apply wp_bind, wp_get. cbn [fst].
    destruct (led_cntl_list s1) as [|l ls] eqn:Hls.
    + apply wp_ret. destruct (wp_elim _ _ _ Hall) as (lds & [s2 w2] & Hrun & -> & Hs2 & Hw2). cbn in Hrun, Hs2. subst s2.
      injection Hrun as Hnil <-. cbn [fst snd] in *. rewrite Hls. by split.
    + apply wp_bind. eapply wp_mono; [exact Hall|]. intros lds [s2 w2] (-> & Hs2 & Hw2). cbn in Hs2. subst s2. unfold put_list. tm_steps. by split.
Qed.

Lemma find_led_some h l pre ld post : find_led h l = Some (pre, ld, post) -> l = pre ++ ld :: post /\ led_id ld = h.
Proof.
  revert pre. induction l as [|x l IH]; intros pre; cbn; [done|].
  destruct (Nat.eqb_spec (led_id x) h); [by intros [= <- <- <-]|].
  destruct (find_led h l) as [[[pre' e'] post']|]; [|done]. intros [= <- -> ->]. by destruct (IH pre' eq_refl) as [-> ?].
Qed.

(** The LED just after it has been told to flash. *)
Lemma set_flash_wp h t c sum s w pre ld post (Q : unit -> LED_STATICS * LedWorld -> Prop) :
  find_led h (led_cntl_list s) = Some (pre, ld, post) -> flashing t = true ->
  Q tt (mk_leds (pre ++ mk_led (led_id ld) (pinname ld) t c 0 sum :: post) (led_timer s) (led_mutex s) (s_ai_toy_led s), w) ->
  wp (tuya_set_led_light_type h t c sum) Q (s, w).
Proof.
  intros Hf Ht HQ. unfold tuya_set_led_light_type, get_ctx. apply wp_bind, wp_get, wp_bind. cbn [fst]. rewrite Hf.
  eapply wp_pure; [done|]. cbv beta iota. apply wp_bind, wp_host. destruct t; try done; apply wp_ret; exact HQ.
Qed.

(** The writes of a LED that flashes with the cycle [c] for [sum], in [n] ticks. *)
Definition flash_count (c sum : Z) (n : nat) : nat :=
  if (sum =? LED_FOREVER) || (n <? total_ticks sum)%nat then n / cycle_ticks c else S (total_ticks sum / cycle_ticks c).

Lemma flash_writes id p t c sum n : flashing t = true -> 0 <= c <= 65500 -> 0 <= sum <= LED_FOREVER ->
  snd (tick_run n (mk_led id p t c 0 sum)) = level t <$> seq 0 (flash_count c sum n).
Proof.
  intros Ht Hc Hs. pose proof (cycle_ticks_pos c).
  assert (Hst : mk_led id p t c 0 sum = flash_state id p t c sum 0).
  { unfold flash_state, kind. by rewrite Nat.Div0.div_0_l, Nat.Div0.mod_0_l. }
  rewrite Hst. unfold flash_count. destruct (Z.eqb_spec sum LED_FOREVER) as [->|Hne]; cbn [orb].
  - by rewrite flash_run.
  - assert (Hsum : 0 <= sum < LED_FOREVER) by lia. destruct (Nat.ltb_spec n (total_ticks sum)).
    + by rewrite timed_run.
    + destruct (timed_end id p t c sum Ht Hc Hsum) as (ld & He & Hf).
      replace n with (total_ticks sum + (n - total_ticks sum))%nat by lia.
      rewrite tick_run_add, He. cbn [fst snd]. by rewrite (steady_run _ ld Hf), app_nil_r.
Qed.

(** Flashing: told to flash with a cycle of at most 65,500 ms, a LED changes
    its level every ceil(cycle/100) timer ticks, beginning with the level of
    its kind, whatever the other LEDs do: for ever, or until its time is over,
    when it stays at the level the next change would have shown (so not always
    at the level of its kind). A cycle of more than 65,532 ms never shows: the
    16-bit counter wraps before it gets there. *)
Theorem led_flashes h t c sum n s w pre ld post : find_led h (led_cntl_list s) = Some (pre, ld, post) ->
  NoDup (pins (led_cntl_list s)) -> flashing t = true -> 0 <= c < 2 ^ 16 -> 0 <= sum < 2 ^ 16 ->
  exists s' w', (let* _ := tuya_set_led_light_type h t c sum in timer_ticks n)%c (s, w) = Some (tt, (s', w')) /\
    (c <= 65500 -> pin_writes (pinname ld) w' = pin_writes (pinname ld) w ++ (level t <$> seq 0 (flash_count c sum n))) /\
    (65532 < c -> sum = LED_FOREVER -> pin_writes (pinname ld) w' = pin_writes (pinname ld) w).
Proof.
  intros Hf Hnd Ht Hc Hs. pose proof (find_led_some _ _ _ _ _ Hf) as [Hl _].
  set (ld1 := mk_led (led_id ld) (pinname ld) t c 0 sum).
  assert (Hwp : wp (let* _ := tuya_set_led_light_type h t c sum in timer_ticks n)%c
    (fun _ r => pin_writes (pinname ld) (snd r) = pin_writes (pinname ld) w ++ snd (tick_run n ld1)) (s, w)).
  { apply wp_bind. eapply set_flash_wp; [done|done|]. eapply wp_mono; [apply timer_ticks_wp|].
    - cbn. rewrite Hl in Hnd. by rewrite fmap_app, fmap_cons in *.
    - intros _ r [_ Hr]. apply (Hr ld1). cbn. apply elem_of_app. right. by left. }
  destruct (wp_elim _ _ _ Hwp) as ([] & [s' w'] & Hrun & Hw). cbn [snd] in Hw. exists s', w'. split; [done|]. rewrite Hw. split.
  - intros Hc'. unfold ld1. rewrite flash_writes; [done|done|lia|unfold LED_FOREVER; lia].
  - intros Hc' Hsum. destruct (wrapped_run n ld1) as (ld2 & -> & _); [done|done|done|by exists 0|]. by rewrite app_nil_r.
Qed.

(** ** Creating a handle *)

Ltac led_step :=
  lazymatch goal with
  | |- wp (on_host lw_call) _ _ => apply wp_host; eapply wp_intro; [reflexivity|]
  | |- wp (on_host Malloc) _ _ => apply wp_host; eapply wp_intro; [reflexivity|]
  | |- wp (on_host (lw_emit _)) _ _ => apply wp_host; eapply wp_intro; [reflexivity|]
  | |- wp (if ?b then _ else _) _ _ => destruct b eqn:?
  | |- wp create_timer _ _ => unfold create_timer
  | |- wp put_timer _ _ => unfold put_timer
  | |- wp put_mutex _ _ => unfold put_mutex
  | |- wp (put_list _) _ _ => unfold put_list
  | |- _ => tm_step
  end; cbn [led_cntl_list led_timer led_mutex s_ai_toy_led fst snd negb lw_heap lw_os lw_calls lw_allocs lw_add].
Ltac led_steps := repeat led_step.

Lemma led_create_wp pin high s w (Q : OPERATE_RET * option nat -> LED_STATICS * LedWorld -> Prop) :
  (forall r s' w', r <> OPRT_OK -> led_cntl_list s' = led_cntl_list s ->
     (led_timer s = true -> lw_trace w' = lw_trace w \/ lw_trace w' = LxInit pin high :: lw_trace w) -> Q (r, None) (s', w')) ->
  (forall id s' w', led_timer s' = true -> led_mutex s' = true ->
     led_cntl_list s' = mk_led id pin OL_LOW 0 0 0 :: led_cntl_list s ->
     (led_timer s = true -> lw_trace w' = LxInit pin high :: lw_trace w) -> Q (OPRT_OK, Some id) (s', w')) ->
  wp (tuya_create_led_handle pin high) Q (s, w).
Proof.
  intros Hfail Hok. destruct s as [l t m a]. unfold tuya_create_led_handle.
  assert (Hne : forall b, negb (b =? OPRT_OK) = true -> b <> OPRT_OK) by (intros b ?%negb_true_iff%Z.eqb_neq; done).
  apply wp_bind. eapply (wp_mono _ (fun r sw => lw_trace (snd sw) = lw_trace w /\ fst sw = mk_leds l t (led_mutex (fst sw)) a /\
    (r = OPRT_OK -> led_mutex (fst sw) = true))).
  { unfold create_mutex. led_steps; (split; [done|]); (split; [done|]); intros Hr; try done;
      match goal with H : negb _ = true |- _ => by apply Hne in H end. }
  intros r [s1 w1] (Hw1 & Hs1 & Hm1). cbn [fst snd] in *. destruct (negb (r =? OPRT_OK)) eqn:Hr.
  { apply wp_ret, Hfail; [by apply Hne|by rewrite Hs1|by left]. }
  apply negb_false_iff, Z.eqb_eq in Hr. rewrite (Hm1 Hr) in Hs1. subst s1. clear Hm1.
  apply wp_bind. eapply (wp_mono _ (fun r sw => (t = true -> lw_trace (snd sw) = lw_trace w) /\
    fst sw = mk_leds l (led_timer (fst sw)) true a /\ (r = OPRT_OK -> led_timer (fst sw) = true))).
  { unfold create_timer. led_steps; (split; [done || congruence|]); (split; [done|]); intros Hr'; try done;
      match goal with H : negb _ = true |- _ => by apply Hne in H end. }
  intros r2 [s2 w2] (Hw2 & Hs2 & Ht2). cbn [fst snd led_timer] in *. destruct (negb (r2 =? OPRT_OK)) eqn:Hr2.
  { apply wp_ret, Hfail; [by apply Hne|by rewrite Hs2|]. intros ->. left. by apply Hw2. }
  apply negb_false_iff, Z.eqb_eq in Hr2. rewrite (Ht2 Hr2) in Hs2. subst s2.
  do 4 led_step. destruct (lw_heap _ _).
  - led_steps. apply Hok; try done. intros Ht. cbn. by rewrite Hw2.
  - apply wp_ret, Hfail; [done|done|]. intros Ht. right. cbn. by rewrite Hw2.
Qed.

(** A new handle: a failure of mutex, timer or memory is returned and leaves
    the LEDs as they are; success adds one steady LED at the head of the list,
    and mutex and timer exist. But a timer that cannot be started counts as
    created all the same: the next handle is given out, and no timer is started
    for it or for any later one. *)
Theorem led_created pin high s w :
  (exists r h s' w', tuya_create_led_handle pin high (s, w) = Some ((r, h), (s', w')) /\
     (r <> OPRT_OK -> h = None /\ led_cntl_list s' = led_cntl_list s) /\
     (r = OPRT_OK -> exists id, h = Some id /\ led_timer s' = true /\ led_mutex s' = true /\
        led_cntl_list s' = mk_led id pin OL_LOW 0 0 0 :: led_cntl_list s) /\
     (led_timer s = true -> LxTimerStart LED_TIMER_VAL_MS ∉ lw_trace w -> LxTimerStart LED_TIMER_VAL_MS ∉ lw_trace w')) /\
  (led_mutex s = true -> led_timer s = false -> lw_os w (lw_calls w) = OPRT_OK -> lw_os w (S (lw_calls w)) <> OPRT_OK ->
     lw_heap w (lw_allocs w) = true -> exists r s1 w1 id s2 w2,
       tuya_create_led_handle pin high (s, w) = Some ((r, None), (s1, w1)) /\ r <> OPRT_OK /\
       tuya_create_led_handle pin high (s1, w1) = Some ((OPRT_OK, Some id), (s2, w2)) /\
       led_timer s2 = true /\ lw_trace w2 = LxInit pin high :: lw_trace w).
Proof.
  split.
  - assert (Hwp : wp (tuya_create_led_handle pin high) (fun rh r =>
      (fst rh <> OPRT_OK -> snd rh = None /\ led_cntl_list (fst r) = led_cntl_list s) /\
      (fst rh = OPRT_OK -> exists id, snd rh = Some id /\ led_timer (fst r) = true /\ led_mutex (fst r) = true /\
        led_cntl_list (fst r) = mk_led id pin OL_LOW 0 0 0 :: led_cntl_list s) /\
      (led_timer s = true -> LxTimerStart LED_TIMER_VAL_MS ∉ lw_trace w -> LxTimerStart LED_TIMER_VAL_MS ∉ lw_trace (snd r))) (s, w)).
    { apply led_create_wp.
      - intros r s' w' Hr Hl Ht. split_and!; cbn; try done. intros Hts Hn.
        destruct (Ht Hts) as [->| ->]; [done|]. apply not_elem_of_cons; by split.
      - intros id s' w' Ht Hm Hl Htr. split_and!; cbn; try done; [by exists id|]. intros Hts Hn.
        rewrite (Htr Hts). apply not_elem_of_cons; by split. }
    destruct (wp_elim _ _ _ Hwp) as ([r h] & [s' w'] & Hrun & H). by exists r, h, s', w'.
  - destruct s as [l t m a], w as [hp al os cl tr]. cbn. intros -> -> H1 H2 H3.
    assert (Hr : (os (S cl) =? OPRT_OK) = false) by (by apply Z.eqb_neq).
    pose (s1 := mk_leds l true true a). pose (w1 := mk_lw hp al os (S (S cl)) tr).
    assert (W1 : wp (tuya_create_led_handle pin high) (fun rh r => rh = (os (S cl), None) /\ r = (s1, w1))
      (mk_leds l false true a, mk_lw hp al os cl tr)).
    { unfold tuya_create_led_handle, create_mutex.
      repeat (led_step; rewrite ?H1, ?Hr; change (OPRT_OK =? OPRT_OK) with true; cbn [negb]; cbv iota). done. }
    assert (W2 : wp (tuya_create_led_handle pin high) (fun rh r => rh = (OPRT_OK, Some al) /\
        led_timer (fst r) = true /\ lw_trace (snd r) = LxInit pin high :: tr) (s1, w1)).
    { unfold tuya_create_led_handle, create_mutex, s1, w1.
      repeat (led_step; change (OPRT_OK =? OPRT_OK) with true; rewrite ?H3; cbn [negb]; cbv iota). done. }
    destruct (wp_elim _ _ _ W1) as (r1 & [s1' w1'] & R1 & -> & [= -> ->]).
    destruct (wp_elim _ _ _ W2) as (r2 & [s2 w2] & R2 & -> & Ht2 & Hw2).
    exists (os (S cl)), s1, w1, al, s2, w2. by split_and!.
Qed.

(** *** At the LED of the toy *)

Definition calm_leds : LedWorld := mk_lw (fun _ => true) 0 (fun _ => OPRT_OK) 0 [].
Definition toy_leds : LED_STATICS := mk_leds [mk_led 0 9 OL_LOW 0 0 0] true true (Some 0%nat).

(** A flash of 200 ms for 500 ms: it ends high, though it is of the kind that
    is to end low. *)
Lemma led_flashes_witness : exists s' w',
  (let* _ := tuya_set_led_light_type 0 OL_FLASH_LOW 200 600 in timer_ticks 20)%c (toy_leds, calm_leds) = Some (tt, (s', w')) /\
  (200 <= 65500 -> pin_writes 9 w' = [false; true; false; true]) /\
  (65532 < 200 -> 600 = LED_FOREVER -> pin_writes 9 w' = []).
Proof.
  apply (led_flashes 0 OL_FLASH_LOW 200 600 20 toy_leds calm_leds [] (mk_led 0 9 OL_LOW 0 0 0) []); try done.
  apply NoDup_singleton.
Defined.

Example toy_led_first : exists s w, tuya_ai_toy_led_init 9 (leds_zero, calm_leds) = Some (OPRT_OK, (s, w)) /\ s_ai_toy_led s = Some 0%nat.
Proof. eexists _, _. by split; [vm_compute; reflexivity|]. Qed.

Lemma led_created_witness : let w := mk_lw (fun _ => true) 0 (fun n => if (n =? 1)%nat then OPRT_COM_ERROR else OPRT_OK) 0 [] in
  exists r s1 w1 id s2 w2,
    tuya_create_led_handle 9 true (mk_leds [] false true None, w) = Some ((r, None), (s1, w1)) /\ r <> OPRT_OK /\
    tuya_create_led_handle 9 true (s1, w1) = Some ((OPRT_OK, Some id), (s2, w2)) /\
    led_timer s2 = true /\ lw_trace w2 = [LxInit 9 true].
Proof.
  intros w. by apply (led_created 9 true (mk_leds [] false true None) w).
Defined.
