(* ===== verification/GfwLink.v ===== *)
(** The link to the audio processor: framing, the receiver's state machine and
    the table of commands (src/apps/src/miscs/uart_codec/src/gfw_core/:
    gfw_core_frame.c, gfw_core_dispatcher.c, gfw_core_cmd.c); and its theorems:
    the receiver's loop is an incremental scan of the stream, so how the bytes
    arrive in pieces does not matter; every frame packed for the link comes out
    of it, between any noise without a frame head; and the buffer always has
    room for more. *)
From S2P Require Import Prelude.
From S2P Require Import World.
From S2P Require Import TmHost.

#[local] Open Scope Z_scope.
#[local] Open Scope list_scope.

Definition MIN_FRAME_LEN : nat := 7.
Definition DEFAULT_FRAME_VER : Z := 0.
Definition TY_UART_BUF_SIZE : nat := 2048.
Definition DEF_UART_BUF_SIZE : nat := 2048.
Definition MAX_DETECT_COUNT : Z := 10.
Definition INVALID_SUBCMD : Z := 255.
Definition MAX_GFW_CMD_CNT : nat := 64.

(** ** Frames (gfw_core_frame.c) *)

Definition gfw_core_frame_calc_crc (bytes : list Z) : Z := fold_left (fun crc b => u8 (crc + b)) bytes 0.

Inductive AUDIO_GFW_CMD_TYPE_E :=
| AUDIO_GFW_CMD_TYPE_DEFAULT | AUDIO_GFW_CMD_TYPE_SYNC | AUDIO_GFW_CMD_TYPE_INSTANT
| AUDIO_GFW_CMD_TYPE_ZEROCOPY | AUDIO_GFW_CMD_TYPE_DIRECT.
#[export] Instance gfw_type_eq_dec : EqDecision AUDIO_GFW_CMD_TYPE_E.
Proof. solve_decision. Defined.

Definition frame_header (cmd : Z) (data_len : Z) : list Z :=
  [85; 170; DEFAULT_FRAME_VER; cmd; Z.land (Z.shiftr data_len 8) 255; Z.land data_len 255].

(** The frame written, of [pack_len] bytes. [data] are the bytes the pointer
    leads to, NULL is [None]; for ZEROCOPY the frame is built around them in the
    caller's buffer, which must have room. A [pack_len] that has wrapped
    (data_len above 65,528) makes the writes overrun; sending bytes that were
    never written is undefined as well. *)
Definition gfw_core_frame_pack (type : AUDIO_GFW_CMD_TYPE_E) (cmd : Z) (data : option (list Z)) (data_len : Z)
    (malloc_ok : bool) : option (OPERATE_RET * list Z) :=
  let pack_len := u16 (data_len + Z.of_nat MIN_FRAME_LEN) in
  if negb (bool_decide (type = AUDIO_GFW_CMD_TYPE_ZEROCOPY)) && negb malloc_ok then Some (OPRT_MALLOC_FAILED, [])
  else if pack_len <? data_len + Z.of_nat MIN_FRAME_LEN then None
  else
    let body := match data with Some bytes => bytes | None => [] end in
    if (length body <? Z.to_nat data_len)%nat then None
    else
      let pack := (frame_header cmd data_len ++ take (Z.to_nat data_len) body)%list in
      Some (OPRT_OK, (pack ++ [gfw_core_frame_calc_crc pack])%list).

(** ** The receiver (gfw_core_dispatcher.c) *)

Record AUDIO_GFW_CMD_DATA_T := mk_cmd_data { ver : Z; cd_cmd : Z; cd_data : list Z }.

Inductive DISPATCHER_STATE_E :=
| DISPATCHER_STATE_SETUP | DISPATCHER_STATE_DETECT | DISPATCHER_STATE_RECV | DISPATCHER_STATE_PROC
| DISPATCHER_STATE_TEARDOWN | DISPATCHER_STATE_IDLE.
#[export] Instance dispatcher_state_eq_dec : EqDecision DISPATCHER_STATE_E.
Proof. solve_decision. Defined.

Record DISPATCHER_CFG_T := mk_dcfg {
  baud_rate : list Z;             (* baud_rate_cnt of them *)
  cmd_interval : Z;
  has_handler : bool;             (* cmd_handler is not NULL *)
  ext_trans : bool }.             (* trans->init and trans->recv are not NULL *)

(** [recv_bytes] are the first recv_in bytes of recv_buf; [big_buf] says that
    recv_buf is not def_buf any more. *)
Record DISPATCHER_CTX_T := mk_dctx {
  dstate : DISPATCHER_STATE_E;
  running : bool;
  recv_bytes : list Z;
  big_buf : bool;
  buf_size : nat;
  dcfg : DISPATCHER_CFG_T;
  baud_rate_index : Z;
  detect_cnt : Z;                 (* UINT8_T *)
  recv_time : TIME_T;
  incomplete : bool }.

(** *** The device around the receiver *)

Inductive GFW_FX :=
| GxUartInit (baud : Z) (block : bool) | GxTransInit | GxUartDeinit
| GxLocked                                   (* ty_publish_event(EVENT_BAUDRATE_LOCKED) *)
| GxDetectSend                               (* cfg.detect_send *)
| GxHandle (data : AUDIO_GFW_CMD_DATA_T).    (* cfg.cmd_handler *)

(** [gw_fifo] are the bytes still to come in; [gw_avail] says how many of them
    the n-th read can get, [gw_detect] what the n-th cfg.detect_recv answers. *)
Record GfwWorld := mk_gw {
  gw_fifo : list Z;
  gw_avail : nat -> nat;
  gw_reads : nat;
  gw_clock : nat -> TIME_T;
  gw_times : nat;
  gw_heap : nat -> bool;
  gw_allocs : nat;
  gw_detect : nat -> OPERATE_RET;
  gw_detects : nat;
  gw_trace : list GFW_FX }.

Definition gw_emit (fx : GFW_FX) : C GfwWorld unit := cmod (fun w =>
  mk_gw (gw_fifo w) (gw_avail w) (gw_reads w) (gw_clock w) (gw_times w) (gw_heap w) (gw_allocs w) (gw_detect w) (gw_detects w)
    (fx :: gw_trace w)).
Definition gw_read (size : nat) : C GfwWorld (list Z) := fun w =>
  let n := Nat.min size (gw_avail w (gw_reads w)) in
  Some (take n (gw_fifo w),
    mk_gw (drop n (gw_fifo w)) (gw_avail w) (S (gw_reads w)) (gw_clock w) (gw_times w) (gw_heap w) (gw_allocs w) (gw_detect w)
      (gw_detects w) (gw_trace w)).
Definition gw_posix : C GfwWorld TIME_T := fun w =>
  Some (gw_clock w (gw_times w),
    mk_gw (gw_fifo w) (gw_avail w) (gw_reads w) (gw_clock w) (S (gw_times w)) (gw_heap w) (gw_allocs w) (gw_detect w)
      (gw_detects w) (gw_trace w)).
Definition gw_malloc : C GfwWorld bool := fun w =>
  Some (gw_heap w (gw_allocs w),
    mk_gw (gw_fifo w) (gw_avail w) (gw_reads w) (gw_clock w) (gw_times w) (gw_heap w) (S (gw_allocs w)) (gw_detect w)
      (gw_detects w) (gw_trace w)).
Definition gw_detect_recv : C GfwWorld OPERATE_RET := fun w =>
  Some (gw_detect w (gw_detects w),
    mk_gw (gw_fifo w) (gw_avail w) (gw_reads w) (gw_clock w) (gw_times w) (gw_heap w) (gw_allocs w) (gw_detect w)
      (S (gw_detects w)) (gw_trace w)).

Abbreviation DM := (C (DISPATCHER_CTX_T * GfwWorld)).

Definition dfx (fx : GFW_FX) : DM unit := on_host (gw_emit fx).
Definition put_state (st : DISPATCHER_STATE_E) : DM unit :=
  mod_ctx (fun c => mk_dctx st (running c) (recv_bytes c) (big_buf c) (buf_size c) (dcfg c) (baud_rate_index c) (detect_cnt c)
                      (recv_time c) (incomplete c)).
Definition put_running (b : bool) : DM unit :=
  mod_ctx (fun c => mk_dctx (dstate c) b (recv_bytes c) (big_buf c) (buf_size c) (dcfg c) (baud_rate_index c) (detect_cnt c)
                      (recv_time c) (incomplete c)).
Definition put_bytes (l : list Z) : DM unit :=
  mod_ctx (fun c => mk_dctx (dstate c) (running c) l (big_buf c) (buf_size c) (dcfg c) (baud_rate_index c) (detect_cnt c)
                      (recv_time c) (incomplete c)).
Definition put_buf (big : bool) (size : nat) : DM unit :=
  mod_ctx (fun c => mk_dctx (dstate c) (running c) (recv_bytes c) big size (dcfg c) (baud_rate_index c) (detect_cnt c)
                      (recv_time c) (incomplete c)).
Definition put_index (i : Z) : DM unit :=
  mod_ctx (fun c => mk_dctx (dstate c) (running c) (recv_bytes c) (big_buf c) (buf_size c) (dcfg c) i (detect_cnt c)
                      (recv_time c) (incomplete c)).
Definition put_detect (n : Z) : DM unit :=
  mod_ctx (fun c => mk_dctx (dstate c) (running c) (recv_bytes c) (big_buf c) (buf_size c) (dcfg c) (baud_rate_index c) n
                      (recv_time c) (incomplete c)).
Definition put_wait (t : TIME_T) (b : bool) : DM unit :=
  mod_ctx (fun c => mk_dctx (dstate c) (running c) (recv_bytes c) (big_buf c) (buf_size c) (dcfg c) (baud_rate_index c) (detect_cnt c)
                      t b).

Definition __dispatcher_setup : DM unit :=
  let* c := get_ctx in
  let* _ :=
    if negb (ext_trans (dcfg c)) then
      let* baud := cpure (nth_error (baud_rate (dcfg c)) (Z.to_nat (baud_rate_index c))) in
      if (length (baud_rate (dcfg c)) =? 1)%nat then
        let* _ := dfx (GxUartInit baud true) in
        put_state DISPATCHER_STATE_RECV
      else
        let* _ := dfx (GxUartInit baud false) in
        let* _ := put_state DISPATCHER_STATE_DETECT in
        put_detect MAX_DETECT_COUNT
    else
      let* _ := dfx GxTransInit in
      put_state DISPATCHER_STATE_RECV in
  if (length (baud_rate (dcfg c)) =? 1)%nat then dfx GxLocked else cret tt.

Definition __dispatcher_detect : DM unit :=
  let* _ := dfx GxDetectSend in
  put_state DISPATCHER_STATE_RECV.

(** What follows the count-down of detect_cnt. *)
Definition recv_bytes_in : DM unit :=
  let* c := get_ctx in
  let* bytes := on_host (gw_read (buf_size c - length (recv_bytes c))) in
  if (0 <? length bytes)%nat then
    let* _ := put_bytes (recv_bytes c ++ bytes) in
    if bool_decide (dstate c = DISPATCHER_STATE_IDLE) then cret tt else put_state DISPATCHER_STATE_PROC
  else cret tt.

Definition __dispatcher_recv : DM unit :=
  let* c := get_ctx in
  if negb (detect_cnt c =? 0) then
    let* _ := put_detect (detect_cnt c - 1) in
    if detect_cnt c - 1 =? 1 then put_state DISPATCHER_STATE_TEARDOWN else recv_bytes_in
  else recv_bytes_in.

Abbreviation byte_at l i := (nth i l 0).

Definition frame_len (l : list Z) : Z := byte_at l 4 * 2 ^ 8 + byte_at l 5.

(** The frame at the front is not complete yet: the bytes that stay. *)
Definition not_complete (rest : list Z) : DM (list Z) :=
  let* now := on_host gw_posix in
  let* c := get_ctx in
  if negb (incomplete c) then
    let* _ := put_wait now true in cret rest
  else
    let d := u32 (now - recv_time c) in
    if (2 <=? d) && (d <? 65535) then
      let* _ := put_wait 0 false in cret []
    else
      let* _ := put_wait now true in cret rest.

(** The loop over the buffer; [rest] are the bytes from offset on. It ends with
    the bytes that remain, or with a return out of the function. *)
Fixpoint proc_loop (fuel : nat) (rest : list Z) : DM (option (list Z)) :=
  match fuel with
  | O => cpure None
  | S fuel =>
      if (length rest <? MIN_FRAME_LEN)%nat then cret (Some rest)
      else if negb ((byte_at rest 0 =? 85) && (byte_at rest 1 =? 170)) then
        let* c := get_ctx in
        if bool_decide (dstate c = DISPATCHER_STATE_IDLE) then cret None else proc_loop fuel (drop 1 rest)
      else
        let len := Z.to_nat (frame_len rest) in
        if (TY_UART_BUF_SIZE <? len + MIN_FRAME_LEN)%nat then proc_loop fuel (drop 1 rest)
        else if (length rest <? len + MIN_FRAME_LEN)%nat then
          let* rest := not_complete rest in cret (Some rest)
        else
          let* _ := put_wait 0 false in
          if negb (byte_at rest (6 + len) =? gfw_core_frame_calc_crc (take (6 + len) rest)) then proc_loop fuel (drop 1 rest)
          else
            let cmd_data := mk_cmd_data (byte_at rest 2) (byte_at rest 3) (take len (drop 6 rest)) in
            let* c := get_ctx in
            if negb (detect_cnt c =? 0) then
              let* r := on_host gw_detect_recv in
              if r =? OPRT_OK then
                let* _ := put_running false in cret None
              else proc_loop fuel (drop (MIN_FRAME_LEN + len) rest)
            else
              let* _ := if has_handler (dcfg c) then dfx (GxHandle cmd_data) else cret tt in
              proc_loop fuel (drop (MIN_FRAME_LEN + len) rest)
  end.

(** A frame larger than def_buf at the front: a larger buffer. *)
Definition grow_buf (rest : list Z) : DM unit :=
  let* c := get_ctx in
  if (MIN_FRAME_LEN <? length rest)%nat && negb (big_buf c) then
    if (DEF_UART_BUF_SIZE <? Z.to_nat (frame_len rest) + MIN_FRAME_LEN)%nat then
      let* ok := on_host gw_malloc in
      if ok then put_buf true TY_UART_BUF_SIZE else cret tt
    else cret tt
  else cret tt.

Definition __dispatcher_proc : DM unit :=
  let* c := get_ctx in
  let* r := proc_loop (S (length (recv_bytes c))) (recv_bytes c) in
  match r with
  | None => cret tt
  | Some rest =>
      let* _ := put_bytes rest in
      let* _ := grow_buf rest in
      let* c := get_ctx in
      if bool_decide (dstate c = DISPATCHER_STATE_PROC) then put_state DISPATCHER_STATE_RECV else cret tt
  end.

Definition __dispatcher_teardown : DM unit :=
  let* c := get_ctx in
  let cnt := Z.of_nat (length (baud_rate (dcfg c))) in
  if cnt =? 0 then cpure None
  else
    let* _ := put_index ((baud_rate_index c + 1) mod cnt) in
    let* _ := put_state DISPATCHER_STATE_SETUP in
    dfx GxUartDeinit.

Definition __dispatcher_idle : DM unit := dfx GxUartDeinit.

(** One round of the loop of __dispatcher_run. *)
Definition dispatcher_round : DM unit :=
  let* c := get_ctx in
  match dstate c with
  | DISPATCHER_STATE_SETUP => __dispatcher_setup
  | DISPATCHER_STATE_DETECT => __dispatcher_detect
  | DISPATCHER_STATE_RECV => __dispatcher_recv
  | DISPATCHER_STATE_PROC => __dispatcher_proc
  | DISPATCHER_STATE_TEARDOWN => __dispatcher_teardown
  | DISPATCHER_STATE_IDLE => __dispatcher_idle
  end.

Fixpoint dispatcher_rounds (n : nat) : DM unit :=
  match n with
  | O => cret tt
  | S n => let* c := get_ctx in if running c then let* _ := dispatcher_round in dispatcher_rounds n else cret tt
  end.

(** gfw_core_dispatcher_start up to the loop, and the loop's end. *)
Definition gfw_core_dispatcher_start (cfg : DISPATCHER_CFG_T) : DISPATCHER_CTX_T :=
  mk_dctx DISPATCHER_STATE_SETUP true [] false DEF_UART_BUF_SIZE cfg 0 0 0 false.
Definition dispatcher_end : DM unit :=
  let* c := get_ctx in
  if bool_decide (dstate c = DISPATCHER_STATE_TEARDOWN) then cret tt else __dispatcher_teardown.

Definition gfw_core_dispatcher_stop : DM unit :=
  let* _ := put_running false in dfx GxUartDeinit.
Definition gfw_core_dispatcher_pause : DM unit := put_state DISPATCHER_STATE_IDLE.

(** ** The table of commands (gfw_core_cmd.c) *)

(** A registered command; its callback is a number or NULL. *)
Record AUDIO_GFW_CMD_CFG_T := mk_cmd_cfg { cc_cmd : Z; cc_sub_cmd : Z; cc_cb : option nat }.

(** What the callback of a command is called with: the bytes [data] leads to,
    to the end of the buffer, and [len], which is a USHORT_T. *)
Record CMD_CALL := mk_call { call_cb : nat; call_cmd : Z; call_len : Z; call_data : list Z }.

(** [bytes] are those from data->data on, the check byte of the frame included. *)
Fixpoint gfw_core_cmd_dispatch (cmds : list AUDIO_GFW_CMD_CFG_T) (cmd len : Z) (bytes : list Z) : option (list CMD_CALL) :=
  match cmds with
  | [] => Some []
  | c :: cmds =>
      if cc_cmd c =? cmd then
        if negb (cc_sub_cmd c =? INVALID_SUBCMD) then
          match bytes with
          | [] => None
          | b :: rest =>
              if negb (cc_sub_cmd c =? b) then gfw_core_cmd_dispatch cmds cmd len bytes
              else Some (match cc_cb c with Some cb => [mk_call cb b (u16 (len - 1)) rest] | None => [] end)
          end
        else Some (match cc_cb c with Some cb => [mk_call cb cmd len bytes] | None => [] end)
      else gfw_core_cmd_dispatch cmds cmd len bytes
  end.

Definition gfw_core_cmd_register (cmds : list AUDIO_GFW_CMD_CFG_T) (table : list AUDIO_GFW_CMD_CFG_T)
    : OPERATE_RET * list AUDIO_GFW_CMD_CFG_T :=
  if (length cmds =? 0)%nat then (OPRT_INVALID_PARM, table)
  else if (MAX_GFW_CMD_CNT <=? length table + length cmds)%nat then (OPRT_EXCEED_UPPER_LIMIT, table)
  else (OPRT_OK, (table ++ cmds)%list).

(** ** The scan *)

Inductive STEP := Skip | Wait | Take (data : AUDIO_GFW_CMD_DATA_T) (n : nat).

(** What the loop does at the front of at least seven bytes. *)
Definition front (l : list Z) : STEP :=
  let len := Z.to_nat (frame_len l) in
  if negb ((byte_at l 0 =? 85) && (byte_at l 1 =? 170)) then Skip
  else if (TY_UART_BUF_SIZE <? len + MIN_FRAME_LEN)%nat then Skip
  else if (length l <? len + MIN_FRAME_LEN)%nat then Wait
  else if negb (byte_at l (6 + len) =? gfw_core_frame_calc_crc (take (6 + len) l)) then Skip
  else Take (mk_cmd_data (byte_at l 2) (byte_at l 3) (take len (drop 6 l))) (MIN_FRAME_LEN + len).

(** The commands in a stream, and the bytes that remain. *)
Fixpoint scan (fuel : nat) (l : list Z) : list AUDIO_GFW_CMD_DATA_T * list Z :=
  match fuel with
  | O => ([], l)
  | S fuel =>
      if (length l <? MIN_FRAME_LEN)%nat then ([], l)
      else match front l with
           | Skip => scan fuel (drop 1 l)
           | Wait => ([], l)
           | Take d n => prod_map (cons d) id (scan fuel (drop n l))
           end
  end.
Definition parse (l : list Z) : list AUDIO_GFW_CMD_DATA_T * list Z := scan (length l) l.

Lemma front_take l d n : front l = Take d n -> (MIN_FRAME_LEN <= n <= length l)%nat.
Proof.
  unfold front. cbv zeta. repeat (case_match; try done). intros [= _ <-].
  match goal with H : (length l <? _)%nat = false |- _ => apply Nat.ltb_ge in H end. unfold MIN_FRAME_LEN in *. lia.
Qed.

Lemma scan_fuel n m l : (length l <= n)%nat -> (length l <= m)%nat -> scan n l = scan m l.
Proof.
  revert m l. induction n as [|n IH]; intros m l Hn Hm; destruct m as [|m]; cbn [scan]; try done.
  1, 2: destruct l; [done|cbn in *; lia].
  destruct (Nat.ltb_spec (length l) MIN_FRAME_LEN) as [|Hl]; [done|]. unfold MIN_FRAME_LEN in Hl.
  destruct (front l) as [| |d k] eqn:Hf; [|done|].
  - apply IH; rewrite length_drop; lia.
  - apply front_take in Hf. unfold MIN_FRAME_LEN in Hf. rewrite (IH m); [done| |]; rewrite length_drop; lia.
Qed.

Lemma parse_eq l : parse l =
  if (length l <? MIN_FRAME_LEN)%nat then ([], l)
  else match front l with
       | Skip => parse (drop 1 l)
       | Wait => ([], l)
       | Take d n => prod_map (cons d) id (parse (drop n l))
       end.
Proof.
  unfold parse. destruct l as [|b l]; [done|]. cbn [length scan].
  destruct (Nat.ltb_spec (S (length l)) MIN_FRAME_LEN) as [|Hl]; [done|].
  destruct (front (b :: l)) as [| |d k] eqn:Hf; [done|done|]. f_equal. apply front_take in Hf. unfold MIN_FRAME_LEN in Hf.
  apply scan_fuel; rewrite length_drop; cbn in *; lia.
Qed.

(** More bytes do not change what the scan does at the front, unless it waits. *)
Lemma front_app a b : (MIN_FRAME_LEN <= length a)%nat -> front a <> Wait -> front (a ++ b) = front a.
Proof.
  unfold MIN_FRAME_LEN. intros Ha. unfold front, frame_len. rewrite !app_nth1 by lia. cbv zeta.
  case_match; [done|]. case_match; [done|]. destruct (Nat.ltb_spec (length a) (Z.to_nat (byte_at a 4 * 2 ^ 8 + byte_at a 5) + MIN_FRAME_LEN)) as [|Hl]; [done|].
  intros _. unfold MIN_FRAME_LEN in *. rewrite length_app.
  destruct (Nat.ltb_spec (length a + length b) (Z.to_nat (byte_at a 4 * 2 ^ 8 + byte_at a 5) + 7)); [lia|].
  rewrite app_nth1 by lia. rewrite !take_app_le by lia. case_match; [done|].
  rewrite drop_app_le by lia. rewrite take_app_le by (rewrite length_drop; lia). by rewrite ?app_nth1 by lia.
Qed.

(** The scan can be interrupted anywhere. *)
Lemma parse_app a b : parse (a ++ b) = let '(cs, r) := parse a in let '(cs', r') := parse (r ++ b) in (cs ++ cs', r').
Proof.
  induction a as [a IH] using (induction_ltof1 _ (@length Z)). unfold ltof in IH.
  assert (Hfa : (MIN_FRAME_LEN <= length a)%nat -> front a <> Wait -> front (a ++ b) = front a) by apply front_app.
  rewrite (parse_eq a). destruct (Nat.ltb_spec (length a) MIN_FRAME_LEN) as [Ha|Ha].
  { by destruct (parse (a ++ b)). }
  destruct (front a) as [| |d n] eqn:Hf.
  - rewrite (parse_eq (a ++ b)). rewrite length_app. unfold MIN_FRAME_LEN in *.
    destruct (Nat.ltb_spec (length a + length b) 7); [lia|]. rewrite Hfa by (first [lia|congruence]).
    rewrite drop_app_le by lia. apply IH. rewrite length_drop. lia.
  - by destruct (parse (a ++ b)).
  - pose proof (front_take _ _ _ Hf) as Hn. rewrite (parse_eq (a ++ b)). rewrite length_app. unfold MIN_FRAME_LEN in *.
    destruct (Nat.ltb_spec (length a + length b) 7); [lia|]. rewrite Hfa by (first [lia|congruence]).
    rewrite drop_app_le by lia. rewrite IH by (rewrite length_drop; lia).
    destruct (parse (drop n a)) as [cs r]. cbn [prod_map fst snd id]. by destruct (parse (r ++ b)).
Qed.

(** What remains is too short for a frame, or the start of one that fits into
    the buffer. *)
Lemma parse_waits l : (MIN_FRAME_LEN <= length (snd (parse l)))%nat -> front (snd (parse l)) = Wait.
Proof.
  induction l as [l IH] using (induction_ltof1 _ (@length Z)). unfold ltof in IH. rewrite parse_eq.
  destruct (Nat.ltb_spec (length l) MIN_FRAME_LEN) as [Hl|Hl]; [unfold MIN_FRAME_LEN in *; cbn [snd]; lia|].
  destruct (front l) as [| |d n] eqn:Hf; [|done|].
  - apply IH. rewrite length_drop. unfold MIN_FRAME_LEN in *. lia.
  - cbn. apply IH. rewrite length_drop. apply front_take in Hf. unfold MIN_FRAME_LEN in *. lia.
Qed.

Lemma front_wait l : front l = Wait ->
  (length l < Z.to_nat (frame_len l) + MIN_FRAME_LEN <= TY_UART_BUF_SIZE)%nat.
Proof.
  unfold front. cbv zeta. repeat (case_match; try done). intros _.
  repeat match goal with H : (_ <? _)%nat = _ |- _ => first [apply Nat.ltb_lt in H|apply Nat.ltb_ge in H] end. lia.
Qed.

Lemma parse_rest l : (length (snd (parse l)) < TY_UART_BUF_SIZE)%nat.
Proof.
  destruct (Nat.lt_ge_cases (length (snd (parse l))) MIN_FRAME_LEN) as [|H]; [unfold MIN_FRAME_LEN, TY_UART_BUF_SIZE in *; lia|].
  pose proof (front_wait _ (parse_waits _ H)). lia.
Qed.

(** So the code never looks for a larger buffer. *)
Lemma grow_buf_never l c w : grow_buf (snd (parse l)) (c, w) = Some (tt, (c, w)).
Proof.
  unfold grow_buf, cbind at 1, get_ctx, cget. cbn [fst].
  destruct (Nat.ltb_spec MIN_FRAME_LEN (length (snd (parse l)))) as [H|]; [|done]. destruct (negb (big_buf c)); [cbn [andb]|done].
  pose proof (front_wait _ (parse_waits l ltac:(unfold MIN_FRAME_LEN in *; lia))) as Hw.
  unfold DEF_UART_BUF_SIZE. unfold TY_UART_BUF_SIZE in Hw. by destruct (Nat.ltb_spec 2048 (Z.to_nat (frame_len (snd (parse l))) + MIN_FRAME_LEN)); [lia|].
Qed.

(** ** The loop performs the scan *)

Definition waited (c : DISPATCHER_CTX_T) (t : TIME_T) (b : bool) : DISPATCHER_CTX_T :=
  mk_dctx (dstate c) (running c) (recv_bytes c) (big_buf c) (buf_size c) (dcfg c) (baud_rate_index c) (detect_cnt c) t b.
(** [cs] have been handled, and the clock has been read [k] times in all. *)
Definition noted (w : GfwWorld) (k : nat) (cs : list AUDIO_GFW_CMD_DATA_T) : GfwWorld :=
  mk_gw (gw_fifo w) (gw_avail w) (gw_reads w) (gw_clock w) k (gw_heap w) (gw_allocs w) (gw_detect w) (gw_detects w)
    (rev (map GxHandle cs) ++ gw_trace w).

(** Less than two seconds pass between two looks at a frame not complete yet. *)
Definition steady (clock : nat -> TIME_T) : Prop := forall n, u32 (clock (S n) - clock n) < 2.
Definition wait_ok (c : DISPATCHER_CTX_T) (w : GfwWorld) : Prop :=
  incomplete c = true -> (0 < gw_times w)%nat /\ recv_time c = gw_clock w (pred (gw_times w)).

Lemma noted_noted w k k' cs cs' : noted (noted w k cs) k' cs' = noted w k' (cs ++ cs').
Proof. unfold noted. cbn. by rewrite map_app, rev_app_distr, app_assoc. Qed.
Lemma noted_self w : noted w (gw_times w) [] = w.
Proof. by destruct w. Qed.

Section Scan.
Context (c : DISPATCHER_CTX_T) (clock : nat -> TIME_T).
Hypothesis Hclock : steady clock.
Hypothesis Hdetect : detect_cnt c = 0.
Hypothesis Hhandler : has_handler (dcfg c) = true.
Hypothesis Hstate : dstate c = DISPATCHER_STATE_PROC.

Lemma not_complete_eq rest t b w : gw_clock w = clock -> wait_ok (waited c t b) w ->
  exists t' k, not_complete rest (waited c t b, w) = Some (rest, (waited c t' true, noted w k []))
    /\ wait_ok (waited c t' true) (noted w k []).
Proof.
  intros Hw Hok. exists (clock (gw_times w)), (S (gw_times w)). split.
  - unfold not_complete, on_host, gw_posix, cbind, get_ctx, cget. cbn [option_map fst snd incomplete waited]. rewrite <- Hw.
    destruct b; cbn [negb]; [|done]. cbv zeta. cbn [recv_time waited].
    destruct (Hok eq_refl) as [Hpos Ht]. cbn in Ht. rewrite Ht, Hw. destruct (gw_times w) as [|n]; [lia|]. cbn [pred].
    pose proof (Hclock n). destruct (Z.leb_spec 2 (u32 (clock (S n) - clock n))); [lia|]. cbn [andb].
    by rewrite <- Hw.
  - intros _. cbn. rewrite Hw. by split; [lia|].
Qed.

Lemma proc_loop_eq fuel : forall rest t b w, (length rest < fuel)%nat -> gw_clock w = clock -> wait_ok (waited c t b) w ->
  exists t' b' k, proc_loop fuel rest (waited c t b, w)
      = Some (Some (snd (parse rest)), (waited c t' b', noted w k (fst (parse rest))))
    /\ wait_ok (waited c t' b') (noted w k (fst (parse rest))).
Proof.
  induction fuel as [|fuel IH]; [lia|]. intros rest t b w Hl Hw Hok. rewrite parse_eq. cbn [proc_loop].
  destruct (Nat.ltb_spec (length rest) MIN_FRAME_LEN) as [|Hmin].
  { exists t, b, (gw_times w). cbn [fst snd]. by rewrite noted_self. }
  assert (Hdrop : forall n, (0 < n)%nat -> (length (drop n rest) < fuel)%nat).
  { intros n Hn. rewrite length_drop. unfold MIN_FRAME_LEN in Hmin. lia. }
  unfold front. destruct (negb ((byte_at rest 0 =? 85) && (byte_at rest 1 =? 170))).
  { unfold cbind at 1, get_ctx, cget. cbn [fst waited dstate]. rewrite Hstate. cbn [bool_decide decide_rel].
    apply IH; [by apply Hdrop; lia|done|done]. }
  cbv zeta. set (len := Z.to_nat (frame_len rest)).
  destruct (TY_UART_BUF_SIZE <? len + MIN_FRAME_LEN)%nat; [apply IH; [apply Hdrop; lia|done|done]|].
  destruct (length rest <? len + MIN_FRAME_LEN)%nat.
  { destruct (not_complete_eq rest t b w Hw Hok) as (t' & k & He & Hok'). exists t', true, k. cbn [fst snd]. split; [|done].
    unfold cbind. by rewrite He. }
  assert (Hok0 : forall w, wait_ok (waited c 0 false) w) by done.
  unfold cbind at 1, put_wait, mod_ctx, cmod. cbn [fst snd].
  change (mk_dctx _ _ _ _ _ _ _ _ 0 false) with (waited c 0 false).
  destruct (negb (byte_at rest (6 + len) =? _)); [apply IH; [apply Hdrop; lia|done|done]|].
  unfold cbind at 1, get_ctx, cget. cbn [fst waited detect_cnt dcfg]. rewrite Hdetect, Hhandler. cbn [Z.eqb negb].
  set (d := mk_cmd_data _ _ _).
  destruct (IH (drop (MIN_FRAME_LEN + len) rest) 0 false (noted w (gw_times w) [d])) as (t' & b' & k & He & Hok');
    [apply Hdrop; unfold MIN_FRAME_LEN; lia|done|done|].
  exists t', b', k. rewrite noted_noted in He, Hok'. destruct (parse (drop (MIN_FRAME_LEN + len) rest)) as [cs r].
  cbn [prod_map fst snd id] in *. split; [|exact Hok']. exact He.
Qed.

End Scan.

(** ** The receiver gets the whole stream *)

Section Receiver.
Context (stream : list Z) (cfg : DISPATCHER_CFG_T) (clock : nat -> TIME_T) (avail : nat -> nat) (trace : list GFW_FX).
Hypothesis Hclock : steady clock.
Hypothesis Havail : forall n, (0 < avail n)%nat.
Hypothesis Hhandler : has_handler cfg = true.

(** In state [st] with [bytes] in the buffer, when [seen] has been read and
    [cs] handled. *)
Record receiving (st : DISPATCHER_STATE_E) (bytes : list Z) (cs : list AUDIO_GFW_CMD_DATA_T) (seen : list Z)
    (c : DISPATCHER_CTX_T) (w : GfwWorld) : Prop := mk_receiving {
  rv_state : dstate c = st;
  rv_run : running c = true;
  rv_detect : detect_cnt c = 0;
  rv_cfg : dcfg c = cfg;
  rv_size : buf_size c = TY_UART_BUF_SIZE;
  rv_bytes : recv_bytes c = bytes;
  rv_fifo : (seen ++ gw_fifo w)%list = stream;
  rv_avail : gw_avail w = avail;
  rv_clock : gw_clock w = clock;
  rv_wait : wait_ok c w;
  rv_trace : gw_trace w = rev (map GxHandle cs) ++ trace }.

Lemma recv_round bytes cs seen c w : (length bytes < TY_UART_BUF_SIZE)%nat ->
  receiving DISPATCHER_STATE_RECV bytes cs seen c w ->
  exists n st c' w', (0 < n)%nat /\ dispatcher_round (c, w) = Some (tt, (c', w'))
    /\ st = (if (0 <? length (take n (gw_fifo w)))%nat then DISPATCHER_STATE_PROC else DISPATCHER_STATE_RECV)
    /\ gw_fifo w' = drop n (gw_fifo w)
    /\ receiving st (bytes ++ take n (gw_fifo w)) cs (seen ++ take n (gw_fifo w)) c' w'.
Proof.
  intros Hroom [Hst Hrun Hdet Hcfg Hsize Hb Hf Ha Hc Hw Ht].
  set (n := Nat.min (TY_UART_BUF_SIZE - length bytes) (avail (gw_reads w))).
  assert (Hn : (0 < n)%nat) by (pose proof (Havail (gw_reads w)); unfold n; lia).
  exists n, (if (0 <? length (take n (gw_fifo w)))%nat then DISPATCHER_STATE_PROC else DISPATCHER_STATE_RECV). unfold dispatcher_round, cbind at 1, get_ctx, cget. cbn [fst]. rewrite Hst.
  unfold __dispatcher_recv, cbind at 1, get_ctx, cget. cbn [fst]. rewrite Hdet. cbn [Z.eqb negb].
  unfold recv_bytes_in, cbind at 1, get_ctx, cget. cbn [fst]. unfold cbind at 1, on_host, gw_read. rewrite Ha, Hsize, Hb. fold n.
  destruct (0 <? length (take n (gw_fifo w)))%nat eqn:Hl.
  - unfold cbind, put_bytes, mod_ctx, cmod, get_ctx, cget. cbn [fst snd]. rewrite Hst. cbn [bool_decide decide_rel].
    do 2 eexists. split; [done|]. split; [reflexivity|]. split; [done|]. split; [done|].
    split; try done; cbn. by rewrite <- app_assoc, take_drop.
  - do 2 eexists. split; [done|]. split; [reflexivity|]. split; [done|]. split; [done|].
    apply Nat.ltb_ge in Hl. destruct (take n (gw_fifo w)) eqn:Hk; [|cbn in Hl; lia]. rewrite !app_nil_r.
    split; try done; cbn. rewrite <- Hf. f_equal. by rewrite <- (take_drop n (gw_fifo w)) at 2; rewrite Hk.
Qed.

Lemma proc_round l cs seen c w : receiving DISPATCHER_STATE_PROC l cs seen c w ->
  exists c' w', dispatcher_round (c, w) = Some (tt, (c', w')) /\ gw_fifo w' = gw_fifo w
    /\ receiving DISPATCHER_STATE_RECV (snd (parse l)) (cs ++ fst (parse l)) seen c' w'.
Proof.
  intros [Hst Hrun Hdet Hcfg Hsize Hb Hf Ha Hc Hw Ht].
  unfold dispatcher_round, cbind at 1, get_ctx, cget. cbn [fst]. rewrite Hst.
  unfold __dispatcher_proc, cbind at 1, get_ctx, cget. cbn [fst]. rewrite Hb.
  destruct (proc_loop_eq c clock Hclock Hdet ltac:(by rewrite Hcfg) Hst (S (length l)) l (recv_time c) (incomplete c) w)
    as (t & b & k & He & Hok); [lia|done|by destruct c|].
  replace (waited c (recv_time c) (incomplete c)) with c in He by by destruct c.
  unfold cbind at 1. rewrite He. unfold cbind at 1, put_bytes, mod_ctx, cmod. cbn [fst snd].
  unfold cbind at 1. rewrite grow_buf_never. unfold cbind, get_ctx, cget. cbn [fst dstate waited]. rewrite Hst.
  cbn [bool_decide decide_rel]. do 2 eexists. split; [reflexivity|]. split; [done|]. split; try done; cbn.
  by rewrite Ht, map_app, rev_app_distr, app_assoc.
Qed.

(** What has been read has been handled. *)
Abbreviation caught_up seen c w :=
  (receiving DISPATCHER_STATE_RECV (snd (parse seen)) (fst (parse seen)) seen c w).

Lemma rounds_S n c w : running c = true ->
  dispatcher_rounds (S n) (c, w)
  = match dispatcher_round (c, w) with Some (_, s) => dispatcher_rounds n s | None => None end.
Proof. intros Hrun. cbn [dispatcher_rounds]. unfold cbind at 1, get_ctx, cget. cbn [fst]. by rewrite Hrun. Qed.

(** Two rounds take at least one byte, if there is one. *)
Lemma two_rounds seen c w : caught_up seen c w ->
  exists seen' c' w', caught_up seen' c' w' /\ (forall n, dispatcher_rounds (S (S n)) (c, w) = dispatcher_rounds n (c', w'))
    /\ (length (gw_fifo w') <= pred (length (gw_fifo w)))%nat.
Proof.
  intros Hin. destruct (recv_round _ _ _ _ _ (parse_rest seen) Hin) as (n & st & c' & w' & Hn & He & Hst & Hfifo & Hr).
  assert (Hlen : (length (gw_fifo w') <= pred (length (gw_fifo w)))%nat) by (rewrite Hfifo, length_drop; lia).
  pose proof (rv_run _ _ _ _ _ _ Hin) as Hrun.
  pose proof (parse_app seen (take n (gw_fifo w))) as Happ. pose proof (surjective_pairing (parse seen)) as Hp.
  destruct (0 <? length (take n (gw_fifo w)))%nat eqn:Hl; subst st.
  - destruct (proc_round _ _ _ _ _ Hr) as (c2 & w2 & He2 & Hf2 & Hr2). exists (seen ++ take n (gw_fifo w)), c2, w2.
    rewrite Hp in Happ. rewrite (surjective_pairing (parse (snd _ ++ _))) in Happ. rewrite Happ. split; [done|]. split; [|by rewrite Hf2].
    intros m. rewrite rounds_S, He by done. rewrite rounds_S, He2 by apply (rv_run _ _ _ _ _ _ Hr). done.
  - apply Nat.ltb_ge in Hl. destruct (take n (gw_fifo w)) eqn:Hk; [|cbn in Hl; lia]. rewrite !app_nil_r in Hr.
    destruct (recv_round _ _ _ _ _ (parse_rest seen) Hr) as (n2 & st & c2 & w2 & Hn2 & He2 & -> & Hf2 & Hr2).
    assert (gw_fifo w' = []) as Hnil.
    { rewrite Hfifo. clear -Hn Hk. destruct n; [lia|]. by destruct (gw_fifo w). }
    rewrite Hnil, take_nil, !app_nil_r in Hr2. cbn in Hr2. exists seen, c2, w2. split; [done|].
    split; [|rewrite Hf2, Hnil, drop_nil; cbn; lia].
    intros m. rewrite rounds_S, He by done. rewrite rounds_S, He2 by apply (rv_run _ _ _ _ _ _ Hr). done.
Qed.

Lemma all_rounds n : forall seen c w, (length (gw_fifo w) <= n)%nat -> caught_up seen c w ->
  exists c' w', dispatcher_rounds (2 * n) (c, w) = Some (tt, (c', w')) /\ caught_up stream c' w'.
Proof.
  induction n as [|n IH]; intros seen c w Hl Hin.
  - exists c, w. split; [done|]. pose proof (rv_fifo _ _ _ _ _ _ Hin) as Hf.
    destruct (gw_fifo w); [|cbn in Hl; lia]. rewrite app_nil_r in Hf. by subst seen.
  - destruct (two_rounds _ _ _ Hin) as (seen' & c1 & w1 & Hin1 & He & Hl1).
    destruct (IH seen' c1 w1) as (c' & w' & He' & Hin'); [lia|done|].
    exists c', w'. replace (2 * S n)%nat with (S (S (2 * n))) by lia. by rewrite He.
Qed.
End Receiver.

(** ** Frames on the line *)

Definition frame (cmd : Z) (data : list Z) : list Z :=
  let pack := frame_header cmd (Z.of_nat (length data)) ++ data in pack ++ [gfw_core_frame_calc_crc pack].

(** The most data the receiver takes. *)
Abbreviation MAX_DATA_LEN := 2041%nat.

Lemma pack_frame type cmd data : (length data <= MAX_DATA_LEN)%nat ->
  gfw_core_frame_pack type cmd (Some data) (Z.of_nat (length data)) true = Some (OPRT_OK, frame cmd data).
Proof.
  intros Hl. unfold gfw_core_frame_pack. cbn [negb]. rewrite andb_false_r. cbv zeta. unfold u16, MIN_FRAME_LEN.
  rewrite Z.mod_small by lia. rewrite Z.ltb_irrefl, Nat2Z.id, Nat.ltb_irrefl, firstn_all. done.
Qed.

(** The two length bytes carry any 16-bit length. *)
Lemma frame_len_frame cmd data tail : (length data <= MAX_DATA_LEN)%nat ->
  frame_len (frame cmd data ++ tail) = Z.of_nat (length data).
Proof.
  intros Hl. unfold frame_len, frame, frame_header. cbn [app nth]. set (n := Z.of_nat (length data)).
  change 255 with (Z.ones 8). rewrite !Z.land_ones, Z.shiftr_div_pow2 by lia.
  rewrite (Z.mod_small (n / 2 ^ 8)) by (split; [apply Z.div_pos; lia|apply Z.div_lt_upper_bound; lia]).
  pose proof (Z.div_mod n (2 ^ 8)). lia.
Qed.

Lemma front_frame cmd data tail : (length data <= MAX_DATA_LEN)%nat ->
  front (frame cmd data ++ tail) = Take (mk_cmd_data DEFAULT_FRAME_VER cmd data) (MIN_FRAME_LEN + length data).
Proof.
  intros Hl. unfold front. cbv zeta. rewrite frame_len_frame, Nat2Z.id by done.
  set (pack := frame_header cmd (Z.of_nat (length data)) ++ data).
  assert (Hlp : length pack = (6 + length data)%nat) by (unfold pack; by rewrite length_app).
  assert (Hf : frame cmd data ++ tail = pack ++ gfw_core_frame_calc_crc pack :: tail) by (unfold frame; by rewrite <- app_assoc).
  assert (exists l, pack ++ gfw_core_frame_calc_crc pack :: tail = 85 :: 170 :: DEFAULT_FRAME_VER :: cmd :: l
    /\ drop 2 l = data ++ gfw_core_frame_calc_crc pack :: tail) as (l & Hpk & Hdr).
  { unfold pack. cbn [frame_header app]. eexists. split; [reflexivity|done]. }
  assert (byte_at (pack ++ gfw_core_frame_calc_crc pack :: tail) (6 + length data) = gfw_core_frame_calc_crc pack) as Hc.
  { by rewrite <- Hlp, app_nth2, Nat.sub_diag by lia. }
  rewrite Hf, Hc, Hpk. cbn [nth Z.eqb Pos.eqb andb negb]. rewrite <- Hpk.
  unfold MIN_FRAME_LEN, TY_UART_BUF_SIZE. destruct (Nat.ltb_spec 2048 (length data + 7)); [lia|].
  rewrite length_app. cbn [length]. destruct (Nat.ltb_spec (length pack + S (length tail)) (length data + 7)); [lia|].
  rewrite <- Hlp, take_app_length, Z.eqb_refl. cbn [negb].
  f_equal. rewrite Hpk. cbn [drop]. rewrite Hdr. by rewrite take_app_length.
Qed.

(** What comes in between has no frame head in it. *)
Fixpoint headless (noise : list Z) : bool :=
  match noise with
  | a :: (b :: _) as rest => negb ((a =? 85) && (b =? 170)) && headless rest
  | _ => true
  end.

Lemma parse_frame noise cmd data tail : headless noise = true -> (length data <= MAX_DATA_LEN)%nat ->
  parse (noise ++ frame cmd data ++ tail)
  = prod_map (cons (mk_cmd_data DEFAULT_FRAME_VER cmd data)) id (parse tail).
Proof.
  intros Hh Hl.
  assert (Hlf : length (frame cmd data) = (7 + length data)%nat).
  { unfold frame. cbv zeta. rewrite !length_app. cbn. lia. }
  induction noise as [|a noise IH].
  - cbn [app]. rewrite parse_eq, front_frame, length_app, Hlf by done. unfold MIN_FRAME_LEN.
    destruct (Nat.ltb_spec (7 + length data + length tail) 7); [lia|]. by rewrite <- Hlf, drop_app_length.
  - rewrite parse_eq, !length_app, Hlf. unfold MIN_FRAME_LEN. cbn [length].
    destruct (Nat.ltb_spec (S (length noise) + (7 + length data + length tail)) 7); [lia|].
    assert (front ((a :: noise) ++ frame cmd data ++ tail) = Skip) as ->; [|apply IH; destruct noise; [done|]; by apply andb_true_iff in Hh as [_ ?]].
    unfold front. cbv zeta. destruct noise as [|b noise].
    + change (byte_at ([a] ++ frame cmd data ++ tail) 1) with 85. by rewrite andb_false_r.
    + apply andb_true_iff in Hh as [Hab _]. cbn [app nth]. by rewrite Hab.
Qed.

(** A frame to send, and what the line carries before it. *)
Record PACKET := mk_packet { pk_noise : list Z; pk_type : AUDIO_GFW_CMD_TYPE_E; pk_cmd : Z; pk_data : list Z }.
Definition on_wire (p : PACKET) : list Z :=
  pk_noise p ++ match gfw_core_frame_pack (pk_type p) (pk_cmd p) (Some (pk_data p)) (Z.of_nat (length (pk_data p))) true with
                | Some (_, bytes) => bytes
                | None => []
                end.
Definition packet_ok (p : PACKET) : Prop := headless (pk_noise p) = true /\ (length (pk_data p) <= MAX_DATA_LEN)%nat.
Abbreviation arrives p := (GxHandle (mk_cmd_data DEFAULT_FRAME_VER (pk_cmd p) (pk_data p))).

Lemma parse_wire ps : Forall packet_ok ps ->
  map GxHandle (fst (parse (flat_map on_wire ps))) = map (fun p => arrives p) ps /\ snd (parse (flat_map on_wire ps)) = [].
Proof.
  induction 1 as [|p ps [Hh Hl] _ [IH1 IH2]]; [done|]. cbn [flat_map map]. unfold on_wire at 1 3.
  rewrite pack_frame, <- app_assoc, parse_frame by done. destruct (parse (flat_map on_wire ps)). cbn in *. by subst; rewrite IH1.
Qed.

(** C24. Frames packed by gfw_core_frame_pack (at most 2,041 bytes of data) and
    sent over the line, with any bytes without a frame head between them, reach
    the command handler: every one, once, in order and unchanged, however few
    bytes each read gets, as long as the clock does not pass two seconds between
    two looks at an unfinished frame. Two rounds per byte are enough, and the
    buffer is empty again. *)
Theorem frames_delivered (cfg : DISPATCHER_CFG_T) (baud : Z) (ps : list PACKET) (w : GfwWorld) :
  baud_rate cfg = [baud] -> has_handler cfg = true -> Forall packet_ok ps -> gw_fifo w = flat_map on_wire ps ->
  steady (gw_clock w) -> (forall n, 0 < gw_avail w n)%nat ->
  exists c' w', dispatcher_rounds (S (2 * length (gw_fifo w))) (gfw_core_dispatcher_start cfg, w) = Some (tt, (c', w'))
    /\ gw_trace w' = rev (map (fun p => arrives p) ps)
         ++ [GxLocked; if ext_trans cfg then GxTransInit else GxUartInit baud true] ++ gw_trace w
    /\ recv_bytes c' = [] /\ dstate c' = DISPATCHER_STATE_RECV /\ running c' = true.
Proof.
  intros Hbaud Hh Hps Hfifo Hclock Havail. destruct (parse_wire ps Hps) as [Hcs Hrest].
  rewrite rounds_S by done. 
  set (tr := [GxLocked; if ext_trans cfg then GxTransInit else GxUartInit baud true] ++ gw_trace w).
  assert (exists c1 w1, dispatcher_round (gfw_core_dispatcher_start cfg, w) = Some (tt, (c1, w1)) /\ gw_fifo w1 = gw_fifo w
    /\ receiving (gw_fifo w) cfg (gw_clock w) (gw_avail w) tr DISPATCHER_STATE_RECV [] [] [] c1 w1) as (c1 & w1 & -> & Hf1 & Hin).
  { unfold dispatcher_round, gfw_core_dispatcher_start, __dispatcher_setup, cbind, get_ctx, cget, cpure, dfx, on_host, gw_emit,
      put_state, mod_ctx, cmod. cbn [fst snd dstate dcfg baud_rate_index]. rewrite Hbaud. cbn [length Nat.eqb Z.to_nat nth_error option_map].
    unfold tr. destruct (ext_trans cfg); do 2 eexists; (split; [reflexivity|]); split; done. }
  destruct (all_rounds (gw_fifo w) cfg (gw_clock w) (gw_avail w) tr Hclock Havail Hh (length (gw_fifo w)) [] c1 w1
    ltac:(by rewrite Hf1) Hin) as (c' & w' & He & Hend).
  exists c', w'. split; [by rewrite He|]. destruct Hend. rewrite Hfifo in *. rewrite Hcs in *. by rewrite Hrest in *.
Qed.

(** Two frames with noise around them, three bytes a read. *)
Definition demo_link_cfg : DISPATCHER_CFG_T := mk_dcfg [115200] 5 true false.
Definition demo_packets : list PACKET :=
  [mk_packet [85; 1; 85] AUDIO_GFW_CMD_TYPE_SYNC 52 [7; 85; 170; 9]; mk_packet [] AUDIO_GFW_CMD_TYPE_DEFAULT 53 []].
Definition demo_link : GfwWorld :=
  mk_gw (flat_map on_wire demo_packets) (fun _ => 3%nat) 0 (fun n => Z.of_nat n mod 2 ^ 32) 0 (fun _ => true) 0 (fun _ => 0) 0 [].

Lemma frames_delivered_witness : exists c' w',
  dispatcher_rounds 43 (gfw_core_dispatcher_start demo_link_cfg, demo_link) = Some (tt, (c', w'))
  /\ gw_trace w' = [GxHandle (mk_cmd_data 0 53 []); GxHandle (mk_cmd_data 0 52 [7; 85; 170; 9]); GxLocked; GxUartInit 115200 true]
  /\ recv_bytes c' = [] /\ dstate c' = DISPATCHER_STATE_RECV /\ running c' = true.
Proof.
  apply (frames_delivered demo_link_cfg 115200 demo_packets demo_link); try reflexivity.
  - apply Forall_cons; split; [split; [reflexivity|cbn; lia]|]. apply Forall_cons; split; [split; [reflexivity|cbn; lia]|apply Forall_nil_2].
  - intros n. cbn [gw_clock demo_link]. unfold u32. rewrite <- Zminus_mod.
    replace (Z.of_nat (S n) - Z.of_nat n) with 1 by lia. reflexivity.
  - intros n. cbn. lia.
Defined.

(** ** The table of commands *)

(** The entry that takes a command with [bytes]. *)
Definition takes (cmd : Z) (bytes : list Z) (c : AUDIO_GFW_CMD_CFG_T) : bool :=
  (cc_cmd c =? cmd) && ((cc_sub_cmd c =? INVALID_SUBCMD) || (cc_sub_cmd c =? byte_at bytes 0)).

(** The first entry that takes it is called, once; the others are not. A
    sub-command takes the first byte, and the length goes down by one. *)
Lemma dispatch_first cmds cmd len bytes : bytes <> [] ->
  gfw_core_cmd_dispatch cmds cmd len bytes
  = Some match List.find (takes cmd bytes) cmds with
         | Some (mk_cmd_cfg _ sub (Some cb)) =>
             if sub =? INVALID_SUBCMD then [mk_call cb cmd len bytes]
             else [mk_call cb (byte_at bytes 0) (u16 (len - 1)) (drop 1 bytes)]
         | _ => []
         end.
Proof.
  intros Hb. induction cmds as [|[c sub cb] cmds IH]; [done|]. cbn [gfw_core_cmd_dispatch List.find takes cc_cmd cc_sub_cmd cc_cb].
  unfold takes at 1. cbn [cc_cmd cc_sub_cmd]. destruct (c =? cmd); [cbn [andb]|done].
  destruct (sub =? INVALID_SUBCMD) eqn:Hs; cbn [negb orb]; [destruct cb; cbn; by rewrite ?Hs|].
  destruct bytes as [|b bytes]; [done|]. cbn [nth drop]. destruct (Z.eqb_spec sub b); cbn [negb]; [subst; destruct cb; cbn; by rewrite ?Hs|done].
Qed.

(** An empty frame whose check byte happens to be the sub-command: its callback
    is told that it has 65,535 bytes. *)
Example empty_sub_command :
  let bytes := drop 6 (frame 52 []) in
  gfw_core_cmd_dispatch [mk_cmd_cfg 52 51 (Some 1%nat)] 52 0 bytes = Some [mk_call 1 51 65535 []].
Proof. reflexivity. Qed.

(** A frame the sender packs and the receiver never takes. *)
Example too_long_dropped :
  let data := repeat 0 2042 in
  exists bytes, gfw_core_frame_pack AUDIO_GFW_CMD_TYPE_DEFAULT 52 (Some data) 2042 true = Some (OPRT_OK, bytes)
    /\ fst (parse bytes) = [].
Proof. eexists. split; [vm_compute; reflexivity|vm_compute; reflexivity]. Qed.
