(* ===== verification/GfwQueue.v ===== *)
(** The queue of commands to the audio processor
    (src/apps/src/miscs/uart_codec/src/gfw_core/gfw_core_cmd_queue.c): a ring of
    commands that are sent, repeated and given up one at a time by a timer, and
    one urgent command that overtakes them. Verified against a plain list. *)
From S2P Require Import Prelude.
From S2P Require Import World.
From S2P Require Import TmHost.
From S2P Require Import GfwLink.

#[local] Open Scope Z_scope.
#[local] Open Scope list_scope.

Definition DEFAULT_CHECK_INTERVAL_MS : Z := 50.
Definition INSTANT_CHECK_INTERVAL_MS : Z := 10.
Definition DEFAULT_CMD_QUEUE_NUM : Z := 20.

(** A callback and a semaphore are numbers. *)
Record TIMEOUT_CTX_T := mk_tctx { timeout_cb : option nat; sem : option nat }.

Inductive ITEM_STATE_E := ITEM_STATE_IDLE | ITEM_STATE_IN | ITEM_STATE_OUT | ITEM_STATE_RETRY.
#[export] Instance item_state_eq_dec : EqDecision ITEM_STATE_E.
Proof. solve_decision. Defined.

(** [data] has [len] bytes. [ctx] is [None] also when the pointer is left to a
    context that has been freed. *)
Record CMD_QUEUE_ITEM_T := mk_item {
  qi_type : AUDIO_GFW_CMD_TYPE_E;
  qi_state : ITEM_STATE_E;
  timeout_cnt : Z;                (* USHORT_T *)
  timeout_ms : Z;
  resend_cnt : Z;
  data : option (list Z);
  ctx : option TIMEOUT_CTX_T }.
Definition item_zero : CMD_QUEUE_ITEM_T := mk_item AUDIO_GFW_CMD_TYPE_DEFAULT ITEM_STATE_IDLE 0 0 0 None None.

Record CMD_QUEUE_CTX_T := mk_queue {
  queue_items : list CMD_QUEUE_ITEM_T;
  queue_num : Z;                  (* BYTE_T, as the next three *)
  queue_in : Z;
  queue_out : Z;
  queue_cnt : Z;
  instant_item : CMD_QUEUE_ITEM_T;
  trans_send : bool }.            (* trans->send is not NULL *)

(** *** The device around the queue *)

Inductive GQ_FX :=
| GqSend (trans : bool) (bytes : list Z)           (* trans->send, or tal_uart_write *)
| GqTimeout (cb : nat) (data : AUDIO_GFW_CMD_DATA_T)
| GqPost (sem : nat) (rt : OPERATE_RET)            (* the waiter returns rt *)
| GqStart (ms : Z).                                (* tal_sw_timer_start, TAL_TIMER_ONCE *)

(** The n-th answer of the system decides an allocation, the creation of a
    semaphore, the result of a direct write and of the calls of the
    initialisation, and whether starting the timer works. *)
Record GqWorld := mk_gq {
  gq_ok : nat -> bool;
  gq_sem : nat -> bool;
  gq_rt : nat -> OPERATE_RET;
  gq_asked : nat;
  gq_running : bool;              (* the timer is running *)
  gq_trace : list GQ_FX }.

Definition gq_emit (fx : GQ_FX) : C GqWorld unit :=
  cmod (fun w => mk_gq (gq_ok w) (gq_sem w) (gq_rt w) (gq_asked w) (gq_running w) (fx :: gq_trace w)).
Definition gq_ask {A} (answer : GqWorld -> nat -> A) : C GqWorld A := fun w =>
  Some (answer w (gq_asked w), mk_gq (gq_ok w) (gq_sem w) (gq_rt w) (S (gq_asked w)) (gq_running w) (gq_trace w)).
Definition gq_timer (b : bool) : C GqWorld unit :=
  cmod (fun w => mk_gq (gq_ok w) (gq_sem w) (gq_rt w) (gq_asked w) b (gq_trace w)).
(** Starting the timer, whose result is ignored. *)
Definition gq_start (ms : Z) : C GqWorld unit :=
  let* ok := gq_ask gq_ok in
  if ok then let* _ := gq_emit (GqStart ms) in gq_timer true else cret tt.
Definition gq_start_idle (ms : Z) : C GqWorld unit :=
  let* running := cget gq_running in if running then cret tt else gq_start ms.

(** ** One command *)

Definition with_state (st : ITEM_STATE_E) (i : CMD_QUEUE_ITEM_T) : CMD_QUEUE_ITEM_T :=
  mk_item (qi_type i) st (timeout_cnt i) (timeout_ms i) (resend_cnt i) (data i) (ctx i).
Definition with_counts (t r : Z) (i : CMD_QUEUE_ITEM_T) : CMD_QUEUE_ITEM_T :=
  mk_item (qi_type i) (qi_state i) t (timeout_ms i) r (data i) (ctx i).

(** The frame's parts as the callback sees them. *)
Definition frame_data (bytes : list Z) : AUDIO_GFW_CMD_DATA_T :=
  mk_cmd_data (byte_at bytes 2) (byte_at bytes 3)
    (take (Z.to_nat (Z.lor (Z.shiftl (byte_at bytes 4) 8) (byte_at bytes 5))) (drop 6 bytes)).

(** [item->ctx->rt = rt] and the function: the waiter, if there is one, frees the
    context; the frame is freed unless it lies in the caller's buffer. *)
Definition __default_cmd_timeout_cb (rt : OPERATE_RET) (i : CMD_QUEUE_ITEM_T) : C GqWorld CMD_QUEUE_ITEM_T :=
  let* c := cpure (ctx i) in
  let* _ :=
    if negb (rt =? OPRT_OK) then
      match timeout_cb c with
      | Some cb => let* bytes := cpure (data i) in gq_emit (GqTimeout cb (frame_data bytes))
      | None => cret tt
      end
    else cret tt in
  let* _ :=
    if bool_decide (qi_type i = AUDIO_GFW_CMD_TYPE_DEFAULT) then cret tt
    else match sem c with Some s => gq_emit (GqPost s rt) | None => cret tt end in
  cret (mk_item (qi_type i) (qi_state i) (timeout_cnt i) (timeout_ms i) (resend_cnt i) None None).

Definition send_item (trans : bool) (i : CMD_QUEUE_ITEM_T) : C GqWorld unit :=
  let* bytes := cpure (data i) in gq_emit (GqSend trans bytes).

Definition finish_item (rt : OPERATE_RET) (i : CMD_QUEUE_ITEM_T) : C GqWorld (CMD_QUEUE_ITEM_T * bool) :=
  let* i := __default_cmd_timeout_cb rt i in cret (with_state ITEM_STATE_IDLE i, true).

(** What the timer callback does with the command it has chosen, and whether
    that finished it. *)
Definition check_item (trans : bool) (interval : Z) (i : CMD_QUEUE_ITEM_T) : C GqWorld (CMD_QUEUE_ITEM_T * bool) :=
  match qi_state i with
  | ITEM_STATE_IN =>
      let* _ := send_item trans i in
      let r := if resend_cnt i =? 0 then 0 else resend_cnt i - 1 in
      cret (with_state ITEM_STATE_OUT (with_counts (timeout_cnt i) r i), false)
  | ITEM_STATE_OUT =>
      if negb (timeout_cnt i =? 0) then cret (with_state ITEM_STATE_RETRY i, false)
      else finish_item OPRT_OK i
  | ITEM_STATE_RETRY =>
      if 0 <? timeout_cnt i then
        if timeout_cnt i =? 1 then
          if negb (resend_cnt i =? 0) then
            let* _ := send_item trans i in
            cret (with_counts (u16 (timeout_ms i / interval)) (resend_cnt i - 1) i, false)
          else finish_item OPRT_TIMEOUT i
        else cret (with_counts (timeout_cnt i - 1) (resend_cnt i) i, false)
      else cret (i, false)
  | ITEM_STATE_IDLE => cret (i, false)
  end.

(** ** The queue *)

Abbreviation QM := (C (CMD_QUEUE_CTX_T * GqWorld)).

Definition set_instant (i : CMD_QUEUE_ITEM_T) (c : CMD_QUEUE_CTX_T) : CMD_QUEUE_CTX_T :=
  mk_queue (queue_items c) (queue_num c) (queue_in c) (queue_out c) (queue_cnt c) i (trans_send c).
Definition ring_set (n : Z) (i : CMD_QUEUE_ITEM_T) (c : CMD_QUEUE_CTX_T) : CMD_QUEUE_CTX_T :=
  mk_queue (<[Z.to_nat n := i]> (queue_items c)) (queue_num c) (queue_in c) (queue_out c) (queue_cnt c) (instant_item c) (trans_send c).
Definition out_moved (c : CMD_QUEUE_CTX_T) : CMD_QUEUE_CTX_T :=
  mk_queue (queue_items c) (queue_num c) (queue_in c) (u8 ((queue_out c + 1) mod queue_num c)) (u8 (queue_cnt c - 1))
    (instant_item c) (trans_send c).
Definition in_moved (c : CMD_QUEUE_CTX_T) : CMD_QUEUE_CTX_T :=
  mk_queue (queue_items c) (queue_num c) (u8 ((queue_in c + 1) mod queue_num c)) (queue_out c) (u8 (queue_cnt c + 1))
    (instant_item c) (trans_send c).
Definition put_instant (i : CMD_QUEUE_ITEM_T) : QM unit := mod_ctx (set_instant i).
Definition put_item (n : Z) (i : CMD_QUEUE_ITEM_T) : QM unit := mod_ctx (ring_set n i).
Definition take_out : QM unit := mod_ctx out_moved.
Definition put_in : QM unit := mod_ctx in_moved.

Definition is_idle (i : CMD_QUEUE_ITEM_T) : bool := bool_decide (qi_state i = ITEM_STATE_IDLE).

Definition queue_item (n : Z) : QM CMD_QUEUE_ITEM_T :=
  let* c := get_ctx in cpure (queue_items c !! Z.to_nat n).

(** The callback of the timer, which runs once for every start. *)
Definition __gfw_timer_check_timeout_cb : QM unit :=
  let* _ := on_host (gq_timer false) in
  let* c := get_ctx in
  if negb (is_idle (instant_item c)) then
    let* (i, _) := on_host (check_item (trans_send c) INSTANT_CHECK_INTERVAL_MS (instant_item c)) in
    let* _ := put_instant i in
    on_host (gq_start INSTANT_CHECK_INTERVAL_MS)
  else
    let* _ :=
      if 0 <? queue_cnt c then
        let* i := queue_item (queue_out c) in
        let* (i, finished) := on_host (check_item (trans_send c) DEFAULT_CHECK_INTERVAL_MS i) in
        let* _ := put_item (queue_out c) i in
        if (finished : bool) then take_out else cret tt
      else cret tt in
    let* c := get_ctx in
    if 0 <? queue_cnt c then on_host (gq_start DEFAULT_CHECK_INTERVAL_MS) else cret tt.

(** How a call ends: with a result, waiting for a semaphore, or, before an
    urgent command, for the one before it. *)
Inductive SENT := SentRet (rt : OPERATE_RET) | SentWait (sem : nat) | SentBlocked (i : CMD_QUEUE_ITEM_T).

Definition is_urgent (type : AUDIO_GFW_CMD_TYPE_E) : bool :=
  bool_decide (type = AUDIO_GFW_CMD_TYPE_INSTANT) || bool_decide (type = AUDIO_GFW_CMD_TYPE_ZEROCOPY).

(** tal_semaphore_create_init, whose result is ignored: without a semaphore the
    caller waits for an arbitrary pointer. *)
Definition new_sem {X} : C (X * GqWorld) nat :=
  let* ok := on_host (gq_ask gq_sem) in
  if (ok : bool) then on_host (cget gq_asked) else cpure None.

Definition enqueue (i : CMD_QUEUE_ITEM_T) : QM OPERATE_RET :=
  let* c := get_ctx in
  let* rt :=
    if queue_cnt c <? queue_num c then
      let* _ := put_item (queue_in c) i in
      let* _ := put_in in
      cret OPRT_OK
    else cret OPRT_EXCEED_UPPER_LIMIT in
  let* _ := on_host (gq_start_idle DEFAULT_CHECK_INTERVAL_MS) in
  cret rt.

(** Once mutex_instant is held, which is so from here to the end of the wait. *)
Definition enter_instant (i : CMD_QUEUE_ITEM_T) : QM SENT :=
  let* c := get_ctx in
  if negb (is_idle (instant_item c)) then cret (SentBlocked i)
  else
    let* _ := put_instant i in
    let* _ := on_host (gq_start_idle INSTANT_CHECK_INTERVAL_MS) in
    match ctx i with
    | Some (mk_tctx _ (Some s)) => cret (SentWait s)
    | _ => cpure None
    end.

(** The call up to the queue, which [enqueue] and [enter_instant] stand for. *)
Definition send_with {X} (enqueue : CMD_QUEUE_ITEM_T -> C (X * GqWorld) OPERATE_RET)
    (enter_instant : CMD_QUEUE_ITEM_T -> C (X * GqWorld) SENT)
    (type : AUDIO_GFW_CMD_TYPE_E) (cmd : Z) (bytes : option (list Z)) (len : Z)
    (ms : Z) (cb : option nat) (resend : Z) : C (X * GqWorld) SENT :=
  let* ok := if bool_decide (type = AUDIO_GFW_CMD_TYPE_ZEROCOPY) then cret true else on_host (gq_ask gq_ok) in
  let* (rt, frame) := cpure (gfw_core_frame_pack type cmd bytes len ok) in
  if negb (rt =? OPRT_OK) then cret (SentRet rt)
  else if bool_decide (type = AUDIO_GFW_CMD_TYPE_DIRECT) then
    let* _ := on_host (gq_emit (GqSend false frame)) in
    let* rt := on_host (gq_ask gq_rt) in
    cret (SentRet rt)
  else
    let* ok := on_host (gq_ask gq_ok) in
    if negb ok then cret (SentRet OPRT_MALLOC_FAILED)
    else
      let item cnt sem := mk_item type ITEM_STATE_IN (u16 cnt) ms resend (Some frame) (Some (mk_tctx cb sem)) in
      if is_urgent type then
        let* s := new_sem in
        enter_instant (item (ms / INSTANT_CHECK_INTERVAL_MS) (Some s))
      else if bool_decide (type = AUDIO_GFW_CMD_TYPE_SYNC) then
        let* s := new_sem in
        let* rt := enqueue (item (ms / DEFAULT_CHECK_INTERVAL_MS) (Some s)) in
        cret (if rt =? OPRT_OK then SentWait s else SentRet rt)
      else
        let* rt := enqueue (item (ms / DEFAULT_CHECK_INTERVAL_MS) None) in
        cret (SentRet rt).
Definition gfw_core_cmd_send_with_params := send_with enqueue enter_instant.

(** [item->data[3] == cmd] of a command that has its frame. *)
Definition is_cmd (cmd : Z) (i : CMD_QUEUE_ITEM_T) : option bool :=
  option_map (fun bytes => byte_at bytes 3 =? cmd) (data i).

Definition ack_item (i : CMD_QUEUE_ITEM_T) : QM CMD_QUEUE_ITEM_T :=
  let* i := on_host (__default_cmd_timeout_cb OPRT_OK i) in cret (with_state ITEM_STATE_IDLE i).

Definition gfw_core_cmd_queue_ack (cmd : Z) : QM unit :=
  let* c := get_ctx in
  let* urgent := cpure (if negb (is_idle (instant_item c)) then is_cmd cmd (instant_item c) else Some false) in
  if (urgent : bool) then
    let* i := ack_item (instant_item c) in put_instant i
  else if 0 <? queue_cnt c then
    let* i := queue_item (queue_out c) in
    if bool_decide (qi_state i = ITEM_STATE_OUT \/ qi_state i = ITEM_STATE_RETRY) then
      let* same := cpure (is_cmd cmd i) in
      if (same : bool) then
        let* i := ack_item i in
        let* _ := put_item (queue_out c) i in
        take_out
      else cret tt
    else cret tt
  else cret tt.

(** Every slot is finished, whether it holds a command or not. *)
Fixpoint clear_items (items : list CMD_QUEUE_ITEM_T) : C GqWorld unit :=
  match items with
  | [] => cret tt
  | i :: items => let* _ := __default_cmd_timeout_cb OPRT_TIMEOUT i in clear_items items
  end.
Definition gfw_core_cmd_queue_clear : QM unit :=
  let* c := get_ctx in
  let* _ := on_host (clear_items (queue_items c)) in
  mod_ctx (fun c => mk_queue (map (fun _ => item_zero) (queue_items c)) (queue_num c) 0 0 0 (instant_item c) (trans_send c)).

Definition gfw_core_cmd_queue_init (num : Z) (send : bool) : QM OPERATE_RET :=
  let* _ := put_ctx (mk_queue [] 0 0 0 0 item_zero false) in
  let* ok := on_host (gq_ask gq_ok) in
  if negb ok then cret OPRT_MALLOC_FAILED
  else
    let* _ := put_ctx (mk_queue (repeat item_zero (Z.to_nat num)) 0 0 0 0 item_zero false) in
    let* rt := on_host (gq_ask gq_rt) in            (* tal_sw_timer_create *)
    if negb (rt =? OPRT_OK) then cret rt
    else
      let* rt := on_host (gq_ask gq_rt) in          (* mutex *)
      if negb (rt =? OPRT_OK) then cret rt
      else
        let* rt := on_host (gq_ask gq_rt) in        (* mutex_instant *)
        if negb (rt =? OPRT_OK) then cret rt
        else
          let* c := get_ctx in
          let* _ := put_ctx (mk_queue (queue_items c) (u8 num) 0 0 0 item_zero send) in
          cret OPRT_OK.

(** The timer's rounds: the callback runs while the timer is running. *)
Definition rounds_of {X} (cb : C (X * GqWorld) unit) : nat -> C (X * GqWorld) unit :=
  fix go n :=
    match n with
    | O => cret tt
    | S n =>
        let* running := on_host (cget gq_running) in
        if (running : bool) then let* _ := cb in go n else cret tt
    end.
Definition timer_rounds : nat -> QM unit := rounds_of __gfw_timer_check_timeout_cb.

(** ** The plain list *)

(** The commands in order, and the urgent one. *)
Record QUEUE := mk_q { q_num : nat; q_pend : list CMD_QUEUE_ITEM_T; q_inst : option CMD_QUEUE_ITEM_T; q_send : bool }.

Definition q_set_pend (l : list CMD_QUEUE_ITEM_T) (q : QUEUE) : QUEUE := mk_q (q_num q) l (q_inst q) (q_send q).
Definition q_set_inst (i : option CMD_QUEUE_ITEM_T) (q : QUEUE) : QUEUE := mk_q (q_num q) (q_pend q) i (q_send q).

Abbreviation LM := (C (QUEUE * GqWorld)).

Definition list_tick : LM unit :=
  let* _ := on_host (gq_timer false) in
  let* q := get_ctx in
  match q_inst q with
  | Some i =>
      let* (i, finished) := on_host (check_item (q_send q) INSTANT_CHECK_INTERVAL_MS i) in
      let* _ := mod_ctx (q_set_inst (if finished : bool then None else Some i)) in
      on_host (gq_start INSTANT_CHECK_INTERVAL_MS)
  | None =>
      match q_pend q with
      | [] => cret tt
      | i :: rest =>
          let* (i, finished) := on_host (check_item (q_send q) DEFAULT_CHECK_INTERVAL_MS i) in
          let pend := if finished : bool then rest else i :: rest in
          let* _ := mod_ctx (q_set_pend pend) in
          match pend with [] => cret tt | _ => on_host (gq_start DEFAULT_CHECK_INTERVAL_MS) end
      end
  end.

Definition list_enqueue (i : CMD_QUEUE_ITEM_T) : LM OPERATE_RET :=
  let* q := get_ctx in
  let* rt :=
    if (length (q_pend q) <? q_num q)%nat then let* _ := mod_ctx (q_set_pend (q_pend q ++ [i])) in cret OPRT_OK
    else cret OPRT_EXCEED_UPPER_LIMIT in
  let* _ := on_host (gq_start_idle DEFAULT_CHECK_INTERVAL_MS) in
  cret rt.

Definition list_enter (i : CMD_QUEUE_ITEM_T) : LM SENT :=
  let* q := get_ctx in
  match q_inst q with
  | Some _ => cret (SentBlocked i)
  | None =>
      let* _ := mod_ctx (q_set_inst (Some i)) in
      let* _ := on_host (gq_start_idle INSTANT_CHECK_INTERVAL_MS) in
      match ctx i with Some (mk_tctx _ (Some s)) => cret (SentWait s) | _ => cpure None end
  end.

(** An answer finishes the urgent command, or else the first one if it has been
    sent. *)
Definition list_ack (cmd : Z) : LM unit :=
  let* q := get_ctx in
  let* urgent := cpure (match q_inst q with Some i => is_cmd cmd i | None => Some false end) in
  if (urgent : bool) then
    let* i := cpure (q_inst q) in
    let* _ := on_host (__default_cmd_timeout_cb OPRT_OK i) in
    mod_ctx (q_set_inst None)
  else
    match q_pend q with
    | [] => cret tt
    | i :: rest =>
        if bool_decide (qi_state i = ITEM_STATE_OUT \/ qi_state i = ITEM_STATE_RETRY) then
          let* same := cpure (is_cmd cmd i) in
          if (same : bool) then
            let* _ := on_host (__default_cmd_timeout_cb OPRT_OK i) in
            mod_ctx (q_set_pend rest)
          else cret tt
        else cret tt
    end.

(** *** The ring holds the list *)

Record holds (c : CMD_QUEUE_CTX_T) (q : QUEUE) : Prop := mk_holds {
  h_num : queue_num c = Z.of_nat (q_num q);
  h_pos : 0 < queue_num c < 256;
  h_len : length (queue_items c) = q_num q;
  h_out : 0 <= queue_out c < queue_num c;
  h_cnt : queue_cnt c = Z.of_nat (length (q_pend q));
  h_fit : (length (q_pend q) <= q_num q)%nat;
  h_in : queue_in c = (queue_out c + queue_cnt c) mod queue_num c;
  h_slots : forall j i, q_pend q !! j = Some i ->
    queue_items c !! Z.to_nat ((queue_out c + Z.of_nat j) mod queue_num c) = Some i;
  h_inst : match q_inst q with Some i => instant_item c = i /\ is_idle i = false | None => is_idle (instant_item c) = true end;
  h_send : trans_send c = q_send q }.

(** The ring does what the list does, undefined steps included. *)
Definition same {A} (m : QM A) (m' : LM A) : Prop := forall c q w, holds c q ->
  match m' (q, w) with
  | Some (a, (q', w')) => exists c', m (c, w) = Some (a, (c', w')) /\ holds c' q'
  | None => m (c, w) = None
  end.

Lemma same_ret {A} (a : A) : same (cret a) (cret a).
Proof. intros c q w H. by exists c. Qed.
Lemma same_pure {A} (o : option A) : same (cpure o) (cpure o).
Proof. intros c q w H. destruct o; [by exists c|done]. Qed.
Lemma same_host {A} (m : C GqWorld A) : same (on_host m) (on_host m).
Proof. intros c q w H. unfold on_host. destruct (m w) as [[a w']|]; [by exists c|done]. Qed.
Lemma same_bind {A B} (m : QM A) m' (k : A -> QM B) k' : same m m' -> (forall a, same (k a) (k' a)) -> same (cbind m k) (cbind m' k').
Proof.
  intros Hm Hk c q w H. unfold cbind. specialize (Hm c q w H). destruct (m' (q, w)) as [[a [q' w']]|].
  - destruct Hm as (c' & -> & H'). by apply Hk.
  - by rewrite Hm.
Qed.
(** Both look at their state first. *)
Lemma same_get {B} (k : CMD_QUEUE_CTX_T -> QM B) (k' : QUEUE -> LM B) :
  (forall c q w, holds c q -> match k' q (q, w) with
     | Some (a, (q', w')) => exists c', k c (c, w) = Some (a, (c', w')) /\ holds c' q'
     | None => k c (c, w) = None
     end) -> same (cbind get_ctx k) (cbind get_ctx k').
Proof. intros Hk c q w H. exact (Hk c q w H). Qed.

(** Two of [num] neighbouring places of the ring are different. *)
Lemma ring_apart num out j k : 0 < num -> 0 <= j < num -> 0 <= k < num -> (out + j) mod num = (out + k) mod num -> j = k.
Proof.
  intros Hn Hj Hk He. pose proof (Z_div_mod_eq_full (out + j) num) as H1. pose proof (Z_div_mod_eq_full (out + k) num) as H2.
  rewrite He in H1. set (a := (out + j) / num) in *. set (b := (out + k) / num) in *. clearbody a b.
  assert (j - k = num * (a - b)) by nia. assert (-1 < a - b < 1) by nia. assert (a = b) as -> by lia. lia.
Qed.

Lemma ring_place num out j : 0 < num -> 0 <= (out + j) mod num < num.
Proof. intros. by apply Z.mod_pos_bound. Qed.

Lemma u8_small z : 0 <= z < 256 -> u8 z = z.
Proof. intros. unfold u8. by apply Z.mod_small. Qed.

(** Writing at place [j] of the list. *)
Lemma slots_insert c q j i k x : holds c q -> 0 <= j < queue_num c -> (k < length (q_pend q))%nat -> Z.of_nat k <> j ->
  queue_items c !! Z.to_nat ((queue_out c + Z.of_nat k) mod queue_num c) = Some x ->
  <[Z.to_nat ((queue_out c + j) mod queue_num c) := i]> (queue_items c)
    !! Z.to_nat ((queue_out c + Z.of_nat k) mod queue_num c) = Some x.
Proof.
  intros H Hj Hk Hne Hx. pose proof (h_pos _ _ H). pose proof (h_num _ _ H). pose proof (h_fit _ _ H).
  rewrite list_lookup_insert_ne; [done|]. intros He. apply Hne. symmetry.
  apply (ring_apart (queue_num c) (queue_out c)); try lia.
  pose proof (ring_place (queue_num c) (queue_out c) j). pose proof (ring_place (queue_num c) (queue_out c) (Z.of_nat k)). lia.
Qed.

Lemma holds_push c q i : holds c q -> (length (q_pend q) < q_num q)%nat ->
  holds (in_moved (ring_set (queue_in c) i c)) (q_set_pend (q_pend q ++ [i]) q).
Proof.
  intros H Hl. pose proof (h_pos _ _ H) as Hpos. pose proof (h_num _ _ H) as Hnum. pose proof (h_out _ _ H) as Hout.
  pose proof (h_cnt _ _ H) as Hcnt.
  assert (Hin : queue_in c = (queue_out c + Z.of_nat (length (q_pend q))) mod queue_num c) by (rewrite <- Hcnt; apply H).
  split; cbn; rewrite ?length_insert, ?length_app; cbn [length]; try apply H; try lia.
  - rewrite Hcnt, u8_small by lia. lia.
  - rewrite Hin, Hcnt, !u8_small; try lia.
    + rewrite Zplus_mod_idemp_l. f_equal. lia.
    + pose proof (ring_place (queue_num c) ((queue_out c + Z.of_nat (length (q_pend q))) mod queue_num c) 1). lia.
  - intros j x Hx. rewrite Hin. destruct (Nat.lt_ge_cases j (length (q_pend q))) as [Hj|Hj].
    + apply (slots_insert _ q); try done; try lia. apply (h_slots _ _ H). by rewrite <- (lookup_app_l _ [i]).
    + rewrite lookup_app_r in Hx by done. assert (j = length (q_pend q)) as ->.
      { apply lookup_lt_Some in Hx. cbn in Hx. lia. }
      rewrite Nat.sub_diag in Hx. injection Hx as <-. apply list_lookup_insert_eq. rewrite (h_len _ _ H).
      pose proof (ring_place (queue_num c) (queue_out c) (Z.of_nat (length (q_pend q)))). lia.
Qed.

(** The first command is at the place to take out. *)
Lemma holds_first c q i rest : holds c q -> q_pend q = i :: rest ->
  queue_items c !! Z.to_nat (queue_out c) = Some i /\ (0 <? queue_cnt c) = true.
Proof.
  intros H Hp. pose proof (h_out _ _ H). rewrite (h_cnt _ _ H), Hp. split; [|by apply Z.ltb_lt; cbn; lia].
  rewrite <- (h_slots _ _ H 0%nat) by (by rewrite Hp). by rewrite Z.add_0_r, Z.mod_small.
Qed.

Lemma holds_put c q i i' rest : holds c q -> q_pend q = i :: rest ->
  holds (ring_set (queue_out c) i' c) (q_set_pend (i' :: rest) q).
Proof.
  intros H Hp. pose proof (h_out _ _ H) as Hout. pose proof (h_cnt _ _ H) as Hcnt. pose proof (h_fit _ _ H) as Hfit.
  pose proof (h_len _ _ H). pose proof (h_num _ _ H). rewrite Hp in Hcnt, Hfit.
  split; cbn; rewrite ?length_insert; try apply H; try done.
  intros [|j] x Hx; cbn in Hx.
  - injection Hx as ->. rewrite Z.add_0_r, Z.mod_small by done. apply list_lookup_insert_eq. lia.
  - pose proof (lookup_lt_Some _ _ _ Hx). cbn in *.
    replace (Z.to_nat (queue_out c)) with (Z.to_nat ((queue_out c + 0) mod queue_num c)) by (by rewrite Z.add_0_r, Z.mod_small).
    apply (slots_insert _ q); try done; try lia; [rewrite Hp; cbn; lia|]. apply (h_slots _ _ H). by rewrite Hp.
Qed.

Lemma holds_pop c q i rest : holds c q -> q_pend q = i :: rest -> holds (out_moved c) (q_set_pend rest q).
Proof.
  intros H Hp. pose proof (h_out _ _ H) as Hout. pose proof (h_cnt _ _ H) as Hcnt. pose proof (h_fit _ _ H) as Hfit.
  pose proof (h_len _ _ H). pose proof (h_num _ _ H). pose proof (h_pos _ _ H). rewrite Hp in Hcnt, Hfit. cbn [length] in Hcnt, Hfit.
  pose proof (ring_place (queue_num c) (queue_out c) 1).
  split; cbn; rewrite ?u8_small; try apply H; try lia.
  - rewrite (h_in _ _ H), Zplus_mod_idemp_l. f_equal. lia.
  - intros j x Hx. rewrite Zplus_mod_idemp_l. rewrite <- (h_slots _ _ H (S j)) by (by rewrite Hp). do 2 f_equal. f_equal. lia.
Qed.

Lemma holds_inst c q i : holds c q -> is_idle i = false -> holds (set_instant i c) (q_set_inst (Some i) q).
Proof. intros H Hi. split; cbn; try apply H. done. Qed.
Lemma holds_no_inst c q i : holds c q -> is_idle i = true -> holds (set_instant i c) (q_set_inst None q).
Proof. intros H Hi. split; cbn; try apply H. done. Qed.

(** A command is idle exactly when it has been finished. *)
Lemma check_item_idle b ms i w i' fin w' : is_idle i = false -> check_item b ms i w = Some (i', fin, w') -> is_idle i' = fin.
Proof.
  unfold is_idle, check_item, finish_item, __default_cmd_timeout_cb, send_item, cbind, cret, gq_emit, cmod.
  destruct (qi_state i) eqn:Hs; [done| | |]; intros _ He;
    repeat (case_match; try discriminate; simplify_eq/=); rewrite ?Hs in *; done.
Qed.

Lemma same_tick : same __gfw_timer_check_timeout_cb list_tick.
Proof.
  apply same_bind; [apply same_host|intros _]. apply same_get. intros c q w H. rewrite (h_send _ _ H).
  pose proof (h_inst _ _ H) as Hi. destruct (q_inst q) as [i|] eqn:Hq.
  - destruct Hi as [Hci Hidle]. rewrite Hci, Hidle. cbn [negb]. unfold cbind, on_host, put_instant, mod_ctx, cmod. cbn [fst snd].
    destruct (check_item (q_send q) INSTANT_CHECK_INTERVAL_MS i w) as [[[i' fin] w']|] eqn:He; [|done].
    apply check_item_idle in He; [|done].
    assert (holds (set_instant i' c) (q_set_inst (if fin then None else Some i') q)) as H'.
    { destruct fin; [by apply holds_no_inst|by apply holds_inst]. }
    exact (same_host (gq_start INSTANT_CHECK_INTERVAL_MS) _ _ w' H').
  - rewrite Hi. cbn [negb]. destruct (q_pend q) as [|i rest] eqn:Hp.
    + pose proof (h_cnt _ _ H) as Hc. rewrite Hp in Hc. cbn in Hc. unfold cbind, get_ctx, cget, cret. cbn [fst snd]. rewrite Hc.
      change (0 <? Z.of_nat 0) with false. cbv iota. cbn [fst]. rewrite Hc. by exists c.
    + destruct (holds_first _ _ _ _ H Hp) as [Hf Hc]. rewrite Hc.
      unfold queue_item, cbind, get_ctx, cget, cpure, on_host. cbn [fst snd]. rewrite Hf. cbn [option_map].
      destruct (check_item (q_send q) DEFAULT_CHECK_INTERVAL_MS i w) as [[[i' fin] w']|] eqn:He; [|done].
      unfold put_item, take_out, mod_ctx, cmod, cret. cbn [fst snd].
      pose proof (holds_put _ _ _ i' _ H Hp) as H1. destruct fin; cbv beta iota; cbn [fst snd].
      * pose proof (holds_pop _ _ i' rest H1 eq_refl) as H2. pose proof (h_cnt _ _ H2) as Hc2. cbn [q_pend q_set_pend] in Hc2, H2. rewrite Hc2.
        destruct rest; [by eexists|]. exact (same_host (gq_start _) _ _ w' H2).
      * destruct (holds_first _ _ i' rest H1 eq_refl) as [_ Hc2]. rewrite Hc2. exact (same_host (gq_start _) _ _ w' H1).
Qed.

Lemma same_enqueue i : same (enqueue i) (list_enqueue i).
Proof.
  apply same_get. intros c q w H. rewrite (h_cnt _ _ H), (h_num _ _ H).
  replace (Z.of_nat (length (q_pend q)) <? Z.of_nat (q_num q)) with (length (q_pend q) <? q_num q)%nat
    by (by destruct (Nat.ltb_spec (length (q_pend q)) (q_num q)), (Z.ltb_spec (Z.of_nat (length (q_pend q))) (Z.of_nat (q_num q))); try lia).
  destruct (Nat.ltb_spec (length (q_pend q)) (q_num q)) as [Hl|Hl].
  - pose proof (holds_push _ _ i H Hl) as H'.
    exact (same_bind _ _ _ _ (same_host (gq_start_idle DEFAULT_CHECK_INTERVAL_MS)) (fun _ => same_ret OPRT_OK) _ _ w H').
  - exact (same_bind _ _ _ _ (same_host (gq_start_idle DEFAULT_CHECK_INTERVAL_MS)) (fun _ => same_ret OPRT_EXCEED_UPPER_LIMIT) _ _ w H).
Qed.

Lemma same_enter i : is_idle i = false -> same (enter_instant i) (list_enter i).
Proof.
  intros Hidle. apply same_get. intros c q w H. pose proof (h_inst _ _ H) as Hi. destruct (q_inst q).
  - destruct Hi as [-> ->]. by exists c.
  - rewrite Hi. cbn [negb]. pose proof (holds_inst _ _ i H Hidle) as H'.
    refine (same_bind _ _ _ _ (same_host (gq_start_idle INSTANT_CHECK_INTERVAL_MS)) _ _ _ w H').
    intros _. destruct (ctx i) as [[? [s|]]|]; [apply same_ret|apply same_pure..].
Qed.

Lemma same_finish_inst i : same (let* j := ack_item i in put_instant j)
  (let* _ := on_host (__default_cmd_timeout_cb OPRT_OK i) in mod_ctx (q_set_inst None)).
Proof.
  intros c q w H. unfold ack_item, cbind, on_host. destruct (__default_cmd_timeout_cb OPRT_OK i w) as [[i' w']|]; [|done].
  eexists. split; [reflexivity|]. by apply holds_no_inst.
Qed.

Lemma same_finish_first c q w i rest : holds c q -> q_pend q = i :: rest ->
  match (let* _ := on_host (__default_cmd_timeout_cb OPRT_OK i) in mod_ctx (q_set_pend rest)) (q, w) with
  | Some (a, (q', w')) => exists c',
      (let* j := ack_item i in let* _ := put_item (queue_out c) j in take_out) (c, w) = Some (a, (c', w')) /\ holds c' q'
  | None => (let* j := ack_item i in let* _ := put_item (queue_out c) j in take_out) (c, w) = None
  end.
Proof.
  intros H Hp. unfold ack_item, cbind, on_host. destruct (__default_cmd_timeout_cb OPRT_OK i w) as [[i' w']|]; [|done].
  eexists. split; [reflexivity|]. exact (holds_pop _ _ _ rest (holds_put _ _ _ _ _ H Hp) eq_refl).
Qed.

Lemma same_ack cmd : same (gfw_core_cmd_queue_ack cmd) (list_ack cmd).
Proof.
  apply same_get. intros c q w H. pose proof (h_inst _ _ H) as Hi.
  assert ((if negb (is_idle (instant_item c)) then is_cmd cmd (instant_item c) else Some false)
    = match q_inst q with Some i => is_cmd cmd i | None => Some false end) as ->.
  { destruct (q_inst q); [by destruct Hi as [-> ->]|by rewrite Hi]. }
  destruct (match q_inst q with Some i => is_cmd cmd i | None => Some false end) as [urgent|] eqn:Hu; [|done].
  unfold cbind at 1 3, cpure at 1 3. cbn [option_map]. destruct urgent.
  - destruct (q_inst q) as [i|] eqn:Hq; [|done]. destruct Hi as [-> _]. exact (same_finish_inst i c q w H).
  - destruct (q_pend q) as [|i rest] eqn:Hp.
    + pose proof (h_cnt _ _ H) as Hc. rewrite Hp in Hc. rewrite Hc. by exists c.
    + destruct (holds_first _ _ _ _ H Hp) as [Hf ->]. unfold queue_item, cbind, get_ctx, cget, cpure. cbn [option_map fst]. rewrite Hf. cbn [option_map].
      case_bool_decide; [|by exists c]. destruct (is_cmd cmd i) as [[|]|]; cbn [option_map]; [|by exists c|done].
      exact (same_finish_first c q w i rest H Hp).
Qed.

Lemma same_send type cmd bytes len ms cb resend :
  same (gfw_core_cmd_send_with_params type cmd bytes len ms cb resend) (send_with list_enqueue list_enter type cmd bytes len ms cb resend).
Proof.
  assert (Hsem : same new_sem new_sem).
  { apply same_bind; [apply same_host|]. intros [|]; [apply same_host|apply same_pure]. }
  apply same_bind. { case_bool_decide; [apply same_ret|apply same_host]. }
  intros ok. apply same_bind; [apply same_pure|]. intros [rt frame]. case_match; [apply same_ret|]. case_match.
  { apply same_bind; [apply same_host|]. intros _. apply same_bind; [apply same_host|]. intros; apply same_ret. }
  apply same_bind; [apply same_host|]. intros [|]; [|apply same_ret]. cbn [negb]. case_match; [|case_match].
  - apply same_bind; [done|]. intros s. by apply same_enter.
  - apply same_bind; [done|]. intros s. apply same_bind; [apply same_enqueue|]. intros; apply same_ret.
  - apply same_bind; [apply same_enqueue|]. intros; apply same_ret.
Qed.

(** ** Calls, and that they are defined *)

Inductive GQ_CALL :=
| CallTick                                         (* the timer has run out *)
| CallSend (type : AUDIO_GFW_CMD_TYPE_E) (cmd : Z) (bytes : list Z) (ms : Z) (cb : option nat) (resend : Z)
| CallEnter (i : CMD_QUEUE_ITEM_T)                 (* mutex_instant is free again *)
| CallAck (cmd : Z).

Definition gq_run_call {X} (tick : C (X * GqWorld) unit) (enqueue : CMD_QUEUE_ITEM_T -> C (X * GqWorld) OPERATE_RET)
    (enter : CMD_QUEUE_ITEM_T -> C (X * GqWorld) SENT) (ack : Z -> C (X * GqWorld) unit) (call : GQ_CALL)
    : C (X * GqWorld) (option SENT) :=
  match call with
  | CallTick => let* _ := tick in cret None
  | CallSend type cmd bytes ms cb resend =>
      let* r := send_with enqueue enter type cmd (Some bytes) (Z.of_nat (length bytes)) ms cb resend in cret (Some r)
  | CallEnter i => let* r := enter i in cret (Some r)
  | CallAck cmd => let* _ := ack cmd in cret None
  end.
Fixpoint run_calls {X} (run : GQ_CALL -> C (X * GqWorld) (option SENT)) (calls : list GQ_CALL) : C (X * GqWorld) (list (option SENT)) :=
  match calls with
  | [] => cret []
  | call :: calls => let* r := run call in let* rs := run_calls run calls in cret (r :: rs)
  end.
Definition queue_call : GQ_CALL -> QM (option SENT) :=
  gq_run_call __gfw_timer_check_timeout_cb enqueue enter_instant gfw_core_cmd_queue_ack.
Definition list_call : GQ_CALL -> LM (option SENT) := gq_run_call list_tick list_enqueue list_enter list_ack.

(** A command that has been packed and waits for its end. *)
Definition live (i : CMD_QUEUE_ITEM_T) : Prop := is_idle i = false /\ is_Some (data i) /\ is_Some (ctx i).
(** A caller of an urgent command waits for a semaphore. *)
Definition call_ok (call : GQ_CALL) : Prop :=
  match call with
  | CallSend _ _ bytes _ _ _ => Z.of_nat (length bytes) <= 65528
  | CallEnter i => live i /\ exists cb s, ctx i = Some (mk_tctx cb (Some s))
  | _ => True
  end.
Definition all_live (q : QUEUE) : Prop := Forall live (q_pend q) /\ forall i, q_inst q = Some i -> live i.
Definition sems (w : GqWorld) : Prop := forall n, gq_sem w n = true.

Lemma same_call call : call_ok call -> same (queue_call call) (list_call call).
Proof.
  intros Hok. destruct call; cbn; (apply same_bind; [|intros; apply same_ret]).
  - apply same_tick.
  - apply same_send.
  - apply same_enter. apply Hok.
  - apply same_ack.
Qed.

Lemma same_calls calls : Forall call_ok calls -> same (run_calls queue_call calls) (run_calls list_call calls).
Proof.
  induction 1 as [|call calls Hc _ IH]; [apply same_ret|]. apply same_bind; [by apply same_call|]. intros r.
  apply same_bind; [done|]. intros; apply same_ret.
Qed.

(** Each step of the list is defined and keeps its commands live. *)
Definition keeps {A} (m : LM A) (P : A -> Prop) : Prop := forall q w, all_live q -> sems w ->
  wp m (fun a '(q', w') => P a /\ all_live q' /\ sems w') (q, w).
Definition quietly {A} (m : C GqWorld A) (P : A -> Prop) : Prop := forall w, sems w -> wp m (fun a w' => P a /\ sems w') w.

Lemma keeps_host {A} (m : C GqWorld A) P : quietly m P -> keeps (on_host m) P.
Proof. intros Hm q w Hq Hw. apply wp_host. eapply wp_mono; [by apply Hm|]. by intros a w' [? ?]. Qed.
Lemma keeps_bind {A B} (m : LM A) (k : A -> LM B) P Q : keeps m P -> (forall a, P a -> keeps (k a) Q) -> keeps (cbind m k) Q.
Proof.
  intros Hm Hk q w Hq Hw. apply wp_bind. eapply wp_mono; [by apply Hm|]. intros a [q' w'] (? & ? & ?). by apply Hk.
Qed.
Lemma keeps_ret {A} (a : A) (P : A -> Prop) : P a -> keeps (cret a) P.
Proof. intros Ha q w Hq Hw. by apply wp_ret. Qed.
Lemma keeps_get {A} (k : QUEUE -> LM A) P : (forall q, all_live q -> keeps (k q) P) -> keeps (cbind get_ctx k) P.
Proof. intros Hk q w Hq Hw. by apply (Hk q Hq q w). Qed.
Lemma keeps_mod f : (forall q, all_live q -> all_live (f q)) -> keeps (mod_ctx f) (fun _ => True).
Proof. intros Hf q w Hq Hw. by split; [|split; [apply Hf|]]. Qed.

Lemma quiet_emit fx : quietly (gq_emit fx) (fun _ => True).
Proof. by intros w Hw. Qed.
Lemma quiet_ask {A} (f : GqWorld -> nat -> A) : quietly (gq_ask f) (fun _ => True).
Proof. by intros w Hw. Qed.
Lemma quiet_start ms : quietly (gq_start ms) (fun _ => True).
Proof. intros w Hw. unfold wp, gq_start, cbind, gq_ask. by destruct (gq_ok w (gq_asked w)). Qed.
Lemma quiet_start_idle ms : quietly (gq_start_idle ms) (fun _ => True).
Proof. intros w Hw. unfold gq_start_idle. wp_step. wp_step. destruct (gq_running w); [by wp_step|by apply quiet_start]. Qed.

Lemma quiet_cb rt i : live i -> quietly (__default_cmd_timeout_cb rt i) (fun _ => True).
Proof.
  intros (_ & [bytes Hd] & [c Hc]) w Hw. unfold wp, __default_cmd_timeout_cb, cbind, cpure, cret, gq_emit, cmod. rewrite Hc, Hd. cbn.
  by repeat case_match; simplify_eq/=.
Qed.

Lemma quiet_check b ms i : live i -> quietly (check_item b ms i) (fun '(i', fin) => (fin : bool) = false -> live i').
Proof.
  intros Hl w Hw. pose proof Hl as (Hidle & [bytes Hd] & [c Hc]).
  assert (Hfin : forall rt, wp (finish_item rt i) (fun '(i', fin) w' => ((fin : bool) = false -> live i') /\ sems w') w).
  { intros rt. unfold finish_item. apply wp_bind. eapply wp_mono; [by apply quiet_cb|]. intros i' w' [_ Hw']. by wp_step. }
  assert (Hsend : sems w -> wp (send_item b i) (fun _ w' => sems w') w).
  { intros _. unfold wp, send_item, cbind, cpure. by rewrite Hd. }
  unfold check_item. destruct (qi_state i) eqn:Hs; cbn.
  - by unfold is_idle in Hidle; rewrite Hs in Hidle.
  - apply wp_bind. eapply wp_mono; [by apply Hsend|]. intros [] w' Hw'. by wp_step.
  - destruct (negb _); [|eapply wp_mono; [apply Hfin|by intros [i' fin] w'' Hq]]. by wp_step.
  - case_match; [|by wp_step]. case_match; [|wp_step; split; [|done]; intros _; split; [unfold is_idle; cbn; by rewrite Hs|done]].
    case_match; [|eapply wp_mono; [apply Hfin|by intros [i' fin] w'' Hq]].
    apply wp_bind. eapply wp_mono; [by apply Hsend|]. intros [] w' Hw'. wp_step. split; [|done]. intros _. split; [|done].
    unfold is_idle. cbn. by rewrite Hs.
Qed.

Lemma keeps_weak {A} (m : LM A) (P P' : A -> Prop) : keeps m P -> (forall a, P a -> P' a) -> keeps m P'.
Proof. intros Hm HP q w Hq Hw. eapply wp_mono; [by apply Hm|]. intros a [q' w'] (? & ? & ?). auto. Qed.

Lemma keeps_tick : keeps list_tick (fun _ => True).
Proof.
  eapply keeps_bind; [apply (keeps_host _ (fun _ => True)); by intros w Hw|intros _ _]. apply keeps_get. intros q [Hp Hi].
  destruct (q_inst q) as [i|].
  - eapply keeps_bind; [apply keeps_host, quiet_check; by apply Hi|]. intros [i' fin] Hfin.
    eapply keeps_bind; [|intros _ _; apply keeps_host, quiet_start]. apply keeps_mod. intros q' [Hp' _]. split; [done|].
    cbn. intros j. destruct fin; [done|]. intros [= <-]. by apply Hfin.
  - destruct (q_pend q) as [|i rest]; [by apply keeps_ret|]. apply Forall_cons in Hp as [Hl Hp].
    eapply keeps_bind; [by apply keeps_host, quiet_check|]. intros [i' fin] Hfin. cbv zeta.
    eapply keeps_bind; [apply keeps_mod|intros _ _; destruct (if fin then rest else i' :: rest); [by apply keeps_ret|apply keeps_host, quiet_start]].
    intros q' [_ Hi']. split; [|done]. cbn. destruct fin; [done|]. apply Forall_cons. split; [by apply Hfin|done].
Qed.

Lemma keeps_enqueue i : live i -> keeps (list_enqueue i) (fun _ => True).
Proof.
  intros Hl. apply keeps_get. intros q [Hp _]. eapply (keeps_bind _ _ (fun _ => True)).
  - destruct (_ <? _)%nat; [|by apply keeps_ret]. eapply keeps_bind; [apply keeps_mod|intros; by apply keeps_ret].
    intros q' [_ Hi]. split; [|done]. cbn. apply Forall_app. split; [done|]. by apply Forall_cons.
  - intros rt _. eapply keeps_bind; [apply keeps_host, quiet_start_idle|]. intros; by apply keeps_ret.
Qed.

Lemma keeps_enter i cb s : live i -> ctx i = Some (mk_tctx cb (Some s)) -> keeps (list_enter i) (fun _ => True).
Proof.
  intros Hl Hc. apply keeps_get. intros q _. destruct (q_inst q); [by apply keeps_ret|].
  eapply keeps_bind; [apply keeps_mod; intros q' [Hp _]; split; [done|by intros j [= <-]]|intros _ _].
  eapply keeps_bind; [apply keeps_host, quiet_start_idle|intros _ _]. rewrite Hc. by apply keeps_ret.
Qed.

Lemma keeps_ack cmd : keeps (list_ack cmd) (fun _ => True).
Proof.
  apply keeps_get. intros q [Hp Hi].
  assert (exists b, match q_inst q with Some i => is_cmd cmd i | None => Some false end = Some b /\ (b = true -> is_Some (q_inst q))) as (b & -> & Hb).
  { unfold is_cmd. destruct (q_inst q) as [i|]; [|by exists false]. destruct (Hi i eq_refl) as (_ & [bytes ->] & _). by eexists. }
  eapply (keeps_bind _ _ (eq b)); [by apply keeps_ret|]. intros b' <-. destruct b.
  - destruct (Hb eq_refl) as [i Hq]. rewrite Hq. eapply (keeps_bind _ _ (eq i)); [by apply keeps_ret|intros i' <-].
    eapply keeps_bind; [apply keeps_host, quiet_cb; by apply Hi|intros ? _]. apply keeps_mod. by intros q' [Hp' _].
  - destruct (q_pend q) as [|i rest]; [by apply keeps_ret|]. apply Forall_cons in Hp as [Hl Hp]. case_bool_decide; [|by apply keeps_ret].
    unfold is_cmd. pose proof Hl as (_ & [bytes ->] & _). cbn [option_map].
    eapply (keeps_bind _ _ (eq _)); [by apply keeps_ret|intros b <-]. case_match; [|by apply keeps_ret].
    eapply keeps_bind; [by apply keeps_host, quiet_cb|intros ? _]. apply keeps_mod. by intros q' [_ Hi'].
Qed.

(** Packing is defined as long as the frame's length fits into 16 bits. *)
Lemma pack_defined type cmd bytes ok : Z.of_nat (length bytes) <= 65528 ->
  exists r, gfw_core_frame_pack type cmd (Some bytes) (Z.of_nat (length bytes)) ok = Some r.
Proof.
  intros Hl. unfold gfw_core_frame_pack. case_match; [by eexists|]. cbv zeta. unfold u16, MIN_FRAME_LEN.
  rewrite Z.mod_small by lia. rewrite Z.ltb_irrefl, Nat2Z.id, Nat.ltb_irrefl. by eexists.
Qed.

Lemma keeps_send type cmd bytes ms cb resend : Z.of_nat (length bytes) <= 65528 ->
  keeps (send_with list_enqueue list_enter type cmd (Some bytes) (Z.of_nat (length bytes)) ms cb resend) (fun _ => True).
Proof.
  intros Hl. assert (Hsem : keeps new_sem (fun _ => True)).
  { intros q w Hq Hw. unfold new_sem. wp_step. apply wp_host. unfold wp at 1, gq_ask. rewrite Hw. by apply wp_host. }
  eapply (keeps_bind _ _ (fun _ => True)). { case_bool_decide; [by apply keeps_ret|apply keeps_host, quiet_ask]. }
  intros ok _. destruct (pack_defined type cmd bytes ok Hl) as [[rt frame] ->].
  eapply (keeps_bind _ _ (eq _)); [by apply keeps_ret|intros r <-]. case_match; [by apply keeps_ret|]. case_match.
  { eapply keeps_bind; [apply keeps_host, quiet_emit|intros _ _]. eapply keeps_bind; [apply keeps_host, quiet_ask|]. intros; by apply keeps_ret. }
  eapply keeps_bind; [apply keeps_host, quiet_ask|]. intros [|] _; [|by apply keeps_ret]. cbn [negb].
  assert (Hi : forall cnt s, live (mk_item type ITEM_STATE_IN cnt ms resend (Some frame) (Some (mk_tctx cb s)))) by done.
  case_match; [|case_match].
  - eapply keeps_bind; [done|]. intros s _. by eapply keeps_enter.
  - eapply keeps_bind; [done|]. intros s _. eapply keeps_bind; [by apply keeps_enqueue|]. intros; by apply keeps_ret.
  - eapply keeps_bind; [by apply keeps_enqueue|]. intros; by apply keeps_ret.
Qed.

Lemma keeps_calls calls : Forall call_ok calls -> keeps (run_calls list_call calls) (fun _ => True).
Proof.
  induction 1 as [|call calls Hc _ IH]; [by apply keeps_ret|].
  eapply (keeps_bind _ _ (fun _ => True)); [|intros r _; eapply keeps_bind; [done|intros; by apply keeps_ret]].
  destruct call; cbn in *; (eapply (keeps_bind _ _ (fun _ => True)); [|intros; by apply keeps_ret]).
  - apply keeps_tick.
  - by apply keeps_send.
  - destruct Hc as (Hl & cb & s & Hs). by eapply keeps_enter.
  - apply keeps_ack.
Qed.

Lemma queue_init_holds num send s : 0 < num < 256 -> forall r c w,
  gfw_core_cmd_queue_init num send s = Some (r, (c, w)) -> r = OPRT_OK -> holds c (mk_q (Z.to_nat num) [] None send).
Proof.
  intros Hn r c w. unfold gfw_core_cmd_queue_init, cbind, put_ctx, cmod, get_ctx, cget, on_host, gq_ask, cret. destruct s as [c0 w0]. cbn [fst snd].
  destruct (gq_ok w0 (gq_asked w0)); cbn [negb]; [|by intros [= <- <- <-]].
  cbn [gq_rt gq_asked fst snd].
  do 3 (match goal with |- context [negb (gq_rt w0 ?n =? OPRT_OK)] =>
    destruct (Z.eqb_spec (gq_rt w0 n) OPRT_OK); cbn [negb gq_rt gq_asked fst snd]; [|by intros [= <- <- <-]] end).
  intros [= <- <- <-] _. split; cbn; rewrite ?repeat_length, ?u8_small by lia; try done; lia.
Qed.

(** C22. The queue of commands to the audio processor is a plain list of pending
    commands and at most one urgent command: every sequence of sends of up to
    65,528 bytes, timer ticks, answers and entries of urgent commands that wait
    on their semaphore is defined on the ring (whose indices are 8-bit and
    wrap) as long as semaphores can be created, sends and reports the same, in
    the same order, and ends holding the same commands; a full queue refuses, an
    urgent command goes first, an answer finishes the urgent command or the
    first one sent. (The length of a frame wraps for more bytes, and the writes
    overrun it.) *)
Theorem cmd_queue_refines (calls : list GQ_CALL) (c : CMD_QUEUE_CTX_T) (q : QUEUE) (w : GqWorld) :
  holds c q -> all_live q -> sems w -> Forall call_ok calls ->
  exists rs c' q' w', run_calls queue_call calls (c, w) = Some (rs, (c', w'))
    /\ run_calls list_call calls (q, w) = Some (rs, (q', w')) /\ holds c' q' /\ all_live q'.
Proof.
  intros H Hq Hw Hcalls. destruct (wp_elim _ _ _ (keeps_calls calls Hcalls q w Hq Hw)) as (rs & [q' w'] & He & _ & Hq' & _).
  pose proof (same_calls calls Hcalls c q w H) as Hsame. rewrite He in Hsame. destruct Hsame as (c' & Hc & H').
  by exists rs, c', q', w'.
Qed.

(** ** What happens to commands that are not answered *)

(** The rounds a command takes from its turn to its end: it is sent, found sent,
    and then waits its time after every sending. *)
Definition item_rounds (i : CMD_QUEUE_ITEM_T) : nat :=
  if timeout_cnt i =? 0 then 2 else 2 + Z.to_nat (timeout_cnt i) * Z.to_nat (Z.max 1 (resend_cnt i)).
(** And what is seen of it: one sending, or as many as it asks for; its timeout
    callback; the end of the wait of its caller. *)
Definition lifetime (trans : bool) (i : CMD_QUEUE_ITEM_T) : list GQ_FX :=
  match data i, ctx i with
  | Some bytes, Some c =>
      repeat (GqSend trans bytes) (if timeout_cnt i =? 0 then 1 else Z.to_nat (Z.max 1 (resend_cnt i)))
      ++ match timeout_cb c with
         | Some cb => if timeout_cnt i =? 0 then [] else [GqTimeout cb (frame_data bytes)]
         | None => []
         end
      ++ match sem c with
         | Some s => if bool_decide (qi_type i = AUDIO_GFW_CMD_TYPE_DEFAULT) then []
                     else [GqPost s (if timeout_cnt i =? 0 then OPRT_OK else OPRT_TIMEOUT)]
         | None => []
         end
  | _, _ => []
  end.
(** As the send functions leave it in the queue. *)
Definition fresh (i : CMD_QUEUE_ITEM_T) : Prop :=
  qi_state i = ITEM_STATE_IN /\ is_Some (data i) /\ is_Some (ctx i) /\ 0 <= resend_cnt i
  /\ timeout_cnt i = u16 (timeout_ms i / DEFAULT_CHECK_INTERVAL_MS).

Definition is_start (fx : GQ_FX) : bool := match fx with GqStart _ => true | _ => false end.
(** The trace without the starts of the timer. *)
Definition bus (w : GqWorld) : list GQ_FX := List.filter (fun fx => negb (is_start fx)) (gq_trace w).

Definition emits (fx : list GQ_FX) (w : GqWorld) : GqWorld :=
  mk_gq (gq_ok w) (gq_sem w) (gq_rt w) (gq_asked w) (gq_running w) (rev fx ++ gq_trace w).

(** The timer runs as long as a command is pending. *)
Definition awake (q : QUEUE) (w : GqWorld) : Prop :=
  (forall n, gq_ok w n = true) /\ gq_running w = negb (bool_decide (q_pend q = [])).

(** In [n] rounds of the timer [q] becomes [q'], and [fx] is seen. *)
Definition goes (q : QUEUE) (n : nat) (fx : list GQ_FX) (q' : QUEUE) : Prop := forall w, awake q w ->
  exists w', awake q' w' /\ bus w' = rev fx ++ bus w
    /\ forall m, rounds_of list_tick (n + m) (q, w) = rounds_of list_tick m (q', w').

Lemma goes_refl q : goes q 0 [] q.
Proof. intros w Hw. by exists w. Qed.
Lemma goes_trans q n fx q' n' fx' q'' : goes q n fx q' -> goes q' n' fx' q'' -> goes q (n + n') (fx ++ fx') q''.
Proof.
  intros H1 H2 w Hw. destruct (H1 w Hw) as (w1 & Hw1 & Hb1 & Hr1). destruct (H2 w1 Hw1) as (w2 & Hw2 & Hb2 & Hr2).
  exists w2. split; [done|]. split; [by rewrite Hb2, Hb1, rev_app_distr, app_assoc|].
  intros m. by rewrite <- Nat.add_assoc, Hr1, Hr2.
Qed.

(** One round with the first command. *)
Lemma goes_one q i rest i' fin fx : q_inst q = None -> q_pend q = i :: rest ->
  (forall w, check_item (q_send q) DEFAULT_CHECK_INTERVAL_MS i w = Some (i', fin, emits fx w)) ->
  Forall (fun f => is_start f = false) fx ->
  goes q 1 fx (q_set_pend (if fin : bool then rest else i' :: rest) q).
Proof.
  intros Hinst Hp Hcheck Hfx w [Hok Hrun]. rewrite Hp in Hrun. cbn in Hrun.
  assert (Hbus : forall w r, bus (mk_gq (gq_ok w) (gq_sem w) (gq_rt w) r (gq_running w) (rev fx ++ gq_trace w)) = rev fx ++ bus w).
  { intros w0 r. unfold bus. cbn. rewrite List.filter_app. f_equal. apply Forall_rev in Hfx.
    induction Hfx as [|f l Hf _ IH]; [done|]. cbn. rewrite Hf. cbn. by rewrite IH. }
  assert (forall m, rounds_of list_tick (1 + m) (q, w)
    = match (match (if fin then rest else i' :: rest) with [] => cret tt | _ => on_host (gq_start DEFAULT_CHECK_INTERVAL_MS) end)
              (q_set_pend (if fin then rest else i' :: rest) q,
               emits fx (mk_gq (gq_ok w) (gq_sem w) (gq_rt w) (gq_asked w) false (gq_trace w))) with
      | Some (_, s) => rounds_of list_tick m s
      | None => None
      end) as Hround.
  { intros m. cbn [rounds_of Nat.add]. unfold cbind at 1, on_host at 1, cget. rewrite Hrun.
    unfold cbind at 1. unfold list_tick at 1, cbind at 1, on_host at 1, gq_timer, cmod.
    unfold cbind at 1, get_ctx, cget. cbn [fst]. rewrite Hinst, Hp. unfold cbind at 1, on_host at 1. rewrite Hcheck. cbv zeta.
    unfold cbind, mod_ctx, cmod. cbn [fst snd]. done. }
  set (pend := if fin then rest else i' :: rest) in *. destruct pend as [|i1 pend].
  - exists (emits fx (mk_gq (gq_ok w) (gq_sem w) (gq_rt w) (gq_asked w) false (gq_trace w))). split; [done|]. split; [|done].
    exact (Hbus (mk_gq (gq_ok w) (gq_sem w) (gq_rt w) (gq_asked w) false (gq_trace w)) _).
  - exists (mk_gq (gq_ok w) (gq_sem w) (gq_rt w) (S (gq_asked w)) true (GqStart DEFAULT_CHECK_INTERVAL_MS :: rev fx ++ gq_trace w)).
    split; [done|]. split.
    + unfold bus at 1. cbn. exact (Hbus w (gq_asked w)).
    + intros m. rewrite Hround. unfold on_host, gq_start, cbind, gq_ask, gq_emit, gq_timer, cmod, emits. cbn. by rewrite Hok.
Qed.

Section Life.
Context (q : QUEUE) (rest : list CMD_QUEUE_ITEM_T) (type : AUDIO_GFW_CMD_TYPE_E) (ms : Z) (bytes : list Z) (c : TIMEOUT_CTX_T).
Hypothesis Hinst : q_inst q = None.

Let item st t r := mk_item type st t ms r (Some bytes) (Some c).
Let at_item st t r := q_set_pend (item st t r :: rest) q.
Let done_q := q_set_pend rest q.
Let end_fx rt : list GQ_FX :=
  match timeout_cb c with Some cb => if rt =? OPRT_OK then [] else [GqTimeout cb (frame_data bytes)] | None => [] end
  ++ match sem c with
     | Some s => if bool_decide (type = AUDIO_GFW_CMD_TYPE_DEFAULT) then [] else [GqPost s rt]
     | None => []
     end.

Lemma finish_fx rt st t r w : finish_item rt (item st t r) w
  = Some (mk_item type ITEM_STATE_IDLE t ms r None None, true, emits (end_fx rt) w).
Proof.
  unfold finish_item, __default_cmd_timeout_cb, end_fx, cbind, cpure, cret, gq_emit, cmod, emits. cbn. destruct c as [cb s]. cbn.
  destruct w. destruct (rt =? OPRT_OK); cbn; destruct cb, s; cbn; by destruct (bool_decide (type = AUDIO_GFW_CMD_TYPE_DEFAULT)).
Qed.
Lemma end_fx_bus rt : Forall (fun f => is_start f = false) (end_fx rt).
Proof. unfold end_fx. repeat case_match; repeat constructor. Qed.

Lemma goes_send t r : goes (at_item ITEM_STATE_IN t r) 1 [GqSend (q_send q) bytes]
  (at_item ITEM_STATE_OUT t (if r =? 0 then 0 else r - 1)).
Proof. eapply (goes_one (at_item _ _ _) _ _ _ false); [done|done|intros w; reflexivity|by repeat constructor]. Qed.

Lemma goes_no_ack r : goes (at_item ITEM_STATE_OUT 0 r) 1 (end_fx OPRT_OK) done_q.
Proof. eapply (goes_one (at_item _ _ _) _ _ _ true); [done|done|intros w; apply finish_fx|apply end_fx_bus]. Qed.

Lemma goes_to_retry t r : t <> 0 -> goes (at_item ITEM_STATE_OUT t r) 1 [] (at_item ITEM_STATE_RETRY t r).
Proof.
  intros Ht. eapply (goes_one (at_item _ _ _) _ _ _ false); [done|done| |done]. intros w. unfold check_item. cbn.
  apply Z.eqb_neq in Ht. rewrite Ht. by destruct w.
Qed.

Lemma goes_down n r : goes (at_item ITEM_STATE_RETRY (Z.of_nat (S n)) r) n [] (at_item ITEM_STATE_RETRY 1 r).
Proof.
  induction n as [|n IH]; [apply goes_refl|]. eapply (goes_trans _ 1 [] (at_item ITEM_STATE_RETRY (Z.of_nat (S n)) r) n []); [|done].
  eapply (goes_one (at_item _ _ _) _ _ _ false); [done|done| |done]. intros w. unfold check_item. cbn [qi_state item timeout_cnt].
  destruct (Z.ltb_spec 0 (Z.of_nat (S (S n)))); [|lia]. destruct (Z.eqb_spec (Z.of_nat (S (S n))) 1); [lia|].
  unfold with_counts, cret, emits. cbn [rev app qi_type qi_state timeout_ms resend_cnt data ctx item].
  replace (Z.of_nat (S (S n)) - 1) with (Z.of_nat (S n)) by lia. by destruct w.
Qed.

(** Waiting, sending [r] times more, and giving up. *)
Lemma goes_retry n (r : nat) : u16 (ms / DEFAULT_CHECK_INTERVAL_MS) = Z.of_nat (S n) ->
  goes (at_item ITEM_STATE_RETRY (Z.of_nat (S n)) (Z.of_nat r)) (S n * S r)
    (repeat (GqSend (q_send q) bytes) r ++ end_fx OPRT_TIMEOUT) done_q.
Proof.
  intros Hms. induction r as [|r IH].
  - replace (S n * 1)%nat with (n + 1)%nat by lia. eapply (goes_trans _ n [] _ 1 (end_fx OPRT_TIMEOUT)); [apply goes_down|].
    eapply (goes_one (at_item _ _ _) _ _ _ true); [done|done|intros w; apply finish_fx|apply end_fx_bus].
  - replace (S n * S (S r))%nat with (n + (1 + S n * S r))%nat by lia.
    eapply (goes_trans _ n [] _ (1 + S n * S r) (repeat _ (S r) ++ end_fx OPRT_TIMEOUT)); [apply goes_down|].
    eapply (goes_trans _ 1 [GqSend (q_send q) bytes] (at_item ITEM_STATE_RETRY (Z.of_nat (S n)) (Z.of_nat r)) _ (repeat _ r ++ _)); [|done].
    eapply (goes_one (at_item _ _ _) _ _ _ false); [done|done| |by repeat constructor]. intros w.
    unfold check_item. cbn [qi_state item timeout_cnt resend_cnt timeout_ms Z.ltb Z.compare Z.eqb Pos.eqb].
    destruct (Z.eqb_spec (Z.of_nat (S r)) 0); [lia|]. cbn [negb].
    unfold cbind, send_item, cpure, gq_emit, cret, cmod, with_counts, emits, cbind. cbn [option_map data item qi_type qi_state ctx timeout_ms rev app].
    rewrite Hms. by replace (Z.of_nat (S r) - 1) with (Z.of_nat r) by lia.
Qed.
End Life.

Lemma goes_item q i rest : q_inst q = None -> fresh i -> q_pend q = i :: rest ->
  goes q (item_rounds i) (lifetime (q_send q) i) (q_set_pend rest q).
Proof.
  intros Hinst (Hst & [bytes Hd] & [c Hc] & Hr & Ht) Hp. destruct i as [type st t ms r d x]. cbn in *. subst st d x.
  assert (q_set_pend (mk_item type ITEM_STATE_IN t ms r (Some bytes) (Some c) :: rest) q = q) as Hq.
  { destruct q as [? ? ? ?]. cbn in *. unfold q_set_pend. cbn. by rewrite Hp. }
  pose proof (goes_send q rest type ms bytes c Hinst t r) as H1. cbv zeta beta in H1. rewrite Hq in H1.
  unfold item_rounds, lifetime. cbn [timeout_cnt resend_cnt data ctx qi_type].
  destruct (Z.eqb_spec t 0) as [Ht0|Ht0].
  - eapply (goes_trans _ 1 _ _ 1 _ _ H1). rewrite Ht0.
    pose proof (goes_no_ack q rest type ms bytes c Hinst (if r =? 0 then 0 else r - 1)) as H2. cbv zeta beta in H2.
    rewrite Ht0 in *. exact H2.
  - assert (0 < t) by (unfold u16 in Ht; pose proof (Z.mod_pos_bound (ms / DEFAULT_CHECK_INTERVAL_MS) (2 ^ 16)); lia).
    set (k := Z.to_nat (if r =? 0 then 0 else r - 1)).
    assert (Hk : (if r =? 0 then 0 else r - 1) = Z.of_nat k) by (unfold k; destruct (Z.eqb_spec r 0); lia).
    assert (Z.to_nat (Z.max 1 r) = S k) as -> by (unfold k; destruct (Z.eqb_spec r 0); lia).
    replace (2 + Z.to_nat t * S k)%nat with (1 + (1 + Z.to_nat t * S k))%nat by lia.
    rewrite Hk in H1. eapply (goes_trans _ 1 _ _ _ (repeat _ k ++ _) _ H1).
    pose proof (goes_to_retry q rest type ms bytes c Hinst t (Z.of_nat k) Ht0) as H2. cbv zeta beta in H2.
    eapply (goes_trans _ 1 [] _ _ _ _ H2). destruct (Z.to_nat t) as [|n] eqn:Hn; [lia|].
    assert (t = Z.of_nat (S n)) as Htn by lia. rewrite Htn in *.
    exact (goes_retry q rest type ms bytes c Hinst n k (eq_sym Ht)).
Qed.

Lemma goes_all l : forall q, q_inst q = None -> Forall fresh l -> q_pend q = l ->
  goes q (list_sum (map item_rounds l)) (flat_map (lifetime (q_send q)) l) (q_set_pend [] q).
Proof.
  induction l as [|i l IH]; intros q Hinst Hl Hp.
  - replace (q_set_pend [] q) with q by (destruct q; cbn in *; by subst). apply goes_refl.
  - apply Forall_cons in Hl as [Hi Hl]. cbn [map list_sum fold_right flat_map].
    eapply (goes_trans _ _ _ _ _ _ _ (goes_item q i l Hinst Hi Hp)).
    exact (IH (q_set_pend l q) Hinst Hl eq_refl).
Qed.

Lemma same_rounds n : same (timer_rounds n) (rounds_of list_tick n).
Proof.
  induction n as [|n IH]; [apply same_ret|]. apply same_bind; [apply same_host|]. intros [|]; [|apply same_ret].
  apply same_bind; [apply same_tick|]. intros _. exact IH.
Qed.

(** C33. Commands that nobody answers leave the queue one after the other, in the
    order in which they were sent: each goes out once, or, when it has a timeout
    (counted in checks, in 16 bits), as many times as its resend count says and
    at least once, with its timeout between the sendings; then its timeout
    callback is called with its frame and its waiting caller returns. The timer
    keeps itself running until the queue is empty, and stops. *)
Theorem queue_drains (c : CMD_QUEUE_CTX_T) (q : QUEUE) (w : GqWorld) :
  holds c q -> q_inst q = None -> Forall fresh (q_pend q) -> awake q w ->
  exists c' w', timer_rounds (list_sum (map item_rounds (q_pend q))) (c, w) = Some (tt, (c', w'))
    /\ bus w' = rev (flat_map (lifetime (trans_send c)) (q_pend q)) ++ bus w
    /\ queue_cnt c' = 0 /\ gq_running w' = false.
Proof.
  intros H Hinst Hfresh Hw. destruct (goes_all (q_pend q) q Hinst Hfresh eq_refl w Hw) as (w' & [_ Hrun] & Hb & Hr).
  pose proof (same_rounds (list_sum (map item_rounds (q_pend q))) c q w H) as Hsame.
  specialize (Hr 0%nat). rewrite Nat.add_0_r in Hr. rewrite Hr in Hsame. cbn in Hsame. destruct Hsame as (c' & Hc & H').
  exists c', w'. rewrite (h_send _ _ H). split; [done|]. split; [done|]. split; [by rewrite (h_cnt _ _ H')|done].
Qed.

(** *** Runs *)

Definition demo_gq : GqWorld := mk_gq (fun _ => true) (fun _ => true) (fun _ => OPRT_OK) 0 false [].
Definition demo_queue : CMD_QUEUE_CTX_T := mk_queue (repeat item_zero 2) 2 0 0 0 item_zero false.
Definition demo_list : QUEUE := mk_q 2 [] None false.
Lemma demo_holds : holds demo_queue demo_list.
Proof. by apply (queue_init_holds 2 false (demo_queue, demo_gq) ltac:(lia) OPRT_OK demo_queue _ eq_refl). Qed.

(** Two commands fill the queue and a third is refused; an urgent one overtakes
    them; answers; and once more around the ring. *)
Definition demo_calls : list GQ_CALL :=
  [CallSend AUDIO_GFW_CMD_TYPE_DEFAULT 16 [1; 2] 100 (Some 7%nat) 2;
   CallSend AUDIO_GFW_CMD_TYPE_SYNC 17 [] 100 None 1;
   CallSend AUDIO_GFW_CMD_TYPE_DEFAULT 18 [] 0 None 0;
   CallTick; CallSend AUDIO_GFW_CMD_TYPE_INSTANT 19 [5] 0 None 0; CallTick; CallTick; CallTick;
   CallAck 16; CallSend AUDIO_GFW_CMD_TYPE_DEFAULT 20 [] 0 None 0; CallTick; CallAck 17; CallTick; CallTick; CallTick].

Lemma cmd_queue_refines_witness : exists rs c' q' w',
  run_calls queue_call demo_calls (demo_queue, demo_gq) = Some (rs, (c', w'))
  /\ run_calls list_call demo_calls (demo_list, demo_gq) = Some (rs, (q', w')) /\ holds c' q' /\ all_live q'.
Proof.
  apply (cmd_queue_refines demo_calls demo_queue demo_list demo_gq).
  - exact demo_holds.
  - split; [by apply Forall_nil|done].
  - done.
  - repeat (apply List.Forall_cons; [first [exact I|cbn; lia]|]). apply List.Forall_nil.
Defined.

Definition waiting_item (cmd ms resend : Z) (s : option nat) : CMD_QUEUE_ITEM_T :=
  mk_item (match s with Some _ => AUDIO_GFW_CMD_TYPE_SYNC | None => AUDIO_GFW_CMD_TYPE_DEFAULT end) ITEM_STATE_IN
    (u16 (ms / DEFAULT_CHECK_INTERVAL_MS)) ms resend (Some [85; 170; 0; cmd; 0; 0; u8 (255 + cmd)]) (Some (mk_tctx (Some 7%nat) s)).
Definition demo_full : CMD_QUEUE_CTX_T :=
  mk_queue [waiting_item 17 100 1 (Some 3%nat); waiting_item 16 150 2 None] 2 1 1 2 item_zero true.
Definition demo_pending : QUEUE := mk_q 2 [waiting_item 16 150 2 None; waiting_item 17 100 1 (Some 3%nat)] None true.

(** The first is sent twice and its callback runs; the second, with one resend
    asked for, is sent only once. *)
Lemma queue_drains_witness : exists c' w',
  timer_rounds 12 (demo_full, mk_gq (fun _ => true) (fun _ => true) (fun _ => OPRT_OK) 0 true []) = Some (tt, (c', w'))
  /\ bus w' = [GqPost 3 OPRT_TIMEOUT; GqTimeout 7 (mk_cmd_data 0 17 []); GqSend true [85; 170; 0; 17; 0; 0; 16];
               GqTimeout 7 (mk_cmd_data 0 16 []);
               GqSend true [85; 170; 0; 16; 0; 0; 15]; GqSend true [85; 170; 0; 16; 0; 0; 15]]
  /\ queue_cnt c' = 0 /\ gq_running w' = false.
Proof.
  apply (queue_drains demo_full demo_pending (mk_gq (fun _ => true) (fun _ => true) (fun _ => OPRT_OK) 0 true [])).
  - split; try reflexivity; try (cbn; lia). intros [|[|[|j]]] i; cbn; intros H; by simplify_eq.
  - reflexivity.
  - repeat (apply List.Forall_cons; [repeat split; try (by eexists); vm_compute; congruence|]). apply List.Forall_nil.
  - split; reflexivity.
Defined.

(** Clearing a queue with an empty slot follows a NULL pointer. *)
Example clear_undefined : gfw_core_cmd_queue_clear (demo_queue, demo_gq) = None.
Proof. reflexivity. Qed.
